(* ===== verification/_CoqProject ===== *)
-Q . S2P
Prelude.v
Ports.v
Kernel.v
Queue.v
QueueFacts.v
Sched.v
Fair.v
Semaphore.v
Clock.v
Message.v
Memory.v
Boot.v
Frame.v
Thread.v
System.v
Monitor.v
Mailbox.v
BufPool.v
Bytes.v
Format.v
Scan.v
Stdio.v
Sort.v
Ulaw.v
Device.v
Rely.v
Loopback.v
DevTab.v
Tty.v
Chksum.v
Netaddr.v
Tcb.v
Net.v
Wire.v
Snoop.v
Route.v
Arp.v
Ipv4.v
Udp.v
Raw.v
TcpTimer.v
Agenda.v
Tcp.v
TcpRecv.v
TcpDev.v
TcpRing.v
TcpSafe.v
Netif.v
Dhcp.v
DhcpReply.v
Tftp.v
Dotted.v
Examples.v
LibExamples.v
DevExamples.v
NetExamples.v
TcpExamples.v
