(* ===== verification/Prelude.v ===== *)
(** * Embedded Xinu

    A model of the kernel, the C library, the devices that need no hardware and the
    network stack of Embedded Xinu, as configured for the Raspberry Pi
    (compile/platforms/arm-rpi), with proofs of what they do.  Sources are named relative
    to src/.

    ** How the code is modelled

    A C routine is a [prog S A] (this file): a function from the globals [S] to an
    outcome, which is a value with the new globals, a context switch with the rest
    of the routine as a continuation, a fault, an exhausted loop or a stopped machine.
    C integers are [Z] with the conversions [u8], [u16], [u32] and [i32] written where
    C has them; compile/Makefile compiles with -fwrapv, so signed arithmetic that may
    leave the range of an [int] wraps around, which is written [int].  Statically
    allocated tables are finite maps from index to record, so that an index outside the
    table is a [Fault].

    The kernel:
    - Kernel.v: the globals [kst] of system/initialize.c and the tables of
      include/, and the critical sections of platforms/arm-rpi.
    - Queue.v, QueueFacts.v: the linked queue table (queue.c, getitem.c, insert.c,
      insertd.c, queinit.c).  [qrep] says that the links stand for a list.
    - Sched.v: resched.c, ready.c, resume.c, suspend.c, yield.c, chprio.c.  [kinv]
      is the invariant of the tables: the queue of each thread is the one its state
      says, ready threads are in order of priority, sleepers in a delta list,
      waiting threads in the queue of their semaphore, whose count is the permits
      left or minus the number of waiters.  [safe] says that a routine keeps it,
      across context switches too.  Fair.v: threads of one priority take turns.
    - Semaphore.v: semcreate.c, semfree.c, semcount.c, wait.c, signal.c,
      signaln.c, refined to a count and a list of waiters ([a_wait], [a_signal]).
    - Clock.v: sleep.c, unsleep.c, wakeup.c, clkhandler.c and the timer; the delta
      list is read as absolute wake-up times ([abstimes]).
    - Message.v: send.c, receive.c, recvclr.c, recvtime.c.
    - Memory.v: memget.c, memfree.c, stkget.c, lib/libxc/malloc.c and free.c; the
      free list in memory is refined to a sorted list of blocks ([minv], [getm],
      [putm]).
    - Boot.v: the part of sysinit that sets up the tables; Frame.v: which routines
      leave the heap alone; Thread.v: create.c, setupStack.c, kill.c, for builds with
      the VFP unit (34 words more in a context, the default) and without; System.v: the
      system calls together, as a transition system whose steps are calls, interrupts
      and resumptions of suspended threads.  [KernelCall] is the interface each call
      implements.  The calls are those of the scheduler, of semaphores, sleeping,
      messages and memory, and create.  kill and userret are not among them, because a
      thread killed in [recvtime] stays in the sleep queue, which breaks the invariant;
      nor are unsleep, monitors, mailboxes and buffer pools.  Interrupts come
      between calls; those inside a call, outside of its critical sections, are left out.
    - Monitor.v, Mailbox.v, BufPool.v: locks, bounded message queues and buffer
      pools on top of semaphores and the heap.

    The library:
    - Bytes.v: byte memory and the string routines of lib/libxc; Format.v:
      doprnt.c; Scan.v: doscan.c, ctype, sscanf.c, atol.c; Stdio.v: sprintf.c and
      the device output routines; Sort.v: qsort.c; Ulaw.v: lib/libdsp.

    Devices:
    - Device.v: a driver's state [dst D] is the kernel, the byte memory and the
      driver's own tables, and its routines are [dprog]s; [kcall] and [ucall] run a
      routine of the kernel or of the byte library in it.  [permits] is what a driver
      knows of a semaphore.  Rely.v: what holds of a routine while other threads run at
      its context switches ([wp], [steady]).
    - DevTab.v: the device table and the calls that go through it; Loopback.v,
      Tty.v: device/loopback and device/tty.

    The network:
    - Net.v: all tables of the stack as one record [net]; the bytes of packets are in the
      byte memory.  Chksum.v: netChksum.c; Netaddr.v: addresses; Wire.v: what routines
      that build headers share, and the interface [Wire] of the device below.
    - Snoop.v: network/snoop; Route.v: network/route; Arp.v: network/arp and netSend.c;
      Ipv4.v: network/ipv4 and network/icmp; Udp.v: device/udp; Raw.v: device/raw; Ports.v:
      the search for a free port, which UDP and TCP share; Netif.v: netRecv.c, ipv4Recv.c
      and the interfaces; Dotted.v: addresses as text.
    - TCP: Tcb.v has the control blocks and events; TcpTimer.v the delta list of the
      timer; Tcp.v sending, TcpRecv.v receiving, TcpDev.v the devices and the timer
      thread (all of device/tcp).  Agenda.v refines the delta list to a list of events with
      the times that remain; TcpRing.v refines the rings to lists of octets; TcpSafe.v has
      the states of a connection.
    - Dhcp.v: network/dhcpc, with the transfer data of the client as a part of the state of
      its own; DhcpReply.v: replies.  Tftp.v: network/tftp.

    Examples.v, LibExamples.v, DevExamples.v, NetExamples.v and TcpExamples.v have the
    theorems at concrete states, which show that their hypotheses can hold.

    ** What the theorems show

    - Kernel: from start-up on, every interleaving of calls, interrupts and
      switches keeps the invariants of the scheduler, the semaphores, the clock and
      the allocator, and never faults or loops ([System.kernel_invariant]);
      scheduling picks the first of the candidates in the order of their keys, which are
      the priorities unless one was changed since, and is fair within one; semaphores,
      mailboxes and the free list refine their abstract counterparts; sleepers wake at
      their tick; allocation and freeing, and taking and giving back buffers, undo each
      other.
    - Library: string routines against their mathematical meaning; printf's counts
      (when the arguments fit the [demand] of the format, and only then), error path and
      decimal output; sprintf then atoi gives back the number; qsort
      sorts and permutes for every consistent comparison.
    - Devices: the loopback device is a queue of bytes; a terminal hands out the lines of a
      reference editor.
    - Network: routes are found by the longest mask, sockets by the best match, addresses
      in the ARP table, whose expired entries are swept; a packet that is sent arrives on the wire as one frame with its
      headers and data; datagrams of a socket are a queue; the checksum detects a wrong
      byte; the capture filter reads no byte outside of a frame; sending about a packet
      that is too long ends.
    - TCP: the timer is an agenda; what is written to a connection is what its segments
      carry, and what arrives in order is what is read; a segment takes a connection to the
      successors of its state only; sequence numbers are compared as
      they should, and added and subtracted so but in the cases named; a local port is always found.
    - Clients: what the DHCP client makes of a frame is what a reference makes of its octets
      as a list; a TFTP transfer that returns OK has handed over what a reference
      [collect]s from the packets the client was told of, block by block.  The theorem
      takes the packet buffer as the client finds it at the end of a wait; that it is the
      packet of the length told is up to the receive thread, and fails when that thread is
      ahead of the client.
    - Several theorems state behaviour that is probably not intended (requests that
      wrap around, interrupts left masked by [lock] and arpLookup, timer events that stay
      linked after a purge, differences of sequence numbers across the middle of their
      range, sleepers a tick late, words cleared above a new stack).

    ** Fuel

    Loops along a linked structure take a bound that their structure justifies:
    [QFUEL] is the size of the queue table, [mem_fuel] the number of words of the
    heap, [bfuel] the number of mapped addresses, [EVT_FUEL] more than the number of timer
    events, [PORT_FUEL] and [TCP_PORT_FUEL] more than the rounds that a table of sockets can
    make the search for a port go back, [FRAG_DEPTH] the depth at which a message about a
    message would be sent.  The theorems that a routine returns prove that these are
    enough.  The loops of tcpRead, tcpWrite, of the timer thread and of the DHCP and TFTP
    clients wait for other threads, for packets or for time to pass and have no bound of
    their own; the argument [rounds] is how many of their rounds are followed, and their
    exhaustion is the outcome [Diverge], not a result.

    ** Not modelled

    Device registers and drivers behind the device table (USB, ethernet, UART,
    framebuffer, GPIO), the assembly of start-up and context switch (a switch is an
    outcome), network emulation, whose stages are stubs, the telnet, HTTP and RTP devices,
    the printing of tables (tcpStat and the like), the shell commands, tests and
    applications, and code for other platforms.
*)
From Stdlib Require Import ZArith Lia.
From stdpp Require Import sorting gmap sets fin_maps list.
#[global] Open Scope Z_scope.
#[export] Set Warnings "-clear-no-such-hyp".

(** [lia] knows division and remainder by constants. *)
Ltac Zify.zify_post_hook ::= Z.div_mod_to_equations.

(** ** Machine integers

    [u32], [u16] and [u8] are the value of an integer after conversion to the
    unsigned C type of that width; [i32] is the conversion to [int]. *)

Definition u32 (x : Z) : Z := x mod 2 ^ 32.
Definition u16 (x : Z) : Z := x mod 2 ^ 16.
Definition u8 (x : Z) : Z := x mod 2 ^ 8.
Definition i32 (x : Z) : Z := (x + 2 ^ 31) mod 2 ^ 32 - 2 ^ 31.

Definition INT_MIN : Z := -2147483648.
Definition INT_MAX : Z := 2147483647.
Definition UINT_MAX : Z := 2 ^ 32 - 1.

Create HintDb xinu.
Create Rewrite HintDb xinu.
Create Rewrite HintDb prun.

Lemma u32_small x : 0 <= x < 2 ^ 32 -> u32 x = x.
Proof. apply Z.mod_small. Qed.

Lemma u32_bound x : 0 <= u32 x < 2 ^ 32.
Proof. apply Z.mod_pos_bound. lia. Qed.

Lemma u16_small x : 0 <= x < 2 ^ 16 -> u16 x = x.
Proof. apply Z.mod_small. Qed.

Lemma u16_bound x : 0 <= u16 x < 2 ^ 16.
Proof. apply Z.mod_pos_bound. lia. Qed.

Lemma u8_small x : 0 <= x < 2 ^ 8 -> u8 x = x.
Proof. apply Z.mod_small. Qed.

Lemma u8_bound x : 0 <= u8 x < 2 ^ 8.
Proof. apply Z.mod_pos_bound. lia. Qed.

Lemma i32_small x : - 2 ^ 31 <= x < 2 ^ 31 -> i32 x = x.
Proof. intros H. unfold i32. rewrite Z.mod_small; lia. Qed.

Lemma i32_bound x : - 2 ^ 31 <= i32 x < 2 ^ 31.
Proof.
  unfold i32. pose proof (Z.mod_pos_bound (x + 2 ^ 31) (2 ^ 32)). lia.
Qed.

Lemma u32_i32 x : u32 (i32 x) = u32 x.
Proof.
  unfold u32, i32. rewrite Zminus_mod_idemp_l. f_equal. lia.
Qed.

Lemma i32_u32 x : i32 (u32 x) = i32 x.
Proof. unfold u32, i32. by rewrite Zplus_mod_idemp_l. Qed.

Lemma i32_add_l x y : i32 (i32 x + y) = i32 (x + y).
Proof. rewrite <- (i32_u32 (i32 x + y)), <- (i32_u32 (x + y)). f_equal. unfold u32. rewrite Zplus_mod. fold (u32 (i32 x)). rewrite u32_i32. unfold u32. by rewrite <- Zplus_mod. Qed.

Lemma i32_sub a b : i32 (i32 a - i32 b) = i32 (a - b).
Proof.
  replace (i32 a - i32 b) with (i32 a + - i32 b) by lia. rewrite i32_add_l.
  rewrite <- (i32_u32 (a + _)), <- (i32_u32 (a - b)). f_equal. change (a + - i32 b) with (a - i32 b).
  unfold u32. rewrite Zminus_mod. fold (u32 (i32 b)). rewrite u32_i32. unfold u32. by rewrite <- Zminus_mod.
Qed.

#[export] Hint Resolve u32_bound u16_bound u8_bound i32_bound : xinu.
#[export] Hint Rewrite u32_small u16_small u8_small i32_small using lia : xinu.

(** ** Programs over a shared state

    A C routine that reads and writes the globals of type [S] is a [prog S A].
    Running it gives an [outcome]:
    - [Done a s]: the routine returned [a], the globals are now [s];
    - [Switch s k]: the routine called the context switch; [s] are the globals
      at that moment and [k] is the rest of the routine, which runs when the
      thread that executes it is switched back in;
    - [Fault]: an array was indexed outside its bounds, or memory that is not
      mapped was accessed;
    - [Diverge]: a loop used up the iterations it was given;
    - [Halted s]: the routine stopped the machine. *)

Inductive prog (S A : Type) : Type :=
  | Prog (r : S -> outcome S A)
with outcome (S A : Type) : Type :=
  | Done (a : A) (s : S)
  | Switch (s : S) (k : prog S A)
  | Fault
  | Diverge
  | Halted (s : S).

Arguments Prog {S A} r.
Arguments Done {S A} a s.
Arguments Switch {S A} s k.
Arguments Fault {S A}.
Arguments Diverge {S A}.
Arguments Halted {S A} s.

Definition run {S A} (m : prog S A) : S -> outcome S A :=
  match m with Prog r => r end.

Fixpoint pbind {S A B} (f : A -> prog S B) (m : prog S A) {struct m} : prog S B :=
  match m with Prog r => Prog (fun s => obind f (r s)) end
with obind {S A B} (f : A -> prog S B) (o : outcome S A) {struct o} : outcome S B :=
  match o with
  | Done a s => run (f a) s
  | Switch s k => Switch s (pbind f k)
  | Fault => Fault
  | Diverge => Diverge
  | Halted s => Halted s
  end.

#[global] Instance prog_ret S : MRet (prog S) := fun A a => Prog (fun s => Done a s).
#[global] Instance prog_bind S : MBind (prog S) := fun A B f m => pbind f m.

Section Prog.
Context {S : Type}.

Definition gets {A} (f : S -> A) : prog S A := Prog (fun s => Done (f s) s).
Definition modify (f : S -> S) : prog S unit := Prog (fun s => Done tt (f s)).
Definition fault {A} : prog S A := Prog (fun _ => Fault).
Definition diverge {A} : prog S A := Prog (fun _ => Diverge).
Definition halted {A} : prog S A := Prog (fun s => Halted s).
(** The value of a signed [int] expression: two's complement, as -fwrapv makes it. *)
Definition int (x : Z) : prog S Z := mret (i32 x).
(** The call to the context switch: the caller is suspended here. *)
Definition switch : prog S unit := Prog (fun s => Switch s (mret tt)).

(** A C array is a finite map from its valid indices; reading or writing
    anywhere else faults. *)
Definition load {V} (tab : S -> gmap Z V) (i : Z) : prog S V :=
  Prog (fun s => match tab s !! i with Some v => Done v s | None => Fault end).

Definition store {V} (tab : S -> gmap Z V) (put : gmap Z V -> S -> S)
    (i : Z) (v : V) : prog S unit :=
  Prog (fun s => match tab s !! i with
                 | Some _ => Done tt (put (<[i := v]> (tab s)) s)
                 | None => Fault
                 end).

(** An assignment to a field of an array element: [tab[i].field = ...]. *)
Definition amend {V} (tab : S -> gmap Z V) (put : gmap Z V -> S -> S)
    (i : Z) (f : V -> V) : prog S unit :=
  Prog (fun s => match tab s !! i with
                 | Some v => Done tt (put (<[i := f v]> (tab s)) s)
                 | None => Fault
                 end).

(** [while (cond) body], at most [fuel] evaluations of the condition. *)
Fixpoint while_ {A} (fuel : nat) (cond : A -> prog S bool) (body : A -> prog S A)
    (a : A) : prog S A :=
  match fuel with
  | O => diverge
  | Datatypes.S n =>
      b ← cond a;
      if (b : bool) then a' ← body a; while_ n cond body a' else mret a
  end.

(** [for (i = i0; i < i0 + n; i++)] whose body may leave the loop with a
    value ([inr]). *)
Fixpoint for_ {A R} (n : nat) (i : Z) (body : Z -> A -> prog S (A + R)) (a : A)
    : prog S (A + R) :=
  match n with
  | O => mret (inl a)
  | Datatypes.S n' =>
      r ← body i a;
      match r with
      | inl a' => for_ n' (i + 1) body a'
      | inr v => mret (inr v)
      end
  end.

Lemma run_bind {A B} (m : prog S A) (f : A -> prog S B) s :
  run (m ≫= f) s = obind f (run m s).
Proof. by destruct m. Qed.

Lemma run_ret {A} (a : A) s : run (mret a : prog S A) s = Done a s.
Proof. done. Qed.

Lemma run_gets {A} (f : S -> A) s : run (gets f) s = Done (f s) s.
Proof. done. Qed.

Lemma run_modify f s : run (modify f) s = Done tt (f s).
Proof. done. Qed.

Lemma run_switch s : run switch s = Switch s (mret tt).
Proof. done. Qed.

Lemma run_load {V} (tab : S -> gmap Z V) i v s :
  tab s !! i = Some v -> run (load tab i) s = Done v s.
Proof. intros H. cbn. by rewrite H. Qed.

Lemma run_store {V} (tab : S -> gmap Z V) put i v v0 s :
  tab s !! i = Some v0 ->
  run (store tab put i v) s = Done tt (put (<[i := v]> (tab s)) s).
Proof. intros H. cbn. by rewrite H. Qed.

Lemma run_amend {V} (tab : S -> gmap Z V) put i f v s :
  tab s !! i = Some v ->
  run (amend tab put i f) s = Done tt (put (<[i := f v]> (tab s)) s).
Proof. intros H. cbn. by rewrite H. Qed.

Lemma run_bind_done {A B} (m : prog S A) (f : A -> prog S B) s a s' :
  run m s = Done a s' -> run (m ≫= f) s = run (f a) s'.
Proof. intros H. by rewrite run_bind, H. Qed.

Lemma run_while_S {A} n (cond : A -> prog S bool) (body : A -> prog S A) a s :
  run (while_ (Datatypes.S n) cond body a) s =
  obind (fun b : bool => if b then body a ≫= while_ n cond body else mret a) (run (cond a) s).
Proof. cbn [while_]. by rewrite run_bind. Qed.

Lemma run_int_wrap x s : run (int x) s = Done (i32 x) s.
Proof. done. Qed.

Lemma run_int x s : INT_MIN <= x <= INT_MAX -> run (int x) s = Done x s.
Proof. intros H. by rewrite run_int_wrap, i32_small by (unfold INT_MIN, INT_MAX in H; lia). Qed.
End Prog.

Arguments run : simpl never.
#[export] Hint Rewrite @run_bind @run_ret @run_gets @run_modify @run_switch : prun.

(** ** Programs that agree

    [post m s P]: [m] run from [s] does not switch, and if it returns, [P] holds.  Two
    programs that start with [m] agree when their continuations do wherever [P] holds. *)

Section Post.
Context {S : Type}.

Definition post {A} (m : prog S A) (s : S) (P : A -> S -> Prop) : Prop :=
  match run m s with Done a s' => P a s' | Switch _ _ => False | _ => True end.

Lemma post_bind {A B} (m : prog S A) (f : A -> prog S B) s P :
  post m s (fun a s' => post (f a) s' P) -> post (m ≫= f) s P.
Proof. unfold post. rewrite run_bind. by destruct (run m s). Qed.

Lemma post_ret {A} (a : A) s (P : A -> S -> Prop) : P a s -> post (mret a) s P.
Proof. done. Qed.

Lemma post_mono {A} (m : prog S A) s (P Q : A -> S -> Prop) : post m s P -> (forall a s', P a s' -> Q a s') -> post m s Q.
Proof. unfold post. intros H HPQ. destruct (run m s); [by apply HPQ | done ..]. Qed.

Lemma post_load {V} (tab : S -> gmap Z V) i s (P : V -> S -> Prop) :
  (forall v, tab s !! i = Some v -> P v s) -> post (load tab i) s P.
Proof. intros H. unfold post, run, load. destruct (tab s !! i) eqn:E; [by apply H | done]. Qed.

Lemma post_amend {V} (tab : S -> gmap Z V) put i f s (P : unit -> S -> Prop) :
  (forall v, tab s !! i = Some v -> P tt (put (<[i := f v]> (tab s)) s)) -> post (amend tab put i f) s P.
Proof. intros H. unfold post, run, amend. destruct (tab s !! i) eqn:E; [by apply H | done]. Qed.

Lemma post_for {A R} (body : Z -> A -> prog S (A + R)) s : (forall i a, post (body i a) s (fun _ s' => s' = s)) ->
  forall n i a, post (for_ n i body a) s (fun _ s' => s' = s).
Proof.
  intros Hb n. induction n as [|n IH]; intros i a; [done |]. cbn [for_]. apply post_bind.
  eapply post_mono; [apply Hb |]. intros [a' | v] s' ->; [apply IH | done].
Qed.

Lemma post_while {A} (cond : A -> prog S bool) (body : A -> prog S A) s :
  (forall a, post (cond a) s (fun _ s' => s' = s)) -> (forall a, post (body a) s (fun _ s' => s' = s)) ->
  forall n a, post (while_ n cond body a) s (fun _ s' => s' = s).
Proof.
  intros Hc Hb n. induction n as [|n IH]; intros a; [done |]. cbn [while_]. apply post_bind.
  eapply post_mono; [apply Hc |]. intros [|] s' ->; [| done]. apply post_bind.
  eapply post_mono; [apply Hb |]. intros a' s' ->. apply IH.
Qed.

Lemma run_bind_ext {A B} (m : prog S A) (f g : A -> prog S B) s P :
  post m s P -> (forall a s', P a s' -> run (f a) s' = run (g a) s') -> run (m ≫= f) s = run (m ≫= g) s.
Proof. intros H E. unfold post in H. rewrite !run_bind. destruct (run m s); try done. by apply E. Qed.
End Post.

(** ** Loops

    A [for_] loop whose state [g j] and accumulator [f j] are known before each
    round [j]: it runs to its end, or leaves in round [k]. *)

Lemma for_through {T A R} (body : Z -> A -> prog T (A + R)) n : forall i (f : nat -> A) (g : nat -> T),
  (forall j, (j < n)%nat -> run (body (i + Z.of_nat j) (f j)) (g j) = Done (inl (f (S j))) (g (S j))) ->
  run (for_ n i body (f 0%nat)) (g 0%nat) = Done (inl (f n)) (g n).
Proof.
  induction n as [|n IH]; intros i f g H; [done |]. cbn [for_].
  pose proof (H 0%nat ltac:(lia)) as H0. replace (i + Z.of_nat 0) with i in H0 by lia.
  rewrite run_bind, H0. cbn [obind].
  apply (IH (i + 1) (fun j => f (S j)) (fun j => g (S j))). intros j Hj.
  replace (i + 1 + Z.of_nat j) with (i + Z.of_nat (S j)) by lia. apply H. lia.
Qed.

Lemma for_exit {T A R} (body : Z -> A -> prog T (A + R)) v s' k : forall n i (f : nat -> A) (g : nat -> T),
  (k < n)%nat ->
  (forall j, (j < k)%nat -> run (body (i + Z.of_nat j) (f j)) (g j) = Done (inl (f (S j))) (g (S j))) ->
  run (body (i + Z.of_nat k) (f k)) (g k) = Done (inr v) s' ->
  run (for_ n i body (f 0%nat)) (g 0%nat) = Done (inr v) s'.
Proof.
  induction k as [|k IH]; intros n i f g Hk H Hv; (destruct n as [|n]; [lia |]); cbn [for_]; rewrite run_bind.
  - replace (i + Z.of_nat 0) with i in Hv by lia. by rewrite Hv.
  - pose proof (H 0%nat ltac:(lia)) as H0. replace (i + Z.of_nat 0) with i in H0 by lia.
    rewrite H0. cbn [obind]. apply (IH n (i + 1) (fun j => f (S j)) (fun j => g (S j))); [lia | |].
    + intros j Hj. replace (i + 1 + Z.of_nat j) with (i + Z.of_nat (S j)) by lia. apply H. lia.
    + by replace (i + 1 + Z.of_nat k) with (i + Z.of_nat (S k)) by lia.
Qed.

(** Rounds that change nothing can be skipped. *)
Lemma for_skip {T R} (body : Z -> unit -> prog T (unit + R)) (s : T) k : forall n i,
  (forall j, (j < k)%nat -> run (body (i + Z.of_nat j) tt) s = Done (inl tt) s) ->
  run (for_ (k + n) i body tt) s = run (for_ n (i + Z.of_nat k) body tt) s.
Proof.
  induction k as [|k IH]; intros n i H; [by rewrite Z.add_0_r |]. cbn [for_ Nat.add]. rewrite run_bind.
  pose proof (H 0%nat ltac:(lia)) as H0. rewrite Z.add_0_r in H0. rewrite H0. cbn [obind].
  rewrite IH; [f_equal; f_equal; lia |].
  intros j Hj. replace (i + 1 + Z.of_nat j) with (i + Z.of_nat (S j)) by lia. apply H. lia.
Qed.

(** The two cases for a loop that only reads. *)
Lemma for_all {T R} (body : Z -> unit -> prog T (unit + R)) n (s : T) :
  (forall j, (j < n)%nat -> run (body (Z.of_nat j) tt) s = Done (inl tt) s) ->
  run (for_ n 0 body tt) s = Done (inl tt) s.
Proof. intros H. apply (for_through body n 0 (fun _ => tt) (fun _ => s)). intros j Hj. by apply H. Qed.

Lemma for_find {T R} (body : Z -> unit -> prog T (unit + R)) n k v (s : T) :
  (k < n)%nat -> (forall j, (j < k)%nat -> run (body (Z.of_nat j) tt) s = Done (inl tt) s) ->
  run (body (Z.of_nat k) tt) s = Done (inr v) s ->
  run (for_ n 0 body tt) s = Done (inr v) s.
Proof. intros Hk H Hv. by apply (for_exit body v s k n 0 (fun _ => tt) (fun _ => s)). Qed.

(** ** Rings *)

(** Two places of a ring are different. *)
Lemma ring_ne cap a i j : 0 < cap -> 0 <= i < cap -> 0 <= j < cap -> i <> j -> (a + i) mod cap <> (a + j) mod cap.
Proof.
  intros Hc Hi Hj Hne E. apply Hne. pose proof (Z.div_mod (a + i) cap ltac:(lia)). pose proof (Z.div_mod (a + j) cap ltac:(lia)).
  assert ((a + i) / cap = (a + j) / cap) by nia. lia.
Qed.

(** ** Lists and tables *)

Lemma elem_of_mid {A} (l1 l2 : list A) x : x ∈ l1 ++ x :: l2.
Proof. apply elem_of_app. right. apply elem_of_cons. by left. Qed.

#[export] Hint Resolve elem_of_mid : xinu.

(** Overwriting an entry that is there keeps the set of valid indices. *)
Lemma insert_same_dom {V} (m : gmap Z V) a v v0 i :
  m !! a = Some v0 -> is_Some (<[a := v]> m !! i) <-> is_Some (m !! i).
Proof.
  intros H. rewrite lookup_insert_is_Some. destruct (decide (a = i)) as [<- |]; [| naive_solver].
  rewrite H. naive_solver.
Qed.
