(* ===== verification/Ports.v ===== *)
(** The search for a local port, which UDP and TCP share: a loop over the table of the
    sockets that goes on to the next port when the port of an entry is the one tried, and
    then starts again with the second entry. *)
From Stdlib Require Import ZArith Lia.
From stdpp Require Import sorting gmap functions list.
From S2P Require Import Prelude.

Section Ports.
Context {S E : Type} (us : list E) (N : Z) (taken : E -> Z -> bool) (blocked : list Z).
Context (ok : S -> Prop) (next : S -> Z) (put : Z -> S -> S) (body : Z -> prog S Z).

(** The port is one of [N], of which the table blocks some; a round tries the port for
    one entry. *)
Hypothesis HN : Z.of_nat (length blocked) < N.
Hypothesis Hblocked : forall i u p, us !! i = Some u -> taken u p = true -> p ∈ blocked.
Hypothesis Hok : forall p s, ok s -> ok (put p s).
Hypothesis Hnext : forall p s, next (put p s) = p.
Hypothesis Hput : forall p q s, put p (put q s) = put p s.
Hypothesis Hself : forall s, put (next s) s = s.
Hypothesis Hbody : forall i u s, us !! i = Some u -> ok s ->
  run (body (Z.of_nat i)) s = if taken u (next s) then Done 1 (put ((next s + 1) mod N) s) else Done (Z.of_nat i + 1) s.
Hypothesis Hus : us <> [].

(** Ports in a row are different, so not all of them are blocked. *)
Lemma blocked_run p0 v : 0 <= p0 < N -> (v <= Datatypes.S (length blocked))%nat ->
  (forall j, (j < v)%nat -> (p0 + Z.of_nat j) mod N ∈ blocked) -> (v <= length blocked)%nat.
Proof.
  intros Hp Hv Hb. set (V := (fun j => (p0 + Z.of_nat j) mod N) <$> seq 0 v).
  assert (Hnd : NoDup V).
  { apply NoDup_fmap_2_strong; [| apply NoDup_seq]. intros i j Hi Hj Eij. apply elem_of_seq in Hi, Hj.
    destruct (decide (i = j)) as [| Hne]; [done |].
    exfalso. apply (ring_ne N p0 (Z.of_nat i) (Z.of_nat j)); lia. }
  assert (Hsub : V ⊆+ blocked).
  { apply NoDup_submseteq; [done |]. intros x Hx. unfold V in Hx. apply list_elem_of_fmap in Hx as (j & -> & Hj).
    apply elem_of_seq in Hj. apply Hb. lia. }
  apply submseteq_length in Hsub. unfold V in Hsub. by rewrite length_fmap, length_seq in Hsub.
Qed.

Definition free_from (lo i : nat) (p : Z) : Prop := forall j u, (lo <= j < i)%nat -> us !! j = Some u -> taken u p = false.

Lemma run_port_loop p0 : 0 <= p0 < N -> forall fuel v i s,
  ((length blocked - v) * length us + (length us - i) + 1 <= fuel)%nat -> (v <= length blocked)%nat -> (i <= length us)%nat -> ok s ->
  next s = (p0 + Z.of_nat v) mod N ->
  (forall j, (j < v)%nat -> (p0 + Z.of_nat j) mod N ∈ blocked) ->
  free_from (min v 1) i ((p0 + Z.of_nat v) mod N) ->
  exists v', run (while_ fuel (fun i => mret (i <? Z.of_nat (length us))) body (Z.of_nat i)) s =
      Done (Z.of_nat (length us)) (put ((p0 + Z.of_nat v') mod N) s) /\ free_from (min v' 1) (length us) ((p0 + Z.of_nat v') mod N) /\
    (v' <= length blocked)%nat.
Proof.
  intros Hp0. induction fuel as [|fuel IH]; intros v i s Hf Hv Hi Hs Hp Hb Hfree; [lia |].
  rewrite run_while_S, run_ret. cbn [obind]. destruct (Z.ltb_spec (Z.of_nat i) (Z.of_nat (length us))) as [Hlt | Hge].
  2: { assert (i = length us) as -> by lia. exists v. rewrite run_ret, <- Hp, Hself, Hp. done. }
  destruct (lookup_lt_is_Some_2 us i ltac:(lia)) as [u Hu]. rewrite run_bind, (Hbody i u s Hu Hs), Hp. destruct (taken u _) eqn:Et; cbn [obind].
  - assert (Hb' : forall j, (j < Datatypes.S v)%nat -> (p0 + Z.of_nat j) mod N ∈ blocked).
    { intros j Hj. destruct (decide (j = v)) as [-> | Hne]; [by eapply Hblocked | apply Hb; lia]. }
    pose proof (blocked_run p0 (Datatypes.S v) Hp0 ltac:(lia) Hb') as Hv'.
    assert (Hlen : (1 <= length us)%nat) by (destruct us; [done | cbn; lia]).
    replace (((p0 + Z.of_nat v) mod N + 1) mod N) with ((p0 + Z.of_nat (Datatypes.S v)) mod N)
      by (rewrite Zplus_mod_idemp_l; f_equal; lia).
    change 1 with (Z.of_nat 1).
    destruct (IH (Datatypes.S v) 1%nat (put ((p0 + Z.of_nat (Datatypes.S v)) mod N) s)) as (v' & E1 & Hr & Hv5); auto; try nia.
    { intros j u' Hj. lia. }
    exists v'. by rewrite E1, Hput.
  - replace (Z.of_nat i + 1) with (Z.of_nat (Datatypes.S i)) by lia. apply (IH v); try done; try lia.
    intros j u' Hj Hu'. destruct (decide (j = i)) as [-> | Hne]; [congruence | apply (Hfree j); [lia | done]].
Qed.

(** With enough rounds a port is found that no entry but the first has; the first has it
    only when it is not the port that was tried first. *)
Lemma port_found fuel s : ((length blocked + 1) * length us + 1 <= fuel)%nat -> ok s -> 0 <= next s < N ->
  exists q, run (while_ fuel (fun i => mret (i <? Z.of_nat (length us))) body 0) s = Done (Z.of_nat (length us)) (put q s) /\ 0 <= q < N /\
    (forall j u, (1 <= j)%nat -> us !! j = Some u -> taken u q = false) /\
    (q = next s -> forall u, us !! 0%nat = Some u -> taken u q = false).
Proof.
  intros Hf Hs Hn. assert (E0 : (next s + Z.of_nat 0) mod N = next s) by (rewrite Z.add_0_r; by apply Z.mod_small).
  destruct (run_port_loop (next s) Hn fuel 0 0 s) as (v & Er & Hfree & Hv); try done; try lia.
  { intros j u Hj. lia. }
  exists ((next s + Z.of_nat v) mod N). split; [exact Er |]. split; [by apply Z.mod_pos_bound; lia |]. split.
  - intros j u Hj Hu. apply (Hfree j); [| done]. apply lookup_lt_Some in Hu. lia.
  - intros Hq u Hu. pose proof (lookup_lt_Some _ _ _ Hu) as Hl. destruct v as [|v]; [by apply (Hfree 0%nat u) |].
    exfalso. apply (ring_ne N (next s) 0 (Z.of_nat (Datatypes.S v))); lia.
Qed.
End Ports.
