(* ===== verification/Kernel.v ===== *)
(** The globals of the kernel: the thread, queue, semaphore, monitor, buffer-pool
    and mailbox tables, the free-memory list and the interrupt state, with the
    constants of the arm-rpi configuration (include/conf.h) and the critical
    sections every kernel routine brackets its work with. *)
From Stdlib Require Import ZArith Lia.
From stdpp Require Import gmap list.
From S2P Require Import Prelude.

(** ** Constants: include/xinu.h, include/stddef.h, include/conf.h, include/queue.h *)

Definition OK : Z := 1.
Definition SYSERR : Z := -1.
Definition EOF : Z := -2.
Definition TIMEOUT : Z := -3.
Definition NOMSG : Z := -4.
Definition NULL : Z := 0.

Definition NTHREAD : Z := 100.
Definition NSEM : Z := 100.
Definition NMAILBOX : Z := 15.
Definition NPOOL : Z := 8.
Definition POOL_MAX_BUFSIZE : Z := 2048.
Definition POOL_MIN_BUFSIZE : Z := 8.
Definition POOL_MAX_NBUFS : Z := 8192.
Definition CONSOLE : Z := 6.
Definition SERIAL0 : Z := 0.

Definition NQENT : Z := NTHREAD + 4 + NSEM + NSEM.
Definition EMPTY : Z := -2.
Definition MAXKEY : Z := 2147483647.
(** [0x80000000] stored in an [int]. *)
Definition MINKEY : Z := i32 2147483648.

Definition NULLTHREAD : Z := 0.
Definition BADTID : Z := -1.
Definition NOOWNER : Z := BADTID.
Definition TNMLEN : Z := 16.
Definition MINSTK : Z := 128.
Definition INITSTK : Z := 65536.
Definition INITPRIO : Z := 20.
Definition CLKTICKS_PER_SEC : Z := 1000.
Definition ARM_MODE_SYS : Z := 31.
Definition ARM_I_BIT : Z := 128.
Definition ARM_F_BIT : Z := 64.

(** ** Table entries *)

(** [struct queent], include/queue.h: an entry of the queue table. *)
Record queent := mkQueent {
  q_key : Z;
  q_next : Z;
  q_prev : Z
}.

Definition set_q_key (x : Z) (r : queent) : queent :=
  mkQueent x (q_next r) (q_prev r).
Definition set_q_next (x : Z) (r : queent) : queent :=
  mkQueent (q_key r) x (q_prev r).
Definition set_q_prev (x : Z) (r : queent) : queent :=
  mkQueent (q_key r) (q_next r) x.

(** The [state] enumeration of [struct thrent], include/thread.h. *)
Inductive thrstate :=
  | THRCURR | THRFREE | THRREADY | THRRECV | THRSLEEP | THRSUSP | THRWAIT
  | THRTMOUT | THRMIGRATE.

#[global] Instance thrstate_eq_dec : EqDecision thrstate.
Proof. solve_decision. Defined.

(** [struct thrent], include/thread.h: a thread control block. *)
Record thrent := mkThrent {
  t_state : thrstate;
  t_prio : Z;
  t_stkptr : Z;
  t_stkbase : Z;
  t_stklen : Z;
  t_name : list Z;
  t_intmask : Z;
  t_sem : Z;
  t_parent : Z;
  t_msg : Z;
  t_hasmsg : bool;
  t_coreaffinity : bool;
  t_coreid : Z;
  t_memlist_next : Z;
  t_memlist_length : Z;
  t_fdesc : list Z
}.

Definition set_t_state (x : thrstate) (r : thrent) : thrent :=
  mkThrent x (t_prio r) (t_stkptr r) (t_stkbase r) (t_stklen r) (t_name r) (t_intmask r) (t_sem r) (t_parent r) (t_msg r) (t_hasmsg r) (t_coreaffinity r) (t_coreid r) (t_memlist_next r) (t_memlist_length r) (t_fdesc r).
Definition set_t_prio (x : Z) (r : thrent) : thrent :=
  mkThrent (t_state r) x (t_stkptr r) (t_stkbase r) (t_stklen r) (t_name r) (t_intmask r) (t_sem r) (t_parent r) (t_msg r) (t_hasmsg r) (t_coreaffinity r) (t_coreid r) (t_memlist_next r) (t_memlist_length r) (t_fdesc r).
Definition set_t_stkptr (x : Z) (r : thrent) : thrent :=
  mkThrent (t_state r) (t_prio r) x (t_stkbase r) (t_stklen r) (t_name r) (t_intmask r) (t_sem r) (t_parent r) (t_msg r) (t_hasmsg r) (t_coreaffinity r) (t_coreid r) (t_memlist_next r) (t_memlist_length r) (t_fdesc r).
Definition set_t_stkbase (x : Z) (r : thrent) : thrent :=
  mkThrent (t_state r) (t_prio r) (t_stkptr r) x (t_stklen r) (t_name r) (t_intmask r) (t_sem r) (t_parent r) (t_msg r) (t_hasmsg r) (t_coreaffinity r) (t_coreid r) (t_memlist_next r) (t_memlist_length r) (t_fdesc r).
Definition set_t_stklen (x : Z) (r : thrent) : thrent :=
  mkThrent (t_state r) (t_prio r) (t_stkptr r) (t_stkbase r) x (t_name r) (t_intmask r) (t_sem r) (t_parent r) (t_msg r) (t_hasmsg r) (t_coreaffinity r) (t_coreid r) (t_memlist_next r) (t_memlist_length r) (t_fdesc r).
Definition set_t_name (x : list Z) (r : thrent) : thrent :=
  mkThrent (t_state r) (t_prio r) (t_stkptr r) (t_stkbase r) (t_stklen r) x (t_intmask r) (t_sem r) (t_parent r) (t_msg r) (t_hasmsg r) (t_coreaffinity r) (t_coreid r) (t_memlist_next r) (t_memlist_length r) (t_fdesc r).
Definition set_t_intmask (x : Z) (r : thrent) : thrent :=
  mkThrent (t_state r) (t_prio r) (t_stkptr r) (t_stkbase r) (t_stklen r) (t_name r) x (t_sem r) (t_parent r) (t_msg r) (t_hasmsg r) (t_coreaffinity r) (t_coreid r) (t_memlist_next r) (t_memlist_length r) (t_fdesc r).
Definition set_t_sem (x : Z) (r : thrent) : thrent :=
  mkThrent (t_state r) (t_prio r) (t_stkptr r) (t_stkbase r) (t_stklen r) (t_name r) (t_intmask r) x (t_parent r) (t_msg r) (t_hasmsg r) (t_coreaffinity r) (t_coreid r) (t_memlist_next r) (t_memlist_length r) (t_fdesc r).
Definition set_t_parent (x : Z) (r : thrent) : thrent :=
  mkThrent (t_state r) (t_prio r) (t_stkptr r) (t_stkbase r) (t_stklen r) (t_name r) (t_intmask r) (t_sem r) x (t_msg r) (t_hasmsg r) (t_coreaffinity r) (t_coreid r) (t_memlist_next r) (t_memlist_length r) (t_fdesc r).
Definition set_t_msg (x : Z) (r : thrent) : thrent :=
  mkThrent (t_state r) (t_prio r) (t_stkptr r) (t_stkbase r) (t_stklen r) (t_name r) (t_intmask r) (t_sem r) (t_parent r) x (t_hasmsg r) (t_coreaffinity r) (t_coreid r) (t_memlist_next r) (t_memlist_length r) (t_fdesc r).
Definition set_t_hasmsg (x : bool) (r : thrent) : thrent :=
  mkThrent (t_state r) (t_prio r) (t_stkptr r) (t_stkbase r) (t_stklen r) (t_name r) (t_intmask r) (t_sem r) (t_parent r) (t_msg r) x (t_coreaffinity r) (t_coreid r) (t_memlist_next r) (t_memlist_length r) (t_fdesc r).
Definition set_t_coreaffinity (x : bool) (r : thrent) : thrent :=
  mkThrent (t_state r) (t_prio r) (t_stkptr r) (t_stkbase r) (t_stklen r) (t_name r) (t_intmask r) (t_sem r) (t_parent r) (t_msg r) (t_hasmsg r) x (t_coreid r) (t_memlist_next r) (t_memlist_length r) (t_fdesc r).
Definition set_t_coreid (x : Z) (r : thrent) : thrent :=
  mkThrent (t_state r) (t_prio r) (t_stkptr r) (t_stkbase r) (t_stklen r) (t_name r) (t_intmask r) (t_sem r) (t_parent r) (t_msg r) (t_hasmsg r) (t_coreaffinity r) x (t_memlist_next r) (t_memlist_length r) (t_fdesc r).
Definition set_t_memlist_next (x : Z) (r : thrent) : thrent :=
  mkThrent (t_state r) (t_prio r) (t_stkptr r) (t_stkbase r) (t_stklen r) (t_name r) (t_intmask r) (t_sem r) (t_parent r) (t_msg r) (t_hasmsg r) (t_coreaffinity r) (t_coreid r) x (t_memlist_length r) (t_fdesc r).
Definition set_t_memlist_length (x : Z) (r : thrent) : thrent :=
  mkThrent (t_state r) (t_prio r) (t_stkptr r) (t_stkbase r) (t_stklen r) (t_name r) (t_intmask r) (t_sem r) (t_parent r) (t_msg r) (t_hasmsg r) (t_coreaffinity r) (t_coreid r) (t_memlist_next r) x (t_fdesc r).
Definition set_t_fdesc (x : list Z) (r : thrent) : thrent :=
  mkThrent (t_state r) (t_prio r) (t_stkptr r) (t_stkbase r) (t_stklen r) (t_name r) (t_intmask r) (t_sem r) (t_parent r) (t_msg r) (t_hasmsg r) (t_coreaffinity r) (t_coreid r) (t_memlist_next r) (t_memlist_length r) x.

(** [SFREE] and [SUSED], include/semaphore.h. *)
Inductive semstate := SFREE | SUSED.

#[global] Instance semstate_eq_dec : EqDecision semstate.
Proof. solve_decision. Defined.

(** [struct sement], include/semaphore.h: a semaphore table entry. *)
Record sement := mkSement {
  s_state : semstate;
  s_count : Z;
  s_queue : Z
}.

Definition set_s_state (x : semstate) (r : sement) : sement :=
  mkSement x (s_count r) (s_queue r).
Definition set_s_count (x : Z) (r : sement) : sement :=
  mkSement (s_state r) x (s_queue r).
Definition set_s_queue (x : Z) (r : sement) : sement :=
  mkSement (s_state r) (s_count r) x.

(** [MFREE] and [MUSED], include/monitor.h. *)
Inductive monstate := MFREE | MUSED.

#[global] Instance monstate_eq_dec : EqDecision monstate.
Proof. solve_decision. Defined.

(** [struct monent], include/monitor.h: a monitor table entry. *)
Record monent := mkMonent {
  m_state : monstate;
  m_owner : Z;
  m_count : Z;
  m_sem : Z
}.

Definition set_m_state (x : monstate) (r : monent) : monent :=
  mkMonent x (m_owner r) (m_count r) (m_sem r).
Definition set_m_owner (x : Z) (r : monent) : monent :=
  mkMonent (m_state r) x (m_count r) (m_sem r).
Definition set_m_count (x : Z) (r : monent) : monent :=
  mkMonent (m_state r) (m_owner r) x (m_sem r).
Definition set_m_sem (x : Z) (r : monent) : monent :=
  mkMonent (m_state r) (m_owner r) (m_count r) x.

(** [BFPFREE] and [BFPUSED], include/bufpool.h. *)
Inductive bfpstate := BFPFREE | BFPUSED.

#[global] Instance bfpstate_eq_dec : EqDecision bfpstate.
Proof. solve_decision. Defined.

(** [struct bfpentry], include/bufpool.h: a buffer pool table entry. *)
Record bfpentry := mkBfpentry {
  b_state : bfpstate;
  b_bufsize : Z;
  b_nbuf : Z;
  b_head : Z;
  b_next : Z;
  b_freebuf : Z
}.

Definition set_b_state (x : bfpstate) (r : bfpentry) : bfpentry :=
  mkBfpentry x (b_bufsize r) (b_nbuf r) (b_head r) (b_next r) (b_freebuf r).
Definition set_b_bufsize (x : Z) (r : bfpentry) : bfpentry :=
  mkBfpentry (b_state r) x (b_nbuf r) (b_head r) (b_next r) (b_freebuf r).
Definition set_b_nbuf (x : Z) (r : bfpentry) : bfpentry :=
  mkBfpentry (b_state r) (b_bufsize r) x (b_head r) (b_next r) (b_freebuf r).
Definition set_b_head (x : Z) (r : bfpentry) : bfpentry :=
  mkBfpentry (b_state r) (b_bufsize r) (b_nbuf r) x (b_next r) (b_freebuf r).
Definition set_b_next (x : Z) (r : bfpentry) : bfpentry :=
  mkBfpentry (b_state r) (b_bufsize r) (b_nbuf r) (b_head r) x (b_freebuf r).
Definition set_b_freebuf (x : Z) (r : bfpentry) : bfpentry :=
  mkBfpentry (b_state r) (b_bufsize r) (b_nbuf r) (b_head r) (b_next r) x.

(** [MAILBOX_FREE] and [MAILBOX_ALLOC], include/mailbox.h. *)
Inductive mboxstate := MAILBOX_FREE | MAILBOX_ALLOC.

#[global] Instance mboxstate_eq_dec : EqDecision mboxstate.
Proof. solve_decision. Defined.

(** [struct mbox], include/mailbox.h: a mailbox table entry. *)
Record mbox := mkMbox {
  x_sender : Z;
  x_receiver : Z;
  x_max : Z;
  x_count : Z;
  x_start : Z;
  x_state : mboxstate;
  x_msgs : Z
}.

Definition set_x_sender (x : Z) (r : mbox) : mbox :=
  mkMbox x (x_receiver r) (x_max r) (x_count r) (x_start r) (x_state r) (x_msgs r).
Definition set_x_receiver (x : Z) (r : mbox) : mbox :=
  mkMbox (x_sender r) x (x_max r) (x_count r) (x_start r) (x_state r) (x_msgs r).
Definition set_x_max (x : Z) (r : mbox) : mbox :=
  mkMbox (x_sender r) (x_receiver r) x (x_count r) (x_start r) (x_state r) (x_msgs r).
Definition set_x_count (x : Z) (r : mbox) : mbox :=
  mkMbox (x_sender r) (x_receiver r) (x_max r) x (x_start r) (x_state r) (x_msgs r).
Definition set_x_start (x : Z) (r : mbox) : mbox :=
  mkMbox (x_sender r) (x_receiver r) (x_max r) (x_count r) x (x_state r) (x_msgs r).
Definition set_x_state (x : mboxstate) (r : mbox) : mbox :=
  mkMbox (x_sender r) (x_receiver r) (x_max r) (x_count r) (x_start r) x (x_msgs r).
Definition set_x_msgs (x : Z) (r : mbox) : mbox :=
  mkMbox (x_sender r) (x_receiver r) (x_max r) (x_count r) (x_start r) (x_state r) x.

(** ** The kernel state *)

(** Every global the kernel routines read or write.  [nextqid], [nexttid], [nextsem],
    [nextmon] and [nextmbx] are the function-local statics of [queinit], [thrnew],
    [semalloc], [monalloc] and [mailboxAlloc]; [cpsr] is the control byte of the
    processor status register; [mem] holds the 32-bit words of the heap by byte
    address; [inCrit] and [intmask] are the statics of CriticalSection.c. *)
Record kst := mkKst {
  quetab : gmap Z queent;
  nextqid : Z;
  thrtab : gmap Z thrent;
  thrcount : Z;
  thrcurrent : Z;
  nexttid : Z;
  readylist : Z;
  sleepq : Z;
  resdefer : Z;
  semtab : gmap Z sement;
  nextsem : Z;
  montab : gmap Z monent;
  nextmon : Z;
  clkticks : Z;
  clktime : Z;
  cpsr : Z;
  inCrit : bool;
  intmask : Z;
  mem : gmap Z Z;
  memlist_next : Z;
  memlist_length : Z;
  memheap : Z;
  maxaddr : Z;
  bfptab : gmap Z bfpentry;
  mboxtab : gmap Z mbox;
  mboxtabsem : Z;
  nextmbx : Z;
  tmr_cs : Z;
  tmr_clo : Z;
  tmr_c3 : Z;
  clkfreq : Z
}.

Definition set_quetab (x : gmap Z queent) (r : kst) : kst :=
  mkKst x (nextqid r) (thrtab r) (thrcount r) (thrcurrent r) (nexttid r) (readylist r) (sleepq r) (resdefer r) (semtab r) (nextsem r) (montab r) (nextmon r) (clkticks r) (clktime r) (cpsr r) (inCrit r) (intmask r) (mem r) (memlist_next r) (memlist_length r) (memheap r) (maxaddr r) (bfptab r) (mboxtab r) (mboxtabsem r) (nextmbx r) (tmr_cs r) (tmr_clo r) (tmr_c3 r) (clkfreq r).
Definition set_nextqid (x : Z) (r : kst) : kst :=
  mkKst (quetab r) x (thrtab r) (thrcount r) (thrcurrent r) (nexttid r) (readylist r) (sleepq r) (resdefer r) (semtab r) (nextsem r) (montab r) (nextmon r) (clkticks r) (clktime r) (cpsr r) (inCrit r) (intmask r) (mem r) (memlist_next r) (memlist_length r) (memheap r) (maxaddr r) (bfptab r) (mboxtab r) (mboxtabsem r) (nextmbx r) (tmr_cs r) (tmr_clo r) (tmr_c3 r) (clkfreq r).
Definition set_thrtab (x : gmap Z thrent) (r : kst) : kst :=
  mkKst (quetab r) (nextqid r) x (thrcount r) (thrcurrent r) (nexttid r) (readylist r) (sleepq r) (resdefer r) (semtab r) (nextsem r) (montab r) (nextmon r) (clkticks r) (clktime r) (cpsr r) (inCrit r) (intmask r) (mem r) (memlist_next r) (memlist_length r) (memheap r) (maxaddr r) (bfptab r) (mboxtab r) (mboxtabsem r) (nextmbx r) (tmr_cs r) (tmr_clo r) (tmr_c3 r) (clkfreq r).
Definition set_thrcount (x : Z) (r : kst) : kst :=
  mkKst (quetab r) (nextqid r) (thrtab r) x (thrcurrent r) (nexttid r) (readylist r) (sleepq r) (resdefer r) (semtab r) (nextsem r) (montab r) (nextmon r) (clkticks r) (clktime r) (cpsr r) (inCrit r) (intmask r) (mem r) (memlist_next r) (memlist_length r) (memheap r) (maxaddr r) (bfptab r) (mboxtab r) (mboxtabsem r) (nextmbx r) (tmr_cs r) (tmr_clo r) (tmr_c3 r) (clkfreq r).
Definition set_thrcurrent (x : Z) (r : kst) : kst :=
  mkKst (quetab r) (nextqid r) (thrtab r) (thrcount r) x (nexttid r) (readylist r) (sleepq r) (resdefer r) (semtab r) (nextsem r) (montab r) (nextmon r) (clkticks r) (clktime r) (cpsr r) (inCrit r) (intmask r) (mem r) (memlist_next r) (memlist_length r) (memheap r) (maxaddr r) (bfptab r) (mboxtab r) (mboxtabsem r) (nextmbx r) (tmr_cs r) (tmr_clo r) (tmr_c3 r) (clkfreq r).
Definition set_nexttid (x : Z) (r : kst) : kst :=
  mkKst (quetab r) (nextqid r) (thrtab r) (thrcount r) (thrcurrent r) x (readylist r) (sleepq r) (resdefer r) (semtab r) (nextsem r) (montab r) (nextmon r) (clkticks r) (clktime r) (cpsr r) (inCrit r) (intmask r) (mem r) (memlist_next r) (memlist_length r) (memheap r) (maxaddr r) (bfptab r) (mboxtab r) (mboxtabsem r) (nextmbx r) (tmr_cs r) (tmr_clo r) (tmr_c3 r) (clkfreq r).
Definition set_readylist (x : Z) (r : kst) : kst :=
  mkKst (quetab r) (nextqid r) (thrtab r) (thrcount r) (thrcurrent r) (nexttid r) x (sleepq r) (resdefer r) (semtab r) (nextsem r) (montab r) (nextmon r) (clkticks r) (clktime r) (cpsr r) (inCrit r) (intmask r) (mem r) (memlist_next r) (memlist_length r) (memheap r) (maxaddr r) (bfptab r) (mboxtab r) (mboxtabsem r) (nextmbx r) (tmr_cs r) (tmr_clo r) (tmr_c3 r) (clkfreq r).
Definition set_sleepq (x : Z) (r : kst) : kst :=
  mkKst (quetab r) (nextqid r) (thrtab r) (thrcount r) (thrcurrent r) (nexttid r) (readylist r) x (resdefer r) (semtab r) (nextsem r) (montab r) (nextmon r) (clkticks r) (clktime r) (cpsr r) (inCrit r) (intmask r) (mem r) (memlist_next r) (memlist_length r) (memheap r) (maxaddr r) (bfptab r) (mboxtab r) (mboxtabsem r) (nextmbx r) (tmr_cs r) (tmr_clo r) (tmr_c3 r) (clkfreq r).
Definition set_resdefer (x : Z) (r : kst) : kst :=
  mkKst (quetab r) (nextqid r) (thrtab r) (thrcount r) (thrcurrent r) (nexttid r) (readylist r) (sleepq r) x (semtab r) (nextsem r) (montab r) (nextmon r) (clkticks r) (clktime r) (cpsr r) (inCrit r) (intmask r) (mem r) (memlist_next r) (memlist_length r) (memheap r) (maxaddr r) (bfptab r) (mboxtab r) (mboxtabsem r) (nextmbx r) (tmr_cs r) (tmr_clo r) (tmr_c3 r) (clkfreq r).
Definition set_semtab (x : gmap Z sement) (r : kst) : kst :=
  mkKst (quetab r) (nextqid r) (thrtab r) (thrcount r) (thrcurrent r) (nexttid r) (readylist r) (sleepq r) (resdefer r) x (nextsem r) (montab r) (nextmon r) (clkticks r) (clktime r) (cpsr r) (inCrit r) (intmask r) (mem r) (memlist_next r) (memlist_length r) (memheap r) (maxaddr r) (bfptab r) (mboxtab r) (mboxtabsem r) (nextmbx r) (tmr_cs r) (tmr_clo r) (tmr_c3 r) (clkfreq r).
Definition set_nextsem (x : Z) (r : kst) : kst :=
  mkKst (quetab r) (nextqid r) (thrtab r) (thrcount r) (thrcurrent r) (nexttid r) (readylist r) (sleepq r) (resdefer r) (semtab r) x (montab r) (nextmon r) (clkticks r) (clktime r) (cpsr r) (inCrit r) (intmask r) (mem r) (memlist_next r) (memlist_length r) (memheap r) (maxaddr r) (bfptab r) (mboxtab r) (mboxtabsem r) (nextmbx r) (tmr_cs r) (tmr_clo r) (tmr_c3 r) (clkfreq r).
Definition set_montab (x : gmap Z monent) (r : kst) : kst :=
  mkKst (quetab r) (nextqid r) (thrtab r) (thrcount r) (thrcurrent r) (nexttid r) (readylist r) (sleepq r) (resdefer r) (semtab r) (nextsem r) x (nextmon r) (clkticks r) (clktime r) (cpsr r) (inCrit r) (intmask r) (mem r) (memlist_next r) (memlist_length r) (memheap r) (maxaddr r) (bfptab r) (mboxtab r) (mboxtabsem r) (nextmbx r) (tmr_cs r) (tmr_clo r) (tmr_c3 r) (clkfreq r).
Definition set_nextmon (x : Z) (r : kst) : kst :=
  mkKst (quetab r) (nextqid r) (thrtab r) (thrcount r) (thrcurrent r) (nexttid r) (readylist r) (sleepq r) (resdefer r) (semtab r) (nextsem r) (montab r) x (clkticks r) (clktime r) (cpsr r) (inCrit r) (intmask r) (mem r) (memlist_next r) (memlist_length r) (memheap r) (maxaddr r) (bfptab r) (mboxtab r) (mboxtabsem r) (nextmbx r) (tmr_cs r) (tmr_clo r) (tmr_c3 r) (clkfreq r).
Definition set_clkticks (x : Z) (r : kst) : kst :=
  mkKst (quetab r) (nextqid r) (thrtab r) (thrcount r) (thrcurrent r) (nexttid r) (readylist r) (sleepq r) (resdefer r) (semtab r) (nextsem r) (montab r) (nextmon r) x (clktime r) (cpsr r) (inCrit r) (intmask r) (mem r) (memlist_next r) (memlist_length r) (memheap r) (maxaddr r) (bfptab r) (mboxtab r) (mboxtabsem r) (nextmbx r) (tmr_cs r) (tmr_clo r) (tmr_c3 r) (clkfreq r).
Definition set_clktime (x : Z) (r : kst) : kst :=
  mkKst (quetab r) (nextqid r) (thrtab r) (thrcount r) (thrcurrent r) (nexttid r) (readylist r) (sleepq r) (resdefer r) (semtab r) (nextsem r) (montab r) (nextmon r) (clkticks r) x (cpsr r) (inCrit r) (intmask r) (mem r) (memlist_next r) (memlist_length r) (memheap r) (maxaddr r) (bfptab r) (mboxtab r) (mboxtabsem r) (nextmbx r) (tmr_cs r) (tmr_clo r) (tmr_c3 r) (clkfreq r).
Definition set_cpsr (x : Z) (r : kst) : kst :=
  mkKst (quetab r) (nextqid r) (thrtab r) (thrcount r) (thrcurrent r) (nexttid r) (readylist r) (sleepq r) (resdefer r) (semtab r) (nextsem r) (montab r) (nextmon r) (clkticks r) (clktime r) x (inCrit r) (intmask r) (mem r) (memlist_next r) (memlist_length r) (memheap r) (maxaddr r) (bfptab r) (mboxtab r) (mboxtabsem r) (nextmbx r) (tmr_cs r) (tmr_clo r) (tmr_c3 r) (clkfreq r).
Definition set_inCrit (x : bool) (r : kst) : kst :=
  mkKst (quetab r) (nextqid r) (thrtab r) (thrcount r) (thrcurrent r) (nexttid r) (readylist r) (sleepq r) (resdefer r) (semtab r) (nextsem r) (montab r) (nextmon r) (clkticks r) (clktime r) (cpsr r) x (intmask r) (mem r) (memlist_next r) (memlist_length r) (memheap r) (maxaddr r) (bfptab r) (mboxtab r) (mboxtabsem r) (nextmbx r) (tmr_cs r) (tmr_clo r) (tmr_c3 r) (clkfreq r).
Definition set_intmask (x : Z) (r : kst) : kst :=
  mkKst (quetab r) (nextqid r) (thrtab r) (thrcount r) (thrcurrent r) (nexttid r) (readylist r) (sleepq r) (resdefer r) (semtab r) (nextsem r) (montab r) (nextmon r) (clkticks r) (clktime r) (cpsr r) (inCrit r) x (mem r) (memlist_next r) (memlist_length r) (memheap r) (maxaddr r) (bfptab r) (mboxtab r) (mboxtabsem r) (nextmbx r) (tmr_cs r) (tmr_clo r) (tmr_c3 r) (clkfreq r).
Definition set_mem (x : gmap Z Z) (r : kst) : kst :=
  mkKst (quetab r) (nextqid r) (thrtab r) (thrcount r) (thrcurrent r) (nexttid r) (readylist r) (sleepq r) (resdefer r) (semtab r) (nextsem r) (montab r) (nextmon r) (clkticks r) (clktime r) (cpsr r) (inCrit r) (intmask r) x (memlist_next r) (memlist_length r) (memheap r) (maxaddr r) (bfptab r) (mboxtab r) (mboxtabsem r) (nextmbx r) (tmr_cs r) (tmr_clo r) (tmr_c3 r) (clkfreq r).
Definition set_memlist_next (x : Z) (r : kst) : kst :=
  mkKst (quetab r) (nextqid r) (thrtab r) (thrcount r) (thrcurrent r) (nexttid r) (readylist r) (sleepq r) (resdefer r) (semtab r) (nextsem r) (montab r) (nextmon r) (clkticks r) (clktime r) (cpsr r) (inCrit r) (intmask r) (mem r) x (memlist_length r) (memheap r) (maxaddr r) (bfptab r) (mboxtab r) (mboxtabsem r) (nextmbx r) (tmr_cs r) (tmr_clo r) (tmr_c3 r) (clkfreq r).
Definition set_memlist_length (x : Z) (r : kst) : kst :=
  mkKst (quetab r) (nextqid r) (thrtab r) (thrcount r) (thrcurrent r) (nexttid r) (readylist r) (sleepq r) (resdefer r) (semtab r) (nextsem r) (montab r) (nextmon r) (clkticks r) (clktime r) (cpsr r) (inCrit r) (intmask r) (mem r) (memlist_next r) x (memheap r) (maxaddr r) (bfptab r) (mboxtab r) (mboxtabsem r) (nextmbx r) (tmr_cs r) (tmr_clo r) (tmr_c3 r) (clkfreq r).
Definition set_memheap (x : Z) (r : kst) : kst :=
  mkKst (quetab r) (nextqid r) (thrtab r) (thrcount r) (thrcurrent r) (nexttid r) (readylist r) (sleepq r) (resdefer r) (semtab r) (nextsem r) (montab r) (nextmon r) (clkticks r) (clktime r) (cpsr r) (inCrit r) (intmask r) (mem r) (memlist_next r) (memlist_length r) x (maxaddr r) (bfptab r) (mboxtab r) (mboxtabsem r) (nextmbx r) (tmr_cs r) (tmr_clo r) (tmr_c3 r) (clkfreq r).
Definition set_maxaddr (x : Z) (r : kst) : kst :=
  mkKst (quetab r) (nextqid r) (thrtab r) (thrcount r) (thrcurrent r) (nexttid r) (readylist r) (sleepq r) (resdefer r) (semtab r) (nextsem r) (montab r) (nextmon r) (clkticks r) (clktime r) (cpsr r) (inCrit r) (intmask r) (mem r) (memlist_next r) (memlist_length r) (memheap r) x (bfptab r) (mboxtab r) (mboxtabsem r) (nextmbx r) (tmr_cs r) (tmr_clo r) (tmr_c3 r) (clkfreq r).
Definition set_bfptab (x : gmap Z bfpentry) (r : kst) : kst :=
  mkKst (quetab r) (nextqid r) (thrtab r) (thrcount r) (thrcurrent r) (nexttid r) (readylist r) (sleepq r) (resdefer r) (semtab r) (nextsem r) (montab r) (nextmon r) (clkticks r) (clktime r) (cpsr r) (inCrit r) (intmask r) (mem r) (memlist_next r) (memlist_length r) (memheap r) (maxaddr r) x (mboxtab r) (mboxtabsem r) (nextmbx r) (tmr_cs r) (tmr_clo r) (tmr_c3 r) (clkfreq r).
Definition set_mboxtab (x : gmap Z mbox) (r : kst) : kst :=
  mkKst (quetab r) (nextqid r) (thrtab r) (thrcount r) (thrcurrent r) (nexttid r) (readylist r) (sleepq r) (resdefer r) (semtab r) (nextsem r) (montab r) (nextmon r) (clkticks r) (clktime r) (cpsr r) (inCrit r) (intmask r) (mem r) (memlist_next r) (memlist_length r) (memheap r) (maxaddr r) (bfptab r) x (mboxtabsem r) (nextmbx r) (tmr_cs r) (tmr_clo r) (tmr_c3 r) (clkfreq r).
Definition set_mboxtabsem (x : Z) (r : kst) : kst :=
  mkKst (quetab r) (nextqid r) (thrtab r) (thrcount r) (thrcurrent r) (nexttid r) (readylist r) (sleepq r) (resdefer r) (semtab r) (nextsem r) (montab r) (nextmon r) (clkticks r) (clktime r) (cpsr r) (inCrit r) (intmask r) (mem r) (memlist_next r) (memlist_length r) (memheap r) (maxaddr r) (bfptab r) (mboxtab r) x (nextmbx r) (tmr_cs r) (tmr_clo r) (tmr_c3 r) (clkfreq r).
Definition set_nextmbx (x : Z) (r : kst) : kst :=
  mkKst (quetab r) (nextqid r) (thrtab r) (thrcount r) (thrcurrent r) (nexttid r) (readylist r) (sleepq r) (resdefer r) (semtab r) (nextsem r) (montab r) (nextmon r) (clkticks r) (clktime r) (cpsr r) (inCrit r) (intmask r) (mem r) (memlist_next r) (memlist_length r) (memheap r) (maxaddr r) (bfptab r) (mboxtab r) (mboxtabsem r) x (tmr_cs r) (tmr_clo r) (tmr_c3 r) (clkfreq r).
Definition set_tmr_cs (x : Z) (r : kst) : kst :=
  mkKst (quetab r) (nextqid r) (thrtab r) (thrcount r) (thrcurrent r) (nexttid r) (readylist r) (sleepq r) (resdefer r) (semtab r) (nextsem r) (montab r) (nextmon r) (clkticks r) (clktime r) (cpsr r) (inCrit r) (intmask r) (mem r) (memlist_next r) (memlist_length r) (memheap r) (maxaddr r) (bfptab r) (mboxtab r) (mboxtabsem r) (nextmbx r) x (tmr_clo r) (tmr_c3 r) (clkfreq r).
Definition set_tmr_clo (x : Z) (r : kst) : kst :=
  mkKst (quetab r) (nextqid r) (thrtab r) (thrcount r) (thrcurrent r) (nexttid r) (readylist r) (sleepq r) (resdefer r) (semtab r) (nextsem r) (montab r) (nextmon r) (clkticks r) (clktime r) (cpsr r) (inCrit r) (intmask r) (mem r) (memlist_next r) (memlist_length r) (memheap r) (maxaddr r) (bfptab r) (mboxtab r) (mboxtabsem r) (nextmbx r) (tmr_cs r) x (tmr_c3 r) (clkfreq r).
Definition set_tmr_c3 (x : Z) (r : kst) : kst :=
  mkKst (quetab r) (nextqid r) (thrtab r) (thrcount r) (thrcurrent r) (nexttid r) (readylist r) (sleepq r) (resdefer r) (semtab r) (nextsem r) (montab r) (nextmon r) (clkticks r) (clktime r) (cpsr r) (inCrit r) (intmask r) (mem r) (memlist_next r) (memlist_length r) (memheap r) (maxaddr r) (bfptab r) (mboxtab r) (mboxtabsem r) (nextmbx r) (tmr_cs r) (tmr_clo r) x (clkfreq r).
Definition set_clkfreq (x : Z) (r : kst) : kst :=
  mkKst (quetab r) (nextqid r) (thrtab r) (thrcount r) (thrcurrent r) (nexttid r) (readylist r) (sleepq r) (resdefer r) (semtab r) (nextsem r) (montab r) (nextmon r) (clkticks r) (clktime r) (cpsr r) (inCrit r) (intmask r) (mem r) (memlist_next r) (memlist_length r) (memheap r) (maxaddr r) (bfptab r) (mboxtab r) (mboxtabsem r) (nextmbx r) (tmr_cs r) (tmr_clo r) (tmr_c3 r) x.

Abbreviation kprog := (prog kst).

(** ** Interrupt state *)

(** [disable]: mask interrupts and return the previous status register. *)
Definition disable : kprog Z :=
  m ← gets cpsr;
  modify (set_cpsr (Z.lor m ARM_I_BIT));;
  mret m.

(** [restore]: write back the control byte of the status register. *)
Definition restore (im : Z) : kprog unit :=
  m ← gets cpsr;
  modify (set_cpsr (Z.lor (Z.land m (Z.lnot 255)) (Z.land im 255))).

(** The routine that brackets kernel work, system/platforms/arm-rpi. *)
Definition ENTER_KERNEL_CRITICAL_SECTION : kprog unit :=
  b ← gets inCrit;
  if Bool.eqb b false then halted else
  m ← disable;
  modify (set_intmask m);;
  modify (set_inCrit true).

Definition EXIT_KERNEL_CRITICAL_SECTION : kprog unit :=
  b ← gets inCrit;
  if Bool.eqb b false then halted else
  m ← gets intmask;
  restore m.

(** Interrupts are masked. *)
Definition irqs_masked (s : kst) : bool := Z.testbit (cpsr s) 7.

(** ** Field access *)

Definition qent (i : Z) : kprog queent := load quetab i.
Definition amend_q (i : Z) (f : queent -> queent) : kprog unit :=
  amend quetab set_quetab i f.
Definition thr (i : Z) : kprog thrent := load thrtab i.
Definition amend_thr (i : Z) (f : thrent -> thrent) : kprog unit :=
  amend thrtab set_thrtab i f.
Definition semx (i : Z) : kprog sement := load semtab i.
Definition amend_sem (i : Z) (f : sement -> sement) : kprog unit :=
  amend semtab set_semtab i f.

(** A word of memory at the address [a]. *)
Definition ldw (a : Z) : kprog Z := load mem a.
Definition stw (a v : Z) : kprog unit := store mem set_mem a v.

(** [isbadtid], include/thread.h; the table is read only for an index in range. *)
Definition isbadtid (x : Z) : kprog bool :=
  if (x >=? NTHREAD) || (x <? 0) then mret true
  else e ← thr x; mret (bool_decide (t_state e = THRFREE)).

(** [isbadsem], include/semaphore.h; a [semaphore] is an unsigned int. *)
Definition isbadsem (x : Z) : kprog bool :=
  if u32 x >=? NSEM then mret true
  else e ← semx (u32 x); mret (bool_decide (s_state e = SFREE)).

(** The state inside a critical section entered from [s], and the state after it
    is left. *)
Definition crit_in (s : kst) : kst :=
  set_inCrit true (set_intmask (cpsr s) (set_cpsr (Z.lor (cpsr s) ARM_I_BIT) s)).

Definition crit_out (s : kst) : kst :=
  set_cpsr (Z.lor (Z.land (cpsr s) (Z.lnot 255)) (Z.land (intmask s) 255)) s.

Lemma run_ENTER s :
  inCrit s = true -> run ENTER_KERNEL_CRITICAL_SECTION s = Done tt (crit_in s).
Proof. intros H. unfold ENTER_KERNEL_CRITICAL_SECTION, run. cbn. by rewrite H. Qed.

Lemma run_EXIT s :
  inCrit s = true -> run EXIT_KERNEL_CRITICAL_SECTION s = Done tt (crit_out s).
Proof. intros H. unfold EXIT_KERNEL_CRITICAL_SECTION, run. cbn. by rewrite H. Qed.

(** ** Symbolic execution

    [ksimpl] reduces field projections of updated states; [prun] runs a program
    as far as the loads it meets are known. *)

Ltac ksimpl := cbn [
  quetab nextqid thrtab thrcount thrcurrent nexttid readylist sleepq resdefer semtab
  nextsem montab nextmon clkticks clktime cpsr inCrit intmask mem memlist_next
  memlist_length memheap maxaddr bfptab mboxtab mboxtabsem nextmbx tmr_cs tmr_clo tmr_c3
  clkfreq set_quetab set_nextqid set_thrtab set_thrcount set_thrcurrent set_nexttid
  set_readylist set_sleepq set_resdefer set_semtab set_nextsem set_montab set_nextmon
  set_clkticks set_clktime set_cpsr set_inCrit set_intmask set_mem set_memlist_next
  set_memlist_length set_memheap set_maxaddr set_bfptab set_mboxtab set_mboxtabsem
  set_nextmbx set_tmr_cs set_tmr_clo set_tmr_c3 set_clkfreq
  crit_in crit_out].

(** [kst_eq] proves that two states are the same by writing out all their fields. *)
Ltac kst_eq := cbv [
  quetab nextqid thrtab thrcount thrcurrent nexttid readylist sleepq resdefer semtab
  nextsem montab nextmon clkticks clktime cpsr inCrit intmask mem memlist_next
  memlist_length memheap maxaddr bfptab mboxtab mboxtabsem nextmbx tmr_cs tmr_clo tmr_c3
  clkfreq set_quetab set_nextqid set_thrtab set_thrcount set_thrcurrent set_nexttid
  set_readylist set_sleepq set_resdefer set_semtab set_nextsem set_montab set_nextmon
  set_clkticks set_clktime set_cpsr set_inCrit set_intmask set_mem set_memlist_next
  set_memlist_length set_memheap set_maxaddr set_bfptab set_mboxtab set_mboxtabsem
  set_nextmbx set_tmr_cs set_tmr_clo set_tmr_c3 set_clkfreq
  crit_in crit_out]; reflexivity.

Lemma run_qent i e s : quetab s !! i = Some e -> run (qent i) s = Done e s.
Proof. apply run_load. Qed.

Lemma run_amend_q i f e s :
  quetab s !! i = Some e ->
  run (amend_q i f) s = Done tt (set_quetab (<[i := f e]> (quetab s)) s).
Proof. apply run_amend. Qed.

Lemma run_thr i e s : thrtab s !! i = Some e -> run (thr i) s = Done e s.
Proof. apply run_load. Qed.

Lemma run_amend_thr i f e s :
  thrtab s !! i = Some e ->
  run (amend_thr i f) s = Done tt (set_thrtab (<[i := f e]> (thrtab s)) s).
Proof. apply run_amend. Qed.

Lemma run_semx i e s : semtab s !! i = Some e -> run (semx i) s = Done e s.
Proof. apply run_load. Qed.

Lemma run_amend_sem i f e s :
  semtab s !! i = Some e ->
  run (amend_sem i f) s = Done tt (set_semtab (<[i := f e]> (semtab s)) s).
Proof. apply run_amend. Qed.

Lemma run_ldw a v s : mem s !! a = Some v -> run (ldw a) s = Done v s.
Proof. apply run_load. Qed.

Lemma run_stw a v v0 s :
  mem s !! a = Some v0 -> run (stw a v) s = Done tt (set_mem (<[a := v]> (mem s)) s).
Proof. apply run_store. Qed.

(** [lkp] proves that a table entry is what it is after updates elsewhere. *)
Ltac lkp := ksimpl; repeat first
  [ eassumption
  | apply lookup_insert_eq
  | rewrite lookup_insert_ne by (first [done | lia | congruence]) ].

Ltac prun1 :=
  match goal with
  | |- context [run (mbind ?f ?m) ?s] => rewrite (run_bind m f s)
  | |- context [run (mret ?a) ?s] => rewrite (run_ret a s)
  | |- context [run (gets ?f) ?s] => rewrite (run_gets f s)
  | |- context [run (modify ?f) ?s] => rewrite (run_modify f s)
  | |- context [run ENTER_KERNEL_CRITICAL_SECTION ?s] =>
      rewrite (run_ENTER s) by (ksimpl; first [done | assumption])
  | |- context [run EXIT_KERNEL_CRITICAL_SECTION ?s] =>
      rewrite (run_EXIT s) by (ksimpl; first [done | assumption])
  | |- context [run (qent ?i) ?s] => erewrite (run_qent i _ s) by lkp
  | |- context [run (amend_q ?i ?f) ?s] => erewrite (run_amend_q i f _ s) by lkp
  | |- context [run (thr ?i) ?s] => erewrite (run_thr i _ s) by lkp
  | |- context [run (amend_thr ?i ?f) ?s] => erewrite (run_amend_thr i f _ s) by lkp
  | |- context [run (semx ?i) ?s] => erewrite (run_semx i _ s) by lkp
  | |- context [run (amend_sem ?i ?f) ?s] => erewrite (run_amend_sem i f _ s) by lkp
  | |- context [run (ldw ?i) ?s] => erewrite (run_ldw i _ s) by lkp
  | |- context [run (stw ?i ?v) ?s] => erewrite (run_stw i v _ s) by lkp
  end; cbn [obind]; ksimpl.

Ltac prun := repeat prun1.

(** Rewrite with a known run whose state is the one in the goal up to the order
    of field updates. *)
Ltac use_run H :=
  match type of H with
  | run ?m ?s = _ =>
      match goal with |- context [run m ?s'] => change (run m s') with (run m s); rewrite H end
  end; cbn [obind]; ksimpl.

(** [lia] with the constants of the configuration unfolded. *)
Ltac klia := unfold NQENT, NTHREAD, NSEM, NMAILBOX, NPOOL, INT_MIN, INT_MAX, UINT_MAX,
  NULLTHREAD in *; lia.
