(* ===== verification/Queue.v ===== *)
(** The thread queues: the statically allocated table of include/queue.h and the
    routines of system/queue.c, system/getitem.c, system/insert.c,
    system/insertd.c and system/queinit.c, with the list each queue stands for. *)
From Stdlib Require Import ZArith Lia.
From stdpp Require Import sorting gmap functions list.
From S2P Require Import Prelude Kernel.

(** ** Routines *)

Definition quehead (q : Z) : Z := q.
Definition quetail (q : Z) : Z := q + 1.

Definition isbadqid (x : Z) : bool :=
  (quehead x <? 0) || negb (quehead x =? quetail x - 1) || (quetail x >=? NQENT).

Definition isempty (q : Z) : kprog bool :=
  e ← qent (quehead q); mret (q_next e >=? NTHREAD).

Definition nonempty (q : Z) : kprog bool :=
  e ← qent (quehead q); mret (q_next e <? NTHREAD).

Definition firstid (q : Z) : kprog Z :=
  e ← qent (quehead q); mret (q_next e).

Definition firstkey (q : Z) : kprog Z :=
  e ← qent (quehead q); f ← qent (q_next e); mret (q_key f).

Definition lastkey (q : Z) : kprog Z :=
  e ← qent (quetail q); f ← qent (q_prev e); mret (q_key f).

Definition enqueue (tid q : Z) : kprog Z :=
  if isbadqid q then mret SYSERR else
  bad ← isbadtid tid;
  if (bad : bool) then mret SYSERR else
  let tail := quetail q in
  e ← qent tail;
  let prev := q_prev e in
  amend_q tid (set_q_next tail);;
  amend_q tid (set_q_prev prev);;
  amend_q prev (set_q_next tid);;
  amend_q tail (set_q_prev tid);;
  mret tid.

Definition getitem (tid : Z) : kprog Z :=
  e ← qent tid;
  let next := q_next e in
  let prev := q_prev e in
  amend_q prev (set_q_next next);;
  amend_q next (set_q_prev prev);;
  amend_q tid (set_q_next EMPTY);;
  amend_q tid (set_q_prev EMPTY);;
  mret tid.

Definition getfirst (q : Z) : kprog Z :=
  if isbadqid q then mret SYSERR else
  b ← isempty q;
  if (b : bool) then mret EMPTY else
  let head := quehead q in
  e ← qent head;
  getitem (q_next e).

Definition getlast (q : Z) : kprog Z :=
  if isbadqid q then mret SYSERR else
  b ← isempty q;
  if (b : bool) then mret EMPTY else
  let tail := quetail q in
  e ← qent tail;
  getitem (q_prev e).

Definition dequeue (q : Z) : kprog Z :=
  if isbadqid q then mret SYSERR else
  b ← isempty q;
  if (b : bool) then mret EMPTY else
  tid ← getfirst q;
  bad ← isbadtid tid;
  (if (bad : bool) then mret tt else
     amend_q tid (set_q_prev EMPTY);;
     amend_q tid (set_q_next EMPTY));;
  mret tid.

(** More iterations than a queue has entries: [insert_spec] and [insertd_spec]
    show the loops end before. *)
Definition QFUEL : nat := Z.to_nat NQENT.

Definition insert (tid q key : Z) : kprog Z :=
  if isbadqid q then mret SYSERR else
  bad ← isbadtid tid;
  if (bad : bool) then mret SYSERR else
  h ← qent (quehead q);
  next ← while_ QFUEL
    (fun next => e ← qent next; mret (q_key e >=? key))
    (fun next => e ← qent next; mret (q_next e))
    (q_next h);
  amend_q tid (set_q_next next);;
  e ← qent next;
  let prev := q_prev e in
  amend_q tid (set_q_prev prev);;
  amend_q tid (set_q_key key);;
  amend_q prev (set_q_next tid);;
  amend_q next (set_q_prev tid);;
  mret OK.

Definition insertd (tid q key : Z) : kprog Z :=
  if isbadqid q then mret SYSERR else
  bad ← isbadtid tid;
  if (bad : bool) then mret SYSERR else
  h ← qent (quehead q);
  st ← while_ QFUEL
    (fun '(prev, next, key) =>
       e ← qent next; mret ((q_key e <=? key) && negb (next =? quetail q)))
    (fun '(prev, next, key) =>
       e ← qent next; mret (next, q_next e, i32 (key - q_key e)))
    (quehead q, q_next h, key);
  let '(prev, next, key) := st in
  amend_q tid (set_q_next next);;
  amend_q tid (set_q_prev prev);;
  amend_q tid (set_q_key key);;
  amend_q prev (set_q_next tid);;
  amend_q next (set_q_prev tid);;
  (if next =? quetail q then mret tt
   else amend_q next (fun e => set_q_key (i32 (q_key e - key)) e));;
  mret OK.

Definition queinit : kprog Z :=
  nq ← gets nextqid;
  if nq >? NQENT then mret SYSERR else
  let q := nq in
  modify (set_nextqid (nq + 2));;
  amend_q (quehead q) (set_q_next (quetail q));;
  amend_q (quehead q) (set_q_prev EMPTY);;
  amend_q (quehead q) (set_q_key MAXKEY);;
  amend_q (quetail q) (set_q_next EMPTY);;
  amend_q (quetail q) (set_q_prev (quehead q));;
  amend_q (quetail q) (set_q_key MINKEY);;
  mret q.

(** ** What a queue table stands for *)

Definition nxt (qt : gmap Z queent) (x : Z) : option Z := q_next <$> qt !! x.
Definition prv (qt : gmap Z queent) (x : Z) : option Z := q_prev <$> qt !! x.
Definition qkey (qt : gmap Z queent) (x : Z) : option Z := q_key <$> qt !! x.

Definition keyof (qt : gmap Z queent) (x : Z) : Z := default 0 (qkey qt x).

(** The threads of a delta queue, each with its key. *)
Definition deltas (qt : gmap Z queent) (l : list Z) : list (Z * Z) :=
  (fun x => (x, keyof qt x)) <$> l.

(** Consecutive entries of the path point at each other. *)
Fixpoint linked (qt : gmap Z queent) (p : list Z) : Prop :=
  match p with
  | a :: (b :: _) as r => nxt qt a = Some b /\ prv qt b = Some a /\ linked qt r
  | _ => True
  end.

(** [q] is the head of one of the queues [queinit] has handed out, when the next
    one it would hand out is [n]. *)
Definition isq (n q : Z) : Prop := NTHREAD <= q < n /\ q mod 2 = 0 /\ n <= NQENT.

(** The queue table [qt] holds the queues [Q]: the queue with head [q] is the
    doubly linked list through the entries [Q q], between the head and the tail
    with their sentinel keys; the entries are thread ids, and no thread is in two
    places. *)
Record qrep (n : Z) (qt : gmap Z queent) (Q : Z -> list Z) : Prop := {
  qr_dom : forall i, is_Some (qt !! i) <-> 0 <= i < NQENT;
  qr_link : forall q, isq n q -> linked qt (q :: Q q ++ [q + 1]);
  qr_hkey : forall q, isq n q -> qkey qt q = Some MAXKEY;
  qr_tkey : forall q, isq n q -> qkey qt (q + 1) = Some MINKEY;
  qr_tid : forall q t, isq n q -> t ∈ Q q -> 0 <= t < NTHREAD;
  qr_nodup : forall q, isq n q -> NoDup (Q q);
  qr_disj : forall q q' t, isq n q -> isq n q' -> t ∈ Q q -> t ∈ Q q' -> q = q'
}.

(** The reference operations on the lists: insertion by descending key, after
    the entries with an equal key; and insertion in a delta list. *)
Fixpoint pinsert (kf : Z -> Z) (t key : Z) (l : list Z) : list Z :=
  match l with
  | [] => [t]
  | x :: r => if kf x >=? key then x :: pinsert kf t key r else t :: x :: r
  end.

Fixpoint dinsert (t key : Z) (l : list (Z * Z)) : list (Z * Z) :=
  match l with
  | [] => [(t, key)]
  | (x, d) :: r =>
      if d <=? key then (x, d) :: dinsert t (key - d) r
      else (t, key) :: (x, d - key) :: r
  end.

(** ** Paths *)

Lemma linked_cons2 qt a b p :
  linked qt (a :: b :: p) <-> nxt qt a = Some b /\ prv qt b = Some a /\ linked qt (b :: p).
Proof. done. Qed.

Lemma linked_app qt p1 a p2 :
  linked qt (p1 ++ a :: p2) <-> linked qt (p1 ++ [a]) /\ linked qt (a :: p2).
Proof.
  induction p1 as [|x [|y p1] IH]; cbn [app].
  - cbn. tauto.
  - rewrite !linked_cons2. cbn. tauto.
  - rewrite !linked_cons2. cbn [app] in IH. rewrite IH. tauto.
Qed.

(** The part of a path before [a], and the part from [b] on, are kept by an
    update that leaves their links alone. *)
Lemma linked_frame_l qt qt' p a :
  (forall x, x ∈ p -> nxt qt' x = nxt qt x) ->
  (forall x, x ∈ p ++ [a] -> prv qt' x = prv qt x) ->
  linked qt (p ++ [a]) -> linked qt' (p ++ [a]).
Proof.
  induction p as [|x [|y p] IH]; intros Hn Hp; [done| |]; cbn [app] in *;
    rewrite !linked_cons2; intros (Hx & Hy & Hl);
    rewrite Hn, Hp by set_solver; (split; [done | split; [done |]]); [done |].
  apply IH; [set_solver | set_solver | done].
Qed.

Lemma linked_frame_r qt qt' b p :
  (forall x, x ∈ b :: p -> nxt qt' x = nxt qt x) ->
  (forall x, x ∈ p -> prv qt' x = prv qt x) ->
  linked qt (b :: p) -> linked qt' (b :: p).
Proof.
  revert b. induction p as [|y p IH]; intros b Hn Hp; [done |].
  rewrite !linked_cons2. intros (Hx & Hy & Hl).
  rewrite Hn, Hp by set_solver. split; [done | split; [done |]].
  apply IH; [set_solver | set_solver | done].
Qed.

Lemma linked_frame qt qt' p :
  (forall x, x ∈ p -> nxt qt' x = nxt qt x) ->
  (forall x, x ∈ p -> prv qt' x = prv qt x) ->
  linked qt p -> linked qt' p.
Proof.
  destruct p as [|b p]; [done |]. intros Hn Hp.
  apply linked_frame_r; set_solver.
Qed.

(** [a] is the last entry of the queue [q] up to [l1], [b] the first one from [l2]. *)
Definition lastof (q : Z) (l1 : list Z) (a : Z) : Prop := exists p, q :: l1 = p ++ [a].
Definition firstof (q : Z) (l2 : list Z) (b : Z) : Prop := exists p, l2 ++ [q + 1] = b :: p.

Lemma lastof_exists q l1 : exists a, lastof q l1 a.
Proof.
  destruct (exists_last (l := q :: l1)) as (p & a & H); [done |]. by exists a, p.
Qed.

Lemma lastof_nil q : lastof q [] q.
Proof. by exists []. Qed.

Lemma lastof_nil_inv q a : lastof q [] a -> a = q.
Proof. intros [p H]. symmetry in H. apply app_singleton in H as [[_ [= ->]] | [_ [=]]]. done. Qed.

Lemma lastof_snoc q l x : lastof q (l ++ [x]) x.
Proof. by exists (q :: l). Qed.

Lemma lastof_elem q l a : lastof q l a -> a ∈ q :: l.
Proof. intros [p ->]. set_solver. Qed.

Lemma firstof_exists q l2 : exists b, firstof q l2 b.
Proof. destruct l2 as [|b l2]; [by exists (q + 1), [] | by exists b, (l2 ++ [q + 1])]. Qed.

Lemma firstof_nil q : firstof q [] (q + 1).
Proof. by exists []. Qed.

Lemma firstof_cons q x l : firstof q (x :: l) x.
Proof. by exists (l ++ [q + 1]). Qed.

Lemma firstof_nil_inv q b : firstof q [] b -> b = q + 1.
Proof. by intros [p [= <- _]]. Qed.

Lemma firstof_cons_inv q x l b : firstof q (x :: l) b -> b = x.
Proof. by intros [p [= <- _]]. Qed.

Lemma firstof_elem q l b : firstof q l b -> b ∈ l ++ [q + 1].
Proof. intros [p ->]. set_solver. Qed.

Lemma path_split q l1 l2 a b p1 p2 :
  q :: l1 = p1 ++ [a] -> l2 ++ [q + 1] = b :: p2 ->
  q :: (l1 ++ l2) ++ [q + 1] = p1 ++ a :: b :: p2.
Proof.
  intros H1 H2. rewrite <- (app_assoc l1), H2.
  change (q :: l1 ++ b :: p2) with ((q :: l1) ++ b :: p2). rewrite H1.
  by rewrite <- app_assoc.
Qed.

(** Neighbours point at each other. *)
Lemma linked_join qt q l1 l2 a b :
  linked qt (q :: (l1 ++ l2) ++ [q + 1]) -> lastof q l1 a -> firstof q l2 b ->
  nxt qt a = Some b /\ prv qt b = Some a.
Proof.
  intros H [p1 H1] [p2 H2]. rewrite (path_split _ _ _ _ _ _ _ H1 H2) in H.
  apply linked_app in H as [_ (Hn & Hp & _)]. done.
Qed.

(** Insertion of [t] between [a] and [b]. *)
Lemma linked_insert qt qt' p1 a t b p2 :
  linked qt (p1 ++ a :: b :: p2) -> NoDup (p1 ++ a :: b :: p2) ->
  t ∉ p1 ++ a :: b :: p2 ->
  (forall x, nxt qt' x = if decide (x = a) then Some t
                         else if decide (x = t) then Some b else nxt qt x) ->
  (forall x, prv qt' x = if decide (x = b) then Some t
                         else if decide (x = t) then Some a else prv qt x) ->
  linked qt' (p1 ++ a :: t :: b :: p2).
Proof.
  intros Hl Hnd Ht Hn Hp.
  apply linked_app in Hl as [Hl1 Hl2]. destruct Hl2 as (_ & _ & Hl2).
  apply NoDup_app in Hnd as (_ & Hd & Hnd2).
  apply NoDup_cons in Hnd2 as [Ha Hnd2]. apply NoDup_cons in Hnd2 as [Hb _].
  apply linked_app. split; [| rewrite !linked_cons2; repeat split].
  - eapply linked_frame_l; [| | exact Hl1]; intros x Hx; rewrite ?Hn, ?Hp;
      repeat case_decide; subst; set_solver.
  - rewrite Hn. by case_decide.
  - rewrite Hp. repeat case_decide; subst; set_solver.
  - rewrite Hn. repeat case_decide; subst; set_solver.
  - rewrite Hp. by case_decide.
  - eapply linked_frame_r; [| | exact Hl2]; intros x Hx; rewrite ?Hn, ?Hp;
      repeat case_decide; subst; set_solver.
Qed.

(** Removal of [t] from between [a] and [b]. *)
Lemma linked_remove qt qt' p1 a t b p2 :
  linked qt (p1 ++ a :: t :: b :: p2) -> NoDup (p1 ++ a :: t :: b :: p2) ->
  (forall x, x <> t -> nxt qt' x = if decide (x = a) then Some b else nxt qt x) ->
  (forall x, x <> t -> prv qt' x = if decide (x = b) then Some a else prv qt x) ->
  linked qt' (p1 ++ a :: b :: p2).
Proof.
  intros Hl Hnd Hn Hp.
  apply linked_app in Hl as [Hl1 Hl2].
  destruct Hl2 as (_ & _ & Hl2). destruct Hl2 as (_ & _ & Hl2).
  apply NoDup_app in Hnd as (_ & Hd & Hnd2).
  rewrite !NoDup_cons in Hnd2. destruct Hnd2 as (Ha & Ht & Hb & _).
  apply linked_app. split; [| rewrite linked_cons2; repeat split].
  - eapply linked_frame_l; [| | exact Hl1]; intros x Hx;
      [rewrite Hn | rewrite Hp]; repeat case_decide; subst; set_solver.
  - rewrite Hn by set_solver. by case_decide.
  - rewrite Hp by set_solver. by case_decide.
  - eapply linked_frame_r; [| | exact Hl2]; intros x Hx;
      [rewrite Hn | rewrite Hp]; repeat case_decide; subst; set_solver.
Qed.

(** ** Operations on the represented queues *)

Lemma isbadqid_isq n q : isq n q -> isbadqid q = false.
Proof.
  unfold isq, isbadqid, quehead, quetail, NQENT, NTHREAD, NSEM. intros (H1 & H2 & H3).
  rewrite !orb_false_iff, negb_false_iff, Z.ltb_ge, Z.eqb_eq, Z.geb_leb, Z.leb_gt. lia.
Qed.

Section Rep.
Context {n : Z} {qt : gmap Z queent} {Q : Z -> list Z}.
Hypothesis HQ : qrep n qt Q.

Lemma qrep_path_nodup q : isq n q -> NoDup (q :: Q q ++ [q + 1]).
Proof.
  intros Hq. pose proof (qr_tid _ _ _ HQ q) as Ht. unfold isq in Hq.
  apply NoDup_cons. split; [| apply NoDup_app; split_and!].
  - rewrite elem_of_app, list_elem_of_singleton. intros [H | H]; [| lia].
    apply Ht in H; unfold isq; lia.
  - by apply (qr_nodup _ _ _ HQ).
  - intros x Hx. apply Ht in Hx; [| done]. rewrite list_elem_of_singleton. lia.
  - apply NoDup_singleton.
Qed.

(** An entry of the path of another queue is not on this one's. *)
Lemma qrep_path_disj q q' x :
  isq n q -> isq n q' -> q <> q' -> x ∈ q :: Q q ++ [q + 1] ->
  x ∉ q' :: Q q' ++ [q' + 1].
Proof.
  intros Hq Hq' Hne Hx Hx'.
  pose proof (qr_tid _ _ _ HQ q) as Ht. pose proof (qr_tid _ _ _ HQ q') as Ht'.
  pose proof (qr_disj _ _ _ HQ q q' x Hq Hq') as Hd.
  rewrite elem_of_cons, elem_of_app, list_elem_of_singleton in Hx, Hx'.
  unfold isq in *.
  destruct Hx as [-> | [Hx | ->]], Hx' as [Hx' | [Hx' | Hx']]; try lia;
    try (specialize (Ht _ ltac:(lia) Hx); lia);
    try (specialize (Ht' _ ltac:(lia) Hx'); lia).
Qed.

Lemma qrep_ends q l1 l2 a b :
  isq n q -> Q q = l1 ++ l2 -> lastof q l1 a -> firstof q l2 b ->
  nxt qt a = Some b /\ prv qt b = Some a.
Proof.
  intros Hq Hl. pose proof (qr_link _ _ _ HQ q Hq) as H. rewrite Hl in H.
  by apply linked_join.
Qed.

Lemma qrep_path_range q x : isq n q -> x ∈ q :: Q q ++ [q + 1] -> 0 <= x < NQENT.
Proof.
  intros Hq Hx. pose proof (qr_tid _ _ _ HQ q) as Ht.
  rewrite elem_of_cons, elem_of_app, list_elem_of_singleton in Hx.
  unfold isq, NQENT, NTHREAD, NSEM in *.
  destruct Hx as [-> | [Hx | ->]]; [lia | | lia].
  specialize (Ht x Hq Hx). lia.
Qed.

(** The queue [q] now holds [l]; the links of the other queues are as before. *)
Lemma qrep_update qt' q l :
  isq n q ->
  (forall i, is_Some (qt' !! i) <-> is_Some (qt !! i)) ->
  linked qt' (q :: l ++ [q + 1]) ->
  (forall q' x, isq n q' -> q' <> q -> x ∈ q' :: Q q' ++ [q' + 1] ->
     nxt qt' x = nxt qt x /\ prv qt' x = prv qt x) ->
  (forall x, NTHREAD <= x -> qkey qt' x = qkey qt x) ->
  (forall x, x ∈ l -> 0 <= x < NTHREAD) -> NoDup l ->
  (forall q' x, isq n q' -> q' <> q -> x ∈ l -> x ∉ Q q') ->
  qrep n qt' (<[q := l]> Q).
Proof.
  intros Hq Hdom Hlk Hother Hk Hr Hnd Hdj. constructor.
  - intros i. rewrite Hdom. apply (qr_dom _ _ _ HQ).
  - intros q' Hq'. destruct (decide (q = q')) as [<- | Hne].
    + by rewrite fn_lookup_insert.
    + rewrite fn_lookup_insert_ne by done.
      apply (linked_frame qt); [| | by apply (qr_link _ _ _ HQ)];
        intros x Hx; by apply (Hother q').
  - intros q' Hq'. rewrite Hk by (unfold isq in Hq'; lia). by apply (qr_hkey _ _ _ HQ).
  - intros q' Hq'. rewrite Hk by (unfold isq in Hq'; lia). by apply (qr_tkey _ _ _ HQ).
  - intros q' x Hq'. destruct (decide (q = q')) as [<- | Hne].
    + rewrite fn_lookup_insert. apply Hr.
    + rewrite fn_lookup_insert_ne by done. by apply (qr_tid _ _ _ HQ).
  - intros q' Hq'. destruct (decide (q = q')) as [<- | Hne].
    + by rewrite fn_lookup_insert.
    + rewrite fn_lookup_insert_ne by done. by apply (qr_nodup _ _ _ HQ).
  - intros q1 q2 x Hq1 Hq2.
    pose proof (qr_disj _ _ _ HQ q1 q2 x Hq1 Hq2) as Hd.
    destruct (decide (q = q1)) as [<- | H1], (decide (q = q2)) as [<- | H2];
      rewrite ?fn_lookup_insert, ?fn_lookup_insert_ne by done; [done | | | done];
      intros Hx1 Hx2; exfalso; [eapply (Hdj q2 x) | eapply (Hdj q1 x)]; eauto.
Qed.

(** Only links of entries on no path have changed. *)
Lemma qrep_ext qt' :
  (forall i, is_Some (qt' !! i) <-> is_Some (qt !! i)) ->
  (forall q x, isq n q -> x ∈ q :: Q q ++ [q + 1] ->
     nxt qt' x = nxt qt x /\ prv qt' x = prv qt x) ->
  (forall x, NTHREAD <= x -> qkey qt' x = qkey qt x) ->
  qrep n qt' Q.
Proof.
  intros Hdom Hl Hk. destruct HQ. constructor; try done.
  - intros i. by rewrite Hdom.
  - intros q Hq. apply (linked_frame qt); [| | auto]; intros x Hx; by apply (Hl q).
  - intros q Hq. rewrite Hk by (unfold isq in Hq; lia). auto.
  - intros q Hq. rewrite Hk by (unfold isq in Hq; lia). auto.
Qed.

(** [t], which is in no queue, goes between [l1] and [l2]. *)
Lemma qrep_insert qt' q l1 l2 a b t :
  isq n q -> Q q = l1 ++ l2 -> lastof q l1 a -> firstof q l2 b ->
  0 <= t < NTHREAD -> (forall q', isq n q' -> t ∉ Q q') ->
  (forall i, is_Some (qt' !! i) <-> is_Some (qt !! i)) ->
  (forall x, nxt qt' x = if decide (x = a) then Some t
                         else if decide (x = t) then Some b else nxt qt x) ->
  (forall x, prv qt' x = if decide (x = b) then Some t
                         else if decide (x = t) then Some a else prv qt x) ->
  (forall x, NTHREAD <= x -> qkey qt' x = qkey qt x) ->
  qrep n qt' (<[q := l1 ++ t :: l2]> Q).
Proof.
  intros Hq Hl Ha Hb Ht Hfree Hdom Hn Hp Hk.
  assert (Htp : forall q', isq n q' -> t ∉ q' :: Q q' ++ [q' + 1]).
  { intros q' Hq'. specialize (Hfree q' Hq'). unfold isq in Hq'.
    rewrite elem_of_cons, elem_of_app, list_elem_of_singleton.
    intros [-> | [? | ->]]; [lia | done | lia]. }
  assert (Ha' : a ∈ q :: Q q ++ [q + 1]).
  { rewrite Hl. apply lastof_elem in Ha. set_solver. }
  assert (Hb' : b ∈ q :: Q q ++ [q + 1]).
  { rewrite Hl. apply firstof_elem in Hb. set_solver. }
  apply qrep_update; try done.
  - pose proof (qr_link _ _ _ HQ q Hq) as HL. pose proof (qrep_path_nodup q Hq) as HN.
    specialize (Htp q Hq). destruct Ha as [p1 H1], Hb as [p2 H2].
    rewrite Hl, (path_split _ _ _ _ _ _ _ H1 H2) in HL, HN, Htp.
    replace (q :: (l1 ++ t :: l2) ++ [q + 1]) with (p1 ++ a :: t :: b :: p2).
    + by apply (linked_insert qt).
    + rewrite <- app_assoc. cbn [app]. rewrite H2.
      change (q :: l1 ++ t :: b :: p2) with ((q :: l1) ++ t :: b :: p2).
      by rewrite H1, <- app_assoc.
  - intros q' x Hq' Hne Hx. rewrite Hn, Hp.
    assert (x <> t) by (intros ->; by apply (Htp q')).
    assert (x <> a) by (intros ->; by apply (qrep_path_disj q q' a)).
    assert (x <> b) by (intros ->; by apply (qrep_path_disj q q' b)).
    by rewrite !decide_False.
  - intros x Hx. destruct (decide (x = t)) as [-> | ?]; [done |].
    apply (qr_tid _ _ _ HQ q); [done |]. rewrite Hl. set_solver.
  - rewrite <- Permutation_middle. apply NoDup_cons. rewrite <- Hl.
    split; [by apply Hfree | by apply (qr_nodup _ _ _ HQ)].
  - intros q' x Hq' Hne Hx Hx'. destruct (decide (x = t)) as [-> | ?].
    + by apply (Hfree q').
    + apply Hne. apply (qr_disj _ _ _ HQ _ _ x); try done. rewrite Hl. set_solver.
Qed.

(** [t] leaves the queue [q]. *)
Lemma qrep_remove qt' q l1 l2 a b t :
  isq n q -> Q q = l1 ++ t :: l2 -> lastof q l1 a -> firstof q l2 b ->
  (forall i, is_Some (qt' !! i) <-> is_Some (qt !! i)) ->
  (forall x, x <> t -> nxt qt' x = if decide (x = a) then Some b else nxt qt x) ->
  (forall x, x <> t -> prv qt' x = if decide (x = b) then Some a else prv qt x) ->
  (forall x, NTHREAD <= x -> qkey qt' x = qkey qt x) ->
  qrep n qt' (<[q := l1 ++ l2]> Q).
Proof.
  intros Hq Hl Ha Hb Hdom Hn Hp Hk.
  assert (Ha' : a ∈ q :: Q q ++ [q + 1]).
  { rewrite Hl. apply lastof_elem in Ha. set_solver. }
  assert (Hb' : b ∈ q :: Q q ++ [q + 1]).
  { rewrite Hl. apply firstof_elem in Hb. set_solver. }
  assert (Ht' : t ∈ q :: Q q ++ [q + 1]) by (rewrite Hl; set_solver).
  assert (Hsub : forall x, x ∈ l1 ++ l2 -> x ∈ Q q) by (rewrite Hl; set_solver).
  apply qrep_update; try done.
  - pose proof (qr_link _ _ _ HQ q Hq) as HL. pose proof (qrep_path_nodup q Hq) as HN.
    destruct Ha as [p1 H1], Hb as [p2 H2].
    rewrite (path_split _ _ _ _ _ _ _ H1 H2).
    assert (E : q :: Q q ++ [q + 1] = p1 ++ a :: t :: b :: p2).
    { rewrite Hl, <- app_assoc. cbn [app]. rewrite H2.
      change (q :: l1 ++ t :: b :: p2) with ((q :: l1) ++ t :: b :: p2).
      by rewrite H1, <- app_assoc. }
    rewrite E in HL, HN. by apply (linked_remove qt qt' p1 a t b p2).
  - intros q' x Hq' Hne Hx.
    assert (x <> t) by (intros ->; by apply (qrep_path_disj q q' t)).
    assert (x <> a) by (intros ->; by apply (qrep_path_disj q q' a)).
    assert (x <> b) by (intros ->; by apply (qrep_path_disj q q' b)).
    rewrite Hn, Hp by done. by rewrite !decide_False.
  - intros x Hx. by apply (qr_tid _ _ _ HQ q), Hsub.
  - pose proof (qr_nodup _ _ _ HQ q Hq) as HN. rewrite Hl in HN.
    rewrite <- Permutation_middle in HN. by apply NoDup_cons in HN as [_ ?].
  - intros q' x Hq' Hne Hx Hx'. apply Hne. symmetry.
    apply (qr_disj _ _ _ HQ _ _ x); auto.
Qed.
End Rep.

(** ** Specifications of the routines *)

Lemma nxt_Some qt x y : nxt qt x = Some y <-> exists e, qt !! x = Some e /\ q_next e = y.
Proof. unfold nxt. rewrite fmap_Some. naive_solver. Qed.

Lemma prv_Some qt x y : prv qt x = Some y <-> exists e, qt !! x = Some e /\ q_prev e = y.
Proof. unfold prv. rewrite fmap_Some. naive_solver. Qed.

Lemma qkey_Some qt x k : qkey qt x = Some k <-> exists e, qt !! x = Some e /\ q_key e = k.
Proof. unfold qkey. rewrite fmap_Some. naive_solver. Qed.

(** A goal about the links or keys of an updated table, entry by entry. *)
Ltac qentries :=
  intros; unfold nxt, prv, qkey; rewrite ?lookup_insert;
  repeat case_decide; subst; try lia; try congruence;
  repeat match goal with H : _ !! _ = Some _ |- _ => rewrite H end; simpl; try done.

(** The updated table has the same entries. *)
Ltac qdom := intros i; do ? (erewrite insert_same_dom by lkp); done.

Lemma run_isbadtid s t e :
  0 <= t < NTHREAD -> thrtab s !! t = Some e ->
  run (isbadtid t) s = Done (bool_decide (t_state e = THRFREE)) s.
Proof.
  intros Ht He. unfold isbadtid.
  replace ((t >=? NTHREAD) || (t <? 0)) with false
    by (symmetry; rewrite orb_false_iff, Z.geb_leb, Z.leb_gt, Z.ltb_ge; lia).
  by prun.
Qed.

(** Some thread of the table is not free. *)
Definition goodtid (s : kst) (t : Z) (e : thrent) : Prop :=
  0 <= t < NTHREAD /\ thrtab s !! t = Some e /\ t_state e <> THRFREE.

Lemma run_goodtid s t e : goodtid s t e -> run (isbadtid t) s = Done false s.
Proof.
  intros (Ht & He & Hs). rewrite (run_isbadtid s t e) by done.
  by rewrite bool_decide_eq_false_2.
Qed.

Section Specs.
Context (n : Z) (s : kst) (Q : Z -> list Z) (q : Z).
Hypothesis HQ : qrep n (quetab s) Q.
Hypothesis Hq : isq n q.

Lemma entry_of i : 0 <= i < NQENT -> exists e, quetab s !! i = Some e.
Proof. intros H. apply (qr_dom _ _ _ HQ) in H as [e He]. eauto. Qed.

(** The neighbours around a place of the queue, with their entries. *)
Lemma neighbours l1 l2 :
  Q q = l1 ++ l2 ->
  exists a b ea eb, lastof q l1 a /\ firstof q l2 b /\ a <> b /\
    quetab s !! a = Some ea /\ quetab s !! b = Some eb /\
    q_next ea = b /\ q_prev eb = a.
Proof.
  intros Hl. destruct (lastof_exists q l1) as [a Ha], (firstof_exists q l2) as [b Hb].
  destruct (qrep_ends HQ q l1 l2 a b Hq Hl Ha Hb) as [Hn Hp].
  apply nxt_Some in Hn as (ea & Hea & Hn). apply prv_Some in Hp as (eb & Heb & Hp).
  exists a, b, ea, eb. split_and!; try done.
  pose proof (qrep_path_nodup HQ q Hq) as HN. destruct Ha as [p1 H1], Hb as [p2 H2].
  rewrite Hl, (path_split _ _ _ _ _ _ _ H1 H2) in HN.
  apply NoDup_app in HN as (_ & _ & HN). apply NoDup_cons in HN as [HN _]. set_solver.
Qed.

Lemma neighbours_ne l1 l2 a b t :
  Q q = l1 ++ l2 -> lastof q l1 a -> firstof q l2 b ->
  0 <= t < NTHREAD -> t ∉ Q q -> a <> t /\ b <> t.
Proof.
  intros Hl Ha%lastof_elem Hb%firstof_elem Ht Hfree. rewrite Hl in Hfree.
  unfold isq in Hq.
  split; intros ->; [apply elem_of_cons in Ha as [-> | Ha] | apply elem_of_app in Hb as [Hb | Hb]];
    try lia; try set_solver. apply list_elem_of_singleton in Hb. lia.
Qed.

Lemma run_isempty : run (isempty q) s = Done (bool_decide (Q q = [])) s.
Proof.
  destruct (neighbours [] (Q q) eq_refl) as (a & b & ea & eb & ->%lastof_nil_inv & Hb & _ & Hea & _ & Hn & _).
  unfold isempty, quehead. prun. do 2 f_equal. rewrite Hn, Z.geb_leb.
  destruct (Q q) as [|x l] eqn:E.
  - apply firstof_nil_inv in Hb as ->. rewrite bool_decide_eq_true_2 by done.
    apply Z.leb_le. unfold isq in Hq. lia.
  - apply firstof_cons_inv in Hb as ->. rewrite bool_decide_eq_false_2 by done.
    apply Z.leb_gt. apply (qr_tid _ _ _ HQ q); [done |]. rewrite E. set_solver.
Qed.

Lemma run_nonempty : run (nonempty q) s = Done (bool_decide (Q q <> [])) s.
Proof.
  pose proof run_isempty as H. revert H. unfold isempty, nonempty.
  rewrite !run_bind. destruct (run (qent (quehead q)) s); cbn [obind]; try done.
  rewrite !run_ret. intros [= H <-]. do 2 f_equal.
  rewrite Z.geb_leb in H. rewrite Z.ltb_antisym, H.
  by destruct (Q q).
Qed.

Lemma run_firstkey x l : Q q = x :: l ->
  exists e, quetab s !! x = Some e /\ run (firstkey q) s = Done (q_key e) s.
Proof.
  intros Hl.
  destruct (neighbours [] (x :: l) Hl) as (a & b & ea & eb & ->%lastof_nil_inv & ->%firstof_cons_inv & _ & Hea & Heb & Hn & _).
  exists eb. split; [done |]. unfold firstkey, quehead. prun. rewrite Hn. by prun.
Qed.

Lemma enqueue_spec t e :
  goodtid s t e -> (forall q', isq n q' -> t ∉ Q q') ->
  exists qt', run (enqueue t q) s = Done t (set_quetab qt' s) /\
    qrep n qt' (<[q := Q q ++ [t]]> Q) /\
    forall x, qkey qt' x = qkey (quetab s) x.
Proof.
  intros Hg Hfree. pose proof Hg as (Ht & _).
  destruct (neighbours (Q q) [] ltac:(by rewrite app_nil_r))
    as (a & b & ea & eb & Ha & Hb & Hab & Hea & Heb & Hn & Hp).
  destruct (neighbours_ne (Q q) [] a b t ltac:(by rewrite app_nil_r) Ha Hb Ht (Hfree q Hq)) as [Hat Hbt].
  pose proof (firstof_nil_inv _ _ Hb) as ->.
  destruct (entry_of t) as [et Het]; [unfold NQENT, NTHREAD, NSEM in *; lia |].
  unfold enqueue, quetail. rewrite (isbadqid_isq n) by done.
  rewrite run_bind, (run_goodtid s t e) by done. cbn [obind].
  prun1. prun1. rewrite Hp. prun.
  eexists. split; [reflexivity |]. split; [| qentries].
  eapply (qrep_insert HQ) with (a := a) (b := q + 1); eauto;
    [by rewrite app_nil_r | | qentries | qentries | qentries].
  qdom.
Qed.

Lemma getitem_spec l1 t l2 :
  Q q = l1 ++ t :: l2 ->
  exists qt', run (getitem t) s = Done t (set_quetab qt' s) /\
    qrep n qt' (<[q := l1 ++ l2]> Q) /\
    (forall x, qkey qt' x = qkey (quetab s) x) /\
    nxt qt' t = Some EMPTY /\ prv qt' t = Some EMPTY.
Proof.
  intros Hl.
  destruct (neighbours l1 (t :: l2) Hl)
    as (a & b0 & ea & et & Ha & ->%firstof_cons_inv & Hat & Hea & Het & Hna & Hpt).
  destruct (neighbours (l1 ++ [t]) l2 ltac:(by rewrite <- app_assoc))
    as (a0 & b & et' & eb & [p Hp] & Hb & Htb & Het' & Heb & Hnt & Hpb).
  change (q :: l1 ++ [t]) with ((q :: l1) ++ [t]) in Hp.
  apply app_inj_tail in Hp as [_ <-]. assert (et' = et) as -> by congruence.
  subst a b. assert (Hab : q_prev et <> q_next et).
  { pose proof (qrep_path_nodup HQ q Hq) as HN. destruct Ha as [p1 H1], Hb as [p2 H2].
    rewrite Hl, <- app_assoc in HN. cbn [app] in HN. rewrite H2 in HN.
    change (q :: l1 ++ t :: q_next et :: p2) with ((q :: l1) ++ t :: q_next et :: p2) in HN.
    rewrite H1, <- app_assoc in HN. apply NoDup_app in HN as (_ & _ & HN).
    apply NoDup_cons in HN as [HN _]. set_solver. }
  unfold getitem. prun.
  eexists. split; [reflexivity |]. split_and!; [| qentries ..].
  eapply (qrep_remove HQ); eauto; [qdom | qentries ..].
Qed.

Lemma getfirst_spec t l :
  Q q = t :: l ->
  exists qt', run (getfirst q) s = Done t (set_quetab qt' s) /\
    qrep n qt' (<[q := l]> Q) /\ (forall x, qkey qt' x = qkey (quetab s) x) /\
    nxt qt' t = Some EMPTY /\ prv qt' t = Some EMPTY.
Proof.
  intros Hl. destruct (getitem_spec [] t l Hl) as (qt' & Hrun & Hrest).
  destruct (neighbours [] (t :: l) Hl)
    as (a & b & ea & eb & ->%lastof_nil_inv & ->%firstof_cons_inv & _ & Hea & _ & Hn & _).
  exists qt'. split; [| done]. unfold getfirst. rewrite (isbadqid_isq n) by done.
  rewrite run_bind, run_isempty, Hl. cbn [obind]. rewrite bool_decide_eq_false_2 by done.
  unfold quehead. rewrite run_bind, (run_qent _ ea) by done. cbn [obind]. by rewrite Hn.
Qed.

Lemma getlast_spec t l :
  Q q = l ++ [t] ->
  exists qt', run (getlast q) s = Done t (set_quetab qt' s) /\
    qrep n qt' (<[q := l]> Q) /\ (forall x, qkey qt' x = qkey (quetab s) x).
Proof.
  intros Hl. destruct (getitem_spec l t [] Hl) as (qt' & Hrun & Hrep & Hk & _).
  destruct (neighbours (l ++ [t]) [] ltac:(by rewrite app_nil_r))
    as (a & b & ea & eb & [p Ha] & ->%firstof_nil_inv & _ & _ & Heb & _ & Hp).
  change (q :: l ++ [t]) with ((q :: l) ++ [t]) in Ha. apply app_inj_tail in Ha as [_ <-].
  exists qt'. rewrite app_nil_r in Hrep. split; [| done].
  unfold getlast. rewrite (isbadqid_isq n) by done.
  rewrite run_bind, run_isempty, Hl. cbn [obind].
  rewrite bool_decide_eq_false_2 by (by destruct l).
  unfold quetail. rewrite run_bind, (run_qent _ eb) by done. cbn [obind]. by rewrite Hp.
Qed.

Lemma dequeue_empty : Q q = [] -> run (dequeue q) s = Done EMPTY s.
Proof.
  intros Hl. unfold dequeue. rewrite (isbadqid_isq n) by done.
  by rewrite run_bind, run_isempty, Hl.
Qed.

Lemma dequeue_spec t l e :
  Q q = t :: l -> thrtab s !! t = Some e ->
  exists qt', run (dequeue q) s = Done t (set_quetab qt' s) /\
    qrep n qt' (<[q := l]> Q) /\ (forall x, qkey qt' x = qkey (quetab s) x).
Proof.
  intros Hl He. destruct (getfirst_spec t l Hl) as (qt1 & Hrun & Hrep & Hk & Hnt & Hpt).
  assert (Ht : 0 <= t < NTHREAD) by (apply (qr_tid _ _ _ HQ q); [done | rewrite Hl; set_solver]).
  unfold dequeue. rewrite (isbadqid_isq n) by done.
  rewrite run_bind, run_isempty, Hl. cbn [obind]. rewrite bool_decide_eq_false_2 by done.
  rewrite run_bind, Hrun. cbn [obind].
  rewrite run_bind, (run_isbadtid _ t e) by done. cbn [obind].
  case_bool_decide; prun; [by exists qt1 |].
  apply nxt_Some in Hnt as (et & Het & Hnt).
  apply prv_Some in Hpt as (et' & Het' & Hpt). simplify_eq. prun.
  eexists. split; [reflexivity |]. split; [| intros x; rewrite <- Hk; qentries].
  apply (qrep_ext Hrep); [qdom | | qentries].
  split; qentries; congruence.
Qed.

(** *** Insertion by descending key *)

Lemma keyof_entry qt x e : qt !! x = Some e -> keyof qt x = q_key e.
Proof. intros H. unfold keyof, qkey. by rewrite H. Qed.

Lemma tail_entry :
  exists e, quetab s !! (q + 1) = Some e /\ q_key e = MINKEY.
Proof. apply qkey_Some, (qr_tkey _ _ _ HQ q Hq). Qed.

Lemma queue_entry x : x ∈ Q q -> exists e, quetab s !! x = Some e.
Proof.
  intros Hx. apply entry_of, (qrep_path_range HQ q); [done | set_solver].
Qed.

Lemma insert_loop t key l2 : forall l1 b fuel,
  MINKEY < key -> Q q = l1 ++ l2 -> firstof q l2 b -> (length l2 < fuel)%nat ->
  exists m1 m2 b', l2 = m1 ++ m2 /\ firstof q m2 b' /\
    pinsert (keyof (quetab s)) t key l2 = m1 ++ t :: m2 /\
    run (while_ fuel (fun next => e ← qent next; mret (q_key e >=? key))
           (fun next => e ← qent next; mret (q_next e)) b) s = Done b' s.
Proof.
  induction l2 as [|x l2 IH]; intros l1 b fuel Hkey Hl Hb Hf;
    (destruct fuel as [|fuel]; [simpl in Hf; lia |]); cbn [while_].
  - apply firstof_nil_inv in Hb as ->. destruct tail_entry as (e & He & Hk).
    exists [], [], (q + 1). split_and!; [done | apply firstof_nil | done |].
    prun. rewrite Hk. replace (MINKEY >=? key) with false by lia. by prun.
  - apply firstof_cons_inv in Hb as ->.
    destruct (queue_entry x) as [e He]; [rewrite Hl; set_solver |].
    prun. cbn [pinsert]. rewrite (keyof_entry _ x e He).
    destruct (q_key e >=? key).
    + assert (Hl' : Q q = (l1 ++ [x]) ++ l2) by by rewrite Hl, <- app_assoc.
      destruct (neighbours _ _ Hl')
        as (a & b & ea & eb & [p Ha] & Hb & _ & Hea & _ & Hn & _).
      change (q :: l1 ++ [x]) with ((q :: l1) ++ [x]) in Ha.
      apply app_inj_tail in Ha as [_ <-]. simplify_eq.
      destruct (IH _ _ fuel Hkey Hl' Hb) as (m1 & m2 & b' & -> & Hb' & Hpi & Hrun);
        [simpl in Hf; lia |].
      exists (x :: m1), m2, b'. split_and!; [done | done | by rewrite Hpi |].
      by prun.
    + exists [], (x :: l2), x. split_and!; [done | apply firstof_cons | done | by prun].
Qed.

Lemma queue_length : Z.of_nat (length (Q q)) <= NTHREAD.
Proof.
  assert (Hsub : Q q ⊆+ (Z.of_nat <$> seq 0 (Z.to_nat NTHREAD))).
  { apply NoDup_submseteq; [by apply (qr_nodup _ _ _ HQ) |]. intros x Hx.
    apply (qr_tid _ _ _ HQ) in Hx; [| done]. apply list_elem_of_fmap.
    exists (Z.to_nat x). split; [lia |]. apply elem_of_seq. lia. }
  apply submseteq_length in Hsub. rewrite length_fmap, length_seq in Hsub.
  unfold NTHREAD in *. lia.
Qed.

Lemma insert_spec t e key :
  goodtid s t e -> (forall q', isq n q' -> t ∉ Q q') -> MINKEY < key ->
  exists qt', run (insert t q key) s = Done OK (set_quetab qt' s) /\
    qrep n qt' (<[q := pinsert (keyof (quetab s)) t key (Q q)]> Q) /\
    forall x, qkey qt' x = if decide (x = t) then Some key else qkey (quetab s) x.
Proof.
  intros Hg Hfree Hkey. pose proof Hg as (Ht & _).
  destruct (neighbours [] (Q q) eq_refl)
    as (h & b0 & eh & eb0 & ->%lastof_nil_inv & Hb0 & _ & Heh & _ & Hnh & _).
  destruct (insert_loop t key (Q q) [] b0 QFUEL Hkey eq_refl Hb0)
    as (l1 & l2 & b & Hl & Hb & Hpi & Hrun).
  { pose proof queue_length. unfold QFUEL, NQENT, NTHREAD, NSEM in *. lia. }
  destruct (neighbours l1 l2 Hl)
    as (a & b' & ea & eb & Ha & Hb' & Hab & Hea & Heb & Hna & Hpb).
  assert (b' = b) as -> by (destruct Hb as [? Hb], Hb' as [? Hb']; congruence).
  destruct (neighbours_ne l1 l2 a b t Hl Ha Hb Ht (Hfree q Hq)) as [Hat Hbt].
  destruct (entry_of t) as [et Het]; [unfold NQENT, NTHREAD, NSEM in *; lia |].
  unfold insert, quehead. rewrite (isbadqid_isq n) by done.
  rewrite run_bind, (run_goodtid s t e) by done. cbn [obind].
  rewrite run_bind, (run_qent _ eh) by done. cbn [obind]. rewrite Hnh.
  rewrite run_bind, Hrun. cbn [obind]. prun. rewrite Hpb. prun.
  eexists. split; [reflexivity |]. rewrite Hpi. split; [| qentries].
  eapply (qrep_insert HQ) with (a := a) (b := b); eauto; [qdom | qentries ..].
Qed.

(** *** Insertion in a delta queue *)

(** The keys of the queue [q] are delays. *)
Definition delays (qt : gmap Z queent) (l : list Z) : Prop :=
  forall x, x ∈ l -> 0 <= keyof qt x <= INT_MAX.

(** The delta list after [t], with [key] left, is put before [m2]. *)
Definition dsplit (qt : gmap Z queent) (t key : Z) (m2 : list Z) : list (Z * Z) :=
  (t, key) :: match m2 with
              | [] => []
              | y :: r => (y, keyof qt y - key) :: deltas qt r
              end.

Lemma deltas_cons qt x l : deltas qt (x :: l) = (x, keyof qt x) :: deltas qt l.
Proof. done. Qed.

Lemma deltas_app qt l1 l2 : deltas qt (l1 ++ l2) = deltas qt l1 ++ deltas qt l2.
Proof. apply fmap_app. Qed.

Lemma deltas_fst qt l : (deltas qt l).*1 = l.
Proof. unfold deltas. rewrite <- list_fmap_compose. apply list_fmap_id. Qed.

Lemma dsplit_fst qt t key m2 : (dsplit qt t key m2).*1 = t :: m2.
Proof. destruct m2 as [|y r]; [done |]. cbn. by rewrite deltas_fst. Qed.

Lemma deltas_ext qt qt' l :
  (forall x, x ∈ l -> qkey qt' x = qkey qt x) -> deltas qt' l = deltas qt l.
Proof.
  intros H. apply list_fmap_ext. intros i x Hx. unfold keyof.
  by rewrite H by (by eapply list_elem_of_lookup_2).
Qed.

Lemma deltas_dsplit qt qt' t key l1 l2 :
  NoDup (l1 ++ t :: l2) ->
  (forall x, qkey qt' x =
     if decide (x = t) then Some key
     else if decide (Some x = head l2) then Some (keyof qt x - key) else qkey qt x) ->
  deltas qt' (l1 ++ t :: l2) = deltas qt l1 ++ dsplit qt t key l2.
Proof.
  intros HN Hk. apply NoDup_app in HN as (_ & HN1 & HN2).
  apply NoDup_cons in HN2 as [HN2 HN3].
  rewrite deltas_app, deltas_cons. f_equal; [| unfold dsplit; f_equal].
  - apply deltas_ext. intros x Hx. specialize (HN1 x Hx). rewrite Hk.
    repeat case_decide; subst; [set_solver | | done].
    destruct l2; [done |]. simplify_eq/=. set_solver.
  - unfold keyof. by rewrite Hk, decide_True.
  - destruct l2 as [|y r]; [done |]. apply NoDup_cons in HN3 as [HN3 _].
    rewrite deltas_cons. f_equal.
    + unfold keyof at 1. rewrite Hk, decide_False, decide_True by set_solver. done.
    + apply deltas_ext. intros x Hx. rewrite Hk.
      repeat case_decide; simplify_eq/=; set_solver.
Qed.

Lemma insertd_loop t l2 : forall l1 a b key fuel,
  Q q = l1 ++ l2 -> lastof q l1 a -> firstof q l2 b -> (length l2 < fuel)%nat ->
  0 <= key <= INT_MAX -> delays (quetab s) l2 ->
  exists m1 m2 a' b' key', l2 = m1 ++ m2 /\ lastof q (l1 ++ m1) a' /\ firstof q m2 b' /\
    0 <= key' <= INT_MAX /\ (forall y r, m2 = y :: r -> key' < keyof (quetab s) y) /\
    dinsert t key (deltas (quetab s) l2) =
      deltas (quetab s) m1 ++ dsplit (quetab s) t key' m2 /\
    run (while_ fuel
      (fun '(prev, next, key) =>
         e ← qent next; mret ((q_key e <=? key) && negb (next =? quetail q)))
      (fun '(prev, next, key) =>
         e ← qent next; mret (next, q_next e, i32 (key - q_key e)))
      (a, b, key)) s = Done (a', b', key') s.
Proof.
  induction l2 as [|x l2 IH]; intros l1 a b key fuel Hl Ha Hb Hf Hkey Hd;
    (destruct fuel as [|fuel]; [simpl in Hf; lia |]); cbn [while_].
  - apply firstof_nil_inv in Hb as ->. destruct tail_entry as (e & He & Hk).
    exists [], [], a, (q + 1), key.
    split_and!; [done | by rewrite app_nil_r | apply firstof_nil | lia .. | | | ]; [done | done |].
    unfold quetail. prun. rewrite Z.eqb_refl, andb_false_r. by prun.
  - apply firstof_cons_inv in Hb as ->.
    destruct (queue_entry x) as [e He]; [rewrite Hl; set_solver |].
    pose proof (Hd x ltac:(set_solver)) as Hx. rewrite (keyof_entry _ x e He) in Hx.
    assert (Hxt : (x =? quetail q) = false).
    { apply Z.eqb_neq. unfold quetail. unfold isq in Hq.
      assert (0 <= x < NTHREAD) by (apply (qr_tid _ _ _ HQ q); [done | rewrite Hl; set_solver]).
      lia. }
    prun. rewrite Hxt, andb_true_r. rewrite deltas_cons. cbn [dinsert].
    rewrite (keyof_entry _ x e He). destruct (Z.leb_spec (q_key e) key) as [Hle | Hgt].
    + assert (Hl' : Q q = (l1 ++ [x]) ++ l2) by by rewrite Hl, <- app_assoc.
      destruct (neighbours _ _ Hl')
        as (a0 & b & ea & eb & [p Ha0] & Hb & _ & Hea & _ & Hn & _).
      change (q :: l1 ++ [x]) with ((q :: l1) ++ [x]) in Ha0.
      apply app_inj_tail in Ha0 as [_ <-]. simplify_eq.
      destruct (IH (l1 ++ [x]) x (q_next e) (key - q_key e) fuel)
        as (m1 & m2 & a' & b' & key' & -> & Ha' & Hb' & Hkey' & Hlt & Hdi & Hrun);
        [done | apply lastof_snoc | done | simpl in Hf; lia | lia | by intros y ?; apply Hd; set_solver |].
      exists (x :: m1), m2, a', b', key'. rewrite <- app_assoc in Ha'.
      split_and!; try done; try lia.
      * rewrite Hdi, deltas_cons. by rewrite (keyof_entry _ x e He).
      * prun. rewrite i32_small by (unfold INT_MAX in *; lia). done.
    + exists [], (x :: l2), a, x, key. rewrite app_nil_r.
      split_and!; [done | done | apply firstof_cons | lia | lia | | | by prun].
      * intros y r [= <- <-]. by rewrite (keyof_entry _ x e He).
      * unfold dsplit. by rewrite (keyof_entry _ x e He).
Qed.

(** The table after the links and keys of [insertd] are written. *)
Lemma insertd_links t key key' l1 l2 a b qt' :
  Q q = l1 ++ l2 -> lastof q l1 a -> firstof q l2 b ->
  0 <= t < NTHREAD -> (forall q', isq n q' -> t ∉ Q q') ->
  dinsert t key (deltas (quetab s) (Q q)) =
    deltas (quetab s) l1 ++ dsplit (quetab s) t key' l2 ->
  (forall i, is_Some (qt' !! i) <-> is_Some (quetab s !! i)) ->
  (forall x, nxt qt' x = if decide (x = a) then Some t
                         else if decide (x = t) then Some b else nxt (quetab s) x) ->
  (forall x, prv qt' x = if decide (x = b) then Some t
                         else if decide (x = t) then Some a else prv (quetab s) x) ->
  (forall x, qkey qt' x =
     if decide (x = t) then Some key'
     else if decide (Some x = head l2) then Some (keyof (quetab s) x - key')
     else qkey (quetab s) x) ->
  qrep n qt' (<[q := l1 ++ t :: l2]> Q) /\
  deltas qt' (l1 ++ t :: l2) = dinsert t key (deltas (quetab s) (Q q)) /\
  (forall x, x ∉ Q q -> x <> t -> qkey qt' x = qkey (quetab s) x).
Proof.
  intros Hl Ha Hb Ht Hfree Hdi Hdom Hn Hp Hk.
  assert (Hhd : forall x, Some x = head l2 -> x ∈ Q q).
  { intros x Hx. symmetry in Hx. apply head_Some in Hx as [r ->]. rewrite Hl. auto with xinu. }
  split_and!.
  - eapply (qrep_insert HQ) with (a := a) (b := b); eauto.
    intros x Hx. rewrite Hk, !decide_False; [done | | lia].
    intros Hx'%Hhd%(qr_tid _ _ _ HQ q); [lia | done].
  - rewrite Hdi. apply deltas_dsplit; [| done].
    rewrite <- Permutation_middle, <- Hl. apply NoDup_cons.
    split; [by apply Hfree | by apply (qr_nodup _ _ _ HQ)].
  - intros x Hx Hxt. rewrite Hk, !decide_False; [done | | done].
    intros Hx'. by apply Hx, Hhd.
Qed.

Lemma insertd_spec t e key :
  goodtid s t e -> (forall q', isq n q' -> t ∉ Q q') ->
  0 <= key <= INT_MAX -> delays (quetab s) (Q q) ->
  exists qt' l', run (insertd t q key) s = Done OK (set_quetab qt' s) /\
    qrep n qt' (<[q := l']> Q) /\
    deltas qt' l' = dinsert t key (deltas (quetab s) (Q q)) /\
    (forall x, x ∉ Q q -> x <> t -> qkey qt' x = qkey (quetab s) x).
Proof.
  intros Hg Hfree Hkey Hd. pose proof Hg as (Ht & _).
  destruct (neighbours [] (Q q) eq_refl)
    as (h & b0 & eh & eb0 & ->%lastof_nil_inv & Hb0 & _ & Heh & _ & Hnh & _).
  destruct (insertd_loop t (Q q) [] q b0 key QFUEL eq_refl (lastof_nil q) Hb0)
    as (l1 & l2 & a & b & key' & Hl & Ha & Hb & Hkey' & Hlt & Hdi & Hrun); [| done | done |].
  { pose proof queue_length. unfold QFUEL, NQENT, NTHREAD, NSEM in *. lia. }
  destruct (neighbours l1 l2 Hl)
    as (a' & b' & ea & eb & Ha' & Hb' & Hab & Hea & Heb & Hna & Hpb).
  assert (b' = b) as -> by (destruct Hb as [? Hb], Hb' as [? Hb']; congruence).
  assert (a' = a) as ->.
  { destruct Ha as [? Ha], Ha' as [? Ha']. cbn [app] in Ha. rewrite Ha in Ha'.
    by apply app_inj_tail in Ha' as [_ ->]. }
  destruct (neighbours_ne l1 l2 a b t Hl Ha Hb Ht (Hfree q Hq)) as [Hat Hbt].
  destruct (entry_of t) as [et Het]; [unfold NQENT, NTHREAD, NSEM in *; lia |].
  unfold insertd, quehead. rewrite (isbadqid_isq n) by done.
  rewrite run_bind, (run_goodtid s t e) by done. cbn [obind].
  rewrite run_bind, (run_qent _ eh) by done. cbn [obind]. rewrite Hnh.
  rewrite run_bind, Hrun. cbn [obind]. prun. unfold quetail. clear Hna Hpb.
  destruct l2 as [|y r].
  - apply firstof_nil_inv in Hb as Hb1. subst b. rewrite Z.eqb_refl. prun.
    eexists _, _. split; [reflexivity |].
    apply (insertd_links t key key' l1 [] a (q + 1)); try done; [qdom | qentries ..].
  - apply firstof_cons_inv in Hb as Hb1. subst b.
    pose proof (Hd y ltac:(rewrite Hl; auto with xinu)) as Hy.
    specialize (Hlt y r eq_refl). rewrite (keyof_entry _ y eb Heb) in Hlt, Hy.
    assert (Hyq : y <> q + 1).
    { unfold isq in Hq.
      pose proof (qr_tid _ _ _ HQ q y Hq ltac:(rewrite Hl; auto with xinu)). lia. }
    rewrite (proj2 (Z.eqb_neq y (q + 1))) by done. prun.
    eexists _, _. split; [reflexivity |].
    apply (insertd_links t key key' l1 (y :: r) a y); try done; [qdom | qentries | qentries |].
    intros x. unfold qkey. rewrite ?lookup_insert. cbn [head].
    repeat case_decide; simplify_eq; try done.
    + rewrite (keyof_entry _ x eb Heb). cbn.
      by rewrite i32_small by (unfold INT_MAX in *; lia).
    + by rewrite Hea.
Qed.
End Specs.

(** [queinit] hands out an empty queue and leaves the others alone. *)
Lemma qrep_queinit n qt qt' Q :
  qrep n qt Q -> NTHREAD <= n -> n mod 2 = 0 -> n + 2 <= NQENT ->
  (forall i, is_Some (qt' !! i) <-> is_Some (qt !! i)) ->
  (forall x, x < n -> qt' !! x = qt !! x) ->
  nxt qt' n = Some (n + 1) -> prv qt' (n + 1) = Some n ->
  qkey qt' n = Some MAXKEY -> qkey qt' (n + 1) = Some MINKEY ->
  qrep (n + 2) qt' (<[n := []]> Q).
Proof.
  intros HQ Hlo Hev Hhi Hdom Hsame Hn Hp Hk1 Hk2.
  assert (Hisq : forall q, isq (n + 2) q -> q = n \/ isq n q /\ n <> q /\ q + 1 < n)
    by (unfold isq; intros; lia).
  constructor.
  - intros i. rewrite Hdom. apply (qr_dom _ _ _ HQ).
  - intros q [-> | (Hq & Hne & Hlt)]%Hisq; [by rewrite fn_lookup_insert |].
    rewrite fn_lookup_insert_ne by done.
    assert (Hpath : forall x, x ∈ q :: Q q ++ [q + 1] -> x < n).
    { intros x. rewrite elem_of_cons, elem_of_app, list_elem_of_singleton.
      intros [-> | [Hx | ->]]; try lia. apply (qr_tid _ _ _ HQ) in Hx; [lia | done]. }
    apply (linked_frame qt); [| | by apply (qr_link _ _ _ HQ)];
      intros x Hx%Hpath; unfold nxt, prv; by rewrite Hsame.
  - intros q [-> | (Hq & Hne & Hlt)]%Hisq; [done |].
    unfold qkey. rewrite Hsame by lia. by apply (qr_hkey _ _ _ HQ).
  - intros q [-> | (Hq & Hne & Hlt)]%Hisq; [done |].
    unfold qkey. rewrite Hsame by lia. by apply (qr_tkey _ _ _ HQ).
  - intros q x [-> | (Hq & Hne & Hlt)]%Hisq;
      rewrite ?fn_lookup_insert, ?fn_lookup_insert_ne by done; [by intros ?%not_elem_of_nil |].
    by apply (qr_tid _ _ _ HQ).
  - intros q [-> | (Hq & Hne & Hlt)]%Hisq;
      rewrite ?fn_lookup_insert, ?fn_lookup_insert_ne by done; [constructor |].
    by apply (qr_nodup _ _ _ HQ).
  - intros q q' x [-> | (Hq & Hne & Hlt)]%Hisq [-> | (Hq' & Hne' & Hlt')]%Hisq;
      rewrite ?fn_lookup_insert, ?fn_lookup_insert_ne by done;
      [done | by intros ?%not_elem_of_nil | by intros _ ?%not_elem_of_nil |].
    by apply (qr_disj _ _ _ HQ).
Qed.

Lemma queinit_spec s Q :
  let n := nextqid s in
  qrep n (quetab s) Q -> NTHREAD <= n -> n mod 2 = 0 -> n + 2 <= NQENT ->
  exists qt', run queinit s = Done n (set_quetab qt' (set_nextqid (n + 2) s)) /\
    qrep (n + 2) qt' (<[n := []]> Q) /\
    (forall x, x < n -> qt' !! x = quetab s !! x).
Proof.
  intros n HQ Hlo Hev Hhi.
  destruct (entry_of n s Q HQ n) as [eh Heh]; [unfold NTHREAD in *; lia |].
  destruct (entry_of n s Q HQ (n + 1)) as [et Het]; [unfold NTHREAD in *; lia |].
  unfold queinit, quehead, quetail. prun. fold n.
  replace (n >? NQENT) with false by lia. prun.
  eexists. split; [reflexivity |].
  assert (Hsame : forall x, x < n -> <[n + 1:=set_q_key MINKEY (set_q_prev n (set_q_next EMPTY et))]>
    (<[n + 1:=set_q_prev n (set_q_next EMPTY et)]> (<[n + 1:=set_q_next EMPTY et]>
    (<[n:=set_q_key MAXKEY (set_q_prev EMPTY (set_q_next (n + 1) eh))]>
    (<[n:=set_q_prev EMPTY (set_q_next (n + 1) eh)]> (<[n:=set_q_next (n + 1) eh]> (quetab s))))))
    !! x = quetab s !! x) by (intros x Hx; by rewrite !lookup_insert_ne by lia).
  split; [| exact Hsame].
  eapply qrep_queinit; try done; [qdom | qentries ..].
Qed.
