(* ===== verification/QueueFacts.v ===== *)
(** Facts about the lists the queues stand for: what insertion by key and
    insertion in a delta list do to the order and to the wake-up times, and the
    queues after a thread has left whichever of them it was in. *)
From Stdlib Require Import ZArith Lia.
From stdpp Require Import sorting gmap functions list.
From S2P Require Import Prelude Kernel Queue.

(** ** Insertion by descending key *)

Section Pinsert.
Context (kf : Z -> Z).

Lemma pinsert_perm t key l : pinsert kf t key l ≡ₚ t :: l.
Proof.
  induction l as [|x l IH]; cbn; [done |]. destruct (kf x >=? key); [| done].
  rewrite IH. apply Permutation_swap.
Qed.

Lemma pinsert_elem t key l x : x ∈ pinsert kf t key l <-> x = t \/ x ∈ l.
Proof. by rewrite pinsert_perm, elem_of_cons. Qed.

Lemma pinsert_split t key l :
  exists l1 l2, l = l1 ++ l2 /\ pinsert kf t key l = l1 ++ t :: l2 /\
    Forall (fun x => key <= kf x) l1 /\
    (forall y r, l2 = y :: r -> kf y < key).
Proof.
  induction l as [|x l IH]; cbn.
  - exists [], []. by split_and!.
  - destruct (Z.geb_spec (kf x) key) as [Hge | Hlt].
    + destruct IH as (l1 & l2 & -> & -> & H1 & H2).
      exists (x :: l1), l2. split_and!; [done | done | | done]. constructor; [lia | done].
    + exists [], (x :: l). split_and!; [done | done | done |]. by intros y r [= <- <-].
Qed.
End Pinsert.

(** Keys go down along the list. *)
Definition descending (kf : Z -> Z) (l : list Z) : Prop :=
  StronglySorted (fun x y => kf y <= kf x) l.

Lemma descending_ext kf kf' l :
  (forall x, x ∈ l -> kf' x = kf x) -> descending kf l -> descending kf' l.
Proof.
  unfold descending. induction l as [|x l IH]; intros He; [constructor |].
  intros [Hs Hf]%StronglySorted_inv. constructor.
  - apply IH; [set_solver | done].
  - rewrite Forall_forall in Hf |- *. intros y Hy. rewrite !He by set_solver. auto.
Qed.

Lemma descending_filter kf P `{forall x, Decision (P x)} l :
  descending kf l -> descending kf (filter P l).
Proof.
  unfold descending. induction l as [|x l IH]; [done |].
  intros [Hs Hf]%StronglySorted_inv. rewrite filter_cons. case_decide; [| auto].
  constructor; [auto |]. rewrite Forall_forall in Hf |- *. intros y [_ Hy]%list_elem_of_filter.
  auto.
Qed.

Lemma descending_pinsert kf kf' t key l :
  t ∉ l -> kf' t = key -> (forall x, x ∈ l -> kf' x = kf x) ->
  descending kf l -> descending kf' (pinsert kf t key l).
Proof.
  intros Ht Hkey He Hs. unfold descending.
  induction l as [|x l IH]; cbn; [repeat constructor |].
  apply StronglySorted_inv in Hs as [Hs Hf]. rewrite Forall_forall in Hf.
  destruct (Z.geb_spec (kf x) key) as [Hge | Hlt].
  - constructor; [apply IH; set_solver |]. rewrite Forall_forall.
    intros y [-> | Hy]%pinsert_elem; rewrite ?Hkey, !He by set_solver; [lia | auto].
  - constructor; [| rewrite Forall_forall; intros y Hy; rewrite Hkey].
    + apply (descending_ext kf kf'); [done |]. constructor; [done |]. by rewrite Forall_forall.
    + rewrite He by done. apply elem_of_cons in Hy as [-> | Hy]; [lia |].
      specialize (Hf y Hy). simpl in Hf. lia.
Qed.

Lemma descending_head kf x l y :
  descending kf (x :: l) -> y ∈ x :: l -> kf y <= kf x.
Proof.
  intros [_ Hf]%StronglySorted_inv. rewrite Forall_forall in Hf.
  intros [-> | Hy]%elem_of_cons; [lia | by apply Hf].
Qed.

(** ** Delta lists *)

(** The absolute times of a delta list that starts at time [now]. *)
Fixpoint abstimes (now : Z) (l : list (Z * Z)) : list (Z * Z) :=
  match l with
  | [] => []
  | (x, d) :: r => (x, now + d) :: abstimes (now + d) r
  end.

Lemma abstimes_ge now l :
  Forall (fun p => 0 <= p.2) l -> Forall (fun p => now <= p.2) (abstimes now l).
Proof.
  revert now. induction l as [|[x d] l IH]; intros now Hd; cbn; [constructor |].
  apply Forall_cons in Hd as [Hd1 Hd2]. simpl in Hd1. constructor; [simpl; lia |].
  eapply Forall_impl; [by apply IH |]. simpl. lia.
Qed.

Lemma dinsert_nonneg t key l :
  0 <= key -> Forall (fun p => 0 <= p.2) l -> Forall (fun p => 0 <= p.2) (dinsert t key l).
Proof.
  revert key. induction l as [|[x d] l IH]; intros key Hk Hl; cbn; [by repeat constructor |].
  apply Forall_cons in Hl as [Hd Hl]. simpl in Hd.
  destruct (Z.leb_spec d key); repeat constructor; simpl; try lia; try done.
  apply IH; [lia | done].
Qed.

(** Insertion leaves every other thread its time, and puts [t] after those that
    wake at the same time or before. *)
Lemma dinsert_abstimes t l : forall now key,
  0 <= key -> Forall (fun p => 0 <= p.2) l ->
  exists m1 m2, abstimes now l = m1 ++ m2 /\
    abstimes now (dinsert t key l) = m1 ++ (t, now + key) :: m2 /\
    Forall (fun p => p.2 <= now + key) m1 /\ Forall (fun p => now + key < p.2) m2.
Proof.
  induction l as [|[x d] l IH]; intros now key Hk Hl; cbn.
  - exists [], []. by split_and!.
  - apply Forall_cons in Hl as [Hd Hl]. simpl in Hd.
    destruct (Z.leb_spec d key) as [Hle | Hgt]; cbn.
    + destruct (IH (now + d) (key - d)) as (m1 & m2 & -> & -> & H1 & H2); [lia | done |].
      replace (now + d + (key - d)) with (now + key) in * by lia.
      exists ((x, now + d) :: m1), m2. split_and!; try done.
      constructor; [simpl; lia | done].
    + exists [], ((x, now + d) :: abstimes (now + d) l).
      replace (now + key + (d - key)) with (now + d) by lia.
      split_and!; [done | done | done |]. constructor; [simpl; lia |].
      eapply Forall_impl; [by apply abstimes_ge |]. simpl. lia.
Qed.

(** ** A thread leaves its queue *)

Definition qremove (t : Z) (Q : Z -> list Z) (q : Z) : list Z := filter (fun x => x <> t) (Q q).

Lemma qremove_elem t Q q x : x ∈ qremove t Q q <-> x <> t /\ x ∈ Q q.
Proof. unfold qremove. by rewrite list_elem_of_filter. Qed.

Lemma filter_ne_id t (l : list Z) : t ∉ l -> filter (fun x => x <> t) l = l.
Proof.
  induction l as [|x l IH]; intros Ht; [done |]. rewrite filter_cons.
  rewrite decide_True by set_solver. f_equal. apply IH. set_solver.
Qed.

Lemma qremove_id t Q q : t ∉ Q q -> qremove t Q q = Q q.
Proof. apply filter_ne_id. Qed.

Lemma qremove_mid t Q q l1 l2 :
  Q q = l1 ++ t :: l2 -> NoDup (Q q) -> qremove t Q q = l1 ++ l2.
Proof.
  intros Hl HN. unfold qremove. rewrite Hl in HN |- *.
  apply NoDup_app in HN as (_ & H1 & H2). apply NoDup_cons in H2 as [H2 _].
  rewrite filter_app, filter_cons, decide_False by naive_solver.
  rewrite !filter_ne_id; [done | done |]. intros Ht. apply (H1 t Ht). set_solver.
Qed.

Lemma qrep_Q_ext n qt Q Q' :
  (forall q, isq n q -> Q' q = Q q) -> qrep n qt Q -> qrep n qt Q'.
Proof.
  intros He [H1 H2 H3 H4 H5 H6 H7]. constructor; try done.
  - intros q Hq. rewrite He by done. by apply H2.
  - intros q t Hq. rewrite He by done. by apply H5.
  - intros q Hq. rewrite He by done. by apply H6.
  - intros q q' t Hq Hq'. rewrite !He by done. by apply H7.
Qed.

Lemma qrep_qremove n qt qt' Q q l1 t l2 :
  qrep n qt Q -> isq n q -> Q q = l1 ++ t :: l2 ->
  qrep n qt' (<[q := l1 ++ l2]> Q) -> qrep n qt' (qremove t Q).
Proof.
  intros HQ Hq Hl. apply qrep_Q_ext. intros q' Hq'.
  destruct (decide (q = q')) as [<- | Hne].
  - rewrite fn_lookup_insert. apply qremove_mid; [done |]. by apply (qr_nodup _ _ _ HQ).
  - rewrite fn_lookup_insert_ne by done. apply qremove_id. intros Ht. apply Hne.
    apply (qr_disj _ _ _ HQ _ _ t); [done.. | | done]. rewrite Hl. apply elem_of_mid.
Qed.

(** [getitem] on a thread that is in some queue. *)
Lemma getitem_remove n s Q q t :
  qrep n (quetab s) Q -> isq n q -> t ∈ Q q ->
  exists qt', run (getitem t) s = Done t (set_quetab qt' s) /\
    qrep n qt' (qremove t Q) /\ (forall x, qkey qt' x = qkey (quetab s) x).
Proof.
  intros HQ Hq Ht. apply list_elem_of_split in Ht as (l1 & l2 & Hl).
  destruct (getitem_spec n s Q q HQ Hq l1 t l2 Hl) as (qt' & Hrun & Hrep & Hk & _).
  exists qt'. split_and!; [done | by eapply qrep_qremove | done].
Qed.

(** [dequeue] on a queue with a first thread. *)
Lemma dequeue_remove n s Q q t l e :
  qrep n (quetab s) Q -> isq n q -> Q q = t :: l -> thrtab s !! t = Some e ->
  exists qt', run (dequeue q) s = Done t (set_quetab qt' s) /\
    qrep n qt' (qremove t Q) /\ (forall x, qkey qt' x = qkey (quetab s) x).
Proof.
  intros HQ Hq Hl He.
  destruct (dequeue_spec n s Q q HQ Hq t l e Hl He) as (qt' & Hrun & Hrep & Hk).
  exists qt'. split_and!; [done | by eapply (qrep_qremove n _ _ _ q []) | done].
Qed.

Lemma keyof_ext qt qt' x : qkey qt' x = qkey qt x -> keyof qt' x = keyof qt x.
Proof. unfold keyof. by intros ->. Qed.

(** ** The length of a delta queue in time *)

Definition dsum (kf : Z -> Z) (l : list Z) : Z := foldr (fun x a => kf x + a) 0 l.

Lemma dsum_app kf l1 l2 : dsum kf (l1 ++ l2) = dsum kf l1 + dsum kf l2.
Proof. induction l1 as [|x l IH]; cbn; [done |]. unfold dsum in IH |- *. lia. Qed.

Lemma dsum_ext kf kf' l : (forall x, x ∈ l -> kf' x = kf x) -> dsum kf' l = dsum kf l.
Proof.
  induction l as [|x l IH]; intros H; [done |]. cbn. rewrite H by (apply elem_of_cons; by left).
  f_equal. apply IH. intros y Hy. apply H, elem_of_cons. by right.
Qed.

Lemma dsum_nonneg kf l : (forall x, x ∈ l -> 0 <= kf x) -> 0 <= dsum kf l.
Proof.
  induction l as [|x l IH]; intros H; [done |]. cbn.
  pose proof (H x ltac:(apply elem_of_cons; by left)).
  assert (0 <= dsum kf l) by (apply IH; intros y Hy; apply H, elem_of_cons; by right).
  unfold dsum in *. lia.
Qed.

Lemma dsum_filter kf P `{forall x, Decision (P x)} l :
  (forall x, x ∈ l -> 0 <= kf x) -> dsum kf (filter P l) <= dsum kf l.
Proof.
  induction l as [|x l IH]; intros Hn; [done |]. rewrite filter_cons.
  pose proof (Hn x ltac:(apply elem_of_cons; by left)).
  assert (dsum kf (filter P l) <= dsum kf l) by (apply IH; intros y Hy; apply Hn, elem_of_cons; by right).
  destruct (decide (P x)); cbn; unfold dsum in *; lia.
Qed.

(** The same sum over the pairs of a delta list. *)
Definition psum (l : list (Z * Z)) : Z := foldr (fun p a => p.2 + a) 0 l.

Lemma psum_cons p l : psum (p :: l) = p.2 + psum l.
Proof. done. Qed.

Lemma psum_deltas qt l : psum (deltas qt l) = dsum (keyof qt) l.
Proof. induction l as [|x l IH]; cbn; [done |]. unfold psum, dsum, deltas in *. by rewrite IH. Qed.

Lemma psum_dinsert t l : forall key,
  Forall (fun p => 0 <= p.2) l -> psum (dinsert t key l) <= Z.max key (psum l).
Proof.
  induction l as [|[x d] l IH]; intros key Hl; cbn; [lia |].
  apply Forall_cons in Hl as [Hd Hl]. simpl in Hd.
  destruct (Z.leb_spec d key) as [Hle | Hgt]; cbn.
  - specialize (IH (key - d) Hl). unfold psum in *. lia.
  - assert (0 <= psum l).
    { clear IH. induction l as [|p l IH']; [done |]. apply Forall_cons in Hl as [? Hl]. cbn.
      specialize (IH' Hl). unfold psum in *. lia. }
    unfold psum in *. lia.
Qed.
