(* ===== verification/Sched.v ===== *)
(** The scheduler: system/ready.c, system/resched.c, system/resume.c,
    system/suspend.c, system/yield.c, system/chprio.c, system/getprio.c and
    system/gettid.c, with the invariant of the kernel tables that every system
    call keeps and the notion of a routine that is safe to run in a thread. *)
From Stdlib Require Import ZArith Lia.
From stdpp Require Import sorting gmap functions list.
From S2P Require Import Prelude Kernel Queue QueueFacts.

(** ** Routines *)

(** The context switch to the thread itself returns at once; to another thread it
    returns when this thread is switched back in. *)
Definition ctxsw (old new : Z) : kprog unit :=
  if old =? new then mret tt else switch.

(** [thrptr->state = THRREADY; insert(tid, readylist, thrptr->prio);] *)
Definition thread_ready (tid : Z) : kprog unit :=
  amend_thr tid (set_t_state THRREADY);;
  thrptr ← thr tid;
  rl ← gets readylist;
  insert tid rl (t_prio thrptr);;
  mret tt.

Definition ready (tid : Z) : kprog Z :=
  ENTER_KERNEL_CRITICAL_SECTION;;
  bad ← isbadtid tid;
  if (bad : bool) then EXIT_KERNEL_CRITICAL_SECTION;; mret SYSERR else
  thread_ready tid;;
  EXIT_KERNEL_CRITICAL_SECTION;;
  mret OK.

(** The second half of [resched]: the first ready thread becomes current; what
    follows the context switch is run by the old thread, when it is resumed. *)
Definition resched_tail (old : Z) : kprog Z :=
  throld ← thr old;
  restore (t_intmask throld);;
  mret OK.

Definition resched_pick (old rl : Z) : kprog Z :=
  new ← dequeue rl;
  modify (set_thrcurrent new);;
  amend_thr new (set_t_state THRCURR);;
  ctxsw old new;;
  resched_tail old.

Definition resched : kprog Z :=
  rd ← gets resdefer;
  if rd >? 0 then modify (set_resdefer (rd + 1));; mret OK else
  old ← gets thrcurrent;
  im ← disable;
  amend_thr old (set_t_intmask im);;
  throld ← thr old;
  rl ← gets readylist;
  stay ← (if bool_decide (t_state throld = THRCURR) then
            ne ← nonempty rl;
            top ← (if (ne : bool) then k ← firstkey rl; mret (t_prio throld >? k)
                   else mret false);
            if (top : bool) then restore (t_intmask throld);; mret true
            else
              amend_thr old (set_t_state THRREADY);;
              insert old rl (t_prio throld);;
              mret false
          else mret false);
  if (stay : bool) then mret OK else
  resched_pick old rl.

Definition resume (tid : Z) : kprog Z :=
  ENTER_KERNEL_CRITICAL_SECTION;;
  bad ← isbadtid tid;
  no ← (if (bad : bool) then mret true
        else e ← thr tid; mret (negb (bool_decide (t_state e = THRSUSP))));
  if (no : bool) then EXIT_KERNEL_CRITICAL_SECTION;; mret SYSERR else
  e ← thr tid;
  let prio := t_prio e in
  thread_ready tid;;
  EXIT_KERNEL_CRITICAL_SECTION;;
  resched;;
  mret prio.

Definition suspend (tid : Z) : kprog Z :=
  ENTER_KERNEL_CRITICAL_SECTION;;
  bad ← isbadtid tid;
  if bad || (NULLTHREAD =? tid) then EXIT_KERNEL_CRITICAL_SECTION;; mret SYSERR else
  e ← thr tid;
  if negb (bool_decide (t_state e = THRCURR)) && negb (bool_decide (t_state e = THRREADY))
  then EXIT_KERNEL_CRITICAL_SECTION;; mret SYSERR else
  (if bool_decide (t_state e = THRREADY) then
     getitem tid;;
     amend_thr tid (set_t_state THRSUSP);;
     EXIT_KERNEL_CRITICAL_SECTION
   else
     amend_thr tid (set_t_state THRSUSP);;
     EXIT_KERNEL_CRITICAL_SECTION;;
     resched;; mret tt);;
  e ← thr tid;
  mret (t_prio e).

Definition yield : kprog Z := resched;; mret OK.

Definition chprio (tid newprio : Z) : kprog Z :=
  im ← disable;
  bad ← isbadtid tid;
  if (bad : bool) then restore im;; mret SYSERR else
  e ← thr tid;
  let oldprio := t_prio e in
  amend_thr tid (set_t_prio newprio);;
  restore im;;
  mret oldprio.

Definition getprio (tid : Z) : kprog Z :=
  ENTER_KERNEL_CRITICAL_SECTION;;
  bad ← isbadtid tid;
  if (bad : bool) then EXIT_KERNEL_CRITICAL_SECTION;; mret SYSERR else
  e ← thr tid;
  let prio := t_prio e in
  EXIT_KERNEL_CRITICAL_SECTION;;
  mret prio.

Definition gettid : kprog Z := gets thrcurrent.

(** ** The kernel invariant *)

(** The queue of semaphore [i], the ready list and the sleep queue, as
    initialisation hands them out. *)
Definition semq (i : Z) : Z := NTHREAD + 2 * i.
Definition READYQ : Z := NTHREAD + 2 * NSEM.
Definition SLEEPQ : Z := READYQ + 2.

(** The queue a thread belongs in, by its state. *)
Definition loc (e : thrent) : option Z :=
  match t_state e with
  | THRREADY => Some READYQ
  | THRWAIT => Some (semq (t_sem e))
  | THRSLEEP | THRTMOUT => Some SLEEPQ
  | _ => None
  end.

(** The ids handed out at initialisation, and the cursors into the tables. *)
Record kstatic (s : kst) : Prop := {
  ks_nextqid : nextqid s = NQENT;
  ks_ready : readylist s = READYQ;
  ks_sleep : sleepq s = SLEEPQ;
  ks_crit : inCrit s = true;
  ks_cur : 0 <= thrcurrent s < NTHREAD;
  ks_nexttid : 0 <= nexttid s < NTHREAD;
  ks_nextsem : 0 <= nextsem s < NSEM
}.

Record kqueues (qt : gmap Z queent) (Q : Z -> list Z) : Prop := {
  kq_rep : qrep NQENT qt Q;
  kq_sorted : descending (keyof qt) (Q READYQ);
  kq_delays : delays qt (Q SLEEPQ);
  kq_total : dsum (keyof qt) (Q SLEEPQ) <= INT_MAX
}.

(** A thread is in the queue its state says, and in no other; only [cur] is
    current; the null thread can always run. *)
Record kthreads (tt : gmap Z thrent) (cur : Z) (Q : Z -> list Z) : Prop := {
  kt_dom : forall t, is_Some (tt !! t) <-> 0 <= t < NTHREAD;
  kt_loc : forall t e q, tt !! t = Some e -> isq NQENT q -> t ∈ Q q <-> loc e = Some q;
  kt_sem : forall t e, tt !! t = Some e -> t_state e = THRWAIT -> 0 <= t_sem e < NSEM;
  kt_prio : forall t e, tt !! t = Some e -> MINKEY < t_prio e;
  kt_null : forall e, tt !! NULLTHREAD = Some e ->
    t_state e = THRCURR \/ t_state e = THRREADY;
  kt_cur : forall t e, tt !! t = Some e -> t_state e = THRCURR -> t = cur
}.

(** A used semaphore with a negative count has that many threads waiting; with a
    count that is not negative, or when it is free, it has none. *)
Record ksems (st : gmap Z sement) (Q : Z -> list Z) : Prop := {
  kse_dom : forall i, is_Some (st !! i) <-> 0 <= i < NSEM;
  kse_queue : forall i e, st !! i = Some e -> s_queue e = semq i;
  kse_count : forall i e, st !! i = Some e -> s_state e = SUSED ->
    Z.of_nat (length (Q (semq i))) = Z.max 0 (- s_count e) /\
    INT_MIN <= s_count e <= INT_MAX;
  kse_free : forall i e, st !! i = Some e -> s_state e = SFREE -> Q (semq i) = []
}.

Record kinv (s : kst) (Q : Z -> list Z) : Prop := {
  ki_static : kstatic s;
  ki_queues : kqueues (quetab s) Q;
  ki_threads : kthreads (thrtab s) (thrcurrent s) Q;
  ki_sems : ksems (semtab s) Q
}.

(** The current thread is marked as such, and rescheduling is not deferred. *)
Definition running (s : kst) : Prop :=
  (exists e, thrtab s !! thrcurrent s = Some e /\ t_state e = THRCURR) /\ resdefer s <= 0.

(** ** Building blocks *)

Lemma isq_ready : isq NQENT READYQ.
Proof. unfold isq, NQENT, READYQ, NTHREAD, NSEM. lia. Qed.

Lemma isq_sleep : isq NQENT SLEEPQ.
Proof. unfold isq, NQENT, SLEEPQ, READYQ, NTHREAD, NSEM. lia. Qed.

Lemma isq_sem i : 0 <= i < NSEM -> isq NQENT (semq i).
Proof. unfold isq, NQENT, semq, NTHREAD, NSEM. lia. Qed.

Lemma semq_ne_ready i : 0 <= i < NSEM -> semq i <> READYQ.
Proof. unfold semq, READYQ. lia. Qed.

Lemma semq_ne_sleep i : 0 <= i < NSEM -> semq i <> SLEEPQ.
Proof. unfold semq, SLEEPQ, READYQ. lia. Qed.

Lemma semq_inj i j : semq i = semq j -> i = j.
Proof. unfold semq. lia. Qed.

#[export] Hint Resolve isq_ready isq_sleep isq_sem semq_ne_ready semq_ne_sleep : xinu.

Section Threads.
Context {tt : gmap Z thrent} {cur : Z} {Q : Z -> list Z}.
Hypothesis HT : kthreads tt cur Q.

Lemma thr_range t e : tt !! t = Some e -> 0 <= t < NTHREAD.
Proof. intros H. apply (kt_dom _ _ _ HT). by rewrite H. Qed.

Lemma thr_entry t : 0 <= t < NTHREAD -> exists e, tt !! t = Some e.
Proof. intros H. apply (kt_dom _ _ _ HT) in H as [e H]. eauto. Qed.

(** A thread whose state keeps it out of the queues is in none. *)
Lemma thr_detached t e : tt !! t = Some e -> loc e = None ->
  forall q, isq NQENT q -> t ∉ Q q.
Proof. intros He Hl q Hq Hin. apply (kt_loc _ _ _ HT t e q He Hq) in Hin. congruence. Qed.

(** Thread [t] gets the entry [e'] and the queues become [Q']. *)
Lemma kthreads_move t e' cur' Q' :
  0 <= t < NTHREAD ->
  (forall q x, isq NQENT q -> x <> t -> x ∈ Q' q <-> x ∈ Q q) ->
  (forall q, isq NQENT q -> t ∈ Q' q <-> loc e' = Some q) ->
  (t_state e' = THRWAIT -> 0 <= t_sem e' < NSEM) ->
  MINKEY < t_prio e' ->
  (t = NULLTHREAD -> t_state e' = THRCURR \/ t_state e' = THRREADY) ->
  (forall x e, <[t := e']> tt !! x = Some e -> t_state e = THRCURR -> x = cur') ->
  kthreads (<[t := e']> tt) cur' Q'.
Proof.
  intros Ht Hother Hself Hsem Hprio Hnull Hcur.
  destruct (thr_entry t Ht) as [e0 He0].
  constructor; try done.
  - intros x. rewrite (insert_same_dom _ _ _ _ _ He0). apply (kt_dom _ _ _ HT).
  - intros x e q. rewrite lookup_insert. case_decide as Hx; [subst; intros [= <-]; auto |].
    intros He Hq. rewrite (Hother q x) by done. by apply (kt_loc _ _ _ HT).
  - intros x e. rewrite lookup_insert. case_decide as Hx; [subst; intros [= <-]; auto |].
    apply (kt_sem _ _ _ HT).
  - intros x e. rewrite lookup_insert. case_decide as Hx; [subst; by intros [= <-] |].
    apply (kt_prio _ _ _ HT).
  - intros e. rewrite lookup_insert. case_decide as Hx; [intros [= <-]; auto |].
    apply (kt_null _ _ _ HT).
Qed.

(** Fields other than the state, the priority and the semaphore do not matter. *)
Lemma kthreads_fields t e e' :
  tt !! t = Some e -> t_state e' = t_state e -> t_sem e' = t_sem e ->
  MINKEY < t_prio e' ->
  kthreads (<[t := e']> tt) cur Q.
Proof.
  intros He H1 H2 H3. apply kthreads_move; try done.
  - by eapply thr_range.
  - intros q Hq. unfold loc. rewrite H1, H2. by apply (kt_loc _ _ _ HT t e q).
  - rewrite H1, H2. by apply (kt_sem _ _ _ HT t).
  - rewrite H1. intros ->. by apply (kt_null _ _ _ HT).
  - intros x e0. rewrite lookup_insert. case_decide as Hx.
    + intros [= <-]. rewrite H1, <- Hx. by apply (kt_cur _ _ _ HT).
    + apply (kt_cur _ _ _ HT).
Qed.
End Threads.

(** Keys of threads that do not change keep both orders. *)
Lemma kqueues_keys qt qt' Q Q' :
  kqueues qt Q -> qrep NQENT qt' Q' ->
  (forall x, qkey qt' x = qkey qt x) ->
  (exists P : Z -> Prop, exists D : forall x, Decision (P x),
     Q' READYQ = filter P (Q READYQ)) ->
  (exists P : Z -> Prop, exists D : forall x, Decision (P x),
     Q' SLEEPQ = filter P (Q SLEEPQ)) ->
  kqueues qt' Q'.
Proof.
  intros [HQ Hs Hd Ht] HQ' Hk (P & D & Hr) (P' & D' & Hsl). constructor; [done | | |].
  - rewrite Hr. apply (descending_filter _ P).
    eapply descending_ext; [| exact Hs]. intros x _. apply keyof_ext, Hk.
  - intros x. rewrite Hsl, list_elem_of_filter. intros [_ Hx].
    rewrite (keyof_ext qt) by apply Hk. by apply Hd.
  - rewrite Hsl, (dsum_ext (keyof qt)) by (intros x _; apply keyof_ext, Hk).
    etrans; [apply dsum_filter | done]. intros x Hx. by apply Hd.
Qed.

Lemma kqueues_remove qt qt' Q t :
  kqueues qt Q -> qrep NQENT qt' (qremove t Q) ->
  (forall x, qkey qt' x = qkey qt x) -> kqueues qt' (qremove t Q).
Proof.
  intros HK HQ' Hk. eapply kqueues_keys; try done.
  - exists (fun x => x <> t), _. reflexivity.
  - exists (fun x => x <> t), _. reflexivity.
Qed.

(** [insert] on the ready list. *)
Lemma kqueues_ready qt qt' Q t key :
  kqueues qt Q -> (forall q, isq NQENT q -> t ∉ Q q) ->
  qrep NQENT qt' (<[READYQ := pinsert (keyof qt) t key (Q READYQ)]> Q) ->
  (forall x, qkey qt' x = if decide (x = t) then Some key else qkey qt x) ->
  kqueues qt' (<[READYQ := pinsert (keyof qt) t key (Q READYQ)]> Q).
Proof.
  intros [HQ Hs Hd Ht] Hfree HQ' Hk.
  assert (Hkt : keyof qt' t = key) by (unfold keyof; by rewrite Hk, decide_True).
  assert (Hkx : forall x, x <> t -> keyof qt' x = keyof qt x).
  { intros x Hx. apply keyof_ext. by rewrite Hk, decide_False. }
  assert (Hsl : forall x, x ∈ Q SLEEPQ -> keyof qt' x = keyof qt x).
  { intros x Hx. apply Hkx. intros ->. by apply (Hfree SLEEPQ isq_sleep). }
  constructor; [done | | |]; rewrite ?(fn_lookup_insert_ne _ READYQ SLEEPQ) by (unfold SLEEPQ; lia).
  - rewrite fn_lookup_insert. apply descending_pinsert; auto with xinu.
    intros x Hx. apply Hkx. intros ->. by apply (Hfree READYQ isq_ready).
  - intros x Hx. rewrite Hsl by done. by apply Hd.
  - by rewrite (dsum_ext (keyof qt)).
Qed.

(** Semaphores whose queues and entries do not change. *)
Lemma ksems_frame st Q Q' :
  ksems st Q -> (forall i, 0 <= i < NSEM -> Q' (semq i) = Q (semq i)) -> ksems st Q'.
Proof.
  intros [H1 H2 H3 H4] HQ. constructor; try done.
  - intros i e He. rewrite HQ by (apply H1; eauto). by apply H3.
  - intros i e He. rewrite HQ by (apply H1; eauto). by apply H4.
Qed.

(** ** A thread becomes ready *)

(** The queues after [t] is inserted in the ready list with [key]. *)
Definition qready (qt : gmap Z queent) (t key : Z) (Q : Z -> list Z) : Z -> list Z :=
  <[READYQ := pinsert (keyof qt) t key (Q READYQ)]> Q.

Lemma qready_elem qt t key Q q x :
  x ∈ qready qt t key Q q <-> (x = t /\ q = READYQ) \/ x ∈ Q q.
Proof.
  unfold qready. destruct (decide (READYQ = q)) as [<- | Hne].
  - rewrite fn_lookup_insert, pinsert_elem. tauto.
  - rewrite fn_lookup_insert_ne by done. naive_solver.
Qed.

Lemma qready_sem qt t key Q i : 0 <= i < NSEM -> qready qt t key Q (semq i) = Q (semq i).
Proof. intros Hi. apply fn_lookup_insert_ne. symmetry. auto with xinu. Qed.

Lemma qready_sleep qt t key Q : qready qt t key Q SLEEPQ = Q SLEEPQ.
Proof. apply fn_lookup_insert_ne. unfold SLEEPQ. lia. Qed.

Lemma kthreads_to_ready tt cur Q qt t e key :
  kthreads tt cur Q -> tt !! t = Some e ->
  kthreads (<[t := set_t_state THRREADY e]> tt) cur (qready qt t key (qremove t Q)).
Proof.
  intros HT He. apply (kthreads_move HT).
  - by eapply (thr_range HT).
  - intros q x Hq Hx. rewrite qready_elem, qremove_elem. naive_solver.
  - intros q Hq. rewrite qready_elem, qremove_elem. cbn. naive_solver.
  - done.
  - exact (kt_prio _ _ _ HT t e He).
  - intros _. by right.
  - intros x e0. rewrite lookup_insert. case_decide; [by intros [= <-] | apply (kt_cur _ _ _ HT)].
Qed.

Lemma insert_ready_spec s Q t e key :
  kqueues (quetab s) Q -> goodtid s t e -> (forall q, isq NQENT q -> t ∉ Q q) ->
  MINKEY < key ->
  exists qt', run (insert t READYQ key) s = Done OK (set_quetab qt' s) /\
    kqueues qt' (qready (quetab s) t key Q) /\
    (forall x, qkey qt' x = if decide (x = t) then Some key else qkey (quetab s) x).
Proof.
  intros HK Hg Hfree Hk.
  destruct (insert_spec NQENT s Q READYQ (kq_rep _ _ HK) isq_ready t e key Hg Hfree Hk)
    as (qt' & Hrun & Hrep & Hkeys).
  exists qt'. split_and!; [done | by apply kqueues_ready | done].
Qed.

Lemma thread_ready_spec s Q t e :
  kqueues (quetab s) Q -> readylist s = READYQ -> 0 <= t < NTHREAD ->
  thrtab s !! t = Some e -> (forall q, isq NQENT q -> t ∉ Q q) -> MINKEY < t_prio e ->
  exists qt', run (thread_ready t) s =
      Done tt (set_quetab qt' (set_thrtab (<[t := set_t_state THRREADY e]> (thrtab s)) s)) /\
    kqueues qt' (qready (quetab s) t (t_prio e) Q) /\
    (forall x, qkey qt' x = if decide (x = t) then Some (t_prio e) else qkey (quetab s) x).
Proof.
  intros HK Hrl Ht He Hfree Hp. unfold thread_ready. prun. rewrite Hrl.
  set (s1 := set_thrtab _ s).
  destruct (insert_ready_spec s1 Q t (set_t_state THRREADY e) (t_prio e))
    as (qt' & Hrun & HK' & Hk); try done.
  { split; [done | split; [apply lookup_insert_eq | done]]. }
  exists qt'. split; [| done]. cbn in Hrun |- *. rewrite Hrun. by cbn.
Qed.

Lemma kinv_cpsr s Q c : kinv s Q -> kinv (set_cpsr c s) Q.
Proof. intros [[] ? ? ?]. by split. Qed.

Lemma kinv_crit_in s Q : kinv s Q -> kinv (crit_in s) Q.
Proof. intros [[] ? ? ?]. by split. Qed.

Lemma kinv_crit_out s Q : kinv s Q -> kinv (crit_out s) Q.
Proof. apply kinv_cpsr. Qed.

(** Any thread but the null thread may be missing from the ready list, so the
    list is not empty when nobody is current. *)
Lemma ready_nonempty s Q :
  kinv s Q -> (forall e, thrtab s !! thrcurrent s = Some e -> t_state e <> THRCURR) ->
  exists x l, Q READYQ = x :: l.
Proof.
  intros [Hs HK HT _] Hno.
  destruct (thr_entry HT NULLTHREAD) as [e He]; [unfold NULLTHREAD, NTHREAD; lia |].
  assert (Hin : NULLTHREAD ∈ Q READYQ).
  { apply (kt_loc _ _ _ HT _ e _ He isq_ready). unfold loc.
    destruct (kt_null _ _ _ HT e He) as [Hc | ->]; [| done]. exfalso.
    pose proof (kt_cur _ _ _ HT _ e He Hc) as Hcur. rewrite Hcur in He. by apply (Hno e). }
  destruct (Q READYQ) as [|x l]; [by apply not_elem_of_nil in Hin | eauto].
Qed.

(** The head of the ready list becomes the current thread. *)
Lemma resched_pick_spec s Q old eold :
  kinv s Q -> resdefer s <= 0 -> thrtab s !! old = Some eold ->
  (forall t e, thrtab s !! t = Some e -> t_state e <> THRCURR) ->
  exists new en l qt',
    Q READYQ = new :: l /\ thrtab s !! new = Some en /\
    let s' := set_thrtab (<[new := set_t_state THRCURR en]> (thrtab s))
                (set_thrcurrent new (set_quetab qt' s)) in
    kinv s' (qremove new Q) /\ running s' /\
    (forall x, qkey qt' x = qkey (quetab s) x) /\
    run (resched_pick old READYQ) s =
      if decide (old = new) then run (resched_tail old) s' else Switch s' (resched_tail old).
Proof.
  intros HI Hrd Hold Hno. pose proof HI as [Hs HK HT HS].
  destruct (ready_nonempty s Q HI) as (new & l & Hl); [eauto |].
  assert (Hin : new ∈ Q READYQ) by (rewrite Hl; apply elem_of_cons; by left).
  assert (Hr : 0 <= new < NTHREAD)
    by (apply (qr_tid _ _ _ (kq_rep _ _ HK) READYQ); auto with xinu).
  destruct (thr_entry HT new Hr) as [en Hen].
  destruct (dequeue_remove NQENT s Q READYQ new l en (kq_rep _ _ HK) isq_ready Hl Hen)
    as (qt' & Hrun & Hrep & Hk).
  exists new, en, l, qt'. do 2 (split; [done |]). intros s'. split_and!.
  - split; ksimpl; [destruct Hs; by constructor | by eapply kqueues_remove | |].
    + apply (kthreads_move HT); try done.
      * intros q x Hq Hx. rewrite qremove_elem. tauto.
      * intros q Hq. rewrite qremove_elem. cbn. naive_solver.
      * exact (kt_prio _ _ _ HT new en Hen).
      * intros _. by left.
      * intros x e0. rewrite lookup_insert. case_decide; [done |]. intros ?%Hno ?. done.
    + eapply ksems_frame; [done |]. intros i Hi. apply qremove_id. intros Hin'.
      apply (semq_ne_ready i Hi). apply (qr_disj _ _ _ (kq_rep _ _ HK) _ _ new); auto with xinu.
  - split; [| done]. exists (set_t_state THRCURR en). split; [| done]. apply lookup_insert_eq.
  - done.
  - unfold resched_pick. rewrite run_bind, Hrun. cbn [obind]. prun.
    unfold ctxsw. case_decide as Hon.
    + subst. rewrite Z.eqb_refl. by prun.
    + rewrite (proj2 (Z.eqb_neq old new)) by done. by rewrite run_switch.
Qed.

(** ** Rescheduling *)

(** Of a thread, rescheduling changes only the state and the saved mask. *)
Definition thr_kept (tt tt' : gmap Z thrent) : Prop :=
  forall t e', tt' !! t = Some e' ->
    exists e, tt !! t = Some e /\
      e' = set_t_state (t_state e') (set_t_intmask (t_intmask e') e).

(** What rescheduling from [s] can change: the ready list, the states of the
    threads, who is current, and the interrupt mask.  Ready-list keys stay, or,
    for the thread that was current, become its priority. *)
Definition rescheduled (s s' : kst) : Prop :=
  (exists qt tt cur c,
     s' = set_cpsr c (set_thrtab tt (set_thrcurrent cur (set_quetab qt s)))) /\
  thr_kept (thrtab s) (thrtab s') /\
  (forall x, qkey (quetab s') x = qkey (quetab s) x \/
     x = thrcurrent s /\
     exists e, thrtab s !! x = Some e /\ t_state e = THRCURR /\
       qkey (quetab s') x = Some (t_prio e)).

(** The threads that can run, in the order in which they are to: the ready list, and the
    current thread if it still wants to run, behind the ready threads whose key is at least
    its priority. *)
Definition candidates (s : kst) (Q : Z -> list Z) : list Z :=
  match thrtab s !! thrcurrent s with
  | Some e => if bool_decide (t_state e = THRCURR)
              then pinsert (keyof (quetab s)) (thrcurrent s) (t_prio e) (Q READYQ) else Q READYQ
  | None => Q READYQ
  end.

Lemma running_kinv_cpsr s c : running s -> running (set_cpsr c s).
Proof. done. Qed.

Lemma run_resched_tail s old e :
  thrtab s !! old = Some e ->
  exists c, run (resched_tail old) s = Done OK (set_cpsr c s).
Proof.
  intros He. unfold resched_tail, restore. eexists. by prun.
Qed.

(** Rescheduling leaves every queue but the ready list alone. *)
Definition same_queues (Q Q' : Z -> list Z) : Prop :=
  forall q, isq NQENT q -> q <> READYQ -> Q' q = Q q.

(** No ready thread is lost: it is still ready, or it is the current one. *)
Definition ready_kept (Q Q' : Z -> list Z) (cur : Z) : Prop :=
  forall x, x ∈ Q READYQ -> x ∈ Q' READYQ \/ x = cur.

Lemma same_queues_trans Q1 Q2 Q3 : same_queues Q1 Q2 -> same_queues Q2 Q3 -> same_queues Q1 Q3.
Proof. intros H1 H2 q Hq Hne. by rewrite H2, H1. Qed.

Lemma same_queues_remove qt Q t :
  qrep NQENT qt Q -> t ∈ Q READYQ -> same_queues Q (qremove t Q).
Proof.
  intros HQ Ht q Hq Hne. apply qremove_id. intros Hin. apply Hne.
  apply (qr_disj _ _ _ HQ _ _ t); auto with xinu.
Qed.

Lemma same_queues_ready qt t key Q : same_queues Q (qready qt t key Q).
Proof. intros q Hq Hne. by apply fn_lookup_insert_ne. Qed.

(** Picking the next thread from a state where nobody is current. *)
Lemma resched_pick_cases s Q old eold :
  kinv s Q -> resdefer s <= 0 -> thrtab s !! old = Some eold ->
  (forall t e, thrtab s !! t = Some e -> t_state e <> THRCURR) ->
  exists s' Q', kinv s' Q' /\ running s' /\ Q READYQ = thrcurrent s' :: Q' READYQ /\
    (exists qt tt cur c,
       s' = set_cpsr c (set_thrtab tt (set_thrcurrent cur (set_quetab qt s)))) /\
    thr_kept (thrtab s) (thrtab s') /\
    (forall x, qkey (quetab s') x = qkey (quetab s) x) /\
    same_queues Q Q' /\ ready_kept Q Q' (thrcurrent s') /\ thrcurrent s' ∈ Q READYQ /\
    (run (resched_pick old READYQ) s = Done OK s' /\ thrcurrent s' = old \/
     run (resched_pick old READYQ) s = Switch s' (resched_tail old) /\ thrcurrent s' <> old).
Proof.
  intros HI Hrd Hold Hno.
  destruct (resched_pick_spec s Q old eold HI Hrd Hold Hno)
    as (new & en & l & qt' & Hl & Hen & HI' & Hrun' & Hk & Hrun).
  set (s' := set_thrtab _ _) in HI', Hrun', Hrun.
  assert (Htop : Q READYQ = new :: qremove new Q READYQ).
  { rewrite (qremove_mid new Q READYQ [] l); [done | done |]. apply (qr_nodup _ _ _ (kq_rep _ _ (ki_queues _ _ HI))), isq_ready. }
  assert (Hkept : thr_kept (thrtab s) (thrtab s')).
  { intros t e'. unfold s'. ksimpl. rewrite lookup_insert. destruct (decide (new = t)) as [<- | Ht].
    - intros [= <-]. exists en. split; [done |]. by destruct en.
    - intros He'. exists e'. split; [done |]. by destruct e'. }
  assert (Hsame : same_queues Q (qremove new Q)).
  { apply (same_queues_remove (quetab s)); [apply (ki_queues _ _ HI) |]. rewrite Hl.
    apply elem_of_cons. by left. }
  assert (Hkeep : ready_kept Q (qremove new Q) new).
  { intros x Hx. rewrite qremove_elem. destruct (decide (x = new)); auto. }
  assert (Hpick : new ∈ Q READYQ) by (rewrite Hl; apply elem_of_cons; by left).
  case_decide as Hon.
  - subst. assert (Hold' : thrtab s' !! new = Some (set_t_state THRCURR en)) by apply lookup_insert_eq.
    destruct (run_resched_tail s' new _ Hold') as [c Hc].
    exists (set_cpsr c s'), (qremove new Q).
    split_and!; try done; [by apply kinv_cpsr | | left; by rewrite Hrun].
    by exists qt', (thrtab s'), new, c.
  - exists s', (qremove new Q).
    split_and!; try done; [| right; split; [done |]; unfold s'; ksimpl; congruence].
    exists qt', (thrtab s'), new, (cpsr s). by destruct s.
Qed.

Lemma thr_kept_trans t1 t2 t3 : thr_kept t1 t2 -> thr_kept t2 t3 -> thr_kept t1 t3.
Proof.
  intros H12 H23 t e3 He3. destruct (H23 t e3 He3) as (e2 & He2 & E3).
  destruct (H12 t e2 He2) as (e1 & He1 & E2). exists e1. split; [done |].
  rewrite E3 at 1. rewrite E2. by destruct e1.
Qed.

Lemma thr_kept_insert tt t e e' :
  tt !! t = Some e -> e' = set_t_state (t_state e') (set_t_intmask (t_intmask e') e) ->
  thr_kept tt (<[t := e']> tt).
Proof.
  intros He E x ex. rewrite lookup_insert. case_decide as Hx; [subst x; intros [= <-]; eauto |].
  intros Hex. exists ex. split; [done |]. by destruct ex.
Qed.

(** The current thread, marked current, is put back on the ready list. *)
Lemma resched_requeue s Q e c :
  kinv s Q -> thrtab s !! thrcurrent s = Some e -> t_state e = THRCURR ->
  let cur := thrcurrent s in
  let e1 := set_t_intmask c e in
  exists qt', run (insert cur READYQ (t_prio e))
      (set_thrtab (<[cur := set_t_state THRREADY e1]> (<[cur := e1]> (thrtab s))) s) =
        Done OK (set_quetab qt'
          (set_thrtab (<[cur := set_t_state THRREADY e1]> (<[cur := e1]> (thrtab s))) s)) /\
    kinv (set_quetab qt'
      (set_thrtab (<[cur := set_t_state THRREADY e1]> (<[cur := e1]> (thrtab s))) s))
      (qready (quetab s) cur (t_prio e) Q) /\
    (forall x, qkey qt' x = if decide (x = cur) then Some (t_prio e) else qkey (quetab s) x) /\
    (forall t e0, (<[cur := set_t_state THRREADY e1]> (<[cur := e1]> (thrtab s))) !! t = Some e0 ->
       t_state e0 <> THRCURR).
Proof.
  intros [Hs HK HT HS] He Hst cur e1. rewrite insert_insert_eq.
  assert (Hfree : forall q, isq NQENT q -> cur ∉ Q q)
    by (apply (thr_detached HT cur e He); unfold loc; by rewrite Hst).
  assert (Hcur : 0 <= cur < NTHREAD) by apply (ks_cur _ Hs).
  set (s1 := set_thrtab _ s).
  destruct (insert_ready_spec s1 Q cur (set_t_state THRREADY e1) (t_prio e))
    as (qt' & Hrun & HK' & Hk); try done.
  { split; [done | split; [apply lookup_insert_eq | done]]. }
  { exact (kt_prio _ _ _ HT cur e He). }
  exists qt'. split_and!; try done.
  - split; unfold s1; ksimpl; [destruct Hs; by constructor | done | |].
    + assert (E : forall q, qremove cur Q q = Q q \/ ~ isq NQENT q).
      { intros q. destruct (decide (cur ∈ Q q)) as [Hin | Hni].
        - right. intros Hq. by apply (Hfree q).
        - left. by apply qremove_id. }
      apply (kthreads_move HT); try done.
      * intros q x Hq Hx. rewrite qready_elem. naive_solver.
      * intros q Hq. rewrite qready_elem. cbn. naive_solver.
      * exact (kt_prio _ _ _ HT cur e He).
      * intros _. by right.
      * intros x e0. rewrite lookup_insert. case_decide; [by intros [= <-] |].
        apply (kt_cur _ _ _ HT).
    + eapply ksems_frame; [done |]. intros i Hi. by apply qready_sem.
  - intros t e0. rewrite lookup_insert. case_decide as Hd; [by intros [= <-] |].
    intros He0 Hc. apply Hd. symmetry. by apply (kt_cur _ _ _ HT t e0).
Qed.

Lemma kinv_intmask s Q t e c :
  kinv s Q -> thrtab s !! t = Some e ->
  kinv (set_thrtab (<[t := set_t_intmask c e]> (thrtab s)) s) Q.
Proof.
  intros [Hs HK HT HS] He. split; ksimpl; [destruct Hs; by constructor | done | | done].
  apply (kthreads_fields HT t e); try done. exact (kt_prio _ _ _ HT t e He).
Qed.

(** The threads that may run next: the ready ones, and the current one if it is
    still marked so. *)
Definition eligible (s : kst) (Q : Z -> list Z) (x : Z) : Prop :=
  x ∈ Q READYQ \/
  (x = thrcurrent s /\ exists e, thrtab s !! x = Some e /\ t_state e = THRCURR).

(** The result of rescheduling from [s], when the rest of [resched] gives [o]. *)
Definition resched_result (s : kst) (Q : Z -> list Z) (o : outcome kst Z) : Prop :=
  exists s' Q', kinv s' Q' /\ running s' /\ candidates s Q = thrcurrent s' :: Q' READYQ /\ rescheduled s s' /\
    same_queues Q Q' /\ ready_kept Q Q' (thrcurrent s') /\
    eligible s Q (thrcurrent s') /\
    (o = Done OK s' /\ thrcurrent s' = thrcurrent s \/
     o = Switch s' (resched_tail (thrcurrent s)) /\ thrcurrent s' <> thrcurrent s).

Lemma resched_finish s s1 Q Q1 :
  kinv s1 Q1 -> resdefer s1 <= 0 -> is_Some (thrtab s1 !! thrcurrent s) ->
  (forall t e, thrtab s1 !! t = Some e -> t_state e <> THRCURR) ->
  rescheduled s s1 -> same_queues Q Q1 -> (forall x, x ∈ Q READYQ -> x ∈ Q1 READYQ) ->
  (forall x, x ∈ Q1 READYQ -> eligible s Q x) -> candidates s Q = Q1 READYQ ->
  resched_result s Q (run (resched_pick (thrcurrent s) READYQ) s1).
Proof.
  intros HI Hrd [eold Hold] Hno ((qt1 & tt1 & cur1 & c1 & E1) & Hkept & Hkeys) Hsame Hsub Hel Hcand.
  destruct (resched_pick_cases s1 Q1 (thrcurrent s) eold HI Hrd Hold Hno)
    as (s' & Q' & HI' & Hrun' & Htop & (qt & tt & cur & c & E) & Hkept' & Hk & Hsame' & Hkeep & Hpick & Hcase).
  exists s', Q'. split_and!; try done; [by rewrite Hcand, Htop | | by eapply same_queues_trans | intros x Hx; by apply Hkeep, Hsub | by apply Hel]. split; [| split].
  - exists qt, tt, cur, c. by rewrite E, E1.
  - by eapply thr_kept_trans.
  - intros x. rewrite Hk. apply Hkeys.
Qed.

(** The current thread keeps the processor. *)
Lemma resched_stay s Q e c1 c2 :
  kinv s Q -> resdefer s <= 0 -> thrtab s !! thrcurrent s = Some e -> t_state e = THRCURR ->
  candidates s Q = thrcurrent s :: Q READYQ ->
  resched_result s Q (Done OK (set_cpsr c2 (set_thrtab
    (<[thrcurrent s := set_t_intmask c1 e]> (thrtab s)) s))).
Proof.
  intros HI Hrd He Hst Hmax.
  exists (set_cpsr c2 (set_thrtab (<[thrcurrent s := set_t_intmask c1 e]> (thrtab s)) s)), Q.
  split_and!; [| | | | done | intros x Hx; by left | right; split; [done | by exists e] | by left].
  - by apply kinv_cpsr, kinv_intmask.
  - split; [| done]. eexists. split; [apply lookup_insert_eq | done].
  - exact Hmax.
  - split; [| split]; ksimpl; [| | by left].
    + exists (quetab s), (<[thrcurrent s := set_t_intmask c1 e]> (thrtab s)), (thrcurrent s), c2.
      by destruct s.
    + apply (thr_kept_insert _ _ e); [done | by destruct e].
Qed.

(** From any state that satisfies the invariant, whether or not the calling
    thread is still marked current, [resched] leaves a state that satisfies it
    and in which the first of the candidates is current. *)
Lemma resched_spec s Q :
  kinv s Q -> resdefer s <= 0 -> resched_result s Q (run resched s).
Proof.
  intros HI Hrd. pose proof HI as [Hs HK HT HS].
  destruct (thr_entry HT (thrcurrent s) (ks_cur _ Hs)) as [e He].
  unfold resched. prun1. prun1. replace (resdefer s >? 0) with false by lia.
  unfold disable. prun. rewrite (ks_ready _ Hs).
  set (cur := thrcurrent s) in *. set (e1 := set_t_intmask (cpsr s) e).
  set (c1 := Z.lor (cpsr s) ARM_I_BIT).
  set (s1 := set_thrtab (<[cur := e1]> (thrtab s)) (set_cpsr c1 s)).
  assert (HI1 : kinv s1 Q)
    by (apply (kinv_intmask (set_cpsr c1 s)); [by apply kinv_cpsr | done]).
  assert (Hk1 : thr_kept (thrtab s) (<[cur := e1]> (thrtab s)))
    by (apply (thr_kept_insert _ _ e); [done | by destruct e]).
  change (t_state e1) with (t_state e). change (t_prio e1) with (t_prio e).
  case_bool_decide as Hst.
  - assert (Hcand : candidates s Q = pinsert (keyof (quetab s)) cur (t_prio e) (Q READYQ))
      by (unfold candidates; fold cur; by rewrite He, bool_decide_eq_true_2).
    rewrite run_bind, (run_nonempty NQENT s1 Q READYQ (kq_rep _ _ HK) isq_ready).
    cbn [obind].
    assert (Hrq : resched_result s Q (obind (fun stay : bool => if stay then mret OK else resched_pick cur READYQ)
       (run (amend_thr cur (set_t_state THRREADY);; insert cur READYQ (t_prio e);; mret false) s1))).
    { unfold s1. prun.
      destruct (resched_requeue (set_cpsr c1 s) Q e (cpsr s)) as (qt' & Hrun & HI2 & Hk & Hno);
        [by apply kinv_cpsr | done | done |].
      cbn [thrcurrent set_cpsr] in Hrun. fold cur e1 in Hrun, HI2, Hk, Hno.
      use_run Hrun. prun. apply (resched_finish s _ Q _ HI2); try done.
      - ksimpl. rewrite lookup_insert_eq. eauto.
      - split; [| split]; ksimpl.
        + by exists qt', (<[cur := set_t_state THRREADY e1]> (<[cur := e1]> (thrtab s))), cur, c1; destruct s.
        + eapply thr_kept_trans; [exact Hk1 |].
          apply (thr_kept_insert _ _ e1); [apply lookup_insert_eq | by destruct e].
        + intros x. rewrite Hk. case_decide; [right; subst; eauto | by left].
      - apply same_queues_ready.
      - intros x Hx. apply qready_elem. by right.
      - intros x [[-> _] | Hx]%qready_elem; [right; split; [done | by exists e] | by left]. }
    case_bool_decide as Hne; [| rewrite run_bind, run_ret; exact Hrq].
    destruct (Q READYQ) as [|x l] eqn:Hl; [done |].
    destruct (run_firstkey NQENT s1 Q READYQ (kq_rep _ _ HK) isq_ready x l Hl) as (ex & Hex & Hfk).
    rewrite !run_bind, Hfk. cbn [obind]. prun.
    destruct (Z.gtb_spec (t_prio e) (q_key ex)) as [Hgt | Hle]; [| exact Hrq].
    unfold restore. prun. apply (resched_stay s Q e); try done.
    rewrite Hcand, Hl. cbn [pinsert]. rewrite (keyof_entry (quetab s) x ex Hex).
    by replace (q_key ex >=? t_prio e) with false by lia.
  - prun. apply (resched_finish s _ Q _ HI1); try done.
    + unfold s1. ksimpl. rewrite lookup_insert_eq. eauto.
    + intros t e0. unfold s1. ksimpl. rewrite lookup_insert. case_decide; [by intros [= <-] |].
      intros He0 Hc. by apply (kt_cur _ _ _ HT t e0) in Hc.
    + split; [| split]; [| exact Hk1 | by left].
      by exists (quetab s), (<[cur := e1]> (thrtab s)), cur, c1; destruct s.
    + intros x Hx. by left.
    + unfold candidates. fold cur. by rewrite He, bool_decide_eq_false_2.
Qed.

(** ** Routines that are safe in a thread

    [safe t m]: run by thread [t] from any state that satisfies the invariant and
    in which [t] is current, [m] neither faults nor runs on; when it returns the
    invariant holds and [t] is current; when it switches to another thread the
    invariant holds for that thread, and the rest of [m] is safe again. *)

Inductive safe {A : Type} (t : Z) : kprog A -> Prop :=
  | safe_prog m :
      (forall s Q, kinv s Q -> running s -> thrcurrent s = t -> safe_out t (run m s)) ->
      safe t m
with safe_out {A : Type} (t : Z) : outcome kst A -> Prop :=
  | so_done a s Q : kinv s Q -> running s -> thrcurrent s = t -> safe_out t (Done a s)
  | so_switch s k Q :
      kinv s Q -> running s -> thrcurrent s <> t -> safe t k -> safe_out t (Switch s k)
  | so_halted s : safe_out t (Halted s).

Scheme safe_mind := Induction for safe Sort Prop
  with safe_out_mind := Induction for safe_out Sort Prop.

Lemma safe_out_bind {A B} t (f : A -> kprog B) o :
  safe_out t o -> (forall a, safe t (f a)) -> safe_out t (obind f o).
Proof.
  intros Ho Hf. revert o Ho.
  apply (safe_out_mind A t (fun m _ => safe t (m ≫= f)) (fun o _ => safe_out t (obind f o))).
  - intros m _ IH. constructor. intros s Q HI Hr Ht. rewrite run_bind. by eapply IH.
  - intros a s Q HI Hr Ht. cbn [obind]. destruct (Hf a) as [m Hm]. by eapply Hm.
  - intros s k Q HI Hr Ht _ IH. cbn [obind]. by econstructor.
  - intros s. constructor.
Qed.

Lemma safe_bind {A B} t (m : kprog A) (f : A -> kprog B) :
  safe t m -> (forall a, safe t (f a)) -> safe t (m ≫= f).
Proof.
  intros [m' Hm] Hf. constructor. intros s Q HI Hr Ht. rewrite run_bind.
  apply safe_out_bind; [by eapply Hm | done].
Qed.

Lemma safe_run {A} t (m : kprog A) s Q :
  safe t m -> kinv s Q -> running s -> thrcurrent s = t -> safe_out t (run m s).
Proof. intros [m' Hm]. apply Hm. Qed.

Lemma safe_ret {A} t (a : A) : safe t (mret a : kprog A).
Proof. constructor. intros s Q HI Hr Ht. by econstructor. Qed.

Lemma safe_resched_tail t : safe t (resched_tail t).
Proof.
  constructor. intros s Q HI Hr <-. destruct Hr as [(e & He & Hst) Hrd].
  destruct (run_resched_tail s _ e He) as [c ->].
  econstructor; [by apply kinv_cpsr | split; eauto | done].
Qed.

(** A routine that ends by rescheduling. *)
Lemma safe_out_resched s Q :
  kinv s Q -> resdefer s <= 0 -> safe_out (thrcurrent s) (run resched s).
Proof.
  intros HI Hrd.
  destruct (resched_spec s Q HI Hrd) as (s' & Q' & HI' & Hr' & _ & _ & _ & _ & _ & [[-> Ht] | [-> Ht]]).
  - by econstructor.
  - econstructor; try done. apply safe_resched_tail.
Qed.

Lemma safe_out_resched_ret {A} t s Q (f : Z -> kprog A) :
  kinv s Q -> resdefer s <= 0 -> thrcurrent s = t -> (forall a, safe t (f a)) ->
  safe_out t (run (resched ≫= f) s).
Proof.
  intros HI Hrd <- Hf. rewrite run_bind. apply safe_out_bind; [by eapply safe_out_resched | done].
Qed.

Lemma running_crit_out s : running s -> running (crit_out s).
Proof. done. Qed.

(** A thread id is bad, or it names a thread that is not free. *)
Lemma isbadtid_cases s Q x :
  kinv s Q ->
  (run (isbadtid x) s = Done true s) \/
  (exists e, run (isbadtid x) s = Done false s /\ goodtid s x e).
Proof.
  intros [_ _ HT _]. unfold isbadtid.
  destruct ((x >=? NTHREAD) || (x <? 0)) eqn:E; [left; by prun |].
  apply orb_false_iff in E as [E1 E2].
  destruct (thr_entry HT x) as [e He]; [lia |]. prun. case_bool_decide; [by left | right].
  exists e. split; [done |]. split; [lia | done].
Qed.

Lemma isbadtid_frame s s' x :
  thrtab s' = thrtab s -> forall b, run (isbadtid x) s = Done b s -> run (isbadtid x) s' = Done b s'.
Proof.
  intros Ht b. unfold isbadtid. destruct ((x >=? NTHREAD) || (x <? 0)).
  - rewrite !run_ret. by intros [= <-].
  - rewrite !run_bind. unfold thr, load, run. rewrite Ht.
    destruct (thrtab s !! x); cbn; [| done]. by intros [= <-].
Qed.

(** Adding the current thread's view: a state change by the current thread [t]
    that keeps it current. *)
Lemma yield_safe t : safe t yield.
Proof.
  constructor. intros s Q HI [_ Hrd] Ht. unfold yield.
  eapply safe_out_resched_ret; [done | done | done |]. intros a. apply safe_ret.
Qed.

(** ** The scheduler's system calls *)

(** Thread [t], which has left whatever queue it was in, is made ready. *)
Lemma thread_ready_full s Q t e cur :
  kthreads (thrtab s) cur Q -> kqueues (quetab s) (qremove t Q) -> readylist s = READYQ ->
  thrtab s !! t = Some e ->
  let Q' := qready (quetab s) t (t_prio e) (qremove t Q) in
  let tt' := <[t := set_t_state THRREADY e]> (thrtab s) in
  exists qt', run (thread_ready t) s = Done tt (set_quetab qt' (set_thrtab tt' s)) /\
    kqueues qt' Q' /\ kthreads tt' cur Q' /\
    (forall x, qkey qt' x = if decide (x = t) then Some (t_prio e) else qkey (quetab s) x).
Proof.
  intros HT HK Hrl He Q' tt'.
  destruct (thread_ready_spec s (qremove t Q) t e) as (qt' & Hrun & HK' & Hk); try done.
  - by eapply (thr_range HT).
  - intros q Hq. rewrite qremove_elem. tauto.
  - exact (kt_prio _ _ _ HT t e He).
  - exists qt'. split_and!; try done. by apply kthreads_to_ready.
Qed.

(** A thread in no queue: removing it changes nothing. *)
Lemma kqueues_detached qt Q t :
  kqueues qt Q -> (forall q, isq NQENT q -> t ∉ Q q) -> kqueues qt (qremove t Q).
Proof.
  intros HK Hfree. apply (kqueues_remove qt); try done.
  eapply qrep_Q_ext; [| apply (kq_rep _ _ HK)]. intros q Hq. by apply qremove_id, Hfree.
Qed.

(** Making ready a thread that is in no queue. *)
Lemma kinv_thread_ready s Q t e :
  kinv s Q -> thrtab s !! t = Some e -> loc e = None -> t_state e <> THRFREE ->
  let tt' := <[t := set_t_state THRREADY e]> (thrtab s) in
  exists qt', run (thread_ready t) s = Done tt (set_quetab qt' (set_thrtab tt' s)) /\
    kinv (set_quetab qt' (set_thrtab tt' s))
      (qready (quetab s) t (t_prio e) (qremove t Q)).
Proof.
  intros [Hs HK HT HS] He Hl Hst tt'.
  pose proof (thr_detached HT t e He Hl) as Hfree.
  destruct (thread_ready_full s Q t e (thrcurrent s)) as (qt' & Hrun & HK' & HT' & _); try done.
  { by apply kqueues_detached. }
  { apply Hs. }
  exists qt'. split; [done |]. split; ksimpl; [destruct Hs; by constructor | done | done |].
  eapply ksems_frame; [done |]. intros i Hi. rewrite qready_sem by done.
  apply qremove_id, Hfree. auto with xinu.
Qed.

Lemma running_other s t e e' qt :
  running s -> t <> thrcurrent s \/ t_state e' = THRCURR -> thrtab s !! t = Some e ->
  running (set_quetab qt (set_thrtab (<[t := e']> (thrtab s)) s)).
Proof.
  intros [(ec & Hec & Hst) Hrd] Ht He. split; [| done]. ksimpl.
  destruct (decide (t = thrcurrent s)) as [-> | Hne].
  - exists e'. split; [apply lookup_insert_eq | tauto].
  - exists ec. by rewrite lookup_insert_ne.
Qed.

(** The body of [ready] on a thread in no queue. *)
Lemma ready_ok s Q t e :
  kinv s Q -> thrtab s !! t = Some e -> loc e = None -> t_state e <> THRFREE ->
  let tt' := <[t := set_t_state THRREADY e]> (thrtab s) in
  exists qt', run (ready t) s = Done OK (crit_out (set_quetab qt' (set_thrtab tt' (crit_in s)))) /\
    kinv (crit_out (set_quetab qt' (set_thrtab tt' (crit_in s))))
      (qready (quetab s) t (t_prio e) (qremove t Q)).
Proof.
  intros HI He Hl Hst tt'. pose proof HI as [Hs _ HT _].
  destruct (kinv_thread_ready (crit_in s) Q t e) as (qt' & Hrun & HI'); try done.
  { by apply kinv_crit_in. }
  exists qt'. split; [| by apply kinv_crit_out]. unfold ready.
  pose proof (ks_crit _ Hs) as Hcrit. do 2 prun1.
  rewrite run_bind, (run_goodtid _ t e) by (split; [by eapply (thr_range HT) | done]).
  cbn [obind]. rewrite run_bind, Hrun. cbn [obind]. by prun.
Qed.

Lemma running_crit_in s : running s -> running (crit_in s).
Proof. done. Qed.

(** [safe_done Q]: the routine returned; the invariant holds for the queues [Q]. *)
Ltac safe_done Q := eapply (so_done _ _ _ Q); [| | done].

Lemma resume_safe t tid : safe t (resume tid).
Proof.
  constructor. intros s Q HI Hr Ht. pose proof HI as [Hs _ HT _].
  pose proof (ks_crit _ Hs) as Hcrit. unfold resume. do 2 prun1.
  pose proof (kinv_crit_in s Q HI) as HI1. rewrite run_bind.
  destruct (isbadtid_cases (crit_in s) Q tid HI1) as [-> | (e & -> & Hg)]; cbn [obind].
  { prun. safe_done Q; [by apply kinv_crit_out | done]. }
  destruct Hg as (Hr0 & He & Hst). prun. case_bool_decide as Hsusp; cbn [negb]; prun.
  2:{ safe_done Q; [by apply kinv_crit_out | done]. }
  destruct (kinv_thread_ready (crit_in s) Q tid e) as (qt' & Hrun & HI'); try done.
  { unfold loc. by rewrite Hsusp. }
  use_run Hrun. do 2 prun1. eapply safe_out_resched_ret.
  - by apply kinv_crit_out.
  - apply Hr.
  - done.
  - intros a. apply safe_ret.
Qed.

(** Suspending a thread, on the ready list or current. *)
Lemma kthreads_suspend tt cur Q t e :
  kthreads tt cur Q -> tt !! t = Some e -> t <> NULLTHREAD ->
  kthreads (<[t := set_t_state THRSUSP e]> tt) cur (qremove t Q).
Proof.
  intros HT He Hn. apply (kthreads_move HT); try done.
  - by eapply (thr_range HT).
  - intros q x Hq Hx. rewrite qremove_elem. naive_solver.
  - intros q Hq. rewrite qremove_elem. cbn. naive_solver.
  - exact (kt_prio _ _ _ HT t e He).
  - intros x e0. rewrite lookup_insert. case_decide; [by intros [= <-] | apply (kt_cur _ _ _ HT)].
Qed.

Lemma ksems_remove_other st qt Q q t :
  qrep NQENT qt Q -> ksems st Q -> isq NQENT q -> t ∈ Q q ->
  (forall i, 0 <= i < NSEM -> semq i <> q) -> ksems st (qremove t Q).
Proof.
  intros HQ HS Hq Hin Hne. eapply ksems_frame; [done |]. intros i Hi.
  apply qremove_id. intros Hin'. apply (Hne i Hi).
  apply (qr_disj _ _ _ HQ _ _ t); auto with xinu.
Qed.

Lemma suspend_safe t tid : safe t (suspend tid).
Proof.
  constructor. intros s Q HI Hr Ht. pose proof (kinv_crit_in s Q HI) as HI1.
  pose proof HI1 as [Hs HK HT HS]. pose proof (ks_crit _ (ki_static _ _ HI)) as Hcrit.
  unfold suspend. do 2 prun1. rewrite run_bind.
  destruct (isbadtid_cases (crit_in s) Q tid HI1) as [-> | (e & -> & Hg)]; cbn [obind orb].
  { prun. safe_done Q; [by apply kinv_crit_out | done]. }
  destruct Hg as (Hr0 & He & Hst).
  destruct (Z.eqb_spec NULLTHREAD tid) as [Hn | Hn].
  { prun. safe_done Q; [by apply kinv_crit_out | done]. }
  prun. case_bool_decide as Hc; cbn [negb andb].
  - rewrite bool_decide_eq_false_2 by congruence.
    pose proof (thr_detached HT tid e He ltac:(unfold loc; by rewrite Hc)) as Hfree.
    assert (HI2 : kinv (set_thrtab (<[tid := set_t_state THRSUSP e]> (thrtab s)) (crit_in s)) (qremove tid Q)).
    { split; [destruct Hs; by constructor | by apply kqueues_detached | by apply kthreads_suspend |].
      eapply ksems_frame; [done |]. intros i Hi. apply qremove_id, Hfree. auto with xinu. }
    do 5 prun1. apply (safe_out_bind _ (fun _ => e ← thr tid; mret (t_prio e))).
    + eapply safe_out_resched_ret; [by apply kinv_crit_out | apply Hr | done |].
      intros a. apply safe_ret.
    + intros _. constructor. intros s' Q' HI' Hr' Ht'.
      destruct (thr_entry (ki_threads _ _ HI') tid Hr0) as [e' He']. prun. by safe_done Q'.
  - case_bool_decide as Hrdy; cbn [negb andb]; prun.
    + assert (Hin : tid ∈ Q READYQ)
        by (apply (kt_loc _ _ _ HT tid e); auto with xinu; unfold loc; by rewrite Hrdy).
      destruct (getitem_remove NQENT (crit_in s) Q READYQ tid (kq_rep _ _ HK) isq_ready Hin)
        as (qt' & Hrun & Hrep & Hk).
      use_run Hrun. prun. safe_done (qremove tid Q).
      * apply kinv_crit_out. split; ksimpl; [destruct Hs; by constructor | | |].
        -- by eapply kqueues_remove.
        -- by apply kthreads_suspend.
        -- eapply (ksems_remove_other _ _ _ READYQ); auto with xinu. apply (kq_rep _ _ HK).
      * apply running_crit_out. eapply (running_other (crit_in s)); [done | left | done].
        intros ->. destruct Hr as [(ec & Hec & Hst') _]. change (thrtab (crit_in s)) with (thrtab s) in He.
        cbn in He. congruence.
    + prun. safe_done Q; [by apply kinv_crit_out | done].
Qed.

Lemma kinv_fields s Q t e e' :
  kinv s Q -> thrtab s !! t = Some e -> t_state e' = t_state e -> t_sem e' = t_sem e ->
  MINKEY < t_prio e' -> kinv (set_thrtab (<[t := e']> (thrtab s)) s) Q.
Proof.
  intros [Hs HK HT HS] He H1 H2 H3. split; ksimpl; [destruct Hs; by constructor | done | | done].
  by apply (kthreads_fields HT t e).
Qed.

Lemma running_fields s t e e' :
  running s -> thrtab s !! t = Some e -> t_state e' = t_state e ->
  running (set_thrtab (<[t := e']> (thrtab s)) s).
Proof.
  intros [(ec & Hec & Hst) Hrd] He He'. split; [| done]. ksimpl.
  destruct (decide (t = thrcurrent s)) as [-> | Hne].
  - exists e'. split; [apply lookup_insert_eq | congruence].
  - exists ec. by rewrite lookup_insert_ne.
Qed.

(** A priority above [MINKEY] keeps the ready list searchable. *)
Lemma chprio_safe t tid newprio : MINKEY < newprio -> safe t (chprio tid newprio).
Proof.
  intros Hp. constructor. intros s Q HI Hr Ht. unfold chprio, disable. prun.
  set (s1 := set_cpsr _ s). assert (HI1 : kinv s1 Q) by by apply kinv_cpsr.
  destruct (isbadtid_cases s1 Q tid HI1) as [-> | (e & -> & Hg)]; cbn [obind]; unfold restore.
  { unfold s1. prun. by safe_done Q; [apply kinv_cpsr |]. }
  destruct Hg as (Hr0 & He & Hst). unfold s1 in *. prun. safe_done Q.
  - apply kinv_cpsr. by apply (kinv_fields _ _ _ e (set_t_prio newprio e) HI1 He).
  - by apply (running_fields s tid e).
Qed.

Lemma getprio_safe t tid : safe t (getprio tid).
Proof.
  constructor. intros s Q HI Hr Ht. pose proof (ks_crit _ (ki_static _ _ HI)) as Hcrit.
  unfold getprio. do 2 prun1. rewrite run_bind.
  destruct (isbadtid_cases _ _ tid (kinv_crit_in s Q HI)) as [-> | (e & -> & Hr0 & He & Hst)];
    cbn [obind]; prun; safe_done Q; try done; by apply kinv_crit_out, kinv_crit_in.
Qed.

Lemma safe_out_resched_ok {A} t s Q (a : A) :
  kinv s Q -> resdefer s <= 0 -> thrcurrent s = t ->
  safe_out t (obind (fun _ => mret a) (run resched s)).
Proof.
  intros HI Hrd <-. apply safe_out_bind; [by eapply safe_out_resched |]. intros ?. apply safe_ret.
Qed.

(** A bad id: nothing happens but the critical section. *)
Ltac bad_call Q := prun; safe_done Q; [by apply kinv_crit_out, kinv_crit_in | done].

(** The state in which an outcome leaves the kernel: the routine returned, or it
    gave the processor to another thread. *)
Definition reaches {A} (o : outcome kst A) (s' : kst) : Prop :=
  (exists a, o = Done a s') \/ (exists k, o = Switch s' k).

Lemma resched_reaches {A} s Q (a : A) :
  kinv s Q -> resdefer s <= 0 ->
  exists s' Q', reaches (obind (fun _ => mret a) (run resched s)) s' /\
    kinv s' Q' /\ running s' /\ rescheduled s s' /\ same_queues Q Q' /\
    ready_kept Q Q' (thrcurrent s').
Proof.
  intros HI Hrd.
  destruct (resched_spec s Q HI Hrd) as (s' & Q' & HI' & Hr' & _ & Hre & Hsame & Hkeep & _ & Ho).
  exists s', Q'. split_and!; try done.
  destruct Ho as [[-> _] | [-> _]]; [left | right]; eexists; reflexivity.
Qed.

(** Rescheduling leaves the delays in the sleep queue alone. *)
Lemma rescheduled_deltas s s' Q Q' :
  kinv s Q -> rescheduled s s' -> same_queues Q Q' ->
  deltas (quetab s') (Q' SLEEPQ) = deltas (quetab s) (Q SLEEPQ).
Proof.
  intros HI (_ & _ & Hk) Hsame. rewrite (Hsame SLEEPQ) by (auto with xinu; unfold SLEEPQ; lia).
  apply deltas_ext. intros x Hx. destruct (Hk x) as [? | [_ (e & He & Hst & _)]]; [done | exfalso].
  apply (thr_detached (ki_threads _ _ HI) x e He ltac:(unfold loc; by rewrite Hst) SLEEPQ); auto with xinu.
Qed.

(** The part of the state the invariant speaks of. *)
Definition kview (s : kst) :=
  (quetab s, thrtab s, thrcurrent s, semtab s,
   (nextqid s, readylist s, sleepq s, inCrit s, nexttid s, nextsem s), resdefer s).

Lemma kinv_view s s' Q : kview s' = kview s -> kinv s Q -> kinv s' Q.
Proof.
  intros E [[H1 H2 H3 H4 H5 H6 H7] HK HT HS]. injection E as E1 E2 E3 E4 E5 E6 E7 E8 E9 E10 E11.
  split; [constructor | ..]; congruence.
Qed.

Lemma running_view s s' : kview s' = kview s -> running s -> running s'.
Proof.
  intros E. injection E as E1 E2 E3 E4 E5 E6 E7 E8 E9 E10 E11. unfold running. by rewrite E2, E3, E11.
Qed.

(** The key by which a candidate is chosen: for the current thread its priority, for a
    ready one the priority that it had when it became ready. *)
Definition ready_key (s : kst) (x : Z) : Z :=
  match thrtab s !! x with
  | Some e => if bool_decide (t_state e = THRCURR) then t_prio e else keyof (quetab s) x
  | None => keyof (quetab s) x
  end.

Lemma ready_key_ready s Q x : kinv s Q -> x ∈ Q READYQ -> ready_key s x = keyof (quetab s) x.
Proof.
  intros HI Hx. unfold ready_key. destruct (thrtab s !! x) as [e|] eqn:He; [| done]. case_bool_decide as Hst; [| done].
  exfalso. apply (thr_detached (ki_threads _ _ HI) x e He ltac:(unfold loc; by rewrite Hst) READYQ); [apply isq_ready | done].
Qed.

Lemma candidates_sorted s Q : kinv s Q -> descending (ready_key s) (candidates s Q).
Proof.
  intros HI. assert (Hr : forall x, x ∈ Q READYQ -> ready_key s x = keyof (quetab s) x) by (intros x; by apply ready_key_ready).
  pose proof (kq_sorted _ _ (ki_queues _ _ HI)) as Hs. pose proof (descending_ext _ _ _ Hr Hs) as Hd.
  unfold candidates. destruct (thrtab s !! thrcurrent s) as [e|] eqn:He; [| done]. case_bool_decide as Hst; [| done].
  apply (descending_pinsert (keyof (quetab s))); [| | done | done].
  - by apply (thr_detached (ki_threads _ _ HI) _ e He ltac:(unfold loc; by rewrite Hst)), isq_ready.
  - unfold ready_key. by rewrite He, bool_decide_eq_true_2.
Qed.

(** C2: [resched] gives the processor to the first of the candidates, which are the ready
    threads and the current one if it still wants to run, and the others stay ready in
    their order; none of them has a higher key than the one that runs.  The key is the
    present priority of the thread that was current, and of a ready thread the priority it
    had when it became ready ([chprio] does not move it); so if no ready thread's priority
    was changed since, no ready thread has a higher priority than the one that runs.  The
    other queues do not change, and the call returns at once or switches. *)
Theorem resched_highest s Q :
  kinv s Q -> resdefer s <= 0 ->
  exists s' Q', reaches (run resched s) s' /\ kinv s' Q' /\ running s' /\
    candidates s Q = thrcurrent s' :: Q' READYQ /\ same_queues Q Q' /\
    (forall x, x ∈ Q' READYQ -> ready_key s x <= ready_key s (thrcurrent s')) /\
    ((forall x e, x ∈ Q READYQ -> thrtab s !! x = Some e -> keyof (quetab s) x = t_prio e) ->
     forall x e e', x ∈ Q' READYQ -> thrtab s' !! x = Some e -> thrtab s' !! thrcurrent s' = Some e' ->
       t_prio e <= t_prio e').
Proof.
  intros HI Hrd.
  destruct (resched_spec s Q HI Hrd) as (s' & Q' & HI' & Hr' & Hc & (_ & Hkept & _) & Hsame & _ & _ & Ho).
  pose proof (candidates_sorted s Q HI) as Hs. rewrite Hc in Hs.
  assert (Hle : forall x, x ∈ Q' READYQ -> ready_key s x <= ready_key s (thrcurrent s')).
  { intros x Hx. apply (descending_head _ _ _ _ Hs). apply elem_of_cons. by right. }
  exists s', Q'. split_and!; try done.
  - destruct Ho as [[-> _] | [-> _]]; [left | right]; by eexists.
  - intros Hfresh x e e' Hx He He'.
    assert (Hprio : forall y ey, y ∈ candidates s Q -> thrtab s' !! y = Some ey -> ready_key s y = t_prio ey).
    { intros y ey Hy Hey. destruct (Hkept y ey Hey) as (e0 & He0 & Ee). rewrite Ee. cbn.
      unfold ready_key. rewrite He0. case_bool_decide as Hst; [done |]. apply Hfresh; [| done].
      unfold candidates in Hy. destruct (thrtab s !! thrcurrent s) as [ec|] eqn:Hec; [| done].
      case_bool_decide as Hsc; [| done]. apply pinsert_elem in Hy as [-> | Hy]; [congruence | done]. }
    rewrite <- (Hprio x e), <- (Hprio (thrcurrent s') e'); [by apply Hle | | done | | done];
      rewrite Hc; apply elem_of_cons; auto.
Qed.
