(* ===== verification/Fair.v ===== *)
(** The scheduler is fair to the threads of the highest priority: they take turns. *)
From Stdlib Require Import ZArith Lia.
From stdpp Require Import sorting gmap functions list.
From S2P Require Import Prelude Kernel Queue QueueFacts Sched.

(** ** Threads of one priority *)

(** The current thread has the priority [p], as have the ready threads [l]; the other
    ready threads, [m], come after them. *)
Record peers (p : Z) (s : kst) (Q : Z -> list Z) (l m : list Z) : Prop := {
  pe_ready : Q READYQ = l ++ m;
  pe_prio : forall x, x ∈ thrcurrent s :: l -> t_prio <$> thrtab s !! x = Some p;
  pe_keys : forall x, x ∈ l -> keyof (quetab s) x = p;
  pe_below : forall x, x ∈ m -> keyof (quetab s) x < p
}.

(** The other threads keep their places, priorities and keys. *)
Lemma peers_view p s s' Q Q' l m :
  thrcurrent s' = thrcurrent s -> Q' READYQ = Q READYQ ->
  (forall x, t_prio <$> thrtab s' !! x = t_prio <$> thrtab s !! x) ->
  (forall x, x ∈ Q READYQ -> keyof (quetab s') x = keyof (quetab s) x) ->
  peers p s Q l m -> peers p s' Q' l m.
Proof.
  intros Hc HQ Hp Hk [H1 H2 H3 H4]. split; [congruence | | |].
  - intros x Hx. rewrite Hp. apply H2. by rewrite <- Hc.
  - intros x Hx. rewrite Hk by (rewrite H1; apply elem_of_app; by left). auto.
  - intros x Hx. rewrite Hk by (rewrite H1; apply elem_of_app; by right). auto.
Qed.

(** A thread with the key [p] is inserted after the others with that key. *)
Lemma pinsert_peers kf t p l m : (forall x, x ∈ l -> kf x = p) -> (forall x, x ∈ m -> kf x < p) ->
  pinsert kf t p (l ++ m) = l ++ t :: m.
Proof.
  intros Hl Hm. induction l as [|x l IH]; cbn [app pinsert].
  - destruct m as [|y m]; [done |]. cbn [pinsert]. pose proof (Hm y ltac:(apply elem_of_cons; by left)).
    by replace (kf y >=? p) with false by lia.
  - pose proof (Hl x ltac:(apply elem_of_cons; by left)). replace (kf x >=? p) with true by lia.
    f_equal. apply IH. intros y Hy. apply Hl, elem_of_cons. by right.
Qed.

Lemma prio_insert tt t (e e' : thrent) x : tt !! t = Some e -> t_prio e' = t_prio e ->
  t_prio <$> <[t := e']> tt !! x = t_prio <$> (tt : gmap Z thrent) !! x.
Proof. intros He Hp. rewrite lookup_insert. case_decide; [subst; by rewrite He; cbn; rewrite Hp | done]. Qed.

(** The first of the ready list, which is one of the peers, gets the processor. *)
Lemma pick_peer p s Q old eold new l m :
  kinv s Q -> resdefer s <= 0 -> thrtab s !! old = Some eold ->
  (forall t e, thrtab s !! t = Some e -> t_state e <> THRCURR) ->
  Q READYQ = new :: l ++ m ->
  (forall x, x ∈ new :: l -> t_prio <$> thrtab s !! x = Some p /\ keyof (quetab s) x = p) ->
  (forall x, x ∈ m -> keyof (quetab s) x < p) ->
  exists s' Q', reaches (run (resched_pick old READYQ) s) s' /\ kinv s' Q' /\ running s' /\
    thrcurrent s' = new /\ peers p s' Q' l m.
Proof.
  intros HI Hrd Hold Hno HQ Hl Hm.
  destruct (resched_pick_spec s Q old eold HI Hrd Hold Hno) as (new' & en & r & qt' & Hr & Hen & HI' & Hrun' & Hk & Hrun).
  rewrite HQ in Hr. injection Hr as <- <-. set (s1 := set_thrtab _ _) in HI', Hrun', Hrun.
  assert (Hpe : peers p s1 (qremove new Q) l m).
  { assert (Hkey : forall x, keyof (quetab s1) x = keyof (quetab s) x) by (intros x; apply keyof_ext, Hk). split.
    - apply (qremove_mid new Q READYQ []); [exact HQ | apply (qr_nodup _ _ _ (kq_rep _ _ (ki_queues _ _ HI))), isq_ready].
    - intros x Hx. unfold s1. ksimpl. rewrite (prio_insert _ _ en) by done. by apply Hl.
    - intros x Hx. rewrite Hkey. apply Hl, elem_of_cons. by right.
    - intros x Hx. rewrite Hkey. auto. }
  case_decide as Hon.
  - subst. assert (Hold' : thrtab s1 !! new = Some (set_t_state THRCURR en)) by apply lookup_insert_eq.
    destruct (run_resched_tail s1 new _ Hold') as [c Hc]. exists (set_cpsr c s1), (qremove new Q).
    split_and!; [left; exists OK; congruence | by apply kinv_cpsr | done | done |].
    by apply (peers_view p s1 _ (qremove new Q)).
  - exists s1, (qremove new Q). split_and!; try done. right. eexists. exact Hrun.
Qed.

(** Rescheduling: the current thread goes behind its peers. *)
Lemma resched_rotates p s Q l m : kinv s Q -> running s -> peers p s Q l m ->
  exists s' Q' l', reaches (run resched s) s' /\ kinv s' Q' /\ running s' /\ peers p s' Q' l' m /\
    l ++ [thrcurrent s] = thrcurrent s' :: l'.
Proof.
  intros HI Hr Hp. pose proof HI as [Hs HK HT HS]. pose proof Hr as [(e & He & Hst) Hrd].
  assert (Hprio : t_prio e = p).
  { pose proof (pe_prio _ _ _ _ _ Hp (thrcurrent s) ltac:(apply elem_of_cons; by left)) as H. rewrite He in H. by injection H. }
  unfold resched. prun1. prun1. replace (resdefer s >? 0) with false by lia.
  unfold disable. prun. rewrite (ks_ready _ Hs).
  set (cur := thrcurrent s) in *. set (e1 := set_t_intmask (cpsr s) e). set (c1 := Z.lor (cpsr s) ARM_I_BIT).
  set (s1 := set_thrtab (<[cur := e1]> (thrtab s)) (set_cpsr c1 s)).
  change (t_state e1) with (t_state e). change (t_prio e1) with (t_prio e). rewrite bool_decide_eq_true_2 by done.
  rewrite run_bind, (run_nonempty NQENT s1 Q READYQ (kq_rep _ _ HK) isq_ready). cbn [obind].
  assert (Hrq : exists s' Q' l', reaches (obind (fun stay : bool => if stay then mret OK else resched_pick cur READYQ)
       (run (amend_thr cur (set_t_state THRREADY);; insert cur READYQ (t_prio e);; mret false) s1)) s' /\
       kinv s' Q' /\ running s' /\ peers p s' Q' l' m /\ l ++ [cur] = thrcurrent s' :: l').
  { unfold s1. prun.
    destruct (resched_requeue (set_cpsr c1 s) Q e (cpsr s)) as (qt' & Hrun & HI2 & Hk & Hno); [by apply kinv_cpsr | done | done |].
    cbn [thrcurrent set_cpsr] in Hrun, HI2, Hk, Hno. fold cur e1 in Hrun, HI2, Hk, Hno. use_run Hrun. prun.
    destruct (l ++ [cur]) as [|new l'] eqn:El; [by apply app_eq_nil in El as [_ ?] |].
    assert (Hall : forall x, x ∈ new :: l' -> x = cur \/ x ∈ l).
    { intros x. rewrite <- El, elem_of_app, list_elem_of_singleton. tauto. }
    assert (Hkey : forall x, x <> cur -> keyof qt' x = keyof (quetab s) x).
    { intros x Hx. apply keyof_ext. by rewrite Hk, decide_False. }
    assert (Hq : forall x, x ∈ Q READYQ -> x <> cur).
    { intros x Hx ->. by apply (thr_detached HT cur e He) with (q := READYQ); [unfold loc; rewrite Hst | apply isq_ready |]. }
    edestruct (pick_peer p _ _ cur (set_t_state THRREADY e1) new l' m HI2) as (s' & Q' & Ho & HI' & Hr' & <- & Hp'); [done | apply lookup_insert_eq | done | | | |].
    - unfold qready. rewrite fn_lookup_insert, Hprio, (pe_ready _ _ _ _ _ Hp).
      etransitivity; [apply pinsert_peers; intros x Hx; [exact (pe_keys _ _ _ _ _ Hp x Hx) | exact (pe_below _ _ _ _ _ Hp x Hx)] |].
      rewrite app_comm_cons, <- El. by rewrite <- app_assoc.
    - intros x Hx. ksimpl. rewrite (prio_insert _ _ e1) by (apply lookup_insert_eq || done).
      rewrite (prio_insert _ _ e) by done. split.
      + apply (pe_prio _ _ _ _ _ Hp). apply elem_of_cons. by apply Hall.
      + destruct (decide (x = cur)) as [-> | Hne]; [unfold keyof; rewrite Hk, decide_True by done; done |].
        rewrite Hkey by done. apply (pe_keys _ _ _ _ _ Hp). destruct (Hall x Hx); [done | done].
    - intros x Hx. ksimpl. rewrite Hkey; [by apply (pe_below _ _ _ _ _ Hp) |].
      apply Hq. rewrite (pe_ready _ _ _ _ _ Hp). apply elem_of_app. by right.
    - by exists s', Q', l'. }
  case_bool_decide as Hne; [| rewrite run_bind, run_ret; exact Hrq].
  destruct (Q READYQ) as [|x r] eqn:Hl; [done |].
  destruct (run_firstkey NQENT s1 Q READYQ (kq_rep _ _ HK) isq_ready x r Hl) as (ex & Hex & Hfk).
  rewrite !run_bind, Hfk. cbn [obind]. prun. destruct (Z.gtb_spec (t_prio e) (q_key ex)) as [Hgt | Hle]; [| exact Hrq].
  pose proof (keyof_entry (quetab s) x ex Hex) as Hx. pose proof (pe_ready _ _ _ _ _ Hp) as HQ. rewrite Hl in HQ.
  destruct l as [|y l]; [| injection HQ as <- _; rewrite (pe_keys _ _ _ _ _ Hp) in Hx by (apply elem_of_cons; by left); lia].
  unfold restore. prun. eexists _, Q, []. split; [left; eexists; reflexivity |].
  split; [apply kinv_cpsr, (kinv_intmask (set_cpsr c1 s)); [by apply kinv_cpsr | done] |].
  split; [split; [eexists; split; [apply lookup_insert_eq | done] | done] |]. split; [| done].
  apply (peers_view p s _ Q); try done. intros y. ksimpl. by apply prio_insert with e.
Qed.

(** ** Taking turns *)

(** What a thread does between two calls of [yield] as far as the scheduler is concerned:
    it stays the current one, and the ready list and the priorities stay as they are. *)
Definition quiet (s s' : kst) : Prop :=
  thrcurrent s' = thrcurrent s /\ (running s -> running s') /\
  (forall x, t_prio <$> thrtab s' !! x = t_prio <$> thrtab s !! x) /\
  forall Q, kinv s Q -> exists Q', kinv s' Q' /\ Q' READYQ = Q READYQ /\
    forall x, x ∈ Q READYQ -> keyof (quetab s') x = keyof (quetab s) x.

(** [n] calls of [yield], each by the thread that is current then. *)
Inductive turns : nat -> kst -> kst -> Prop :=
  | turns_0 s : turns 0 s s
  | turns_S n s s1 s2 s' : quiet s s1 -> reaches (run yield s1) s2 -> turns n s2 s' -> turns (S n) s s'.

Lemma reaches_fun {A} (o : outcome kst A) s s' : reaches o s -> reaches o s' -> s = s'.
Proof. intros [[a ->] | [k ->]] [[b E] | [k' E]]; congruence. Qed.

Lemma reaches_ret {A B} (o : outcome kst A) (b : B) s : reaches o s -> reaches (obind (fun _ => mret b) o) s.
Proof. intros [[a ->] | [k ->]]; [left; exists b; apply run_ret | right; eexists; reflexivity]. Qed.

Lemma quiet_refl s : quiet s s.
Proof. split_and!; try done. intros Q HI. by exists Q. Qed.

Lemma yield_rotates p s Q l m : kinv s Q -> running s -> peers p s Q l m ->
  exists s' Q' l', reaches (run yield s) s' /\ kinv s' Q' /\ running s' /\ peers p s' Q' l' m /\
    l ++ [thrcurrent s] = thrcurrent s' :: l'.
Proof.
  intros HI Hr Hp. destruct (resched_rotates p s Q l m HI Hr Hp) as (s' & Q' & l' & Ho & H).
  exists s', Q', l'. split; [| exact H]. unfold yield. rewrite run_bind. by apply reaches_ret.
Qed.

(** The place [n] of a list that goes round. *)
Lemma rotate_lookup (x y : Z) l l' n : l ++ [x] = y :: l' ->
  (y :: l') !! (n mod S (length l'))%nat = (x :: l) !! (S n mod S (length l))%nat.
Proof.
  intros E. assert (Hlen : length l' = length l) by (apply (f_equal length) in E; rewrite length_app in E; cbn in E; lia).
  rewrite <- E, Hlen. pose proof (Nat.mod_upper_bound n (S (length l)) ltac:(lia)) as Hb.
  assert (Hs : forall k, (S n mod k = S (n mod k) mod k)%nat).
  { intros k. rewrite <- (Nat.add_1_l (n mod k)), Nat.Div0.add_mod_idemp_r. done. }
  rewrite Hs. revert Hb. generalize (n mod S (length l))%nat. intros k Hb. destruct (decide (k = length l)) as [-> | Hne].
  - rewrite Nat.Div0.mod_same. by rewrite list_lookup_middle.
  - rewrite Nat.mod_small by lia. cbn. by rewrite lookup_app_l by lia.
Qed.

(** C3: Threads of the highest priority take turns. However often the threads yield, and
    whatever each does in between that leaves the ready list alone, the next turn can be
    taken, and after [n] turns the current thread is the one at place [n] of the ready list
    as it goes round: with [k] ready threads of that priority each of them runs again
    after [k + 1] turns, and none starves. *)
Theorem yield_round_robin p s Q l m n : kinv s Q -> running s -> peers p s Q l m ->
  (exists s', turns n s s') /\
  forall s', turns n s s' -> (thrcurrent s :: l) !! (n mod S (length l))%nat = Some (thrcurrent s').
Proof.
  revert s Q l. induction n as [|n IH]; intros s Q l HI Hr Hp.
  - split; [exists s; constructor |]. intros s' H. inversion H; subst. by rewrite Nat.Div0.mod_0_l.
  - split.
    + destruct (yield_rotates p s Q l m HI Hr Hp) as (s1 & Q1 & l1 & Ho & HI1 & Hr1 & Hp1 & _).
      destruct (IH s1 Q1 l1 HI1 Hr1 Hp1) as [[s' Hs'] _]. exists s'. econstructor; [apply quiet_refl | exact Ho | exact Hs'].
    + intros s' H. inversion H as [| ? ? s1 s2 ? (Hc & Hrun & Hpr & Hq) Ho Hn]; subst.
      destruct (Hq Q HI) as (Q1 & HI1 & HQ1 & Hk1).
      assert (Hp1 : peers p s1 Q1 l m) by by apply (peers_view p s s1 Q Q1).
      destruct (yield_rotates p s1 Q1 l m HI1 (Hrun Hr) Hp1) as (s2' & Q2 & l2 & Ho' & HI2 & Hr2 & Hp2 & Hrot).
      rewrite (reaches_fun _ _ _ Ho' Ho) in *. destruct (IH s2 Q2 l2 HI2 Hr2 Hp2) as [_ IHs].
      rewrite <- (IHs s' Hn), <- Hc. symmetry. by apply rotate_lookup.
Qed.
