(* ===== verification/Semaphore.v ===== *)
(** Counting semaphores: system/semcreate.c, system/semfree.c, system/semcount.c,
    system/wait.c, system/signal.c and system/signaln.c.  An abstract semaphore is
    a number of permits and the threads that wait, in order of arrival; the
    routines are shown to implement it, and to be safe in any thread. *)
From Stdlib Require Import ZArith Lia.
From stdpp Require Import sorting gmap functions list.
From S2P Require Import Prelude Kernel Queue QueueFacts Sched.

(** ** Routines

    A [semaphore] is an unsigned int: the argument is converted on entry, and an
    allocation that fails returns [SYSERR] converted to it. *)

Definition NOSEM : Z := u32 SYSERR.

(** The body of the search loop. *)
Definition semalloc_body (_ : Z) (_ : unit) : kprog (unit + Z) :=
  k ← gets nextsem;
  modify (set_nextsem (k + 1));;
  k ← gets nextsem;
  (if k >=? NSEM then modify (set_nextsem 0) else mret tt);;
  k ← gets nextsem;
  e ← semx k;
  if bool_decide (s_state e = SFREE) then
    amend_sem k (set_s_state SUSED);;
    mret (inr k)
  else mret (inl tt).

Definition semalloc : kprog Z :=
  r ← for_ (Z.to_nat NSEM) 0 semalloc_body tt;
  match r with
  | inr sem => mret sem
  | inl _ => mret NOSEM
  end.

Definition semcreate (count : Z) : kprog Z :=
  if count <? 0 then mret NOSEM else
  ENTER_KERNEL_CRITICAL_SECTION;;
  sem ← semalloc;
  (if negb (sem =? NOSEM) then amend_sem sem (set_s_count count) else mret tt);;
  EXIT_KERNEL_CRITICAL_SECTION;;
  mret sem.

(** The block [semfree], [signal] and [signaln] share: the first thread of queue
    [q] is made ready. *)
Definition sem_release (q : Z) : kprog unit :=
  tid ← dequeue q;
  bad ← isbadtid tid;
  if (bad : bool) then mret tt else thread_ready tid.

Definition semfree (sem : Z) : kprog Z :=
  let sem := u32 sem in
  ENTER_KERNEL_CRITICAL_SECTION;;
  bad ← isbadsem sem;
  if (bad : bool) then EXIT_KERNEL_CRITICAL_SECTION;; mret SYSERR else
  while_ QFUEL
    (fun _ => semptr ← semx sem; nonempty (s_queue semptr))
    (fun _ => semptr ← semx sem; sem_release (s_queue semptr)) tt;;
  amend_sem sem (set_s_count 0);;
  amend_sem sem (set_s_state SFREE);;
  EXIT_KERNEL_CRITICAL_SECTION;;
  mret OK.

Definition semcount (sem : Z) : kprog Z :=
  let sem := u32 sem in
  bad ← isbadsem sem;
  if (bad : bool) then mret SYSERR else
  e ← semx sem;
  mret (s_count e).

Definition wait (sem : Z) : kprog Z :=
  let sem := u32 sem in
  ENTER_KERNEL_CRITICAL_SECTION;;
  bad ← isbadsem sem;
  if (bad : bool) then EXIT_KERNEL_CRITICAL_SECTION;; mret SYSERR else
  cur ← gets thrcurrent;
  semptr ← semx sem;
  c ← int (s_count semptr - 1);
  amend_sem sem (set_s_count c);;
  if c <? 0 then
    amend_thr cur (set_t_state THRWAIT);;
    amend_thr cur (set_t_sem sem);;
    semptr ← semx sem;
    enqueue cur (s_queue semptr);;
    EXIT_KERNEL_CRITICAL_SECTION;;
    resched;;
    mret OK
  else
    EXIT_KERNEL_CRITICAL_SECTION;;
    mret OK.

Definition signal (sem : Z) : kprog Z :=
  let sem := u32 sem in
  ENTER_KERNEL_CRITICAL_SECTION;;
  bad ← isbadsem sem;
  if (bad : bool) then EXIT_KERNEL_CRITICAL_SECTION;; mret SYSERR else
  semptr ← semx sem;
  c ← int (s_count semptr + 1);
  amend_sem sem (set_s_count c);;
  if s_count semptr <? 0 then
    sem_release (s_queue semptr);;
    EXIT_KERNEL_CRITICAL_SECTION;;
    resched;;
    mret OK
  else
    EXIT_KERNEL_CRITICAL_SECTION;;
    mret OK.

(** The loop body of [signaln]. *)
Definition signaln_step (sem : Z) : kprog unit :=
  semptr ← semx sem;
  c ← int (s_count semptr + 1);
  amend_sem sem (set_s_count c);;
  if s_count semptr <? 0 then sem_release (s_queue semptr) else mret tt.

Definition signaln (sem count : Z) : kprog Z :=
  let sem := u32 sem in
  ENTER_KERNEL_CRITICAL_SECTION;;
  bad ← isbadsem sem;
  if bad || (count <=? 0) then EXIT_KERNEL_CRITICAL_SECTION;; mret SYSERR else
  while_ (S (Z.to_nat count)) (fun c => mret (c >? 0))
    (fun c => signaln_step sem;; mret (c - 1)) count;;
  EXIT_KERNEL_CRITICAL_SECTION;;
  resched;;
  mret OK.

(** ** Lookup *)

Lemma u32_idem x : u32 (u32 x) = u32 x.
Proof. apply u32_small, u32_bound. Qed.

Lemma sem_range {st Q i e} : ksems st Q -> st !! i = Some e -> 0 <= i < NSEM.
Proof. intros HS He. apply (kse_dom _ _ HS). by rewrite He. Qed.

(** A semaphore id is bad, or it names a semaphore in use. *)
Lemma isbadsem_cases s Q x :
  ksems (semtab s) Q ->
  run (isbadsem (u32 x)) s = Done true s \/
  exists e, run (isbadsem (u32 x)) s = Done false s /\ semtab s !! u32 x = Some e /\
    s_state e = SUSED /\ 0 <= u32 x < NSEM.
Proof.
  intros HS. unfold isbadsem. rewrite u32_idem. destruct (Z.geb_spec (u32 x) NSEM) as [? | Hlt]; [by left |].
  pose proof (u32_bound x) as Hb.
  destruct (proj2 (kse_dom _ _ HS (u32 x))) as [e He]; [lia |]. prun.
  case_bool_decide as Hst; [by left | right]. exists e. split_and!; try done; [| lia].
  by destruct (s_state e).
Qed.

Lemma isbadsem_used s x e :
  semtab s !! x = Some e -> s_state e = SUSED -> 0 <= x < NSEM ->
  run (isbadsem x) s = Done false s.
Proof.
  intros He Hst Hx. unfold isbadsem, NSEM in *. rewrite u32_small by lia.
  rewrite Z.geb_leb, (proj2 (Z.leb_gt _ _)) by lia. prun. by rewrite Hst.
Qed.

(** ** Releasing and blocking a thread *)

(** The queues after the head [t] of the queue of semaphore [i] became ready. *)
Record released (i t : Z) (l : list Z) (e : thrent) (qt : gmap Z queent)
    (Q Q' : Z -> list Z) : Prop := {
  rl_queue : Q' (semq i) = l;
  rl_other : forall j, 0 <= j < NSEM -> j <> i -> Q' (semq j) = Q (semq j);
  rl_ready : Q' READYQ = pinsert (keyof qt) t (t_prio e) (Q READYQ);
  rl_sleep : Q' SLEEPQ = Q SLEEPQ
}.

Lemma pinsert_ext kf kf' t key l :
  (forall x, x ∈ l -> kf' x = kf x) -> pinsert kf' t key l = pinsert kf t key l.
Proof.
  induction l as [|x l IH]; intros H; [done |]. cbn.
  rewrite H by (apply elem_of_cons; by left). case_match; [| done].
  f_equal. apply IH. intros y Hy. apply H. apply elem_of_cons. by right.
Qed.

Lemma sem_release_spec s Q i t l :
  kstatic s -> kqueues (quetab s) Q -> kthreads (thrtab s) (thrcurrent s) Q ->
  0 <= i < NSEM -> Q (semq i) = t :: l ->
  exists qt' e Q', let tt' := <[t := set_t_state THRREADY e]> (thrtab s) in
    thrtab s !! t = Some e /\ t_state e = THRWAIT /\
    run (sem_release (semq i)) s = Done tt (set_quetab qt' (set_thrtab tt' s)) /\
    kqueues qt' Q' /\ kthreads tt' (thrcurrent s) Q' /\
    released i t l e (quetab s) Q Q'.
Proof.
  intros Hs HK HT Hi Hq. pose proof (kq_rep _ _ HK) as HQ.
  assert (Hin : t ∈ Q (semq i)) by (rewrite Hq; apply elem_of_cons; by left).
  assert (Hr : 0 <= t < NTHREAD) by (apply (qr_tid _ _ _ HQ (semq i)); auto with xinu).
  destruct (thr_entry HT t Hr) as [e He].
  assert (Hst : t_state e = THRWAIT).
  { pose proof (proj1 (kt_loc _ _ _ HT t e _ He (isq_sem i Hi)) Hin) as Hl. unfold loc in Hl.
    destruct (t_state e); try done; exfalso; injection Hl; unfold semq, SLEEPQ, READYQ; lia. }
  destruct (dequeue_remove NQENT s Q (semq i) t l e HQ (isq_sem i Hi) Hq He)
    as (qt1 & Hrun1 & Hrep1 & Hk1).
  pose proof (kqueues_remove _ _ _ _ HK Hrep1 Hk1) as HK1.
  destruct (thread_ready_full (set_quetab qt1 s) Q t e (thrcurrent s))
    as (qt' & Hrun & HK' & HT' & Hk'); try done; [apply Hs |].
  exists qt', e, (qready qt1 t (t_prio e) (qremove t Q)). split_and!; try done.
  - unfold sem_release. rewrite run_bind, Hrun1. cbn [obind].
    rewrite run_bind, (run_goodtid _ t e) by (split; [done | split; [done | by rewrite Hst]]).
    cbn [obind]. by rewrite Hrun.
  - assert (Hnd : NoDup (t :: l)) by (rewrite <- Hq; apply (qr_nodup _ _ _ HQ); auto with xinu).
    assert (Hoth : forall q, isq NQENT q -> q <> semq i -> qremove t Q q = Q q).
    { intros q Hq' Hne. apply qremove_id. intros Ht. apply Hne.
      apply (qr_disj _ _ _ HQ _ _ t); auto with xinu. }
    split.
    + rewrite qready_sem by done. rewrite (qremove_mid t Q (semq i) [] l); [done | by rewrite Hq |].
      by rewrite Hq.
    + intros j Hj Hne. rewrite qready_sem by done. apply Hoth; auto with xinu.
      intros E. by apply semq_inj in E.
    + unfold qready. rewrite fn_lookup_insert, Hoth; auto with xinu.
      * apply pinsert_ext. intros x _. by apply keyof_ext.
      * intros E. by apply (semq_ne_ready i).
    + rewrite qready_sleep. apply Hoth; auto with xinu. intros E. by apply (semq_ne_sleep i).
Qed.

(** Semaphore [i] gets the entry [e'] and its queue changes. *)
Lemma ksems_update st Q Q' i e' :
  ksems st Q -> 0 <= i < NSEM -> s_queue e' = semq i ->
  (forall j, 0 <= j < NSEM -> j <> i -> Q' (semq j) = Q (semq j)) ->
  (s_state e' = SUSED ->
     Z.of_nat (length (Q' (semq i))) = Z.max 0 (- s_count e') /\
     INT_MIN <= s_count e' <= INT_MAX) ->
  (s_state e' = SFREE -> Q' (semq i) = []) ->
  ksems (<[i := e']> st) Q'.
Proof.
  intros [H1 H2 H3 H4] Hi Hq Hoth Hu Hf.
  destruct (proj2 (H1 i) Hi) as [e0 He0].
  assert (Hcase : forall j e, <[i := e']> st !! j = Some e ->
            (j = i /\ e = e') \/ (j <> i /\ st !! j = Some e /\ Q' (semq j) = Q (semq j))).
  { intros j e. rewrite lookup_insert. destruct (decide (i = j)) as [<- | Hne].
    - intros [= <-]. by left.
    - intros He. right. split_and!; [done | done |]. apply Hoth; [| done]. apply H1. eauto. }
  constructor.
  - intros j. by rewrite (insert_same_dom _ _ _ _ _ He0).
  - intros j e [[-> ->] | (_ & He & _)]%Hcase; [done | by apply H2].
  - intros j e [[-> ->] | (_ & He & ->)]%Hcase; [done | by apply H3].
  - intros j e [[-> ->] | (_ & He & ->)]%Hcase; [done | by apply H4].
Qed.

Section Used.
Context (s : kst) (Q : Z -> list Z) (i : Z) (e : sement).
Hypothesis HI : kinv s Q.
Hypothesis He : semtab s !! i = Some e.
Hypothesis Hused : s_state e = SUSED.

Lemma used_range : 0 <= i < NSEM.
Proof. exact (sem_range (ki_sems _ _ HI) He). Qed.

Lemma used_queue : s_queue e = semq i.
Proof. exact (kse_queue _ _ (ki_sems _ _ HI) i e He). Qed.

Lemma used_count :
  Z.of_nat (length (Q (semq i))) = Z.max 0 (- s_count e) /\ INT_MIN <= s_count e <= INT_MAX.
Proof. exact (kse_count _ _ (ki_sems _ _ HI) i e He Hused). Qed.

(** The count is never below minus the number of threads. *)
Lemma used_low : - NTHREAD <= s_count e.
Proof.
  pose proof used_count as [Hc _].
  pose proof (queue_length NQENT s Q (semq i) (kq_rep _ _ (ki_queues _ _ HI)) (isq_sem i used_range)).
  lia.
Qed.

Lemma waiters_cons : s_count e < 0 -> exists t l, Q (semq i) = t :: l.
Proof.
  intros Hc. pose proof used_count as [Hl _].
  destruct (Q (semq i)) as [|t l]; [cbn in Hl; lia | eauto].
Qed.

(** The count of a semaphore nobody waits on changes. *)
Lemma kinv_count c :
  Z.max 0 (- c) = Z.max 0 (- s_count e) -> INT_MIN <= c <= INT_MAX ->
  kinv (set_semtab (<[i := set_s_count c e]> (semtab s)) s) Q.
Proof.
  intros Hc Hr. pose proof used_count as [Hl _]. destruct HI as [Hs HK HT HS].
  split; ksimpl; [destruct Hs; by constructor | done | done |].
  apply (ksems_update _ Q); try done.
  - exact used_range.
  - exact used_queue.
  - intros _. cbn. split; [lia | done].
  - cbn. by rewrite Hused.
Qed.

(** A count that was negative goes up by one and a thread is released. *)
Lemma kinv_release :
  s_count e < 0 ->
  let st' := <[i := set_s_count (s_count e + 1) e]> (semtab s) in
  exists t l et qt' Q', let tt' := <[t := set_t_state THRREADY et]> (thrtab s) in
    let s' := set_quetab qt' (set_thrtab tt' (set_semtab st' s)) in
    Q (semq i) = t :: l /\ thrtab s !! t = Some et /\ t_state et = THRWAIT /\
    run (sem_release (s_queue e)) (set_semtab st' s) = Done tt s' /\
    kinv s' Q' /\ released i t l et (quetab s) Q Q'.
Proof.
  intros Hneg st'. destruct (waiters_cons Hneg) as (t & l & Hl).
  pose proof HI as [Hs HK HT HS]. pose proof used_range as Hi.
  destruct (sem_release_spec (set_semtab st' s) Q i t l)
    as (qt' & et & Q' & Het & Hst & Hrun & HK' & HT' & Hrel); try done; [destruct Hs; by constructor |].
  exists t, l, et, qt', Q'. split_and!; try done; [by rewrite used_queue |].
  split; ksimpl; [destruct Hs; by constructor | done | done |].
  pose proof used_count as [Hc Hr]. rewrite Hl in Hc. cbn [length] in Hc.
  apply (ksems_update _ Q); try done.
  - exact used_queue.
  - apply (rl_other _ _ _ _ _ _ _ Hrel).
  - intros _. cbn. rewrite (rl_queue _ _ _ _ _ _ _ Hrel). unfold INT_MAX in *. lia.
  - cbn. by rewrite Hused.
Qed.
End Used.

(** The queues after thread [t] joined the queue [q]. *)
Definition qjoin (q t : Z) (Q : Z -> list Z) : Z -> list Z := <[q := Q q ++ [t]]> Q.

Lemma qjoin_elem q t Q q' x : x ∈ qjoin q t Q q' <-> (x = t /\ q' = q) \/ x ∈ Q q'.
Proof.
  unfold qjoin. destruct (decide (q = q')) as [<- | Hne].
  - rewrite fn_lookup_insert, elem_of_app, list_elem_of_singleton. tauto.
  - rewrite fn_lookup_insert_ne by done. naive_solver.
Qed.

(** A thread in no queue joins one that is neither the ready list nor the sleep
    queue. *)
Lemma kqueues_join qt qt' Q q t :
  kqueues qt Q -> q <> READYQ -> q <> SLEEPQ -> qrep NQENT qt' (qjoin q t Q) ->
  (forall x, qkey qt' x = qkey qt x) -> kqueues qt' (qjoin q t Q).
Proof.
  intros [HQ Hs Hd Ht] H1 H2 HQ' Hk. constructor; [done | | |]; unfold qjoin.
  - rewrite fn_lookup_insert_ne by done. eapply descending_ext; [| done].
    intros x _. by apply keyof_ext.
  - rewrite fn_lookup_insert_ne by done. intros x Hx. rewrite (keyof_ext qt) by done. by apply Hd.
  - rewrite fn_lookup_insert_ne by done. rewrite (dsum_ext (keyof qt)); [done |].
    intros x _. by apply keyof_ext.
Qed.

(** The current thread blocks on semaphore [i]. *)
Definition blocked_on (i : Z) (et : thrent) : thrent := set_t_sem i (set_t_state THRWAIT et).

Lemma kinv_block s Q i e et :
  kinv s Q -> semtab s !! i = Some e -> s_state e = SUSED -> s_count e <= 0 ->
  thrtab s !! thrcurrent s = Some et -> t_state et = THRCURR -> thrcurrent s <> NULLTHREAD ->
  let t := thrcurrent s in
  let tt' := <[t := blocked_on i et]> (thrtab s) in
  let st' := <[i := set_s_count (s_count e - 1) e]> (semtab s) in
  exists qt',
    run (enqueue t (semq i)) (set_thrtab tt' (set_semtab st' s)) =
      Done t (set_quetab qt' (set_thrtab tt' (set_semtab st' s))) /\
    kinv (set_quetab qt' (set_thrtab tt' (set_semtab st' s))) (qjoin (semq i) t Q).
Proof.
  intros HI He Hu Hc Het Hst Hnull t tt' st'. pose proof HI as [Hs HK HT HS].
  pose proof (used_range s Q i e HI He) as Hi.
  pose proof (thr_detached HT t et Het ltac:(unfold loc; by rewrite Hst)) as Hfree.
  set (s1 := set_thrtab tt' _).
  assert (Hg : goodtid s1 t (blocked_on i et)).
  { split; [apply (ks_cur _ Hs) | split; [apply lookup_insert_eq | done]]. }
  destruct (enqueue_spec NQENT s1 Q (semq i) (kq_rep _ _ HK) (isq_sem i Hi) t _ Hg Hfree)
    as (qt' & Hrun & Hrep & Hk).
  exists qt'. split; [done |]. split; unfold s1; ksimpl; [destruct Hs; by constructor | | |].
  - apply (kqueues_join (quetab s)); auto with xinu.
  - apply (kthreads_move HT); try done.
    + apply (ks_cur _ Hs).
    + intros q x Hq Hx. rewrite qjoin_elem. naive_solver.
    + intros q Hq. rewrite qjoin_elem. cbn. pose proof (Hfree q Hq). naive_solver.
    + exact (kt_prio _ _ _ HT t et Het).
    + intros x e0. rewrite lookup_insert. case_decide as Hx; [by intros [= <-] |]. intros He0 Hc0.
      by apply (kt_cur _ _ _ HT x e0).
  - pose proof (used_count s Q i e HI He Hu) as [Hl Hr]. apply (ksems_update _ Q); try done.
    + by apply (used_queue s Q i e HI).
    + intros j Hj Hne. unfold qjoin. rewrite fn_lookup_insert_ne; [done |].
      intros E. by apply semq_inj in E.
    + intros _. cbn. unfold qjoin. rewrite fn_lookup_insert, length_app. cbn [length].
      pose proof (used_low s Q i e HI He Hu). klia.
    + cbn. by rewrite Hu.
Qed.

(** ** The system calls are safe *)

(** [wait] on a used semaphore, up to rescheduling. *)
Lemma run_wait_take s Q sem e :
  kinv s Q -> semtab s !! u32 sem = Some e -> s_state e = SUSED -> 0 < s_count e ->
  run (wait sem) s = Done OK (crit_out
    (set_semtab (<[u32 sem := set_s_count (s_count e - 1) e]> (semtab s)) (crit_in s))).
Proof.
  intros HI He Hu Hc. pose proof (ks_crit _ (ki_static _ _ HI)) as Hcrit.
  pose proof (used_range s Q _ e HI He) as Hi. pose proof (used_count s Q _ e HI He Hu) as [_ Hr].
  unfold wait. do 2 prun1. rewrite run_bind, (isbadsem_used _ _ e) by done. cbn [obind].
  prun. rewrite run_int by klia. cbn [obind]. prun.
  rewrite (proj2 (Z.ltb_ge _ 0)) by lia. by prun.
Qed.

Lemma run_wait_block s Q sem e et :
  kinv s Q -> semtab s !! u32 sem = Some e -> s_state e = SUSED -> s_count e <= 0 ->
  thrtab s !! thrcurrent s = Some et -> t_state et = THRCURR -> thrcurrent s <> NULLTHREAD ->
  let t := thrcurrent s in
  exists qt', let s' := crit_out (set_quetab qt'
      (set_thrtab (<[t := blocked_on (u32 sem) et]> (thrtab s))
      (set_semtab (<[u32 sem := set_s_count (s_count e - 1) e]> (semtab s)) (crit_in s)))) in
    run (wait sem) s = obind (fun _ => mret OK) (run resched s') /\
    kinv s' (qjoin (semq (u32 sem)) t Q).
Proof.
  intros HI He Hu Hc Het Hst Hnull t. pose proof (ks_crit _ (ki_static _ _ HI)) as Hcrit.
  pose proof (used_range s Q _ e HI He) as Hi. pose proof (used_low s Q _ e HI He Hu) as Hlow.
  destruct (kinv_block (crit_in s) Q (u32 sem) e et) as (qt' & Hrun & HI'); try done.
  { by apply kinv_crit_in. }
  exists qt'. split; [| by apply kinv_crit_out].
  unfold wait. do 2 prun1. rewrite run_bind, (isbadsem_used _ _ e) by done. cbn [obind].
  prun. rewrite run_int by klia. cbn [obind]. prun.
  rewrite (proj2 (Z.ltb_lt _ 0)) by lia. prun. cbn [set_s_count s_queue].
  rewrite (used_queue s Q _ e HI He), insert_insert_eq.
  change (thrcurrent (crit_in s)) with (thrcurrent s) in Hrun.
  use_run Hrun. by prun.
Qed.

Lemma wait_safe t sem : t <> NULLTHREAD -> safe t (wait sem).
Proof.
  intros Hnull. constructor. intros s Q HI Hr Ht.
  pose proof (ks_crit _ (ki_static _ _ HI)) as Hcrit.
  destruct (isbadsem_cases (crit_in s) Q sem (ki_sems _ _ HI)) as [Hbad | (e & Hbad & He & Hu & Hi)].
  { unfold wait. do 2 prun1. rewrite run_bind, Hbad. cbn [obind]. bad_call Q. }
  destruct (Z.lt_ge_cases 0 (s_count e)) as [Hc | Hc].
  - rewrite (run_wait_take s Q sem e) by done.
    pose proof (used_count s Q _ e HI He Hu) as [_ Hrg]. safe_done Q; [| done].
    apply kinv_crit_out. apply (kinv_count (crit_in s)); [by apply kinv_crit_in | done | done | lia | klia].
  - subst t. destruct Hr as [(et & Het & Hst) Hrd].
    destruct (run_wait_block s Q sem e et) as (qt' & Hrun & HI'); try done.
    rewrite Hrun. by eapply safe_out_resched_ok.
Qed.

Lemma run_signal_put s Q sem e :
  kinv s Q -> semtab s !! u32 sem = Some e -> s_state e = SUSED -> 0 <= s_count e < INT_MAX ->
  run (signal sem) s = Done OK (crit_out
    (set_semtab (<[u32 sem := set_s_count (s_count e + 1) e]> (semtab s)) (crit_in s))).
Proof.
  intros HI He Hu Hc. pose proof (ks_crit _ (ki_static _ _ HI)) as Hcrit.
  pose proof (used_range s Q _ e HI He) as Hi.
  unfold signal. do 2 prun1. rewrite run_bind, (isbadsem_used _ _ e) by done. cbn [obind].
  prun. rewrite run_int by klia. cbn [obind]. prun.
  rewrite (proj2 (Z.ltb_ge _ 0)) by lia. by prun.
Qed.

Lemma run_signal_wake s Q sem e :
  kinv s Q -> semtab s !! u32 sem = Some e -> s_state e = SUSED -> s_count e < 0 ->
  exists t l et qt' Q', let s' := crit_out (set_quetab qt'
      (set_thrtab (<[t := set_t_state THRREADY et]> (thrtab s))
      (set_semtab (<[u32 sem := set_s_count (s_count e + 1) e]> (semtab s)) (crit_in s)))) in
    Q (semq (u32 sem)) = t :: l /\ thrtab s !! t = Some et /\ t_state et = THRWAIT /\
    run (signal sem) s = obind (fun _ => mret OK) (run resched s') /\
    kinv s' Q' /\ released (u32 sem) t l et (quetab s) Q Q'.
Proof.
  intros HI He Hu Hc. pose proof (ks_crit _ (ki_static _ _ HI)) as Hcrit.
  pose proof (used_range s Q _ e HI He) as Hi. pose proof (used_low s Q _ e HI He Hu) as Hlow.
  destruct (kinv_release (crit_in s) Q (u32 sem) e (kinv_crit_in _ _ HI) He Hu Hc)
    as (t & l & et & qt' & Q' & Hq & Het & Hst & Hrun & HI' & Hrel).
  exists t, l, et, qt', Q'. split_and!; try done; [| by apply kinv_crit_out].
  unfold signal. do 2 prun1. rewrite run_bind, (isbadsem_used _ _ e) by done. cbn [obind].
  prun. rewrite run_int by klia. cbn [obind]. prun.
  rewrite (proj2 (Z.ltb_lt _ 0)) by lia. prun. use_run Hrun. by prun.
Qed.

(** Semaphore [sem], if it is in use, can take [n] more permits.  One more than INT_MAX
    wraps around and looks like a queue of waiting threads. *)
Definition sem_room (s : kst) (sem n : Z) : Prop :=
  forall e, semtab s !! u32 sem = Some e -> s_state e = SUSED -> s_count e + n <= INT_MAX.

Lemma signal_safe_out s Q sem :
  kinv s Q -> running s -> sem_room s sem 1 -> safe_out (thrcurrent s) (run (signal sem) s).
Proof.
  intros HI Hr Hroom. pose proof (ks_crit _ (ki_static _ _ HI)) as Hcrit.
  destruct (isbadsem_cases (crit_in s) Q sem (ki_sems _ _ HI)) as [Hbad | (e & Hbad & He & Hu & Hi)].
  { unfold signal. do 2 prun1. rewrite run_bind, Hbad. cbn [obind]. bad_call Q. }
  pose proof (used_count s Q _ e HI He Hu) as [_ Hrg]. pose proof (Hroom e He Hu) as Hmax.
  destruct (Z.lt_ge_cases (s_count e) 0) as [Hc | Hc].
  - destruct (run_signal_wake s Q sem e) as (x & l & et & qt' & Q' & _ & _ & _ & Hrun & HI' & _); try done.
    rewrite Hrun. eapply safe_out_resched_ok; [done | apply Hr | done].
  - rewrite (run_signal_put s Q sem e) by (try done; klia). safe_done Q; [| done].
    apply kinv_crit_out. apply (kinv_count (crit_in s)); [by apply kinv_crit_in | done | done | lia | klia].
Qed.

(** What a routine that releases threads changes. *)
Definition sem_frame (s s' : kst) : Prop :=
  exists qt tt st, s' = set_quetab qt (set_thrtab tt (set_semtab st s)).

Lemma sem_frame_refl s : sem_frame s s.
Proof. exists (quetab s), (thrtab s), (semtab s). by destruct s. Qed.

Lemma sem_frame_trans s1 s2 s3 : sem_frame s1 s2 -> sem_frame s2 s3 -> sem_frame s1 s3.
Proof. intros (? & ? & ? & ->) (? & ? & ? & ->). eexists _, _, _. kst_eq. Qed.

Lemma signaln_step_spec s Q i e :
  kinv s Q -> semtab s !! i = Some e -> s_state e = SUSED -> s_count e < INT_MAX ->
  exists s' Q', run (signaln_step i) s = Done tt s' /\ kinv s' Q' /\ sem_frame s s' /\
    semtab s' !! i = Some (set_s_count (s_count e + 1) e) /\
    Q' (semq i) = drop 1 (Q (semq i)) /\
    (forall x, x ∈ take 1 (Q (semq i)) ++ Q READYQ -> x ∈ Q' READYQ).
Proof.
  intros HI He Hu Hmax. pose proof (used_low s Q i e HI He Hu) as Hlow.
  pose proof (used_count s Q i e HI He Hu) as [Hlen Hrg].
  unfold signaln_step. prun. rewrite run_int by klia. cbn [obind]. prun.
  destruct (Z.ltb_spec (s_count e) 0) as [Hneg | Hpos].
  - destruct (kinv_release s Q i e HI He Hu Hneg) as (t & l & et & qt' & Q' & Hl & _ & _ & Hrun & HI' & Hrel).
    eexists _, Q'. split; [exact Hrun |]. split_and!; [done | | apply lookup_insert_eq | |].
    + eexists _, _, _. reflexivity.
    + rewrite Hl. apply (rl_queue _ _ _ _ _ _ _ Hrel).
    + intros x. rewrite Hl, (rl_ready _ _ _ _ _ _ _ Hrel), pinsert_elem. cbn.
      by rewrite elem_of_cons.
  - prun. eexists _, Q. split; [done |].
    assert (E : Q (semq i) = []) by (destruct (Q (semq i)); cbn in Hlen; [done | lia]).
    rewrite E. split_and!; [| | apply lookup_insert_eq | done | done].
    + apply (kinv_count s Q i e); try done; klia.
    + exists (quetab s), (thrtab s), (<[i := set_s_count (s_count e + 1) e]> (semtab s)). by destruct s.
Qed.

(** [n] signals in a row: the first [n] waiters are released. *)
Lemma signaln_loop i : forall n s Q e,
  kinv s Q -> semtab s !! i = Some e -> s_state e = SUSED -> s_count e + Z.of_nat n <= INT_MAX ->
  let o := run (while_ (S n) (fun c => mret (c >? 0))
                  (fun c => signaln_step i;; mret (c - 1)) (Z.of_nat n)) s in
  exists s' Q', o = Done 0 s' /\ kinv s' Q' /\ sem_frame s s' /\
    semtab s' !! i = Some (set_s_count (s_count e + Z.of_nat n) e) /\
    Q' (semq i) = drop n (Q (semq i)) /\
    (forall x, x ∈ take n (Q (semq i)) ++ Q READYQ -> x ∈ Q' READYQ).
Proof.
  induction n as [|n IH]; intros s Q e HI He Hu Hmax o.
  - exists s, Q. unfold o. cbn [while_]. prun. cbn. split_and!; try done.
    + apply sem_frame_refl.
    + rewrite Z.add_0_r, He. by destruct e.
  - unfold o. cbn [while_]. prun. rewrite (proj2 (Z.gtb_lt (Z.of_nat (S n)) 0)) by lia. prun.
    destruct (signaln_step_spec s Q i e HI He Hu) as (s1 & Q1 & Hrun & HI1 & Hf1 & He1 & Hq1 & Hr1); [lia |].
    rewrite Hrun. cbn [obind]. prun. replace (Z.of_nat (S n) - 1) with (Z.of_nat n) by lia.
    destruct (IH s1 Q1 _ HI1 He1 Hu) as (s' & Q' & Ho & HI' & Hf & He' & Hq & Hr); [cbn; lia |].
    exists s', Q'. split_and!; [exact Ho | done | by eapply sem_frame_trans | | |].
    + rewrite He'. unfold set_s_count. cbn. do 2 f_equal. lia.
    + rewrite Hq, Hq1. by rewrite drop_drop.
    + intros x Hx. apply Hr. rewrite Hq1, elem_of_app.
      destruct (Q (semq i)) as [|y l]; cbn in Hx, Hr1 |- *; [right; apply Hr1; by destruct n |].
      apply elem_of_cons in Hx as [-> | Hx]; [right; apply Hr1; apply elem_of_cons; by left |].
      apply elem_of_app in Hx as [Hx | Hx]; [by left; rewrite drop_0 | right; apply Hr1].
      apply elem_of_cons. by right.
Qed.

Lemma sem_frame_running s s' : sem_frame s s' -> resdefer s' = resdefer s /\ thrcurrent s' = thrcurrent s.
Proof. by intros (? & ? & ? & ->). Qed.

Lemma signaln_safe_out s Q sem count :
  kinv s Q -> running s -> sem_room s sem count -> safe_out (thrcurrent s) (run (signaln sem count) s).
Proof.
  intros HI Hr Hroom. pose proof (ks_crit _ (ki_static _ _ HI)) as Hcrit.
  destruct (isbadsem_cases (crit_in s) Q sem (ki_sems _ _ HI)) as [Hbad | (e & Hbad & He & Hu & Hi)];
    unfold signaln; do 2 prun1; rewrite run_bind, Hbad; cbn [obind orb]; [bad_call Q |].
  destruct (Z.leb_spec count 0) as [Hc | Hc]; [bad_call Q |].
  pose proof (Hroom e He Hu) as Hmax.
  destruct (signaln_loop (u32 sem) (Z.to_nat count) _ Q e (kinv_crit_in s Q HI) He Hu) as (s' & Q' & Hrun & HI' & Hf & _); [lia |].
  rewrite Z2Nat.id in Hrun by lia. rewrite run_bind, Hrun. cbn [obind].
  apply sem_frame_running in Hf as [Hrd Hcur].
  pose proof (ks_crit _ (ki_static _ _ HI')) as Hcrit'. prun.
  eapply (safe_out_resched_ok _ (crit_out s')); [by apply kinv_crit_out | | done].
  change (resdefer s' <= 0). rewrite Hrd. apply Hr.
Qed.

(** ** Freeing and allocating *)

Lemma semfree_loop i e cur : forall l s Q fuel,
  kstatic s -> kqueues (quetab s) Q -> kthreads (thrtab s) cur Q -> thrcurrent s = cur ->
  0 <= i < NSEM -> semtab s !! i = Some e -> s_queue e = semq i ->
  Q (semq i) = l -> (length l < fuel)%nat -> running s ->
  exists qt tt Q', let s' := set_quetab qt (set_thrtab tt s) in
    run (while_ fuel (fun _ => semptr ← semx i; nonempty (s_queue semptr))
          (fun _ => semptr ← semx i; sem_release (s_queue semptr)) Datatypes.tt) s
      = Done Datatypes.tt s' /\
    kqueues qt Q' /\ kthreads tt cur Q' /\ running s' /\ Q' (semq i) = [] /\
    (forall j, 0 <= j < NSEM -> j <> i -> Q' (semq j) = Q (semq j)) /\
    (forall x, x ∈ l ++ Q READYQ -> x ∈ Q' READYQ).
Proof.
  induction l as [|t l IH]; intros s Q fuel Hs HK HT Hcur Hi He Hqe Hl Hfuel Hr;
    (destruct fuel as [|fuel]; [cbn in Hfuel; lia |]); cbn [while_]; prun; rewrite Hqe;
    rewrite (run_nonempty NQENT s Q _ (kq_rep _ _ HK) (isq_sem i Hi)), Hl; cbn [obind].
  - rewrite bool_decide_eq_false_2 by tauto. prun.
    exists (quetab s), (thrtab s), Q. split_and!; try done; by destruct s.
  - rewrite bool_decide_eq_true_2 by done. prun. rewrite Hqe.
    destruct (sem_release_spec s Q i t l Hs HK ltac:(by rewrite Hcur) Hi Hl)
      as (qt1 & et & Q1 & Het & Hst & Hrun & HK1 & HT1 & Hrel).
    rewrite Hrun. cbn [obind]. set (s1 := set_quetab _ _).
    assert (Hne : t <> thrcurrent s).
    { intros ->. destruct Hr as [(ec & Hec & Hst') _]. congruence. }
    destruct (IH s1 Q1 fuel) as (qt' & tt' & Q' & Hrun' & HK' & HT' & Hr' & Hq' & Ho' & Hx'); try done.
    + destruct Hs; by constructor.
    + unfold s1. ksimpl. by rewrite <- Hcur.
    + apply (rl_queue _ _ _ _ _ _ _ Hrel).
    + cbn in Hfuel. lia.
    + apply (running_other s t et); auto.
    + exists qt', tt', Q'. split_and!; try done.
      * intros j Hj Hji. rewrite Ho' by done. by apply (rl_other _ _ _ _ _ _ _ Hrel).
      * intros x Hx. apply Hx'. rewrite elem_of_app, (rl_ready _ _ _ _ _ _ _ Hrel), pinsert_elem.
        cbn in Hx. rewrite elem_of_cons, elem_of_app in Hx. tauto.
Qed.

(** [semfree] releases every thread that waits. *)
Lemma semfree_spec s Q sem e :
  kinv s Q -> running s -> semtab s !! u32 sem = Some e -> s_state e = SUSED ->
  exists qt tt Q', let s' := crit_out (set_semtab
      (<[u32 sem := mkSement SFREE 0 (semq (u32 sem))]> (semtab s))
      (set_quetab qt (set_thrtab tt (crit_in s)))) in
    run (semfree sem) s = Done OK s' /\ kinv s' Q' /\ running s' /\
    (forall j, 0 <= j < NSEM -> j <> u32 sem -> Q' (semq j) = Q (semq j)) /\
    (forall x, x ∈ Q (semq (u32 sem)) ++ Q READYQ -> x ∈ Q' READYQ).
Proof.
  intros HI Hr He Hu. pose proof HI as [Hs HK HT HS]. pose proof (ks_crit _ Hs) as Hcrit.
  pose proof (used_range s Q _ e HI He) as Hi. pose proof (used_queue s Q _ e HI He) as Hqe.
  pose proof (ki_static _ _ (kinv_crit_in s Q HI)) as Hs1.
  destruct (semfree_loop (u32 sem) e (thrcurrent s) (Q (semq (u32 sem))) (crit_in s) Q QFUEL)
    as (qt & tt & Q' & Hrun & HK' & HT' & Hr' & Hq' & Ho' & Hx'); try done.
  { pose proof (queue_length NQENT s Q _ (kq_rep _ _ HK) (isq_sem _ Hi)). unfold QFUEL. klia. }
  exists qt, tt, Q'. split_and!; try done.
  - unfold semfree. do 2 prun1. rewrite run_bind, (isbadsem_used _ _ e) by done. cbn [obind].
    rewrite run_bind, Hrun. cbn [obind]. prun. rewrite insert_insert_eq.
    destruct e as [st c q]. cbn in Hqe |- *. by rewrite Hqe.
  - apply kinv_crit_out. split; ksimpl; [destruct Hs1; by constructor | done | done |].
    by apply (ksems_update _ Q).
Qed.

Lemma semfree_safe t sem : safe t (semfree sem).
Proof.
  constructor. intros s Q HI Hr Ht. pose proof (ks_crit _ (ki_static _ _ HI)) as Hcrit.
  destruct (isbadsem_cases (crit_in s) Q sem (ki_sems _ _ HI)) as [Hbad | (e & Hbad & He & Hu & Hi)].
  { unfold semfree. do 2 prun1. rewrite run_bind, Hbad. cbn [obind]. bad_call Q. }
  destruct (semfree_spec s Q sem e HI Hr He Hu) as (qt & tt & Q' & -> & HI' & Hr' & _).
  by safe_done Q'.
Qed.

Lemma semcount_safe t sem : safe t (semcount sem).
Proof.
  constructor. intros s Q HI Hr Ht. unfold semcount. rewrite run_bind.
  destruct (isbadsem_cases s Q sem (ki_sems _ _ HI)) as [-> | (e & -> & He & _)];
    cbn [obind]; prun; by safe_done Q.
Qed.

(** The slot the search looks at after slot [k]. *)
Definition next_slot (n k : Z) : Z := (k + 1) mod n.

(** A full turn of the search looks at every slot. *)
Lemma slot_reached n k i : 0 <= i < n ->
  exists d, 1 <= d <= n /\ (k + d) mod n = i.
Proof.
  intros Hi. exists ((i - k - 1) mod n + 1). pose proof (Z.mod_pos_bound (i - k - 1) n). split; [lia |].
  replace (k + ((i - k - 1) mod n + 1)) with (k + 1 + (i - k - 1) mod n) by lia.
  rewrite Zplus_mod_idemp_r. replace (k + 1 + (i - k - 1)) with i by lia. apply Z.mod_small. lia.
Qed.

Lemma semalloc_body_spec s Q j u :
  ksems (semtab s) Q -> 0 <= nextsem s < NSEM ->
  let k := next_slot NSEM (nextsem s) in
  exists e, semtab s !! k = Some e /\
    run (semalloc_body j u) s =
      if bool_decide (s_state e = SFREE)
      then Done (inr k) (set_semtab (<[k := set_s_state SUSED e]> (semtab s)) (set_nextsem k s))
      else Done (inl tt) (set_nextsem k s).
Proof.
  intros HS Hk k. assert (Hkr : 0 <= k < NSEM) by (apply Z.mod_pos_bound; klia).
  destruct (proj2 (kse_dom _ _ HS k) Hkr) as [e He]. exists e. split; [done |].
  assert (E : k = if nextsem s + 1 >=? NSEM then 0 else nextsem s + 1).
  { unfold k, next_slot. destruct (Z.geb_spec (nextsem s + 1) NSEM); unfold NSEM in *; lia. }
  unfold semalloc_body. prun. destruct (nextsem s + 1 >=? NSEM) eqn:Hge; rewrite <- E in *; prun;
    case_bool_decide; by prun.
Qed.

Lemma semalloc_loop Q : forall n j s,
  ksems (semtab s) Q -> 0 <= nextsem s < NSEM ->
  (exists k e, semtab s !! k = Some e /\ s_state e = SFREE /\
     run (for_ n j semalloc_body tt) s =
       Done (inr k) (set_semtab (<[k := set_s_state SUSED e]> (semtab s)) (set_nextsem k s))) \/
  (exists k, 0 <= k < NSEM /\ run (for_ n j semalloc_body tt) s = Done (inl tt) (set_nextsem k s)) /\
  (forall d, 1 <= d <= Z.of_nat n -> exists e,
     semtab s !! ((nextsem s + d) mod NSEM) = Some e /\ s_state e = SUSED).
Proof.
  induction n as [|n IH]; intros j s HS Hk.
  - right. split; [| lia]. exists (nextsem s). split; [done |]. by destruct s.
  - destruct (semalloc_body_spec s Q j tt HS Hk) as (e & He & Hb).
    assert (Hkr : 0 <= next_slot NSEM (nextsem s) < NSEM) by (apply Z.mod_pos_bound; klia).
    cbn [for_]. rewrite run_bind, Hb. case_bool_decide as Hst; cbn [obind].
    + left. by exists (next_slot NSEM (nextsem s)), e.
    + destruct (IH (j + 1) (set_nextsem (next_slot NSEM (nextsem s)) s) HS Hkr)
        as [(k & e' & He' & Hst' & ->) | [(k & Hk' & ->) Hall]].
      * left. by exists k, e'.
      * right. split; [by exists k |]. intros d Hd. destruct (decide (d = 1)) as [-> | Hne].
        -- exists e. split; [done |]. by destruct (s_state e).
        -- destruct (Hall (d - 1)) as (e' & He' & Hst'); [lia |]. exists e'. split; [| done].
           rewrite <- He'. f_equal. cbn. unfold next_slot. rewrite Zplus_mod_idemp_l. f_equal. lia.
Qed.

(** [semcreate] takes a free semaphore, or there is none. *)
Lemma semcreate_spec s Q count :
  kinv s Q -> 0 <= count <= INT_MAX ->
  (exists k e, semtab s !! k = Some e /\ s_state e = SFREE /\ Q (semq k) = [] /\
     let s' := crit_out (set_semtab (<[k := mkSement SUSED count (semq k)]> (semtab s))
                 (set_nextsem k (crit_in s))) in
     run (semcreate count) s = Done k s' /\ kinv s' Q) \/
  (exists k, run (semcreate count) s = Done NOSEM (crit_out (set_nextsem k (crit_in s))) /\
     kinv (crit_out (set_nextsem k (crit_in s))) Q) /\
  (forall i e, semtab s !! i = Some e -> s_state e = SUSED).
Proof.
  intros HI Hc. pose proof (kinv_crit_in s Q HI) as [Hs HK HT HS]. pose proof (ks_crit _ Hs) as Hcrit0.
  pose proof (ks_crit _ (ki_static _ _ HI)) as Hcrit. pose proof (ks_nextsem _ Hs) as Hn.
  unfold semcreate. rewrite (proj2 (Z.ltb_ge count 0)) by lia. do 2 prun1. unfold semalloc. prun1. prun1.
  destruct (semalloc_loop Q (Z.to_nat NSEM) 0 (crit_in s) HS Hn)
    as [(k & e & He & Hst & ->) | [(k & Hk & ->) Hall]]; cbn [obind]; prun.
  - left. exists k, e. pose proof (sem_range HS He) as Hkr.
    pose proof (kse_free _ _ HS k e He Hst) as Hq. pose proof (kse_queue _ _ HS k e He) as Hqe.
    split_and!; try done.
    + rewrite (proj2 (Z.eqb_neq k NOSEM)) by (unfold NOSEM, u32, SYSERR; klia). cbn [negb]. prun.
      rewrite insert_insert_eq. destruct e as [st c q]. cbn in Hqe |- *. by rewrite Hqe.
    + apply kinv_crit_out. split; ksimpl; [destruct Hs; by constructor | done | done |].
      apply (ksems_update _ Q); try done. intros _. cbn. rewrite Hq. cbn [length]. klia.
  - right. split.
    + exists k. rewrite Z.eqb_refl. cbn [negb]. prun. split; [done |].
      apply kinv_crit_out. split; ksimpl; [destruct Hs; by constructor | done | done | done].
    + intros i e He. pose proof (sem_range HS He) as Hi.
      destruct (slot_reached NSEM (nextsem s) i Hi) as (d & Hd & E).
      destruct (Hall d) as (e' & He' & Hst'); [klia |].
      change (nextsem (crit_in s)) with (nextsem s) in He'. rewrite E in He'. cbn in He'. congruence.
Qed.

Lemma semcreate_safe t count : count <= INT_MAX -> safe t (semcreate count).
Proof.
  intros Hc. constructor. intros s Q HI Hr Ht. destruct (Z.ltb_spec count 0) as [Hneg | Hpos].
  - unfold semcreate. rewrite (proj2 (Z.ltb_lt count 0)) by done. prun. by safe_done Q.
  - destruct (semcreate_spec s Q count HI ltac:(lia))
      as [(k & e & _ & _ & _ & -> & HI') | [(k & -> & HI') _]]; by safe_done Q.
Qed.

(** ** The abstract semaphore

    A semaphore in use is a number of permits and the threads that wait for one,
    first come first served. *)

Record asem := mkAsem { permits : Z; waiters : list Z }.

Definition sem_view (s : kst) (Q : Z -> list Z) (i : Z) : option asem :=
  match semtab s !! i with
  | Some e => if bool_decide (s_state e = SUSED)
              then Some (mkAsem (Z.max 0 (s_count e)) (Q (semq i))) else None
  | None => None
  end.

Definition a_wait (t : Z) (a : asem) : asem :=
  if 0 <? permits a then mkAsem (permits a - 1) (waiters a)
  else mkAsem 0 (waiters a ++ [t]).

Definition a_signal (a : asem) : asem :=
  match waiters a with
  | [] => mkAsem (permits a + 1) []
  | _ :: l => mkAsem (permits a) l
  end.

Lemma sem_view_Some s Q i a :
  sem_view s Q i = Some a <->
  exists e, semtab s !! i = Some e /\ s_state e = SUSED /\
    a = mkAsem (Z.max 0 (s_count e)) (Q (semq i)).
Proof.
  unfold sem_view. destruct (semtab s !! i) as [e|]; [| naive_solver].
  case_bool_decide; naive_solver.
Qed.

Lemma sem_view_ext s s' Q Q' j :
  semtab s' !! j = semtab s !! j -> Q' (semq j) = Q (semq j) -> sem_view s' Q' j = sem_view s Q j.
Proof. unfold sem_view. by intros -> ->. Qed.

Lemma resched_sems s Q :
  kinv s Q -> resdefer s <= 0 ->
  exists s' Q', reaches (obind (fun _ => mret OK) (run resched s)) s' /\
    kinv s' Q' /\ running s' /\ (forall i, 0 <= i < NSEM -> sem_view s' Q' i = sem_view s Q i) /\
    ready_kept Q Q' (thrcurrent s').
Proof.
  intros HI Hrd.
  destruct (resched_reaches s Q OK HI Hrd) as (s' & Q' & Hre & HI' & Hr' & ((? & ? & ? & ? & E) & _) & Hsame & Hkeep).
  exists s', Q'. split_and!; try done.
  intros i Hi. apply sem_view_ext; [by rewrite E |]. apply Hsame; auto with xinu.
Qed.

Section Refinement.
Context (s : kst) (Q : Z -> list Z) (sem : Z) (a : asem).
Hypothesis HI : kinv s Q.
Hypothesis Hr : running s.
Hypothesis Ha : sem_view s Q (u32 sem) = Some a.

(** The other semaphores in use are not touched. *)
Definition others_same (s' : kst) (Q' : Z -> list Z) : Prop :=
  forall j, 0 <= j < NSEM -> j <> u32 sem -> sem_view s' Q' j = sem_view s Q j.

Lemma others_count s' Q' e' :
  semtab s' = <[u32 sem := e']> (semtab s) ->
  (forall j, 0 <= j < NSEM -> j <> u32 sem -> Q' (semq j) = Q (semq j)) -> others_same s' Q'.
Proof.
  intros E HQ j Hj Hne. apply sem_view_ext; [| by apply HQ]. by rewrite E, lookup_insert_ne.
Qed.

(** C4: [wait] implements the abstract operation on a semaphore, which is a number
    of permits and a list of waiting threads in order of arrival: with a permit it
    takes one and returns at once; without, the caller joins the end of the list
    and another thread runs.  No other semaphore changes. *)
Theorem wait_refines :
  thrcurrent s <> NULLTHREAD ->
  exists s' Q', reaches (run (wait sem) s) s' /\ kinv s' Q' /\ running s' /\
    sem_view s' Q' (u32 sem) = Some (a_wait (thrcurrent s) a) /\ others_same s' Q' /\
    (0 < permits a -> run (wait sem) s = Done OK s' /\ thrcurrent s' = thrcurrent s) /\
    (permits a = 0 -> thrcurrent s' <> thrcurrent s).
Proof.
  intros Hnull. apply sem_view_Some in Ha as (e & He & Hu & ->). cbn [permits].
  pose proof (used_range s Q _ e HI He) as Hi. pose proof (used_count s Q _ e HI He Hu) as [Hl Hrg].
  unfold a_wait. cbn [permits waiters]. destruct (Z.ltb_spec 0 (Z.max 0 (s_count e))) as [Hc | Hc].
  - rewrite (run_wait_take s Q sem e HI He Hu) by lia. set (s' := crit_out _). exists s', Q.
    split_and!; try done; [left; by eexists | | | | lia].
    + apply kinv_crit_out, (kinv_count (crit_in s)); [by apply kinv_crit_in | done | done | lia | klia].
    + apply sem_view_Some. eexists. split; [apply lookup_insert_eq |]. split; [done |]. cbn.
      f_equal. lia.
    + eapply others_count; [reflexivity | done].
  - destruct Hr as [(et & Het & Hst) Hrd].
    destruct (run_wait_block s Q sem e et) as (qt' & Hrun & HI1); try done; [lia |].
    set (s1 := crit_out _) in *. set (Q1 := qjoin _ _ _) in *.
    destruct (resched_sems s1 Q1 HI1 Hrd) as (s' & Q' & Hre & HI' & Hr' & Hv & _).
    assert (Hvi : sem_view s' Q' (u32 sem) = Some (mkAsem 0 (Q (semq (u32 sem)) ++ [thrcurrent s]))).
    { rewrite Hv by done. apply sem_view_Some. eexists. split; [apply lookup_insert_eq |].
      split; [done |]. cbn. unfold Q1, qjoin. rewrite fn_lookup_insert. f_equal. lia. }
    exists s', Q'. rewrite Hrun. split_and!; try done; [| lia |].
    + intros j Hj Hne. rewrite Hv by done. eapply others_count; [reflexivity | | done | done].
      intros j' _ Hne'. unfold Q1, qjoin. apply fn_lookup_insert_ne. intros E. by apply semq_inj in E.
    + intros _ E. apply sem_view_Some in Hvi as (e' & _ & _ & [= _ Hq]).
      destruct Hr' as [(ec & Hec & Hst') _].
      apply (thr_detached (ki_threads _ _ HI') _ ec Hec ltac:(unfold loc; by rewrite Hst') (semq (u32 sem)));
        auto with xinu.
      rewrite <- Hq, E. auto with xinu.
Qed.

(** C5: [signal] implements the abstract operation: the thread that waits longest
    becomes ready (or runs at once), or, if nobody waits, a permit is added.  No
    other semaphore changes. *)
Theorem signal_refines :
  permits a < INT_MAX ->
  exists s' Q', reaches (run (signal sem) s) s' /\ kinv s' Q' /\ running s' /\
    sem_view s' Q' (u32 sem) = Some (a_signal a) /\ others_same s' Q' /\
    (forall t l, waiters a = t :: l -> t ∈ Q' READYQ \/ t = thrcurrent s').
Proof.
  intros Hmax. apply sem_view_Some in Ha as (e & He & Hu & ->). cbn [permits waiters] in *.
  pose proof (used_range s Q _ e HI He) as Hi. pose proof (used_count s Q _ e HI He Hu) as [Hl Hrg].
  unfold a_signal. cbn [permits waiters]. destruct (Z.lt_ge_cases (s_count e) 0) as [Hc | Hc].
  - destruct (run_signal_wake s Q sem e HI He Hu Hc) as (t & l & et & qt' & Q1 & Hq & Het & Hst & Hrun & HI1 & Hrel).
    set (s1 := crit_out _) in *. rewrite Hq, Hrun.
    destruct (resched_sems s1 Q1 HI1 ltac:(apply Hr)) as (s' & Q' & Hre & HI' & Hr' & Hv & Hkeep).
    exists s', Q'. split_and!; try done.
    + rewrite Hv by done. apply sem_view_Some. eexists. split; [apply lookup_insert_eq |]. split; [done |].
      cbn. rewrite (rl_queue _ _ _ _ _ _ _ Hrel). f_equal. lia.
    + intros j Hj Hne. rewrite Hv by done. eapply others_count; [reflexivity | | done | done].
      apply (rl_other _ _ _ _ _ _ _ Hrel).
    + intros t' l' [= <- <-]. apply Hkeep. rewrite (rl_ready _ _ _ _ _ _ _ Hrel). apply pinsert_elem. by left.
  - assert (E : Q (semq (u32 sem)) = []) by (destruct (Q (semq (u32 sem))); cbn in Hl; [done | lia]).
    rewrite E, (run_signal_put s Q sem e HI He Hu) by lia. set (s' := crit_out _). exists s', Q.
    split_and!; try done; [left; by eexists | | |].
    + apply kinv_crit_out, (kinv_count (crit_in s)); [by apply kinv_crit_in | done | done | lia | klia].
    + apply sem_view_Some. eexists. split; [apply lookup_insert_eq |]. split; [done |]. cbn. rewrite E.
      f_equal. lia.
    + eapply others_count; [reflexivity | done].
Qed.
End Refinement.

(** A [wait] that blocks: the caller is at the end of the queue of the semaphore
    and another thread runs; only what the scheduler and the semaphores own has
    changed. *)
Lemma run_wait_switch s Q sem e :
  kinv s Q -> running s -> semtab s !! u32 sem = Some e -> s_state e = SUSED -> s_count e <= 0 ->
  thrcurrent s <> NULLTHREAD ->
  exists Q' qt tt cur cp im,
    let s' := set_cpsr cp (set_intmask im (set_inCrit true (set_thrtab tt (set_thrcurrent cur (set_quetab qt
      (set_semtab (<[u32 sem := set_s_count (s_count e - 1) e]> (semtab s)) s)))))) in
    run (wait sem) s = Switch s' (pbind (fun _ => mret OK) (resched_tail (thrcurrent s))) /\
    kinv s' Q' /\ running s' /\ Q' (semq (u32 sem)) = Q (semq (u32 sem)) ++ [thrcurrent s] /\
    cur <> thrcurrent s.
Proof.
  intros HI Hr He Hu Hc Hnull. destruct Hr as [(et & Het & Hst) Hrd].
  pose proof (used_range s Q _ e HI He) as Hi.
  destruct (run_wait_block s Q sem e et) as (qt1 & Hrun & HI1); try done.
  set (s1 := crit_out _) in *. set (Q1 := qjoin _ _ _) in *.
  destruct (resched_spec s1 Q1 HI1 Hrd)
    as (s' & Q' & HI' & Hr' & _ & ((qt & tt & cur & c & E) & _) & Hsame & _ & _ & Ho).
  assert (Hq : Q' (semq (u32 sem)) = Q (semq (u32 sem)) ++ [thrcurrent s]).
  { rewrite (Hsame _ (isq_sem _ Hi)); [unfold Q1, qjoin; by rewrite fn_lookup_insert |]. auto with xinu. }
  assert (Hne : thrcurrent s' <> thrcurrent s).
  { intros E'. destruct Hr' as [(ec & Hec & Hst') _].
    apply (thr_detached (ki_threads _ _ HI') _ ec Hec ltac:(unfold loc; by rewrite Hst') (semq (u32 sem)));
      auto with xinu. rewrite Hq, E'. auto with xinu. }
  exists Q', qt, tt, cur, c, (intmask s1).
  assert (Es : s' = set_cpsr c (set_intmask (intmask s1) (set_inCrit true (set_thrtab tt (set_thrcurrent cur (set_quetab qt
      (set_semtab (<[u32 sem := set_s_count (s_count e - 1) e]> (semtab s)) s))))))).
  { rewrite E. unfold s1. ksimpl. kst_eq. }
  cbv zeta. rewrite <- Es. rewrite Es in Hne. split_and!; try done.
  rewrite Hrun. destruct Ho as [[_ Ht] | [-> _]]; [| done]. exfalso. apply Hne. rewrite <- Es. exact Ht.
Qed.

(** Switched back in, the caller returns. *)
Lemma run_wait_back t s e :
  thrtab s !! t = Some e ->
  exists c, run (pbind (fun _ => mret OK) (resched_tail t)) s = Done OK (set_cpsr c s).
Proof.
  intros He. destruct (run_resched_tail s t e He) as [c Hrun]. exists c.
  change (pbind ?f ?m) with (m ≫= f). by rewrite run_bind, Hrun.
Qed.
