(* ===== verification/Clock.v ===== *)
(** Time: system/sleep.c, system/unsleep.c, system/wakeup.c, system/clkhandler.c,
    the clock initialisation of system/platforms/arm-rpi/dispatch.c and the system
    timer of system/platforms/arm-rpi/rpi-timer.c.  The sleep queue holds delays
    relative to the thread before; the theorems speak of the tick at which each
    thread wakes. *)
From Stdlib Require Import ZArith Lia.
From stdpp Require Import sorting gmap functions list.
From S2P Require Import Prelude Kernel Queue QueueFacts Sched.

(** ** Routines *)

(** Writing the match bit of the control register clears it; the compare register
    is 32 bits wide. *)
Definition clkupdate (cycles : Z) : kprog unit :=
  cs ← gets tmr_cs;
  modify (set_tmr_cs (Z.land cs (Z.lnot (Z.shiftl 1 3))));;
  clo ← gets tmr_clo;
  modify (set_tmr_c3 (u32 (clo + cycles))).

Definition clkinit : kprog unit :=
  q ← queinit;
  modify (set_sleepq q);;
  modify (set_clkticks 0);;
  f ← gets clkfreq;
  clkupdate (f / CLKTICKS_PER_SEC).

(** [ms] is an unsigned int, and so is the product. *)
Definition sleep_ticks (ms : Z) : Z := u32 (u32 ms * CLKTICKS_PER_SEC) / 1000.

Definition sleep (ms : Z) : kprog Z :=
  let ticks := sleep_ticks ms in
  ENTER_KERNEL_CRITICAL_SECTION;;
  failed ← (if ticks >? 0 then
              cur ← gets thrcurrent;
              sq ← gets sleepq;
              r ← insertd cur sq (i32 ticks);
              if r =? SYSERR then mret true
              else amend_thr cur (set_t_state THRSLEEP);; mret false
            else mret false);
  if (failed : bool) then EXIT_KERNEL_CRITICAL_SECTION;; mret SYSERR else
  EXIT_KERNEL_CRITICAL_SECTION;;
  resched;;
  mret OK.

(** The block [unsleep] and [send] share: the thread leaves the sleep queue and
    its delay goes to the next one. *)
Definition delay_remove (tid : Z) : kprog Z :=
  e ← qent tid;
  let next := q_next e in
  (if next <? NTHREAD then
     en ← qent next;
     k ← int (q_key en + q_key e);
     amend_q next (set_q_key k)
   else mret tt);;
  getitem tid.

Definition unsleep (tid : Z) : kprog Z :=
  ENTER_KERNEL_CRITICAL_SECTION;;
  bad ← isbadtid tid;
  if (bad : bool) then EXIT_KERNEL_CRITICAL_SECTION;; mret SYSERR else
  e ← thr tid;
  if negb (bool_decide (t_state e = THRSLEEP)) && negb (bool_decide (t_state e = THRTMOUT))
  then EXIT_KERNEL_CRITICAL_SECTION;; mret SYSERR else
  delay_remove tid;;
  EXIT_KERNEL_CRITICAL_SECTION;;
  mret OK.

(** The loop of [wakeup]; every iteration takes a thread off the queue. *)
Definition wakeup_loop (fuel : nat) : kprog unit :=
  while_ fuel
    (fun _ => sq ← gets sleepq;
              ne ← nonempty sq;
              if (ne : bool) then k ← firstkey sq; mret (k <=? 0) else mret false)
    (fun _ => sq ← gets sleepq;
              tid ← dequeue sq;
              ready tid;;
              mret tt) tt.

Definition wakeup : kprog unit :=
  wakeup_loop QFUEL;;
  resched;;
  mret tt.

(** [--firstkey(q)] *)
Definition dec_firstkey (q : Z) : kprog Z :=
  x ← firstid q;
  e ← qent x;
  k ← int (q_key e - 1);
  amend_q x (set_q_key k);;
  mret k.

(** The end of [clkhandler]: the first sleeper loses a tick. *)
Definition clk_sleepers : kprog unit :=
  sq ← gets sleepq;
  ne ← nonempty sq;
  due ← (if (ne : bool) then k ← dec_firstkey sq; mret (k <=? 0) else mret false);
  if (due : bool) then wakeup else resched;; mret tt.

Definition clkhandler : kprog unit :=
  f ← gets clkfreq;
  clkupdate (f / CLKTICKS_PER_SEC);;
  t ← gets clkticks;
  modify (set_clkticks (u32 (t + 1)));;
  t ← gets clkticks;
  (if CLKTICKS_PER_SEC =? t then
     ct ← gets clktime;
     modify (set_clktime (u32 (ct + 1)));;
     modify (set_clkticks 0)
   else mret tt);;
  clk_sleepers.

(** ** Delta lists: removal and ticks *)

(** [t] leaves the list; the next thread takes over its delay. *)
Fixpoint dremove (t : Z) (l : list (Z * Z)) : list (Z * Z) :=
  match l with
  | [] => []
  | (x, d) :: r =>
      if x =? t then
        match r with
        | [] => []
        | (y, dy) :: r' => (y, dy + d) :: r'
        end
      else (x, d) :: dremove t r
  end.

Lemma abstimes_fst l : forall now, (abstimes now l).*1 = l.*1.
Proof. induction l as [|[x d] l IH]; intros now; [done |]. cbn. by rewrite IH. Qed.

Lemma filter_all {A} (P : A -> Prop) `{forall x, Decision (P x)} (l : list A) :
  (forall x, x ∈ l -> P x) -> filter P l = l.
Proof.
  induction l as [|x l IH]; intros Hl; [done |]. rewrite filter_cons.
  rewrite decide_True by (apply Hl, elem_of_cons; by left). f_equal. apply IH.
  intros y Hy. apply Hl, elem_of_cons. by right.
Qed.

Lemma dinsert_fst t m : forall key, (dinsert t key m).*1 ≡ₚ t :: m.*1.
Proof.
  induction m as [|[y d] m IH]; intros key; [done |]. cbn [dinsert].
  destruct (d <=? key); cbn; [| reflexivity].
  rewrite (IH (key - d)). apply Permutation_swap.
Qed.

Lemma list_filter_none {A} (P : A -> Prop) `{forall x, Decision (P x)} (l : list A) :
  (forall x, x ∈ l -> ~ P x) -> filter P l = [].
Proof.
  induction l as [|x l IH]; intros Hl; [done |]. rewrite filter_cons.
  rewrite decide_False by (apply Hl, elem_of_cons; by left). apply IH.
  intros y Hy. apply Hl, elem_of_cons. by right.
Qed.

(** The other threads wake when they did before. *)
Lemma dremove_abstimes t l : forall now,
  NoDup l.*1 -> abstimes now (dremove t l) = filter (fun p => p.1 <> t) (abstimes now l).
Proof.
  induction l as [|[x d] l IH]; intros now HN; [done |].
  apply NoDup_cons in HN as [Hx HN]. cbn [dremove abstimes]. rewrite filter_cons. cbn [fst].
  destruct (Z.eqb_spec x t) as [-> | Hne].
  - rewrite decide_False by tauto. rewrite filter_all.
    2:{ intros p Hp Hpt. apply Hx. change (t ∈ l.*1). rewrite <- (abstimes_fst l (now + d)).
        apply list_elem_of_fmap. by exists p. }
    destruct l as [|[y dy] l]; [done |]. cbn. by replace (now + (dy + d)) with (now + d + dy) by lia.
  - rewrite decide_True by done. cbn [abstimes]. f_equal. by apply IH.
Qed.

Lemma dremove_nonneg t l :
  Forall (fun p => 0 <= p.2) l -> Forall (fun p => 0 <= p.2) (dremove t l).
Proof.
  induction l as [|[x d] l IH]; intros Hl; [done |]. apply Forall_cons in Hl as [Hd Hl]. cbn [dremove].
  destruct (x =? t); [| constructor; auto].
  destruct l as [|[y dy] l]; [done |]. apply Forall_cons in Hl as [Hy Hl]. constructor; [| done].
  cbn in *. lia.
Qed.

Lemma psum_dremove t l : Forall (fun p => 0 <= p.2) l -> psum (dremove t l) <= psum l.
Proof.
  induction l as [|[x d] l IH]; intros Hl; [done |]. apply Forall_cons in Hl as [Hd Hl]. cbn [dremove].
  specialize (IH Hl). destruct (x =? t).
  - destruct l as [|[y dy] l]; cbn in *; unfold psum in *; lia.
  - cbn in *. unfold psum in *. lia.
Qed.

(** ** The sleep queue in the table *)

Lemma deltas_nonneg qt l : delays qt l -> Forall (fun p => 0 <= p.2) (deltas qt l).
Proof.
  intros Hd. apply Forall_forall. intros [x d] Hx.
  apply list_elem_of_fmap in Hx as (y & [= -> ->] & Hy). cbn. by apply Hd.
Qed.

Lemma dsum_elem kf l x : (forall y, y ∈ l -> 0 <= kf y) -> x ∈ l -> kf x <= dsum kf l.
Proof.
  intros Hn (l1 & l2 & ->)%list_elem_of_split. rewrite dsum_app. cbn.
  assert (0 <= dsum kf l1) by (apply dsum_nonneg; intros y Hy; apply Hn, elem_of_app; by left).
  assert (0 <= dsum kf l2).
  { apply dsum_nonneg. intros y Hy. apply Hn, elem_of_app. right. apply elem_of_cons. by right. }
  unfold dsum in *. lia.
Qed.

(** A new sleep queue given as a delta list. *)
Lemma delays_of_deltas qt l m :
  deltas qt l = m -> Forall (fun p => 0 <= p.2) m -> psum m <= INT_MAX ->
  delays qt l /\ dsum (keyof qt) l <= INT_MAX.
Proof.
  intros Hm Hn Hs. rewrite <- Hm, psum_deltas in Hs. split; [| done].
  assert (Hnn : forall y, y ∈ l -> 0 <= keyof qt y).
  { intros y Hy. rewrite <- Hm in Hn. rewrite Forall_forall in Hn.
    apply (Hn (y, keyof qt y)), list_elem_of_fmap. by exists y. }
  intros x Hx. split; [by apply Hnn |]. etrans; [by apply dsum_elem | done].
Qed.

(** The sleep queue changes to [l'], the other queues stay. *)
Lemma kqueues_sleep qt qt' Q l' :
  kqueues qt Q -> qrep NQENT qt' (<[SLEEPQ := l']> Q) ->
  (forall x, x ∈ Q READYQ -> qkey qt' x = qkey qt x) ->
  delays qt' l' -> dsum (keyof qt') l' <= INT_MAX ->
  kqueues qt' (<[SLEEPQ := l']> Q).
Proof.
  intros [HQ Hs Hd Ht] HQ' Hk Hd' Ht'.
  constructor; rewrite ?fn_lookup_insert, ?(fn_lookup_insert_ne _ SLEEPQ READYQ) by (unfold SLEEPQ; lia);
    try done.
  eapply descending_ext; [| done]. intros x Hx. by apply keyof_ext, Hk.
Qed.

Section Delay.
Context (s : kst) (Q : Z -> list Z).
Hypothesis HK : kqueues (quetab s) Q.

Let HQ : qrep NQENT (quetab s) Q := kq_rep _ _ HK.

(** [insertd] on the sleep queue. *)
Lemma insertd_sleep t e key :
  goodtid s t e -> (forall q, isq NQENT q -> t ∉ Q q) -> 0 <= key <= INT_MAX ->
  exists qt' l', run (insertd t SLEEPQ key) s = Done OK (set_quetab qt' s) /\
    kqueues qt' (<[SLEEPQ := l']> Q) /\
    deltas qt' l' = dinsert t key (deltas (quetab s) (Q SLEEPQ)) /\
    (forall x, x ∈ l' <-> x = t \/ x ∈ Q SLEEPQ).
Proof.
  intros Hg Hfree Hkey.
  destruct (insertd_spec NQENT s Q SLEEPQ HQ isq_sleep t e key Hg Hfree Hkey (kq_delays _ _ HK))
    as (qt' & l' & Hrun & Hrep & Hdel & Hk).
  pose proof (deltas_nonneg _ _ (kq_delays _ _ HK)) as Hnn.
  destruct (delays_of_deltas qt' l' _ Hdel) as [Hd Hs].
  { apply dinsert_nonneg; [lia | done]. }
  { etrans; [by apply psum_dinsert |]. rewrite psum_deltas. pose proof (kq_total _ _ HK). lia. }
  exists qt', l'. split_and!; try done.
  - apply kqueues_sleep with (qt := quetab s); try done.
    intros x Hx. apply Hk; [| intros ->; by apply (Hfree READYQ isq_ready)].
    intros Hx'. assert (READYQ = SLEEPQ); [| unfold SLEEPQ in *; lia].
    apply (qr_disj _ _ _ HQ _ _ x); auto with xinu.
  - assert (E : l' ≡ₚ t :: Q SLEEPQ).
    { rewrite <- (deltas_fst qt' l'), Hdel, dinsert_fst. by rewrite deltas_fst. }
    intros x. by rewrite E, elem_of_cons.
Qed.
End Delay.

Lemma kqueues_Q_ext qt Q Q' :
  (forall q, isq NQENT q -> Q' q = Q q) -> kqueues qt Q -> kqueues qt Q'.
Proof.
  intros E [H1 H2 H3 H4]. constructor; rewrite ?E by auto with xinu; try done.
  by eapply qrep_Q_ext.
Qed.

Definition dshift (d : Z) (m : list (Z * Z)) : list (Z * Z) :=
  match m with [] => [] | (y, dy) :: r => (y, dy + d) :: r end.

Lemma dremove_mid t d m1 m2 :
  t ∉ m1.*1 -> dremove t (m1 ++ (t, d) :: m2) = m1 ++ dshift d m2.
Proof.
  induction m1 as [|[x e] m1 IH]; intros Ht; cbn [dremove app].
  - by rewrite Z.eqb_refl.
  - apply not_elem_of_cons in Ht as [Hne Ht]. cbn in Hne.
    rewrite (proj2 (Z.eqb_neq x t)) by done. by rewrite IH.
Qed.

(** The first part of [delay_remove]: the next thread takes over the delay. *)
Lemma delay_shift s Q t l1 l2 :
  kqueues (quetab s) Q -> Q SLEEPQ = l1 ++ t :: l2 ->
  exists qt1, run (delay_remove t) s = run (getitem t) (set_quetab qt1 s) /\
    qrep NQENT qt1 Q /\ (forall x, x ∉ l2 -> qkey qt1 x = qkey (quetab s) x) /\
    deltas qt1 l2 = dshift (keyof (quetab s) t) (deltas (quetab s) l2).
Proof.
  intros HK Hl. pose proof (kq_rep _ _ HK) as HQ.
  destruct (neighbours NQENT s Q SLEEPQ HQ isq_sleep (l1 ++ [t]) l2 ltac:(by rewrite <- app_assoc))
    as (t' & b & et & eb & [p Hp] & Hb & Htb & Het & Heb & Hnt & _).
  change (SLEEPQ :: l1 ++ [t]) with ((SLEEPQ :: l1) ++ [t]) in Hp. apply app_inj_tail in Hp as [_ <-].
  unfold delay_remove. prun. rewrite Hnt.
  destruct l2 as [|y r].
  - apply firstof_nil_inv in Hb as ->. rewrite (proj2 (Z.ltb_ge _ _)) by (unfold SLEEPQ, READYQ; klia).
    prun. exists (quetab s). split_and!; [by destruct s | done | done | done].
  - apply firstof_cons_inv in Hb as ->.
    assert (Hy : 0 <= y < NTHREAD).
    { apply (qr_tid _ _ _ HQ SLEEPQ); [auto with xinu |]. rewrite Hl, elem_of_app, !elem_of_cons. tauto. }
    assert (Hnd : NoDup (y :: r)).
    { pose proof (qr_nodup _ _ _ HQ SLEEPQ isq_sleep) as HN. rewrite Hl in HN.
      apply NoDup_app in HN as (_ & _ & HN). by apply NoDup_cons in HN as [_ HN]. }
    apply NoDup_cons in Hnd as [Hyr _].
    pose proof (kq_total _ _ HK) as Htot. pose proof (kq_delays _ _ HK) as Hd.
    assert (Hdt : 0 <= q_key et <= INT_MAX /\ 0 <= q_key eb /\ q_key eb + q_key et <= INT_MAX).
    { rewrite <- (keyof_entry _ _ _ Het), <- (keyof_entry _ _ _ Heb). rewrite Hl in Hd, Htot.
      assert (Hin : forall x, x = t \/ x = y \/ x ∈ l1 \/ x ∈ r -> 0 <= keyof (quetab s) x <= INT_MAX).
      { intros x Hx. apply Hd. rewrite elem_of_app, !elem_of_cons. tauto. }
      rewrite dsum_app in Htot. cbn in Htot.
      assert (0 <= dsum (keyof (quetab s)) l1) by (apply dsum_nonneg; intros x Hx; apply Hin; auto).
      assert (0 <= dsum (keyof (quetab s)) r) by (apply dsum_nonneg; intros x Hx; apply Hin; auto).
      pose proof (Hin t). pose proof (Hin y). unfold dsum in *. lia. }
    rewrite (proj2 (Z.ltb_lt _ _)) by lia. prun. rewrite run_int by klia. cbn [obind]. prun.
    eexists. split; [reflexivity |]. split_and!.
    + apply (qrep_ext HQ); [qdom | | qentries]. intros q x Hq Hx. split; qentries.
    + intros x Hx. apply not_elem_of_cons in Hx as [Hx _]. qentries.
    + rewrite !deltas_cons. cbn [dshift]. rewrite (deltas_ext (quetab s)).
      * do 2 f_equal. rewrite (keyof_entry _ _ _ Het), (keyof_entry _ _ _ Heb).
        unfold keyof, qkey. by rewrite lookup_insert_eq.
      * intros x Hx. assert (x <> y) by congruence. qentries.
Qed.

Lemma delay_remove_spec s Q t :
  kqueues (quetab s) Q -> t ∈ Q SLEEPQ ->
  exists qt', run (delay_remove t) s = Done t (set_quetab qt' s) /\
    kqueues qt' (qremove t Q) /\
    deltas qt' (qremove t Q SLEEPQ) = dremove t (deltas (quetab s) (Q SLEEPQ)).
Proof.
  intros HK Ht. pose proof (kq_rep _ _ HK) as HQ.
  apply list_elem_of_split in Ht as (l1 & l2 & Hl).
  destruct (delay_shift s Q t l1 l2 HK Hl) as (qt1 & -> & Hrep1 & Hk1 & Hd1).
  destruct (getitem_spec NQENT (set_quetab qt1 s) Q SLEEPQ Hrep1 isq_sleep l1 t l2 Hl)
    as (qt' & Hrun & Hrep & Hk & _).
  pose proof (qr_nodup _ _ _ HQ SLEEPQ isq_sleep) as HN. pose proof HN as HN0. rewrite Hl in HN.
  apply NoDup_app in HN as (_ & Hdj & HN). apply NoDup_cons in HN as [Htl2 _].
  assert (Hdel : deltas qt' (l1 ++ l2) = dremove t (deltas (quetab s) (Q SLEEPQ))).
  { rewrite Hl, !deltas_app, deltas_cons, dremove_mid.
    - rewrite (deltas_ext qt1 qt' l2) by (intros x _; apply Hk). rewrite Hd1. f_equal.
      apply deltas_ext. intros x Hx. rewrite Hk. cbn. apply Hk1. intros Hx'. apply (Hdj x Hx).
      apply elem_of_cons. by right.
    - rewrite deltas_fst. intros Hx. apply (Hdj t Hx). apply elem_of_cons. by left. }
  pose proof (deltas_nonneg _ _ (kq_delays _ _ HK)) as Hnn.
  destruct (delays_of_deltas qt' (l1 ++ l2) _ Hdel) as [Hd Hs].
  { by apply dremove_nonneg. }
  { etrans; [by apply psum_dremove |]. rewrite psum_deltas. apply (kq_total _ _ HK). }
  assert (Hqr : qremove t Q SLEEPQ = l1 ++ l2) by (by apply qremove_mid).
  exists qt'. split_and!; [done | | by rewrite Hqr].
  apply (kqueues_Q_ext _ (<[SLEEPQ := l1 ++ l2]> Q)).
  - intros q Hq. destruct (decide (SLEEPQ = q)) as [<- | Hne]; [by rewrite fn_lookup_insert |].
    rewrite fn_lookup_insert_ne by done. apply qremove_id. intros Hin. apply Hne.
    apply (qr_disj _ _ _ HQ _ _ t); auto with xinu. rewrite Hl. auto with xinu.
  - apply (kqueues_sleep (quetab s)); try done.
    intros x Hx. rewrite Hk. cbn. apply Hk1. intros Hx'.
    assert (READYQ = SLEEPQ); [| unfold SLEEPQ in *; lia].
    apply (qr_disj _ _ _ HQ _ _ x); auto with xinu. rewrite Hl, elem_of_app, elem_of_cons. tauto.
Qed.

(** ** Going to sleep *)

(** The current thread leaves the processor for the sleep queue. *)
Lemma kinv_sleep s Q e st key :
  kinv s Q -> thrtab s !! thrcurrent s = Some e -> t_state e = THRCURR ->
  thrcurrent s <> NULLTHREAD -> st = THRSLEEP \/ st = THRTMOUT -> 0 <= key <= INT_MAX ->
  let t := thrcurrent s in
  exists qt' l', run (insertd t SLEEPQ key) s = Done OK (set_quetab qt' s) /\
    kinv (set_thrtab (<[t := set_t_state st e]> (thrtab s)) (set_quetab qt' s)) (<[SLEEPQ := l']> Q) /\
    deltas qt' l' = dinsert t key (deltas (quetab s) (Q SLEEPQ)).
Proof.
  intros [Hs HK HT HS] He Hst Hnull Hst' Hkey t.
  pose proof (thr_detached HT t e He ltac:(unfold loc; by rewrite Hst)) as Hfree.
  destruct (insertd_sleep s Q HK t e key) as (qt' & l' & Hrun & HK' & Hdel & Hl'); try done.
  { split; [apply (ks_cur _ Hs) | split; [done | by rewrite Hst]]. }
  exists qt', l'. split_and!; try done.
  split; ksimpl; [destruct Hs; by constructor | done | |].
  - assert (Hel : forall q x, x ∈ (<[SLEEPQ := l']> Q : Z -> list Z) q <-> (x = t /\ q = SLEEPQ) \/ x ∈ Q q).
    { intros q x. destruct (decide (SLEEPQ = q)) as [<- | Hne].
      - rewrite fn_lookup_insert, Hl'. tauto.
      - rewrite fn_lookup_insert_ne by done. naive_solver. }
    apply (kthreads_move HT); try done.
    + apply (ks_cur _ Hs).
    + intros q x Hq Hx. rewrite Hel. naive_solver.
    + intros q Hq. rewrite Hel. pose proof (Hfree q Hq). destruct Hst' as [-> | ->]; cbn; naive_solver.
    + by destruct Hst' as [-> | ->].
    + exact (kt_prio _ _ _ HT t e He).
    + intros x e0. rewrite lookup_insert. case_decide as Hx.
      * intros [= <-]. by destruct Hst' as [-> | ->].
      * apply (kt_cur _ _ _ HT).
  - eapply ksems_frame; [done |]. intros i Hi. apply fn_lookup_insert_ne. symmetry. auto with xinu.
Qed.

Lemma sleep_ticks_bound ms : 0 <= sleep_ticks ms <= INT_MAX.
Proof.
  unfold sleep_ticks. pose proof (u32_bound (u32 ms * CLKTICKS_PER_SEC)) as H.
  split; [apply Z.div_pos; lia |]. unfold INT_MAX. apply Z.div_le_upper_bound; lia.
Qed.

Lemma sleep_safe t ms : t <> NULLTHREAD -> safe t (sleep ms).
Proof.
  intros Hnull. constructor. intros s Q HI Hr Ht.
  pose proof (ks_crit _ (ki_static _ _ HI)) as Hcrit.
  pose proof (kinv_crit_in s Q HI) as HI1. pose proof (sleep_ticks_bound ms) as Hb.
  unfold sleep. do 2 prun1. prun1. destruct (sleep_ticks ms >? 0).
  - destruct Hr as [(e & He & Hst) Hrd]. subst t.
    destruct (kinv_sleep (crit_in s) Q e THRSLEEP (sleep_ticks ms)) as (qt' & l' & Hrun & HI' & _); auto.
    prun. rewrite (ks_sleep _ (ki_static _ _ HI)), i32_small by klia.
    change (thrcurrent (crit_in s)) with (thrcurrent s) in Hrun. use_run Hrun.
    change (OK =? SYSERR) with false. cbn match. prun.
    change (thrtab (crit_in s)) with (thrtab s) in HI'.
    by eapply (safe_out_resched_ok _ _ _ _ (kinv_crit_out _ _ HI')).
  - prun. by eapply (safe_out_resched_ok _ _ _ _ (kinv_crit_out _ _ HI1)); [apply Hr |].
Qed.

(** ** Waking up *)

(** What is left of a delta list when the threads that are due are gone. *)
Fixpoint dropdue (l : list (Z * Z)) : list (Z * Z) :=
  match l with
  | (x, d) :: r => if d <=? 0 then dropdue r else l
  | [] => []
  end.

Definition tick (l : list (Z * Z)) : list (Z * Z) :=
  match l with
  | (x, d) :: r => if d - 1 <=? 0 then dropdue r else (x, d - 1) :: r
  | [] => []
  end.

(** What waking threads up changes. *)
Definition wake_frame (s s' : kst) : Prop :=
  exists qt tt c m, s' = set_cpsr c (set_intmask m (set_quetab qt (set_thrtab tt (set_inCrit true s)))).

Lemma wake_frame_trans s1 s2 s3 : wake_frame s1 s2 -> wake_frame s2 s3 -> wake_frame s1 s3.
Proof. intros (? & ? & ? & ? & ->) (? & ? & ? & ? & ->). eexists _, _, _, _. kst_eq. Qed.

Lemma wake_frame_refl s : inCrit s = true -> wake_frame s s.
Proof. intros H. exists (quetab s), (thrtab s), (cpsr s), (intmask s). destruct s. by cbn in *; subst. Qed.

(** [qt] is [qt0] but for the key of [t], which leaves its queue. *)
Lemma kqueues_leave qt0 qt Q t :
  kqueues qt0 Q -> qrep NQENT qt (qremove t Q) ->
  (forall x, x <> t -> qkey qt x = qkey qt0 x) -> kqueues qt (qremove t Q).
Proof.
  intros [HQ Hs Hd Ht] Hrep Hk.
  assert (Hkx : forall q x, x ∈ qremove t Q q -> keyof qt x = keyof qt0 x).
  { intros q x Hx. apply qremove_elem in Hx as [Hx _]. by apply keyof_ext, Hk. }
  constructor; [done | | |].
  - eapply descending_ext; [intros x Hx; by eapply Hkx |]. by apply descending_filter.
  - intros x Hx. erewrite Hkx by done. apply qremove_elem in Hx as [_ Hx]. by apply Hd.
  - rewrite (dsum_ext (keyof qt0)) by (intros x Hx; by eapply Hkx).
    etrans; [apply dsum_filter | done]. intros x Hx. by apply Hd.
Qed.

(** The first thread of the sleep queue is made ready. *)
Lemma wake_one s Q qt0 t l :
  kstatic s -> kqueues qt0 Q -> qrep NQENT (quetab s) Q ->
  (forall x, x <> t -> qkey (quetab s) x = qkey qt0 x) ->
  kthreads (thrtab s) (thrcurrent s) Q -> ksems (semtab s) Q -> running s -> Q SLEEPQ = t :: l ->
  exists s' Q', run (tid ← dequeue SLEEPQ; ready tid;; mret tt) s = Done tt s' /\
    kinv s' Q' /\ running s' /\ wake_frame s s' /\
    Q' SLEEPQ = l /\ deltas (quetab s') l = deltas qt0 l /\
    (forall i, 0 <= i < NSEM -> Q' (semq i) = Q (semq i)) /\
    (forall x, x ∈ Q' READYQ <-> x = t \/ x ∈ Q READYQ).
Proof.
  intros Hs HK0 HQ Hk0 HT HS Hr Hl.
  assert (Hin : t ∈ Q SLEEPQ) by (rewrite Hl; apply elem_of_cons; by left).
  assert (Htr : 0 <= t < NTHREAD) by (apply (qr_tid _ _ _ HQ SLEEPQ); auto with xinu).
  destruct (thr_entry HT t Htr) as [e He].
  pose proof (proj1 (kt_loc _ _ _ HT t e _ He isq_sleep) Hin) as Hloc.
  assert (Hst : t_state e <> THRFREE) by (intros E; unfold loc in Hloc; by rewrite E in Hloc).
  destruct (dequeue_remove NQENT s Q SLEEPQ t l e HQ isq_sleep Hl He) as (qt1 & Hrun1 & Hrep1 & Hk1).
  assert (HK1 : kqueues qt1 (qremove t Q)).
  { apply (kqueues_leave qt0); try done. intros x Hx. by rewrite Hk1, Hk0. }
  destruct (thread_ready_full (crit_in (set_quetab qt1 s)) Q t e (thrcurrent s))
    as (qt2 & Hrun2 & HK2 & HT2 & Hk2); try done; [apply Hs |].
  pose proof (ks_crit _ Hs) as Hcrit. pose proof (qr_nodup _ _ _ HQ SLEEPQ isq_sleep) as HN.
  assert (Hsl : qremove t Q SLEEPQ = l) by (by apply (qremove_mid t Q SLEEPQ [] l)).
  rewrite Hl in HN. apply NoDup_cons in HN as [Htl _].
  eexists _, _. split.
  { rewrite run_bind, Hrun1. cbn [obind]. unfold ready. prun1. prun1. prun1. prun1.
    rewrite (run_goodtid _ t e) by (split; [done | by split]). cbn [obind]. prun.
    use_run Hrun2. prun. reflexivity. }
  split_and!.
  - apply (kinv_crit_out (set_quetab qt2 _)). split; ksimpl; [| exact HK2 | exact HT2 |].
    + destruct Hs. by constructor.
    + eapply ksems_frame; [done |]. intros i Hi. rewrite qready_sem by done. apply qremove_id.
      intros Hin'. apply (semq_ne_sleep i Hi). apply (qr_disj _ _ _ HQ _ _ t); auto with xinu.
  - apply (running_crit_out (set_quetab qt2 _)).
    apply (running_other (crit_in (set_quetab qt1 s)) t e); [done | | done]. left. intros ->.
    destruct Hr as [(ec & Hec & Hst') _]. cbn in He. rewrite Hec in He. injection He as <-.
    unfold loc in Hloc. by rewrite Hst' in Hloc.
  - eexists _, _, _, _; kst_eq.
  - by rewrite qready_sleep.
  - apply deltas_ext. intros x Hx. assert (x <> t) by congruence. ksimpl.
    rewrite Hk2, decide_False by done. ksimpl. by rewrite Hk1, Hk0.
  - intros i Hi. rewrite qready_sem by done. apply qremove_id.
    intros Hin'. apply (semq_ne_sleep i Hi). apply (qr_disj _ _ _ HQ _ _ t); auto with xinu.
  - intros x. rewrite qready_elem, qremove_elem. destruct (decide (x = t)); naive_solver.
Qed.

(** What waking up threads achieves: the sleep queue is now [m], the threads in
    [w] are ready, no other queue lost anybody. *)
Record woken (s s' : kst) (Q Q' : Z -> list Z) (m : list (Z * Z)) (w : list Z) : Prop := {
  wk_inv : kinv s' Q';
  wk_running : running s';
  wk_frame : wake_frame s s';
  wk_sleep : deltas (quetab s') (Q' SLEEPQ) = m;
  wk_sems : forall i, 0 <= i < NSEM -> Q' (semq i) = Q (semq i);
  wk_ready : forall x, x ∈ Q' READYQ <-> x ∈ w \/ x ∈ Q READYQ
}.

(** The threads [dropdue] drops. *)
Fixpoint duenow (l : list (Z * Z)) : list Z :=
  match l with
  | (x, d) :: r => if d <=? 0 then x :: duenow r else []
  | [] => []
  end.

Lemma woken_cons s s1 s' Q Q1 Q' m t w :
  wake_frame s s1 -> (forall i, 0 <= i < NSEM -> Q1 (semq i) = Q (semq i)) ->
  (forall x, x ∈ Q1 READYQ <-> x = t \/ x ∈ Q READYQ) ->
  woken s1 s' Q1 Q' m w -> woken s s' Q Q' m (t :: w).
Proof.
  intros Hf Hs Hr [H1 H2 H3 H4 H5 H6]. constructor; try done.
  - by eapply wake_frame_trans.
  - intros i Hi. by rewrite H5, Hs.
  - intros x. rewrite H6, Hr, elem_of_cons. tauto.
Qed.

(** The body of the loop of [wakeup], run at a state whose sleep queue is known. *)
Lemma wakeup_cond s Q :
  qrep NQENT (quetab s) Q -> sleepq s = SLEEPQ ->
  run (sq ← gets sleepq; ne ← nonempty sq;
       if (ne : bool) then k ← firstkey sq; mret (k <=? 0) else mret false) s
  = Done (match deltas (quetab s) (Q SLEEPQ) with (_, d) :: _ => d <=? 0 | [] => false end) s.
Proof.
  intros HQ Hsq. prun. rewrite Hsq, (run_nonempty NQENT s Q _ HQ isq_sleep). cbn [obind].
  destruct (Q SLEEPQ) as [|x l] eqn:Hl.
  - rewrite bool_decide_eq_false_2 by tauto. by prun.
  - rewrite bool_decide_eq_true_2 by done.
    destruct (run_firstkey NQENT s Q _ HQ isq_sleep x l Hl) as (ex & Hex & Hfk).
    prun. rewrite Hfk. cbn [obind]. prun. cbn. by rewrite (keyof_entry _ _ _ Hex).
Qed.

Lemma wakeup_loop_spec : forall fuel s Q,
  kinv s Q -> running s -> (length (Q SLEEPQ) < fuel)%nat ->
  let m := deltas (quetab s) (Q SLEEPQ) in
  exists s' Q', run (wakeup_loop fuel) s = Done tt s' /\ woken s s' Q Q' (dropdue m) (duenow m).
Proof.
  induction fuel as [|fuel IH]; intros s Q HI Hr Hlen m; [lia |].
  pose proof HI as [Hs HK HT HS]. unfold wakeup_loop. cbn [while_].
  rewrite run_bind, (wakeup_cond s Q (kq_rep _ _ HK) (ks_sleep _ Hs)). fold m. cbn [obind].
  destruct (Q SLEEPQ) as [|t l] eqn:Hl.
  - unfold m. cbn. prun. exists s, Q. split; [done |]. constructor; try done.
    + apply wake_frame_refl, Hs.
    + by rewrite Hl.
    + intros x. rewrite elem_of_nil. tauto.
  - unfold m. rewrite deltas_cons. cbn [dropdue duenow].
    destruct (Z.leb_spec (keyof (quetab s) t) 0) as [Hdue | Hdue].
    + rewrite run_bind. prun1. prun1. rewrite (ks_sleep _ Hs).
      destruct (wake_one s Q (quetab s) t l Hs HK (kq_rep _ _ HK)) as
        (s1 & Q1 & Hrun1 & HI1 & Hr1 & Hf1 & Hsl1 & Hd1 & Hse1 & Hre1); try done.
      rewrite Hrun1. cbn [obind]. destruct (IH s1 Q1 HI1 Hr1) as (s' & Q' & Hrun & Hw).
      { rewrite Hsl1. cbn in Hlen. lia. }
      rewrite Hsl1, Hd1 in Hw. exists s', Q'. split; [exact Hrun | by eapply woken_cons].
    + prun. exists s, Q. split; [done |]. constructor; try done.
      * apply wake_frame_refl, Hs.
      * by rewrite Hl.
      * intros x. rewrite elem_of_nil. tauto.
Qed.

(** ** The clock tick *)

(** The part of [clkhandler] that counts. *)
Definition counted (s : kst) : kst :=
  let t := u32 (clkticks s + 1) in
  let s1 := set_clkticks t (set_tmr_c3 (u32 (tmr_clo s + clkfreq s / CLKTICKS_PER_SEC))
    (set_tmr_cs (Z.land (tmr_cs s) (Z.lnot (Z.shiftl 1 3))) s)) in
  if CLKTICKS_PER_SEC =? t then set_clkticks 0 (set_clktime (u32 (clktime s + 1)) s1) else s1.

Lemma run_clkhandler s : run clkhandler s = run clk_sleepers (counted s).
Proof.
  unfold clkhandler, clkupdate, counted. prun. destruct (CLKTICKS_PER_SEC =? _); prun;
    apply f_equal; kst_eq.
Qed.

Lemma counted_same s : exists cs c3 tk ct,
  counted s = set_tmr_cs cs (set_tmr_c3 c3 (set_clkticks tk (set_clktime ct s))).
Proof.
  unfold counted. destruct (CLKTICKS_PER_SEC =? _).
  - eexists _, _, _, _; kst_eq.
  - eexists _, _, _, (clktime s). by destruct s.
Qed.

Lemma kinv_counted s Q : kinv s Q -> kinv (counted s) Q.
Proof. intros [[] ? ? ?]. destruct (counted_same s) as (? & ? & ? & ? & ->). by split. Qed.

Lemma running_counted s : running s -> running (counted s).
Proof. by destruct (counted_same s) as (? & ? & ? & ? & ->). Qed.

(** The head of the sleep queue loses a tick. *)
Lemma dec_firstkey_spec s Q t l :
  kqueues (quetab s) Q -> Q SLEEPQ = t :: l ->
  exists qt', let k := keyof (quetab s) t - 1 in
    run (dec_firstkey SLEEPQ) s = Done k (set_quetab qt' s) /\
    qrep NQENT qt' Q /\ (forall x, x <> t -> qkey qt' x = qkey (quetab s) x) /\ keyof qt' t = k.
Proof.
  intros HK Hl. pose proof (kq_rep _ _ HK) as HQ.
  destruct (neighbours NQENT s Q SLEEPQ HQ isq_sleep [] (t :: l) Hl)
    as (h & b & eh & et & ->%lastof_nil_inv & ->%firstof_cons_inv & _ & Heh & Het & Hn & _).
  pose proof (kq_delays _ _ HK t ltac:(rewrite Hl; apply elem_of_cons; by left)) as Hd.
  rewrite (keyof_entry _ _ _ Het) in *. unfold dec_firstkey, firstid, quehead. prun. rewrite Hn. prun.
  rewrite run_int by klia. cbn [obind]. prun. eexists. split; [reflexivity |]. split_and!.
  - apply (qrep_ext HQ); [qdom | |].
    + intros q x Hq Hx. split; qentries.
    + assert (0 <= t < NTHREAD).
      { apply (qr_tid _ _ _ HQ SLEEPQ); [auto with xinu |]. rewrite Hl. apply elem_of_cons. by left. }
      intros x Hx. assert (x <> t) by lia. qentries.
  - intros x Hx. qentries.
  - unfold keyof, qkey. by rewrite lookup_insert_eq.
Qed.

Lemma kqueues_dec qt qt' Q t l :
  kqueues qt Q -> Q SLEEPQ = t :: l -> qrep NQENT qt' Q ->
  (forall x, x <> t -> qkey qt' x = qkey qt x) -> keyof qt' t = keyof qt t - 1 ->
  0 <= keyof qt t - 1 -> kqueues qt' Q /\ deltas qt' (Q SLEEPQ) = (t, keyof qt t - 1) :: deltas qt l.
Proof.
  intros HK Hl Hrep Hk Hkt Hpos. pose proof (kq_rep _ _ HK) as HQ.
  pose proof (qr_nodup _ _ _ HQ SLEEPQ isq_sleep) as HN. rewrite Hl in HN. apply NoDup_cons in HN as [Htl _].
  assert (Hdl : deltas qt' l = deltas qt l).
  { apply deltas_ext. intros x Hx. apply Hk. congruence. }
  assert (Hdel : deltas qt' (Q SLEEPQ) = (t, keyof qt t - 1) :: deltas qt l).
  { by rewrite Hl, deltas_cons, Hkt, Hdl. }
  split; [| done]. pose proof (deltas_nonneg _ _ (kq_delays _ _ HK)) as Hnn. rewrite Hl in Hnn.
  apply Forall_cons in Hnn as [_ Hnn].
  destruct (delays_of_deltas qt' (Q SLEEPQ) _ Hdel) as [Hd Hs].
  { by constructor. }
  { pose proof (kq_total _ _ HK) as Ht. rewrite <- psum_deltas, Hl, deltas_cons, psum_cons in Ht.
    rewrite psum_cons. cbn in *. lia. }
  constructor; try done. eapply descending_ext; [| apply (kq_sorted _ _ HK)].
  intros x Hx. apply keyof_ext, Hk. intros ->. assert (READYQ = SLEEPQ); [| unfold SLEEPQ in *; lia].
  apply (qr_disj _ _ _ HQ _ _ t); auto with xinu. rewrite Hl. apply elem_of_cons. by left.
Qed.

(** The threads a tick wakes. *)
Definition ticked (l : list (Z * Z)) : list Z :=
  match l with
  | (x, d) :: r => if d - 1 <=? 0 then x :: duenow r else []
  | [] => []
  end.

(** One tick, up to rescheduling. *)
Lemma clk_sleepers_spec s Q :
  kinv s Q -> running s ->
  let m := deltas (quetab s) (Q SLEEPQ) in
  exists s1 Q1, run clk_sleepers s = obind (fun _ => mret tt) (run resched s1) /\
    woken s s1 Q Q1 (tick m) (ticked m).
Proof.
  intros HI Hr m. pose proof HI as [Hs HK HT HS]. pose proof (kq_rep _ _ HK) as HQ.
  assert (Hsame : forall qt', kinv (set_quetab qt' s) Q -> wake_frame s (set_quetab qt' s)).
  { intros qt' _. exists qt', (thrtab s), (cpsr s), (intmask s). pose proof (ks_crit _ Hs) as E.
    destruct s. cbn in E. by subst. }
  unfold clk_sleepers. prun1. prun1. rewrite (ks_sleep _ Hs).
  rewrite run_bind, (run_nonempty NQENT s Q _ HQ isq_sleep). cbn [obind].
  destruct (Q SLEEPQ) as [|t l] eqn:Hl.
  - rewrite bool_decide_eq_false_2 by tauto. prun. exists s, Q. split; [done |].
    constructor; try done; [apply wake_frame_refl, Hs | by rewrite Hl |].
    intros x. cbn. rewrite elem_of_nil. tauto.
  - rewrite bool_decide_eq_true_2 by done.
    destruct (dec_firstkey_spec s Q t l HK Hl) as (qt1 & Hrun1 & Hrep1 & Hk1 & Hkt).
    rewrite run_bind, run_bind, Hrun1. cbn [obind]. prun. unfold m. rewrite deltas_cons. cbn [tick ticked].
    destruct (Z.leb_spec (keyof (quetab s) t - 1) 0) as [Hdue | Hdue].
    + destruct (wake_one (set_quetab qt1 s) Q (quetab s) t l) as
        (s2 & Q2 & Hrun2 & HI2 & Hr2 & Hf2 & Hsl2 & Hd2 & Hse2 & Hre2); try done.
      { destruct Hs; by constructor. }
      destruct (wakeup_loop_spec (pred QFUEL) s2 Q2 HI2 Hr2) as (s' & Q' & Hrun & Hw).
      { pose proof (queue_length NQENT s Q SLEEPQ HQ isq_sleep) as Hlen. rewrite Hl in Hlen.
        rewrite Hsl2. cbn [length] in Hlen. unfold QFUEL. klia. }
      rewrite Hsl2, Hd2 in Hw. exists s', Q'. split.
      * unfold wakeup, wakeup_loop. change QFUEL with (S (pred QFUEL)). cbn [while_].
        rewrite run_bind, run_bind, (wakeup_cond (set_quetab qt1 s) Q Hrep1 (ks_sleep _ Hs)), Hl. cbn [obind].
        rewrite deltas_cons. ksimpl. rewrite Hkt, (proj2 (Z.leb_le _ 0)) by lia.
        rewrite run_bind. prun1. prun1. rewrite (ks_sleep _ Hs), Hrun2. cbn [obind].
        unfold wakeup_loop in Hrun. rewrite Hrun. cbn [obind]. by prun.
      * eapply woken_cons; [| done | done | done]. destruct Hf2 as (a & b & c & d & ->).
        by exists a, b, c, d.
    + destruct (kqueues_dec (quetab s) qt1 Q t l HK Hl Hrep1 Hk1 Hkt) as [HK1 Hd1]; [lia |].
      assert (HI1 : kinv (set_quetab qt1 s) Q) by (split; try done; destruct Hs; by constructor).
      prun. exists (set_quetab qt1 s), Q. split; [done |].
      constructor; try done; [by apply Hsame |].
      intros x. rewrite elem_of_nil. tauto.
Qed.

Lemma clkhandler_safe t : safe t clkhandler.
Proof.
  constructor. intros s Q HI Hr Ht. rewrite run_clkhandler.
  destruct (clk_sleepers_spec (counted s) Q) as (s1 & Q1 & -> & Hw);
    [by apply kinv_counted | by apply running_counted |].
  destruct Hw as [HI1 Hr1 Hf _ _ _]. eapply safe_out_resched_ok; [done | apply Hr1 |].
  destruct Hf as (? & ? & ? & ? & ->). destruct (counted_same s) as (? & ? & ? & ? & ->). done.
Qed.

(** ** When threads wake *)

(** When nobody at the head of the queue is already due, a tick takes one from the
    time every thread has left, and wakes exactly the threads that had one tick
    left. *)
Lemma dropdue_abstimes l : forall now,
  Forall (fun p => 0 <= p.2) l ->
  abstimes now (dropdue l) = filter (fun p => now < p.2) (abstimes now l) /\
  duenow l = (filter (fun p => p.2 <= now) (abstimes now l)).*1.
Proof.
  induction l as [|[x d] l IH]; intros now Hl; [done |]. apply Forall_cons in Hl as [Hd Hl]. cbn in Hd.
  cbn [dropdue duenow abstimes]. rewrite !filter_cons. cbn [snd].
  destruct (Z.leb_spec d 0) as [Hdue | Hdue].
  - assert (d = 0) as -> by lia. rewrite Z.add_0_r, decide_False, decide_True by lia.
    destruct (IH now Hl) as [E1 E2]. split; [done |]. cbn. by rewrite E2.
  - rewrite decide_True, decide_False by lia. pose proof (abstimes_ge (now + d) l Hl) as Hge.
    rewrite Forall_forall in Hge. rewrite filter_all by (intros p Hp; specialize (Hge p Hp); lia).
    split; [done |]. clear IH Hl. rewrite (list_filter_none (fun p => p.2 <= now)); [done |].
    intros p Hp. specialize (Hge p Hp). lia.
Qed.

Lemma abstimes_shift k l : forall now,
  abstimes (now + k) l = (fun p => (p.1, p.2 + k)) <$> abstimes now l.
Proof.
  induction l as [|[x d] l IH]; intros now; [done |]. cbn. rewrite <- IH. f_equal; [f_equal; lia |].
  f_equal. lia.
Qed.

(** A thread that waits for no time at all, as [recvtime 0] does, takes the tick for itself
    when it is at the head: the others stay as far from their wake-up as they are. *)
Definition late (l : list (Z * Z)) : Z :=
  match l with (_, d) :: _ => if d <=? 0 then 1 else 0 | [] => 0 end.

Lemma tick_abstimes l :
  Forall (fun p => 0 <= p.2) l ->
  abstimes 1 (tick l) = filter (fun p => 1 < p.2) (abstimes (late l) l) /\
  ticked l = (filter (fun p => p.2 <= 1) (abstimes (late l) l)).*1.
Proof.
  intros Hl. destruct l as [|[x d] l]; [done |]. apply Forall_cons in Hl as [Hd Hl]. cbn in Hd.
  cbn [late]. destruct (Z.leb_spec d 0) as [H0 | H0].
  - assert (d = 0) as -> by lia. destruct (dropdue_abstimes l 1 Hl) as [E1 E2].
    change (tick ((x, 0) :: l)) with (dropdue l). change (ticked ((x, 0) :: l)) with (x :: duenow l).
    cbn [abstimes]. rewrite !filter_cons. cbn [snd].
    rewrite Z.add_0_r, decide_False, decide_True by lia. cbn [fmap list_fmap fst]. by rewrite E1, E2.
  - destruct (dropdue_abstimes ((x, d - 1) :: l) 1) as [E1 E2]; [constructor; [cbn; lia | done] |].
    cbn [abstimes dropdue duenow] in E1, E2. replace (1 + (d - 1)) with d in * by lia.
    cbn [abstimes tick ticked]. rewrite Z.add_0_l.
    revert E1 E2. destruct (d - 1 <=? 0); [done |]. cbn [abstimes].
    replace (1 + (d - 1)) with d by lia. done.
Qed.

(** The clock as a number of ticks. *)
Definition time_of (s : kst) : Z := clktime s * CLKTICKS_PER_SEC + clkticks s.

Lemma counted_time s :
  0 <= clkticks s < CLKTICKS_PER_SEC -> 0 <= clktime s < UINT_MAX ->
  time_of (counted s) = time_of s + 1 /\ 0 <= clkticks (counted s) < CLKTICKS_PER_SEC.
Proof.
  unfold time_of, counted, UINT_MAX, CLKTICKS_PER_SEC. intros Ht Hc.
  rewrite (u32_small (clkticks s + 1)), (u32_small (clktime s + 1)) by lia.
  destruct (Z.eqb_spec 1000 (clkticks s + 1)); ksimpl; lia.
Qed.

Lemma elem_of_ticked l x :
  Forall (fun p => 0 <= p.2) l -> x ∈ ticked l <-> exists a, (x, a) ∈ abstimes (late l) l /\ a <= 1.
Proof.
  intros Hl. destruct (tick_abstimes l Hl) as [_ ->].
  rewrite list_elem_of_fmap. split.
  - intros ([y a] & -> & Hp). apply list_elem_of_filter in Hp as [? Hp]. by exists a.
  - intros (a & Ha & Hle). exists (x, a). split; [done |]. by apply list_elem_of_filter.
Qed.

(** C18: one clock interrupt advances the time by one tick and wakes exactly the sleepers
    whose time has come, who are ready or running afterwards.  Every other sleeper comes
    one tick closer to its wake-up, unless the first of the queue waits for no time
    ([recvtime 0]): then those who wait for no time wake, and the others stay as far from
    their wake-up as they were, a tick late.  (Until the count of seconds wraps around.) *)
Theorem clkhandler_tick s Q :
  kinv s Q -> running s ->
  0 <= clkticks s < CLKTICKS_PER_SEC -> 0 <= clktime s < UINT_MAX ->
  let l := deltas (quetab s) (Q SLEEPQ) in
  let before := abstimes (late l) l in
  exists s' Q', reaches (run clkhandler s) s' /\ kinv s' Q' /\ running s' /\
    time_of s' = time_of s + 1 /\
    abstimes 1 (deltas (quetab s') (Q' SLEEPQ)) = filter (fun p => 1 < p.2) before /\
    (forall x a, (x, a) ∈ before -> a <= 1 -> x ∈ Q' READYQ \/ x = thrcurrent s').
Proof.
  intros HI Hr Htk Hct l before. rewrite run_clkhandler.
  destruct (clk_sleepers_spec (counted s) Q) as (s1 & Q1 & -> & Hw);
    [by apply kinv_counted | by apply running_counted |].
  assert (Eq : quetab (counted s) = quetab s) by (destruct (counted_same s) as (? & ? & ? & ? & ->); done).
  rewrite Eq in Hw. destruct Hw as [HI1 Hr1 (qt1 & tt1 & c1 & m1 & Ef) Hsl _ Hrd].
  destruct (resched_reaches s1 Q1 tt HI1 (proj2 Hr1)) as (s' & Q' & Hre & HI' & Hr' & Hresch & Hsame & Hkeep).
  pose proof (deltas_nonneg _ _ (kq_delays _ _ (ki_queues _ _ HI))) as Hnn.
  exists s', Q'. split_and!; try done.
  - destruct Hresch as ((? & ? & ? & ? & ->) & _). rewrite Ef. unfold time_of. ksimpl.
    apply (counted_time s); done.
  - rewrite (rescheduled_deltas _ _ _ _ HI1 Hresch Hsame), Hsl. by apply tick_abstimes.
  - intros x a Hx Ha. apply Hkeep, Hrd. left. apply elem_of_ticked; eauto.
Qed.


(** [unsleep] takes a sleeping thread out of the sleep queue, and every other
    sleeper keeps its wake-up time. *)
Theorem unsleep_early s Q t e :
  kinv s Q -> thrtab s !! t = Some e -> t_state e = THRSLEEP \/ t_state e = THRTMOUT ->
  exists s', run (unsleep t) s = Done OK s' /\ thrtab s' = thrtab s /\
    kqueues (quetab s') (qremove t Q) /\
    abstimes 0 (deltas (quetab s') (qremove t Q SLEEPQ)) =
      filter (fun p => p.1 <> t) (abstimes 0 (deltas (quetab s) (Q SLEEPQ))).
Proof.
  intros HI He Hst. pose proof HI as [Hs HK HT _]. pose proof (ks_crit _ Hs) as Hcrit.
  assert (Hin : t ∈ Q SLEEPQ).
  { apply (kt_loc _ _ _ HT t e); auto with xinu. unfold loc. by destruct Hst as [-> | ->]. }
  assert (Hg : goodtid (crit_in s) t e).
  { split; [by eapply (thr_range HT) | split; [done |]]. by destruct Hst as [-> | ->]. }
  destruct (delay_remove_spec (crit_in s) Q t HK Hin) as (qt' & Hrun & HK' & Hdel).
  exists (crit_out (set_quetab qt' (crit_in s))). split_and!; try done.
  - unfold unsleep. do 2 prun1. rewrite run_bind, (run_goodtid _ t e Hg). cbn [obind]. prun.
    replace (negb (bool_decide (t_state e = THRSLEEP)) && negb (bool_decide (t_state e = THRTMOUT))) with false
      by (by destruct Hst as [-> | ->]).
    cbn match. prun1. use_run Hrun. by prun.
  - ksimpl. rewrite Hdel. apply dremove_abstimes. rewrite deltas_fst.
    apply (qr_nodup _ _ _ (kq_rep _ _ HK)). auto with xinu.
Qed.
