(* ===== verification/Message.v ===== *)
(** Message passing: system/send.c, system/receive.c, system/recvclr.c and
    system/recvtime.c.  Every thread has room for one message; sending to a thread
    whose slot is taken fails and leaves the message there alone. *)
From Stdlib Require Import ZArith Lia.
From stdpp Require Import sorting gmap functions list.
From S2P Require Import Prelude Kernel Queue QueueFacts Sched Clock.

(** ** Routines *)

Definition send (tid msg : Z) : kprog Z :=
  ENTER_KERNEL_CRITICAL_SECTION;;
  bad ← isbadtid tid;
  if (bad : bool) then EXIT_KERNEL_CRITICAL_SECTION;; mret SYSERR else
  thrptr ← thr tid;
  if bool_decide (t_state thrptr = THRFREE) || t_hasmsg thrptr then
    EXIT_KERNEL_CRITICAL_SECTION;; mret SYSERR
  else
  amend_thr tid (set_t_msg msg);;
  amend_thr tid (set_t_hasmsg true);;
  if bool_decide (t_state thrptr = THRRECV) then
    thread_ready tid;;
    EXIT_KERNEL_CRITICAL_SECTION;;
    resched;;
    mret OK
  else if bool_decide (t_state thrptr = THRTMOUT) then
    delay_remove tid;;
    thread_ready tid;;
    EXIT_KERNEL_CRITICAL_SECTION;;
    resched;;
    mret OK
  else
    EXIT_KERNEL_CRITICAL_SECTION;;
    mret OK.

(** What [receive] does once there is a message. *)
Definition receive_take (cur : Z) : kprog Z :=
  thrptr ← thr cur;
  let msg := t_msg thrptr in
  amend_thr cur (set_t_hasmsg false);;
  EXIT_KERNEL_CRITICAL_SECTION;;
  mret msg.

Definition receive : kprog Z :=
  ENTER_KERNEL_CRITICAL_SECTION;;
  cur ← gets thrcurrent;
  thrptr ← thr cur;
  if Bool.eqb (t_hasmsg thrptr) false then
    amend_thr cur (set_t_state THRRECV);;
    EXIT_KERNEL_CRITICAL_SECTION;;
    resched;;
    ENTER_KERNEL_CRITICAL_SECTION;;
    receive_take cur
  else receive_take cur.

Definition recvclr : kprog Z :=
  ENTER_KERNEL_CRITICAL_SECTION;;
  cur ← gets thrcurrent;
  thrptr ← thr cur;
  let msg := if t_hasmsg thrptr then t_msg thrptr else NOMSG in
  amend_thr cur (set_t_hasmsg false);;
  EXIT_KERNEL_CRITICAL_SECTION;;
  mret msg.

(** The end of [recvtime]. *)
Definition recvtime_take (cur : Z) : kprog Z :=
  thrptr ← thr cur;
  msg ← (if t_hasmsg thrptr then
           let msg := t_msg thrptr in
           amend_thr cur (set_t_hasmsg false);; mret msg
         else mret TIMEOUT);
  EXIT_KERNEL_CRITICAL_SECTION;;
  mret msg.

Definition recvtime (maxwait : Z) : kprog Z :=
  if maxwait <? 0 then mret SYSERR else
  ENTER_KERNEL_CRITICAL_SECTION;;
  cur ← gets thrcurrent;
  thrptr ← thr cur;
  if Bool.eqb (t_hasmsg thrptr) false then
    sq ← gets sleepq;
    r ← insertd cur sq maxwait;
    if r =? SYSERR then EXIT_KERNEL_CRITICAL_SECTION;; mret SYSERR else
    cur' ← gets thrcurrent;
    amend_thr cur' (set_t_state THRTMOUT);;
    EXIT_KERNEL_CRITICAL_SECTION;;
    resched;;
    ENTER_KERNEL_CRITICAL_SECTION;;
    recvtime_take cur
  else recvtime_take cur.

(** ** The message slot *)

Definition slot (e : thrent) : option Z := if t_hasmsg e then Some (t_msg e) else None.

Definition deposit (msg : Z) (e : thrent) : thrent := set_t_hasmsg true (set_t_msg msg e).

(** The current thread goes on: a field of its entry changed. *)
Lemma safe_out_fields {A} t s Q x e e' (a : A) :
  kinv s Q -> running s -> thrcurrent s = t -> thrtab s !! x = Some e ->
  t_state e' = t_state e -> t_sem e' = t_sem e -> t_prio e' = t_prio e ->
  safe_out t (Done a (crit_out (set_thrtab (<[x := e']> (thrtab s)) s))).
Proof.
  intros HI Hr Ht He H1 H2 H3. eapply (so_done _ _ _ Q); [| | done].
  - apply kinv_crit_out. apply (kinv_fields _ _ _ e); try done. rewrite H3.
    exact (kt_prio _ _ _ (ki_threads _ _ HI) x e He).
  - by apply (running_fields s x e).
Qed.

Lemma receive_take_safe t : safe t (ENTER_KERNEL_CRITICAL_SECTION;; receive_take t).
Proof.
  constructor. intros s Q HI Hr Ht. pose proof (ks_crit _ (ki_static _ _ HI)) as Hcrit.
  destruct (proj1 Hr) as (e & He & Hst). rewrite Ht in He. unfold receive_take. prun.
  by eapply (safe_out_fields t (crit_in s) Q t e); [apply kinv_crit_in | ..].
Qed.

Lemma recvtime_take_safe t : safe t (ENTER_KERNEL_CRITICAL_SECTION;; recvtime_take t).
Proof.
  constructor. intros s Q HI Hr Ht. pose proof (ks_crit _ (ki_static _ _ HI)) as Hcrit.
  destruct (proj1 Hr) as (e & He & Hst). rewrite Ht in He. unfold recvtime_take. prun.
  destruct (t_hasmsg e); prun.
  - by eapply (safe_out_fields t (crit_in s) Q t e); [apply kinv_crit_in | ..].
  - safe_done Q; [by apply kinv_crit_out, kinv_crit_in | done].
Qed.

Lemma recvclr_safe t : safe t recvclr.
Proof.
  constructor. intros s Q HI Hr Ht. pose proof (ks_crit _ (ki_static _ _ HI)) as Hcrit.
  destruct (proj1 Hr) as (e & He & Hst). unfold recvclr. prun.
  by eapply (safe_out_fields t (crit_in s) Q (thrcurrent s) e); [apply kinv_crit_in | ..].
Qed.

(** The current thread waits outside the queues. *)
Lemma kinv_park s Q e st :
  kinv s Q -> thrtab s !! thrcurrent s = Some e -> t_state e = THRCURR ->
  thrcurrent s <> NULLTHREAD -> st <> THRCURR -> loc (set_t_state st e) = None -> st <> THRWAIT ->
  kinv (set_thrtab (<[thrcurrent s := set_t_state st e]> (thrtab s)) s) Q.
Proof.
  intros [Hs HK HT HS] He Hst Hnull H1 H2 H3.
  pose proof (thr_detached HT _ e He ltac:(unfold loc; by rewrite Hst)) as Hfree.
  split; ksimpl; [destruct Hs; by constructor | done | | done].
  apply (kthreads_move HT); try done.
  - apply (ks_cur _ Hs).
  - intros q Hq. rewrite H2. pose proof (Hfree q Hq). naive_solver.
  - exact (kt_prio _ _ _ HT _ e He).
  - intros x e0. rewrite lookup_insert. case_decide; [by intros [= <-] | apply (kt_cur _ _ _ HT)].
Qed.

(** [receive] with no message: the thread waits for one. *)
Lemma run_receive_wait s Q e :
  kinv s Q -> thrtab s !! thrcurrent s = Some e -> t_state e = THRCURR ->
  thrcurrent s <> NULLTHREAD -> t_hasmsg e = false ->
  let t := thrcurrent s in
  let s1 := crit_out (set_thrtab (<[t := set_t_state THRRECV e]> (thrtab s)) (crit_in s)) in
  run receive s = obind (fun _ => ENTER_KERNEL_CRITICAL_SECTION;; receive_take t) (run resched s1) /\
  kinv s1 Q.
Proof.
  intros HI He Hst Hnull Hm t s1. pose proof (ks_crit _ (ki_static _ _ HI)) as Hcrit. split.
  - unfold receive. prun. rewrite Hm. cbn [Bool.eqb]. by prun.
  - apply kinv_crit_out. apply (kinv_park (crit_in s)); try done. by apply kinv_crit_in.
Qed.

Lemma receive_safe t : t <> NULLTHREAD -> safe t receive.
Proof.
  intros Hnull. constructor. intros s Q HI Hr Ht. pose proof (ks_crit _ (ki_static _ _ HI)) as Hcrit.
  destruct Hr as [(e & He & Hst) Hrd] eqn:Er. destruct (t_hasmsg e) eqn:Hm.
  - unfold receive. prun. rewrite Hm. cbn [Bool.eqb]. unfold receive_take. prun.
    by eapply (safe_out_fields t (crit_in s) Q (thrcurrent s) e); [apply kinv_crit_in | ..].
  - subst t. destruct (run_receive_wait s Q e) as [-> HI1]; try done.
    apply safe_out_bind; [by eapply (safe_out_resched _ _ HI1) | intros ?; apply receive_take_safe].
Qed.

Lemma recvtime_safe t maxwait : t <> NULLTHREAD -> maxwait <= INT_MAX -> safe t (recvtime maxwait).
Proof.
  intros Hnull Hmax. constructor. intros s Q HI Hr Ht. pose proof (ks_crit _ (ki_static _ _ HI)) as Hcrit.
  unfold recvtime. destruct (Z.ltb_spec maxwait 0) as [Hneg | Hpos]; [by prun; safe_done Q |].
  destruct (proj1 Hr) as (e & He & Hst). do 2 prun1. do 2 prun1. prun1. prun1.
  destruct (t_hasmsg e) eqn:Hm; cbn [Bool.eqb].
  - unfold recvtime_take. prun. rewrite Hm. prun.
    by eapply (safe_out_fields t (crit_in s) Q (thrcurrent s) e); [apply kinv_crit_in | ..].
  - subst t. destruct (kinv_sleep (crit_in s) Q e THRTMOUT maxwait) as (qt' & l' & Hrun & HI' & _); auto;
      [by apply kinv_crit_in |].
    prun. rewrite (ks_sleep _ (ki_static _ _ HI)).
    change (thrcurrent (crit_in s)) with (thrcurrent s) in Hrun. use_run Hrun.
    change (OK =? SYSERR) with false. cbn match. prun.
    apply safe_out_bind; [| intros ?; apply recvtime_take_safe].
    by eapply (safe_out_resched _ _ (kinv_crit_out _ _ HI')); apply Hr.
Qed.

(** ** Sending *)

Section Send.
Context (s : kst) (Q : Z -> list Z) (tid msg : Z) (e : thrent).
Hypothesis HI : kinv s Q.
Hypothesis Hg : goodtid s tid e.

Let Hcrit : inCrit s = true := ks_crit _ (ki_static _ _ HI).

(** The state once the message is in the slot. *)
Definition deposited : kst :=
  set_thrtab (<[tid := deposit msg e]> (thrtab s)) (crit_in s).

Lemma kinv_deposited : kinv deposited Q.
Proof.
  destruct Hg as (Hr & He & Hst).
  apply (kinv_fields (crit_in s) Q tid e); try done; [by apply kinv_crit_in |].
  exact (kt_prio _ _ _ (ki_threads _ _ HI) tid e He).
Qed.

Lemma run_send_full : t_hasmsg e = true -> run (send tid msg) s = Done SYSERR (crit_out (crit_in s)).
Proof.
  intros Hm. destruct Hg as (Hr & He & Hst). unfold send. do 2 prun1.
  rewrite run_bind, (run_goodtid (crit_in s) tid e Hg). cbn [obind]. prun. rewrite Hm, orb_true_r. by prun.
Qed.

(** The common part: the slot is empty. *)
Lemma run_send_deposit :
  t_hasmsg e = false ->
  run (send tid msg) s =
    run (if bool_decide (t_state e = THRRECV) then
           thread_ready tid;; EXIT_KERNEL_CRITICAL_SECTION;; resched;; mret OK
         else if bool_decide (t_state e = THRTMOUT) then
           delay_remove tid;; thread_ready tid;; EXIT_KERNEL_CRITICAL_SECTION;; resched;; mret OK
         else EXIT_KERNEL_CRITICAL_SECTION;; mret OK) deposited.
Proof.
  intros Hm. destruct Hg as (Hr & He & Hst). unfold send.
  rewrite run_bind, (run_ENTER s Hcrit). cbn [obind].
  rewrite run_bind, (run_goodtid (crit_in s) tid e Hg). cbn [obind].
  rewrite run_bind, (run_thr tid e) by done. cbn [obind].
  rewrite Hm, bool_decide_eq_false_2 by done. cbn [orb].
  rewrite run_bind, (run_amend_thr tid _ e) by done. cbn [obind].
  rewrite run_bind. erewrite (run_amend_thr tid _) by apply lookup_insert_eq. cbn [obind]. ksimpl.
  by rewrite insert_insert_eq.
Qed.

Lemma run_send_keep :
  t_hasmsg e = false -> t_state e <> THRRECV -> t_state e <> THRTMOUT ->
  run (send tid msg) s = Done OK (crit_out deposited).
Proof.
  intros Hm H1 H2. rewrite run_send_deposit, !bool_decide_eq_false_2 by done.
  unfold deposited. by prun.
Qed.

Lemma run_send_wake :
  t_hasmsg e = false -> t_state e = THRRECV \/ t_state e = THRTMOUT ->
  exists qt' Q1, let s1 := crit_out (set_quetab qt' (set_thrtab
      (<[tid := set_t_state THRREADY (deposit msg e)]> (thrtab s)) (crit_in s))) in
    run (send tid msg) s = obind (fun _ => mret OK) (run resched s1) /\
    kinv s1 Q1 /\ tid ∈ Q1 READYQ.
Proof.
  intros Hm Hst'. rewrite run_send_deposit by done. pose proof kinv_deposited as HI1.
  pose proof HI1 as [Hs HK HT HS].
  assert (He1 : thrtab deposited !! tid = Some (deposit msg e)) by apply lookup_insert_eq.
  assert (Hcrit1 : inCrit deposited = true) by done.
  assert (Hgo : forall qt1, kqueues qt1 (qremove tid Q) -> 
    exists qt' Q1, let s1 := crit_out (set_quetab qt' (set_thrtab
        (<[tid := set_t_state THRREADY (deposit msg e)]> (thrtab s)) (crit_in s))) in
      run (thread_ready tid;; EXIT_KERNEL_CRITICAL_SECTION;; resched;; mret OK) (set_quetab qt1 deposited)
        = obind (fun _ => mret OK) (run resched s1) /\ kinv s1 Q1 /\ tid ∈ Q1 READYQ).
  { intros qt1 HK1.
    destruct (thread_ready_full (set_quetab qt1 deposited) Q tid (deposit msg e) (thrcurrent s))
      as (qt' & Hrun & HK' & HT' & _); try done; [apply Hs |].
    unfold deposited in *. ksimpl.
    exists qt', (qready qt1 tid (t_prio (deposit msg e)) (qremove tid Q)). split_and!.
    - rewrite run_bind, Hrun. cbn [obind]. ksimpl. rewrite ?insert_insert_eq.
      rewrite run_bind, run_EXIT by done. cbn [obind]. by rewrite run_bind.
    - apply kinv_crit_out. split; ksimpl; [destruct Hs; by constructor | done | |].
      + cbn in HT'. by rewrite insert_insert_eq in HT'.
      + eapply ksems_frame; [done |]. intros i Hi. rewrite qready_sem by done. apply qremove_id.
        intros Hin. apply (kt_loc _ _ _ (ki_threads _ _ HI) tid e) in Hin; [| apply Hg | auto with xinu].
        unfold loc in Hin. destruct Hst' as [E | E]; rewrite E in Hin; [done |].
        injection Hin as Hin. by apply (semq_ne_sleep i).
    - apply qready_elem. by left. }
  destruct Hg as (Hr & He & Hst). destruct Hst' as [E | E]; rewrite E.
  - rewrite bool_decide_eq_true_2 by done. apply (Hgo (quetab s)). apply kqueues_detached; [done |].
    apply (thr_detached (ki_threads _ _ HI) tid e He). unfold loc. by rewrite E.
  - rewrite bool_decide_eq_false_2, bool_decide_eq_true_2 by done.
    destruct (delay_remove_spec deposited Q tid HK) as (qt1 & Hrun & HK1 & _).
    { apply (kt_loc _ _ _ (ki_threads _ _ HI) tid e); auto with xinu. unfold loc. by rewrite E. }
    rewrite run_bind, Hrun. cbn [obind]. by apply Hgo.
Qed.
End Send.

Lemma send_safe t tid msg : safe t (send tid msg).
Proof.
  constructor. intros s Q HI Hr Ht. pose proof (ks_crit _ (ki_static _ _ HI)) as Hcrit.
  destruct (isbadtid_cases (crit_in s) Q tid (kinv_crit_in _ _ HI)) as [Hbad | (e & _ & Hg)].
  { unfold send. do 2 prun1. rewrite run_bind, Hbad. cbn [obind]. bad_call Q. }
  destruct (t_hasmsg e) eqn:Hm.
  { rewrite (run_send_full s Q tid msg e HI Hg Hm).
    safe_done Q; [by apply kinv_crit_out, kinv_crit_in | done]. }
  destruct (decide (t_state e = THRRECV \/ t_state e = THRTMOUT)) as [Hst | Hst].
  - destruct (run_send_wake s Q tid msg e HI Hg Hm Hst) as (qt' & Q1 & -> & HI1 & _).
    by eapply (safe_out_resched_ok _ _ _ _ HI1); [apply Hr |].
  - rewrite (run_send_keep s Q tid msg e HI Hg Hm) by tauto. destruct Hg as (_ & He & _).
    by eapply (safe_out_fields t (crit_in s) Q tid e); [apply kinv_crit_in | ..].
Qed.

(** Rescheduling leaves the slots alone. *)
Lemma rescheduled_slot s s' Q Q' t e :
  kinv s Q -> kinv s' Q' -> rescheduled s s' -> thrtab s !! t = Some e ->
  exists e', thrtab s' !! t = Some e' /\ slot e' = slot e.
Proof.
  intros HI HI' (_ & Hkept & _) He.
  destruct (thr_entry (ki_threads _ _ HI') t) as [e' He']; [by apply (thr_range (ki_threads _ _ HI) t e) |].
  exists e'. split; [done |]. destruct (Hkept t e' He') as (e0 & He0 & ->).
  rewrite He in He0. injection He0 as <-. by destruct e.
Qed.

(** [send] to a thread whose message slot is full fails and changes nothing; to
    a thread whose slot is empty it fills the slot, and a thread that was waiting
    for a message becomes ready or runs. *)
Theorem send_slot s Q tid msg e :
  kinv s Q -> running s -> thrtab s !! tid = Some e -> t_state e <> THRFREE ->
  match slot e with
  | Some _ => exists s', run (send tid msg) s = Done SYSERR s' /\ thrtab s' = thrtab s
  | None => exists s' Q' e', reaches (run (send tid msg) s) s' /\ kinv s' Q' /\ running s' /\
      thrtab s' !! tid = Some e' /\ slot e' = Some msg /\
      (t_state e = THRRECV \/ t_state e = THRTMOUT -> tid ∈ Q' READYQ \/ tid = thrcurrent s')
  end.
Proof.
  intros HI Hr He Hst.
  assert (Hg : goodtid s tid e) by (split; [by apply (thr_range (ki_threads _ _ HI) tid e) | done]).
  unfold slot. destruct (t_hasmsg e) eqn:Hm.
  { eexists. by rewrite (run_send_full s Q tid msg e HI Hg Hm). }
  destruct (decide (t_state e = THRRECV \/ t_state e = THRTMOUT)) as [Hw | Hw].
  - destruct (run_send_wake s Q tid msg e HI Hg Hm Hw) as (qt' & Q1 & -> & HI1 & Hin).
    set (s1 := crit_out _) in *.
    destruct (resched_reaches s1 Q1 OK HI1 (proj2 Hr)) as (s' & Q' & Hre & HI' & Hr' & Hresch & _ & Hkeep).
    destruct (rescheduled_slot s1 s' Q1 Q' tid (set_t_state THRREADY (deposit msg e)) HI1 HI' Hresch)
      as (e' & He' & Hs'); [apply lookup_insert_eq |].
    exists s', Q', e'. split_and!; try done. intros _. by apply Hkeep.
  - rewrite (run_send_keep s Q tid msg e HI Hg Hm) by tauto.
    eexists _, Q, (deposit msg e). split_and!; [left; by eexists | | | apply lookup_insert_eq | done | tauto].
    + by apply kinv_crit_out, kinv_deposited.
    + by apply (running_fields (crit_in s) tid e).
Qed.

(** [receive] returns the message in the caller's slot and empties the slot; if
    there is none the caller gives up the processor, and when it runs again with a
    message in the slot it returns that message and empties the slot. *)
Theorem receive_slot s Q e :
  kinv s Q -> running s -> thrcurrent s <> NULLTHREAD -> thrtab s !! thrcurrent s = Some e ->
  let t := thrcurrent s in
  match slot e with
  | Some m => exists s', run receive s = Done m s' /\ kinv s' Q /\ running s' /\
      slot <$> thrtab s' !! t = Some None
  | None => exists s' k, run receive s = Switch s' k /\ thrcurrent s' <> t /\ safe t k /\
      forall s2 Q2 e2 m, kinv s2 Q2 -> running s2 -> thrcurrent s2 = t ->
        thrtab s2 !! t = Some e2 -> slot e2 = Some m ->
        exists s3, run k s2 = Done m s3 /\ kinv s3 Q2 /\ running s3 /\
          slot <$> thrtab s3 !! t = Some None
  end.
Proof.
  intros HI Hr Hnull He t. pose proof (ks_crit _ (ki_static _ _ HI)) as Hcrit.
  assert (Htake : forall s2 Q2 e2 m, kinv s2 Q2 -> running s2 -> thrtab s2 !! t = Some e2 -> slot e2 = Some m ->
    exists s3, run (ENTER_KERNEL_CRITICAL_SECTION;; receive_take t) s2 = Done m s3 /\ kinv s3 Q2 /\
      running s3 /\ slot <$> thrtab s3 !! t = Some None).
  { intros s2 Q2 e2 m HI2 Hr2 He2 Hm. pose proof (ks_crit _ (ki_static _ _ HI2)) as Hcrit2.
    unfold slot in Hm. destruct (t_hasmsg e2) eqn:Hh; [| done]. injection Hm as <-.
    unfold receive_take. prun. eexists. split; [done |]. split_and!.
    - apply (kinv_crit_out (set_thrtab _ (crit_in s2))), (kinv_fields (crit_in s2) Q2 t e2); try done.
      + by apply kinv_crit_in.
      + exact (kt_prio _ _ _ (ki_threads _ _ HI2) t e2 He2).
    - by apply (running_fields (crit_in s2) t e2).
    - ksimpl. by rewrite lookup_insert_eq. }
  destruct (slot e) as [m|] eqn:Hm.
  - destruct (Htake s Q e m HI Hr He Hm) as (s3 & Hrun & Hrest). exists s3. split; [| done].
    rewrite <- Hrun. unfold receive. unfold slot in Hm. destruct (t_hasmsg e) eqn:Hh; [| done].
    rewrite (run_bind _ (fun _ => receive_take t)), run_bind, (run_ENTER s Hcrit). cbn [obind].
    rewrite run_bind, run_gets. cbn [obind]. change (thrcurrent (crit_in s)) with t.
    rewrite run_bind, (run_thr t e) by done. cbn [obind]. by rewrite Hh.
  - destruct Hr as [(e0 & He0 & Hst) Hrd]. rewrite He in He0. injection He0 as <-.
    assert (Hh : t_hasmsg e = false) by (unfold slot in Hm; by destruct (t_hasmsg e)).
    destruct (run_receive_wait s Q e HI He Hst Hnull Hh) as [-> HI1]. set (s1 := crit_out _) in *.
    destruct (resched_spec s1 Q HI1 Hrd) as (s' & Q' & HI' & Hr' & _ & _ & _ & _ & Hel & [[-> Hc] | [-> Hc]]).
    { exfalso. rewrite Hc in Hel. change (thrcurrent s1) with t in Hel.
      destruct Hel as [Hin | (_ & e1 & He1 & Hst1)].
      - apply (thr_detached (ki_threads _ _ HI) t e He ltac:(unfold loc; by rewrite Hst) READYQ); auto with xinu.
      - unfold s1 in He1. cbn in He1. rewrite lookup_insert_eq in He1. by injection He1 as <-. }
    cbn [obind]. eexists s', _. split; [reflexivity |]. split_and!; [done | |].
    + apply safe_bind; [apply safe_resched_tail | intros ?; apply receive_take_safe].
    + intros s2 Q2 e2 m2 HI2 Hr2 Hc2 He2 Hm2.
      change (pbind ?f ?m) with (m ≫= f). rewrite run_bind. change (thrcurrent s1) with t.
      destruct (run_resched_tail s2 t e2 He2) as [c ->]. cbn [obind].
      apply (Htake (set_cpsr c s2) Q2 e2 m2); try done. by apply kinv_cpsr.
Qed.
