(* ===== verification/Memory.v ===== *)
(** The kernel memory allocator: system/memget.c, system/memfree.c,
    system/stkget.c and the rounding macros of include/memory.h, with the
    accounting allocator of lib/libxc/malloc.c and lib/libxc/free.c on top.  The
    free list in memory is shown to implement a list of blocks in address order
    that never touch. *)
From Stdlib Require Import ZArith Lia.
From stdpp Require Import gmap list.
From S2P Require Import Prelude Kernel.

(** ** Routines *)

(** An [unsigned long] has 32 bits. *)
Definition roundmb (x : Z) : Z := Z.land (u32 (7 + x)) (Z.lnot 7).
Definition truncmb (x : Z) : Z := Z.land (u32 x) (Z.lnot 7).

(** The error value of a routine that returns a pointer. *)
Definition PTRERR : Z := u32 SYSERR.

(** A [struct memblock *] is the address of the list head, or of a block in the
    heap: its [next] field, and the [length] word after it. *)
Inductive mref := Head | Blk (a : Z).

Definition get_next (r : mref) : kprog Z :=
  match r with Head => gets memlist_next | Blk a => ldw a end.
Definition set_next (r : mref) (v : Z) : kprog unit :=
  match r with Head => modify (set_memlist_next v) | Blk a => stw a v end.
Definition get_len (a : Z) : kprog Z := ldw (a + 4).
Definition set_len (a v : Z) : kprog unit := stw (a + 4) v.

(** More blocks than the heap has room for. *)
Definition mem_fuel (s : kst) : nat := S (Z.to_nat (memlist_length s / 8)).

(** The loop of [memget] from [prev] and [curr]. *)
Fixpoint memget_loop (fuel : nat) (nbytes : Z) (prev : mref) (curr : Z) : kprog Z :=
  match fuel with
  | O => diverge
  | S fuel =>
      if curr =? NULL then EXIT_KERNEL_CRITICAL_SECTION;; mret PTRERR else
      len ← get_len curr;
      if len =? nbytes then
        nx ← get_next (Blk curr);
        set_next prev nx;;
        ml ← gets memlist_length;
        modify (set_memlist_length (u32 (ml - nbytes)));;
        EXIT_KERNEL_CRITICAL_SECTION;;
        mret curr
      else if len >? nbytes then
        let leftover := u32 (curr + nbytes) in
        set_next prev leftover;;
        nx ← get_next (Blk curr);
        set_next (Blk leftover) nx;;
        len ← get_len curr;
        set_len leftover (u32 (len - nbytes));;
        ml ← gets memlist_length;
        modify (set_memlist_length (u32 (ml - nbytes)));;
        EXIT_KERNEL_CRITICAL_SECTION;;
        mret curr
      else
        nx ← get_next (Blk curr);
        memget_loop fuel nbytes (Blk curr) nx
  end.

Definition memget (nbytes : Z) : kprog Z :=
  let nbytes := u32 nbytes in
  if 0 =? nbytes then mret PTRERR else
  let nbytes := roundmb nbytes in
  ENTER_KERNEL_CRITICAL_SECTION;;
  fuel ← gets mem_fuel;
  curr ← gets memlist_next;
  memget_loop fuel nbytes Head curr.

(** The search of [memfree] for the place of [block]. *)
Fixpoint memfree_loop (fuel : nat) (block : Z) (prev : mref) (next : Z) : kprog (mref * Z) :=
  match fuel with
  | O => diverge
  | S fuel =>
      if negb (next =? NULL) && (next <? block) then
        nx ← get_next (Blk next);
        memfree_loop fuel block (Blk next) nx
      else mret (prev, next)
  end.

(** The block is linked in, or joined to the previous one; the address of the
    block it is now part of is returned. *)
Definition mem_attach (prev : mref) (block next nbytes top : Z) : kprog Z :=
  match prev with
  | Blk p =>
      if top =? block then
        len ← get_len p;
        set_len p (u32 (len + nbytes));;
        mret p
      else
        set_next (Blk block) next;;
        set_len block nbytes;;
        set_next prev block;;
        mret block
  | Head =>
      (* [top] is null here, and no block of the heap is at address zero *)
      (if top =? block then fault else mret tt);;
      set_next (Blk block) next;;
      set_len block nbytes;;
      set_next prev block;;
      mret block
  end.

(** The block is joined to the next one if they touch. *)
Definition mem_coalesce (block next : Z) : kprog unit :=
  len ← get_len block;
  if u32 (block + len) =? next then
    nlen ← get_len next;
    set_len block (u32 (len + nlen));;
    nnext ← get_next (Blk next);
    set_next (Blk block) nnext
  else mret tt.

Definition memfree (memptr nbytes : Z) : kprog Z :=
  let memptr := u32 memptr in
  let nbytes := u32 nbytes in
  lo ← gets memheap;
  hi ← gets maxaddr;
  if (0 =? nbytes) || (memptr <? lo) || (memptr >? hi) then mret SYSERR else
  let block := memptr in
  let nbytes := roundmb nbytes in
  ENTER_KERNEL_CRITICAL_SECTION;;
  fuel ← gets mem_fuel;
  next ← gets memlist_next;
  pn ← memfree_loop fuel block Head next;
  let '(prev, next) := pn in
  top ← (match prev with
         | Head => mret 0
         | Blk p => len ← get_len p; mret (u32 (p + len))
         end);
  if (top >? block) || (negb (next =? NULL) && (u32 (block + nbytes) >? next)) then
    EXIT_KERNEL_CRITICAL_SECTION;; mret SYSERR
  else
  ml ← gets memlist_length;
  modify (set_memlist_length (u32 (ml + nbytes)));;
  block ← mem_attach prev block next nbytes top;
  mem_coalesce block next;;
  EXIT_KERNEL_CRITICAL_SECTION;;
  mret OK.

(** The scan of [stkget] for the highest block that fits. *)
Fixpoint stkget_loop (fuel : nat) (nbytes : Z) (prev : mref) (next : Z)
    (fits : Z) (fitsprev : mref) : kprog (Z * mref) :=
  match fuel with
  | O => diverge
  | S fuel =>
      if next =? NULL then mret (fits, fitsprev) else
      len ← get_len next;
      nx ← get_next (Blk next);
      if len >=? nbytes
      then stkget_loop fuel nbytes (Blk next) nx next prev
      else stkget_loop fuel nbytes (Blk next) nx fits fitsprev
  end.

Definition stkget (nbytes : Z) : kprog Z :=
  let nbytes := u32 nbytes in
  if 0 =? nbytes then mret PTRERR else
  let nbytes := roundmb nbytes in
  ENTER_KERNEL_CRITICAL_SECTION;;
  fuel ← gets mem_fuel;
  next ← gets memlist_next;
  r ← stkget_loop fuel nbytes Head next NULL Head;
  let '(fits, fitsprev) := r in
  if NULL =? fits then EXIT_KERNEL_CRITICAL_SECTION;; mret PTRERR else
  len ← get_len fits;
  fits ← (if nbytes =? len then
            nx ← get_next (Blk fits);
            set_next fitsprev nx;;
            mret fits
          else
            set_len fits (u32 (len - nbytes));;
            len ← get_len fits;
            mret (u32 (fits + len)));
  ml ← gets memlist_length;
  modify (set_memlist_length (u32 (ml - nbytes)));;
  EXIT_KERNEL_CRITICAL_SECTION;;
  mret (u32 (fits + nbytes - 4)).

Definition stkfree (p len : Z) : kprog Z :=
  memfree (u32 (p - roundmb len + 4)) (roundmb len).

(** lib/libxc/malloc.c, free.c: two words of accounting before the block. *)
Definition malloc (size : Z) : kprog Z :=
  let size := u32 size in
  if 0 =? size then mret NULL else
  let size := u32 (size + 8) in
  pmem ← memget size;
  if PTRERR =? pmem then mret NULL else
  set_next (Blk pmem) pmem;;
  set_len pmem size;;
  mret (u32 (pmem + 8)).

Definition free (ptr : Z) : kprog unit :=
  let block := u32 (u32 ptr - 8) in
  nx ← get_next (Blk block);
  if negb (nx =? block) then mret tt else
  len ← get_len block;
  memfree block len;;
  mret tt.

(** ** The free list as a list of blocks *)

(** A block: its address and its length in bytes. *)
Abbreviation blk := (Z * Z)%type.

(** First fit. *)
Fixpoint getm (n : Z) (bl : list blk) : option (Z * list blk) :=
  match bl with
  | [] => None
  | (a, l) :: r =>
      if l =? n then Some (a, r)
      else if l >? n then Some (a, (a + n, l - n) :: r)
      else match getm n r with
           | Some (x, r') => Some (x, (a, l) :: r')
           | None => None
           end
  end.

(** The top of the highest block that fits. *)
Fixpoint stkm (n : Z) (bl : list blk) : option (Z * list blk) :=
  match bl with
  | [] => None
  | (a, l) :: r =>
      match stkm n r with
      | Some (x, r') => Some (x, (a, l) :: r')
      | None =>
          if l >=? n then
            if n =? l then Some (a, r) else Some (a + (l - n), (a, l - n) :: r)
          else None
      end
  end.

(** A block joins the one that follows if they touch. *)
Definition join (a n : Z) (r : list blk) : list blk :=
  match r with
  | (c, k) :: r' => if a + n =? c then (a, n + k) :: r' else (a, n) :: r
  | [] => [(a, n)]
  end.

Definition overlaps (a n : Z) (r : list blk) : bool :=
  match r with (c, _) :: _ => a + n >? c | [] => false end.

(** The blocks below [x], and the others. *)
Fixpoint below (x : Z) (bl : list blk) : list blk :=
  match bl with
  | (a, l) :: r => if a <? x then (a, l) :: below x r else []
  | [] => []
  end.

Fixpoint above (x : Z) (bl : list blk) : list blk :=
  match bl with
  | (a, l) :: r => if a <? x then above x r else bl
  | [] => []
  end.

(** Give a block back: refused when it overlaps a neighbour, joined to the
    neighbours it touches. *)
Definition putm (a n : Z) (bl : list blk) : option (list blk) :=
  let lo := below a bl in
  let hi := above a bl in
  if overlaps a n hi then None else
  match last lo with
  | Some (b, l) =>
      if b + l >? a then None
      else if b + l =? a then Some (removelast lo ++ join b (l + n) hi)
      else Some (lo ++ join a n hi)
  | None => Some (join a n hi)
  end.

(** Blocks in address order, aligned, not empty, with room between them. *)
Fixpoint fwf (lo hi : Z) (bl : list blk) : Prop :=
  match bl with
  | [] => True
  | (a, l) :: r =>
      lo <= a /\ a mod 8 = 0 /\ l mod 8 = 0 /\ 0 < l /\ a + l <= hi /\ fwf (a + l + 1) hi r
  end.

Definition total (bl : list blk) : Z := foldr (fun p t => p.2 + t) 0 bl.

(** Byte [x] is free. *)
Definition isfree (bl : list blk) (x : Z) : Prop :=
  exists a l, (a, l) ∈ bl /\ a <= x < a + l.

(** The blocks [bl] are linked in memory from the pointer [p] to the pointer [q]. *)
Fixpoint seg (m : gmap Z Z) (p : Z) (bl : list blk) (q : Z) : Prop :=
  match bl with
  | [] => p = q
  | (a, l) :: r => p = a /\ m !! (a + 4) = Some l /\ exists nx, m !! a = Some nx /\ seg m nx r q
  end.

Record minv (s : kst) (bl : list blk) : Prop := {
  mi_seg : seg (mem s) (memlist_next s) bl NULL;
  mi_wf : fwf (memheap s) (maxaddr s) bl;
  mi_len : memlist_length s = total bl;
  mi_lo : 0 < memheap s;
  mi_hi : memheap s <= maxaddr s < 2 ^ 32;
  mi_map : forall w, memheap s <= w < maxaddr s -> w mod 4 = 0 -> is_Some (mem s !! w)
}.

(** *** Lists of blocks *)

Lemma fwf_weaken lo lo' hi bl : fwf lo hi bl -> lo' <= lo -> fwf lo' hi bl.
Proof. destruct bl as [|[a l] r]; [done |]. cbn. intuition lia. Qed.

Lemma fwf_app lo hi l1 l2 :
  fwf lo hi (l1 ++ l2) <->
  fwf lo hi l1 /\ fwf (match last l1 with Some (b, l) => b + l + 1 | None => lo end) hi l2.
Proof.
  revert lo. induction l1 as [|[a l] r IH]; intros lo; [cbn; tauto |].
  cbn [app fwf]. rewrite IH. rewrite last_cons. destruct (last r) as [[b k]|]; tauto.
Qed.

Lemma fwf_bounds lo hi bl : fwf lo hi bl ->
  forall a l, (a, l) ∈ bl -> lo <= a /\ a mod 8 = 0 /\ l mod 8 = 0 /\ 0 < l /\ a + l <= hi.
Proof.
  revert lo. induction bl as [|[b k] r IH]; intros lo Hwf a l Hin; [by apply elem_of_nil in Hin |].
  cbn in Hwf. apply elem_of_cons in Hin as [[= -> ->] | Hin]; [intuition lia |].
  destruct Hwf as (H1 & H2 & H3 & H4 & H5 & H6). specialize (IH _ H6 a l Hin). intuition lia.
Qed.

Lemma total_app l1 l2 : total (l1 ++ l2) = total l1 + total l2.
Proof. induction l1 as [|p l IH]; cbn; [done |]. unfold total in *. lia. Qed.

Lemma total_bounds bl : forall lo hi, fwf lo hi bl -> lo <= hi ->
  8 * Z.of_nat (length bl) <= total bl /\ total bl <= hi - lo.
Proof.
  induction bl as [|[a l] r IH]; intros lo hi Hwf Hle; cbn [length total foldr snd]; [cbn; lia |].
  cbn in Hwf. destruct Hwf as (H1 & H2 & H3 & H4 & H5 & H6).
  assert (8 <= l) by (destruct (Z.lt_ge_cases l 8); [rewrite Z.mod_small in H3; lia | done]).
  destruct r as [|[b k] r'].
  - cbn. lia.
  - assert (a + l + 1 <= hi) by (cbn in H6; lia).
    specialize (IH _ _ H6 ltac:(lia)). unfold total in *. lia.
Qed.

Lemma isfree_nil x : isfree [] x <-> False.
Proof. split; [| done]. intros (a & l & Hin & _). by apply elem_of_nil in Hin. Qed.

Lemma isfree_cons a l r x : isfree ((a, l) :: r) x <-> a <= x < a + l \/ isfree r x.
Proof.
  split.
  - intros (b & k & Hin & Hx). apply elem_of_cons in Hin as [[= -> ->] | Hin]; [by left | right].
    by exists b, k.
  - intros [Hx | (b & k & Hin & Hx)]; [exists a, l | exists b, k]; rewrite elem_of_cons; auto.
Qed.

Lemma isfree_app l1 l2 x : isfree (l1 ++ l2) x <-> isfree l1 x \/ isfree l2 x.
Proof.
  induction l1 as [|[a l] r IH]; cbn [app]; [rewrite isfree_nil; tauto |].
  rewrite !isfree_cons, IH. tauto.
Qed.

Lemma isfree_bounds lo hi bl x : fwf lo hi bl -> isfree bl x -> lo <= x < hi.
Proof. intros Hwf (a & l & Hin & Hx). pose proof (fwf_bounds _ _ _ Hwf a l Hin). lia. Qed.

Lemma below_above x bl : below x bl ++ above x bl = bl.
Proof. induction bl as [|[a l] r IH]; cbn; [done |]. destruct (a <? x); cbn; by rewrite ?IH. Qed.

Lemma below_split x l1 l2 :
  (forall a l, (a, l) ∈ l1 -> a < x) -> (forall a l r, l2 = (a, l) :: r -> x <= a) ->
  below x (l1 ++ l2) = l1 /\ above x (l1 ++ l2) = l2.
Proof.
  intros H1 H2. induction l1 as [|[a l] r IH]; cbn [app below above].
  - destruct l2 as [|[b k] r]; [done |]. cbn.
    rewrite (proj2 (Z.ltb_ge b x)) by (by apply (H2 b k r)). done.
  - rewrite (proj2 (Z.ltb_lt a x)) by (apply (H1 a l), elem_of_cons; by left).
    destruct IH as [-> ->]; [| done]. intros b k Hin. apply (H1 b k), elem_of_cons. by right.
Qed.

Lemma below_lt x bl a l : (a, l) ∈ below x bl -> a < x.
Proof.
  induction bl as [|[b k] r IH]; cbn; [by intros ?%elem_of_nil |].
  destruct (Z.ltb_spec b x); [| by intros ?%elem_of_nil].
  intros [[= -> ->] | Hin]%elem_of_cons; auto.
Qed.

Lemma above_ge x bl a l r : above x bl = (a, l) :: r -> x <= a.
Proof.
  induction bl as [|[b k] r' IH]; cbn; [done |]. destruct (Z.ltb_spec b x); [done |]. by intros [= -> -> ->].
Qed.

(** Where [getm] and [stkm] cut. *)
Lemma getm_cut n bl x bl' :
  getm n bl = Some (x, bl') ->
  exists l1 l l2, bl = l1 ++ (x, l) :: l2 /\ n <= l /\
    bl' = l1 ++ (if l =? n then l2 else (x + n, l - n) :: l2).
Proof.
  revert bl'. induction bl as [|[a l] r IH]; intros bl' H; [done |]. cbn in H.
  destruct (Z.eqb_spec l n) as [-> | Hne].
  { injection H as <- <-. exists [], n, r. rewrite Z.eqb_refl. split_and!; [done | lia | done]. }
  destruct (Z.gtb_spec l n) as [Hgt | Hle].
  { injection H as <- <-. exists [], l, r. rewrite (proj2 (Z.eqb_neq l n)) by done. split_and!; [done | lia | done]. }
  destruct (getm n r) as [[y r']|]; [| done]. injection H as <- <-.
  destruct (IH r' eq_refl) as (l1 & k & l2 & -> & Hk & ->).
  exists ((a, l) :: l1), k, l2. by split_and!.
Qed.

Lemma getm_none n bl : getm n bl = None -> forall a l, (a, l) ∈ bl -> l < n.
Proof.
  induction bl as [|[b k] r IH]; intros H a l Hin; [by apply elem_of_nil in Hin |]. cbn in H.
  destruct (Z.eqb_spec k n); [done |]. destruct (Z.gtb_spec k n); [done |].
  apply elem_of_cons in Hin as [[= -> ->] | Hin]; [lia |].
  destruct (getm n r) as [[]|]; [done | by apply (IH eq_refl a)].
Qed.

Lemma stkm_none n bl : stkm n bl = None -> forall a l, (a, l) ∈ bl -> l < n.
Proof.
  induction bl as [|[b k] r IH]; intros H a l Hin; [by apply elem_of_nil in Hin |]. cbn in H.
  destruct (stkm n r) as [[]|]; [done |]. destruct (Z.geb_spec k n); [by destruct (n =? k) |].
  apply elem_of_cons in Hin as [[= -> ->] | Hin]; [lia | by apply (IH eq_refl a)].
Qed.

Lemma stkm_cut n bl x bl' :
  stkm n bl = Some (x, bl') ->
  exists l1 a l l2, bl = l1 ++ (a, l) :: l2 /\ n <= l /\ x = a + (l - n) /\
    (forall b k, (b, k) ∈ l2 -> k < n) /\
    bl' = l1 ++ (if n =? l then l2 else (a, l - n) :: l2).
Proof.
  revert bl'. induction bl as [|[a l] r IH]; intros bl' H; [done |]. cbn in H.
  destruct (stkm n r) as [[y r']|] eqn:E.
  - injection H as <- <-. destruct (IH r' eq_refl) as (l1 & b & k & l2 & -> & Hk & -> & Hs & ->).
    exists ((a, l) :: l1), b, k, l2. by split_and!.
  - pose proof (stkm_none _ _ E) as Hs. destruct (Z.geb_spec l n) as [Hge | Hlt]; [| done].
    exists [], a, l, r. destruct (Z.eqb_spec n l) as [-> | Hne]; injection H as <- <-; split_and!; auto; lia.
Qed.

(** Taking a block apart keeps the list well formed. *)
Lemma fwf_cut lo hi l1 a l l2 :
  fwf lo hi (l1 ++ (a, l) :: l2) -> fwf lo hi (l1 ++ l2) /\
  forall b k, a <= b -> b mod 8 = 0 -> k mod 8 = 0 -> 0 < k -> b + k <= a + l ->
    fwf lo hi (l1 ++ (b, k) :: l2).
Proof.
  rewrite !fwf_app. cbn [fwf]. intros (H0 & H1 & H2 & H3 & H4 & H5 & H6). split.
  - split; [done |]. eapply fwf_weaken; [done | lia].
  - intros b k Hb Hb8 Hk8 Hk Hbk. rewrite fwf_app. split; [done |]. cbn [fwf].
    split_and!; try done; try lia. eapply fwf_weaken; [done | lia].
Qed.

Lemma fwf_last lo hi l1 b l r :
  fwf lo hi (l1 ++ (b, l) :: r) -> forall a k, (a, k) ∈ l1 -> a + k < b.
Proof.
  revert lo. induction l1 as [|[c j] l1 IH]; intros lo Hwf a k Hin; [by apply elem_of_nil in Hin |].
  cbn [app fwf] in Hwf. destruct Hwf as (_ & _ & _ & _ & _ & Hwf).
  apply elem_of_cons in Hin as [[= -> ->] | Hin]; [| by eapply IH].
  pose proof (fwf_bounds _ _ _ Hwf b l (elem_of_mid _ _ _)). lia.
Qed.

Lemma fwf_after lo hi l1 b l r :
  fwf lo hi (l1 ++ (b, l) :: r) -> forall a k, (a, k) ∈ r -> b + l < a.
Proof.
  rewrite fwf_app. cbn [fwf]. intros (_ & _ & _ & _ & _ & _ & Hwf) a k Hin.
  pose proof (fwf_bounds _ _ _ Hwf a k Hin). lia.
Qed.

(** What taking a block from the list does to the free bytes. *)
Lemma isfree_cut lo hi l1 a l l2 x :
  fwf lo hi (l1 ++ (a, l) :: l2) -> isfree (l1 ++ l2) x -> x < a \/ a + l <= x.
Proof.
  intros Hwf. rewrite isfree_app. intros [(b & k & Hin & Hx) | (b & k & Hin & Hx)].
  - pose proof (fwf_last _ _ _ _ _ _ Hwf b k Hin). lia.
  - pose proof (fwf_after _ _ _ _ _ _ Hwf b k Hin). lia.
Qed.

(** A block of [n] bytes at [x] has been taken from the free list. *)
Record taken (lo hi n x : Z) (bl bl' : list blk) : Prop := {
  tk_wf : fwf lo hi bl';
  tk_total : total bl' = total bl - n;
  tk_align : x mod 8 = 0;
  tk_in : lo <= x /\ x + n <= hi;
  tk_free : forall y, isfree bl y <-> isfree bl' y \/ x <= y < x + n;
  tk_gone : forall y, isfree bl' y -> y < x \/ x + n <= y;
  tk_back : putm x n bl' = Some bl
}.

Lemma last_lt lo hi l1 a l l2 b k :
  fwf lo hi (l1 ++ (a, l) :: l2) -> last l1 = Some (b, k) -> b + k < a.
Proof. intros Hwf Hl. eapply fwf_last; [done |]. by apply last_Some_elem_of in Hl. Qed.

(** Below every block that is left. *)
Lemma putm_apart lo hi l1 a l l2 n hi' :
  fwf lo hi (l1 ++ (a, l) :: l2) -> (forall c k r, hi' = (c, k) :: r -> a <= c) ->
  overlaps a n hi' = false -> putm a n (l1 ++ hi') = Some (l1 ++ join a n hi').
Proof.
  intros Hwf Hhi Hov. unfold putm.
  destruct (below_split a l1 hi') as [-> ->]; [| done |].
  { intros b k Hin. pose proof (fwf_last _ _ _ _ _ _ Hwf b k Hin).
    apply fwf_app in Hwf as [Hwf _]. pose proof (fwf_bounds _ _ _ Hwf b k Hin). lia. }
  rewrite Hov. destruct (last l1) as [[b k]|] eqn:Hl.
  - pose proof (last_lt _ _ _ _ _ _ _ _ Hwf Hl).
    rewrite Z.gtb_ltb, (proj2 (Z.ltb_ge _ _)) by lia.
    by rewrite (proj2 (Z.eqb_neq _ _)) by lia.
  - by apply last_None in Hl as ->.
Qed.

Lemma taken_whole lo hi l1 a l l2 :
  fwf lo hi (l1 ++ (a, l) :: l2) -> taken lo hi l a (l1 ++ (a, l) :: l2) (l1 ++ l2).
Proof.
  intros Hwf. pose proof (fwf_bounds _ _ _ Hwf a l (elem_of_mid _ _ _)) as Hb. constructor.
  - by apply (fwf_cut _ _ _ a l).
  - rewrite !total_app. cbn. unfold total. lia.
  - apply Hb.
  - lia.
  - intros y. rewrite !isfree_app, isfree_cons. tauto.
  - intros y Hy. by eapply isfree_cut in Hy.
  - pose proof (fwf_after _ _ _ _ _ _ Hwf) as Haft.
    rewrite (putm_apart _ _ _ _ _ _ _ _ Hwf).
    + destruct l2 as [|[c k] r]; [done |]. cbn.
      specialize (Haft c k ltac:(apply elem_of_cons; by left)).
      by rewrite (proj2 (Z.eqb_neq _ _)) by lia.
    + intros c k r ->. specialize (Haft c k ltac:(apply elem_of_cons; by left)). lia.
    + destruct l2 as [|[c k] r]; [done |]. cbn.
      specialize (Haft c k ltac:(apply elem_of_cons; by left)).
      rewrite Z.gtb_ltb. apply Z.ltb_ge. lia.
Qed.

Lemma taken_bottom lo hi l1 a l l2 n :
  fwf lo hi (l1 ++ (a, l) :: l2) -> n mod 8 = 0 -> 0 < n < l ->
  taken lo hi n a (l1 ++ (a, l) :: l2) (l1 ++ (a + n, l - n) :: l2).
Proof.
  intros Hwf Hn8 Hn. pose proof (fwf_bounds _ _ _ Hwf a l (elem_of_mid _ _ _)) as Hb. constructor.
  - apply (fwf_cut _ _ _ a l); try done; lia.
  - rewrite !total_app. cbn. unfold total. lia.
  - apply Hb.
  - lia.
  - intros y. rewrite !isfree_app, !isfree_cons. assert (a <= y < a + l <-> a + n <= y < a + n + (l - n) \/ a <= y < a + n) by lia.
    tauto.
  - intros y Hy. assert (Hy' : isfree (l1 ++ l2) y \/ a + n <= y).
    { rewrite isfree_app, isfree_cons in Hy. rewrite isfree_app. destruct Hy as [? | [? | ?]]; auto. right. lia. }
    destruct Hy' as [Hy' | ?]; [| by right]. eapply isfree_cut in Hy'; [| done]. lia.
  - rewrite (putm_apart _ _ _ _ _ _ _ _ Hwf).
    + cbn. rewrite Z.eqb_refl. by replace (n + (l - n)) with l by lia.
    + intros c k r [= <- <- <-]. lia.
    + cbn. rewrite Z.gtb_ltb. apply Z.ltb_ge. lia.
Qed.

Lemma taken_top lo hi l1 a l l2 n :
  fwf lo hi (l1 ++ (a, l) :: l2) -> n mod 8 = 0 -> 0 < n < l ->
  taken lo hi n (a + (l - n)) (l1 ++ (a, l) :: l2) (l1 ++ (a, l - n) :: l2).
Proof.
  intros Hwf Hn8 Hn. pose proof (fwf_bounds _ _ _ Hwf a l (elem_of_mid _ _ _)) as Hb.
  pose proof (fwf_after _ _ _ _ _ _ Hwf) as Haft. constructor.
  - apply (fwf_cut _ _ _ a l); try done; lia.
  - rewrite !total_app. cbn. unfold total. lia.
  - lia.
  - lia.
  - intros y. rewrite !isfree_app, !isfree_cons.
    assert (a <= y < a + l <-> a <= y < a + (l - n) \/ a + (l - n) <= y < a + (l - n) + n) by lia. tauto.
  - intros y Hy. assert (Hy' : isfree (l1 ++ l2) y \/ y < a + (l - n)).
    { rewrite isfree_app, isfree_cons in Hy. rewrite isfree_app. destruct Hy as [? | [? | ?]]; auto. right. lia. }
    destruct Hy' as [Hy' | ?]; [| by left]. eapply isfree_cut in Hy'; [| done]. lia.
  - unfold putm. change (l1 ++ (a, l - n) :: l2) with (l1 ++ [(a, l - n)] ++ l2). rewrite app_assoc.
    destruct (below_split (a + (l - n)) (l1 ++ [(a, l - n)]) l2) as [-> ->].
    { intros b k [Hin | Hin]%elem_of_app.
      - pose proof (fwf_last _ _ _ _ _ _ Hwf b k Hin). apply fwf_app in Hwf as [Hwf _].
        pose proof (fwf_bounds _ _ _ Hwf b k Hin). lia.
      - apply list_elem_of_singleton in Hin as [= -> ->]. lia. }
    { intros c k r ->. specialize (Haft c k ltac:(apply elem_of_cons; by left)). lia. }
    rewrite last_snoc. replace (overlaps (a + (l - n)) n l2) with false.
    2:{ destruct l2 as [|[c k] r]; [done |]. cbn.
        specialize (Haft c k ltac:(apply elem_of_cons; by left)).
        rewrite Z.gtb_ltb. symmetry. apply Z.ltb_ge. lia. }
    rewrite Z.gtb_ltb, (proj2 (Z.ltb_ge _ _)), Z.eqb_refl by lia. f_equal.
    rewrite removelast_last. f_equal. replace (l - n + n) with l by lia.
    destruct l2 as [|[c k] r]; [done |]. cbn.
    specialize (Haft c k ltac:(apply elem_of_cons; by left)). by rewrite (proj2 (Z.eqb_neq _ _)) by lia.
Qed.

Lemma getm_taken lo hi n bl x bl' :
  fwf lo hi bl -> n mod 8 = 0 -> 0 < n -> getm n bl = Some (x, bl') -> taken lo hi n x bl bl'.
Proof.
  intros Hwf Hn8 Hn Hg. destruct (getm_cut _ _ _ _ Hg) as (l1 & l & l2 & -> & Hle & ->).
  destruct (Z.eqb_spec l n) as [-> | Hne]; [by apply taken_whole |]. apply taken_bottom; try done. lia.
Qed.

Lemma stkm_taken lo hi n bl x bl' :
  fwf lo hi bl -> n mod 8 = 0 -> 0 < n -> stkm n bl = Some (x, bl') -> taken lo hi n x bl bl'.
Proof.
  intros Hwf Hn8 Hn Hg. destruct (stkm_cut _ _ _ _ Hg) as (l1 & a & l & l2 & -> & Hle & -> & _ & ->).
  destruct (Z.eqb_spec n l) as [-> | Hne].
  - replace (a + (l - l)) with a by lia. by apply taken_whole.
  - apply taken_top; try done. lia.
Qed.

(** ** The list in memory *)

(** The block the search has just passed. *)
Definition lastref (l1 : list blk) : mref :=
  match last l1 with Some (b, _) => Blk b | None => Head end.

(** The state after [prev->next = v]. *)
Definition setref (r : mref) (v : Z) (s : kst) : kst :=
  match r with
  | Head => set_memlist_next v s
  | Blk a => set_mem (<[a := v]> (mem s)) s
  end.

Lemma seg_app m p l1 l2 q : seg m p (l1 ++ l2) q <-> exists x, seg m p l1 x /\ seg m x l2 q.
Proof.
  revert p. induction l1 as [|[a l] r IH]; intros p; cbn.
  - split; [eauto | by intros (x & -> & H)].
  - setoid_rewrite IH. naive_solver.
Qed.

Lemma seg_frame m m' p bl q :
  (forall a l, (a, l) ∈ bl -> m' !! a = m !! a /\ m' !! (a + 4) = m !! (a + 4)) ->
  seg m p bl q -> seg m' p bl q.
Proof.
  revert p. induction bl as [|[a l] r IH]; intros p H; [done |]. cbn.
  destruct (H a l ltac:(apply elem_of_cons; by left)) as [-> ->].
  intros (-> & Hl & nx & Hnx & Hs). split_and!; try done. exists nx. split; [done |].
  apply IH; [| done]. intros b k Hb. apply (H b k), elem_of_cons. by right.
Qed.

Lemma seg_snoc m p l a n q :
  seg m p (l ++ [(a, n)]) q <-> seg m p l a /\ m !! (a + 4) = Some n /\ m !! a = Some q.
Proof. rewrite seg_app. cbn. naive_solver. Qed.

(** Cells of different blocks are different. *)
Lemma cells_apart lo hi l1 a l l2 b k :
  fwf lo hi (l1 ++ (a, l) :: l2) -> (b, k) ∈ l1 ++ l2 ->
  b <> a /\ b + 4 <> a /\ b <> a + 4 /\ b + 4 <> a + 4.
Proof.
  intros Hwf Hin. pose proof (fwf_bounds _ _ _ Hwf a l (elem_of_mid _ _ _)) as Ha.
  assert (Hb : (b, k) ∈ l1 ++ (a, l) :: l2).
  { apply elem_of_app in Hin as [Hin | Hin]; apply elem_of_app; [by left | right; apply elem_of_cons; by right]. }
  pose proof (fwf_bounds _ _ _ Hwf b k Hb) as Hbb.
  assert (a <> b).
  { apply elem_of_app in Hin as [Hin | Hin].
    - pose proof (fwf_last _ _ _ _ _ _ Hwf b k Hin). lia.
    - pose proof (fwf_after _ _ _ _ _ _ Hwf b k Hin). lia. }
  lia.
Qed.

(** The last block of [l1] gets a new successor. *)
Lemma seg_setref lo hi s l1 q v :
  fwf lo hi l1 -> seg (mem s) (memlist_next s) l1 q ->
  let s' := setref (lastref l1) v s in
  run (set_next (lastref l1) v) s = Done tt s' /\
  seg (mem s') (memlist_next s') l1 v /\
  (forall w, ~ isfree l1 w -> mem s' !! w = mem s !! w) /\
  (exists m p, s' = set_mem m (set_memlist_next p s)) /\
  (forall w, is_Some (mem s' !! w) <-> is_Some (mem s !! w)).
Proof.
  intros Hwf Hs s'. unfold lastref in *. destruct l1 as [|[a n] l _] using rev_ind; cbn in *.
  - split_and!; try done. exists (mem s), v. by destruct s.
  - unfold s'. rewrite last_snoc in *. apply seg_snoc in Hs as (Hs & Hn & Ha). cbn. split_and!.
    + by erewrite run_stw.
    + ksimpl. apply seg_snoc. split_and!.
      * eapply seg_frame; [| done]. intros b k Hb.
        destruct (cells_apart lo hi l a n [] b k Hwf) as (H1 & H2 & _); [by rewrite app_nil_r |].
        by rewrite !lookup_insert_ne by congruence.
      * by rewrite lookup_insert_ne by lia.
      * apply lookup_insert_eq.
    + intros w Hw. ksimpl. apply lookup_insert_ne. intros ->. apply Hw.
      rewrite isfree_app, isfree_cons. right; left.
      pose proof (fwf_bounds _ _ _ Hwf w n ltac:(auto with xinu)). lia.
    + eexists _, (memlist_next s). by destruct s.
    + intros w. ksimpl. by rewrite (insert_same_dom _ _ _ _ _ Ha).
Qed.

Lemma minv_crit s bl : minv (crit_in s) bl <-> minv s bl.
Proof. split; intros []; by constructor. Qed.

Lemma minv_crit_out s bl : minv (crit_out s) bl <-> minv s bl.
Proof. split; intros []; by constructor. Qed.

(** What the allocator changes. *)
Definition mem_frame (s s' : kst) : Prop :=
  exists m p n, s' = set_mem m (set_memlist_next p (set_memlist_length n s)).

(** The loop stops at the first block that fits. *)
Section Get.
Context (n : Z).
Hypothesis Hn : 0 < n.
Hypothesis Hn8 : n mod 8 = 0.

Lemma memget_stop s l1 x l l2 :
  minv s (l1 ++ (x, l) :: l2) -> inCrit s = true -> n <= l ->
  let bl' := l1 ++ (if l =? n then l2 else (x + n, l - n) :: l2) in
  forall fuel, exists s', run (memget_loop (S fuel) n (lastref l1) x) s = Done x (crit_out s') /\
    minv s' bl' /\ mem_frame s s' /\
    (forall w, ~ isfree (l1 ++ (x, l) :: l2) w -> mem s' !! w = mem s !! w).
Proof.
  intros [Hseg Hwf Hlen Hlo Hhi Hmap] Hcrit Hle bl' fuel.
  assert (Htk : taken (memheap s) (maxaddr s) n x (l1 ++ (x, l) :: l2) bl').
  { unfold bl'. destruct (Z.eqb_spec l n) as [-> | Hne]; [by apply taken_whole |].
    apply taken_bottom; [done | done | lia]. }
  pose proof (fwf_bounds _ _ _ Hwf x l (elem_of_mid _ _ _)) as Hx.
  apply seg_app in Hseg as (p & Hs1 & -> & Hl & nx & Hnx & Hs2).
  pose proof (proj1 (proj1 (fwf_app _ _ _ _) Hwf)) as Hwf1.
  assert (Hcell : forall w, x <= w < x + l -> ~ isfree l1 w).
  { intros w Hw (b & k & Hin & Hb). pose proof (fwf_last _ _ _ _ _ _ Hwf b k Hin). lia. }
  pose proof (total_bounds _ _ _ Hwf ltac:(lia)) as Htot.
  assert (Hml : u32 (memlist_length s - n) = total bl').
  { rewrite (tk_total _ _ _ _ _ _ Htk), Hlen. apply u32_small.
    pose proof (total_bounds _ _ _ (tk_wf _ _ _ _ _ _ Htk) ltac:(lia)).
    rewrite (tk_total _ _ _ _ _ _ Htk) in *. lia. }
  cbn [memget_loop]. rewrite (proj2 (Z.eqb_neq x NULL)) by (unfold NULL; lia).
  unfold get_len. cbn [get_next]. prun. unfold bl' in *. destruct (Z.eqb_spec l n) as [-> | Hne].
  - prun. destruct (seg_setref _ _ s l1 x nx Hwf1 Hs1) as (-> & Hs1' & Hfr & (m & q & E) & Hdom).
    set (s1 := setref _ _ _) in *. cbn [obind].
    exists (set_memlist_length (u32 (memlist_length s1 - n)) s1). split_and!.
    + assert (inCrit s1 = true) by (by rewrite E). by prun.
    + rewrite E in *. ksimpl. constructor; ksimpl; try done.
      * apply seg_app. exists nx. split; [done |].
        eapply seg_frame; [| done]. intros b k Hb. cbn in Hfr.
        pose proof (fwf_after _ _ _ _ _ _ Hwf b k Hb).
        pose proof (fwf_bounds _ _ _ Hwf b k ltac:(apply elem_of_app; right; apply elem_of_cons; by right)).
        split; apply Hfr; intros (c & j & Hin & Hc); pose proof (fwf_last _ _ _ _ _ _ Hwf c j Hin); lia.
      * apply (tk_wf _ _ _ _ _ _ Htk).
      * intros w Hw Hw4. apply Hdom. by apply Hmap.
    + rewrite E. eexists _, _, _. kst_eq.
    + intros w Hw. cbn. apply Hfr. intros Hf. apply Hw. rewrite isfree_app. by left.
  - rewrite Z.gtb_ltb, (proj2 (Z.ltb_lt n l)), (u32_small (x + n)) by lia. prun1.
    destruct (seg_setref _ _ s l1 x (x + n) Hwf1 Hs1) as (-> & Hs1' & Hfr & (m & q & E) & Hdom).
    set (s1 := setref _ _ _) in *. cbn [obind].
    assert (Hx1 : mem s1 !! x = Some nx) by (rewrite Hfr; [done | apply Hcell; lia]).
    assert (Hl1 : mem s1 !! (x + 4) = Some l) by (rewrite Hfr; [done | apply Hcell; lia]).
    destruct (proj2 (Hdom (x + n))) as [v1 Hv1]; [apply Hmap; lia |].
    destruct (proj2 (Hdom (x + n + 4))) as [v2 Hv2]; [apply Hmap; lia |].
    unfold set_len, set_next. assert (Hcrit1 : inCrit s1 = true) by (by rewrite E). prun.
    rewrite (u32_small (l - n)) by lia. eexists. split; [reflexivity |]. split_and!.
    + rewrite E in *. constructor; ksimpl; try done.
      * apply seg_app. exists (x + n). ksimpl. split.
        -- eapply seg_frame; [| done]. intros b k Hb. ksimpl.
           pose proof (fwf_last _ _ _ _ _ _ Hwf b k Hb).
           pose proof (fwf_bounds _ _ _ Hwf1 b k Hb). by rewrite !lookup_insert_ne by lia.
        -- cbn. split; [done |]. split; [apply lookup_insert_eq |]. exists nx.
           rewrite lookup_insert_ne, lookup_insert_eq by lia. split; [done |].
           eapply seg_frame; [| done]. intros b k Hb.
           pose proof (fwf_after _ _ _ _ _ _ Hwf b k Hb) as Hbx.
           pose proof (fwf_bounds _ _ _ Hwf b k ltac:(apply elem_of_app; right; apply elem_of_cons; by right)).
           rewrite !lookup_insert_ne by lia.
           split; apply Hfr; intros (c & j & Hin & Hc); pose proof (fwf_last _ _ _ _ _ _ Hwf c j Hin); lia.
      * apply (tk_wf _ _ _ _ _ _ Htk).
      * intros w Hw Hw4. rewrite !lookup_insert_is_Some'. do 2 right. apply Hdom. by apply Hmap.
    + rewrite E. eexists _, _, _. kst_eq.
    + intros w Hw. ksimpl. rewrite isfree_app, isfree_cons in Hw.
      rewrite !lookup_insert_ne by (intros E0; apply Hw; right; left; lia).
      apply Hfr. tauto.
Qed.

Lemma memget_loop_spec l2 : forall l1 s p fuel,
  minv s (l1 ++ l2) -> inCrit s = true -> seg (mem s) p l2 NULL -> (length l2 < fuel)%nat ->
  match getm n l2 with
  | Some (x, l2') => exists s', run (memget_loop fuel n (lastref l1) p) s = Done x (crit_out s') /\
      minv s' (l1 ++ l2') /\ mem_frame s s' /\
      (forall w, ~ isfree (l1 ++ l2) w -> mem s' !! w = mem s !! w)
  | None => run (memget_loop fuel n (lastref l1) p) s = Done PTRERR (crit_out s)
  end.
Proof.
  induction l2 as [|[a l] r IH]; intros l1 s p fuel HM Hcrit Hp Hfuel;
    (destruct fuel as [|fuel]; [cbn in Hfuel; lia |]).
  - cbn in Hp. subst p. cbn [getm memget_loop]. rewrite Z.eqb_refl. by prun.
  - destruct Hp as (-> & Hl & nx & Hnx & Hs). cbn [getm].
    pose proof (memget_stop s l1 a l r HM Hcrit) as Hstop. cbn beta zeta in Hstop.
    destruct (Z.eqb_spec l n) as [-> | Hne]; [by apply Hstop |].
    destruct (Z.gtb_spec l n) as [Hgt | Hle]; [by apply Hstop; lia |].
    assert (Hgo : run (memget_loop (S fuel) n (lastref l1) a) s = run (memget_loop fuel n (lastref (l1 ++ [(a, l)])) nx) s).
    { cbn [memget_loop]. pose proof (fwf_bounds _ _ _ (mi_wf _ _ HM) a l (elem_of_mid _ _ _)).
      pose proof (mi_lo _ _ HM). rewrite (proj2 (Z.eqb_neq a NULL)) by (unfold NULL; lia).
      unfold get_len. cbn [get_next]. prun. rewrite (proj2 (Z.eqb_neq l n)) by done.
      rewrite Z.gtb_ltb, (proj2 (Z.ltb_ge n l)) by lia. unfold lastref. rewrite last_snoc. by prun. }
    rewrite Hgo. specialize (IH (l1 ++ [(a, l)]) s nx fuel). rewrite <- app_assoc in IH.
    specialize (IH HM Hcrit Hs ltac:(cbn in Hfuel; lia)).
    destruct (getm n r) as [[x r']|]; [| done].
    destruct IH as (s' & Hrun & HM' & Hf & Hw). rewrite <- app_assoc in HM'. by exists s'.
Qed.
End Get.

(** ** Rounding *)

Lemma land_lnot7 y : Z.land y (Z.lnot 7) = 8 * (y / 8).
Proof.
  rewrite <- Z.ldiff_land. change 7 with (Z.ones 3). rewrite Z.ldiff_ones_r by lia.
  rewrite Z.shiftl_mul_pow2, Z.shiftr_div_pow2 by lia. change (2 ^ 3) with 8. lia.
Qed.

(** Rounding up is right until the sum wraps around. *)
Lemma roundmb_spec x :
  0 < x <= 2 ^ 32 - 8 ->
  roundmb x mod 8 = 0 /\ x <= roundmb x < x + 8 /\ 0 < roundmb x < 2 ^ 32.
Proof.
  intros Hx. unfold roundmb. rewrite land_lnot7, u32_small by lia. lia.
Qed.

Lemma roundmb_id x : 0 <= x <= 2 ^ 32 - 8 -> x mod 8 = 0 -> roundmb x = x.
Proof. intros Hx H8. unfold roundmb. rewrite land_lnot7, u32_small by lia. lia. Qed.

Lemma fuel_enough s bl : minv s bl -> (length bl < mem_fuel s)%nat.
Proof.
  intros [_ Hwf Hlen _ Hhi _]. unfold mem_fuel. rewrite Hlen.
  pose proof (total_bounds _ _ _ Hwf ltac:(lia)) as [H _]. lia.
Qed.

(** ** [memget] *)

Lemma memget_spec s bl nbytes :
  minv s bl -> inCrit s = true -> 0 < nbytes <= 2 ^ 32 - 8 ->
  let n := roundmb nbytes in
  match getm n bl with
  | Some (x, bl') => exists s', run (memget nbytes) s = Done x (crit_out s') /\
      minv s' bl' /\ mem_frame (crit_in s) s' /\ taken (memheap s) (maxaddr s) n x bl bl' /\
      (forall w, ~ isfree bl w -> mem s' !! w = mem s !! w)
  | None => run (memget nbytes) s = Done PTRERR (crit_out (crit_in s)) /\
      forall a l, (a, l) ∈ bl -> l < n
  end.
Proof.
  intros HM Hcrit Hb n. destruct (roundmb_spec nbytes Hb) as (H8 & Hr & Hpos). fold n in H8, Hr, Hpos.
  pose proof (memget_loop_spec n ltac:(lia) H8 bl [] (crit_in s) (memlist_next s) (mem_fuel s)
    (proj2 (minv_crit s bl) HM) eq_refl (mi_seg _ _ HM) (fuel_enough s bl HM)) as Hl.
  assert (E : run (memget nbytes) s = run (memget_loop (mem_fuel s) n Head (memlist_next s)) (crit_in s)).
  { unfold memget. rewrite u32_small by lia. rewrite (proj2 (Z.eqb_neq 0 nbytes)) by lia. by prun. }
  rewrite E. change (lastref []) with Head in Hl. cbn [app] in Hl.
  destruct (getm n bl) as [[x bl']|] eqn:Eg.
  - destruct Hl as (s' & Hrun & HM' & Hf & Hw). exists s'. split_and!; try done.
    apply getm_taken; [apply HM | done | lia | done].
  - split; [done |]. by apply getm_none.
Qed.

(** ** [memfree] *)

Lemma memfree_loop_spec x l2 : forall l1 s p fuel lo hi,
  fwf lo hi (l1 ++ l2) -> 0 < lo -> seg (mem s) p l2 NULL -> (length l2 < fuel)%nat ->
  exists q, run (memfree_loop fuel x (lastref l1) p) s = Done (lastref (l1 ++ below x l2), q) s /\
    seg (mem s) p (below x l2) q /\ seg (mem s) q (above x l2) NULL.
Proof.
  induction l2 as [|[a l] r IH]; intros l1 s p fuel lo hi Hwf Hlo Hp Hfuel;
    (destruct fuel as [|fuel]; [cbn in Hfuel; lia |]).
  - cbn in Hp. subst p. exists NULL. cbn. rewrite app_nil_r. by prun.
  - destruct Hp as (-> & Hl & nx & Hnx & Hs). cbn [below above memfree_loop].
    pose proof (fwf_bounds _ _ _ Hwf a l (elem_of_mid _ _ _)).
    rewrite (proj2 (Z.eqb_neq a NULL)) by (unfold NULL; lia). cbn [negb andb].
    destruct (Z.ltb_spec a x) as [Hlt | Hge].
    + cbn [get_next]. prun. destruct (IH (l1 ++ [(a, l)]) s nx fuel lo hi) as (q & Hrun & Hs1 & Hs2); try done.
      { by rewrite <- app_assoc. }
      { cbn in Hfuel. lia. }
      exists q. rewrite <- app_assoc in Hrun. unfold lastref at 1 in Hrun. rewrite last_snoc in Hrun.
      split_and!; try done. cbn. eauto.
    + exists a. rewrite app_nil_r. prun. split_and!; try done. cbn. eauto.
Qed.

Lemma set_mem_twice m m' s : set_mem m' (set_mem m s) = set_mem m' s.
Proof. reflexivity. Qed.

(** The second half of [memfree]: [l1] ends before [b], and the blocks [hi]
    follow, perhaps without a gap. *)
Lemma mem_coalesce_spec lo up s l1 b k hi q :
  seg (mem s) (memlist_next s) l1 b -> mem s !! (b + 4) = Some k -> mem s !! b = Some q ->
  seg (mem s) q hi NULL -> fwf lo up (l1 ++ [(b, k)]) -> fwf (b + k) up hi ->
  0 < lo -> up < 2 ^ 32 ->
  exists s', run (mem_coalesce b q) s = Done tt s' /\
    seg (mem s') (memlist_next s') (l1 ++ join b k hi) NULL /\
    (exists m, s' = set_mem m s) /\
    (forall w, is_Some (mem s' !! w) <-> is_Some (mem s !! w)) /\
    (forall w, ~ b <= w < b + k -> mem s' !! w = mem s !! w).
Proof.
  intros Hs1 Hk Hq Hhi Hwf Hwfh Hlo Hup.
  pose proof (fwf_bounds _ _ _ Hwf b k ltac:(auto with xinu)) as Hb.
  unfold mem_coalesce, get_len, set_len. cbn [get_next set_next]. prun. rewrite (u32_small (b + k)) by lia.
  assert (Hstay : forall hi', join b k hi' = (b, k) :: hi' -> seg (mem s) q hi' NULL ->
    seg (mem s) (memlist_next s) (l1 ++ join b k hi') NULL).
  { intros hi' -> H. apply seg_app. exists b. split; [done |]. cbn. eauto. }
  destruct hi as [|[c j] r].
  - cbn in Hhi. subst q. rewrite (proj2 (Z.eqb_neq _ _)) by (unfold NULL; lia). prun. exists s.
    split_and!; try done; [by apply Hstay | exists (mem s); by destruct s].
  - destruct Hhi as (-> & Hj & nx & Hnx & Hr). cbn [fwf] in Hwfh.
    destruct Hwfh as (Hc1 & Hc2 & Hc3 & Hc4 & Hc5 & Hwfr).
    destruct (Z.eqb_spec (b + k) c) as [Hbc | Hne].
    + assert (8 <= k) by lia. prun. rewrite (u32_small (k + j)) by lia.
      eexists. split; [reflexivity |]. split_and!.
      * ksimpl. cbn [join]. rewrite (proj2 (Z.eqb_eq _ _)) by done. apply seg_app. exists b. split.
        -- eapply seg_frame; [| done]. intros a l Ha.
           destruct (cells_apart lo up l1 b k [] a l Hwf) as (H1 & H2 & H3 & H4); [by rewrite app_nil_r |].
           by rewrite !lookup_insert_ne by congruence.
        -- cbn. split_and!; [done | by rewrite lookup_insert_ne, lookup_insert_eq by lia |].
           exists nx. split; [apply lookup_insert_eq |]. eapply seg_frame; [| done]. intros a l Ha.
           pose proof (fwf_bounds _ _ _ Hwfr a l Ha). by rewrite !lookup_insert_ne by lia.
      * by eexists.
      * intros w. ksimpl. erewrite insert_same_dom by (rewrite lookup_insert_ne by lia; done).
        by erewrite insert_same_dom.
      * intros w Hw. ksimpl. by rewrite !lookup_insert_ne by lia.
    + prun. exists s. split_and!; try done; [| exists (mem s); by destruct s].
      apply Hstay; [cbn; by rewrite (proj2 (Z.eqb_neq _ _)) |]. cbn. eauto.
Qed.

Lemma fwf_join lo up l1 b k hi :
  fwf lo up (l1 ++ [(b, k)]) -> fwf (b + k) up hi -> fwf lo up (l1 ++ join b k hi).
Proof.
  rewrite !fwf_app. intros [H1 H2] Hh. split; [done |]. cbn [fwf] in H2.
  destruct hi as [|[c j] r]; cbn [join fwf] in *; [done |].
  destruct (Z.eqb_spec (b + k) c) as [<- | Hne]; cbn [fwf].
  - split_and!; try lia. eapply fwf_weaken; [apply Hh | lia].
  - intuition lia.
Qed.

Lemma total_join b k hi : total (join b k hi) = k + total hi.
Proof.
  destruct hi as [|[c j] r]; [done |]. cbn [join]. destruct (b + k =? c); cbn; unfold total; lia.
Qed.

Lemma isfree_join b k hi x : 0 <= k -> (forall c j, (c, j) ∈ hi -> 0 <= j) ->
  isfree (join b k hi) x <-> b <= x < b + k \/ isfree hi x.
Proof.
  intros Hk Hhi. destruct hi as [|[c j] r]; cbn [join]; [by rewrite isfree_cons |].
  specialize (Hhi c j ltac:(apply elem_of_cons; by left)).
  destruct (Z.eqb_spec (b + k) c) as [<- | Hne]; rewrite !isfree_cons; [| done].
  assert (b <= x < b + (k + j) <-> b <= x < b + k \/ b + k <= x < b + k + j) by lia. tauto.
Qed.

(** The state of the list between the two halves of [memfree]. *)
Record attached (s s' : kst) (lo up : Z) (l1 : list blk) (b k : Z) (hi : list blk) (q : Z) : Prop := {
  at_seg : seg (mem s') (memlist_next s') l1 b;
  at_len : mem s' !! (b + 4) = Some k;
  at_next : mem s' !! b = Some q;
  at_hi : seg (mem s') q hi NULL;
  at_wf : fwf lo up (l1 ++ [(b, k)]);
  at_wfh : fwf (b + k) up hi;
  at_frame : exists m p, s' = set_mem m (set_memlist_next p s);
  at_dom : forall w, is_Some (mem s' !! w) <-> is_Some (mem s !! w)
}.

Section Attach.
Context (s : kst) (lo up a n q : Z) (hi : list blk).
Hypothesis Hhi : seg (mem s) q hi NULL.
Hypothesis Hwfh : fwf (a + n) up hi.
Hypothesis Ha8 : a mod 8 = 0.
Hypothesis Hn8 : n mod 8 = 0.
Hypothesis Hn : 0 < n.
Hypothesis Hup : a + n <= up < 2 ^ 32.
Hypothesis Hlo : 0 < lo <= a.

(** The block touches the one before it. *)
Lemma attach_join l1 b l :
  seg (mem s) (memlist_next s) (l1 ++ [(b, l)]) q -> fwf lo up (l1 ++ [(b, l)]) -> b + l = a ->
  exists s', run (mem_attach (Blk b) a q n (b + l)) s = Done b s' /\
    attached s s' lo up l1 b (l + n) hi q /\
    (forall w, w <> b + 4 -> mem s' !! w = mem s !! w).
Proof.
  intros Hs Hwf Hbl. apply seg_snoc in Hs as (Hs & Hl & Hq).
  pose proof (fwf_bounds _ _ _ Hwf b l ltac:(auto with xinu)) as Hb.
  unfold mem_attach. rewrite (proj2 (Z.eqb_eq _ _)) by done. unfold get_len, set_len. prun.
  rewrite u32_small by lia. eexists. split; [reflexivity |]. split.
  - constructor; ksimpl.
    + eapply seg_frame; [| done]. intros c j Hc.
      destruct (cells_apart lo up l1 b l [] c j Hwf) as (H1 & H2 & H3 & H4); [by rewrite app_nil_r |].
      by rewrite !lookup_insert_ne by congruence.
    + apply lookup_insert_eq.
    + by rewrite lookup_insert_ne by lia.
    + eapply seg_frame; [| done]. intros c j Hc. pose proof (fwf_bounds _ _ _ Hwfh c j Hc).
      by rewrite !lookup_insert_ne by lia.
    + rewrite fwf_app in Hwf |- *. cbn [fwf] in *. destruct Hwf as [Hwf1 Hwf2]. split; [done |].
      split_and!; try done; lia.
    + by replace (b + (l + n)) with (a + n) by lia.
    + eexists _, (memlist_next s). by destruct s.
    + intros w. by erewrite insert_same_dom.
  - intros w Hw. ksimpl. by apply lookup_insert_ne.
Qed.

(** The block is apart from the one before it. *)
Lemma attach_link l1 top :
  seg (mem s) (memlist_next s) l1 q -> fwf lo up l1 ->
  (forall c j, (c, j) ∈ l1 -> c + j < a) ->
  top <> a -> is_Some (mem s !! a) -> is_Some (mem s !! (a + 4)) ->
  exists s', run (mem_attach (lastref l1) a q n top) s = Done a s' /\
    attached s s' lo up l1 a n hi q /\
    (forall w, w <> a -> w <> a + 4 -> ~ isfree l1 w -> mem s' !! w = mem s !! w).
Proof.
  intros Hs Hwf Hbel Htop [v1 Hv1] [v2 Hv2].
  set (s1 := set_mem (<[a + 4 := n]> (<[a := q]> (mem s))) s).
  assert (Hs1 : seg (mem s1) (memlist_next s1) l1 q).
  { eapply seg_frame; [| done]. intros c j Hc. specialize (Hbel c j Hc).
    pose proof (fwf_bounds _ _ _ Hwf c j Hc). unfold s1. ksimpl. by rewrite !lookup_insert_ne by lia. }
  destruct (seg_setref lo up s1 l1 q a Hwf Hs1) as (Hrun & Hs2 & Hfr & (m & p & E) & Hdom).
  set (s2 := setref (lastref l1) a s1) in *.
  assert (Hnf : forall w, a <= w -> ~ isfree l1 w).
  { intros w Hw (c & j & Hin & Hc). specialize (Hbel c j Hin). lia. }
  exists s2. split; [| split].
  - unfold mem_attach. revert Hrun. unfold s2.
    destruct (lastref l1) as [|b]; intros Hrun; rewrite (proj2 (Z.eqb_neq top a)) by done;
      unfold set_len; cbn [set_next] in *; do 7 try prun1; use_run Hrun; by prun.
  - constructor; try done.
    + rewrite Hfr by (apply Hnf; lia). unfold s1. ksimpl. apply lookup_insert_eq.
    + rewrite Hfr by (apply Hnf; lia). unfold s1. ksimpl.
      by rewrite lookup_insert_ne, lookup_insert_eq by lia.
    + eapply seg_frame; [| done]. intros c j Hc. pose proof (fwf_bounds _ _ _ Hwfh c j Hc).
      rewrite !Hfr by (apply Hnf; lia). unfold s1. ksimpl. by rewrite !lookup_insert_ne by lia.
    + apply fwf_app. split; [done |]. cbn [fwf]. destruct (last l1) as [[c j]|] eqn:El.
      * apply last_Some_elem_of in El. specialize (Hbel c j El). split_and!; try done; lia.
      * split_and!; try done; lia.
    + by exists m, p.
    + intros w. rewrite Hdom. unfold s1. ksimpl. erewrite insert_same_dom by (rewrite lookup_insert_ne by lia; done).
      by erewrite insert_same_dom.
  - intros w H1 H2 H3. rewrite Hfr by done. unfold s1. ksimpl. by rewrite !lookup_insert_ne by congruence.
Qed.
End Attach.

(** The blocks around [a] do not overlap the block, when [putm] accepts it. *)
Lemma putm_cases a n bl :
  (putm a n bl = None /\
     (overlaps a n (above a bl) = true \/
      exists b l, last (below a bl) = Some (b, l) /\ a < b + l)) \/
  (overlaps a n (above a bl) = false /\
     ((exists l1 b l, below a bl = l1 ++ [(b, l)] /\ b + l = a /\
         putm a n bl = Some (l1 ++ join b (l + n) (above a bl))) \/
      ((forall b l, last (below a bl) = Some (b, l) -> b + l < a) /\
         putm a n bl = Some (below a bl ++ join a n (above a bl))))).
Proof.
  unfold putm. destruct (overlaps a n (above a bl)); [left; auto |].
  destruct (last (below a bl)) as [[b l]|] eqn:El.
  - destruct (Z.gtb_spec (b + l) a) as [Hgt | Hle]; [left; split; [done | right; eauto] | right].
    split; [done |]. destruct (Z.eqb_spec (b + l) a) as [Heq | Hne].
    + left. apply last_Some in El as [l1 El]. exists l1, b, l. rewrite El, removelast_last. by split_and!.
    + right. split; [| done]. intros b' l' [= <- <-]. lia.
  - right. split; [done |]. right. split; [done |]. apply last_None in El. by rewrite El.
Qed.

(** Below the last block before [a], everything ends lower. *)
Lemma below_end lo hi l1 x :
  fwf lo hi l1 -> (forall b l, last l1 = Some (b, l) -> b + l < x) ->
  forall c j, (c, j) ∈ l1 -> c + j < x.
Proof.
  intros Hwf Hl c j Hin. destruct l1 as [|[b l] l1 _] using rev_ind; [by apply elem_of_nil in Hin |].
  rewrite last_snoc in Hl. specialize (Hl b l eq_refl).
  apply elem_of_app in Hin as [Hin | Hin].
  - pose proof (fwf_last _ _ _ _ _ _ Hwf c j Hin).
    pose proof (fwf_bounds _ _ _ Hwf b l ltac:(auto with xinu)). lia.
  - apply list_elem_of_singleton in Hin as [= -> ->]. lia.
Qed.

Section Free.
Context (s : kst) (bl : list blk) (a nbytes : Z).
Hypothesis HM : minv s bl.
Hypothesis Hcrit : inCrit s = true.
Hypothesis Hnb : 0 < nbytes <= 2 ^ 32 - 8.
Hypothesis Ha : memheap s <= a.
Hypothesis Ha8 : a mod 8 = 0.

Let n : Z := roundmb nbytes.
Hypothesis Hend : a + n <= maxaddr s.

Let Hn := roundmb_spec nbytes Hnb.
Let hi := above a bl.
Let l1 := below a bl.

Lemma free_wf : fwf (memheap s) (maxaddr s) (l1 ++ hi).
Proof. unfold l1, hi. rewrite below_above. apply HM. Qed.

Lemma free_hi : overlaps a n hi = false -> fwf (a + n) (maxaddr s) hi.
Proof.
  intros Hov. pose proof free_wf as Hwf. apply fwf_app in Hwf as [_ Hwf].
  destruct hi as [|[c j] r]; [done |]. cbn [overlaps] in Hov. cbn [fwf] in *.
  rewrite Z.gtb_ltb in Hov. apply Z.ltb_ge in Hov. intuition lia.
Qed.

(** [memfree] up to the choice of the place. *)
Lemma run_memfree_place : exists q,
  seg (mem s) (memlist_next s) l1 q /\ seg (mem s) q hi NULL /\
  run (memfree a nbytes) s =
    obind (fun top => 
      if (top >? a) || overlaps a n hi then EXIT_KERNEL_CRITICAL_SECTION;; mret SYSERR else
      ml ← gets memlist_length;
      modify (set_memlist_length (u32 (ml + n)));;
      block ← mem_attach (lastref l1) a q n top;
      mem_coalesce block q;;
      EXIT_KERNEL_CRITICAL_SECTION;;
      mret OK)
    (Done (match last l1 with Some (b, l) => b + l | None => 0 end) (crit_in s)).
Proof.
  destruct HM as [Hseg Hwf Hlen Hlo Hhi Hmap]. pose proof Hn as (H8 & Hr & Hpos). fold n in H8, Hr, Hpos.
  destruct (memfree_loop_spec a bl [] (crit_in s) (memlist_next s) (mem_fuel s) _ _ Hwf Hlo Hseg
    (fuel_enough s bl HM)) as (q & Hrun & Hs1 & Hs2).
  exists q. split_and!; [done | done |]. cbn [app] in Hrun. fold l1 in Hrun, Hs1.
  unfold memfree. rewrite (u32_small a), (u32_small nbytes) by lia. do 3 prun1. prun1.
  rewrite (proj2 (Z.eqb_neq 0 nbytes)) by lia.
  rewrite (proj2 (Z.ltb_ge a _)), Z.gtb_ltb, (proj2 (Z.ltb_ge _ a)) by lia. cbn [orb]. fold n.
  do 7 prun1. change (mem_fuel (crit_in s)) with (mem_fuel s).
  change (lastref []) with Head in Hrun. use_run Hrun.
  assert (Hov : negb (q =? NULL) && (u32 (a + n) >? q) = overlaps a n hi).
  { rewrite u32_small by lia. fold hi in Hs2. destruct hi as [|[c j] r] eqn:Eh.
    - cbn in Hs2. by subst q.
    - destruct Hs2 as (-> & _). cbn. rewrite (proj2 (Z.eqb_neq c NULL)); [done |].
      pose proof free_wf as Hw. rewrite Eh in Hw.
      pose proof (fwf_bounds _ _ _ Hw c j (elem_of_mid _ _ _)). unfold NULL. lia. }
  rewrite Hov. unfold lastref. destruct (last l1) as [[b l]|] eqn:El; [| by prun].
  apply last_Some in El as [l0 El]. rewrite El in Hs1. apply seg_snoc in Hs1 as (_ & Hl & _).
  assert (Hbw : fwf (memheap s) (maxaddr s) (l0 ++ [(b, l)]))
    by (pose proof free_wf as Hw; apply fwf_app in Hw as [Hw _]; by rewrite <- El).
  pose proof (fwf_bounds _ _ _ Hbw b l ltac:(auto with xinu)).
  unfold get_len. prun. by rewrite u32_small by lia.
Qed.
(** From the state between the two halves to the end. *)
Lemma free_finish s1 l0 b k q :
  attached (set_memlist_length (u32 (memlist_length s + n)) (crit_in s)) s1
    (memheap s) (maxaddr s) l0 b k hi q ->
  total l0 + k + total hi = total bl + n ->
  exists s', run (mem_coalesce b q;; EXIT_KERNEL_CRITICAL_SECTION;; mret OK) s1 = Done OK (crit_out s') /\
    minv s' (l0 ++ join b k hi) /\ mem_frame (crit_in s) s' /\
    (forall w, ~ b <= w < b + k -> mem s' !! w = mem s1 !! w).
Proof.
  intros [Hs Hk Hq Hh Hwf Hwfh (m & p & E) Hdom] Htot. destruct HM as [Hseg Hwf0 Hlen Hlo Hhi Hmap].
  destruct (mem_coalesce_spec _ _ s1 l0 b k hi q Hs Hk Hq Hh Hwf Hwfh Hlo ltac:(lia))
    as (s' & Hrun & Hs' & (m' & E') & Hdom' & Hfr).
  assert (Hc : inCrit s' = true) by (rewrite E', E; done).
  pose proof (fwf_join _ _ _ _ _ _ Hwf Hwfh) as Hwf'.
  pose proof (total_bounds _ _ _ Hwf' ltac:(lia)) as Hb'. rewrite total_app, total_join in Hb'.
  pose proof Hn as (H8 & Hr & Hpos). fold n in H8, Hr, Hpos.
  exists s'. split_and!.
  - rewrite run_bind, Hrun. cbn [obind]. by prun.
  - subst s' s1. constructor; ksimpl; try done.
    + rewrite total_app, total_join, Hlen, u32_small; lia.
    + intros w Hw Hw4. apply Hdom', Hdom. by apply Hmap.
  - exists m', p, (u32 (memlist_length s + n)). rewrite E', E.
    generalize (crit_in s) as s0. intros s0. by rewrite set_mem_twice.
  - done.
Qed.

Lemma memfree_spec :
  match putm a n bl with
  | Some bl' => exists s', run (memfree a nbytes) s = Done OK (crit_out s') /\
      minv s' bl' /\ mem_frame (crit_in s) s' /\
      (forall w, ~ isfree bl w -> ~ a <= w < a + n -> mem s' !! w = mem s !! w)
  | None => run (memfree a nbytes) s = Done SYSERR (crit_out (crit_in s))
  end.
Proof.
  destruct run_memfree_place as (q & Hs1 & Hs2 & ->). cbn [obind].
  pose proof Hn as (H8 & Hr & Hpos). fold n in H8, Hr, Hpos. pose proof free_wf as Hwf.
  pose proof (mi_lo _ _ HM) as Hlo. pose proof (mi_hi _ _ HM) as Hmax.
  assert (Htot : total l1 + total hi = total bl).
  { rewrite <- total_app. unfold l1, hi. by rewrite below_above. }
  assert (Hfree : forall w, ~ isfree bl w -> ~ isfree l1 w /\ ~ isfree hi w).
  { intros w Hw. rewrite <- (below_above a bl), isfree_app in Hw. tauto. }
  pose proof (proj1 (proj1 (fwf_app _ _ _ _) Hwf)) as Hwf1.
  set (s0 := set_memlist_length (u32 (memlist_length s + n)) (crit_in s)).
  pose proof (putm_cases a n bl) as Hc. fold l1 hi in Hc.
  destruct Hc as [[-> [Hov | (b & l & Hl & Hbl)]] | [Hov [(l0 & b & l & Hl & Hbl & ->) | [Hl ->]]]].
  - rewrite Hov, orb_true_r. by prun.
  - rewrite Hl. rewrite (proj2 (Z.gtb_lt (b + l) a)) by lia. by prun.
  - rewrite Hov, Hl, last_snoc. rewrite Z.gtb_ltb, (proj2 (Z.ltb_ge a (b + l))) by lia. cbn [orb].
    rewrite Hl in Hs1, Hwf1, Htot, Hfree. unfold lastref. rewrite last_snoc. prun1. prun1. prun1. prun1.
    destruct (attach_join s0 (memheap s) (maxaddr s) a n q hi) with (l1 := l0) (b := b) (l := l)
      as (s1 & Hrun & Hat & Hfr); try done; try lia; [by apply free_hi |].
    rewrite run_bind. use_run Hrun. rewrite total_app in Htot. cbn in Htot.
    destruct (free_finish s1 l0 b (l + n) q Hat) as (s' & Hrun' & HM' & Hf' & Hw'); [unfold total in *; lia |].
    exists s'. split_and!; try done. intros w Hw1 Hw2.
    assert (Hwb : ~ b <= w < b + (l + n)).
    { intros Hc. apply (proj1 (Hfree w Hw1)). rewrite isfree_app, isfree_cons. right; left. lia. }
    rewrite Hw' by done. apply Hfr.
    pose proof (fwf_bounds _ _ _ Hwf1 b l ltac:(auto with xinu)). lia.
  - rewrite Hov. set (top := match last l1 with Some (b, l) => b + l | None => 0 end).
    assert (Htop : top < a).
    { unfold top. destruct (last l1) as [[b l]|]; [by apply Hl | lia]. }
    rewrite Z.gtb_ltb, (proj2 (Z.ltb_ge a top)) by lia. cbn [orb]. prun1. prun1. prun1. prun1.
    destruct (attach_link s0 (memheap s) (maxaddr s) a n q hi) with (l1 := l1) (top := top)
      as (s1 & Hrun & Hat & Hfr); try done; try lia; [by apply free_hi | | | |].
    { by apply (below_end _ _ _ _ Hwf1). }
    { apply (mi_map _ _ HM); lia. }
    { apply (mi_map _ _ HM); lia. }
    rewrite run_bind. use_run Hrun.
    destruct (free_finish s1 l1 a n q Hat) as (s' & Hrun' & HM' & Hf' & Hw'); [lia |].
    exists s'. split_and!; try done. intros w Hw1 Hw2.
    rewrite Hw' by done. apply Hfr; [lia | lia |]. by apply Hfree.
Qed.
End Free.

(** ** [stkget] *)

(** The highest block that fits, with the blocks before it. *)
Fixpoint lastfit (n : Z) (bl : list blk) : option (list blk * Z) :=
  match bl with
  | [] => None
  | (a, l) :: r =>
      match lastfit n r with
      | Some (la, x) => Some ((a, l) :: la, x)
      | None => if l >=? n then Some ([], a) else None
      end
  end.

Lemma lastfit_stkm n bl :
  match lastfit n bl with
  | Some (la, x) => exists l l2, bl = la ++ (x, l) :: l2 /\ n <= l /\
      stkm n bl = Some (x + (l - n), la ++ (if n =? l then l2 else (x, l - n) :: l2))
  | None => stkm n bl = None
  end.
Proof.
  induction bl as [|[a l] r IH]; [done |]. cbn [lastfit stkm].
  destruct (lastfit n r) as [[la x]|].
  - destruct IH as (k & l2 & -> & Hk & ->). exists k, l2. by split_and!.
  - rewrite IH. destruct (Z.geb_spec l n) as [Hge | Hlt]; [| done].
    exists l, r. split_and!; [done | done |]. cbn [app].
    destruct (Z.eqb_spec n l) as [-> | Hne]; [| done]. do 2 f_equal. lia.
Qed.

Lemma stkget_loop_spec n s lo hi l2 : forall l1 p fuel f fp,
  fwf lo hi (l1 ++ l2) -> 0 < lo -> seg (mem s) p l2 NULL -> (length l2 < fuel)%nat ->
  run (stkget_loop fuel n (lastref l1) p f fp) s =
    Done (match lastfit n l2 with Some (la, x) => (x, lastref (l1 ++ la)) | None => (f, fp) end) s.
Proof.
  induction l2 as [|[a l] r IH]; intros l1 p fuel f fp Hwf Hlo Hp Hfuel;
    (destruct fuel as [|fuel]; [cbn in Hfuel; lia |]).
  - cbn in Hp. by subst p.
  - destruct Hp as (-> & Hl & nx & Hnx & Hs). cbn [stkget_loop lastfit].
    pose proof (fwf_bounds _ _ _ Hwf a l (elem_of_mid _ _ _)).
    rewrite (proj2 (Z.eqb_neq a NULL)) by (unfold NULL; lia). unfold get_len. cbn [get_next]. prun.
    assert (Hgo : forall f' fp', run (stkget_loop fuel n (Blk a) nx f' fp') s =
      Done (match lastfit n r with Some (la, x) => (x, lastref (l1 ++ (a, l) :: la)) | None => (f', fp') end) s).
    { intros f' fp'. specialize (IH (l1 ++ [(a, l)]) nx fuel f' fp'). unfold lastref at 1 in IH.
      rewrite last_snoc in IH. rewrite IH; [| by rewrite <- app_assoc | done | done | cbn in Hfuel; lia].
      destruct (lastfit n r) as [[la x]|]; [| done]. by rewrite <- app_assoc. }
    destruct (l >=? n); rewrite Hgo; destruct (lastfit n r) as [[la x]|]; try done.
    by rewrite app_nil_r.
Qed.

(** The link to a block is followed by the block. *)
Lemma seg_link s l1 a l l2 :
  seg (mem s) (memlist_next s) (l1 ++ (a, l) :: l2) NULL ->
  seg (mem s) (memlist_next s) l1 a /\ mem s !! (a + 4) = Some l /\
  exists nx, mem s !! a = Some nx /\ seg (mem s) nx l2 NULL.
Proof. rewrite seg_app. intros (x & Hs & -> & Hl & nx & Hnx & Hr). eauto. Qed.

Section Stk.
Context (s : kst) (bl : list blk) (nbytes : Z).
Hypothesis HM : minv s bl.
Hypothesis Hcrit : inCrit s = true.
Hypothesis Hnb : 0 < nbytes <= 2 ^ 32 - 8.

Let n : Z := roundmb nbytes.
Let Hn := roundmb_spec nbytes Hnb.

Lemma run_stkget_scan :
  run (stkget nbytes) s =
    match lastfit n bl with
    | None => Done PTRERR (crit_out (crit_in s))
    | Some (la, x) =>
        run (len ← get_len x;
             fits ← (if n =? len then nx ← get_next (Blk x); set_next (lastref la) nx;; mret x
                     else set_len x (u32 (len - n));; len ← get_len x; mret (u32 (x + len)));
             ml ← gets memlist_length;
             modify (set_memlist_length (u32 (ml - n)));;
             EXIT_KERNEL_CRITICAL_SECTION;;
             mret (u32 (fits + n - 4))) (crit_in s)
    end.
Proof.
  destruct HM as [Hseg Hwf Hlen Hlo Hhi Hmap].
  pose proof (stkget_loop_spec n (crit_in s) _ _ bl [] (memlist_next s) (mem_fuel s) NULL Head
    Hwf Hlo Hseg (fuel_enough s bl HM)) as Hrun. change (lastref []) with Head in Hrun. cbn [app] in Hrun.
  unfold stkget. rewrite (u32_small nbytes) by lia. rewrite (proj2 (Z.eqb_neq 0 nbytes)) by lia.
  fold n. do 7 prun1. change (mem_fuel (crit_in s)) with (mem_fuel s). use_run Hrun.
  pose proof (lastfit_stkm n bl) as Hfit. destruct (lastfit n bl) as [[la x]|]; [| by prun].
  destruct Hfit as (l & l2 & -> & _ & _).
  pose proof (fwf_bounds _ _ _ Hwf x l (elem_of_mid _ _ _)).
  by rewrite (proj2 (Z.eqb_neq NULL x)) by (unfold NULL; lia).
Qed.

Lemma stkget_spec :
  match stkm n bl with
  | Some (x, bl') => exists s', run (stkget nbytes) s = Done (x + n - 4) (crit_out s') /\
      minv s' bl' /\ mem_frame (crit_in s) s' /\ taken (memheap s) (maxaddr s) n x bl bl' /\
      (forall w, ~ isfree bl w -> mem s' !! w = mem s !! w)
  | None => run (stkget nbytes) s = Done PTRERR (crit_out (crit_in s))
  end.
Proof.
  rewrite run_stkget_scan. pose proof (lastfit_stkm n bl) as Hfit.
  destruct HM as [Hseg Hwf Hlen Hlo Hhi Hmap]. pose proof Hn as (H8 & Hr & Hpos). fold n in H8, Hr, Hpos.
  destruct (lastfit n bl) as [[la x]|]; [| by rewrite Hfit].
  destruct Hfit as (l & l2 & -> & Hle & Hst). rewrite Hst.
  pose proof (stkm_taken _ _ n _ _ _ Hwf H8 ltac:(lia) Hst) as Htk.
  pose proof (fwf_bounds _ _ _ Hwf x l (elem_of_mid _ _ _)) as Hx.
  pose proof (total_bounds _ _ _ (tk_wf _ _ _ _ _ _ Htk) ltac:(lia)) as Hb'.
  destruct (seg_link s la x l l2 Hseg) as (Hs1 & Hl & nx & Hnx & Hs2).
  pose proof (proj1 (proj1 (fwf_app _ _ _ _) Hwf)) as Hwf1.
  unfold get_len, set_len. cbn [get_next]. prun. destruct (Z.eqb_spec n l) as [<- | Hne].
  - prun. destruct (seg_setref _ _ (crit_in s) la x nx Hwf1 Hs1) as (-> & Hs1' & Hfr & (m & p & E) & Hdom).
    set (s1 := setref _ _ _) in *. cbn [obind]. assert (Hc1 : inCrit s1 = true) by (by rewrite E).
    prun. assert (El : memlist_length s1 = memlist_length s) by (by rewrite E).
    replace (x + (n - n)) with x in * by lia. rewrite (u32_small (x + n - 4)) by lia.
    eexists. split; [reflexivity |]. split_and!; try done.
    + rewrite E in *. constructor; ksimpl; try done; [| | |].
      * apply seg_app. exists nx. split; [done |]. eapply seg_frame; [| done]. intros b k Hb.
        pose proof (fwf_after _ _ _ _ _ _ Hwf b k Hb).
        pose proof (fwf_bounds _ _ _ Hwf b k ltac:(apply elem_of_app; right; apply elem_of_cons; by right)).
        split; apply Hfr; intros (c & j & Hin & Hc); pose proof (fwf_last _ _ _ _ _ _ Hwf c j Hin); lia.
      * apply (tk_wf _ _ _ _ _ _ Htk).
      * rewrite (tk_total _ _ _ _ _ _ Htk) in *. rewrite Hlen. apply u32_small. lia.
      * intros w Hw Hw4. apply Hdom. by apply Hmap.
    + rewrite E. eexists _, _, _. kst_eq.
    + intros w Hw. cbn. apply Hfr. intros Hf. apply Hw. rewrite isfree_app. by left.
  - rewrite (u32_small (l - n)) by lia. prun.
    rewrite (u32_small (x + (l - n))), (u32_small (x + (l - n) + n - 4)) by lia.
    eexists. split; [reflexivity |]. split_and!; try done.
    + constructor; ksimpl; try done.
      * apply seg_app. exists x. split.
        -- eapply seg_frame; [| done]. intros b k Hb.
           destruct (cells_apart _ _ la x l l2 b k Hwf) as (H1 & H2 & H3 & H4); [apply elem_of_app; by left |].
           by rewrite !lookup_insert_ne by congruence.
        -- cbn. split_and!; [done | apply lookup_insert_eq |]. exists nx.
           rewrite lookup_insert_ne by lia. split; [done |]. eapply seg_frame; [| done]. intros b k Hb.
           destruct (cells_apart _ _ la x l l2 b k Hwf) as (H1 & H2 & H3 & H4); [apply elem_of_app; by right |].
           by rewrite !lookup_insert_ne by congruence.
      * apply (tk_wf _ _ _ _ _ _ Htk).
      * rewrite (tk_total _ _ _ _ _ _ Htk) in *. rewrite Hlen. apply u32_small. lia.
      * intros w Hw Hw4. erewrite insert_same_dom by done. by apply Hmap.
    + eexists _, (memlist_next s), _. kst_eq.
    + intros w Hw. ksimpl. apply lookup_insert_ne. intros <-. apply Hw.
      rewrite isfree_app, isfree_cons. right; left. lia.
Qed.
End Stk.

(** ** What the callers rely on *)

Lemma putm_spec lo hi a n bl :
  fwf lo hi bl -> 0 < n ->
  match putm a n bl with
  | Some bl' => (forall x, isfree bl' x <-> isfree bl x \/ a <= x < a + n) /\
      (forall x, isfree bl x -> x < a \/ a + n <= x)
  | None => exists x, isfree bl x /\ a <= x < a + n
  end.
Proof.
  intros Hwf Hn. pose proof Hwf as Hwf0. rewrite <- (below_above a bl) in Hwf0.
  pose proof (proj1 (proj1 (fwf_app _ _ _ _) Hwf0)) as Hwl.
  assert (Hel : forall x, isfree bl x <-> isfree (below a bl) x \/ isfree (above a bl) x)
    by (intros x; by rewrite <- isfree_app, below_above).
  assert (Hj : forall c j, (c, j) ∈ above a bl -> 0 <= j).
  { intros c j Hin. pose proof (fwf_bounds _ _ _ Hwf0 c j ltac:(apply elem_of_app; by right)). lia. }
  assert (Hhi : overlaps a n (above a bl) = false -> forall x, isfree (above a bl) x -> a + n <= x).
  { intros Hov x. apply fwf_app in Hwf0 as [_ Hw]. destruct (above a bl) as [|[c j] r]; [by intros ?%isfree_nil |].
    cbn in Hov. rewrite Z.gtb_ltb in Hov. apply Z.ltb_ge in Hov. cbn [fwf] in Hw.
    intros [? | Hx]%isfree_cons; [lia |].
    pose proof (isfree_bounds _ _ _ x (proj2 (proj2 (proj2 (proj2 (proj2 Hw))))) Hx). lia. }
  destruct (putm_cases a n bl) as [[-> [Hov | (b & l & Hl & Hbl)]] | [Hov [(l0 & b & l & Hl & Hbl & ->) | [Hl ->]]]].
  - destruct (above a bl) as [|[c j] r] eqn:Ea; [done |]. cbn in Hov. apply Z.gtb_lt in Hov.
    pose proof (above_ge _ _ _ _ _ Ea).
    pose proof (fwf_bounds _ _ _ Hwf0 c j (elem_of_mid _ _ _)).
    exists c. split; [apply Hel; right; apply isfree_cons; left; lia | lia].
  - pose proof (last_Some_elem_of _ _ Hl) as Hin. pose proof (below_lt _ _ _ _ Hin).
    exists a. split; [apply Hel; left; exists b, l; split; [done | lia] | lia].
  - rewrite Hl in Hel, Hwl. pose proof (fwf_bounds _ _ _ Hwl b l ltac:(auto with xinu)). split.
    + intros x. rewrite Hel, isfree_app, isfree_join, isfree_app, isfree_cons, isfree_nil by (try lia; done).
      assert (b <= x < b + (l + n) <-> b <= x < b + l \/ a <= x < a + n) by lia. tauto.
    + intros x [Hx | Hx]%Hel; [| right; by apply Hhi]. left.
      apply isfree_app in Hx as [(c & j & Hin & Hx) | [Hx | Hx]%isfree_cons];
        [pose proof (fwf_last _ _ _ _ _ _ Hwl c j Hin); lia | lia | by apply isfree_nil in Hx].
  - split.
    + intros x. rewrite Hel, isfree_app, isfree_join by (try lia; done). tauto.
    + intros x [(c & j & Hin & Hx) | Hx]%Hel; [left | right; by apply Hhi].
      pose proof (below_end _ _ _ _ Hwl Hl c j Hin). lia.
Qed.

(** C20: [memget] returns an aligned block of at least the size asked for, all of it
    free before and none of it free afterwards, and leaves all other free bytes
    free and all memory in use as it was; it fails only if every free block is
    too small.  For the requests that do not wrap around when they are rounded. *)
Theorem memget_block s bl nbytes :
  minv s bl -> inCrit s = true -> 0 < nbytes <= 2 ^ 32 - 8 ->
  let n := roundmb nbytes in
  exists p s', run (memget nbytes) s = Done p s' /\
    ((p = PTRERR /\ minv s' bl /\ forall a l, (a, l) ∈ bl -> l < nbytes) \/
     (exists bl', minv s' bl' /\ p mod 8 = 0 /\ nbytes <= n /\
        (forall x, p <= x < p + n -> isfree bl x /\ ~ isfree bl' x) /\
        (forall x, ~ p <= x < p + n -> isfree bl' x <-> isfree bl x) /\
        (forall w, ~ isfree bl w -> mem s' !! w = mem s !! w))).
Proof.
  intros HM Hc Hb n. pose proof (memget_spec s bl nbytes HM Hc Hb) as H. fold n in H. cbn zeta in H.
  destruct (roundmb_spec nbytes Hb) as (H8 & Hr & Hpos). fold n in H8, Hr, Hpos.
  destruct (getm n bl) as [[x bl']|].
  - destruct H as (s' & Hrun & HM' & _ & Htk & Hw). exists x, (crit_out s'). split; [done |]. right.
    destruct Htk as [_ _ Hal _ Hfr Hgone _].
    exists bl'. split_and!; [by apply minv_crit_out | done | lia | | | done].
    + intros y Hy. split; [apply Hfr; by right |]. intros Hf. specialize (Hgone y Hf). lia.
    + intros y Hy. rewrite (Hfr y). tauto.
  - destruct H as [Hrun Hno]. exists PTRERR, (crit_out (crit_in s)). split; [done |]. left.
    split_and!; [done | by apply minv_crit_out, minv_crit |].
    intros a l Hin. specialize (Hno a l Hin).
    pose proof (fwf_bounds _ _ _ (mi_wf _ _ HM) a l Hin). lia.
Qed.

(** C21: [memfree] makes exactly the bytes of the block free again, or refuses if any
    of them is free already and then changes nothing. *)
Theorem memfree_block s bl a nbytes :
  minv s bl -> inCrit s = true -> 0 < nbytes <= 2 ^ 32 - 8 ->
  memheap s <= a -> a mod 8 = 0 -> a + roundmb nbytes <= maxaddr s ->
  let n := roundmb nbytes in
  exists r s' bl', run (memfree a nbytes) s = Done r s' /\ minv s' bl' /\
    ((r = OK /\ (forall x, isfree bl x -> ~ a <= x < a + n) /\
        (forall x, isfree bl' x <-> isfree bl x \/ a <= x < a + n)) \/
     (r = SYSERR /\ bl' = bl /\ exists x, isfree bl x /\ a <= x < a + n)).
Proof.
  intros HM Hc Hb Ha Ha8 Hend n.
  pose proof (memfree_spec s bl a nbytes HM Hc Hb Ha Ha8 Hend) as H. cbn zeta in H. fold n in H.
  destruct (roundmb_spec nbytes Hb) as (H8 & Hr & Hpos). fold n in H8, Hr, Hpos.
  pose proof (putm_spec _ _ a n bl (mi_wf _ _ HM) ltac:(lia)) as Hp.
  destruct (putm a n bl) as [bl'|].
  - destruct H as (s' & Hrun & HM' & _ & _). destruct Hp as [Hp1 Hp2].
    exists OK, (crit_out s'), bl'. split_and!; [done | by apply minv_crit_out |]. left.
    split_and!; [done | | done]. intros x Hx. specialize (Hp2 x Hx). lia.
  - exists SYSERR, (crit_out (crit_in s)), bl. split_and!; [done | by apply minv_crit_out, minv_crit |].
    right. by split_and!.
Qed.

(** C22: freeing what [memget] returned restores the free list, block for block: the
    pieces are joined again. *)
Theorem memget_memfree s bl nbytes p s1 :
  minv s bl -> inCrit s = true -> 0 < nbytes <= 2 ^ 32 - 8 ->
  run (memget nbytes) s = Done p s1 -> p <> PTRERR ->
  exists s2, run (memfree p nbytes) s1 = Done OK s2 /\ minv s2 bl.
Proof.
  intros HM Hc Hb Hrun Hp. pose proof (memget_spec s bl nbytes HM Hc Hb) as H. cbn zeta in H.
  set (n := roundmb nbytes) in *. destruct (getm n bl) as [[x bl']|]; [| destruct H; congruence].
  destruct H as (s' & Hrun' & HM' & (m & q & k & E) & Htk & _). rewrite Hrun in Hrun'. injection Hrun' as -> ->.
  destruct Htk as [_ _ Hal Hin _ _ Hback].
  assert (Eh : memheap (crit_out s') = memheap s /\ maxaddr (crit_out s') = maxaddr s /\ inCrit (crit_out s') = true)
    by (rewrite E; done).
  destruct Eh as (E1 & E2 & E3).
  pose proof (memfree_spec (crit_out s') bl' x nbytes) as Hf. rewrite E1, E2 in Hf.
  specialize (Hf (proj2 (minv_crit_out s' bl') HM') E3 Hb ltac:(lia) Hal ltac:(fold n; lia)).
  cbn zeta in Hf. fold n in Hf. rewrite Hback in Hf. destruct Hf as (s2 & Hrun2 & HM2 & _).
  exists (crit_out s2). split; [done |]. by apply minv_crit_out.
Qed.

(** A block that was taken can be given back. *)
Lemma stkfree_undo s bl bl' x nbytes :
  let n := roundmb nbytes in
  minv s bl' -> inCrit s = true -> 0 < nbytes <= 2 ^ 32 - 8 ->
  taken (memheap s) (maxaddr s) n x bl bl' ->
  exists s2, run (stkfree (x + n - 4) nbytes) s = Done OK (crit_out s2) /\ minv s2 bl /\
    mem_frame (crit_in s) s2.
Proof.
  intros n HM Hc Hb [_ _ Hal Hin _ _ Hback]. destruct (roundmb_spec nbytes Hb) as (H8 & Hr & Hpos).
  fold n in H8, Hr, Hpos. pose proof (mi_lo _ _ HM) as Hlo. pose proof (mi_hi _ _ HM) as Hhi.
  unfold stkfree. fold n. replace (x + n - 4 - n + 4) with x by lia. rewrite u32_small by lia.
  assert (Hnn : roundmb n = n) by (apply roundmb_id; lia).
  pose proof (memfree_spec s bl' x n) as Hf. rewrite Hnn in Hf.
  specialize (Hf HM Hc ltac:(lia) ltac:(lia) Hal ltac:(lia)).
  cbn zeta in Hf. rewrite Hback in Hf. destruct Hf as (s2 & Hrun2 & HM2 & Hf & _). by exists s2.
Qed.

(** Writing inside a block that is not free leaves the free list alone. *)
Lemma minv_write s bl lo hi m :
  minv s bl -> (forall y, isfree bl y -> y < lo \/ hi <= y) ->
  (forall w, w < lo \/ hi <= w -> m !! w = mem s !! w) ->
  (forall w, is_Some (m !! w) <-> is_Some (mem s !! w)) ->
  minv (set_mem m s) bl.
Proof.
  intros [H1 H2 H3 H4 H5 H6] Hfree Hout Hdom. constructor; ksimpl; try done.
  - apply (seg_frame (mem s)); [| done]. intros a l Hin.
    pose proof (fwf_bounds _ _ _ H2 a l Hin) as Hb.
    split; apply Hout, Hfree; exists a, l; (split; [done | lia]).
  - intros w Hw Hw4. apply Hdom. by apply H6.
Qed.

(** Freeing the stack that [stkget] returned restores the free list, block for
    block; a stack pointer is the last word of an 8-byte aligned block. *)
Theorem stkget_stkfree s bl nbytes p s1 :
  minv s bl -> inCrit s = true -> 0 < nbytes <= 2 ^ 32 - 8 ->
  run (stkget nbytes) s = Done p s1 -> p <> PTRERR ->
  (p + 4) mod 8 = 0 /\
  exists s2, run (stkfree p nbytes) s1 = Done OK s2 /\ minv s2 bl.
Proof.
  intros HM Hc Hb Hrun Hp. pose proof (stkget_spec s bl nbytes HM Hc Hb) as H.
  destruct (roundmb_spec nbytes Hb) as (H8 & Hr & Hpos).
  set (n := roundmb nbytes) in *. destruct (stkm n bl) as [[x bl']|]; [| congruence].
  destruct H as (s' & Hrun' & HM' & (m & q & k & E) & Htk & _). rewrite Hrun in Hrun'. injection Hrun' as -> ->.
  split; [pose proof (tk_align _ _ _ _ _ _ Htk); lia |].
  assert (Eh : memheap (crit_out s') = memheap s /\ maxaddr (crit_out s') = maxaddr s /\ inCrit (crit_out s') = true)
    by (rewrite E; done).
  destruct Eh as (E1 & E2 & E3). rewrite <- E1, <- E2 in Htk.
  destruct (stkfree_undo _ _ _ _ _ (proj2 (minv_crit_out s' bl') HM') E3 Hb Htk) as (s2 & Hrun2 & HM2 & _).
  exists (crit_out s2). split; [done |]. by apply minv_crit_out.
Qed.

(** A request within seven bytes of the largest unsigned int rounds to nothing:
    the caller gets a block that stays on the free list. *)
Theorem memget_wraps s a l r nbytes :
  minv s ((a, l) :: r) -> inCrit s = true -> 2 ^ 32 - 7 <= nbytes < 2 ^ 32 ->
  exists s', run (memget nbytes) s = Done a s' /\ minv s' ((a, l) :: r).
Proof.
  intros HM Hc Hb. pose proof HM as [(E & Hl & nx & Hnx & Hs) Hwf Hlen Hlo Hhi Hmap].
  pose proof (fwf_bounds _ _ _ Hwf a l ltac:(apply elem_of_cons; by left)) as Ha.
  pose proof (total_bounds _ _ _ Hwf ltac:(lia)) as Htot.
  assert (Hr0 : roundmb nbytes = 0).
  { unfold roundmb, u32. rewrite land_lnot7. change (2 ^ 32) with 4294967296 in *. lia. }
  unfold memget. rewrite u32_small by lia. rewrite (proj2 (Z.eqb_neq 0 nbytes)) by lia. rewrite Hr0.
  prun. unfold mem_fuel at 1. cbn [memget_loop]. rewrite E, (proj2 (Z.eqb_neq a NULL)) by (unfold NULL; lia).
  unfold get_len, set_len. cbn [set_next get_next]. prun.
  rewrite (proj2 (Z.eqb_neq l 0)), (proj2 (Z.gtb_lt l 0)) by lia. prun.
  rewrite Z.add_0_r, (u32_small a) by lia. prun. rewrite !Z.sub_0_r.
  rewrite (insert_id (mem s) a nx Hnx), (u32_small l), (insert_id (mem s) (a + 4) l Hl) by lia.
  eexists. split; [reflexivity |]. apply (minv_crit_out (set_memlist_length _ _)).
  constructor; ksimpl; try done.
  - cbn. eauto.
  - rewrite Hlen. apply u32_small. lia.
Qed.
