(* ===== verification/Boot.v ===== *)
(** Start-up: [sysinit] of system/initialize.c up to the device drivers, with
    mailbox/mailboxInit.c.  From the zeroed tables the C environment provides it
    establishes the kernel invariant and a free list of one block. *)
From Stdlib Require Import ZArith Lia.
From stdpp Require Import sorting gmap functions list.
From S2P Require Import Prelude Kernel Queue QueueFacts Sched Semaphore Clock Memory.

(** ** Routines *)

(** What [strlcpy] leaves in the buffer [dst] of [n] bytes for the string [src]. *)
Definition strlcpy_buf (n : nat) (dst src : list Z) : list Z :=
  let k := Nat.min (length src) (pred n) in
  take k src ++ [0] ++ drop (S k) dst.

(** The characters of the name of the null thread. *)
Definition prnull : list Z := [112; 114; 110; 117; 108; 108].

Definition mailboxInit : kprog Z :=
  for_ (Z.to_nat NMAILBOX) 0 (fun i _ =>
    amend mboxtab set_mboxtab i (set_x_state MAILBOX_FREE);;
    mret (inl tt : unit + unit)) tt;;
  sem ← semcreate 1;
  modify (set_mboxtabsem sem);;
  if sem =? NOSEM then mret SYSERR else mret OK.

(** The free list: one block from the end of the image to the end of memory. *)
Definition sysinit_memory : kprog unit :=
  mh ← gets memheap;
  modify (set_memheap (roundmb mh));;
  ma ← gets maxaddr;
  modify (set_maxaddr (truncmb ma));;
  mh ← gets memheap;
  ma ← gets maxaddr;
  modify (set_memlist_next mh);;
  modify (set_memlist_length (u32 (ma - mh)));;
  stw mh NULL;;
  stw (mh + 4) (u32 (ma - mh)).

(** The thread table and the null thread, whose stack starts at [endaddr]. *)
Definition sysinit_threads (endaddr : Z) : kprog unit :=
  for_ (Z.to_nat NTHREAD) 0 (fun i _ =>
    amend_thr i (set_t_state THRFREE);;
    mret (inl tt : unit + unit)) tt;;
  mh ← gets memheap;
  amend_thr NULLTHREAD (set_t_state THRCURR);;
  amend_thr NULLTHREAD (set_t_prio 0);;
  amend_thr NULLTHREAD (fun e => set_t_name (strlcpy_buf (Z.to_nat TNMLEN) (t_name e) prnull) e);;
  amend_thr NULLTHREAD (set_t_stkbase endaddr);;
  amend_thr NULLTHREAD (set_t_stklen (u32 (mh - endaddr)));;
  amend_thr NULLTHREAD (set_t_stkptr 0);;
  amend_thr NULLTHREAD (set_t_memlist_next NULL);;
  amend_thr NULLTHREAD (set_t_memlist_length 0);;
  modify (set_thrcurrent NULLTHREAD).

Definition sysinit_sems : kprog unit :=
  for_ (Z.to_nat NSEM) 0 (fun i _ =>
    amend_sem i (set_s_state SFREE);;
    q ← queinit;
    amend_sem i (set_s_queue q);;
    mret (inl tt : unit + unit)) tt;;
  mret tt.

(** [nmon] is the number of monitors of the configuration. *)
Definition sysinit (nmon endaddr : Z) : kprog Z :=
  modify (set_thrcount 1);;
  sysinit_memory;;
  sysinit_threads endaddr;;
  sysinit_sems;;
  for_ (Z.to_nat nmon) 0 (fun i _ =>
    amend montab set_montab i (set_m_state MFREE);;
    mret (inl tt : unit + unit)) tt;;
  for_ (Z.to_nat NPOOL) 0 (fun i _ =>
    amend bfptab set_bfptab i (set_b_state BFPFREE);;
    mret (inl tt : unit + unit)) tt;;
  q ← queinit;
  modify (set_readylist q);;
  clkinit;;
  mailboxInit;;
  mret OK.

(** ** Tables *)

(** A table of [n] equal entries. *)
Definition table {V} (n : Z) (v : V) : gmap Z V :=
  list_to_map ((fun i => (i, v)) <$> seqZ 0 n).

Lemma table_lookup {V} n (v : V) i : table n v !! i = if decide (0 <= i < n) then Some v else None.
Proof.
  unfold table. destruct (decide (0 <= i < n)) as [Hi | Hi].
  - apply elem_of_list_to_map.
    + rewrite <- list_fmap_compose. change (fst ∘ (fun j : Z => (j, v))) with (fun j : Z => j).
      rewrite list_fmap_id. apply NoDup_seqZ.
    + apply list_elem_of_fmap. exists i. split; [done |]. apply elem_of_seqZ. lia.
  - apply not_elem_of_list_to_map. rewrite <- list_fmap_compose.
    change (fst ∘ (fun j : Z => (j, v))) with (fun j : Z => j). rewrite list_fmap_id, elem_of_seqZ. lia.
Qed.

Lemma table_dom {V} n (v : V) i : is_Some (table n v !! i) <-> 0 <= i < n.
Proof. rewrite table_lookup. case_decide; [naive_solver |]. split; [by intros [] | done]. Qed.

(** A loop that changes the state of one entry at a time. *)
Lemma for_amend {V} (tab : kst -> gmap Z V) (put : gmap Z V -> kst -> kst) (f : V -> V) :
  (forall m s, tab (put m s) = m) -> (forall m m' s, put m (put m' s) = put m s) ->
  (forall s, put (tab s) s = s) ->
  forall n i s, (forall j, i <= j < i + Z.of_nat n -> is_Some (tab s !! j)) ->
  exists m, run (for_ n i (fun i _ => amend tab put i f;; mret (inl tt : unit + unit)) tt) s
      = Done (inl tt) (put m s) /\
    (forall j, i <= j < i + Z.of_nat n -> m !! j = f <$> tab s !! j) /\
    (forall j, ~ i <= j < i + Z.of_nat n -> m !! j = tab s !! j).
Proof.
  intros H1 H2 H3. induction n as [|n IH]; intros i s Hd.
  - exists (tab s). cbn. rewrite run_ret, H3. split_and!; [done | lia | done].
  - destruct (Hd i ltac:(lia)) as [v Hv]. cbn [for_]. rewrite run_bind, run_bind.
    rewrite (run_amend tab put i f v s Hv). cbn [obind]. rewrite run_ret. cbn [obind].
    destruct (IH (i + 1) (put (<[i := f v]> (tab s)) s)) as (m & Hrun & Hin & Hout).
    { intros j Hj. rewrite H1, lookup_insert_ne by lia. apply Hd. lia. }
    rewrite H1 in Hin, Hout. exists m. rewrite Hrun, H2. split_and!; [done | |].
    + intros j Hj. destruct (decide (i = j)) as [<- | Hne].
      * rewrite Hout by lia. by rewrite lookup_insert_eq, Hv.
      * rewrite Hin by lia. by rewrite lookup_insert_ne.
    + intros j Hj. rewrite Hout by lia. apply lookup_insert_ne. lia.
Qed.

(** ** The state before start-up *)

(** The tables have their sizes, the statics their initial values, every priority
    is zero, and the memory between the image and the end is there. *)
Record raw (nmon : Z) (s : kst) : Prop := {
  rw_que : forall i, is_Some (quetab s !! i) <-> 0 <= i < NQENT;
  rw_thr : forall i, is_Some (thrtab s !! i) <-> 0 <= i < NTHREAD;
  rw_prio : forall i e, thrtab s !! i = Some e -> t_prio e = 0;
  rw_sem : forall i, is_Some (semtab s !! i) <-> 0 <= i < NSEM;
  rw_mon : forall i, 0 <= i < nmon -> is_Some (montab s !! i);
  rw_bfp : forall i, 0 <= i < NPOOL -> is_Some (bfptab s !! i);
  rw_mbox : forall i, 0 <= i < NMAILBOX -> is_Some (mboxtab s !! i);
  rw_statics : nextqid s = NTHREAD /\ nexttid s = 0 /\ nextsem s = 0 /\ inCrit s = true /\ resdefer s = 0;
  rw_heap : 0 < memheap s /\ memheap s + 16 <= maxaddr s < 2 ^ 32;
  rw_map : forall w, memheap s <= w < maxaddr s -> w mod 4 = 0 -> is_Some (mem s !! w)
}.

(** Two states that agree on memory. *)
Definition mem_same (s s' : kst) : Prop :=
  mem s' = mem s /\ memlist_next s' = memlist_next s /\ memlist_length s' = memlist_length s /\
  memheap s' = memheap s /\ maxaddr s' = maxaddr s.

Lemma minv_same s s' bl : mem_same s s' -> minv s bl -> minv s' bl.
Proof.
  intros (E1 & E2 & E3 & E4 & E5) [H1 H2 H3 H4 H5 H6].
  constructor; rewrite ?E1, ?E2, ?E3, ?E4, ?E5; done.
Qed.

(** *** Memory *)

Lemma sysinit_memory_spec nmon s :
  raw nmon s ->
  let lo := roundmb (memheap s) in let hi := truncmb (maxaddr s) in
  exists m, let s' := set_mem m (set_memlist_length (hi - lo) (set_memlist_next lo
                        (set_maxaddr hi (set_memheap lo s)))) in
    run sysinit_memory s = Done tt s' /\ minv s' [(lo, hi - lo)] /\ memheap s <= lo /\ hi <= maxaddr s.
Proof.
  intros Hraw lo hi. destruct (rw_heap _ _ Hraw) as [Hlo0 Hhi0].
  destruct (roundmb_spec (memheap s)) as (H8 & Hr & Hp); [lia |]. fold lo in H8, Hr, Hp.
  assert (Hhi : hi mod 8 = 0 /\ maxaddr s - 8 < hi <= maxaddr s).
  { unfold hi, truncmb. rewrite land_lnot7, u32_small by lia. lia. }
  destruct (rw_map _ _ Hraw lo) as [v1 Hv1]; [lia | lia |].
  destruct (rw_map _ _ Hraw (lo + 4)) as [v2 Hv2]; [lia | lia |].
  unfold sysinit_memory. prun. fold lo hi. prun. rewrite (u32_small (hi - lo)) by lia.
  eexists. split; [apply f_equal; kst_eq |]. split_and!; [| lia | lia].
  constructor; ksimpl; try done.
  - cbn. split_and!; [done | apply lookup_insert_eq |]. exists NULL.
    by rewrite lookup_insert_ne, lookup_insert_eq by lia.
  - cbn. lia.
  - cbn. lia.
  - lia.
  - lia.
  - intros w Hw Hw4. rewrite !lookup_insert_is_Some'. do 2 right. apply (rw_map _ _ Hraw); lia.
Qed.

(** *** Threads *)

Lemma sysinit_threads_spec s endaddr :
  (forall i, is_Some (thrtab s !! i) <-> 0 <= i < NTHREAD) ->
  (forall i e, thrtab s !! i = Some e -> t_prio e = 0) ->
  exists tt, run (sysinit_threads endaddr) s =
      Done Datatypes.tt (set_thrcurrent NULLTHREAD (set_thrtab tt s)) /\
    (forall i, is_Some (tt !! i) <-> 0 <= i < NTHREAD) /\
    (forall i e, tt !! i = Some e -> t_prio e = 0 /\
       t_state e = if decide (i = NULLTHREAD) then THRCURR else THRFREE).
Proof.
  intros Hdom Hprio.
  destruct (for_amend thrtab set_thrtab (set_t_state THRFREE) ltac:(done) ltac:(done)
    ltac:(by intros []) (Z.to_nat NTHREAD) 0 s) as (m & Hrun & Hin & Hout).
  { intros j Hj. apply Hdom. klia. }
  assert (Hm : forall i e, m !! i = Some e -> t_prio e = 0 /\ t_state e = THRFREE /\ 0 <= i < NTHREAD).
  { intros i e He. destruct (decide (0 <= i < NTHREAD)) as [Hi | Hi].
    - rewrite Hin in He by klia. destruct (thrtab s !! i) as [e0|] eqn:E0; [| done].
      injection He as <-. cbn. split_and!; [by apply (Hprio i) | done | lia | lia].
    - rewrite Hout in He by klia. exfalso. apply Hi, Hdom. by rewrite He. }
  assert (Hmd : forall i, is_Some (m !! i) <-> 0 <= i < NTHREAD).
  { intros i. split; [intros [e He]; by apply (Hm i e) |]. intros Hi. rewrite Hin by klia.
    apply Hdom in Hi as [e ->]. by eexists. }
  destruct (proj2 (Hmd NULLTHREAD)) as [e0 He0]; [klia |].
  change (run (for_ (Z.to_nat NTHREAD) 0 (fun i _ =>
    amend_thr i (set_t_state THRFREE);; mret (inl Datatypes.tt : unit + unit)) Datatypes.tt) s =
    Done (inl Datatypes.tt) (set_thrtab m s)) in Hrun.
  unfold sysinit_threads. rewrite run_bind, Hrun. cbn [obind]. prun. rewrite !insert_insert_eq.
  eexists. split; [apply f_equal; kst_eq |]. split.
  - intros i. by rewrite (insert_same_dom _ _ _ _ _ He0).
  - intros i e. rewrite lookup_insert. destruct (decide (NULLTHREAD = i)) as [<- | Hne].
    + intros [= <-]. by rewrite decide_True.
    + intros He. rewrite decide_False by done. by destruct (Hm i e He) as (? & ? & _).
Qed.

(** *** Semaphores *)

Lemma sysinit_sems_loop : forall n i s,
  qrep (nextqid s) (quetab s) (fun _ => []) -> nextqid s = semq i -> 0 <= i ->
  i + Z.of_nat n <= NSEM -> (forall j, is_Some (semtab s !! j) <-> 0 <= j < NSEM) ->
  (forall j e, 0 <= j < i -> semtab s !! j = Some e -> s_state e = SFREE /\ s_queue e = semq j) ->
  exists qt st, let s' := set_quetab qt (set_semtab st (set_nextqid (semq (i + Z.of_nat n)) s)) in
    run (for_ n i (fun i _ =>
      amend_sem i (set_s_state SFREE);; q ← queinit; amend_sem i (set_s_queue q);;
      mret (inl tt : unit + unit)) tt) s = Done (inl tt) s' /\
    qrep (semq (i + Z.of_nat n)) qt (fun _ => []) /\
    (forall j, is_Some (st !! j) <-> 0 <= j < NSEM) /\
    (forall j e, 0 <= j < i + Z.of_nat n -> st !! j = Some e -> s_state e = SFREE /\ s_queue e = semq j).
Proof.
  induction n as [|n IH]; intros i s HQ Hq Hi Hn Hdom Hok.
  - exists (quetab s), (semtab s). cbn [for_]. rewrite run_ret, Z.add_0_r, <- Hq.
    split_and!; [by destruct s | done | done | done].
  - destruct (proj2 (Hdom i)) as [e He]; [lia |]. cbn [for_]. prun.
    set (s1 := set_semtab _ s).
    destruct (queinit_spec s1 (fun _ => [])) as (qt1 & Hrun & Hrep & _); try done; unfold s1; ksimpl;
      rewrite ?Hq; [unfold semq; klia | unfold semq; klia | unfold semq; klia |].
    change (nextqid s1) with (nextqid s) in Hrep, Hrun. unfold s1 in Hrun. use_run Hrun. prun.
    rewrite insert_insert_eq. rewrite Hq in *.
    destruct (IH (i + 1) (set_semtab (<[i := set_s_queue (semq i) (set_s_state SFREE e)]> (semtab s))
      (set_quetab qt1 (set_nextqid (semq i + 2) s)))) as (qt & st & Hrun' & HQ' & Hd' & Hok'); ksimpl.
    + eapply qrep_Q_ext; [| exact Hrep]. intros q _. destruct (decide (semq i = q)) as [<- | Hne].
      * by rewrite fn_lookup_insert.
      * by rewrite fn_lookup_insert_ne.
    + unfold semq. lia.
    + lia.
    + lia.
    + intros j. by rewrite (insert_same_dom _ _ _ _ _ He).
    + intros j e0 Hj. rewrite lookup_insert. destruct (decide (i = j)) as [<- | Hne]; [by intros [= <-] |].
      intros He0. apply Hok; [lia | done].
    + replace (i + 1 + Z.of_nat n) with (i + Z.of_nat (S n)) in * by lia.
      by exists qt, st.
Qed.

(** *** All of it *)

Lemma qrep_none qt : (forall i, is_Some (qt !! i) <-> 0 <= i < NQENT) -> qrep NTHREAD qt (fun _ => []).
Proof.
  intros Hd. constructor; try done; unfold isq; intros; try lia; by apply elem_of_nil in H0.
Qed.

Lemma kinv_boot s :
  kstatic s -> qrep NQENT (quetab s) (fun _ => []) ->
  (forall i, is_Some (thrtab s !! i) <-> 0 <= i < NTHREAD) ->
  (forall i e, thrtab s !! i = Some e -> t_prio e = 0 /\
     t_state e = if decide (i = NULLTHREAD) then THRCURR else THRFREE) ->
  thrcurrent s = NULLTHREAD ->
  (forall j, is_Some (semtab s !! j) <-> 0 <= j < NSEM) ->
  (forall j e, semtab s !! j = Some e -> s_state e = SFREE /\ s_queue e = semq j) ->
  kinv s (fun _ => []).
Proof.
  intros Hs HQ Hd Ht Hc Hsd Hse. split; [done | | |].
  - constructor; [done | | |].
    + constructor.
    + intros x Hx. by apply elem_of_nil in Hx.
    + cbn. klia.
  - constructor; [done | | | | |].
    + intros t e q He Hq. destruct (Ht t e He) as [_ Hst]. unfold loc. rewrite Hst.
      rewrite elem_of_nil. by case_decide.
    + intros t e He. destruct (Ht t e He) as [_ ->]. by case_decide.
    + intros t e He. destruct (Ht t e He) as [-> _]. by compute.
    + intros e He. destruct (Ht _ e He) as [_ ->]. left. by rewrite decide_True.
    + intros t e He. destruct (Ht t e He) as [_ ->]. case_decide; [by subst | done].
  - constructor; [done | | |].
    + intros j e He. by apply (Hse j e He).
    + intros j e He. destruct (Hse j e He) as [-> _]. done.
    + done.
Qed.

(** The progress of start-up: [thr] says whether the thread table is set up, [nsem]
    semaphores are, and [nq] is the next queue to hand out. *)
Record stage (nmon : Z) (bl : list (Z * Z)) (thr : bool) (nsem nq : Z) (s : kst) : Prop := {
  sg_que : qrep nq (quetab s) (fun _ => []);
  sg_nq : nextqid s = nq;
  sg_thrd : forall i, is_Some (thrtab s !! i) <-> 0 <= i < NTHREAD;
  sg_prio : forall i e, thrtab s !! i = Some e -> t_prio e = 0;
  sg_thr : thr = true -> thrcurrent s = NULLTHREAD /\ forall i e, thrtab s !! i = Some e ->
    t_state e = if decide (i = NULLTHREAD) then THRCURR else THRFREE;
  sg_semd : forall i, is_Some (semtab s !! i) <-> 0 <= i < NSEM;
  sg_sem : forall i e, 0 <= i < nsem -> semtab s !! i = Some e -> s_state e = SFREE /\ s_queue e = semq i;
  sg_mon : forall i, 0 <= i < nmon -> is_Some (montab s !! i);
  sg_bfp : forall i, 0 <= i < NPOOL -> is_Some (bfptab s !! i);
  sg_mbox : forall i, 0 <= i < NMAILBOX -> is_Some (mboxtab s !! i);
  sg_statics : nexttid s = 0 /\ nextsem s = 0 /\ inCrit s = true /\ resdefer s = 0;
  sg_mem : minv s bl
}.

(** [m] returns from a state that satisfies [P], in one that satisfies [R]. *)
Definition returns {A} (P : kst -> Prop) (m : kprog A) (R : A -> kst -> Prop) : Prop :=
  forall s, P s -> exists a s', run m s = Done a s' /\ R a s'.

Lemma returns_bind {A B} P (m : kprog A) (f : A -> kprog B) R R' :
  returns P m R -> (forall a, returns (R a) (f a) R') -> returns P (m ≫= f) R'.
Proof.
  intros Hm Hf s Hs. destruct (Hm s Hs) as (a & s1 & Hrun & H1).
  destruct (Hf a s1 H1) as (b & s2 & Hrun2 & H2). exists b, s2. by rewrite run_bind, Hrun.
Qed.

Section Stages.
Context (nmon endaddr : Z) (bl : list (Z * Z)).

Lemma stage_threads :
  returns (stage nmon bl false 0 NTHREAD) (sysinit_threads endaddr)
    (fun _ => stage nmon bl true 0 NTHREAD).
Proof.
  intros s [H1 H2 H3 H4 _ H5 H6 H7 H8 H9 H10 H11].
  destruct (sysinit_threads_spec s endaddr H3 H4) as (tt & -> & Hd & Ht).
  eexists _, _. split; [reflexivity |]. constructor; ksimpl; try done.
  - intros i e He. by apply (Ht i e).
  - intros _. split; [done |]. intros i e He. by apply (Ht i e).
  - destruct H11. by constructor.
Qed.

Lemma stage_sems :
  returns (stage nmon bl true 0 NTHREAD) sysinit_sems (fun _ => stage nmon bl true NSEM READYQ).
Proof.
  intros s [H1 H2 H3 H4 H4' H5 H6 H7 H8 H9 H10 H11].
  destruct (sysinit_sems_loop (Z.to_nat NSEM) 0 s) as (qt & st & Hrun & HQ & Hd & Hok);
    [by rewrite H2 | by rewrite H2 | done | klia | done | intros; lia |].
  replace (semq (0 + Z.of_nat (Z.to_nat NSEM))) with READYQ in * by (unfold semq, READYQ; klia).
  unfold sysinit_sems. eexists _, _. rewrite run_bind, Hrun. split; [reflexivity |].
  constructor; ksimpl; try done.
  destruct H11. by constructor.
Qed.

Lemma stage_mons :
  returns (stage nmon bl true NSEM READYQ)
    (for_ (Z.to_nat nmon) 0 (fun i _ =>
       amend montab set_montab i (set_m_state MFREE);; mret (inl tt : unit + unit)) tt)
    (fun _ => stage nmon bl true NSEM READYQ).
Proof.
  intros s [H1 H2 H3 H4 H4' H5 H6 H7 H8 H9 H10 H11].
  destruct (for_amend montab set_montab (set_m_state MFREE) ltac:(done) ltac:(done)
    ltac:(by intros []) (Z.to_nat nmon) 0 s) as (m & -> & Hin & Hout); [intros j Hj; apply H7; lia |].
  eexists _, _. split; [reflexivity |]. constructor; ksimpl; try done.
  - intros i Hi. rewrite Hin by lia. destruct (H7 i Hi) as [e ->]. by eexists.
  - destruct H11. by constructor.
Qed.

Lemma stage_pools :
  returns (stage nmon bl true NSEM READYQ)
    (for_ (Z.to_nat NPOOL) 0 (fun i _ =>
       amend bfptab set_bfptab i (set_b_state BFPFREE);; mret (inl tt : unit + unit)) tt)
    (fun _ => stage nmon bl true NSEM READYQ).
Proof.
  intros s [H1 H2 H3 H4 H4' H5 H6 H7 H8 H9 H10 H11].
  destruct (for_amend bfptab set_bfptab (set_b_state BFPFREE) ltac:(done) ltac:(done)
    ltac:(by intros []) (Z.to_nat NPOOL) 0 s) as (m & -> & Hin & Hout); [intros j Hj; apply H8; klia |].
  eexists _, _. split; [reflexivity |]. constructor; ksimpl; try done.
  - intros i Hi. rewrite Hin by klia. destruct (H8 i Hi) as [e ->]. by eexists.
  - destruct H11. by constructor.
Qed.

(** The last two queues. *)
Lemma stage_queue q :
  NTHREAD <= q -> q mod 2 = 0 -> q + 2 <= NQENT ->
  returns (stage nmon bl true NSEM q) queinit
    (fun r s => r = q /\ stage nmon bl true NSEM (q + 2) s).
Proof.
  intros Hlo Hev Hhi s [H1 H2 H3 H4 H4' H5 H6 H7 H8 H9 H10 H11].
  destruct (queinit_spec s (fun _ => [])) as (qt & -> & Hrep & _); rewrite ?H2; try done.
  eexists _, _. split; [reflexivity |]. split; [done |]. rewrite H2 in *. constructor; ksimpl; try done.
  - eapply qrep_Q_ext; [| exact Hrep]. intros q' _. destruct (decide (q = q')) as [<- | Hne].
    + by rewrite fn_lookup_insert.
    + by rewrite fn_lookup_insert_ne.
  - destruct H11. by constructor.
Qed.
End Stages.

Lemma stage_clock nmon bl :
  returns (fun s => stage nmon bl true NSEM SLEEPQ s /\ readylist s = READYQ) clkinit
    (fun _ s => stage nmon bl true NSEM NQENT s /\ readylist s = READYQ /\ sleepq s = SLEEPQ).
Proof.
  intros s [Hs Hr]. destruct (stage_queue nmon bl SLEEPQ) with (s := s) as (q & s1 & Hrun & -> & H1); try done.
  assert (Hr1 : readylist s1 = READYQ).
  { revert Hrun. unfold queinit. intros Hrun.
    destruct (queinit_spec s (fun _ => [])) as (qt & Hrun' & _).
    - rewrite (sg_nq _ _ _ _ _ _ Hs). apply (sg_que _ _ _ _ _ _ Hs).
    - by rewrite (sg_nq _ _ _ _ _ _ Hs).
    - by rewrite (sg_nq _ _ _ _ _ _ Hs).
    - by rewrite (sg_nq _ _ _ _ _ _ Hs).
    - unfold queinit in Hrun'. rewrite Hrun in Hrun'. by injection Hrun' as _ ->. }
  unfold clkinit, clkupdate. rewrite run_bind, Hrun. cbn [obind]. prun.
  eexists _, _. split; [reflexivity |]. split; [| done].
  destruct H1 as [? ? ? ? ? ? ? ? ? ? ? H11]. constructor; ksimpl; try done. destruct H11. by constructor.
Qed.

Lemma stage_mailbox nmon bl :
  returns (fun s => stage nmon bl true NSEM NQENT s /\ readylist s = READYQ /\ sleepq s = SLEEPQ)
    mailboxInit (fun r s => r = OK /\ kinv s (fun _ => []) /\ running s /\ minv s bl /\
      exists k, mboxtabsem s = k /\ semtab s !! k = Some (mkSement SUSED 1 (semq k))).
Proof.
  intros s ([H1 H2 H3 H4 H4' H5 H6 H7 H8 H9 H10 H11] & Hr & Hsl).
  destruct (for_amend mboxtab set_mboxtab (set_x_state MAILBOX_FREE) ltac:(done) ltac:(done)
    ltac:(by intros []) (Z.to_nat NMAILBOX) 0 s) as (m & Hrun & _ & _); [intros j Hj; apply H9; klia |].
  destruct H10 as (H10 & H10a & H10b & H10c).
  destruct (H4' eq_refl) as [Hcur Hst].
  assert (HI : kinv (set_mboxtab m s) (fun _ => [])).
  { apply kinv_boot; ksimpl; try done.
    - constructor; ksimpl; try done; try (rewrite ?Hcur, ?H10, ?H10a; klia).
    - intros i e He. split; [by apply (H4 i) | by apply Hst].
    - intros j e He. apply (H6 j e); [| done]. apply H5. by rewrite He. }
  unfold mailboxInit. rewrite run_bind, Hrun. cbn [obind].
  destruct (semcreate_spec (set_mboxtab m s) (fun _ => []) 1 HI) as [(k & e & He & Hf & _ & Hrun2 & HI2) | [_ Hall]];
    [klia | |].
  - rewrite run_bind, Hrun2. cbn [obind]. prun.
    pose proof (sem_range (ki_sems _ _ HI) He) as Hk.
    rewrite (proj2 (Z.eqb_neq k NOSEM)) by (unfold NOSEM, u32, SYSERR; klia). prun.
    eexists _, _. split; [reflexivity |]. split; [done |]. split_and!.
    + eapply kinv_view; [| exact HI2]. unfold kview. by ksimpl.
    + split; [| cbn; lia]. ksimpl. rewrite Hcur.
      destruct (proj2 (H3 NULLTHREAD)) as [e0 He0]; [klia |]. exists e0. split; [done |].
      by rewrite (Hst _ _ He0), decide_True.
    + eapply minv_same; [| exact H11]. unfold mem_same. by ksimpl.
    + exists k. split; [done |]. ksimpl. apply lookup_insert_eq.
  - exfalso. destruct (proj2 (H5 0)) as [e0 He0]; [klia |].
    pose proof (Hall 0 e0 He0) as Hu. destruct (H6 0 e0) as [Hf _]; [klia | done |]. congruence.
Qed.

(** Start-up succeeds and establishes the invariant of the kernel, with the null
    thread current, nobody in any queue, and all of the heap in one free block. *)
Lemma sysinit_spec nmon endaddr s :
  raw nmon s ->
  exists s', run (sysinit nmon endaddr) s = Done OK s' /\ kinv s' (fun _ => []) /\ running s' /\
    minv s' [(roundmb (memheap s), truncmb (maxaddr s) - roundmb (memheap s))] /\
    exists k, mboxtabsem s' = k /\ semtab s' !! k = Some (mkSement SUSED 1 (semq k)).
Proof.
  intros Hraw. set (bl := [_]).
  assert (Hall : returns (eq s) (sysinit nmon endaddr) (fun r s' => r = OK /\ kinv s' (fun _ => []) /\ running s' /\
    minv s' bl /\ exists k, mboxtabsem s' = k /\ semtab s' !! k = Some (mkSement SUSED 1 (semq k)))).
  { unfold sysinit.
    apply returns_bind with (R := fun _ s0 => s0 = set_thrcount 1 s); [intros s0 <-; by eexists _, _ | intros _].
    apply returns_bind with (R := fun _ => stage nmon bl false 0 NTHREAD); [| intros _].
    { intros s0 ->. assert (Hraw1 : raw nmon (set_thrcount 1 s)) by (destruct Hraw; by constructor).
      destruct (sysinit_memory_spec nmon _ Hraw1) as (m & -> & HM & _ & _).
      eexists _, _. split; [reflexivity |]. destruct Hraw. constructor; ksimpl; try done.
      - by apply qrep_none.
      - intuition.
      - intros; lia.
      - intuition. }
    apply returns_bind with (R := fun _ => stage nmon bl true 0 NTHREAD); [apply stage_threads | intros _].
    apply returns_bind with (R := fun _ => stage nmon bl true NSEM READYQ); [apply stage_sems | intros _].
    apply returns_bind with (R := fun _ => stage nmon bl true NSEM READYQ); [apply stage_mons | intros _].
    apply returns_bind with (R := fun _ => stage nmon bl true NSEM READYQ); [apply stage_pools | intros _].
    apply returns_bind with (R := fun r s => r = READYQ /\ stage nmon bl true NSEM SLEEPQ s);
      [by apply stage_queue | intros q].
    apply returns_bind with (R := fun _ s => stage nmon bl true NSEM SLEEPQ s /\ readylist s = READYQ).
    { intros s0 [-> H]. eexists _, _. split; [reflexivity |]. split; [| done].
      destruct H as [? ? ? ? ? ? ? ? ? ? ? H11]. constructor; ksimpl; try done. destruct H11. by constructor. }
    intros _. apply returns_bind with (R := fun _ s =>
      stage nmon bl true NSEM NQENT s /\ readylist s = READYQ /\ sleepq s = SLEEPQ); [apply stage_clock | intros _].
    eapply returns_bind; [apply stage_mailbox | intros r].
    intros s0 (_ & H). by exists OK, s0. }
  destruct (Hall s eq_refl) as (r & s' & Hrun & -> & H). by exists s'.
Qed.

(** ** A machine to start *)

Definition thr0 : thrent :=
  mkThrent THRFREE 0 0 0 0 (repeat 0 16) 0 0 0 0 false false 0 0 0 (repeat 0 5).

(** Zeroed tables, interrupts enabled in system mode, and [hi - lo] bytes of
    memory above the image. *)
Definition bss (nmon lo hi : Z) : kst :=
  mkKst (table NQENT (mkQueent 0 0 0)) NTHREAD (table NTHREAD thr0) 0 0 0 0 0 0
    (table NSEM (mkSement SFREE 0 0)) 0 (table nmon (mkMonent MFREE 0 0 0)) 0 0 0
    ARM_MODE_SYS true 0
    (list_to_map ((fun i => (4 * i, 0)) <$> seqZ (lo / 4) ((hi - lo) / 4 + 1)))
    0 0 lo hi (table NPOOL (mkBfpentry BFPFREE 0 0 0 0 0))
    (table NMAILBOX (mkMbox 0 0 0 0 0 MAILBOX_FREE 0)) 0 0 0 0 0 1000000.

Lemma bss_raw nmon lo hi :
  0 < lo -> lo + 16 <= hi < 2 ^ 32 -> lo mod 4 = 0 -> raw nmon (bss nmon lo hi).
Proof.
  intros Hlo Hhi Hl4. constructor; cbn [quetab thrtab semtab montab bfptab mboxtab mem memheap maxaddr bss];
    try (intros i; apply table_dom); try (intros i Hi; by apply table_dom); try done.
  - intros i e. rewrite table_lookup. case_decide; [by intros [= <-] | done].
  - intros w Hw Hw4. exists 0. apply elem_of_list_to_map.
    + rewrite <- list_fmap_compose. apply NoDup_fmap_2; [| apply NoDup_seqZ].
      intros x y. cbn. lia.
    + apply list_elem_of_fmap. exists (w / 4). rewrite elem_of_seqZ. split; [f_equal; lia | lia].
Qed.

(** A small machine after start-up. *)
Definition boot : kst :=
  match run (sysinit 2 1024) (bss 2 4096 8192) with Done _ s => s | _ => bss 2 4096 8192 end.

Lemma boot_ok :
  kinv boot (fun _ => []) /\ running boot /\ minv boot [(4096, 4096)].
Proof.
  destruct (sysinit_spec 2 1024 (bss 2 4096 8192)) as (s' & Hrun & HI & Hr & HM & _).
  { apply bss_raw; [lia | lia | done]. }
  unfold boot. rewrite Hrun. by split_and!.
Qed.

Lemma boot_init : run (sysinit 2 1024) (bss 2 4096 8192) = Done OK boot.
Proof.
  destruct (sysinit_spec 2 1024 (bss 2 4096 8192)) as (s' & Hrun & _).
  { apply bss_raw; [lia | lia | done]. }
  unfold boot. by rewrite Hrun.
Qed.
