(* ===== verification/Frame.v ===== *)
(** The kernel routines and memory.  The scheduler, the semaphores, the clock and
    the message routines never touch the heap or the free list, whatever they do:
    this file proves it from the structure of the routines, and adds the state of
    the allocator to the kernel invariant. *)
From Stdlib Require Import ZArith Lia.
From stdpp Require Import sorting gmap functions list.
From S2P Require Import Prelude Kernel Queue QueueFacts Sched Semaphore Clock Message Memory Boot.

(** ** Routines that leave memory alone *)

Abbreviation mframe := mem_same.

Inductive keeps {A : Type} : kprog A -> Prop :=
  | keeps_prog m : (forall s, keeps_out s (run m s)) -> keeps m
with keeps_out {A : Type} : kst -> outcome kst A -> Prop :=
  | ko_done s0 a s : mframe s0 s -> keeps_out s0 (Done a s)
  | ko_switch s0 s k : mframe s0 s -> keeps k -> keeps_out s0 (Switch s k)
  | ko_fault s0 : keeps_out s0 Fault
  | ko_diverge s0 : keeps_out s0 Diverge
  | ko_halted s0 s : keeps_out s0 (Halted s).

Scheme keeps_mind := Induction for keeps Sort Prop
  with keeps_out_mind := Induction for keeps_out Sort Prop.

Create HintDb keeps.

Lemma mframe_refl s : mframe s s.
Proof. done. Qed.

Lemma mframe_trans s1 s2 s3 : mframe s1 s2 -> mframe s2 s3 -> mframe s1 s3.
Proof.
  intros (A1 & A2 & A3 & A4 & A5) (C1 & C2 & C3 & C4 & C5).
  unfold mem_same. by rewrite C1, C2, C3, C4, C5.
Qed.

Lemma keeps_out_weaken {A} s0 s1 (o : outcome kst A) :
  mframe s0 s1 -> keeps_out s1 o -> keeps_out s0 o.
Proof.
  intros Hf Ho. destruct Ho; econstructor; try done; by eapply mframe_trans.
Qed.

Lemma keeps_bind {A B} (m : kprog A) (f : A -> kprog B) :
  keeps m -> (forall a, keeps (f a)) -> keeps (m ≫= f).
Proof.
  intros Hm Hf. revert m Hm.
  apply (keeps_mind A (fun m _ => keeps (m ≫= f)) (fun s o _ => keeps_out s (obind f o))).
  - intros m _ IH. constructor. intros s. rewrite run_bind. apply IH.
  - intros s0 a s Hs. cbn [obind]. destruct (Hf a) as [m Hm]. by eapply keeps_out_weaken.
  - intros s0 s k Hs _ IH. cbn [obind]. by constructor.
  - constructor.
  - constructor.
  - constructor.
Qed.

Lemma keeps_ret {A} (a : A) : keeps (mret a).
Proof. constructor. intros s. by constructor. Qed.

Lemma keeps_gets {A} (f : kst -> A) : keeps (gets f).
Proof. constructor. intros s. by constructor. Qed.

Lemma keeps_load {V} (tab : kst -> gmap Z V) i : keeps (load tab i).
Proof.
  constructor. intros s. unfold load, run. destruct (tab s !! i); constructor. done.
Qed.

Lemma keeps_modify f : (forall s, mframe s (f s)) -> keeps (modify f).
Proof. intros H. constructor. intros s. constructor. apply H. Qed.

Lemma keeps_amend {V} (tab : kst -> gmap Z V) put i f :
  (forall m s, mframe s (put m s)) -> keeps (amend tab put i f).
Proof.
  intros H. constructor. intros s. unfold amend, run. destruct (tab s !! i); constructor. apply H.
Qed.

Lemma keeps_switch : keeps switch.
Proof. constructor. intros s. rewrite run_switch. constructor; [done | apply keeps_ret]. Qed.

Lemma keeps_int x : keeps (int x).
Proof. apply keeps_ret. Qed.

Lemma keeps_halted {A} : keeps (halted (A := A)).
Proof. constructor. intros s. constructor. Qed.

Lemma keeps_while {A} n (c : A -> kprog bool) (b : A -> kprog A) a :
  (forall a, keeps (c a)) -> (forall a, keeps (b a)) -> keeps (while_ n c b a).
Proof.
  intros Hc Hb. revert a. induction n as [|n IH]; intros a; cbn [while_].
  - constructor. intros s. constructor.
  - apply keeps_bind; [done |]. intros []; [apply keeps_bind; auto | apply keeps_ret].
Qed.

Lemma keeps_for {A R} n : forall i (b : Z -> A -> kprog (A + R)) a,
  (forall i a, keeps (b i a)) -> keeps (for_ n i b a).
Proof.
  induction n as [|n IH]; intros i b a Hb; cbn [for_]; [apply keeps_ret |].
  apply keeps_bind; [done |]. intros [x|v]; [by apply IH | apply keeps_ret].
Qed.

#[export] Hint Resolve keeps_ret keeps_gets keeps_load keeps_switch keeps_int keeps_halted : keeps.

(** [keeps_tac] follows the structure of a routine. *)
Ltac keeps_tac :=
  repeat first
  [ progress intros
  | solve [auto with keeps nocore]
  | match goal with
    | |- keeps (while_ _ _ _ _) => apply keeps_while
    | |- keeps (for_ _ _ _ _) => apply keeps_for
    | |- keeps (mbind _ _) => apply keeps_bind
    end
  | apply keeps_modify; intros; done
  | apply keeps_amend; intros; done
  | match goal with
    | |- keeps (if ?b then _ else _) => destruct b
    | |- keeps (match ?x with _ => _ end) => destruct x
    end ].

Lemma keeps_disable : keeps disable.
Proof. unfold disable. keeps_tac. Qed.
Lemma keeps_restore im : keeps (restore im).
Proof. unfold restore. keeps_tac. Qed.
Lemma keeps_qent i : keeps (qent i).
Proof. unfold qent. keeps_tac. Qed.
Lemma keeps_thr i : keeps (thr i).
Proof. unfold thr. keeps_tac. Qed.
Lemma keeps_semx i : keeps (semx i).
Proof. unfold semx. keeps_tac. Qed.
Lemma keeps_amend_q i f : keeps (amend_q i f).
Proof. unfold amend_q. keeps_tac. Qed.
Lemma keeps_amend_thr i f : keeps (amend_thr i f).
Proof. unfold amend_thr. keeps_tac. Qed.
Lemma keeps_amend_sem i f : keeps (amend_sem i f).
Proof. unfold amend_sem. keeps_tac. Qed.
#[export] Hint Resolve keeps_disable keeps_restore keeps_qent keeps_thr keeps_semx
  keeps_amend_q keeps_amend_thr keeps_amend_sem : keeps.

Lemma keeps_ENTER : keeps ENTER_KERNEL_CRITICAL_SECTION.
Proof. unfold ENTER_KERNEL_CRITICAL_SECTION. keeps_tac. Qed.
Lemma keeps_EXIT : keeps EXIT_KERNEL_CRITICAL_SECTION.
Proof. unfold EXIT_KERNEL_CRITICAL_SECTION. keeps_tac. Qed.
Lemma keeps_isbadtid x : keeps (isbadtid x).
Proof. unfold isbadtid. keeps_tac. Qed.
Lemma keeps_isbadsem x : keeps (isbadsem x).
Proof. unfold isbadsem. keeps_tac. Qed.
#[export] Hint Resolve keeps_ENTER keeps_EXIT keeps_isbadtid keeps_isbadsem : keeps.

Lemma keeps_getitem t : keeps (getitem t).
Proof. unfold getitem. keeps_tac. Qed.
Lemma keeps_isempty q : keeps (isempty q).
Proof. unfold isempty. keeps_tac. Qed.
Lemma keeps_nonempty q : keeps (nonempty q).
Proof. unfold nonempty. keeps_tac. Qed.
Lemma keeps_firstid q : keeps (firstid q).
Proof. unfold firstid. keeps_tac. Qed.
Lemma keeps_firstkey q : keeps (firstkey q).
Proof. unfold firstkey. keeps_tac. Qed.
#[export] Hint Resolve keeps_getitem keeps_isempty keeps_nonempty keeps_firstid keeps_firstkey : keeps.

Lemma keeps_getfirst q : keeps (getfirst q).
Proof. unfold getfirst. keeps_tac. Qed.
#[export] Hint Resolve keeps_getfirst : keeps.
Lemma keeps_dequeue q : keeps (dequeue q).
Proof. unfold dequeue. keeps_tac. Qed.
Lemma keeps_enqueue t q : keeps (enqueue t q).
Proof. unfold enqueue. keeps_tac. Qed.
Lemma keeps_insert t q k : keeps (insert t q k).
Proof. unfold insert. keeps_tac. Qed.
Lemma keeps_insertd t q k : keeps (insertd t q k).
Proof. unfold insertd. keeps_tac. Qed.
#[export] Hint Resolve keeps_dequeue keeps_enqueue keeps_insert keeps_insertd : keeps.

Lemma keeps_thread_ready t : keeps (thread_ready t).
Proof. unfold thread_ready. keeps_tac. Qed.
Lemma keeps_resched_pick o rl : keeps (resched_pick o rl).
Proof. unfold resched_pick, ctxsw, resched_tail. keeps_tac. Qed.
#[export] Hint Resolve keeps_thread_ready keeps_resched_pick : keeps.
Lemma keeps_resched : keeps resched.
Proof. unfold resched. keeps_tac. Qed.
Lemma keeps_ready t : keeps (ready t).
Proof. unfold ready. keeps_tac. Qed.
Lemma keeps_sem_release q : keeps (sem_release q).
Proof. unfold sem_release. keeps_tac. Qed.
Lemma keeps_delay_remove t : keeps (delay_remove t).
Proof. unfold delay_remove. keeps_tac. Qed.
#[export] Hint Resolve keeps_resched keeps_ready keeps_sem_release keeps_delay_remove : keeps.

Lemma keeps_semalloc : keeps semalloc.
Proof. unfold semalloc, semalloc_body. keeps_tac. Qed.
Lemma keeps_receive_take t : keeps (receive_take t).
Proof. unfold receive_take. keeps_tac. Qed.
Lemma keeps_recvtime_take t : keeps (recvtime_take t).
Proof. unfold recvtime_take. keeps_tac. Qed.
Lemma keeps_wakeup : keeps wakeup.
Proof. unfold wakeup, wakeup_loop. keeps_tac. Qed.
Lemma keeps_signaln_step i : keeps (signaln_step i).
Proof. unfold signaln_step. keeps_tac. Qed.
#[export] Hint Resolve keeps_semalloc keeps_receive_take keeps_recvtime_take keeps_wakeup keeps_signaln_step : keeps.
