(* ===== verification/Thread.v ===== *)
(** Threads: system/create.c, system/kill.c, system/userret.c, system/xdone.c and
    the context record system/platforms/arm-rpi/setupStack.c builds for a new
    thread. *)
From Stdlib Require Import ZArith Lia.
From stdpp Require Import sorting gmap functions list.
From S2P Require Import Prelude Kernel Queue QueueFacts Sched Semaphore Clock Message Memory Boot Frame.

(** ** Routines *)

(** The words of the context record. *)
Definition CONTEXT_WORDS : Z := 15.
Definition MAX_REG_ARGS : Z := 4.

(** [va_arg]: the next argument; reading past the last one is not defined. *)
Definition va_arg (ap : list Z) : kprog (Z * list Z) :=
  match ap with v :: ap' => mret (v, ap') | [] => fault end.

(** [for (i = i0; i < i0 + n; i++) saddr[i + off] = va_arg(ap, unsigned long);] *)
Definition store_args (saddr off : Z) (n : nat) (i0 : Z) (ap : list Z) : kprog (list Z) :=
  r ← for_ n i0 (fun i ap =>
        va ← va_arg ap;
        stw (u32 (saddr + 4 * (i + off))) va.1;;
        mret (inl va.2 : list Z + unit)) ap;
  match r with inl ap => mret ap | inr _ => mret [] end.

(** [FPU_WORDS] is 34 when the compiler targets the VFP unit ([__ARM_FP == 12]),
    and then the first two words hold the two registers given; else it is 0. *)
Definition setupStack (FPU_WORDS fpexc fpscr : Z)
    (stackaddr procaddr retaddr nargs : Z) (ap : list Z) : kprog Z :=
  let nargs := u32 nargs in
  let '(spilled_nargs, reg_nargs, saddr) :=
    if nargs >? MAX_REG_ARGS
    then (nargs - MAX_REG_ARGS, MAX_REG_ARGS, u32 (stackaddr - 4 * (nargs - MAX_REG_ARGS)))
    else (0, nargs, stackaddr) in
  let saddr := if negb (Z.land saddr 4 =? 0) then u32 (saddr - 4) else saddr in
  let saddr := u32 (saddr - 4 * (CONTEXT_WORDS + FPU_WORDS)) in
  (if FPU_WORDS =? 0 then mret tt
   else stw saddr fpexc;; stw (u32 (saddr + 4)) fpscr);;
  ap ← store_args saddr FPU_WORDS (Z.to_nat reg_nargs) 0 ap;
  for_ (Z.to_nat (CONTEXT_WORDS + FPU_WORDS - 3 - reg_nargs)) reg_nargs (fun i _ =>
    stw (u32 (saddr + 4 * (i + FPU_WORDS))) 0;;
    mret (inl tt : unit + unit)) tt;;
  stw (u32 (saddr + 4 * (CONTEXT_WORDS + FPU_WORDS - 3))) (Z.lor ARM_MODE_SYS ARM_F_BIT);;
  stw (u32 (saddr + 4 * (CONTEXT_WORDS + FPU_WORDS - 2))) retaddr;;
  stw (u32 (saddr + 4 * (CONTEXT_WORDS + FPU_WORDS - 1))) procaddr;;
  store_args saddr (CONTEXT_WORDS + FPU_WORDS) (Z.to_nat spilled_nargs) 0 ap;;
  mret saddr.

(** The search loop of [thrnew]. *)
Definition thrnew_body (_ : Z) (_ : unit) : kprog (unit + Z) :=
  k ← gets nexttid;
  modify (set_nexttid ((k + 1) mod NTHREAD));;
  k ← gets nexttid;
  e ← thr k;
  if bool_decide (t_state e = THRFREE) then mret (inr k) else mret (inl tt).

Definition thrnew : kprog Z :=
  r ← for_ (Z.to_nat NTHREAD) 0 thrnew_body tt;
  match r with inr tid => mret tid | inl _ => mret SYSERR end.

(** The new entry of the thread table, but for the saved stack pointer. *)
Definition new_entry (priority saddr ssize parent : Z) (name : list Z) (e : thrent) : thrent :=
  set_t_fdesc (CONSOLE :: CONSOLE :: CONSOLE :: SERIAL0 :: SERIAL0 :: drop 5 (t_fdesc e))
    (set_t_memlist_length 0 (set_t_memlist_next NULL
    (set_t_hasmsg false
    (set_t_parent parent
    (set_t_name (strlcpy_buf (Z.to_nat TNMLEN) (t_name e) name)
    (set_t_stklen ssize
    (set_t_stkbase saddr
    (set_t_prio priority
    (set_t_state THRSUSP e))))))))).

(** [userret] is the address a thread returns to. *)
Definition create (FPU_WORDS fpexc fpscr userret : Z)
    (procaddr ssize priority : Z) (name : list Z) (nargs : Z) (ap : list Z) : kprog Z :=
  let ssize := u32 ssize in
  let ssize := if ssize <? MINSTK then MINSTK else ssize in
  saddr ← stkget ssize;
  if SYSERR =? i32 saddr then mret SYSERR else
  ENTER_KERNEL_CRITICAL_SECTION;;
  tid ← thrnew;
  if SYSERR =? tid then
    stkfree saddr ssize;;
    EXIT_KERNEL_CRITICAL_SECTION;;
    mret SYSERR
  else
  c ← gets thrcount;
  modify (set_thrcount (c + 1));;
  parent ← gettid;
  amend_thr tid (new_entry priority saddr ssize parent name);;
  sp ← setupStack FPU_WORDS fpexc fpscr saddr procaddr userret nargs ap;
  amend_thr tid (set_t_stkptr sp);;
  EXIT_KERNEL_CRITICAL_SECTION;;
  mret tid.

(** [xdone] stops the machine. *)
Definition xdone : kprog unit := disable;; halted.

Definition kill (tid : Z) : kprog Z :=
  bad ← isbadtid tid;
  if bad || (NULLTHREAD =? tid) then mret SYSERR else
  ENTER_KERNEL_CRITICAL_SECTION;;
  c ← gets thrcount;
  modify (set_thrcount (c - 1));;
  (if c - 1 <=? 1 then xdone else mret tt);;
  EXIT_KERNEL_CRITICAL_SECTION;;
  thrptr ← thr tid;
  send (t_parent thrptr) tid;;
  thrptr ← thr tid;
  stkfree (t_stkbase thrptr) (t_stklen thrptr);;
  thrptr ← thr tid;
  (match t_state thrptr with
   | THRSLEEP => unsleep tid;; amend_thr tid (set_t_state THRFREE)
   | st =>
       (if bool_decide (st = THRCURR) then
          amend_thr tid (set_t_state THRFREE);; resched;; mret tt
        else mret tt);;
       (if bool_decide (st = THRCURR) || bool_decide (st = THRWAIT) then
          thrptr ← thr tid;
          e ← semx (t_sem thrptr);
          n ← int (s_count e + 1);
          amend_sem (t_sem thrptr) (set_s_count n)
        else mret tt);;
       (if bool_decide (st = THRCURR) || bool_decide (st = THRWAIT) || bool_decide (st = THRREADY)
        then getitem tid;; mret tt else mret tt);;
       amend_thr tid (set_t_state THRFREE)
   end);;
  mret OK.

Definition userret : kprog unit :=
  t ← gettid;
  kill t;;
  mret tt.

(** ** The context record *)

(** Memory after the words at [base + 4 * j], for [i <= j < i + n], were written
    with [v j]. *)
Definition written (base i : Z) (n : nat) (v : Z -> option Z) (m m' : gmap Z Z) : Prop :=
  (forall j, i <= j < i + Z.of_nat n -> m' !! (base + 4 * j) = v j) /\
  (forall w, (forall j, i <= j < i + Z.of_nat n -> w <> base + 4 * j) -> m' !! w = m !! w) /\
  (forall w, is_Some (m' !! w) <-> is_Some (m !! w)).

Lemma written_nil base i v m : written base i 0 v m m.
Proof. split_and!; [intros; lia | done | done]. Qed.

Lemma written_step base i n v m m' x :
  is_Some (m !! (base + 4 * i)) -> v i = Some x ->
  written base (i + 1) n v (<[base + 4 * i := x]> m) m' -> written base i (S n) v m m'.
Proof.
  intros [x0 Hx0] Hv (H1 & H2 & H3). split_and!.
  - intros j Hj. destruct (decide (j = i)) as [-> | Hne]; [| apply H1; lia].
    rewrite H2 by (intros; lia). by rewrite lookup_insert_eq, Hv.
  - intros w Hw. rewrite H2 by (intros; apply Hw; lia). apply lookup_insert_ne.
    specialize (Hw i ltac:(lia)). congruence.
  - intros w. rewrite H3. by rewrite (insert_same_dom _ _ _ _ _ Hx0).
Qed.

Lemma for_zero base off : forall n i s,
  (forall j, i <= j < i + Z.of_nat n -> 0 <= base + 4 * (j + off) < 2 ^ 32 /\
     is_Some (mem s !! (base + 4 * (j + off)))) ->
  exists m, run (for_ n i (fun i _ => stw (u32 (base + 4 * (i + off))) 0;; mret (inl tt : unit + unit)) tt) s
      = Done (inl tt) (set_mem m s) /\
    written (base + 4 * off) i n (fun _ => Some 0) (mem s) m.
Proof.
  induction n as [|n IH]; intros i s Hm.
  - exists (mem s). split; [by destruct s | apply written_nil].
  - destruct (Hm i ltac:(lia)) as [Hb [x Hx]]. cbn [for_]. rewrite u32_small by lia. prun.
    destruct (IH (i + 1) (set_mem (<[base + 4 * (i + off) := 0]> (mem s)) s)) as (m & Hrun & Hw).
    { intros j Hj. ksimpl. rewrite lookup_insert_ne by lia. apply Hm. lia. }
    rewrite Hrun. exists m. split; [done |]. cbn [mem set_mem] in Hw.
    eapply (written_step _ _ _ _ _ _ 0); [| done |].
    + replace (base + 4 * off + 4 * i) with (base + 4 * (i + off)) by lia. by exists x.
    + by replace (base + 4 * off + 4 * i) with (base + 4 * (i + off)) by lia.
Qed.

Lemma store_args_spec base off : forall n i ap s,
  (n <= length ap)%nat ->
  (forall j, i <= j < i + Z.of_nat n -> 0 <= base + 4 * (j + off) < 2 ^ 32 /\
     is_Some (mem s !! (base + 4 * (j + off)))) ->
  exists m, run (store_args base off n i ap) s = Done (drop n ap) (set_mem m s) /\
    written (base + 4 * off) i n (fun j => ap !! Z.to_nat (j - i)) (mem s) m.
Proof.
  unfold store_args. induction n as [|n IH]; intros i ap s Hlen Hm.
  - exists (mem s). cbn [for_]. prun. rewrite drop_0. split; [by destruct s | apply written_nil].
  - destruct ap as [|v ap]; [cbn in Hlen; lia |].
    destruct (Hm i ltac:(lia)) as [Hb [x Hx]]. cbn [for_ va_arg]. rewrite u32_small by lia.
    rewrite run_bind, run_bind, run_bind, run_ret. cbn [obind fst snd]. prun.
    destruct (IH (i + 1) ap (set_mem (<[base + 4 * (i + off) := v]> (mem s)) s)) as (m & Hrun & Hw).
    { cbn in Hlen. lia. }
    { intros j Hj. ksimpl. rewrite lookup_insert_ne by lia. apply Hm. lia. }
    rewrite run_bind in Hrun. exists m. split; [exact Hrun |]. cbn [mem set_mem] in Hw.
    eapply (written_step _ _ _ _ _ _ v).
    + replace (base + 4 * off + 4 * i) with (base + 4 * (i + off)) by lia. by exists x.
    + by rewrite Z.sub_diag.
    + replace (base + 4 * off + 4 * i) with (base + 4 * (i + off)) by lia.
      destruct Hw as (H1 & H2 & H3). split_and!; try done. intros j Hj. rewrite H1 by done.
      replace (Z.to_nat (j - i)) with (S (Z.to_nat (j - (i + 1)))) by lia. done.
Qed.

Lemma written_outside base i n v m m' w :
  written base i n v m m' -> w < base + 4 * i \/ base + 4 * (i + Z.of_nat n) <= w -> m' !! w = m !! w.
Proof. intros (_ & H & _) Hw. apply H. lia. Qed.

Lemma written_inside base i n v m m' j :
  written base i n v m m' -> i <= j < i + Z.of_nat n -> m' !! (base + 4 * j) = v j.
Proof. intros (H & _) Hj. by apply H. Qed.

Lemma land4 y : Z.land y 4 = 4 * (y / 4 mod 2).
Proof.
  replace (Z.land y 4) with (Z.land (y mod 8) 4).
  - assert (H : y / 4 mod 2 = y mod 8 / 4) by lia. rewrite H.
    pose proof (Z.mod_pos_bound y 8 ltac:(lia)) as Hb. set (r := y mod 8) in *.
    assert (Hr : r = 0 \/ r = 1 \/ r = 2 \/ r = 3 \/ r = 4 \/ r = 5 \/ r = 6 \/ r = 7) by lia.
    clearbody r. by intuition subst.
  - change 8 with (2 ^ 3). rewrite <- Z.land_ones by lia. by rewrite <- Z.land_assoc.
Qed.

(** The arguments [setupStack] spills to the stack. *)
Definition spilled (nargs : Z) : Z := Z.max 0 (nargs - MAX_REG_ARGS).

(** The words of the VFP registers in the context, by the build. *)
Definition fpu_words (F : Z) : Prop := F = 0 \/ F = 34.

(** What a new thread finds when it pops its context: the two VFP registers if there are
    any, and behind the other words of the VFP unit [r0] to [r3] with the first arguments,
    the other registers zero, the status register with system mode and interrupts on, the
    link register and the program counter as given, and just above the remaining
    arguments.  With the VFP unit the words above these are zero too, up to word
    [12 + F]: the counter of the loop that clears the registers already runs to the end of
    the context and [FPU_WORDS] is added to it. *)
Record context (F fpexc fpscr : Z) (m : gmap Z Z) (sp procaddr retaddr nargs : Z) (ap : list Z) : Prop := {
  cx_fpu : F <> 0 -> m !! sp = Some fpexc /\ m !! (sp + 4) = Some fpscr;
  cx_args : forall j, 0 <= j < Z.min nargs MAX_REG_ARGS -> m !! (sp + 4 * F + 4 * j) = ap !! Z.to_nat j;
  cx_zero : forall j, Z.min nargs MAX_REG_ARGS <= j < 12 -> m !! (sp + 4 * F + 4 * j) = Some 0;
  cx_cpsr : m !! (sp + 4 * F + 48) = Some (Z.lor ARM_MODE_SYS ARM_F_BIT);
  cx_lr : m !! (sp + 4 * F + 52) = Some retaddr;
  cx_pc : m !! (sp + 4 * F + 56) = Some procaddr;
  cx_spill : forall j, 0 <= j < spilled nargs ->
    m !! (sp + 4 * F + 60 + 4 * j) = ap !! Z.to_nat (MAX_REG_ARGS + j);
  cx_clear : forall j, 15 + spilled nargs <= j < 12 + F -> m !! (sp + 4 * F + 4 * j) = Some 0
}.

(** The first byte above the words that [setupStack] writes, given the address [p] of the
    top word of the stack. *)
Definition cleared (F nargs p : Z) : Z := Z.max p (p + 4 * F - 12 - 4 * spilled nargs).

(** The writes of [setupStack], in order, leave the context; [b] is where the registers
    begin. *)
Section Writes.
Context (F fe fs sp procaddr retaddr nargs : Z) (ap : list Z) (m0 m1 m2 m4 : gmap Z Z).
Let b := sp + 4 * F.
Let rn := Z.min nargs MAX_REG_ARGS.
Let m3 : gmap Z Z := <[b + 4 * 14 := procaddr]> (<[b + 4 * 13 := retaddr]>
  (<[b + 4 * 12 := Z.lor ARM_MODE_SYS ARM_F_BIT]> m2)).
Hypothesis HF : fpu_words F.
Hypothesis Hn : 0 <= nargs <= Z.of_nat (length ap).
Hypothesis Hmap : forall j, 0 <= j < 15 -> is_Some (m0 !! (b + 4 * j)).
Hypothesis Hfpu : F <> 0 -> m0 !! sp = Some fe /\ m0 !! (sp + 4) = Some fs.
Hypothesis W1 : written b 0 (Z.to_nat rn) (fun j => ap !! Z.to_nat (j - 0)) m0 m1.
Hypothesis W2 : written b rn (Z.to_nat (12 + F - rn)) (fun _ => Some 0) m1 m2.
Hypothesis W4 : written (b + 60) 0 (Z.to_nat (spilled nargs))
  (fun j => drop (Z.to_nat rn) ap !! Z.to_nat (j - 0)) m3 m4.

Lemma writes_low w : w < b + 48 -> m4 !! w = m2 !! w.
Proof.
  intros Hj. rewrite (written_outside _ _ _ _ _ _ _ W4) by lia. unfold m3.
  by rewrite !lookup_insert_ne by lia.
Qed.

Lemma writes_context : context F fe fs m4 sp procaddr retaddr nargs ap.
Proof.
  assert (Hrn : 0 <= rn <= 4) by (unfold rn, MAX_REG_ARGS; lia).
  assert (Hs : 0 <= spilled nargs) by (unfold spilled; lia).
  constructor; fold rn; fold b.
  - intros HF0. destruct HF as [-> | HF34]; [done |]. unfold b in *.
    rewrite !writes_low by lia. rewrite !(written_outside _ _ _ _ _ _ _ W2) by lia.
    rewrite !(written_outside _ _ _ _ _ _ _ W1) by lia. by apply Hfpu.
  - intros j Hj. rewrite writes_low by lia. rewrite (written_outside _ _ _ _ _ _ _ W2) by lia.
    rewrite (written_inside _ _ _ _ _ _ j W1) by lia. by rewrite Z.sub_0_r.
  - intros j Hj. rewrite writes_low by lia. apply (written_inside _ _ _ _ _ _ j W2).
    destruct HF as [-> | ->]; lia.
  - rewrite (written_outside _ _ _ _ _ _ _ W4) by lia. unfold m3.
    rewrite !lookup_insert_ne by lia. apply lookup_insert_eq.
  - rewrite (written_outside _ _ _ _ _ _ _ W4) by lia. unfold m3.
    rewrite lookup_insert_ne by lia. apply lookup_insert_eq.
  - rewrite (written_outside _ _ _ _ _ _ _ W4) by lia. apply lookup_insert_eq.
  - intros j Hj. rewrite (written_inside _ _ _ _ _ _ j W4) by lia. rewrite lookup_drop. f_equal.
    unfold rn, spilled, MAX_REG_ARGS in *. lia.
  - intros j Hj. rewrite (written_outside _ _ _ _ _ _ _ W4) by lia. unfold m3.
    rewrite !lookup_insert_ne by lia. apply (written_inside _ _ _ _ _ _ j W2). lia.
Qed.

Lemma writes_outside w :
  w < b \/ b + 60 + 4 * spilled nargs <= w /\ b + 4 * (12 + F) <= w -> m4 !! w = m0 !! w.
Proof.
  intros Hw. assert (Hrn : 0 <= rn <= 4) by (unfold rn, MAX_REG_ARGS; lia).
  assert (Hs : 0 <= spilled nargs) by (unfold spilled; lia).
  assert (0 <= F) by (destruct HF; lia).
  rewrite (written_outside _ _ _ _ _ _ _ W4) by lia. unfold m3. rewrite !lookup_insert_ne by lia.
  rewrite (written_outside _ _ _ _ _ _ _ W2) by lia. by rewrite (written_outside _ _ _ _ _ _ _ W1) by lia.
Qed.

Lemma writes_dom2 w : is_Some (m2 !! w) <-> is_Some (m0 !! w).
Proof. destruct W1 as (_ & _ & H1), W2 as (_ & _ & H2). by rewrite H2, H1. Qed.

Lemma writes_dom3 w : is_Some (m3 !! w) <-> is_Some (m0 !! w).
Proof.
  rewrite <- writes_dom2. unfold m3.
  destruct (proj2 (writes_dom2 _) (Hmap 12 ltac:(lia))) as [v12 E12].
  destruct (proj2 (writes_dom2 _) (Hmap 13 ltac:(lia))) as [v13 E13].
  destruct (proj2 (writes_dom2 _) (Hmap 14 ltac:(lia))) as [v14 E14].
  rewrite (insert_same_dom _ _ _ v14), (insert_same_dom _ _ _ v13); [by rewrite (insert_same_dom _ _ _ v12) |..];
    by rewrite !lookup_insert_ne by lia.
Qed.
End Writes.

(** The two words of the VFP unit. *)
Lemma run_fpu F fe fs sp s :
  fpu_words F -> 0 <= sp -> sp + 4 < 2 ^ 32 -> (F <> 0 -> is_Some (mem s !! sp) /\ is_Some (mem s !! (sp + 4))) ->
  exists m, run (if F =? 0 then mret tt else stw sp fe;; stw (u32 (sp + 4)) fs) s = Done tt (set_mem m s) /\
    (F <> 0 -> m !! sp = Some fe /\ m !! (sp + 4) = Some fs) /\
    (forall w, w < sp \/ sp + 4 * F <= w -> m !! w = mem s !! w) /\
    (forall w, is_Some (m !! w) <-> is_Some (mem s !! w)).
Proof.
  intros [-> | ->] H0 H32 Hm.
  - exists (mem s). cbn [Z.eqb]. split; [by destruct s | by split_and!].
  - destruct (Hm ltac:(lia)) as [[v0 E0] [v1 E1]]. exists (<[sp + 4 := fs]> (<[sp := fe]> (mem s))).
    cbn [Z.eqb Pos.eqb]. rewrite u32_small by lia. prun1. rewrite (run_stw _ _ _ _ E0). cbn [obind].
    rewrite (run_stw _ _ v1) by (ksimpl; by rewrite lookup_insert_ne by lia).
    split; [done |]. split_and!.
    + intros _. rewrite lookup_insert_eq, lookup_insert_ne by lia. by rewrite lookup_insert_eq.
    + intros w Hw. by rewrite !lookup_insert_ne by lia.
    + intros w. rewrite (insert_same_dom _ _ _ v1) by (by rewrite lookup_insert_ne by lia).
      by rewrite (insert_same_dom _ _ _ v0).
Qed.

(** [setupStack] on a stack whose top word is at [p]: it writes from above [x] to below
    [cleared F nargs p], which is [p] without the VFP unit, and leaves the stack 8-byte
    aligned once the context is popped. *)
Lemma setupStack_spec F x fe fs p procaddr retaddr nargs ap s :
  fpu_words F ->
  0 <= nargs <= Z.of_nat (length ap) -> nargs < 2 ^ 32 -> p mod 8 = 4 -> cleared F nargs p < 2 ^ 32 ->
  0 <= x -> x + 4 * (spilled nargs + 16 + F) <= p ->
  (forall w, x <= w < cleared F nargs p -> w mod 4 = 0 -> is_Some (mem s !! w)) ->
  x mod 4 = 0 ->
  exists sp m, run (setupStack F fe fs p procaddr retaddr nargs ap) s = Done sp (set_mem m s) /\
    context F fe fs m sp procaddr retaddr nargs ap /\
    x <= sp /\ sp + 4 * F + 60 + 4 * spilled nargs <= p /\ (sp + 4 * F + 60) mod 8 = 0 /\
    (forall w, w < x \/ cleared F nargs p <= w -> m !! w = mem s !! w) /\
    (forall w, is_Some (m !! w) <-> is_Some (mem s !! w)).
Proof.
  intros HF Hn Hn32 Hp8 Hp Hx0 Hx Hm Hx4. unfold setupStack. rewrite u32_small by lia.
  assert (HF' : 0 <= F <= 34 /\ F mod 2 = 0) by (destruct HF; subst; lia).
  set (sa := p - 4 * spilled nargs).
  set (sp := (if negb (Z.land sa 4 =? 0) then sa - 4 else sa) - 60 - 4 * F).
  set (rn := Z.min nargs MAX_REG_ARGS). unfold cleared in *.
  assert (Hal : (sp + 4 * F + 60) mod 8 = 0 /\ sa - 64 - 4 * F <= sp <= sa - 60 - 4 * F).
  { unfold sp. rewrite land4. assert (sa mod 4 = 0) by lia.
    destruct (Z.eqb_spec (4 * (sa / 4 mod 2)) 0); cbn [negb]; lia. }
  assert (Hsp : 0 <= spilled nargs /\ 0 <= rn <= 4 /\ nargs = rn + spilled nargs)
    by (unfold rn, spilled, MAX_REG_ARGS; lia).
  assert (Hwd : forall j, 0 <= j < Z.max (15 + spilled nargs) (12 + F) ->
    0 <= sp + 4 * F + 4 * j < 2 ^ 32 /\ is_Some (mem s !! (sp + 4 * F + 4 * j))).
  { intros j Hj. split; [lia | apply Hm; lia]. }
  replace (if nargs >? MAX_REG_ARGS then _ else _) with (spilled nargs, rn, sa).
  2:{ unfold spilled, rn, sa, spilled, MAX_REG_ARGS in *. destruct (Z.gtb_spec nargs 4).
      - rewrite u32_small by lia. repeat f_equal; lia.
      - repeat f_equal; lia. }
  replace (u32 ((if negb (Z.land sa 4 =? 0) then u32 (sa - 4) else sa) - _)) with sp.
  2:{ unfold CONTEXT_WORDS, sp in *. destruct (negb _); rewrite ?(u32_small (sa - 4)) by lia; rewrite u32_small; lia. }
  rewrite run_bind.
  destruct (run_fpu F fe fs sp s HF ltac:(lia) ltac:(lia)) as (m0 & -> & Hf0 & Hf1 & Hf2).
  { intros HF0. destruct HF as [-> | ->]; [done |]. split; apply Hm; lia. }
  cbn [obind]. rewrite run_bind.
  destruct (store_args_spec sp F (Z.to_nat rn) 0 ap (set_mem m0 s)) as (m1 & -> & W1).
  { lia. } { intros j Hj. ksimpl. rewrite Hf2. replace (sp + 4 * (j + F)) with (sp + 4 * F + 4 * j) by lia. apply Hwd. lia. }
  cbn [obind]. rewrite run_bind. cbn [mem set_mem] in W1.
  destruct (for_zero sp F (Z.to_nat (CONTEXT_WORDS + F - 3 - rn)) rn (set_mem m1 s)) as (m2 & Hrun2 & W2).
  { intros j Hj. ksimpl. destruct W1 as (_ & _ & W1). rewrite W1, Hf2.
    replace (sp + 4 * (j + F)) with (sp + 4 * F + 4 * j) by lia. apply Hwd. unfold CONTEXT_WORDS in *. lia. }
  use_run Hrun2. unfold CONTEXT_WORDS in *. cbn [mem set_mem] in W2.
  replace (15 + F - 3 - rn) with (12 + F - rn) in W2 by lia.
  replace (sp + 4 * (15 + F - 3)) with (sp + 4 * F + 4 * 12) by lia.
  replace (sp + 4 * (15 + F - 2)) with (sp + 4 * F + 4 * 13) by lia.
  replace (sp + 4 * (15 + F - 1)) with (sp + 4 * F + 4 * 14) by lia.
  rewrite !u32_small by lia.
  pose proof (writes_dom2 F sp nargs ap _ _ _ W1 W2) as D2.
  assert (Hd0 : forall j, 0 <= j < 15 -> is_Some (m0 !! (sp + 4 * F + 4 * j))) by (intros j Hj; rewrite Hf2; apply Hwd; lia).
  destruct (proj2 (D2 _) (Hd0 12 ltac:(lia))) as [v12 E12].
  destruct (proj2 (D2 _) (Hd0 13 ltac:(lia))) as [v13 E13].
  destruct (proj2 (D2 _) (Hd0 14 ltac:(lia))) as [v14 E14].
  prun. pose proof (writes_dom3 F sp procaddr retaddr nargs ap _ _ _ Hd0 W1 W2) as D3.
  match type of D3 with forall w, is_Some (?m !! w) <-> _ => set (m3 := m) in * end.
  destruct (store_args_spec sp (15 + F) (Z.to_nat (spilled nargs)) 0 (drop (Z.to_nat rn) ap) (set_mem m3 s))
    as (m4 & Hrun & W4).
  { rewrite length_drop. lia. }
  { intros j Hj. ksimpl. rewrite D3, Hf2. replace (sp + 4 * (j + (15 + F))) with (sp + 4 * F + 4 * (15 + j)) by lia. apply Hwd. lia. }
  use_run Hrun. prun. exists sp, m4. split; [done |]. ksimpl.
  replace (sp + 4 * (15 + F)) with (sp + 4 * F + 60) in W4 by lia.
  split_and!; [| lia | lia | lia | |].
  - by eapply (writes_context F fe fs sp procaddr retaddr nargs ap m0).
  - intros w Hw. rewrite (writes_outside F sp procaddr retaddr nargs ap m0 m1 m2 m4 HF); try done; [apply Hf1; lia | lia].
  - intros w. destruct W4 as (_ & _ & W4). by rewrite W4, D3.
Qed.

(** ** Creating a thread *)

Lemma thrnew_body_spec s e j u :
  let k := next_slot NTHREAD (nexttid s) in
  thrtab s !! k = Some e ->
  run (thrnew_body j u) s =
    Done (if bool_decide (t_state e = THRFREE) then inr k else inl tt) (set_nexttid k s).
Proof.
  intros k He. unfold thrnew_body. prun. change ((nexttid s + 1) mod NTHREAD) with k.
  prun. case_bool_decide; by prun.
Qed.

Lemma thrnew_loop : forall n j s,
  (forall t, is_Some (thrtab s !! t) <-> 0 <= t < NTHREAD) -> 0 <= nexttid s < NTHREAD ->
  (exists k e, thrtab s !! k = Some e /\ t_state e = THRFREE /\
     run (for_ n j thrnew_body tt) s = Done (inr k) (set_nexttid k s)) \/
  (exists k, 0 <= k < NTHREAD /\ run (for_ n j thrnew_body tt) s = Done (inl tt) (set_nexttid k s)) /\
  (forall d, 1 <= d <= Z.of_nat n -> exists e,
     thrtab s !! ((nexttid s + d) mod NTHREAD) = Some e /\ t_state e <> THRFREE).
Proof.
  induction n as [|n IH]; intros j s Hdom Hk.
  - right. split; [| lia]. exists (nexttid s). split; [done |]. by destruct s.
  - set (k := next_slot NTHREAD (nexttid s)).
    assert (Hkr : 0 <= k < NTHREAD) by (apply Z.mod_pos_bound; klia).
    destruct (proj2 (Hdom k) Hkr) as [e He].
    cbn [for_]. rewrite run_bind, (thrnew_body_spec s e j tt He). fold k. case_bool_decide as Hst; cbn [obind].
    + left. by exists k, e.
    + destruct (IH (j + 1) (set_nexttid k s) Hdom Hkr)
        as [(k' & e' & He' & Hst' & ->) | [(k' & Hk' & ->) Hall]].
      * left. by exists k', e'.
      * right. split; [by exists k' |]. intros d Hd. destruct (decide (d = 1)) as [-> | Hne]; [by exists e |].
        destruct (Hall (d - 1)) as (e' & He' & Hst'); [lia |]. exists e'. split; [| done].
        rewrite <- He'. f_equal. cbn. unfold k, next_slot. rewrite Zplus_mod_idemp_l. f_equal. lia.
Qed.

(** [thrnew] finds a free slot of the thread table, or there is none. *)
Lemma thrnew_spec s :
  (forall t, is_Some (thrtab s !! t) <-> 0 <= t < NTHREAD) -> 0 <= nexttid s < NTHREAD ->
  (exists k e, thrtab s !! k = Some e /\ t_state e = THRFREE /\ 0 <= k < NTHREAD /\
     run thrnew s = Done k (set_nexttid k s)) \/
  (exists k, 0 <= k < NTHREAD /\ run thrnew s = Done SYSERR (set_nexttid k s)) /\
  (forall t e, thrtab s !! t = Some e -> t_state e <> THRFREE).
Proof.
  intros Hdom Hk. unfold thrnew. rewrite !run_bind.
  destruct (thrnew_loop (Z.to_nat NTHREAD) 0 s Hdom Hk) as [(k & e & He & Hst & ->) | [(k & Hr & ->) Hall]].
  - left. exists k, e. split_and!; try done; apply Hdom; by exists e.
  - right. split; [by exists k |]. intros t e He.
    destruct (slot_reached NTHREAD (nexttid s) t) as (d & Hd & E); [apply Hdom; by exists e |].
    destruct (Hall d) as (e' & He' & Hst'); [klia |]. rewrite E in He'. congruence.
Qed.

(** A free thread becomes a suspended one. *)
Lemma kinv_new s Q t e e' k n :
  kinv s Q -> thrtab s !! t = Some e -> t_state e = THRFREE -> 
  t_state e' = THRSUSP -> MINKEY < t_prio e' -> 0 <= k < NTHREAD ->
  kinv (set_thrtab (<[t := e']> (thrtab s)) (set_thrcount n (set_nexttid k s))) Q.
Proof.
  intros [Hs HK HT HS] He Hst Hst' Hp Hk. split; ksimpl; [destruct Hs; by constructor | done | | done].
  pose proof (thr_range HT t e He) as Hr.
  apply (kthreads_move HT); try done.
  - intros q Hq. split; [| unfold loc; by rewrite Hst'].
    intros Hin. exfalso. eapply (thr_detached HT t e); try done. unfold loc. by rewrite Hst.
  - by rewrite Hst'.
  - intros ->. exfalso. destruct (kt_null _ _ _ HT e He); congruence.
  - intros x e0. rewrite lookup_insert. case_decide; [intros [= <-]; congruence | apply (kt_cur _ _ _ HT)].
Qed.

Lemma running_new s t e e' k n :
  running s -> thrtab s !! t = Some e -> t_state e = THRFREE ->
  running (set_thrtab (<[t := e']> (thrtab s)) (set_thrcount n (set_nexttid k s))).
Proof.
  intros [(e0 & He0 & Hst0) Hrd] He Hst. split; [| done]. exists e0. split; [| done]. ksimpl.
  rewrite lookup_insert_ne; [done |]. intros ->. congruence.
Qed.

(** A new thread: the entry of the thread table and the stack, whose top word is at [p].
    Memory that was not free is as before, but for what [setupStack] clears above the
    stack. *)
Record created (F fpexc fpscr : Z) (s s' : kst) (bl bl' : list (Z * Z)) (n procaddr retaddr priority : Z)
    (name : list Z) (ssize nargs : Z) (ap : list Z) (r : Z) : Prop := {
  cr_entry : exists e0 p sp, thrtab s !! r = Some e0 /\ t_state e0 = THRFREE /\
    thrtab s' = <[r := set_t_stkptr sp (new_entry priority p ssize (thrcurrent s) name e0)]> (thrtab s) /\
    taken (memheap s) (maxaddr s) n (p + 4 - n) bl bl' /\
    p + 4 - n <= sp /\ sp + 4 * F + 60 + 4 * spilled nargs <= p /\ (sp + 4 * F + 60) mod 8 = 0 /\
    context F fpexc fpscr (mem s') sp procaddr retaddr nargs ap /\
    (forall w, ~ isfree bl w -> w < p + 4 \/ cleared F nargs p <= w -> mem s' !! w = mem s !! w);
  cr_count : thrcount s' = thrcount s + 1;
  cr_same : quetab s' = quetab s /\ semtab s' = semtab s /\ thrcurrent s' = thrcurrent s
}.

(** What [setupStack] clears above the stack that [stkget] finds is memory, and no part of
    a free block. *)
Definition clears_used (F nargs n : Z) (bl : list (Z * Z)) (s : kst) : Prop :=
  forall x bl', stkm n bl = Some (x, bl') -> cleared F nargs (x + n - 4) < 2 ^ 32 /\
    forall w, x + n <= w < cleared F nargs (x + n - 4) -> ~ isfree bl w /\ (w mod 4 = 0 -> is_Some (mem s !! w)).

(** Without the VFP unit it clears nothing. *)
Lemma clears_none nargs n bl s : minv s bl -> 0 <= spilled nargs -> n mod 8 = 0 -> 0 < n -> clears_used 0 nargs n bl s.
Proof.
  intros HM Hs H8 Hn x bl' Hst. pose proof (stkm_taken _ _ n _ _ _ (mi_wf _ _ HM) H8 Hn Hst) as Htk.
  destruct (tk_in _ _ _ _ _ _ Htk) as [_ Hx]. pose proof (mi_hi _ _ HM). unfold cleared. split; [lia | intros w Hw; lia].
Qed.

(** The stack size [create] asks for. *)
Definition stksize (ssize : Z) : Z := if u32 ssize <? MINSTK then MINSTK else u32 ssize.

Lemma stksize_range ssize : u32 ssize <= 2 ^ 32 - 8 -> 0 < stksize ssize <= 2 ^ 32 - 8.
Proof. intros H. unfold stksize, MINSTK in *. destruct (Z.ltb_spec (u32 ssize) 128); lia. Qed.

Lemma clears_ok nargs ssize bl s : minv s bl -> u32 ssize <= 2 ^ 32 - 8 -> clears_used 0 nargs (roundmb (stksize ssize)) bl s.
Proof.
  intros HM Hs. destruct (roundmb_spec _ (stksize_range _ Hs)) as (H8 & H1 & H2).
  apply clears_none; [done | unfold spilled; lia | done | lia].
Qed.

Section Create.
Context (F fe fs userret procaddr ssize priority : Z) (name : list Z) (nargs : Z) (ap : list Z).
Context (s : kst) (Q : Z -> list Z) (bl : list (Z * Z)).
Let ss := stksize ssize.
Let n := roundmb ss.
Hypothesis HF : fpu_words F.
Hypothesis HI : kinv s Q.
Hypothesis Hr : running s.
Hypothesis HM : minv s bl.
Hypothesis Hss : u32 ssize <= 2 ^ 32 - 8.
Hypothesis Hprio : MINKEY < priority.
Hypothesis Hargs : 0 <= nargs <= Z.of_nat (length ap).
Hypothesis Hfit : 4 * (spilled nargs + 17 + F) <= n.
Hypothesis Hclear : clears_used F nargs n bl s.

(** From the moment the stack is allocated. *)
Lemma create_stack s1 bl' x :
  kview s1 = kview s -> thrcount s1 = thrcount s -> 
  minv s1 bl' -> memheap s1 = memheap s -> maxaddr s1 = maxaddr s ->
  stkm n bl = Some (x, bl') -> taken (memheap s) (maxaddr s) n x bl bl' ->
  (forall w, ~ isfree bl w -> mem s1 !! w = mem s !! w) ->
  let m := tid ← thrnew;
    if SYSERR =? tid then
      stkfree (x + n - 4) ss;;
      EXIT_KERNEL_CRITICAL_SECTION;;
      mret SYSERR
    else
      c ← gets thrcount;
      modify (set_thrcount (c + 1));;
      parent ← gettid;
      amend_thr tid (new_entry priority (x + n - 4) ss parent name);;
      sp ← setupStack F fe fs (x + n - 4) procaddr userret nargs ap;
      amend_thr tid (set_t_stkptr sp);;
      EXIT_KERNEL_CRITICAL_SECTION;;
      mret tid in
  exists r s', run m (crit_in s1) = Done r s' /\ kinv s' Q /\ running s' /\
    ((r = SYSERR /\ minv s' bl /\ thrtab s' = thrtab s /\ forall t e, thrtab s !! t = Some e -> t_state e <> THRFREE) \/
     (minv s' bl' /\ created F fe fs s s' bl bl' n procaddr userret priority name ss nargs ap r)).
Proof.
  intros Ev Ec HM1 Eh Ea Hst0 Htk Hmem m. unfold m. destruct (Hclear x bl' Hst0) as [Hc32 Hcl].
  pose proof (kinv_view _ _ _ Ev HI) as HI1. pose proof (running_view _ _ Ev Hr) as Hr1.
  assert (Et : thrtab s1 = thrtab s /\ thrcurrent s1 = thrcurrent s /\ quetab s1 = quetab s /\ semtab s1 = semtab s)
    by (unfold kview in Ev; by injection Ev as ??????).
  destruct Et as (Et & Ecur & Eq & Es).
  rewrite run_bind.
  destruct (thrnew_spec (crit_in s1)) as [(k & e & He & Hst & Hk & ->) | [(k & Hk & ->) Hall]];
    [apply (kt_dom _ _ _ (ki_threads _ _ HI1)) | apply (ks_nexttid _ (ki_static _ _ HI1)) | |]; cbn [obind].
  - rewrite (proj2 (Z.eqb_neq SYSERR k)) by (unfold SYSERR; lia). change (thrtab s1 !! k = Some e) in He.
    pose proof (mi_lo _ _ HM) as Hlo. pose proof (mi_hi _ _ HM) as Hhi.
    destruct (tk_in _ _ _ _ _ _ Htk) as [Hx1 Hx2]. pose proof (tk_align _ _ _ _ _ _ Htk) as Hx8.
    destruct (roundmb_spec ss (stksize_range _ Hss)) as (H8 & _ & Hn32). fold n in H8, Hn32.
    assert (HF' : 0 <= F) by (destruct HF; lia).
    assert (nargs < 2 ^ 32) by (unfold spilled, MAX_REG_ARGS in Hfit; lia).
    unfold gettid. do 9 prun1.
    match goal with |- context [run (setupStack _ _ _ _ _ _ _ _) ?s0] => set (s2 := s0) end.
    destruct (setupStack_spec F x fe fs (x + n - 4) procaddr userret nargs ap s2)
      as (sp & m2 & Hrun & Hctx & H1 & H2 & H3 & H4 & H5); try done; try lia.
    { intros w Hw Hw4. destruct (Z.lt_ge_cases w (x + n)); [apply (mi_map _ _ HM1); lia |].
      destruct (Hcl w ltac:(lia)) as [Hnf Hsome]. change (is_Some (mem s1 !! w)). rewrite Hmem by done. by apply Hsome. }
    rewrite Hrun. subst s2. cbn [obind]. prun. rewrite insert_insert_eq.
    eexists k, _. split; [reflexivity |].
    set (e' := set_t_stkptr sp _).
    split_and!.
    + apply (kinv_view (set_thrtab (<[k := e']> (thrtab (crit_in s1))) (set_thrcount (thrcount s1 + 1) (set_nexttid k (crit_in s1)))));
        [unfold kview; by ksimpl |]. apply (kinv_new _ Q k e); try done. by apply kinv_crit_in.
    + apply (running_view (set_thrtab (<[k := e']> (thrtab (crit_in s1))) (set_thrcount (thrcount s1 + 1) (set_nexttid k (crit_in s1)))));
        [unfold kview; by ksimpl |]. by apply (running_new _ k e).
    + right. split.
      * pose proof (minv_write s1 bl' x (cleared F nargs (x + n - 4)) m2 HM1) as Hw.
        destruct Hw as [G1 G2 G3 G4 G5 G6]; try done.
        intros y Hy. destruct (tk_gone _ _ _ _ _ _ Htk y Hy); [by left |].
        destruct (Z.lt_ge_cases y (cleared F nargs (x + n - 4))); [| by right].
        destruct (Hcl y ltac:(lia)) as [Hnf _]. exfalso. apply Hnf, (tk_free _ _ _ _ _ _ Htk). by left.
      * constructor; ksimpl; [| by rewrite Ec | done].
        -- exists e, (x + n - 4), sp. rewrite Et in *. unfold e'. rewrite Ecur.
           replace (x + n - 4 + 4 - n) with x by lia. split_and!; try done.
           intros w Hw Hw'. rewrite <- Hmem by done. apply H4.
           destruct (decide (x <= w < x + n)) as [? | Hno]; [| unfold cleared in *; lia]. exfalso. apply Hw.
           apply (tk_free _ _ _ _ _ _ Htk). by right.
  - rewrite Z.eqb_refl. prun1. rewrite <- Eh, <- Ea in Htk.
    destruct (stkfree_undo (set_nexttid k (crit_in s1)) bl bl' x ss) as (s2 & Hrun & HM2 & (m2 & p2 & n2 & E)); try done.
    { destruct HM1; by constructor. } { by apply stksize_range. }
    fold n in Hrun. use_run Hrun. subst s2. prun.
    eexists _, _. split; [reflexivity |]. split_and!.
    + apply (kinv_view (set_nexttid k (crit_in s1))); [unfold kview; by ksimpl |].
      apply kinv_crit_in in HI1. destruct HI1 as [Hs1 HK1 HT1 HS1]. split; try done. destruct Hs1; by constructor.
    + apply (running_view (set_nexttid k (crit_in s1))); [unfold kview; by ksimpl | done].
    + left. split_and!; [done | eapply minv_same, HM2; unfold mem_same; ksimpl; by split_and! | by ksimpl; rewrite Et | by rewrite <- Et].
Qed.

Lemma create_spec :
  exists r s', run (create F fe fs userret procaddr ssize priority name nargs ap) s = Done r s' /\
    kinv s' Q /\ running s' /\
    ((r = SYSERR /\ minv s' bl /\ thrtab s' = thrtab s /\
        ((forall a l, (a, l) ∈ bl -> l < n) \/
         (forall t e, thrtab s !! t = Some e -> t_state e <> THRFREE))) \/
     (exists bl', minv s' bl' /\
        created F fe fs s s' bl bl' n procaddr userret priority name ss nargs ap r)).
Proof.
  pose proof (ks_crit _ (ki_static _ _ HI)) as Hcrit. pose proof (stksize_range _ Hss) as Hsr.
  pose proof (stkget_spec s bl ss HM Hcrit Hsr) as Hg. fold n in Hg.
  unfold create. change (if u32 ssize <? MINSTK then MINSTK else u32 ssize) with ss. rewrite run_bind.
  destruct (stkm n bl) as [[x bl']|] eqn:Estk; [| rewrite Hg].
  - destruct Hg as (s' & -> & HM' & (m & q & k & E) & Htk & Hmem). cbn [obind].
    destruct (roundmb_spec ss Hsr) as (H8 & _ & _). fold n in H8.
    pose proof (tk_align _ _ _ _ _ _ Htk) as Hx8. pose proof (tk_in _ _ _ _ _ _ Htk) as Hx.
    pose proof (mi_hi _ _ HM) as Hhi. pose proof (mi_lo _ _ HM) as Hlo.
    rewrite (proj2 (Z.eqb_neq _ _)) by (unfold SYSERR, i32; lia).
    prun1. rewrite run_ENTER by (rewrite E; done). cbn [obind].
    destruct (create_stack (crit_out s') bl' x) as (r & s2 & Hrun & HI2 & Hr2 & Hres).
    all: try (rewrite E; unfold kview; ksimpl; rewrite ?Hcrit; reflexivity); try done.
    { by apply minv_crit_out. }
    cbv zeta in Hrun. rewrite Hrun. exists r, s2. split_and!; try done.
    destruct Hres as [(-> & ? & ? & ?) | [? ?]]; [left | right]; eauto.
  - cbn [obind]. change (SYSERR =? i32 PTRERR) with true. cbn match. prun. eexists _, _. split; [reflexivity |].
    split_and!; [by apply kinv_crit_out, kinv_crit_in | done |]. left.
    split_and!; [done | by apply minv_crit_out, minv_crit | done | left]. by apply stkm_none.
Qed.
End Create.

