(* ===== verification/System.v ===== *)
(** The kernel as a whole: threads that make system calls in any order, context
    switches that suspend a thread in the middle of a call, clock interrupts, and
    the allocator they share.  The routines promise each other the interface
    [KernelCall]; every state the system reaches from start-up satisfies the
    invariants of the scheduler, the semaphores, the clock and the allocator. *)
From Stdlib Require Import ZArith Lia.
From stdpp Require Import sorting gmap functions list relations.
From S2P Require Import Prelude Kernel Queue QueueFacts Sched Semaphore Clock Message Memory Boot Frame Thread.

(** ** What a routine of the kernel promises to the thread that calls it *)

Class KernelCall (t : Z) (m : kprog Z) : Prop := {
  kc_safe : safe t m;
  kc_keeps : keeps m
}.

#[global] Instance call_yield t : KernelCall t yield.
Proof. split; [apply yield_safe | unfold yield; keeps_tac]. Qed.
#[global] Instance call_resume t x : KernelCall t (resume x).
Proof. split; [apply resume_safe | unfold resume; keeps_tac]. Qed.
#[global] Instance call_suspend t x : KernelCall t (suspend x).
Proof. split; [apply suspend_safe | unfold suspend; keeps_tac]. Qed.
#[global] Instance call_getprio t x : KernelCall t (getprio x).
Proof. split; [apply getprio_safe | unfold getprio; keeps_tac]. Qed.
#[global] Instance call_semfree t i : KernelCall t (semfree i).
Proof. split; [apply semfree_safe | unfold semfree; keeps_tac]. Qed.
#[global] Instance call_semcount t i : KernelCall t (semcount i).
Proof. split; [apply semcount_safe | unfold semcount; keeps_tac]. Qed.
#[global] Instance call_send t x msg : KernelCall t (send x msg).
Proof. split; [apply send_safe | unfold send; keeps_tac]. Qed.
#[global] Instance call_recvclr t : KernelCall t recvclr.
Proof. split; [apply recvclr_safe | unfold recvclr; keeps_tac]. Qed.

(** The clock interrupt, as a routine the current thread is made to call. *)
Definition interrupt : kprog Z := clkhandler;; mret OK.

#[global] Instance call_interrupt t : KernelCall t interrupt.
Proof.
  split; unfold interrupt.
  - apply safe_bind; [apply clkhandler_safe | intros _; apply safe_ret].
  - unfold clkhandler, clk_sleepers, dec_firstkey, clkupdate. keeps_tac.
Qed.

(** Routines that may block the caller, which must not be the null thread. *)
Section Blocking.
Context (t : Z) (Hnull : t <> NULLTHREAD).

Lemma call_wait i : KernelCall t (wait i).
Proof. split; [by apply wait_safe | unfold wait; keeps_tac]. Qed.
Lemma call_sleep ms : KernelCall t (sleep ms).
Proof. split; [by apply sleep_safe | unfold sleep; keeps_tac]. Qed.
Lemma call_receive : KernelCall t receive.
Proof. split; [by apply receive_safe | unfold receive; keeps_tac]. Qed.
Lemma call_recvtime n : n <= INT_MAX -> KernelCall t (recvtime n).
Proof. intros H. split; [by apply recvtime_safe | unfold recvtime; keeps_tac]. Qed.
End Blocking.

(** Routines with a limit on an argument. *)
Lemma call_chprio t x p : MINKEY < p -> KernelCall t (chprio x p).
Proof. intros H. split; [by apply chprio_safe | unfold chprio; keeps_tac]. Qed.
Lemma call_semcreate t n : n <= INT_MAX -> KernelCall t (semcreate n).
Proof. intros H. split; [by apply semcreate_safe | unfold semcreate; keeps_tac]. Qed.

(** Routines that are safe in a state where the semaphore has room. *)
Lemma keeps_signal i : keeps (signal i).
Proof. unfold signal; keeps_tac. Qed.
Lemma keeps_signaln i n : keeps (signaln i n).
Proof. unfold signaln; keeps_tac. Qed.

(** ** System calls *)

Inductive call :=
  | Yield
  | Resume (tid : Z)
  | Suspend (tid : Z)
  | Chprio (tid newprio : Z)
  | Getprio (tid : Z)
  | Wait (sem : Z)
  | Signal (sem : Z)
  | Signaln (sem count : Z)
  | Semcreate (count : Z)
  | Semfree (sem : Z)
  | Semcount (sem : Z)
  | Sleep (ms : Z)
  | Send (tid msg : Z)
  | Receive
  | Recvclr
  | Recvtime (maxwait : Z)
  | Memget (nbytes : Z)
  | Memfree (memptr nbytes : Z)
  | Create (procaddr ssize priority : Z) (name : list Z) (nargs : Z) (ap : list Z)
  | Tick.

(** How the kernel was built: the words of the VFP registers in a context, the values
    start.S reads from two of these registers, and the return address of new threads. *)
Record build := mkBuild { b_fpu : Z; b_fpexc : Z; b_fpscr : Z; b_userret : Z }.

Definition exec (b : build) (c : call) : kprog Z :=
  match c with
  | Yield => yield
  | Resume tid => resume tid
  | Suspend tid => suspend tid
  | Chprio tid newprio => chprio tid newprio
  | Getprio tid => getprio tid
  | Wait sem => wait sem
  | Signal sem => signal sem
  | Signaln sem count => signaln sem count
  | Semcreate count => semcreate count
  | Semfree sem => semfree sem
  | Semcount sem => semcount sem
  | Sleep ms => sleep ms
  | Send tid msg => send tid msg
  | Receive => receive
  | Recvclr => recvclr
  | Recvtime maxwait => recvtime maxwait
  | Memget nbytes => memget nbytes
  | Memfree memptr nbytes => memfree memptr nbytes
  | Create procaddr ssize priority name nargs ap =>
      create (b_fpu b) (b_fpexc b) (b_fpscr b) (b_userret b) procaddr ssize priority name nargs ap
  | Tick => interrupt
  end.

(** What the caller has to respect: the null thread does not block, priorities
    stay above the key of the queue heads, no semaphore gets more than INT_MAX permits,
    requests for memory do not wrap around, only memory of the heap is freed, and the
    stack of a new thread has room for its context; with the VFP unit the words above the
    stack that [setupStack] clears are memory and not free. *)
Definition legal (b : build) (s : kst) (c : call) : Prop :=
  match c with
  | Chprio _ newprio => MINKEY < newprio
  | Wait _ | Sleep _ | Receive => thrcurrent s <> NULLTHREAD
  | Recvtime maxwait => thrcurrent s <> NULLTHREAD /\ maxwait <= INT_MAX
  | Signal sem => sem_room s sem 1
  | Signaln sem count => sem_room s sem count
  | Semcreate count => count <= INT_MAX
  | Memget nbytes => 0 < nbytes <= 2 ^ 32 - 8
  | Memfree memptr nbytes =>
      0 < nbytes <= 2 ^ 32 - 8 /\ memheap s <= memptr /\ memptr mod 8 = 0 /\
      memptr + roundmb nbytes <= maxaddr s
  | Create _ ssize priority _ nargs ap =>
      u32 ssize <= 2 ^ 32 - 8 /\ MINKEY < priority /\ 0 <= nargs <= Z.of_nat (length ap) /\
      4 * (spilled nargs + 17 + b_fpu b) <= roundmb (stksize ssize) /\
      (b_fpu b <> 0 -> forall bl, minv s bl -> clears_used (b_fpu b) nargs (roundmb (stksize ssize)) bl s)
  | _ => True
  end.

(** ** The system *)

(** The globals, and for each thread that was switched out the rest of the call
    it is in. *)
Record config := mkConfig { globals : kst; pending : gmap Z (kprog Z) }.

(** The current thread finishes the call it was switched out of, if any, and then
    makes a new one; the clock interrupts it between two calls. *)
Inductive step (b : build) : config -> config -> Prop :=
  | step_done c s p r s' :
      p !! thrcurrent s = None -> legal b s c -> run (exec b c) s = Done r s' ->
      step b (mkConfig s p) (mkConfig s' p)
  | step_switch c s p k s' :
      p !! thrcurrent s = None -> legal b s c -> run (exec b c) s = Switch s' k ->
      step b (mkConfig s p) (mkConfig s' (<[thrcurrent s := k]> p))
  | step_back s p k r s' :
      p !! thrcurrent s = Some k -> run k s = Done r s' ->
      step b (mkConfig s p) (mkConfig s' (delete (thrcurrent s) p))
  | step_again s p k k' s' :
      p !! thrcurrent s = Some k -> run k s = Switch s' k' ->
      step b (mkConfig s p) (mkConfig s' (<[thrcurrent s := k']> p)).

(** What the current thread does next, if it is in a call or makes the call [c]. *)
Definition next_outcome (b : build) (cfg : config) (c : call) : outcome kst Z :=
  match pending cfg !! thrcurrent (globals cfg) with
  | Some k => run k (globals cfg)
  | None => run (exec b c) (globals cfg)
  end.

Definition sysinv (cfg : config) : Prop :=
  (exists Q bl, kinv (globals cfg) Q /\ running (globals cfg) /\ minv (globals cfg) bl) /\
  (forall t k, pending cfg !! t = Some k -> KernelCall t k).

(** ** The invariant *)

(** An outcome that neither faults nor runs on, and leaves the invariants. *)
Inductive sound (t : Z) : outcome kst Z -> Prop :=
  | sound_done r s Q bl : kinv s Q -> running s -> minv s bl -> sound t (Done r s)
  | sound_switch s k Q bl : kinv s Q -> running s -> minv s bl -> KernelCall t k -> sound t (Switch s k)
  | sound_halted s : sound t (Halted s).

Lemma sound_out s bl m :
  minv s bl -> safe_out (thrcurrent s) (run m s) -> keeps m -> sound (thrcurrent s) (run m s).
Proof.
  intros HM Ho Hk. assert (Hko : keeps_out s (run m s)) by (by destruct Hk).
  destruct Ho as [a s' Q' HI' Hr' _ | s' k Q' HI' Hr' _ Hk' |]; inversion Hko; subst; try by constructor.
  - econstructor; [done | done |]. by eapply minv_same.
  - econstructor; [done | done | by eapply minv_same | by split].
Qed.

Lemma sound_call s Q bl m :
  kinv s Q -> running s -> minv s bl -> KernelCall (thrcurrent s) m -> sound (thrcurrent s) (run m s).
Proof. intros HI Hr HM [Hs Hk]. eapply sound_out; [done | by eapply safe_run | done]. Qed.

(** The allocator leaves the rest of the kernel's state alone. *)
Lemma mem_frame_kview s s' : inCrit s = true -> mem_frame (crit_in s) s' -> kview (crit_out s') = kview s.
Proof. intros Hc (m & p & n & ->). unfold kview. ksimpl. by rewrite Hc. Qed.

Lemma sound_mem s Q bl t r s' :
  kinv s Q -> running s -> mem_frame (crit_in s) s' -> minv s' bl -> sound t (Done r (crit_out s')).
Proof.
  intros HI Hr Hf HM. pose proof (mem_frame_kview _ _ (ks_crit _ (ki_static _ _ HI)) Hf) as Ev.
  apply (sound_done _ _ _ Q bl); [by eapply kinv_view | by eapply running_view | by apply minv_crit_out].
Qed.

Lemma mem_frame_refl s : mem_frame s s.
Proof. exists (mem s), (memlist_next s), (memlist_length s). by destruct s. Qed.

Lemma sound_memget s Q bl t nbytes :
  kinv s Q -> running s -> minv s bl -> 0 < nbytes <= 2 ^ 32 - 8 -> sound t (run (memget nbytes) s).
Proof.
  intros HI Hr HM Hb. pose proof (memget_spec s bl nbytes HM (ks_crit _ (ki_static _ _ HI)) Hb) as H. cbv zeta in H.
  destruct (getm (roundmb nbytes) bl) as [[x bl']|].
  - destruct H as (s' & -> & HM' & Hf & _). by eapply sound_mem.
  - destruct H as [-> _]. eapply sound_mem; [done | done | apply mem_frame_refl | by apply minv_crit].
Qed.

Lemma sound_memfree s Q bl t a nbytes :
  kinv s Q -> running s -> minv s bl -> 0 < nbytes <= 2 ^ 32 - 8 ->
  memheap s <= a -> a mod 8 = 0 -> a + roundmb nbytes <= maxaddr s -> sound t (run (memfree a nbytes) s).
Proof.
  intros HI Hr HM Hb H1 H2 H3.
  pose proof (memfree_spec s bl a nbytes HM (ks_crit _ (ki_static _ _ HI)) Hb H1 H2 H3) as H. cbv zeta in H.
  destruct (putm _ _ bl) as [bl'|].
  - destruct H as (s' & -> & HM' & Hf & _). by eapply sound_mem.
  - rewrite H. eapply sound_mem; [done | done | apply mem_frame_refl | by apply minv_crit].
Qed.

Lemma sound_exec b s Q bl c :
  fpu_words (b_fpu b) -> kinv s Q -> running s -> minv s bl -> legal b s c -> sound (thrcurrent s) (run (exec b c) s).
Proof.
  intros HF HI Hr HM Hl. destruct c; cbn [exec legal] in *;
    try (eapply sound_call; [done | done | done |]; apply _).
  - by eapply sound_call, call_chprio.
  - by eapply sound_call, call_wait.
  - eapply sound_out; [done | by eapply signal_safe_out | apply keeps_signal].
  - eapply sound_out; [done | by eapply signaln_safe_out | apply keeps_signaln].
  - by eapply sound_call, call_semcreate.
  - by eapply sound_call, call_sleep.
  - by eapply sound_call, call_receive.
  - destruct Hl. by eapply sound_call, call_recvtime.
  - by eapply sound_memget.
  - destruct Hl as (? & ? & ? & ?). by eapply sound_memfree.
  - destruct Hl as (H1 & H2 & H3 & H4 & H5).
    destruct (create_spec (b_fpu b) (b_fpexc b) (b_fpscr b) (b_userret b) procaddr ssize priority name nargs ap s Q bl)
      as (r & s' & -> & HI' & Hr' & [(_ & HM' & _) | (bl' & HM' & _)]); try done; try by econstructor.
    destruct HF as [E | E]; [rewrite E; by apply clears_ok | apply H5; [lia | done]].
Qed.

Lemma sound_next b cfg c : fpu_words (b_fpu b) ->
  sysinv cfg -> legal b (globals cfg) c -> sound (thrcurrent (globals cfg)) (next_outcome b cfg c).
Proof.
  intros HF [(Q & bl & HI & Hr & HM) Hp] Hl. unfold next_outcome.
  destruct (pending cfg !! _) as [k|] eqn:E; [| by eapply sound_exec].
  eapply sound_call; eauto.
Qed.

Lemma sysinv_step b cfg cfg' : fpu_words (b_fpu b) -> sysinv cfg -> step b cfg cfg' -> sysinv cfg'.
Proof.
  intros HF Hinv Hstep. pose proof Hinv as [_ Hp].
  destruct Hstep as [c s p r s' E Hl Hrun | c s p k s' E Hl Hrun | s p k r s' E Hrun | s p k k' s' E Hrun].
  - pose proof (sound_next b _ c HF Hinv Hl) as Hs. unfold next_outcome in Hs. cbn in Hs.
    rewrite E, Hrun in Hs. inversion Hs; subst. split; [eauto | done].
  - pose proof (sound_next b _ c HF Hinv Hl) as Hs. unfold next_outcome in Hs. cbn in Hs.
    rewrite E, Hrun in Hs. inversion Hs; subst. split; [eauto |]. cbn in *.
    intros t k0. rewrite lookup_insert. case_decide; [by intros [= <-]; subst | apply Hp].
  - pose proof (sound_next b _ Yield HF Hinv I) as Hs. unfold next_outcome in Hs. cbn in Hs.
    rewrite E, Hrun in Hs. inversion Hs; subst. split; [eauto |]. cbn in *.
    intros t k0 [_ H]%lookup_delete_Some. by apply Hp.
  - pose proof (sound_next b _ Yield HF Hinv I) as Hs. unfold next_outcome in Hs. cbn in Hs.
    rewrite E, Hrun in Hs. inversion Hs; subst. split; [eauto |]. cbn in *.
    intros t k0. rewrite lookup_insert. case_decide; [by intros [= <-]; subst | apply Hp].
Qed.

(** The states reached from start-up. *)
Definition starts (nmon endaddr : Z) (s : kst) (cfg : config) : Prop :=
  raw nmon s /\ pending cfg = ∅ /\ run (sysinit nmon endaddr) s = Done OK (globals cfg).

Lemma sysinv_start nmon endaddr s cfg : starts nmon endaddr s cfg -> sysinv cfg.
Proof.
  intros (Hraw & Hp & Hrun). destruct (sysinit_spec nmon endaddr s Hraw) as (s' & Hrun' & HI & Hr & HM & _).
  rewrite Hrun in Hrun'. injection Hrun' as <-. split; [eauto |]. rewrite Hp. intros t k H. by rewrite lookup_empty in H.
Qed.

Lemma sysinv_reach b cfg cfg' : fpu_words (b_fpu b) -> sysinv cfg -> rtc (step b) cfg cfg' -> sysinv cfg'.
Proof. intros HF H Hr. induction Hr; [done |]. by eauto using sysinv_step. Qed.

(** C1: From start-up on, whatever calls of those below the threads make and however they
    are switched, the kernel invariant holds in every state: each thread is in the queue its state says, the
    queues are well linked and ordered, the counts of the semaphores agree with their
    queues, the free list is sorted, aligned and complete; and the next call or resumption
    neither indexes a table out of its bounds, nor touches unmapped memory, nor loops
    forever.  The calls are those of [call]: scheduling, semaphores, sleeping, messages,
    memget and memfree, create, and the clock interrupt, which comes between calls; kill,
    userret, unsleep, monitors, mailboxes and buffer pools are not among them.  The callers respect [legal]:
    the null thread does not block, priorities are above MINKEY, no semaphore is signalled
    beyond INT_MAX permits and no wait is longer than INT_MAX, requests for memory do not
    wrap around, only memory of the heap is freed, and a new stack has room for its context
    and arguments; in a build with the VFP unit what create clears above it is used memory. *)
Theorem kernel_invariant nmon endaddr b s cfg cfg' c :
  fpu_words (b_fpu b) -> starts nmon endaddr s cfg -> rtc (step b) cfg cfg' -> legal b (globals cfg') c ->
  (exists Q bl, kinv (globals cfg') Q /\ running (globals cfg') /\ minv (globals cfg') bl) /\
  next_outcome b cfg' c <> Fault /\ next_outcome b cfg' c <> Diverge.
Proof.
  intros HF Hs Hr Hl. assert (Hinv : sysinv cfg') by (eapply sysinv_reach; [done | by eapply sysinv_start | done]).
  pose proof (sound_next b cfg' c HF Hinv Hl) as Ho. split; [apply Hinv |].
  by destruct Ho.
Qed.
