(* ===== verification/Monitor.v ===== *)
(** Monitors: system/lock.c, system/unlock.c, system/moncreate.c, system/monfree.c
    and system/moncount.c.  A monitor is a lock that its owner may take several
    times; it is built on a semaphore with one permit. *)
From Stdlib Require Import ZArith Lia.
From stdpp Require Import sorting gmap functions list.
From S2P Require Import Prelude Kernel Queue QueueFacts Sched Semaphore Clock Message Memory Boot Frame Thread.

Section Monitor.
(** [NMON], the size of the monitor table. *)
Context (NMON : Z).

(** ** Routines

    A [monitor] is an unsigned int; the address of a table entry is never null. *)

Definition NOMON : Z := u32 SYSERR.

Definition monx (i : Z) : kprog monent := load montab i.
Definition amend_mon (i : Z) (f : monent -> monent) : kprog unit := amend montab set_montab i f.

Definition isbadmon (m : Z) : kprog bool :=
  if m >=? NMON then mret true
  else e ← monx m; mret (bool_decide (m_state e = MFREE)).

Definition count_up (e : monent) : monent := set_m_count (u32 (m_count e + 1)) e.
Definition count_down (e : monent) : monent := set_m_count (u32 (m_count e - 1)) e.

Definition lock (mon : Z) : kprog Z :=
  let mon := u32 mon in
  ENTER_KERNEL_CRITICAL_SECTION;;
  bad ← isbadmon mon;
  if (bad : bool) then EXIT_KERNEL_CRITICAL_SECTION;; mret SYSERR else
  monptr ← monx mon;
  cur ← gets thrcurrent;
  (if NOOWNER =? m_owner monptr then
     amend_mon mon (set_m_owner cur);;
     amend_mon mon count_up;;
     monptr ← monx mon;
     wait (m_sem monptr);;
     mret tt
   else if cur =? m_owner monptr then
     amend_mon mon count_up
   else
     wait (m_sem monptr);;
     cur ← gets thrcurrent;
     amend_mon mon (set_m_owner cur);;
     amend_mon mon count_up);;
  EXIT_KERNEL_CRITICAL_SECTION;;
  mret OK.

Definition unlock (mon : Z) : kprog Z :=
  let mon := u32 mon in
  ENTER_KERNEL_CRITICAL_SECTION;;
  bad ← isbadmon mon;
  if (bad : bool) then EXIT_KERNEL_CRITICAL_SECTION;; mret SYSERR else
  monptr ← monx mon;
  if m_count monptr =? 0 then EXIT_KERNEL_CRITICAL_SECTION;; mret SYSERR else
  amend_mon mon count_down;;
  monptr ← monx mon;
  (if m_count monptr =? 0 then
     amend_mon mon (set_m_owner NOOWNER);;
     signal (m_sem monptr);;
     mret tt
   else mret tt);;
  EXIT_KERNEL_CRITICAL_SECTION;;
  mret OK.

(** The body of the search loop of [monalloc]. *)
Definition monalloc_body (_ : Z) (_ : unit) : kprog (unit + Z) :=
  k ← gets nextmon;
  modify (set_nextmon (k + 1));;
  k ← gets nextmon;
  (if k >=? NMON then modify (set_nextmon 0) else mret tt);;
  k ← gets nextmon;
  e ← monx k;
  if bool_decide (m_state e = MFREE) then
    amend_mon k (set_m_state MUSED);;
    mret (inr k)
  else mret (inl tt).

Definition monalloc : kprog Z :=
  r ← for_ (Z.to_nat NMON) 0 monalloc_body tt;
  match r with
  | inr mon => mret mon
  | inl _ => mret NOMON
  end.

Definition moncreate : kprog Z :=
  ENTER_KERNEL_CRITICAL_SECTION;;
  mon ← monalloc;
  mon ← (if negb (NOMON =? mon) then
           amend_mon mon (set_m_owner NOOWNER);;
           amend_mon mon (set_m_count 0);;
           EXIT_KERNEL_CRITICAL_SECTION;;
           sem ← semcreate 1;
           amend_mon mon (set_m_sem sem);;
           ENTER_KERNEL_CRITICAL_SECTION;;
           monptr ← monx mon;
           if NOSEM =? m_sem monptr then
             amend_mon mon (set_m_state MFREE);;
             mret NOMON
           else mret mon
         else mret mon);
  EXIT_KERNEL_CRITICAL_SECTION;;
  mret mon.

Definition monfree (mon : Z) : kprog Z :=
  let mon := u32 mon in
  ENTER_KERNEL_CRITICAL_SECTION;;
  bad ← isbadmon mon;
  result ← (if negb bad then
              monptr ← monx mon;
              (if negb (m_sem monptr =? 0) then semfree (m_sem monptr);; mret tt else mret tt);;
              amend_mon mon (set_m_state MFREE);;
              mret OK
            else mret SYSERR);
  EXIT_KERNEL_CRITICAL_SECTION;;
  mret result.

(** [moncount] returns the unsigned count as an [int]. *)
Definition moncount (mon : Z) : kprog Z :=
  let mon := u32 mon in
  bad ← isbadmon mon;
  if (bad : bool) then mret SYSERR else
  e ← monx mon;
  mret (i32 (m_count e)).

(** ** Locking and unlocking *)

Lemma run_monx i e s : montab s !! i = Some e -> run (monx i) s = Done e s.
Proof. apply run_load. Qed.

Lemma run_amend_mon i f e s :
  montab s !! i = Some e ->
  run (amend_mon i f) s = Done tt (set_montab (<[i := f e]> (montab s)) s).
Proof. apply run_amend. Qed.

Lemma isbadmon_used s i e :
  montab s !! i = Some e -> m_state e = MUSED -> i < NMON -> run (isbadmon i) s = Done false s.
Proof.
  intros He Hu Hi. unfold isbadmon. rewrite Z.geb_leb, (proj2 (Z.leb_gt _ _)) by lia.
  rewrite run_bind, (run_monx i e) by done. cbn [obind]. rewrite run_ret. by rewrite Hu.
Qed.

(** [monitor_at s mon me e]: [mon] is a monitor in use, with table entry [me] and
    semaphore [e]. *)
Definition monitor_at (s : kst) (mon : Z) (me : monent) (e : sement) : Prop :=
  montab s !! u32 mon = Some me /\ m_state me = MUSED /\ u32 mon < NMON /\
  semtab s !! u32 (m_sem me) = Some e /\ s_state e = SUSED.

(** [s] with other interrupt masks. *)
Definition irq (cp im : Z) (s : kst) : kst := set_inCrit true (set_cpsr cp (set_intmask im s)).

Ltac mstep :=
  match goal with
  | |- context [run (monx ?i) ?s] => erewrite (run_monx i _ s) by lkp
  | |- context [run (amend_mon ?i ?f) ?s] => erewrite (run_amend_mon i f _ s) by lkp
  end; cbn [obind]; ksimpl.
Ltac mrun := repeat first [prun1 | mstep].

(** What follows the test of the argument. *)
Lemma run_entry {A} s mon me e (f : bool -> kprog A) :
  inCrit s = true -> monitor_at s mon me e ->
  run (ENTER_KERNEL_CRITICAL_SECTION;; bad ← isbadmon (u32 mon); f bad) s = run (f false) (crit_in s).
Proof.
  intros Hc (Hm & Hu & Hi & _). do 2 prun1. rewrite run_bind, (isbadmon_used _ _ me) by done. done.
Qed.

Lemma run_lock_again s mon me e :
  inCrit s = true -> monitor_at s mon me e -> m_owner me = thrcurrent s -> thrcurrent s <> NOOWNER ->
  run (lock mon) s =
    Done OK (crit_out (set_montab (<[u32 mon := count_up me]> (montab s)) (crit_in s))).
Proof.
  intros Hc Hm Ho Ht. unfold lock. rewrite (run_entry s mon me e) by done. destruct Hm as (Hm & _).
  mrun. rewrite Ho, (proj2 (Z.eqb_neq NOOWNER _)), Z.eqb_refl by congruence. by mrun.
Qed.

Lemma run_unlock_inner s mon me e :
  inCrit s = true -> monitor_at s mon me e -> 1 < m_count me < 2 ^ 32 ->
  run (unlock mon) s =
    Done OK (crit_out (set_montab (<[u32 mon := count_down me]> (montab s)) (crit_in s))).
Proof.
  intros Hc Hm Hn. unfold unlock. rewrite (run_entry s mon me e) by done. destruct Hm as (Hm & _).
  mrun. rewrite (proj2 (Z.eqb_neq (m_count me) 0)) by lia. mrun. cbn [count_down set_m_count m_count].
  rewrite u32_small, (proj2 (Z.eqb_neq (m_count me - 1) 0)) by lia. by mrun.
Qed.

(** The calls of a routine, one after the other, with what they return. *)
Fixpoint times (n : nat) (m : kprog Z) : kprog (list Z) :=
  match n with
  | O => mret []
  | S n => r ← m; rs ← times n m; mret (r :: rs)
  end.

Section Used.
Context (s : kst) (Q : Z -> list Z) (mon : Z) (me : monent) (e : sement).
Hypothesis HI : kinv s Q.
Hypothesis Hm : monitor_at s mon me e.

(** The state with the entry [me'] for the monitor and the count [c] of its
    semaphore. *)
Definition mon_state (me' : monent) (c : Z) : kst :=
  set_montab (<[u32 mon := me']> (montab s))
    (set_semtab (<[u32 (m_sem me) := set_s_count c e]> (semtab s)) s).

Lemma run_lock_first :
  m_owner me = NOOWNER -> 0 < s_count e ->
  exists cp im, run (lock mon) s =
    Done OK (irq cp im (mon_state (count_up (set_m_owner (thrcurrent s) me)) (s_count e - 1))) /\
    Z.testbit cp 7 = true.
Proof.
  intros Ho Hc. pose proof (ks_crit _ (ki_static _ _ HI)) as Hcrit. unfold lock.
  rewrite (run_entry s mon me e) by done. destruct Hm as (Hmt & Hu & Hi & Hs & Hsu).
  mrun. rewrite Ho, Z.eqb_refl. mrun. rewrite !insert_insert_eq.
  match goal with |- context [wait (m_sem ?x)] => change (m_sem x) with (m_sem me) end.
  set (s1 := set_montab _ _).
  assert (HI1 : kinv s1 Q) by (eapply kinv_view; [| exact (kinv_crit_in _ _ HI)]; done).
  rewrite (run_wait_take s1 Q (m_sem me) e HI1 Hs Hsu Hc). cbn [obind]. mrun. unfold s1, irq, mon_state; ksimpl; rewrite ?insert_insert_eq.
  match goal with |- context [Done OK ?st = _] => exists (cpsr st), (intmask st) end.
  ksimpl. split; [f_equal; kst_eq |]. rewrite ?Z.lor_spec, ?Z.land_spec, ?Z.lor_spec. change (Z.testbit ARM_I_BIT 7) with true.
  rewrite ?andb_true_r, ?orb_true_r. done.
Qed.

Lemma run_unlock_last :
  m_count me = 1 -> 0 <= s_count e < INT_MAX ->
  exists cp im, run (unlock mon) s =
    Done OK (irq cp im (mon_state (set_m_owner NOOWNER (count_down me)) (s_count e + 1))).
Proof.
  intros Hn Hc. pose proof (ks_crit _ (ki_static _ _ HI)) as Hcrit. unfold unlock.
  rewrite (run_entry s mon me e) by done. destruct Hm as (Hmt & Hu & Hi & Hs & Hsu).
  mrun. rewrite Hn. cbn [Z.eqb Pos.eqb]. mrun. cbn [count_down set_m_count m_count]. rewrite Hn.
  change (u32 (1 - 1) =? 0) with true. cbn match. mrun.
  match goal with |- context [signal (m_sem ?x)] => change (m_sem x) with (m_sem me) end.
  set (s1 := set_montab _ _).
  assert (HI1 : kinv s1 Q) by (eapply kinv_view; [| exact (kinv_crit_in _ _ HI)]; done).
  rewrite (run_signal_put s1 Q (m_sem me) e HI1 Hs Hsu Hc). cbn [obind]. mrun. unfold s1, irq, mon_state; ksimpl; rewrite ?insert_insert_eq.
  match goal with |- context [Done OK ?st = _] => exists (cpsr st), (intmask st) end. ksimpl. f_equal.
Qed.
End Used.

Section Held.
Context (s : kst) (Q : Z -> list Z) (mon : Z) (me : monent) (e : sement).
Hypothesis HI : kinv s Q.
Hypothesis Hm : monitor_at s mon me e.

(** The owner [t] holds the monitor [k] times. *)
Definition held (k cp im : Z) : kst :=
  irq cp im (mon_state s mon me e (mkMonent MUSED (thrcurrent s) k (m_sem me)) (s_count e - 1)).

Lemma held_at k cp im :
  monitor_at (held k cp im) mon (mkMonent MUSED (thrcurrent s) k (m_sem me)) (set_s_count (s_count e - 1) e).
Proof.
  destruct Hm as (_ & _ & Hi & _ & Hsu). split_and!; try done; cbn [m_sem]; unfold held, irq, mon_state; ksimpl;
    apply lookup_insert_eq.
Qed.

Lemma held_step k k' cp im :
  crit_out (set_montab
    (<[u32 mon := set_m_count k' (mkMonent MUSED (thrcurrent s) k (m_sem me))]> (montab (held k cp im)))
    (crit_in (held k cp im))) =
  let s' := crit_out (crit_in (held k cp im)) in held k' (cpsr s') (intmask s').
Proof. unfold held, irq, mon_state. ksimpl. by rewrite insert_insert_eq. Qed.

Lemma held_more n : forall k cp im, 0 < k -> k + Z.of_nat n < 2 ^ 32 ->
  exists cp' im', run (times n (lock mon)) (held k cp im) = Done (replicate n OK) (held (k + Z.of_nat n) cp' im').
Proof.
  induction n as [|n IH]; intros k cp im Hk Hn; cbn [times].
  - exists cp, im. by rewrite Z.add_0_r.
  - pose proof (ks_cur _ (ki_static _ _ HI)) as Ht.
    rewrite run_bind, (run_lock_again (held k cp im) mon _ _ eq_refl (held_at k cp im)); [| done | change (thrcurrent (held k cp im)) with (thrcurrent s); unfold NOOWNER, BADTID; lia].
    cbn [obind]. unfold count_up. cbn [m_count].
    rewrite (u32_small (k + 1)), held_step by lia.
    cbv zeta. edestruct (IH (k + 1)) as (cp' & im' & Hrun); [lia | lia |]. exists cp', im'.
    rewrite run_bind, Hrun. cbn [obind]. rewrite run_ret. cbn [replicate]. do 2 f_equal. lia.
Qed.

Lemma kinv_held k cp im : s_count e = 1 -> kinv (held k cp im) Q.
Proof.
  intros He. destruct Hm as (_ & _ & _ & Hs & Hsu).
  eapply kinv_view; [| apply (kinv_count s Q (u32 (m_sem me)) e HI Hs Hsu (s_count e - 1)); unfold INT_MIN, INT_MAX; lia].
  unfold kview, held, irq, mon_state. ksimpl. by rewrite (ks_crit _ (ki_static _ _ HI)).
Qed.

(** Giving up the last hold restores the state. *)
Lemma mon_state_same cp im : irq cp im (mon_state s mon me e me (s_count e)) = irq cp im s.
Proof.
  destruct Hm as (Hmt & _ & _ & Hs & _). unfold mon_state. replace (set_s_count (s_count e) e) with e by (by destruct e).
  rewrite (insert_id _ _ _ Hmt), (insert_id _ _ _ Hs). done.
Qed.

Lemma held_less n : m_owner me = NOOWNER -> m_count me = 0 -> s_count e = 1 -> Z.of_nat (S n) < 2 ^ 32 -> forall cp im,
  exists cp' im', run (times (S n) (unlock mon)) (held (Z.of_nat (S n)) cp im) = Done (replicate (S n) OK) (irq cp' im' s).
Proof.
  intros Ho Hc He. induction n as [|n IH]; intros Hn cp im; cbn [times]; rewrite run_bind.
  - change (Z.of_nat 1) with 1. destruct (run_unlock_last (held 1 cp im) Q mon _ _ (kinv_held 1 cp im He) (held_at 1 cp im)) as (cp' & im' & ->);
      [done | rewrite He; cbn; unfold INT_MAX; lia |].
    exists cp', im'. cbn [obind]. rewrite run_bind, !run_ret. cbn [obind]. rewrite run_ret. f_equal.
    rewrite <- mon_state_same. unfold mon_state, held, irq. ksimpl. cbn [m_sem].
    unfold mon_state. ksimpl. rewrite !insert_insert_eq.
    replace (set_m_owner NOOWNER (count_down (mkMonent MUSED (thrcurrent s) 1 (m_sem me)))) with me
      by (destruct Hm as (_ & Hu & _); destruct me; cbn in *; by subst).
    replace (set_s_count _ (set_s_count _ e)) with (set_s_count (s_count e) e) by (destruct e; cbn in *; by subst).
    done.
  - rewrite (run_unlock_inner (held (Z.of_nat (S (S n))) cp im) mon _ _ eq_refl (held_at _ cp im)) by (cbn [m_count]; lia).
    cbn [obind]. unfold count_down. cbn [m_count].
    rewrite (u32_small (Z.of_nat (S (S n)) - 1)), held_step by lia.
    cbv zeta. replace (Z.of_nat (S (S n)) - 1) with (Z.of_nat (S n)) by lia.
    edestruct IH as (cp' & im' & Hrun); [lia |]. exists cp', im'.
    rewrite run_bind. cbn [times] in Hrun. rewrite Hrun. done.
Qed.

(** C17: a thread that takes a free monitor [n] times owns it with the count [n], and
    giving it back [n] times succeeds each time and leaves every table of the
    kernel as it was. *)
Theorem lock_nesting n :
  m_owner me = NOOWNER -> m_count me = 0 -> s_count e = 1 -> 0 < Z.of_nat n < 2 ^ 32 ->
  exists s1, run (times n (lock mon)) s = Done (replicate n OK) s1 /\
    monitor_at s1 mon (mkMonent MUSED (thrcurrent s) (Z.of_nat n) (m_sem me)) (set_s_count 0 e) /\
    exists cp im, run (times n (unlock mon)) s1 = Done (replicate n OK) (irq cp im s).
Proof.
  intros Ho Hc He Hn. destruct n as [|n]; [lia |].
  destruct (run_lock_first s Q mon me e HI Hm Ho ltac:(lia)) as (cp & im & Hrun & _).
  assert (E1 : count_up (set_m_owner (thrcurrent s) me) = mkMonent MUSED (thrcurrent s) 1 (m_sem me)).
  { unfold count_up. destruct Hm as (_ & Hu & _). destruct me. cbn in *. by subst. }
  rewrite E1 in Hrun. fold (held 1 cp im) in Hrun. destruct (held_more n 1 cp im) as (cp1 & im1 & Hmore); [lia | lia |].
  exists (held (1 + Z.of_nat n) cp1 im1). split; [| split].
  - cbn [times]. rewrite run_bind, Hrun. cbn [obind]. rewrite run_bind, Hmore. done.
  - replace (Z.of_nat (S n)) with (1 + Z.of_nat n) by lia. pose proof (held_at (1 + Z.of_nat n) cp1 im1) as H.
    by rewrite He in H.
  - replace (1 + Z.of_nat n) with (Z.of_nat (S n)) by lia. apply held_less; [done.. | lia].
Qed.

(** Taking a free monitor leaves interrupts masked, also for a caller that had
    them enabled: the critical section of [wait], inside that of [lock], has
    overwritten the saved mask that the end of [lock] restores. *)
Theorem lock_masks_interrupts :
  m_owner me = NOOWNER -> 0 < s_count e ->
  exists s', run (lock mon) s = Done OK s' /\ irqs_masked s' = true.
Proof.
  intros Ho Hc. destruct (run_lock_first s Q mon me e HI Hm Ho Hc) as (cp & im & Hrun & Hb). by eexists.
Qed.

(** What [lock] does to the entry [me] when the thread [t] gets the monitor. *)
Definition taken (t : Z) (me' : monent) : monent := count_up (set_m_owner t me').

(** A thread that locks a monitor another thread owns waits at the end of the
    queue of its semaphore, and the monitor is not changed; when it runs again it
    owns the monitor, with one more lock than it had then. *)
Theorem lock_waits :
  running s -> thrcurrent s <> NULLTHREAD -> m_owner me <> NOOWNER -> m_owner me <> thrcurrent s ->
  s_count e <= 0 ->
  exists s' Q' k, run (lock mon) s = Switch s' k /\ kinv s' Q' /\ montab s' = montab s /\
    Q' (semq (u32 (m_sem me))) = Q (semq (u32 (m_sem me))) ++ [thrcurrent s] /\
    forall s2 me2, inCrit s2 = true -> is_Some (thrtab s2 !! thrcurrent s) -> thrcurrent s2 = thrcurrent s ->
      montab s2 !! u32 mon = Some me2 ->
      exists s3, run k s2 = Done OK s3 /\ montab s3 = <[u32 mon := taken (thrcurrent s) me2]> (montab s2).
Proof.
  intros Hr Hnull Hn Ho Hc. pose proof (ks_crit _ (ki_static _ _ HI)) as Hcrit. unfold lock.
  rewrite (run_entry s mon me e) by done. destruct Hm as (Hmt & Hu & Hi & Hs & Hsu). mrun.
  rewrite (proj2 (Z.eqb_neq NOOWNER _)), (proj2 (Z.eqb_neq (thrcurrent s) _)) by congruence. cbn match. rewrite !run_bind.
  destruct (run_wait_switch (crit_in s) Q (m_sem me) e (kinv_crit_in _ _ HI) (running_crit_in _ Hr) Hs Hsu Hc Hnull)
    as (Q' & qt & tt' & cur & cp & im & Hrun & HI' & _ & Hq & _).
  rewrite Hrun. cbn [obind]. eexists _, Q', _. split; [reflexivity |]. split_and!; [exact HI' | done | exact Hq |].
  intros s2 me2 Hc2 [et Het] Ht Hm2. destruct (run_wait_back _ s2 et Het) as [c Hback].
  change (thrcurrent (crit_in s)) with (thrcurrent s). change (pbind ?f (pbind ?g ?m)) with ((m ≫= g) ≫= f).
  rewrite !run_bind. change (run (pbind ?f ?m)) with (run (pbind f m)). rewrite Hback. cbn [obind]. mrun.
  rewrite insert_insert_eq, Ht. eexists. by split.
Qed.

(** A thread that locks a monitor which nobody owns but whose permit is still
    spoken for becomes its owner first and then blocks as one more waiter: [lock]
    records the owner before it waits. *)
Theorem lock_claims :
  running s -> thrcurrent s <> NULLTHREAD -> m_owner me = NOOWNER -> s_count e <= 0 ->
  exists s' Q' k, run (lock mon) s = Switch s' k /\ kinv s' Q' /\
    montab s' = <[u32 mon := taken (thrcurrent s) me]> (montab s) /\
    Q' (semq (u32 (m_sem me))) = Q (semq (u32 (m_sem me))) ++ [thrcurrent s] /\
    thrcurrent s' <> thrcurrent s.
Proof.
  intros Hr Hnull Ho Hc. pose proof (ks_crit _ (ki_static _ _ HI)) as Hcrit. unfold lock.
  rewrite (run_entry s mon me e) by done. destruct Hm as (Hmt & Hu & Hi & Hs & Hsu). mrun.
  rewrite Ho, Z.eqb_refl. mrun. rewrite !insert_insert_eq.
  match goal with |- context [wait (m_sem ?x)] => change (m_sem x) with (m_sem me) end. set (s1 := set_montab _ _).
  assert (HI1 : kinv s1 Q) by (eapply kinv_view; [| exact (kinv_crit_in _ _ HI)]; done).
  destruct (run_wait_switch s1 Q (m_sem me) e HI1 (running_crit_in _ Hr) Hs Hsu Hc Hnull)
    as (Q' & qt & tt' & cur & cp & im & Hrun & HI' & _ & Hq & Hne).
  rewrite Hrun. cbn [obind]. eexists _, Q', _. split; [reflexivity |]. by split_and!.
Qed.
End Held.

(** ** Creation *)

(** The table has [NMON] entries and the search starts at one of them. *)
Definition mon_table (s : kst) : Prop :=
  0 < NMON < 2 ^ 31 /\ 0 <= nextmon s < NMON /\ forall i, is_Some (montab s !! i) <-> 0 <= i < NMON.

Lemma monalloc_body_spec s j u :
  mon_table s ->
  let k := next_slot NMON (nextmon s) in
  exists e, montab s !! k = Some e /\
    run (monalloc_body j u) s =
      if bool_decide (m_state e = MFREE)
      then Done (inr k) (set_montab (<[k := set_m_state MUSED e]> (montab s)) (set_nextmon k s))
      else Done (inl tt) (set_nextmon k s).
Proof.
  intros (Hn & Hk & Hd) k. assert (Hkr : 0 <= k < NMON) by (apply Z.mod_pos_bound; lia).
  destruct (proj2 (Hd k) Hkr) as [e He]. exists e. split; [done |].
  assert (E : k = if nextmon s + 1 >=? NMON then 0 else nextmon s + 1).
  { unfold k, next_slot. destruct (Z.geb_spec (nextmon s + 1) NMON).
    - replace (nextmon s + 1) with NMON by lia. apply Z.mod_same. lia.
    - apply Z.mod_small. lia. }
  unfold monalloc_body. mrun. destruct (nextmon s + 1 >=? NMON) eqn:Hge; rewrite <- E in *; mrun;
    case_bool_decide; by mrun.
Qed.

Lemma monalloc_loop : forall n j s,
  mon_table s ->
  (exists k e, montab s !! k = Some e /\ m_state e = MFREE /\
     run (for_ n j monalloc_body tt) s =
       Done (inr k) (set_montab (<[k := set_m_state MUSED e]> (montab s)) (set_nextmon k s))) \/
  (exists k, 0 <= k < NMON /\ run (for_ n j monalloc_body tt) s = Done (inl tt) (set_nextmon k s)) /\
  (forall d, 1 <= d <= Z.of_nat n -> exists e,
     montab s !! ((nextmon s + d) mod NMON) = Some e /\ m_state e = MUSED).
Proof.
  induction n as [|n IH]; intros j s HT; pose proof HT as (Hn & Hk & Hd).
  - right. split; [| lia]. exists (nextmon s). split; [done |]. by destruct s.
  - destruct (monalloc_body_spec s j tt HT) as (e & He & Hb).
    assert (Hkr : 0 <= next_slot NMON (nextmon s) < NMON) by (apply Z.mod_pos_bound; lia).
    cbn [for_]. rewrite run_bind, Hb. case_bool_decide as Hst; cbn [obind].
    + left. by exists (next_slot NMON (nextmon s)), e.
    + destruct (IH (j + 1) (set_nextmon (next_slot NMON (nextmon s)) s) (conj Hn (conj Hkr Hd)))
        as [(k & e' & He' & Hst' & ->) | [(k & Hk' & ->) Hall]].
      * left. by exists k, e'.
      * right. split; [by exists k |]. intros d Hdd. destruct (decide (d = 1)) as [-> | Hne].
        -- exists e. split; [done |]. by destruct (m_state e).
        -- destruct (Hall (d - 1)) as (e' & He' & Hst'); [lia |]. exists e'. split; [| done].
           rewrite <- He'. f_equal. cbn. unfold next_slot. rewrite Zplus_mod_idemp_l. f_equal. lia.
Qed.

Lemma moncreate_spec s Q :
  kinv s Q -> mon_table s ->
  exists mon s', run moncreate s = Done mon s' /\ kinv s' Q /\
    ((exists me sem e, montab s !! mon = Some me /\ m_state me = MFREE /\
        semtab s !! sem = Some e /\ s_state e = SFREE /\
        montab s' = <[mon := mkMonent MUSED NOOWNER 0 sem]> (montab s) /\
        monitor_at s' mon (mkMonent MUSED NOOWNER 0 sem) (mkSement SUSED 1 (semq sem))) \/
     (mon = NOMON /\ (forall i me, montab s' !! i = Some me -> m_state me = MUSED ->
        exists me0, montab s !! i = Some me0 /\ m_state me0 = MUSED) /\
      ((forall i me, montab s !! i = Some me -> m_state me = MUSED) \/
       (forall i e, semtab s !! i = Some e -> s_state e = SUSED)))).
Proof.
  intros HI HT. pose proof (ks_crit _ (ki_static _ _ HI)) as Hcrit. pose proof HT as (Hn & Hk & Hd).
  unfold moncreate, monalloc. prun1. prun1. rewrite !run_bind.
  destruct (monalloc_loop (Z.to_nat NMON) 0 (crit_in s) HT)
    as [(k & me & Hme & Hst & ->) | [(k & Hk' & ->) Hall]]; cbn [obind].
  - rewrite run_ret. cbn [obind]. change (montab (crit_in s)) with (montab s) in *.
    assert (Hkr : 0 <= k < NMON) by (apply Hd; by rewrite Hme).
    assert (HkN : (NOMON =? k) = false) by (apply Z.eqb_neq; unfold NOMON, u32, SYSERR; lia). rewrite HkN. cbn [negb]. mrun.
    rewrite !insert_insert_eq. set (s1 := crit_out _).
    assert (HI1 : kinv s1 Q).
    { apply kinv_crit_out. eapply kinv_view; [| exact (kinv_crit_in _ _ HI)]. done. }
    destruct (semcreate_spec s1 Q 1 HI1) as [(i & e & He & Hse & Hq & Hrun & HI2) | [(i & Hrun & HI2) Hno]];
      [unfold INT_MAX; lia | |]; rewrite Hrun; cbn [obind]; unfold s1; mrun.
    + pose proof (sem_range (ki_sems _ _ HI1) He) as Hi.
      match goal with |- context [NOSEM =? m_sem ?x] => change (m_sem x) with i end.
      rewrite (proj2 (Z.eqb_neq NOSEM i)) by (unfold NOSEM, u32, SYSERR; klia). mrun. rewrite !insert_insert_eq.
      change (set_m_sem i _) with (mkMonent MUSED NOOWNER 0 i). set (s2 := crit_out _).
      exists k, s2. split; [exact eq_refl |]. split; [| left; exists me, i, e].
      { apply kinv_crit_out. eapply kinv_view; [| exact HI2]. unfold kview, s1. ksimpl. done. }
      split; [done |]. split; [done |]. split; [done |]. split; [done |]. unfold s2, s1. split; [exact eq_refl |].
      split_and!; ksimpl; cbn [m_sem]; [| exact eq_refl | | | exact eq_refl].
      * rewrite u32_small by lia. apply lookup_insert_eq.
      * rewrite u32_small by lia. lia.
      * rewrite u32_small by klia. apply lookup_insert_eq.
    + match goal with |- context [NOSEM =? m_sem ?x] => change (m_sem x) with NOSEM end. rewrite Z.eqb_refl. mrun.
      rewrite !insert_insert_eq. set (s2 := crit_out _). exists NOMON, s2. split; [exact eq_refl |]. split.
      { apply kinv_crit_out. eapply kinv_view; [| exact HI2]. unfold kview, s1. ksimpl. done. }
      right. split; [done |]. split; [| right; exact Hno]. intros j mj Hj Hu. unfold s2 in Hj. cbn in Hj.
      destruct (decide (k = j)) as [-> | Hne]; [rewrite lookup_insert_eq in Hj; injection Hj as <-; done |].
      rewrite lookup_insert_ne in Hj by done. eauto.
  - rewrite run_ret. cbn [obind]. rewrite Z.eqb_refl. cbn [negb]. mrun. eexists _, _. split; [exact eq_refl |]. split.
    { apply kinv_crit_out. eapply kinv_view; [| exact (kinv_crit_in _ _ HI)]. done. }
    right. split; [done |]. split; [by eauto |]. left. intros i me Hi.
    destruct (slot_reached NMON (nextmon s) i) as (d & Hdd & E); [apply Hd; by rewrite Hi |].
    destruct (Hall d) as (me' & Hme' & Hst'); [lia |]. change (nextmon (crit_in s)) with (nextmon s) in Hme'.
    rewrite E in Hme'. cbn in Hme'. congruence.
Qed.
(** [moncreate] returns a monitor that was free in the table, now in use, owned by
    nobody and with its own new semaphore of one permit; it returns [SYSERR]
    exactly when every monitor or every semaphore is in use, and then no monitor
    is taken. *)
Theorem moncreate_free s Q :
  kinv s Q -> mon_table s ->
  exists mon s', run moncreate s = Done mon s' /\ kinv s' Q /\
    ((exists me sem e, montab s !! mon = Some me /\ m_state me = MFREE /\
        semtab s !! sem = Some e /\ s_state e = SFREE /\
        montab s' = <[mon := mkMonent MUSED NOOWNER 0 sem]> (montab s) /\
        monitor_at s' mon (mkMonent MUSED NOOWNER 0 sem) (mkSement SUSED 1 (semq sem))) \/
     (mon = NOMON /\ (forall i me, montab s' !! i = Some me -> m_state me = MUSED ->
        exists me0, montab s !! i = Some me0 /\ m_state me0 = MUSED) /\
      ((forall i me, montab s !! i = Some me -> m_state me = MUSED) \/
       (forall i e, semtab s !! i = Some e -> s_state e = SUSED)))).
Proof. apply moncreate_spec. Qed.
End Monitor.
