(* ===== verification/Mailbox.v ===== *)
(** Mailboxes: mailbox/mailboxAlloc.c, mailboxCount.c, mailboxFree.c,
    mailboxReceive.c and mailboxSend.c.  A mailbox is a ring of messages in the
    heap with a semaphore that counts the free places and one that counts the
    messages; it is shown to be a bounded queue. *)
From Stdlib Require Import ZArith Lia.
From stdpp Require Import sorting gmap functions list.
From S2P Require Import Prelude Kernel Queue QueueFacts Sched Semaphore Clock Message Memory Boot.

(** ** Routines

    A [mailbox] is an unsigned int. *)

Definition mbx (i : Z) : kprog mbox := load mboxtab i.
Definition amend_mbx (i : Z) (f : mbox -> mbox) : kprog unit := amend mboxtab set_mboxtab i f.

(** The address of place [i] of the ring. *)
Definition place (e : mbox) (i : Z) : Z := x_msgs e + 4 * i.

(** The body of the search loop; it leaves the loop with the value to return. *)
Definition mailboxAlloc_body (count : Z) (_ : Z) (_ : unit) : kprog (unit + Z) :=
  k ← gets nextmbx;
  modify (set_nextmbx (u32 (k + 1) mod NMAILBOX));;
  k ← gets nextmbx;
  mbxptr ← mbx k;
  if bool_decide (x_state mbxptr = MAILBOX_FREE) then
    p ← memget (u32 (4 * count));
    amend_mbx k (set_x_msgs p);;
    if p =? PTRERR then mret (inr SYSERR) else
    amend_mbx k (set_x_count 0);;
    amend_mbx k (set_x_start 0);;
    amend_mbx k (set_x_max count);;
    sender ← semcreate (i32 count);
    amend_mbx k (set_x_sender sender);;
    receiver ← semcreate 0;
    amend_mbx k (set_x_receiver receiver);;
    mbxptr ← mbx k;
    if (x_sender mbxptr =? NOSEM) || (x_receiver mbxptr =? NOSEM) then
      memfree (x_msgs mbxptr) (u32 (4 * x_max mbxptr));;
      semfree (x_sender mbxptr);;
      semfree (x_receiver mbxptr);;
      mret (inr SYSERR)
    else
    amend_mbx k (set_x_state MAILBOX_ALLOC);;
    mret (inr k)
  else mret (inl tt).

Definition mailboxAlloc (count : Z) : kprog Z :=
  let count := u32 count in
  sem ← gets mboxtabsem;
  wait sem;;
  r ← for_ (Z.to_nat NMAILBOX) 0 (mailboxAlloc_body count) tt;
  sem ← gets mboxtabsem;
  signal sem;;
  mret (match r with inr retval => retval | inl _ => SYSERR end).

Definition mailboxCount (box : Z) : kprog Z :=
  let box := u32 box in
  if negb (box <? NMAILBOX) then mret SYSERR else
  ENTER_KERNEL_CRITICAL_SECTION;;
  mbxptr ← mbx box;
  let retval := if bool_decide (x_state mbxptr = MAILBOX_ALLOC) then i32 (x_count mbxptr) else SYSERR in
  EXIT_KERNEL_CRITICAL_SECTION;;
  mret retval.

Definition mailboxFree (box : Z) : kprog Z :=
  let box := u32 box in
  if negb (box <? NMAILBOX) then mret SYSERR else
  sem ← gets mboxtabsem;
  wait sem;;
  mbxptr ← mbx box;
  retval ← (if bool_decide (x_state mbxptr = MAILBOX_ALLOC) then
              amend_mbx box (set_x_state MAILBOX_FREE);;
              semfree (x_sender mbxptr);;
              mbxptr ← mbx box;
              semfree (x_receiver mbxptr);;
              mbxptr ← mbx box;
              memfree (x_msgs mbxptr) (u32 (4 * x_max mbxptr));;
              mret OK
            else mret SYSERR);
  sem ← gets mboxtabsem;
  signal sem;;
  mret retval.

Definition mailboxReceive (box : Z) : kprog Z :=
  let box := u32 box in
  if negb (box <? NMAILBOX) then mret SYSERR else
  ENTER_KERNEL_CRITICAL_SECTION;;
  mbxptr ← mbx box;
  retval ← (if bool_decide (x_state mbxptr = MAILBOX_ALLOC) then
              wait (x_receiver mbxptr);;
              mbxptr ← mbx box;
              if bool_decide (x_state mbxptr = MAILBOX_ALLOC) then
                msg ← ldw (place mbxptr (x_start mbxptr));
                amend_mbx box (set_x_start (u32 (x_start mbxptr + 1) mod x_max mbxptr));;
                amend_mbx box (set_x_count (u32 (x_count mbxptr - 1)));;
                mbxptr ← mbx box;
                signal (x_sender mbxptr);;
                mret (i32 msg)
              else mret SYSERR
            else mret SYSERR);
  EXIT_KERNEL_CRITICAL_SECTION;;
  mret retval.

Definition mailboxSend (box mailmsg : Z) : kprog Z :=
  let box := u32 box in
  if negb (box <? NMAILBOX) then mret SYSERR else
  ENTER_KERNEL_CRITICAL_SECTION;;
  mbxptr ← mbx box;
  retval ← (if bool_decide (x_state mbxptr = MAILBOX_ALLOC) then
              wait (x_sender mbxptr);;
              mbxptr ← mbx box;
              if bool_decide (x_state mbxptr = MAILBOX_ALLOC) then
                stw (place mbxptr (u32 (x_start mbxptr + x_count mbxptr) mod x_max mbxptr)) (u32 mailmsg);;
                amend_mbx box (set_x_count (u32 (x_count mbxptr + 1)));;
                mbxptr ← mbx box;
                signal (x_receiver mbxptr);;
                mret OK
              else mret SYSERR
            else mret SYSERR);
  EXIT_KERNEL_CRITICAL_SECTION;;
  mret retval.

(** ** A bounded queue *)

Lemma run_mbx i e s : mboxtab s !! i = Some e -> run (mbx i) s = Done e s.
Proof. apply run_load. Qed.

Lemma run_amend_mbx i f e s :
  mboxtab s !! i = Some e ->
  run (amend_mbx i f) s = Done tt (set_mboxtab (<[i := f e]> (mboxtab s)) s).
Proof. apply run_amend. Qed.

Ltac xstep :=
  match goal with
  | |- context [run (mbx ?i) ?s] => erewrite (run_mbx i _ s) by lkp
  | |- context [run (amend_mbx ?i ?f) ?s] => erewrite (run_amend_mbx i f _ s) by lkp
  end; cbn [obind]; ksimpl.
Ltac xrun := repeat first [prun1 | xstep].

(** The mailbox [box], with room for [cap] messages, holds the messages [q], oldest
    first, and no thread waits to send or to receive. *)
Record holds (s : kst) (box cap : Z) (q : list Z) : Prop := {
  h_box : 0 <= box < NMAILBOX;
  h_cap : 0 < cap < 2 ^ 30;
  h_len : Z.of_nat (length q) <= cap;
  h_int : Forall (fun m => - 2 ^ 31 <= m < 2 ^ 31) q;
  h_entry : exists e es er,
    mboxtab s !! box = Some e /\ x_state e = MAILBOX_ALLOC /\ x_max e = cap /\
    x_count e = Z.of_nat (length q) /\ 0 <= x_start e < cap /\
    semtab s !! u32 (x_sender e) = Some es /\ s_state es = SUSED /\ s_count es = cap - Z.of_nat (length q) /\
    semtab s !! u32 (x_receiver e) = Some er /\ s_state er = SUSED /\ s_count er = Z.of_nat (length q) /\
    u32 (x_sender e) <> u32 (x_receiver e) /\
    (forall i, 0 <= i < cap -> is_Some (mem s !! place e i)) /\
    (forall i m, q !! i = Some m -> mem s !! place e ((x_start e + Z.of_nat i) mod cap) = Some (u32 m))
}.

(** The permit of one semaphore is taken and one is added to another. *)
Lemma kinv_two s Q i e j e' :
  kinv s Q -> semtab s !! i = Some e -> s_state e = SUSED -> 0 < s_count e ->
  kinv (set_semtab (<[i := set_s_count (s_count e - 1) e]> (semtab s)) s) Q /\
  (i <> j -> semtab s !! j = Some e' ->
   semtab (set_semtab (<[i := set_s_count (s_count e - 1) e]> (semtab s)) s) !! j = Some e').
Proof.
  intros HI He Hu Hc. pose proof (used_count s Q i e HI He Hu) as [_ Hr]. split.
  - by apply (kinv_count s Q i e HI He Hu); klia.
  - intros Hne He'. cbn. by rewrite lookup_insert_ne.
Qed.

Section Use.
Context (s : kst) (Q : Z -> list Z) (box cap : Z) (q : list Z).
Hypothesis HI : kinv s Q.
Hypothesis Hh : holds s box cap q.

(** A message sent to a mailbox that is not full becomes the last one. *)
Lemma run_mailboxSend m :
  Z.of_nat (length q) < cap ->
  exists s', run (mailboxSend box m) s = Done OK s' /\ kinv s' Q /\ holds s' box cap (q ++ [i32 m]).
Proof.
  intros Hroom. pose proof (ks_crit _ (ki_static _ _ HI)) as Hcrit.
  destruct Hh as [Hb Hcap Hlen Hint (e & es & er & He & Hst & Hmax & Hcnt & Hstart & Hs & Hsu & Hsc & Hr & Hru & Hrc & Hne & Hmap & Hmem)].
  unfold mailboxSend. rewrite (u32_small box) by klia. rewrite (proj2 (Z.ltb_lt _ _)) by lia. cbn [negb]. xrun.
  rewrite Hst. rewrite bool_decide_eq_true_2 by done. rewrite !run_bind.
  rewrite (run_wait_take (crit_in s) Q _ es (kinv_crit_in _ _ HI) Hs Hsu) by lia. cbn [obind]. ksimpl. xrun.
  rewrite Hst. rewrite bool_decide_eq_true_2 by done. rewrite Hmax, Hcnt, (u32_small (x_start e + _)) by lia.
  set (p := place e _). destruct (Hmap ((x_start e + Z.of_nat (length q)) mod cap)) as [v Hv]; [apply Z.mod_pos_bound; lia |].
  fold p in Hv. rewrite run_bind. erewrite run_stw by exact Hv. cbn [obind]. ksimpl. xrun.
  match goal with |- context [run (signal (x_receiver ?x)) ?st] => change (x_receiver x) with (x_receiver e); set (s1 := st) end.
  destruct (kinv_two s Q _ es (u32 (x_receiver e)) er HI Hs Hsu ltac:(lia)) as [HIt Hrt].
  assert (HI1 : kinv s1 Q). { eapply kinv_view; [| exact HIt]. unfold kview, s1. ksimpl. by rewrite Hcrit. }
  rewrite (run_signal_put s1 Q (x_receiver e) er HI1 (Hrt Hne Hr) Hru) by (unfold INT_MAX; lia). cbn [obind].
  rewrite run_ret. cbn [obind]. xrun. set (s2 := crit_out (crit_out _)). exists s2. split; [exact eq_refl |]. split.
  - apply kinv_crit_out, kinv_crit_out.
    apply (kinv_count (crit_in s1) Q (u32 (x_receiver e)) er (kinv_crit_in _ _ HI1) (Hrt Hne Hr) Hru); klia.
  - pose proof (Forall_app_2 _ _ _ Hint (proj2 (Forall_singleton (fun m => - 2 ^ 31 <= m < 2 ^ 31) _) (i32_bound m))) as Hint'.
    assert (Hl : length (q ++ [i32 m]) = S (length q)) by (rewrite length_app; cbn; lia).
    split; [done | done | lia | done |].
    eexists _, (set_s_count (s_count es - 1) es), (set_s_count (s_count er + 1) er).
    rewrite Hl. split; [apply lookup_insert_eq |]. split; [done |]. split; [done |].
    split; [cbn; rewrite u32_small; lia |]. split; [done |].
    split; [unfold s2; ksimpl; rewrite lookup_insert_ne by done; apply lookup_insert_eq |]. split; [done |].
    split; [cbn; lia |]. split; [apply lookup_insert_eq |]. split; [done |]. split; [cbn; lia |]. split; [done |].
    unfold place in *. cbn [x_msgs x_start set_x_count]. unfold s2, s1. ksimpl. split.
    + intros i Hi. apply lookup_insert_is_Some'. right. by apply Hmap.
    + intros i x [Hx | (Hi & Hx)]%lookup_snoc_Some.
      * destruct Hx as [Hlt Hx]. rewrite lookup_insert_ne; [by apply Hmem |]. unfold p.
        pose proof (ring_ne cap (x_start e) (Z.of_nat (length q)) (Z.of_nat i)). lia.
      * subst. rewrite u32_i32. apply lookup_insert_eq.
Qed.

(** Receiving takes the oldest message. *)
Lemma run_mailboxReceive m q' :
  q = m :: q' ->
  exists s', run (mailboxReceive box) s = Done m s' /\ kinv s' Q /\ holds s' box cap q'.
Proof.
  intros Eq. pose proof (ks_crit _ (ki_static _ _ HI)) as Hcrit.
  destruct Hh as [Hb Hcap Hlen Hint (e & es & er & He & Hst & Hmax & Hcnt & Hstart & Hs & Hsu & Hsc & Hr & Hru & Hrc & Hne & Hmap & Hmem)].
  assert (Hl : Z.of_nat (length q) = Z.of_nat (length q') + 1) by (subst; cbn; lia).
  unfold mailboxReceive. rewrite (u32_small box) by klia. rewrite (proj2 (Z.ltb_lt _ _)) by lia. cbn [negb]. xrun.
  rewrite Hst. rewrite bool_decide_eq_true_2 by done. rewrite !run_bind.
  rewrite (run_wait_take (crit_in s) Q _ er (kinv_crit_in _ _ HI) Hr Hru) by lia. cbn [obind]. ksimpl. xrun.
  rewrite Hst. rewrite bool_decide_eq_true_2 by done. rewrite Hmax, Hcnt, (u32_small (x_start e + _)) by lia.
  pose proof (Hmem 0%nat m ltac:(by subst)) as Hv. rewrite Z.add_0_r, (Z.mod_small (x_start e)) in Hv by lia.
  rewrite run_bind. erewrite run_ldw by exact Hv. cbn [obind]. ksimpl. xrun. rewrite insert_insert_eq.
  match goal with |- context [run (signal (x_sender ?x)) ?st] => change (x_sender x) with (x_sender e); set (s1 := st) end.
  destruct (kinv_two s Q _ er (u32 (x_sender e)) es HI Hr Hru ltac:(lia)) as [HIt Hst'].
  assert (HI1 : kinv s1 Q). { eapply kinv_view; [| exact HIt]. unfold kview, s1. ksimpl. by rewrite Hcrit. }
  rewrite (run_signal_put s1 Q (x_sender e) es HI1 (Hst' (not_eq_sym Hne) Hs) Hsu) by (unfold INT_MAX; lia). cbn [obind].
  rewrite run_ret. cbn [obind]. xrun. set (s2 := crit_out (crit_out _)). exists s2.
  subst q. apply Forall_cons in Hint as [Hm Hint]. split; [by rewrite i32_u32, i32_small by lia |]. split.
  - apply kinv_crit_out, kinv_crit_out.
    apply (kinv_count (crit_in s1) Q (u32 (x_sender e)) es (kinv_crit_in _ _ HI1) (Hst' (not_eq_sym Hne) Hs) Hsu); klia.
  - split; [done | done | lia | done |].
    eexists _, (set_s_count (s_count es + 1) es), (set_s_count (s_count er - 1) er).
    split; [apply lookup_insert_eq |]. split; [done |]. split; [done |].
    split; [cbn; rewrite u32_small; lia |]. split; [apply Z.mod_pos_bound; lia |].
    split; [apply lookup_insert_eq |]. split; [done |]. split; [cbn; lia |].
    split; [unfold s2; ksimpl; rewrite lookup_insert_ne by done; apply lookup_insert_eq |].
    split; [done |]. split; [cbn; lia |]. split; [done |].
    unfold place in *. cbn [x_msgs x_start set_x_count set_x_start]. unfold s2, s1. ksimpl. split; [done |].
    intros i x Hx. rewrite <- (Hmem (S i) x Hx), Zplus_mod_idemp_l.
    by replace (x_start e + 1 + Z.of_nat i) with (x_start e + Z.of_nat (S i)) by lia.
Qed.

(** A mailbox that is full makes a sender wait, an empty one a receiver: the caller
    joins the queue of the semaphore and another thread runs. *)
Definition blocks (o : outcome kst Z) : Prop :=
  exists s' Q' k sem, o = Switch s' k /\ kinv s' Q' /\ Q' (semq sem) = Q (semq sem) ++ [thrcurrent s] /\
    thrcurrent s' <> thrcurrent s /\ mboxtab s' = mboxtab s /\ mem s' = mem s.

Lemma mailbox_blocks :
  running s -> thrcurrent s <> NULLTHREAD ->
  (Z.of_nat (length q) = cap -> forall m, blocks (run (mailboxSend box m) s)) /\
  (q = [] -> blocks (run (mailboxReceive box) s)).
Proof.
  intros Hrun Hnull. pose proof (ks_crit _ (ki_static _ _ HI)) as Hcrit.
  destruct Hh as [Hb Hcap Hlen Hint (e & es & er & He & Hst & Hmax & Hcnt & Hstart & Hs & Hsu & Hsc & Hr & Hru & Hrc & Hne & Hmap & Hmem)].
  split.
  - intros Hfull m. unfold mailboxSend. rewrite (u32_small box) by klia. rewrite (proj2 (Z.ltb_lt _ _)) by lia. cbn [negb]. xrun.
    rewrite Hst. rewrite bool_decide_eq_true_2 by done. rewrite !run_bind.
    destruct (run_wait_switch (crit_in s) Q _ es (kinv_crit_in _ _ HI) (running_crit_in _ Hrun) Hs Hsu ltac:(lia) Hnull)
      as (Q' & qt & tt' & cur & cp & im & -> & HI' & _ & Hq & Hcur). cbn [obind].
    eexists _, Q', _, _. split; [exact eq_refl |]. split; [exact HI' |]. split; [exact Hq |]. by split.
  - intros ->. unfold mailboxReceive. rewrite (u32_small box) by klia. rewrite (proj2 (Z.ltb_lt _ _)) by lia. cbn [negb]. xrun.
    rewrite Hst. rewrite bool_decide_eq_true_2 by done. rewrite !run_bind.
    destruct (run_wait_switch (crit_in s) Q _ er (kinv_crit_in _ _ HI) (running_crit_in _ Hrun) Hr Hru ltac:(cbn in Hrc; lia) Hnull)
      as (Q' & qt & tt' & cur & cp & im & -> & HI' & _ & Hq & Hcur). cbn [obind].
    eexists _, Q', _, _. split; [exact eq_refl |]. split; [exact HI' |]. split; [exact Hq |]. by split.
Qed.

(** [mailboxCount] is the number of messages. *)
Lemma run_mailboxCount :
  exists s', run (mailboxCount box) s = Done (Z.of_nat (length q)) s' /\ kinv s' Q /\ holds s' box cap q.
Proof.
  pose proof (ks_crit _ (ki_static _ _ HI)) as Hcrit.
  pose proof Hh as [Hb Hcap Hlen Hint (e & es & er & He & Hst & Hmax & Hcnt & Hstart & Hrest)].
  unfold mailboxCount. rewrite (u32_small box) by klia. rewrite (proj2 (Z.ltb_lt _ _)) by lia. cbn [negb]. xrun.
  rewrite Hst. rewrite bool_decide_eq_true_2 by done. rewrite Hcnt, i32_small by lia. eexists. split; [exact eq_refl |].
  split; [by apply kinv_crit_out, kinv_crit_in |]. destruct Hh. by split.
Qed.
End Use.

(** A run of calls. *)
Fixpoint sends (box : Z) (l : list Z) : kprog (list Z) :=
  match l with
  | [] => mret []
  | m :: l => r ← mailboxSend box m; rs ← sends box l; mret (r :: rs)
  end.

Fixpoint receives (box : Z) (n : nat) : kprog (list Z) :=
  match n with
  | O => mret []
  | S n => m ← mailboxReceive box; l ← receives box n; mret (m :: l)
  end.

Lemma run_sends box cap l : forall s Q q,
  kinv s Q -> holds s box cap q -> Z.of_nat (length (q ++ l)) <= cap ->
  exists s', run (sends box l) s = Done (replicate (length l) OK) s' /\ kinv s' Q /\ holds s' box cap (q ++ map i32 l).
Proof.
  induction l as [|m l IH]; intros s Q q HI Hh Hlen; cbn [sends map length replicate].
  - exists s. by rewrite app_nil_r.
  - rewrite length_app in Hlen. cbn in Hlen.
    destruct (run_mailboxSend s Q box cap q HI Hh m) as (s1 & H1 & HI1 & Hh1); [lia |].
    destruct (IH s1 Q (q ++ [i32 m]) HI1 Hh1) as (s2 & H2 & HI2 & Hh2); [rewrite !length_app; cbn; lia |].
    exists s2. rewrite run_bind, H1. cbn [obind]. rewrite run_bind, H2. split; [done |]. split; [done |].
    by rewrite <- app_assoc in Hh2.
Qed.

Lemma run_receives box cap l : forall s Q q,
  kinv s Q -> holds s box cap (l ++ q) ->
  exists s', run (receives box (length l)) s = Done l s' /\ kinv s' Q /\ holds s' box cap q.
Proof.
  induction l as [|m l IH]; intros s Q q HI Hh; cbn [receives length]; [by exists s |].
  destruct (run_mailboxReceive s Q box cap _ HI Hh m (l ++ q) eq_refl) as (s1 & H1 & HI1 & Hh1).
  destruct (IH s1 Q q HI1 Hh1) as (s2 & H2 & HI2 & Hh2).
  exists s2. rewrite run_bind, H1. cbn [obind]. by rewrite run_bind, H2.
Qed.

(** C15: a mailbox is a first-in first-out queue: messages sent while there is room
    are received in the order in which they were sent, after those that were
    there before, however the ring wraps around; no call blocks. *)
Theorem mailbox_fifo s Q box cap q l :
  kinv s Q -> holds s box cap q -> Z.of_nat (length (q ++ l)) <= cap ->
  exists s1 s2, run (sends box l) s = Done (replicate (length l) OK) s1 /\
    run (receives box (length (q ++ l))) s1 = Done (q ++ map i32 l) s2 /\ kinv s2 Q /\ holds s2 box cap [].
Proof.
  intros HI Hh Hlen. destruct (run_sends box cap l s Q q HI Hh Hlen) as (s1 & H1 & HI1 & Hh1).
  destruct (run_receives box cap (q ++ map i32 l) s1 Q [] HI1) as (s2 & H2 & HI2 & Hh2); [by rewrite app_nil_r |].
  exists s1, s2. split; [done |]. split; [| done]. rewrite <- H2. do 2 f_equal. by rewrite !length_app, length_map.
Qed.

(** Sending to a full mailbox and receiving from an empty one block the caller
    without changing the mailbox. *)
Theorem mailbox_full_empty s Q box cap q :
  kinv s Q -> holds s box cap q -> running s -> thrcurrent s <> NULLTHREAD ->
  (Z.of_nat (length q) = cap -> forall m, blocks s Q (run (mailboxSend box m) s)) /\
  (q = [] -> blocks s Q (run (mailboxReceive box) s)).
Proof. intros HI Hh Hr Ht. by apply (mailbox_blocks s Q box cap q). Qed.

(** The size of the ring is computed modulo 2^32: a request for 2^30 + 1 messages
    takes 8 bytes of memory and makes a mailbox that claims room for all of
    them. *)
Theorem mailboxAlloc_wraps :
  exists box s' e, run (mailboxAlloc (2 ^ 30 + 1)) boot = Done box s' /\
    mboxtab s' !! box = Some e /\ x_state e = MAILBOX_ALLOC /\ x_max e = 2 ^ 30 + 1 /\
    memlist_length s' = memlist_length boot - 8.
Proof.
  assert (H : match run (mailboxAlloc (2 ^ 30 + 1)) boot with
              | Done box s' =>
                  match mboxtab s' !! box with
                  | Some e => bool_decide (x_state e = MAILBOX_ALLOC) && (x_max e =? 2 ^ 30 + 1) &&
                      (memlist_length s' =? memlist_length boot - 8)
                  | None => false
                  end
              | _ => false
              end = true) by (by vm_compute).
  revert H. generalize (run (mailboxAlloc (2 ^ 30 + 1)) boot), (memlist_length boot). intros o len H.
  destruct o as [box s' | | | |]; try discriminate. destruct (mboxtab s' !! box) as [e|] eqn:E; [| discriminate].
  apply andb_true_iff in H as [[H1%bool_decide_eq_true_1 H2%Z.eqb_eq]%andb_true_iff H3%Z.eqb_eq].
  exists box, s', e. split; [exact eq_refl |]. split; [exact E |]. split; [exact H1 |]. split; [exact H2 | exact H3].
Qed.
