(* ===== verification/BufPool.v ===== *)
(** Buffer pools: system/bufpool.c.  A pool is a block of the heap cut into buffers
    of one size; the free ones are linked through their headers and counted by a
    semaphore.  A header is two words: the next free buffer and the id of the
    pool. *)
From Stdlib Require Import ZArith Lia.
From stdpp Require Import sorting gmap functions list.
From S2P Require Import Prelude Kernel Queue QueueFacts Sched Semaphore Clock Message Memory Boot.

(** ** Routines *)

Definition roundword (b : Z) : Z := Z.land (u32 (3 + b)) (Z.lnot 3).

(** [sizeof(struct poolbuf)] *)
Definition POOLBUF : Z := 8.

Definition bfp (i : Z) : kprog bfpentry := load bfptab i.
Definition amend_bfp (i : Z) (f : bfpentry -> bfpentry) : kprog unit := amend bfptab set_bfptab i f.

Definition isbadpool (p : Z) : kprog bool :=
  if (p >=? NPOOL) || (p <? 0) then mret true
  else e ← bfp p; mret (bool_decide (b_state e = BFPFREE)).

(** The header of each buffer of a new pool. *)
Definition bfpalloc_init (id bufsize : Z) (_ : Z) (bufptr : Z) : kprog (Z + unit) :=
  stw (bufptr + 4) id;;
  stw bufptr (u32 (bufptr + bufsize));;
  bufptr ← ldw bufptr;
  mret (inl bufptr).

Definition bfpalloc (bufsize nbuf : Z) : kprog Z :=
  let bufsize := u32 (roundword (u32 bufsize) + POOLBUF) in
  let nbuf := u32 nbuf in
  if (bufsize >? POOL_MAX_BUFSIZE) || (bufsize <? POOL_MIN_BUFSIZE) || (nbuf >? POOL_MAX_NBUFS) || (nbuf <? 1)
  then mret SYSERR else
  ENTER_KERNEL_CRITICAL_SECTION;;
  r ← for_ (Z.to_nat NPOOL) 0 (fun id _ =>
    bfpptr ← bfp id;
    if bool_decide (b_state bfpptr = BFPFREE) then mret (inr id) else mret (inl tt)) tt;
  match r with
  | inl _ => EXIT_KERNEL_CRITICAL_SECTION;; mret SYSERR
  | inr id =>
      amend_bfp id (set_b_state BFPUSED);;
      EXIT_KERNEL_CRITICAL_SECTION;;
      amend_bfp id (set_b_nbuf nbuf);;
      amend_bfp id (set_b_bufsize bufsize);;
      bufptr ← memget (u32 (nbuf * bufsize));
      if PTRERR =? bufptr then amend_bfp id (set_b_state BFPFREE);; mret SYSERR else
      amend_bfp id (set_b_next bufptr);;
      amend_bfp id (set_b_head bufptr);;
      for_ (Z.to_nat nbuf) 0 (bfpalloc_init id bufsize) bufptr;;
      sem ← semcreate nbuf;
      amend_bfp id (set_b_freebuf sem);;
      if NOSEM =? sem then
        amend_bfp id (set_b_state BFPFREE);;
        bfpptr ← bfp id;
        memfree (b_head bfpptr) (u32 (nbuf * bufsize));;
        mret SYSERR
      else mret id
  end.

Definition bfpfree (poolid : Z) : kprog Z :=
  ENTER_KERNEL_CRITICAL_SECTION;;
  bad ← isbadpool poolid;
  if (bad : bool) then EXIT_KERNEL_CRITICAL_SECTION;; mret SYSERR else
  amend_bfp poolid (set_b_state BFPFREE);;
  bfpptr ← bfp poolid;
  memRes ← memfree (b_head bfpptr) (u32 (b_nbuf bfpptr * b_bufsize bfpptr));
  bfpptr ← bfp poolid;
  semRes ← semfree (b_freebuf bfpptr);
  EXIT_KERNEL_CRITICAL_SECTION;;
  if (memRes =? SYSERR) || (semRes =? SYSERR) then mret SYSERR else mret OK.

Definition bufget (poolid : Z) : kprog Z :=
  ENTER_KERNEL_CRITICAL_SECTION;;
  bad ← isbadpool poolid;
  if (bad : bool) then EXIT_KERNEL_CRITICAL_SECTION;; mret PTRERR else
  EXIT_KERNEL_CRITICAL_SECTION;;
  bfpptr ← bfp poolid;
  wait (b_freebuf bfpptr);;
  ENTER_KERNEL_CRITICAL_SECTION;;
  bfpptr ← bfp poolid;
  let bufptr := b_next bfpptr in
  nx ← ldw bufptr;
  amend_bfp poolid (set_b_next nx);;
  stw bufptr bufptr;;
  EXIT_KERNEL_CRITICAL_SECTION;;
  mret (u32 (bufptr + POOLBUF)).

Definition buffree (buffer : Z) : kprog Z :=
  let bufptr := u32 (buffer - POOLBUF) in
  ENTER_KERNEL_CRITICAL_SECTION;;
  id ← ldw (bufptr + 4);
  bad ← isbadpool (i32 id);
  bad ← (if (bad : bool) then mret true else nx ← ldw bufptr; mret (negb (nx =? bufptr)));
  if (bad : bool) then EXIT_KERNEL_CRITICAL_SECTION;; mret SYSERR else
  id ← ldw (bufptr + 4);
  let id := i32 id in
  bfpptr ← bfp id;
  stw bufptr (b_next bfpptr);;
  amend_bfp id (set_b_next bufptr);;
  EXIT_KERNEL_CRITICAL_SECTION;;
  bfpptr ← bfp id;
  signaln (b_freebuf bfpptr) 1;;
  mret OK.

(** ** The free buffers of a pool *)

Lemma run_bfp i e s : bfptab s !! i = Some e -> run (bfp i) s = Done e s.
Proof. apply run_load. Qed.

Lemma run_amend_bfp i f e s :
  bfptab s !! i = Some e ->
  run (amend_bfp i f) s = Done tt (set_bfptab (<[i := f e]> (bfptab s)) s).
Proof. apply run_amend. Qed.

Ltac bstep :=
  match goal with
  | |- context [run (bfp ?i) ?s] => erewrite (run_bfp i _ s) by lkp
  | |- context [run (amend_bfp ?i ?f) ?s] => erewrite (run_amend_bfp i f _ s) by lkp
  end; cbn [obind]; ksimpl.
Ltac brun := repeat first [prun1 | bstep].

(** The buffers [l] of pool [id] are linked in this order from the pointer [p]; the
    last one points to [z], which is no buffer. *)
Fixpoint chain (m : gmap Z Z) (id p : Z) (l : list Z) (z : Z) : Prop :=
  match l with
  | [] => p = z
  | a :: r => p = a /\ 0 <= a < 2 ^ 32 - POOLBUF /\ a <> z /\ m !! (a + 4) = Some id /\
      exists n, m !! a = Some n /\ chain m id n r z
  end.

(** No word of a header is one of another header. *)
Definition headers_apart (l : list Z) : Prop :=
  forall i j a b, l !! i = Some a -> l !! j = Some b -> i <> j -> b <> a /\ b <> a + 4 /\ b + 4 <> a.

(** Pool [id] is in use, its free buffers are [l], and no thread waits for one. *)
Record pool_free (s : kst) (id z : Z) (l : list Z) : Prop := {
  pf_id : 0 <= id < NPOOL;
  pf_apart : headers_apart l;
  pf_entry : exists e se, bfptab s !! id = Some e /\ b_state e = BFPUSED /\ chain (mem s) id (b_next e) l z /\
    semtab s !! u32 (b_freebuf e) = Some se /\ s_state se = SUSED /\ s_count se = Z.of_nat (length l)
}.

(** [a] is a buffer of pool [id] that was handed out. *)
Definition handed_out (s : kst) (id z a : Z) (l : list Z) : Prop :=
  0 <= a < 2 ^ 32 - POOLBUF /\ a <> z /\ mem s !! a = Some a /\ mem s !! (a + 4) = Some id /\ headers_apart (a :: l).

Lemma chain_write m id a v z l : forall p,
  (forall b, b ∈ l -> b <> a /\ b + 4 <> a) -> chain m id p l z -> chain (<[a := v]> m) id p l z.
Proof.
  induction l as [|b r IH]; intros p Ha; [done |]. cbn. intros (-> & Hb & Hz & Hid & n & Hn & Hc).
  destruct (Ha b) as [H1 H2]; [apply elem_of_cons; by left |].
  split_and!; try lia; [by rewrite lookup_insert_ne by done |]. exists n.
  rewrite lookup_insert_ne by done. split; [done |]. apply IH; [| done].
  intros c Hc'. apply Ha. apply elem_of_cons. by right.
Qed.

Lemma apart_tail a l : headers_apart (a :: l) ->
  headers_apart l /\ forall b, b ∈ l -> b <> a /\ b <> a + 4 /\ b + 4 <> a.
Proof.
  intros H. split.
  - intros i j x y Hi Hj Hne. apply (H (S i) (S j)); [done | done | lia].
  - intros b [i Hi]%list_elem_of_lookup. by apply (H 0%nat (S i) a b).
Qed.

Lemma isbadpool_used s id e :
  bfptab s !! id = Some e -> b_state e = BFPUSED -> 0 <= id < NPOOL -> run (isbadpool id) s = Done false s.
Proof.
  intros He Hu Hi. unfold isbadpool. rewrite Z.geb_leb, (proj2 (Z.leb_gt _ _)), (proj2 (Z.ltb_ge _ _)) by lia.
  cbn [orb]. brun. by rewrite Hu.
Qed.

(** [bufget] takes the first free buffer. *)
Lemma run_bufget s Q id z a l :
  kinv s Q -> pool_free s id z (a :: l) ->
  exists s', run (bufget id) s = Done (a + POOLBUF) s' /\ kinv s' Q /\ running s' = running s /\
    pool_free s' id z l /\ handed_out s' id z a l /\ (forall w, w <> a -> mem s' !! w = mem s !! w).
Proof.
  intros HI [Hid Hap (e & se & He & Hu & (Ha & Hra & Hz & Hai & n & Hn & Hch) & Hs & Hsu & Hsc)].
  pose proof (ks_crit _ (ki_static _ _ HI)) as Hcrit. destruct (apart_tail _ _ Hap) as [Hap' Hd].
  unfold bufget. do 2 prun1. rewrite run_bind, (isbadpool_used _ _ e) by done. cbn [obind]. brun.
  set (s1 := crit_out (crit_in s)). assert (HI1 : kinv s1 Q) by (by apply kinv_crit_out, kinv_crit_in).
  rewrite (run_wait_take s1 Q (b_freebuf e) se HI1 Hs Hsu) by (cbn in Hsc; lia). cbn [obind]. unfold s1. brun.
  rewrite Ha. brun. set (s2 := crit_out _). exists s2.
  split; [rewrite u32_small by (unfold POOLBUF in *; lia); exact eq_refl |].
  assert (HI2 : kinv s2 Q).
  { apply kinv_crit_out. eapply kinv_view;
      [| exact (kinv_count _ _ _ se (kinv_crit_in _ _ HI) Hs Hsu (s_count se - 1) ltac:(cbn in Hsc; lia)
           ltac:(pose proof (used_count s Q _ se HI Hs Hsu); cbn in Hsc; klia))].
    reflexivity. }
  split; [exact HI2 |]. split; [exact eq_refl |]. split; [| split].
  - split; [done | done |]. eexists _, (set_s_count (s_count se - 1) se).
    split; [apply lookup_insert_eq |]. split; [done |]. split.
    + apply chain_write; [| done]. intros b Hb. destruct (Hd b Hb). tauto.
    + split; [apply lookup_insert_eq |]. split; [done |]. cbn in Hsc |- *. lia.
  - unfold s2, handed_out. ksimpl. rewrite lookup_insert_eq, lookup_insert_ne by lia. done.
  - intros w Hw. unfold s2. ksimpl. by rewrite lookup_insert_ne.
Qed.

(** [signaln] for a single permit nobody waits for. *)
Lemma run_signaln_one s Q sem e :
  kinv s Q -> semtab s !! u32 sem = Some e -> s_state e = SUSED -> 0 <= s_count e < INT_MAX ->
  let s' := crit_out (set_semtab (<[u32 sem := set_s_count (s_count e + 1) e]> (semtab s)) (crit_in s)) in
  run (signaln sem 1) s = obind (fun _ => mret OK) (run resched s') /\ kinv s' Q.
Proof.
  intros HI He Hu Hc s'. pose proof (ks_crit _ (ki_static _ _ HI)) as Hcrit.
  pose proof (used_range s Q _ e HI He) as Hi. split.
  - unfold signaln. do 2 prun1. rewrite run_bind, (isbadsem_used _ _ e) by done. cbn [obind orb].
    cbn [Z.leb Z.compare while_ Z.to_nat Pos.to_nat Pos.iter_op Nat.add]. unfold signaln_step. prun.
    change (1 >? 0) with true. cbn match. prun. rewrite run_int by klia. cbn [obind]. prun.
    rewrite (proj2 (Z.ltb_ge (s_count e) 0)) by lia. prun. by prun.
  - apply kinv_crit_out, (kinv_count (crit_in s)); [by apply kinv_crit_in | done | done | lia | klia].
Qed.

(** [buffree] puts a buffer back in front of the free ones. *)
Lemma run_buffree s Q id z a l :
  kinv s Q -> running s -> pool_free s id z l -> handed_out s id z a l -> Z.of_nat (length l) < INT_MAX ->
  exists s' Q' v, reaches (run (buffree (a + POOLBUF)) s) s' /\ kinv s' Q' /\ running s' /\
    pool_free s' id z (a :: l) /\ mem s' = <[a := v]> (mem s).
Proof.
  intros HI Hr [Hid Hap (e & se & He & Hu & Hch & Hs & Hsu & Hsc)] (Hra & Hz & Hma & Hmi & Hap') Hlen.
  pose proof (ks_crit _ (ki_static _ _ HI)) as Hcrit. destruct (apart_tail _ _ Hap') as [_ Hd].
  unfold buffree. replace (u32 (a + POOLBUF - POOLBUF)) with a by (rewrite u32_small; unfold POOLBUF in *; lia).
  assert (Hi32 : i32 id = id) by (apply i32_small; klia). brun. rewrite Hi32.
  rewrite (isbadpool_used _ _ e) by done. cbn [obind]. cbn match. brun. rewrite Z.eqb_refl. cbn [negb]. brun.
  rewrite Hi32. brun.
  set (s1 := crit_out _). change (b_freebuf (set_b_next a e)) with (b_freebuf e).
  assert (HI1 : kinv s1 Q) by (apply kinv_crit_out; eapply kinv_view; [| exact (kinv_crit_in _ _ HI)]; done).
  destruct (run_signaln_one s1 Q (b_freebuf e) se HI1 Hs Hsu) as [Hrun HI2]; [lia |]. rewrite Hrun. cbv zeta in HI2.
  destruct (resched_reaches _ Q OK HI2 (proj2 Hr))
    as (s' & Q' & Hre & HI' & Hr' & ((qt & tt' & cur & c & E) & _) & _ & _).
  exists s', Q', (b_next e). split; [| split; [exact HI' | split; [exact Hr' |]]].
  - destruct (run resched _) as [r s2 | s2 k | | |]; destruct Hre as [[y Hy] | [k' Hk]]; cbn [obind] in *; try discriminate.
    + left. eexists. injection Hy as _ ->. by rewrite run_ret.
    + right. eexists. by injection Hk as -> _.
  - rewrite E. split; [| done]. split; [done | done |]. eexists _, (set_s_count (s_count se + 1) se).
    split; [apply lookup_insert_eq |]. split; [done |]. split.
    + cbn. split; [done |]. split; [done |]. split; [done |]. rewrite lookup_insert_eq, lookup_insert_ne by lia.
      split; [done |]. exists (b_next e). split; [done |]. apply chain_write; [| done]. intros b Hb. destruct (Hd b Hb). tauto.
    + split; [apply lookup_insert_eq |]. split; [done |]. cbn in Hsc |- *. lia.
Qed.

(** The chain determines the next pointer of each free buffer. *)
Lemma chain_next m id z l : forall p a, chain m id p l z -> NoDup l -> a ∈ l ->
  0 <= a < 2 ^ 32 - POOLBUF /\ m !! (a + 4) = Some id /\ exists n, m !! a = Some n /\ n <> a.
Proof.
  induction l as [|b r IH]; intros p a Hc Hnd Ha; [by apply elem_of_nil in Ha |].
  cbn in Hc. destruct Hc as (-> & Hb & Hz & Hid & n & Hn & Hc). apply NoDup_cons in Hnd as [Hnb Hnd].
  apply elem_of_cons in Ha as [-> | Ha]; [| by eapply IH].
  split; [done |]. split; [done |]. exists n. split; [done |]. intros ->. destruct r as [|c r]; cbn in Hc; [done |].
  destruct Hc as (-> & _). apply Hnb, elem_of_cons. by left.
Qed.

Lemma apart_nodup l : headers_apart l -> NoDup l.
Proof.
  intros H. apply NoDup_alt. intros i j x Hi Hj. destruct (decide (i = j)) as [| Hne]; [done |].
  by destruct (H i j x x Hi Hj Hne).
Qed.

(** C24: [bufget] hands out a buffer that was free and no other call has, and
    [buffree] gives it back: the pool has the same free buffers as before, in the
    same order.  Another [buffree] of it, or of any buffer that is free, is
    refused. *)
Theorem bufget_buffree s Q id z a l :
  kinv s Q -> running s -> pool_free s id z (a :: l) -> Z.of_nat (length l) < INT_MAX ->
  exists s1, run (bufget id) s = Done (a + POOLBUF) s1 /\ pool_free s1 id z l /\ handed_out s1 id z a l /\
    exists s2 Q2, reaches (run (buffree (a + POOLBUF)) s1) s2 /\ kinv s2 Q2 /\ pool_free s2 id z (a :: l) /\
      (forall w, w <> a -> mem s2 !! w = mem s !! w) /\
      forall b, b ∈ a :: l -> exists s3, run (buffree (b + POOLBUF)) s2 = Done SYSERR s3 /\ pool_free s3 id z (a :: l).
Proof.
  intros HI Hr Hp Hl. destruct (run_bufget s Q id z a l HI Hp) as (s1 & H1 & HI1 & Hr1 & Hp1 & Ho1 & Hm1).
  exists s1. split; [done |]. split; [done |]. split; [done |].
  destruct (run_buffree s1 Q id z a l HI1 ltac:(by rewrite Hr1) Hp1 Ho1 Hl) as (s2 & Q2 & v & H2 & HI2 & Hr2 & Hp2 & Hm2).
  exists s2, Q2. split; [done |]. split; [done |]. split; [done |]. split.
  { intros w Hw. rewrite Hm2, lookup_insert_ne by done. by apply Hm1. }
  intros b Hb. pose proof Hp2 as [Hid Hap (e & se & He & Hu & Hch & _)].
  destruct (chain_next _ _ _ _ _ b Hch (apart_nodup _ Hap) Hb) as (Hrb & Hbi & n & Hn & Hne).
  pose proof (ks_crit _ (ki_static _ _ HI2)) as Hcrit. exists (crit_out (crit_in s2)). split; [| by destruct Hp2].
  unfold buffree. replace (u32 (b + POOLBUF - POOLBUF)) with b by (rewrite u32_small; unfold POOLBUF in *; lia).
  assert (Hi32 : i32 id = id) by (apply i32_small; klia). brun. rewrite Hi32.
  rewrite (isbadpool_used _ _ e) by done. cbn [obind]. cbn match. brun. rewrite (proj2 (Z.eqb_neq n b)) by done.
  cbn [negb]. by brun.
Qed.

(** ** A new pool *)

(** [n] buffers of [size] bytes from [p]. *)
Fixpoint buffers (p size : Z) (n : nat) : list Z :=
  match n with O => [] | S n => p :: buffers (p + size) size n end.

Lemma buffers_lookup p size n : forall i a, buffers p size n !! i = Some a -> a = p + size * Z.of_nat i /\ (i < n)%nat.
Proof.
  revert p. induction n as [|n IH]; intros p i a; [done |]. cbn. destruct i as [|i]; cbn; [intros [= <-]; lia |].
  intros H. apply IH in H. lia.
Qed.

Lemma buffers_apart p size n : POOLBUF <= size -> headers_apart (buffers p size n).
Proof.
  intros Hs i j a b Hi Hj Hne. apply buffers_lookup in Hi, Hj. unfold POOLBUF in *.
  assert (i < j \/ j < i)%nat as [? | ?] by lia; nia.
Qed.

Lemma buffers_length p size n : length (buffers p size n) = n.
Proof. revert p. induction n as [|n IH]; intros p; cbn; [done | by rewrite IH]. Qed.

Lemma run_bfpalloc_init id size : POOLBUF <= size -> size mod 4 = 0 -> forall n i p s,
  p mod 4 = 0 -> 0 <= p -> p + size * Z.of_nat n < 2 ^ 32 ->
  (forall w, p <= w < p + size * Z.of_nat n -> w mod 4 = 0 -> is_Some (mem s !! w)) ->
  exists m, run (for_ n i (bfpalloc_init id size) p) s = Done (inl (p + size * Z.of_nat n)) (set_mem m s) /\
    chain m id p (buffers p size n) (p + size * Z.of_nat n) /\
    (forall w, w < p \/ p + size * Z.of_nat n <= w -> m !! w = mem s !! w) /\
    (forall w, is_Some (m !! w) <-> is_Some (mem s !! w)).
Proof.
  intros Hs Hs4. unfold POOLBUF in Hs. induction n as [|n IH]; intros i p s Hp4 Hp Hend Hmap.
  - exists (mem s). cbn [for_ buffers chain]. rewrite Z.mul_0_r, Z.add_0_r. rewrite run_ret. split; [by destruct s | done].
  - destruct (Hmap (p + 4)) as [v4 Hv4]; [lia | lia |]. destruct (Hmap p) as [v Hv]; [lia | done |].
    set (m1 := <[p := p + size]> (<[p + 4 := id]> (mem s))).
    assert (Hstep : run (bfpalloc_init id size i p) s = Done (inl (p + size)) (set_mem m1 s)).
    { unfold bfpalloc_init. prun. rewrite (u32_small (p + size)) by lia. by prun. }
    assert (Hdom : forall w, is_Some (m1 !! w) <-> is_Some (mem s !! w)).
    { intros w. unfold m1. rewrite (insert_same_dom _ p _ v), (insert_same_dom _ (p + 4) _ v4); [done | done |].
      by rewrite lookup_insert_ne by lia. }
    destruct (IH (i + 1) (p + size) (set_mem m1 s)) as (m & Hrun & Hch & Hout & Hsame); [lia | lia | lia | |].
    { intros w Hw Hw4. apply Hdom, Hmap; lia. }
    exists m. cbn [for_]. rewrite run_bind, Hstep. cbn [obind]. replace (p + size * Z.of_nat (S n)) with (p + size + size * Z.of_nat n) by lia.
    split; [exact Hrun |]. split; [| split].
    + cbn [buffers chain]. split; [done |]. unfold POOLBUF. split; [lia |]. split; [lia |].
      rewrite !Hout by lia. ksimpl. unfold m1. rewrite lookup_insert_eq, lookup_insert_ne, lookup_insert_eq by lia.
      split; [done |]. exists (p + size). by split.
    + intros w Hw. rewrite Hout by lia. ksimpl. unfold m1. by rewrite !lookup_insert_ne by lia.
    + intros w. rewrite Hsame. apply Hdom.
Qed.

(** The size of a buffer with its header. *)
Definition bufsize_of (b : Z) : Z := u32 (roundword (u32 b) + POOLBUF).

Lemma bufsize_mod b : bufsize_of b mod 4 = 0.
Proof.
  unfold bufsize_of, roundword. change (Z.lnot 3) with (Z.lnot (Z.ones 2)).
  rewrite <- Z.ldiff_land, Z.ldiff_ones_r, Z.shiftl_mul_pow2 by lia. unfold u32, POOLBUF. lia.
Qed.

(** The search finds the first free pool, or all are in use. *)
Lemma bfp_search s n : (forall i, 0 <= i < Z.of_nat n -> is_Some (bfptab s !! i)) ->
  let o := run (for_ n 0 (fun id _ => bfpptr ← bfp id;
      if bool_decide (b_state bfpptr = BFPFREE) then mret (inr id) else mret (inl tt)) tt) s in
  (exists id e, 0 <= id < Z.of_nat n /\ bfptab s !! id = Some e /\ b_state e = BFPFREE /\ o = Done (inr id) s) \/
  (o = Done (inl tt) s /\ forall i e, 0 <= i < Z.of_nat n -> bfptab s !! i = Some e -> b_state e = BFPUSED).
Proof.
  intros Hd o.
  assert (Hgen : forall k i, 0 <= i -> (forall j, i <= j < i + Z.of_nat k -> is_Some (bfptab s !! j)) ->
    let o := run (for_ k i (fun id _ => bfpptr ← bfp id;
      if bool_decide (b_state bfpptr = BFPFREE) then mret (inr id) else mret (inl tt)) tt) s in
    (exists id e, i <= id < i + Z.of_nat k /\ bfptab s !! id = Some e /\ b_state e = BFPFREE /\ o = Done (inr id) s) \/
    (o = Done (inl tt) s /\ forall j e, i <= j < i + Z.of_nat k -> bfptab s !! j = Some e -> b_state e = BFPUSED)).
  { induction k as [|k IH]; intros i Hi Hk; cbn [for_]; [right; split; [done | lia] |].
    destruct (Hk i) as [e He]; [lia |]. cbv zeta. brun. case_bool_decide as Hst; rewrite run_ret; cbn [obind].
    - left. exists i, e. split; [lia | done].
    - destruct (IH (i + 1)) as [(id & e' & Hid & He' & Hst' & ->) | [-> Hall]]; [lia | intros j Hj; apply Hk; lia | |].
      + left. exists id, e'. split; [lia | done].
      + right. split; [done |]. intros j e' Hj He'. destruct (decide (j = i)) as [-> |]; [| apply (Hall j); [lia | done]].
        assert (e' = e) as -> by congruence. by destruct (b_state e). }
  apply (Hgen n 0); [lia | done].
Qed.

(** [bfpalloc] makes a pool of [nbuf] separate buffers, each of the size asked for
    rounded up to words plus the header, all free; when it fails, no pool is taken
    that was free before. *)
Theorem bfpalloc_pool s Q bl bufsize nbuf :
  kinv s Q -> minv s bl -> (forall i, 0 <= i < NPOOL -> is_Some (bfptab s !! i)) ->
  exists r s', run (bfpalloc bufsize nbuf) s = Done r s' /\ kinv s' Q /\
    ((exists e p, bfptab s !! r = Some e /\ b_state e = BFPFREE /\ p mod 8 = 0 /\
        pool_free s' r (p + bufsize_of bufsize * u32 nbuf) (buffers p (bufsize_of bufsize) (Z.to_nat (u32 nbuf)))) \/
     (r = SYSERR /\ forall i, b_state <$> bfptab s' !! i = b_state <$> bfptab s !! i)).
Proof.
  intros HI HM Hd. pose proof (ks_crit _ (ki_static _ _ HI)) as Hcrit.
  unfold bfpalloc. fold (bufsize_of bufsize). set (size := bufsize_of bufsize). set (n := u32 nbuf).
  destruct (_ || _) eqn:Hcheck.
  { exists SYSERR, s. rewrite run_ret. split; [done |]. split; [done | by right]. }
  unfold POOL_MAX_BUFSIZE, POOL_MIN_BUFSIZE, POOL_MAX_NBUFS in Hcheck.
  assert (Hsz : 8 <= size <= 2048 /\ 1 <= n <= 8192) by lia. clear Hcheck.
  do 2 prun1. rewrite run_bind.
  destruct (bfp_search (crit_in s) (Z.to_nat NPOOL)) as [(id & e & Hid & He & Hst & ->) | [-> Hall]]; [done | | ]; cbn [obind].
  2: { brun. exists SYSERR, (crit_out (crit_in s)). split; [done |]. split; [by apply kinv_crit_out, kinv_crit_in | by right]. }
  change (bfptab (crit_in s)) with (bfptab s) in He. brun. rewrite !insert_insert_eq. set (e1 := set_b_bufsize _ _). set (s1 := set_bfptab _ _).
  assert (HI1 : kinv s1 Q) by (eapply kinv_view; [| apply kinv_crit_out, (kinv_crit_in _ _ HI)]; done).
  assert (HM1 : minv s1 bl) by (destruct HM; by constructor).
  assert (Hnb : 0 < size * n <= 2 ^ 24) by nia. rewrite (u32_small (n * size)) by nia.
  pose proof (memget_spec s1 bl (n * size) HM1 (ks_crit _ (ki_static _ _ HI1)) ltac:(lia)) as Hg.
  destruct (roundmb_spec (n * size) ltac:(lia)) as (_ & Hrnd & _). cbv zeta in Hg.
  assert (Hstate : forall e', b_state e' = BFPFREE -> forall i, b_state <$> <[id := e']> (bfptab s) !! i = b_state <$> bfptab s !! i).
  { intros e' He' i. destruct (decide (id = i)) as [<- | Hne]; [| by rewrite lookup_insert_ne].
    rewrite lookup_insert_eq, He. cbn. by rewrite He', Hst. }
  destruct (getm (roundmb (n * size)) bl) as [[p bl']|].
  2: { destruct Hg as [-> _]. cbn [obind]. rewrite Z.eqb_refl. unfold s1. brun. rewrite insert_insert_eq.
    eexists SYSERR, _. split; [exact eq_refl |]. split.
    - apply (kinv_view s1); [unfold kview, s1; ksimpl; reflexivity | exact HI1].
    - right. split; [done |]. by apply Hstate. }
  destruct Hg as (s2 & -> & HM2 & (m2 & p2 & l2 & E2) & Htk & _). cbn [obind].
  destruct (tk_in _ _ _ _ _ _ Htk) as [Hlo Hhi]. pose proof (tk_align _ _ _ _ _ _ Htk) as Hal.
  pose proof (mi_hi _ _ HM2) as Hmax. pose proof (mi_map _ _ HM2) as Hmap. pose proof (mi_lo _ _ HM) as Hlo0.
  assert (E1 : memheap s1 = memheap s /\ maxaddr s1 = maxaddr s) by (unfold s1; ksimpl; split; reflexivity).
  assert (E3 : memheap s2 = memheap s /\ maxaddr s2 = maxaddr s /\ mem s2 = m2)
    by (rewrite E2; unfold s1; ksimpl; split_and!; reflexivity).
  destruct E1 as [E1 E1'], E3 as (E3 & E3' & E3''). rewrite E1 in Hlo. rewrite E1' in Hhi.
  rewrite E3, E3' in Hmax. rewrite E3, E3', E3'' in Hmap.
  rewrite (proj2 (Z.eqb_neq PTRERR p)) by (unfold PTRERR; intros <-; discriminate Hal).
  rewrite E2. unfold s1. brun. rewrite !insert_insert_eq. set (e2 := set_b_head _ _).
  match goal with |- context [run (for_ _ _ _ _) ?st] => set (s3 := st) end.
  destruct (run_bfpalloc_init id size) with (n := Z.to_nat n) (i := 0) (p := p) (s := s3)
    as (m3 & -> & Hch & Hout & Hsame); [unfold POOLBUF; lia | apply bufsize_mod | lia | lia | nia | |].
  { intros w Hw Hw4. apply Hmap; [nia | done]. }
  cbn [obind]. set (s4 := set_mem m3 s3). rewrite run_bind.
  assert (HI4 : kinv s4 Q).
  { apply (kinv_view s1); [| exact HI1]. unfold kview, s4, s3, s1. ksimpl. reflexivity. }
  destruct (semcreate_spec s4 Q n HI4) as [(k & es & Hes & Hsf & Hq & -> & HI5) | [(k & -> & HI5) _]];
    [unfold INT_MAX; lia | |]; cbn [obind]; unfold s4, s3; brun.
  - pose proof (sem_range (ki_sems _ _ HI4) Hes) as Hk.
    rewrite (proj2 (Z.eqb_neq NOSEM k)) by (unfold NOSEM, u32, SYSERR; klia). rewrite run_ret.
    rewrite insert_insert_eq. eexists id, _. split; [exact eq_refl |]. split.
    + eapply kinv_view; [| exact HI5]. unfold kview, s4, s3, s1. ksimpl. reflexivity.
    + left. exists e, p. split; [done |]. split; [done |]. split; [done |]. split; [done | apply buffers_apart; unfold POOLBUF; lia |].
      eexists _, (mkSement SUSED n (semq k)). split; [apply lookup_insert_eq |]. split; [done |]. cbn [b_next b_freebuf set_b_freebuf].
      rewrite buffers_length. rewrite (u32_small k) by klia. fold size n.
      split; [| split; [apply lookup_insert_eq | split; [done | cbn; lia]]].
      unfold s4. ksimpl. replace (size * n) with (size * Z.of_nat (Z.to_nat n)) by lia. exact Hch.
  - rewrite Z.eqb_refl. brun. rewrite !insert_insert_eq. change (b_head _) with p.
    match goal with |- context [run (memfree _ _) ?st] => set (s6 := st) end.
    assert (HM6 : minv s6 bl').
    { apply (minv_same (set_mem m3 s2)); [rewrite E2; unfold mem_same, s6, s4, s3, s1; ksimpl; split_and!; reflexivity |].
      apply (minv_write s2 bl' p (p + roundmb (n * size))); [exact HM2 | exact (tk_gone _ _ _ _ _ _ Htk) | |].
      - intros w Hw. rewrite E3''. apply Hout. nia.
      - intros w. rewrite E3''. apply Hsame. }
    assert (E6 : memheap s6 = memheap s /\ maxaddr s6 = maxaddr s /\ inCrit s6 = true)
      by (unfold s6, s4, s3, s1; ksimpl; split_and!; reflexivity). destruct E6 as (E6 & E6' & Hc6).
    pose proof (memfree_spec s6 bl' p (n * size) HM6 Hc6 ltac:(lia) ltac:(lia) Hal ltac:(lia)) as Hf.
    assert (Hend : exists r s7, run (memfree p (n * size)) s6 = Done r (crit_out s7) /\ mem_frame (crit_in s6) s7).
    { destruct (putm _ _ _); [destruct Hf as (s7 & -> & _ & Hfr & _); by exists OK, s7 |]. exists SYSERR, (crit_in s6).
      split; [exact Hf |]. exists (mem (crit_in s6)), (memlist_next (crit_in s6)), (memlist_length (crit_in s6)). by destruct (crit_in s6). }
    destruct Hend as (r & s7 & -> & (m7 & p7 & l7 & ->)). cbn [obind]. rewrite run_ret.
    eexists SYSERR, _. split; [exact eq_refl |]. split.
    + eapply kinv_view; [| exact HI5]. unfold kview, s6, s4, s3, s1. ksimpl. reflexivity.
    + right. split; [done |]. unfold s6, s4, s3, s1. ksimpl. by apply Hstate.
Qed.
