(* ===== verification/Bytes.v ===== *)
(** Byte memory, and the routines of lib/libxc that work on blocks of bytes and on
    null-terminated strings: memchr.c, memcmp.c, memcpy.c, memset.c, bzero.c,
    strlen.c, strnlen.c, strcpy.c, strncpy.c, strlcpy.c, strncat.c, strcmp.c,
    strncmp.c, strchr.c, strrchr.c and strstr.c.

    Memory is a finite map from the addresses that exist to bytes; a loop that
    walks along a string meets a new address in each round, so the number of
    addresses bounds the rounds. *)
From Stdlib Require Import ZArith Lia.
From stdpp Require Import gmap list.
From S2P Require Import Prelude Kernel.

Abbreviation bytemem := (gmap Z Z).
Abbreviation bprog := (prog bytemem).

Definition ldb (a : Z) : bprog Z := load (fun m => m) a.
(** Storing converts to [unsigned char]. *)
Definition stb (a v : Z) : bprog unit := store (fun m => m) (fun m _ => m) a (u8 v).
Definition bfuel (m : bytemem) : nat := S (size m).

(** ** Routines *)

(** [while (s[n] != 0) n++;] and the like: count up while the test holds. *)
Definition upwhile (test : Z -> bprog bool) (n : Z) : bprog Z :=
  fuel ← gets bfuel;
  while_ fuel test (fun n => mret (u32 (n + 1))) n.

Definition strlen (s : Z) : bprog Z :=
  upwhile (fun n => c ← ldb (s + n); mret (negb (c =? 0))) 0.

Definition strnlen (s maxlen : Z) : bprog Z :=
  upwhile (fun n => c ← ldb (s + n); mret (negb (c =? 0) && (n <? maxlen))) 0.

(** [for (i = 0; i < n; i++)] over a block of memory. *)
Definition memcpy (dest src n : Z) : bprog Z :=
  for_ (Z.to_nat n) 0 (fun i _ =>
    c ← ldb (src + i);
    stb (dest + i) c;;
    mret (inl tt : unit + unit)) tt;;
  mret dest.

Definition memset (s c n : Z) : bprog Z :=
  let byte := u8 c in
  for_ (Z.to_nat n) 0 (fun i _ => stb (s + i) byte;; mret (inl tt : unit + unit)) tt;;
  mret s.

Definition bzero (s n : Z) : bprog unit := memset s 0 n;; mret tt.

Definition memcmp (s1 s2 n : Z) : bprog Z :=
  r ← for_ (Z.to_nat n) 0 (fun i _ =>
    c1 ← ldb (s1 + i);
    c2 ← ldb (s2 + i);
    if negb (c1 =? c2) then mret (inr (c1 - c2) : unit + Z) else mret (inl tt)) tt;
  match r with inr d => mret d | inl _ => mret 0 end.

Definition memchr (s c n : Z) : bprog Z :=
  let byte := u8 c in
  r ← for_ (Z.to_nat n) 0 (fun i _ =>
    c ← ldb (s + i);
    if c =? byte then mret (inr (s + i) : unit + Z) else mret (inl tt)) tt;
  match r with inr p => mret p | inl _ => mret NULL end.

(** The copy goes on until the byte copied is the terminator. *)
Definition strcpy (dest src : Z) : bprog Z :=
  upwhile (fun n =>
    c ← ldb (src + n);
    stb (dest + n) c;;
    mret (negb (c =? 0))) 0;;
  mret dest.

Definition strncpy (dest src n : Z) : bprog Z :=
  r ← for_ (Z.to_nat n) 0 (fun i _ =>
    c ← ldb (src + i);
    if c =? 0 then mret (inr i : unit + Z) else
    stb (dest + i) c;;
    mret (inl tt)) tt;
  match r with
  | inr i =>
      for_ (Z.to_nat (n - i)) i (fun i _ =>
        stb (dest + i) 0;; mret (inl tt : unit + unit)) tt;;
      mret dest
  | inl _ => ldb (src + n);; mret dest
  end.

Definition strlcpy (dest src destsize : Z) : bprog Z :=
  srclen ← strlen src;
  (if negb (destsize =? 0) then
     let copylen := if destsize - 1 <? srclen then destsize - 1 else srclen in
     memcpy dest src copylen;;
     stb (dest + copylen) 0
   else mret tt);;
  mret srclen.

(** The byte is compared before it is tested for the terminator, so that a search
    for 0 finds the end of the string. *)
Definition strchr (s c : Z) : bprog Z :=
  let ch := u8 c in
  fuel ← gets bfuel;
  r ← for_ fuel 0 (fun i _ =>
    b ← ldb (s + i);
    if b =? ch then mret (inr (s + i) : unit + Z)
    else if b =? 0 then mret (inr NULL) else mret (inl tt)) tt;
  match r with inr p => mret p | inl _ => diverge end.

Definition strrchr (s c : Z) : bprog Z :=
  let ch := u8 c in
  fuel ← gets bfuel;
  r ← for_ fuel 0 (fun i r =>
    b ← ldb (s + i);
    let r := if b =? ch then s + i else r in
    if b =? 0 then mret (inr r : Z + Z) else mret (inl r)) NULL;
  match r with inr p => mret p | inl _ => diverge end.

Definition strncat (dest src n : Z) : bprog Z :=
  let dest_save := dest in
  dest ← strchr dest 0;
  r ← for_ (Z.to_nat n) 0 (fun i _ =>
    c ← ldb (src + i);
    if c =? 0 then mret (inr i : unit + Z) else
    stb (dest + i) c;;
    mret (inl tt)) tt;
  stb (dest + match r with inr i => i | inl _ => n end) 0;;
  mret dest_save.

Definition strcmp (s1 s2 : Z) : bprog Z :=
  n ← upwhile (fun n =>
    c1 ← ldb (s1 + n);
    c2 ← ldb (s2 + n);
    if c1 =? c2 then c1 ← ldb (s1 + n); mret (negb (c1 =? 0)) else mret false) 0;
  c1 ← ldb (s1 + n);
  c2 ← ldb (s2 + n);
  mret (c1 - c2).

Definition strncmp (s1 s2 n : Z) : bprog Z :=
  r ← for_ (Z.to_nat n) 0 (fun i _ =>
    c1 ← ldb (s1 + i);
    if c1 =? 0 then c2 ← ldb (s2 + i); mret (inr (c1 - c2) : unit + Z) else
    c2 ← ldb (s2 + i);
    if negb (c1 =? c2) then mret (inr (c1 - c2)) else mret (inl tt)) tt;
  match r with inr d => mret d | inl _ => mret 0 end.

Definition strstr (haystack needle : Z) : bprog Z :=
  needle_len ← strlen needle;
  fuel ← gets bfuel;
  r ← for_ fuel 0 (fun i _ =>
    c ← ldb (haystack + i);
    if c =? 0 then mret (inr NULL : unit + Z) else
    d ← strncmp (haystack + i) needle needle_len;
    if d =? 0 then mret (inr (haystack + i)) else mret (inl tt)) tt;
  match r with inr p => mret p | inl _ => diverge end.

(** ** Blocks and strings in memory *)

Definition bytes_at (m : bytemem) (a : Z) (l : list Z) : Prop :=
  forall i c, l !! i = Some c -> m !! (a + Z.of_nat i) = Some c.

Definition isbyte (c : Z) : Prop := 0 <= c < 256.

(** The null-terminated string [l] is at [a]. *)
Definition cstr (m : bytemem) (a : Z) (l : list Z) : Prop :=
  bytes_at m a (l ++ [0]) /\ Forall (fun c => 0 < c < 256) l.

(** Memory after the bytes [l] were written at [a]. *)
Fixpoint poke (a : Z) (l : list Z) (m : bytemem) : bytemem :=
  match l with [] => m | c :: l => poke (a + 1) l (<[a := c]> m) end.

(** The block of [n] bytes at [a] exists. *)
Definition mapped (m : bytemem) (a n : Z) : Prop := forall i, 0 <= i < n -> is_Some (m !! (a + i)).

Lemma run_ldb a c (m : bytemem) : m !! a = Some c -> run (ldb a) m = Done c m.
Proof. apply (run_load (fun m => m)). Qed.

Lemma run_stb a v (m : bytemem) : is_Some (m !! a) -> run (stb a v) m = Done tt (<[a := u8 v]> m).
Proof. intros [v0 H]. by apply (run_store (fun m => m) (fun m _ => m) a (u8 v) v0). Qed.

Lemma bytes_at_cons m a c l : bytes_at m a (c :: l) <-> m !! a = Some c /\ bytes_at m (a + 1) l.
Proof.
  split.
  - intros H. split; [specialize (H 0%nat c eq_refl); by rewrite Z.add_0_r in H |].
    intros i x Hi. specialize (H (S i) x Hi). rewrite <- H. f_equal. lia.
  - intros [H1 H2] [|i] x Hi.
    + injection Hi as <-. by rewrite Z.add_0_r.
    + rewrite <- (H2 i x Hi). f_equal. lia.
Qed.

Lemma bytes_at_app m a l1 l2 :
  bytes_at m a (l1 ++ l2) <-> bytes_at m a l1 /\ bytes_at m (a + Z.of_nat (length l1)) l2.
Proof.
  revert a. induction l1 as [|c l1 IH]; intros a; cbn [app length].
  - replace (a + Z.of_nat 0) with a by lia. split; [intros H; split; [done | exact H] | by intros [_ H]].
  - rewrite !bytes_at_cons, IH. replace (a + 1 + Z.of_nat (length l1)) with (a + Z.of_nat (S (length l1))) by lia. tauto.
Qed.

Lemma bytes_at_mid m a l1 c l2 : bytes_at m a (l1 ++ c :: l2) -> m !! (a + Z.of_nat (length l1)) = Some c.
Proof. intros H%bytes_at_app. destruct H as [_ [H _]%bytes_at_cons]. done. Qed.

Lemma bytes_at_size m a l : bytes_at m a l -> (length l <= size m)%nat.
Proof.
  intros H. set (ks := (fun i => a + Z.of_nat i) <$> seq 0 (length l)).
  assert (Hnd : NoDup ks).
  { apply NoDup_fmap_2; [| apply NoDup_seq]. intros i j. lia. }
  rewrite <- (size_dom m). replace (length l) with (size (list_to_set (C := gset Z) ks)).
  - apply subseteq_size. intros k Hk. apply elem_of_list_to_set, list_elem_of_fmap in Hk as (i & -> & Hi).
    apply elem_of_seq in Hi. destruct (lookup_lt_is_Some_2 l i ltac:(lia)) as [c Hc].
    apply elem_of_dom. rewrite (H i c Hc). by exists c.
  - rewrite size_list_to_set by done. unfold ks. by rewrite length_fmap, length_seq.
Qed.

Lemma cstr_fuel m a l : cstr m a l -> (length l < bfuel m)%nat.
Proof. intros [H _]. apply bytes_at_size in H. rewrite length_app in H. cbn in H. unfold bfuel. lia. Qed.

Lemma poke_out a l : forall m w, w < a \/ a + Z.of_nat (length l) <= w -> poke a l m !! w = m !! w.
Proof.
  revert a. induction l as [|c l IH]; intros a m w Hw; [done |]. cbn [poke length] in *.
  rewrite IH by lia. apply lookup_insert_ne. lia.
Qed.

Lemma poke_in a l : forall m, bytes_at (poke a l m) a l.
Proof.
  revert a. induction l as [|c l IH]; intros a m; [done |]. cbn [poke]. apply bytes_at_cons.
  split; [| apply IH]. rewrite poke_out by lia. apply lookup_insert_eq.
Qed.

Lemma poke_app a l1 l2 : forall m, poke a (l1 ++ l2) m = poke (a + Z.of_nat (length l1)) l2 (poke a l1 m).
Proof.
  revert a. induction l1 as [|c l1 IH]; intros a m; cbn [app poke length].
  - by replace (a + Z.of_nat 0) with a by lia.
  - rewrite IH. f_equal. lia.
Qed.

Lemma bytes_at_poke m a l b l' :
  bytes_at m b l' -> b + Z.of_nat (length l') <= a \/ a + Z.of_nat (length l) <= b ->
  bytes_at (poke a l m) b l'.
Proof.
  intros H Hd i c Hi. rewrite poke_out; [by apply H |]. apply lookup_lt_Some in Hi. lia.
Qed.

Lemma mapped_poke m a l b n : mapped m b n -> mapped (poke a l m) b n.
Proof.
  intros H i Hi. specialize (H i Hi). revert a m H. induction l as [|c l IH]; intros a m H; [done |].
  cbn [poke]. apply IH. apply lookup_insert_is_Some. destruct (decide (a = b + i)); [by left | by right].
Qed.

Lemma bytes_mapped m a l : bytes_at m a l -> mapped m a (Z.of_nat (length l)).
Proof.
  intros H i Hi. destruct (lookup_lt_is_Some_2 l (Z.to_nat i) ltac:(lia)) as [c Hc].
  specialize (H _ _ Hc). rewrite Z2Nat.id in H by lia. by exists c.
Qed.

(** [upwhile] stops at the first [k] at which the test fails. *)
Lemma while_up test k : forall fuel n (g : nat -> bytemem),
  (k < fuel)%nat -> 0 <= n -> n + Z.of_nat k < 2 ^ 32 ->
  (forall j, (j < k)%nat -> run (test (n + Z.of_nat j)) (g j) = Done true (g (S j))) ->
  run (test (n + Z.of_nat k)) (g k) = Done false (g (S k)) ->
  run (while_ fuel test (fun n => mret (u32 (n + 1))) n) (g 0%nat) = Done (n + Z.of_nat k) (g (S k)).
Proof.
  induction k as [|k IH]; intros fuel n g Hf Hn Hk H Hv; (destruct fuel as [|fuel]; [lia |]);
    cbn [while_]; rewrite run_bind.
  - replace (n + Z.of_nat 0) with n in * by lia. by rewrite Hv.
  - pose proof (H 0%nat ltac:(lia)) as H0. replace (n + Z.of_nat 0) with n in H0 by lia.
    rewrite H0. cbn [obind]. rewrite run_bind, run_ret. cbn [obind]. rewrite u32_small by lia.
    replace (n + Z.of_nat (S k)) with (n + 1 + Z.of_nat k) in * by lia.
    apply (IH fuel (n + 1) (fun j => g (S j))); try lia; [| done].
    intros j Hj. replace (n + 1 + Z.of_nat j) with (n + Z.of_nat (S j)) by lia. apply H. lia.
Qed.

Lemma upwhile_spec test m k :
  (k < bfuel m)%nat -> Z.of_nat k < 2 ^ 32 ->
  (forall j, (j < k)%nat -> run (test (Z.of_nat j)) m = Done true m) ->
  run (test (Z.of_nat k)) m = Done false m ->
  run (upwhile test 0) m = Done (Z.of_nat k) m.
Proof.
  intros Hf Hk H Hv. unfold upwhile. rewrite run_bind, run_gets. cbn [obind].
  by apply (while_up test k (bfuel m) 0 (fun _ => m)).
Qed.

(** ** Strings *)

(** Byte [i] of a string or its terminator. *)
Lemma cstr_byte m a l i c : cstr m a l -> l !! i = Some c -> m !! (a + Z.of_nat i) = Some c /\ 0 < c < 256.
Proof.
  intros [H Hl] Hi. split; [apply H; by apply lookup_app_l_Some |]. exact (proj1 (Forall_lookup _ _) Hl i c Hi).
Qed.

Lemma cstr_end m a l : cstr m a l -> m !! (a + Z.of_nat (length l)) = Some 0.
Proof. intros [H _]. by apply (bytes_at_mid m a l 0 []). Qed.

Ltac brun1 :=
  match goal with
  | |- context [run (mbind ?f ?m) ?s] => rewrite (run_bind m f s)
  | |- context [run (mret ?a) ?s] => rewrite (run_ret a s)
  | |- context [run (gets ?f) ?s] => rewrite (run_gets f s)
  | H : ?m !! ?a = Some ?c |- context [run (ldb ?a) ?m] => rewrite (run_ldb a c m H)
  end; cbn [obind].
Ltac brun := repeat brun1.

Lemma run_strlen m s l :
  cstr m s l -> Z.of_nat (length l) < 2 ^ 32 -> run (strlen s) m = Done (Z.of_nat (length l)) m.
Proof.
  intros Hs Hl. unfold strlen. apply upwhile_spec; [by eapply cstr_fuel | exact Hl | |].
  - intros j Hj. destruct (lookup_lt_is_Some_2 l j Hj) as [c Hc].
    destruct (cstr_byte _ _ _ _ _ Hs Hc) as [Hm Hb]. brun. by rewrite (proj2 (Z.eqb_neq c 0)) by lia.
  - pose proof (cstr_end _ _ _ Hs) as He. by brun.
Qed.

(** Copying. *)
Lemma poke_snoc a l c m : poke a (l ++ [c]) m = <[a + Z.of_nat (length l) := c]> (poke a l m).
Proof. by rewrite poke_app. Qed.

(** Round [j] of a loop that copies [l] to [d] leaves the first [j] bytes copied. *)
Lemma copy_round m d l j c :
  l !! j = Some c -> isbyte c -> mapped m d (Z.of_nat (length l)) ->
  run (stb (d + Z.of_nat j) c) (poke d (take j l) m) = Done tt (poke d (take (S j) l) m).
Proof.
  intros Hj Hc Hd. pose proof (lookup_lt_Some _ _ _ Hj) as Hlt.
  rewrite run_stb by (apply (mapped_poke _ _ _ _ _ Hd); lia). rewrite u8_small by (unfold isbyte in Hc; lia).
  rewrite (take_S_r _ _ c Hj), poke_snoc, length_take. by replace (j `min` length l)%nat with j by lia.
Qed.

Definition apart (a n b k : Z) : Prop := a + n <= b \/ b + k <= a.

Lemma run_memcpy m d s l :
  bytes_at m s l -> Forall isbyte l -> mapped m d (Z.of_nat (length l)) ->
  apart d (Z.of_nat (length l)) s (Z.of_nat (length l)) ->
  run (memcpy d s (Z.of_nat (length l))) m = Done d (poke d l m).
Proof.
  intros Hs Hb Hd Ha. unfold memcpy. rewrite Nat2Z.id, run_bind.
  rewrite (for_through _ (length l) 0 (fun _ => tt) (fun j => poke d (take j l) m)).
  - cbn [obind]. by rewrite firstn_all.
  - intros j Hj. destruct (lookup_lt_is_Some_2 l j Hj) as [c Hc]. rewrite Z.add_0_l.
    assert (Hm : poke d (take j l) m !! (s + Z.of_nat j) = Some c).
    { rewrite poke_out; [by apply Hs |]. rewrite length_take. unfold apart in Ha. lia. }
    brun. rewrite (copy_round m d l j c); [done | done | | done]. exact (proj1 (Forall_lookup _ _) Hb j c Hc).
Qed.

Lemma run_memset m s c n :
  0 <= n -> mapped m s n -> run (memset s c n) m = Done s (poke s (replicate (Z.to_nat n) (u8 c)) m).
Proof.
  intros Hn Hd. unfold memset. set (l := replicate (Z.to_nat n) (u8 c)). rewrite run_bind.
  assert (Hl : length l = Z.to_nat n) by apply length_replicate.
  rewrite (for_through _ (Z.to_nat n) 0 (fun _ => tt) (fun j => poke s (take j l) m)).
  - cbn [obind]. by rewrite <- Hl, firstn_all.
  - intros j Hj. rewrite Z.add_0_l, run_bind. rewrite (copy_round m s l j (u8 c)); [done | | apply u8_bound |].
    + unfold l. by apply lookup_replicate_2.
    + by rewrite Hl, Z2Nat.id.
Qed.

Lemma run_strcpy m d s l :
  cstr m s l -> Z.of_nat (length l) < 2 ^ 32 -> mapped m d (Z.of_nat (length l) + 1) ->
  apart d (Z.of_nat (length l) + 1) s (Z.of_nat (length l) + 1) ->
  run (strcpy d s) m = Done d (poke d (l ++ [0]) m).
Proof.
  intros Hs Hl Hd Ha. unfold strcpy, upwhile. rewrite run_bind, run_bind, run_gets. cbn [obind].
  set (l0 := l ++ [0]). assert (Hl0 : length l0 = S (length l)) by (unfold l0; rewrite length_app; cbn; lia).
  assert (Hin : forall j, (j <= length l)%nat -> exists c, l0 !! j = Some c /\ isbyte c /\
    poke d (take j l0) m !! (s + Z.of_nat j) = Some c /\ (negb (c =? 0)) = (j <? length l)%nat).
  { intros j Hj. destruct (decide (j = length l)) as [-> | Hne].
    - exists 0. assert (E : l0 !! length l = Some 0) by (unfold l0; by rewrite list_lookup_middle).
      split_and!; [done | unfold isbyte; lia | | by rewrite Nat.ltb_irrefl].
      rewrite poke_out; [by apply cstr_end |]. rewrite length_take. unfold apart in Ha. lia.
    - destruct (lookup_lt_is_Some_2 l j ltac:(lia)) as [c Hc]. destruct (cstr_byte _ _ _ _ _ Hs Hc) as [Hm Hb].
      exists c. split_and!; [by apply lookup_app_l_Some | unfold isbyte; lia | |].
      + rewrite poke_out; [done |]. rewrite length_take. unfold apart in Ha. lia.
      + rewrite (proj2 (Z.eqb_neq c 0)) by lia. symmetry. apply Nat.ltb_lt. lia. }
  rewrite (while_up _ (length l) (bfuel m) 0 (fun j => poke d (take j l0) m)); try lia.
  - cbn [obind]. rewrite <- Hl0, firstn_all. done.
  - by eapply cstr_fuel.
  - intros j Hj. rewrite Z.add_0_l. destruct (Hin j ltac:(lia)) as (c & Hc & Hb & Hm & Ht). brun.
    rewrite (copy_round m d l0 j c); [| done | done | rewrite Hl0; by replace (Z.of_nat (S (length l))) with (Z.of_nat (length l) + 1) by lia].
    brun. rewrite Ht. by rewrite (proj2 (Nat.ltb_lt _ _)) by lia.
  - rewrite Z.add_0_l. destruct (Hin (length l) ltac:(lia)) as (c & Hc & Hb & Hm & Ht). brun.
    rewrite (copy_round m d l0 _ c); [| done | done | rewrite Hl0; by replace (Z.of_nat (S (length l))) with (Z.of_nat (length l) + 1) by lia].
    brun. rewrite Ht. by rewrite Nat.ltb_irrefl.
Qed.

Lemma cstr_bytes m s l : cstr m s l -> bytes_at m s l /\ Forall isbyte l.
Proof.
  intros [H Hl]. apply bytes_at_app in H as [H _]. split; [done |].
  eapply Forall_impl; [exact Hl |]. unfold isbyte. cbn. lia.
Qed.

Lemma bytes_at_take m s l n : bytes_at m s l -> bytes_at m s (take n l).
Proof. intros H i c [Hi _]%lookup_take_Some. by apply H. Qed.

(** [strlcpy] copies the string, cut to what fits, and always terminates it: it
    writes [destsize] bytes at most, and returns the length of the source so that
    the caller can tell. *)
Theorem strlcpy_bounded m d s l destsize :
  cstr m s l -> Z.of_nat (length l) < 2 ^ 32 -> 0 < destsize < 2 ^ 32 -> mapped m d destsize ->
  apart d destsize s (Z.of_nat (length l)) ->
  let l' := take (Z.to_nat (destsize - 1)) l in
  run (strlcpy d s destsize) m = Done (Z.of_nat (length l)) (poke d (l' ++ [0]) m) /\
  cstr (poke d (l' ++ [0]) m) d l' /\ Z.of_nat (length (l' ++ [0])) <= destsize.
Proof.
  intros Hs Hl Hn Hd Ha l'. destruct (cstr_bytes _ _ _ Hs) as [Hb Hbb].
  assert (Hlen : length l' = (Z.to_nat (destsize - 1) `min` length l)%nat) by apply length_take.
  split_and!.
  - unfold strlcpy. rewrite run_bind, (run_strlen m s l Hs Hl). cbn [obind].
    rewrite (proj2 (Z.eqb_neq destsize 0)) by lia. cbn [negb].
    replace (if destsize - 1 <? Z.of_nat (length l) then destsize - 1 else Z.of_nat (length l))
      with (Z.of_nat (length l')) by (destruct (Z.ltb_spec (destsize - 1) (Z.of_nat (length l))); lia).
    rewrite !run_bind, (run_memcpy m d s l').
    + cbn [obind]. rewrite run_stb; [| apply mapped_poke with (n := destsize); [done | lia]].
      cbn [obind]. rewrite run_ret. by rewrite poke_app.
    + by apply bytes_at_take.
    + by apply Forall_take.
    + intros i Hi. apply Hd. lia.
    + unfold apart in *. lia.
  - split; [apply poke_in |]. apply Forall_take, Hs.
  - rewrite length_app. cbn. lia.
Qed.

(** The difference of the first bytes that differ, where the end counts as 0. *)
Fixpoint strdiff (l1 l2 : list Z) : Z :=
  match l1, l2 with
  | c1 :: r1, c2 :: r2 => if c1 =? c2 then strdiff r1 r2 else c1 - c2
  | c1 :: _, [] => c1
  | [], c2 :: _ => - c2
  | [], [] => 0
  end.

(** Lexicographic order of strings. *)
Fixpoint lexlt (l1 l2 : list Z) : Prop :=
  match l1, l2 with
  | c1 :: r1, c2 :: r2 => c1 < c2 \/ c1 = c2 /\ lexlt r1 r2
  | [], _ :: _ => True
  | _, [] => False
  end.

Lemma strdiff_order l1 l2 :
  Forall (fun c => 0 < c < 256) l1 -> Forall (fun c => 0 < c < 256) l2 ->
  (strdiff l1 l2 = 0 <-> l1 = l2) /\ (strdiff l1 l2 < 0 <-> lexlt l1 l2) /\ -256 < strdiff l1 l2 < 256.
Proof.
  intros H1. revert l2. induction H1 as [|c1 r1 Hc1 _ IH]; intros l2 H2; destruct H2 as [|c2 r2 Hc2 H2]; cbn;
    [split_and!; done || lia | split_and!; try lia; split; [lia | done] | split_and!; try lia; split; [lia | done] |].
  destruct (Z.eqb_spec c1 c2) as [<- | Hne].
  - destruct (IH r2 H2) as (E1 & E2 & E3). split_and!; [rewrite E1; naive_solver | rewrite E2 | lia | lia].
    split; [by right | intros [? | [_ ?]]; [lia | done]].
  - split; [split; [lia | naive_solver] |]. split; [| lia]. split; [lia | intros [? | [? _]]; lia].
Qed.

Lemma strdiff_app p r1 r2 : strdiff (p ++ r1) (p ++ r2) = strdiff r1 r2.
Proof. induction p as [|c p IH]; cbn; [done |]. by rewrite Z.eqb_refl. Qed.

Lemma strdiff_refl l : strdiff l l = 0.
Proof. induction l as [|c l IH]; cbn; [done |]. by rewrite Z.eqb_refl. Qed.

(** Two strings up to their first difference. *)
Lemma str_common l1 l2 :
  exists p r1 r2, l1 = p ++ r1 /\ l2 = p ++ r2 /\ strdiff l1 l2 = strdiff r1 r2 /\
    match r1, r2 with c1 :: _, c2 :: _ => c1 <> c2 | _, _ => True end.
Proof.
  revert l2. induction l1 as [|c1 l1 IH]; intros l2; [by exists [], [], l2 |].
  destruct l2 as [|c2 l2]; [by exists [], (c1 :: l1), [] |].
  destruct (Z.eqb_spec c1 c2) as [<- | Hne].
  - destruct (IH l2) as (p & r1 & r2 & -> & -> & E & Hd). exists (c1 :: p), r1, r2. cbn. by rewrite Z.eqb_refl.
  - by exists [], (c1 :: l1), (c2 :: l2).
Qed.

Lemma cstr_split m a p r : cstr m a (p ++ r) ->
  (forall j, (j < length p)%nat -> exists c, p !! j = Some c /\ m !! (a + Z.of_nat j) = Some c /\ 0 < c < 256) /\
  exists c, m !! (a + Z.of_nat (length p)) = Some c /\ c = match r with [] => 0 | c :: _ => c end /\ 0 <= c < 256.
Proof.
  intros Hs. split.
  - intros j Hj. destruct (lookup_lt_is_Some_2 p j Hj) as [c Hc]. exists c. split; [done |].
    apply (cstr_byte _ _ _ _ _ Hs). by apply lookup_app_l_Some.
  - destruct r as [|c r].
    + exists 0. rewrite app_nil_r in Hs. split_and!; [by apply cstr_end | done | lia | lia].
    + exists c. destruct (cstr_byte _ _ _ (length p) c Hs) as [Hm Hb]; [by rewrite list_lookup_middle |].
      split_and!; try done; lia.
Qed.

(** [strcmp] orders strings lexicographically by unsigned bytes, and returns 0
    exactly for equal strings. *)
Theorem strcmp_lex m s1 s2 l1 l2 :
  cstr m s1 l1 -> cstr m s2 l2 -> Z.of_nat (length l1) < 2 ^ 32 ->
  exists d, run (strcmp s1 s2) m = Done d m /\ (d = 0 <-> l1 = l2) /\ (d < 0 <-> lexlt l1 l2).
Proof.
  intros H1 H2 Hl. exists (strdiff l1 l2).
  destruct (strdiff_order l1 l2 (proj2 H1) (proj2 H2)) as (E1 & E2 & _). split; [| done].
  destruct (str_common l1 l2) as (p & r1 & r2 & -> & -> & -> & Hd). clear E1 E2.
  destruct (cstr_split _ _ _ _ H1) as [P1 (c1 & Hm1 & Hc1 & Hb1)].
  destruct (cstr_split _ _ _ _ H2) as [P2 (c2 & Hm2 & Hc2 & Hb2)].
  unfold strcmp. rewrite run_bind, (upwhile_spec _ m (length p)).
  - cbn [obind]. brun. f_equal. subst c1 c2. destruct r1, r2; cbn; try lia. by rewrite (proj2 (Z.eqb_neq _ _) Hd).
  - pose proof (cstr_fuel _ _ _ H1). rewrite length_app in *. lia.
  - rewrite length_app in Hl. lia.
  - intros j Hj. destruct (P1 j Hj) as (c & Hc & Hm & Hb). destruct (P2 j Hj) as (c' & Hc' & Hm' & _).
    assert (c' = c) as -> by congruence. brun. rewrite Z.eqb_refl. brun. by rewrite (proj2 (Z.eqb_neq c 0)) by lia.
  - brun. destruct (Z.eqb_spec c1 c2) as [E | Hne]; brun; [| done].
    rewrite (proj2 (Z.eqb_eq c1 0)); [done |]. subst c1 c2. by destruct r1, r2.
Qed.

(** [strncmp] compares the first [n] bytes. *)
Lemma run_strncmp m s1 s2 l1 l2 n :
  cstr m s1 l1 -> cstr m s2 l2 -> 0 <= n ->
  run (strncmp s1 s2 n) m = Done (strdiff (take (Z.to_nat n) l1) (take (Z.to_nat n) l2)) m.
Proof.
  intros H1 H2 Hn. unfold strncmp. rewrite run_bind. set (k := Z.to_nat n).
  destruct (str_common l1 l2) as (p & r1 & r2 & -> & -> & _ & Hd).
  destruct (cstr_split _ _ _ _ H1) as [P1 (c1 & Hm1 & Hc1 & Hb1)].
  destruct (cstr_split _ _ _ _ H2) as [P2 (c2 & Hm2 & Hc2 & Hb2)].
  set (body := fun (i : Z) (_ : unit) => _ : bprog (unit + Z)).
  assert (Hstep : forall j, (j < length p)%nat -> run (body (Z.of_nat j) tt) m = Done (inl tt) m).
  { intros j Hj. destruct (P1 j Hj) as (c & Hc & Hm & Hb). destruct (P2 j Hj) as (c' & Hc' & Hm' & _).
    assert (c' = c) as -> by congruence. unfold body. brun. rewrite (proj2 (Z.eqb_neq c 0)) by lia. brun.
    by rewrite Z.eqb_refl. }
  destruct (decide (k <= length p)%nat) as [Hk | Hk].
  - rewrite (for_all body k m) by (intros j Hj; apply Hstep; lia). cbn [obind]. rewrite !take_app_le by lia.
    by rewrite strdiff_refl.
  - assert (Hsd : strdiff (take k (p ++ r1)) (take k (p ++ r2)) = strdiff (take (k - length p) r1) (take (k - length p) r2)).
    { rewrite !take_app_ge by lia. apply strdiff_app. }
    rewrite Hsd. destruct (k - length p)%nat as [|d] eqn:E; [lia |].
    assert (Hv : (c1 = 0 \/ c1 <> c2) -> run (body (Z.of_nat (length p)) tt) m = Done (inr (c1 - c2)) m).
    { intros Hor. unfold body. brun. destruct (Z.eqb_spec c1 0); brun; [done |].
      by rewrite (proj2 (Z.eqb_neq c1 c2)) by tauto. }
    rewrite (for_find body k (length p) (c1 - c2) m); [| lia | done |].
    + cbn [obind]. rewrite run_ret. f_equal. subst c1 c2. destruct r1, r2; cbn; try lia.
      by rewrite (proj2 (Z.eqb_neq _ _) Hd).
    + apply Hv. subst c1 c2. destruct r1, r2; auto. right. destruct H1 as [_ Hf].
      apply Forall_app in Hf as [_ Hf]. inversion Hf. lia.
Qed.

(** The first place in a list where a byte occurs. *)
Fixpoint index_of (c : Z) (l : list Z) : option nat :=
  match l with [] => None | x :: r => if x =? c then Some 0%nat else S <$> index_of c r end.

Lemma index_of_Some c l k : index_of c l = Some k -> l !! k = Some c /\ forall j, (j < k)%nat -> l !! j <> Some c.
Proof.
  revert k. induction l as [|x r IH]; intros k; cbn; [done |]. destruct (Z.eqb_spec x c) as [-> | Hne].
  - intros [= <-]. split; [done | lia].
  - intros (k' & Hk & ->)%fmap_Some. destruct (IH k' Hk) as [H1 H2]. split; [done |].
    intros [|j] Hj; [by intros [= ->] | apply H2; lia].
Qed.

Lemma index_of_None c l : index_of c l = None -> c ∉ l.
Proof.
  induction l as [|x r IH]; cbn; [intros _; apply not_elem_of_nil |].
  destruct (Z.eqb_spec x c) as [-> | Hne]; [done |]. intros H%fmap_None. apply not_elem_of_cons.
  split; [done | by apply IH].
Qed.

(** The bytes of a string with its terminator. *)
Lemma cstr_all m s l j : cstr m s l -> (j <= length l)%nat ->
  exists c, (l ++ [0]) !! j = Some c /\ m !! (s + Z.of_nat j) = Some c /\ (c = 0 <-> j = length l).
Proof.
  intros Hs Hj. destruct (decide (j = length l)) as [-> | Hne].
  - exists 0. split_and!; [by rewrite list_lookup_middle | by apply cstr_end | done].
  - destruct (lookup_lt_is_Some_2 l j ltac:(lia)) as [c Hc]. destruct (cstr_byte _ _ _ _ _ Hs Hc) as [Hm Hb].
    exists c. split_and!; [by apply lookup_app_l_Some | done | lia].
Qed.

(** [strchr] returns the first place of the byte in the string, where the
    terminator counts as part of it, or a null pointer. *)
Theorem strchr_first m s l c :
  cstr m s l ->
  run (strchr s c) m = Done (match index_of (u8 c) (l ++ [0]) with Some k => s + Z.of_nat k | None => NULL end) m.
Proof.
  intros Hs. unfold strchr. rewrite run_bind, run_gets. cbn [obind]. rewrite run_bind.
  pose proof (cstr_fuel _ _ _ Hs) as Hf. set (body := fun (i : Z) (_ : unit) => _ : bprog (unit + Z)).
  assert (Hstep : forall j, (j < length l)%nat -> (l ++ [0]) !! j <> Some (u8 c) ->
    run (body (Z.of_nat j) tt) m = Done (inl tt) m).
  { intros j Hj Hne. destruct (cstr_all m s l j Hs ltac:(lia)) as (x & Hx & Hm & H0). unfold body. brun.
    rewrite (proj2 (Z.eqb_neq x (u8 c))) by congruence. by rewrite (proj2 (Z.eqb_neq x 0)) by lia. }
  destruct (index_of (u8 c) (l ++ [0])) as [k|] eqn:E.
  - destruct (index_of_Some _ _ _ E) as [Hk Hbefore]. pose proof (lookup_lt_Some _ _ _ Hk) as Hlt.
    rewrite length_app in Hlt. cbn in Hlt. rewrite (for_find body _ k (s + Z.of_nat k) m); [done | lia | |].
    + intros j Hj. apply Hstep; [lia | by apply Hbefore].
    + destruct (cstr_all m s l k Hs ltac:(lia)) as (x & Hx & Hm & H0). assert (x = u8 c) as -> by congruence.
      unfold body. brun. by rewrite Z.eqb_refl.
  - pose proof (index_of_None _ _ E) as Hno. rewrite (for_find body _ (length l) NULL m); [done | lia | |].
    + intros j Hj. apply Hstep; [done |]. intros H. apply Hno. by eapply list_elem_of_lookup_2.
    + destruct (cstr_all m s l (length l) Hs ltac:(lia)) as (x & Hx & Hm & H0). unfold body. brun.
      rewrite (proj2 (Z.eqb_neq x (u8 c))); [by rewrite (proj2 (Z.eqb_eq x 0)) by tauto |].
      intros ->. apply Hno. by eapply list_elem_of_lookup_2.
Qed.

Lemma first_such (P : nat -> bool) n :
  (exists k, (k < n)%nat /\ P k = true /\ forall j, (j < k)%nat -> P j = false) \/
  (forall j, (j < n)%nat -> P j = false).
Proof.
  induction n as [|n IH]; [right; lia |]. destruct IH as [(k & Hk & H) | H]; [left; exists k; split; [lia | done] |].
  destruct (P n) eqn:E; [left; exists n; by split_and!; [lia | ..] | right].
  intros j Hj. destruct (decide (j = n)) as [-> | Hne]; [done | apply H; lia].
Qed.

Lemma cstr_drop m s l j : cstr m s l -> (j <= length l)%nat -> cstr m (s + Z.of_nat j) (drop j l).
Proof.
  intros [H Hf] Hj. split; [| by apply Forall_drop]. rewrite <- (take_drop j l), <- app_assoc in H.
  apply bytes_at_app in H as [_ H]. rewrite length_take in H. by replace (j `min` length l)%nat with j in H by lia.
Qed.

Lemma prefix_take (p l : list Z) : p `prefix_of` l <-> take (length p) l = p.
Proof.
  split; [intros [r ->]; by rewrite take_app_length | intros H; exists (drop (length p) l)].
  by rewrite <- H at 1; rewrite take_drop.
Qed.

(** [strstr] returns the first place where the needle occurs, or a null pointer
    if it occurs nowhere before the end of the string. *)
Theorem strstr_first m h n lh ln :
  cstr m h lh -> cstr m n ln -> Z.of_nat (length ln) < 2 ^ 32 ->
  exists p, run (strstr h n) m = Done p m /\
    ((exists k, (k < length lh)%nat /\ p = h + Z.of_nat k /\ ln `prefix_of` drop k lh /\
        forall j, (j < k)%nat -> ~ ln `prefix_of` drop j lh) \/
     (p = NULL /\ forall j, (j < length lh)%nat -> ~ ln `prefix_of` drop j lh)).
Proof.
  intros Hh Hn Hl. unfold strstr. rewrite run_bind, (run_strlen m n ln Hn Hl). cbn [obind].
  rewrite run_bind, run_gets. cbn [obind]. rewrite run_bind. pose proof (cstr_fuel _ _ _ Hh) as Hf.
  set (body := fun (i : Z) (_ : unit) => _ : bprog (unit + Z)).
  assert (Hb : forall j, (j < length lh)%nat -> run (body (Z.of_nat j) tt) m =
    Done (if bool_decide (ln `prefix_of` drop j lh) then inr (h + Z.of_nat j) else inl tt) m).
  { intros j Hj. destruct (cstr_all m h lh j Hh ltac:(lia)) as (x & _ & Hm & H0). unfold body. brun.
    rewrite (proj2 (Z.eqb_neq x 0)) by lia. rewrite run_bind.
    rewrite (run_strncmp m (h + Z.of_nat j) n (drop j lh) ln); [| by apply cstr_drop; [| lia] | done | lia].
    cbn [obind]. rewrite Nat2Z.id, (firstn_all ln).
    destruct (strdiff_order (take (length ln) (drop j lh)) ln) as (E & _);
      [by apply Forall_take, Forall_drop, Hh | apply Hn |].
    case_bool_decide as Hp; rewrite prefix_take in Hp.
    - by rewrite (proj2 (Z.eqb_eq _ 0)) by tauto.
    - by rewrite (proj2 (Z.eqb_neq _ 0)) by tauto. }
  destruct (first_such (fun j => bool_decide (ln `prefix_of` drop j lh)) (length lh)) as [(k & Hk & Hp & Hno) | Hno].
  - exists (h + Z.of_nat k). rewrite (for_find body _ k (h + Z.of_nat k) m); [| lia | |].
    + split; [done |]. left. exists k. split_and!; try done; [by apply bool_decide_eq_true in Hp |].
      intros j Hj. by apply (bool_decide_eq_false _), Hno.
    + intros j Hj. by rewrite Hb, Hno by lia.
    + by rewrite Hb, Hp by lia.
  - exists NULL. pose proof (cstr_end _ _ _ Hh) as He. rewrite (for_find body _ (length lh) NULL m); [| lia | |].
    + split; [done |]. right. split; [done |]. intros j Hj. by apply (bool_decide_eq_false _), Hno.
    + intros j Hj. by rewrite Hb, Hno by lia.
    + unfold body. by brun.
Qed.

(** The empty string is not found in the empty string. *)
Theorem strstr_empty m h n : cstr m h [] -> cstr m n [] -> run (strstr h n) m = Done NULL m.
Proof.
  intros Hh Hn. unfold strstr. rewrite run_bind, (run_strlen m n [] Hn) by done. cbn [obind]. brun1. brun1.
  pose proof (cstr_end _ _ _ Hh) as He. unfold bfuel. cbn [for_]. brun.
  by rewrite (run_ldb (h + 0) 0 m He).
Qed.

(** The last place of a byte. *)
Fixpoint last_index (c : Z) (l : list Z) : option nat :=
  match l with
  | [] => None
  | x :: r => match last_index c r with Some k => Some (S k) | None => if x =? c then Some 0%nat else None end
  end.

Lemma last_index_snoc c l x :
  last_index c (l ++ [x]) = if x =? c then Some (length l) else last_index c l.
Proof.
  induction l as [|y l IH]; cbn; [done |]. rewrite IH. by destruct (x =? c).
Qed.

(** [strrchr] returns the last place of the byte in the string. *)
Theorem strrchr_last m s l c :
  cstr m s l ->
  run (strrchr s c) m = Done (match last_index (u8 c) (l ++ [0]) with Some k => s + Z.of_nat k | None => NULL end) m.
Proof.
  intros Hs. unfold strrchr. rewrite run_bind, run_gets. cbn [obind]. rewrite run_bind.
  set (at_ := fun o : option nat => match o with Some k => s + Z.of_nat k | None => NULL end).
  set (body := fun (i : Z) (r : Z) => _ : bprog (Z + Z)).
  assert (Hb : forall j, (j <= length l)%nat ->
    run (body (Z.of_nat j) (at_ (last_index (u8 c) (take j (l ++ [0]))))) m =
    Done (let r := at_ (last_index (u8 c) (take (S j) (l ++ [0]))) in
          if bool_decide (j = length l) then inr r else inl r) m).
  { intros j Hj. destruct (cstr_all m s l j Hs Hj) as (x & Hx & Hm & H0).
    rewrite (take_S_r _ _ x Hx), last_index_snoc, length_take, length_app. cbn [length].
    replace (j `min` (length l + 1))%nat with j by lia. unfold body. brun.
    replace (if x =? u8 c then s + Z.of_nat j else _) with
      (at_ (if x =? u8 c then Some j else last_index (u8 c) (take j (l ++ [0])))) by (by destruct (x =? u8 c)).
    case_bool_decide; [rewrite (proj2 (Z.eqb_eq x 0)) by tauto | rewrite (proj2 (Z.eqb_neq x 0)) by tauto]; by brun. }
  assert (Hrun : run (for_ (bfuel m) 0 body NULL) m = Done (inr (at_ (last_index (u8 c) (l ++ [0])))) m);
    [| by rewrite Hrun].
  apply (for_exit body _ m (length l) (bfuel m) 0
    (fun j => at_ (last_index (u8 c) (take j (l ++ [0])))) (fun _ => m)); [by eapply cstr_fuel | |].
  - intros j Hj. rewrite Z.add_0_l, Hb by lia. by rewrite bool_decide_eq_false_2 by lia.
  - rewrite Z.add_0_l, Hb by lia. rewrite bool_decide_eq_true_2 by done. rewrite firstn_all2; [done |].
    rewrite length_app. cbn. lia.
Qed.

(** [memchr] and [memcmp] on blocks. *)
Lemma run_memchr m s l c :
  bytes_at m s l ->
  run (memchr s c (Z.of_nat (length l))) m =
    Done (match index_of (u8 c) l with Some k => s + Z.of_nat k | None => NULL end) m.
Proof.
  intros Hs. unfold memchr. rewrite Nat2Z.id, run_bind. set (body := fun (i : Z) (_ : unit) => _ : bprog (unit + Z)).
  assert (Hb : forall j x, l !! j = Some x ->
    run (body (Z.of_nat j) tt) m = Done (if x =? u8 c then inr (s + Z.of_nat j) else inl tt) m).
  { intros j x Hx. pose proof (Hs j x Hx) as Hm. unfold body. brun. by destruct (x =? u8 c). }
  destruct (index_of (u8 c) l) as [k|] eqn:E.
  - destruct (index_of_Some _ _ _ E) as [Hk Hno]. pose proof (lookup_lt_Some _ _ _ Hk).
    rewrite (for_find body _ k (s + Z.of_nat k) m); [done | done | |].
    + intros j Hj. destruct (lookup_lt_is_Some_2 l j ltac:(lia)) as [x Hx]. rewrite (Hb j x Hx).
      rewrite (proj2 (Z.eqb_neq x _)); [done |]. intros ->. by apply (Hno j).
    + by rewrite (Hb k _ Hk), Z.eqb_refl.
  - rewrite (for_all body (length l) m); [done |]. intros j Hj. destruct (lookup_lt_is_Some_2 l j Hj) as [x Hx].
    rewrite (Hb j x Hx), (proj2 (Z.eqb_neq x _)); [done |]. intros ->. apply (index_of_None _ _ E).
    by eapply list_elem_of_lookup_2.
Qed.

Lemma run_memcmp m s1 s2 l1 l2 :
  bytes_at m s1 l1 -> bytes_at m s2 l2 -> length l1 = length l2 ->
  run (memcmp s1 s2 (Z.of_nat (length l1))) m = Done (strdiff l1 l2) m.
Proof.
  intros H1 H2 Hl. unfold memcmp. rewrite Nat2Z.id, run_bind. set (body := fun (i : Z) (_ : unit) => _ : bprog (unit + Z)).
  assert (Hb : forall j x y, l1 !! j = Some x -> l2 !! j = Some y ->
    run (body (Z.of_nat j) tt) m = Done (if x =? y then inl tt else inr (x - y)) m).
  { intros j x y Hx Hy. pose proof (H1 j x Hx) as Hm1. pose proof (H2 j y Hy) as Hm2. unfold body. brun.
    by destruct (x =? y). }
  destruct (str_common l1 l2) as (p & r1 & r2 & -> & -> & E & Hd). rewrite E. rewrite !length_app in *.
  assert (Hp : forall j, (j < length p)%nat -> run (body (Z.of_nat j) tt) m = Done (inl tt) m).
  { intros j Hj. destruct (lookup_lt_is_Some_2 p j Hj) as [x Hx].
    rewrite (Hb j x x); [by rewrite Z.eqb_refl | by apply lookup_app_l_Some | by apply lookup_app_l_Some]. }
  destruct r1 as [|x r1], r2 as [|y r2]; cbn in Hl; try lia.
  - rewrite (for_all body); [done |]. intros j Hj. apply Hp. cbn in Hj. lia.
  - rewrite (for_find body _ (length p) (x - y) m); [| cbn; lia | done |].
    + cbn. by rewrite (proj2 (Z.eqb_neq x y) Hd).
    + rewrite (Hb _ x y); [by rewrite (proj2 (Z.eqb_neq x y) Hd) | by rewrite list_lookup_middle ..].
Qed.

(** The copying loop that [strncpy] and [strncat] share: it copies up to [n] bytes
    of a string and stops early at its end. *)
Definition copy_body (d s : Z) (i : Z) (_ : unit) : bprog (unit + Z) :=
  c ← ldb (s + i);
  if c =? 0 then mret (inr i) else stb (d + i) c;; mret (inl tt).

Lemma run_copy m d s l n :
  cstr m s l -> mapped m d (Z.of_nat (n `min` length l)) ->
  apart d (Z.of_nat (n `min` length l)) s (Z.of_nat (length l) + 1) ->
  run (for_ n 0 (copy_body d s) tt) m =
    Done (if bool_decide (length l < n)%nat then inr (Z.of_nat (length l)) else inl tt) (poke d (take n l) m).
Proof.
  intros Hs Hd Ha. set (k := (n `min` length l)%nat) in *.
  assert (Hstep : forall j, (j < k)%nat -> run (copy_body d s (0 + Z.of_nat j) tt) (poke d (take j (take k l)) m)
    = Done (inl tt) (poke d (take (S j) (take k l)) m)).
  { intros j Hj. rewrite Z.add_0_l. destruct (lookup_lt_is_Some_2 l j ltac:(lia)) as [c Hc].
    destruct (cstr_byte _ _ _ _ _ Hs Hc) as [Hm Hb]. unfold copy_body.
    assert (Hm' : poke d (take j (take k l)) m !! (s + Z.of_nat j) = Some c).
    { rewrite poke_out; [done |]. rewrite !length_take. unfold apart in Ha. lia. }
    brun. rewrite (proj2 (Z.eqb_neq c 0)) by lia. brun.
    rewrite (copy_round m d (take k l) j c); [done | rewrite lookup_take_lt by lia; done | unfold isbyte; lia |].
    by replace (length (take k l)) with k by (rewrite length_take; lia). }
  assert (Ek : take n l = take k l).
  { unfold k. destruct (decide (n <= length l)%nat); [by rewrite Nat.min_l by lia |].
    rewrite Nat.min_r, !firstn_all2 by lia. done. }
  rewrite Ek. case_bool_decide as Hlt.
  - apply (for_exit (copy_body d s) _ _ (length l) n 0 (fun _ => tt) (fun j => poke d (take j (take k l)) m)); [done | |].
    + intros j Hj. apply Hstep. lia.
    + rewrite Z.add_0_l, (firstn_all2 (take k l)) by (rewrite length_take; lia).
      assert (Hm : poke d (take k l) m !! (s + Z.of_nat (length l)) = Some 0).
      { rewrite poke_out; [by apply cstr_end |]. rewrite length_take. unfold apart in Ha. lia. }
      unfold copy_body. by brun.
  - assert (Hkn : n = k) by lia. rewrite Hkn at 1.
    rewrite <- (firstn_all2 (n := k) (take k l)) by (rewrite length_take; lia).
    apply (for_through (copy_body d s) k 0 (fun _ => tt) (fun j => poke d (take j (take k l)) m) Hstep).
Qed.

(** [strncpy] writes exactly [n] bytes: the string cut to [n], filled up with
    zeroes; it is not terminated when the string has [n] bytes or more. *)
Theorem strncpy_exact m d s l n :
  cstr m s l -> 0 <= n < 2 ^ 32 -> mapped m d n -> apart d n s (Z.of_nat (length l) + 1) ->
  let l' := take (Z.to_nat n) l ++ replicate (Z.to_nat n - length l) 0 in
  run (strncpy d s n) m = Done d (poke d l' m) /\ Z.of_nat (length l') = n.
Proof.
  intros Hs Hn Hd Ha l'. split; [| unfold l'; rewrite length_app, length_take, length_replicate; lia].
  unfold strncpy. rewrite run_bind. fold (copy_body d s).
  rewrite (run_copy m d s l (Z.to_nat n) Hs); [| intros i Hi; apply Hd; lia | unfold apart in *; lia].
  case_bool_decide as Hlt; cbn [obind].
  - rewrite run_bind. set (zs := replicate (Z.to_nat n - length l) 0) in *.
    assert (Hz : length zs = (Z.to_nat n - length l)%nat) by apply length_replicate.
    set (m1 := poke d (take (Z.to_nat n) l) m).
    rewrite (for_through _ _ (Z.of_nat (length l)) (fun _ => tt)
      (fun j => poke (d + Z.of_nat (length l)) (take j zs) m1)).
    + cbn [obind]. rewrite run_ret. f_equal. unfold l', m1. rewrite poke_app, length_take.
      replace (Z.to_nat n `min` length l)%nat with (length l) by lia.
      rewrite (firstn_all2 zs); [done |]. lia.
    + intros j Hj. rewrite run_bind. replace (d + (Z.of_nat (length l) + Z.of_nat j)) with (d + Z.of_nat (length l) + Z.of_nat j) by lia.
      rewrite (copy_round m1 _ zs j 0); [done | apply lookup_replicate_2; lia | unfold isbyte; lia |].
      apply mapped_poke. intros i Hi. rewrite <- Z.add_assoc. apply Hd. lia.
  - rewrite run_bind. assert (E : l' = take (Z.to_nat n) l).
    { unfold l'. replace (Z.to_nat n - length l)%nat with 0%nat by lia. cbn. by rewrite app_nil_r. }
    rewrite E. destruct (cstr_all m s l (Z.to_nat n) Hs ltac:(lia)) as (c & _ & Hc & _).
    rewrite (run_ldb (s + n) c); [done |]. rewrite Z2Nat.id in Hc by lia.
    rewrite poke_out; [done |]. rewrite length_take. unfold apart in Ha. lia.
Qed.

(** [strncat] appends at most [n] bytes of the source to the string at [dest]
    and terminates the result. *)
Theorem strncat_appends m d s ld ls n :
  cstr m d ld -> cstr m s ls -> 0 <= n ->
  let l' := take (Z.to_nat n) ls in
  mapped m (d + Z.of_nat (length ld)) (Z.of_nat (length l') + 1) ->
  apart (d + Z.of_nat (length ld)) (Z.of_nat (length l') + 1) s (Z.of_nat (length ls) + 1) ->
  exists m', run (strncat d s n) m = Done d m' /\ cstr m' d (ld ++ l') /\
    (forall w, w < d + Z.of_nat (length ld) \/ d + Z.of_nat (length ld) + Z.of_nat (length l') < w -> m' !! w = m !! w).
Proof.
  intros Hd Hs Hn l' Hm Ha. unfold strncat. rewrite run_bind.
  assert (Hend : run (strchr d 0) m = Done (d + Z.of_nat (length ld)) m).
  { unfold strchr. rewrite run_bind, run_gets. cbn [obind]. rewrite run_bind.
    rewrite (for_find _ _ (length ld) (d + Z.of_nat (length ld)) m); [done | by eapply cstr_fuel | |].
    - intros j Hj. destruct (cstr_all m d ld j Hd ltac:(lia)) as (x & _ & Hx & H0). brun.
      change (u8 0) with 0. by rewrite (proj2 (Z.eqb_neq x 0)) by lia.
    - pose proof (cstr_end _ _ _ Hd) as He. by brun. }
  rewrite Hend. cbn [obind]. rewrite run_bind. set (e := d + Z.of_nat (length ld)) in *. fold (copy_body e s).
  assert (Hl' : length l' = (Z.to_nat n `min` length ls)%nat) by apply length_take.
  rewrite (run_copy m e s ls (Z.to_nat n) Hs); [| intros i Hi; apply Hm; lia | unfold apart in *; lia].
  fold l'. cbn [obind]. rewrite run_bind.
  replace (e + _) with (e + Z.of_nat (length l')) by (case_bool_decide; lia).
  rewrite run_stb by (apply (mapped_poke _ _ _ _ _ Hm); lia). cbn [obind]. change (u8 0) with 0. rewrite <- poke_snoc.
  exists (poke e (l' ++ [0]) m). split; [done |]. split; [split |].
  - rewrite <- app_assoc. apply bytes_at_app. split; [| apply poke_in].
    apply bytes_at_poke; [by apply (cstr_bytes m d ld) | unfold e; lia].
  - apply Forall_app. split; [apply Hd | apply Forall_take, Hs].
  - intros w Hw. apply poke_out. rewrite length_app. cbn. lia.
Qed.
