(* ===== verification/Format.v ===== *)
(** Formatted output: lib/libxc/doprnt.c, and the routines that give it a sink,
    lib/libxc/sprintf.c, printf.c, fprintf.c and fputc.c.

    A format is the list of its bytes without the terminator; the arguments are a
    list of words and strings.  The sink is a parameter, as the function pointer
    is in the code. *)
From Stdlib Require Import ZArith Lia.
From stdpp Require Import gmap list.
From S2P Require Import Prelude Kernel.


(** ** Numbers to text *)

(** The digit with the value [d], in lower or upper case. *)
Definition digit (alt_digits : bool) (d : Z) : Z :=
  if d <? 10 then 48 + d else (if alt_digits then 65 else 97) + (d - 10).

Definition LONG_BITS : Z := 32.

(** [base_to_nbits]: the bits of a digit when the base is a power of two. *)
Definition base_to_nbits (base : Z) : Z :=
  if base =? 2 then 1 else if base =? 4 then 2 else if base =? 8 then 3 else if base =? 16 then 4 else 0.

(** ** Arguments and conversion specifications *)

(** A variadic argument: a word of 32 bits, or a pointer to a string. *)
Inductive arg := Num (w : Z) | Str (p : option (list Z)).

Inductive integer_size := SHORT_SHORT_SIZE | SHORT_SIZE | REGULAR_SIZE | LONG_SIZE.

(** The variables of [_doprnt] that a conversion specification sets. *)
Record conv := mkConv {
  leftjust : bool;
  hashtype : Z;
  pad_char : Z;
  fmin : Z;
  prec : Z
}.

(** The characters [str] points to, the number to convert if any, and the rest. *)
Record item := mkItem {
  it_base : Z;
  it_sign : Z;
  it_alt : bool;
  it_num : Z;
  it_str : list Z;
  it_conv : conv
}.

(** [*fmt] and [fmt + 1]. *)
Definition chr (fmt : list Z) : Z := match fmt with c :: _ => c | [] => 0 end.

Definition null_text : list Z := [40; 110; 117; 108; 108; 41].

(** 1. Zero or more flags: [-], [#] and [0]. *)
Fixpoint scan_flags (fmt : list Z) (lj : bool) (ht pc : Z) : list Z * bool * Z * Z :=
  match fmt with
  | c :: r =>
      if c =? 45 then scan_flags r true ht pc
      else if c =? 35 then scan_flags r lj 1 pc
      else if c =? 48 then scan_flags r lj ht 48
      else (fmt, lj, ht, pc)
  | [] => (fmt, lj, ht, pc)
  end.

(** 4. Optional length modifier. *)
Definition scan_size (fmt : list Z) : integer_size * list Z :=
  if chr fmt =? 108 then (LONG_SIZE, tail fmt)
  else if chr fmt =? 104 then
    if chr (tail fmt) =? 104 then (SHORT_SHORT_SIZE, tail (tail fmt)) else (SHORT_SIZE, tail fmt)
  else (REGULAR_SIZE, fmt).

Section Doprnt.
Context {St : Type} (putc_func : Z -> prog St Z).

(** [va_arg]: reading past the arguments, or an argument of another kind, is not
    defined. *)
Definition arg_word (ap : list arg) : prog St (Z * list arg) :=
  match ap with Num w :: ap' => mret (w, ap') | _ => fault end.
Definition arg_str (ap : list arg) : prog St (option (list Z) * list arg) :=
  match ap with Str p :: ap' => mret (p, ap') | _ => fault end.

(** The two loops of [ulong_to_string]; the temporary buffer has room for
    [LONG_BITS] digits after its terminator. *)
Fixpoint digit_loop (room : nat) (alt : bool) (split : Z -> Z * Z) (num : Z) (temp : list Z) : prog St (list Z) :=
  match room with
  | O => fault
  | S room' =>
      let '(d, q) := split num in
      let temp := digit alt d :: temp in
      if q =? 0 then mret temp else digit_loop room' alt split q temp
  end.

Definition ulong_to_string (num base : Z) (alt : bool) : prog St (list Z) :=
  let shift := base_to_nbits base in
  if shift =? 0 then digit_loop (Z.to_nat LONG_BITS) alt (fun n => (n mod base, n / base)) num []
  else
    let mask := Z.shiftl 1 shift - 1 in
    digit_loop (Z.to_nat LONG_BITS) alt (fun n => (Z.land n mask, Z.shiftr n shift)) num [].

(** A run of decimal digits, as an [int]. *)
Fixpoint scan_number (fmt : list Z) (n : Z) : prog St (Z * list Z) :=
  match fmt with
  | c :: r =>
      if (48 <=? c) && (c <=? 57) then
        n ← int (n * 10);
        n ← int (n + (c - 48));
        scan_number r n
      else mret (n, fmt)
  | [] => mret (n, fmt)
  end.

(** 2. Optional minimum field width. *)
Definition scan_width (fmt : list Z) (lj : bool) (ap : list arg) : prog St (Z * bool * list Z * list arg) :=
  if chr fmt =? 42 then
    wa ← arg_word ap;
    let fm := i32 wa.1 in
    if fm <? 0 then fm ← int (- fm); mret (fm, true, tail fmt, wa.2)
    else mret (fm, lj, tail fmt, wa.2)
  else
    nf ← scan_number fmt 0;
    mret (nf.1, lj, nf.2, ap).

(** 3. Optional precision. *)
Definition scan_prec (fmt : list Z) (ap : list arg) : prog St (Z * list Z * list arg) :=
  if chr fmt =? 46 then
    let fmt := tail fmt in
    if chr fmt =? 42 then
      wa ← arg_word ap;
      mret (i32 wa.1, tail fmt, wa.2)
    else
      nf ← scan_number fmt 0;
      mret (nf.1, nf.2, ap)
  else mret (-1, fmt, ap).

(** 5. Conversion specifier character [c]; [None] for one that is not known. *)
Definition convert (c : Z) (cv : conv) (ap : list arg) : prog St (option item * list arg) :=
  if c =? 99 then
    wa ← arg_word ap;
    let b := u8 wa.1 in
    mret (Some (mkItem 0 0 false 0 (if b =? 0 then [] else [b]) cv), wa.2)
  else if c =? 115 then
    sa ← arg_str ap;
    mret (Some (mkItem 0 0 false 0 (default null_text sa.1) cv), sa.2)
  else if (c =? 105) || (c =? 100) then
    wa ← arg_word ap;
    let larg := i32 wa.1 in
    if larg <? 0 then mret (Some (mkItem 10 45 false (u32 (- u32 larg)) [] cv), wa.2)
    else mret (Some (mkItem 10 0 false (u32 larg) [] cv), wa.2)
  else if c =? 112 then
    wa ← arg_word ap;
    mret (Some (mkItem 16 0 false (u32 wa.1) [] (mkConv (leftjust cv) 3 48 4 (prec cv))), wa.2)
  else
    let unsigned_ base alt ht :=
      wa ← arg_word ap;
      mret (Some (mkItem base 0 alt (u32 wa.1) [] (mkConv (leftjust cv) ht (pad_char cv) (fmin cv) (prec cv))), wa.2) in
    if c =? 117 then unsigned_ 10 false (hashtype cv)
    else if c =? 111 then unsigned_ 8 false (if hashtype cv =? 1 then 2 else hashtype cv)
    else if c =? 88 then unsigned_ 16 true (if hashtype cv =? 1 then 3 else hashtype cv)
    else if c =? 120 then unsigned_ 16 false (if hashtype cv =? 1 then 3 else hashtype cv)
    else if c =? 98 then unsigned_ 2 false (hashtype cv)
    else mret (None, ap).

(** The prefix and the characters of a conversion. *)
Definition render (it : item) : prog St (list Z * list Z) :=
  if negb (it_base it =? 0) then
    let ht := hashtype (it_conv it) in
    let prefix := if (ht =? 2) && negb (it_num it =? 0) then [48] else if ht =? 3 then [48; 120] else [] in
    str ← ulong_to_string (it_num it) (it_base it) (it_alt it);
    mret (prefix, str)
  else mret ([], it_str it).

(** Send characters to the sink, counting them; [None] once it fails. *)
Fixpoint put_all (l : list Z) (written : Z) : prog St (option Z) :=
  match l with
  | [] => mret (Some written)
  | c :: r =>
      e ← putc_func c;
      if e =? EOF then mret None else
      n ← int (written + 1);
      put_all r n
  end.

(** The characters of the field, in the order they are put out. *)
Definition field (it : item) (prefix str : list Z) : prog St (list Z) :=
  let cv := it_conv it in
  let len_str := i32 (Z.of_nat (length str)) in
  let '(len_str, num_zeroes, pad) :=
    if prec cv >=? 0 then
      if it_base it =? 0 then (if prec cv <? len_str then prec cv else len_str, 0, pad_char cv)
      else (len_str, if prec cv >? len_str then prec cv - len_str else 0, 32)
    else (len_str, 0, pad_char cv) in
  np ← int (len_str + num_zeroes);
  len_nonpadding ← int (np + (if it_sign it =? 0 then 0 else 1));
  len_padding ← (if len_nonpadding <? fmin cv then int (fmin cv - len_nonpadding) else mret 0);
  let '(num_zeroes, len_padding) :=
    if negb (leftjust cv) && (pad =? 48) then (len_padding, 0) else (num_zeroes, len_padding) in
  let padding := replicate (Z.to_nat len_padding) pad in
  mret (prefix ++ (if leftjust cv then [] else padding) ++
        (if it_sign it =? 0 then [] else [it_sign it]) ++
        replicate (Z.to_nat num_zeroes) 48 ++ take (Z.to_nat len_str) str ++
        (if leftjust cv then padding else [])).

(** One conversion specification, from the character after the percent sign. *)
Definition scan_spec (fmt : list Z) (ap : list arg) : prog St (option item * list Z * list arg) :=
  let '(fmt, lj, ht, pc) := scan_flags fmt false 0 32 in
  w ← scan_width fmt lj ap;
  let '(fm, lj, fmt, ap) := w in
  let pc := if (lj : bool) then 32 else pc in
  p ← scan_prec fmt ap;
  let '(pr, fmt, ap) := p in
  let '(_, fmt) := scan_size fmt in
  ia ← convert (chr fmt) (mkConv lj ht pc fm pr) ap;
  mret (ia.1, tail fmt, ia.2).

Fixpoint doprnt_loop (fuel : nat) (fmt : list Z) (ap : list arg) (written : Z) : prog St Z :=
  match fuel with
  | O => diverge
  | S fuel' =>
      match fmt with
      | [] => mret written
      | c :: r =>
          let literal fmt ap :=
            w ← put_all [chr fmt] written;
            match w with Some w => doprnt_loop fuel' (tail fmt) ap w | None => mret EOF end in
          if (c =? 37) && negb (chr r =? 37) then
            s ← scan_spec r ap;
            let '(oi, fmt', ap) := s in
            match oi with
            | None => literal fmt ap
            | Some it =>
                ps ← render it;
                l ← field it ps.1 ps.2;
                w ← put_all l written;
                match w with Some w => doprnt_loop fuel' fmt' ap w | None => mret EOF end
            end
          else literal (if c =? 37 then r else fmt) ap
      end
  end.

Definition doprnt (fmt : list Z) (ap : list arg) : prog St Z :=
  doprnt_loop (S (length fmt)) fmt ap 0.
End Doprnt.

(** A sink that takes everything: the characters put out so far. *)
Definition tolist (c : Z) : prog (list Z) Z := modify (fun out => out ++ [c]);; mret c.
Definition text (fmt : list Z) (ap : list arg) : outcome (list Z) Z := run (doprnt tolist fmt ap) [].

(** ** Digits *)

(** The value of a list of digits, most significant first. *)
Definition value (base : Z) (l : list Z) : Z := foldl (fun a d => a * base + d) 0 l.

(** The digits of a number as [ulong_to_string] writes them: no leading zero. *)
Record digits_of (base num : Z) (l : list Z) : Prop := {
  dg_value : value base l = num;
  dg_range : Forall (fun d => 0 <= d < base) l;
  dg_lead : l = [0] \/ exists d r, l = d :: r /\ d <> 0
}.

Lemma value_snoc base l d : value base (l ++ [d]) = value base l * base + d.
Proof. unfold value. by rewrite foldl_app. Qed.

Section Digits.
Context {St : Type} (alt : bool) (base : Z).
Hypothesis Hbase : 2 <= base.

Lemma digit_loop_spec (room : nat) : forall num temp,
  0 <= num < base ^ Z.of_nat (S room) ->
  exists l, (forall s : St, run (digit_loop (S room) alt (fun n => (n mod base, n / base)) num temp) s =
      Done (map (digit alt) l ++ temp) s) /\
    digits_of base num l /\ (length l <= S room)%nat.
Proof.
  induction room as [|room IH]; intros num temp Hn; cbn [digit_loop].
  - change (base ^ Z.of_nat 1) with (base * 1) in Hn. rewrite Z.div_small, Z.mod_small by lia. cbn [Z.eqb].
    exists [num]. split; [done |]. split; [| done]. constructor; [unfold value; cbn; lia | repeat constructor; lia |].
    destruct (decide (num = 0)) as [-> | Hne]; [by left | right; by exists num, []].
  - assert (Hm : 0 <= num mod base < base) by (apply Z.mod_pos_bound; lia).
    destruct (Z.eqb_spec (num / base) 0) as [Hq | Hq].
    + apply Z.div_small_iff in Hq; [| lia]. rewrite Z.mod_small by lia. exists [num]. split; [done |].
      split; [| cbn; lia]. constructor; [unfold value; cbn; lia | repeat constructor; lia |].
      destruct (decide (num = 0)) as [-> | Hne]; [by left | right; by exists num, []].
    + assert (Hr : 0 <= num / base < base ^ Z.of_nat (S room)).
      { split; [apply Z.div_pos; lia |]. apply Z.div_lt_upper_bound; [lia |].
        replace (Z.of_nat (S (S room))) with (1 + Z.of_nat (S room)) in Hn by lia.
        rewrite Z.pow_add_r in Hn by lia. lia. }
      destruct (IH (num / base) (digit alt (num mod base) :: temp) Hr) as (l & Hrun & [Hv Hf Hd] & Hl).
      exists (l ++ [num mod base]). split; [intros s; rewrite map_app, <- app_assoc; exact (Hrun s) |]. split; [| rewrite length_app; cbn; lia].
      constructor.
      * rewrite value_snoc, Hv. pose proof (Z.div_mod num base). lia.
      * apply Forall_app. split; [done | by apply Forall_singleton].
      * right. destruct Hd as [-> | (d & r & -> & Hd)]; [unfold value in Hv; cbn in Hv; lia |].
        by exists d, (r ++ [num mod base]).
Qed.
End Digits.

Lemma digit_loop_ext {St} alt sp1 sp2 room : forall num temp (s : St),
  (forall n, sp1 n = sp2 n) ->
  run (digit_loop room alt sp1 num temp) s = run (digit_loop room alt sp2 num temp) s.
Proof.
  induction room as [|room IH]; intros num temp s H; [done |]. cbn [digit_loop]. rewrite H.
  destruct (sp2 num) as [d q]. destruct (q =? 0); [done |]. by apply IH.
Qed.

Lemma ulong_to_string_spec {St} num base alt :
  0 <= num < 2 ^ 32 -> base = 2 \/ base = 8 \/ base = 10 \/ base = 16 ->
  exists l, (forall s : St, run (ulong_to_string num base alt) s = Done (map (digit alt) l) s) /\
    digits_of base num l /\ (0 < length l <= 32)%nat.
Proof.
  intros Hn Hb.
  destruct (digit_loop_spec (St := St) alt base ltac:(lia) 31 num []) as (l & Hrun & Hd & Hl).
  { split; [lia |]. apply Z.lt_le_trans with (2 ^ 32); [lia |]. change (Z.of_nat 32) with 32.
    apply Z.pow_le_mono_l. lia. }
  rewrite app_nil_r in Hrun. exists l. split_and!; try done; try lia.
  2:{ destruct (dg_lead _ _ _ Hd) as [-> | (? & ? & -> & _)]; cbn; lia. }
  intros s. specialize (Hrun s). unfold ulong_to_string.
  assert (Hsh : forall k, base = 2 ^ k -> 0 < k ->
    run (digit_loop (Z.to_nat LONG_BITS) alt (fun n => (Z.land n (Z.shiftl 1 k - 1), Z.shiftr n k)) num []) s =
    run (digit_loop (Z.to_nat LONG_BITS) alt (fun n => (n mod base, n / base)) num []) s).
  { intros k Hk Hk0. apply digit_loop_ext. intros n.
    replace (Z.shiftl 1 k - 1) with (Z.ones k) by (rewrite Z.ones_equiv, Z.shiftl_1_l; lia).
    rewrite Z.land_ones, Z.shiftr_div_pow2 by lia. by rewrite Hk. }
  destruct Hb as [-> | [-> | [-> | ->]]]; cbn [base_to_nbits Z.eqb Pos.eqb]; [rewrite (Hsh 1) | rewrite (Hsh 3) | | rewrite (Hsh 4)]; done.
Qed.

(** ** What a format asks for

    The arguments a format needs, read off the format alone. *)

Inductive kind := KNum | KStr.

Fixpoint skip (p : Z -> bool) (fmt : list Z) : list Z :=
  match fmt with c :: r => if p c then skip p r else fmt | [] => [] end.
Definition is_flag (c : Z) : bool := (c =? 45) || (c =? 35) || (c =? 48).
Definition is_digit (c : Z) : bool := (48 <=? c) && (c <=? 57).

(** A width or a precision is [*] or a run of digits. *)
Definition number_needs (fmt : list Z) : list kind * list Z :=
  if chr fmt =? 42 then ([KNum], tail fmt) else ([], skip is_digit fmt).
Definition prec_needs (fmt : list Z) : list kind * list Z :=
  if chr fmt =? 46 then number_needs (tail fmt) else ([], fmt).

(** The argument of the conversion [c]; [None] for one that is not known. *)
Definition conv_needs (c : Z) : option kind :=
  if c =? 115 then Some KStr
  else if existsb (Z.eqb c) [99; 105; 100; 112; 117; 111; 88; 120; 98] then Some KNum else None.

(** The needs of a conversion specification, and where the format goes on; one that is
    not known is taken as text from the character after the percent sign. *)
Definition spec_needs (fmt : list Z) : list kind * list Z :=
  let '(n1, f1) := number_needs (skip is_flag fmt) in
  let '(n2, f2) := prec_needs f1 in
  let f3 := (scan_size f2).2 in
  match conv_needs (chr f3) with
  | Some k => (n1 ++ n2 ++ [k], tail f3)
  | None => (n1 ++ n2, fmt)
  end.

Fixpoint needs (fuel : nat) (fmt : list Z) : list kind :=
  match fuel, fmt with
  | S fuel', c :: r =>
      if (c =? 37) && negb (chr r =? 37) then
        let '(ks, fmt') := spec_needs r in ks ++ needs fuel' fmt'
      else needs fuel' (if c =? 37 then tail r else r)
  | _, _ => []
  end.

Definition demand (fmt : list Z) : list kind := needs (S (length fmt)) fmt.

(** The arguments that remain when arguments of these kinds are taken, if they are there. *)
Fixpoint feed (ks : list kind) (ap : list arg) : option (list arg) :=
  match ks, ap with
  | [], _ => Some ap
  | KNum :: ks', Num _ :: ap' => feed ks' ap'
  | KStr :: ks', Str _ :: ap' => feed ks' ap'
  | _, _ => None
  end.

Lemma feed_app k1 k2 ap : feed (k1 ++ k2) ap = feed k1 ap ≫= feed k2.
Proof.
  revert ap. induction k1 as [|k k1 IH]; intros ap; [done |].
  destruct k, ap as [|[w|q] ap]; cbn [app feed]; try done; apply IH.
Qed.

(** ** Routines that read the format

    [reads m P]: [m] leaves the sink alone, ends, and returns a value that
    satisfies [P].  [takes m ks ap P]: so does [m] if the arguments [ap] begin with
    arguments of the kinds [ks], with [P] for the value and the arguments that remain;
    otherwise it reads an argument that is not there. *)

Definition reads {St A} (m : prog St A) (P : A -> Prop) : Prop := forall s, exists a, run m s = Done a s /\ P a.

Definition takes {St A} (m : prog St A) (ks : list kind) (ap : list arg) (P : A -> list arg -> Prop) : Prop :=
  forall s, match feed ks ap with
            | Some ap' => exists a, run m s = Done a s /\ P a ap'
            | None => run m s = Fault
            end.

Section Reads.
Context {St : Type}.

Lemma reads_ret {A} (a : A) (P : A -> Prop) : P a -> reads (mret a : prog St A) P.
Proof. intros H s. by exists a. Qed.

Lemma reads_bind {A B} (m : prog St A) (f : A -> prog St B) P R :
  reads m P -> (forall a, P a -> reads (f a) R) -> reads (m ≫= f) R.
Proof. intros Hm Hf s. rewrite run_bind. destruct (Hm s) as (a & -> & Ha). cbn [obind]. by apply Hf. Qed.

Lemma reads_weaken {A} (m : prog St A) (P R : A -> Prop) : reads m P -> (forall a, P a -> R a) -> reads m R.
Proof. intros Hm H s. destruct (Hm s) as (a & E & Ha). exists a. auto. Qed.

Lemma reads_int x : reads (int x : prog St Z) (fun y => y = i32 x).
Proof. intros s. by exists (i32 x). Qed.

Lemma takes_ret {A} (a : A) ap (P : A -> list arg -> Prop) : P a ap -> takes (mret a : prog St A) [] ap P.
Proof. intros H s. by exists a. Qed.

Lemma takes_bind {A B} (m : prog St A) (f : A -> prog St B) k1 k2 ap P R :
  takes m k1 ap P -> (forall a ap', P a ap' -> takes (f a) k2 ap' R) -> takes (m ≫= f) (k1 ++ k2) ap R.
Proof.
  intros Hm Hf s. rewrite feed_app, run_bind. specialize (Hm s). destruct (feed k1 ap) as [ap'|]; cbn [mbind option_bind].
  - destruct Hm as (a & -> & Ha). by apply Hf.
  - by rewrite Hm.
Qed.

Lemma takes_reads {A} (m : prog St A) (P : A -> Prop) ap : reads m P -> takes m [] ap (fun a ap' => ap' = ap /\ P a).
Proof. intros Hm s. destruct (Hm s) as (a & E & Ha). by exists a. Qed.

(** Arguments whose strings hold bytes. *)
Definition arg_ok (a : arg) : Prop :=
  match a with Str (Some l) => Forall (fun c => 0 < c < 256) l | _ => True end.
Definition args_ok (ap : list arg) : Prop := Forall arg_ok ap.

Lemma takes_arg_word ap : args_ok ap -> takes (arg_word ap : prog St _) [KNum] ap (fun wa ap' => wa.2 = ap' /\ args_ok ap').
Proof.
  intros Ha s. destruct ap as [|[w|p] ap]; try done. apply Forall_cons in Ha as [_ Ha]. by exists (w, ap).
Qed.

Lemma takes_arg_str ap : args_ok ap ->
  takes (arg_str ap : prog St _) [KStr] ap
    (fun sa ap' => sa.2 = ap' /\ args_ok ap' /\ Forall (fun c => c <> EOF) (default null_text sa.1)).
Proof.
  intros Ha s. destruct ap as [|[w|p] ap]; try done. apply Forall_cons in Ha as [Hp Ha]. exists (p, ap).
  split; [done |]. split; [done |]. split; [done |]. destruct p as [l|]; cbn in *.
  - eapply Forall_impl; [exact Hp |]. unfold EOF. cbn. lia.
  - unfold null_text, EOF. repeat (apply Forall_cons; split; [lia |]). apply Forall_nil_2.
Qed.

Lemma skip_suffix p fmt : skip p fmt `suffix_of` fmt.
Proof. induction fmt as [|c r IH]; [done |]. cbn [skip]. destruct (p c); [by apply suffix_cons_r | done]. Qed.

Lemma reads_scan_number fmt : forall n, reads (scan_number fmt n : prog St _) (fun nf => nf.2 = skip is_digit fmt).
Proof.
  induction fmt as [|c r IH]; intros n; cbn [scan_number skip]; [by apply reads_ret |].
  change (is_digit c) with ((48 <=? c) && (c <=? 57)). destruct (_ && _); [| by apply reads_ret].
  eapply reads_bind; [apply reads_int | intros n1 _]. eapply reads_bind; [apply reads_int | intros n2 _]. apply IH.
Qed.

Lemma tail_suffix {A} (l : list A) : tail l `suffix_of` l.
Proof. destruct l; [done | by apply suffix_cons_r]. Qed.

Lemma takes_scan_width fmt lj ap : args_ok ap ->
  takes (scan_width fmt lj ap : prog St _) (number_needs fmt).1 ap
    (fun '(_, _, fmt', ap1) ap' => fmt' = (number_needs fmt).2 /\ ap1 = ap' /\ args_ok ap').
Proof.
  intros Ha. unfold scan_width, number_needs. destruct (chr fmt =? 42); cbn [fst snd].
  - eapply (takes_bind _ _ [KNum] []); [by apply takes_arg_word |]. intros [w ap1] ap' [<- Ha']. cbn [fst snd] in *. destruct (i32 w <? 0).
    + eapply (takes_bind _ _ [] []); [by apply takes_reads, reads_int |]. intros fm ? [-> _]. by apply takes_ret.
    + by apply takes_ret.
  - eapply (takes_bind _ _ [] []); [apply takes_reads, reads_scan_number |]. intros [n f] ? [-> Hf]. by apply takes_ret.
Qed.

Lemma takes_scan_prec fmt ap : args_ok ap ->
  takes (scan_prec fmt ap : prog St _) (prec_needs fmt).1 ap
    (fun '(_, fmt', ap1) ap' => fmt' = (prec_needs fmt).2 /\ ap1 = ap' /\ args_ok ap').
Proof.
  intros Ha. unfold scan_prec, prec_needs, number_needs. destruct (chr fmt =? 46); [| by apply takes_ret].
  destruct (chr (tail fmt) =? 42); cbn [fst snd].
  - eapply (takes_bind _ _ [KNum] []); [by apply takes_arg_word |]. intros [w ap1] ap' [<- Ha']. by apply takes_ret.
  - eapply (takes_bind _ _ [] []); [apply takes_reads, reads_scan_number |]. intros [n f] ? [-> Hf]. by apply takes_ret.
Qed.

(** The characters an item can put out are not [EOF]. *)
Definition item_ok (it : item) : Prop :=
  pad_char (it_conv it) <> EOF /\ it_sign it <> EOF /\ Forall (fun c => c <> EOF) (it_str it) /\
  (it_base it = 0 \/ 0 <= it_num it < 2 ^ 32 /\
     (it_base it = 2 \/ it_base it = 8 \/ it_base it = 10 \/ it_base it = 16)).

(** What [convert] returns for the conversion [c]. *)
Definition conv_result (c : Z) (r : option item * list arg) (ap' : list arg) : Prop :=
  r.2 = ap' /\ args_ok ap' /\ (is_Some r.1 <-> is_Some (conv_needs c)) /\
  match r.1 with Some it => item_ok it | None => True end.

Lemma takes_convert c cv ap : args_ok ap -> pad_char cv <> EOF ->
  takes (convert c cv ap : prog St _) (option_list (conv_needs c)) ap (conv_result c).
Proof.
  intros Ha Hp.
  assert (Hnum : forall base sg alt num cv', (base = 2 \/ base = 8 \/ base = 10 \/ base = 16) ->
    0 <= num < 2 ^ 32 -> sg <> EOF -> pad_char cv' <> EOF -> item_ok (mkItem base sg alt num [] cv')).
  { intros. split; [done |]. split; [done |]. split; [constructor | by right]. }
  assert (Hw : conv_needs c = Some KNum -> forall (g : Z -> item), (forall w, item_ok (g w)) ->
    takes (wa ← arg_word ap; mret (Some (g wa.1), wa.2) : prog St _) (option_list (conv_needs c)) ap (conv_result c)).
  { intros E g Hg. rewrite E. eapply (takes_bind _ _ [KNum] []); [by apply takes_arg_word |].
    intros [w ap1] ap' [<- Ha']. apply takes_ret. unfold conv_result. rewrite E. split_and!; [done | done | by split | apply Hg]. }
  unfold convert. destruct (Z.eqb_spec c 99) as [-> | H1].
  { apply (Hw eq_refl (fun w => mkItem 0 0 false 0 (if u8 w =? 0 then [] else [u8 w]) cv)). intros w.
    split; [done |]. split; [done |]. split; [| by left]. cbn. destruct (u8 w =? 0); [constructor |]. constructor; [| constructor].
    pose proof (u8_bound w). unfold EOF. lia. }
  destruct (Z.eqb_spec c 115) as [-> | H2].
  { eapply (takes_bind _ _ [KStr] []); [by apply takes_arg_str |]. intros [p ap1] ap' (<- & Ha' & Hs). apply takes_ret.
    split; [done |]. split; [done |]. split; [done |]. split; [done |]. split; [done |]. split; [done | by left]. }
  assert (Hneed : conv_needs c = if existsb (Z.eqb c) [105; 100; 112; 117; 111; 88; 120; 98] then Some KNum else None).
  { unfold conv_needs. rewrite (proj2 (Z.eqb_neq c 115) H2). cbn [existsb]. by rewrite (proj2 (Z.eqb_neq c 99) H1). }
  cbn [existsb] in Hneed.
  destruct (Z.eqb_spec c 105) as [E1 | E1], (Z.eqb_spec c 100) as [E2 | E2]; cbn [orb] in *; try lia;
    [destruct E1 | destruct E2 |]; try
   (rewrite Hneed; eapply (takes_bind _ _ [KNum] []); [by apply takes_arg_word |]; intros [w ap1] ap' [<- Ha']; cbn [fst snd] in *;
    destruct (i32 w <? 0); apply takes_ret; (split; [done |]); (split; [done |]); (split; [by rewrite Hneed; split |]);
    apply Hnum; auto using u32_bound).
  destruct (Z.eqb_spec c 112); cbn [orb] in Hneed.
  { apply (Hw Hneed (fun w => mkItem 16 0 false (u32 w) [] (mkConv (leftjust cv) 3 48 4 (prec cv)))). intros w.
    apply Hnum; auto using u32_bound. }
  destruct (c =? 117); [| destruct (c =? 111); [| destruct (c =? 88); [| destruct (c =? 120); [| destruct (c =? 98)]]]]; cbn [orb] in Hneed.
  - apply (Hw Hneed (fun w => mkItem 10 0 false (u32 w) [] _)). intros w. apply Hnum; auto using u32_bound.
  - apply (Hw Hneed (fun w => mkItem 8 0 false (u32 w) [] _)). intros w. apply Hnum; auto using u32_bound.
  - apply (Hw Hneed (fun w => mkItem 16 0 true (u32 w) [] _)). intros w. apply Hnum; auto using u32_bound.
  - apply (Hw Hneed (fun w => mkItem 16 0 false (u32 w) [] _)). intros w. apply Hnum; auto using u32_bound.
  - apply (Hw Hneed (fun w => mkItem 2 0 false (u32 w) [] _)). intros w. apply Hnum; auto using u32_bound.
  - rewrite Hneed. apply takes_ret. split; [done |]. split; [done |]. split; [| done]. rewrite Hneed. split; by intros [? ?].
Qed.
End Reads.

Lemma scan_flags_spec fmt : forall lj ht pc,
  let '(fmt', _, _, pc') := scan_flags fmt lj ht pc in
  fmt' = skip is_flag fmt /\ (pc' = pc \/ pc' = 48).
Proof.
  induction fmt as [|c r IH]; intros lj ht pc; cbn [scan_flags skip]; [split; [done | by left] |].
  change (is_flag c) with ((c =? 45) || (c =? 35) || (c =? 48)).
  destruct (c =? 45); [| destruct (c =? 35); [| destruct (c =? 48); [| split; [done | by left]]]]; cbn [orb].
  - apply IH.
  - apply IH.
  - specialize (IH lj ht 48). destruct (scan_flags r lj ht 48) as [[[f l] h] p]. destruct IH as [? [-> | ->]]; auto.
Qed.

Lemma scan_size_suffix fmt : (scan_size fmt).2 `suffix_of` fmt.
Proof.
  unfold scan_size. pose proof (tail_suffix fmt) as H1. pose proof (tail_suffix (tail fmt)) as H2.
  destruct (chr fmt =? 108); [done |]. destruct (chr fmt =? 104); [| done]. destruct (_ =? 104); cbn; [by etrans | done].
Qed.

Lemma number_needs_suffix fmt : (number_needs fmt).2 `suffix_of` fmt.
Proof. unfold number_needs. destruct (chr fmt =? 42); [apply tail_suffix | apply skip_suffix]. Qed.

Lemma spec_needs_suffix fmt : (spec_needs fmt).2 `suffix_of` fmt.
Proof.
  unfold spec_needs. pose proof (skip_suffix is_flag fmt) as H0. pose proof (number_needs_suffix (skip is_flag fmt)) as H1.
  destruct (number_needs (skip is_flag fmt)) as [n1 f1]. cbn in H1.
  assert (H2 : (prec_needs f1).2 `suffix_of` f1).
  { unfold prec_needs. destruct (chr f1 =? 46); [| done]. etrans; [apply number_needs_suffix | apply tail_suffix]. }
  destruct (prec_needs f1) as [n2 f2]. cbn in H2. pose proof (scan_size_suffix f2) as H3.
  destruct (conv_needs _); [| done]. cbn [snd]. pose proof (tail_suffix (scan_size f2).2). by repeat (etrans; [eassumption |]).
Qed.

(** Concrete characters are not [EOF]. *)
Ltac oks := unfold EOF; repeat first [apply Forall_cons; split; [lia |] | apply Forall_nil_2].

Section Items.
Context {St : Type}.

Lemma takes_scan_spec fmt ap : args_ok ap ->
  takes (scan_spec fmt ap : prog St _) (spec_needs fmt).1 ap
    (fun '(oi, fmt', ap1) ap' => ap1 = ap' /\ args_ok ap' /\
       match oi with Some it => item_ok it /\ fmt' = (spec_needs fmt).2 | None => (spec_needs fmt).2 = fmt end).
Proof.
  intros Ha. unfold scan_spec, spec_needs. pose proof (scan_flags_spec fmt false 0 32) as Hf.
  destruct (scan_flags fmt false 0 32) as [[[fmt0 lj] ht] pc]. destruct Hf as [-> Hpc].
  pose proof (takes_scan_width (St := St) (skip is_flag fmt) lj ap Ha) as Hw. destruct (number_needs (skip is_flag fmt)) as [n1 f1]. cbn [fst snd] in Hw.
  pose proof (fun ap' Ha' => takes_scan_prec (St := St) f1 ap' Ha') as Hpr. destruct (prec_needs f1) as [n2 f2]. cbn [fst snd] in Hpr.
  pose proof (fun cv ap' Ha' Hpc => takes_convert (St := St) (chr (scan_size f2).2) cv ap' Ha' Hpc) as Hc.
  set (k := conv_needs (chr (scan_size f2).2)) in *.
  assert (E : (match k with Some k => (n1 ++ n2 ++ [k], tail (scan_size f2).2) | None => (n1 ++ n2, fmt) end).1
    = n1 ++ n2 ++ option_list k ++ []) by (destruct k; cbn; by rewrite ?app_nil_r).
  rewrite E. clear E. eapply takes_bind; [exact Hw |]. intros [[[fm lj'] f1'] ap1] ap' (-> & -> & Ha1).
  eapply takes_bind; [by apply Hpr |]. intros [[pr f2'] ap2] ap2' (-> & -> & Ha2).
  rewrite (surjective_pairing (scan_size f2)). cbv beta iota.
  eapply takes_bind; [apply Hc; [done |]; cbn |].
  - destruct lj'; [done |]. unfold EOF. lia.
  - intros [oi ap3] ap3' (Eap & Ha3 & Hk & Hi). apply takes_ret. cbn [fst snd] in *. fold k in Hk. split; [done |]. split; [done |].
    destruct oi as [it|], k as [k0|]; cbn in *; try done.
    + by destruct (proj1 Hk ltac:(done)).
    + by destruct (proj2 Hk ltac:(done)).
Qed.

Lemma digit_ok alt d : 0 <= d < 16 -> 48 <= digit alt d < 128.
Proof. intros H. unfold digit. destruct (Z.ltb_spec d 10), alt; lia. Qed.

(** Characters that can be put out. *)
Definition chars_ok (l : list Z) : Prop := Forall (fun c => c <> EOF) l.

Lemma reads_render it : item_ok it -> reads (render it : prog St _) (fun ps => chars_ok ps.1 /\ chars_ok ps.2).
Proof.
  intros (_ & _ & Hs & Hb). unfold render. destruct (Z.eqb_spec (it_base it) 0) as [E | E]; cbn [negb].
  - apply reads_ret. split; [constructor | done].
  - destruct Hb as [Hb | [Hn Hb]]; [done |].
    set (P := fun l : list Z => chars_ok l).
    apply (reads_bind _ _ P).
    + intros s. destruct (ulong_to_string_spec (St := St) (it_num it) (it_base it) (it_alt it) Hn Hb) as (l & Hrun & Hd & _).
      eexists. split; [apply Hrun |]. unfold P, chars_ok. apply Forall_map. eapply Forall_impl; [apply (dg_range _ _ _ Hd) |].
      cbn. intros d Hr. pose proof (digit_ok (it_alt it) d ltac:(lia)). unfold EOF. lia.
    + intros l Hl. apply reads_ret. split; [| done]. unfold chars_ok. cbn [fst].
      repeat case_match; unfold P, chars_ok; oks.
Qed.

Lemma chars_ok_replicate n c : c <> EOF -> chars_ok (replicate n c).
Proof. intros H. by apply Forall_replicate. Qed.

Lemma reads_field it prefix str : item_ok it -> chars_ok prefix -> chars_ok str ->
  reads (field it prefix str : prog St _) chars_ok.
Proof.
  intros (Hpad & Hsg & _ & _) Hp Hs. unfold field.
  destruct (if prec (it_conv it) >=? 0 then _ else _) as [[ls nz] pad] eqn:E.
  assert (Hpd : pad <> EOF).
  { destruct (prec (it_conv it) >=? 0); [destruct (it_base it =? 0) |]; injection E as <- <- <-; unfold EOF in *; lia. }
  eapply reads_bind; [apply reads_int | intros np _]. eapply reads_bind; [apply reads_int | intros nn _].
  apply (reads_bind _ _ (fun _ => True)).
  { destruct (nn <? fmin (it_conv it)); [eapply reads_weaken; [apply reads_int | done] | by apply reads_ret]. }
  intros lpd _. destruct (if negb _ && _ then _ else _) as [nz' lp] eqn:E'.
  apply reads_ret. unfold chars_ok. repeat (apply Forall_app; split); try done.
  - destruct (leftjust _); [constructor | by apply chars_ok_replicate].
  - destruct (it_sign it =? 0); [constructor | by apply Forall_singleton].
  - by apply chars_ok_replicate.
  - by apply Forall_take.
  - destruct (leftjust _); [by apply chars_ok_replicate | constructor].
Qed.
End Items.

(** ** The sink that takes everything *)

(** [writes m ks ap w]: if the arguments fit, [m] ends, and what it adds to the text is
    counted by the [int] it returns, starting from [w]; otherwise an argument is missing. *)
Definition writes (m : prog (list Z) Z) (ks : list kind) (ap : list arg) (w : Z) : Prop :=
  forall out, match feed ks ap with
              | Some _ => exists l, run m out = Done (i32 (w + Z.of_nat (length l))) (out ++ l)
              | None => run m out = Fault
              end.

Lemma run_tolist c out : run (tolist c) out = Done c (out ++ [c]).
Proof. done. Qed.

Lemma run_put_all l : forall w out, chars_ok l ->
  run (put_all tolist l (i32 w)) out = Done (Some (i32 (w + Z.of_nat (length l)))) (out ++ l).
Proof.
  induction l as [|c r IH]; intros w out Hl; cbn [put_all].
  - rewrite run_ret, app_nil_r. by replace (w + Z.of_nat (length [])) with w by (cbn; lia).
  - apply Forall_cons in Hl as [Hc Hr]. rewrite !run_bind, !run_tolist. cbn [obind].
    rewrite (proj2 (Z.eqb_neq c EOF) Hc), !run_bind, run_int_wrap. cbn [obind].
    rewrite i32_add_l, IH by done. rewrite <- app_assoc. cbn [app].
    by replace (w + 1 + Z.of_nat (length r)) with (w + Z.of_nat (length (c :: r))) by (cbn [length]; lia).
Qed.

Lemma writes_put l ks ap w (f : option Z -> prog (list Z) Z) :
  chars_ok l -> writes (f (Some (i32 (w + Z.of_nat (length l))))) ks ap (w + Z.of_nat (length l)) ->
  writes (put_all tolist l (i32 w) ≫= f) ks ap w.
Proof.
  intros Hl Hf out. rewrite run_bind, run_put_all by done. cbn [obind].
  specialize (Hf (out ++ l)). destruct (feed ks ap); [| done].
  destruct Hf as (l' & ->). exists (l ++ l'). rewrite <- app_assoc, length_app. do 2 f_equal. lia.
Qed.

Lemma writes_takes {A} (m : prog (list Z) A) (f : A -> prog (list Z) Z) k1 k2 ap P w :
  takes m k1 ap P -> (forall a ap', P a ap' -> writes (f a) k2 ap' w) -> writes (m ≫= f) (k1 ++ k2) ap w.
Proof.
  intros Hm Hf out. rewrite feed_app, run_bind. specialize (Hm out). destruct (feed k1 ap) as [ap'|]; cbn [mbind option_bind].
  - destruct Hm as (a & -> & Ha). by apply Hf.
  - by rewrite Hm.
Qed.

Lemma writes_reads {A} (m : prog (list Z) A) (f : A -> prog (list Z) Z) ks ap P w :
  reads m P -> (forall a, P a -> writes (f a) ks ap w) -> writes (m ≫= f) ks ap w.
Proof. intros Hm Hf out. rewrite run_bind. destruct (Hm out) as (a & -> & Ha). cbn [obind]. by apply Hf. Qed.

Lemma chars_ok_suffix l l' : l' `suffix_of` l -> chars_ok l -> chars_ok l'.
Proof. intros [k ->]. by intros [_ ?]%Forall_app. Qed.

Lemma writes_loop fuel : forall fmt ap w,
  (length fmt < fuel)%nat -> chars_ok fmt -> args_ok ap ->
  writes (doprnt_loop tolist fuel fmt ap (i32 w)) (needs fuel fmt) ap w.
Proof.
  induction fuel as [|fuel IH]; intros fmt ap w Hf Hc Ha; [lia |]. cbn [doprnt_loop needs].
  destruct fmt as [|c r]; [intros out; exists []; rewrite app_nil_r, Z.add_0_r; done |].
  cbn in Hf. assert (Hr : chars_ok r) by by apply Forall_cons in Hc as [_ ?].
  assert (Hlit : forall fmt' ap', fmt' `suffix_of` c :: r -> args_ok ap' ->
    writes (w' ← put_all tolist [chr fmt'] (i32 w);
            match w' with Some w' => doprnt_loop tolist fuel (tail fmt') ap' w' | None => mret EOF end)
      (needs fuel (tail fmt')) ap' w).
  { intros fmt' ap' Hs Ha'. pose proof (chars_ok_suffix _ _ Hs Hc) as Hc'. apply writes_put.
    - apply Forall_singleton. destruct fmt' as [|x r']; [done |]. by apply Forall_cons in Hc' as [? _].
    - apply IH; [| | done].
      + pose proof (suffix_length _ _ Hs) as Hlen. cbn in Hlen. destruct fmt'; cbn in *; lia.
      + eapply chars_ok_suffix; [apply tail_suffix | done]. }
  destruct (c =? 37); cbn [andb]; [destruct (negb (chr r =? 37)) |].
  - pose proof (takes_scan_spec (St := list Z) r ap Ha) as Hsp. pose proof (spec_needs_suffix r) as Hsuf.
    destruct (spec_needs r) as [ks fmt']. cbn [fst snd] in Hsp, Hsuf.
    eapply writes_takes; [exact Hsp |]. intros [[oi f] ap1] ap' (-> & Ha' & Hi).
    destruct oi as [it|]; [| rewrite Hi; by apply (Hlit (c :: r))]. destruct Hi as [Hi ->].
    eapply writes_reads; [by apply reads_render |]. intros [px st] [Hpx Hst].
    eapply writes_reads; [by apply reads_field |]. intros l Hl. apply writes_put; [done |].
    pose proof (suffix_length _ _ Hsuf). apply IH; [lia | | done]. by eapply chars_ok_suffix.
  - apply (Hlit r); [by apply suffix_cons_r | done].
  - by apply (Hlit (c :: r)).
Qed.

(** C36: [_doprnt] ends for every format.  If there are arguments of the kinds the format
    asks for (a number for each star and each conversion but [%s], a string for [%s]), it
    returns the number of characters that it put out, as an [int], which wraps around
    beyond INT_MAX; otherwise, and only then, it reads an argument that is not there. *)
Theorem doprnt_counts fmt ap out :
  Forall (fun c => 0 < c < 256) fmt -> args_ok ap ->
  match feed (demand fmt) ap with
  | Some _ => exists l, run (doprnt tolist fmt ap) out = Done (i32 (Z.of_nat (length l))) (out ++ l)
  | None => run (doprnt tolist fmt ap) out = Fault
  end.
Proof.
  intros Hf Ha. apply (writes_loop (S (length fmt)) fmt ap 0); [lia | | done].
  eapply Forall_impl; [exact Hf |]. unfold EOF. cbn. lia.
Qed.

(** *** A sink that fails *)

(** A sink with room for [k] characters. *)
Definition tobounded (k : nat) (c : Z) : prog (list Z) Z :=
  out ← gets (fun out => out);
  if (length out <? k)%nat then tolist c else mret EOF.

(** What a sink with less room makes of a run that ends. *)
Definition cut (k : nat) (o : outcome (list Z) Z) : outcome (list Z) Z :=
  match o with
  | Done n out => if (length out <=? k)%nat then Done n out else Done EOF (take k out)
  | o => o
  end.

Lemma run_tobounded k c out :
  run (tobounded k c) out = if (length out <? k)%nat then Done c (out ++ [c]) else Done EOF out.
Proof. unfold tobounded. rewrite run_bind, run_gets. cbn [obind]. by destruct (_ <? _)%nat. Qed.

Lemma put_all_inv l : forall w out n out',
  run (put_all tolist l w) out = Done n out' -> exists n', n = Some n' /\ out' = out ++ l \/ n = None.
Proof.
  induction l as [|c r IH]; intros w out n out'; cbn [put_all].
  - intros [= <- <-]. exists w. left. by rewrite app_nil_r.
  - rewrite run_bind, run_tolist. cbn [obind]. destruct (c =? EOF); [intros [= <- _]; exists 0; by right |].
    rewrite run_bind, run_int_wrap. cbn [obind]. intros (n' & [[-> ->] | ->])%IH; exists n'; [left | by right].
    by rewrite <- app_assoc.
Qed.

Lemma put_all_bounded k l : forall w out n out',
  (length out <= k)%nat -> run (put_all tolist l w) out = Done (Some n) out' ->
  run (put_all (tobounded k) l w) out =
    if (length out' <=? k)%nat then Done (Some n) out' else Done None (take k out').
Proof.
  induction l as [|c r IH]; intros w out n out' Hk; cbn [put_all].
  - intros [= <- <-]. by rewrite (proj2 (Nat.leb_le _ _) Hk).
  - rewrite !run_bind, run_tolist, run_tobounded. cbn [obind].
    destruct (Z.eqb_spec c EOF) as [-> | Hc]; [done |]. rewrite run_bind, run_int_wrap. cbn [obind]. intros Hrun.
    destruct (Nat.ltb_spec (length out) k) as [Hlt | Hge]; cbn [obind].
    + rewrite (proj2 (Z.eqb_neq c EOF) Hc), run_bind, run_int_wrap. cbn [obind].
      apply (IH (i32 (w + 1))); [rewrite length_app; cbn; lia | done].
    + rewrite Z.eqb_refl, run_ret. apply put_all_inv in Hrun as (n' & [[_ ->] | [=]]).
      rewrite (proj2 (Nat.leb_gt _ _)) by (rewrite !length_app; cbn; lia).
      f_equal. rewrite <- app_assoc, take_app_le by lia. symmetry. apply firstn_all2. lia.
Qed.

(** [m'] does what [m] does as long as there is room. *)
Definition follows (k : nat) (m m' : prog (list Z) Z) : Prop :=
  forall out n out', run m out = Done n out' -> n <> EOF ->
    (exists l, out' = out ++ l) /\ ((length out <= k)%nat -> run m' out = cut k (Done n out')).

Lemma follows_put k l w (f g : option Z -> prog (list Z) Z) :
  f None = mret EOF -> g None = mret EOF -> (forall w1, follows k (f (Some w1)) (g (Some w1))) ->
  follows k (put_all tolist l w ≫= f) (put_all (tobounded k) l w ≫= g).
Proof.
  intros Hf Hg Hfg out n out'. rewrite !run_bind.
  destruct (run (put_all tolist l w) out) as [o out1| | | |] eqn:E; cbn [obind]; try done.
  pose proof (put_all_inv _ _ _ _ _ E) as (n1 & [[-> ->] | ->]); [| rewrite Hf; by intros [= <- _]].
  intros Hrun Hn. destruct (Hfg n1 _ _ _ Hrun Hn) as [[l' ->] Hgo]. split.
  - exists (l ++ l'). by rewrite app_assoc.
  - intros Hk. rewrite (put_all_bounded k l w out n1 (out ++ l) Hk E).
    destruct (Nat.leb_spec (length (out ++ l)) k) as [Hle | Hgt]; cbn [obind]; [by apply Hgo |].
    rewrite Hg, run_ret. cbn [cut]. rewrite (proj2 (Nat.leb_gt _ _)) by (rewrite (length_app (out ++ l)); lia).
    by rewrite (take_app_le (out ++ l)) by lia.
Qed.

Lemma follows_reads {A} k (m : prog (list Z) A) P (f g : A -> prog (list Z) Z) :
  reads m P -> (forall a, P a -> follows k (f a) (g a)) -> follows k (m ≫= f) (m ≫= g).
Proof.
  intros Hm Hfg out n out'. rewrite !run_bind. destruct (Hm out) as (a & -> & Ha). cbn [obind]. by apply Hfg.
Qed.

Lemma follows_takes {A} k (m : prog (list Z) A) ks ap P (f g : A -> prog (list Z) Z) :
  takes m ks ap P -> (forall a ap', P a ap' -> follows k (f a) (g a)) -> follows k (m ≫= f) (m ≫= g).
Proof.
  intros Hm Hfg out n out'. rewrite !run_bind. specialize (Hm out). destruct (feed ks ap) as [ap'|].
  - destruct Hm as (a & -> & Ha). cbn [obind]. by eapply Hfg.
  - by rewrite Hm.
Qed.

Lemma follows_ret k n : follows k (mret n) (mret n).
Proof.
  intros out n' out' [= <- <-] _. split; [exists []; by rewrite app_nil_r |]. intros Hk. cbn [cut].
  by rewrite (proj2 (Nat.leb_le _ _) Hk).
Qed.

Lemma follows_loop k fuel : forall fmt ap w,
  args_ok ap -> follows k (doprnt_loop tolist fuel fmt ap w) (doprnt_loop (tobounded k) fuel fmt ap w).
Proof.
  induction fuel as [|fuel IH]; intros fmt ap w Ha; [by intros out n out' |]. cbn [doprnt_loop].
  destruct fmt as [|c r]; [apply follows_ret |]. destruct ((c =? 37) && negb (chr r =? 37)).
  - eapply follows_takes; [by apply takes_scan_spec |]. intros [[oi f] ap1] ap' (-> & Ha' & Hi).
    destruct oi as [it|]; [destruct Hi as [Hi ->] | by apply follows_put; auto].
    eapply follows_reads; [by apply reads_render |]. intros [px st] [Hpx Hst].
    eapply follows_reads; [by apply reads_field |]. intros l _. apply follows_put; auto.
  - apply follows_put; auto.
Qed.

(** C37: when the sink fails, [_doprnt] returns [EOF] and puts nothing more out: with
    room for [k] characters, the sink has received the first [k] characters of
    the whole text, and if all of it fits the result is the same. *)
Theorem doprnt_stops fmt ap k n out :
  args_ok ap -> text fmt ap = Done n out -> n <> EOF ->
  run (doprnt (tobounded k) fmt ap) [] =
    if (length out <=? k)%nat then Done n out else Done EOF (take k out).
Proof. intros Ha Hrun Hn. apply (follows_loop k _ fmt ap 0 Ha [] n out Hrun Hn). cbn. lia. Qed.

(** *** Decimal numbers *)

(** A number as [%d] shows it. *)
Definition shows (z : Z) (l : list Z) : Prop :=
  exists ds, digits_of 10 (Z.abs z) ds /\ l = (if z <? 0 then [45] else []) ++ map (digit false) ds.

(** The text of the conversion [c] with the width [fm] given as an argument. *)
Lemma field_plain {St} it str (s : St) :
  prec (it_conv it) = -1 -> leftjust (it_conv it) = false -> pad_char (it_conv it) = 32 ->
  it_sign it = 0 \/ it_sign it = 45 ->
  Z.of_nat (length str) < INT_MAX -> 0 <= fmin (it_conv it) <= INT_MAX ->
  forall prefix,
  let body := (if it_sign it =? 0 then [] else [it_sign it]) ++ str in
  run (field it prefix str) s =
    Done (prefix ++ replicate (Z.to_nat (fmin (it_conv it)) - length body) 32 ++ body) s.
Proof.
  intros Hp Hl Hpc Hs Hlen Hf prefix body. unfold field. rewrite Hp, Hl, Hpc. cbn [Z.geb Z.compare negb andb].
  set (sg := if it_sign it =? 0 then 0 else 1). assert (Hsg : 0 <= sg <= 1) by (unfold sg; destruct (it_sign it =? 0); lia).
  assert (Hb : Z.of_nat (length body) = Z.of_nat (length str) + sg).
  { unfold body, sg. rewrite length_app. destruct (it_sign it =? 0); cbn; lia. }
  rewrite i32_small by klia. rewrite run_bind, run_int by klia. cbn [obind]. rewrite run_bind, run_int by klia.
  cbn [obind]. rewrite run_bind. set (w := fmin (it_conv it)) in *.
  replace (run (if _ <? w then _ else _) s) with (Done (Z.max 0 (w - Z.of_nat (length body))) s).
  2:{ rewrite Hb. destruct (Z.ltb_spec (Z.of_nat (length str) + 0 + sg) w); [rewrite run_int by klia | rewrite run_ret]; f_equal; lia. }
  cbn [obind]. change (32 =? 48) with false. cbn [andb negb]. rewrite run_ret.
  rewrite Nat2Z.id, firstn_all. cbn [Z.to_nat replicate app]. rewrite app_nil_r. do 4 f_equal. lia.
Qed.

(** The count of characters that fits an [int]. *)
Lemma run_put_fits l : forall w out, chars_ok l -> 0 <= w -> w + Z.of_nat (length l) <= INT_MAX ->
  run (put_all tolist l w) out = Done (Some (w + Z.of_nat (length l))) (out ++ l).
Proof.
  intros w out Hl Hw Hb. pose proof (run_put_all l w out Hl) as H. by rewrite !i32_small in H by klia.
Qed.

(** A conversion that is the whole format: what the loop does with it. *)
Lemma text_spec r ap it fmt' px st l :
  chr r <> 37 -> (forall out, run (scan_spec r ap : prog (list Z) _) out = Done (Some it, fmt', []) out) -> fmt' = [] ->
  (forall out, run (render it : prog (list Z) _) out = Done (px, st) out) ->
  (forall out, run (field it px st : prog (list Z) _) out = Done l out) ->
  chars_ok l -> Z.of_nat (length l) <= INT_MAX ->
  text (37 :: r) ap = Done (Z.of_nat (length l)) l.
Proof.
  intros Hr Hs -> Hre Hfi Hl Hmax. unfold text, doprnt. cbn [doprnt_loop length].
  rewrite Z.eqb_refl, (proj2 (Z.eqb_neq _ _) Hr). cbn [andb negb].
  rewrite run_bind, Hs. cbn [obind]. rewrite run_bind, Hre. cbn [obind fst snd]. rewrite run_bind, Hfi. cbn [obind].
  by rewrite run_bind, run_put_fits.
Qed.

(** [%*d] prints the decimal digits of a signed number, with a minus sign for
    the negative ones (the least one included) and no leading zeroes, padded on
    the left with spaces to the width given. *)
Theorem print_decimal fm w :
  0 <= fm < INT_MAX ->
  exists l, shows (i32 w) l /\
    let out := replicate (Z.to_nat fm - length l) 32 ++ l in
    text [37; 42; 100] [Num fm; Num w] = Done (Z.of_nat (length out)) out.
Proof.
  intros Hfm. pose proof (i32_bound w) as Hw. set (z := i32 w) in *.
  set (cv := mkConv false 0 32 fm (-1)).
  set (it := mkItem 10 (if z <? 0 then 45 else 0) false (Z.abs z) [] cv).
  assert (Hspec : forall out : list Z, run (scan_spec [42; 100] [Num fm; Num w]) out = Done (Some it, [], []) out).
  { intros out. unfold scan_spec. cbn [scan_flags Z.eqb Pos.eqb]. unfold scan_width. cbn [chr Z.eqb Pos.eqb arg_word].
    rewrite !run_bind, run_ret. cbn [obind fst snd]. rewrite i32_small by klia.
    rewrite (proj2 (Z.ltb_ge fm 0)) by lia. rewrite run_ret. cbn [obind].
    unfold scan_prec. cbn [tail chr Z.eqb Pos.eqb]. rewrite run_bind, run_ret. cbn [obind].
    cbn [scan_size chr tail Z.eqb Pos.eqb]. rewrite run_bind.
    unfold convert. cbn [Z.eqb Pos.eqb orb arg_word]. rewrite run_bind, run_ret. cbn [obind fst snd]. fold z. fold cv.
    unfold it. destruct (Z.ltb_spec z 0) as [Hneg | Hpos]; rewrite run_ret; cbn [obind].
    - replace (u32 (- u32 z)) with (Z.abs z); [done |]. unfold u32. lia.
    - rewrite u32_small by lia. by replace (Z.abs z) with z by lia. }
  destruct (ulong_to_string_spec (St := list Z) (Z.abs z) 10 false) as (ds & Hrun & Hds & Hlen); [lia | auto |].
  assert (Hre : forall out : list Z, run (render it) out = Done ([], map (digit false) ds) out).
  { intros out. unfold render, it. cbn [it_base it_num it_alt it_conv hashtype Z.eqb Pos.eqb negb andb cv].
    by rewrite run_bind, Hrun. }
  exists ((if z <? 0 then [45] else []) ++ map (digit false) ds). split; [by exists ds |].
  assert (Hbody : (if it_sign it =? 0 then [] else [it_sign it]) = (if z <? 0 then [45] else []))
    by (unfold it; cbn [it_sign]; by destruct (z <? 0)).
  assert (Hml : length (map (digit false) ds) = length ds) by apply length_map.
  eapply text_spec; [| exact Hspec | done | exact Hre | | |].
  - done.
  - intros out. pose proof (field_plain it (map (digit false) ds) out eq_refl eq_refl eq_refl) as Hf.
    rewrite Hbody in Hf. apply (Hf) with (prefix := []); [| rewrite Hml; klia | cbn; lia].
    unfold it. cbn. destruct (z <? 0); auto.
  - apply Forall_app. split; [apply chars_ok_replicate; done |]. apply Forall_app. split.
    + destruct (z <? 0); [oks | constructor].
    + apply Forall_map. eapply Forall_impl; [apply (dg_range _ _ _ Hds) |]. cbn. intros d Hd.
      pose proof (digit_ok false d ltac:(lia)). unfold EOF. lia.
  - rewrite length_app, length_replicate, length_app, Hml. destruct (z <? 0); cbn; klia.
Qed.

(** With the [#] flag the prefix of a hexadecimal number does not count towards
    the field width and comes before the padding, not next to the digits. *)
Theorem print_hash_width fm w :
  0 <= fm < INT_MAX - 2 ->
  exists ds, digits_of 16 (u32 w) ds /\
    let l := map (digit false) ds in
    let out := [48; 120] ++ replicate (Z.to_nat fm - length l) 32 ++ l in
    text [37; 35; 42; 120] [Num fm; Num w] = Done (Z.of_nat (length out)) out.
Proof.
  intros Hfm. pose proof (u32_bound w) as Hw.
  set (it := mkItem 16 0 false (u32 w) [] (mkConv false 3 32 fm (-1))).
  assert (Hspec : forall out : list Z, run (scan_spec [35; 42; 120] [Num fm; Num w]) out = Done (Some it, [], []) out).
  { intros out. unfold scan_spec. cbn [scan_flags Z.eqb Pos.eqb]. unfold scan_width. cbn [chr Z.eqb Pos.eqb arg_word].
    rewrite !run_bind, run_ret. cbn [obind fst snd]. rewrite i32_small by klia.
    rewrite (proj2 (Z.ltb_ge fm 0)) by lia. rewrite run_ret. cbn [obind].
    unfold scan_prec. cbn [tail chr Z.eqb Pos.eqb]. rewrite run_bind, run_ret. cbn [obind].
    cbn [scan_size chr tail Z.eqb Pos.eqb]. rewrite run_bind.
    unfold convert. cbn [Z.eqb Pos.eqb orb arg_word]. by rewrite run_bind, run_ret. }
  destruct (ulong_to_string_spec (St := list Z) (u32 w) 16 false) as (ds & Hrun & Hds & Hlen); [lia | auto |].
  assert (Hre : forall out : list Z, run (render it) out = Done ([48; 120], map (digit false) ds) out).
  { intros out. unfold render, it. cbn [it_base it_num it_alt it_conv hashtype Z.eqb Pos.eqb negb andb].
    by rewrite run_bind, Hrun. }
  assert (Hml : length (map (digit false) ds) = length ds) by apply length_map.
  exists ds. split; [done |]. eapply text_spec; [| exact Hspec | done | exact Hre | | |].
  - done.
  - intros out. apply (field_plain it (map (digit false) ds) out eq_refl eq_refl eq_refl (or_introl eq_refl));
      [rewrite Hml; klia | cbn; lia].
  - apply Forall_app. split; [oks |]. apply Forall_app. split; [apply chars_ok_replicate; done |].
    apply Forall_map. eapply Forall_impl; [apply (dg_range _ _ _ Hds) |]. cbn. intros d Hd.
    pose proof (digit_ok false d ltac:(lia)). unfold EOF. lia.
  - rewrite length_app, length_app, length_replicate, Hml. cbn. klia.
Qed.
