(* ===== verification/Scan.v ===== *)
(** Formatted input: lib/libxc/doscan.c with the character classes of
    lib/libxc/ctype_.c and include/ctype.h, the source of lib/libxc/sscanf.c, and
    lib/libxc/atol.c and atoi.c on top. *)
From Stdlib Require Import ZArith Lia.
From stdpp Require Import gmap list.
From S2P Require Import Prelude Kernel Bytes Format.

(** ** Character classes *)

Definition CT_U : Z := 1.
Definition CT_L : Z := 2.
Definition CT_N : Z := 4.
Definition CT_S : Z := 8.
Definition CT_P : Z := 16.
Definition CT_C : Z := 32.
Definition CT_X : Z := 64.

(** The table [_ctype_]; the entries from 128 on are not initialised and so 0. *)
Definition ctype_tab : list Z :=
  replicate 9 CT_C ++ replicate 5 (Z.lor CT_C CT_S) ++ replicate 18 CT_C ++
  [CT_S] ++ replicate 15 CT_P ++ replicate 10 CT_N ++ replicate 7 CT_P ++
  replicate 6 (Z.lor CT_U CT_X) ++ replicate 20 CT_U ++ replicate 6 CT_P ++
  replicate 6 (Z.lor CT_L CT_X) ++ replicate 20 CT_L ++ replicate 4 CT_P ++ [CT_C] ++
  replicate 128 0.

Definition ctype (c : Z) : Z := nth (Z.to_nat (u8 c)) ctype_tab 0.
Definition is_class (mask c : Z) : bool := negb (Z.land (ctype c) mask =? 0).
Definition isdigit : Z -> bool := is_class CT_N.
Definition isspace : Z -> bool := is_class CT_S.
Definition isupper : Z -> bool := is_class CT_U.
Definition tolower (c : Z) : Z := if isupper (u8 c) then u8 c + 32 else u8 c.

(** ** Scanning *)

Definition UNLIMITED_LENGTH : Z := UINT_MAX.

(** The value of a digit in a base, for a character in lower case; the cases of
    the switch fall through from 16 to 10 to 8. *)
Definition digit_val (base c : Z) : option Z :=
  if (base =? 16) && (97 <=? c) && (c <=? 102) then Some (10 + (c - 97))
  else if ((base =? 16) || (base =? 10)) && (56 <=? c) && (c <=? 57) then Some (c - 48)
  else if (48 <=? c) && (c <=? 55) then Some (c - 48)
  else None.

(** [build_stopchar_tab]: the table and the format after the bracket. *)
Fixpoint stopchars (ufmt : list Z) (first : bool) (fill : bool) (tab : Z -> bool) : (Z -> bool) * list Z :=
  match ufmt with
  | c :: r =>
      if (c =? 93) && negb first then (tab, r)
      else stopchars r false fill (fun x => if x =? c then fill else tab x)
  | [] => (tab, [])
  end.

Definition build_stopchar_tab (ufmt : list Z) : (Z -> bool) * list Z :=
  if chr ufmt =? 94 then stopchars (tail ufmt) true true (fun _ => false)
  else stopchars ufmt true false (fun _ => true).

(** The maximum length of a field, as an unsigned int. *)
Fixpoint scan_maxlen (ufmt : list Z) (maxlen : Z) : Z * list Z :=
  match ufmt with
  | c :: r => if isdigit c then scan_maxlen r (u32 (u32 (maxlen * 10) + (c - 48))) else (maxlen, ufmt)
  | [] => (maxlen, ufmt)
  end.

Fixpoint skip_spaces (ufmt : list Z) : list Z :=
  match ufmt with c :: r => if isspace c then skip_spaces r else ufmt | [] => [] end.

Section Doscan.
Context {St : Type} (getch : prog St Z) (ungetch : prog St unit) (put : Z -> Z -> prog St unit).
(** A bound on the characters read in one loop. *)
Context (rounds : nat).

(** [do c = getch(); while (isspace(c));], leaving at the end of the input. *)
Fixpoint skip_space (n : nat) : prog St Z :=
  match n with
  | O => diverge
  | S n =>
      c ← getch;
      if c =? EOF then mret EOF else if isspace c then skip_space n else mret c
  end.

(** The loop of [scan_string]: the number of characters, the pointer after the
    last one stored, and whether the input ended. *)
Fixpoint string_loop (n : nat) (type maxlen : Z) (stop : Z -> bool) (len ptr : Z) : prog St (Z * Z * bool) :=
  if len <? maxlen then
    match n with
    | O => diverge
    | S n =>
        c ← getch;
        if c =? EOF then mret (len, ptr, true)
        else if ((type =? 91) && stop c) || ((type =? 115) && isspace c) then
          ungetch;;
          mret (len, ptr, false)
        else if negb (ptr =? NULL) then
          put ptr c;;
          string_loop n type maxlen stop (len + 1) (ptr + 1)
        else string_loop n type maxlen stop (len + 1) ptr
    end
  else mret (len, ptr, false).

Definition scan_string (ptr type maxlen : Z) (stop : Z -> bool) : prog St (bool * bool) :=
  let maxlen := if (type =? 99) && (maxlen =? UNLIMITED_LENGTH) then 1 else maxlen in
  r ← string_loop rounds type maxlen stop 0 ptr;
  let '(len, p, eof) := r in
  (if negb (ptr =? NULL) && negb (type =? 99) then put p 0 else mret tt);;
  mret (negb (len =? 0) && negb ((type =? 99) && (len <? maxlen)), eof).

(** The loop over the digits, from the character [c]; it returns the last
    character looked at, the number and the count of characters. *)
Fixpoint number_loop (n : nat) (base maxlen c num len : Z) : prog St (Z * Z * Z) :=
  match n with
  | O => diverge
  | S n =>
      if c =? EOF then mret (EOF, num, len) else
      let c := tolower c in
      match digit_val base c with
      | Some d =>
          let num := u32 (u32 (num * base) + d) in
          let len := len + 1 in
          if len >=? maxlen then mret (c, num, len) else
          c ← getch;
          number_loop n base maxlen c num len
      | None => ungetch;; mret (c, num, len)
      end
  end.

(** [n] bytes of a number, least significant first. *)
Fixpoint store_bytes (n : nat) (ptr num : Z) : prog St unit :=
  match n with
  | O => mret tt
  | S n => put ptr (u8 num);; store_bytes n (ptr + 1) (num / 256)
  end.

Inductive scan_size := SHORT | REGULAR | LONG.

(** Whether the conversion matched, and whether the input ended. *)
Definition scan_number_or_string (ptr type maxlen : Z) (size : scan_size) (stop : Z -> bool) : prog St (bool * bool) :=
  c ← (if negb (type =? 91) && negb (type =? 99) then skip_space rounds else mret EOF);
  if negb (type =? 91) && negb (type =? 99) && (c =? EOF) then mret (false, true) else
  (if type =? 115 then ungetch else mret tt);;
  if (type =? 99) || (type =? 115) || (type =? 91) then scan_string ptr type maxlen stop else
  let base := if type =? 111 then 8 else if type =? 120 then 16 else 10 in
  let negative := c =? 45 in
  let had_sign := (c =? 45) || (c =? 43) in
  c ← (if had_sign then getch else mret c);
  r ← number_loop rounds base maxlen c 0 (if had_sign then 1 else 0);
  let '(c, num, len) := r in
  let eof := c =? EOF in
  if negb (ptr =? NULL) && negb (len =? 0) && negb (had_sign && (len =? 1)) then
    let num := if negative then u32 (- num) else num in
    store_bytes (match size with SHORT => 2 | _ => 4 end) ptr num;;
    mret (true, eof)
  else mret (false, eof).

(** [(nmatch == 0) ? EOF : nmatch] *)
Definition matched (nmatch : Z) : Z := if nmatch =? 0 then EOF else nmatch.

Fixpoint doscan_loop (fuel : nat) (ufmt : list Z) (ap : list Z) (nmatch : Z) : prog St Z :=
  match fuel with
  | O => diverge
  | S fuel =>
      match ufmt with
      | [] => mret nmatch
      | c :: r =>
          let literal ufmt :=
            x ← getch;
            if x =? EOF then mret (matched nmatch)
            else if negb (x =? chr ufmt) then mret nmatch
            else doscan_loop fuel (tail ufmt) ap nmatch in
          if (c =? 37) && negb (chr r =? 37) then
            pa ← (if chr r =? 42 then mret (NULL, tail r, ap)
                  else match ap with p :: ap => mret (p, r, ap) | [] => fault end);
            let '(ptr, ufmt, ap) := pa in
            let '(maxlen, ufmt) := scan_maxlen ufmt 0 in
            let maxlen := if maxlen =? 0 then UNLIMITED_LENGTH else maxlen in
            let '(size, ufmt) :=
              if chr ufmt =? 108 then (LONG, tail ufmt)
              else if chr ufmt =? 104 then (SHORT, tail ufmt) else (REGULAR, ufmt) in
            let c := chr ufmt in
            let ufmt := tail ufmt in
            if c =? 0 then mret nmatch else
            let '(stop, ufmt) := if c =? 91 then build_stopchar_tab ufmt else (fun _ => false, ufmt) in
            let '(c, size) := if negb (c =? 91) && isupper c then (tolower c, LONG) else (c, size) in
            me ← scan_number_or_string ptr c maxlen size stop;
            let '(ok, eof) := me in
            if (ok : bool) then
              let nmatch := if negb (ptr =? NULL) then nmatch + 1 else nmatch in
              if (eof : bool) then mret (matched nmatch) else doscan_loop fuel ufmt ap nmatch
            else if negb (ptr =? NULL) || eof then mret (if eof then matched nmatch else nmatch)
            else doscan_loop fuel ufmt ap nmatch
          else if negb (c =? 37) && isspace c then
            x ← skip_space rounds;
            if x =? EOF then mret (matched nmatch) else
            ungetch;;
            doscan_loop fuel (skip_spaces ufmt) ap nmatch
          else literal (if c =? 37 then r else ufmt)
      end
  end.

Definition doscan (fmt : list Z) (ap : list Z) : prog St Z := doscan_loop (S (length fmt)) fmt ap 0.
End Doscan.

(** ** [sscanf]

    The source is the variable [str], a pointer into memory. *)

Record sst := mkSst { sbytes : bytemem; spos : Z }.

Definition sgetch : prog sst Z :=
  Prog (fun s => match sbytes s !! spos s with
                 | Some c => if c =? 0 then Done EOF s else Done c (mkSst (sbytes s) (spos s + 1))
                 | None => Fault
                 end).

Definition sungetch : prog sst unit :=
  Prog (fun s => match sbytes s !! (spos s - 1) with
                 | Some _ => Done tt (mkSst (sbytes s) (spos s - 1))
                 | None => Fault
                 end).

Definition sput (a v : Z) : prog sst unit :=
  Prog (fun s => match sbytes s !! a with
                 | Some _ => Done tt (mkSst (<[a := u8 v]> (sbytes s)) (spos s))
                 | None => Fault
                 end).

Definition sscanf (str : Z) (fmt : list Z) (ap : list Z) : bprog Z :=
  Prog (fun m => match run (doscan sgetch sungetch sput (bfuel m) fmt ap) (mkSst m str) with
                 | Done n s => Done n (sbytes s)
                 | Switch _ _ | Fault => Fault
                 | Diverge => Diverge
                 | Halted s => Halted (sbytes s)
                 end).

(** A 32-bit number in memory, least significant byte first. *)
Definition ldl (a : Z) : bprog Z :=
  b0 ← ldb a; b1 ← ldb (a + 1); b2 ← ldb (a + 2); b3 ← ldb (a + 3);
  mret (b0 + 256 * (b1 + 256 * (b2 + 256 * b3))).
Definition stl (a v : Z) : bprog unit :=
  stb a v;; stb (a + 1) (v / 256);; stb (a + 2) (v / 256 / 256);; stb (a + 3) (v / 256 / 256 / 256).

(** [n] is a local variable, at the address [n_addr]. *)
Definition atol (n_addr nptr : Z) : bprog Z :=
  stl n_addr 0;;
  sscanf nptr [37; 108; 100] [n_addr];;
  n ← ldl n_addr;
  mret (i32 n).

Definition atoi (n_addr nptr : Z) : bprog Z := n ← atol n_addr nptr; mret (i32 n).

(** ** Properties of the character classes *)

Lemma byte_all (P : Z -> bool) : forallb P (seqZ 0 256) = true -> forall c, 0 <= c < 256 -> P c = true.
Proof.
  intros H c Hc. rewrite forallb_forall in H. apply H, list_elem_of_In, elem_of_seqZ. lia.
Qed.

Lemma isspace_spec c : 0 <= c < 256 -> isspace c = (c =? 32) || ((9 <=? c) && (c <=? 13)).
Proof.
  intros Hc. apply eqb_prop.
  by apply (byte_all (fun c => Bool.eqb (isspace c) ((c =? 32) || ((9 <=? c) && (c <=? 13))))).
Qed.

Lemma isdigit_spec c : 0 <= c < 256 -> isdigit c = (48 <=? c) && (c <=? 57).
Proof.
  intros Hc. apply eqb_prop. by apply (byte_all (fun c => Bool.eqb (isdigit c) ((48 <=? c) && (c <=? 57)))).
Qed.

Lemma tolower_spec c : 0 <= c < 256 -> tolower c = if (65 <=? c) && (c <=? 90) then c + 32 else c.
Proof.
  intros Hc. apply Z.eqb_eq.
  by apply (byte_all (fun c => tolower c =? if (65 <=? c) && (c <=? 90) then c + 32 else c)).
Qed.

Lemma digit_val_decimal d : 0 <= d < 10 -> digit_val 10 (tolower (digit false d)) = Some d.
Proof.
  intros Hd. assert (H : forallb (fun d => bool_decide (digit_val 10 (tolower (digit false d)) = Some d)) (seqZ 0 10) = true)
    by (by vm_compute).
  rewrite forallb_forall in H. eapply bool_decide_eq_true, H, list_elem_of_In, elem_of_seqZ. lia.
Qed.

(** ** Reading from memory *)

Lemma run_sgetch m p c : m !! p = Some c -> 0 < c -> run sgetch (mkSst m p) = Done c (mkSst m (p + 1)).
Proof.
  intros Hm Hc. unfold sgetch, run. cbn. rewrite Hm. by rewrite (proj2 (Z.eqb_neq c 0)) by lia.
Qed.

Lemma run_sgetch_end m p : m !! p = Some 0 -> run sgetch (mkSst m p) = Done EOF (mkSst m p).
Proof. intros Hm. unfold sgetch, run. cbn. by rewrite Hm. Qed.

Lemma run_sungetch m p c : m !! p = Some c -> run sungetch (mkSst m (p + 1)) = Done tt (mkSst m p).
Proof.
  intros Hm. unfold sungetch, run. cbn. replace (p + 1 - 1) with p by lia. by rewrite Hm.
Qed.

Lemma run_sput m p a v : is_Some (m !! a) -> run (sput a v) (mkSst m p) = Done tt (mkSst (<[a := u8 v]> m) p).
Proof. intros [x Hx]. unfold sput, run. cbn. by rewrite Hx. Qed.

(** The rest of a string, from its first character on. *)
Lemma cstr_cons m p c l : cstr m p (c :: l) -> m !! p = Some c /\ 0 < c < 256 /\ cstr m (p + 1) l.
Proof.
  intros [H Hf]. cbn [app] in H. apply bytes_at_cons in H as [H1 H2]. apply Forall_cons in Hf as [Hc Hf].
  split; [done |]. split; [done |]. by split.
Qed.

Lemma cstr_nil m p : cstr m p [] -> m !! p = Some 0.
Proof. intros H. apply cstr_end in H. by replace (p + Z.of_nat (length [])) with p in H by (cbn; lia). Qed.

(** White space is skipped; what follows is the first other character. *)
Lemma run_skip_space m ws c l : forall n p,
  cstr m p (ws ++ c :: l) -> Forall (fun x => isspace x = true) ws -> isspace c = false -> (length ws < n)%nat ->
  run (skip_space sgetch n) (mkSst m p) = Done c (mkSst m (p + Z.of_nat (length ws) + 1)) /\
  cstr m (p + Z.of_nat (length ws) + 1) l.
Proof.
  induction ws as [|x ws IH]; intros n p Hs Hws Hc Hn; (destruct n as [|n]; [lia |]); cbn [skip_space app] in *.
  - apply cstr_cons in Hs as (Hm & Hb & Hs). rewrite run_bind, (run_sgetch m p c Hm) by lia. cbn [obind].
    rewrite (proj2 (Z.eqb_neq c EOF)) by (unfold EOF; lia). rewrite Hc, run_ret. cbn [length].
    by replace (p + Z.of_nat 0 + 1) with (p + 1) by lia.
  - apply cstr_cons in Hs as (Hm & Hb & Hs). apply Forall_cons in Hws as [Hx Hws].
    rewrite run_bind, (run_sgetch m p x Hm) by lia. cbn [obind].
    rewrite (proj2 (Z.eqb_neq x EOF)) by (unfold EOF; lia). rewrite Hx. cbn [length] in *.
    replace (p + Z.of_nat (S (length ws)) + 1) with (p + 1 + Z.of_nat (length ws) + 1) by lia. apply IH; try done. lia.
Qed.

(** ** Numbers *)

(** What the loop computes is the value of the digits, modulo [2 ^ 32]. *)
Lemma value_u32 l : forall a, foldl (fun a d => u32 (u32 (a * 10) + d)) (u32 a) l = u32 (foldl (fun a d => a * 10 + d) a l).
Proof.
  induction l as [|d l IH]; intros a; [done |]. cbn [foldl]. rewrite <- IH. f_equal. unfold u32.
  rewrite Zplus_mod_idemp_l. rewrite <- (Zplus_mod_idemp_l (_ * 10)), Zmult_mod_idemp_l. by rewrite Zplus_mod_idemp_l.
Qed.

(** The digits end at the end of the string or at another character. *)
Definition number_ends (rest : list Z) : Prop :=
  match rest with [] => True | c :: _ => digit_val 10 (tolower c) = None end.

Lemma run_number_field m rest l : forall n p d num len maxlen,
  cstr m p (map (digit false) l ++ rest) -> number_ends rest -> Forall (fun d => 0 <= d < 10) (d :: l) ->
  (length l + 1 < n)%nat -> 0 <= len -> len + Z.of_nat (length l) + 1 <= maxlen ->
  exists c, run (number_loop sgetch sungetch n 10 maxlen (digit false d) num len) (mkSst m p)
    = Done (c, foldl (fun a d => u32 (u32 (a * 10) + d)) num (d :: l), len + 1 + Z.of_nat (length l))
        (mkSst m (p + Z.of_nat (length l))) /\ (c = EOF -> rest = []).
Proof.
  induction l as [|d' l IH]; intros n p d num len maxlen Hs He Hd Hn Hl Hmax; (destruct n as [|n]; [lia |]);
    cbn [number_loop]; apply Forall_cons in Hd as [Hd0 Hd].
  all: pose proof (digit_ok false d ltac:(lia)) as Hdg; rewrite (proj2 (Z.eqb_neq _ EOF)) by (unfold EOF; lia).
  all: rewrite digit_val_decimal by lia; rewrite Z.geb_leb; cbn [length] in *.
  - cbn [map app] in Hs. replace (p + Z.of_nat 0) with p by lia. replace (len + 1 + Z.of_nat 0) with (len + 1) by lia.
    cbn [foldl]. destruct (Z.leb_spec maxlen (len + 1)).
    { rewrite run_ret. eexists. split; [done |]. rewrite tolower_spec by lia. unfold EOF. case_match; lia. }
    rewrite run_bind. destruct n as [|n]; [lia |]. destruct rest as [|c rest].
    + rewrite (run_sgetch_end m p) by (by apply cstr_nil). cbn [obind number_loop]. rewrite Z.eqb_refl, run_ret. eauto.
    + apply cstr_cons in Hs as (Hm & Hb & Hs). rewrite (run_sgetch m p c Hm) by lia. cbn [obind number_loop].
      rewrite (proj2 (Z.eqb_neq c EOF)) by (unfold EOF; lia). unfold number_ends in He. rewrite He, run_bind.
      rewrite (run_sungetch m p c Hm). cbn [obind]. rewrite run_ret. eexists. split; [done |].
      rewrite tolower_spec by lia. unfold EOF. case_match; lia.
  - rewrite (proj2 (Z.leb_gt _ _)) by lia.
    cbn [map app] in Hs. apply cstr_cons in Hs as (Hm & Hb & Hs). rewrite run_bind, (run_sgetch m p _ Hm) by lia.
    cbn [obind]. destruct (IH n (p + 1) d' (u32 (u32 (num * 10) + d)) (len + 1) maxlen) as (c & Hrun & Hc); try done; try lia.
    rewrite Hrun. exists c. split; [| done]. cbn [foldl]. f_equal; [f_equal; lia | f_equal; lia].
Qed.

Lemma run_number_loop m rest l : forall n p d num len,
  cstr m p (map (digit false) l ++ rest) -> number_ends rest -> Forall (fun d => 0 <= d < 10) (d :: l) ->
  (length l + 1 < n)%nat -> 0 <= len -> len + Z.of_nat (length l) + 1 < UNLIMITED_LENGTH ->
  exists c p', run (number_loop sgetch sungetch n 10 UNLIMITED_LENGTH (digit false d) num len) (mkSst m p)
    = Done (c, foldl (fun a d => u32 (u32 (a * 10) + d)) num (d :: l), len + 1 + Z.of_nat (length l)) (mkSst m p').
Proof.
  intros n p d num len Hs He Hd Hn Hl Hmax.
  destruct (run_number_field m rest l n p d num len UNLIMITED_LENGTH) as (c & -> & _); [done.. | lia |]. eauto.
Qed.

(** The bytes of a number. *)
Fixpoint le_bytes (n : nat) (num : Z) : list Z :=
  match n with O => [] | S n => u8 num :: le_bytes n (num / 256) end.

Lemma run_store_bytes n : forall m p a num,
  mapped m a (Z.of_nat n) ->
  run (store_bytes sput n a num) (mkSst m p) = Done tt (mkSst (poke a (le_bytes n num) m) p).
Proof.
  induction n as [|n IH]; intros m p a num Hm; [done |]. cbn [store_bytes le_bytes poke].
  rewrite run_bind, run_sput by (rewrite <- (Z.add_0_r a); apply Hm; lia). cbn [obind].
  replace (u8 (u8 num)) with (u8 num) by (symmetry; apply u8_small, u8_bound). apply IH.
  intros i Hi. apply lookup_insert_is_Some. destruct (decide (a = a + 1 + i)); [by left | right].
  split; [done |]. rewrite <- Z.add_assoc. apply Hm. lia.
Qed.

Lemma run_ldl m a num : 0 <= num < 2 ^ 32 -> bytes_at m a (le_bytes 4 num) -> run (ldl a) m = Done num m.
Proof.
  intros Hn. cbn [le_bytes]. rewrite !bytes_at_cons. intros (H0 & H1 & H2 & H3 & _).
  rewrite <- Z.add_assoc in H2, H3. rewrite <- Z.add_assoc in H3. change (1 + 1) with 2 in *. change (1 + 2) with 3 in *.
  unfold ldl. brun. f_equal. unfold u8. lia.
Qed.

Lemma run_stl m a v : mapped m a 4 -> run (stl a v) m = Done tt (poke a (le_bytes 4 v) m).
Proof.
  intros Hm. unfold stl. pose proof (Hm 0 ltac:(lia)) as H0. rewrite Z.add_0_r in H0.
  pose proof (Hm 1 ltac:(lia)) as H1. pose proof (Hm 2 ltac:(lia)) as H2. pose proof (Hm 3 ltac:(lia)) as H3.
  rewrite run_bind, (run_stb a v m H0). cbn [obind].
  rewrite run_bind, run_stb by (rewrite !lookup_insert_is_Some'; auto). cbn [obind].
  rewrite run_bind, run_stb by (rewrite !lookup_insert_is_Some'; auto). cbn [obind].
  rewrite run_stb by (rewrite !lookup_insert_is_Some'; auto).
  cbn [le_bytes poke]. by rewrite <- !Z.add_assoc.
Qed.

Lemma length_le_bytes n num : length (le_bytes n num) = n.
Proof. revert num. induction n as [|n IH]; intros num; cbn; [done | by rewrite IH]. Qed.

(** The number conversion on white space, a number as [%d] prints it, and
    something that is not a digit. *)
Section Decimal.
Context (m : bytemem) (nptr a : Z) (ws : list Z) (z d : Z) (r rest : list Z) (n : nat).
Hypothesis Hs : cstr m nptr (ws ++ (if z <? 0 then [45] else []) ++ map (digit false) (d :: r) ++ rest).
Hypothesis Hws : Forall (fun c => isspace c = true) ws.
Hypothesis He : number_ends rest.
Hypothesis Hd : digits_of 10 (Z.abs z) (d :: r).
Hypothesis Hz : - 2 ^ 31 <= z < 2 ^ 31.
Hypothesis Hlen : Z.of_nat (length r) < 2 ^ 31.
Hypothesis Hn : (length ws < n)%nat /\ (length r + 1 < n)%nat.
Hypothesis Hm : mapped m a 4.
Hypothesis Ha : a <> NULL.

Lemma run_scan_decimal size stop : size <> SHORT ->
  exists eof p, run (scan_number_or_string sgetch sungetch sput n a 100 UNLIMITED_LENGTH size stop) (mkSst m nptr)
    = Done (true, eof) (mkSst (poke a (le_bytes 4 (u32 z)) m) p).
Proof.
  intros Hsize. unfold scan_number_or_string. cbn [Z.eqb Pos.eqb negb andb orb].
  pose proof (dg_range _ _ _ Hd) as Hr. pose proof (dg_value _ _ _ Hd) as Hv. pose proof Hr as Hr0.
  apply Forall_cons in Hr0 as [Hd0 _]. pose proof (digit_ok false d ltac:(lia)) as Hdg.
  assert (Hval : foldl (fun a d => u32 (u32 (a * 10) + d)) 0 (d :: r) = Z.abs z).
  { change 0 with (u32 0). rewrite value_u32. change (u32 (value 10 (d :: r)) = Z.abs z). rewrite Hv.
    apply u32_small. lia. }
  assert (Hst : match size with SHORT => 2%nat | _ => 4%nat end = 4%nat) by (by destruct size).
  rewrite run_bind. destruct (Z.ltb_spec z 0) as [Hneg | Hpos]; cbn [app] in Hs.
  - destruct (run_skip_space m ws 45 _ n nptr Hs Hws eq_refl (proj1 Hn)) as [-> Hs1]. cbn [obind map] in *.
    change (45 =? EOF) with false. cbn [andb orb Z.eqb Pos.eqb]. apply cstr_cons in Hs1 as (Hm1 & _ & Hs2).
    rewrite run_bind, run_ret. cbn [obind]. rewrite run_bind, (run_sgetch m _ _ Hm1) by lia. cbn [obind].
    rewrite run_bind.
    destruct (run_number_loop m rest r n _ d 0 1 Hs2 He Hr (proj2 Hn)) as (c & p & ->);
      [lia | unfold UNLIMITED_LENGTH, UINT_MAX; lia |].
    cbn [obind]. rewrite Hval, (proj2 (Z.eqb_neq a NULL) Ha).
    rewrite (proj2 (Z.eqb_neq _ 0)), (proj2 (Z.eqb_neq _ 1)) by lia. cbn [negb andb]. rewrite Hst, run_bind.
    rewrite run_store_bytes by done. cbn [obind]. rewrite run_ret. replace (u32 (- Z.abs z)) with (u32 z); [eauto |].
    f_equal. lia.
  - destruct (run_skip_space m ws (digit false d) _ n nptr Hs Hws) as [-> Hs1]; [| lia |].
    { rewrite isspace_spec by lia. apply orb_false_iff. split; [lia |]. apply andb_false_iff. right. lia. }
    cbn [obind]. rewrite (proj2 (Z.eqb_neq _ EOF)) by (unfold EOF; lia). cbn [andb].
    rewrite run_bind, run_ret. cbn [obind].
    rewrite (proj2 (Z.eqb_neq _ 45)), (proj2 (Z.eqb_neq _ 43)) by lia. cbn [orb andb].
    rewrite run_bind, run_ret. cbn [obind]. rewrite run_bind.
    destruct (run_number_loop m rest r n _ d 0 0 Hs1 He Hr (proj2 Hn)) as (c & p & ->);
      [lia | unfold UNLIMITED_LENGTH, UINT_MAX; lia |].
    cbn [obind]. rewrite Hval, (proj2 (Z.eqb_neq a NULL) Ha).
    rewrite (proj2 (Z.eqb_neq _ 0)) by lia. cbn [negb andb]. rewrite Hst, run_bind.
    rewrite run_store_bytes by done. cbn [obind]. rewrite run_ret. rewrite (u32_small z) by lia.
    replace (Z.abs z) with z by lia. eauto.
Qed.
End Decimal.

(** [atoi] reads back what [%d] prints: for every [int], after any white space
    and up to the first character that is not a digit. *)
Theorem atoi_print m a nptr ws z l rest :
  shows z l -> - 2 ^ 31 <= z < 2 ^ 31 ->
  cstr m nptr (ws ++ l ++ rest) -> Forall (fun c => isspace c = true) ws -> number_ends rest ->
  Z.of_nat (length l) < 2 ^ 31 -> mapped m a 4 -> a <> NULL ->
  apart a 4 nptr (Z.of_nat (length (ws ++ l ++ rest)) + 1) ->
  exists m', run (atoi a nptr) m = Done z m' /\ forall w, w < a \/ a + 4 <= w -> m' !! w = m !! w.
Proof.
  intros (ds & Hd & ->) Hz Hs Hws He Hlen Hm Ha Hap.
  assert (Hds : exists d r, ds = d :: r) by (destruct (dg_lead _ _ _ Hd) as [-> | (d & r & -> & _)]; eauto).
  destruct Hds as (d & r & ->). set (m0 := poke a (le_bytes 4 0) m).
  assert (Hs0 : cstr m0 nptr (ws ++ (if z <? 0 then [45] else []) ++ map (digit false) (d :: r) ++ rest)).
  { rewrite <- (app_assoc _ _ rest) in Hs, Hap. destruct Hs as [H1 H2]. split; [| done]. apply bytes_at_poke; [done |].
    rewrite length_le_bytes, (length_app _ [0]). change (length [0]) with 1%nat. unfold apart in Hap. lia. }
  assert (Hm0 : mapped m0 a 4) by (by apply mapped_poke).
  pose proof (cstr_fuel _ _ _ Hs0) as Hfuel. rewrite !length_app, length_map in Hfuel.
  rewrite length_app, length_map in Hlen. cbn [length] in *.
  destruct (run_scan_decimal m0 nptr a ws z d r rest (bfuel m0) Hs0 Hws He Hd Hz ltac:(lia) ltac:(lia) Hm0 Ha LONG
    (fun _ => false) ltac:(done)) as (eof & p & Hrun).
  assert (Hsc : run (sscanf nptr [37; 108; 100] [a]) m0 = Done 1 (poke a (le_bytes 4 (u32 z)) m0)).
  { assert (Hdo : run (doscan sgetch sungetch sput (bfuel m0) [37; 108; 100] [a]) (mkSst m0 nptr)
        = Done 1 (mkSst (poke a (le_bytes 4 (u32 z)) m0) p)).
    { unfold doscan. cbn [length doscan_loop]. cbn [Z.eqb Pos.eqb chr negb andb]. rewrite run_bind, run_ret. cbn [obind].
      cbn [scan_maxlen]. change (isdigit 108) with false. cbn [Z.eqb Pos.eqb chr tail].
      change (negb false && isupper 100) with false. cbn match. rewrite run_bind, Hrun. cbn [obind].
      rewrite (proj2 (Z.eqb_neq a NULL) Ha). cbn [negb]. by destruct eof. }
    unfold sscanf. unfold run at 1. by rewrite Hdo. }
  unfold atoi, atol. rewrite !run_bind, (run_stl m a 0 Hm). cbn [obind]. fold m0. rewrite run_bind, Hsc. cbn [obind].
  rewrite run_bind, (run_ldl _ a (u32 z)); [| apply u32_bound | apply poke_in]. cbn [obind]. rewrite !run_ret. cbn [obind].
  eexists. split; [rewrite i32_u32, !(i32_small z) by lia; reflexivity |].
  intros w Hw. unfold m0. by rewrite !poke_out by (rewrite length_le_bytes; lia).
Qed.

(** ** Strings *)

(** A word ends at the end of the string or at white space. *)
Definition word_ends (rest : list Z) : Prop := match rest with [] => True | c :: _ => isspace c = true end.

Lemma run_string_loop rest maxlen stop w : forall n m p len ptr,
  cstr m p (w ++ rest) -> word_ends rest -> Forall (fun c => isspace c = false) w -> (length w < n)%nat ->
  0 <= len <= maxlen -> ptr <> NULL -> 0 < ptr -> mapped m ptr (Z.of_nat (length w)) ->
  apart ptr (Z.of_nat (length w)) p (Z.of_nat (length (w ++ rest)) + 1) ->
  let k := Nat.min (Z.to_nat (maxlen - len)) (length w) in
  exists eof p', run (string_loop sgetch sungetch sput n 115 maxlen stop len ptr) (mkSst m p)
    = Done (len + Z.of_nat k, ptr + Z.of_nat k, eof) (mkSst (poke ptr (take k w) m) p').
Proof.
  induction w as [|c w IH]; intros n m p len ptr Hs He Hw Hn Hl Hp0 Hp Hm Ha k;
    (destruct n as [|n]; [cbn in Hn; lia |]); cbn [string_loop app] in *.
  - replace k with 0%nat by (unfold k; cbn; lia). cbn [take poke Z.of_nat]. rewrite !Z.add_0_r.
    destruct (Z.ltb_spec len maxlen); [| rewrite run_ret; eauto]. rewrite run_bind. destruct rest as [|c rest].
    + rewrite (run_sgetch_end m p) by (by apply cstr_nil). cbn [obind]. rewrite Z.eqb_refl, run_ret. eauto.
    + apply cstr_cons in Hs as (Hc & Hb & _). rewrite (run_sgetch m p c Hc) by lia. cbn [obind].
      rewrite (proj2 (Z.eqb_neq c EOF)) by (unfold EOF; lia). cbn [Z.eqb Pos.eqb andb orb].
      unfold word_ends in He. rewrite He, run_bind, (run_sungetch m p c Hc). cbn [obind]. rewrite run_ret. eauto.
  - apply Forall_cons in Hw as [Hsp Hw]. apply cstr_cons in Hs as (Hc & Hb & Hs). cbn [length] in *.
    destruct (Z.ltb_spec len maxlen) as [Hlt | Hge].
    2:{ replace k with 0%nat by (unfold k; lia). cbn [take poke Z.of_nat]. rewrite !Z.add_0_r, run_ret. eauto. }
    rewrite run_bind, (run_sgetch m p c Hc) by lia. cbn [obind].
    rewrite (proj2 (Z.eqb_neq c EOF)) by (unfold EOF; lia). cbn [Z.eqb Pos.eqb andb orb]. rewrite Hsp.
    rewrite (proj2 (Z.eqb_neq ptr NULL) Hp0). cbn [negb]. rewrite run_bind.
    rewrite run_sput by (rewrite <- (Z.add_0_r ptr); apply Hm; lia). cbn [obind]. rewrite u8_small by lia.
    destruct (IH n (<[ptr := c]> m) (p + 1) (len + 1) (ptr + 1)) as (eof & p' & Hrun); try done; try lia.
    + destruct Hs as [H1 H2]. split; [| done]. apply (bytes_at_poke m ptr [c]); [done |]. cbn [length].
      rewrite (length_app _ [0]). cbn [length]. unfold apart in Ha. lia.
    + unfold NULL. lia.
    + intros i Hi. apply lookup_insert_is_Some'. right. rewrite <- Z.add_assoc. apply Hm. lia.
    + unfold apart in *. lia.
    + rewrite Hrun. exists eof, p'. set (k' := Nat.min (Z.to_nat (maxlen - (len + 1))) (length w)).
      replace k with (S k') by (unfold k, k'; lia). cbn [take poke].
      by replace (len + 1 + Z.of_nat k') with (len + Z.of_nat (S k')) by lia;
      replace (ptr + 1 + Z.of_nat k') with (ptr + Z.of_nat (S k')) by lia.
Qed.

(** C38: a [%s] conversion with the maximum length [maxlen] stores the characters of
    the word up to that length and a terminator, so it never writes more than
    [maxlen + 1] bytes. *)
Theorem scan_word_bounded m p ptr w rest maxlen stop n :
  cstr m p (w ++ rest) -> word_ends rest -> Forall (fun c => isspace c = false) w -> (length w < n)%nat ->
  0 <= maxlen -> 0 < ptr ->
  let l := take (Z.to_nat maxlen) w in
  mapped m ptr (Z.of_nat (length w) + 1) -> apart ptr (Z.of_nat (length w) + 1) p (Z.of_nat (length (w ++ rest)) + 1) ->
  exists eof s, run (scan_string sgetch sungetch sput n ptr 115 maxlen stop) (mkSst m p) = Done (bool_decide (l <> []), eof) s /\
    sbytes s = poke ptr (l ++ [0]) m /\ Z.of_nat (length (l ++ [0])) <= maxlen + 1.
Proof.
  intros Hs He Hw Hn Hmax Hp l Hm Ha. unfold scan_string. cbn [Z.eqb Pos.eqb andb]. rewrite run_bind.
  destruct (run_string_loop rest maxlen stop w n m p 0 ptr) as (eof & p' & ->); try done; try (unfold NULL; lia).
  { intros i Hi. apply Hm. lia. } { unfold apart in *. lia. }
  set (k := Nat.min (Z.to_nat (maxlen - 0)) (length w)).
  assert (El : take k w = l).
  { unfold l, k. rewrite Z.sub_0_r. destruct (decide (Z.to_nat maxlen <= length w)%nat); [by rewrite Nat.min_l by lia |].
    rewrite Nat.min_r, !firstn_all2 by lia. done. }
  assert (Hk : length l = k) by (rewrite <- El, length_take; lia).
  cbn [obind]. rewrite (proj2 (Z.eqb_neq ptr NULL)) by (unfold NULL; lia). cbn [negb andb Z.eqb Pos.eqb].
  rewrite run_bind, run_sput by (apply (mapped_poke _ _ _ _ _ Hm); lia). cbn [obind]. rewrite run_ret.
  eexists eof, _. split; [| split].
  - f_equal. f_equal. rewrite andb_true_r. destruct l as [|x l']; cbn [length] in Hk.
    + rewrite <- Hk. by rewrite bool_decide_eq_false_2 by naive_solver.
    + rewrite (proj2 (Z.eqb_neq _ 0)) by lia. by rewrite bool_decide_eq_true_2 by done.
  - cbn [sbytes]. rewrite poke_snoc, Hk, <- El. by change (u8 0) with 0.
  - rewrite length_app. cbn [length]. unfold k in Hk. lia.
Qed.
