(* ===== verification/Stdio.v ===== *)
(** Formatted output to memory and devices: lib/libxc/sprintf.c, printf.c, fprintf.c,
    fputc.c, fputs.c, fgetc.c and fgets.c. *)
From Stdlib Require Import ZArith Lia.
From stdpp Require Import gmap list.
From S2P Require Import Prelude Kernel Bytes Format Scan.

(** ** Devices

    [getc] and [putc] call the driver of the device; the drivers are not part of
    the library, so they are a parameter. *)

Section Device.
Context {St : Type} (getc : prog St Z) (putc : Z -> prog St Z).

Definition fgetc : prog St Z :=
  c ← getc;
  if (c =? SYSERR) || (c =? EOF) then mret EOF else mret (u8 c).

Definition fputc (c : Z) : prog St Z :=
  ret ← putc c;
  if (ret =? SYSERR) || (ret =? EOF) then mret EOF else mret (u8 ret).

(** The string is given by its characters. *)
Fixpoint fputs (s : list Z) : prog St Z :=
  match s with
  | [] => mret 0
  | c :: s => e ← fputc c; if e =? EOF then mret EOF else fputs s
  end.

Definition fprintf (format : list Z) (ap : list arg) : prog St Z := doprnt fputc format ap.

(** [fgets], storing with [put] what it reads: the loop runs while [--n > 0]; it
    returns the last character and the pointer after the last one stored. *)
Context (put : Z -> Z -> prog St unit).

Fixpoint fgets_loop (fuel : nat) (n c cs : Z) : prog St (Z * Z) :=
  match fuel with
  | O => diverge
  | S fuel =>
      n ← int (n - 1);
      if n >? 0 then
        c ← fgetc;
        if c =? EOF then mret (c, cs) else
        put cs c;;
        if 10 =? c then mret (c, cs + 1) else fgets_loop fuel n c (cs + 1)
      else mret (c, cs)
  end.

Definition fgets (s n : Z) : prog St Z :=
  r ← fgets_loop (S (Z.to_nat n)) n EOF s;
  let '(c, cs) := r in
  if (c =? EOF) && (cs =? s) then mret NULL else
  put cs 0;;
  mret s.
End Device.

(** ** [sprintf]

    The sink stores at the variable [s] and moves it on. *)

Record strout := mkStrout { so_mem : bytemem; so_s : Z }.

Definition sprntf (c : Z) : prog strout Z :=
  Prog (fun st => match so_mem st !! so_s st with
                  | Some _ => Done c (mkStrout (<[so_s st := u8 c]> (so_mem st)) (so_s st + 1))
                  | None => Fault
                  end).

Definition sprintf (str : Z) (format : list Z) (ap : list arg) : bprog Z :=
  Prog (fun m =>
    match run (doprnt sprntf format ap) (mkStrout m str) with
    | Done _ st => run (stb (so_s st) 0;; mret (so_s st - str)) (so_mem st)
    | Switch _ _ | Fault => Fault
    | Diverge => Diverge
    | Halted st => Halted (so_mem st)
    end).

(** ** Conversions do not depend on the sink

    What a conversion does before it puts characters out only depends on the format
    and the arguments. *)

Definition agree {S1 S2 A} (m : prog S1 A) (m' : prog S2 A) : Prop :=
  forall s s', match run m s with Done a t => t = s /\ run m' s' = Done a s' | _ => True end.

Section Agree.
Context {S1 S2 : Type}.

Lemma agree_ret {A} (a : A) : agree (mret a : prog S1 A) (mret a : prog S2 A).
Proof. by intros s s'. Qed.

Lemma agree_fault {A} : agree (fault : prog S1 A) (fault : prog S2 A).
Proof. by intros s s'. Qed.

Lemma agree_int x : agree (int x : prog S1 Z) (int x : prog S2 Z).
Proof. by intros s s'. Qed.

Lemma agree_bind {A B} (m : prog S1 A) (m' : prog S2 A) (f : A -> prog S1 B) (g : A -> prog S2 B) :
  agree m m' -> (forall a, agree (f a) (g a)) -> agree (m ≫= f) (m' ≫= g).
Proof.
  intros Hm Hf s s'. rewrite !run_bind. specialize (Hm s s'). destruct (run m s); cbn [obind]; try done.
  destruct Hm as [-> ->]. cbn [obind]. apply Hf.
Qed.

Ltac agree_auto :=
  repeat (cbv zeta; first
    [ apply agree_ret | apply agree_fault | apply agree_int
    | apply agree_bind; [| intros ?] | case_match ]).

Lemma agree_arg_word ap : agree (arg_word ap : prog S1 _) (arg_word ap : prog S2 _).
Proof. unfold arg_word. agree_auto. Qed.

Lemma agree_arg_str ap : agree (arg_str ap : prog S1 _) (arg_str ap : prog S2 _).
Proof. unfold arg_str. agree_auto. Qed.

Lemma agree_digits room alt split : forall num temp,
  agree (digit_loop room alt split num temp : prog S1 _) (digit_loop room alt split num temp : prog S2 _).
Proof. induction room as [|room IH]; intros num temp; cbn [digit_loop]; [apply agree_fault |]. agree_auto. apply IH. Qed.

Lemma agree_number fmt : forall n, agree (scan_number fmt n : prog S1 _) (scan_number fmt n : prog S2 _).
Proof. induction fmt as [|c r IH]; intros n; cbn [scan_number]; [apply agree_ret |]. agree_auto. apply IH. Qed.

Lemma agree_render it : agree (render it : prog S1 _) (render it : prog S2 _).
Proof. unfold render, ulong_to_string. agree_auto; apply agree_digits. Qed.

Lemma agree_field it px str : agree (field it px str : prog S1 _) (field it px str : prog S2 _).
Proof. unfold field. agree_auto. Qed.

Lemma agree_scan_spec fmt ap : agree (scan_spec fmt ap : prog S1 _) (scan_spec fmt ap : prog S2 _).
Proof.
  unfold scan_spec, scan_width, scan_prec, convert.
  agree_auto; try apply agree_arg_word; try apply agree_arg_str; apply agree_number.
Qed.
End Agree.

(** ** Output to any sink with room

    [st out] is the state of a sink that has taken the characters [out]; it takes
    another one as long as it has [room]. *)

Section Sink.
Context {T : Type} (putc : Z -> prog T Z) (st : list Z -> T) (room : nat).
Hypothesis Hputc : forall out c, (length out < room)%nat -> run (putc c) (st out) = Done c (st (out ++ [c])).

(** [m'] puts into the sink what [m] puts into the list. *)
Definition mirrors (m : prog (list Z) Z) (m' : prog T Z) : Prop :=
  forall out n out', run m out = Done n out' -> n <> EOF ->
    (exists l, out' = out ++ l) /\ ((length out' <= room)%nat -> run m' (st out) = Done n (st out')).

Lemma put_all_mirrors l : forall w out n out',
  run (put_all tolist l w) out = Done (Some n) out' -> (length out' <= room)%nat ->
  run (put_all putc l w) (st out) = Done (Some n) (st out').
Proof.
  induction l as [|c r IH]; intros w out n out'; cbn [put_all].
  - by intros [= <- <-] _.
  - rewrite !run_bind, run_tolist. cbn [obind]. destruct (Z.eqb_spec c EOF) as [-> | Hc]; [done |].
    rewrite run_bind, run_int_wrap. cbn [obind]. intros Hrun Hroom.
    pose proof (put_all_inv _ _ _ _ _ Hrun) as (n' & [[_ Eo] | [=]]).
    rewrite Hputc by (rewrite Eo, !length_app in Hroom; cbn in Hroom; lia). cbn [obind].
    rewrite (proj2 (Z.eqb_neq c EOF) Hc), run_bind, run_int_wrap. cbn [obind]. by apply (IH (i32 (w + 1))).
Qed.

Lemma mirrors_put l w (f : option Z -> prog (list Z) Z) (g : option Z -> prog T Z) :
  f None = mret EOF -> (forall w1, mirrors (f (Some w1)) (g (Some w1))) ->
  mirrors (put_all tolist l w ≫= f) (put_all putc l w ≫= g).
Proof.
  intros Hf Hfg out n out'. rewrite !run_bind.
  destruct (run (put_all tolist l w) out) as [o out1| | | |] eqn:E; cbn [obind]; try done.
  pose proof (put_all_inv _ _ _ _ _ E) as (n1 & [[-> ->] | ->]); [| rewrite Hf; by intros [= <- _]].
  intros Hrun Hn. destruct (Hfg n1 _ _ _ Hrun Hn) as [[l' ->] Hgo]. split.
  - exists (l ++ l'). by rewrite app_assoc.
  - intros Hk. rewrite (put_all_mirrors l w out n1 (out ++ l) E) by (rewrite length_app in Hk; lia).
    cbn [obind]. by apply Hgo.
Qed.

Lemma mirrors_agree {A} (m : prog (list Z) A) (m' : prog T A) f g :
  agree m m' -> (forall a, mirrors (f a) (g a)) -> mirrors (m ≫= f) (m' ≫= g).
Proof.
  intros Hm Hfg out n out'. rewrite !run_bind. specialize (Hm out (st out)).
  destruct (run m out) as [a out1| | | |]; cbn [obind]; try done. destruct Hm as [-> ->]. cbn [obind]. apply Hfg.
Qed.

Lemma mirrors_ret n : mirrors (mret n) (mret n).
Proof. intros out n' out' [= <- <-] _. split; [exists []; by rewrite app_nil_r | done]. Qed.

Lemma mirrors_loop fuel : forall fmt ap w,
  mirrors (doprnt_loop tolist fuel fmt ap w) (doprnt_loop putc fuel fmt ap w).
Proof.
  induction fuel as [|fuel IH]; intros fmt ap w; [by intros out n out' |]. cbn [doprnt_loop].
  destruct fmt as [|c r]; [apply mirrors_ret |]. destruct ((c =? 37) && negb (chr r =? 37)).
  - apply mirrors_agree; [apply agree_scan_spec |]. intros [[oi f] ap'].
    destruct oi as [it|]; [| by apply mirrors_put; auto].
    apply mirrors_agree; [apply agree_render |]. intros [px str].
    apply mirrors_agree; [apply agree_field |]. intros l. apply mirrors_put; auto.
  - apply mirrors_put; auto.
Qed.

(** Output that fits into the sink is the text. *)
Lemma run_doprnt_sink fmt ap n out :
  text fmt ap = Done n out -> n <> EOF -> (length out <= room)%nat -> run (doprnt putc fmt ap) (st []) = Done n (st out).
Proof. intros H Hn Hl. by apply (mirrors_loop _ fmt ap 0 [] n out H Hn). Qed.
End Sink.

(** [sprintf] stores the text that the format describes and a terminator, and returns
    the length of the text, when the buffer has room for it. *)
Lemma run_sprintf m str fmt ap n out :
  text fmt ap = Done n out -> n <> EOF -> mapped m str (Z.of_nat (length out) + 1) ->
  run (sprintf str fmt ap) m = Done (Z.of_nat (length out)) (poke str (map u8 out ++ [0]) m).
Proof.
  intros Ht Hn Hm. unfold sprintf, run at 1.
  set (st := fun l : list Z => mkStrout (poke str (map u8 l) m) (str + Z.of_nat (length l))).
  change (mkStrout m str) with (mkStrout m str). replace (mkStrout m str) with (st []) by (unfold st; cbn; by rewrite Z.add_0_r).
  rewrite (run_doprnt_sink sprntf st (length out)) with (n := n) (out := out); [| | done | done | done].
  - cbn [so_mem so_s st]. rewrite run_bind, run_stb by (apply (mapped_poke _ _ _ _ _ Hm); lia). cbn [obind].
    rewrite run_ret, poke_app, length_map. cbn [poke]. change (u8 0) with 0. f_equal. lia.
  - intros l c Hl. unfold sprntf, run, st. cbn [so_mem so_s].
    destruct (mapped_poke m str (map u8 l) _ _ Hm (Z.of_nat (length l)) ltac:(lia)) as [v ->].
    rewrite map_app, poke_app, length_map, length_app. cbn. f_equal. f_equal. lia.
Qed.


(** ** Printing a number and reading it back *)

Lemma value_lower base l : 2 <= base -> Forall (fun d => 0 <= d < base) l ->
  forall a, 0 <= a -> a * base ^ Z.of_nat (length l) <= foldl (fun a d => a * base + d) a l.
Proof.
  intros Hb. induction l as [|d l IH]; intros Hl a Ha; [cbn; lia |]. apply Forall_cons in Hl as [Hd Hl]. cbn [foldl length].
  specialize (IH Hl (a * base + d) ltac:(nia)). rewrite Nat2Z.inj_succ, Z.pow_succ_r by lia.
  pose proof (Z.pow_pos_nonneg base (Z.of_nat (length l)) ltac:(lia) ltac:(lia)). nia.
Qed.

(** A number below [base ^ k] has at most [k] digits. *)
Lemma digits_short base num l k : 2 <= base -> 0 < k -> digits_of base num l -> num < base ^ k -> Z.of_nat (length l) <= k.
Proof.
  intros Hb Hk [Hv Hr Hlead] Hn. destruct Hlead as [-> | (d & r & -> & Hd)]; [cbn; lia |].
  apply Forall_cons in Hr as [Hd0 Hr]. pose proof (value_lower base r Hb Hr d ltac:(lia)) as Hlow.
  change (value base (d :: r)) with (foldl (fun a d => a * base + d) d r) in Hv. rewrite Hv in Hlow. cbn [length].
  destruct (Z.lt_ge_cases (Z.of_nat (length r)) k) as [? | Hge]; [lia |]. exfalso.
  pose proof (Z.pow_le_mono_r base k (Z.of_nat (length r)) ltac:(lia) Hge). nia.
Qed.

Lemma shows_bytes z l : - 2 ^ 31 <= z < 2 ^ 31 -> shows z l ->
  Z.of_nat (length l) <= 11 /\ Forall (fun c => 0 < c < 256) l.
Proof.
  intros Hz (ds & Hd & ->). pose proof (digits_short 10 (Z.abs z) ds 10 ltac:(lia) ltac:(lia) Hd ltac:(lia)) as Hlen.
  rewrite length_app, length_map. split; [destruct (z <? 0); cbn [length]; lia |].
  apply Forall_app_2; [destruct (z <? 0); repeat constructor; lia |].
  apply Forall_map. eapply Forall_impl; [exact (dg_range _ _ _ Hd) |]. intros d Hdr. unfold digit. cbv beta in *.
  rewrite (proj2 (Z.ltb_lt d 10)) by lia. lia.
Qed.
