(* ===== verification/Sort.v ===== *)
(** lib/libxc/qsort.c: sorting an array in place, and the small routines of
    lib/libxc/abs.c, labs.c and rand.c. *)
From Stdlib Require Import ZArith Lia.
From stdpp Require Import sorting gmap list.
From S2P Require Import Prelude Kernel Bytes.

(** ** Routines *)

Definition swap_elements (p1 p2 size : Z) : bprog unit :=
  for_ (Z.to_nat size) 0 (fun i _ =>
    tmp ← ldb (p1 + i);
    b ← ldb (p2 + i);
    stb (p1 + i) b;;
    stb (p2 + i) tmp;;
    mret (inl tt : unit + unit)) tt;;
  mret tt.

Section Qsort.
(** The comparison function gets the addresses of two elements. *)
Context (compar : Z -> Z -> bprog Z).

(** The [do ... while (p1 != p2)] loop: [p1] and its index when it ends. *)
Fixpoint partition_loop (fuel : nat) (base size p1 p1_index p2 : Z) : bprog (Z * Z) :=
  match fuel with
  | O => diverge
  | S fuel =>
      c ← compar p1 base;
      st ← (if c <=? 0 then mret (p1 + size, p1_index + 1, p2)
            else
              let p2 := p2 - size in
              swap_elements p1 p2 size;;
              mret (p1, p1_index, p2));
      let '(p1, p1_index, p2) := st in
      if negb (p1 =? p2) then partition_loop fuel base size p1 p1_index p2 else mret (p1, p1_index)
  end.

Definition partition (base nmemb size : Z) : bprog Z :=
  r ← partition_loop (Z.to_nat nmemb) base size (base + size) 1 (base + nmemb * size);
  let '(p1, p1_index) := r in
  let p1 := p1 - size in
  swap_elements p1 base size;;
  mret (p1_index - 1).

Fixpoint qsort (fuel : nat) (base nmemb size : Z) : bprog unit :=
  if nmemb >? 1 then
    match fuel with
    | O => diverge
    | S fuel =>
        pivot_index ← partition base nmemb size;
        qsort fuel base pivot_index size;;
        qsort fuel (base + (pivot_index + 1) * size) (nmemb - (pivot_index + 1)) size
    end
  else mret tt.
End Qsort.

(** *** Small routines; [seed] is the static variable of rand.c. *)

Definition abs (j : Z) : Z := if j <? 0 then i32 (- j) else j.
Definition labs (j : Z) : Z := if j <? 0 then i32 (- j) else j.

Definition RAND_MAX : Z := 32767.
Definition srand (x : Z) : prog Z unit := modify (fun _ => u32 x).
Definition rand : prog Z Z :=
  seed ← gets (fun seed => seed);
  modify (fun _ => u32 (u32 (seed * 1103515245) + 12345));;
  seed ← gets (fun seed => seed);
  mret ((seed / 2 ^ 16) mod (RAND_MAX + 1)).

(** ** Swapping *)

(** A loop that keeps an invariant [P j] of the number of rounds. *)
Lemma for_inv {T} (body : Z -> unit -> prog T (unit + unit)) (P : nat -> T -> Prop) n : forall k i s,
  P k s ->
  (forall j s, (k <= j < k + n)%nat -> P j s ->
     exists s', run (body (i + Z.of_nat (j - k)) tt) s = Done (inl tt) s' /\ P (S j) s') ->
  exists s', run (for_ n i body tt) s = Done (inl tt) s' /\ P (k + n)%nat s'.
Proof.
  induction n as [|n IH]; intros k i s H0 Hstep; cbn [for_].
  - exists s. by rewrite Nat.add_0_r.
  - destruct (Hstep k s ltac:(lia) H0) as (s1 & H1 & HP1). rewrite Nat.sub_diag, Z.add_0_r in H1.
    destruct (IH (S k) (i + 1) s1 HP1) as (s2 & H2 & HP2).
    { intros j t Hj HP. replace (i + 1 + Z.of_nat (j - S k)) with (i + Z.of_nat (j - k)) by lia. apply Hstep; [lia | done]. }
    exists s2. rewrite run_bind, H1. split; [done |]. by replace (k + S n)%nat with (S k + n)%nat by lia.
Qed.

Definition inside (a n w : Z) : Prop := a <= w < a + n.

(** Two elements, the same one or at separate places, are exchanged. *)
Lemma run_swap m p1 p2 x y :
  bytes_at m p1 x -> bytes_at m p2 y -> length x = length y -> Forall isbyte x -> Forall isbyte y ->
  let n := Z.of_nat (length x) in
  p1 = p2 \/ apart p1 n p2 n ->
  exists m', run (swap_elements p1 p2 n) m = Done tt m' /\ bytes_at m' p1 y /\ bytes_at m' p2 x /\
    forall w, ~ inside p1 n w -> ~ inside p2 n w -> m' !! w = m !! w.
Proof.
  intros Hx Hy Hlen Fx Fy n Hap. unfold swap_elements. rewrite run_bind. unfold n at 1. rewrite Nat2Z.id.
  set (P := fun (j : nat) (m' : bytemem) =>
    (forall k c, (k < j)%nat -> y !! k = Some c -> m' !! (p1 + Z.of_nat k) = Some c) /\
    (forall k c, (k < j)%nat -> x !! k = Some c -> m' !! (p2 + Z.of_nat k) = Some c) /\
    (forall w, ~ inside p1 (Z.of_nat j) w -> ~ inside p2 (Z.of_nat j) w -> m' !! w = m !! w)).
  match goal with |- context [run (for_ _ 0 ?b _) _] => destruct (for_inv b P (length x) 0%nat 0 m) as (m' & Hrun & HP) end.
  - split; [lia |]. split; [lia | done].
  - intros j m1 Hj (H1 & H2 & H3). rewrite Nat.sub_0_r, Z.add_0_l.
    destruct (lookup_lt_is_Some_2 x j ltac:(lia)) as [a Ha]. destruct (lookup_lt_is_Some_2 y j ltac:(lia)) as [b Hb].
    assert (M1 : m1 !! (p1 + Z.of_nat j) = Some a)
      by (rewrite H3; [by apply Hx | unfold inside; lia | unfold inside, apart in *; lia]).
    assert (M2 : m1 !! (p2 + Z.of_nat j) = Some b)
      by (rewrite H3; [by apply Hy | unfold inside, apart in *; lia | unfold inside; lia]).
    assert (Bb : u8 b = b) by (apply u8_small; exact (proj1 (Forall_lookup _ _) Fy j b Hb)).
    assert (Ba : u8 a = a) by (apply u8_small; exact (proj1 (Forall_lookup _ _) Fx j a Ha)).
    eexists. rewrite run_bind, (run_ldb _ a) by done. cbn [obind]. rewrite run_bind, (run_ldb _ b) by done. cbn [obind].
    rewrite run_bind, run_stb by done. cbn [obind]. rewrite run_bind, run_stb by (apply lookup_insert_is_Some'; by right).
    cbn [obind]. rewrite run_ret. split; [done |]. rewrite Ba, Bb. split; [| split].
    + intros k c Hk Hc. destruct (decide (p2 + Z.of_nat j = p1 + Z.of_nat k)) as [E | Hne].
      * rewrite E, lookup_insert_eq. destruct Hap as [Hp | Hp]; [| unfold apart in *; lia].
        assert (j = k) as -> by lia. rewrite <- Hp in M2. congruence.
      * rewrite lookup_insert_ne by done. destruct (decide (j = k)) as [-> |]; [rewrite lookup_insert_eq; congruence |].
        rewrite lookup_insert_ne by lia. apply H1; [lia | done].
    + intros k c Hk Hc. destruct (decide (j = k)) as [-> |]; [rewrite lookup_insert_eq; congruence |].
      rewrite lookup_insert_ne by lia. rewrite lookup_insert_ne by (unfold apart in *; lia). apply H2; [lia | done].
    + intros w Hw1 Hw2. unfold inside in *. rewrite !lookup_insert_ne by lia. apply H3; unfold inside; lia.
  - exists m'. rewrite Hrun. cbn [obind]. rewrite run_ret. destruct HP as (H1 & H2 & H3). split; [done |].
    split; [| split].
    + intros k c Hc. apply H1; [| done]. apply lookup_lt_Some in Hc. lia.
    + intros k c Hc. apply H2; [| done]. apply lookup_lt_Some in Hc. lia.
    + exact H3.
Qed.

(** ** Arrays *)

(** The elements [l], of [size] bytes each, are at [base]. *)
Definition arr (m : bytemem) (base size : Z) (l : list (list Z)) : Prop :=
  (forall i x, l !! i = Some x -> Z.of_nat (length x) = size /\ Forall isbyte x) /\
  (forall i x, l !! i = Some x -> bytes_at m (base + Z.of_nat i * size) x).

(** Nothing outside the array has changed. *)
Definition outside_same (base n : Z) (m m' : bytemem) : Prop := forall w, ~ inside base n w -> m' !! w = m !! w.

Definition swapped (i j : nat) (x y : list Z) (l : list (list Z)) : list (list Z) := <[i := y]> (<[j := x]> l).

Lemma insert_perm {A} (l : list A) i x y : l !! i = Some x -> <[i := y]> l ≡ₚ y :: delete i l.
Proof.
  intros H. rewrite insert_take_drop, delete_take_drop by (by eapply lookup_lt_Some).
  by rewrite Permutation_middle.
Qed.

Lemma swapped_perm i j x y l : l !! i = Some x -> l !! j = Some y -> swapped i j x y l ≡ₚ l.
Proof.
  intros Hi Hj. unfold swapped. destruct (decide (i = j)) as [-> | Hne].
  - rewrite Hi in Hj. injection Hj as ->. by rewrite !list_insert_id by (rewrite ?list_insert_id; done).
  - assert (Hi1 : <[j := x]> l !! i = Some x) by (by rewrite list_lookup_insert_ne).
    assert (Hd : delete i (<[j := x]> l) ≡ₚ delete j l).
    { apply (Permutation_cons_inv (a := x)). transitivity (<[j := x]> l); [symmetry; by apply delete_Permutation |].
      by apply (insert_perm l j y x). }
    transitivity (y :: delete i (<[j := x]> l)); [by apply insert_perm with x |].
    transitivity (y :: delete j l); [by constructor | symmetry; by apply delete_Permutation].
Qed.

Lemma swapped_lookup i j x y l t z : l !! i = Some x -> l !! j = Some y ->
  swapped i j x y l !! t = Some z ->
  (t = i /\ z = y) \/ (t <> i /\ t = j /\ z = x) \/ (t <> i /\ t <> j /\ l !! t = Some z).
Proof.
  intros Hi Hj. unfold swapped. apply lookup_lt_Some in Hi as Li, Hj as Lj.
  destruct (decide (t = i)) as [-> | H1]; [rewrite list_lookup_insert_eq by (rewrite length_insert; lia); intros [= <-]; auto |].
  rewrite list_lookup_insert_ne by done. destruct (decide (t = j)) as [-> | H2]; [rewrite list_lookup_insert_eq by lia; intros [= <-]; auto |].
  rewrite list_lookup_insert_ne by done. auto.
Qed.

Lemma arr_swap m base size l i j x y :
  0 < size -> arr m base size l -> l !! i = Some x -> l !! j = Some y ->
  exists m', run (swap_elements (base + Z.of_nat i * size) (base + Z.of_nat j * size) size) m = Done tt m' /\
    arr m' base size (swapped i j x y l) /\ outside_same base (Z.of_nat (length l) * size) m m'.
Proof.
  intros Hs [Hl Hb] Hi Hj. destruct (Hl _ _ Hi) as [Lx Fx]. destruct (Hl _ _ Hj) as [Ly Fy].
  apply lookup_lt_Some in Hi as Ii, Hj as Ij.
  destruct (run_swap m _ _ x y (Hb _ _ Hi) (Hb _ _ Hj) ltac:(lia) Fx Fy) as (m' & Hrun & H1 & H2 & H3).
  { rewrite Lx. unfold apart. assert (i = j \/ i < j \/ j < i)%nat as [-> | [? | ?]] by lia; [by left | right; left; nia | right; right; nia]. }
  rewrite Lx in *. exists m'. split; [done |]. split; [split |].
  - intros t z Hz. apply (swapped_lookup _ _ _ _ _ _ _ Hi Hj) in Hz as [[_ ->] | [(_ & _ & ->) | (_ & _ & Hz)]]; eauto.
  - intros t z Hz. apply (swapped_lookup _ _ _ _ _ _ _ Hi Hj) in Hz as [[-> ->] | [(_ & -> & ->) | (N1 & N2 & Hz)]]; [exact H1 | exact H2 |].
    intros k c Hk. pose proof (proj1 (Hl _ _ Hz)) as Lz. apply lookup_lt_Some in Hk as Ik.
    rewrite H3; [by apply (Hb _ _ Hz) | |]; unfold inside; nia.
  - intros w Hw. unfold inside in Hw. apply H3; unfold inside; nia.
Qed.

Lemma outside_trans base n m1 m2 m3 : outside_same base n m1 m2 -> outside_same base n m2 m3 -> outside_same base n m1 m3.
Proof. intros H1 H2 w Hw. by rewrite H2, H1. Qed.

Lemma outside_weaken base n base' n' m m' :
  outside_same base n m m' -> base' <= base -> base + n <= base' + n' -> outside_same base' n' m m'.
Proof. intros H H1 H2 w Hw. apply H. unfold inside in *. lia. Qed.

Lemma arr_out m m' base size l lo n :
  0 <= size -> arr m base size l -> outside_same lo n m m' ->
  base + Z.of_nat (length l) * size <= lo \/ lo + n <= base -> arr m' base size l.
Proof.
  intros Hs [Hl Hb] Ho Ha. split; [done |]. intros i x Hx k c Hk. rewrite Ho; [by apply (Hb _ _ Hx) |].
  destruct (Hl _ _ Hx) as [Lx _]. apply lookup_lt_Some in Hx, Hk. unfold inside. nia.
Qed.

Lemma arr_app m base size l1 l2 :
  arr m base size (l1 ++ l2) <-> arr m base size l1 /\ arr m (base + Z.of_nat (length l1) * size) size l2.
Proof.
  split.
  - intros [Hl Hb]. split; split; intros i x Hx.
    + apply (Hl i). by apply lookup_app_l_Some.
    + apply (Hb i). by apply lookup_app_l_Some.
    + apply (Hl (length l1 + i)%nat). by rewrite lookup_app_r, Nat.add_comm, Nat.add_sub by lia.
    + specialize (Hb (length l1 + i)%nat x). rewrite lookup_app_r, Nat.add_comm, Nat.add_sub in Hb by lia.
      specialize (Hb Hx). by replace (base + Z.of_nat (length l1) * size + Z.of_nat i * size) with (base + Z.of_nat (i + length l1) * size) by lia.
  - intros [[H1 H2] [H3 H4]]. split; intros i x [Hx | [Hi Hx]]%lookup_app_Some; eauto.
    specialize (H4 _ _ Hx). replace (base + Z.of_nat i * size) with (base + Z.of_nat (length l1) * size + Z.of_nat (i - length l1) * size); [done |].
    rewrite Nat2Z.inj_sub by lia. lia.
Qed.

(** ** Sorting *)

Section Sorting.
Context (compar : Z -> Z -> bprog Z) (size : Z) (cmp : list Z -> list Z -> Z).
Hypothesis Hsize : 0 < size.
(** The comparison of two elements of [size] bytes reads them only, and orders
    them. *)
Hypothesis Hcompar : forall m p q x y,
  bytes_at m p x -> bytes_at m q y -> Z.of_nat (length x) = size -> Z.of_nat (length y) = size ->
  run (compar p q) m = Done (cmp x y) m.
Hypothesis Htotal : forall x y, cmp x y <= 0 \/ cmp y x <= 0.
Hypothesis Htrans : forall x y z, cmp x y <= 0 -> cmp y z <= 0 -> cmp x z <= 0.

Definition ordered (x y : list Z) : Prop := cmp x y <= 0.

(** The elements from 1 to [i] are not above the pivot [v] at 0, those from [k] on
    are above it. *)
Definition split_at (v : list Z) (i k : nat) (l : list (list Z)) : Prop :=
  l !! 0%nat = Some v /\
  (forall t x, (1 <= t < i)%nat -> l !! t = Some x -> ordered x v) /\
  (forall t x, (k <= t)%nat -> l !! t = Some x -> ordered v x).

Lemma run_partition_loop base v : forall fuel i k m l,
  arr m base size l -> split_at v i k l -> (1 <= i < k)%nat -> (k <= length l)%nat -> (k - i <= fuel)%nat ->
  exists m' l' c, run (partition_loop compar fuel base size (base + Z.of_nat i * size) (Z.of_nat i) (base + Z.of_nat k * size)) m
      = Done (base + Z.of_nat c * size, Z.of_nat c) m' /\
    arr m' base size l' /\ l' ≡ₚ l /\ (1 <= c <= length l)%nat /\ split_at v c c l' /\
    outside_same base (Z.of_nat (length l) * size) m m'.
Proof.
  induction fuel as [|fuel IH]; intros i k m l Ha (H0 & Hlo & Hhi) Hik Hk Hf; [lia |]. cbn [partition_loop].
  destruct (lookup_lt_is_Some_2 l i ltac:(lia)) as [x Hx]. pose proof Ha as [Hl Hb].
  rewrite run_bind, (Hcompar m _ _ x v (Hb _ _ Hx)); [| | by apply (Hl i) | by apply (Hl 0%nat)].
  2: { specialize (Hb _ _ H0). by rewrite Z.mul_0_l, Z.add_0_r in Hb. }
  cbn [obind]. destruct (Z.leb_spec (cmp x v) 0) as [Hc | Hc]; rewrite run_bind.
  - rewrite run_ret. cbn [obind]. replace (base + Z.of_nat i * size + size) with (base + Z.of_nat (S i) * size) by lia.
    replace (Z.of_nat i + 1) with (Z.of_nat (S i)) by lia.
    assert (Hs : split_at v (S i) k l).
    { split; [done |]. split; [| done]. intros t y Ht Hy. destruct (decide (t = i)) as [-> |]; [| eapply Hlo; [| done]; lia].
      by simplify_eq. }
    destruct (decide (S i = k)) as [<- | Hne].
    + rewrite Z.eqb_refl. cbn [negb]. exists m, l, (S i). rewrite run_ret. split_and!; try done; lia.
    + rewrite (proj2 (Z.eqb_neq _ _)) by nia. cbn [negb]. apply IH; [done | done | lia | lia | lia].
  - destruct (lookup_lt_is_Some_2 l (k - 1) ltac:(lia)) as [y Hy].
    replace (base + Z.of_nat k * size - size) with (base + Z.of_nat (k - 1) * size) by (rewrite Nat2Z.inj_sub by lia; lia).
    destruct (arr_swap m base size l i (k - 1) x y Hsize Ha Hx Hy) as (m1 & H1 & Ha1 & Ho1).
    rewrite run_bind, H1. cbn [obind]. rewrite run_ret. cbn [obind].
    set (l1 := swapped i (k - 1) x y l) in *. assert (Hp1 : l1 ≡ₚ l) by (by apply swapped_perm).
    assert (Hlen : length l1 = length l) by (by rewrite Hp1).
    assert (Hs : split_at v i (k - 1) l1).
    { split; [| split].
      - unfold l1, swapped. by rewrite !list_lookup_insert_ne by lia.
      - intros t z Ht Hz. apply (swapped_lookup _ _ _ _ _ _ _ Hx Hy) in Hz as [[? _] | [(_ & ? & _) | (_ & _ & Hz)]]; [lia | lia |].
        by eapply Hlo.
      - intros t z Ht Hz. apply (swapped_lookup _ _ _ _ _ _ _ Hx Hy) in Hz as [[-> ->] | [(_ & -> & ->) | (N1 & N2 & Hz)]].
        + assert (i = k - 1)%nat as Ei by lia. rewrite Ei in Hx. assert (y = x) as -> by congruence. unfold ordered. destruct (Htotal x v); [lia | done].
        + unfold ordered. destruct (Htotal x v); [lia | done].
        + apply (Hhi t z); [lia | done]. }
    destruct (decide (i = (k - 1)%nat)) as [E | Hne].
    + rewrite <- E, Z.eqb_refl. cbn [negb]. rewrite <- E in Hs. exists m1, l1, i. rewrite run_ret. split_and!; try done; lia.
    + rewrite (proj2 (Z.eqb_neq _ _)) by nia. cbn [negb].
      destruct (IH i (k - 1)%nat m1 l1 Ha1 Hs) as (m2 & l2 & c & H2 & Ha2 & Hp2 & Hc2 & Hs2 & Ho2); [lia | lia | lia |].
      rewrite Hlen in *. exists m2, l2, c. split_and!; try done; [by rewrite Hp2 | lia | lia | by eapply outside_trans].
Qed.

(** [partition] puts the pivot in its place. *)
Lemma run_partition m base l :
  arr m base size l -> (1 < length l)%nat ->
  exists m' l1 v l2, run (partition compar base (Z.of_nat (length l)) size) m = Done (Z.of_nat (length l1)) m' /\
    arr m' base size (l1 ++ v :: l2) /\ l1 ++ v :: l2 ≡ₚ l /\
    Forall (fun x => ordered x v) l1 /\ Forall (ordered v) l2 /\
    outside_same base (Z.of_nat (length l) * size) m m'.
Proof.
  intros Ha Hlen. destruct (lookup_lt_is_Some_2 l 0 ltac:(lia)) as [v Hv].
  destruct (run_partition_loop base v (length l) 1 (length l) m l Ha) as (m1 & l1 & c & H1 & Ha1 & Hp1 & Hc1 & (Hv1 & Hlo & Hhi) & Ho1);
    [split; [done |]; split; [lia | intros t x Ht Hx; apply lookup_lt_Some in Hx; lia] | lia | lia | lia |].
  unfold partition. rewrite Nat2Z.id. rewrite run_bind.
  replace (base + size) with (base + Z.of_nat 1 * size) by lia. change 1 with (Z.of_nat 1) at 2. rewrite H1. cbn [obind].
  assert (Hlen1 : length l1 = length l) by (by rewrite Hp1).
  destruct (lookup_lt_is_Some_2 l1 (c - 1) ltac:(lia)) as [y Hy].
  replace (base + Z.of_nat c * size - size) with (base + Z.of_nat (c - 1) * size) by (rewrite Nat2Z.inj_sub by lia; lia).
  destruct (arr_swap m1 base size l1 (c - 1) 0 y v Hsize Ha1 Hy Hv1) as (m2 & H2 & Ha2 & Ho2).
  rewrite Z.mul_0_l, Z.add_0_r in H2. rewrite run_bind, H2. cbn [obind]. rewrite run_ret.
  set (l2 := swapped (c - 1) 0 y v l1) in *. assert (Hp2 : l2 ≡ₚ l1) by (by apply swapped_perm).
  assert (Hv2 : l2 !! (c - 1)%nat = Some v) by (unfold l2, swapped; apply list_lookup_insert_eq; rewrite length_insert; lia).
  assert (E : l2 = take (c - 1) l2 ++ v :: drop (S (c - 1)) l2) by (symmetry; by apply take_drop_middle).
  exists m2, (take (c - 1) l2), v, (drop (S (c - 1)) l2). rewrite <- E. split_and!; try done.
  - f_equal. rewrite length_take, Hp2. lia.
  - by rewrite Hp2.
  - apply Forall_lookup_2. intros t x Hx. apply lookup_take_Some in Hx as [Hx Ht].
    apply (swapped_lookup _ _ _ _ _ _ _ Hy Hv1) in Hx as [[? _] | [(Hn & -> & ->) | (_ & Hn & Hx)]]; [lia | |].
    + apply (Hlo (c - 1)%nat y); [lia | done].
    + apply (Hlo t x); [lia | done].
  - apply Forall_lookup_2. intros t x Hx. rewrite lookup_drop in Hx.
    apply (swapped_lookup _ _ _ _ _ _ _ Hy Hv1) in Hx as [[? _] | [(_ & ? & _) | (_ & _ & Hx)]]; [lia | lia |].
    apply (Hhi (S (c - 1) + t)%nat x); [lia | done].
  - rewrite Hlen1 in Ho2. by eapply outside_trans.
Qed.

Lemma run_qsort : forall fuel base l m,
  arr m base size l -> (length l <= fuel)%nat ->
  exists m' l', run (qsort compar fuel base (Z.of_nat (length l)) size) m = Done tt m' /\
    arr m' base size l' /\ l' ≡ₚ l /\ StronglySorted ordered l' /\
    outside_same base (Z.of_nat (length l) * size) m m'.
Proof.
  induction fuel as [|fuel IH]; intros base l m Ha Hf.
  - destruct l; [| cbn in Hf; lia]. exists m, []. split_and!; try done. constructor.
  - destruct (decide (length l <= 1)%nat) as [Hs | Hs].
    + cbn [qsort]. rewrite Z.gtb_ltb, (proj2 (Z.ltb_ge _ _)) by lia. exists m, l. split_and!; try done.
      destruct l as [|x [|y l]]; cbn in Hs; [constructor | | lia]. constructor; [constructor | apply Forall_nil_2].
    + cbn [qsort]. rewrite Z.gtb_ltb, (proj2 (Z.ltb_lt _ _)) by lia.
      destruct (run_partition m base l Ha ltac:(lia)) as (m1 & l1 & v & l2 & H1 & Ha1 & Hp1 & Hlo & Hhi & Ho1).
      assert (Hlen : (length l = length l1 + S (length l2))%nat) by (rewrite <- Hp1, length_app; done).
      rewrite run_bind, H1. cbn [obind]. rewrite run_bind. apply arr_app in Ha1 as [Ha1 Ha2].
      apply (arr_app _ _ _ [v]) in Ha2 as [Hav Ha2]. cbn [length] in Ha2.
      destruct (IH base l1 m1 Ha1 ltac:(lia)) as (m2 & k1 & H2 & Hb1 & Hq1 & Hs1 & Ho2). rewrite H2. cbn [obind].
      replace (base + (Z.of_nat (length l1) + 1) * size) with (base + Z.of_nat (length l1) * size + Z.of_nat 1 * size) by lia.
      replace (Z.of_nat (length l) - (Z.of_nat (length l1) + 1)) with (Z.of_nat (length l2)) by lia.
      assert (Hs0 : 0 <= size) by lia.
      destruct (IH _ l2 m2 (arr_out _ _ _ _ _ _ _ Hs0 Ha2 Ho2 ltac:(lia)) ltac:(lia)) as (m3 & k2 & H3 & Hb2 & Hq2 & Hs2 & Ho3).
      assert (L1 : length k1 = length l1) by (by rewrite Hq1). assert (L2 : length k2 = length l2) by (by rewrite Hq2).
      exists m3, (k1 ++ v :: k2). split; [exact H3 |]. split; [| split; [| split]].
      * apply arr_app. rewrite L1. split; [apply (arr_out m2 _ _ _ _ _ _ Hs0 Hb1 Ho3); lia |].
        apply (arr_app _ _ _ [v]). split; [| done].
        refine (arr_out m2 _ _ _ _ _ _ Hs0 _ Ho3 _); [| cbn [length]; lia].
        apply (arr_out m1 _ _ _ _ _ _ Hs0 Hav Ho2). lia.
      * rewrite <- Hp1, Hq1, Hq2. done.
      * apply StronglySorted_app_2; [| done |].
        -- intros x y Hx Hy. rewrite Hq1 in Hx. apply elem_of_cons in Hy.
           pose proof (proj1 (Forall_forall _ _) Hlo x Hx) as Hxv. destruct Hy as [-> | Hy]; [done |]. rewrite Hq2 in Hy.
           eapply Htrans; [exact Hxv | exact (proj1 (Forall_forall _ _) Hhi y Hy)].
        -- constructor; [done |]. by rewrite Hq2.
      * eapply outside_trans; [exact Ho1 |]. eapply outside_trans; eapply outside_weaken; eauto; lia.
Qed.

(** C34: [qsort] with a comparison that is a total order leaves the elements of the
    array in ascending order, each as often as before, and does not write outside
    the array; as many levels of recursion as elements are enough. *)
Theorem qsort_sorts fuel base l m :
  arr m base size l -> (length l <= fuel)%nat ->
  exists m' l', run (qsort compar fuel base (Z.of_nat (length l)) size) m = Done tt m' /\
    arr m' base size l' /\ Permutation l' l /\ StronglySorted ordered l' /\
    outside_same base (Z.of_nat (length l) * size) m m'.
Proof. apply run_qsort. Qed.
End Sorting.

(** *** Absolute value and random numbers *)

(** [abs] is the absolute value but for the least integer, which has none. *)
Lemma abs_spec j : - 2 ^ 31 <= j < 2 ^ 31 -> abs j = if j =? - 2 ^ 31 then j else Z.abs j.
Proof.
  intros Hj. unfold abs. destruct (Z.eqb_spec j (- 2 ^ 31)) as [-> | Hne]; [by vm_compute |].
  destruct (Z.ltb_spec j 0); [rewrite i32_small |]; lia.
Qed.

Lemma rand_range seed : exists r seed', run rand seed = Done r seed' /\ 0 <= r <= RAND_MAX /\ 0 <= seed' < 2 ^ 32.
Proof.
  eexists _, _. unfold rand. autorewrite with prun. cbn [obind]. autorewrite with prun. cbn [obind].
  autorewrite with prun. cbn [obind]. autorewrite with prun. split; [done |]. pose proof (u32_bound (u32 (seed * 1103515245) + 12345)).
  unfold RAND_MAX. lia.
Qed.
