(* ===== verification/Ulaw.v ===== *)
(** Audio samples: lib/libdsp/linear2ulaw.c and lib/libdsp/ulaw2linear.c, the
    companding of 16-bit linear samples to 8 bits and back. *)
From Stdlib Require Import ZArith Lia.
From stdpp Require Import list.
From S2P Require Import Prelude.

(** ** Routines *)

Definition BIAS : Z := 132.
Definition CLIP : Z := 32635.

(** The table of [linear2ulaw]: the exponent of a biased magnitude, from its upper
    eight bits. *)
Definition exp_lut : list Z :=
  replicate 2 0 ++ replicate 2 1 ++ replicate 4 2 ++ replicate 8 3 ++
  replicate 16 4 ++ replicate 32 5 ++ replicate 64 6 ++ replicate 128 7.

(** [ZEROTRAP] is defined. *)
Definition linear2ulaw (sample : Z) : Z :=
  let sign := Z.land (Z.shiftr sample 8) 128 in
  let sample := if negb (sign =? 0) then - sample else sample in
  let sample := if sample >? CLIP then CLIP else sample in
  let sample := sample + BIAS in
  let exponent := nth (Z.to_nat (Z.land (Z.shiftr sample 7) 255)) exp_lut 0 in
  let mantissa := Z.land (Z.shiftr sample (exponent + 3)) 15 in
  let ulawbyte := u8 (Z.lnot (Z.lor (Z.lor sign (Z.shiftl exponent 4)) mantissa)) in
  if ulawbyte =? 0 then 2 else ulawbyte.

(** The table of [ulaw2linear]: where each segment begins. *)
Definition seg_lut : list Z := [0; 132; 396; 924; 1980; 4092; 8316; 16764].

Definition ulaw2linear (ulawbyte : Z) : Z :=
  let ulawbyte := u8 (Z.lnot (u8 ulawbyte)) in
  let sign := Z.land ulawbyte 128 in
  let exponent := Z.land (Z.shiftr ulawbyte 4) 7 in
  let mantissa := Z.land ulawbyte 15 in
  let sample := nth (Z.to_nat exponent) seg_lut 0 + Z.shiftl mantissa (exponent + 3) in
  if negb (sign =? 0) then - sample else sample.

(** ** A range of samples, checked one by one *)

Fixpoint all_from (n : nat) (x : Z) (f : Z -> bool) : bool :=
  match n with
  | O => true
  | S n => f x && all_from n (x + 1) f
  end.

Lemma all_from_spec f n x y : all_from (Z.to_nat n) x f = true -> x <= y < x + n -> f y = true.
Proof.
  intros H Hy. assert (Hn : x <= y < x + Z.of_nat (Z.to_nat n)) by lia. clear Hy. revert x H Hn.
  induction (Z.to_nat n) as [|k IH]; intros x H Hn; [lia |].
  cbn in H. apply andb_prop in H as [H1 H2].
  destruct (decide (y = x)) as [-> | Hne]; [done |]. apply (IH (x + 1)); [done | lia].
Qed.

(** ** Cells

    A sample of biased magnitude between [(16 + m) * 2 ^ (e + 3)] and
    [(17 + m) * 2 ^ (e + 3)] is coded by the exponent [e] and the mantissa [m] and
    decoded to the middle of the cell. *)

Definition middle (e m : Z) : Z := (33 + 2 * m) * 2 ^ (e + 2) - BIAS.

Definition code (neg : bool) (e m : Z) : Z :=
  let b := u8 (Z.lnot (Z.lor (Z.lor (if neg then 128 else 0) (Z.shiftl e 4)) m)) in
  if b =? 0 then 2 else b.

Record cell (x e m : Z) : Prop := {
  c_exp : 0 <= e < 8;
  c_man : 0 <= m < 16;
  c_low : (16 + m) * 2 ^ (e + 3) <= x + BIAS;
  c_high : x + BIAS < (17 + m) * 2 ^ (e + 3)
}.

(** The loudest negative cell is the one the trap is for. *)
Lemma decode_code neg e m :
  0 <= e < 8 -> 0 <= m < 16 -> (neg && (e =? 7) && (m =? 15)) = false ->
  ulaw2linear (code neg e m) = if neg then - middle e m else middle e m.
Proof.
  intros He Hm. rewrite <- (Z.eqb_eq (ulaw2linear _)). rewrite <- not_true_iff_false. intros Ht.
  set (f := fun neg k => (neg && (k / 16 =? 7) && (k mod 16 =? 15)) ||
    (ulaw2linear (code neg (k / 16) (k mod 16)) =? (if neg then - middle (k / 16) (k mod 16) else middle (k / 16) (k mod 16)))).
  assert (H : f neg (16 * e + m) = true).
  { apply (all_from_spec (f neg) 128 0); [by destruct neg; vm_compute | lia]. }
  unfold f in H. replace ((16 * e + m) / 16) with e in H by lia. replace ((16 * e + m) mod 16) with m in H by lia.
  apply orb_prop in H as [H | H]; [done |]. by destruct neg.
Qed.

Lemma exponent_spec k : 1 <= k < 256 ->
  let e := nth (Z.to_nat k) exp_lut 0 in 0 <= e < 8 /\ 2 ^ e <= k < 2 ^ (e + 1).
Proof.
  intros Hk e. set (f := fun k => let e := nth (Z.to_nat k) exp_lut 0 in
    (0 <=? e) && (e <? 8) && (2 ^ e <=? k) && (k <? 2 ^ (e + 1))).
  assert (H : f k = true) by (apply (all_from_spec f 255 1); [by vm_compute | lia]).
  unfold f in H. fold e in H. lia.
Qed.

Lemma sign_spec x : -32768 <= x <= 32767 -> Z.land (Z.shiftr x 8) 128 = if x <? 0 then 128 else 0.
Proof.
  intros Hx. rewrite Z.shiftr_div_pow2 by lia. change (2 ^ 8) with 256.
  set (f := fun k => Z.land k 128 =? if k <? 0 then 128 else 0).
  assert (H : f (x / 256) = true) by (apply (all_from_spec f 256 (-128)); [by vm_compute | lia]).
  unfold f in H. apply Z.eqb_eq in H. rewrite H. destruct (Z.ltb_spec (x / 256) 0), (Z.ltb_spec x 0); lia.
Qed.

(** The clipped magnitude of a sample lies in a cell, and the sample gets its code. *)
Lemma encode_cell x : -32768 <= x <= 32767 ->
  exists e m, cell (Z.min (Z.abs x) CLIP) e m /\ linear2ulaw x = code (x <? 0) e m.
Proof.
  intros Hx. unfold linear2ulaw. rewrite sign_spec by done.
  assert (Hmag : (let s := if negb ((if x <? 0 then 128 else 0) =? 0) then - x else x in
                  if s >? CLIP then CLIP else s) = Z.min (Z.abs x) CLIP).
  { destruct (Z.ltb_spec x 0); cbn [negb Z.eqb]; cbv zeta;
      [destruct (Z.gtb_spec (- x) CLIP) | destruct (Z.gtb_spec x CLIP)]; lia. }
  cbv zeta in Hmag |- *. rewrite Hmag. set (a := Z.min (Z.abs x) CLIP). set (s := a + BIAS).
  assert (Hs : 132 <= s <= 32767) by (unfold s, a, CLIP, BIAS; lia).
  change 255 with (Z.ones 8). rewrite Z.land_ones, Z.shiftr_div_pow2 by lia. change (2 ^ 7) with 128. change (2 ^ 8) with 256.
  rewrite (Z.mod_small (s / 128)) by lia. pose proof (exponent_spec (s / 128) ltac:(lia)) as [He Hk].
  set (e := nth (Z.to_nat (s / 128)) exp_lut 0) in *. set (m := Z.land (Z.shiftr s (e + 3)) 15).
  assert (Hc : cell a e m); [| by exists e, m]. unfold m. change 15 with (Z.ones 4).
  rewrite Z.land_ones, Z.shiftr_div_pow2 by lia. change (2 ^ 4) with 16.
  assert (E : e = 0 \/ e = 1 \/ e = 2 \/ e = 3 \/ e = 4 \/ e = 5 \/ e = 6 \/ e = 7) by lia.
  split; fold s; try lia; repeat destruct E as [E | E]; rewrite E in *; cbn in *; lia.
Qed.

Lemma middle_mono x1 e1 m1 x2 e2 m2 :
  cell x1 e1 m1 -> cell x2 e2 m2 -> x1 <= x2 -> middle e1 m1 <= middle e2 m2.
Proof.
  intros [He1 Hm1 Hl1 Hh1] [He2 Hm2 Hl2 Hh2] Hx. unfold middle.
  replace (e1 + 3) with (e1 + 2 + 1) in * by lia. replace (e2 + 3) with (e2 + 2 + 1) in * by lia.
  rewrite (Z.pow_add_r 2 (e1 + 2) 1), (Z.pow_add_r 2 (e2 + 2) 1), Z.pow_1_r in * by lia.
  pose proof (Z.pow_pos_nonneg 2 (e1 + 2)). pose proof (Z.pow_pos_nonneg 2 (e2 + 2)).
  assert (Hp : e1 < e2 -> 2 * 2 ^ (e1 + 2) <= 2 ^ (e2 + 2)).
  { intros Hlt. rewrite <- Z.pow_succ_r by lia. apply Z.pow_le_mono_r; lia. }
  assert (Hq : e2 < e1 -> 2 * 2 ^ (e2 + 2) <= 2 ^ (e1 + 2)).
  { intros Hlt. rewrite <- Z.pow_succ_r by lia. apply Z.pow_le_mono_r; lia. }
  destruct (Z.lt_trichotomy e1 e2) as [Hlt | [-> | Hlt]].
  - specialize (Hp Hlt). assert ((33 + 2 * m1) * 2 ^ (e1 + 2) <= 63 * 2 ^ (e1 + 2)) by (apply Z.mul_le_mono_nonneg_r; lia).
    assert (33 * 2 ^ (e2 + 2) <= (33 + 2 * m2) * 2 ^ (e2 + 2)) by (apply Z.mul_le_mono_nonneg_r; lia). lia.
  - assert (Hm : m1 <= m2); [nia |].
    assert ((33 + 2 * m1) * 2 ^ (e2 + 2) <= (33 + 2 * m2) * 2 ^ (e2 + 2)) by (apply Z.mul_le_mono_nonneg_r; lia). lia.
  - specialize (Hq Hlt). assert (16 * (2 ^ (e1 + 2) * 2) <= (16 + m1) * (2 ^ (e1 + 2) * 2)) by (apply Z.mul_le_mono_nonneg_r; lia).
    assert ((17 + m2) * (2 ^ (e2 + 2) * 2) <= 32 * (2 ^ (e2 + 2) * 2)) by (apply Z.mul_le_mono_nonneg_r; lia). lia.
Qed.

(** The cell of a sample that the trap does not catch. *)
Lemma coded x : -31611 <= x <= 32767 ->
  exists e m, cell (Z.min (Z.abs x) CLIP) e m /\
    ulaw2linear (linear2ulaw x) = if x <? 0 then - middle e m else middle e m.
Proof.
  intros Hx. destruct (encode_cell x ltac:(lia)) as (e & m & Hc & E). exists e, m. split; [done |].
  rewrite E. destruct Hc as [He Hm Hl Hh]. apply decode_code; [done.. |].
  destruct (Z.ltb_spec x 0); [| done]. destruct (Z.eqb_spec e 7), (Z.eqb_spec m 15); try done.
  subst. unfold CLIP, BIAS in *. cbn in Hl. lia.
Qed.

Lemma middle_nonneg x e m : 0 <= x -> cell x e m -> 0 <= middle e m.
Proof.
  intros Hx [He Hm Hl Hh]. unfold middle, BIAS in *. pose proof (Z.pow_le_mono_r 2 2 (e + 2)). nia.
Qed.

(** ** Theorems *)

(** Decoding a byte and encoding the sample gives the byte back, except for the
    two bytes that the encoder never produces: 0, which it replaces by 2, and 127,
    the second zero. *)
Theorem ulaw_roundtrip b :
  0 <= b < 256 -> b <> 0 -> b <> 127 -> linear2ulaw (ulaw2linear b) = b.
Proof.
  intros Hb H0 H127.
  assert (H : (b =? 0) || (b =? 127) || (linear2ulaw (ulaw2linear b) =? b) = true).
  { apply (all_from_spec (fun b => (b =? 0) || (b =? 127) || (linear2ulaw (ulaw2linear b) =? b)) 256 0 b); [| lia].
    by vm_compute. }
  rewrite (proj2 (Z.eqb_neq _ _) H0), (proj2 (Z.eqb_neq _ _) H127) in H. by apply Z.eqb_eq.
Qed.

(** Encoding and decoding a sample is accurate to a 32nd of its biased magnitude,
    for every sample that is neither clipped nor caught by the trap for byte 0. *)
Theorem ulaw_accurate x :
  -31611 <= x <= CLIP -> 32 * Z.abs (ulaw2linear (linear2ulaw x) - x) <= Z.abs x + BIAS.
Proof.
  intros Hx. destruct (coded x) as (e & m & [He Hm Hl Hh] & ->); [unfold CLIP in Hx; lia |].
  rewrite Z.min_l in Hl, Hh by (unfold CLIP in *; lia). unfold middle.
  replace (e + 3) with (e + 2 + 1) in * by lia. rewrite (Z.pow_add_r 2 (e + 2) 1), Z.pow_1_r in * by lia.
  destruct (Z.ltb_spec x 0); nia.
Qed.

(** The loudest negative samples are caught by the trap, and then a louder sample is
    decoded to a softer one. *)
Lemma ulaw_trap : ulaw2linear (linear2ulaw (-31612)) = -30076 /\ ulaw2linear (linear2ulaw (-31611)) = -31100.
Proof. done. Qed.

(** The codes keep the order of samples: a larger sample is never decoded to a
    smaller value, over the same range. *)
Theorem ulaw_monotone x y :
  -31611 <= x <= y -> y <= 32767 -> ulaw2linear (linear2ulaw x) <= ulaw2linear (linear2ulaw y).
Proof.
  intros Hx Hy. destruct (coded x) as (e1 & m1 & H1 & ->); [lia |]. destruct (coded y) as (e2 & m2 & H2 & ->); [lia |].
  assert (Hpos : forall z, 0 <= Z.min (Z.abs z) CLIP) by (unfold CLIP; lia).
  pose proof (middle_nonneg _ _ _ (Hpos x) H1). pose proof (middle_nonneg _ _ _ (Hpos y) H2).
  destruct (Z.ltb_spec x 0), (Z.ltb_spec y 0); try lia.
  - pose proof (middle_mono _ _ _ _ _ _ H2 H1 ltac:(lia)). lia.
  - apply (middle_mono _ _ _ _ _ _ H1 H2). lia.
Qed.

Lemma ulaw_roundtrip_example : linear2ulaw (ulaw2linear 200) = 200.
Proof. apply (ulaw_roundtrip 200); lia. Defined.

Lemma ulaw_accurate_example : 32 * Z.abs (ulaw2linear (linear2ulaw 1000) - 1000) <= Z.abs 1000 + BIAS.
Proof. apply (ulaw_accurate 1000). unfold CLIP. lia. Defined.

Lemma ulaw_monotone_example : ulaw2linear (linear2ulaw (-20)) <= ulaw2linear (linear2ulaw 3000).
Proof. apply (ulaw_monotone (-20) 3000); lia. Defined.
