(* ===== verification/Device.v ===== *)
(** Drivers on top of the kernel: a driver keeps tables of its own, calls the kernel
    and copies to and from the memory of its callers.  Its state is a record of the
    three, its routines are [dprog]s, and a routine of the kernel or of the byte
    library runs inside it on the part of the state it knows.

    The second half is what a driver uses of semaphores: [permits] is the interface,
    its laws are proved from the theorems on [wait] and [signal]. *)
From Stdlib Require Import ZArith Lia.
From stdpp Require Import sorting gmap functions list.
From S2P Require Import Prelude Kernel Queue QueueFacts Sched Semaphore Clock Message Memory Boot Bytes.

(** ** A program on a part of the state *)

Section Zoom.
Context {W S : Type} (get : W -> S) (put : S -> W -> W).

Fixpoint zoom {A} (m : prog S A) {struct m} : prog W A :=
  match m with Prog r => Prog (fun w => ozoom (r (get w)) w) end
with ozoom {A} (o : outcome S A) (w : W) {struct o} : outcome W A :=
  match o with
  | Done a s => Done a (put s w)
  | Switch s k => Switch (put s w) (zoom k)
  | Fault => Fault
  | Diverge => Diverge
  | Halted s => Halted (put s w)
  end.

Lemma run_zoom {A} (m : prog S A) w : run (zoom m) w = ozoom (run m (get w)) w.
Proof. by destruct m. Qed.

Lemma run_zoom_done {A} (m : prog S A) w a s :
  run m (get w) = Done a s -> run (zoom m) w = Done a (put s w).
Proof. intros H. by rewrite run_zoom, H. Qed.
End Zoom.

(** ** The state of a driver *)

Record dst (D : Type) : Type := mkDst { kern : kst; user : bytemem; own : D }.
Arguments mkDst {D}.
Arguments kern {D}.
Arguments user {D}.
Arguments own {D}.

Abbreviation dprog D := (prog (dst D)).

Section Dst.
Context {D : Type}.

Definition set_kern (s : kst) (w : dst D) : dst D := mkDst s (user w) (own w).
Definition set_user (m : bytemem) (w : dst D) : dst D := mkDst (kern w) m (own w).
Definition set_own (d : D) (w : dst D) : dst D := mkDst (kern w) (user w) d.

Lemma dst_eta (w : dst D) : mkDst (kern w) (user w) (own w) = w.
Proof. by destruct w. Qed.

(** A call of the kernel, of the byte library. *)
Definition kcall {A} (m : kprog A) : dprog D A := zoom kern set_kern m.
Definition ucall {A} (m : bprog A) : dprog D A := zoom user set_user m.

Lemma run_kcall {A} (m : kprog A) w a s :
  run m (kern w) = Done a s -> run (kcall m) w = Done a (mkDst s (user w) (own w)).
Proof. apply (run_zoom_done kern set_kern). Qed.

Lemma run_ucall {A} (m : bprog A) w a s :
  run m (user w) = Done a s -> run (ucall m) w = Done a (mkDst (kern w) s (own w)).
Proof. apply (run_zoom_done user set_user). Qed.

Lemma run_kcall_switch {A} (m : kprog A) w s k :
  run m (kern w) = Switch s k -> run (kcall m) w = Switch (mkDst s (user w) (own w)) (kcall k).
Proof. intros H. unfold kcall at 1. by rewrite run_zoom, H. Qed.
End Dst.

Ltac dsimpl := cbn [kern user own set_kern set_user set_own].

(** One step of a driver: a call whose run is known goes through [run_kcall] or
    [run_ucall]. *)
Ltac dstep :=
  match goal with
  | |- context [run (mbind ?f ?m) ?s] => rewrite (run_bind m f s)
  | |- context [run (mret ?a) ?s] => rewrite (run_ret a s)
  | |- context [run (gets ?f) ?s] => rewrite (run_gets f s)
  | |- context [run (modify ?f) ?s] => rewrite (run_modify f s)
  | |- context [run (kcall ENTER_KERNEL_CRITICAL_SECTION) ?w] =>
      rewrite (run_kcall ENTER_KERNEL_CRITICAL_SECTION w tt (crit_in (kern w))) by (apply run_ENTER; dsimpl; ksimpl; assumption || reflexivity)
  | |- context [run (kcall EXIT_KERNEL_CRITICAL_SECTION) ?w] =>
      rewrite (run_kcall EXIT_KERNEL_CRITICAL_SECTION w tt (crit_out (kern w))) by (apply run_EXIT; dsimpl; ksimpl; assumption || reflexivity)
  end; cbn [obind]; dsimpl; ksimpl.
Ltac drun := repeat dstep.

(** ** Semaphores, as a driver sees them *)

(** The semaphore [sem] is in use and has [c] permits left; with [c] negative,
    [- c] threads wait for it. *)
Definition permits (s : kst) (sem c : Z) : Prop :=
  exists e, semtab s !! u32 sem = Some e /\ s_state e = SUSED /\ s_count e = c.

(** What a call on the semaphore [sem] that does not reschedule leaves alone. *)
Definition sem_only (sem : Z) (s s' : kst) : Prop :=
  exists st cp im, s' = set_semtab st (set_cpsr cp (set_intmask im (set_inCrit true s))) /\
    forall j, j <> u32 sem -> st !! j = semtab s !! j.

Lemma permits_crit_in s sem c : permits s sem c -> permits (crit_in s) sem c.
Proof. done. Qed.
Lemma permits_crit_out s sem c : permits s sem c -> permits (crit_out s) sem c.
Proof. done. Qed.

Lemma permits_other s s' i sem c :
  sem_only i s s' -> u32 sem <> u32 i -> permits s sem c -> permits s' sem c.
Proof. intros (st & cp & im & -> & H) Hne (e & He & Hr). exists e. ksimpl. by rewrite H. Qed.

Lemma permits_fun s sem c c' : permits s sem c -> permits s sem c' -> c = c'.
Proof. intros (e & He & _ & <-) (e' & He' & _ & <-). congruence. Qed.

#[export] Hint Resolve permits_crit_in permits_crit_out kinv_crit_in kinv_crit_out : xinu.

Section Permits.
Context (s : kst) (Q : Z -> list Z) (sem c : Z).
Hypothesis HI : kinv s Q.
Hypothesis Hp : permits s sem c.

Lemma permits_range : - NTHREAD <= c <= INT_MAX.
Proof.
  destruct Hp as (e & He & Hu & <-). pose proof (used_low s Q _ e HI He Hu).
  destruct (used_count s Q _ e HI He Hu) as [_ ?]. lia.
Qed.

(** [wait] takes a permit, *)
Lemma wait_permit : 0 < c ->
  exists s', run (wait sem) s = Done OK s' /\ kinv s' Q /\ permits s' sem (c - 1) /\ sem_only sem s s'.
Proof.
  intros Hc. destruct Hp as (e & He & Hu & E). pose proof (used_count s Q _ e HI He Hu) as [_ Hr].
  rewrite (run_wait_take s Q sem e) by (done || lia). eexists. split; [exact eq_refl |]. split.
  - apply kinv_crit_out. apply (kinv_count (crit_in s)); auto with xinu; klia.
  - split; [exists (set_s_count (s_count e - 1) e); rewrite E; ksimpl; by rewrite lookup_insert_eq |].
    eexists _, _, _. split; [by kst_eq |]. intros j Hj. by apply lookup_insert_ne.
Qed.

(** [signal] puts one back when nobody waits, *)
Lemma signal_permit : 0 <= c < INT_MAX ->
  exists s', run (signal sem) s = Done OK s' /\ kinv s' Q /\ permits s' sem (c + 1) /\ sem_only sem s s'.
Proof.
  intros Hc. destruct Hp as (e & He & Hu & E).
  rewrite (run_signal_put s Q sem e) by (done || lia). eexists. split; [exact eq_refl |]. split.
  - apply kinv_crit_out. apply (kinv_count (crit_in s)); auto with xinu; klia.
  - split; [exists (set_s_count (s_count e + 1) e); rewrite E; ksimpl; by rewrite lookup_insert_eq |].
    eexists _, _, _. split; [by kst_eq |]. intros j Hj. by apply lookup_insert_ne.
Qed.

(** and [semcount] tells how many there are. *)
Lemma semcount_permit : exists s', run (semcount sem) s = Done c s' /\ kinv s' Q /\ permits s' sem c /\ sem_only sem s s'.
Proof.
  destruct Hp as (e & He & Hu & E). pose proof (used_range s Q _ e HI He) as Hi.
  pose proof (ks_crit _ (ki_static _ _ HI)) as Hcrit.
  unfold semcount. rewrite run_bind, (isbadsem_used s _ e) by done. cbn [obind]. prun. rewrite E.
  eexists. split; [exact eq_refl |]. split; [done |]. split; [done |].
  exists (semtab s), (cpsr s), (intmask s). split; [| done]. destruct s. cbn in Hcrit. by rewrite Hcrit.
Qed.

(** Without a permit the caller waits at the end of the queue, and another thread
    runs. *)
Lemma wait_blocks : running s -> thrcurrent s <> NULLTHREAD -> c <= 0 ->
  exists s' Q' k, run (wait sem) s = Switch s' k /\ kinv s' Q' /\
    Q' (semq (u32 sem)) = Q (semq (u32 sem)) ++ [thrcurrent s] /\ thrcurrent s' <> thrcurrent s /\
    permits s' sem (c - 1).
Proof.
  intros Hr Hn Hc. destruct Hp as (e & He & Hu & E).
  destruct (run_wait_switch s Q sem e) as (Q' & qt & tt' & cur & cp & im & Hrun & HI' & _ & Hq & Hcur); try (done || lia).
  eexists _, Q', _. split; [exact Hrun |]. split; [exact HI' |]. split; [exact Hq |]. split; [exact Hcur |].
  exists (set_s_count (s_count e - 1) e). rewrite E. ksimpl. by rewrite lookup_insert_eq.
Qed.
End Permits.

(** A new semaphore has the permits asked for, or there is no free one. *)
Lemma semcreate_permits s Q count :
  kinv s Q -> 0 <= count <= INT_MAX ->
  exists k s', run (semcreate count) s = Done k s' /\ kinv s' Q /\
    ((k = NOSEM /\ semtab s' = semtab s) \/
     (0 <= k < NSEM /\ permits s' k count /\ (forall sem c, permits s sem c -> u32 sem <> k /\ permits s' sem c))).
Proof.
  intros HI Hc. destruct (semcreate_spec s Q count HI Hc) as [(k & e & He & Hst & _ & Hrun & HI') | [(k & Hrun & HI') _]].
  - exists k. eexists. split; [exact Hrun |]. split; [exact HI' |]. right.
    pose proof (sem_range (ki_sems _ _ HI) He) as Hk. split; [done |]. split.
    + exists (mkSement SUSED count (semq k)). ksimpl. rewrite u32_small by klia. by rewrite lookup_insert_eq.
    + intros sem c (e' & He' & Hu & Hcnt). assert (Hne : u32 sem <> k) by (intros E; rewrite E in He'; congruence).
      split; [done |]. exists e'. ksimpl. rewrite lookup_insert_ne by done. done.
  - exists NOSEM. eexists. split; [exact Hrun |]. split; [exact HI' |]. by left.
Qed.
