(* ===== verification/Rely.v ===== *)
(** Programs among other threads.  A routine that is suspended at the context switch
    finds the state as the other threads left it.  [wp] is what holds of a routine when
    all that is known of the others is that they do not change one view of the state, the
    part that a lock held by the routine protects; [steady] is the routine that does not
    change some part of that view itself. *)
From Stdlib Require Import ZArith Lia.
From stdpp Require Import sorting gmap functions list.
From S2P Require Import Prelude Kernel Queue QueueFacts Sched Semaphore Clock Message Memory Boot Bytes Device.

Section Rely.
Context {S X : Type} (view : S -> X).

(** [I] holds of the view whenever the routine is suspended, and [P] when it returns. *)
Fixpoint wp {A} (I : X -> Prop) (m : prog S A) (s : S) (P : A -> S -> Prop) {struct m} : Prop :=
  match m with Prog r =>
    match r s with
    | Done a s' => P a s'
    | Switch s' k => I (view s') /\ forall s'', view s'' = view s' -> wp I k s'' P
    | _ => True
    end
  end.

Lemma wp_mono {A} (I J : X -> Prop) (m : prog S A) : forall s (P Q : A -> S -> Prop),
  (forall y, I y -> J y) -> (forall a s', P a s' -> Q a s') -> wp I m s P -> wp J m s Q.
Proof.
  revert m. fix IH 1. intros [r] s P Q HI HP. cbn [wp]. destruct (r s) as [a s'|s' k| | |]; try done.
  - by apply HP.
  - intros [H1 H2]. split; [by apply HI |]. intros s'' E. apply (IH k s'' P Q); auto.
Qed.

Lemma wp_bind {A B} (I : X -> Prop) (f : A -> prog S B) (m : prog S A) : forall s P,
  wp I m s (fun a s' => wp I (f a) s' P) -> wp I (m ≫= f) s P.
Proof.
  change (forall s P, wp I m s (fun a s' => wp I (f a) s' P) -> wp I (pbind f m) s P).
  revert m. fix IH 1. intros [r] s P. cbn [wp pbind]. destruct (r s) as [a s'|s' k| | |]; try done; cbn [obind].
  - by destruct (f a).
  - intros [H1 H2]. split; [done |]. intros s'' E. by apply IH, H2.
Qed.

Lemma wp_ret {A} (I : X -> Prop) (a : A) s (P : A -> S -> Prop) : P a s -> wp I (mret a) s P.
Proof. done. Qed.

Lemma wp_gets {A} (I : X -> Prop) (f : S -> A) s (P : A -> S -> Prop) : P (f s) s -> wp I (gets f) s P.
Proof. done. Qed.
Lemma wp_modify (I : X -> Prop) f s (P : unit -> S -> Prop) : P tt (f s) -> wp I (modify f) s P.
Proof. done. Qed.

Lemma wp_load {V} I (tab : S -> gmap Z V) i s (P : V -> S -> Prop) :
  (forall v, tab s !! i = Some v -> P v s) -> wp I (load tab i) s P.
Proof. intros H. cbn. destruct (tab s !! i) eqn:E; [by apply H | done]. Qed.

Lemma wp_amend {V} I (tab : S -> gmap Z V) put i f s (P : unit -> S -> Prop) :
  (forall v, tab s !! i = Some v -> P tt (put (<[i := f v]> (tab s)) s)) -> wp I (amend tab put i f) s P.
Proof. intros H. cbn. destruct (tab s !! i) eqn:E; [by apply H | done]. Qed.

Lemma wp_int I x s (P : Z -> S -> Prop) : P (i32 x) s -> wp I (int x) s P.
Proof. done. Qed.

(** A routine that returns at once. *)
Lemma wp_done {A} I (m : prog S A) s (P : A -> S -> Prop) a s' : wp I m s P -> run m s = Done a s' -> P a s'.
Proof. destruct m as [r]. change (run (Prog r) s) with (r s). cbn [wp]. intros H E. by rewrite E in H. Qed.

(** A loop with the invariant [J]. *)
Lemma wp_for {A R} (I : X -> Prop) (J : A -> S -> Prop) (K : R -> S -> Prop) (body : Z -> A -> prog S (A + R)) :
  (forall i a s, J a s -> wp I (body i a) s (fun r s' => match r with inl a' => J a' s' | inr v => K v s' end)) ->
  forall n i a s, J a s -> wp I (for_ n i body a) s (fun r s' => match r with inl a' => J a' s' | inr v => K v s' end).
Proof.
  intros Hb. induction n as [|n IH]; intros i a s Ha; cbn [for_]; [done |]. apply wp_bind.
  generalize (Hb i a s Ha). apply wp_mono; [done |]. intros [a' | v] s' H; [by apply IH | done].
Qed.

Context {Y : Type} (kept : X -> Y).

Definition steady {A} (m : prog S A) : Prop :=
  forall s y, kept (view s) = y -> wp (fun x => kept x = y) m s (fun _ s' => kept (view s') = y).

(** A steady routine inside another. *)
Lemma wp_steady {A} (I : X -> Prop) (m : prog S A) s (P : A -> S -> Prop) :
  steady m -> (forall x, kept x = kept (view s) -> I x) -> (forall a s', kept (view s') = kept (view s) -> P a s') -> wp I m s P.
Proof.
  intros Hm HI HP. generalize (Hm s (kept (view s)) eq_refl). by apply wp_mono.
Qed.

Lemma steady_bind {A B} (m : prog S A) (f : A -> prog S B) : steady m -> (forall a, steady (f a)) -> steady (m ≫= f).
Proof.
  intros Hm Hf s x E. apply wp_bind. generalize (Hm s x E). apply wp_mono; [done |]. intros a s' E'. by apply Hf.
Qed.

Lemma steady_ret {A} (a : A) : steady (mret a).
Proof. by intros s x E. Qed.
Lemma steady_gets {A} (f : S -> A) : steady (gets f).
Proof. by intros s x E. Qed.
Lemma steady_fault {A} : steady (fault : prog S A).
Proof. done. Qed.
Lemma steady_diverge {A} : steady (diverge : prog S A).
Proof. done. Qed.
Lemma steady_int x : steady (int x).
Proof. intros s y E. by apply wp_int. Qed.
Lemma steady_load {V} (tab : S -> gmap Z V) i : steady (load tab i).
Proof. intros s x E. by apply wp_load. Qed.
Lemma steady_modify f : (forall s, kept (view (f s)) = kept (view s)) -> steady (modify f).
Proof. intros H s x <-. apply H. Qed.
Lemma steady_amend {V} (tab : S -> gmap Z V) put i f : (forall t s, kept (view (put t s)) = kept (view s)) -> steady (amend tab put i f).
Proof. intros H s x <-. apply wp_amend. intros v _. apply H. Qed.
Lemma steady_store {V} (tab : S -> gmap Z V) put i v : (forall t s, kept (view (put t s)) = kept (view s)) -> steady (store tab put i v).
Proof. intros H s x <-. cbn. destruct (tab s !! i); [apply H | done]. Qed.

Lemma steady_for {A R} (body : Z -> A -> prog S (A + R)) : (forall i a, steady (body i a)) ->
  forall n i a, steady (for_ n i body a).
Proof.
  intros Hb. induction n as [|n IH]; intros i a; cbn [for_]; [apply steady_ret |].
  apply steady_bind; [apply Hb |]. intros [a'|v]; [apply IH | apply steady_ret].
Qed.

Lemma steady_while {A} (cond : A -> prog S bool) body : (forall a, steady (cond a)) -> (forall a, steady (body a)) ->
  forall n (a : A), steady (while_ n cond body a).
Proof.
  intros Hc Hb. induction n as [|n IH]; intros a; cbn [while_]; [apply steady_diverge |].
  apply steady_bind; [apply Hc |]. intros b. destruct b; [| apply steady_ret]. apply steady_bind; [apply Hb | intros a'; apply IH].
Qed.

Lemma steady_zoom {T A} (get : S -> T) (put : T -> S -> S) (m : prog T A) :
  (forall t s, view (put t s) = view s) -> steady (zoom get put m).
Proof.
  intros Hput. revert m. fix IH 1. intros [r] s x E. cbn [zoom wp]. destruct (r (get s)) as [a t|t k| | |]; try done; cbn [ozoom].
  - by rewrite Hput.
  - split; [by rewrite Hput |]. intros s'' E'. apply IH. rewrite E', Hput. done.
Qed.
End Rely.

(** [keep] proves that a routine is steady, by the structure of the routine: what is
    known of the routines it calls is in the database [steady], and the others are
    unfolded. *)
Create HintDb steady.
Ltac head_of t := lazymatch t with ?f _ => head_of f | _ => t end.
Ltac keep1 :=
  cbv zeta beta;
  lazymatch goal with
  | |- steady _ _ (mbind _ _) => apply steady_bind; [| intros ?]
  | |- steady _ _ (mret _) => apply steady_ret
  | |- steady _ _ (gets _) => apply steady_gets
  | |- steady _ _ fault => apply steady_fault
  | |- steady _ _ diverge => apply steady_diverge
  | |- steady _ _ (int _) => apply steady_int
  | |- steady _ _ (load _ _) => apply steady_load
  | |- steady _ _ (modify _) => apply steady_modify; intros; reflexivity
  | |- steady _ _ (store _ _ _ _) => apply steady_store; intros; reflexivity
  | |- steady _ _ (kcall _) => apply steady_zoom; intros; reflexivity
  | |- steady _ _ (ucall _) => apply steady_zoom; intros; reflexivity
  | |- steady _ _ (for_ _ _ _ _) => apply steady_for; intros ? ?
  | |- steady _ _ (while_ _ _ _ _) => apply steady_while; intros ?
  | |- steady _ _ (match ?x with _ => _ end) => destruct x
  | |- steady _ _ (amend _ _ _ _) => first [apply steady_amend; intros; reflexivity | solve [eauto with steady]]
  | |- steady _ _ ?m => first [solve [eauto with steady] | let h := head_of m in unfold h]
  end.
Ltac keep := repeat keep1.
