(* ===== verification/Loopback.v ===== *)
(** The loopback device: device/loopback/loopbackInit.c, loopbackOpen.c,
    loopbackClose.c, loopbackGetc.c, loopbackPutc.c, loopbackRead.c,
    loopbackWrite.c and loopbackControl.c.  What is written to the device can be
    read from it; a semaphore counts the characters in the ring. *)
From Stdlib Require Import ZArith Lia.
From stdpp Require Import sorting gmap functions list.
From S2P Require Import Prelude Kernel Queue QueueFacts Sched Semaphore Clock Message Memory Boot Bytes Device.

(** ** Data: include/loopback.h *)

Definition LOOP_BUFFER : Z := 1024.
Definition LOOP_STATE_FREE : Z := 0.
Definition LOOP_STATE_ALLOC : Z := 1.
Definition LOOP_CTRL_SET_FLAG : Z := 1.
Definition LOOP_CTRL_CLR_FLAG : Z := 2.
Definition LOOP_NONBLOCK : Z := 1.

Record loopback := mkLoopback {
  l_state : Z;
  l_index : Z;
  l_flags : Z;
  l_sem : Z;
  l_buffer : gmap Z Z
}.

Definition set_l_state v e := mkLoopback v (l_index e) (l_flags e) (l_sem e) (l_buffer e).
Definition set_l_index v e := mkLoopback (l_state e) v (l_flags e) (l_sem e) (l_buffer e).
Definition set_l_flags v e := mkLoopback (l_state e) (l_index e) v (l_sem e) (l_buffer e).
Definition set_l_sem v e := mkLoopback (l_state e) (l_index e) (l_flags e) v (l_buffer e).
Definition set_l_buffer v e := mkLoopback (l_state e) (l_index e) (l_flags e) (l_sem e) v.

(** ** Routines

    The driver's own state is [looptab]; a device is given by its minor number. *)

Abbreviation looptab := (gmap Z loopback).
Abbreviation lprog := (dprog looptab).

Definition lbk (i : Z) : lprog loopback := load own i.
Definition amend_lbk (i : Z) (f : loopback -> loopback) : lprog unit := amend own set_own i f.

(** [lbkptr->buffer[i]], read and written. *)
Definition buffer_at (e : loopback) (i : Z) : lprog Z :=
  match l_buffer e !! i with Some c => mret c | None => fault end.
Definition put_buffer (minor i c : Z) : lprog unit :=
  lbkptr ← lbk minor;
  match l_buffer lbkptr !! i with
  | Some _ => amend_lbk minor (set_l_buffer (<[i := u8 c]> (l_buffer lbkptr)))
  | None => fault
  end.

Definition loopbackInit (minor : Z) : lprog Z :=
  amend_lbk minor (set_l_state LOOP_STATE_FREE);;
  amend_lbk minor (set_l_index 0);;
  mret OK.

Definition loopbackOpen (minor : Z) : lprog Z :=
  kcall ENTER_KERNEL_CRITICAL_SECTION;;
  lbkptr ← lbk minor;
  if negb (LOOP_STATE_FREE =? l_state lbkptr) then kcall EXIT_KERNEL_CRITICAL_SECTION;; mret SYSERR else
  sem ← kcall (semcreate 0);
  amend_lbk minor (set_l_sem sem);;
  lbkptr ← lbk minor;
  if NOSEM =? l_sem lbkptr then kcall EXIT_KERNEL_CRITICAL_SECTION;; mret SYSERR else
  amend_lbk minor (set_l_buffer (table LOOP_BUFFER 0));;
  amend_lbk minor (set_l_flags 0);;
  amend_lbk minor (set_l_state LOOP_STATE_ALLOC);;
  kcall EXIT_KERNEL_CRITICAL_SECTION;;
  mret OK.

Definition loopbackClose (minor : Z) : lprog Z :=
  kcall ENTER_KERNEL_CRITICAL_SECTION;;
  lbkptr ← lbk minor;
  if negb (LOOP_STATE_ALLOC =? l_state lbkptr) then kcall EXIT_KERNEL_CRITICAL_SECTION;; mret SYSERR else
  kcall (semfree (l_sem lbkptr));;
  amend_lbk minor (set_l_state LOOP_STATE_FREE);;
  kcall EXIT_KERNEL_CRITICAL_SECTION;;
  mret OK.

Definition loopbackGetc (minor : Z) : lprog Z :=
  kcall ENTER_KERNEL_CRITICAL_SECTION;;
  lbkptr ← lbk minor;
  none ← (if LOOP_NONBLOCK =? Z.land (l_flags lbkptr) LOOP_NONBLOCK then
            c ← kcall (semcount (l_sem lbkptr)); mret (c <=? 0)
          else mret false);
  if (none : bool) then kcall EXIT_KERNEL_CRITICAL_SECTION;; mret EOF else
  kcall (wait (l_sem lbkptr));;
  lbkptr ← lbk minor;
  ch ← buffer_at lbkptr (l_index lbkptr);
  amend_lbk minor (set_l_index (Z.rem (l_index lbkptr + 1) LOOP_BUFFER));;
  kcall EXIT_KERNEL_CRITICAL_SECTION;;
  mret ch.

Definition loopbackPutc (minor ch : Z) : lprog Z :=
  let ch := u8 ch in
  kcall ENTER_KERNEL_CRITICAL_SECTION;;
  lbkptr ← lbk minor;
  n ← kcall (semcount (l_sem lbkptr));
  if LOOP_BUFFER <=? n then kcall EXIT_KERNEL_CRITICAL_SECTION;; mret SYSERR else
  n ← kcall (semcount (l_sem lbkptr));
  k ← int (l_index lbkptr + n);
  let i := u32 (Z.rem k LOOP_BUFFER) in
  put_buffer minor i ch;;
  kcall (signal (l_sem lbkptr));;
  kcall EXIT_KERNEL_CRITICAL_SECTION;;
  mret ch.

(** The bodies of the two loops; they leave the loop with the value to return. *)
Definition read_one (minor buf i : Z) (_ : unit) : lprog (unit + Z) :=
  ret ← loopbackGetc minor;
  if ret =? EOF then mret (inr i) else
  ucall (stb (buf + i) ret);;
  mret (inl tt).

Definition loopbackRead (minor buf len : Z) : lprog Z :=
  let len := u32 len in
  lbkptr ← lbk minor;
  if negb (LOOP_STATE_ALLOC =? l_state lbkptr) then mret SYSERR else
  r ← for_ (Z.to_nat len) 0 (read_one minor buf) tt;
  mret (i32 (match r with inr i => i | inl _ => len end)).

Definition write_one (minor buf i : Z) (_ : unit) : lprog (unit + Z) :=
  c ← ucall (ldb (buf + i));
  ret ← loopbackPutc minor c;
  if SYSERR =? ret then mret (inr (if i =? 0 then u32 SYSERR else i)) else
  mret (inl tt).

Definition loopbackWrite (minor buf len : Z) : lprog Z :=
  let len := u32 len in
  lbkptr ← lbk minor;
  if negb (LOOP_STATE_ALLOC =? l_state lbkptr) then mret SYSERR else
  r ← for_ (Z.to_nat len) 0 (write_one minor buf) tt;
  mret (i32 (match r with inr i => i | inl _ => len end)).

Definition loopbackControl (minor func arg1 : Z) : lprog Z :=
  lbkptr ← lbk minor;
  if negb (LOOP_STATE_ALLOC =? l_state lbkptr) then mret SYSERR else
  if func =? LOOP_CTRL_SET_FLAG then
    amend_lbk minor (set_l_flags (i32 (Z.lor (l_flags lbkptr) arg1)));;
    mret (l_flags lbkptr)
  else if func =? LOOP_CTRL_CLR_FLAG then
    amend_lbk minor (set_l_flags (i32 (Z.land (l_flags lbkptr) (Z.lnot arg1))));;
    mret (i32 (Z.land (l_flags lbkptr) arg1))
  else mret SYSERR.

(** ** The device is a queue of characters *)

(** The device [i] is open and holds the characters [q], oldest first. *)
Record chars (w : dst looptab) (i : Z) (nb : bool) (q : list Z) : Prop := {
  ch_len : Z.of_nat (length q) <= LOOP_BUFFER;
  ch_bytes : Forall isbyte q;
  ch_entry : exists e, own w !! i = Some e /\ l_state e = LOOP_STATE_ALLOC /\ 0 <= l_index e < LOOP_BUFFER /\
    (LOOP_NONBLOCK =? Z.land (l_flags e) LOOP_NONBLOCK) = nb /\
    permits (kern w) (l_sem e) (Z.of_nat (length q)) /\
    (forall j, 0 <= j < LOOP_BUFFER -> is_Some (l_buffer e !! j)) /\
    (forall j c, q !! j = Some c -> l_buffer e !! ((l_index e + Z.of_nat j) mod LOOP_BUFFER) = Some c)
}.

Lemma run_lbk i e (w : dst looptab) : own w !! i = Some e -> run (lbk i) w = Done e w.
Proof. apply run_load. Qed.

Lemma run_amend_lbk i f e (w : dst looptab) :
  own w !! i = Some e -> run (amend_lbk i f) w = Done tt (set_own (<[i := f e]> (own w)) w).
Proof. apply run_amend. Qed.

(** The content only depends on the driver's table and on the permits. *)
Lemma chars_keep w w' i nb q :
  chars w i nb q -> own w' = own w ->
  (forall e, own w !! i = Some e -> permits (kern w') (l_sem e) (Z.of_nat (length q))) -> chars w' i nb q.
Proof.
  intros [Hlen Hby (e & He & Hst & Hi & Hf & _ & H)] Eo Hp. split; [done.. |]. exists e. rewrite Eo.
  split; [done |]. split; [done |]. split; [done |]. split; [done |]. split; [by apply Hp | done].
Qed.

Ltac lstep :=
  match goal with
  | |- context [run (lbk ?i) ?s] => erewrite (run_lbk i _ s) by (dsimpl; lkp)
  | |- context [run (amend_lbk ?i ?f) ?s] => erewrite (run_amend_lbk i f _ s) by (dsimpl; lkp)
  | |- context [run (kcall ?m) ?w] =>
      match goal with H : run m _ = Done _ _ |- _ => erewrite (run_kcall m w) by exact H end
  end; cbn [obind]; dsimpl; ksimpl.
Ltac lrun := repeat first [dstep | lstep].

Section Chars.
Context (w : dst looptab) (Q : Z -> list Z) (i : Z) (nb : bool) (q : list Z).
Hypothesis HI : kinv (kern w) Q.
Hypothesis Hq : chars w i nb q.

(** A character put in a device with room is the newest one, *)
Lemma run_loopbackPutc c :
  Z.of_nat (length q) < LOOP_BUFFER ->
  exists w', run (loopbackPutc i c) w = Done (u8 c) w' /\ kinv (kern w') Q /\ user w' = user w /\
    chars w' i nb (q ++ [u8 c]).
Proof.
  intros Hroom. pose proof (ks_crit _ (ki_static _ _ HI)) as Hcrit.
  pose proof Hq as [Hlen Hby (e & He & Hst & Hi & Hf & Hp & Hb & Hc)]. unfold loopbackPutc.
  destruct (semcount_permit (crit_in (kern w)) Q _ _ (kinv_crit_in _ _ HI) Hp) as (s1 & H1 & HI1 & Hp1 & _).
  destruct (semcount_permit s1 Q _ _ HI1 Hp1) as (s2 & H2 & HI2 & Hp2 & _).
  pose proof (ks_crit _ (ki_static _ _ HI1)) as Hcrit1. pose proof (ks_crit _ (ki_static _ _ HI2)) as Hcrit2.
  lrun. rewrite (proj2 (Z.leb_gt _ _)) by lia. lrun.
  rewrite run_int by (unfold LOOP_BUFFER, INT_MIN, INT_MAX in *; lia). cbn [obind].
  rewrite Z.rem_mod_nonneg, (u32_small (_ mod _)) by (unfold LOOP_BUFFER in *; lia).
  set (k := (l_index e + Z.of_nat (length q)) mod LOOP_BUFFER).
  assert (Hk : 0 <= k < LOOP_BUFFER) by (apply Z.mod_pos_bound; unfold LOOP_BUFFER; lia).
  destruct (Hb k Hk) as [v Hv]. unfold put_buffer. lrun. rewrite Hv. rewrite (u8_small (u8 c)) by apply u8_bound.
  destruct (signal_permit s2 Q _ _ HI2 Hp2) as (s3 & H3 & HI3 & Hp3 & _); [unfold LOOP_BUFFER, INT_MAX in *; lia |].
  pose proof (ks_crit _ (ki_static _ _ HI3)) as Hcrit3.
  lrun. eexists. split; [exact eq_refl |]. dsimpl. split; [auto with xinu |]. split; [done |].
  split; [rewrite length_app; cbn; lia | by apply Forall_app_2, Forall_singleton, u8_bound |]. eexists. dsimpl. split; [apply lookup_insert_eq |]. cbn.
  split; [done |]. split; [done |]. split; [done |].
  split; [rewrite length_app; cbn; by rewrite Nat2Z.inj_add |]. split.
  - intros j Hj. apply (insert_same_dom _ _ _ v); [done |]. by apply Hb.
  - intros j x [Hx | (Hj & Hx)]%lookup_snoc_Some.
    + destruct Hx as [Hlt Hx]. rewrite lookup_insert_ne; [by apply Hc |]. unfold k.
      pose proof (ring_ne LOOP_BUFFER (l_index e) (Z.of_nat (length q)) (Z.of_nat j)). unfold LOOP_BUFFER in *. lia.
    + subst. apply lookup_insert_eq.
Qed.

(** and is refused when there is none. *)
Lemma run_loopbackPutc_full c :
  Z.of_nat (length q) = LOOP_BUFFER ->
  exists w', run (loopbackPutc i c) w = Done SYSERR w' /\ kinv (kern w') Q /\ user w' = user w /\ chars w' i nb q.
Proof.
  intros Hfull. pose proof (ks_crit _ (ki_static _ _ HI)) as Hcrit.
  pose proof Hq as [Hlen Hby (e & He & Hst & Hi & Hf & Hp & Hb & Hc)]. unfold loopbackPutc.
  destruct (semcount_permit (crit_in (kern w)) Q _ _ (kinv_crit_in _ _ HI) Hp) as (s1 & H1 & HI1 & Hp1 & _).
  pose proof (ks_crit _ (ki_static _ _ HI1)) as Hcrit1.
  lrun. rewrite (proj2 (Z.leb_le _ _)) by lia. lrun.
  eexists. split; [exact eq_refl |]. dsimpl. split; [auto with xinu |]. split; [done |].
  apply (chars_keep w); [done.. |]. intros e' He'. by replace e' with e by congruence.
Qed.

(** Reading a character takes the oldest one, *)
Lemma run_loopbackGetc c q' :
  q = c :: q' ->
  exists w', run (loopbackGetc i) w = Done c w' /\ kinv (kern w') Q /\ user w' = user w /\ chars w' i nb q'.
Proof.
  intros Eq. pose proof (ks_crit _ (ki_static _ _ HI)) as Hcrit.
  pose proof Hq as [Hlen Hby (e & He & Hst & Hi & Hf & Hp & Hb & Hc)].
  assert (Hl : Z.of_nat (length q) = Z.of_nat (length q') + 1) by (subst; cbn; lia).
  set (w1 := mkDst (crit_in (kern w)) (user w) (own w)).
  assert (Htest : exists s1, run (if LOOP_NONBLOCK =? Z.land (l_flags e) LOOP_NONBLOCK
       then kcall (semcount (l_sem e)) ≫= (fun c => mret (c <=? 0)) else mret false) w1 =
       Done false (mkDst s1 (user w) (own w)) /\ kinv s1 Q /\ permits s1 (l_sem e) (Z.of_nat (length q))).
  { destruct (LOOP_NONBLOCK =? _); [| exists (crit_in (kern w)); by auto with xinu].
    destruct (semcount_permit (crit_in (kern w)) Q _ _ (kinv_crit_in _ _ HI) Hp) as (s1 & H1 & HI1 & Hp1 & _).
    exists s1. unfold w1. lrun. rewrite (proj2 (Z.leb_gt _ _)) by lia. done. }
  destruct Htest as (s1 & Ht & HI1 & Hp1). unfold loopbackGetc. lrun. fold w1. rewrite Ht. cbn [obind].
  destruct (wait_permit s1 Q _ _ HI1 Hp1 ltac:(lia)) as (s2 & H2 & HI2 & Hp2 & _).
  pose proof (ks_crit _ (ki_static _ _ HI2)) as Hcrit2. lrun. unfold buffer_at.
  pose proof (Hc 0%nat c ltac:(by subst)) as Hv. rewrite Z.add_0_r, Z.mod_small in Hv by done. rewrite Hv. lrun.
  rewrite Z.rem_mod_nonneg by (unfold LOOP_BUFFER in *; lia).
  eexists. split; [exact eq_refl |]. dsimpl. split; [auto with xinu |]. split; [done |].
  split; [lia | by rewrite Eq, Forall_cons in Hby; destruct Hby |]. eexists. dsimpl. split; [apply lookup_insert_eq |]. cbn. split; [done |].
  split; [apply Z.mod_pos_bound; unfold LOOP_BUFFER; lia |]. split; [done |].
  split; [replace (Z.of_nat (length q')) with (Z.of_nat (length q) - 1) by lia; done |]. split; [done |].
  intros j x Hx. rewrite <- (Hc (S j) x); [| by subst]. f_equal. rewrite Zplus_mod_idemp_l. f_equal. lia.
Qed.

(** and when there is none it returns at once or waits, as the flags say. *)
Lemma run_loopbackGetc_empty :
  q = [] -> nb = true ->
  exists w', run (loopbackGetc i) w = Done EOF w' /\ kinv (kern w') Q /\ user w' = user w /\ chars w' i nb [].
Proof.
  intros -> ->. pose proof (ks_crit _ (ki_static _ _ HI)) as Hcrit.
  pose proof Hq as [Hlen Hby (e & He & Hst & Hi & Hf & Hp & Hb & Hc)]. unfold loopbackGetc. lrun. rewrite Hf.
  destruct (semcount_permit (crit_in (kern w)) Q _ _ (kinv_crit_in _ _ HI) Hp) as (s1 & H1 & HI1 & Hp1 & _).
  pose proof (ks_crit _ (ki_static _ _ HI1)) as Hcrit1. lrun. change (Z.of_nat (length []) <=? 0) with true. cbn match. lrun.
  eexists. split; [exact eq_refl |]. dsimpl. split; [auto with xinu |]. split; [done |].
  apply (chars_keep w); [done.. |]. intros e' He'. by replace e' with e by congruence.
Qed.
End Chars.

(** ** Reading and writing *)

Section Copy.
Context (Q : Z -> list Z) (i : Z) (nb : bool).

Lemma run_write_one w q buf j c :
  kinv (kern w) Q -> chars w i nb q -> user w !! (buf + j) = Some c -> isbyte c ->
  exists w', run (write_one i buf j tt) w =
      Done (if Z.of_nat (length q) <? LOOP_BUFFER then inl tt else inr (if j =? 0 then u32 SYSERR else j)) w' /\
    kinv (kern w') Q /\ user w' = user w /\
    chars w' i nb (if Z.of_nat (length q) <? LOOP_BUFFER then q ++ [c] else q).
Proof.
  intros HI Hq Hc Hb. unfold write_one. rewrite run_bind, (run_ucall _ _ c (user w)) by by apply run_ldb. cbn [obind].
  rewrite dst_eta. pose proof (ch_len _ _ _ _ Hq) as Hlq. rewrite run_bind.
  destruct (Z.ltb_spec (Z.of_nat (length q)) LOOP_BUFFER) as [Hroom | Hfull].
  - destruct (run_loopbackPutc _ Q i nb q HI Hq c Hroom) as (w' & -> & HI' & Hu & Hq').
    rewrite (u8_small c) in * by done. cbn [obind]. rewrite (proj2 (Z.eqb_neq SYSERR c)) by (unfold SYSERR, isbyte in *; lia).
    by exists w'.
  - destruct (run_loopbackPutc_full _ Q i nb q HI Hq c) as (w' & -> & HI' & Hu & Hq'); [lia |]. by exists w'.
Qed.

Lemma write_loop buf l : forall j w q,
  kinv (kern w) Q -> chars w i nb q -> bytes_at (user w) (buf + Z.of_nat j) l -> Forall isbyte l ->
  let n := Nat.min (length l) (Z.to_nat LOOP_BUFFER - length q) in
  exists w', run (for_ (length l) (Z.of_nat j) (write_one i buf) tt) w =
      Done (if (n =? length l)%nat then inl tt
            else inr (if (n + j =? 0)%nat then u32 SYSERR else Z.of_nat (n + j))) w' /\
    kinv (kern w') Q /\ user w' = user w /\ chars w' i nb (q ++ take n l).
Proof.
  induction l as [|c l IH]; intros j w q HI Hq Hb Hl n; cbn [for_ length]; [exists w; by rewrite app_nil_r |].
  apply bytes_at_cons in Hb as [Hc Hb]. apply Forall_cons in Hl as [Hcb Hl].
  destruct (run_write_one w q buf (Z.of_nat j) c HI Hq Hc Hcb) as (w' & Hrun & HI' & Hu & Hq').
  rewrite run_bind, Hrun. cbn [obind]. pose proof (ch_len _ _ _ _ Hq) as Hlq.
  destruct (Z.ltb_spec (Z.of_nat (length q)) LOOP_BUFFER) as [Hroom | Hfull].
  - replace (Z.of_nat j + 1) with (Z.of_nat (S j)) by lia.
    destruct (IH (S j) w' (q ++ [c]) HI' Hq') as (w2 & Hrun2 & HI2 & Hu2 & Hq2); [| done |].
    { rewrite Hu. by replace (buf + Z.of_nat (S j)) with (buf + Z.of_nat j + 1) by lia. }
    exists w2. rewrite Hrun2. rewrite length_app in *. change (length [c]) with 1%nat in *.
    replace n with (S (Nat.min (length l) (Z.to_nat LOOP_BUFFER - (length q + 1)))) by (unfold n; cbn [length]; lia).
    rewrite <- app_assoc in Hq2. cbn [app] in Hq2. split; [| split; [done | split; [congruence | exact Hq2]]]. f_equal.
    generalize (Nat.min (length l) (Z.to_nat LOOP_BUFFER - (length q + 1))). intros m.
    by replace (m + S j)%nat with (S m + j)%nat by lia.
  - rewrite run_ret. exists w'. replace n with 0%nat by (unfold n; lia). rewrite app_nil_r. split_and!; [| done..].
    f_equal. cbn [Nat.eqb Nat.add]. f_equal. destruct (Z.eqb_spec (Z.of_nat j) 0), (Nat.eqb_spec j 0); done || lia.
Qed.

(** [loopbackWrite] writes as much as there is room for. *)
Lemma run_loopbackWrite w q buf l :
  kinv (kern w) Q -> chars w i nb q -> bytes_at (user w) buf l -> Forall isbyte l -> Z.of_nat (length l) < 2 ^ 31 ->
  let n := Nat.min (length l) (Z.to_nat LOOP_BUFFER - length q) in
  exists w', run (loopbackWrite i buf (Z.of_nat (length l))) w =
      Done (if (n =? 0)%nat && negb (length l =? 0)%nat then SYSERR else Z.of_nat n) w' /\
    kinv (kern w') Q /\ user w' = user w /\ chars w' i nb (q ++ take n l).
Proof.
  intros HI Hq Hb Hl Hlen n. unfold loopbackWrite. rewrite (u32_small (Z.of_nat _)) by lia.
  pose proof Hq as [_ _ (e & He & Hst & _)]. lrun. rewrite Hst, Z.eqb_refl. cbn [negb]. rewrite Nat2Z.id.
  destruct (write_loop buf l 0%nat w q HI Hq ltac:(by rewrite Z.add_0_r) Hl) as (w' & Hrun & HI' & Hu & Hq').
  fold n in Hrun, Hq'. change (Z.of_nat 0) with 0 in Hrun. exists w'. rewrite run_bind, Hrun. cbn [obind]. rewrite run_ret, Nat.add_0_r. split_and!; try done.
  f_equal. assert (Hn : (n <= length l)%nat) by (unfold n; lia).
  destruct (Nat.eqb_spec n (length l)) as [E | E].
  - rewrite i32_small by lia. rewrite <- E. by destruct (Nat.eqb_spec n 0).
  - destruct (Nat.eqb_spec n 0) as [E0 | E0], (Nat.eqb_spec (length l) 0) as [El | El]; cbn [andb negb];
      [lia | done | lia |]. rewrite i32_small by lia. done.
Qed.

Lemma run_read_one w q buf j :
  kinv (kern w) Q -> chars w i nb q -> is_Some (user w !! (buf + j)) -> (q = [] -> nb = true) ->
  exists w', run (read_one i buf j tt) w = Done (match q with [] => inr j | _ :: _ => inl tt end) w' /\
    kinv (kern w') Q /\ user w' = poke (buf + j) (take 1 q) (user w) /\ chars w' i nb (tail q).
Proof.
  intros HI Hq Hm Hnb. unfold read_one. rewrite run_bind. destruct q as [|c q].
  - destruct (run_loopbackGetc_empty w Q i nb [] HI Hq eq_refl (Hnb eq_refl)) as (w' & -> & HI' & Hu & Hq'). by exists w'.
  - pose proof (ch_bytes _ _ _ _ Hq) as [Hc _]%Forall_cons.
    destruct (run_loopbackGetc w Q i nb _ HI Hq c q eq_refl) as (w' & -> & HI' & Hu & Hq'). cbn [obind].
    rewrite (proj2 (Z.eqb_neq c EOF)) by (unfold EOF, isbyte in *; lia).
    rewrite run_bind, (run_ucall _ _ tt (<[buf + j := u8 c]> (user w'))) by (apply run_stb; by rewrite Hu).
    cbn [obind]. rewrite run_ret, u8_small, Hu by done. eexists. split; [exact eq_refl |]. dsimpl. split_and!; try done.
    apply (chars_keep w'); [done.. |]. intros e He. destruct Hq' as [_ _ (e' & He' & _ & _ & _ & Hp & _)].
    dsimpl. by replace e with e' by congruence.
Qed.

Lemma read_loop buf n : forall j w q,
  kinv (kern w) Q -> chars w i nb q -> mapped (user w) (buf + Z.of_nat j) (Z.of_nat n) ->
  (nb = true \/ (n <= length q)%nat) ->
  exists w', run (for_ n (Z.of_nat j) (read_one i buf) tt) w =
      Done (if (n <=? length q)%nat then inl tt else inr (Z.of_nat (length q + j))) w' /\
    kinv (kern w') Q /\ user w' = poke (buf + Z.of_nat j) (take n q) (user w) /\ chars w' i nb (drop n q).
Proof.
  induction n as [|n IH]; intros j w q HI Hq Hm Hn; cbn [for_]; [by exists w |].
  destruct (run_read_one w q buf (Z.of_nat j) HI Hq) as (w' & Hrun & HI' & Hu & Hq').
  { pose proof (Hm 0 ltac:(lia)) as H. by rewrite Z.add_0_r in H. }
  { intros ->. destruct Hn as [? | Hn]; [done | cbn in Hn; lia]. }
  rewrite run_bind, Hrun. destruct q as [|c q]; cbn [obind].
  - rewrite run_ret. exists w'. split_and!; [done | done | done |]. by destruct n.
  - replace (Z.of_nat j + 1) with (Z.of_nat (S j)) by lia.
    destruct (IH (S j) w' q HI' Hq') as (w2 & Hrun2 & HI2 & Hu2 & Hq2).
    { rewrite Hu. apply mapped_poke. intros k Hk. replace (buf + Z.of_nat (S j) + k) with (buf + Z.of_nat j + (k + 1)) by lia. apply Hm. lia. }
    { destruct Hn as [? | Hn]; [by left | right; cbn in Hn; lia]. }
    exists w2. rewrite Hrun2, Hu2, Hu. cbn [length Nat.leb take drop poke firstn]. rewrite Nat.add_succ_r.
    replace (buf + Z.of_nat (S j)) with (buf + Z.of_nat j + 1) by lia. by split_and!.
Qed.

(** [loopbackRead] reads what there is, up to the length asked for; if that is too
    little, only a device that does not block returns. *)
Lemma run_loopbackRead w q buf n :
  kinv (kern w) Q -> chars w i nb q -> mapped (user w) buf (Z.of_nat n) -> Z.of_nat n < 2 ^ 31 ->
  (nb = true \/ (n <= length q)%nat) ->
  exists w', run (loopbackRead i buf (Z.of_nat n)) w = Done (Z.of_nat (Nat.min n (length q))) w' /\
    kinv (kern w') Q /\ user w' = poke buf (take n q) (user w) /\ chars w' i nb (drop n q).
Proof.
  intros HI Hq Hm Hlen Hn. unfold loopbackRead. rewrite (u32_small (Z.of_nat _)) by lia.
  pose proof Hq as [Hlq _ (e & He & Hst & _)]. lrun. rewrite Hst, Z.eqb_refl. cbn [negb]. rewrite Nat2Z.id.
  destruct (read_loop buf n 0%nat w q HI Hq ltac:(by rewrite Z.add_0_r) Hn) as (w' & Hrun & HI' & Hu & Hq').
  rewrite Z.add_0_r in Hu. change (Z.of_nat 0) with 0 in Hrun. exists w'. rewrite run_bind, Hrun. cbn [obind]. rewrite run_ret, Nat.add_0_r. split_and!; try done.
  f_equal. unfold LOOP_BUFFER in *. destruct (Nat.leb_spec n (length q)); rewrite i32_small by lia; f_equal; lia.
Qed.
End Copy.

(** C39: the loopback device is a bounded queue of bytes: a write appends as many
    bytes as there is room for, and says how many that were, or fails if there is no
    room at all; a read takes the oldest bytes and stores them at the address given
    and nowhere else.  Writing and then reading gives the bytes in the order in which
    they were written, after those that were there before. *)
Theorem loopback_fifo w Q i nb q src l dst :
  kinv (kern w) Q -> chars w i nb q -> bytes_at (user w) src l -> Forall isbyte l -> Z.of_nat (length l) < 2 ^ 31 ->
  let n := Nat.min (length l) (Z.to_nat LOOP_BUFFER - length q) in
  mapped (user w) dst (Z.of_nat (length q + n)) ->
  exists w1 w2,
    run (loopbackWrite i src (Z.of_nat (length l))) w =
      Done (if (n =? 0)%nat && negb (length l =? 0)%nat then SYSERR else Z.of_nat n) w1 /\
    run (loopbackRead i dst (Z.of_nat (length q + n))) w1 = Done (Z.of_nat (length q + n)) w2 /\
    kinv (kern w2) Q /\ user w2 = poke dst (q ++ take n l) (user w) /\ chars w2 i nb [].
Proof.
  intros HI Hq Hb Hl Hlen n Hm. destruct (run_loopbackWrite Q i nb w q src l HI Hq Hb Hl Hlen) as (w1 & H1 & HI1 & Hu1 & Hq1).
  fold n in H1, Hq1. pose proof (ch_len _ _ _ _ Hq1) as Hl1.
  assert (El : length (q ++ take n l) = (length q + n)%nat) by (rewrite length_app, length_take; lia).
  rewrite El in Hl1. destruct (run_loopbackRead Q i nb w1 _ dst (length q + n) HI1 Hq1) as (w2 & H2 & HI2 & Hu2 & Hq2);
    [by rewrite Hu1 | unfold LOOP_BUFFER in *; lia | right; lia |].
  exists w1, w2. rewrite El, Nat.min_id in H2. rewrite take_ge, Hu1 in Hu2 by lia. rewrite drop_ge in Hq2 by lia. by split_and!.
Qed.

(** An empty device that does not block reports the end of the data and changes
    nothing; one that blocks suspends the reader, who then waits for a character. *)
Theorem loopback_empty w Q i nb :
  kinv (kern w) Q -> running (kern w) -> thrcurrent (kern w) <> NULLTHREAD -> chars w i nb [] ->
  if nb then exists w', run (loopbackGetc i) w = Done EOF w' /\ user w' = user w /\ chars w' i nb []
  else exists w' Q' k e, run (loopbackGetc i) w = Switch w' k /\ kinv (kern w') Q' /\ own w !! i = Some e /\
    Q' (semq (u32 (l_sem e))) = Q (semq (u32 (l_sem e))) ++ [thrcurrent (kern w)] /\
    thrcurrent (kern w') <> thrcurrent (kern w) /\ own w' = own w.
Proof.
  intros HI Hr Hn Hq. destruct nb.
  - destruct (run_loopbackGetc_empty w Q i true [] HI Hq eq_refl eq_refl) as (w' & ? & _ & ? & ?). by exists w'.
  - pose proof Hq as [_ _ (e & He & _ & _ & Hf & Hp & _)]. pose proof (ks_crit _ (ki_static _ _ HI)) as Hcrit.
    unfold loopbackGetc. lrun. rewrite Hf. lrun.
    destruct (wait_blocks (crit_in (kern w)) Q _ _ (kinv_crit_in _ _ HI) Hp) as (s' & Q' & k & Hrun & HI' & Hq' & Hc & _);
      [by apply running_crit_in | done | done |].
    rewrite (run_kcall_switch (wait (l_sem e)) _ s' k) by exact Hrun. cbn [obind].
    eexists _, Q', _, e. split; [exact eq_refl |]. by split_and!.
Qed.
