(* ===== verification/DevTab.v ===== *)
(** The device table: system/open.c, close.c, read.c, write.c, getc.c, putc.c, seek.c,
    control.c, getdev.c, ioerr.c and ionull.c, with the entries that
    device/loopback/loopback_Install.c and device/null/null_Install.c make.  A call on
    a descriptor is the call of the driver, with the driver's own number of the
    device; it fails when there is none. *)
From Stdlib Require Import ZArith Lia.
From stdpp Require Import sorting gmap functions list.
From S2P Require Import Prelude Kernel Queue QueueFacts Sched Semaphore Clock Message Memory Boot Bytes Device Loopback.

(** ** Data: include/conf.h *)

Definition NDEVS : Z := 50.
Definition DEVMAXNAME : Z := 20.

(** [struct dentry].  A null pointer to a function is [None]; a driver's routine takes
    the minor number of the device for the pointer to its entry. *)
Record device (D : Type) := mkDevice {
  d_num : Z;
  d_minor : Z;
  d_name : Z;
  d_init : option (Z -> dprog D Z);
  d_open : option (Z -> list Z -> dprog D Z);
  d_close : option (Z -> dprog D Z);
  d_read : option (Z -> Z -> Z -> dprog D Z);
  d_write : option (Z -> Z -> Z -> dprog D Z);
  d_seek : option (Z -> Z -> dprog D Z);
  d_getc : option (Z -> dprog D Z);
  d_putc : option (Z -> Z -> dprog D Z);
  d_control : option (Z -> Z -> Z -> Z -> dprog D Z);
  d_csr : Z;
  d_intr : Z;
  d_irq : Z
}.
Arguments mkDevice {D}.
Arguments d_num {D}.
Arguments d_minor {D}.
Arguments d_name {D}.
Arguments d_init {D}.
Arguments d_open {D}.
Arguments d_close {D}.
Arguments d_read {D}.
Arguments d_write {D}.
Arguments d_seek {D}.
Arguments d_getc {D}.
Arguments d_putc {D}.
Arguments d_control {D}.
Arguments d_csr {D}.
Arguments d_intr {D}.
Arguments d_irq {D}.

(** An entry of the table as it is before anything is installed. *)
Definition no_device {D} : device D := mkDevice 0 0 0 None None None None None None None None None 0 0 0.

Definition isbaddev (f : Z) : bool := negb ((0 <=? f) && (f <? NDEVS)).

Section Devtab.
Context {D : Type} (devtab : gmap Z (device D)).

Abbreviation prog := (dprog D).

(** [&devtab[descrp]] *)
Definition dev (i : Z) : prog (device D) := match devtab !! i with Some e => mret e | None => fault end.

(** ** Routines *)

Definition open (descrp : Z) (ap : list Z) : prog Z :=
  if negb (isbaddev descrp) then
    devptr ← dev descrp;
    match d_open devptr with Some f => f (d_minor devptr) ap | None => mret SYSERR end
  else mret SYSERR.

Definition close (descrp : Z) : prog Z :=
  if negb (isbaddev descrp) then
    devptr ← dev descrp;
    match d_close devptr with Some f => f (d_minor devptr) | None => mret SYSERR end
  else mret SYSERR.

Definition read (descrp buffer count : Z) : prog Z :=
  if negb (isbaddev descrp) then
    devptr ← dev descrp;
    match d_read devptr with Some f => f (d_minor devptr) buffer count | None => mret SYSERR end
  else mret SYSERR.

Definition write (descrp buffer count : Z) : prog Z :=
  if negb (isbaddev descrp) then
    devptr ← dev descrp;
    match d_write devptr with Some f => f (d_minor devptr) buffer count | None => mret SYSERR end
  else mret SYSERR.

Definition getc (descrp : Z) : prog Z :=
  if negb (isbaddev descrp) then
    devptr ← dev descrp;
    match d_getc devptr with Some f => f (d_minor devptr) | None => mret SYSERR end
  else mret SYSERR.

Definition putc (descrp ch : Z) : prog Z :=
  if negb (isbaddev descrp) then
    devptr ← dev descrp;
    match d_putc devptr with Some f => f (d_minor devptr) ch | None => mret SYSERR end
  else mret SYSERR.

Definition seek (descrp pos : Z) : prog Z :=
  if negb (isbaddev descrp) then
    devptr ← dev descrp;
    match d_seek devptr with Some f => f (d_minor devptr) pos | None => mret SYSERR end
  else mret SYSERR.

Definition control (descrp func arg1 arg2 : Z) : prog Z :=
  if negb (isbaddev descrp) then
    devptr ← dev descrp;
    match d_control devptr with Some f => f (d_minor devptr) func arg1 arg2 | None => mret SYSERR end
  else mret SYSERR.

Definition ioerr : prog Z := mret SYSERR.
Definition ionull : prog Z := mret OK.

(** The body of the search of [getdev]. *)
Definition getdev_body (name : Z) (devnum : Z) (_ : unit) : prog (unit + Z) :=
  devptr ← dev devnum;
  r ← ucall (strncmp name (d_name devptr) DEVMAXNAME);
  mret (if 0 =? r then inr devnum else inl tt).

Definition getdev (name : Z) : prog Z :=
  r ← for_ (Z.to_nat NDEVS) 0 (getdev_body name) tt;
  mret (match r with inr devnum => devnum | inl _ => SYSERR end).

(** ** Installing *)

Definition install (devnum : Z) (e : device D) : option (gmap Z (device D)) :=
  match devtab !! devnum with Some _ => Some (<[devnum := e]> devtab) | None => None end.

Definition null_Install (devnum name : Z) : option (gmap Z (device D)) :=
  install devnum (mkDevice devnum 0 name None None None None None None None None None 0 0 0).
End Devtab.

(** The entry that [loopback_Install] makes; it also resets the driver's table. *)
Definition loopback_entry (devnum name n : Z) : device looptab :=
  mkDevice devnum n name (Some loopbackInit) (Some (fun minor _ => loopbackOpen minor)) (Some loopbackClose)
    (Some loopbackRead) (Some loopbackWrite) None (Some loopbackGetc) (Some loopbackPutc)
    (Some (fun minor func arg1 _ => loopbackControl minor func arg1)) 0 0 0.
Definition loopback_Install (devtab : gmap Z (device looptab)) (devnum name n : Z) :
    dprog looptab (gmap Z (device looptab)) :=
  match install devtab devnum (loopback_entry devnum name n) with
  | None => fault
  | Some devtab =>
      amend_lbk n (fun _ => mkLoopback 0 0 0 0 (table LOOP_BUFFER 0));;
      amend_lbk n (set_l_state LOOP_STATE_FREE);;
      amend_lbk n (set_l_index 0);;
      amend_lbk n (set_l_flags 0);;
      mret devtab
  end.

(** ** Names *)

Section Names.
Context {D : Type} (devtab : gmap Z (device D)) (w : dst D) (name : Z) (s : list Z).
Hypothesis Hname : cstr (user w) name s.

(** Device [i] is called [l]. *)
Definition called (i : Z) (l : list Z) : Prop :=
  exists e, devtab !! i = Some e /\ cstr (user w) (d_name e) l.

(** The name of the device is the one asked for, as far as names are compared. *)
Definition same_name (l : list Z) : bool := bool_decide (take (Z.to_nat DEVMAXNAME) s = take (Z.to_nat DEVMAXNAME) l).

Lemma run_getdev_body i l : called i l ->
  run (getdev_body devtab name i tt) w = Done (if same_name l then inr i else inl tt) w.
Proof.
  intros (e & He & Hl). unfold getdev_body, dev. rewrite He, run_bind, run_ret. cbn [obind].
  rewrite run_bind, (run_ucall _ _ (strdiff (take (Z.to_nat DEVMAXNAME) s) (take (Z.to_nat DEVMAXNAME) l)) (user w)).
  2: { by apply run_strncmp. }
  cbn [obind]. rewrite dst_eta, run_ret. f_equal. unfold same_name.
  assert (Hb : forall l n, cstr (user w) n l -> Forall (fun c => 0 < c < 256) (take (Z.to_nat DEVMAXNAME) l)).
  { intros l' n' [_ H]. by apply Forall_take. }
  destruct (strdiff_order _ _ (Hb _ _ Hname) (Hb _ _ Hl)) as [Hz _].
  destruct (Z.eqb_spec 0 (strdiff (take (Z.to_nat DEVMAXNAME) s) (take (Z.to_nat DEVMAXNAME) l))) as [E | E].
  - by rewrite bool_decide_true by (apply Hz; lia).
  - rewrite bool_decide_false; [done |]. intros Hs. apply E. symmetry. by apply Hz.
Qed.

(** [getdev] gives the number of the first device with the name, among names of
    which the first twenty characters count, or SYSERR when every device has a name and
    none has this one.  But a place in the table where nothing was installed has a null
    pointer for a name: when such a place comes before any device of that name, the
    search reads through the null pointer. *)
Theorem getdev_first :
  (forall k names, Z.of_nat (length names) <= NDEVS -> (forall j l, names !! j = Some l -> called (Z.of_nat j) l) ->
     (k < length names)%nat -> (same_name <$> names !! k) = Some true ->
     (forall j, (j < k)%nat -> (same_name <$> names !! j) = Some false) ->
     run (getdev devtab name) w = Done (Z.of_nat k) w) /\
  (forall names, Z.of_nat (length names) = NDEVS -> (forall j l, names !! j = Some l -> called (Z.of_nat j) l) ->
     (forall j, (j < length names)%nat -> (same_name <$> names !! j) = Some false) ->
     run (getdev devtab name) w = Done SYSERR w) /\
  (forall k names, k = length names -> Z.of_nat k < NDEVS -> (forall j l, names !! j = Some l -> called (Z.of_nat j) l) ->
     (forall j, (j < k)%nat -> (same_name <$> names !! j) = Some false) ->
     devtab !! Z.of_nat k = Some no_device -> user w !! NULL = None ->
     run (getdev devtab name) w = Fault).
Proof.
  split; [| split].
  - intros k names Hlen Hn Hk Hs Hno. unfold getdev. rewrite run_bind, (for_find (getdev_body devtab name) _ k (Z.of_nat k)).
    + done.
    + unfold NDEVS in *. lia.
    + intros j Hj. specialize (Hno j Hj). destruct (names !! j) as [l|] eqn:El; [| done]. injection Hno as Hno.
      by rewrite (run_getdev_body _ l), Hno by by apply Hn.
    + destruct (names !! k) as [l|] eqn:El; [| done]. injection Hs as Hs. by rewrite (run_getdev_body _ l), Hs by by apply Hn.
  - intros names Hlen Hn Hno. unfold getdev. rewrite run_bind, for_all; [done |].
    intros j Hj. specialize (Hno j ltac:(unfold NDEVS in *; lia)). destruct (names !! j) as [l|] eqn:El; [| done]. injection Hno as Hno.
    by rewrite (run_getdev_body _ l), Hno by by apply Hn.
  - intros k names -> Hk Hn Hno Hnone Hnull. unfold getdev. rewrite run_bind.
    replace (Z.to_nat NDEVS) with (length names + S (Z.to_nat NDEVS - length names - 1))%nat by (unfold NDEVS in *; lia).
    rewrite for_skip.
    + cbn [for_]. rewrite run_bind. unfold getdev_body, dev. rewrite Z.add_0_l, Hnone, run_bind, run_ret. cbn [obind d_name no_device].
      rewrite run_bind. unfold ucall. rewrite run_zoom.
      enough (run (strncmp name 0 DEVMAXNAME) (user w) = Fault) as -> by done.
      unfold strncmp. change (Z.to_nat DEVMAXNAME) with 20%nat. cbn [for_]. rewrite !run_bind.
      assert (Hf : run (ldb (0 + 0)) (user w) = Fault) by (unfold ldb, run, load; change (0 + 0) with NULL; by rewrite Hnull).
      destruct (cstr_split (user w) name [] s Hname) as [_ (c & Hc & _)]. rewrite (run_ldb _ c) by exact Hc. cbn [obind].
      destruct (c =? 0); rewrite !run_bind, Hf; done.
    + intros j Hj. specialize (Hno j Hj). destruct (names !! j) as [l|] eqn:El; [| done]. injection Hno as Hno.
      by rewrite (run_getdev_body _ l), Hno by by apply Hn.
Qed.
End Names.
