(* ===== verification/Tty.v ===== *)
(** Terminals: device/tty/ttyInit.c, ttyOpen.c, ttyClose.c, ttyControl.c, ttyGetc.c,
    ttyPutc.c, ttyRead.c and ttyWrite.c.  A terminal puts line editing and the
    translation of line ends on top of a hardware device, whose driver is a
    parameter.  A line that is read is what the reference editor [cook] makes of the
    characters typed. *)
From Stdlib Require Import ZArith Lia.
From stdpp Require Import sorting gmap functions list.
From S2P Require Import Prelude Kernel Queue QueueFacts Sched Semaphore Clock Message Memory Boot Bytes Format Scan Device.

(** ** Data: include/tty.h *)

Definition TTY_IBLEN : Z := 1024.
Definition TTY_IRAW : Z := 1.
Definition TTY_INLCR : Z := 2.
Definition TTY_IGNCR : Z := 4.
Definition TTY_ICRNL : Z := 8.
Definition TTY_ECHO : Z := 16.
Definition TTY_ONLCR : Z := 1.
Definition TTY_OCRNL : Z := 2.
Definition TTY_CTRL_SET_IFLAG : Z := 32.
Definition TTY_CTRL_CLR_IFLAG : Z := 33.
Definition TTY_CTRL_SET_OFLAG : Z := 34.
Definition TTY_CTRL_CLR_OFLAG : Z := 35.

(** The hardware device is given by its number in the device table. *)
Record tty := mkTty {
  y_phw : option Z;
  y_iflags : Z;
  y_ieof : bool;
  y_idelim : bool;
  y_in : gmap Z Z;
  y_istart : Z;
  y_icount : Z;
  y_oflags : Z
}.

Definition set_y_phw v e := mkTty v (y_iflags e) (y_ieof e) (y_idelim e) (y_in e) (y_istart e) (y_icount e) (y_oflags e).
Definition set_y_iflags v e := mkTty (y_phw e) v (y_ieof e) (y_idelim e) (y_in e) (y_istart e) (y_icount e) (y_oflags e).
Definition set_y_ieof v e := mkTty (y_phw e) (y_iflags e) v (y_idelim e) (y_in e) (y_istart e) (y_icount e) (y_oflags e).
Definition set_y_idelim v e := mkTty (y_phw e) (y_iflags e) (y_ieof e) v (y_in e) (y_istart e) (y_icount e) (y_oflags e).
Definition set_y_in v e := mkTty (y_phw e) (y_iflags e) (y_ieof e) (y_idelim e) v (y_istart e) (y_icount e) (y_oflags e).
Definition set_y_istart v e := mkTty (y_phw e) (y_iflags e) (y_ieof e) (y_idelim e) (y_in e) v (y_icount e) (y_oflags e).
Definition set_y_icount v e := mkTty (y_phw e) (y_iflags e) (y_ieof e) (y_idelim e) (y_in e) (y_istart e) v (y_oflags e).
Definition set_y_oflags v e := mkTty (y_phw e) (y_iflags e) (y_ieof e) (y_idelim e) (y_in e) (y_istart e) (y_icount e) v.

Record ttyst (H : Type) := mkTtyst { ttytab : gmap Z tty; hw : H }.
Arguments mkTtyst {H}.
Arguments ttytab {H}.
Arguments hw {H}.

(** [bzero(ttyptr, sizeof(struct tty))] *)
Definition zero_tty : tty := mkTty None 0 false false (table TTY_IBLEN 0) 0 0 0.

(** [flags & f], as a condition. *)
Definition flag (flags f : Z) : bool := negb (Z.land flags f =? 0).

Definition isprint : Z -> bool := is_class (Z.lor CT_P (Z.lor CT_U (Z.lor CT_L (Z.lor CT_N CT_S)))).

Section Tty.
Context {H : Type} (getc : Z -> prog H Z) (putc : Z -> Z -> prog H Z) (NDEVS : Z).

Abbreviation tprog := (dprog (ttyst H)).

Definition get_hw (w : dst (ttyst H)) : H := hw (own w).
Definition put_hw (h : H) (w : dst (ttyst H)) : dst (ttyst H) := set_own (mkTtyst (ttytab (own w)) h) w.
Definition put_ttytab (t : gmap Z tty) (w : dst (ttyst H)) : dst (ttyst H) := set_own (mkTtyst t (hw (own w))) w.

Definition ttx (i : Z) : tprog tty := load (fun w => ttytab (own w)) i.
Definition amend_ttx (i : Z) (f : tty -> tty) : tprog unit := amend (fun w => ttytab (own w)) put_ttytab i f.
Definition phw_getc (d : Z) : tprog Z := zoom get_hw put_hw (getc d).
Definition phw_putc (d ch : Z) : tprog Z := zoom get_hw put_hw (putc d ch).

(** ** Routines *)

Definition ttyInit (minor : Z) : tprog Z :=
  amend_ttx minor (fun _ => zero_tty);;
  mret OK.

(** The number of the hardware device is the one variadic argument. *)
Definition ttyOpen (minor dvnum : Z) : tprog Z :=
  if negb ((0 <=? dvnum) && (dvnum <? NDEVS)) then mret SYSERR else
  kcall ENTER_KERNEL_CRITICAL_SECTION;;
  ttyptr ← ttx minor;
  match y_phw ttyptr with
  | Some _ => kcall EXIT_KERNEL_CRITICAL_SECTION;; mret SYSERR
  | None =>
      amend_ttx minor (set_y_istart 0);;
      amend_ttx minor (set_y_icount 0);;
      amend_ttx minor (set_y_idelim false);;
      amend_ttx minor (set_y_iflags TTY_ICRNL);;
      amend_ttx minor (set_y_ieof false);;
      amend_ttx minor (set_y_oflags TTY_ONLCR);;
      amend_ttx minor (set_y_phw (Some dvnum));;
      kcall EXIT_KERNEL_CRITICAL_SECTION;;
      mret OK
  end.

Definition ttyClose (minor : Z) : tprog Z :=
  kcall ENTER_KERNEL_CRITICAL_SECTION;;
  amend_ttx minor (fun _ => zero_tty);;
  kcall EXIT_KERNEL_CRITICAL_SECTION;;
  mret OK.

(** The flags are [unsigned char]s, and so is [old], a [char]. *)
Definition ttyControl (minor func arg1 : Z) : tprog Z :=
  ttyptr ← ttx minor;
  match y_phw ttyptr with
  | None => mret SYSERR
  | Some _ =>
      if func =? TTY_CTRL_SET_IFLAG then
        amend_ttx minor (set_y_iflags (u8 (Z.lor (y_iflags ttyptr) arg1)));;
        mret (u8 (Z.land (y_iflags ttyptr) arg1))
      else if func =? TTY_CTRL_CLR_IFLAG then
        amend_ttx minor (set_y_iflags (u8 (Z.land (y_iflags ttyptr) (Z.lnot arg1))));;
        mret (u8 (Z.land (y_iflags ttyptr) arg1))
      else if func =? TTY_CTRL_SET_OFLAG then
        amend_ttx minor (set_y_oflags (u8 (Z.lor (y_oflags ttyptr) arg1)));;
        mret (u8 (Z.land (y_oflags ttyptr) arg1))
      else if func =? TTY_CTRL_CLR_OFLAG then
        amend_ttx minor (set_y_oflags (u8 (Z.land (y_oflags ttyptr) (Z.lnot arg1))));;
        mret (u8 (Z.land (y_oflags ttyptr) arg1))
      else mret SYSERR
  end.

Definition ttyPutc (minor ch : Z) : tprog Z :=
  let ch := u8 ch in
  ttyptr ← ttx minor;
  match y_phw ttyptr with
  | None => mret SYSERR
  | Some phw =>
      if ch =? 10 then
        failed ← (if flag (y_oflags ttyptr) TTY_ONLCR then
                    r ← phw_putc phw 13; mret (SYSERR =? r)
                  else mret false);
        if (failed : bool) then mret SYSERR else phw_putc phw ch
      else if ch =? 13 then
        phw_putc phw (if flag (y_oflags ttyptr) TTY_OCRNL then 10 else ch)
      else phw_putc phw ch
  end.

(** The loop returns [None] when it is left by an error. *)
Definition write_char (minor buf count : Z) (_ : unit) : tprog (unit + unit) :=
  ch ← ucall (ldb (buf + count));
  r ← ttyPutc minor ch;
  if SYSERR =? r then mret (inr tt) else mret (inl tt).

Definition ttyWrite (minor buf len : Z) : tprog Z :=
  let len := u32 len in
  r ← for_ (Z.to_nat len) 0 (write_char minor buf) tt;
  mret (match r with inr _ => SYSERR | inl _ => i32 len end).

Definition ttyEcho (minor ch : Z) : tprog unit :=
  let ch := u8 ch in
  if (ch =? 8) || (ch =? 127) then
    ttyPutc minor 8;; ttyPutc minor 32;; ttyPutc minor 8;; mret tt
  else if negb (isprint ch) then mret tt
  else ttyPutc minor ch;; mret tt.

(** Echo, if the flag is set. *)
Definition echo (minor ch : Z) : tprog unit :=
  ttyptr ← ttx minor;
  if flag (y_iflags ttyptr) TTY_ECHO then ttyEcho minor ch else mret tt.

(** [ttyptr->in[(ttyptr->istart + ttyptr->icount) % TTY_IBLEN] = ch; ttyptr->icount++;] *)
Definition place_in (minor ch : Z) : tprog unit :=
  ttyptr ← ttx minor;
  let i := u32 (y_istart ttyptr + y_icount ttyptr) mod TTY_IBLEN in
  match y_in ttyptr !! i with
  | Some _ =>
      amend_ttx minor (set_y_in (<[i := u8 ch]> (y_in ttyptr)));;
      amend_ttx minor (set_y_icount (u32 (y_icount ttyptr + 1)))
  | None => fault
  end.

(** The loop that copies from the input buffer to the caller; it returns [count]. *)
Definition take_cond (minor len count : Z) : tprog bool :=
  ttyptr ← ttx minor; mret ((0 <? y_icount ttyptr) && (count <? len)).
Definition take_body (minor buf count : Z) : tprog Z :=
  ttyptr ← ttx minor;
  match y_in ttyptr !! y_istart ttyptr with
  | Some c =>
      ucall (stb (buf + count) c);;
      amend_ttx minor (set_y_icount (u32 (y_icount ttyptr - 1)));;
      amend_ttx minor (set_y_istart (u32 (y_istart ttyptr + 1) mod TTY_IBLEN));;
      mret (count + 1)
  | None => fault
  end.
Definition take_in (minor buf len count : Z) : tprog Z :=
  ttyptr ← ttx minor;
  while_ (S (Z.to_nat (y_icount ttyptr))) (take_cond minor len) (take_body minor buf) count.

(** The body of the loop that reads in raw mode. *)
Definition raw_char (minor phw buf count : Z) (_ : unit) : tprog (unit + unit) :=
  ch ← phw_getc phw;
  if SYSERR =? ch then mret (inr tt) else
  ucall (stb (buf + count) ch);;
  echo minor ch;;
  mret (inl tt).

(** The switch on the character: the character as translated, or [None] for
    [continue]. *)
Definition cook_char (minor ch : Z) : tprog (option Z) :=
  ttyptr ← ttx minor;
  if (ch =? 8) || (ch =? 127) then
    if y_icount ttyptr <? 1 then mret None else
    amend_ttx minor (set_y_icount (u32 (y_icount ttyptr - 1)));; mret (Some ch)
  else if ch =? 10 then
    let ch := if flag (y_iflags ttyptr) TTY_INLCR then 13 else ch in
    place_in minor ch;;
    amend_ttx minor (set_y_idelim true);; mret (Some ch)
  else if ch =? 13 then
    if flag (y_iflags ttyptr) TTY_IGNCR then mret None else
    let ch := if flag (y_iflags ttyptr) TTY_ICRNL then 10 else ch in
    place_in minor ch;;
    amend_ttx minor (set_y_idelim true);; mret (Some ch)
  else if ch =? 4 then
    amend_ttx minor (set_y_ieof true);;
    amend_ttx minor (set_y_idelim true);; mret (Some ch)
  else if negb (isprint ch) then mret None
  else place_in minor ch;; mret (Some ch).

(** The loop that reads a line, at most [fuel] characters of it; the value is
    whether the device failed. *)
Fixpoint cook_loop (fuel : nat) (minor phw : Z) : tprog bool :=
  match fuel with
  | O => diverge
  | S fuel =>
      ttyptr ← ttx minor;
      if negb ((y_icount ttyptr <? TTY_IBLEN) && negb (y_idelim ttyptr)) then mret false else
      ch ← phw_getc phw;
      if SYSERR =? ch then mret true else
      r ← cook_char minor ch;
      match r with
      | None => cook_loop fuel minor phw
      | Some ch =>
          echo minor ch;;
          ttyptr ← ttx minor;
          if flag (y_iflags ttyptr) TTY_IRAW then mret false else cook_loop fuel minor phw
      end
  end.

Definition ttyRead (fuel : nat) (minor buf len : Z) : tprog Z :=
  let len := u32 len in
  ttyptr ← ttx minor;
  match y_phw ttyptr with
  | None => mret SYSERR
  | Some phw =>
      if y_ieof ttyptr then amend_ttx minor (set_y_ieof false);; mret EOF else
      if flag (y_iflags ttyptr) TTY_IRAW then
        count ← take_in minor buf len 0;
        r ← for_ (Z.to_nat (len - count)) count (raw_char minor phw buf) tt;
        mret (match r with inr _ => SYSERR | inl _ => i32 len end)
      else
        failed ← cook_loop fuel minor phw;
        if (failed : bool) then mret SYSERR else
        count ← take_in minor buf len 0;
        ttyptr ← ttx minor;
        (if 0 =? y_icount ttyptr then amend_ttx minor (set_y_idelim false) else mret tt);;
        ttyptr ← ttx minor;
        if (0 =? count) && y_ieof ttyptr then amend_ttx minor (set_y_ieof false);; mret EOF
        else mret (i32 count)
  end.

(** The variable [ch] of [ttyGetc] is at [ch_addr]. *)
Definition ttyGetc (fuel : nat) (ch_addr minor : Z) : tprog Z :=
  result ← ttyRead fuel minor ch_addr 1;
  if negb (1 =? result) then mret result else ucall (ldb ch_addr).
End Tty.

(** ** The reference editor

    [keystroke] is what a character does to the line [p] typed so far: the character
    to echo, if any, the new line, whether it ends the line and whether it is the end
    of the input. *)

Definition keystroke (fl : Z) (p : list Z) (c : Z) : option Z * list Z * bool * bool :=
  if (c =? 8) || (c =? 127) then
    match p with [] => (None, p, false, false) | _ :: _ => (Some c, removelast p, false, false) end
  else if c =? 10 then
    let c := if flag fl TTY_INLCR then 13 else 10 in (Some c, p ++ [c], true, false)
  else if c =? 13 then
    if flag fl TTY_IGNCR then (None, p, false, false)
    else let c := if flag fl TTY_ICRNL then 10 else 13 in (Some c, p ++ [c], true, false)
  else if c =? 4 then (Some c, p, true, true)
  else if isprint c then (Some c, p ++ [c], false, false)
  else (None, p, false, false).

(** The line, whether it was ended by a delimiter, whether that was the end of the
    input, and the characters that were not read; there is none as long as the line
    goes on. *)
Fixpoint cook (fl : Z) (p : list Z) (input : list Z) : option (list Z * bool * bool * list Z) :=
  if TTY_IBLEN <=? Z.of_nat (length p) then Some (p, false, false, input) else
  match input with
  | [] => None
  | c :: r =>
      let '(_, p', delim, eof) := keystroke fl p c in
      if (delim : bool) then Some (p', true, eof, r) else cook fl p' r
  end.

(** A character that is typed and erased leaves no trace. *)
Lemma cook_erase fl p c r :
  isprint c = true -> c <> 8 -> c <> 127 -> c <> 10 -> c <> 13 -> c <> 4 -> Z.of_nat (length p) + 1 < TTY_IBLEN ->
  cook fl p (c :: 8 :: r) = cook fl p r.
Proof.
  intros Hc H8 H127 H10 H13 H4 Hlen. cbn [cook].
  assert (Hk : keystroke fl p c = (Some c, p ++ [c], false, false)).
  { unfold keystroke. rewrite (proj2 (Z.eqb_neq c 8)), (proj2 (Z.eqb_neq c 127)), (proj2 (Z.eqb_neq c 10)),
      (proj2 (Z.eqb_neq c 13)), (proj2 (Z.eqb_neq c 4)), Hc by done. done. }
  rewrite Hk. rewrite (proj2 (Z.leb_gt TTY_IBLEN (Z.of_nat (length p)))) by lia. rewrite length_app. cbn [length].
  rewrite (proj2 (Z.leb_gt _ _)) by lia.
  assert (Hk8 : keystroke fl (p ++ [c]) 8 = (Some 8, p, false, false)).
  { unfold keystroke. change ((8 =? 8) || (8 =? 127)) with true. cbn match. destruct (p ++ [c]) eqn:E; [by destruct p |].
    rewrite <- E. by rewrite removelast_last. }
  rewrite Hk8. done.
Qed.

(** Plain text up to the end of the line is the line. *)
Lemma cook_text fl text : forall p r,
  Forall (fun c => isprint c = true /\ 32 <= c < 127) text -> flag fl TTY_INLCR = false ->
  Z.of_nat (length (p ++ text)) < TTY_IBLEN ->
  cook fl p (text ++ 10 :: r) = Some (p ++ text ++ [10], true, false, r).
Proof.
  induction text as [|c text IH]; intros p r Ht Hf Hlen; cbn [cook app].
  - rewrite app_nil_r in Hlen. rewrite (proj2 (Z.leb_gt _ _)) by lia. unfold keystroke. by rewrite Hf.
  - apply Forall_cons in Ht as [[Hp Hc] Ht]. rewrite length_app in Hlen. cbn in Hlen.
    rewrite (proj2 (Z.leb_gt _ _)) by lia. unfold keystroke.
    rewrite (proj2 (Z.eqb_neq c 8)), (proj2 (Z.eqb_neq c 127)), (proj2 (Z.eqb_neq c 10)),
      (proj2 (Z.eqb_neq c 13)), (proj2 (Z.eqb_neq c 4)), Hp by lia. cbn [orb].
    rewrite IH; [by rewrite <- app_assoc | done | done |]. rewrite !length_app. cbn. lia.
Qed.

(** ** The terminal implements it *)

(** What the terminal needs of the driver of the device [d]: characters arrive in the
    order in which they were typed, and writing does not disturb that. *)
Class Serial {H : Type} (getc : Z -> prog H Z) (putc : Z -> Z -> prog H Z) (d : Z) (feeds : H -> list Z -> Prop) : Prop := {
  serial_getc h c r : feeds h (c :: r) -> 0 <= c < 256 -> exists h', run (getc d) h = Done c h' /\ feeds h' r;
  serial_putc h c l : feeds h l -> exists r h', run (putc d c) h = Done r h' /\ feeds h' l
}.

Section Line.
Context {H : Type} (getc : Z -> prog H Z) (putc : Z -> Z -> prog H Z) (d : Z) (feeds : H -> list Z -> Prop).
Context `{!Serial getc putc d feeds}.
Context (i fl : Z).

(** The terminal [i] is open on the device and its input buffer holds [p]. *)
Record typed (w : dst (ttyst H)) (eof delim : bool) (p : list Z) : Prop := {
  ty_len : Z.of_nat (length p) <= TTY_IBLEN;
  ty_bytes : Forall isbyte p;
  ty_entry : exists e, ttytab (own w) !! i = Some e /\ y_phw e = Some d /\ y_iflags e = fl /\ y_ieof e = eof /\
    y_idelim e = delim /\ 0 <= y_istart e < TTY_IBLEN /\ y_icount e = Z.of_nat (length p) /\
    (forall j, 0 <= j < TTY_IBLEN -> is_Some (y_in e !! j)) /\
    (forall j c, p !! j = Some c -> y_in e !! ((y_istart e + Z.of_nat j) mod TTY_IBLEN) = Some c)
}.

(** Everything but the terminal's table is as before. *)
Definition calm (w w' : dst (ttyst H)) : Prop := kern w' = kern w /\ user w' = user w /\ hw (own w') = hw (own w).

Lemma run_ttx e (w : dst (ttyst H)) : ttytab (own w) !! i = Some e -> run (ttx i) w = Done e w.
Proof. apply (run_load (fun w => ttytab (own w))). Qed.

Lemma run_amend_ttx f e (w : dst (ttyst H)) :
  ttytab (own w) !! i = Some e -> run (amend_ttx i f) w = Done tt (put_ttytab (<[i := f e]> (ttytab (own w))) w).
Proof. apply (run_amend (fun w => ttytab (own w))). Qed.

Ltac tstep :=
  match goal with
  | |- context [run (ttx ?j) ?s] => erewrite (run_ttx _ s) by (cbn [own ttytab put_ttytab set_own]; lkp)
  | |- context [run (amend_ttx ?j ?f) ?s] => erewrite (run_amend_ttx f _ s) by (cbn [own ttytab put_ttytab set_own]; lkp)
  end; cbn [obind own ttytab hw put_ttytab set_own].
Ltac trun := repeat first [dstep | tstep].

(** A change of the flags of the entry alone. *)
Lemma typed_flags w e f eof delim eof' delim' p :
  typed w eof delim p -> ttytab (own w) !! i = Some e ->
  y_phw (f e) = y_phw e -> y_iflags (f e) = y_iflags e -> y_in (f e) = y_in e -> y_istart (f e) = y_istart e ->
  y_icount (f e) = y_icount e -> y_ieof (f e) = eof' -> y_idelim (f e) = delim' ->
  typed (put_ttytab (<[i := f e]> (ttytab (own w))) w) eof' delim' p.
Proof.
  intros [Hl Hb (e' & He' & Hw & Hf & _ & _ & Hs & Hc & Hm & Hp)] He E1 E2 E3 E4 E5 E6 E7.
  replace e' with e in * by congruence. split; [done.. |]. exists (f e). cbn. rewrite E1, E2, E3, E4, E5, E6, E7.
  split; [apply lookup_insert_eq |]. split_and!; solve [done | apply Hs | exact Hm | exact Hp].
Qed.

Lemma run_place_in w eof delim p c :
  typed w eof delim p -> Z.of_nat (length p) < TTY_IBLEN -> isbyte c ->
  exists w', run (place_in i c) w = Done tt w' /\ calm w w' /\ typed w' eof delim (p ++ [c]).
Proof.
  intros [Hl Hb (e & He & Hw & Hf & Heof & Hd & Hs & Hc & Hm & Hp)] Hroom Hbyte. unfold place_in. trun.
  rewrite Hc, (u32_small (_ + _)) by (unfold TTY_IBLEN in *; lia). set (k := _ mod TTY_IBLEN).
  assert (Hk : 0 <= k < TTY_IBLEN) by (apply Z.mod_pos_bound; unfold TTY_IBLEN; lia).
  destruct (Hm k Hk) as [v Hv]. rewrite Hv. trun. rewrite insert_insert_eq.
  rewrite (u32_small (Z.of_nat _ + 1)), u8_small by (unfold TTY_IBLEN, isbyte in *; lia).
  eexists. split; [exact eq_refl |]. split; [done |].
  split; [rewrite length_app; cbn; lia | by apply Forall_app_2, Forall_singleton |].
  eexists. cbn. split; [apply lookup_insert_eq |]. cbn. split; [done |]. split; [done |]. split; [done |]. split; [done |].
  split; [done |]. split; [rewrite length_app; cbn; lia |]. split.
  - intros j Hj. apply (insert_same_dom _ _ _ v); [done |]. by apply Hm.
  - intros j x [Hx | (Hj & Hx)]%lookup_snoc_Some.
    + destruct Hx as [Hlt Hx]. rewrite lookup_insert_ne; [by apply Hp |]. unfold k.
      pose proof (ring_ne TTY_IBLEN (y_istart e) (Z.of_nat (length p)) (Z.of_nat j)). unfold TTY_IBLEN in *. lia.
    + subst. apply lookup_insert_eq.
Qed.

(** The newest character is dropped. *)
Lemma run_erase w eof delim p e :
  typed w eof delim p -> p <> [] -> ttytab (own w) !! i = Some e ->
  typed (put_ttytab (<[i := set_y_icount (u32 (y_icount e - 1)) e]> (ttytab (own w))) w) eof delim (removelast p).
Proof.
  intros [Hl Hb (e' & He' & Hw & Hf & Heof & Hd & Hs & Hc & Hm & Hp)] Hne He. replace e' with e in * by congruence.
  destruct (exists_last Hne) as (p' & x & ->). rewrite removelast_last. rewrite length_app in *. cbn in Hl, Hc.
  split; [lia | by apply Forall_app in Hb as [? _] |]. exists (set_y_icount (u32 (y_icount e - 1)) e). cbn.
  split; [apply lookup_insert_eq |]. split; [done |]. split; [done |]. split; [done |]. split; [done |]. split; [done |].
  split; [rewrite u32_small by (unfold TTY_IBLEN in *; lia); lia |]. split; [done |].
  intros j c Hj. apply Hp. by apply lookup_app_l_Some.
Qed.

Lemma run_cook_char w eof p c :
  typed w eof false p -> Z.of_nat (length p) < TTY_IBLEN -> isbyte c ->
  let '(r, p', delim, eof') := keystroke fl p c in
  exists w', run (cook_char i c) w = Done r w' /\ calm w w' /\ typed w' (eof || eof') delim p'.
Proof.
  intros Hty Hroom Hb. pose proof Hty as [Hl _ (e & He & _ & Hf & Heof & Hd & _ & Hc & _)].
  unfold cook_char, keystroke. trun. rewrite Hf.
  assert (Hput : forall x, isbyte x -> exists w', run (place_in i x;; amend_ttx i (set_y_idelim true);; mret (Some x)) w = Done (Some x) w' /\
    calm w w' /\ typed w' (eof || false) true (p ++ [x])).
  { intros x Hx. destruct (run_place_in w eof false p x Hty Hroom Hx) as (w1 & H1 & Hcalm & Hty1).
    pose proof Hty1 as [_ _ (e1 & He1 & _ & _ & Heof1 & _)]. rewrite run_bind, H1. cbn [obind]. trun.
    eexists. split; [exact eq_refl |]. split; [exact Hcalm |]. rewrite orb_false_r.
    apply (typed_flags w1 e1 (set_y_idelim true) eof false eof true (p ++ [x])); done. }
  destruct ((c =? 8) || (c =? 127)).
  { rewrite Hc. destruct p as [|x p]; cbn [length].
    - change (Z.of_nat 0 <? 1) with true. cbn match. exists w. rewrite orb_false_r. by split_and!.
    - rewrite (proj2 (Z.ltb_ge _ 1)) by (rewrite Nat2Z.inj_succ; lia). trun. eexists. split; [exact eq_refl |].
      split; [done |]. rewrite orb_false_r.
      pose proof (run_erase w eof false (x :: p) e Hty ltac:(done) He) as Hr. rewrite Hc in Hr. exact Hr. }
  destruct (Z.eqb_spec c 10) as [-> |].
  { apply Hput. unfold isbyte. destruct (flag fl TTY_INLCR); lia. }
  destruct (Z.eqb_spec c 13) as [-> |].
  { destruct (flag fl TTY_IGNCR); [exists w; rewrite orb_false_r; by split_and! |].
    apply Hput. unfold isbyte. destruct (flag fl TTY_ICRNL); lia. }
  destruct (Z.eqb_spec c 4) as [-> |].
  { trun. rewrite insert_insert_eq. eexists. split; [exact eq_refl |]. split; [done |]. rewrite orb_true_r.
    apply (typed_flags w e (fun e => set_y_idelim true (set_y_ieof true e)) eof false true true p); done. }
  destruct (isprint c); cbn [negb].
  - destruct (run_place_in w eof false p c Hty Hroom Hb) as (w1 & H1 & Hcalm & Hty1). rewrite run_bind, H1. cbn [obind].
    exists w1. rewrite orb_false_r. by split_and!.
  - exists w. rewrite orb_false_r. by split_and!.
Qed.

(** Echoing writes to the device and nothing else. *)
Lemma run_phw_putc w c l :
  feeds (hw (own w)) l ->
  exists r w', run (phw_putc putc d c) w = Done r w' /\ kern w' = kern w /\ user w' = user w /\
    ttytab (own w') = ttytab (own w) /\ feeds (hw (own w')) l.
Proof.
  intros Hf. destruct (serial_putc (hw (own w)) c l Hf) as (r & h & Hrun & Hf').
  exists r, (put_hw h w). split; [by apply (run_zoom_done get_hw put_hw) | done].
Qed.

Lemma run_ttyPutc w eof delim p c l :
  typed w eof delim p -> feeds (hw (own w)) l ->
  exists r w', run (ttyPutc putc i c) w = Done r w' /\ kern w' = kern w /\ user w' = user w /\
    ttytab (own w') = ttytab (own w) /\ feeds (hw (own w')) l.
Proof.
  intros [_ _ (e & He & Hw & _)] Hf. unfold ttyPutc. trun. rewrite Hw.
  destruct (u8 c =? 10); [| destruct (u8 c =? 13); by apply run_phw_putc].
  destruct (flag (y_oflags e) TTY_ONLCR); rewrite run_bind; [| rewrite run_ret; cbn [obind]; by apply run_phw_putc].
  destruct (run_phw_putc w 13 l Hf) as (r & w1 & H1 & Hk & Hu & Ht & Hf1). rewrite run_bind, H1. cbn [obind].
  rewrite run_ret. cbn [obind]. destruct (SYSERR =? r); [by eexists _, _ |].
  destruct (run_phw_putc w1 (u8 c) l Hf1) as (r2 & w2 & H2 & Hk2 & Hu2 & Ht2 & Hf2). eexists _, _.
  split; [exact H2 |]. split_and!; congruence || done.
Qed.

Lemma typed_keep w w' eof delim p : ttytab (own w') = ttytab (own w) -> typed w eof delim p -> typed w' eof delim p.
Proof. intros E [Hl Hb He]. split; [done.. |]. by rewrite E. Qed.

Lemma run_echo w eof delim p c l :
  typed w eof delim p -> feeds (hw (own w)) l ->
  exists w', run (echo putc i c) w = Done tt w' /\ kern w' = kern w /\ user w' = user w /\
    typed w' eof delim p /\ feeds (hw (own w')) l.
Proof.
  intros Hty Hf. pose proof Hty as [_ _ (e & He & _)]. unfold echo. trun.
  destruct (flag _ TTY_ECHO); [| exists w; by rewrite run_ret]. unfold ttyEcho.
  assert (Hp : forall x w1, typed w1 eof delim p -> feeds (hw (own w1)) l -> kern w1 = kern w -> user w1 = user w ->
    exists r w', run (ttyPutc putc i x) w1 = Done r w' /\ kern w' = kern w /\ user w' = user w /\
      typed w' eof delim p /\ feeds (hw (own w')) l).
  { intros x w1 Hty1 Hf1 Hk Hu. destruct (run_ttyPutc w1 eof delim p x l Hty1 Hf1) as (r & w2 & H2 & Hk2 & Hu2 & Ht2 & Hf2).
    exists r, w2. split_and!; try congruence. by apply (typed_keep w1). }
  destruct ((u8 c =? 8) || (u8 c =? 127)).
  - destruct (Hp 8 w) as (r1 & w1 & H1 & Hk1 & Hu1 & Hty1 & Hf1); try done. rewrite run_bind, H1. cbn [obind].
    destruct (Hp 32 w1) as (r2 & w2 & H2 & Hk2 & Hu2 & Hty2 & Hf2); try done. rewrite run_bind, H2. cbn [obind].
    destruct (Hp 8 w2) as (r3 & w3 & H3 & Hk3 & Hu3 & Hty3 & Hf3); try done. rewrite run_bind, H3. cbn [obind].
    exists w3. by rewrite run_ret.
  - destruct (negb (isprint (u8 c))); [exists w; by rewrite run_ret |].
    destruct (Hp (u8 c) w) as (r1 & w1 & H1 & Hk1 & Hu1 & Hty1 & Hf1); try done. rewrite run_bind, H1. cbn [obind].
    exists w1. by rewrite run_ret.
Qed.

(** The loop that reads a line does what [cook] says. *)
Lemma run_cook_loop input : forall fuel w p p' delim eof rest,
  flag fl TTY_IRAW = false -> Forall isbyte input -> (length input < fuel)%nat ->
  typed w false false p -> feeds (hw (own w)) input -> cook fl p input = Some (p', delim, eof, rest) ->
  exists w', run (cook_loop getc putc fuel i d) w = Done false w' /\ kern w' = kern w /\ user w' = user w /\
    typed w' eof delim p' /\ feeds (hw (own w')) rest.
Proof.
  induction input as [|c input IH]; intros fuel w p p' delim eof rest Hraw Hb Hfuel Hty Hf Hc;
    (destruct fuel as [|fuel]; [cbn in Hfuel; lia |]); pose proof Hty as [Hl _ (e & He & _ & Hfl & _ & Hd & _ & Hcnt & _)];
    cbn [cook_loop cook] in *; trun; rewrite Hd, Hcnt; cbn [negb]; rewrite andb_true_r.
  - destruct (Z.leb_spec TTY_IBLEN (Z.of_nat (length p))); [| done]. injection Hc as <- <- <- <-.
    rewrite (proj2 (Z.ltb_ge _ _)) by lia. cbn [negb]. trun. by exists w.
  - destruct (Z.leb_spec TTY_IBLEN (Z.of_nat (length p))) as [Hge | Hlt].
    { injection Hc as <- <- <- <-. rewrite (proj2 (Z.ltb_ge _ _)) by lia. cbn [negb]. trun. by exists w. }
    rewrite (proj2 (Z.ltb_lt _ _)) by lia. cbn [negb]. apply Forall_cons in Hb as [Hbc Hb]. cbn in Hfuel.
    destruct (serial_getc (hw (own w)) c input Hf Hbc) as (h & Hget & Hf1). set (w1 := put_hw h w).
    assert (Hty1 : typed w1 false false p) by by apply (typed_keep w).
    unfold phw_getc at 1. rewrite run_bind, (run_zoom_done get_hw put_hw _ w c h) by done. cbn [obind]. fold w1.
    rewrite (proj2 (Z.eqb_neq SYSERR c)) by (unfold SYSERR, isbyte in *; lia).
    pose proof (run_cook_char w1 false p c Hty1 Hlt Hbc) as Hk.
    destruct (keystroke fl p c) as [[[r p1] delim1] eof1] eqn:Eks. cbn [orb] in Hk.
    destruct Hk as (w2 & Hrun2 & (Hk2 & Hu2 & Hh2) & Hty2). rewrite run_bind, Hrun2. cbn [obind].
    assert (Hf2 : feeds (hw (own w2)) input) by (rewrite Hh2; done).
    assert (Hnext : forall w3, kern w3 = kern w -> user w3 = user w -> typed w3 eof1 delim1 p1 -> feeds (hw (own w3)) input ->
      exists w', run (cook_loop getc putc fuel i d) w3 = Done false w' /\ kern w' = kern w /\ user w' = user w /\
        typed w' eof delim p' /\ feeds (hw (own w')) rest).
    { intros w3 Hk3 Hu3 Hty3 Hf3. destruct delim1.
      - injection Hc as <- <- <- <-. pose proof Hty3 as [_ _ (e3 & He3 & _ & _ & _ & Hd3 & _)].
        destruct fuel as [|fuel]; [lia |]. cbn [cook_loop]. trun. rewrite Hd3, andb_false_r. cbn [negb]. trun. by exists w3.
      - assert (eof1 = false) as ->.
        { unfold keystroke in Eks. repeat case_match; simplify_eq; done. }
        destruct (IH fuel w3 p1 p' delim eof rest Hraw Hb ltac:(lia) Hty3 Hf3 Hc) as (w' & Hw' & ? & ? & ? & ?).
        exists w'. split_and!; congruence. }
    destruct r as [x|]; [| apply Hnext; [by rewrite Hk2 | by rewrite Hu2 | done | done]].
    destruct (run_echo w2 eof1 delim1 p1 x input Hty2 Hf2) as (w3 & H3 & Hk3 & Hu3 & Hty3 & Hf3).
    rewrite run_bind, H3. cbn [obind]. pose proof Hty3 as [_ _ (e3 & He3 & _ & Hfl3 & _)]. trun. rewrite Hfl3, Hraw.
    apply Hnext; [by rewrite Hk3, Hk2 | by rewrite Hu3, Hu2 | done | done].
Qed.

Lemma run_take_cond (w : dst (ttyst H)) e len count :
  ttytab (own w) !! i = Some e -> run (take_cond i len count) w = Done ((0 <? y_icount e) && (count <? len)) w.
Proof. intros He. unfold take_cond. by trun. Qed.

Lemma run_take_body (w : dst (ttyst H)) e c buf count :
  ttytab (own w) !! i = Some e -> y_in e !! y_istart e = Some c -> isbyte c -> is_Some (user w !! (buf + count)) ->
  run (take_body i buf count) w = Done (count + 1) (mkDst (kern w) (<[buf + count := c]> (user w))
    (mkTtyst (<[i := set_y_istart (u32 (y_istart e + 1) mod TTY_IBLEN) (set_y_icount (u32 (y_icount e - 1)) e)]>
      (ttytab (own w))) (hw (own w)))).
Proof.
  intros He Hc Hb Hm. unfold take_body. trun. rewrite Hc.
  rewrite run_bind, (run_ucall _ w tt (<[buf + count := u8 c]> (user w))) by by apply run_stb.
  cbn [obind]. rewrite u8_small by done. trun. by rewrite insert_insert_eq.
Qed.

(** Copying to the caller takes the oldest characters. *)
Lemma take_loop len buf p : forall w eof delim count,
  typed w eof delim p -> 0 <= count <= len -> mapped (user w) (buf + count) (Z.min (len - count) (Z.of_nat (length p))) ->
  let n := Nat.min (Z.to_nat (len - count)) (length p) in
  exists w', run (while_ (S (length p)) (take_cond i len) (take_body i buf) count) w = Done (count + Z.of_nat n) w' /\
    kern w' = kern w /\ hw (own w') = hw (own w) /\ user w' = poke (buf + count) (take n p) (user w) /\
    typed w' eof delim (drop n p).
Proof.
  induction p as [|c p IH]; intros w eof delim count Hty Hcount Hm n; pose proof Hty as [Hl Hb (e & He & Hw & Hfl & Heof & Hd & Hs & Hc & Hcells & Hp)];
    cbn [while_]; rewrite run_bind, (run_take_cond w e) by done; cbn [obind]; rewrite Hc.
  - change (0 <? Z.of_nat (length [])) with false. cbn [andb]. trun. exists w. unfold n. cbn [length]. rewrite Nat.min_0_r, Z.add_0_r. done.
  - destruct (Z.ltb_spec count len) as [Hlt | Hge].
    + cbn [length]. rewrite (proj2 (Z.ltb_lt 0 _)) by lia. cbn [andb].
      pose proof (Hp 0%nat c eq_refl) as Hc0. rewrite Z.add_0_r, Z.mod_small in Hc0 by done.
      apply Forall_cons in Hb as [Hbc Hb]. cbn [length] in *.
      rewrite run_bind, (run_take_body w e c) by (try done; pose proof (Hm 0 ltac:(lia)) as H0; by rewrite Z.add_0_r in H0).
      cbn [obind]. rewrite Hc.
      set (w1 := mkDst _ _ _).
      destruct (IH w1 eof delim (count + 1)) as (w' & Hrun & Hk & Hh & Hu & Hty').
      * split; [lia | done |]. eexists. split; [apply lookup_insert_eq |]. cbn.
        split; [done |]. split; [done |]. split; [done |]. split; [done |].
        split; [apply Z.mod_pos_bound; unfold TTY_IBLEN; lia |].
        split; [rewrite u32_small by (unfold TTY_IBLEN in *; lia); lia |]. split; [done |].
        intros j x Hx. rewrite <- (Hp (S j) x Hx), u32_small by (unfold TTY_IBLEN in *; lia). f_equal.
        rewrite Zplus_mod_idemp_l. f_equal. lia.
      * lia.
      * unfold w1. cbn [user]. intros k Hk. rewrite lookup_insert_is_Some'. right.
        replace (buf + (count + 1) + k) with (buf + count + (1 + k)) by lia. apply Hm. lia.
      * exists w'. rewrite Hrun, Hk, Hh, Hu. unfold w1. cbn [user kern own hw].
        replace n with (S (Nat.min (Z.to_nat (len - (count + 1))) (length p))) by (unfold n; lia). cbn [take drop poke].
        replace (buf + count + 1) with (buf + (count + 1)) by lia. split_and!; try done. f_equal. lia.
    + rewrite andb_false_r. trun. exists w. replace n with 0%nat by (unfold n; lia). rewrite Z.add_0_r. done.
Qed.

Lemma run_take_in w eof delim p buf len :
  typed w eof delim p -> 0 <= len -> mapped (user w) buf (Z.min len (Z.of_nat (length p))) ->
  let n := Nat.min (Z.to_nat len) (length p) in
  exists w', run (take_in i buf len 0) w = Done (Z.of_nat n) w' /\
    kern w' = kern w /\ hw (own w') = hw (own w) /\ user w' = poke buf (take n p) (user w) /\
    typed w' eof delim (drop n p).
Proof.
  intros Hty Hlen Hm n. pose proof Hty as [_ _ (e & He & _ & _ & _ & _ & _ & Hc & _)]. unfold take_in. trun.
  rewrite Hc, Nat2Z.id. destruct (take_loop len buf p w eof delim 0 Hty ltac:(lia)) as (w' & Hrun & Hk & Hh & Hu & Hty').
  { by rewrite Z.add_0_r, Z.sub_0_r. }
  rewrite Z.sub_0_r, Z.add_0_r in *. exists w'. by split_and!.
Qed.

(** C40: a line-buffered terminal hands out the lines that the reference editor makes of
    the characters typed: with a whole line pending, or after reading one, the call
    copies as much of it as the caller asked for, keeps the rest for the next call,
    and reports the end of the input when there is nothing before it; it takes no
    character after the line from the device. *)
Theorem tty_reads_line w delim p input p' delim' eof rest buf len fuel :
  flag fl TTY_IRAW = false -> typed w false delim p -> feeds (hw (own w)) input -> Forall isbyte input ->
  (length input < fuel)%nat -> 0 <= len < 2 ^ 31 ->
  (if delim then Some (p, true, false, input) else cook fl p input) = Some (p', delim', eof, rest) ->
  mapped (user w) buf (Z.min len (Z.of_nat (length p'))) ->
  let n := Nat.min (Z.to_nat len) (length p') in
  let ended := eof && (n =? 0)%nat in
  exists w', run (ttyRead getc putc fuel i buf len) w = Done (if ended then EOF else Z.of_nat n) w' /\
    kern w' = kern w /\ user w' = poke buf (take n p') (user w) /\ feeds (hw (own w')) rest /\
    typed w' (eof && negb ended) (delim' && (n <? length p')%nat) (drop n p').
Proof.
  intros Hraw Hty Hf Hb Hfuel Hlen Hc Hm n ended. unfold ttyRead. rewrite (u32_small len) by lia.
  pose proof Hty as [_ _ (e & He & Hw & Hfl & Heof & Hd & _)]. trun. rewrite Hw, Heof, Hfl, Hraw.
  assert (Hloop : exists w1, run (cook_loop getc putc fuel i d) w = Done false w1 /\ kern w1 = kern w /\ user w1 = user w /\
    typed w1 eof delim' p' /\ feeds (hw (own w1)) rest).
  { destruct delim; [| by apply (run_cook_loop input fuel w p)]. injection Hc as <- <- <- <-.
    exists w. destruct fuel as [|fuel]; [lia |]. cbn [cook_loop]. trun. rewrite Hd, andb_false_r. cbn [negb]. by trun. }
  destruct Hloop as (w1 & H1 & Hk1 & Hu1 & Hty1 & Hf1). rewrite run_bind, H1. cbn [obind].
  destruct (run_take_in w1 eof delim' p' buf len Hty1 ltac:(lia)) as (w2 & H2 & Hk2 & Hh2 & Hu2 & Hty2); [by rewrite Hu1 |].
  fold n in H2, Hu2, Hty2. rewrite run_bind, H2. cbn [obind].
  pose proof Hty2 as [_ _ (e2 & He2 & _ & _ & Heof2 & _ & _ & Hc2 & _)]. rewrite length_drop in Hc2.
  assert (Hn : (n <= length p')%nat) by (unfold n; lia). trun.
  assert (Hclear : exists w3, run (if 0 =? y_icount e2 then amend_ttx i (set_y_idelim false) else mret tt) w2 = Done tt w3 /\
    kern w3 = kern w2 /\ user w3 = user w2 /\ hw (own w3) = hw (own w2) /\
    typed w3 eof (delim' && (n <? length p')%nat) (drop n p')).
  { destruct (Z.eqb_spec 0 (y_icount e2)).
    - trun. eexists. split; [exact eq_refl |]. split; [done |]. split; [done |]. split; [done |].
      rewrite (proj2 (Nat.ltb_ge _ _)), andb_false_r by lia.
      by apply (typed_flags w2 e2 (set_y_idelim false) eof delim' eof false (drop n p')).
    - exists w2. rewrite (proj2 (Nat.ltb_lt _ _)), andb_true_r by lia. by rewrite run_ret. }
  destruct Hclear as (w3 & H3 & Hk3 & Hu3 & Hh3 & Hty3). rewrite H3. cbn [obind].
  pose proof Hty3 as [_ _ (e3 & He3 & _ & _ & Heof3 & Hd3 & _)]. trun. rewrite Heof3.
  assert (E0 : (0 =? Z.of_nat n) = (n =? 0)%nat).
  { destruct (Z.eqb_spec 0 (Z.of_nat n)), (Nat.eqb_spec n 0); done || lia. }
  rewrite E0, (andb_comm _ eof). fold ended. destruct ended eqn:Een.
  - trun. eexists. split; [exact eq_refl |]. split; [cbn; congruence |]. split; [cbn; congruence |].
    split; [cbn; by rewrite Hh3, Hh2 |]. cbn [negb]. rewrite andb_false_r.
    by apply (typed_flags w3 e3 (set_y_ieof false) eof (delim' && (n <? length p')%nat) false _ (drop n p')).
  - rewrite run_ret, i32_small by lia. exists w3. rewrite andb_true_r. split_and!; [done | congruence | congruence | by rewrite Hh3, Hh2 | done].
Qed.
End Line.

(** ** Output *)

(** A driver that keeps what is written to the device [d]. *)
Class Sink {H : Type} (putc : Z -> Z -> prog H Z) (d : Z) (sent : H -> list Z) : Prop :=
  sink_putc h c : exists r h', run (putc d c) h = Done r h' /\ r <> SYSERR /\ sent h' = sent h ++ [c].

(** What the device gets for a character. *)
Definition cooked_out (fl c : Z) : list Z :=
  if c =? 10 then if flag fl TTY_ONLCR then [13; 10] else [10]
  else if c =? 13 then [if flag fl TTY_OCRNL then 10 else 13]
  else [c].

Section Output.
Context {H : Type} (putc : Z -> Z -> prog H Z) (d : Z) (sent : H -> list Z).
Context `{!Sink putc d sent}.
Context (i : Z) (e : tty).

(** The part of the state that output does not change. *)
Definition same_but_sent (w w' : dst (ttyst H)) (l : list Z) : Prop :=
  kern w' = kern w /\ user w' = user w /\ ttytab (own w') = ttytab (own w) /\
  sent (hw (own w')) = sent (hw (own w)) ++ l.

Lemma same_but_sent_trans w1 w2 w3 l1 l2 :
  same_but_sent w1 w2 l1 -> same_but_sent w2 w3 l2 -> same_but_sent w1 w3 (l1 ++ l2).
Proof. intros (? & ? & ? & E1) (? & ? & ? & E2). unfold same_but_sent. rewrite app_assoc, <- E1. split_and!; congruence. Qed.

Lemma run_sink w c :
  exists r w', run (phw_putc putc d c) w = Done r w' /\ r <> SYSERR /\ same_but_sent w w' [c].
Proof.
  destruct (sink_putc (hw (own w)) c) as (r & h & Hrun & Hr & Hs).
  exists r, (put_hw h w). split; [by apply (run_zoom_done get_hw put_hw) | done].
Qed.

Lemma run_out w c :
  ttytab (own w) !! i = Some e -> y_phw e = Some d -> isbyte c ->
  exists r w', run (ttyPutc putc i c) w = Done r w' /\ r <> SYSERR /\ same_but_sent w w' (cooked_out (y_oflags e) c).
Proof.
  intros He Hd Hc. unfold ttyPutc, cooked_out. rewrite u8_small by done.
  rewrite run_bind. unfold ttx. rewrite (run_load (fun w => ttytab (own w)) i e w He). cbn [obind]. rewrite Hd.
  destruct (Z.eqb_spec c 10) as [-> |]; [| destruct (Z.eqb_spec c 13) as [-> |]; [| apply run_sink]].
  - destruct (flag (y_oflags e) TTY_ONLCR); rewrite !run_bind.
    + destruct (run_sink w 13) as (r & w1 & -> & Hr & H1). cbn [obind]. rewrite run_ret. cbn [obind].
      rewrite (proj2 (Z.eqb_neq SYSERR r)) by done. destruct (run_sink w1 10) as (r2 & w2 & Hrun2 & Hr2 & H2).
      exists r2, w2. split; [exact Hrun2 |]. split; [done |]. by apply (same_but_sent_trans w w1 w2 [13] [10]).
    + rewrite run_ret. cbn [obind]. apply run_sink.
  - destruct (flag (y_oflags e) TTY_OCRNL); apply run_sink.
Qed.

Lemma run_write_char w buf j c :
  ttytab (own w) !! i = Some e -> y_phw e = Some d -> user w !! (buf + j) = Some c -> isbyte c ->
  exists w', run (write_char putc i buf j tt) w = Done (inl tt) w' /\ same_but_sent w w' (cooked_out (y_oflags e) c).
Proof.
  intros He Hd Hc Hcb. unfold write_char. rewrite run_bind, (run_ucall _ _ c (user w)) by by apply run_ldb.
  rewrite dst_eta. cbn [obind]. destruct (run_out w c He Hd Hcb) as (r & w1 & Hrun & Hr & H1).
  exists w1. rewrite run_bind, Hrun. cbn [obind]. by rewrite (proj2 (Z.eqb_neq SYSERR r)) by done.
Qed.

Lemma write_chars buf l : forall j w,
  ttytab (own w) !! i = Some e -> y_phw e = Some d -> bytes_at (user w) (buf + j) l -> Forall isbyte l ->
  exists w', run (for_ (length l) j (write_char putc i buf) tt) w = Done (inl tt) w' /\
    same_but_sent w w' (l ≫= cooked_out (y_oflags e)).
Proof.
  induction l as [|c l IH]; intros j w He Hd Hb Hl; cbn [for_ length mbind list_bind].
  - exists w. split; [done |]. repeat split. by rewrite app_nil_r.
  - apply bytes_at_cons in Hb as [Hc Hb]. apply Forall_cons in Hl as [Hcb Hl].
    destruct (run_write_char w buf j c He Hd Hc Hcb) as (w1 & Hrun & H1). rewrite run_bind, Hrun. cbn [obind]. pose proof H1 as (_ & Hu & Ht & _).
    destruct (IH (j + 1) w1) as (w2 & Hrun2 & H2); [by rewrite Ht | done | rewrite Hu; by replace (buf + (j + 1)) with (buf + j + 1) by lia | done |].
    exists w2. split; [done |]. by apply (same_but_sent_trans w w1).
Qed.

(** Writing to a terminal sends every character to the device once and in order,
    with the ends of lines translated as the output flags say, and changes nothing
    else. *)
Theorem tty_writes w buf l :
  ttytab (own w) !! i = Some e -> y_phw e = Some d -> bytes_at (user w) buf l -> Forall isbyte l -> Z.of_nat (length l) < 2 ^ 31 ->
  exists w', run (ttyWrite putc i buf (Z.of_nat (length l))) w = Done (Z.of_nat (length l)) w' /\
    same_but_sent w w' (l ≫= cooked_out (y_oflags e)).
Proof.
  intros He Hd Hb Hl Hlen. unfold ttyWrite. rewrite u32_small, Nat2Z.id by lia.
  destruct (write_chars buf l 0 w He Hd ltac:(by rewrite Z.add_0_r) Hl) as (w' & Hrun & Hs).
  exists w'. rewrite run_bind, Hrun. cbn [obind]. by rewrite run_ret, i32_small by lia.
Qed.
End Output.
