(* ===== verification/Chksum.v ===== *)
(** The Internet checksum: network/net/netChksum.c with the byte order macros of
    include/network.h.  The loop over 16-bit words and its folding compute the
    complement of the one's-complement sum [oc (wsum l)] of the bytes [l]; a block
    that carries its own checksum sums to zero, and no single wrong byte goes
    unnoticed. *)
From Stdlib Require Import ZArith Lia.
From stdpp Require Import sorting gmap functions list.
From S2P Require Import Prelude Kernel Bytes.

(** ** Half words *)

(** The processor is little-endian. *)
Definition hs2net (x : Z) : Z := Z.lor (Z.land (Z.shiftr x 8) 255) (Z.shiftl (Z.land x 255) 8).
Definition net2hs : Z -> Z := hs2net.

Definition ldh (a : Z) : bprog Z :=
  lo ← ldb a;
  hi ← ldb (a + 1);
  mret (lo + 256 * hi).

Definition sth (a v : Z) : bprog unit :=
  stb a v;;
  stb (a + 1) (Z.shiftr v 8).

(** ** The routine *)

(** The two loops; the state of the first is [(sum, ptr, len)]. *)
Definition sum_body (st : Z * Z * Z) : bprog (Z * Z * Z) :=
  let '(sum, ptr, len) := st in
  h ← ldh ptr;
  mret (u32 (sum + h), ptr + 2, len - 2).
Definition sum_words (st : Z * Z * Z) : bprog (Z * Z * Z) :=
  while_ (S (Z.to_nat (st.2))) (fun st => mret (1 <? st.2)) sum_body st.

(** Three rounds are enough, [run_fold_sum]. *)
Definition carries (sum : Z) : bprog bool := mret (negb (Z.shiftr sum 16 =? 0)).
Definition fold_carries (sum : Z) : bprog Z := mret (u32 (Z.shiftr sum 16 + Z.land sum 65535)).
Definition fold_sum (sum : Z) : bprog Z := while_ 4 carries fold_carries sum.

Definition netChksum (data len : Z) : bprog Z :=
  r ← sum_words (0, data, u32 len);
  let '(sum, ptr, len) := (r : Z * Z * Z) in
  sum ← (if 0 <? len then c ← ldb ptr; mret (u32 (sum + net2hs (Z.shiftl c 8))) else mret sum);
  sum ← fold_sum sum;
  mret (u16 (Z.lnot sum)).

(** ** Specification *)

Fixpoint wsum (l : list Z) : Z :=
  match l with
  | lo :: hi :: l => lo + 256 * hi + wsum l
  | [lo] => lo
  | [] => 0
  end.

(** The one's-complement sum: the value between 1 and [2 ^ 16 - 1] that has the same
    remainder; only zero itself is zero. *)
Definition oc (x : Z) : Z := if x =? 0 then 0 else (x - 1) mod 65535 + 1.

Lemma oc_range x : 0 <= x -> 0 <= oc x <= 65535.
Proof. intros H. unfold oc. destruct (Z.eqb_spec x 0); lia. Qed.

Lemma oc_small x : 0 <= x <= 65535 -> oc x = x.
Proof. intros H. unfold oc. destruct (Z.eqb_spec x 0); lia. Qed.

Lemma oc_fold q r : 0 <= q -> 0 <= r -> oc (65536 * q + r) = oc (q + r).
Proof.
  intros Hq Hr. unfold oc. destruct (Z.eqb_spec (65536 * q + r) 0), (Z.eqb_spec (q + r) 0); lia.
Qed.

(** Adding the complement of a sum gives all ones. *)
Lemma oc_complement x : 0 <= x -> oc (x + (65535 - oc x)) = 65535.
Proof. intros H. unfold oc. destruct (Z.eqb_spec x 0); [by subst |]. destruct (Z.eqb_spec (x + (65535 - ((x - 1) mod 65535 + 1))) 0); lia. Qed.

Lemma oc_ones x : 0 < x -> oc x = 65535 <-> x mod 65535 = 0.
Proof. intros H. unfold oc. destruct (Z.eqb_spec x 0); lia. Qed.

Lemma wsum_nonneg l : Forall isbyte l -> 0 <= wsum l.
Proof.
  revert l. fix IH 1. intros [|a [|b l]] H; cbn [wsum]; [lia | |].
  - apply Forall_cons in H as [H _]. unfold isbyte in H. lia.
  - apply Forall_cons in H as [Ha H]. apply Forall_cons in H as [Hb H]. specialize (IH _ H). unfold isbyte in *. lia.
Qed.

Lemma wsum_bound l : Forall isbyte l -> 2 * wsum l <= 65535 * (Z.of_nat (length l) + 1).
Proof.
  revert l. fix IH 1. intros [|a [|b l]] H; cbn [wsum length]; [lia | |].
  - apply Forall_cons in H as [H _]. unfold isbyte in H. lia.
  - apply Forall_cons in H as [Ha H]. apply Forall_cons in H as [Hb H]. specialize (IH _ H). unfold isbyte in *. lia.
Qed.

(** The sum adds up over a block that starts on a word. *)
Lemma wsum_app l1 l2 k : length l1 = (2 * k)%nat -> wsum (l1 ++ l2) = wsum l1 + wsum l2.
Proof.
  revert l1. induction k as [|k IH]; intros l1 H; [by destruct l1 |].
  destruct l1 as [|a [|b l1]]; cbn in H; try lia. cbn [app wsum]. rewrite IH by lia. lia.
Qed.

(** ** The routine computes the sum *)

Lemma lor_shiftl lo hi k : 0 <= k -> 0 <= lo < 2 ^ k -> Z.lor lo (Z.shiftl hi k) = lo + hi * 2 ^ k.
Proof.
  intros Hk Hlo. pose proof (Z.add_lor_land lo (Z.shiftl hi k)) as E. rewrite Z.shiftl_mul_pow2 in E at 3 by lia.
  enough (Z.land lo (Z.shiftl hi k) = 0) by lia.
  apply Z.bits_inj_0. intros i. rewrite Z.land_spec. destruct (Z.ltb_spec i k).
  - destruct (Z.ltb_spec i 0); [by rewrite Z.testbit_neg_r |]. by rewrite (Z.shiftl_spec_low hi), andb_false_r.
  - rewrite <- (Z.mod_small lo (2 ^ k)) by done. by rewrite Z.mod_pow2_bits_high.
Qed.

Lemma hs2net_swap lo hi : isbyte lo -> isbyte hi -> hs2net (lo + 256 * hi) = hi + 256 * lo.
Proof.
  unfold isbyte. intros Hlo Hhi. unfold hs2net. rewrite Z.shiftr_div_pow2 by lia.
  change 255 with (Z.ones 8). rewrite !Z.land_ones by lia. change (2 ^ 8) with 256.
  rewrite lor_shiftl by (change (2 ^ 8) with 256; lia). change (2 ^ 8) with 256. lia.
Qed.

Lemma run_ldh a lo hi (m : bytemem) :
  m !! a = Some lo -> m !! (a + 1) = Some hi -> run (ldh a) m = Done (lo + 256 * hi) m.
Proof. intros H1 H2. unfold ldh. rewrite run_bind, (run_ldb _ lo) by done. cbn [obind]. by rewrite run_bind, (run_ldb _ hi). Qed.

(** The first loop adds the whole words; what is left is the odd byte, if any. *)
Lemma run_sum_loop m : forall fuel l sum a,
  (length l < fuel)%nat -> bytes_at m a l -> Forall isbyte l -> 0 <= sum -> sum + wsum l < 2 ^ 32 ->
  exists sum' ptr r, run (while_ fuel (fun st => mret (1 <? st.2)) sum_body (sum, a, Z.of_nat (length l))) m =
      Done (sum', ptr, Z.of_nat (length r)) m /\
    (length r <= 1)%nat /\ bytes_at m ptr r /\ Forall isbyte r /\ sum' + wsum r = sum + wsum l /\ 0 <= sum'.
Proof.
  induction fuel as [|fuel IH]; intros l sum a Hf Hl Hb Hs Hw; [lia |]. cbn [while_]. autorewrite with prun. cbn [obind snd].
  destruct l as [|lo [|hi l]].
  - exists sum, a, []. by split_and!; cbn; try lia.
  - exists sum, a, [lo]. by split_and!; cbn; try lia.
  - apply bytes_at_cons in Hl as [Hlo Hl]. apply bytes_at_cons in Hl as [Hhi Hl].
    apply Forall_cons in Hb as [Blo Hb]. apply Forall_cons in Hb as [Bhi Hb]. pose proof (wsum_nonneg l Hb).
    unfold isbyte in Blo, Bhi. cbn [wsum length] in *. rewrite (proj2 (Z.ltb_lt _ _)) by lia.
    cbn [sum_body]. autorewrite with prun. rewrite (run_ldh _ lo hi) by done. cbn [obind]. autorewrite with prun. cbn [obind].
    rewrite u32_small by lia. replace (Z.of_nat (S (S (length l))) - 2) with (Z.of_nat (length l)) by lia.
    replace (a + 2) with (a + 1 + 1) by lia.
    destruct (IH l (sum + (lo + 256 * hi)) (a + 1 + 1)) as (s' & p & r & Hrun & Hr); try done; try lia.
    exists s', p, r. split; [exact Hrun |]. destruct Hr as (? & ? & ? & ? & ?). split_and!; try done; lia.
Qed.

(** The second folds the carries back in. *)
Lemma run_fold_sum x (m : bytemem) : 0 <= x < 2 ^ 32 -> run (fold_sum x) m = Done (oc x) m.
Proof.
  intros Hx. unfold fold_sum.
  assert (Hc : forall y, 0 <= y < 2 ^ 32 -> run (carries y) m = Done (65536 <=? y) m).
  { intros y Hy. unfold carries. rewrite run_ret, (Z.shiftr_div_pow2 y 16) by lia. f_equal. change (2 ^ 16) with 65536.
    destruct (Z.eqb_spec (y / 65536) 0), (Z.leb_spec 65536 y); done || lia. }
  assert (Hb : forall y, 0 <= y < 2 ^ 32 -> run (fold_carries y) m = Done (y / 65536 + y mod 65536) m).
  { intros y Hy. unfold fold_carries. rewrite run_ret, (Z.shiftr_div_pow2 y 16) by lia. change 65535 with (Z.ones 16).
    rewrite Z.land_ones by lia. change (2 ^ 16) with 65536. by rewrite u32_small by lia. }
  assert (Hstop : forall n y, 0 <= y < 65536 -> run (while_ (S n) carries fold_carries y) m = Done y m).
  { intros n y Hy. cbn [while_]. rewrite run_bind, Hc by lia. cbn [obind]. by rewrite (proj2 (Z.leb_gt _ _)) by lia. }
  assert (Hgo : forall n y, 65536 <= y < 2 ^ 32 ->
    run (while_ (S n) carries fold_carries y) m = run (while_ n carries fold_carries (y / 65536 + y mod 65536)) m).
  { intros n y Hy. cbn [while_]. rewrite run_bind, Hc by lia. cbn [obind]. rewrite (proj2 (Z.leb_le _ _)) by lia.
    rewrite run_bind, Hb by lia. done. }
  assert (Hoc : forall y, 65536 <= y < 2 ^ 32 -> oc (y / 65536 + y mod 65536) = oc y).
  { intros y Hy. rewrite (Z.div_mod y 65536) at 3 by lia. symmetry. apply oc_fold; lia. }
  destruct (Z.ltb_spec x 65536); [by rewrite Hstop, oc_small by lia |].
  rewrite Hgo, <- Hoc by lia. set (y := x / 65536 + x mod 65536). assert (0 <= y < 2 ^ 32) by lia.
  destruct (Z.ltb_spec y 65536); [by rewrite Hstop, oc_small by lia |].
  rewrite Hgo, <- Hoc by lia. set (z := y / 65536 + y mod 65536). assert (0 <= z < 65536) by lia.
  by rewrite Hstop, oc_small by lia.
Qed.

(** The routine gives the complement of the sum of the block. *)
Lemma run_netChksum m l a :
  bytes_at m a l -> Forall isbyte l -> Z.of_nat (length l) < 2 ^ 17 ->
  run (netChksum a (Z.of_nat (length l))) m = Done (65535 - oc (wsum l)) m.
Proof.
  intros Hl Hb Hlen. pose proof (wsum_nonneg l Hb). pose proof (wsum_bound l Hb).
  unfold netChksum, sum_words. rewrite u32_small by lia. cbn [snd]. rewrite Nat2Z.id.
  destruct (run_sum_loop m (S (length l)) l 0 a) as (s & p & r & Hrun & Hr1 & Hr & Hrb & Hsum & Hs); try done; try lia.
  rewrite run_bind, Hrun. cbn [obind]. rewrite run_bind.
  assert (run (if 0 <? Z.of_nat (length r) then c ← ldb p; mret (u32 (s + net2hs (Z.shiftl c 8))) else mret s) m = Done (wsum l) m) as ->.
  { destruct r as [|c [|? ?]]; cbn [length wsum] in *; [| | lia].
    - replace s with (wsum l) by lia. done.
    - apply bytes_at_cons in Hr as [Hc _]. apply Forall_cons in Hrb as [Bc _]. cbn match.
      change (0 <? Z.of_nat 1) with true. cbn match. rewrite run_bind, (run_ldb _ c) by done. cbn [obind].
      unfold net2hs. rewrite Z.shiftl_mul_pow2 by lia. change (2 ^ 8) with 256. replace (c * 256) with (0 + 256 * c) by lia.
      rewrite hs2net_swap by (done || (unfold isbyte; lia)). rewrite u32_small by (unfold isbyte in *; lia). rewrite run_ret. f_equal. lia. }
  cbn [obind]. rewrite run_bind, run_fold_sum by lia. cbn [obind]. autorewrite with prun. f_equal.
  pose proof (oc_range (wsum l) ltac:(lia)). unfold u16, Z.lnot. lia.
Qed.

(** ** Checking a block *)

(** Where the checksum is stored, on a word boundary, with its own place zero while it
    is computed. *)
Definition with_chksum (pre post : list Z) (c : Z) : list Z := pre ++ [c mod 256; c / 256] ++ post.

Lemma wsum_with_chksum pre post k c :
  length pre = (2 * k)%nat -> 0 <= c < 65536 -> wsum (with_chksum pre post c) = wsum (with_chksum pre post 0) + c.
Proof. intros Hk Hc. unfold with_chksum. rewrite !(wsum_app pre _ k) by done. cbn. lia. Qed.

Lemma with_chksum_bytes pre post c :
  Forall isbyte pre -> Forall isbyte post -> 0 <= c < 65536 -> Forall isbyte (with_chksum pre post c).
Proof.
  intros Hpre Hpost Hc. unfold with_chksum. repeat (apply Forall_app; split); try done.
  repeat constructor; unfold isbyte; lia.
Qed.

(** A block that holds, on a word boundary, the checksum computed while those two
    bytes were zero has checksum zero: what the sender inserts is what the receiver
    checks. *)
Theorem chksum_inserted m0 m1 a pre post k :
  length pre = (2 * k)%nat -> Forall isbyte pre -> Forall isbyte post ->
  Z.of_nat (length (with_chksum pre post 0)) < 2 ^ 17 ->
  bytes_at m0 a (with_chksum pre post 0) ->
  exists c, run (netChksum a (Z.of_nat (length (with_chksum pre post 0)))) m0 = Done c m0 /\ 0 <= c < 65536 /\
    (bytes_at m1 a (with_chksum pre post c) ->
     run (netChksum a (Z.of_nat (length (with_chksum pre post 0)))) m1 = Done 0 m1).
Proof.
  intros Hk Hpre Hpost Hlen H0. pose proof (with_chksum_bytes pre post 0 Hpre Hpost ltac:(lia)) as Hb.
  pose proof (wsum_nonneg _ Hb) as Hn. pose proof (oc_range _ Hn). eexists. split; [by apply run_netChksum |]. split; [lia |].
  intros H1. set (c := 65535 - oc _) in *.
  replace (length (with_chksum pre post 0)) with (length (with_chksum pre post c)) by (unfold with_chksum; by rewrite !length_app).
  rewrite run_netChksum; [| done | apply with_chksum_bytes; done || lia | unfold with_chksum in *; rewrite !length_app in *; done].
  rewrite (wsum_with_chksum pre post k), oc_complement by (done || lia). done.
Qed.

Lemma wsum_insert l : forall i b b', l !! i = Some b ->
  wsum (<[i := b']> l) = wsum l + (b' - b) * (if Nat.even i then 1 else 256).
Proof.
  revert l. fix IH 1. intros [|x [|y l]] i b b' Hi; [done | |].
  - destruct i; [|done]. injection Hi as ->. cbn. lia.
  - destruct i as [|[|i]]; [injection Hi as ->; cbn; lia | injection Hi as ->; cbn; lia |].
    change (<[S (S i) := b']> (x :: y :: l)) with (x :: y :: <[i := b']> l).
    pose proof (IH l i b b' Hi) as E. cbn [wsum Nat.even]. lia.
Qed.

(** C33: Every single wrong byte is noticed: a block of fewer than 2^17 octets
    that has checksum zero has not with one of its bytes changed. *)
Theorem chksum_detects m0 m1 a l i b b' :
  Forall isbyte l -> Z.of_nat (length l) < 2 ^ 17 -> bytes_at m0 a l -> l !! i = Some b -> isbyte b' -> b' <> b ->
  run (netChksum a (Z.of_nat (length l))) m0 = Done 0 m0 ->
  bytes_at m1 a (<[i := b']> l) ->
  exists c, run (netChksum a (Z.of_nat (length l))) m1 = Done c m1 /\ c <> 0.
Proof.
  intros Hb Hlen Hl Hi Hb' Hne Hrun H1. rewrite run_netChksum in Hrun by done. injection Hrun as Hz.
  assert (Hb2 : Forall isbyte (<[i := b']> l)) by (by apply Forall_insert).
  replace (length l) with (length (<[i := b']> l)) by apply length_insert.
  eexists. split; [apply run_netChksum; by rewrite ?length_insert |].
  pose proof (Forall_lookup_1 _ _ _ _ Hb Hi) as Hbb. pose proof (wsum_nonneg l Hb) as Hw. pose proof (wsum_nonneg _ Hb2) as Hw2.
  rewrite (wsum_insert l i b b' Hi) in *. unfold isbyte in *. unfold oc in *.
  destruct (Z.eqb_spec (wsum l) 0), (Z.eqb_spec (wsum l + (b' - b) * (if Nat.even i then 1 else 256)) 0);
    destruct (Nat.even i); lia.
Qed.
