(* ===== verification/Netaddr.v ===== *)
(** Network addresses: network/netaddr/netaddrequal.c, netaddrmask.c, netaddrhost.c,
    with the addresses of include/network.h.  A mask of leading ones selects a prefix
    of an address. *)
From Stdlib Require Import ZArith Lia.
From stdpp Require Import sorting gmap functions list.
From S2P Require Import Prelude Kernel Bytes.

(** ** Data *)

Definition NET_MAX_ALEN : Z := 6.
Definition NETADDR_ETHERNET : Z := 1.
Definition ETHER_TYPE_IPv4 : Z := 2048.
Definition NETADDR_IPv4 : Z := ETHER_TYPE_IPv4.
Definition IPv4_ADDR_LEN : Z := 4.
Definition ETH_ADDR_LEN : Z := 6.

(** [struct netaddr].  The array has [NET_MAX_ALEN] places. *)
Record netaddr := mkNetaddr { na_type : Z; na_len : Z; na_addr : list Z }.

#[global] Instance netaddr_eq_dec : EqDecision netaddr.
Proof. solve_decision. Defined.

Definition set_na_type v a := mkNetaddr v (na_len a) (na_addr a).
Definition set_na_len v a := mkNetaddr (na_type a) v (na_addr a).
Definition set_na_addr v a := mkNetaddr (na_type a) (na_len a) v.

(** The variables of the C code that have not been written have value zero here. *)
Definition zero_netaddr : netaddr := mkNetaddr 0 0 (replicate 6 0).

Definition NETADDR_GLOBAL_IP_BRC : netaddr := mkNetaddr NETADDR_IPv4 IPv4_ADDR_LEN (replicate 6 255).
Definition NETADDR_GLOBAL_ETH_BRC : netaddr := mkNetaddr NETADDR_ETHERNET ETH_ADDR_LEN (replicate 6 255).

Section Netaddr.
Context {S : Type}.

(** The first [n] bytes of an array, which faults when it has less. *)
Definition first_bytes (n : Z) (l : list Z) : prog S (list Z) :=
  if n <=? Z.of_nat (length l) then mret (take (Z.to_nat n) l) else fault.

(** [0 == memcmp(a->addr, b->addr, a->len)] is the last test. *)
Definition netaddrequal (a b : netaddr) : prog S bool :=
  if (na_type a =? na_type b) && (na_len a =? na_len b) then
    l ← first_bytes (na_len a) (na_addr a);
    l' ← first_bytes (na_len a) (na_addr b);
    mret (bool_decide (l = l'))
  else mret false.

(** [for (i = 0; i < n; i++) a[i] = f(a[i], b[i])] *)
Fixpoint map_addr (f : Z -> Z -> Z) (n : nat) (a b : list Z) : prog S (list Z) :=
  match n with
  | O => mret a
  | Datatypes.S n =>
      match a, b with
      | x :: a, y :: b => r ← map_addr f n a b; mret (f x y :: r)
      | _, _ => fault
      end
  end.

(** These return the value and the address that [a] points to after the call. *)
Definition netaddrmask (a mask : netaddr) : prog S (Z * netaddr) :=
  if negb (na_type a =? na_type mask) || negb (na_len a =? na_len mask) then mret (SYSERR, a) else
  l ← map_addr (fun x m => u8 (Z.land x m)) (Z.to_nat (na_len a)) (na_addr a) (na_addr mask);
  mret (OK, set_na_addr l a).

Definition netaddrhost (a mask : netaddr) : prog S (Z * netaddr) :=
  if negb (na_type a =? na_type mask) || negb (na_len a =? na_len mask) then mret (SYSERR, a) else
  l ← map_addr (fun x m => u8 (Z.land x (Z.lnot m))) (Z.to_nat (na_len a)) (na_addr a) (na_addr mask);
  mret (OK, set_na_addr l a).
End Netaddr.

(** A well-formed address. *)
Record addr_ok (a : netaddr) : Prop := {
  ao_len : 0 <= na_len a <= NET_MAX_ALEN;
  ao_addr : length (na_addr a) = 6%nat;
  ao_bytes : Forall isbyte (na_addr a);
}.

(** The bytes that count, and equality as [netaddrequal] tests it. *)
Definition abytes (a : netaddr) : list Z := take (Z.to_nat (na_len a)) (na_addr a).
Definition same_addr (a b : netaddr) : bool :=
  (na_type a =? na_type b) && (na_len a =? na_len b) && bool_decide (abytes a = abytes b).

(** What [netaddrmask] leaves of an address. *)
Definition masked (a m : netaddr) : netaddr :=
  if (na_type a =? na_type m) && (na_len a =? na_len m) then
    set_na_addr (zip_with Z.land (abytes a) (abytes m) ++ drop (Z.to_nat (na_len a)) (na_addr a)) a
  else a.

Section Netaddr_facts.
Context {S : Type}.

Lemma run_first_bytes n l (s : S) : n <= Z.of_nat (length l) -> run (first_bytes n l) s = Done (take (Z.to_nat n) l) s.
Proof. intros H. unfold first_bytes. by rewrite (proj2 (Z.leb_le _ _)). Qed.

Lemma run_netaddrequal a b (s : S) : addr_ok a -> addr_ok b -> run (netaddrequal a b) s = Done (same_addr a b) s.
Proof.
  intros [La Na Ba] [Lb Nb Bb]. unfold netaddrequal, same_addr, NET_MAX_ALEN in *.
  destruct (Z.eqb_spec (na_type a) (na_type b)); [| done]. destruct (Z.eqb_spec (na_len a) (na_len b)) as [E|]; [| done]. cbn [andb].
  rewrite run_bind, run_first_bytes by lia. cbn [obind]. rewrite run_bind, run_first_bytes by lia. cbn [obind].
  unfold abytes. by rewrite E.
Qed.

Lemma run_map_addr f n : forall a b (s : S), (n <= length a)%nat -> (n <= length b)%nat ->
  run (map_addr f n a b) s = Done (zip_with f (take n a) (take n b) ++ drop n a) s.
Proof.
  induction n as [|n IH]; intros a b s Ha Hb; [done |]. destruct a as [|x a], b as [|y b]; cbn in Ha, Hb; try lia.
  cbn [map_addr]. rewrite run_bind, IH by lia. done.
Qed.

Lemma masked_other a m : (na_type a =? na_type m) && (na_len a =? na_len m) = false -> masked a m = a.
Proof. intros H. unfold masked. by rewrite H. Qed.

Lemma land_byte x y : isbyte x -> isbyte y -> isbyte (Z.land x y).
Proof.
  unfold isbyte. intros [Hx Hx'] [Hy Hy']. assert (0 <= Z.land x y) by (apply Z.land_nonneg; by left).
  split; [done |]. destruct (Z.eq_dec (Z.land x y) 0) as [->|Hn]; [lia |].
  change 256 with (2 ^ 8). apply Z.log2_lt_pow2; [lia |]. pose proof (Z.log2_land x y Hx Hy).
  assert (x = 0 \/ 0 < x) as [->|Hp] by lia; [by rewrite Z.land_0_l in Hn |].
  assert (Z.log2 x < 8) by (apply Z.log2_lt_pow2; lia). lia.
Qed.

Lemma run_netaddrmask a m (s : S) : addr_ok a -> addr_ok m ->
  run (netaddrmask a m) s = Done (if (na_type a =? na_type m) && (na_len a =? na_len m) then OK else SYSERR, masked a m) s.
Proof.
  intros [La Na Ba] [Lm Nm Bm]. unfold netaddrmask, masked, NET_MAX_ALEN in *.
  destruct (Z.eqb_spec (na_type a) (na_type m)); [| done]. destruct (Z.eqb_spec (na_len a) (na_len m)) as [E|]; [| done]. cbn [negb orb andb].
  rewrite run_bind, run_map_addr by lia. cbn [obind]. rewrite run_ret. unfold abytes. rewrite <- E.
  f_equal. f_equal. f_equal. f_equal. apply list_eq. intros i. rewrite !lookup_zip_with.
  destruct (take _ (na_addr a) !! i) as [x|] eqn:Ex; [| done]. destruct (take _ (na_addr m) !! i) as [y|] eqn:Ey; [| done].
  cbn. f_equal. apply u8_small. apply lookup_take_Some in Ex as [Ex _], Ey as [Ey _].
  apply land_byte; [by apply (Forall_lookup_1 _ _ _ _ Ba Ex) | by apply (Forall_lookup_1 _ _ _ _ Bm Ey)].
Qed.

Lemma masked_ok a m : addr_ok a -> addr_ok m -> addr_ok (masked a m).
Proof.
  intros [La Na Ba] [Lm Nm Bm]. unfold masked. case_match; [| done].
  apply andb_prop in H as [_ E]. apply Z.eqb_eq in E. unfold NET_MAX_ALEN in *.
  split; cbn; unfold abytes; [done | |].
  - rewrite length_app, length_zip_with, length_drop, !length_take. lia.
  - apply Forall_app. split; [| by apply Forall_drop].
    apply Forall_lookup. intros i z. rewrite lookup_zip_with. intros Hz.
    destruct (take _ (na_addr a) !! i) as [x|] eqn:Ex; [| done]. destruct (take _ (na_addr m) !! i) as [y|] eqn:Ey; [| done].
    injection Hz as <-. apply lookup_take_Some in Ex as [Ex _], Ey as [Ey _].
    apply land_byte; [by apply (Forall_lookup_1 _ _ _ _ Ba Ex) | by apply (Forall_lookup_1 _ _ _ _ Bm Ey)].
Qed.
End Netaddr_facts.

(** ** Prefixes

    The bits of an address, most significant first, and the masks that select its
    first bits. *)

Fixpoint zbits (n : nat) (x : Z) : list bool :=
  match n with O => [] | S n => zbits n (x / 2) ++ [Z.odd x] end.

Definition bytes_bits (l : list Z) : list bool := l ≫= zbits 8.
Definition abits (a : netaddr) : list bool := bytes_bits (abytes a).

Fixpoint count_true (l : list bool) : nat :=
  match l with [] => 0 | b :: l => (if b then 1 else 0) + count_true l end.

(** [m] is the mask that selects the first [k] bits. *)
Definition prefix_mask (m : netaddr) (k : nat) : Prop :=
  (k <= length (abits m))%nat /\ abits m = replicate k true ++ replicate (length (abits m) - k) false.

Lemma length_zbits n : forall x, length (zbits n x) = n.
Proof. induction n as [|n IH]; intros x; cbn; [done |]. rewrite length_app, IH. cbn. lia. Qed.

Lemma zbits_land n : forall x y, zbits n (Z.land x y) = zip_with andb (zbits n x) (zbits n y).
Proof.
  induction n as [|n IH]; intros x y; [done |]. cbn [zbits].
  rewrite zip_with_app by (by rewrite !length_zbits). f_equal.
  - rewrite <- IH. f_equal. change 2 with (2 ^ 1). rewrite <- !Z.shiftr_div_pow2 by lia. apply Z.shiftr_land.
  - cbn. by rewrite <- !Z.bit0_odd, Z.land_spec.
Qed.

Lemma zbits_inj n : forall x y, 0 <= x < 2 ^ Z.of_nat n -> 0 <= y < 2 ^ Z.of_nat n -> zbits n x = zbits n y -> x = y.
Proof.
  induction n as [|n IH]; intros x y Hx Hy E; [cbn in *; lia |]. cbn [zbits] in E.
  apply app_inj_2 in E as [E1 E2]; [| done]. injection E2 as E2. rewrite Nat2Z.inj_succ, Z.pow_succ_r in Hx, Hy by lia.
  apply IH in E1; [| lia | lia]. pose proof (Zdiv2_odd_eqn x) as Ex. pose proof (Zdiv2_odd_eqn y) as Ey.
  rewrite !Z.div2_div in *. rewrite E1, E2 in Ex. congruence.
Qed.

Lemma length_bytes_bits l : length (bytes_bits l) = (8 * length l)%nat.
Proof. induction l as [|x l IH]; [done |]. cbn [bytes_bits]. change (bytes_bits (x :: l)) with (zbits 8 x ++ bytes_bits l). rewrite length_app, IH, length_zbits. cbn [length]. lia. Qed.

Lemma bytes_bits_land l : forall l', length l = length l' ->
  bytes_bits (zip_with Z.land l l') = zip_with andb (bytes_bits l) (bytes_bits l').
Proof.
  induction l as [|x l IH]; intros [|y l'] Hl; try done.
  change (bytes_bits (zip_with Z.land (x :: l) (y :: l'))) with (zbits 8 (Z.land x y) ++ bytes_bits (zip_with Z.land l l')).
  change (bytes_bits (x :: l)) with (zbits 8 x ++ bytes_bits l). change (bytes_bits (y :: l')) with (zbits 8 y ++ bytes_bits l').
  rewrite zip_with_app by (by rewrite !length_zbits). rewrite zbits_land, IH; [done |]. cbn in Hl. lia.
Qed.

Lemma bytes_bits_inj l : forall l', Forall isbyte l -> Forall isbyte l' -> length l = length l' ->
  bytes_bits l = bytes_bits l' -> l = l'.
Proof.
  induction l as [|x l IH]; intros [|y l'] Hb Hb' Hl E; try done.
  change (zbits 8 x ++ bytes_bits l = zbits 8 y ++ bytes_bits l') in E.
  apply Forall_cons in Hb as [Hx Hb], Hb' as [Hy Hb'].
  apply app_inj_1 in E as [E1 E2]; [| by rewrite !length_zbits]. f_equal; [by apply (zbits_inj 8) |].
  apply IH; try done. cbn in Hl. lia.
Qed.

(** Masking two lists of bits by [k] ones keeps exactly the first [k] bits. *)
Lemma mask_bits_eq k n : forall l l' : list bool, length l = (k + n)%nat -> length l' = (k + n)%nat ->
  zip_with andb l (replicate k true ++ replicate n false) = zip_with andb l' (replicate k true ++ replicate n false) <->
  take k l = take k l'.
Proof.
  induction k as [|k IH]; intros l l' Hl Hl'; cbn [replicate app take].
  - split; [done |]. intros _. cbn in Hl, Hl'. revert l l' Hl Hl'. induction n as [|n IH]; intros [|x l] [|y l'] Hl Hl'; try done.
    cbn. f_equal; [by destruct x, y |]. apply IH; cbn in *; lia.
  - destruct l as [|x l], l' as [|y l']; try done. cbn [zip_with take]. cbn in Hl, Hl'.
    specialize (IH l l' ltac:(lia) ltac:(lia)). rewrite !andb_true_r.
    split; intros E; injection E as -> E; f_equal; by apply IH.
Qed.

Lemma count_true_app l l' : count_true (l ++ l') = (count_true l + count_true l')%nat.
Proof. induction l as [|b l IH]; cbn; [done |]. rewrite IH. lia. Qed.

Lemma count_true_prefix k n : count_true (replicate k true ++ replicate n false) = k.
Proof. rewrite count_true_app. induction k as [|k IH]; cbn; [by induction n | by rewrite IH]. Qed.

Lemma length_abytes a : addr_ok a -> length (abytes a) = Z.to_nat (na_len a).
Proof. intros [Hl Hn _]. unfold abytes, NET_MAX_ALEN in *. rewrite length_take. lia. Qed.

Lemma abytes_bytes a : addr_ok a -> Forall isbyte (abytes a).
Proof. intros [_ _ Hb]. by apply Forall_take. Qed.

Lemma abytes_masked a m : addr_ok a -> addr_ok m -> na_type a = na_type m -> na_len a = na_len m ->
  abytes (masked a m) = zip_with Z.land (abytes a) (abytes m).
Proof.
  intros Ha Hm Ht Hl. unfold masked. rewrite Ht, Hl, !Z.eqb_refl. cbn [andb]. unfold abytes at 1. cbn [na_len na_addr set_na_addr].
  rewrite take_app_length'; [done |]. rewrite length_zip_with, !length_abytes by done. lia.
Qed.

Lemma masked_fields a m : na_type (masked a m) = na_type a /\ na_len (masked a m) = na_len a.
Proof. unfold masked. by case_match. Qed.

Lemma same_addr_spec a b : same_addr a b = true <-> na_type a = na_type b /\ na_len a = na_len b /\ abytes a = abytes b.
Proof. unfold same_addr. rewrite !andb_true_iff, !Z.eqb_eq, bool_decide_eq_true. tauto. Qed.

(** Two addresses agree under the mask of the first [k] bits if and only if they agree
    in these bits. *)
Lemma same_prefix a d m k :
  addr_ok a -> addr_ok d -> addr_ok m -> prefix_mask m k -> na_type d = na_type m -> na_len d = na_len m ->
  same_addr (masked a m) (masked d m) = true <->
  na_type a = na_type d /\ na_len a = na_len d /\ take k (abits a) = take k (abits d).
Proof.
  intros Ha Hd Hm [Hk Hp] Ht Hl. rewrite same_addr_spec.
  destruct (masked_fields a m) as [-> ->]. destruct (masked_fields d m) as [-> ->].
  split; intros (Eta & Ela & E); (split; [done |]; split; [done |]).
  all: rewrite ?abytes_masked in * by (done || congruence).
  all: assert (Hlen : length (abits m) = (8 * Z.to_nat (na_len m))%nat) by (unfold abits; by rewrite length_bytes_bits, length_abytes).
  all: pose proof (mask_bits_eq k (length (abits m) - k) (abits a) (abits d)) as Hbits.
  all: rewrite <- Hp in Hbits; unfold abits in Hbits, E |- *.
  all: rewrite <- !bytes_bits_land in Hbits by (rewrite !length_abytes by done; congruence).
  - apply Hbits; [rewrite !length_bytes_bits, !length_abytes in * by done; lia.. |]. by rewrite E.
  - apply bytes_bits_inj.
    + apply Forall_lookup. intros i x Hx. assert (Hx' : abytes (masked a m) !! i = Some x) by (by rewrite abytes_masked by congruence).
      eapply (Forall_lookup_1 isbyte); [| exact Hx']. apply abytes_bytes. by apply masked_ok.
    + apply Forall_lookup. intros i x Hx. assert (Hx' : abytes (masked d m) !! i = Some x) by (by rewrite abytes_masked by congruence).
      eapply (Forall_lookup_1 isbyte); [| exact Hx']. apply abytes_bytes. by apply masked_ok.
    + rewrite !length_zip_with, !length_abytes by done. lia.
    + apply Hbits; [unfold abits in *; rewrite !length_bytes_bits, !length_abytes in * by done; lia.. | done].
Qed.
