(* ===== verification/Tcb.v ===== *)
(** The data of TCP: the control blocks and timer events of include/tcp.h, and the
    variables of device/tcp that are not in a control block.  A pointer to a control block
    is its index in [tcptab], a pointer to an event its index in [tcptimertab]. *)
From Stdlib Require Import ZArith Lia.
From stdpp Require Import sorting gmap functions list.
From S2P Require Import Prelude Kernel Queue QueueFacts Sched Semaphore Clock Message Memory Boot Bytes Netaddr.

(** ** Constants: include/conf.h, include/tcp.h *)

Definition NTCP : Z := 7.
Definition TCP0 : Z := 17.
Definition TCP_HDR_LEN : Z := 20.
Definition TCP_MAXSEQ : Z := 4294967295.
Definition TCP_FREE : Z := 0.
Definition TCP_ALLOC : Z := 1.
Definition TCP_CTRL_URG : Z := 32.
Definition TCP_CTRL_ACK : Z := 16.
Definition TCP_CTRL_PSH : Z := 8.
Definition TCP_CTRL_RST : Z := 4.
Definition TCP_CTRL_SYN : Z := 2.
Definition TCP_CTRL_FIN : Z := 1.
Definition TCP_OPT_END : Z := 0.
Definition TCP_OPT_NOP : Z := 1.
Definition TCP_OPT_MSS : Z := 2.
Definition TCP_OPT_MSS_SIZE : Z := 6.
Definition TCP_OPT_MSS_LEN : Z := 4.
Definition TCP_PSEUDO_LEN : Z := 12.
Definition TCP_IBLEN : Z := 16384.
Definition TCP_OBLEN : Z := 16384.
Definition TCP_INIT_MSS : Z := 1460.
Definition TCP_INIT_WND : Z := 1460.
Definition TCP_MAX_WND : Z := 65535.
Definition TCP_PSTART : Z := 10000.
Definition TCP_PMAX : Z := 65000.
Definition TCP_PASSIVE : Z := 0.
Definition TCP_ACTIVE : Z := 1.
Definition TCP_CLOSED : Z := 0.
Definition TCP_LISTEN : Z := 1.
Definition TCP_SYNSENT : Z := 2.
Definition TCP_SYNRECV : Z := 3.
Definition TCP_ESTAB : Z := 4.
Definition TCP_FINWT1 : Z := 5.
Definition TCP_FINWT2 : Z := 6.
Definition TCP_CLOSEWT : Z := 7.
Definition TCP_CLOSING : Z := 8.
Definition TCP_LASTACK : Z := 9.
Definition TCP_TIMEWT : Z := 10.
Definition TCP_FLG_SYN : Z := 1.
Definition TCP_FLG_FIN : Z := 2.
Definition TCP_FLG_SNDACK : Z := 4.
Definition TCP_FLG_SNDDATA : Z := 8.
Definition TCP_FLG_SNDRST : Z := 16.
Definition TCP_FLG_PERSIST : Z := 32.
Definition TCP_SEQINCR : Z := 904.
Definition TCP_ERR_RESET : Z := -2.
Definition TCP_ERR_CLOSING : Z := -4.
Definition TCP_ERR_NOCONN : Z := -5.
Definition TCP_ERR_NOSPEC : Z := -6.
Definition TCP_EVT_HEAD : Z := 0.
Definition TCP_FREQ : Z := 10.
Definition TCP_EVT_TIMEWT : Z := 1.
Definition TCP_EVT_RXT : Z := 2.
Definition TCP_EVT_PERSIST : Z := 3.
Definition TCP_TWOMSL : Z := 5000.
Definition TCP_PST_INITTIME : Z := 3000.
Definition TCP_PST_MAXTIME : Z := 64000.
Definition TCP_RXT_MAXCOUNT : Z := 10.
Definition TCP_RXT_INITTIME : Z := 500.
Definition TCP_RXT_MINTIME : Z := 100.
Definition TCP_RXT_MAXTIME : Z := 32000.
Definition TCP_CTRL_RECVBYTES : Z := 2.
Definition TCP_CTRL_SENTBYTES : Z := 3.

(** The macro [TCP_NEVENTS] is [(3*NTCP)+1] without parentheses around it: it is this
    number where it stands alone, and the remainder by it is the remainder by [3*NTCP] plus
    one. *)
Definition TCP_NEVENTS : Z := 3 * NTCP + 1.
Definition rem_NEVENTS (x : Z) : Z := Z.rem x (3 * NTCP) + 1.

(** ** Records *)

(** [struct tcb]; [imark] is an array of truth values. *)
Record tcb := mkTcb {
  tc_dev : Z;
  tc_state : Z;
  tc_devstate : Z;
  tc_mutex : Z;
  tc_localpt : Z;
  tc_remotept : Z;
  tc_localip : netaddr;
  tc_remoteip : netaddr;
  tc_opentype : Z;
  tc_openclose : Z;
  tc_rcvnxt : Z;
  tc_rcvwnd : Z;
  tc_rcvup : Z;
  tc_rcvfin : Z;
  tc_rcvmss : Z;
  tc_rcvflg : Z;
  tc_readers : Z;
  tc_istart : Z;
  tc_icount : Z;
  tc_inxt : Z;
  tc_in : gmap Z Z;
  tc_imark : gmap Z bool;
  tc_ibytes : Z;
  tc_snduna : Z;
  tc_sndnxt : Z;
  tc_sndwnd : Z;
  tc_sndcwn : Z;
  tc_sndsst : Z;
  tc_sndup : Z;
  tc_sndwl1 : Z;
  tc_sndwl2 : Z;
  tc_iss : Z;
  tc_sndfin : Z;
  tc_sndmss : Z;
  tc_sndflg : Z;
  tc_sndrtt : Z;
  tc_sndrtd : Z;
  tc_rxttime : Z;
  tc_rxtcount : Z;
  tc_psttime : Z;
  tc_writers : Z;
  tc_ostart : Z;
  tc_ocount : Z;
  tc_out : gmap Z Z;
  tc_obytes : Z
}.

Definition set_tc_dev (v : Z) (e : tcb) : tcb := mkTcb v (tc_state e) (tc_devstate e) (tc_mutex e) (tc_localpt e) (tc_remotept e) (tc_localip e) (tc_remoteip e) (tc_opentype e) (tc_openclose e) (tc_rcvnxt e) (tc_rcvwnd e) (tc_rcvup e) (tc_rcvfin e) (tc_rcvmss e) (tc_rcvflg e) (tc_readers e) (tc_istart e) (tc_icount e) (tc_inxt e) (tc_in e) (tc_imark e) (tc_ibytes e) (tc_snduna e) (tc_sndnxt e) (tc_sndwnd e) (tc_sndcwn e) (tc_sndsst e) (tc_sndup e) (tc_sndwl1 e) (tc_sndwl2 e) (tc_iss e) (tc_sndfin e) (tc_sndmss e) (tc_sndflg e) (tc_sndrtt e) (tc_sndrtd e) (tc_rxttime e) (tc_rxtcount e) (tc_psttime e) (tc_writers e) (tc_ostart e) (tc_ocount e) (tc_out e) (tc_obytes e).
Definition set_tc_state (v : Z) (e : tcb) : tcb := mkTcb (tc_dev e) v (tc_devstate e) (tc_mutex e) (tc_localpt e) (tc_remotept e) (tc_localip e) (tc_remoteip e) (tc_opentype e) (tc_openclose e) (tc_rcvnxt e) (tc_rcvwnd e) (tc_rcvup e) (tc_rcvfin e) (tc_rcvmss e) (tc_rcvflg e) (tc_readers e) (tc_istart e) (tc_icount e) (tc_inxt e) (tc_in e) (tc_imark e) (tc_ibytes e) (tc_snduna e) (tc_sndnxt e) (tc_sndwnd e) (tc_sndcwn e) (tc_sndsst e) (tc_sndup e) (tc_sndwl1 e) (tc_sndwl2 e) (tc_iss e) (tc_sndfin e) (tc_sndmss e) (tc_sndflg e) (tc_sndrtt e) (tc_sndrtd e) (tc_rxttime e) (tc_rxtcount e) (tc_psttime e) (tc_writers e) (tc_ostart e) (tc_ocount e) (tc_out e) (tc_obytes e).
Definition set_tc_devstate (v : Z) (e : tcb) : tcb := mkTcb (tc_dev e) (tc_state e) v (tc_mutex e) (tc_localpt e) (tc_remotept e) (tc_localip e) (tc_remoteip e) (tc_opentype e) (tc_openclose e) (tc_rcvnxt e) (tc_rcvwnd e) (tc_rcvup e) (tc_rcvfin e) (tc_rcvmss e) (tc_rcvflg e) (tc_readers e) (tc_istart e) (tc_icount e) (tc_inxt e) (tc_in e) (tc_imark e) (tc_ibytes e) (tc_snduna e) (tc_sndnxt e) (tc_sndwnd e) (tc_sndcwn e) (tc_sndsst e) (tc_sndup e) (tc_sndwl1 e) (tc_sndwl2 e) (tc_iss e) (tc_sndfin e) (tc_sndmss e) (tc_sndflg e) (tc_sndrtt e) (tc_sndrtd e) (tc_rxttime e) (tc_rxtcount e) (tc_psttime e) (tc_writers e) (tc_ostart e) (tc_ocount e) (tc_out e) (tc_obytes e).
Definition set_tc_mutex (v : Z) (e : tcb) : tcb := mkTcb (tc_dev e) (tc_state e) (tc_devstate e) v (tc_localpt e) (tc_remotept e) (tc_localip e) (tc_remoteip e) (tc_opentype e) (tc_openclose e) (tc_rcvnxt e) (tc_rcvwnd e) (tc_rcvup e) (tc_rcvfin e) (tc_rcvmss e) (tc_rcvflg e) (tc_readers e) (tc_istart e) (tc_icount e) (tc_inxt e) (tc_in e) (tc_imark e) (tc_ibytes e) (tc_snduna e) (tc_sndnxt e) (tc_sndwnd e) (tc_sndcwn e) (tc_sndsst e) (tc_sndup e) (tc_sndwl1 e) (tc_sndwl2 e) (tc_iss e) (tc_sndfin e) (tc_sndmss e) (tc_sndflg e) (tc_sndrtt e) (tc_sndrtd e) (tc_rxttime e) (tc_rxtcount e) (tc_psttime e) (tc_writers e) (tc_ostart e) (tc_ocount e) (tc_out e) (tc_obytes e).
Definition set_tc_localpt (v : Z) (e : tcb) : tcb := mkTcb (tc_dev e) (tc_state e) (tc_devstate e) (tc_mutex e) v (tc_remotept e) (tc_localip e) (tc_remoteip e) (tc_opentype e) (tc_openclose e) (tc_rcvnxt e) (tc_rcvwnd e) (tc_rcvup e) (tc_rcvfin e) (tc_rcvmss e) (tc_rcvflg e) (tc_readers e) (tc_istart e) (tc_icount e) (tc_inxt e) (tc_in e) (tc_imark e) (tc_ibytes e) (tc_snduna e) (tc_sndnxt e) (tc_sndwnd e) (tc_sndcwn e) (tc_sndsst e) (tc_sndup e) (tc_sndwl1 e) (tc_sndwl2 e) (tc_iss e) (tc_sndfin e) (tc_sndmss e) (tc_sndflg e) (tc_sndrtt e) (tc_sndrtd e) (tc_rxttime e) (tc_rxtcount e) (tc_psttime e) (tc_writers e) (tc_ostart e) (tc_ocount e) (tc_out e) (tc_obytes e).
Definition set_tc_remotept (v : Z) (e : tcb) : tcb := mkTcb (tc_dev e) (tc_state e) (tc_devstate e) (tc_mutex e) (tc_localpt e) v (tc_localip e) (tc_remoteip e) (tc_opentype e) (tc_openclose e) (tc_rcvnxt e) (tc_rcvwnd e) (tc_rcvup e) (tc_rcvfin e) (tc_rcvmss e) (tc_rcvflg e) (tc_readers e) (tc_istart e) (tc_icount e) (tc_inxt e) (tc_in e) (tc_imark e) (tc_ibytes e) (tc_snduna e) (tc_sndnxt e) (tc_sndwnd e) (tc_sndcwn e) (tc_sndsst e) (tc_sndup e) (tc_sndwl1 e) (tc_sndwl2 e) (tc_iss e) (tc_sndfin e) (tc_sndmss e) (tc_sndflg e) (tc_sndrtt e) (tc_sndrtd e) (tc_rxttime e) (tc_rxtcount e) (tc_psttime e) (tc_writers e) (tc_ostart e) (tc_ocount e) (tc_out e) (tc_obytes e).
Definition set_tc_localip (v : netaddr) (e : tcb) : tcb := mkTcb (tc_dev e) (tc_state e) (tc_devstate e) (tc_mutex e) (tc_localpt e) (tc_remotept e) v (tc_remoteip e) (tc_opentype e) (tc_openclose e) (tc_rcvnxt e) (tc_rcvwnd e) (tc_rcvup e) (tc_rcvfin e) (tc_rcvmss e) (tc_rcvflg e) (tc_readers e) (tc_istart e) (tc_icount e) (tc_inxt e) (tc_in e) (tc_imark e) (tc_ibytes e) (tc_snduna e) (tc_sndnxt e) (tc_sndwnd e) (tc_sndcwn e) (tc_sndsst e) (tc_sndup e) (tc_sndwl1 e) (tc_sndwl2 e) (tc_iss e) (tc_sndfin e) (tc_sndmss e) (tc_sndflg e) (tc_sndrtt e) (tc_sndrtd e) (tc_rxttime e) (tc_rxtcount e) (tc_psttime e) (tc_writers e) (tc_ostart e) (tc_ocount e) (tc_out e) (tc_obytes e).
Definition set_tc_remoteip (v : netaddr) (e : tcb) : tcb := mkTcb (tc_dev e) (tc_state e) (tc_devstate e) (tc_mutex e) (tc_localpt e) (tc_remotept e) (tc_localip e) v (tc_opentype e) (tc_openclose e) (tc_rcvnxt e) (tc_rcvwnd e) (tc_rcvup e) (tc_rcvfin e) (tc_rcvmss e) (tc_rcvflg e) (tc_readers e) (tc_istart e) (tc_icount e) (tc_inxt e) (tc_in e) (tc_imark e) (tc_ibytes e) (tc_snduna e) (tc_sndnxt e) (tc_sndwnd e) (tc_sndcwn e) (tc_sndsst e) (tc_sndup e) (tc_sndwl1 e) (tc_sndwl2 e) (tc_iss e) (tc_sndfin e) (tc_sndmss e) (tc_sndflg e) (tc_sndrtt e) (tc_sndrtd e) (tc_rxttime e) (tc_rxtcount e) (tc_psttime e) (tc_writers e) (tc_ostart e) (tc_ocount e) (tc_out e) (tc_obytes e).
Definition set_tc_opentype (v : Z) (e : tcb) : tcb := mkTcb (tc_dev e) (tc_state e) (tc_devstate e) (tc_mutex e) (tc_localpt e) (tc_remotept e) (tc_localip e) (tc_remoteip e) v (tc_openclose e) (tc_rcvnxt e) (tc_rcvwnd e) (tc_rcvup e) (tc_rcvfin e) (tc_rcvmss e) (tc_rcvflg e) (tc_readers e) (tc_istart e) (tc_icount e) (tc_inxt e) (tc_in e) (tc_imark e) (tc_ibytes e) (tc_snduna e) (tc_sndnxt e) (tc_sndwnd e) (tc_sndcwn e) (tc_sndsst e) (tc_sndup e) (tc_sndwl1 e) (tc_sndwl2 e) (tc_iss e) (tc_sndfin e) (tc_sndmss e) (tc_sndflg e) (tc_sndrtt e) (tc_sndrtd e) (tc_rxttime e) (tc_rxtcount e) (tc_psttime e) (tc_writers e) (tc_ostart e) (tc_ocount e) (tc_out e) (tc_obytes e).
Definition set_tc_openclose (v : Z) (e : tcb) : tcb := mkTcb (tc_dev e) (tc_state e) (tc_devstate e) (tc_mutex e) (tc_localpt e) (tc_remotept e) (tc_localip e) (tc_remoteip e) (tc_opentype e) v (tc_rcvnxt e) (tc_rcvwnd e) (tc_rcvup e) (tc_rcvfin e) (tc_rcvmss e) (tc_rcvflg e) (tc_readers e) (tc_istart e) (tc_icount e) (tc_inxt e) (tc_in e) (tc_imark e) (tc_ibytes e) (tc_snduna e) (tc_sndnxt e) (tc_sndwnd e) (tc_sndcwn e) (tc_sndsst e) (tc_sndup e) (tc_sndwl1 e) (tc_sndwl2 e) (tc_iss e) (tc_sndfin e) (tc_sndmss e) (tc_sndflg e) (tc_sndrtt e) (tc_sndrtd e) (tc_rxttime e) (tc_rxtcount e) (tc_psttime e) (tc_writers e) (tc_ostart e) (tc_ocount e) (tc_out e) (tc_obytes e).
Definition set_tc_rcvnxt (v : Z) (e : tcb) : tcb := mkTcb (tc_dev e) (tc_state e) (tc_devstate e) (tc_mutex e) (tc_localpt e) (tc_remotept e) (tc_localip e) (tc_remoteip e) (tc_opentype e) (tc_openclose e) v (tc_rcvwnd e) (tc_rcvup e) (tc_rcvfin e) (tc_rcvmss e) (tc_rcvflg e) (tc_readers e) (tc_istart e) (tc_icount e) (tc_inxt e) (tc_in e) (tc_imark e) (tc_ibytes e) (tc_snduna e) (tc_sndnxt e) (tc_sndwnd e) (tc_sndcwn e) (tc_sndsst e) (tc_sndup e) (tc_sndwl1 e) (tc_sndwl2 e) (tc_iss e) (tc_sndfin e) (tc_sndmss e) (tc_sndflg e) (tc_sndrtt e) (tc_sndrtd e) (tc_rxttime e) (tc_rxtcount e) (tc_psttime e) (tc_writers e) (tc_ostart e) (tc_ocount e) (tc_out e) (tc_obytes e).
Definition set_tc_rcvwnd (v : Z) (e : tcb) : tcb := mkTcb (tc_dev e) (tc_state e) (tc_devstate e) (tc_mutex e) (tc_localpt e) (tc_remotept e) (tc_localip e) (tc_remoteip e) (tc_opentype e) (tc_openclose e) (tc_rcvnxt e) v (tc_rcvup e) (tc_rcvfin e) (tc_rcvmss e) (tc_rcvflg e) (tc_readers e) (tc_istart e) (tc_icount e) (tc_inxt e) (tc_in e) (tc_imark e) (tc_ibytes e) (tc_snduna e) (tc_sndnxt e) (tc_sndwnd e) (tc_sndcwn e) (tc_sndsst e) (tc_sndup e) (tc_sndwl1 e) (tc_sndwl2 e) (tc_iss e) (tc_sndfin e) (tc_sndmss e) (tc_sndflg e) (tc_sndrtt e) (tc_sndrtd e) (tc_rxttime e) (tc_rxtcount e) (tc_psttime e) (tc_writers e) (tc_ostart e) (tc_ocount e) (tc_out e) (tc_obytes e).
Definition set_tc_rcvup (v : Z) (e : tcb) : tcb := mkTcb (tc_dev e) (tc_state e) (tc_devstate e) (tc_mutex e) (tc_localpt e) (tc_remotept e) (tc_localip e) (tc_remoteip e) (tc_opentype e) (tc_openclose e) (tc_rcvnxt e) (tc_rcvwnd e) v (tc_rcvfin e) (tc_rcvmss e) (tc_rcvflg e) (tc_readers e) (tc_istart e) (tc_icount e) (tc_inxt e) (tc_in e) (tc_imark e) (tc_ibytes e) (tc_snduna e) (tc_sndnxt e) (tc_sndwnd e) (tc_sndcwn e) (tc_sndsst e) (tc_sndup e) (tc_sndwl1 e) (tc_sndwl2 e) (tc_iss e) (tc_sndfin e) (tc_sndmss e) (tc_sndflg e) (tc_sndrtt e) (tc_sndrtd e) (tc_rxttime e) (tc_rxtcount e) (tc_psttime e) (tc_writers e) (tc_ostart e) (tc_ocount e) (tc_out e) (tc_obytes e).
Definition set_tc_rcvfin (v : Z) (e : tcb) : tcb := mkTcb (tc_dev e) (tc_state e) (tc_devstate e) (tc_mutex e) (tc_localpt e) (tc_remotept e) (tc_localip e) (tc_remoteip e) (tc_opentype e) (tc_openclose e) (tc_rcvnxt e) (tc_rcvwnd e) (tc_rcvup e) v (tc_rcvmss e) (tc_rcvflg e) (tc_readers e) (tc_istart e) (tc_icount e) (tc_inxt e) (tc_in e) (tc_imark e) (tc_ibytes e) (tc_snduna e) (tc_sndnxt e) (tc_sndwnd e) (tc_sndcwn e) (tc_sndsst e) (tc_sndup e) (tc_sndwl1 e) (tc_sndwl2 e) (tc_iss e) (tc_sndfin e) (tc_sndmss e) (tc_sndflg e) (tc_sndrtt e) (tc_sndrtd e) (tc_rxttime e) (tc_rxtcount e) (tc_psttime e) (tc_writers e) (tc_ostart e) (tc_ocount e) (tc_out e) (tc_obytes e).
Definition set_tc_rcvmss (v : Z) (e : tcb) : tcb := mkTcb (tc_dev e) (tc_state e) (tc_devstate e) (tc_mutex e) (tc_localpt e) (tc_remotept e) (tc_localip e) (tc_remoteip e) (tc_opentype e) (tc_openclose e) (tc_rcvnxt e) (tc_rcvwnd e) (tc_rcvup e) (tc_rcvfin e) v (tc_rcvflg e) (tc_readers e) (tc_istart e) (tc_icount e) (tc_inxt e) (tc_in e) (tc_imark e) (tc_ibytes e) (tc_snduna e) (tc_sndnxt e) (tc_sndwnd e) (tc_sndcwn e) (tc_sndsst e) (tc_sndup e) (tc_sndwl1 e) (tc_sndwl2 e) (tc_iss e) (tc_sndfin e) (tc_sndmss e) (tc_sndflg e) (tc_sndrtt e) (tc_sndrtd e) (tc_rxttime e) (tc_rxtcount e) (tc_psttime e) (tc_writers e) (tc_ostart e) (tc_ocount e) (tc_out e) (tc_obytes e).
Definition set_tc_rcvflg (v : Z) (e : tcb) : tcb := mkTcb (tc_dev e) (tc_state e) (tc_devstate e) (tc_mutex e) (tc_localpt e) (tc_remotept e) (tc_localip e) (tc_remoteip e) (tc_opentype e) (tc_openclose e) (tc_rcvnxt e) (tc_rcvwnd e) (tc_rcvup e) (tc_rcvfin e) (tc_rcvmss e) v (tc_readers e) (tc_istart e) (tc_icount e) (tc_inxt e) (tc_in e) (tc_imark e) (tc_ibytes e) (tc_snduna e) (tc_sndnxt e) (tc_sndwnd e) (tc_sndcwn e) (tc_sndsst e) (tc_sndup e) (tc_sndwl1 e) (tc_sndwl2 e) (tc_iss e) (tc_sndfin e) (tc_sndmss e) (tc_sndflg e) (tc_sndrtt e) (tc_sndrtd e) (tc_rxttime e) (tc_rxtcount e) (tc_psttime e) (tc_writers e) (tc_ostart e) (tc_ocount e) (tc_out e) (tc_obytes e).
Definition set_tc_readers (v : Z) (e : tcb) : tcb := mkTcb (tc_dev e) (tc_state e) (tc_devstate e) (tc_mutex e) (tc_localpt e) (tc_remotept e) (tc_localip e) (tc_remoteip e) (tc_opentype e) (tc_openclose e) (tc_rcvnxt e) (tc_rcvwnd e) (tc_rcvup e) (tc_rcvfin e) (tc_rcvmss e) (tc_rcvflg e) v (tc_istart e) (tc_icount e) (tc_inxt e) (tc_in e) (tc_imark e) (tc_ibytes e) (tc_snduna e) (tc_sndnxt e) (tc_sndwnd e) (tc_sndcwn e) (tc_sndsst e) (tc_sndup e) (tc_sndwl1 e) (tc_sndwl2 e) (tc_iss e) (tc_sndfin e) (tc_sndmss e) (tc_sndflg e) (tc_sndrtt e) (tc_sndrtd e) (tc_rxttime e) (tc_rxtcount e) (tc_psttime e) (tc_writers e) (tc_ostart e) (tc_ocount e) (tc_out e) (tc_obytes e).
Definition set_tc_istart (v : Z) (e : tcb) : tcb := mkTcb (tc_dev e) (tc_state e) (tc_devstate e) (tc_mutex e) (tc_localpt e) (tc_remotept e) (tc_localip e) (tc_remoteip e) (tc_opentype e) (tc_openclose e) (tc_rcvnxt e) (tc_rcvwnd e) (tc_rcvup e) (tc_rcvfin e) (tc_rcvmss e) (tc_rcvflg e) (tc_readers e) v (tc_icount e) (tc_inxt e) (tc_in e) (tc_imark e) (tc_ibytes e) (tc_snduna e) (tc_sndnxt e) (tc_sndwnd e) (tc_sndcwn e) (tc_sndsst e) (tc_sndup e) (tc_sndwl1 e) (tc_sndwl2 e) (tc_iss e) (tc_sndfin e) (tc_sndmss e) (tc_sndflg e) (tc_sndrtt e) (tc_sndrtd e) (tc_rxttime e) (tc_rxtcount e) (tc_psttime e) (tc_writers e) (tc_ostart e) (tc_ocount e) (tc_out e) (tc_obytes e).
Definition set_tc_icount (v : Z) (e : tcb) : tcb := mkTcb (tc_dev e) (tc_state e) (tc_devstate e) (tc_mutex e) (tc_localpt e) (tc_remotept e) (tc_localip e) (tc_remoteip e) (tc_opentype e) (tc_openclose e) (tc_rcvnxt e) (tc_rcvwnd e) (tc_rcvup e) (tc_rcvfin e) (tc_rcvmss e) (tc_rcvflg e) (tc_readers e) (tc_istart e) v (tc_inxt e) (tc_in e) (tc_imark e) (tc_ibytes e) (tc_snduna e) (tc_sndnxt e) (tc_sndwnd e) (tc_sndcwn e) (tc_sndsst e) (tc_sndup e) (tc_sndwl1 e) (tc_sndwl2 e) (tc_iss e) (tc_sndfin e) (tc_sndmss e) (tc_sndflg e) (tc_sndrtt e) (tc_sndrtd e) (tc_rxttime e) (tc_rxtcount e) (tc_psttime e) (tc_writers e) (tc_ostart e) (tc_ocount e) (tc_out e) (tc_obytes e).
Definition set_tc_inxt (v : Z) (e : tcb) : tcb := mkTcb (tc_dev e) (tc_state e) (tc_devstate e) (tc_mutex e) (tc_localpt e) (tc_remotept e) (tc_localip e) (tc_remoteip e) (tc_opentype e) (tc_openclose e) (tc_rcvnxt e) (tc_rcvwnd e) (tc_rcvup e) (tc_rcvfin e) (tc_rcvmss e) (tc_rcvflg e) (tc_readers e) (tc_istart e) (tc_icount e) v (tc_in e) (tc_imark e) (tc_ibytes e) (tc_snduna e) (tc_sndnxt e) (tc_sndwnd e) (tc_sndcwn e) (tc_sndsst e) (tc_sndup e) (tc_sndwl1 e) (tc_sndwl2 e) (tc_iss e) (tc_sndfin e) (tc_sndmss e) (tc_sndflg e) (tc_sndrtt e) (tc_sndrtd e) (tc_rxttime e) (tc_rxtcount e) (tc_psttime e) (tc_writers e) (tc_ostart e) (tc_ocount e) (tc_out e) (tc_obytes e).
Definition set_tc_in (v : gmap Z Z) (e : tcb) : tcb := mkTcb (tc_dev e) (tc_state e) (tc_devstate e) (tc_mutex e) (tc_localpt e) (tc_remotept e) (tc_localip e) (tc_remoteip e) (tc_opentype e) (tc_openclose e) (tc_rcvnxt e) (tc_rcvwnd e) (tc_rcvup e) (tc_rcvfin e) (tc_rcvmss e) (tc_rcvflg e) (tc_readers e) (tc_istart e) (tc_icount e) (tc_inxt e) v (tc_imark e) (tc_ibytes e) (tc_snduna e) (tc_sndnxt e) (tc_sndwnd e) (tc_sndcwn e) (tc_sndsst e) (tc_sndup e) (tc_sndwl1 e) (tc_sndwl2 e) (tc_iss e) (tc_sndfin e) (tc_sndmss e) (tc_sndflg e) (tc_sndrtt e) (tc_sndrtd e) (tc_rxttime e) (tc_rxtcount e) (tc_psttime e) (tc_writers e) (tc_ostart e) (tc_ocount e) (tc_out e) (tc_obytes e).
Definition set_tc_imark (v : gmap Z bool) (e : tcb) : tcb := mkTcb (tc_dev e) (tc_state e) (tc_devstate e) (tc_mutex e) (tc_localpt e) (tc_remotept e) (tc_localip e) (tc_remoteip e) (tc_opentype e) (tc_openclose e) (tc_rcvnxt e) (tc_rcvwnd e) (tc_rcvup e) (tc_rcvfin e) (tc_rcvmss e) (tc_rcvflg e) (tc_readers e) (tc_istart e) (tc_icount e) (tc_inxt e) (tc_in e) v (tc_ibytes e) (tc_snduna e) (tc_sndnxt e) (tc_sndwnd e) (tc_sndcwn e) (tc_sndsst e) (tc_sndup e) (tc_sndwl1 e) (tc_sndwl2 e) (tc_iss e) (tc_sndfin e) (tc_sndmss e) (tc_sndflg e) (tc_sndrtt e) (tc_sndrtd e) (tc_rxttime e) (tc_rxtcount e) (tc_psttime e) (tc_writers e) (tc_ostart e) (tc_ocount e) (tc_out e) (tc_obytes e).
Definition set_tc_ibytes (v : Z) (e : tcb) : tcb := mkTcb (tc_dev e) (tc_state e) (tc_devstate e) (tc_mutex e) (tc_localpt e) (tc_remotept e) (tc_localip e) (tc_remoteip e) (tc_opentype e) (tc_openclose e) (tc_rcvnxt e) (tc_rcvwnd e) (tc_rcvup e) (tc_rcvfin e) (tc_rcvmss e) (tc_rcvflg e) (tc_readers e) (tc_istart e) (tc_icount e) (tc_inxt e) (tc_in e) (tc_imark e) v (tc_snduna e) (tc_sndnxt e) (tc_sndwnd e) (tc_sndcwn e) (tc_sndsst e) (tc_sndup e) (tc_sndwl1 e) (tc_sndwl2 e) (tc_iss e) (tc_sndfin e) (tc_sndmss e) (tc_sndflg e) (tc_sndrtt e) (tc_sndrtd e) (tc_rxttime e) (tc_rxtcount e) (tc_psttime e) (tc_writers e) (tc_ostart e) (tc_ocount e) (tc_out e) (tc_obytes e).
Definition set_tc_snduna (v : Z) (e : tcb) : tcb := mkTcb (tc_dev e) (tc_state e) (tc_devstate e) (tc_mutex e) (tc_localpt e) (tc_remotept e) (tc_localip e) (tc_remoteip e) (tc_opentype e) (tc_openclose e) (tc_rcvnxt e) (tc_rcvwnd e) (tc_rcvup e) (tc_rcvfin e) (tc_rcvmss e) (tc_rcvflg e) (tc_readers e) (tc_istart e) (tc_icount e) (tc_inxt e) (tc_in e) (tc_imark e) (tc_ibytes e) v (tc_sndnxt e) (tc_sndwnd e) (tc_sndcwn e) (tc_sndsst e) (tc_sndup e) (tc_sndwl1 e) (tc_sndwl2 e) (tc_iss e) (tc_sndfin e) (tc_sndmss e) (tc_sndflg e) (tc_sndrtt e) (tc_sndrtd e) (tc_rxttime e) (tc_rxtcount e) (tc_psttime e) (tc_writers e) (tc_ostart e) (tc_ocount e) (tc_out e) (tc_obytes e).
Definition set_tc_sndnxt (v : Z) (e : tcb) : tcb := mkTcb (tc_dev e) (tc_state e) (tc_devstate e) (tc_mutex e) (tc_localpt e) (tc_remotept e) (tc_localip e) (tc_remoteip e) (tc_opentype e) (tc_openclose e) (tc_rcvnxt e) (tc_rcvwnd e) (tc_rcvup e) (tc_rcvfin e) (tc_rcvmss e) (tc_rcvflg e) (tc_readers e) (tc_istart e) (tc_icount e) (tc_inxt e) (tc_in e) (tc_imark e) (tc_ibytes e) (tc_snduna e) v (tc_sndwnd e) (tc_sndcwn e) (tc_sndsst e) (tc_sndup e) (tc_sndwl1 e) (tc_sndwl2 e) (tc_iss e) (tc_sndfin e) (tc_sndmss e) (tc_sndflg e) (tc_sndrtt e) (tc_sndrtd e) (tc_rxttime e) (tc_rxtcount e) (tc_psttime e) (tc_writers e) (tc_ostart e) (tc_ocount e) (tc_out e) (tc_obytes e).
Definition set_tc_sndwnd (v : Z) (e : tcb) : tcb := mkTcb (tc_dev e) (tc_state e) (tc_devstate e) (tc_mutex e) (tc_localpt e) (tc_remotept e) (tc_localip e) (tc_remoteip e) (tc_opentype e) (tc_openclose e) (tc_rcvnxt e) (tc_rcvwnd e) (tc_rcvup e) (tc_rcvfin e) (tc_rcvmss e) (tc_rcvflg e) (tc_readers e) (tc_istart e) (tc_icount e) (tc_inxt e) (tc_in e) (tc_imark e) (tc_ibytes e) (tc_snduna e) (tc_sndnxt e) v (tc_sndcwn e) (tc_sndsst e) (tc_sndup e) (tc_sndwl1 e) (tc_sndwl2 e) (tc_iss e) (tc_sndfin e) (tc_sndmss e) (tc_sndflg e) (tc_sndrtt e) (tc_sndrtd e) (tc_rxttime e) (tc_rxtcount e) (tc_psttime e) (tc_writers e) (tc_ostart e) (tc_ocount e) (tc_out e) (tc_obytes e).
Definition set_tc_sndcwn (v : Z) (e : tcb) : tcb := mkTcb (tc_dev e) (tc_state e) (tc_devstate e) (tc_mutex e) (tc_localpt e) (tc_remotept e) (tc_localip e) (tc_remoteip e) (tc_opentype e) (tc_openclose e) (tc_rcvnxt e) (tc_rcvwnd e) (tc_rcvup e) (tc_rcvfin e) (tc_rcvmss e) (tc_rcvflg e) (tc_readers e) (tc_istart e) (tc_icount e) (tc_inxt e) (tc_in e) (tc_imark e) (tc_ibytes e) (tc_snduna e) (tc_sndnxt e) (tc_sndwnd e) v (tc_sndsst e) (tc_sndup e) (tc_sndwl1 e) (tc_sndwl2 e) (tc_iss e) (tc_sndfin e) (tc_sndmss e) (tc_sndflg e) (tc_sndrtt e) (tc_sndrtd e) (tc_rxttime e) (tc_rxtcount e) (tc_psttime e) (tc_writers e) (tc_ostart e) (tc_ocount e) (tc_out e) (tc_obytes e).
Definition set_tc_sndsst (v : Z) (e : tcb) : tcb := mkTcb (tc_dev e) (tc_state e) (tc_devstate e) (tc_mutex e) (tc_localpt e) (tc_remotept e) (tc_localip e) (tc_remoteip e) (tc_opentype e) (tc_openclose e) (tc_rcvnxt e) (tc_rcvwnd e) (tc_rcvup e) (tc_rcvfin e) (tc_rcvmss e) (tc_rcvflg e) (tc_readers e) (tc_istart e) (tc_icount e) (tc_inxt e) (tc_in e) (tc_imark e) (tc_ibytes e) (tc_snduna e) (tc_sndnxt e) (tc_sndwnd e) (tc_sndcwn e) v (tc_sndup e) (tc_sndwl1 e) (tc_sndwl2 e) (tc_iss e) (tc_sndfin e) (tc_sndmss e) (tc_sndflg e) (tc_sndrtt e) (tc_sndrtd e) (tc_rxttime e) (tc_rxtcount e) (tc_psttime e) (tc_writers e) (tc_ostart e) (tc_ocount e) (tc_out e) (tc_obytes e).
Definition set_tc_sndup (v : Z) (e : tcb) : tcb := mkTcb (tc_dev e) (tc_state e) (tc_devstate e) (tc_mutex e) (tc_localpt e) (tc_remotept e) (tc_localip e) (tc_remoteip e) (tc_opentype e) (tc_openclose e) (tc_rcvnxt e) (tc_rcvwnd e) (tc_rcvup e) (tc_rcvfin e) (tc_rcvmss e) (tc_rcvflg e) (tc_readers e) (tc_istart e) (tc_icount e) (tc_inxt e) (tc_in e) (tc_imark e) (tc_ibytes e) (tc_snduna e) (tc_sndnxt e) (tc_sndwnd e) (tc_sndcwn e) (tc_sndsst e) v (tc_sndwl1 e) (tc_sndwl2 e) (tc_iss e) (tc_sndfin e) (tc_sndmss e) (tc_sndflg e) (tc_sndrtt e) (tc_sndrtd e) (tc_rxttime e) (tc_rxtcount e) (tc_psttime e) (tc_writers e) (tc_ostart e) (tc_ocount e) (tc_out e) (tc_obytes e).
Definition set_tc_sndwl1 (v : Z) (e : tcb) : tcb := mkTcb (tc_dev e) (tc_state e) (tc_devstate e) (tc_mutex e) (tc_localpt e) (tc_remotept e) (tc_localip e) (tc_remoteip e) (tc_opentype e) (tc_openclose e) (tc_rcvnxt e) (tc_rcvwnd e) (tc_rcvup e) (tc_rcvfin e) (tc_rcvmss e) (tc_rcvflg e) (tc_readers e) (tc_istart e) (tc_icount e) (tc_inxt e) (tc_in e) (tc_imark e) (tc_ibytes e) (tc_snduna e) (tc_sndnxt e) (tc_sndwnd e) (tc_sndcwn e) (tc_sndsst e) (tc_sndup e) v (tc_sndwl2 e) (tc_iss e) (tc_sndfin e) (tc_sndmss e) (tc_sndflg e) (tc_sndrtt e) (tc_sndrtd e) (tc_rxttime e) (tc_rxtcount e) (tc_psttime e) (tc_writers e) (tc_ostart e) (tc_ocount e) (tc_out e) (tc_obytes e).
Definition set_tc_sndwl2 (v : Z) (e : tcb) : tcb := mkTcb (tc_dev e) (tc_state e) (tc_devstate e) (tc_mutex e) (tc_localpt e) (tc_remotept e) (tc_localip e) (tc_remoteip e) (tc_opentype e) (tc_openclose e) (tc_rcvnxt e) (tc_rcvwnd e) (tc_rcvup e) (tc_rcvfin e) (tc_rcvmss e) (tc_rcvflg e) (tc_readers e) (tc_istart e) (tc_icount e) (tc_inxt e) (tc_in e) (tc_imark e) (tc_ibytes e) (tc_snduna e) (tc_sndnxt e) (tc_sndwnd e) (tc_sndcwn e) (tc_sndsst e) (tc_sndup e) (tc_sndwl1 e) v (tc_iss e) (tc_sndfin e) (tc_sndmss e) (tc_sndflg e) (tc_sndrtt e) (tc_sndrtd e) (tc_rxttime e) (tc_rxtcount e) (tc_psttime e) (tc_writers e) (tc_ostart e) (tc_ocount e) (tc_out e) (tc_obytes e).
Definition set_tc_iss (v : Z) (e : tcb) : tcb := mkTcb (tc_dev e) (tc_state e) (tc_devstate e) (tc_mutex e) (tc_localpt e) (tc_remotept e) (tc_localip e) (tc_remoteip e) (tc_opentype e) (tc_openclose e) (tc_rcvnxt e) (tc_rcvwnd e) (tc_rcvup e) (tc_rcvfin e) (tc_rcvmss e) (tc_rcvflg e) (tc_readers e) (tc_istart e) (tc_icount e) (tc_inxt e) (tc_in e) (tc_imark e) (tc_ibytes e) (tc_snduna e) (tc_sndnxt e) (tc_sndwnd e) (tc_sndcwn e) (tc_sndsst e) (tc_sndup e) (tc_sndwl1 e) (tc_sndwl2 e) v (tc_sndfin e) (tc_sndmss e) (tc_sndflg e) (tc_sndrtt e) (tc_sndrtd e) (tc_rxttime e) (tc_rxtcount e) (tc_psttime e) (tc_writers e) (tc_ostart e) (tc_ocount e) (tc_out e) (tc_obytes e).
Definition set_tc_sndfin (v : Z) (e : tcb) : tcb := mkTcb (tc_dev e) (tc_state e) (tc_devstate e) (tc_mutex e) (tc_localpt e) (tc_remotept e) (tc_localip e) (tc_remoteip e) (tc_opentype e) (tc_openclose e) (tc_rcvnxt e) (tc_rcvwnd e) (tc_rcvup e) (tc_rcvfin e) (tc_rcvmss e) (tc_rcvflg e) (tc_readers e) (tc_istart e) (tc_icount e) (tc_inxt e) (tc_in e) (tc_imark e) (tc_ibytes e) (tc_snduna e) (tc_sndnxt e) (tc_sndwnd e) (tc_sndcwn e) (tc_sndsst e) (tc_sndup e) (tc_sndwl1 e) (tc_sndwl2 e) (tc_iss e) v (tc_sndmss e) (tc_sndflg e) (tc_sndrtt e) (tc_sndrtd e) (tc_rxttime e) (tc_rxtcount e) (tc_psttime e) (tc_writers e) (tc_ostart e) (tc_ocount e) (tc_out e) (tc_obytes e).
Definition set_tc_sndmss (v : Z) (e : tcb) : tcb := mkTcb (tc_dev e) (tc_state e) (tc_devstate e) (tc_mutex e) (tc_localpt e) (tc_remotept e) (tc_localip e) (tc_remoteip e) (tc_opentype e) (tc_openclose e) (tc_rcvnxt e) (tc_rcvwnd e) (tc_rcvup e) (tc_rcvfin e) (tc_rcvmss e) (tc_rcvflg e) (tc_readers e) (tc_istart e) (tc_icount e) (tc_inxt e) (tc_in e) (tc_imark e) (tc_ibytes e) (tc_snduna e) (tc_sndnxt e) (tc_sndwnd e) (tc_sndcwn e) (tc_sndsst e) (tc_sndup e) (tc_sndwl1 e) (tc_sndwl2 e) (tc_iss e) (tc_sndfin e) v (tc_sndflg e) (tc_sndrtt e) (tc_sndrtd e) (tc_rxttime e) (tc_rxtcount e) (tc_psttime e) (tc_writers e) (tc_ostart e) (tc_ocount e) (tc_out e) (tc_obytes e).
Definition set_tc_sndflg (v : Z) (e : tcb) : tcb := mkTcb (tc_dev e) (tc_state e) (tc_devstate e) (tc_mutex e) (tc_localpt e) (tc_remotept e) (tc_localip e) (tc_remoteip e) (tc_opentype e) (tc_openclose e) (tc_rcvnxt e) (tc_rcvwnd e) (tc_rcvup e) (tc_rcvfin e) (tc_rcvmss e) (tc_rcvflg e) (tc_readers e) (tc_istart e) (tc_icount e) (tc_inxt e) (tc_in e) (tc_imark e) (tc_ibytes e) (tc_snduna e) (tc_sndnxt e) (tc_sndwnd e) (tc_sndcwn e) (tc_sndsst e) (tc_sndup e) (tc_sndwl1 e) (tc_sndwl2 e) (tc_iss e) (tc_sndfin e) (tc_sndmss e) v (tc_sndrtt e) (tc_sndrtd e) (tc_rxttime e) (tc_rxtcount e) (tc_psttime e) (tc_writers e) (tc_ostart e) (tc_ocount e) (tc_out e) (tc_obytes e).
Definition set_tc_sndrtt (v : Z) (e : tcb) : tcb := mkTcb (tc_dev e) (tc_state e) (tc_devstate e) (tc_mutex e) (tc_localpt e) (tc_remotept e) (tc_localip e) (tc_remoteip e) (tc_opentype e) (tc_openclose e) (tc_rcvnxt e) (tc_rcvwnd e) (tc_rcvup e) (tc_rcvfin e) (tc_rcvmss e) (tc_rcvflg e) (tc_readers e) (tc_istart e) (tc_icount e) (tc_inxt e) (tc_in e) (tc_imark e) (tc_ibytes e) (tc_snduna e) (tc_sndnxt e) (tc_sndwnd e) (tc_sndcwn e) (tc_sndsst e) (tc_sndup e) (tc_sndwl1 e) (tc_sndwl2 e) (tc_iss e) (tc_sndfin e) (tc_sndmss e) (tc_sndflg e) v (tc_sndrtd e) (tc_rxttime e) (tc_rxtcount e) (tc_psttime e) (tc_writers e) (tc_ostart e) (tc_ocount e) (tc_out e) (tc_obytes e).
Definition set_tc_sndrtd (v : Z) (e : tcb) : tcb := mkTcb (tc_dev e) (tc_state e) (tc_devstate e) (tc_mutex e) (tc_localpt e) (tc_remotept e) (tc_localip e) (tc_remoteip e) (tc_opentype e) (tc_openclose e) (tc_rcvnxt e) (tc_rcvwnd e) (tc_rcvup e) (tc_rcvfin e) (tc_rcvmss e) (tc_rcvflg e) (tc_readers e) (tc_istart e) (tc_icount e) (tc_inxt e) (tc_in e) (tc_imark e) (tc_ibytes e) (tc_snduna e) (tc_sndnxt e) (tc_sndwnd e) (tc_sndcwn e) (tc_sndsst e) (tc_sndup e) (tc_sndwl1 e) (tc_sndwl2 e) (tc_iss e) (tc_sndfin e) (tc_sndmss e) (tc_sndflg e) (tc_sndrtt e) v (tc_rxttime e) (tc_rxtcount e) (tc_psttime e) (tc_writers e) (tc_ostart e) (tc_ocount e) (tc_out e) (tc_obytes e).
Definition set_tc_rxttime (v : Z) (e : tcb) : tcb := mkTcb (tc_dev e) (tc_state e) (tc_devstate e) (tc_mutex e) (tc_localpt e) (tc_remotept e) (tc_localip e) (tc_remoteip e) (tc_opentype e) (tc_openclose e) (tc_rcvnxt e) (tc_rcvwnd e) (tc_rcvup e) (tc_rcvfin e) (tc_rcvmss e) (tc_rcvflg e) (tc_readers e) (tc_istart e) (tc_icount e) (tc_inxt e) (tc_in e) (tc_imark e) (tc_ibytes e) (tc_snduna e) (tc_sndnxt e) (tc_sndwnd e) (tc_sndcwn e) (tc_sndsst e) (tc_sndup e) (tc_sndwl1 e) (tc_sndwl2 e) (tc_iss e) (tc_sndfin e) (tc_sndmss e) (tc_sndflg e) (tc_sndrtt e) (tc_sndrtd e) v (tc_rxtcount e) (tc_psttime e) (tc_writers e) (tc_ostart e) (tc_ocount e) (tc_out e) (tc_obytes e).
Definition set_tc_rxtcount (v : Z) (e : tcb) : tcb := mkTcb (tc_dev e) (tc_state e) (tc_devstate e) (tc_mutex e) (tc_localpt e) (tc_remotept e) (tc_localip e) (tc_remoteip e) (tc_opentype e) (tc_openclose e) (tc_rcvnxt e) (tc_rcvwnd e) (tc_rcvup e) (tc_rcvfin e) (tc_rcvmss e) (tc_rcvflg e) (tc_readers e) (tc_istart e) (tc_icount e) (tc_inxt e) (tc_in e) (tc_imark e) (tc_ibytes e) (tc_snduna e) (tc_sndnxt e) (tc_sndwnd e) (tc_sndcwn e) (tc_sndsst e) (tc_sndup e) (tc_sndwl1 e) (tc_sndwl2 e) (tc_iss e) (tc_sndfin e) (tc_sndmss e) (tc_sndflg e) (tc_sndrtt e) (tc_sndrtd e) (tc_rxttime e) v (tc_psttime e) (tc_writers e) (tc_ostart e) (tc_ocount e) (tc_out e) (tc_obytes e).
Definition set_tc_psttime (v : Z) (e : tcb) : tcb := mkTcb (tc_dev e) (tc_state e) (tc_devstate e) (tc_mutex e) (tc_localpt e) (tc_remotept e) (tc_localip e) (tc_remoteip e) (tc_opentype e) (tc_openclose e) (tc_rcvnxt e) (tc_rcvwnd e) (tc_rcvup e) (tc_rcvfin e) (tc_rcvmss e) (tc_rcvflg e) (tc_readers e) (tc_istart e) (tc_icount e) (tc_inxt e) (tc_in e) (tc_imark e) (tc_ibytes e) (tc_snduna e) (tc_sndnxt e) (tc_sndwnd e) (tc_sndcwn e) (tc_sndsst e) (tc_sndup e) (tc_sndwl1 e) (tc_sndwl2 e) (tc_iss e) (tc_sndfin e) (tc_sndmss e) (tc_sndflg e) (tc_sndrtt e) (tc_sndrtd e) (tc_rxttime e) (tc_rxtcount e) v (tc_writers e) (tc_ostart e) (tc_ocount e) (tc_out e) (tc_obytes e).
Definition set_tc_writers (v : Z) (e : tcb) : tcb := mkTcb (tc_dev e) (tc_state e) (tc_devstate e) (tc_mutex e) (tc_localpt e) (tc_remotept e) (tc_localip e) (tc_remoteip e) (tc_opentype e) (tc_openclose e) (tc_rcvnxt e) (tc_rcvwnd e) (tc_rcvup e) (tc_rcvfin e) (tc_rcvmss e) (tc_rcvflg e) (tc_readers e) (tc_istart e) (tc_icount e) (tc_inxt e) (tc_in e) (tc_imark e) (tc_ibytes e) (tc_snduna e) (tc_sndnxt e) (tc_sndwnd e) (tc_sndcwn e) (tc_sndsst e) (tc_sndup e) (tc_sndwl1 e) (tc_sndwl2 e) (tc_iss e) (tc_sndfin e) (tc_sndmss e) (tc_sndflg e) (tc_sndrtt e) (tc_sndrtd e) (tc_rxttime e) (tc_rxtcount e) (tc_psttime e) v (tc_ostart e) (tc_ocount e) (tc_out e) (tc_obytes e).
Definition set_tc_ostart (v : Z) (e : tcb) : tcb := mkTcb (tc_dev e) (tc_state e) (tc_devstate e) (tc_mutex e) (tc_localpt e) (tc_remotept e) (tc_localip e) (tc_remoteip e) (tc_opentype e) (tc_openclose e) (tc_rcvnxt e) (tc_rcvwnd e) (tc_rcvup e) (tc_rcvfin e) (tc_rcvmss e) (tc_rcvflg e) (tc_readers e) (tc_istart e) (tc_icount e) (tc_inxt e) (tc_in e) (tc_imark e) (tc_ibytes e) (tc_snduna e) (tc_sndnxt e) (tc_sndwnd e) (tc_sndcwn e) (tc_sndsst e) (tc_sndup e) (tc_sndwl1 e) (tc_sndwl2 e) (tc_iss e) (tc_sndfin e) (tc_sndmss e) (tc_sndflg e) (tc_sndrtt e) (tc_sndrtd e) (tc_rxttime e) (tc_rxtcount e) (tc_psttime e) (tc_writers e) v (tc_ocount e) (tc_out e) (tc_obytes e).
Definition set_tc_ocount (v : Z) (e : tcb) : tcb := mkTcb (tc_dev e) (tc_state e) (tc_devstate e) (tc_mutex e) (tc_localpt e) (tc_remotept e) (tc_localip e) (tc_remoteip e) (tc_opentype e) (tc_openclose e) (tc_rcvnxt e) (tc_rcvwnd e) (tc_rcvup e) (tc_rcvfin e) (tc_rcvmss e) (tc_rcvflg e) (tc_readers e) (tc_istart e) (tc_icount e) (tc_inxt e) (tc_in e) (tc_imark e) (tc_ibytes e) (tc_snduna e) (tc_sndnxt e) (tc_sndwnd e) (tc_sndcwn e) (tc_sndsst e) (tc_sndup e) (tc_sndwl1 e) (tc_sndwl2 e) (tc_iss e) (tc_sndfin e) (tc_sndmss e) (tc_sndflg e) (tc_sndrtt e) (tc_sndrtd e) (tc_rxttime e) (tc_rxtcount e) (tc_psttime e) (tc_writers e) (tc_ostart e) v (tc_out e) (tc_obytes e).
Definition set_tc_out (v : gmap Z Z) (e : tcb) : tcb := mkTcb (tc_dev e) (tc_state e) (tc_devstate e) (tc_mutex e) (tc_localpt e) (tc_remotept e) (tc_localip e) (tc_remoteip e) (tc_opentype e) (tc_openclose e) (tc_rcvnxt e) (tc_rcvwnd e) (tc_rcvup e) (tc_rcvfin e) (tc_rcvmss e) (tc_rcvflg e) (tc_readers e) (tc_istart e) (tc_icount e) (tc_inxt e) (tc_in e) (tc_imark e) (tc_ibytes e) (tc_snduna e) (tc_sndnxt e) (tc_sndwnd e) (tc_sndcwn e) (tc_sndsst e) (tc_sndup e) (tc_sndwl1 e) (tc_sndwl2 e) (tc_iss e) (tc_sndfin e) (tc_sndmss e) (tc_sndflg e) (tc_sndrtt e) (tc_sndrtd e) (tc_rxttime e) (tc_rxtcount e) (tc_psttime e) (tc_writers e) (tc_ostart e) (tc_ocount e) v (tc_obytes e).
Definition set_tc_obytes (v : Z) (e : tcb) : tcb := mkTcb (tc_dev e) (tc_state e) (tc_devstate e) (tc_mutex e) (tc_localpt e) (tc_remotept e) (tc_localip e) (tc_remoteip e) (tc_opentype e) (tc_openclose e) (tc_rcvnxt e) (tc_rcvwnd e) (tc_rcvup e) (tc_rcvfin e) (tc_rcvmss e) (tc_rcvflg e) (tc_readers e) (tc_istart e) (tc_icount e) (tc_inxt e) (tc_in e) (tc_imark e) (tc_ibytes e) (tc_snduna e) (tc_sndnxt e) (tc_sndwnd e) (tc_sndcwn e) (tc_sndsst e) (tc_sndup e) (tc_sndwl1 e) (tc_sndwl2 e) (tc_iss e) (tc_sndfin e) (tc_sndmss e) (tc_sndflg e) (tc_sndrtt e) (tc_sndrtd e) (tc_rxttime e) (tc_rxtcount e) (tc_psttime e) (tc_writers e) (tc_ostart e) (tc_ocount e) (tc_out e) v.

Definition zero_tcb : tcb :=
  mkTcb 0 0 0 0 0 0 zero_netaddr zero_netaddr 0 0 0 0 0 0 0 0 0 0 0 0 (table TCP_IBLEN 0) (table TCP_IBLEN false) 0 0 0 0 0 0 0 0 0 0 0 0 0 0 0 0 0 0 0 0 0 (table TCP_IBLEN 0) 0.

(** [struct tcpEvent]. *)
Record tcpEvent := mkTcpEvent {
  v_used : bool;
  v_time : Z;
  v_remain : Z;
  v_type : Z;
  v_tcbptr : option Z;
  v_next : option Z
}.

Definition set_v_used (v : bool) (e : tcpEvent) : tcpEvent := mkTcpEvent v (v_time e) (v_remain e) (v_type e) (v_tcbptr e) (v_next e).
Definition set_v_time (v : Z) (e : tcpEvent) : tcpEvent := mkTcpEvent (v_used e) v (v_remain e) (v_type e) (v_tcbptr e) (v_next e).
Definition set_v_remain (v : Z) (e : tcpEvent) : tcpEvent := mkTcpEvent (v_used e) (v_time e) v (v_type e) (v_tcbptr e) (v_next e).
Definition set_v_type (v : Z) (e : tcpEvent) : tcpEvent := mkTcpEvent (v_used e) (v_time e) (v_remain e) v (v_tcbptr e) (v_next e).
Definition set_v_tcbptr (v : option Z) (e : tcpEvent) : tcpEvent := mkTcpEvent (v_used e) (v_time e) (v_remain e) (v_type e) v (v_next e).
Definition set_v_next (v : option Z) (e : tcpEvent) : tcpEvent := mkTcpEvent (v_used e) (v_time e) (v_remain e) (v_type e) (v_tcbptr e) v.

Definition zero_event : tcpEvent := mkTcpEvent false 0 0 0 None None.

(** The globals and the static variables of tcpOpen.c, tcpTimerSched.c and tcpSetup.c. *)
Record tcps := mkTcps {
  g_tcptab : gmap Z tcb;
  g_tcptimertab : gmap Z tcpEvent;
  g_tcpmutex : Z;
  g_nextport : Z;
  g_nextevt : Z;
  g_nextseq : Z
}.

Definition set_g_tcptab (v : gmap Z tcb) (e : tcps) : tcps := mkTcps v (g_tcptimertab e) (g_tcpmutex e) (g_nextport e) (g_nextevt e) (g_nextseq e).
Definition set_g_tcptimertab (v : gmap Z tcpEvent) (e : tcps) : tcps := mkTcps (g_tcptab e) v (g_tcpmutex e) (g_nextport e) (g_nextevt e) (g_nextseq e).
Definition set_g_tcpmutex (v : Z) (e : tcps) : tcps := mkTcps (g_tcptab e) (g_tcptimertab e) v (g_nextport e) (g_nextevt e) (g_nextseq e).
Definition set_g_nextport (v : Z) (e : tcps) : tcps := mkTcps (g_tcptab e) (g_tcptimertab e) (g_tcpmutex e) v (g_nextevt e) (g_nextseq e).
Definition set_g_nextevt (v : Z) (e : tcps) : tcps := mkTcps (g_tcptab e) (g_tcptimertab e) (g_tcpmutex e) (g_nextport e) v (g_nextseq e).
Definition set_g_nextseq (v : Z) (e : tcps) : tcps := mkTcps (g_tcptab e) (g_tcptimertab e) (g_tcpmutex e) (g_nextport e) (g_nextevt e) v.
