(* ===== verification/Net.v ===== *)
(** The state of the network stack: the tables of include/network.h, route.h, arp.h,
    icmp.h, udp.h, raw.h and snoop.h, with the packet buffers
    (network/net/netGetbuf.c, netFreebuf.c) and the search for an interface
    (netLookup.c).  The bytes of packets are in the byte memory, the fields of their
    headers in a table. *)
From Stdlib Require Import ZArith Lia.
From stdpp Require Import sorting gmap functions list.
From S2P Require Import Prelude Kernel Queue QueueFacts Sched Semaphore Clock Message Memory Boot BufPool Bytes Device Chksum Netaddr Tcb.

(** ** Constants *)

(** include/conf.h *)
Definition NNETIF : Z := 2.
Definition NUDP : Z := 4.
Definition NRAW : Z := 2.

Definition ETHER_TYPE_ARP : Z := 2054.
Definition ETH_HDR_LEN : Z := 14.
Definition NET_FREE : Z := 0.
Definition NET_ALLOC : Z := 1.
Definition NET_NTHR : Z := 5.
Definition NET_THR_PRIO : Z := 30.
Definition NET_THR_STK : Z := 4096.
Definition NET_MAX_PKTLEN : Z := 1598.
Definition NET_POOLSIZE : Z := 512.
Definition RT_NENTRY : Z := 32.
Definition RT_FREE : Z := 0.
Definition RT_USED : Z := 1.
Definition RT_PEND : Z := 2.
Definition ARP_NENTRY : Z := 32.
Definition ARP_NTHRWAIT : Z := 10.

(** ** Data *)

(** [struct netif], include/network.h.  A pointer to an interface is its index in
    [netiftab], and [None] when it is null. *)
Record netif := mkNetif {
  n_dev : Z;
  n_state : Z;
  n_mtu : Z;
  n_linkhdrlen : Z;
  n_ip : netaddr;
  n_mask : netaddr;
  n_gateway : netaddr;
  n_ipbrc : netaddr;
  n_hwaddr : netaddr;
  n_hwbrc : netaddr;
  n_recvthr : gmap Z Z;
  n_nin : Z;
  n_nproc : Z;
  n_capture : option Z
}.

Definition set_n_dev (v : Z) (e : netif) : netif := mkNetif v (n_state e) (n_mtu e) (n_linkhdrlen e) (n_ip e) (n_mask e) (n_gateway e) (n_ipbrc e) (n_hwaddr e) (n_hwbrc e) (n_recvthr e) (n_nin e) (n_nproc e) (n_capture e).
Definition set_n_state (v : Z) (e : netif) : netif := mkNetif (n_dev e) v (n_mtu e) (n_linkhdrlen e) (n_ip e) (n_mask e) (n_gateway e) (n_ipbrc e) (n_hwaddr e) (n_hwbrc e) (n_recvthr e) (n_nin e) (n_nproc e) (n_capture e).
Definition set_n_mtu (v : Z) (e : netif) : netif := mkNetif (n_dev e) (n_state e) v (n_linkhdrlen e) (n_ip e) (n_mask e) (n_gateway e) (n_ipbrc e) (n_hwaddr e) (n_hwbrc e) (n_recvthr e) (n_nin e) (n_nproc e) (n_capture e).
Definition set_n_linkhdrlen (v : Z) (e : netif) : netif := mkNetif (n_dev e) (n_state e) (n_mtu e) v (n_ip e) (n_mask e) (n_gateway e) (n_ipbrc e) (n_hwaddr e) (n_hwbrc e) (n_recvthr e) (n_nin e) (n_nproc e) (n_capture e).
Definition set_n_ip (v : netaddr) (e : netif) : netif := mkNetif (n_dev e) (n_state e) (n_mtu e) (n_linkhdrlen e) v (n_mask e) (n_gateway e) (n_ipbrc e) (n_hwaddr e) (n_hwbrc e) (n_recvthr e) (n_nin e) (n_nproc e) (n_capture e).
Definition set_n_mask (v : netaddr) (e : netif) : netif := mkNetif (n_dev e) (n_state e) (n_mtu e) (n_linkhdrlen e) (n_ip e) v (n_gateway e) (n_ipbrc e) (n_hwaddr e) (n_hwbrc e) (n_recvthr e) (n_nin e) (n_nproc e) (n_capture e).
Definition set_n_gateway (v : netaddr) (e : netif) : netif := mkNetif (n_dev e) (n_state e) (n_mtu e) (n_linkhdrlen e) (n_ip e) (n_mask e) v (n_ipbrc e) (n_hwaddr e) (n_hwbrc e) (n_recvthr e) (n_nin e) (n_nproc e) (n_capture e).
Definition set_n_ipbrc (v : netaddr) (e : netif) : netif := mkNetif (n_dev e) (n_state e) (n_mtu e) (n_linkhdrlen e) (n_ip e) (n_mask e) (n_gateway e) v (n_hwaddr e) (n_hwbrc e) (n_recvthr e) (n_nin e) (n_nproc e) (n_capture e).
Definition set_n_hwaddr (v : netaddr) (e : netif) : netif := mkNetif (n_dev e) (n_state e) (n_mtu e) (n_linkhdrlen e) (n_ip e) (n_mask e) (n_gateway e) (n_ipbrc e) v (n_hwbrc e) (n_recvthr e) (n_nin e) (n_nproc e) (n_capture e).
Definition set_n_hwbrc (v : netaddr) (e : netif) : netif := mkNetif (n_dev e) (n_state e) (n_mtu e) (n_linkhdrlen e) (n_ip e) (n_mask e) (n_gateway e) (n_ipbrc e) (n_hwaddr e) v (n_recvthr e) (n_nin e) (n_nproc e) (n_capture e).
Definition set_n_recvthr (v : gmap Z Z) (e : netif) : netif := mkNetif (n_dev e) (n_state e) (n_mtu e) (n_linkhdrlen e) (n_ip e) (n_mask e) (n_gateway e) (n_ipbrc e) (n_hwaddr e) (n_hwbrc e) v (n_nin e) (n_nproc e) (n_capture e).
Definition set_n_nin (v : Z) (e : netif) : netif := mkNetif (n_dev e) (n_state e) (n_mtu e) (n_linkhdrlen e) (n_ip e) (n_mask e) (n_gateway e) (n_ipbrc e) (n_hwaddr e) (n_hwbrc e) (n_recvthr e) v (n_nproc e) (n_capture e).
Definition set_n_nproc (v : Z) (e : netif) : netif := mkNetif (n_dev e) (n_state e) (n_mtu e) (n_linkhdrlen e) (n_ip e) (n_mask e) (n_gateway e) (n_ipbrc e) (n_hwaddr e) (n_hwbrc e) (n_recvthr e) (n_nin e) v (n_capture e).
Definition set_n_capture (v : option Z) (e : netif) : netif := mkNetif (n_dev e) (n_state e) (n_mtu e) (n_linkhdrlen e) (n_ip e) (n_mask e) (n_gateway e) (n_ipbrc e) (n_hwaddr e) (n_hwbrc e) (n_recvthr e) (n_nin e) (n_nproc e) v.

(** The header of [struct packet], include/network.h; its bytes are in memory, from
    [data_of] on. *)
Record packet := mkPacket {
  p_nif : option Z;
  p_len : Z;
  p_linkhdr : Z;
  p_nethdr : Z;
  p_curr : Z
}.

Definition set_p_nif (v : option Z) (e : packet) : packet := mkPacket v (p_len e) (p_linkhdr e) (p_nethdr e) (p_curr e).
Definition set_p_len (v : Z) (e : packet) : packet := mkPacket (p_nif e) v (p_linkhdr e) (p_nethdr e) (p_curr e).
Definition set_p_linkhdr (v : Z) (e : packet) : packet := mkPacket (p_nif e) (p_len e) v (p_nethdr e) (p_curr e).
Definition set_p_nethdr (v : Z) (e : packet) : packet := mkPacket (p_nif e) (p_len e) (p_linkhdr e) v (p_curr e).
Definition set_p_curr (v : Z) (e : packet) : packet := mkPacket (p_nif e) (p_len e) (p_linkhdr e) (p_nethdr e) v.

(** [struct rtEntry], include/route.h. *)
Record rtEntry := mkRtEntry {
  r_state : Z;
  r_masklen : Z;
  r_dst : netaddr;
  r_gateway : netaddr;
  r_mask : netaddr;
  r_nif : option Z
}.

Definition set_r_state (v : Z) (e : rtEntry) : rtEntry := mkRtEntry v (r_masklen e) (r_dst e) (r_gateway e) (r_mask e) (r_nif e).
Definition set_r_masklen (v : Z) (e : rtEntry) : rtEntry := mkRtEntry (r_state e) v (r_dst e) (r_gateway e) (r_mask e) (r_nif e).
Definition set_r_dst (v : netaddr) (e : rtEntry) : rtEntry := mkRtEntry (r_state e) (r_masklen e) v (r_gateway e) (r_mask e) (r_nif e).
Definition set_r_gateway (v : netaddr) (e : rtEntry) : rtEntry := mkRtEntry (r_state e) (r_masklen e) (r_dst e) v (r_mask e) (r_nif e).
Definition set_r_mask (v : netaddr) (e : rtEntry) : rtEntry := mkRtEntry (r_state e) (r_masklen e) (r_dst e) (r_gateway e) v (r_nif e).
Definition set_r_nif (v : option Z) (e : rtEntry) : rtEntry := mkRtEntry (r_state e) (r_masklen e) (r_dst e) (r_gateway e) (r_mask e) v.

(** [struct arpEntry], include/arp.h. *)
Record arpEntry := mkArpEntry {
  a_state : Z;
  a_nif : option Z;
  a_hwaddr : netaddr;
  a_praddr : netaddr;
  a_expires : Z;
  a_waiting : gmap Z Z;
  a_count : Z
}.

Definition set_a_state (v : Z) (e : arpEntry) : arpEntry := mkArpEntry v (a_nif e) (a_hwaddr e) (a_praddr e) (a_expires e) (a_waiting e) (a_count e).
Definition set_a_nif (v : option Z) (e : arpEntry) : arpEntry := mkArpEntry (a_state e) v (a_hwaddr e) (a_praddr e) (a_expires e) (a_waiting e) (a_count e).
Definition set_a_hwaddr (v : netaddr) (e : arpEntry) : arpEntry := mkArpEntry (a_state e) (a_nif e) v (a_praddr e) (a_expires e) (a_waiting e) (a_count e).
Definition set_a_praddr (v : netaddr) (e : arpEntry) : arpEntry := mkArpEntry (a_state e) (a_nif e) (a_hwaddr e) v (a_expires e) (a_waiting e) (a_count e).
Definition set_a_expires (v : Z) (e : arpEntry) : arpEntry := mkArpEntry (a_state e) (a_nif e) (a_hwaddr e) (a_praddr e) v (a_waiting e) (a_count e).
Definition set_a_waiting (v : gmap Z Z) (e : arpEntry) : arpEntry := mkArpEntry (a_state e) (a_nif e) (a_hwaddr e) (a_praddr e) (a_expires e) v (a_count e).
Definition set_a_count (v : Z) (e : arpEntry) : arpEntry := mkArpEntry (a_state e) (a_nif e) (a_hwaddr e) (a_praddr e) (a_expires e) (a_waiting e) v.

(** [struct udp], include/udp.h. *)
Record udp := mkUdp {
  u_dev : option Z;
  u_in : gmap Z Z;
  u_inPool : Z;
  u_icount : Z;
  u_istart : Z;
  u_isem : Z;
  u_localpt : Z;
  u_remotept : Z;
  u_localip : netaddr;
  u_remoteip : netaddr;
  u_state : Z;
  u_flags : Z
}.

Definition set_u_dev (v : option Z) (e : udp) : udp := mkUdp v (u_in e) (u_inPool e) (u_icount e) (u_istart e) (u_isem e) (u_localpt e) (u_remotept e) (u_localip e) (u_remoteip e) (u_state e) (u_flags e).
Definition set_u_in (v : gmap Z Z) (e : udp) : udp := mkUdp (u_dev e) v (u_inPool e) (u_icount e) (u_istart e) (u_isem e) (u_localpt e) (u_remotept e) (u_localip e) (u_remoteip e) (u_state e) (u_flags e).
Definition set_u_inPool (v : Z) (e : udp) : udp := mkUdp (u_dev e) (u_in e) v (u_icount e) (u_istart e) (u_isem e) (u_localpt e) (u_remotept e) (u_localip e) (u_remoteip e) (u_state e) (u_flags e).
Definition set_u_icount (v : Z) (e : udp) : udp := mkUdp (u_dev e) (u_in e) (u_inPool e) v (u_istart e) (u_isem e) (u_localpt e) (u_remotept e) (u_localip e) (u_remoteip e) (u_state e) (u_flags e).
Definition set_u_istart (v : Z) (e : udp) : udp := mkUdp (u_dev e) (u_in e) (u_inPool e) (u_icount e) v (u_isem e) (u_localpt e) (u_remotept e) (u_localip e) (u_remoteip e) (u_state e) (u_flags e).
Definition set_u_isem (v : Z) (e : udp) : udp := mkUdp (u_dev e) (u_in e) (u_inPool e) (u_icount e) (u_istart e) v (u_localpt e) (u_remotept e) (u_localip e) (u_remoteip e) (u_state e) (u_flags e).
Definition set_u_localpt (v : Z) (e : udp) : udp := mkUdp (u_dev e) (u_in e) (u_inPool e) (u_icount e) (u_istart e) (u_isem e) v (u_remotept e) (u_localip e) (u_remoteip e) (u_state e) (u_flags e).
Definition set_u_remotept (v : Z) (e : udp) : udp := mkUdp (u_dev e) (u_in e) (u_inPool e) (u_icount e) (u_istart e) (u_isem e) (u_localpt e) v (u_localip e) (u_remoteip e) (u_state e) (u_flags e).
Definition set_u_localip (v : netaddr) (e : udp) : udp := mkUdp (u_dev e) (u_in e) (u_inPool e) (u_icount e) (u_istart e) (u_isem e) (u_localpt e) (u_remotept e) v (u_remoteip e) (u_state e) (u_flags e).
Definition set_u_remoteip (v : netaddr) (e : udp) : udp := mkUdp (u_dev e) (u_in e) (u_inPool e) (u_icount e) (u_istart e) (u_isem e) (u_localpt e) (u_remotept e) (u_localip e) v (u_state e) (u_flags e).
Definition set_u_state (v : Z) (e : udp) : udp := mkUdp (u_dev e) (u_in e) (u_inPool e) (u_icount e) (u_istart e) (u_isem e) (u_localpt e) (u_remotept e) (u_localip e) (u_remoteip e) v (u_flags e).
Definition set_u_flags (v : Z) (e : udp) : udp := mkUdp (u_dev e) (u_in e) (u_inPool e) (u_icount e) (u_istart e) (u_isem e) (u_localpt e) (u_remotept e) (u_localip e) (u_remoteip e) (u_state e) v.

(** [struct raw], include/raw.h. *)
Record raw := mkRaw {
  w_dev : option Z;
  w_state : Z;
  w_proto : Z;
  w_localip : netaddr;
  w_remoteip : netaddr;
  w_in : gmap Z Z;
  w_src : gmap Z netaddr;
  w_icount : Z;
  w_istart : Z;
  w_isema : Z;
  w_flags : Z
}.

Definition set_w_dev (v : option Z) (e : raw) : raw := mkRaw v (w_state e) (w_proto e) (w_localip e) (w_remoteip e) (w_in e) (w_src e) (w_icount e) (w_istart e) (w_isema e) (w_flags e).
Definition set_w_state (v : Z) (e : raw) : raw := mkRaw (w_dev e) v (w_proto e) (w_localip e) (w_remoteip e) (w_in e) (w_src e) (w_icount e) (w_istart e) (w_isema e) (w_flags e).
Definition set_w_proto (v : Z) (e : raw) : raw := mkRaw (w_dev e) (w_state e) v (w_localip e) (w_remoteip e) (w_in e) (w_src e) (w_icount e) (w_istart e) (w_isema e) (w_flags e).
Definition set_w_localip (v : netaddr) (e : raw) : raw := mkRaw (w_dev e) (w_state e) (w_proto e) v (w_remoteip e) (w_in e) (w_src e) (w_icount e) (w_istart e) (w_isema e) (w_flags e).
Definition set_w_remoteip (v : netaddr) (e : raw) : raw := mkRaw (w_dev e) (w_state e) (w_proto e) (w_localip e) v (w_in e) (w_src e) (w_icount e) (w_istart e) (w_isema e) (w_flags e).
Definition set_w_in (v : gmap Z Z) (e : raw) : raw := mkRaw (w_dev e) (w_state e) (w_proto e) (w_localip e) (w_remoteip e) v (w_src e) (w_icount e) (w_istart e) (w_isema e) (w_flags e).
Definition set_w_src (v : gmap Z netaddr) (e : raw) : raw := mkRaw (w_dev e) (w_state e) (w_proto e) (w_localip e) (w_remoteip e) (w_in e) v (w_icount e) (w_istart e) (w_isema e) (w_flags e).
Definition set_w_icount (v : Z) (e : raw) : raw := mkRaw (w_dev e) (w_state e) (w_proto e) (w_localip e) (w_remoteip e) (w_in e) (w_src e) v (w_istart e) (w_isema e) (w_flags e).
Definition set_w_istart (v : Z) (e : raw) : raw := mkRaw (w_dev e) (w_state e) (w_proto e) (w_localip e) (w_remoteip e) (w_in e) (w_src e) (w_icount e) v (w_isema e) (w_flags e).
Definition set_w_isema (v : Z) (e : raw) : raw := mkRaw (w_dev e) (w_state e) (w_proto e) (w_localip e) (w_remoteip e) (w_in e) (w_src e) (w_icount e) (w_istart e) v (w_flags e).
Definition set_w_flags (v : Z) (e : raw) : raw := mkRaw (w_dev e) (w_state e) (w_proto e) (w_localip e) (w_remoteip e) (w_in e) (w_src e) (w_icount e) (w_istart e) (w_isema e) v.

(** [struct icmpEchoQueue], include/icmp.h. *)
Record icmpEchoQueue := mkEchoQueue {
  e_tid : Z;
  e_head : Z;
  e_tail : Z;
  e_pkts : gmap Z Z
}.

Definition set_e_tid (v : Z) (e : icmpEchoQueue) : icmpEchoQueue := mkEchoQueue v (e_head e) (e_tail e) (e_pkts e).
Definition set_e_head (v : Z) (e : icmpEchoQueue) : icmpEchoQueue := mkEchoQueue (e_tid e) v (e_tail e) (e_pkts e).
Definition set_e_tail (v : Z) (e : icmpEchoQueue) : icmpEchoQueue := mkEchoQueue (e_tid e) (e_head e) v (e_pkts e).
Definition set_e_pkts (v : gmap Z Z) (e : icmpEchoQueue) : icmpEchoQueue := mkEchoQueue (e_tid e) (e_head e) (e_tail e) v.

(** [struct snoop], include/snoop.h. *)
Record snoop := mkSnoop {
  c_caplen : Z;
  c_promisc : bool;
  c_type : Z;
  c_srcaddr : netaddr;
  c_srcport : Z;
  c_dstaddr : netaddr;
  c_dstport : Z;
  c_queue : Z;
  c_ncap : Z;
  c_nmatch : Z;
  c_novrn : Z;
  c_nprint : Z
}.

Definition set_c_caplen (v : Z) (e : snoop) : snoop := mkSnoop v (c_promisc e) (c_type e) (c_srcaddr e) (c_srcport e) (c_dstaddr e) (c_dstport e) (c_queue e) (c_ncap e) (c_nmatch e) (c_novrn e) (c_nprint e).
Definition set_c_promisc (v : bool) (e : snoop) : snoop := mkSnoop (c_caplen e) v (c_type e) (c_srcaddr e) (c_srcport e) (c_dstaddr e) (c_dstport e) (c_queue e) (c_ncap e) (c_nmatch e) (c_novrn e) (c_nprint e).
Definition set_c_type (v : Z) (e : snoop) : snoop := mkSnoop (c_caplen e) (c_promisc e) v (c_srcaddr e) (c_srcport e) (c_dstaddr e) (c_dstport e) (c_queue e) (c_ncap e) (c_nmatch e) (c_novrn e) (c_nprint e).
Definition set_c_srcaddr (v : netaddr) (e : snoop) : snoop := mkSnoop (c_caplen e) (c_promisc e) (c_type e) v (c_srcport e) (c_dstaddr e) (c_dstport e) (c_queue e) (c_ncap e) (c_nmatch e) (c_novrn e) (c_nprint e).
Definition set_c_srcport (v : Z) (e : snoop) : snoop := mkSnoop (c_caplen e) (c_promisc e) (c_type e) (c_srcaddr e) v (c_dstaddr e) (c_dstport e) (c_queue e) (c_ncap e) (c_nmatch e) (c_novrn e) (c_nprint e).
Definition set_c_dstaddr (v : netaddr) (e : snoop) : snoop := mkSnoop (c_caplen e) (c_promisc e) (c_type e) (c_srcaddr e) (c_srcport e) v (c_dstport e) (c_queue e) (c_ncap e) (c_nmatch e) (c_novrn e) (c_nprint e).
Definition set_c_dstport (v : Z) (e : snoop) : snoop := mkSnoop (c_caplen e) (c_promisc e) (c_type e) (c_srcaddr e) (c_srcport e) (c_dstaddr e) v (c_queue e) (c_ncap e) (c_nmatch e) (c_novrn e) (c_nprint e).
Definition set_c_queue (v : Z) (e : snoop) : snoop := mkSnoop (c_caplen e) (c_promisc e) (c_type e) (c_srcaddr e) (c_srcport e) (c_dstaddr e) (c_dstport e) v (c_ncap e) (c_nmatch e) (c_novrn e) (c_nprint e).
Definition set_c_ncap (v : Z) (e : snoop) : snoop := mkSnoop (c_caplen e) (c_promisc e) (c_type e) (c_srcaddr e) (c_srcport e) (c_dstaddr e) (c_dstport e) (c_queue e) v (c_nmatch e) (c_novrn e) (c_nprint e).
Definition set_c_nmatch (v : Z) (e : snoop) : snoop := mkSnoop (c_caplen e) (c_promisc e) (c_type e) (c_srcaddr e) (c_srcport e) (c_dstaddr e) (c_dstport e) (c_queue e) (c_ncap e) v (c_novrn e) (c_nprint e).
Definition set_c_novrn (v : Z) (e : snoop) : snoop := mkSnoop (c_caplen e) (c_promisc e) (c_type e) (c_srcaddr e) (c_srcport e) (c_dstaddr e) (c_dstport e) (c_queue e) (c_ncap e) (c_nmatch e) v (c_nprint e).
Definition set_c_nprint (v : Z) (e : snoop) : snoop := mkSnoop (c_caplen e) (c_promisc e) (c_type e) (c_srcaddr e) (c_srcport e) (c_dstaddr e) (c_dstport e) (c_queue e) (c_ncap e) (c_nmatch e) (c_novrn e) v.

(** The globals of the network stack; [H] is the state of the device below it. *)
Record net (H : Type) := mkNet {
  netiftab : gmap Z netif;
  netpool : Z;
  rttab : gmap Z rtEntry;
  rtqueue : Z;
  arptab : gmap Z arpEntry;
  arpqueue : Z;
  echotab : gmap Z icmpEchoQueue;
  icmpqueue : Z;
  udptab : gmap Z udp;
  nextport : Z;
  rawtab : gmap Z raw;
  snooptab : gmap Z snoop;
  pkts : gmap Z packet;
  link : H;
  tcpst : tcps
}.
Arguments mkNet {H}.
Arguments netiftab {H}.
Arguments netpool {H}.
Arguments rttab {H}.
Arguments rtqueue {H}.
Arguments arptab {H}.
Arguments arpqueue {H}.
Arguments echotab {H}.
Arguments icmpqueue {H}.
Arguments udptab {H}.
Arguments nextport {H}.
Arguments rawtab {H}.
Arguments snooptab {H}.
Arguments pkts {H}.
Arguments link {H}.
Arguments tcpst {H}.

Section Globals.
Context {H : Type}.

Definition put_netiftab (v : gmap Z netif) (w : dst (net H)) : dst (net H) := let e := own w in set_own (mkNet v (netpool e) (rttab e) (rtqueue e) (arptab e) (arpqueue e) (echotab e) (icmpqueue e) (udptab e) (nextport e) (rawtab e) (snooptab e) (pkts e) (link e) (tcpst e)) w.
Definition put_netpool (v : Z) (w : dst (net H)) : dst (net H) := let e := own w in set_own (mkNet (netiftab e) v (rttab e) (rtqueue e) (arptab e) (arpqueue e) (echotab e) (icmpqueue e) (udptab e) (nextport e) (rawtab e) (snooptab e) (pkts e) (link e) (tcpst e)) w.
Definition put_rttab (v : gmap Z rtEntry) (w : dst (net H)) : dst (net H) := let e := own w in set_own (mkNet (netiftab e) (netpool e) v (rtqueue e) (arptab e) (arpqueue e) (echotab e) (icmpqueue e) (udptab e) (nextport e) (rawtab e) (snooptab e) (pkts e) (link e) (tcpst e)) w.
Definition put_rtqueue (v : Z) (w : dst (net H)) : dst (net H) := let e := own w in set_own (mkNet (netiftab e) (netpool e) (rttab e) v (arptab e) (arpqueue e) (echotab e) (icmpqueue e) (udptab e) (nextport e) (rawtab e) (snooptab e) (pkts e) (link e) (tcpst e)) w.
Definition put_arptab (v : gmap Z arpEntry) (w : dst (net H)) : dst (net H) := let e := own w in set_own (mkNet (netiftab e) (netpool e) (rttab e) (rtqueue e) v (arpqueue e) (echotab e) (icmpqueue e) (udptab e) (nextport e) (rawtab e) (snooptab e) (pkts e) (link e) (tcpst e)) w.
Definition put_arpqueue (v : Z) (w : dst (net H)) : dst (net H) := let e := own w in set_own (mkNet (netiftab e) (netpool e) (rttab e) (rtqueue e) (arptab e) v (echotab e) (icmpqueue e) (udptab e) (nextport e) (rawtab e) (snooptab e) (pkts e) (link e) (tcpst e)) w.
Definition put_echotab (v : gmap Z icmpEchoQueue) (w : dst (net H)) : dst (net H) := let e := own w in set_own (mkNet (netiftab e) (netpool e) (rttab e) (rtqueue e) (arptab e) (arpqueue e) v (icmpqueue e) (udptab e) (nextport e) (rawtab e) (snooptab e) (pkts e) (link e) (tcpst e)) w.
Definition put_icmpqueue (v : Z) (w : dst (net H)) : dst (net H) := let e := own w in set_own (mkNet (netiftab e) (netpool e) (rttab e) (rtqueue e) (arptab e) (arpqueue e) (echotab e) v (udptab e) (nextport e) (rawtab e) (snooptab e) (pkts e) (link e) (tcpst e)) w.
Definition put_udptab (v : gmap Z udp) (w : dst (net H)) : dst (net H) := let e := own w in set_own (mkNet (netiftab e) (netpool e) (rttab e) (rtqueue e) (arptab e) (arpqueue e) (echotab e) (icmpqueue e) v (nextport e) (rawtab e) (snooptab e) (pkts e) (link e) (tcpst e)) w.
Definition put_nextport (v : Z) (w : dst (net H)) : dst (net H) := let e := own w in set_own (mkNet (netiftab e) (netpool e) (rttab e) (rtqueue e) (arptab e) (arpqueue e) (echotab e) (icmpqueue e) (udptab e) v (rawtab e) (snooptab e) (pkts e) (link e) (tcpst e)) w.
Definition put_rawtab (v : gmap Z raw) (w : dst (net H)) : dst (net H) := let e := own w in set_own (mkNet (netiftab e) (netpool e) (rttab e) (rtqueue e) (arptab e) (arpqueue e) (echotab e) (icmpqueue e) (udptab e) (nextport e) v (snooptab e) (pkts e) (link e) (tcpst e)) w.
Definition put_snooptab (v : gmap Z snoop) (w : dst (net H)) : dst (net H) := let e := own w in set_own (mkNet (netiftab e) (netpool e) (rttab e) (rtqueue e) (arptab e) (arpqueue e) (echotab e) (icmpqueue e) (udptab e) (nextport e) (rawtab e) v (pkts e) (link e) (tcpst e)) w.
Definition put_pkts (v : gmap Z packet) (w : dst (net H)) : dst (net H) := let e := own w in set_own (mkNet (netiftab e) (netpool e) (rttab e) (rtqueue e) (arptab e) (arpqueue e) (echotab e) (icmpqueue e) (udptab e) (nextport e) (rawtab e) (snooptab e) v (link e) (tcpst e)) w.
Definition put_link (v : H) (w : dst (net H)) : dst (net H) := let e := own w in set_own (mkNet (netiftab e) (netpool e) (rttab e) (rtqueue e) (arptab e) (arpqueue e) (echotab e) (icmpqueue e) (udptab e) (nextport e) (rawtab e) (snooptab e) (pkts e) v (tcpst e)) w.
Definition put_tcpst (v : tcps) (w : dst (net H)) : dst (net H) := let e := own w in set_own (mkNet (netiftab e) (netpool e) (rttab e) (rtqueue e) (arptab e) (arpqueue e) (echotab e) (icmpqueue e) (udptab e) (nextport e) (rawtab e) (snooptab e) (pkts e) (link e) v) w.
End Globals.

(** ** Access *)

(** [data] is at offset 22 of [struct packet], whose size is 23. *)
Definition SIZEOF_PACKET : Z := 23.
Definition data_of (pkt : Z) : Z := pkt + 22.

(** Arrays in memory: [n] bytes read from [a], and [l] written to it. *)
Fixpoint rd_bytes (n : nat) (a : Z) : bprog (list Z) :=
  match n with
  | O => mret []
  | S n => c ← ldb a; l ← rd_bytes n (a + 1); mret (c :: l)
  end.
Fixpoint wr_bytes (a : Z) (l : list Z) : bprog unit :=
  match l with
  | [] => mret tt
  | c :: l => stb a c;; wr_bytes (a + 1) l
  end.

(** [memcpy] into and out of the array of a network address. *)
Definition into_addr (l l' : list Z) : list Z := l ++ drop (length l) l'.

Section Net.
Context {H : Type}.

Abbreviation nprog := (dprog (net H)).

Definition nif (i : Z) : nprog netif := load (fun w => netiftab (own w)) i.
Definition amend_nif (i : Z) (f : netif -> netif) : nprog unit := amend (fun w => netiftab (own w)) put_netiftab i f.
Definition pkt (p : Z) : nprog packet := load (fun w => pkts (own w)) p.
Definition amend_pkt (p : Z) (f : packet -> packet) : nprog unit := amend (fun w => pkts (own w)) put_pkts p f.
Definition rte (i : Z) : nprog rtEntry := load (fun w => rttab (own w)) i.
Definition amend_rte (i : Z) (f : rtEntry -> rtEntry) : nprog unit := amend (fun w => rttab (own w)) put_rttab i f.
Definition arpe (i : Z) : nprog arpEntry := load (fun w => arptab (own w)) i.
Definition amend_arpe (i : Z) (f : arpEntry -> arpEntry) : nprog unit := amend (fun w => arptab (own w)) put_arptab i f.

(** [pkt->nif->...] *)
Definition pkt_nif (p : Z) : nprog netif :=
  e ← pkt p;
  match p_nif e with Some i => nif i | None => fault end.

(** ** Packet buffers *)

Definition zero_packet : packet := mkPacket None 0 0 0 0.

Definition netGetbuf : nprog Z :=
  pool ← gets (fun w => netpool (own w));
  p ← kcall (bufget pool);
  if SYSERR =? i32 p then mret (u32 SYSERR) else
  modify (fun w => put_pkts (<[p := zero_packet]> (pkts (own w))) w);;
  ucall (bzero (data_of p) (SIZEOF_PACKET + NET_MAX_PKTLEN - 22));;
  amend_pkt p (set_p_nif None);;
  amend_pkt p (set_p_len 0);;
  amend_pkt p (set_p_curr (data_of p + NET_MAX_PKTLEN));;
  mret p.

Definition netFreebuf (p : Z) : nprog Z := kcall (buffree p).

(** The interface on a device, or [None] for a null pointer. *)
Definition netLookup (devnum : Z) : nprog (option Z) :=
  r ← for_ (Z.to_nat NNETIF) 0 (fun i _ =>
    e ← nif i;
    if (NET_ALLOC =? n_state e) && (n_dev e =? devnum) then mret (inr i) else mret (inl tt)) tt;
  mret (match r with inr i => Some i | inl _ => None end).
End Net.

(** ** Loops over a table

    [map_first n f tab] is the table with [f] applied to the entries below [n]. *)

Fixpoint map_first {V} (n : nat) (f : V -> V) (tab : gmap Z V) : gmap Z V :=
  match n with
  | O => tab
  | S n => let tab := map_first n f tab in
           match tab !! Z.of_nat n with Some e => <[Z.of_nat n := f e]> tab | None => tab end
  end.

Lemma map_first_lookup {V} n (f : V -> V) tab i :
  map_first n f tab !! i = if decide (0 <= i < Z.of_nat n) then f <$> tab !! i else tab !! i.
Proof.
  induction n as [|n IH]; [by rewrite decide_False by lia |]. cbn [map_first].
  assert (Hn : map_first n f tab !! Z.of_nat n = tab !! Z.of_nat n).
  { clear IH. assert (Hgen : forall m, (m <= n)%nat -> map_first m f tab !! Z.of_nat n = tab !! Z.of_nat n).
    { induction m as [|m IHm]; intros Hm; [done |]. cbn [map_first]. rewrite <- IHm by lia.
      destruct (map_first m f tab !! Z.of_nat m); [| done]. by rewrite lookup_insert_ne by lia. }
    by apply Hgen. }
  destruct (Z.eq_dec i (Z.of_nat n)) as [->|Hne].
  - rewrite decide_True by lia. rewrite Hn. destruct (tab !! Z.of_nat n); cbn; [by rewrite lookup_insert_eq | done].
  - assert (Heq : map_first n f tab !! i = if decide (0 <= i < Z.of_nat (S n)) then f <$> tab !! i else tab !! i).
    { rewrite IH. destruct (decide (0 <= i < Z.of_nat n)), (decide (0 <= i < Z.of_nat (S n))); done || lia. }
    destruct (map_first n f tab !! Z.of_nat n); [by rewrite lookup_insert_ne | done].
Qed.

Lemma for_map {V T R} (tab : T -> gmap Z V) (put : gmap Z V -> T -> T) (f : V -> V) (body : Z -> unit -> prog T (unit + R)) n s :
  (forall t s, tab (put t s) = t) -> (forall t t' s, put t (put t' s) = put t s) -> (forall s, put (tab s) s = s) ->
  (forall j, (j < n)%nat -> is_Some (tab s !! Z.of_nat j)) ->
  (forall j e t, (j < n)%nat -> t !! Z.of_nat j = Some e -> tab s !! Z.of_nat j = Some e ->
     run (body (Z.of_nat j) tt) (put t s) = Done (inl tt) (put (<[Z.of_nat j := f e]> t) s)) ->
  run (for_ n 0 body tt) s = Done (inl tt) (put (map_first n f (tab s)) s).
Proof.
  intros Hget Hput Hid Hdom Hbody. rewrite <- (Hid s) at 1.
  apply (for_through body n 0 (fun _ => tt) (fun j => put (map_first j f (tab s)) s)).
  intros j Hj. destruct (Hdom j Hj) as [e He].
  assert (Hlook : map_first j f (tab s) !! Z.of_nat j = Some e) by (rewrite map_first_lookup, decide_False by lia; done).
  rewrite Z.add_0_l, (Hbody j e) by done. cbn [map_first]. by rewrite Hlook.
Qed.

(** The first of the entries below [n] with the highest rank, and that rank; none when
    all have rank zero. *)
Fixpoint best (rank : Z -> Z) (n : nat) : option Z * Z :=
  match n with
  | O => (None, 0)
  | S n => let st := best rank n in if st.2 <? rank (Z.of_nat n) then (Some (Z.of_nat n), rank (Z.of_nat n)) else st
  end.

Definition is_best (rank : Z -> Z) (n : Z) (r : option Z) : Prop :=
  match r with
  | None => forall i, 0 <= i < n -> rank i <= 0
  | Some k => 0 <= k < n /\ 0 < rank k /\ forall i, 0 <= i < n -> rank i <= rank k /\ (i < k -> rank i < rank k)
  end.

Lemma best_rank rank n : (best rank n).2 = match (best rank n).1 with Some k => rank k | None => 0 end.
Proof. induction n as [|n IH]; [done |]. cbn [best]. by destruct (_ <? _). Qed.

Lemma best_is_best rank n : is_best rank (Z.of_nat n) (best rank n).1.
Proof.
  induction n as [|n IH]; [cbn; lia |]. cbn [best]. pose proof (best_rank rank n) as Hr.
  unfold is_best in *. destruct (Z.ltb_spec (best rank n).2 (rank (Z.of_nat n))) as [Hlt | Hge]; cbn [fst].
  - destruct ((best rank n).1) as [k|]; split_and!; try lia.
    + intros i Hi. destruct (decide (i = Z.of_nat n)) as [-> | Hn]; [lia |].
      destruct IH as (_ & _ & H). specialize (H i ltac:(lia)). lia.
    + intros i Hi. destruct (decide (i = Z.of_nat n)) as [-> | Hn]; [lia |]. specialize (IH i ltac:(lia)). lia.
  - destruct ((best rank n).1) as [k|].
    + destruct IH as (Hk & Hp & H). split_and!; try lia. intros i Hi.
      destruct (decide (i = Z.of_nat n)) as [-> | Hn]; [lia |]. apply H. lia.
    + intros i Hi. destruct (decide (i = Z.of_nat n)) as [-> | Hn]; [lia |]. apply IH. lia.
Qed.

Lemma best_nonneg rank n : 0 <= (best rank n).2.
Proof. induction n as [|n IH]; [done |]. cbn [best]. destruct (Z.ltb_spec (best rank n).2 (rank (Z.of_nat n))); cbn; lia. Qed.

(** The comparisons of a rank. *)
Ltac ltb_case m :=
  match goal with |- context [m <? ?b] => destruct (Z.ltb_spec m b); try lia; cbn [andb snd Z.eqb Pos.eqb Z.ltb Z.compare Pos.compare Pos.compare_cont] end.

Section Net_facts.
Context {H : Type}.

Lemma run_nif i e (w : dst (net H)) : netiftab (own w) !! i = Some e -> run (nif i) w = Done e w.
Proof. apply (run_load (fun w : dst (net H) => netiftab (own w))). Qed.
Lemma run_amend_nif i f e (w : dst (net H)) : netiftab (own w) !! i = Some e ->
  run (amend_nif i f) w = Done tt (put_netiftab (<[i := f e]> (netiftab (own w))) w).
Proof. apply (run_amend (fun w : dst (net H) => netiftab (own w)) put_netiftab). Qed.

Lemma run_pkt i e (w : dst (net H)) : pkts (own w) !! i = Some e -> run (pkt i) w = Done e w.
Proof. apply (run_load (fun w : dst (net H) => pkts (own w))). Qed.
Lemma run_amend_pkt i f e (w : dst (net H)) : pkts (own w) !! i = Some e ->
  run (amend_pkt i f) w = Done tt (put_pkts (<[i := f e]> (pkts (own w))) w).
Proof. apply (run_amend (fun w : dst (net H) => pkts (own w)) put_pkts). Qed.

Lemma run_rte i e (w : dst (net H)) : rttab (own w) !! i = Some e -> run (rte i) w = Done e w.
Proof. apply (run_load (fun w : dst (net H) => rttab (own w))). Qed.
Lemma run_amend_rte i f e (w : dst (net H)) : rttab (own w) !! i = Some e ->
  run (amend_rte i f) w = Done tt (put_rttab (<[i := f e]> (rttab (own w))) w).
Proof. apply (run_amend (fun w : dst (net H) => rttab (own w)) put_rttab). Qed.

Lemma run_arpe i e (w : dst (net H)) : arptab (own w) !! i = Some e -> run (arpe i) w = Done e w.
Proof. apply (run_load (fun w : dst (net H) => arptab (own w))). Qed.
Lemma run_amend_arpe i f e (w : dst (net H)) : arptab (own w) !! i = Some e ->
  run (amend_arpe i f) w = Done tt (put_arptab (<[i := f e]> (arptab (own w))) w).
Proof. apply (run_amend (fun w : dst (net H) => arptab (own w)) put_arptab). Qed.
End Net_facts.

Lemma run_rd_bytes l : forall a (m : bytemem), bytes_at m a l -> run (rd_bytes (length l) a) m = Done l m.
Proof.
  induction l as [|c l IH]; intros a m Hl; [done |]. apply bytes_at_cons in Hl as [Hc Hl].
  cbn [rd_bytes length]. rewrite run_bind, (run_ldb _ c) by done. cbn [obind]. rewrite run_bind, IH by done. done.
Qed.

Lemma run_wr_bytes l : forall a (m : bytemem), Forall isbyte l -> mapped m a (Z.of_nat (length l)) ->
  run (wr_bytes a l) m = Done tt (poke a l m).
Proof.
  induction l as [|c l IH]; intros a m Hb Hm; [done |]. apply Forall_cons in Hb as [Hc Hb].
  cbn [wr_bytes poke length] in *. rewrite run_bind, run_stb by (replace a with (a + 0) by lia; apply Hm; lia). cbn [obind].
  rewrite u8_small by done. apply IH; [done |].
  apply (mapped_poke m a [c]). intros j Hj. replace (a + 1 + j) with (a + (1 + j)) by lia. apply Hm. lia.
Qed.

(** Evaluation of the accessors. *)
Ltac nsimpl := cbn [kern user own set_kern set_user set_own netiftab netpool rttab rtqueue arptab arpqueue echotab icmpqueue udptab nextport rawtab snooptab pkts link put_netiftab put_netpool put_rttab put_rtqueue put_arptab put_arpqueue put_echotab put_icmpqueue put_udptab put_nextport put_rawtab put_snooptab put_pkts put_link n_dev n_state n_mtu n_linkhdrlen n_ip n_mask n_gateway n_ipbrc n_hwaddr n_hwbrc n_recvthr n_nin n_nproc n_capture p_nif p_len p_linkhdr p_nethdr p_curr r_state r_masklen r_dst r_gateway r_mask r_nif a_state a_nif a_hwaddr a_praddr a_expires a_waiting a_count u_dev u_in u_inPool u_icount u_istart u_isem u_localpt u_remotept u_localip u_remoteip u_state u_flags w_dev w_state w_proto w_localip w_remoteip w_in w_src w_icount w_istart w_isema w_flags e_tid e_head e_tail e_pkts c_caplen c_promisc c_type c_srcaddr c_srcport c_dstaddr c_dstport c_queue c_ncap c_nmatch c_novrn c_nprint set_n_dev set_n_state set_n_mtu set_n_linkhdrlen set_n_ip set_n_mask set_n_gateway set_n_ipbrc set_n_hwaddr set_n_hwbrc set_n_recvthr set_n_nin set_n_nproc set_n_capture set_p_nif set_p_len set_p_linkhdr set_p_nethdr set_p_curr set_r_state set_r_masklen set_r_dst set_r_gateway set_r_mask set_r_nif set_a_state set_a_nif set_a_hwaddr set_a_praddr set_a_expires set_a_waiting set_a_count set_u_dev set_u_in set_u_inPool set_u_icount set_u_istart set_u_isem set_u_localpt set_u_remotept set_u_localip set_u_remoteip set_u_state set_u_flags set_w_dev set_w_state set_w_proto set_w_localip set_w_remoteip set_w_in set_w_src set_w_icount set_w_istart set_w_isema set_w_flags set_e_tid set_e_head set_e_tail set_e_pkts set_c_caplen set_c_promisc set_c_type set_c_srcaddr set_c_srcport set_c_dstaddr set_c_dstport set_c_queue set_c_ncap set_c_nmatch set_c_novrn set_c_nprint].
