(* ===== verification/Wire.v ===== *)
(** Headers in memory and frames on the wire: what the routines that build headers
    share.  [region] says what the bytes of a header are while the rest of the memory
    is untouched; [Wire] is the interface of the device below the stack. *)
From Stdlib Require Import ZArith Lia.
From stdpp Require Import sorting gmap functions list.
From S2P Require Import Prelude Kernel Queue QueueFacts Sched Semaphore Clock Message Memory Boot BufPool Bytes Device DevTab Chksum Netaddr Net.

(** ** A block that is being written *)

(** The bytes [l] are at [a]; elsewhere the memory is [m0]. *)
Definition region (m0 m : bytemem) (a : Z) (l : list Z) : Prop :=
  bytes_at m a l /\ forall x, x < a \/ a + Z.of_nat (length l) <= x -> m !! x = m0 !! x.

(** [l] with [l'] written over it from place [i] on. *)
Definition splice (i : nat) (l' l : list Z) : list Z := take i l ++ l' ++ drop (i + length l') l.

Lemma length_splice i l' l : (i + length l' <= length l)%nat -> length (splice i l' l) = length l.
Proof. intros H. unfold splice. rewrite !length_app, length_take, length_drop. lia. Qed.

Lemma region_poke m0 m a l i l' :
  region m0 m a l -> (i + length l' <= length l)%nat -> region m0 (poke (a + Z.of_nat i) l' m) a (splice i l' l).
Proof.
  intros [Hb Ho] Hi. split.
  - rewrite <- (take_drop i l) in Hb. apply bytes_at_app in Hb as [H1 H2].
    rewrite <- (take_drop (length l') (drop i l)) in H2. apply bytes_at_app in H2 as [_ H3].
    rewrite drop_drop, !length_take, ?length_drop in H3.
    apply bytes_at_app. split; [apply bytes_at_poke; [done | left; rewrite length_take; lia] |].
    apply bytes_at_app. rewrite length_take. replace (i `min` length l)%nat with i by lia. split; [apply poke_in |].
    apply bytes_at_poke; [| right; lia].
    replace (length l' `min` (length l - i))%nat with (length l') in H3 by lia.
    replace (i `min` length l)%nat with i in H3 by lia. done.
  - intros x Hx. rewrite length_splice in Hx by done. rewrite poke_out by lia. apply Ho. lia.
Qed.

Lemma region_start n : forall m a, mapped m a (Z.of_nat n) -> exists l, region m m a l /\ length l = n.
Proof.
  enough (H : forall m a, mapped m a (Z.of_nat n) -> exists l, bytes_at m a l /\ length l = n).
  { intros m a Hm. destruct (H m a Hm) as (l & Hl & El). exists l. by split_and!. }
  induction n as [|n IH]; intros m a Hm; [by exists [] |].
  destruct (Hm 0 ltac:(lia)) as [c Hc]. rewrite Z.add_0_r in Hc. destruct (IH m (a + 1)) as (l & Hl & El).
  { intros i Hi. replace (a + 1 + i) with (a + (1 + i)) by lia. apply Hm. lia. }
  exists (c :: l). split; [by apply bytes_at_cons | cbn; lia].
Qed.

Lemma region_mapped m0 m a l i n : region m0 m a l -> 0 <= i -> i + n <= Z.of_nat (length l) -> mapped m (a + i) n.
Proof.
  intros [H _] Hi Hn j Hj. replace (a + i + j) with (a + (i + j)) by lia. apply (bytes_mapped _ _ _ H). lia.
Qed.

Lemma poke_pair a x y m : poke a [x; y] m = <[a + 1 := y]> (<[a := x]> m).
Proof. done. Qed.

Section Steps.
Context {D : Type} (w : dst D) (m0 : bytemem) (a : Z) (l : list Z).
Hypothesis HR : region m0 (user w) a l.

Lemma region_stb i b v : b = a + i -> 0 <= i < Z.of_nat (length l) ->
  exists m', run (ucall (D:=D) (stb b v)) w = Done tt (mkDst (kern w) m' (own w)) /\
    region m0 m' a (splice (Z.to_nat i) [u8 v] l).
Proof.
  intros -> Hi. exists (poke (a + Z.of_nat (Z.to_nat i)) [u8 v] (user w)). split.
  - apply run_ucall. rewrite Z2Nat.id by lia. apply run_stb. replace (a + i) with (a + i + 0) by lia.
    apply (region_mapped _ _ _ _ i 1 HR); lia.
  - apply region_poke; [done |]. cbn. lia.
Qed.

Lemma region_sth i b v : b = a + i -> 0 <= i -> i + 1 < Z.of_nat (length l) ->
  exists m', run (ucall (D:=D) (sth b v)) w = Done tt (mkDst (kern w) m' (own w)) /\
    region m0 m' a (splice (Z.to_nat i) [u8 v; u8 (Z.shiftr v 8)] l).
Proof.
  intros -> Hi Hi'. exists (poke (a + Z.of_nat (Z.to_nat i)) [u8 v; u8 (Z.shiftr v 8)] (user w)). split.
  - apply run_ucall. rewrite Z2Nat.id by lia. unfold sth. pose proof (region_mapped _ _ _ _ i 2 HR ltac:(lia) ltac:(lia)) as Hm.
    rewrite run_bind, run_stb by (replace (a + i) with (a + i + 0) by lia; apply Hm; lia). cbn [obind].
    rewrite run_stb; [done |]. apply lookup_insert_is_Some. right. split; [lia |]. apply Hm. lia.
  - apply region_poke; [done |]. cbn. lia.
Qed.

Lemma region_wr i b l' : b = a + i -> 0 <= i -> i + Z.of_nat (length l') <= Z.of_nat (length l) -> Forall isbyte l' ->
  exists m', run (ucall (D:=D) (wr_bytes b l')) w = Done tt (mkDst (kern w) m' (own w)) /\
    region m0 m' a (splice (Z.to_nat i) l' l).
Proof.
  intros -> Hi Hi' Hb. exists (poke (a + Z.of_nat (Z.to_nat i)) l' (user w)). split.
  - apply run_ucall. rewrite Z2Nat.id by lia. apply run_wr_bytes; [done |]. by apply (region_mapped _ _ _ _ i _ HR).
  - apply region_poke; [done |]. lia.
Qed.

Lemma region_byte i b c : b = a + i -> l !! Z.to_nat i = Some c -> 0 <= i -> user w !! b = Some c.
Proof. intros -> Hl Hi. destruct HR as [H _]. apply H in Hl. by rewrite Z2Nat.id in Hl. Qed.

Lemma region_ldb i b c : b = a + i -> l !! Z.to_nat i = Some c -> 0 <= i -> run (ucall (D:=D) (ldb b)) w = Done c w.
Proof. intros Hb Hl Hi. rewrite (run_ucall _ _ c (user w)) by (apply run_ldb; by apply (region_byte i)). by rewrite dst_eta. Qed.

Lemma region_ldh i b lo hi : b = a + i -> l !! Z.to_nat i = Some lo -> l !! Z.to_nat (i + 1) = Some hi -> 0 <= i ->
  run (ucall (D:=D) (ldh b)) w = Done (lo + 256 * hi) w.
Proof.
  intros Hb Hl Hh Hi. rewrite (run_ucall _ _ (lo + 256 * hi) (user w)); [by rewrite dst_eta |].
  apply run_ldh; [by apply (region_byte i) |]. apply (region_byte (i + 1)); done || lia.
Qed.

Lemma region_chksum n : (n <= length l)%nat -> Forall isbyte (take n l) -> Z.of_nat n < 2 ^ 17 ->
  run (ucall (D:=D) (netChksum a (Z.of_nat n))) w = Done (65535 - oc (wsum (take n l))) w.
Proof.
  intros Hn Hb Hlt. rewrite (run_ucall _ _ (65535 - oc (wsum (take n l))) (user w)); [by rewrite dst_eta |].
  pose proof (run_netChksum (user w) (take n l) a) as H. rewrite length_take in H. replace (n `min` length l)%nat with n in H by lia.
  apply H; [| done | done]. apply bytes_at_take, HR.
Qed.
End Steps.

(** The bytes of a half word in network order. *)
Lemma hs2net_bytes v : 0 <= v < 65536 -> u8 (hs2net v) = v / 256 /\ u8 (Z.shiftr (hs2net v) 8) = v mod 256.
Proof.
  intros Hv. replace v with (v mod 256 + 256 * (v / 256)) at 1 3 by lia.
  rewrite hs2net_swap by (unfold isbyte; lia). rewrite Z.shiftr_div_pow2 by lia. change (2 ^ 8) with 256. unfold u8. change (2 ^ 8) with 256. lia.
Qed.

(** A list of known length, element by element; what stores leave of it. *)
Ltac explode_list l H :=
  let c := fresh "c" in
  destruct l as [|c l]; [cbn [length] in H; (discriminate H || clear H)
                        | cbn [length] in H; first [discriminate H | apply eq_add_S in H; explode_list l H]].
Ltac rsimpl R :=
  unfold splice in R;
  repeat match type of R with
         | context [Z.to_nat ?z] => let n := eval vm_compute in (Z.to_nat z) in change (Z.to_nat z) with n in R
         end;
  cbn [take drop app length Nat.add] in R.

(** One store into the block, at the place [i]; one load from it. *)
Ltac discharge X := repeat match type of X with ?P -> _ => specialize (X ltac:(cbn [length]; first [lia | done])) end.
Tactic Notation "hstore" constr(lem) constr(i) :=
  match goal with
  | R : region _ ?m _ _ |- context [run (ucall (?f ?b ?v)) (mkDst ?k ?m ?o)] =>
      let X := fresh "X" in let m' := fresh "m" in let E := fresh "E" in let R' := fresh "R" in
      pose proof (lem _ (mkDst k m o) _ _ _ R i b v) as X; discharge X; destruct X as (m' & E & R');
      rewrite E; clear E R; cbn [obind kern own user] in R' |- *; rename R' into R; rsimpl R
  end.
Tactic Notation "hload" constr(lem) constr(i) :=
  match goal with
  | R : region _ ?m _ _ |- context [run (ucall (?f ?b)) (mkDst ?k ?m ?o)] =>
      rewrite (lem _ (mkDst k m o) _ _ _ R i b _ ltac:(lia) eq_refl ltac:(lia)); cbn [obind]
  end.

(** ** The device below the stack

    A frame that is written goes out as it is, and nothing changes but the state of
    the device; [sent] is what has gone out on it. *)
Class Wire {H : Type} (devtab : gmap Z (device (net H))) (d : Z) (sent : H -> list (list Z)) := {
  wire_write : forall (w : dst (net H)) buf l, bytes_at (user w) buf l -> l <> [] ->
    exists h, run (write devtab d buf (Z.of_nat (length l))) w = Done (Z.of_nat (length l)) (put_link h w) /\
      sent h = sent (link (own w)) ++ [l];
}.

(** A device that keeps the frames in a list. *)
Definition list_write (_ buf len : Z) : dprog (net (list (list Z))) Z :=
  l ← ucall (rd_bytes (Z.to_nat len) buf);
  modify (fun w => put_link (link (own w) ++ [l]) w);;
  mret len.
Definition list_device (d : Z) : device (net (list (list Z))) :=
  mkDevice d 0 0 None None None None (Some list_write) None None None None 0 0 0.

#[export] Instance list_wire d : 0 <= d < NDEVS -> Wire (<[d := list_device d]> ∅) d id.
Proof.
  intros Hd. split. intros w buf l Hl Hne. exists (link (own w) ++ [l]). split; [| done].
  unfold write, isbaddev, dev. rewrite (proj2 (Z.leb_le 0 d)), (proj2 (Z.ltb_lt d NDEVS)) by lia. cbn [andb negb].
  rewrite run_bind, lookup_insert_eq, run_ret. cbn [obind list_device d_write d_minor]. unfold list_write. rewrite run_bind, Nat2Z.id.
  rewrite (run_ucall _ _ l (user w)) by by apply run_rd_bytes. cbn [obind]. rewrite dst_eta. by autorewrite with prun.
Qed.
