(* ===== verification/Snoop.v ===== *)
(** Capturing packets: network/snoop/snoopFilter.c, snoopCapture.c, snoopOpen.c,
    snoopClose.c and snoopRead.c.  A capture queues copies of the packets that pass
    its filter. *)
From Stdlib Require Import ZArith Lia.
From stdpp Require Import sorting gmap functions list.
From S2P Require Import Prelude Kernel Queue QueueFacts Sched Semaphore Clock Message Memory Boot Mailbox BufPool Bytes Device DevTab Chksum Netaddr Net.

(** ** Constants: include/snoop.h, include/ipv4.h, include/arp.h *)

Definition SNOOP_FILTER_ARP : Z := 1.
Definition SNOOP_FILTER_IPv4 : Z := 2.
Definition SNOOP_FILTER_UDP : Z := 3.
Definition SNOOP_FILTER_TCP : Z := 4.
Definition SNOOP_FILTER_ICMP : Z := 5.
Definition SNOOP_QLEN : Z := 100.
Definition IPv4_HDR_LEN : Z := 20.
Definition IPv4_PROTO_ICMP : Z := 1.
Definition IPv4_PROTO_TCP : Z := 6.
Definition IPv4_PROTO_UDP : Z := 17.
Definition ARP_CONST_HDR_LEN : Z := 8.

(** Offsets of the fields of [struct etherPkt], [struct ipv4Pkt] and [struct arpPkt]. *)
Definition ETHER_TYPE : Z := 12.
Definition ETHER_DATA : Z := 14.
Definition IP_LEN : Z := 2.
Definition IP_ID : Z := 4.
Definition IP_FROFF : Z := 6.
Definition IP_TTL : Z := 8.
Definition IP_PROTO : Z := 9.
Definition IP_CHKSUM : Z := 10.
Definition IP_SRC : Z := 12.
Definition IP_DST : Z := 16.
Definition IP_OPTS : Z := 20.
Definition ARP_PRTYPE : Z := 2.
Definition ARP_HWALEN : Z := 4.
Definition ARP_PRALEN : Z := 5.
Definition ARP_OP : Z := 6.
Definition ARP_ADDRS : Z := 8.

(** The offsets of the four addresses of an ARP packet, which depend on the lengths. *)
Definition ARP_ADDR_SHA : Z := 0.
Definition ARP_ADDR_SPA (hwalen pralen : Z) : Z := hwalen.
Definition ARP_ADDR_DHA (hwalen pralen : Z) : Z := hwalen + pralen.
Definition ARP_ADDR_DPA (hwalen pralen : Z) : Z := 2 * hwalen + pralen.

Section Snoop.
Context {H : Type} (devtab : gmap Z (device (net H))).

Abbreviation nprog := (dprog (net H)).

Definition cap (i : Z) : nprog snoop := load (fun w => snooptab (own w)) i.
Definition amend_cap (i : Z) (f : snoop -> snoop) : nprog unit := amend (fun w => snooptab (own w)) put_snooptab i f.

(** ** The filter *)

(** The header behind the Ethernet header, or [None] when the packet cannot be
    filtered: [inl arp] or [inr ip]. *)
Definition snoop_header (e : packet) : nprog (option (Z + Z)) :=
  if p_len e <? ETH_HDR_LEN then mret None else
  ty ← ucall (ldh (p_curr e + ETHER_TYPE));
  let hdr := p_curr e + ETHER_DATA in
  if net2hs ty =? ETHER_TYPE_ARP then
    if p_len e <? ETH_HDR_LEN + ARP_CONST_HDR_LEN then mret None else
    hwalen ← ucall (ldb (hdr + ARP_HWALEN));
    pralen ← ucall (ldb (hdr + ARP_PRALEN));
    if p_len e <? ETH_HDR_LEN + ARP_CONST_HDR_LEN + 2 * hwalen + 2 * pralen then mret None else
    mret (Some (inl hdr))
  else if net2hs ty =? ETHER_TYPE_IPv4 then
    if p_len e <? ETH_HDR_LEN + IPv4_HDR_LEN then mret None else mret (Some (inr hdr))
  else mret None.

(** The test on the type; [FALSE] when it fails. *)
Definition type_matches (s : snoop) (h : Z + Z) : nprog bool :=
  if c_type s =? 0 then mret true else
  match h with
  | inl _ => mret (c_type s =? SNOOP_FILTER_ARP)
  | inr ip =>
      if c_type s =? SNOOP_FILTER_IPv4 then mret true else
      proto ← ucall (ldb (ip + IP_PROTO));
      mret (if proto =? IPv4_PROTO_UDP then c_type s =? SNOOP_FILTER_UDP
            else if proto =? IPv4_PROTO_TCP then c_type s =? SNOOP_FILTER_TCP
            else if proto =? IPv4_PROTO_ICMP then c_type s =? SNOOP_FILTER_ICMP
            else false)
  end.

(** The test on an address, at the offset [spa] of the addresses of an ARP packet or
    [off] of an IP header. *)
Definition addr_matches (a : netaddr) (spa : Z -> Z -> Z) (off : Z) (h : Z + Z) : nprog bool :=
  if na_type a =? 0 then mret true else
  match h with
  | inl arp =>
      hwalen ← ucall (ldb (arp + ARP_HWALEN));
      pralen ← ucall (ldb (arp + ARP_PRALEN));
      if negb (na_len a =? pralen) then mret false else
      l ← ucall (rd_bytes (Z.to_nat pralen) (arp + ARP_ADDRS + spa hwalen pralen));
      l' ← first_bytes pralen (na_addr a);
      mret (bool_decide (l = l'))
  | inr ip =>
      if negb (na_len a =? IPv4_ADDR_LEN) then mret false else
      l ← ucall (rd_bytes (Z.to_nat IPv4_ADDR_LEN) (ip + off));
      l' ← first_bytes IPv4_ADDR_LEN (na_addr a);
      mret (bool_decide (l = l'))
  end.

(** No port matches: the switch on the protocol has only its default. *)
Definition snoopFilter (cap_ pkt_ : Z) : nprog bool :=
  s ← cap cap_;
  if (c_type s =? 0) && (na_type (c_srcaddr s) =? 0) && (c_srcport s =? 0) &&
     (na_type (c_dstaddr s) =? 0) && (c_dstport s =? 0) then mret true else
  e ← pkt pkt_;
  h ← snoop_header e;
  match h with
  | None => mret false
  | Some h =>
      ty ← type_matches s h;
      if negb ty then mret false else
      src ← addr_matches (c_srcaddr s) ARP_ADDR_SPA IP_SRC h;
      if negb src then mret false else
      dst ← addr_matches (c_dstaddr s) ARP_ADDR_DPA IP_DST h;
      if negb dst then mret false else
      mret ((c_srcport s =? 0) && (c_dstport s =? 0))
  end.

(** ** Capturing *)

(** A null capture is [None], a null packet address 0. *)
Definition snoopCapture (cap_ : option Z) (pkt_ : Z) : nprog Z :=
  match cap_ with
  | None => mret SYSERR
  | Some cap_ =>
      if NULL =? pkt_ then mret SYSERR else
      amend_cap cap_ (fun c => set_c_ncap (u32 (c_ncap c + 1)) c);;
      m ← snoopFilter cap_ pkt_;
      if negb m then mret OK else
      amend_cap cap_ (fun c => set_c_nmatch (u32 (c_nmatch c + 1)) c);;
      buf ← netGetbuf;
      if SYSERR =? i32 buf then mret SYSERR else
      e ← pkt pkt_;
      amend_pkt buf (fun _ => e);;
      ucall (memcpy (data_of buf) (data_of pkt_) 1);;
      c ← cap cap_;
      let len := if p_len e >? c_caplen c then c_caplen c else p_len e in
      ucall (memcpy (data_of buf) (p_curr e) len);;
      amend_pkt buf (set_p_curr (data_of buf));;
      n ← kcall (mailboxCount (c_queue c));
      if SNOOP_QLEN <=? n then
        netFreebuf buf;;
        amend_cap cap_ (fun c => set_c_novrn (u32 (c_novrn c + 1)) c);;
        mret SYSERR
      else
      r ← kcall (mailboxSend (c_queue c) (i32 buf));
      if SYSERR =? r then netFreebuf buf;; mret SYSERR
      else mret OK
  end.

(** [capture = cap] on the interfaces that [which] selects; the value is how many. *)
Definition attach_body (cap_ : Z) (i count : Z) : nprog (Z + unit) :=
  e ← nif i;
  if NET_ALLOC =? n_state e then
    amend_nif i (set_n_capture (Some cap_));;
    mret (inl (count + 1))
  else mret (inl count).
Definition attach_dev_body (cap_ devnum i : Z) (_ : unit) : nprog (unit + unit) :=
  e ← nif i;
  if (NET_ALLOC =? n_state e) && (n_dev e =? devnum) then
    amend_nif i (set_n_capture (Some cap_));;
    mret (inr tt)
  else mret (inl tt).

(** [ALL] is the address of that string. *)
Definition snoopOpen (ALL : Z) (cap_ : option Z) (devname : Z) : nprog Z :=
  match cap_ with
  | None => mret SYSERR
  | Some cap_ =>
      if NULL =? devname then mret SYSERR else
      amend_cap cap_ (set_c_ncap 0);;
      amend_cap cap_ (set_c_nmatch 0);;
      amend_cap cap_ (set_c_novrn 0);;
      queue ← kcall (mailboxAlloc SNOOP_QLEN);
      amend_cap cap_ (set_c_queue queue);;
      if SYSERR =? queue then mret SYSERR else
      all ← ucall (strcmp devname ALL);
      if 0 =? all then
        kcall ENTER_KERNEL_CRITICAL_SECTION;;
        r ← for_ (Z.to_nat NNETIF) 0 (attach_body cap_) 0;
        kcall EXIT_KERNEL_CRITICAL_SECTION;;
        match r with
        | inl count => if 0 =? count then kcall (mailboxFree queue);; mret SYSERR else mret OK
        | inr _ => fault
        end
      else
        devnum ← getdev devtab devname;
        if SYSERR =? devnum then kcall (mailboxFree queue);; mret SYSERR else
        kcall ENTER_KERNEL_CRITICAL_SECTION;;
        r ← for_ (Z.to_nat NNETIF) 0 (attach_dev_body cap_ devnum) tt;
        kcall EXIT_KERNEL_CRITICAL_SECTION;;
        match r with
        | inr _ => mret OK
        | inl _ => kcall (mailboxFree queue);; mret SYSERR
        end
  end.

Definition detach_body (cap_ i : Z) (_ : unit) : nprog (unit + unit) :=
  e ← nif i;
  (if bool_decide (n_capture e = Some cap_) then amend_nif i (set_n_capture None) else mret tt);;
  mret (inl tt).

(** The loop that frees what is queued, at most [fuel] packets; it returns whether a
    buffer could not be freed. *)
Fixpoint drain (fuel : nat) (queue : Z) : nprog bool :=
  match fuel with
  | O => diverge
  | S fuel =>
      n ← kcall (mailboxCount queue);
      if n >? 0 then
        p ← kcall (mailboxReceive queue);
        r ← netFreebuf (u32 p);
        if SYSERR =? r then mret true else drain fuel queue
      else mret false
  end.

Definition snoopClose (fuel : nat) (cap_ : option Z) : nprog Z :=
  match cap_ with
  | None => mret SYSERR
  | Some cap_ =>
      kcall ENTER_KERNEL_CRITICAL_SECTION;;
      for_ (Z.to_nat NNETIF) 0 (detach_body cap_) tt;;
      kcall EXIT_KERNEL_CRITICAL_SECTION;;
      c ← cap cap_;
      failed ← drain fuel (c_queue c);
      if (failed : bool) then mret SYSERR else
      r ← kcall (mailboxFree (c_queue c));
      if SYSERR =? r then mret SYSERR else mret OK
  end.

Definition snoopRead (cap_ : option Z) : nprog Z :=
  match cap_ with
  | None => mret (u32 SYSERR)
  | Some cap_ =>
      c ← cap cap_;
      p ← kcall (mailboxReceive (c_queue c));
      if (SYSERR =? p) || (NULL =? p) then mret (u32 SYSERR) else mret (u32 p)
  end.
End Snoop.

(** ** What the filter accepts

    A specification on the bytes [l] of the frame. *)

Definition octet (l : list Z) (i : nat) : Z := default 0 (l !! i).
Definition field (l : list Z) (i n : Z) : list Z := take (Z.to_nat n) (drop (Z.to_nat i) l).
Definition frame_type (l : list Z) : Z := octet l 13 + 256 * octet l 12.

Definition unfiltered (s : snoop) : bool :=
  (c_type s =? 0) && (na_type (c_srcaddr s) =? 0) && (c_srcport s =? 0) && (na_type (c_dstaddr s) =? 0) && (c_dstport s =? 0).

Definition addr_accepted (a : netaddr) (f : list Z) : bool :=
  (na_type a =? 0) || bool_decide (na_len a = Z.of_nat (length f) /\ abytes a = f).

Definition proto_filter (proto : Z) : Z :=
  if proto =? IPv4_PROTO_UDP then SNOOP_FILTER_UDP
  else if proto =? IPv4_PROTO_TCP then SNOOP_FILTER_TCP
  else if proto =? IPv4_PROTO_ICMP then SNOOP_FILTER_ICMP else 0.

Definition accepted (s : snoop) (l : list Z) : bool :=
  let n := Z.of_nat (length l) in
  let hw := octet l 18 in
  let pr := octet l 19 in
  unfiltered s ||
  ((c_srcport s =? 0) && (c_dstport s =? 0) &&
   if (22 <=? n) && (frame_type l =? ETHER_TYPE_ARP) && (22 + 2 * hw + 2 * pr <=? n) then
     ((c_type s =? 0) || (c_type s =? SNOOP_FILTER_ARP)) &&
     addr_accepted (c_srcaddr s) (field l (22 + hw) pr) && addr_accepted (c_dstaddr s) (field l (22 + 2 * hw + pr) pr)
   else if (34 <=? n) && (frame_type l =? ETHER_TYPE_IPv4) then
     ((c_type s =? 0) || (c_type s =? SNOOP_FILTER_IPv4) || (c_type s =? proto_filter (octet l 23))) &&
     addr_accepted (c_srcaddr s) (field l 26 4) && addr_accepted (c_dstaddr s) (field l 30 4)
   else false).

Section Filter.
Context {H : Type} (w : dst (net H)) (s : snoop) (e : packet) (l : list Z).
Hypothesis Hl : bytes_at (user w) (p_curr e) l.
Hypothesis Hb : Forall isbyte l.
Hypothesis Hlen : Z.of_nat (length l) = p_len e.
Hypothesis Hsrc : addr_ok (c_srcaddr s).
Hypothesis Hdst : addr_ok (c_dstaddr s).

Lemma octet_at i : (i < length l)%nat -> user w !! (p_curr e + Z.of_nat i) = Some (octet l i) /\ isbyte (octet l i).
Proof.
  intros Hi. apply lookup_lt_is_Some_2 in Hi as [c Hc]. unfold octet. rewrite Hc. cbn.
  split; [by apply Hl | by apply (Forall_lookup_1 _ _ _ _ Hb Hc)].
Qed.

Lemma run_octet i a : a = p_curr e + Z.of_nat i -> (i < length l)%nat -> run (ucall (D:=net H) (ldb a)) w = Done (octet l i) w.
Proof.
  intros -> Hi. rewrite (run_ucall _ _ (octet l i) (user w)); [by rewrite dst_eta |]. apply run_ldb. by apply octet_at.
Qed.

Lemma run_field i n a : a = p_curr e + i -> 0 <= i -> 0 <= n -> i + n <= Z.of_nat (length l) ->
  run (ucall (D:=net H) (rd_bytes (Z.to_nat n) a)) w = Done (field l i n) w.
Proof.
  intros -> Hi Hn Hin. rewrite (run_ucall _ _ (field l i n) (user w)); [by rewrite dst_eta |].
  assert (El : Z.to_nat n = length (field l i n)) by (unfold field; rewrite length_take, length_drop; lia).
  rewrite El at 1. apply run_rd_bytes. intros j c Hj. unfold field in Hj. apply lookup_take_Some in Hj as [Hj _].
  rewrite lookup_drop in Hj. replace (p_curr e + i + Z.of_nat j) with (p_curr e + Z.of_nat (Z.to_nat i + j)) by lia. by apply Hl.
Qed.

Lemma run_frame_type : (14 <= length l)%nat ->
  run (ucall (D:=net H) (ldh (p_curr e + ETHER_TYPE))) w = Done (octet l 12 + 256 * octet l 13) w /\
  net2hs (octet l 12 + 256 * octet l 13) = frame_type l.
Proof.
  intros Hn. destruct (octet_at 12 ltac:(lia)) as [H12 B12]. destruct (octet_at 13 ltac:(lia)) as [H13 B13].
  split; [| by apply hs2net_swap]. rewrite (run_ucall _ _ (octet l 12 + 256 * octet l 13) (user w)); [by rewrite dst_eta |].
  apply run_ldh; [exact H12 |]. unfold ETHER_TYPE. by replace (p_curr e + 12 + 1) with (p_curr e + Z.of_nat 13) by lia.
Qed.

(** The comparison of an address with bytes of the packet. *)
Lemma accepted_len a f n : addr_ok a -> Z.of_nat (length f) = n -> na_type a <> 0 ->
  addr_accepted a f = if na_len a =? n then bool_decide (f = take (Z.to_nat n) (na_addr a)) else false.
Proof.
  intros Ha Hf Ht. unfold addr_accepted. rewrite (proj2 (Z.eqb_neq _ _)) by done. cbn [orb].
  destruct (Z.eqb_spec (na_len a) n) as [E|E].
  - apply bool_decide_ext. unfold abytes. rewrite E, Hf. split; [by intros [_ <-] | done].
  - apply bool_decide_eq_false. intros [E' _]. lia.
Qed.

Lemma length_field i n : 0 <= i -> 0 <= n -> i + n <= Z.of_nat (length l) -> Z.of_nat (length (field l i n)) = n.
Proof. intros. unfold field. rewrite length_take, length_drop. lia. Qed.

Lemma run_ip_addr a off i : addr_ok a -> (34 <= length l)%nat -> p_curr e + ETHER_DATA + off = p_curr e + i -> 0 <= i <= 30 ->
  run (addr_matches a ARP_ADDR_SPA off (inr (p_curr e + ETHER_DATA)) : dprog (net H) bool) w = Done (addr_accepted a (field l i 4)) w.
Proof.
  intros Ha Hn Eoff Hi. unfold addr_matches. destruct (Z.eqb_spec (na_type a) 0) as [Et|Et].
  { unfold addr_accepted. by rewrite Et. }
  rewrite (accepted_len a (field l i 4) 4) by (done || (apply length_field; lia)). unfold IPv4_ADDR_LEN.
  destruct (Z.eqb_spec (na_len a) 4) as [E4|]; cbn [negb]; [| done].
  rewrite run_bind, (run_field i 4) by (done || lia). cbn [obind].
  rewrite run_bind, run_first_bytes by (destruct Ha as [_ -> _]; lia). done.
Qed.

Lemma run_arp_addr a spa i : addr_ok a -> (22 <= length l)%nat ->
  i = 22 + spa (octet l 18) (octet l 19) -> 22 <= i -> i + octet l 19 <= Z.of_nat (length l) ->
  forall off, run (addr_matches a spa off (inl (p_curr e + ETHER_DATA)) : dprog (net H) bool) w = Done (addr_accepted a (field l i (octet l 19))) w.
Proof.
  intros Ha Hn Ei Hi Hin off. destruct (octet_at 18 ltac:(lia)) as [_ B18]. destruct (octet_at 19 ltac:(lia)) as [_ B19]. unfold isbyte in *.
  unfold addr_matches. destruct (Z.eqb_spec (na_type a) 0) as [Et|Et].
  { unfold addr_accepted. by rewrite Et. }
  unfold ETHER_DATA, ARP_HWALEN, ARP_PRALEN, ARP_ADDRS.
  rewrite run_bind, (run_octet 18) by lia. cbn [obind]. rewrite run_bind, (run_octet 19) by lia. cbn [obind].
  rewrite (accepted_len a (field l i (octet l 19)) (octet l 19)) by (done || (apply length_field; lia)).
  destruct (Z.eqb_spec (na_len a) (octet l 19)) as [E4|]; cbn [negb]; [| done].
  rewrite run_bind, (run_field i (octet l 19)) by lia. cbn [obind].
  rewrite run_bind, run_first_bytes by (destruct Ha as [Hal -> _]; unfold NET_MAX_ALEN in *; lia). done.
Qed.

(** What is left of the filter once the header is known. *)
Lemma run_header :
  run (snoop_header e : dprog (net H) _) w =
  Done (if (22 <=? Z.of_nat (length l)) && (frame_type l =? ETHER_TYPE_ARP) && (22 + 2 * octet l 18 + 2 * octet l 19 <=? Z.of_nat (length l))
        then Some (inl (p_curr e + ETHER_DATA))
        else if (34 <=? Z.of_nat (length l)) && (frame_type l =? ETHER_TYPE_IPv4) then Some (inr (p_curr e + ETHER_DATA)) else None) w.
Proof.
  unfold snoop_header, ETH_HDR_LEN, ARP_CONST_HDR_LEN, IPv4_HDR_LEN. rewrite <- Hlen. change (14 + 8) with 22. change (14 + 20) with 34.
  destruct (Z.ltb_spec (Z.of_nat (length l)) 14) as [Hs|Hs].
  { by rewrite (proj2 (Z.leb_gt 22 _)), (proj2 (Z.leb_gt 34 _)) by lia. }
  destruct (run_frame_type ltac:(lia)) as [Ht Et]. rewrite run_bind, Ht. cbn [obind]. rewrite Et.
  destruct (Z.eqb_spec (frame_type l) ETHER_TYPE_ARP) as [Ea|Ea].
  - rewrite (proj2 (Z.eqb_neq (frame_type l) ETHER_TYPE_IPv4)) by (rewrite Ea; done). rewrite andb_false_r, andb_true_r.
    destruct (Z.ltb_spec (Z.of_nat (length l)) 22) as [H22|H22]; [by rewrite (proj2 (Z.leb_gt 22 _)) by lia |].
    rewrite (proj2 (Z.leb_le 22 _)) by lia. cbn [andb]. unfold ETHER_DATA, ARP_HWALEN, ARP_PRALEN.
    rewrite run_bind, (run_octet 18) by lia. cbn [obind]. rewrite run_bind, (run_octet 19) by lia. cbn [obind].
    rewrite Z.ltb_antisym. by destruct (_ <=? _).
  - rewrite andb_false_r. cbn [andb]. destruct (Z.eqb_spec (frame_type l) ETHER_TYPE_IPv4) as [Ei|Ei]; [| by rewrite andb_false_r].
    rewrite andb_true_r, Z.ltb_antisym. by destruct (34 <=? _).
Qed.

Lemma run_type_matches h ok : (forall ip, h = inr ip -> ip = p_curr e + ETHER_DATA /\ (34 <= length l)%nat) ->
  ok = match h with inl _ => (c_type s =? 0) || (c_type s =? SNOOP_FILTER_ARP)
       | inr _ => (c_type s =? 0) || (c_type s =? SNOOP_FILTER_IPv4) || (c_type s =? proto_filter (octet l 23)) end ->
  run (type_matches s h : dprog (net H) bool) w = Done ok w.
Proof.
  intros Hip ->. unfold type_matches. destruct (Z.eqb_spec (c_type s) 0) as [E0|E0]; [by destruct h |].
  destruct h as [arp | ip]; [done |]. destruct (Hip ip eq_refl) as [-> Hn]. cbn [orb].
  destruct (Z.eqb_spec (c_type s) SNOOP_FILTER_IPv4); [done |]. cbn [orb].
  rewrite run_bind, (run_octet 23) by (unfold ETHER_DATA, IP_PROTO; lia). cbn [obind]. rewrite run_ret. unfold proto_filter.
  destruct (octet l 23 =? IPv4_PROTO_UDP); [done |]. destruct (octet l 23 =? IPv4_PROTO_TCP); [done |].
  destruct (octet l 23 =? IPv4_PROTO_ICMP); [done |]. by rewrite (proj2 (Z.eqb_neq _ _)) by done.
Qed.

(** C25: The capture filter decides as specified from the bytes of the frame, whatever
    they are: it never reads outside of the packet, even when the lengths in the
    frame are wrong, and changes nothing. *)
Theorem snoopFilter_safe c p :
  snooptab (own w) !! c = Some s -> pkts (own w) !! p = Some e ->
  run (snoopFilter c p) w = Done (accepted s l) w.
Proof.
  intros Hc Hp. unfold snoopFilter, accepted. rewrite run_bind.
  rewrite (run_load (fun w : Device.dst (net H) => snooptab (own w)) c s w Hc : run (cap c) w = Done s w). cbn [obind].
  fold (unfiltered s). destruct (unfiltered s); [done |]. cbn [orb].
  rewrite run_bind, (run_pkt p e) by done. cbn [obind]. rewrite run_bind, run_header. cbn [obind].
  destruct ((22 <=? Z.of_nat (length l)) && _ && _) eqn:Ea; [| destruct ((34 <=? Z.of_nat (length l)) && _) eqn:Ei].
  - apply andb_prop in Ea as [Ea Hlong%Z.leb_le]. apply andb_prop in Ea as [H22%Z.leb_le _].
    destruct (octet_at 18 ltac:(lia)) as [_ B18]. destruct (octet_at 19 ltac:(lia)) as [_ B19]. unfold isbyte in *.
    rewrite run_bind. erewrite run_type_matches by done. cbn [obind].
    destruct ((c_type s =? 0) || (c_type s =? SNOOP_FILTER_ARP)); cbn [negb]; [| by rewrite !andb_false_r].
    rewrite run_bind, (run_arp_addr _ ARP_ADDR_SPA (22 + octet l 18)) by (done || lia). cbn [obind].
    destruct (addr_accepted (c_srcaddr s) _); cbn [negb]; [| by rewrite !andb_false_r].
    rewrite run_bind, (run_arp_addr _ ARP_ADDR_DPA (22 + 2 * octet l 18 + octet l 19)) by (done || (unfold ARP_ADDR_DPA; lia)). cbn [obind].
    destruct (addr_accepted (c_dstaddr s) _); cbn [negb]; [| by rewrite !andb_false_r]. rewrite run_ret. cbn [andb]. by rewrite andb_true_r.
  - apply andb_prop in Ei as [H34%Z.leb_le _].
    rewrite run_bind. erewrite run_type_matches; [| | done]. 2: { intros ip [= <-]. split; [done | lia]. }
    cbn [obind].
    destruct ((c_type s =? 0) || (c_type s =? SNOOP_FILTER_IPv4) || _); cbn [negb]; [| by rewrite !andb_false_r].
    rewrite run_bind, (run_ip_addr _ IP_SRC 26) by (done || (unfold ETHER_DATA, IP_SRC; lia)). cbn [obind].
    destruct (addr_accepted (c_srcaddr s) _); cbn [negb]; [| by rewrite !andb_false_r].
    pose proof (run_ip_addr (c_dstaddr s) IP_DST 30) as Hd. unfold addr_matches in Hd |- *.
    rewrite run_bind, Hd by (done || (unfold ETHER_DATA, IP_DST; lia)). cbn [obind].
    destruct (addr_accepted (c_dstaddr s) _); cbn [negb]; [| by rewrite !andb_false_r]. rewrite run_ret. cbn [andb]. by rewrite andb_true_r.
  - by rewrite andb_false_r.
Qed.
End Filter.
