(* ===== verification/Route.v ===== *)
(** The route table: network/route/rtAlloc.c, rtAdd.c, rtDefault.c, rtLookup.c,
    rtRemove.c, rtClear.c, rtInit.c and rtRecv.c.  Looking up an address gives the
    route with the longest mask among those that cover it. *)
From Stdlib Require Import ZArith Lia.
From stdpp Require Import sorting gmap functions list.
From S2P Require Import Prelude Kernel Queue QueueFacts Sched Semaphore Clock Message Memory Boot Frame Thread Mailbox BufPool Bytes Device Netaddr Net.

Definition RT_NQUEUE : Z := 32.
Definition RT_THR_PRIO : Z := NET_THR_PRIO.
Definition RT_THR_STK : Z := NET_THR_STK.

Section Route.
Context {H : Type}.

Abbreviation nprog := (dprog (net H)).

(** ** Routines

    A pointer to an entry is its index, a null pointer [None]. *)

Definition alloc_body (i : Z) (_ : unit) : nprog (unit + Z) :=
  e ← rte i;
  if RT_FREE =? r_state e then
    amend_rte i (set_r_state RT_PEND);;
    kcall EXIT_KERNEL_CRITICAL_SECTION;;
    mret (inr i)
  else mret (inl tt).

Definition rtAlloc : nprog (option Z) :=
  kcall ENTER_KERNEL_CRITICAL_SECTION;;
  r ← for_ (Z.to_nat RT_NENTRY) 0 alloc_body tt;
  match r with
  | inr i => mret (Some i)
  | inl _ => kcall EXIT_KERNEL_CRITICAL_SECTION;; mret None
  end.

(** The number of bits set in an octet, and in a mask, added to [length]. *)
Definition octet_bits (octet length : Z) : nprog Z :=
  r ← while_ 9 (fun st => mret (0 <? st.1))
        (fun st => mret (Z.shiftr st.1 1, if negb (Z.land st.1 1 =? 0) then u16 (st.2 + 1) else st.2)) (octet, length);
  mret (r.2).
Definition mask_bits (mask : netaddr) : nprog Z :=
  r ← for_ (Z.to_nat (na_len mask)) 0 (fun i length =>
    match na_addr mask !! Z.to_nat i with
    | Some octet => n ← octet_bits octet length; mret (inl n : Z + unit)
    | None => fault
    end) 0;
  match r with inl n => mret n | inr _ => fault end.

Definition rtAdd (dst gate mask : option netaddr) (nif : option Z) : nprog Z :=
  match dst, mask, nif with
  | Some dst, Some mask, Some nif =>
      rtptr ← rtAlloc;
      match rtptr with
      | None => mret SYSERR
      | Some i =>
          amend_rte i (set_r_dst dst);;
          r ← netaddrmask dst mask;
          amend_rte i (set_r_dst r.2);;
          match gate with
          | None => amend_rte i (fun e => set_r_gateway (set_na_type NULL (r_gateway e)) e)
          | Some gate => amend_rte i (set_r_gateway gate)
          end;;
          amend_rte i (set_r_mask mask);;
          amend_rte i (set_r_nif (Some nif));;
          length ← mask_bits mask;
          amend_rte i (set_r_masklen length);;
          amend_rte i (set_r_state RT_USED);;
          mret OK
      end
  | _, _, _ => mret SYSERR
  end.

Definition default_body (mask : netaddr) (i : Z) (_ : unit) : nprog (unit + unit) :=
  e ← rte i;
  found ← (if RT_USED =? r_state e then netaddrequal (r_mask e) mask else mret false);
  mret (if (found : bool) then inr tt else inl tt).

Definition rtDefault (gate : option netaddr) (nif : option Z) : nprog Z :=
  match gate, nif with
  | Some gate, Some nif =>
      if NET_MAX_ALEN <? na_len gate then mret SYSERR else
      let mask := mkNetaddr (na_type gate) (na_len gate) (replicate 6 0) in
      r ← for_ (Z.to_nat RT_NENTRY) 0 (default_body mask) tt;
      match r with
      | inr _ => mret OK
      | inl _ =>
          rtptr ← rtAlloc;
          match rtptr with
          | None => mret SYSERR
          | Some i =>
              amend_rte i (set_r_dst mask);;
              amend_rte i (set_r_gateway gate);;
              amend_rte i (set_r_mask mask);;
              amend_rte i (set_r_nif (Some nif));;
              amend_rte i (set_r_masklen 0);;
              amend_rte i (set_r_state RT_USED);;
              mret OK
          end
      end
  | _, _ => mret SYSERR
  end.

(** The body of the search of [rtLookup], whose state is [rtptr]. *)
Definition lookup_body (addr : netaddr) (i : Z) (rtptr : option Z) : nprog (option Z + unit) :=
  e ← rte i;
  if RT_USED =? r_state e then
    m ← netaddrmask addr (r_mask e);
    eq ← netaddrequal (m.2) (r_dst e);
    if (eq : bool) then
      better ← match rtptr with
               | None => mret true
               | Some j => e' ← rte j; mret (r_masklen e' <? r_masklen e)
               end;
      mret (inl (if (better : bool) then Some i else rtptr))
    else mret (inl rtptr)
  else mret (inl rtptr).

Definition rtLookup (addr : netaddr) : nprog (option Z) :=
  kcall ENTER_KERNEL_CRITICAL_SECTION;;
  r ← for_ (Z.to_nat RT_NENTRY) 0 (lookup_body addr) None;
  kcall EXIT_KERNEL_CRITICAL_SECTION;;
  match r with inl rtptr => mret rtptr | inr _ => fault end.

Definition remove_body (dst : netaddr) (i : Z) (_ : unit) : nprog (unit + unit) :=
  e ← rte i;
  found ← (if RT_USED =? r_state e then netaddrequal dst (r_dst e) else mret false);
  (if (found : bool) then
     amend_rte i (set_r_state RT_FREE);; amend_rte i (set_r_nif None)
   else mret tt);;
  mret (inl tt).

Definition rtRemove (dst : option netaddr) : nprog Z :=
  match dst with
  | None => mret SYSERR
  | Some dst =>
      kcall ENTER_KERNEL_CRITICAL_SECTION;;
      for_ (Z.to_nat RT_NENTRY) 0 (remove_body dst) tt;;
      kcall EXIT_KERNEL_CRITICAL_SECTION;;
      mret OK
  end.

Definition clear_body (nif : option Z) (i : Z) (_ : unit) : nprog (unit + unit) :=
  e ← rte i;
  (if (RT_USED =? r_state e) && bool_decide (nif = r_nif e) then
     amend_rte i (set_r_state RT_FREE);; amend_rte i (set_r_nif None)
   else mret tt);;
  mret (inl tt).

Definition rtClear (nif : option Z) : nprog Z :=
  match nif with
  | None => mret SYSERR
  | Some _ =>
      kcall ENTER_KERNEL_CRITICAL_SECTION;;
      for_ (Z.to_nat RT_NENTRY) 0 (clear_body nif) tt;;
      kcall EXIT_KERNEL_CRITICAL_SECTION;;
      mret OK
  end.

(** The first four are the parameters of [create], the last is the address of the
    code of the daemon. *)
Definition rtInit (FPU_WORDS fpexc fpscr userret rtDaemon : Z) : nprog Z :=
  for_ (Z.to_nat RT_NENTRY) 0 (fun i _ =>
    amend_rte i (fun _ => mkRtEntry 0 0 zero_netaddr zero_netaddr zero_netaddr None);;
    amend_rte i (set_r_state RT_FREE);;
    mret (inl tt : unit + unit)) tt;;
  q ← kcall (mailboxAlloc RT_NQUEUE);
  modify (put_rtqueue q);;
  if SYSERR =? q then mret SYSERR else
  tid ← kcall (create FPU_WORDS fpexc fpscr userret rtDaemon RT_THR_STK RT_THR_PRIO [114; 116; 68; 97; 101; 109; 111; 110] 0 []);
  kcall (ready tid);;
  mret OK.

(** A null packet is address 0. *)
Definition rtRecv (pkt : Z) : nprog Z :=
  if NULL =? pkt then mret SYSERR else
  kcall ENTER_KERNEL_CRITICAL_SECTION;;
  q ← gets (fun w => rtqueue (own w));
  n ← kcall (mailboxCount q);
  if RT_NQUEUE <=? n then
    kcall EXIT_KERNEL_CRITICAL_SECTION;; netFreebuf pkt;; mret OK
  else
    r ← kcall (mailboxSend q (i32 pkt));
    if SYSERR =? r then
      kcall EXIT_KERNEL_CRITICAL_SECTION;; netFreebuf pkt;; mret SYSERR
    else
      kcall EXIT_KERNEL_CRITICAL_SECTION;; mret OK.

(** ** Invariant

    The table has all its entries, and their addresses are well formed. *)

Definition route_ok (e : rtEntry) : Prop := addr_ok (r_dst e) /\ addr_ok (r_mask e).
Definition routes_ok (w : dst (net H)) : Prop :=
  forall i, 0 <= i < RT_NENTRY -> exists e, rttab (own w) !! i = Some e /\ route_ok e.

(** The entry [e] is a route to the address [a]. *)
Definition covers (a : netaddr) (e : rtEntry) : bool :=
  (RT_USED =? r_state e) && same_addr (masked a (r_mask e)) (r_dst e).

(** ** Looking up *)

(** The entry chosen among the first [n]. *)
Definition choose (tab : gmap Z rtEntry) (a : netaddr) (i : Z) (acc : option Z) : option Z :=
  match tab !! i with
  | Some e =>
      if covers a e then
        match acc with
        | None => Some i
        | Some j => match tab !! j with Some e' => if r_masklen e' <? r_masklen e then Some i else acc | None => acc end
        end
      else acc
  | None => acc
  end.
Fixpoint chosen (tab : gmap Z rtEntry) (a : netaddr) (n : nat) : option Z :=
  match n with O => None | S n => choose tab a (Z.of_nat n) (chosen tab a n) end.

(** What makes it the right one. *)
Definition best_route (tab : gmap Z rtEntry) (a : netaddr) (n : Z) (r : option Z) : Prop :=
  match r with
  | None => forall i e, 0 <= i < n -> tab !! i = Some e -> covers a e = false
  | Some k => exists e, 0 <= k < n /\ tab !! k = Some e /\ covers a e = true /\
      forall i e', 0 <= i < n -> tab !! i = Some e' -> covers a e' = true ->
        r_masklen e' <= r_masklen e /\ (i < k -> r_masklen e' < r_masklen e)
  end.

Lemma chosen_best tab a n : best_route tab a (Z.of_nat n) (chosen tab a n).
Proof.
  induction n as [|n IH]; cbn [chosen]; [intros i e Hi; lia |].
  assert (Hlt : forall i, 0 <= i < Z.of_nat (S n) -> i <> Z.of_nat n -> 0 <= i < Z.of_nat n) by lia.
  unfold choose. destruct (tab !! Z.of_nat n) as [e|] eqn:He; [destruct (covers a e) eqn:Hc |]; destruct (chosen tab a n) as [k|]; cbn in *.
  - destruct IH as (ek & Hk & Hek & Hck & Hbest). rewrite Hek. destruct (Z.ltb_spec (r_masklen ek) (r_masklen e)).
    + exists e. split; [lia |]. split; [done |]. split; [done |]. intros i e' Hi He' Hc'.
      destruct (Z.eq_dec i (Z.of_nat n)) as [->|Hn]; [assert (e' = e) as -> by congruence; lia |].
      destruct (Hbest i e' (Hlt _ Hi Hn) He' Hc'). lia.
    + exists ek. split; [lia |]. split; [done |]. split; [done |]. intros i e' Hi He' Hc'.
      destruct (Z.eq_dec i (Z.of_nat n)) as [->|Hn]; [assert (e' = e) as -> by congruence; lia |]. by apply (Hbest i e' (Hlt _ Hi Hn)).
  - exists e. split; [lia |]. split; [done |]. split; [done |]. intros i e' Hi He' Hc'.
    destruct (Z.eq_dec i (Z.of_nat n)) as [->|Hn]; [assert (e' = e) as -> by congruence; lia |].
    rewrite (IH i e' (Hlt _ Hi Hn) He') in Hc'. done.
  - destruct IH as (ek & Hk & Hek & Hck & Hbest). exists ek. split; [lia |]. split; [done |]. split; [done |]. intros i e' Hi He' Hc'.
    destruct (Z.eq_dec i (Z.of_nat n)) as [->|Hn]; [congruence |]. by apply (Hbest i e' (Hlt _ Hi Hn)).
  - intros i e' Hi He'. destruct (Z.eq_dec i (Z.of_nat n)) as [->|Hn]; [congruence |]. by apply (IH i e' (Hlt _ Hi Hn)).
  - destruct IH as (ek & Hk & Hek & Hck & Hbest). exists ek. split; [lia |]. split; [done |]. split; [done |]. intros i e' Hi He' Hc'.
    destruct (Z.eq_dec i (Z.of_nat n)) as [->|Hn]; [congruence |]. by apply (Hbest i e' (Hlt _ Hi Hn)).
  - intros i e' Hi He'. destruct (Z.eq_dec i (Z.of_nat n)) as [->|Hn]; [congruence |]. by apply (IH i e' (Hlt _ Hi Hn)).
Qed.

Lemma run_lookup_body w a j :
  routes_ok w -> addr_ok a -> (j < Z.to_nat RT_NENTRY)%nat ->
  run (lookup_body a (Z.of_nat j) (chosen (rttab (own w)) a j)) w = Done (inl (chosen (rttab (own w)) a (S j))) w.
Proof.
  intros Hok Ha Hj. destruct (Hok (Z.of_nat j)) as (e & He & Hd & Hm); [unfold RT_NENTRY in *; lia |].
  pose proof (chosen_best (rttab (own w)) a j) as Hbest. cbn [chosen]. unfold choose. rewrite He.
  unfold lookup_body, covers. rewrite run_bind, (run_rte _ e) by done. cbn [obind].
  destruct (RT_USED =? r_state e); [| done]. cbn [andb].
  rewrite run_bind, run_netaddrmask by done. cbn [obind snd].
  rewrite run_bind, run_netaddrequal by (by try apply masked_ok). cbn [obind].
  destruct (same_addr _ _); [| done]. destruct (chosen (rttab (own w)) a j) as [k|]; [| done].
  destruct Hbest as (ek & _ & Hek & _). rewrite !run_bind, (run_rte _ ek) by done. cbn [obind]. rewrite run_ret. cbn [obind].
  rewrite Hek. by destruct (_ <? _).
Qed.

Lemma run_rtLookup w a :
  routes_ok w -> addr_ok a -> inCrit (kern w) = true ->
  run (rtLookup a) w = Done (chosen (rttab (own w)) a (Z.to_nat RT_NENTRY)) (mkDst (crit_out (crit_in (kern w))) (user w) (own w)).
Proof.
  intros Hok Ha Hcrit. unfold rtLookup. drun. set (w1 := mkDst (crit_in (kern w)) (user w) (own w)).
  pose proof (for_through (lookup_body a) (Z.to_nat RT_NENTRY) 0 (chosen (rttab (own w1)) a) (fun _ => w1)) as E.
  cbn [chosen] in E. rewrite E by (intros j Hj; by apply run_lookup_body).
  cbn [obind]. by drun.
Qed.

(** C16: Looking up an address finds, among the routes in use that cover it, one with
    the longest mask, the first of these in the table; it finds none only when there
    is none.  Nothing is changed but the interrupt mask. *)
Theorem rtLookup_longest w a :
  routes_ok w -> addr_ok a -> inCrit (kern w) = true ->
  exists r, run (rtLookup a) w = Done r (mkDst (crit_out (crit_in (kern w))) (user w) (own w)) /\
    best_route (rttab (own w)) a RT_NENTRY r.
Proof.
  intros Hok Ha Hcrit. eexists. split; [by apply run_rtLookup |].
  pose proof (chosen_best (rttab (own w)) a (Z.to_nat RT_NENTRY)) as Hb. by rewrite Z2Nat.id in Hb.
Qed.

(** ** Adding *)

Lemma count_zbits_zero n : count_true (zbits n 0) = 0%nat.
Proof. induction n as [|n IH]; [done |]. cbn [zbits]. change (0 / 2) with 0. by rewrite count_true_app, IH. Qed.

Lemma run_octet_loop (w : dst (net H)) n : forall x l, 0 <= x < 2 ^ Z.of_nat n -> 0 <= l -> l + Z.of_nat n < 65536 ->
  run (while_ (S n) (fun st => mret (0 <? st.1))
        (fun st => mret (Z.shiftr st.1 1, if negb (Z.land st.1 1 =? 0) then u16 (st.2 + 1) else st.2)) (x, l)) w =
  Done (0, l + Z.of_nat (count_true (zbits n x))) w.
Proof.
  induction n as [|n IH]; intros x l Hx Hl Hlen; rewrite run_while_S, run_ret; cbn [obind fst snd].
  - cbn in Hx. assert (x = 0) as -> by lia. cbn [zbits count_true]. by rewrite Z.add_0_r.
  - destruct (Z.ltb_spec 0 x) as [Hp|Hp].
    2: { assert (x = 0) as -> by lia. by rewrite count_zbits_zero, run_ret, Z.add_0_r. }
    rewrite run_bind, run_ret. cbn [obind fst snd]. rewrite Nat2Z.inj_succ, Z.pow_succ_r in Hx by lia.
    cbn [zbits]. rewrite count_true_app. rewrite (Z.land_ones x 1 ltac:(lia) : Z.land x 1 = x mod 2), Zmod_odd.
    rewrite (Z.shiftr_div_pow2 x 1 ltac:(lia) : Z.shiftr x 1 = x / 2).
    assert (Hn : 0 <= x / 2 < 2 ^ Z.of_nat n) by lia.
    destruct (Z.odd x); [change (negb (1 =? 0)) with true | change (negb (0 =? 0)) with false]; cbn [count_true]; rewrite ?u16_small by lia.
    all: rewrite (IH (x / 2)) by lia; apply (f_equal (fun z => Done (0, z) w)); lia.
Qed.

Lemma run_octet_bits (w : dst (net H)) x l : isbyte x -> 0 <= l -> l < 65000 ->
  run (octet_bits x l) w = Done (l + Z.of_nat (count_true (zbits 8 x))) w.
Proof. intros Hx Hl Hl'. unfold octet_bits. rewrite run_bind, (run_octet_loop w 8) by (unfold isbyte in *; cbn; lia). done. Qed.

Lemma count_true_le l : (count_true l <= length l)%nat.
Proof. induction l as [|b l IH]; cbn; [lia |]. destruct b; lia. Qed.

Lemma run_mask_bits (w : dst (net H)) m : addr_ok m -> run (mask_bits m) w = Done (Z.of_nat (count_true (abits m))) w.
Proof.
  intros [Hl Hn Hb]. unfold mask_bits, NET_MAX_ALEN in *. rewrite run_bind.
  set (body := fun (i length : Z) => _ : nprog (Z + unit)).
  pose proof (for_through body (Z.to_nat (na_len m)) 0 (fun j => Z.of_nat (count_true (bytes_bits (take j (na_addr m))))) (fun _ => w)) as E.
  cbv beta in E. change (Z.of_nat (count_true (bytes_bits (take 0 (na_addr m))))) with 0 in E. rewrite E; [done |]. clear E.
  intros j Hj. unfold body. rewrite Z.add_0_l, Nat2Z.id.
  destruct (na_addr m !! j) as [x|] eqn:Ex; [| apply lookup_ge_None in Ex; lia].
  pose proof (Forall_lookup_1 _ _ _ _ Hb Ex) as Hx. rewrite (take_S_r _ _ x Ex).
  pose proof (count_true_le (bytes_bits (take j (na_addr m)))) as Hc. rewrite length_bytes_bits, length_take in Hc.
  rewrite run_bind, run_octet_bits by (done || lia). cbn [obind]. rewrite run_ret. do 2 f_equal.
  unfold bytes_bits. rewrite bind_app, count_true_app. cbn [mbind list_bind]. rewrite app_nil_r. lia.
Qed.

(** Allocating gives the first free entry, marked as pending. *)
Lemma run_rtAlloc w : routes_ok w -> inCrit (kern w) = true ->
  let w0 := mkDst (crit_out (crit_in (kern w))) (user w) (own w) in
  (exists i e, 0 <= i < RT_NENTRY /\ rttab (own w) !! i = Some e /\ r_state e = RT_FREE /\
     run rtAlloc w = Done (Some i) (put_rttab (<[i := set_r_state RT_PEND e]> (rttab (own w))) w0)) \/
  ((forall i e, 0 <= i < RT_NENTRY -> rttab (own w) !! i = Some e -> r_state e <> RT_FREE) /\ run rtAlloc w = Done None w0).
Proof.
  intros Hok Hcrit w0.
  destruct (first_such (fun j => match rttab (own w) !! Z.of_nat j with Some e => RT_FREE =? r_state e | None => false end)
    (Z.to_nat RT_NENTRY)) as [(k & Hk & Hfree & Hno) | Hno].
  - destruct (rttab (own w) !! Z.of_nat k) as [e|] eqn:He; [| done]. left. exists (Z.of_nat k), e.
    split; [unfold RT_NENTRY in *; lia |]. split; [done |]. split; [by apply Z.eqb_eq in Hfree |].
    unfold rtAlloc. drun. erewrite (for_exit alloc_body _ _ k _ 0 (fun _ => tt) (fun _ => mkDst (crit_in (kern w)) (user w) (own w))); [| done | |].
    + cbn [obind]. rewrite run_ret. unfold w0. done.
    + intros j Hj. specialize (Hno j Hj). unfold alloc_body. destruct (Hok (Z.of_nat j)) as (e' & He' & _); [unfold RT_NENTRY in *; lia |].
      rewrite He' in Hno. rewrite run_bind, (run_rte _ e') by done. cbn [obind]. by rewrite Hno.
    + unfold alloc_body. rewrite run_bind, (run_rte _ e) by done. cbn [obind]. rewrite Hfree.
      rewrite run_bind, (run_amend_rte _ _ e) by done. cbn [obind]. unfold put_rttab. drun. done.
  - right. split.
    + intros i e Hi He Hf. specialize (Hno (Z.to_nat i)). rewrite Z2Nat.id, He, Hf in Hno by lia. discriminate Hno.
      unfold RT_NENTRY in *. lia.
    + unfold rtAlloc. drun. rewrite (for_all alloc_body).
      * cbn [obind]. drun. done.
      * intros j Hj. specialize (Hno j Hj). unfold alloc_body. destruct (Hok (Z.of_nat j)) as (e' & He' & _); [unfold RT_NENTRY in *; lia |].
        rewrite He' in Hno. rewrite run_bind, (run_rte _ e') by done. cbn [obind]. by rewrite Hno.
Qed.

(** The assignments to a new entry, one after another. *)
Lemma run_fill_rte i f e T (w : dst (net H)) :
  rttab (own w) = <[i := e]> T -> run (amend_rte i f) w = Done tt (put_rttab (<[i := f e]> T) w).
Proof.
  intros E. rewrite (run_amend_rte i f e) by (by rewrite E, lookup_insert_eq). by rewrite E, insert_insert_eq.
Qed.

Lemma put_rttab_twice T T' (w : dst (net H)) : put_rttab T' (put_rttab T w) = put_rttab T' w.
Proof. done. Qed.

(** The entry that [rtAdd] makes of a free one. *)
Definition new_route (dst : netaddr) (gate : option netaddr) (mask : netaddr) (nif : Z) (e : rtEntry) : rtEntry :=
  mkRtEntry RT_USED (Z.of_nat (count_true (abits mask))) (masked dst mask)
    (match gate with Some g => g | None => set_na_type NULL (r_gateway e) end) mask (Some nif).

Lemma run_rtAdd w dst gate m nif :
  routes_ok w -> inCrit (kern w) = true -> addr_ok dst -> addr_ok m ->
  let w0 := mkDst (crit_out (crit_in (kern w))) (user w) (own w) in
  (exists i e, 0 <= i < RT_NENTRY /\ rttab (own w) !! i = Some e /\ r_state e = RT_FREE /\
     run (rtAdd (Some dst) gate (Some m) (Some nif)) w =
     Done OK (put_rttab (<[i := new_route dst gate m nif e]> (rttab (own w))) w0)) \/
  ((forall i e, 0 <= i < RT_NENTRY -> rttab (own w) !! i = Some e -> r_state e <> RT_FREE) /\
   run (rtAdd (Some dst) gate (Some m) (Some nif)) w = Done SYSERR w0).
Proof.
  intros Hok Hcrit Hd Hm w0. destruct (run_rtAlloc w Hok Hcrit) as [(i & e & Hi & He & Hf & Hrun) | [Hfull Hrun]].
  - left. exists i, e. split; [done |]. split; [done |]. split; [done |]. fold w0 in Hrun.
    unfold rtAdd. rewrite run_bind, Hrun. cbn [obind].
    rewrite run_bind, (run_fill_rte i _ (set_r_state RT_PEND e) (rttab (own w))) by done. cbn [obind].
    rewrite run_bind, run_netaddrmask by done. cbn [obind snd].
    rewrite run_bind. erewrite (run_fill_rte i) by done. cbn [obind].
    rewrite run_bind.
    assert (Hg : forall e' (w' : Device.dst (net H)), rttab (own w') = <[i := e']> (rttab (own w)) ->
      run (match gate return nprog unit with
           | None => amend_rte i (fun e => set_r_gateway (set_na_type NULL (r_gateway e)) e)
           | Some gate => amend_rte i (set_r_gateway gate)
           end) w' =
      Done tt (put_rttab (<[i := set_r_gateway (match gate with Some g => g | None => set_na_type NULL (r_gateway e') end) e']> (rttab (own w))) w')).
    { intros e' w' E. destruct gate; by rewrite (run_fill_rte i _ e' (rttab (own w)) w') by done. }
    erewrite Hg by done. cbn [obind].
    rewrite run_bind. erewrite (run_fill_rte i) by done. cbn [obind].
    rewrite run_bind. erewrite (run_fill_rte i) by done. cbn [obind].
    rewrite run_bind, run_mask_bits by done. cbn [obind].
    rewrite run_bind. erewrite (run_fill_rte i) by done. cbn [obind].
    rewrite run_bind. erewrite (run_fill_rte i) by done. cbn [obind]. rewrite run_ret. done.
  - right. split; [done |]. unfold rtAdd. rewrite run_bind, Hrun. done.
Qed.

(** Adding a route under a mask of [k] leading ones takes a free entry of the table
    and changes no other; the new route has mask length [k] and covers exactly the
    addresses that agree with the destination in their first [k] bits.  The table
    stays well formed.  With no free entry nothing is changed and the result is
    SYSERR. *)
Theorem rtAdd_route w dst gate m nif k :
  routes_ok w -> inCrit (kern w) = true -> addr_ok dst -> addr_ok m ->
  prefix_mask m k -> na_type dst = na_type m -> na_len dst = na_len m ->
  exists r w', run (rtAdd (Some dst) gate (Some m) (Some nif)) w = Done r w' /\ user w' = user w /\ routes_ok w' /\
    ((r = OK /\ exists i e e', 0 <= i < RT_NENTRY /\ rttab (own w) !! i = Some e /\ r_state e = RT_FREE /\
        rttab (own w') = <[i := e']> (rttab (own w)) /\ r_masklen e' = Z.of_nat k /\ r_nif e' = Some nif /\
        match gate with Some g => r_gateway e' = g | None => na_type (r_gateway e') = NULL end /\
        forall a, addr_ok a ->
          covers a e' = true <-> na_type a = na_type dst /\ na_len a = na_len dst /\ take k (abits a) = take k (abits dst)) \/
     (r = SYSERR /\ own w' = own w /\
        forall i e, 0 <= i < RT_NENTRY -> rttab (own w) !! i = Some e -> r_state e <> RT_FREE)).
Proof.
  intros Hok Hcrit Hd Hm Hp Ht Hl. destruct (run_rtAdd w dst gate m nif Hok Hcrit Hd Hm) as [(i & e & Hi & He & Hf & Hrun) | [Hfull Hrun]];
    eexists _, _; (split; [exact Hrun |]); (split; [done |]).
  - split.
    + intros j Hj. cbn. destruct (Z.eq_dec j i) as [->|Hne]; [rewrite lookup_insert_eq | rewrite lookup_insert_ne by done; by apply Hok].
      eexists. split; [done |]. split; cbn; [by apply masked_ok | done].
    + left. split; [done |]. exists i, e, (new_route dst gate m nif e). split; [done |]. split; [done |]. split; [done |]. split; [done |].
      split; [| split; [done |]].
      * cbn. destruct Hp as [_ ->]. by rewrite count_true_prefix.
      * split; [by destruct gate |]. intros a Ha. unfold covers. cbn [r_state r_mask r_dst new_route]. rewrite Z.eqb_refl. cbn [andb].
        by apply same_prefix.
  - split; [done |]. right. by split.
Qed.

(** ** Removing *)

Definition freed (drop : rtEntry -> bool) (e : rtEntry) : rtEntry :=
  if (RT_USED =? r_state e) && drop e then set_r_nif None (set_r_state RT_FREE e) else e.

Lemma put_rttab_id (w : dst (net H)) : put_rttab (rttab (own w)) w = w.
Proof. by destruct w as [? ? []]. Qed.

Lemma run_sweep w drop body :
  routes_ok w ->
  (forall i e w', rttab (own w') !! i = Some e -> route_ok e ->
     run (body i tt) w' = Done (inl tt : unit + unit) (put_rttab (<[i := freed drop e]> (rttab (own w'))) w')) ->
  run (for_ (Z.to_nat RT_NENTRY) 0 body tt) w = Done (inl tt) (put_rttab (map_first (Z.to_nat RT_NENTRY) (freed drop) (rttab (own w))) w).
Proof.
  intros Hok Hbody. apply (for_map (fun w : Device.dst (net H) => rttab (own w)) put_rttab); try done.
  - apply put_rttab_id.
  - intros j Hj. destruct (Hok (Z.of_nat j)) as (e & He & _); [unfold RT_NENTRY in *; lia | by exists e].
  - intros j e t Hj Ht He. rewrite (Hbody _ e) by (done || (destruct (Hok (Z.of_nat j)) as (e' & He' & Hr); [unfold RT_NENTRY in *; lia |]; by simplify_eq)).
    done.
Qed.

Lemma sweep_ok w drop T : routes_ok w -> T = map_first (Z.to_nat RT_NENTRY) (freed drop) (rttab (own w)) ->
  routes_ok (put_rttab T w) /\ (forall i, 0 <= i < RT_NENTRY -> T !! i = freed drop <$> (rttab (own w) !! i)).
Proof.
  intros Hok ->. assert (Hl : forall i, 0 <= i < RT_NENTRY ->
    map_first (Z.to_nat RT_NENTRY) (freed drop) (rttab (own w)) !! i = freed drop <$> (rttab (own w) !! i)).
  { intros i Hi. rewrite map_first_lookup, decide_True; [done |]. by rewrite Z2Nat.id. }
  split; [| done]. intros i Hi. cbn. rewrite Hl by done. destruct (Hok i Hi) as (e & -> & Hd & Hm).
  eexists. split; [done |]. unfold freed. by destruct (_ && _).
Qed.

Lemma run_remove_body w d i e : addr_ok d -> rttab (own w) !! i = Some e -> route_ok e ->
  run (remove_body d i tt) w =
  Done (inl tt) (put_rttab (<[i := freed (fun e => same_addr d (r_dst e)) e]> (rttab (own w))) w).
Proof.
  intros Hd He [Hed Hem]. unfold remove_body, freed. rewrite run_bind, (run_rte _ e) by done. cbn [obind].
  destruct (RT_USED =? r_state e).
  2: { cbn. by rewrite insert_id, put_rttab_id by done. }
  rewrite run_bind, run_netaddrequal by done. cbn [obind andb]. destruct (same_addr _ _).
  2: { cbn. by rewrite insert_id, put_rttab_id by done. }
  rewrite !run_bind, (run_amend_rte _ _ e) by done. cbn [obind]. erewrite run_fill_rte by done. done.
Qed.

Lemma run_clear_body w n i e : rttab (own w) !! i = Some e ->
  run (clear_body (Some n) i tt) w =
  Done (inl tt) (put_rttab (<[i := freed (fun e => bool_decide (Some n = r_nif e)) e]> (rttab (own w))) w).
Proof.
  intros He. unfold clear_body, freed. rewrite run_bind, (run_rte _ e) by done. cbn [obind].
  destruct ((RT_USED =? r_state e) && bool_decide (Some n = r_nif e)).
  2: { cbn. by rewrite insert_id, put_rttab_id by done. }
  rewrite !run_bind, (run_amend_rte _ _ e) by done. cbn [obind]. erewrite run_fill_rte by done. done.
Qed.

(** Removing a destination, or an interface, frees exactly the routes in use that
    have it, and leaves the others as they are. *)
Theorem rtRemove_rtClear w d n :
  routes_ok w -> inCrit (kern w) = true -> addr_ok d ->
  exists w1 w2, run (rtRemove (Some d)) w = Done OK w1 /\ run (rtClear (Some n)) w = Done OK w2 /\
    routes_ok w1 /\ routes_ok w2 /\
    forall i e, 0 <= i < RT_NENTRY -> rttab (own w) !! i = Some e ->
      rttab (own w1) !! i = Some (if (RT_USED =? r_state e) && same_addr d (r_dst e) then set_r_nif None (set_r_state RT_FREE e) else e) /\
      rttab (own w2) !! i = Some (if (RT_USED =? r_state e) && bool_decide (r_nif e = Some n) then set_r_nif None (set_r_state RT_FREE e) else e).
Proof.
  intros Hok Hcrit Hd. unfold rtRemove, rtClear. drun.
  set (w0 := mkDst (crit_in (kern w)) (user w) (own w)). assert (Hok0 : routes_ok w0) by done.
  rewrite (run_sweep w0 (fun e => same_addr d (r_dst e))) by (done || (intros; by apply run_remove_body)).
  rewrite (run_sweep w0 (fun e => bool_decide (Some n = r_nif e))) by (done || (intros; by apply run_clear_body)).
  cbn [obind]. drun.
  destruct (sweep_ok w0 (fun e => same_addr d (r_dst e)) _ Hok0 eq_refl) as [Hok1 Hl1].
  destruct (sweep_ok w0 (fun e => bool_decide (Some n = r_nif e)) _ Hok0 eq_refl) as [Hok2 Hl2].
  eexists _, _. split; [done |]. split; [done |]. split; [exact Hok1 |]. split; [exact Hok2 |].
  intros i e Hi He. cbn [rttab own put_rttab set_own]. rewrite Hl1, Hl2 by done. cbn [own w0]. rewrite He. cbn [fmap option_fmap option_map].
  split; [done |]. unfold freed. rewrite (bool_decide_ext (Some n = r_nif e) (r_nif e = Some n)) by (split; done). done.
Qed.

(** ** The default route *)

(** The mask of a default route for the addresses of the kind of [gate]. *)
Definition default_mask (gate : netaddr) : netaddr := mkNetaddr (na_type gate) (na_len gate) (replicate 6 0).

Lemma run_default_body w m i e : rttab (own w) !! i = Some e -> route_ok e -> addr_ok m ->
  run (default_body m i tt) w = Done (if (RT_USED =? r_state e) && same_addr (r_mask e) m then inr tt else inl tt) w.
Proof.
  intros He [_ Hem] Hm. unfold default_body. rewrite run_bind, (run_rte _ e) by done. cbn [obind].
  destruct (RT_USED =? r_state e); [| done]. by rewrite run_bind, run_netaddrequal by done.
Qed.

(** A default route that is there stays: a second call returns OK and changes
    nothing, whatever gateway it names. *)
Lemma rtDefault_kept w gate n :
  routes_ok w -> addr_ok gate ->
  (exists i e, 0 <= i < RT_NENTRY /\ rttab (own w) !! i = Some e /\
     (RT_USED =? r_state e) && same_addr (r_mask e) (default_mask gate) = true) ->
  run (rtDefault (Some gate) (Some n)) w = Done OK w.
Proof.
  intros Hok Hg (i & e & Hi & He & Hc). assert (Hm : addr_ok (default_mask gate)).
  { destruct Hg. split; cbn; [done | done |]. repeat constructor; unfold isbyte; lia. }
  unfold rtDefault. destruct Hg as [[_ Hl] _ _]. rewrite (proj2 (Z.ltb_ge _ _)) by done. fold (default_mask gate).
  destruct (first_such (fun j => match rttab (own w) !! Z.of_nat j with
    Some e => (RT_USED =? r_state e) && same_addr (r_mask e) (default_mask gate) | None => false end) (Z.to_nat RT_NENTRY))
    as [(k & Hk & Hfound & Hno) | Hno].
  - rewrite run_bind, (for_find (default_body (default_mask gate)) _ k tt); [done | done | |].
    + intros j Hj. specialize (Hno j Hj). destruct (Hok (Z.of_nat j)) as (e' & He' & Hr); [unfold RT_NENTRY in *; lia |].
      rewrite He' in Hno. by rewrite (run_default_body _ _ _ e'), Hno by done.
    + destruct (Hok (Z.of_nat k)) as (e' & He' & Hr); [unfold RT_NENTRY in *; lia |].
      rewrite He' in Hfound. by rewrite (run_default_body _ _ _ e'), Hfound by done.
  - specialize (Hno (Z.to_nat i)). rewrite Z2Nat.id, He, Hc in Hno by lia. discriminate Hno. unfold RT_NENTRY in *. lia.
Qed.
End Route.
