(* ===== verification/Arp.v ===== *)
(** Sending on the network and address resolution: network/net/netSend.c and
    network/arp/arpAlloc.c, arpFree.c, arpGetEntry.c, arpNotify.c, arpInit.c,
    arpLookup.c, arpRecv.c, arpSendRqst.c, arpSendReply.c and arpDaemon.c.  The two
    call each other: [netSend] looks up a hardware address when it is given none, and
    the lookup sends a request to an address it knows. *)
From Stdlib Require Import ZArith Lia.
From stdpp Require Import sorting gmap functions list.
From S2P Require Import Prelude Kernel Queue QueueFacts Sched Semaphore Clock Message Memory Boot Frame Thread Mailbox BufPool Bytes Device DevTab Chksum Netaddr Net Wire Snoop.

(** ** Constants: include/arp.h *)

Definition ARP_HWTYPE_ETHERNET : Z := 1.
Definition ARP_OP_RQST : Z := 1.
Definition ARP_OP_REPLY : Z := 2.
Definition ARP_FREE : Z := 0.
Definition ARP_USED : Z := 1.
Definition ARP_UNRESOLVED : Z := 1.
Definition ARP_RESOLVED : Z := 3.
Definition ARP_MAX_LOOKUP : Z := 5.
Definition ARP_MSG_RESOLVED : Z := 1.
Definition ARP_TTL_UNRESOLVED : Z := 5.
Definition ARP_TTL_RESOLVED : Z := 300.
Definition ARP_THR_PRIO : Z := NET_THR_PRIO.
Definition ARP_THR_STK : Z := NET_THR_STK.
Definition ARP_NQUEUE : Z := 32.

Section Arp.
Context {H : Type} (devtab : gmap Z (device (net H))).

Abbreviation nprog := (dprog (net H)).

(** ** Sending *)

(** [netSend], with the routine that looks addresses up; it returns the result and
    the hardware address. *)
Definition netSend_with (lookup : option Z -> option netaddr -> nprog (Z * netaddr))
    (pkt_ : Z) (hwaddr praddr : option netaddr) (type : Z) : nprog Z :=
  if NULL =? pkt_ then mret SYSERR else
  e ← pkt pkt_;
  match p_nif e with
  | None => mret SYSERR
  | Some n =>
      netptr ← nif n;
      if negb (n_state netptr =? NET_ALLOC) then mret SYSERR else
      amend_pkt pkt_ (fun e => set_p_curr (u32 (p_curr e - n_linkhdrlen netptr)) e);;
      amend_pkt pkt_ (fun e => set_p_len (u32 (p_len e + n_linkhdrlen netptr)) e);;
      e ← pkt pkt_;
      let ether := p_curr e in
      ucall (sth (ether + ETHER_TYPE) (hs2net type));;
      src ← first_bytes (na_len (n_hwaddr netptr)) (na_addr (n_hwaddr netptr));
      ucall (wr_bytes (ether + 6) src);;
      r ← match hwaddr with Some h => mret (OK, h) | None => lookup (Some n) praddr end;
      let '(result, h) := (r : Z * netaddr) in
      if negb (result =? OK) then mret result else
      dst ← first_bytes (na_len h) (na_addr h);
      ucall (wr_bytes ether dst);;
      e ← pkt pkt_;
      netptr ← nif n;
      sent ← write devtab (n_dev netptr) (p_curr e) (p_len e);
      e ← pkt pkt_;
      if negb (p_len e =? u32 sent) then mret SYSERR else
      netptr ← nif n;
      match n_capture netptr with
      | Some cap => snoopCapture (Some cap) pkt_;; mret OK
      | None => mret OK
      end
  end.

(** With a hardware address the lookup is not called. *)
Definition netSend_to (pkt_ : Z) (hwaddr : netaddr) (praddr : option netaddr) (type : Z) : nprog Z :=
  netSend_with (fun _ _ => fault) pkt_ (Some hwaddr) praddr type.

(** ** The table *)

Definition zero_arp : arpEntry := mkArpEntry 0 None zero_netaddr zero_netaddr 0 (table ARP_NTHRWAIT 0) 0.

(** The body of the search of [arpAlloc], whose state is [minexpires]. *)
Definition arpAlloc_body (i : Z) (minexpires : option Z) : nprog (option Z + Z) :=
  e ← arpe i;
  if ARP_FREE =? a_state e then
    amend_arpe i (set_a_state ARP_USED);; mret (inr i)
  else
    less ← match minexpires with
           | None => mret true
           | Some j => m ← arpe j; mret (a_expires e <? a_expires m)
           end;
    mret (inl (if (less : bool) then Some i else minexpires)).

(** An error is [None]. *)
Definition arpAlloc : nprog (option Z) :=
  r ← for_ (Z.to_nat ARP_NENTRY) 0 arpAlloc_body None;
  match r with
  | inr i => mret (Some i)
  | inl None => mret None
  | inl (Some i) =>
      amend_arpe i (fun _ => zero_arp);;
      amend_arpe i (set_a_state ARP_USED);;
      mret (Some i)
  end.

(** The body of the loop of [arpNotify]; it leaves the loop when all are notified
    ([true]) or a message could not be sent. *)
Definition notify_body (entry msg i : Z) (_ : unit) : nprog (unit + bool) :=
  e ← arpe entry;
  if negb (i <? a_count e) then mret (inr true) else
  match a_waiting e !! i with
  | None => fault
  | Some tid =>
      r ← kcall (send tid msg);
      if SYSERR =? r then mret (inr false) else mret (inl tt)
  end.

Definition arpNotify (entry : option Z) (msg : Z) : nprog Z :=
  match entry with
  | None => mret SYSERR
  | Some entry =>
      kcall ENTER_KERNEL_CRITICAL_SECTION;;
      r ← for_ (S (Z.to_nat ARP_NTHRWAIT)) 0 (notify_body entry msg) tt;
      match r with
      | inr false => kcall EXIT_KERNEL_CRITICAL_SECTION;; mret SYSERR
      | inr true =>
          amend_arpe entry (set_a_count 0);;
          amend_arpe entry (set_a_waiting (table ARP_NTHRWAIT 0));;
          kcall EXIT_KERNEL_CRITICAL_SECTION;;
          mret OK
      | inl _ => fault
      end
  end.

Definition arpFree (entry : option Z) : nprog Z :=
  match entry with
  | None => mret SYSERR
  | Some i =>
      e ← arpe i;
      (if ARP_UNRESOLVED =? a_state e then arpNotify entry TIMEOUT;; mret tt else mret tt);;
      amend_arpe i (fun _ => zero_arp);;
      amend_arpe i (set_a_state ARP_FREE);;
      mret OK
  end.

Definition getentry_body (praddr : netaddr) (i : Z) (_ : unit) : nprog (unit + Z) :=
  e ← arpe i;
  if Z.land ARP_USED (a_state e) =? 0 then mret (inl tt) else
  now ← gets (fun w => clktime (kern w));
  if a_expires e <? now then arpFree (Some i);; mret (inl tt) else
  eq ← netaddrequal (a_praddr e) praddr;
  mret (if (eq : bool) then inr i else inl tt).

Definition arpGetEntry (praddr : netaddr) : nprog (option Z) :=
  kcall ENTER_KERNEL_CRITICAL_SECTION;;
  r ← for_ (Z.to_nat ARP_NENTRY) 0 (getentry_body praddr) tt;
  kcall EXIT_KERNEL_CRITICAL_SECTION;;
  mret (match r with inr i => Some i | inl _ => None end).

(** The first four are the parameters of [create], the last is the address of the
    code of the daemon. *)
Definition arpInit (FPU_WORDS fpexc fpscr userret arpDaemon : Z) : nprog Z :=
  for_ (Z.to_nat ARP_NENTRY) 0 (fun i _ =>
    amend_arpe i (fun _ => zero_arp);;
    amend_arpe i (set_a_state ARP_FREE);;
    mret (inl tt : unit + unit)) tt;;
  q ← kcall (mailboxAlloc ARP_NQUEUE);
  modify (put_arpqueue q);;
  if SYSERR =? q then mret SYSERR else
  tid ← kcall (create FPU_WORDS fpexc fpscr userret arpDaemon ARP_THR_STK ARP_THR_PRIO
                 [97; 114; 112; 68; 97; 101; 109; 111; 110] 0 []);
  kcall (ready tid);;
  mret OK.

(** ** Requests and replies *)

Definition arpSendRqst (entry : option Z) : nprog Z :=
  match entry with
  | None => mret SYSERR
  | Some i =>
      ent ← arpe i;
      p ← netGetbuf;
      if SYSERR =? i32 p then mret SYSERR else
      match a_nif ent with
      | None => fault
      | Some n =>
          netptr ← nif n;
          amend_pkt p (set_p_nif (Some n));;
          amend_pkt p (set_p_len (ARP_CONST_HDR_LEN + na_len (n_hwaddr netptr) * 2 + na_len (n_ip netptr) * 2));;
          amend_pkt p (fun e => set_p_curr (u32 (p_curr e - p_len e)) e);;
          e ← pkt p;
          let arp := p_curr e in
          let hwalen := na_len (n_hwaddr netptr) in
          let pralen := na_len (n_ip netptr) in
          ucall (sth arp (hs2net (na_type (n_hwaddr netptr))));;
          ucall (sth (arp + ARP_PRTYPE) (hs2net (na_type (n_ip netptr))));;
          ucall (stb (arp + ARP_HWALEN) hwalen);;
          ucall (stb (arp + ARP_PRALEN) pralen);;
          ucall (sth (arp + ARP_OP) (hs2net ARP_OP_RQST));;
          sha ← first_bytes hwalen (na_addr (n_hwaddr netptr));
          ucall (wr_bytes (arp + ARP_ADDRS + ARP_ADDR_SHA) sha);;
          spa ← first_bytes pralen (na_addr (n_ip netptr));
          ucall (wr_bytes (arp + ARP_ADDRS + ARP_ADDR_SPA hwalen pralen) spa);;
          ent ← arpe i;
          dpa ← first_bytes pralen (na_addr (a_praddr ent));
          ucall (wr_bytes (arp + ARP_ADDRS + ARP_ADDR_DPA hwalen pralen) dpa);;
          result ← netSend_to p (n_hwbrc netptr) None ETHER_TYPE_ARP;
          r ← netFreebuf p;
          if SYSERR =? r then mret SYSERR else mret result
      end
  end.

Definition arpSendReply (p : Z) : nprog Z :=
  if NULL =? p then mret SYSERR else
  e ← pkt p;
  netptr ← pkt_nif p;
  let arp := p_curr e in
  ucall (sth (arp + ARP_OP) (hs2net ARP_OP_REPLY));;
  hwalen ← ucall (ldb (arp + ARP_HWALEN));
  pralen ← ucall (ldb (arp + ARP_PRALEN));
  ucall (memcpy (arp + ARP_ADDRS + ARP_ADDR_DHA hwalen pralen) (arp + ARP_ADDRS + ARP_ADDR_SHA) hwalen);;
  ucall (memcpy (arp + ARP_ADDRS + ARP_ADDR_DPA hwalen pralen) (arp + ARP_ADDRS + ARP_ADDR_SPA hwalen pralen) pralen);;
  sha ← first_bytes hwalen (na_addr (n_hwaddr netptr));
  ucall (wr_bytes (arp + ARP_ADDRS + ARP_ADDR_SHA) sha);;
  spa ← first_bytes pralen (na_addr (n_ip netptr));
  ucall (wr_bytes (arp + ARP_ADDRS + ARP_ADDR_SPA hwalen pralen) spa);;
  hwtype ← ucall (ldh arp);
  if NET_MAX_ALEN <? hwalen then fault else
  dha ← ucall (rd_bytes (Z.to_nat hwalen) (arp + ARP_ADDRS + ARP_ADDR_DHA hwalen pralen));
  netSend_to p (mkNetaddr (net2hs hwtype) hwalen (into_addr dha (replicate 6 0))) None ETHER_TYPE_ARP.

(** One round of the daemon. *)
Definition arpDaemon_body : nprog unit :=
  q ← gets (fun w => arpqueue (own w));
  p ← kcall (mailboxReceive q);
  if SYSERR =? p then mret tt else
  arpSendReply (u32 p);;
  netFreebuf (u32 p);;
  mret tt.

(** ** Lookup *)

(** One attempt of [arpLookup]: it leaves the loop with a result and the hardware
    address, or goes on. *)
Definition lookup_round (n : Z) (praddr : netaddr) (_ : Z) (_ : unit) : nprog (unit + Z * netaddr) :=
  kcall ENTER_KERNEL_CRITICAL_SECTION;;
  entry ← arpGetEntry praddr;
  entry ← match entry with
          | Some i => mret (Some i)
          | None =>
              entry ← arpAlloc;
              match entry with
              | None => mret None
              | Some i =>
                  amend_arpe i (set_a_state ARP_UNRESOLVED);;
                  amend_arpe i (set_a_nif (Some n));;
                  amend_arpe i (set_a_praddr praddr);;
                  now ← gets (fun w => clktime (kern w));
                  amend_arpe i (set_a_expires (u32 (now + ARP_TTL_UNRESOLVED)));;
                  amend_arpe i (set_a_count 0);;
                  mret (Some i)
              end
          end;
  match entry with
  | None => kcall EXIT_KERNEL_CRITICAL_SECTION;; mret (inr (SYSERR, zero_netaddr))
  | Some i =>
      e ← arpe i;
      if ARP_RESOLVED =? a_state e then mret (inr (OK, a_hwaddr e)) else
      if ARP_NTHRWAIT <=? a_count e then
        kcall EXIT_KERNEL_CRITICAL_SECTION;; mret (inr (SYSERR, zero_netaddr))
      else
        tid ← kcall gettid;
        match a_waiting e !! a_count e with
        | None => fault
        | Some _ =>
            amend_arpe i (set_a_waiting (<[a_count e := tid]> (a_waiting e)));;
            amend_arpe i (set_a_count (a_count e + 1));;
            now ← gets (fun w => clktime (kern w));
            let ttl := i32 (u32 (u32 (a_expires e - now) * CLKTICKS_PER_SEC)) in
            kcall EXIT_KERNEL_CRITICAL_SECTION;;
            r ← arpSendRqst (Some i);
            if SYSERR =? r then mret (inr (SYSERR, zero_netaddr)) else
            kcall recvclr;;
            m ← kcall (recvtime ttl);
            if (m =? TIMEOUT) || (m =? SYSERR) then mret (inr (SYSERR, zero_netaddr))
            else mret (inl tt)
        end
  end.

(** The address is the second component; it only counts when the result is [OK]. *)
Definition arpLookup (netptr : option Z) (praddr : option netaddr) : nprog (Z * netaddr) :=
  match netptr, praddr with
  | Some n, Some praddr =>
      r ← for_ (Z.to_nat ARP_MAX_LOOKUP) 0 (lookup_round n praddr) tt;
      mret (match r with inr v => v | inl _ => (SYSERR, zero_netaddr) end)
  | _, _ => mret (SYSERR, zero_netaddr)
  end.

Definition netSend (pkt_ : Z) (hwaddr praddr : option netaddr) (type : Z) : nprog Z :=
  netSend_with arpLookup pkt_ hwaddr praddr type.

(** ** Receiving *)

(** An address of [len] bytes read from [a]. *)
Definition addr_from (type len a : Z) : nprog netaddr :=
  if NET_MAX_ALEN <? len then fault else
  l ← ucall (rd_bytes (Z.to_nat len) a);
  mret (mkNetaddr type len (into_addr l (replicate 6 0))).

(** The entry of the sender is updated, when there is one. *)
Definition arp_update (i : Z) (sha : netaddr) : nprog unit :=
  amend_arpe i (set_a_hwaddr sha);;
  now ← gets (fun w => clktime (kern w));
  amend_arpe i (set_a_expires (u32 (now + ARP_TTL_RESOLVED)));;
  e ← arpe i;
  if ARP_UNRESOLVED =? a_state e then
    amend_arpe i (set_a_state ARP_RESOLVED);;
    arpNotify (Some i) ARP_MSG_RESOLVED;;
    mret tt
  else mret tt.

(** What follows for a packet to this host: the entry of the sender is made when there
    was none, and a request is queued for the daemon; the value is whether the packet
    was queued, or the result of an error. *)
Definition arp_mine (p : Z) (entry : option Z) (sha spa : netaddr) (op : Z) : nprog (bool + Z) :=
  made ← match entry with
         | Some _ => mret true
         | None =>
             entry ← arpAlloc;
             match entry with
             | None => mret false
             | Some i =>
                 amend_arpe i (set_a_state ARP_RESOLVED);;
                 e ← pkt p;
                 amend_arpe i (set_a_nif (p_nif e));;
                 amend_arpe i (set_a_hwaddr sha);;
                 amend_arpe i (set_a_praddr spa);;
                 now ← gets (fun w => clktime (kern w));
                 amend_arpe i (set_a_expires (u32 (now + ARP_TTL_RESOLVED)));;
                 mret true
             end
         end;
  if negb made then
    kcall EXIT_KERNEL_CRITICAL_SECTION;; netFreebuf p;; mret (inr SYSERR)
  else if op =? ARP_OP_RQST then
    q ← gets (fun w => arpqueue (own w));
    n ← kcall (mailboxCount q);
    if ARP_NQUEUE <=? n then
      kcall EXIT_KERNEL_CRITICAL_SECTION;; netFreebuf p;; mret (inr SYSERR)
    else
      kcall (mailboxSend q (i32 p));;
      kcall EXIT_KERNEL_CRITICAL_SECTION;;
      mret (inl true)
  else mret (inl false).

Definition arpRecv (p : Z) : nprog Z :=
  if NULL =? p then mret SYSERR else
  e ← pkt p;
  amend_pkt p (set_p_nethdr (p_curr e));;
  let arp := p_curr e in
  match p_nif e with
  | None => netFreebuf p;; mret SYSERR
  | Some n =>
      if arp =? NULL then netFreebuf p;; mret SYSERR else
      hwtype ← ucall (ldh arp);
      hwalen ← ucall (ldb (arp + ARP_HWALEN));
      if negb (ARP_HWTYPE_ETHERNET =? net2hs hwtype) || negb (ETH_ADDR_LEN =? hwalen) then
        netFreebuf p;; mret SYSERR
      else
      prtype ← ucall (ldh (arp + ARP_PRTYPE));
      pralen ← ucall (ldb (arp + ARP_PRALEN));
      if negb (ETHER_TYPE_IPv4 =? net2hs prtype) || negb (IPv4_ADDR_LEN =? pralen) then
        netFreebuf p;; mret SYSERR
      else
      sha ← addr_from (net2hs hwtype) hwalen (arp + ARP_ADDRS);
      spa ← addr_from (net2hs prtype) pralen (arp + ARP_ADDRS + hwalen);
      kcall ENTER_KERNEL_CRITICAL_SECTION;;
      entry ← arpGetEntry spa;
      match entry with Some i => arp_update i sha | None => mret tt end;;
      dpa ← addr_from (net2hs prtype) pralen (arp + ARP_ADDRS + (hwalen * 2 + pralen));
      netptr ← nif n;
      mine ← netaddrequal (n_ip netptr) dpa;
      r ← (if (mine : bool) then
             op ← ucall (ldh (arp + ARP_OP));
             arp_mine p entry sha spa (net2hs op)
           else mret (inl false));
      match r with
      | inr r => mret r
      | inl true => mret OK
      | inl false => kcall EXIT_KERNEL_CRITICAL_SECTION;; netFreebuf p;; mret OK
      end
  end.
End Arp.

(** ** Frames *)

Section Frame.
Context {H : Type} (devtab : gmap Z (device (net H))) (sent : H -> list (list Z)).

(** The packet [p], whose bytes are [payload], can be sent on the interface [n]. *)
Record sendable (w : dst (net H)) (p n : Z) (payload : list Z) (e : packet) (nf : netif) : Prop := {
  sd_p : p <> NULL;
  sd_pkt : pkts (own w) !! p = Some e;
  sd_pnif : p_nif e = Some n;
  sd_nif : netiftab (own w) !! n = Some nf;
  sd_alloc : n_state nf = NET_ALLOC;
  sd_link : n_linkhdrlen nf = ETH_HDR_LEN;
  sd_hw : addr_ok (n_hwaddr nf);
  sd_hwlen : na_len (n_hwaddr nf) = ETH_ADDR_LEN;
  sd_capture : n_capture nf = None;
  sd_curr : ETH_HDR_LEN <= p_curr e < 2 ^ 32;
  sd_len : p_len e = Z.of_nat (length payload) /\ Z.of_nat (length payload) + ETH_HDR_LEN < 2 ^ 32;
  sd_room : mapped (user w) (p_curr e - ETH_HDR_LEN) ETH_HDR_LEN;
  sd_bytes : bytes_at (user w) (p_curr e) payload;
}.

(** The frame on the wire. *)
Definition frame (dst src : netaddr) (type : Z) (payload : list Z) : list Z :=
  abytes dst ++ abytes src ++ [type / 256; type mod 256] ++ payload.

(** What sending changes: the header in front of the packet, its length and the place of
    its first byte, the device, and the registers that the search for an address sets. *)
Definition sent_packet (w : dst (net H)) (p : Z) (e : packet) (k : kst) (m : bytemem) (h : H) : dst (net H) :=
  put_link h (put_pkts (<[p := set_p_len (p_len e + ETH_HDR_LEN) (set_p_curr (p_curr e - ETH_HDR_LEN) e)]> (pkts (own w)))
    (mkDst k m (own w))).

Lemma run_netSend_with w p n payload e nf lookup hw pr type h k :
  sendable w p n payload e nf -> Wire devtab (n_dev nf) sent -> 0 <= type < 65536 ->
  addr_ok h -> na_len h = ETH_ADDR_LEN ->
  (forall w', kern w' = kern w -> arptab (own w') = arptab (own w) ->
     run (match hw with Some h => mret (OK, h) | None => lookup (Some n) pr end) w' = Done (OK, h) (set_kern k w')) ->
  exists m h', run (netSend_with devtab lookup p hw pr type) w = Done OK (sent_packet w p e k m h') /\
    sent h' = sent (link (own w)) ++ [frame h (n_hwaddr nf) type payload] /\
    (forall x, x < p_curr e - ETH_HDR_LEN \/ p_curr e <= x -> m !! x = user w !! x).
Proof.
  intros [Hp Hpk Hpn Hn Ha Hl Hhw Hhl Hc Hcur [El Hlen] Hroom Hpay] HW Ht Hh Hhlen Hlook.
  unfold netSend_with, NULL, ETH_HDR_LEN, ETH_ADDR_LEN in *. rewrite (proj2 (Z.eqb_neq 0 p)) by done.
  rewrite run_bind, (run_pkt _ e) by done. cbn [obind]. rewrite Hpn, run_bind, (run_nif _ nf) by done. cbn [obind].
  rewrite Ha. change (negb (NET_ALLOC =? NET_ALLOC)) with false. cbn match.
  rewrite run_bind, (run_amend_pkt _ _ e) by done. cbn [obind]. rewrite run_bind, (run_amend_pkt _ _ (set_p_curr (u32 (p_curr e - n_linkhdrlen nf)) e)) by (nsimpl; apply lookup_insert_eq).
  cbn [obind]. nsimpl. rewrite insert_insert_eq, Hl, !u32_small by lia.
  set (e1 := set_p_len _ _). set (o1 := own (put_pkts (<[p := e1]> (pkts (own w))) w)).
  assert (Hp1 : pkts o1 !! p = Some e1) by apply lookup_insert_eq.
  match goal with |- context [run _ ?x] => change x with (mkDst (kern w) (user w) o1) end.
  rewrite run_bind, (run_pkt _ e1) by done. cbn [obind]. change (p_curr e1) with (p_curr e - 14).
  destruct (region_start 14 (user w) (p_curr e - 14)) as (l & R & Ll); [done |].
  explode_list l Ll. unfold ETHER_TYPE. rewrite run_bind. hstore @region_sth 12.
  destruct (hs2net_bytes type Ht) as [E1 E2]. rewrite E1, E2 in R. clear E1 E2.
  rewrite run_bind, run_first_bytes by (rewrite (ao_addr _ Hhw); lia). cbn [obind]. unfold frame.
  fold (abytes (n_hwaddr nf)). pose proof (length_abytes _ Hhw) as La. pose proof (abytes_bytes _ Hhw) as Ba.
  rewrite Hhl in La. generalize dependent (abytes (n_hwaddr nf)). intros src La Ba. explode_list src La.
  rewrite run_bind. hstore @region_wr 6.
  rewrite run_bind, Hlook by done. cbn [obind negb Z.eqb]. change (negb (OK =? OK)) with false. cbn match.
  rewrite run_bind, run_first_bytes by (rewrite (ao_addr _ Hh); lia). cbn [obind].
  fold (abytes h). pose proof (length_abytes _ Hh) as Lh. pose proof (abytes_bytes _ Hh) as Bh.
  rewrite Hhlen in Lh. generalize dependent (abytes h). intros dst Lh Bh. explode_list dst Lh.
  unfold set_kern. nsimpl. rewrite run_bind. hstore @region_wr 0. 
  rewrite run_bind, (run_pkt _ e1) by done. cbn [obind]. rewrite run_bind, (run_nif _ nf) by done. cbn [obind].
  set (hdr := [c19; c20; c21; c22; c23; c24; c13; c14; c15; c16; c17; c18; type / 256; type mod 256]) in *. assert (Lhdr : length hdr = 14%nat) by done.
  destruct R as [R1 R2]. cbn [length] in R2.
  change (_ ++ _ ++ _ ++ payload) with (hdr ++ payload).
  assert (Hf : bytes_at m1 (p_curr e - 14) (hdr ++ payload)).
  { apply bytes_at_app. split; [exact R1 |]. intros i x Hi. rewrite R2 by lia.
    replace (p_curr e - 14 + Z.of_nat (length hdr) + Z.of_nat i) with (p_curr e + Z.of_nat i) by lia. by apply Hpay. }
  destruct (wire_write (mkDst k m1 o1) (p_curr e - 14) (hdr ++ payload) Hf ltac:(done)) as (h' & Ew & Es).
  change (p_curr e1) with (p_curr e - 14). change (p_len e1) with (p_len e + 14).
  replace (p_len e + 14) with (Z.of_nat (length (hdr ++ payload))) by (rewrite length_app; lia).
  rewrite run_bind, Ew. cbn [obind]. rewrite run_bind, (run_pkt _ e1) by done. cbn [obind]. change (p_len e1) with (p_len e + 14).
  rewrite u32_small by (rewrite length_app; lia).
  rewrite (proj2 (Z.eqb_eq _ _)) by (rewrite length_app; lia). cbn [negb].
  rewrite run_bind, (run_nif _ nf) by done. cbn [obind]. rewrite Hc.
  exists m1, h'. split; [done |]. split; [done |]. intros x Hx. apply R2. lia.
Qed.
End Frame.

(** ** Looking up an address *)

Section Lookup.
Context {H : Type} (devtab : gmap Z (device (net H))).

(** The table has all its entries, and none of those in use has expired. *)
Definition arp_used (e : arpEntry) : bool := negb (Z.land ARP_USED (a_state e) =? 0).
Definition arps_ok (w : dst (net H)) : Prop := forall i, 0 <= i < ARP_NENTRY ->
  exists e, arptab (own w) !! i = Some e /\ addr_ok (a_praddr e) /\ (arp_used e = true -> clktime (kern w) <= a_expires e).

(** Entry [i] is the first in use for the address [pr]. *)
Definition arp_hit (pr : netaddr) (e : arpEntry) : bool := arp_used e && same_addr (a_praddr e) pr.
Definition first_hit (w : dst (net H)) (pr : netaddr) (i : Z) (e : arpEntry) : Prop :=
  0 <= i < ARP_NENTRY /\ arptab (own w) !! i = Some e /\ arp_hit pr e = true /\
  forall j e', 0 <= j < i -> arptab (own w) !! j = Some e' -> arp_hit pr e' = false.

Lemma run_getentry_body w pr i e : arps_ok w -> addr_ok pr -> 0 <= i < ARP_NENTRY -> arptab (own w) !! i = Some e ->
  run (getentry_body pr i tt) w = Done (if arp_hit pr e then inr i else inl tt) w.
Proof.
  intros Hok Hpr Hi He. destruct (Hok i Hi) as (e' & He' & Ha & Hlive). assert (e' = e) as -> by congruence.
  unfold getentry_body, arp_hit. rewrite run_bind, (run_arpe _ e) by done. cbn [obind].
  unfold arp_used in *. destruct (Z.land ARP_USED (a_state e) =? 0); cbn [negb andb] in *; [done |].
  autorewrite with prun. cbn [obind]. rewrite (proj2 (Z.ltb_ge _ _)) by by apply Hlive.
  rewrite run_bind, run_netaddrequal by done. cbn [obind]. by destruct (same_addr _ _).
Qed.

(** Inside the critical section the same entries count. *)
Lemma arps_ok_kern w k : arps_ok w -> clktime k = clktime (kern w) -> arps_ok (mkDst k (user w) (own w)).
Proof. intros Hok Hk i Hi. nsimpl. rewrite Hk. by apply Hok. Qed.

Lemma run_arpGetEntry w pr i e : arps_ok w -> addr_ok pr -> inCrit (kern w) = true -> first_hit w pr i e ->
  run (arpGetEntry pr) w = Done (Some i) (mkDst (crit_out (crit_in (kern w))) (user w) (own w)).
Proof.
  intros Hok Hpr Hc (Hi & He & Hh & Hno). unfold arpGetEntry. drun.
  assert (Hok1 : arps_ok (mkDst (crit_in (kern w)) (user w) (own w))) by by apply arps_ok_kern.
  rewrite (for_find (getentry_body pr) _ (Z.to_nat i) i).
  - cbn [obind]. by drun.
  - unfold ARP_NENTRY in *. lia.
  - intros j Hj. destruct (Hok (Z.of_nat j)) as (e' & He' & _); [lia |].
    rewrite (run_getentry_body _ _ _ e') by (done || (unfold ARP_NENTRY in *; lia)). by rewrite (Hno (Z.of_nat j) e') by (done || lia).
  - rewrite Z2Nat.id by lia. rewrite (run_getentry_body _ _ _ e) by done. by rewrite Hh.
Qed.

Lemma run_arpGetEntry_none w pr : arps_ok w -> addr_ok pr -> inCrit (kern w) = true ->
  (forall j e, 0 <= j < ARP_NENTRY -> arptab (own w) !! j = Some e -> arp_hit pr e = false) ->
  run (arpGetEntry pr) w = Done None (mkDst (crit_out (crit_in (kern w))) (user w) (own w)).
Proof.
  intros Hok Hpr Hc Hno. unfold arpGetEntry. drun.
  assert (Hok1 : arps_ok (mkDst (crit_in (kern w)) (user w) (own w))) by by apply arps_ok_kern.
  rewrite for_all; [cbn [obind]; by drun |]. intros j Hj.
  assert (Hj' : 0 <= Z.of_nat j < ARP_NENTRY) by (unfold ARP_NENTRY in *; lia). destruct (Hok _ Hj') as (e' & He' & _).
  rewrite (run_getentry_body _ _ _ e') by done. by rewrite (Hno (Z.of_nat j) e').
Qed.

(** An entry that is resolved. *)
Definition resolves (w : dst (net H)) (pr hw : netaddr) : Prop :=
  exists i e, first_hit w pr i e /\ a_state e = ARP_RESOLVED /\ a_hwaddr e = hw.

Lemma run_arpLookup w n pr hw : arps_ok w -> addr_ok pr -> inCrit (kern w) = true -> resolves w pr hw ->
  run (arpLookup devtab (Some n) (Some pr)) w =
    Done (OK, hw) (mkDst (crit_out (crit_in (crit_in (kern w)))) (user w) (own w)).
Proof.
  intros Hok Hpr Hc (i & e & Hf & Hs & Hh). unfold arpLookup. rewrite run_bind.
  change (Z.to_nat ARP_MAX_LOOKUP) with 5%nat. cbn [for_]. rewrite run_bind.
  assert (run (lookup_round devtab n pr 0 tt) w = Done (inr (OK, hw)) (mkDst (crit_out (crit_in (crit_in (kern w)))) (user w) (own w))) as ->; [| done].
  unfold lookup_round. drun. rewrite (run_arpGetEntry _ pr i e); [| by apply arps_ok_kern | done | done | exact Hf].
  cbn [obind]. dsimpl. rewrite run_bind, run_ret. cbn [obind]. rewrite run_bind, (run_arpe _ e) by apply Hf. cbn [obind]. rewrite Hs, Hh. done.
Qed.

(** Entries that have expired; one that is freed. *)
Definition arp_expired (now : Z) (e : arpEntry) : bool := arp_used e && (a_expires e <? now).
Definition arp_freed : arpEntry := set_a_state ARP_FREE zero_arp.

(** The table when the entries before [i] have been looked at. *)
Definition swept (now i : Z) (tab : gmap Z arpEntry) : gmap Z arpEntry :=
  map_imap (fun j e => Some (if bool_decide (0 <= j < i) && arp_expired now e then arp_freed else e)) tab.

(** The table has all its entries, and no thread waits at one that has expired. *)
Definition arps_tidy (w : dst (net H)) : Prop := forall i, 0 <= i < ARP_NENTRY ->
  exists e, arptab (own w) !! i = Some e /\ addr_ok (a_praddr e) /\ (arp_expired (clktime (kern w)) e = true -> a_state e <> ARP_UNRESOLVED).

(** Entry [i] is the first in use for the address [pr] that has not expired. *)
Definition arp_live (now : Z) (pr : netaddr) (e : arpEntry) : bool := negb (arp_expired now e) && arp_hit pr e.
Definition first_live (w : dst (net H)) (pr : netaddr) (i : Z) (e : arpEntry) : Prop :=
  0 <= i < ARP_NENTRY /\ arptab (own w) !! i = Some e /\ arp_live (clktime (kern w)) pr e = true /\
  forall j e', 0 <= j < i -> arptab (own w) !! j = Some e' -> arp_live (clktime (kern w)) pr e' = false.

Lemma swept_at now i tab j e : tab !! j = Some e ->
  swept now i tab !! j = Some (if bool_decide (0 <= j < i) && arp_expired now e then arp_freed else e).
Proof. intros E. unfold swept. by rewrite map_lookup_imap, E. Qed.

Lemma swept_0 now tab : swept now 0 tab = tab.
Proof. apply map_eq. intros j. unfold swept. rewrite map_lookup_imap. destruct (tab !! j); [| done]. cbn. by rewrite bool_decide_eq_false_2 by lia. Qed.

Lemma swept_next now i tab e : 0 <= i -> tab !! i = Some e ->
  swept now (i + 1) tab = if arp_expired now e then <[i := arp_freed]> (swept now i tab) else swept now i tab.
Proof.
  intros Hi E. apply map_eq. intros j. destruct (decide (i = j)) as [<- | Hne].
  - rewrite (swept_at _ _ _ _ e) by done. rewrite bool_decide_eq_true_2 by lia. destruct (arp_expired now e) eqn:Ee; cbn [andb].
    + by rewrite lookup_insert_eq.
    + rewrite (swept_at _ _ _ _ e) by done. by rewrite bool_decide_eq_false_2 by lia.
  - transitivity (swept now i tab !! j).
    + unfold swept. rewrite !map_lookup_imap. destruct (tab !! j); [| done]. cbn. by rewrite (bool_decide_ext (0 <= j < i + 1) (0 <= j < i)) by lia.
    + destruct (arp_expired now e); [| done]. by rewrite lookup_insert_ne.
Qed.

(** A round of the search, in the swept table: an entry that has expired is freed. *)
Lemma run_getentry_swept (w : dst (net H)) pr i e : addr_ok pr -> 0 <= i -> arptab (own w) !! i = Some e -> addr_ok (a_praddr e) ->
  (arp_expired (clktime (kern w)) e = true -> a_state e <> ARP_UNRESOLVED) ->
  run (getentry_body pr i tt) (put_arptab (swept (clktime (kern w)) i (arptab (own w))) w) =
    if arp_live (clktime (kern w)) pr e then Done (inr i) (put_arptab (swept (clktime (kern w)) i (arptab (own w))) w)
    else Done (inl tt) (put_arptab (swept (clktime (kern w)) (i + 1) (arptab (own w))) w).
Proof.
  intros Hpr Hi He Ha Hun. set (now := clktime (kern w)) in *. rewrite (swept_next _ _ _ e) by done.
  assert (E : swept now i (arptab (own w)) !! i = Some e) by (rewrite (swept_at _ _ _ _ e) by done; by rewrite bool_decide_eq_false_2 by lia).
  unfold getentry_body, arp_live, arp_hit. set (w1 := put_arptab _ w). rewrite run_bind, (run_arpe _ e w1) by done. cbn [obind].
  unfold arp_expired in *. unfold arp_used in *. destruct (Z.land ARP_USED (a_state e) =? 0); cbn [negb andb] in *; [done |].
  rewrite run_bind, run_gets. cbn [obind]. change (clktime (kern w1)) with now.
  destruct (a_expires e <? now) eqn:Ex; cbn [negb andb] in *.
  - rewrite run_bind. unfold arpFree. rewrite run_bind, (run_arpe _ e w1) by done. cbn [obind]. rewrite (proj2 (Z.eqb_neq _ _)) by by apply not_eq_sym, Hun.
    rewrite run_bind, run_ret. cbn [obind]. rewrite run_bind, (run_amend_arpe _ _ e w1) by done. cbn [obind].
    rewrite run_bind, (run_amend_arpe _ _ zero_arp) by apply lookup_insert_eq. cbn [obind]. rewrite run_ret. cbn [obind]. rewrite run_ret.
    f_equal. unfold w1, put_arptab. nsimpl. by rewrite insert_insert_eq.
  - rewrite run_bind, run_netaddrequal by done. cbn [obind]. by destruct (same_addr _ _).
Qed.

(** [w] with the part before [i] of its table swept. *)
Definition after_sweep (i : Z) (w : dst (net H)) : dst (net H) := put_arptab (swept (clktime (kern w)) i (arptab (own w))) w.

Lemma run_arpGetEntry_live w pr i e : arps_tidy w -> addr_ok pr -> inCrit (kern w) = true -> first_live w pr i e ->
  run (arpGetEntry pr) w = Done (Some i) (mkDst (crit_out (crit_in (kern w))) (user w) (own (after_sweep i w))).
Proof.
  intros Hok Hpr Hc (Hi & He & Hl & Hno). unfold arpGetEntry. drun. set (w1 := mkDst (crit_in (kern w)) (user w) (own w)).
  pose proof (fun v s' n => for_exit (getentry_body pr) v s' (Z.to_nat i) n 0 (fun _ => tt) (fun k => after_sweep (Z.of_nat k) w1)) as Hfor.
  cbv beta in Hfor. replace (after_sweep (Z.of_nat 0) w1) with w1 in Hfor by (unfold after_sweep; rewrite swept_0; by destruct (own w)).
  rewrite (Hfor i (after_sweep i w1)); clear Hfor.
  - cbn [obind]. by drun.
  - unfold ARP_NENTRY in *. lia.
  - intros j Hj. destruct (Hok (Z.of_nat j)) as (e' & He' & Ha & Hun); [unfold ARP_NENTRY in *; lia |].
    rewrite Z.add_0_l. unfold after_sweep at 1. rewrite (run_getentry_swept w1 pr _ e') by (done || lia).
    change (clktime (kern w1)) with (clktime (kern w)). rewrite (Hno (Z.of_nat j) e') by (done || lia). by replace (Z.of_nat (S j)) with (Z.of_nat j + 1) by lia.
  - destruct (Hok i Hi) as (e' & He' & Ha & Hun). assert (e' = e) as -> by congruence.
    rewrite Z2Nat.id, Z.add_0_l by lia. unfold after_sweep at 1. rewrite (run_getentry_swept w1 pr _ e) by (done || lia).
    change (clktime (kern w1)) with (clktime (kern w)). by rewrite Hl.
Qed.


Lemma live_after_sweep w pr i e : first_live w pr i e -> arptab (own (after_sweep i w)) !! i = Some e.
Proof. intros (_ & He & _). unfold after_sweep. nsimpl. rewrite (swept_at _ _ _ _ e) by done. by rewrite bool_decide_eq_false_2 by lia. Qed.

Lemma masked_twice s : irqs_masked (crit_out (crit_in (crit_in s))) = true.
Proof. unfold irqs_masked. ksimpl. rewrite !Z.lor_spec, !Z.land_spec, !Z.lor_spec. change (Z.testbit ARM_I_BIT 7) with true. by rewrite !orb_true_r. Qed.

(** C32: An address with an entry in the table that is resolved and has not expired is found
    at once, without a packet or a wait: the hardware address is that of the first entry
    in use for it that has not expired.  The entries before that one which have expired
    are freed (the table is one where no thread waits at such an entry), and nothing else
    changes.  But the routine returns from inside its critical
    section: interrupts are masked afterwards, whatever they were. *)
Theorem arpLookup_resolved (w : dst (net H)) n pr i e : arps_tidy w -> addr_ok pr -> inCrit (kern w) = true -> first_live w pr i e -> a_state e = ARP_RESOLVED ->
  exists w', run (arpLookup devtab (Some n) (Some pr)) w = Done (OK, a_hwaddr e) w' /\
    own w' = own (put_arptab (swept (clktime (kern w)) i (arptab (own w))) w) /\ user w' = user w /\ irqs_masked (kern w') = true.
Proof.
  intros Hok Hpr Hc Hl Hs. exists (mkDst (crit_out (crit_in (crit_in (kern w)))) (user w) (own (after_sweep i w))).
  split; [| split; [done | split; [done | by apply masked_twice]]].
  unfold arpLookup. rewrite run_bind. change (Z.to_nat ARP_MAX_LOOKUP) with 5%nat. cbn [for_]. rewrite run_bind.
  assert (run (lookup_round devtab n pr 0 tt) w = Done (inr (OK, a_hwaddr e)) (mkDst (crit_out (crit_in (crit_in (kern w)))) (user w) (own (after_sweep i w)))) as ->; [| done].
  unfold lookup_round. drun. rewrite (run_arpGetEntry_live _ pr i e) by done. cbn [obind]. dsimpl.
  rewrite run_bind, run_ret. cbn [obind]. rewrite run_bind, (run_arpe _ e) by (exact (live_after_sweep w pr i e Hl)). cbn [obind]. by rewrite Hs.
Qed.
End Lookup.
