(* ===== verification/Ipv4.v ===== *)
(** IPv4 and ICMP: network/ipv4/ipv4RecvValid.c, ipv4RecvDemux.c, ipv4Send.c and
    ipv4SendFrag.c; network/icmp/icmpSend.c, icmpDestUnreach.c, icmpTimeExceeded.c,
    icmpRedirect.c, icmpEchoReply.c and icmpEchoRequest.c; network/route/rtSend.c and
    rtDaemon.c.  Sending a packet that is too long but must not be fragmented sends an
    ICMP message, which is a packet again: [ipv4SendFrag] has the depth of this
    recursion as fuel. *)
From Stdlib Require Import ZArith Lia FunctionalExtensionality.
From stdpp Require Import sorting gmap functions list.
From S2P Require Import Prelude Kernel Queue QueueFacts Sched Semaphore Clock Message Memory Boot Frame Thread Mailbox BufPool Bytes Device DevTab Chksum Netaddr Net Wire Snoop Route Arp.

(** ** Constants: include/ipv4.h, include/icmp.h *)

Definition IPv4_IHL : Z := 15.
Definition IPv4_VER : Z := 240.
Definition IPv4_FLAGS : Z := 57344.
Definition IPv4_FROFF : Z := 8191.
Definition IPv4_TTL : Z := 64.
Definition IPv4_MIN_IHL : Z := 5.
Definition IPv4_MAX_IHL : Z := 15.
Definition IPv4_VERSION : Z := 4.
Definition IPv4_FLAG_MF : Z := 8192.
Definition IPv4_FLAG_DF : Z := 16384.
Definition IPv4_TOS_ROUTINE : Z := 0.

Definition ICMP_HEADER_LEN : Z := 4.
Definition ICMP_DEF_DATALEN : Z := 64.
Definition ICMP_ECHOREPLY : Z := 0.
Definition ICMP_UNREACH : Z := 3.
Definition ICMP_REDIRECT : Z := 5.
Definition ICMP_ECHO : Z := 8.
Definition ICMP_TIMEEXCD : Z := 11.
Definition ICMP_NET_UNR : Z := 0.
Definition ICMP_HST_UNR : Z := 1.
Definition ICMP_PORT_UNR : Z := 3.
Definition ICMP_FOFF_DFSET : Z := 4.
Definition ICMP_RNET : Z := 0.
Definition ICMP_RHST : Z := 1.
Definition ICMP_TTL_EXC : Z := 0.
Definition ICMP_NQUEUE : Z := 10.
Definition ICMP_THR_PRIO : Z := NET_THR_PRIO.
Definition ICMP_THR_STK : Z := NET_THR_STK.
Definition NPINGQUEUE : Z := 5.
Definition NPINGHOLD : Z := 10.
(** [sizeof(struct icmpEcho)] *)
Definition SIZEOF_ECHO : Z := 28.

(** [hl2net] *)
Definition hl2net (x : Z) : Z :=
  Z.lor (Z.shiftl (Z.land x 255) 24) (Z.lor (Z.land (Z.shiftr x 24) 255)
    (Z.lor (Z.shiftr (Z.land x 16711680) 8) (Z.shiftl (Z.land x 65280) 8))).

(** A 32-bit store. *)
Definition stl (a v : Z) : bprog unit := sth a (Z.land v 65535);; sth (a + 2) (Z.shiftr v 16).

(** ** Validity *)

Definition ipv4RecvValid (ip : Z) : bprog bool :=
  ver_ihl ← ldb ip;
  let ip_ihl := Z.land ver_ihl IPv4_IHL in
  if negb (Z.shiftr (Z.land ver_ihl IPv4_VER) 4 =? IPv4_VERSION) then mret false else
  if (ip_ihl <? IPv4_MIN_IHL) || (ip_ihl >? IPv4_MAX_IHL) then mret false else
  len ← ldh (ip + IP_LEN);
  if len <? IPv4_MIN_IHL * 4 then mret false else
  sum ← netChksum ip (ip_ihl * 4);
  mret (sum =? 0).

Section Ipv4.
Context {H : Type} (devtab : gmap Z (device (net H))).

Abbreviation nprog := (dprog (net H)).

Definition demux_body (dst : netaddr) (i : Z) (_ : unit) : nprog (unit + unit) :=
  netptr ← nif i;
  if negb (n_state netptr =? NET_ALLOC) then mret (inl tt) else
  eq ← netaddrequal dst (n_ip netptr);
  eq ← (if (eq : bool) then mret true else netaddrequal dst (n_ipbrc netptr));
  mret (if (eq : bool) then inr tt else inl tt).

Definition ipv4RecvDemux (dst : netaddr) : nprog bool :=
  r ← for_ (Z.to_nat NNETIF) 0 (demux_body dst) tt;
  mret (match r with inr _ => true | inl _ => false end).

(** An IPv4 address in memory. *)
Definition ip_addr (a : Z) : nprog netaddr :=
  l ← ucall (rd_bytes (Z.to_nat IPv4_ADDR_LEN) a);
  mret (mkNetaddr NETADDR_IPv4 IPv4_ADDR_LEN (into_addr l (replicate 6 0))).

(** [memcpy] of the first four bytes of an address. *)
Definition put_ip (a : Z) (addr : netaddr) : nprog unit :=
  l ← first_bytes IPv4_ADDR_LEN (na_addr addr);
  ucall (wr_bytes a l).

(** The header checksum, computed with its own place zero. *)
Definition put_chksum (ip len : Z) : nprog unit :=
  ucall (sth (ip + IP_CHKSUM) 0);;
  sum ← ucall (netChksum ip len);
  ucall (sth (ip + IP_CHKSUM) sum).

(** ** Sending *)

(** [ipv4Send], with the routine that sends the packet to the next hop. *)
Definition ipv4Send_with (frag : Z -> netaddr -> nprog Z)
    (p : Z) (src : netaddr) (dst : option netaddr) (proto : Z) : nprog Z :=
  if NULL =? p then mret SYSERR else
  match dst with
  | None => mret SYSERR
  | Some dst =>
      if negb (na_type dst =? NETADDR_IPv4) then mret SYSERR else
      rtptr ← rtLookup dst;
      match rtptr with
      | None => mret SYSERR
      | Some i =>
          rt ← rte i;
          amend_pkt p (set_p_nif (r_nif rt));;
          rt ← rte i;
          let nxthop := if NULL =? na_type (r_gateway rt) then dst else r_gateway rt in
          amend_pkt p (fun e => set_p_len (u32 (p_len e + IPv4_HDR_LEN)) e);;
          amend_pkt p (fun e => set_p_curr (u32 (p_curr e - IPv4_HDR_LEN)) e);;
          e ← pkt p;
          let ip := p_curr e in
          ucall (stb ip (Z.shiftl IPv4_VERSION 4));;
          v ← ucall (ldb ip);
          ucall (stb ip (v + IPv4_HDR_LEN / 4));;
          ucall (stb (ip + 1) IPv4_TOS_ROUTINE);;
          ucall (sth (ip + IP_LEN) (hs2net (p_len e)));;
          ucall (sth (ip + IP_ID) 0);;
          ucall (sth (ip + IP_FROFF) 0);;
          ucall (stb (ip + IP_TTL) IPv4_TTL);;
          ucall (stb (ip + IP_PROTO) proto);;
          (if NULL =? na_type src then
             netptr ← pkt_nif p;
             put_ip (ip + IP_SRC) (n_ip netptr)
           else put_ip (ip + IP_SRC) src);;
          put_ip (ip + IP_DST) dst;;
          put_chksum ip IPv4_HDR_LEN;;
          frag p nxthop
      end
  end.

(** [icmpSend], with the routine that sends the packet. *)
Definition icmpSend_with (send : Z -> netaddr -> option netaddr -> Z -> nprog Z)
    (p type code datalen : Z) (src dst : netaddr) : nprog Z :=
  if NULL =? p then mret SYSERR else
  amend_pkt p (fun e => set_p_curr (u32 (p_curr e - ICMP_HEADER_LEN)) e);;
  amend_pkt p (fun e => set_p_len (u32 (p_len e + ICMP_HEADER_LEN)) e);;
  e ← pkt p;
  let icmp := p_curr e in
  ucall (stb icmp type);;
  ucall (stb (icmp + 1) code);;
  ucall (sth (icmp + 2) 0);;
  sum ← ucall (netChksum icmp (datalen + ICMP_HEADER_LEN));
  ucall (sth (icmp + 2) sum);;
  send p src (Some dst) IPv4_PROTO_ICMP.

(** The source of an ICMP message is not given. *)
Definition no_addr : netaddr := zero_netaddr.

(** The message about the packet [unreached]: its header and the first bytes of its data,
    after four bytes that [first] writes; then it is sent and its buffer freed. *)
Definition icmp_about (send : Z -> netaddr -> option netaddr -> Z -> nprog Z)
    (first : Z -> nprog unit) (unreached type code : Z) : nprog Z :=
  p ← netGetbuf;
  if SYSERR =? i32 p then mret SYSERR else
  u ← pkt unreached;
  let ip := p_nethdr u in
  dst ← ip_addr (ip + IP_SRC);
  ver_ihl ← ucall (ldb ip);
  let ihl := Z.land ver_ihl IPv4_IHL * 4 in
  amend_pkt p (set_p_len (ihl + ICMP_DEF_DATALEN));;
  amend_pkt p (fun e => set_p_curr (u32 (p_curr e - p_len e)) e);;
  e ← pkt p;
  ucall (memcpy (p_curr e) ip (ihl + ICMP_DEF_DATALEN));;
  amend_pkt p (fun e => set_p_curr (u32 (p_curr e - 4)) e);;
  amend_pkt p (fun e => set_p_len (u32 (p_len e + 4)) e);;
  e ← pkt p;
  first (p_curr e);;
  e ← pkt p;
  result ← icmpSend_with send p type code (p_len e) no_addr dst;
  netFreebuf p;;
  mret result.

Definition icmpDestUnreach_with (send : Z -> netaddr -> option netaddr -> Z -> nprog Z) (unreached code : Z) : nprog Z :=
  icmp_about send (fun a => ucall (stl a 0)) unreached ICMP_UNREACH code.

(** The fields of the header of a fragment. *)
Definition set_froff (ip flags : Z) : nprog unit :=
  ucall (sth (ip + IP_FROFF) flags);;
  h ← ucall (ldh (ip + IP_FROFF));
  ucall (sth (ip + IP_FROFF) (hs2net h)).

(** One round of the loop over the remaining fragments, whose state is
    [(dRem, data, froff)]. *)
Definition frag_body (p outp outip lastFlag : Z) (nxthop : netaddr)
    (send : Z -> nprog Z) (st : Z * Z * Z) : nprog (Z * Z * Z) :=
  let '(dRem, data, froff) := st in
  netptr ← pkt_nif p;
  let dLen := u16 (if u32 (n_mtu netptr + IPv4_HDR_LEN) <? Z.land (u32 (dRem + 7)) (Z.lnot 7)
                   then Z.land (u32 (n_mtu netptr - IPv4_HDR_LEN)) (Z.lnot 7) else dRem) in
  ucall (memcpy (outip + IP_OPTS) data dLen);;
  set_froff outip (if dLen =? dRem then Z.land lastFlag froff else Z.land IPv4_FLAG_MF froff);;
  ucall (sth (outip + IP_LEN) (hs2net (IPv4_HDR_LEN + dLen)));;
  put_chksum outip IPv4_HDR_LEN;;
  h ← ucall (ldh (outip + IP_LEN));
  amend_pkt outp (set_p_len (net2hs h));;
  send outp;;
  mret (u32 (dRem - dLen), data + dLen, u16 (froff + dLen / 8)).

(** Each round of the loop takes at least one byte of the rest, or the loop never ends.
    The first argument bounds the messages about messages, see [ipv4SendFrag_depth]. *)
Fixpoint ipv4SendFrag (fuel : nat) (p : Z) (nxthop : netaddr) {struct fuel} : nprog Z :=
  match fuel with
  | O => diverge
  | S fuel =>
      if NULL =? p then mret SYSERR else
      e ← pkt p;
      let ip := p_curr e in
      netptr ← pkt_nif p;
      len ← ucall (ldh (ip + IP_LEN));
      if net2hs len <=? n_mtu netptr then
        brc ← netaddrequal (n_ipbrc netptr) nxthop;
        if (brc : bool) then netSend devtab p (Some NETADDR_GLOBAL_ETH_BRC) (Some nxthop) ETHER_TYPE_IPv4
        else netSend devtab p None (Some nxthop) ETHER_TYPE_IPv4
      else
      flags ← ucall (ldh (ip + IP_FROFF));
      if negb (Z.land (net2hs flags) IPv4_FLAG_DF =? 0) then
        icmpDestUnreach_with (ipv4Send_with (ipv4SendFrag fuel)) p ICMP_FOFF_DFSET;;
        mret SYSERR
      else
      ver_ihl ← ucall (ldb ip);
      let ihl := Z.land ver_ihl IPv4_IHL * 4 in
      let dRem := u32 (net2hs len - ihl) in
      let froff := Z.land (net2hs flags) IPv4_FROFF in
      let lastFlag := Z.land (net2hs flags) IPv4_FLAGS in
      let dLen := u16 (Z.land (u32 (n_mtu netptr - ihl)) (Z.lnot 7)) in
      amend_pkt p (set_p_len (ihl + dLen));;
      ucall (sth (ip + IP_LEN) (hs2net (ihl + dLen)));;
      set_froff ip (Z.land IPv4_FLAG_MF froff);;
      put_chksum ip ihl;;
      netSend devtab p None (Some nxthop) ETHER_TYPE_IPv4;;
      outp ← netGetbuf;
      if SYSERR =? i32 outp then mret SYSERR else
      netptr ← pkt_nif p;
      amend_pkt outp (fun o => set_p_curr (u32 (p_curr o - n_mtu netptr)) o);;
      o ← pkt outp;
      let outip := p_curr o in
      e ← pkt p;
      amend_pkt outp (set_p_nif (p_nif e));;
      ucall (memcpy outip ip IPv4_HDR_LEN);;
      while_ (S (Z.to_nat (u32 (dRem - dLen)))) (fun st => mret (negb (st.1.1 =? 0)))
        (frag_body p outp outip lastFlag nxthop (fun o => netSend devtab o None (Some nxthop) ETHER_TYPE_IPv4))
        (u32 (dRem - dLen), ip + ihl + dLen, u16 (froff + dLen / 8));;
      netFreebuf outp;;
      mret OK
  end.

(** A message about a packet that must not be fragmented may be fragmented itself, so
    that there is no message about it: depth two is enough, [ipv4SendFrag_depth]. *)
Definition FRAG_DEPTH : nat := 2.
Definition ipv4Send : Z -> netaddr -> option netaddr -> Z -> nprog Z := ipv4Send_with (ipv4SendFrag FRAG_DEPTH).

(** ** ICMP *)

Definition icmpSend (p type code datalen : Z) (src dst : netaddr) : nprog Z :=
  icmpSend_with ipv4Send p type code datalen src dst.

Definition icmpDestUnreach (unreached code : Z) : nprog Z := icmpDestUnreach_with ipv4Send unreached code.

Definition icmpTimeExceeded (unreached code : Z) : nprog Z :=
  icmp_about ipv4Send (fun a => ucall (stl a 0)) unreached ICMP_TIMEEXCD code.

Definition icmpRedirect (redir code route : Z) : nprog Z :=
  icmp_about ipv4Send (fun a => rt ← rte route; put_ip a (r_gateway rt)) redir ICMP_REDIRECT code.

Definition icmpEchoReply (p : Z) : nprog Z :=
  e ← pkt p;
  let ip := p_nethdr e in
  dst ← ip_addr (ip + IP_DST);
  src ← ip_addr (ip + IP_SRC);
  amend_pkt p (fun e => set_p_curr (u32 (p_curr e + ICMP_HEADER_LEN)) e);;
  amend_pkt p (fun e => set_p_len (u32 (p_len e - (p_curr e - data_of p))) e);;
  e ← pkt p;
  icmpSend p ICMP_ECHOREPLY 0 (p_len e) dst src.

(** system/platforms/arm-rpi/rpi-timer.c *)
Definition clkcount : kprog Z := gets tmr_clo.

Definition icmpEchoRequest (dst : netaddr) (id seq : Z) : nprog Z :=
  p ← netGetbuf;
  if SYSERR =? i32 p then mret SYSERR else
  amend_pkt p (set_p_len SIZEOF_ECHO);;
  amend_pkt p (fun e => set_p_curr (u32 (p_curr e - p_len e)) e);;
  e ← pkt p;
  let echo := p_curr e in
  ucall (sth echo (hs2net id));;
  ucall (sth (echo + 2) (hs2net seq));;
  kcall ENTER_KERNEL_CRITICAL_SECTION;;
  cyc ← kcall clkcount;
  ucall (stl (echo + 12) (hl2net cyc));;
  tic ← kcall (gets clkticks);
  ucall (stl (echo + 8) (hl2net tic));;
  sec ← kcall (gets clktime);
  ucall (stl (echo + 4) (hl2net sec));;
  kcall EXIT_KERNEL_CRITICAL_SECTION;;
  ucall (stl (echo + 24) 0);;
  ucall (stl (echo + 20) 0);;
  ucall (stl (echo + 16) 0);;
  result ← icmpSend p ICMP_ECHO 0 SIZEOF_ECHO no_addr dst;
  netFreebuf p;;
  mret result.

Definition echoq (i : Z) : nprog icmpEchoQueue := load (fun w => echotab (own w)) i.
Definition amend_echoq (i : Z) (f : icmpEchoQueue -> icmpEchoQueue) : nprog unit :=
  amend (fun w => echotab (own w)) put_echotab i f.

Definition icmpInit (FPU_WORDS fpexc fpscr userret icmpDaemon : Z) : nprog Z :=
  q ← kcall (mailboxAlloc ICMP_NQUEUE);
  modify (put_icmpqueue q);;
  if SYSERR =? q then mret SYSERR else
  for_ (Z.to_nat NPINGQUEUE) 0 (fun i _ =>
    amend_echoq i (fun _ => mkEchoQueue BADTID 0 0 (table NPINGHOLD 0));;
    mret (inl tt : unit + unit)) tt;;
  tid ← kcall (Thread.create FPU_WORDS fpexc fpscr userret icmpDaemon ICMP_THR_STK ICMP_THR_PRIO
                 [105; 99; 109; 112; 68; 97; 101; 109; 111; 110] 0 []);
  kcall (ready tid);;
  mret OK.

(** The search for the thread that a reply is for; it leaves the loop with the result. *)
Definition ping_body (p id i : Z) (_ : unit) : nprog (unit + Z) :=
  eq ← echoq i;
  if negb (id =? e_tid eq) then mret (inl tt) else
  if Z.rem (e_head eq + 1) NPINGHOLD =? e_tail eq then
    kcall EXIT_KERNEL_CRITICAL_SECTION;; netFreebuf p;; mret (inr SYSERR)
  else
  match e_pkts eq !! e_head eq with
  | None => fault
  | Some _ =>
      amend_echoq i (set_e_pkts (<[e_head eq := p]> (e_pkts eq)));;
      amend_echoq i (set_e_head (Z.rem (e_head eq + 1) NPINGHOLD));;
      kcall (send id (i32 p));;
      kcall EXIT_KERNEL_CRITICAL_SECTION;;
      mret (inr OK)
  end.

(** The cases of messages that are ignored are those of the default. *)
Definition icmpRecv (p : Z) : nprog Z :=
  if NULL =? p then mret SYSERR else
  e ← pkt p;
  let icmp := p_curr e in
  type ← ucall (ldb icmp);
  if type =? ICMP_ECHOREPLY then
    let echo := icmp + ICMP_HEADER_LEN in
    h ← ucall (ldh echo);
    let id := net2hs h in
    if (0 <=? id) && (id <? NTHREAD) then
      kcall ENTER_KERNEL_CRITICAL_SECTION;;
      cyc ← kcall clkcount;
      ucall (stl (echo + 24) cyc);;
      tic ← kcall (gets clkticks);
      ucall (stl (echo + 20) tic);;
      sec ← kcall (gets clktime);
      ucall (stl (echo + 16) sec);;
      r ← for_ (Z.to_nat NPINGQUEUE) 0 (ping_body p id) tt;
      match r with
      | inr r => mret r
      | inl _ => kcall EXIT_KERNEL_CRITICAL_SECTION;; netFreebuf p;; mret SYSERR
      end
    else netFreebuf p;; mret SYSERR
  else if type =? ICMP_ECHO then
    q ← gets (fun w => icmpqueue (own w));
    kcall (mailboxSend q (i32 p));;
    mret OK
  else netFreebuf p;; mret OK.

(** One round of the daemon. *)
Definition icmpDaemon_body : nprog unit :=
  q ← gets (fun w => icmpqueue (own w));
  p ← kcall (mailboxReceive q);
  icmpEchoReply (u32 p);;
  netFreebuf (u32 p);;
  mret tt.

(** ** Forwarding *)

Definition rtSend (p : Z) : nprog Z :=
  if NULL =? p then mret SYSERR else
  e ← pkt p;
  let ip := p_nethdr e in
  dst ← ip_addr (ip + IP_DST);
  route ← rtLookup dst;
  match route with
  | None => icmpDestUnreach p ICMP_NET_UNR;; mret SYSERR
  | Some i =>
      rt ← rte i;
      e ← pkt p;
      (if bool_decide (r_nif rt = p_nif e) then
         icmpRedirect p (if NULL =? na_type (r_gateway rt) then ICMP_RHST else ICMP_RNET) i;; mret tt
       else mret tt);;
      ttl ← ucall (ldb (ip + IP_TTL));
      ucall (stb (ip + IP_TTL) (ttl - 1));;
      ttl ← ucall (ldb (ip + IP_TTL));
      if 0 =? ttl then icmpTimeExceeded p ICMP_TTL_EXC;; mret SYSERR else
      put_chksum ip IPv4_HDR_LEN;;
      rt ← rte i;
      amend_pkt p (set_p_nif (r_nif rt));;
      rt ← rte i;
      let nxthop := if NULL =? na_type (r_gateway rt) then dst else r_gateway rt in
      r ← ipv4SendFrag FRAG_DEPTH p nxthop;
      if SYSERR =? r then icmpDestUnreach p ICMP_HST_UNR;; mret SYSERR
      else mret OK
  end.

(** One round of the daemon. *)
Definition rtDaemon_body : nprog unit :=
  q ← gets (fun w => rtqueue (own w));
  p ← kcall (mailboxReceive q);
  if SYSERR =? p then mret tt else
  rtSend (u32 p);;
  netFreebuf (u32 p);;
  mret tt.
End Ipv4.

(** ** The header that is sent *)

Definition ip_header (len proto : Z) (src dst : list Z) (c : Z) : list Z :=
  [69; 0; len / 256; len mod 256; 0; 0; 0; 0; IPv4_TTL; proto; c mod 256; c / 256] ++ src ++ dst.
Definition ip_chksum (len proto : Z) (src dst : list Z) : Z := 65535 - oc (wsum (ip_header len proto src dst 0)).

Section Send.
Context {H : Type} (devtab : gmap Z (device (net H))).

(** The packet [p] can be sent to the address [dst]: a route [rt] covers it, and the
    interface [n] of the route has a source address. *)
Record routable (w : dst (net H)) (p : Z) (e : packet) (dst : netaddr) (rt : rtEntry) (n : Z) (nf : netif) : Prop := {
  ro_p : p <> NULL;
  ro_pkt : pkts (own w) !! p = Some e;
  ro_dst : addr_ok dst;
  ro_type : na_type dst = NETADDR_IPv4;
  ro_routes : routes_ok w;
  ro_crit : inCrit (kern w) = true;
  ro_rt : exists i, chosen (rttab (own w)) dst (Z.to_nat RT_NENTRY) = Some i /\ rttab (own w) !! i = Some rt;
  ro_rnif : r_nif rt = Some n;
  ro_nif : netiftab (own w) !! n = Some nf;
  ro_ip : addr_ok (n_ip nf);
  ro_curr : IPv4_HDR_LEN <= p_curr e < 2 ^ 32;
  ro_len : 0 <= p_len e /\ p_len e + IPv4_HDR_LEN < 65536;
  ro_room : mapped (user w) (p_curr e - IPv4_HDR_LEN) IPv4_HDR_LEN;
}.

Definition ip4 (a : netaddr) : list Z := take 4 (na_addr a).
Definition source (nf : netif) (src : netaddr) : list Z := if NULL =? na_type src then ip4 (n_ip nf) else ip4 src.
Definition next_hop (rt : rtEntry) (dst : netaddr) : netaddr := if NULL =? na_type (r_gateway rt) then dst else r_gateway rt.

(** The state when the header is written. *)
Definition headed (w : dst (net H)) (p : Z) (e : packet) (n : Z) (m : bytemem) : dst (net H) :=
  put_pkts (<[p := set_p_curr (p_curr e - IPv4_HDR_LEN) (set_p_len (p_len e + IPv4_HDR_LEN) (set_p_nif (Some n) e))]> (pkts (own w)))
    (mkDst (crit_out (crit_in (kern w))) m (own w)).

Lemma run_put_ip a addr (w : dst (net H)) : addr_ok addr -> run (put_ip a addr) w = run (ucall (wr_bytes a (ip4 addr))) w.
Proof.
  intros Ha. unfold put_ip. rewrite run_bind, run_first_bytes by (rewrite (ao_addr _ Ha); done). done.
Qed.

Lemma ip4_bytes a : addr_ok a -> length (ip4 a) = 4%nat /\ Forall isbyte (ip4 a).
Proof.
  intros Ha. unfold ip4. split; [rewrite length_take, (ao_addr _ Ha); done | apply Forall_take, Ha].
Qed.

(** The checksum of a header of 20 bytes. *)
Lemma run_put_chksum (w : dst (net H)) m0 a l : let l0 := splice 10 [0; 0] l in let c := 65535 - oc (wsum l0) in
  region m0 (user w) a l -> length l = 20%nat -> Forall isbyte l0 ->
  exists m, run (put_chksum a IPv4_HDR_LEN) w = Done tt (mkDst (kern w) m (own w)) /\
    region m0 m a (splice 10 [c mod 256; c / 256] l0).
Proof.
  intros l0 c HR Hl Hb. unfold put_chksum, IP_CHKSUM, IPv4_HDR_LEN. rewrite run_bind. destruct w as [k m o]. nsimpl.
  destruct (region_sth (mkDst k m o) m0 a l HR 10 (a + 10) 0 eq_refl) as (m1 & E & R1); [lia .. |].
  change (Z.to_nat 10) with 10%nat in R1. change [u8 0; u8 (Z.shiftr 0 8)] with [0; 0] in R1. change (splice _ _ _) with l0 in R1. rewrite E. cbn [obind].
  assert (Hl0 : length l0 = 20%nat) by (unfold l0; rewrite length_splice; cbn [length]; lia).
  assert (Ht : take 20 l0 = l0) by (apply take_ge; lia). nsimpl.
  change 20 with (Z.of_nat 20). rewrite run_bind.
  rewrite (region_chksum (mkDst k m1 o) m0 a l0 R1 20) by (rewrite ?Ht; done || lia). cbn [obind]. rewrite Ht. fold c.
  destruct (region_sth (mkDst k m1 o) m0 a l0 R1 10 (a + 10) c eq_refl) as (m2 & E2 & R2); [lia .. |].
  rewrite E2. exists m2. split; [done |]. pose proof (oc_range (wsum l0) (wsum_nonneg _ Hb)).
  rewrite Z.shiftr_div_pow2 in R2 by lia. change (2 ^ 8) with 256 in R2. unfold u8 in R2. change (2 ^ 8) with 256 in R2.
  rewrite (Z.mod_small (c / 256)) in R2 by lia. done.
Qed.

Lemma run_ipv4Send_with frag w p e src dst proto rt n nf : routable w p e dst rt n nf -> addr_ok src -> isbyte proto ->
  exists m, run (ipv4Send_with frag p src (Some dst) proto) w = run (frag p (next_hop rt dst)) (headed w p e n m) /\
    let s := source nf src in let d := ip4 dst in let len := p_len e + IPv4_HDR_LEN in
    region (user w) m (p_curr e - IPv4_HDR_LEN) (ip_header len proto s d (ip_chksum len proto s d)).
Proof.
  intros [Hp Hpk Hd Ht Hro Hc (i & Hch & Hi) Hrn Hn Hip Hcur [Hl0 Hl] Hroom] Hsrc Hproto.
  unfold ipv4Send_with. rewrite (proj2 (Z.eqb_neq NULL p)) by congruence. rewrite Ht.
  change (negb (NETADDR_IPv4 =? NETADDR_IPv4)) with false. cbn match.
  rewrite run_bind, run_rtLookup by done. cbn [obind]. rewrite Hch. cbn match.
  rewrite run_bind, (run_rte _ rt) by done. cbn [obind]. rewrite run_bind, (run_amend_pkt _ _ e) by done. cbn [obind].
  rewrite run_bind, (run_rte _ rt) by done. cbn [obind]. fold (next_hop rt dst).
  rewrite run_bind, (run_amend_pkt _ _ (set_p_nif (r_nif rt) e)) by (nsimpl; apply lookup_insert_eq). cbn [obind]. nsimpl.
  rewrite insert_insert_eq. unfold IPv4_HDR_LEN in *. rewrite u32_small by lia.
  rewrite run_bind. erewrite run_amend_pkt by (nsimpl; apply lookup_insert_eq). cbn [obind]. nsimpl. rewrite insert_insert_eq, u32_small by lia.
  rewrite Hrn. set (e1 := set_p_curr _ _). set (o1 := own (put_pkts (<[p := e1]> (pkts (own w))) w)).
  assert (Hp1 : pkts o1 !! p = Some e1) by apply lookup_insert_eq.
  set (k := crit_out _). match goal with |- context [run _ ?x] => change x with (mkDst k (user w) o1) end.
  rewrite run_bind, (run_pkt _ e1) by done. cbn [obind]. change (p_curr e1) with (p_curr e - 20). change (p_len e1) with (p_len e + 20).
  destruct (region_start 20 (user w) (p_curr e - 20)) as (l & R & Ll); [done |]. explode_list l Ll.
  unfold IP_LEN, IP_ID, IP_FROFF, IP_TTL, IP_PROTO, IP_SRC, IP_DST.
  rewrite run_bind. hstore @region_stb 0. rewrite run_bind. hload @region_ldb 0. rewrite run_bind. hstore @region_stb 0.
  rewrite run_bind. hstore @region_stb 1. rewrite run_bind. hstore @region_sth 2.
  destruct (hs2net_bytes (p_len e + 20) ltac:(lia)) as [E1 E2]. rewrite E1, E2 in R. clear E1 E2.
  rewrite run_bind. hstore @region_sth 4. rewrite run_bind. hstore @region_sth 6.
  rewrite run_bind. hstore @region_stb 8. rewrite run_bind. hstore @region_stb 9.
  assert (E : run (if NULL =? na_type src then netptr ← pkt_nif p; put_ip (p_curr e - 20 + 12) (n_ip netptr) else put_ip (p_curr e - 20 + 12) src)
      (mkDst k m6 o1) = run (ucall (wr_bytes (p_curr e - 20 + 12) (source nf src))) (mkDst k m6 o1)).
  { unfold source. destruct (NULL =? na_type src); [| by apply run_put_ip].
    unfold pkt_nif. rewrite !run_bind, (run_pkt _ e1) by done. cbn [obind]. change (p_nif e1) with (Some n). cbn match.
    rewrite (run_nif _ nf) by done. cbn [obind]. by apply run_put_ip. }
  rewrite run_bind, E. clear E.
  assert (Hs : length (source nf src) = 4%nat /\ Forall isbyte (source nf src)) by (unfold source; destruct (NULL =? na_type src); by apply ip4_bytes).
  destruct Hs as [Ls Bs], (ip4_bytes dst Hd) as [Ld Bd]. generalize dependent (source nf src). intros s Ls Bs.
  pose proof (fun w => run_put_ip (p_curr e - 20 + 16) dst w Hd) as Ed. generalize dependent (ip4 dst). intros d Ld Bd Ed. explode_list s Ls. hstore @region_wr 12.
  explode_list d Ld. rewrite run_bind, Ed. hstore @region_wr 16. rewrite (u8_small proto) in R by done.
  change (u8 (u8 (Z.shiftl IPv4_VERSION 4) + 20 / 4)) with 69 in R. change (u8 0) with 0 in R. change (u8 (Z.shiftr 0 8)) with 0 in R.
  change (u8 IPv4_TOS_ROUTINE) with 0 in R. change (u8 IPv4_TTL) with 64 in R.
  destruct (run_put_chksum (mkDst k m8 o1) (user w) _ _ R) as (m9 & E & R'); [done | |].
  { unfold splice. cbn [take drop app length Nat.add]. unfold isbyte in *.
    repeat (apply Forall_cons; split; [first [lia | by (repeat match goal with X : Forall _ (_ :: _) |- _ => apply Forall_cons in X as [? X] end)] |]). done. }
  rewrite run_bind. change 20 with IPv4_HDR_LEN at 2. rewrite E. cbn [obind]. exists m9. split; [done | exact R'].
Qed.

(** ** What the receiver makes of it *)

(** The check of the total length compares it without changing the byte order. *)
Definition accepts (len : Z) : bool := negb ((len mod 256 =? 0) && (len / 256 <? 20)).

Lemma ip_header_bytes len proto s d c : 0 <= len < 65536 -> isbyte proto -> 0 <= c < 65536 ->
  Forall isbyte s -> Forall isbyte d -> Forall isbyte (ip_header len proto s d c).
Proof.
  intros Hlen Hp Hc Hs Hd. unfold ip_header. apply Forall_app. split; [| by apply Forall_app].
  unfold isbyte, IPv4_TTL in *. repeat (apply Forall_cons; split; [lia |]). done.
Qed.

Lemma wsum_ip_header len proto s d c : wsum (ip_header len proto s d c) = wsum (ip_header len proto s d 0) + c.
Proof. unfold ip_header. cbn [app wsum]. change (0 mod 256) with 0. change (0 / 256) with 0. lia. Qed.

Lemma run_ipv4RecvValid m a len proto s d : length s = 4%nat -> length d = 4%nat -> Forall isbyte s -> Forall isbyte d ->
  0 <= len < 65536 -> isbyte proto ->
  bytes_at m a (ip_header len proto s d (ip_chksum len proto s d)) ->
  run (ipv4RecvValid a) m = Done (accepts len) m.
Proof.
  intros Ls Ld Bs Bd Hlen Hp Hb. pose proof (ip_header_bytes len proto s d 0 Hlen Hp ltac:(lia) Bs Bd) as B0.
  pose proof (wsum_nonneg _ B0) as Hw. pose proof (oc_range _ Hw) as Hoc.
  pose proof (ip_header_bytes len proto s d (ip_chksum len proto s d) Hlen Hp ltac:(unfold ip_chksum; lia) Bs Bd) as B1.
  unfold ipv4RecvValid. rewrite run_bind, (run_ldb _ 69) by (rewrite <- (Hb 0%nat 69 eq_refl); f_equal; lia). cbn [obind].
  change (negb (Z.shiftr (Z.land 69 IPv4_VER) 4 =? IPv4_VERSION)) with false. change (Z.land 69 IPv4_IHL) with 5.
  change ((5 <? IPv4_MIN_IHL) || (5 >? IPv4_MAX_IHL)) with false. cbn match.
  rewrite run_bind, (run_ldh _ (len / 256) (len mod 256)); [| exact (Hb 2%nat _ eq_refl) | rewrite <- (Hb 3%nat _ eq_refl); f_equal; unfold IP_LEN; lia].
  cbn [obind]. unfold accepts, IPv4_MIN_IHL.
  destruct (Z.ltb_spec (len / 256 + 256 * (len mod 256)) (5 * 4)).
  - rewrite (proj2 (Z.eqb_eq (len mod 256) 0)), (proj2 (Z.ltb_lt (len / 256) 20)) by lia. done.
  - destruct (Z.eqb_spec (len mod 256) 0), (Z.ltb_spec (len / 256) 20); try lia; cbn [negb andb];
      (rewrite run_bind; change (5 * 4) with (Z.of_nat 20);
       replace 20%nat with (length (ip_header len proto s d (ip_chksum len proto s d))) by (unfold ip_header; rewrite !length_app, Ls, Ld; done);
       rewrite run_netChksum by (done || (unfold ip_header; rewrite !length_app, Ls, Ld; done)); cbn [obind];
       rewrite run_ret, wsum_ip_header; unfold ip_chksum; rewrite oc_complement by done; done).
Qed.

Lemma eth_brc_ok : addr_ok NETADDR_GLOBAL_ETH_BRC.
Proof. split; [done | done |]. cbn. unfold isbyte. repeat (apply Forall_cons; split; [lia |]). done. Qed.

(** ** Sending on the wire *)

Section Deliver.
Context (sent : H -> list (list Z)).
Context (w : dst (net H)) (p n proto : Z) (e : packet) (src dst : netaddr) (rt : rtEntry) (nf : netif) (payload : list Z) (hw : netaddr).
Hypothesis Hroute : routable w p e dst rt n nf.
Hypothesis Hsrc : addr_ok src.
Hypothesis Hproto : isbyte proto.
(** The interface is up, and there is room for the link header. *)
Hypothesis Halloc : n_state nf = NET_ALLOC.
Hypothesis Hlink : n_linkhdrlen nf = ETH_HDR_LEN.
Hypothesis Hhw : addr_ok (n_hwaddr nf) /\ na_len (n_hwaddr nf) = ETH_ADDR_LEN.
Hypothesis Hcap : n_capture nf = None.
Hypothesis Hcurr : IPv4_HDR_LEN + ETH_HDR_LEN <= p_curr e.
Hypothesis Hroom : mapped (user w) (p_curr e - IPv4_HDR_LEN - ETH_HDR_LEN) (IPv4_HDR_LEN + ETH_HDR_LEN).
Hypothesis Hpay : bytes_at (user w) (p_curr e) payload.
Hypothesis Hplen : p_len e = Z.of_nat (length payload).
(** The packet is not too long, and the address of the next hop is known. *)
Hypothesis Hmtu : p_len e + IPv4_HDR_LEN <= n_mtu nf.
Hypothesis Hbrc : addr_ok (n_ipbrc nf).
Hypothesis Hnext : addr_ok (next_hop rt dst).
Hypothesis Harp : if same_addr (n_ipbrc nf) (next_hop rt dst) then hw = NETADDR_GLOBAL_ETH_BRC
  else arps_ok w /\ resolves w (next_hop rt dst) hw /\ addr_ok hw /\ na_len hw = ETH_ADDR_LEN.
Context {HW : Wire devtab (n_dev nf) sent}.

Lemma run_ipv4SendFrag_fits fuel m : let hdr := ip_header (p_len e + IPv4_HDR_LEN) proto (source nf src) (ip4 dst) (ip_chksum (p_len e + IPv4_HDR_LEN) proto (source nf src) (ip4 dst)) in
  region (user w) m (p_curr e - IPv4_HDR_LEN) hdr ->
  exists w', run (ipv4SendFrag devtab (S fuel) p (next_hop rt dst)) (headed w p e n m) = Done OK w' /\
    sent (link (own w')) = sent (link (own w)) ++ [frame hw (n_hwaddr nf) ETHER_TYPE_IPv4 (hdr ++ payload)].
Proof.
  intros hdr R. destruct Hroute as [Hp Hpk Hd Ht Hro Hc _ Hrn Hn Hip Hcur [Hl0 Hl] Hroom2].
  assert (Lh : length hdr = 20%nat).
  { unfold hdr, ip_header, source, ip4. destruct (NULL =? na_type src); rewrite !length_app, !length_take, ?(ao_addr _ Hip), ?(ao_addr _ Hd), ?(ao_addr _ Hsrc); done. }
  assert (Hl20 : hdr !! 2%nat = Some ((p_len e + IPv4_HDR_LEN) / 256) /\ hdr !! 3%nat = Some ((p_len e + IPv4_HDR_LEN) mod 256)) by done.
  destruct Hl20 as [H2 H3]. clearbody hdr.
  unfold ETH_HDR_LEN, IPv4_HDR_LEN, ETH_ADDR_LEN in *.
  set (e1 := set_p_curr (p_curr e - 20) (set_p_len (p_len e + 20) (set_p_nif (Some n) e))).
  assert (Hp1 : pkts (own (headed w p e n m)) !! p = Some e1) by apply lookup_insert_eq.
  cbn [ipv4SendFrag]. rewrite (proj2 (Z.eqb_neq NULL p)) by congruence. rewrite run_bind, (run_pkt _ e1) by done. cbn [obind].
  unfold pkt_nif. rewrite !run_bind, (run_pkt _ e1) by done. cbn [obind]. change (p_nif e1) with (Some n). cbn match.
  rewrite (run_nif _ nf) by done. cbn [obind]. change (p_curr e1) with (p_curr e - 20).
  unfold IP_LEN. rewrite run_bind. rewrite (region_ldh (headed w p e n m) (user w) _ _ R 2 _ _ _ eq_refl H2 H3) by lia. cbn [obind].
  unfold net2hs. rewrite hs2net_swap by (unfold isbyte; lia). rewrite (proj2 (Z.leb_le _ _)) by lia.
  rewrite run_bind, run_netaddrequal by done. cbn [obind].
  assert (Hsd : sendable (headed w p e n m) p n (hdr ++ payload) e1 nf).
  { destruct R as [R1 R2]. split; try done; unfold ETH_HDR_LEN in *; try (by destruct Hhw); nsimpl.
    - cbn. lia.
    - rewrite length_app, Lh. cbn. lia.
    - intros i Hi. change (p_curr e1) with (p_curr e - 20). rewrite R2 by lia. apply Hroom. lia.
    - apply bytes_at_app. split; [exact R1 |]. rewrite Lh. intros i x Hi. change (p_curr e1) with (p_curr e - 20). rewrite R2 by lia.
      replace (p_curr e - 20 + Z.of_nat 20 + Z.of_nat i) with (p_curr e + Z.of_nat i) by lia. by apply Hpay. }
  unfold netSend.
  destruct (same_addr (n_ipbrc nf) (next_hop rt dst)) eqn:Eb.
  - subst hw.
    destruct (run_netSend_with devtab sent _ p n _ e1 nf (arpLookup devtab) (Some NETADDR_GLOBAL_ETH_BRC) (Some (next_hop rt dst)) ETHER_TYPE_IPv4 NETADDR_GLOBAL_ETH_BRC (kern (headed w p e n m)) Hsd HW)
      as (m' & h' & E & Es & _); [done | exact eth_brc_ok | done | |].
    + intros w' Hk _. rewrite <- Hk. rewrite run_ret. by destruct w'.
    + rewrite E. eexists. split; [done |]. exact Es.
  - destruct Harp as (Hok & Hres & Hha & Hhl).
    destruct (run_netSend_with devtab sent _ p n _ e1 nf (arpLookup devtab) None (Some (next_hop rt dst)) ETHER_TYPE_IPv4 hw
      (crit_out (crit_in (crit_in (kern (headed w p e n m))))) Hsd HW) as (m' & h' & E & Es & _); [done | done | done | |].
    + intros w' Hk Ha. rewrite <- Hk. apply run_arpLookup; [| done | by rewrite Hk |].
      * intros i Hi. rewrite Hk, Ha. by apply Hok.
      * destruct Hres as (i & ea & (? & ? & ? & Hno) & Hs). exists i, ea. split; [| done]. unfold first_hit. rewrite Ha. done.
    + rewrite E. eexists. split; [done |]. exact Es.
Qed.

(** C6: A packet of up to the MTU that is sent to an address whose next hop is known goes on
    the wire as one frame: the address of the next hop, that of the interface, the type
    of IPv4, a header for the given protocol and addresses, and the bytes of the packet
    as they are.  A receiver accepts this header; but the check compares the total length
    in the wrong byte order, and refuses every packet of 256, 512, ..., 4864 bytes. *)
Theorem ipv4Send_frame :
  exists w' hdr, run (ipv4Send devtab p src (Some dst) proto) w = Done OK w' /\
    sent (link (own w')) = sent (link (own w)) ++ [frame hw (n_hwaddr nf) ETHER_TYPE_IPv4 (hdr ++ payload)] /\
    hdr = ip_header (p_len e + IPv4_HDR_LEN) proto (source nf src) (ip4 dst)
            (ip_chksum (p_len e + IPv4_HDR_LEN) proto (source nf src) (ip4 dst)) /\
    (forall m a, bytes_at m a hdr -> run (ipv4RecvValid a) m = Done (accepts (p_len e + IPv4_HDR_LEN)) m).
Proof.
  destruct (run_ipv4Send_with (ipv4SendFrag devtab FRAG_DEPTH) w p e src dst proto rt n nf Hroute Hsrc Hproto) as (m & E & R).
  destruct (run_ipv4SendFrag_fits 1 m R) as (w' & E' & Es). exists w'. eexists. split; [unfold ipv4Send; rewrite E; exact E' |].
  split; [exact Es |]. split; [done |]. intros m' a Hb.
  destruct Hroute as [_ _ Hd _ _ _ _ _ _ Hip _ [Hl0 Hl] _]. unfold IPv4_HDR_LEN in *.
  assert (Hs : length (source nf src) = 4%nat /\ Forall isbyte (source nf src)) by (unfold source; destruct (NULL =? na_type src); by apply ip4_bytes).
  destruct Hs as [Ls Bs], (ip4_bytes dst Hd) as [Ld Bd]. apply (run_ipv4RecvValid m' a _ proto (source nf src) (ip4 dst)); done || lia.
Qed.
End Deliver.
End Send.

(** ** The depth of messages about messages

    The fuel of [ipv4SendFrag] is the depth of the recursion through the ICMP message that
    a packet may not be fragmented.  The message itself may be fragmented, so there is no
    message about it, and any depth from two on gives the same. *)

Section Depth.
Context {H : Type} (devtab : gmap Z (device (net H))).

Abbreviation nprog := (dprog (net H)).

(** *** Routines that do not switch *)

Lemma post_zoom {W S A} (get : W -> S) put (m : prog S A) w P :
  post m (get w) (fun a s => P a (put s w)) -> post (zoom get put m) w P.
Proof. unfold post. rewrite run_zoom. by destruct (run m (get w)). Qed.

Definition quiet {S A} (m : prog S A) : Prop := forall s, post m s (fun _ s' => s' = s).
Definition unswitched {S A} (m : prog S A) : Prop := forall s, post m s (fun _ _ => True).

Lemma quiet_bind {S A B} (m : prog S A) (f : A -> prog S B) : quiet m -> (forall a, quiet (f a)) -> quiet (m ≫= f).
Proof. intros Hm Hf s. apply post_bind. eapply post_mono; [apply Hm |]. intros a s' ->. apply Hf. Qed.

Lemma unswitched_bind {S A B} (m : prog S A) (f : A -> prog S B) : unswitched m -> (forall a, unswitched (f a)) -> unswitched (m ≫= f).
Proof. intros Hm Hf s. apply post_bind. eapply post_mono; [apply Hm |]. intros a s' _. apply Hf. Qed.

Lemma quiet_unswitched {S A} (m : prog S A) : quiet m -> unswitched m.
Proof. intros Hm s. eapply post_mono; [apply Hm | done]. Qed.

Lemma quiet_ret {S A} (a : A) : quiet (mret a : prog S A).
Proof. done. Qed.
Lemma quiet_fault {S A} : quiet (fault : prog S A).
Proof. done. Qed.
Lemma quiet_diverge {S A} : quiet (diverge : prog S A).
Proof. done. Qed.
Lemma quiet_gets {S A} (f : S -> A) : quiet (gets f).
Proof. done. Qed.
Lemma quiet_load {S V} (tab : S -> gmap Z V) i : quiet (load tab i).
Proof. intros s. by apply post_load. Qed.
Lemma quiet_if {S A} (b : bool) (m m' : prog S A) : quiet m -> quiet m' -> quiet (if b then m else m').
Proof. by destruct b. Qed.
Lemma quiet_for {S A R} (body : Z -> A -> prog S (A + R)) n i a : (forall i a, quiet (body i a)) -> quiet (for_ n i body a).
Proof. intros Hb s. apply post_for. intros i' a'. apply Hb. Qed.
Lemma quiet_while {S A} n (cond : A -> prog S bool) (body : A -> prog S A) a :
  (forall a, quiet (cond a)) -> (forall a, quiet (body a)) -> quiet (while_ n cond body a).
Proof. intros Hc Hb s. apply post_while; intros a'; [apply Hc | apply Hb]. Qed.

Lemma unswitched_store {S V} (tab : S -> gmap Z V) put i v : unswitched (store tab put i v).
Proof. intros s. unfold post, run, store. by destruct (tab s !! i). Qed.
Lemma unswitched_amend {S V} (tab : S -> gmap Z V) put i f : unswitched (amend tab put i f).
Proof. intros s. by apply post_amend. Qed.
Lemma unswitched_for {S A R} (body : Z -> A -> prog S (A + R)) n : forall i a, (forall i a, unswitched (body i a)) -> unswitched (for_ n i body a).
Proof.
  induction n as [|n IH]; intros i a Hb; [done |]. cbn [for_]. apply unswitched_bind; [apply Hb |]. intros [a' | r]; [by apply IH | done].
Qed.

Lemma quiet_ucall {A} (m : bprog A) : quiet m -> quiet (ucall (D:=net H) m).
Proof. intros Hm w. apply post_zoom. eapply post_mono; [apply Hm |]. intros a s ->. by apply dst_eta. Qed.
Lemma unswitched_ucall {A} (m : bprog A) : unswitched m -> unswitched (ucall (D:=net H) m).
Proof. intros Hm w. apply post_zoom. eapply post_mono; [apply Hm |]. done. Qed.

Ltac quiet_with t := repeat first [t | apply quiet_ret | apply quiet_diverge | apply quiet_fault | apply quiet_gets | apply quiet_load | apply quiet_if
  | apply quiet_ucall | apply quiet_for; intros ? ? | apply quiet_while; intros ? | apply quiet_bind; [| intros ?]
  | progress cbn [snd fst] | case_match].
Ltac quiet := quiet_with fail.

Lemma quiet_first_bytes {S} n l : quiet (first_bytes n l : prog S _).
Proof. unfold first_bytes. quiet. Qed.
Lemma quiet_netaddrequal {S} a b : quiet (netaddrequal a b : prog S _).
Proof. unfold netaddrequal. quiet_with ltac:(apply quiet_first_bytes). Qed.
Lemma quiet_map_addr {S} f n : forall a b, quiet (map_addr f n a b : prog S _).
Proof. induction n as [|n IH]; intros a b; [done |]. cbn [map_addr]. destruct a, b; quiet_with ltac:(apply IH). Qed.
Lemma quiet_ldb a : quiet (ldb a).
Proof. apply (quiet_load (fun m => m)). Qed.
Lemma quiet_ldh a : quiet (ldh a).
Proof. unfold ldh. quiet_with ltac:(apply quiet_ldb). Qed.
Lemma quiet_rd_bytes n : forall a, quiet (rd_bytes n a).
Proof. induction n as [|n IH]; intros a; [done |]. cbn [rd_bytes]. quiet_with ltac:(first [apply quiet_ldb | apply IH]). Qed.
Lemma quiet_netChksum a n : quiet (netChksum a n).
Proof.
  unfold netChksum, sum_words, fold_sum, carries, fold_carries, sum_body. quiet_with ltac:(first [apply quiet_ldb | apply quiet_ldh]).
Qed.
Lemma quiet_rtLookup_body a i r : quiet (lookup_body a i r : nprog _).
Proof.
  unfold lookup_body, netaddrmask. quiet_with ltac:(first [apply quiet_map_addr | apply quiet_netaddrequal]).
Qed.

Lemma unswitched_kcall {A} (m : kprog A) : unswitched m -> unswitched (kcall (D:=net H) m).
Proof. intros Hm w. apply post_zoom. eapply post_mono; [apply Hm |]. done. Qed.
Lemma unswitched_enter : unswitched ENTER_KERNEL_CRITICAL_SECTION.
Proof. intros s. unfold post, ENTER_KERNEL_CRITICAL_SECTION, run. cbn. by destruct (inCrit s). Qed.
Lemma unswitched_exit : unswitched EXIT_KERNEL_CRITICAL_SECTION.
Proof. intros s. unfold post, EXIT_KERNEL_CRITICAL_SECTION, run. cbn. by destruct (inCrit s). Qed.
Lemma unswitched_rtLookup a : unswitched (rtLookup a : nprog _).
Proof.
  unfold rtLookup. apply unswitched_bind; [apply unswitched_kcall, unswitched_enter | intros _].
  apply unswitched_bind; [apply quiet_unswitched, quiet_for; intros i r; apply quiet_rtLookup_body | intros r].
  apply unswitched_bind; [apply unswitched_kcall, unswitched_exit | intros _; apply quiet_unswitched; quiet].
Qed.
Lemma unswitched_memcpy d s n : unswitched (memcpy d s n).
Proof.
  unfold memcpy. apply unswitched_bind; [| done]. apply unswitched_for. intros i a.
  apply unswitched_bind; [apply quiet_unswitched, quiet_ldb |]. intros c. apply unswitched_bind; [apply unswitched_store | done].
Qed.

(** *** Stores that leave two bytes alone *)

Section Keep.
Context (x y : Z).
Definition keeps {A} (m : bprog A) : Prop := forall s, post m s (fun _ s' => s' !! x = s !! x /\ s' !! y = s !! y).

Lemma keeps_seq {A B} (m : bprog A) (f : A -> bprog B) : keeps m -> (forall a, keeps (f a)) -> keeps (m ≫= f).
Proof.
  intros Hm Hf s. apply post_bind. eapply post_mono; [apply Hm |]. intros a s' [E1 E2].
  eapply post_mono; [apply Hf |]. intros b s2 [E3 E4]. by rewrite E3, E4.
Qed.
Lemma quiet_keeps {A} (m : bprog A) : quiet m -> keeps m.
Proof. intros Hm s. eapply post_mono; [apply Hm |]. by intros a s' ->. Qed.
Lemma keeps_stb a v : a <> x -> a <> y -> keeps (stb a v).
Proof. intros Hx Hy s. unfold post, stb, run, store. destruct (s !! a); [| done]. by rewrite !lookup_insert_ne. Qed.
Lemma keeps_sth a v : a <> x -> a <> y -> a + 1 <> x -> a + 1 <> y -> keeps (sth a v).
Proof. intros. apply keeps_seq; [by apply keeps_stb | intros _; by apply keeps_stb]. Qed.
Lemma keeps_wr_bytes l : forall a, (x < a \/ a + Z.of_nat (length l) <= x) -> (y < a \/ a + Z.of_nat (length l) <= y) -> keeps (wr_bytes a l).
Proof.
  induction l as [|c l IH]; intros a Hx Hy; [by apply quiet_keeps |]. cbn [wr_bytes length] in *.
  apply keeps_seq; [apply keeps_stb; lia | intros _; apply IH; lia].
Qed.
End Keep.

(** The header of the packet [p] is at [ip], and it is no fragment. *)
Definition at_ip (p ip : Z) (w : dst (net H)) : Prop := exists e, pkts (own w) !! p = Some e /\ p_curr e = ip.
Definition whole (p ip : Z) (w : dst (net H)) : Prop :=
  at_ip p ip w /\ user w !! (ip + 6) = Some 0 /\ user w !! (ip + 7) = Some 0.

Lemma frag_same p ip nh n n' w : whole p ip w -> run (ipv4SendFrag devtab (S n) p nh) w = run (ipv4SendFrag devtab (S n') p nh) w.
Proof.
  intros [(e & He & Hc) [H6 H7]]. cbn [ipv4SendFrag]. destruct (NULL =? p); [done |].
  rewrite !run_bind, (run_pkt _ e) by done. cbn [obind]. rewrite Hc.
  eapply run_bind_ext; [eapply (quiet_bind (pkt p)); [apply quiet_load | intros e'; quiet] |]. intros netptr w' ->.
  eapply run_bind_ext; [apply quiet_ucall, quiet_ldh |]. intros len w' ->.
  destruct (net2hs len <=? n_mtu netptr); [done |].
  rewrite !run_bind, (run_ucall _ _ 0 (user w)) by (apply (run_ldh _ 0 0); [done | by replace (ip + IP_FROFF + 1) with (ip + 7) by (unfold IP_FROFF; lia)]).
  cbn [obind]. change (negb (Z.land (net2hs 0) IPv4_FLAG_DF =? 0)) with false. cbn match. reflexivity.
Qed.

Lemma post_keeps {A} (m : bprog A) p ip w : keeps (ip + 6) (ip + 7) m -> whole p ip w -> post (ucall (D:=net H) m) w (fun _ w' => whole p ip w').
Proof.
  intros Hm [Ha [H6 H7]]. apply post_zoom. eapply post_mono; [apply Hm |]. intros a s [E6 E7].
  split; [exact Ha |]. cbn [user set_user]. by rewrite E6, E7.
Qed.
Lemma post_at {A} (m : bprog A) p ip w : unswitched m -> at_ip p ip w -> post (ucall (D:=net H) m) w (fun _ w' => at_ip p ip w').
Proof. intros Hm Ha. apply post_zoom. eapply post_mono; [apply Hm |]. intros a s _. exact Ha. Qed.

Lemma unswitched_sth a v : unswitched (sth a v).
Proof. apply unswitched_bind; [apply unswitched_store | intros _; apply unswitched_store]. Qed.

Lemma run_bind_any {S A B} (m : prog S A) (f g : A -> prog S B) s :
  unswitched m -> (forall a s', run (f a) s' = run (g a) s') -> run (m ≫= f) s = run (m ≫= g) s.
Proof. intros Hm E. eapply run_bind_ext; [apply Hm |]. intros a s' _. apply E. Qed.

Lemma post_put_ip p ip a addr w : a = ip + 12 \/ a = ip + 16 -> whole p ip w -> post (put_ip a addr : nprog _) w (fun _ w' => whole p ip w').
Proof.
  intros Ha Hw. unfold put_ip, first_bytes. destruct (IPv4_ADDR_LEN <=? Z.of_nat (length (na_addr addr))) eqn:E; [| done]. apply Z.leb_le in E.
  apply post_bind. cbn. apply (post_keeps _ p ip); [| done]. unfold IPv4_ADDR_LEN in *.
  apply keeps_wr_bytes; rewrite length_take; lia.
Qed.

Lemma post_put_chksum p ip n w : whole p ip w -> post (put_chksum ip n : nprog _) w (fun _ w' => whole p ip w').
Proof.
  intros Hw. unfold put_chksum, IP_CHKSUM. apply post_bind. eapply post_mono; [apply (post_keeps _ p ip); [apply keeps_sth; lia | exact Hw] |].
  intros ? w1 Hw1. apply post_bind. eapply post_mono; [apply (post_keeps _ p ip); [apply quiet_keeps, quiet_netChksum | exact Hw1] |].
  intros sum w2 Hw2. apply (post_keeps _ p ip); [apply keeps_sth; lia | done].
Qed.

Lemma ipv4Send_same p src dst proto n n' w :
  run (ipv4Send_with (ipv4SendFrag devtab (S n)) p src dst proto) w = run (ipv4Send_with (ipv4SendFrag devtab (S n')) p src dst proto) w.
Proof.
  unfold ipv4Send_with. destruct (NULL =? p); [done |]. destruct dst as [dst|]; [| done]. destruct (negb _); [done |].
  apply run_bind_any; [apply unswitched_rtLookup |]. intros [i|] w1; [| done].
  apply run_bind_any; [apply quiet_unswitched, quiet_load |]. intros rt0 w2.
  apply run_bind_any; [apply unswitched_amend |]. intros _ w3.
  apply run_bind_any; [apply quiet_unswitched, quiet_load |]. intros rt w4.
  apply run_bind_any; [apply unswitched_amend |]. intros _ w5.
  apply run_bind_any; [apply unswitched_amend |]. intros _ w6.
  eapply (run_bind_ext _ _ _ _ (fun e w' => at_ip p (p_curr e) w')); [apply post_load; intros e He; by exists e |]. intros e w7 H7. set (ip := p_curr e) in *.
  eapply run_bind_ext; [apply post_at; [apply unswitched_store | exact H7] |]. intros ? w8 H8.
  eapply run_bind_ext; [apply post_at; [apply quiet_unswitched, quiet_ldb | exact H8] |]. intros v w9 H9.
  eapply run_bind_ext; [apply post_at; [apply unswitched_store | exact H9] |]. intros ? w10 H10.
  eapply run_bind_ext; [apply post_at; [apply unswitched_store | exact H10] |]. intros ? w11 H11.
  eapply run_bind_ext; [apply post_at; [apply unswitched_sth | exact H11] |]. intros ? w12 H12.
  eapply run_bind_ext; [apply post_at; [apply unswitched_sth | exact H12] |]. intros ? w13 H13.
  eapply (run_bind_ext _ _ _ _ (fun _ w' => whole p ip w')).
  { apply post_zoom. unfold sth, IP_FROFF, stb, post. rewrite run_bind. unfold run at 1, store. destruct (user w13 !! (ip + 6)); [| done]. cbn [obind].
    unfold run at 1. cbn. rewrite lookup_insert_ne by lia. destruct (user w13 !! (ip + 6 + 1)); [| done].
    split; [exact H13 |]. cbn [user set_user]. replace (ip + 6 + 1) with (ip + 7) by lia.
    rewrite lookup_insert_eq, lookup_insert_ne by lia. by rewrite lookup_insert_eq. }
  intros ? w14 H14. unfold IP_TTL, IP_PROTO, IP_SRC, IP_DST.
  eapply run_bind_ext; [apply (post_keeps _ p ip); [apply keeps_stb; lia | exact H14] |]. intros ? w15 H15.
  eapply run_bind_ext; [apply (post_keeps _ p ip); [apply keeps_stb; lia | exact H15] |]. intros ? w16 H16.
  eapply (run_bind_ext _ _ _ _ (fun _ w' => whole p ip w')).
  { destruct (NULL =? na_type src); [| apply post_put_ip; [lia | exact H16]]. apply post_bind.
    eapply post_mono; [eapply (quiet_bind (pkt p)); [apply quiet_load | intros e'; quiet] |]. intros nf w' ->. apply post_put_ip; [lia | exact H16]. }
  intros ? w17 H17. eapply run_bind_ext; [apply (post_put_ip p ip); [lia | exact H17] |]. intros ? w18 H18.
  eapply run_bind_ext; [apply post_put_chksum; exact H18 |]. intros ? w19 H19. by apply (frag_same p ip).
Qed.

Lemma prog_ext {S A} (m m' : prog S A) : (forall s, run m s = run m' s) -> m = m'.
Proof. destruct m as [r], m' as [r']. intros E. f_equal. apply functional_extensionality. exact E. Qed.

Lemma icmpSend_same p type code len src dst n n' w :
  run (icmpSend_with (ipv4Send_with (ipv4SendFrag devtab (S n))) p type code len src dst) w =
  run (icmpSend_with (ipv4Send_with (ipv4SendFrag devtab (S n'))) p type code len src dst) w.
Proof.
  unfold icmpSend_with. destruct (NULL =? p); [done |].
  apply run_bind_any; [apply unswitched_amend |]. intros ? w1. apply run_bind_any; [apply unswitched_amend |]. intros ? w2.
  apply run_bind_any; [apply quiet_unswitched, quiet_load |]. intros e w3.
  apply run_bind_any; [apply unswitched_ucall, unswitched_store |]. intros ? w4.
  apply run_bind_any; [apply unswitched_ucall, unswitched_store |]. intros ? w5.
  apply run_bind_any; [apply unswitched_ucall, unswitched_sth |]. intros ? w6.
  apply run_bind_any; [apply unswitched_ucall, quiet_unswitched, quiet_netChksum |]. intros ? w7.
  apply run_bind_any; [apply unswitched_ucall, unswitched_sth |]. intros ? w8. apply ipv4Send_same.
Qed.

Lemma icmpDestUnreach_same p code n n' w :
  run (icmpDestUnreach_with (ipv4Send_with (ipv4SendFrag devtab (S n))) p code) w =
  run (icmpDestUnreach_with (ipv4Send_with (ipv4SendFrag devtab (S n'))) p code) w.
Proof.
  unfold icmpDestUnreach_with, icmp_about. match goal with |- run (_ ≫= ?f) w = run (_ ≫= ?g) w => assert (E : f = g); [| by rewrite E] end.
  apply functional_extensionality. intros b. apply prog_ext. intros w0. destruct (SYSERR =? i32 b); [done |].
  apply run_bind_any; [apply quiet_unswitched, quiet_load |]. intros u w1.
  apply run_bind_any; [apply quiet_unswitched; unfold ip_addr; quiet_with ltac:(apply quiet_rd_bytes) |]. intros d w2.
  apply run_bind_any; [apply quiet_unswitched, quiet_ucall, quiet_ldb |]. intros v w3.
  apply run_bind_any; [apply unswitched_amend |]. intros ? w4. apply run_bind_any; [apply unswitched_amend |]. intros ? w5.
  apply run_bind_any; [apply quiet_unswitched, quiet_load |]. intros e w6.
  apply run_bind_any; [apply unswitched_ucall, unswitched_memcpy |]. intros ? w7.
  apply run_bind_any; [apply unswitched_amend |]. intros ? w8. apply run_bind_any; [apply unswitched_amend |]. intros ? w9.
  apply run_bind_any; [apply quiet_unswitched, quiet_load |]. intros e' w10.
  apply run_bind_any; [apply unswitched_ucall, unswitched_bind; [apply unswitched_sth | intros _; apply unswitched_sth] |]. intros ? w11.
  apply run_bind_any; [apply quiet_unswitched, quiet_load |]. intros e2 w12.
  by rewrite !run_bind, (icmpSend_same _ _ _ _ _ _ n n').
Qed.

(** C30: The message that a packet may not be fragmented is sent by the same routine, which may
    in turn fragment it; but no message is ever sent about the message.  So the recursion ends:
    any depth from two on gives the same result as depth two, for every packet and state. *)
Theorem ipv4SendFrag_depth n p nh w : run (ipv4SendFrag devtab (S (S n)) p nh) w = run (ipv4SendFrag devtab FRAG_DEPTH p nh) w.
Proof.
  unfold FRAG_DEPTH. remember (S n) as k eqn:Ek. cbn [ipv4SendFrag]. remember 1%nat as one eqn:E1. destruct (NULL =? p); [done |].
  apply run_bind_any; [apply quiet_unswitched, quiet_load |]. intros e w1.
  apply run_bind_any; [apply quiet_unswitched, quiet_bind; [apply quiet_load | intros e'; quiet] |]. intros netptr w2.
  apply run_bind_any; [apply quiet_unswitched, quiet_ucall, quiet_ldh |]. intros len w3.
  destruct (net2hs len <=? n_mtu netptr); [reflexivity |].
  apply run_bind_any; [apply quiet_unswitched, quiet_ucall, quiet_ldh |]. intros flags w4.
  destruct (negb _); [| reflexivity]. subst k one. by rewrite !run_bind, (icmpDestUnreach_same _ _ n 0).
Qed.
End Depth.
