(* ===== verification/Udp.v ===== *)
(** UDP sockets: device/udp/.  A socket is a device with a ring of received datagrams,
    each in a buffer of the pool of the socket behind a pseudo header. *)
From Stdlib Require Import ZArith Lia.
From stdpp Require Import sorting gmap functions list.
From S2P Require Import Prelude Ports Kernel Queue QueueFacts Sched Semaphore Clock Message Memory Boot Frame Thread BufPool Bytes Device DevTab Chksum Netaddr Net Wire Snoop Route Arp Ipv4.

(** ** Constants: include/udp.h, include/conf.h *)

Definition UDP_HDR_LEN : Z := 8.
Definition UDP_MAX_PKTS : Z := 100.
Definition UDP_MAX_DATALEN : Z := 1024.
Definition UDP_PORT_TRACEROUTE : Z := 33434.
Definition UDP_FLAG_PASSIVE : Z := 1.
Definition UDP_FLAG_NOBLOCK : Z := 2.
Definition UDP_FLAG_BINDFIRST : Z := 4.
Definition UDP_CTRL_ACCEPT : Z := 1.
Definition UDP_CTRL_BIND : Z := 2.
Definition UDP_CTRL_CLRFLAG : Z := 3.
Definition UDP_CTRL_SETFLAG : Z := 4.
Definition UDP_FREE : Z := 0.
Definition UDP_ALLOC : Z := 1.
Definition UDP_OPEN : Z := 2.
Definition UDP_PSTART : Z := 10000.
Definition UDP_PMAX : Z := 65000.
Definition UDP0 : Z := 13.
(** [sizeof(struct udpPseudoHdr)] *)
Definition SIZEOF_PSEUDO : Z := 12.
Definition NO_MATCH : Z := 0.
Definition DEST_MATCH : Z := 1.
Definition PARTIAL_MATCH : Z := 2.
Definition FULL_MATCH : Z := 3.

(** Offsets in [struct udpPkt] and [struct udpPseudoHdr]. *)
Definition UDP_DSTPORT : Z := 2.
Definition UDP_LEN : Z := 4.
Definition UDP_CHKSUM : Z := 6.
Definition UDP_DATA : Z := 8.
Definition PS_DSTIP : Z := 4.
Definition PS_ZERO : Z := 8.
Definition PS_PROTO : Z := 9.
Definition PS_LEN : Z := 10.

Definition zero_udp : udp := mkUdp None (table UDP_MAX_PKTS 0) 0 0 0 0 0 0 zero_netaddr zero_netaddr 0 0.

Section Udp.
Context {H : Type} (devtab : gmap Z (device (net H))).

Abbreviation nprog := (dprog (net H)).

Definition udpx (i : Z) : nprog udp := load (fun w => udptab (own w)) i.
Definition amend_udp (i : Z) (f : udp -> udp) : nprog unit := amend (fun w => udptab (own w)) put_udptab i f.

(** A [struct netaddr] in memory. *)
Definition get_netaddr (a : Z) : nprog netaddr :=
  type ← ucall (ldh a);
  len ← ucall (ldb (a + 2));
  l ← ucall (rd_bytes 6 (a + 3));
  mret (mkNetaddr type len l).

(** A half word is replaced by its swapped bytes. *)
Definition swap_half (a : Z) : nprog unit := h ← ucall (ldh a); ucall (sth a (hs2net h)).

(** ** Opening and closing *)

Definition udpAlloc_body (i : Z) (_ : unit) : nprog (unit + Z) :=
  u ← udpx i;
  if UDP_FREE =? u_state u then amend_udp i (set_u_state UDP_ALLOC);; mret (inr (i + UDP0))
  else mret (inl tt).
Definition udpAlloc : nprog Z :=
  kcall ENTER_KERNEL_CRITICAL_SECTION;;
  r ← for_ (Z.to_nat NUDP) 0 udpAlloc_body tt;
  kcall EXIT_KERNEL_CRITICAL_SECTION;;
  mret (match r with inr d => u16 d | inl _ => u16 SYSERR end).

Definition udpInit (minor : Z) : nprog Z := amend_udp minor (fun _ => zero_udp);; mret OK.

(** The loop of [allocPort] starts again with the second entry after every port that is
    taken; the bound is enough by [allocPort_free]. *)
Definition port_taken (u : udp) (p : Z) : bool := (u_localpt u =? p + UDP_PSTART) || (UDP_PORT_TRACEROUTE =? p + UDP_PSTART).
Definition port_body (i : Z) : nprog Z :=
  u ← udpx i;
  p ← gets (fun w => nextport (own w));
  if port_taken u p then
    modify (put_nextport ((p + 1) mod (UDP_PMAX - UDP_PSTART)));; mret 1
  else mret (i + 1).
Definition PORT_FUEL : nat := 32.
Definition allocPort : nprog Z :=
  p ← gets (fun w => nextport (own w));
  modify (put_nextport ((p + 1) mod (UDP_PMAX - UDP_PSTART)));;
  while_ PORT_FUEL (fun i => mret (i <? NUDP)) port_body 0;;
  p ← gets (fun w => nextport (own w));
  mret (p + UDP_PSTART).

(** The arguments are the addresses of [localip] and [remoteip] and the two ports; the
    labels of the C code are the nested failures. *)
Definition udpOpen (minor : Z) (ap : list Z) : nprog Z :=
  kcall ENTER_KERNEL_CRITICAL_SECTION;;
  u ← udpx minor;
  r ← (if UDP_OPEN =? u_state u then mret SYSERR else
    amend_udp minor (set_u_state UDP_OPEN);;
    amend_udp minor (set_u_dev (Some minor));;
    amend_udp minor (set_u_icount 0);;
    amend_udp minor (set_u_istart 0);;
    sem ← kcall (semcreate 0);
    amend_udp minor (set_u_isem sem);;
    if SYSERR =? i32 sem then amend_udp minor (set_u_state UDP_FREE);; mret SYSERR else
    match ap with
    | [localip; remoteip; localpt; remotept] =>
        if NULL =? localip then
          kcall (semfree sem);; amend_udp minor (set_u_state UDP_FREE);; mret SYSERR
        else
        local ← get_netaddr localip;
        amend_udp minor (set_u_localip local);;
        remote ← (if NULL =? remoteip then mret zero_netaddr else get_netaddr remoteip);
        amend_udp minor (set_u_remoteip remote);;
        localpt ← (if 0 =? u16 localpt then allocPort else mret (u16 localpt));
        amend_udp minor (set_u_localpt localpt);;
        amend_udp minor (set_u_remotept (u16 remotept));;
        pool ← kcall (bfpalloc NET_MAX_PKTLEN UDP_MAX_PKTS);
        amend_udp minor (set_u_inPool pool);;
        if SYSERR =? i32 pool then
          amend_udp minor (set_u_localpt 0);;
          u ← udpx minor;
          kcall (semfree (u_isem u));;
          amend_udp minor (set_u_state UDP_FREE);;
          mret SYSERR
        else
          amend_udp minor (set_u_flags 0);;
          mret OK
    | _ => fault
    end);
  kcall EXIT_KERNEL_CRITICAL_SECTION;;
  mret r.

Definition udpClose (minor : Z) : nprog Z :=
  kcall ENTER_KERNEL_CRITICAL_SECTION;;
  u ← udpx minor;
  if negb (UDP_OPEN =? u_state u) then
    kcall EXIT_KERNEL_CRITICAL_SECTION;; mret SYSERR
  else
    kcall (bfpfree (u_inPool u));;
    u ← udpx minor;
    kcall (semfree (u_isem u));;
    amend_udp minor (fun _ => zero_udp);;
    amend_udp minor (set_u_state UDP_FREE);;
    kcall EXIT_KERNEL_CRITICAL_SECTION;;
    mret OK.

Definition udpControl (minor func arg1 arg2 : Z) : nprog Z :=
  if func =? UDP_CTRL_ACCEPT then
    amend_udp minor (set_u_localpt (u16 arg1));;
    if NULL =? arg2 then mret SYSERR else
    a ← get_netaddr arg2;
    amend_udp minor (set_u_localip a);;
    mret OK
  else if func =? UDP_CTRL_BIND then
    amend_udp minor (set_u_remotept (u16 arg1));;
    a ← (if NULL =? arg2 then mret zero_netaddr else get_netaddr arg2);
    amend_udp minor (set_u_remoteip a);;
    mret OK
  else if func =? UDP_CTRL_CLRFLAG then
    u ← udpx minor;
    amend_udp minor (fun u => set_u_flags (u8 (Z.land (u_flags u) (Z.lnot arg1))) u);;
    mret (u8 (Z.land (u_flags u) arg1))
  else if func =? UDP_CTRL_SETFLAG then
    u ← udpx minor;
    amend_udp minor (fun u => set_u_flags (u8 (Z.lor (u_flags u) arg1)) u);;
    mret (u8 (Z.land (u_flags u) arg1))
  else mret SYSERR.

(** ** Receiving *)

Definition udpGetbuf (i : Z) : nprog Z :=
  u ← udpx i;
  p ← kcall (bufget (u_inPool u));
  if SYSERR =? i32 p then mret (u32 SYSERR) else
  ucall (bzero p NET_MAX_PKTLEN);;
  mret p.

Definition udpFreebuf (p : Z) : nprog Z := kcall (buffree p).

(** The pseudo header is written in front of the datagram for the sum, and what was there
    is put back. *)
Definition udpChksum (p len : Z) (src dst : netaddr) : nprog Z :=
  e ← pkt p;
  let pseu := p_curr e - SIZEOF_PSEUDO in
  temp ← ucall (rd_bytes (Z.to_nat SIZEOF_PSEUDO) pseu);
  put_ip pseu src;;
  put_ip (pseu + PS_DSTIP) dst;;
  ucall (stb (pseu + PS_ZERO) 0);;
  ucall (stb (pseu + PS_PROTO) IPv4_PROTO_UDP);;
  ucall (sth (pseu + PS_LEN) (hs2net len));;
  sum ← ucall (netChksum pseu (len + SIZEOF_PSEUDO));
  ucall (wr_bytes pseu temp);;
  mret sum.

(** The body of the search of [udpDemux]: the state is [(udpptr, match)], and the loop is
    left at a full match. *)
Definition udpDemux_body (dstpt srcpt : Z) (dstip srcip : netaddr) (i : Z) (st : option Z * Z) : nprog (option Z * Z + Z) :=
  u ← udpx i;
  if u_state u =? UDP_FREE then mret (inl st) else
  here ← netaddrequal (u_localip u) dstip;
  if negb here then mret (inl st) else
  full ← (if (st.2 <? FULL_MATCH) && (u_localpt u =? dstpt) && (u_remotept u =? srcpt)
          then netaddrequal (u_remoteip u) srcip else mret false);
  if (full : bool) then mret (inr i) else
  let st := if (st.2 <? PARTIAL_MATCH) && (u_localpt u =? dstpt) && (u_remotept u =? srcpt) && (na_type (u_remoteip u) =? NULL)
            then (Some i, PARTIAL_MATCH) else st in
  let st := if (st.2 <? DEST_MATCH) && (u_localpt u =? dstpt) && (u_remotept u =? NULL) && (na_type (u_remoteip u) =? NULL)
            then (Some i, DEST_MATCH) else st in
  mret (inl st).
Definition udpDemux (dstpt srcpt : Z) (dstip srcip : netaddr) : nprog (option Z) :=
  r ← for_ (Z.to_nat NUDP) 0 (udpDemux_body dstpt srcpt dstip srcip) (None, NO_MATCH);
  mret (match r with inr i => Some i | inl st => st.1 end).

(** The header fields are put into the order of the host, and of the network again. *)
Definition swap_header (udppkt : Z) : nprog unit :=
  swap_half udppkt;;
  swap_half (udppkt + UDP_DSTPORT);;
  swap_half (udppkt + UDP_LEN).

(** What is done with a datagram [udppkt] for the socket [i]: it is copied behind a pseudo
    header into a buffer of the socket, which is added to the ring. *)
Definition udp_enqueue (i tpkt udppkt : Z) (src dst : netaddr) : nprog unit :=
  put_ip tpkt src;;
  put_ip (tpkt + PS_DSTIP) dst;;
  ucall (stb (tpkt + PS_ZERO) 0);;
  ucall (stb (tpkt + PS_PROTO) IPv4_PROTO_UDP);;
  len ← ucall (ldh (udppkt + UDP_LEN));
  ucall (sth (tpkt + PS_LEN) len);;
  len ← ucall (ldh (udppkt + UDP_LEN));
  ucall (memcpy (tpkt + SIZEOF_PSEUDO) udppkt len);;
  u ← udpx i;
  let index := Z.rem (u_istart u + u_icount u) UDP_MAX_PKTS in
  match u_in u !! index with
  | None => fault
  | Some _ =>
      amend_udp i (set_u_in (<[index := tpkt]> (u_in u)));;
      amend_udp i (fun u => set_u_icount (u_icount u + 1) u)
  end.

Definition udpRecv (p : Z) (src dst : netaddr) : nprog Z :=
  e ← pkt p;
  let udppkt := p_curr e in
  if udppkt =? NULL then netFreebuf p;; mret SYSERR else
  chk ← ucall (ldh (udppkt + UDP_CHKSUM));
  bad ← (if chk =? 0 then mret false else
         len ← ucall (ldh (udppkt + UDP_LEN));
         sum ← udpChksum p (net2hs len) src dst;
         mret (negb (sum =? 0)));
  if (bad : bool) then netFreebuf p;; mret SYSERR else
  swap_header udppkt;;
  kcall ENTER_KERNEL_CRITICAL_SECTION;;
  dstPort ← ucall (ldh (udppkt + UDP_DSTPORT));
  srcPort ← ucall (ldh udppkt);
  udpptr ← udpDemux dstPort srcPort dst src;
  match udpptr with
  | None =>
      kcall EXIT_KERNEL_CRITICAL_SECTION;;
      swap_header udppkt;;
      icmpDestUnreach devtab p ICMP_PORT_UNR;;
      netFreebuf p;;
      mret SYSERR
  | Some i =>
      u ← udpx i;
      if UDP_MAX_PKTS <=? u_icount u then
        kcall EXIT_KERNEL_CRITICAL_SECTION;; netFreebuf p;; mret SYSERR
      else
      (if negb (Z.land UDP_FLAG_BINDFIRST (u_flags u) =? 0) then
         port ← ucall (ldh udppkt);
         amend_udp i (set_u_remotept port);;
         amend_udp i (set_u_localip dst);;
         amend_udp i (set_u_remoteip src);;
         amend_udp i (fun u => set_u_flags (u8 (Z.land (u_flags u) (Z.lnot UDP_FLAG_BINDFIRST))) u)
       else mret tt);;
      tpkt ← udpGetbuf i;
      if SYSERR =? i32 tpkt then
        kcall EXIT_KERNEL_CRITICAL_SECTION;; netFreebuf p;; mret SYSERR
      else
      udp_enqueue i tpkt udppkt src dst;;
      kcall EXIT_KERNEL_CRITICAL_SECTION;;
      u ← udpx i;
      kcall (signal (u_isem u));;
      netFreebuf p;;
      mret OK
  end.

(** What follows the wait of [udpRead]. *)
Definition udp_take (minor buf len : Z) : nprog Z :=
  u ← udpx minor;
  if negb (UDP_OPEN =? u_state u) then
    kcall EXIT_KERNEL_CRITICAL_SECTION;; mret SYSERR
  else
  match u_in u !! u_istart u with
  | None => fault
  | Some pseudo =>
      amend_udp minor (set_u_istart (Z.rem (u_istart u + 1) UDP_MAX_PKTS));;
      amend_udp minor (set_u_icount (u_icount u - 1));;
      let udppkt := pseudo + SIZEOF_PSEUDO in
      ulen ← ucall (ldh (udppkt + UDP_LEN));
      let '(count, data) :=
        if negb (Z.land UDP_FLAG_PASSIVE (u_flags u) =? 0) then (u32 (ulen + SIZEOF_PSEUDO), pseudo)
        else (u32 (ulen - UDP_HDR_LEN), udppkt + UDP_DATA) in
      let count := if count >? len then len else count in
      ucall (memcpy buf data count);;
      udpFreebuf pseudo;;
      kcall EXIT_KERNEL_CRITICAL_SECTION;;
      mret (i32 count)
  end.

Definition udpRead (minor buf len : Z) : nprog Z :=
  kcall ENTER_KERNEL_CRITICAL_SECTION;;
  u ← udpx minor;
  if negb (UDP_OPEN =? u_state u) then
    kcall EXIT_KERNEL_CRITICAL_SECTION;; mret SYSERR
  else if negb (Z.land (u_flags u) UDP_FLAG_NOBLOCK =? 0) && (u_icount u <? 1) then
    kcall EXIT_KERNEL_CRITICAL_SECTION;; mret 0
  else
  kcall (wait (u_isem u));;
  udp_take minor buf len.

(** ** Sending *)

Definition udpSend (i datalen buf : Z) : nprog Z :=
  p ← netGetbuf;
  if SYSERR =? i32 p then mret SYSERR else
  u ← udpx i;
  let localip := u_localip u in
  r ← (if negb (Z.land (u_flags u) UDP_FLAG_PASSIVE =? 0) then
    let datalen := u16 (datalen - SIZEOF_PSEUDO) in
    amend_pkt p (set_p_len datalen);;
    amend_pkt p (fun e => set_p_curr (u32 (p_curr e - Z.land (3 + p_len e) (Z.lnot 3))) e);;
    e ← pkt p;
    let udppkt := p_curr e in
    ucall (memcpy udppkt (buf + SIZEOF_PSEUDO) datalen);;
    swap_half udppkt;;
    swap_half (udppkt + UDP_DSTPORT);;
    ucall (sth (udppkt + UDP_LEN) (hs2net (p_len e)));;
    ucall (sth (udppkt + UDP_CHKSUM) 0);;
    dip ← ucall (rd_bytes (Z.to_nat (na_len localip)) (buf + PS_DSTIP));
    sip ← ucall (rd_bytes (Z.to_nat (na_len localip)) buf);
    here ← first_bytes (na_len localip) (na_addr localip);
    mret (if bool_decide (here = sip)
          then Some (datalen, mkNetaddr (na_type localip) (na_len localip) (into_addr dip (na_addr (u_remoteip u))))
          else None)
  else
    let datalen := u16 (datalen + UDP_HDR_LEN) in
    amend_pkt p (set_p_len datalen);;
    amend_pkt p (fun e => set_p_curr (u32 (p_curr e - Z.land (3 + p_len e) (Z.lnot 3))) e);;
    e ← pkt p;
    let udppkt := p_curr e in
    ucall (sth udppkt (hs2net (u_localpt u)));;
    ucall (sth (udppkt + UDP_DSTPORT) (hs2net (u_remotept u)));;
    ucall (sth (udppkt + UDP_LEN) (hs2net (p_len e)));;
    ucall (sth (udppkt + UDP_CHKSUM) 0);;
    ucall (memcpy (udppkt + UDP_DATA) buf (datalen - UDP_HDR_LEN));;
    mret (Some (datalen, u_remoteip u)));
  match r with
  | None => netFreebuf p;; mret SYSERR
  | Some (datalen, remoteip) =>
      e ← pkt p;
      sum ← udpChksum p datalen localip remoteip;
      ucall (sth (p_curr e + UDP_CHKSUM) sum);;
      result ← ipv4Send devtab p localip (Some remoteip) IPv4_PROTO_UDP;
      f ← netFreebuf p;
      mret (if SYSERR =? f then SYSERR else result)
  end.

(** One round of the loop of [udpWrite], whose state is [count]. *)
Definition udpWrite_body (minor buf len : Z) (_ : Z) (count : Z) : nprog (Z + Z) :=
  if negb (count <? len) then mret (inr len) else
  let remaining := len - count in
  let pktsize := if UDP_MAX_DATALEN <=? remaining then UDP_MAX_DATALEN else remaining in
  result ← udpSend minor pktsize (buf + count);
  mret (if negb (OK =? result) then inr (if 0 =? count then SYSERR else count) else inl (count + pktsize)).

(** Every packet but the last is full. *)
Definition udpWrite (minor buf len : Z) : nprog Z :=
  u ← udpx minor;
  if negb (Z.land (u_flags u) UDP_FLAG_PASSIVE =? 0) then
    if (len >? SIZEOF_PSEUDO + UDP_HDR_LEN + UDP_MAX_DATALEN) || (len <? SIZEOF_PSEUDO + UDP_HDR_LEN) then mret SYSERR else
    result ← udpSend minor len buf;
    mret (if OK =? result then i32 len else SYSERR)
  else if (0 =? u_remotept u) || (0 =? na_type (u_remoteip u)) then mret SYSERR
  else
    r ← for_ (Z.to_nat (len / UDP_MAX_DATALEN + 2)) 0 (udpWrite_body minor buf len) 0;
    match r with inr v => mret (i32 v) | inl _ => diverge end.
End Udp.

(** The entry that [udp_Install] makes; it also links the control block.  [netdevs] are the
    devices that packets are sent on. *)
Definition udp_entry {H} (netdevs : gmap Z (device (net H))) (devnum name n : Z) : device (net H) :=
  mkDevice devnum n name (Some udpInit) (Some udpOpen) (Some udpClose) (Some udpRead) (Some (udpWrite netdevs)) None None None
    (Some udpControl) 0 0 0.
Definition udp_Install {H} (netdevs devtab : gmap Z (device (net H))) (devnum name n : Z) : dprog (net H) (gmap Z (device (net H))) :=
  match install devtab devnum (udp_entry netdevs devnum name n) with
  | None => fault
  | Some devtab => amend_udp n (set_u_dev (Some n));; mret devtab
  end.

(** ** Finding the socket of a datagram *)

Section Demux.
Context {H : Type} (w : dst (net H)) (dstpt srcpt : Z) (dstip srcip : netaddr).

(** All sockets are there, with well-formed addresses. *)
Hypothesis Hok : forall i, 0 <= i < NUDP ->
  exists u, udptab (own w) !! i = Some u /\ addr_ok (u_localip u) /\ addr_ok (u_remoteip u).
Hypothesis Hdst : addr_ok dstip.
Hypothesis Hsrc : addr_ok srcip.

(** How well a socket matches: not at all, by its port, by both ports, or by the whole
    connection. *)
Definition udp_match (u : udp) : Z :=
  if (u_state u =? UDP_FREE) || negb (same_addr (u_localip u) dstip) || negb (u_localpt u =? dstpt) then 0
  else if (u_remotept u =? srcpt) && same_addr (u_remoteip u) srcip then FULL_MATCH
  else if (u_remotept u =? srcpt) && (na_type (u_remoteip u) =? 0) then PARTIAL_MATCH
  else if (u_remotept u =? 0) && (na_type (u_remoteip u) =? 0) then DEST_MATCH
  else 0.
Definition udp_rank (i : Z) : Z := match udptab (own w) !! i with Some u => udp_match u | None => 0 end.

Lemma udp_rank_max i : udp_rank i <= FULL_MATCH.
Proof. unfold udp_rank, udp_match, FULL_MATCH, PARTIAL_MATCH, DEST_MATCH. destruct (_ !! _); repeat case_match; lia. Qed.

Lemma run_udpDemux_body j : (j < Z.to_nat NUDP)%nat -> (best udp_rank j).2 < FULL_MATCH ->
  run (udpDemux_body dstpt srcpt dstip srcip (Z.of_nat j) (best udp_rank j)) w =
    Done (if udp_rank (Z.of_nat j) =? FULL_MATCH then inr (Z.of_nat j) else inl (best udp_rank (S j))) w.
Proof.
  intros Hj Hlt. pose proof (best_nonneg udp_rank j) as Hnn. destruct (Hok (Z.of_nat j)) as (u & Hu & Hl & Hr); [unfold NUDP in *; lia |].
  cbn [best]. destruct (best udp_rank j) as [r m]. cbn [snd] in *. unfold udp_rank. rewrite Hu. unfold udpDemux_body.
  rewrite run_bind. unfold udpx. rewrite (run_load _ _ u) by done. cbn [obind]. unfold udp_match, NULL, FULL_MATCH, PARTIAL_MATCH, DEST_MATCH in *.
  destruct (u_state u =? UDP_FREE); cbn [orb].
  { change (0 =? 3) with false. cbn match. rewrite (proj2 (Z.ltb_ge _ _)) by lia. done. }
  rewrite run_bind, run_netaddrequal by done. cbn [obind]. destruct (same_addr (u_localip u) dstip); cbn [negb orb andb fst snd].
  2: { change (0 =? 3) with false. cbn match. rewrite (proj2 (Z.ltb_ge _ _)) by lia. done. }
  rewrite (proj2 (Z.ltb_lt m 3)) by lia. cbn [andb]. destruct (u_localpt u =? dstpt); cbn [negb orb andb].
  2: { rewrite run_bind, run_ret. cbn [obind]. rewrite !andb_false_r. cbn [andb snd]. change (0 =? 3) with false. cbn match.
       rewrite ?andb_false_r. cbn [andb]. rewrite (proj2 (Z.ltb_ge m 0)) by lia. done. }
  rewrite run_bind.
  destruct (u_remotept u =? srcpt), (na_type (u_remoteip u) =? 0), (u_remotept u =? 0);
    rewrite ?run_netaddrequal by done; rewrite ?run_ret; cbn [obind andb];
    try (destruct (same_addr (u_remoteip u) srcip)); cbn [obind andb snd]; rewrite ?run_ret; repeat ltb_case m; done.
Qed.

(** C31: The socket that gets a datagram is the first of those that match best: one with the
    whole connection comes before one that knows only the two ports, and that before one
    that listens on the port; among those that match equally the first in the table
    wins.  There is none only when no socket matches at all. *)
Theorem udpDemux_best :
  exists r, run (udpDemux dstpt srcpt dstip srcip) w = Done r w /\ is_best udp_rank NUDP r.
Proof.
  unfold udpDemux. change (None, NO_MATCH) with (best udp_rank 0). pose proof (best_is_best udp_rank) as Hb.
  assert (Hlt : forall k, (forall j, (j < k)%nat -> (udp_rank (Z.of_nat j) =? FULL_MATCH) = false) -> (best udp_rank k).2 < FULL_MATCH).
  { induction k as [|k IH]; intros Hno; [done |]. cbn [best]. specialize (IH ltac:(intros j Hj; apply Hno; lia)).
    pose proof (Hno k ltac:(lia)) as Hk. apply Z.eqb_neq in Hk. pose proof (udp_rank_max (Z.of_nat k)). destruct (_ <? _); [cbn [snd]; lia | done]. }
  destruct (first_such (fun j => udp_rank (Z.of_nat j) =? FULL_MATCH) (Z.to_nat NUDP)) as [(k & Hk & Hf & Hno) | Hno].
  - exists (Some (Z.of_nat k)). split.
    + rewrite run_bind, (for_exit (udpDemux_body dstpt srcpt dstip srcip) (Z.of_nat k) w k _ 0 (best udp_rank) (fun _ => w)); [done | done | |].
      * intros j Hj. rewrite Z.add_0_l, run_udpDemux_body; [by rewrite (Hno j Hj) | lia |]. apply Hlt. intros i Hi. apply Hno. lia.
      * rewrite Z.add_0_l, run_udpDemux_body; [by rewrite Hf | done | by apply Hlt].
    + apply Z.eqb_eq in Hf. unfold is_best, FULL_MATCH in *. split; [lia |]. split; [lia |]. intros i Hi.
      pose proof (udp_rank_max i). unfold FULL_MATCH in *. split; [lia |]. intros Hik.
      specialize (Hno (Z.to_nat i) ltac:(lia)). rewrite Z2Nat.id in Hno by lia. apply Z.eqb_neq in Hno. lia.
  - eexists. split.
    + rewrite run_bind, (for_through (udpDemux_body dstpt srcpt dstip srcip) (Z.to_nat NUDP) 0 (best udp_rank) (fun _ => w)); [cbn [obind]; exact eq_refl |].
      intros j Hj. rewrite Z.add_0_l, run_udpDemux_body; [by rewrite (Hno j Hj) | done |]. apply Hlt. intros i Hi. apply Hno. lia.
    + specialize (Hb (Z.to_nat NUDP)). by rewrite Z2Nat.id in Hb.
Qed.
End Demux.

(** ** Choosing a port *)

Section Port.
Context {H : Type} (us : list udp).

Abbreviation nprog := (dprog (net H)).

Definition NPORTS : Z := UDP_PMAX - UDP_PSTART.

(** The sockets. *)
Definition sockets (w : dst (net H)) : Prop := length us = 4%nat /\ forall i, udptab (own w) !! Z.of_nat i = us !! i.

(** The values of [nextport] that stand for a port that is taken. *)
Definition blocked : list Z := (UDP_PORT_TRACEROUTE - UDP_PSTART) :: ((fun u => u_localpt u - UDP_PSTART) <$> us).

Lemma taken_blocked i u p : us !! i = Some u -> port_taken u p = true -> p ∈ blocked.
Proof.
  intros Hu Ht. apply elem_of_cons. unfold port_taken in Ht. apply orb_true_iff in Ht as [E | E]; apply Z.eqb_eq in E; [right | left; lia].
  apply list_elem_of_fmap. exists u. split; [lia | by eapply list_elem_of_lookup_2].
Qed.

Lemma run_port_body i u (w : dst (net H)) : us !! i = Some u -> sockets w ->
  run (port_body (Z.of_nat i)) w =
    if port_taken u (nextport (own w)) then Done 1 (put_nextport ((nextport (own w) + 1) mod NPORTS) w) else Done (Z.of_nat i + 1) w.
Proof.
  intros Hu [_ Hs]. unfold port_body, udpx. rewrite run_bind, (run_load _ _ u) by (rewrite Hs; done). cbn [obind].
  rewrite run_bind, run_gets. cbn [obind]. by destruct (port_taken u _).
Qed.

(** A port is always found, in the range of the local ports; it is not the reserved one,
    and no socket but the first may have it; the first has it only when another port was
    tried before, since the search then starts again with the second socket. *)
Theorem allocPort_free (w : dst (net H)) : sockets w -> 0 <= nextport (own w) < NPORTS ->
  exists q, run allocPort w = Done (q + UDP_PSTART) (put_nextport q w) /\ 0 <= q < NPORTS /\
    q + UDP_PSTART <> UDP_PORT_TRACEROUTE /\
    (forall j u, (1 <= j)%nat -> us !! j = Some u -> u_localpt u <> q + UDP_PSTART) /\
    (q = (nextport (own w) + 1) mod NPORTS -> forall u, us !! 0%nat = Some u -> u_localpt u = q + UDP_PSTART -> False).
Proof.
  intros Hs Hn. pose proof (proj1 Hs) as Hlen. set (p0 := (nextport (own w) + 1) mod NPORTS).
  destruct (port_found us NPORTS port_taken blocked sockets (fun w => nextport (own w)) put_nextport port_body) with (fuel := PORT_FUEL) (s := put_nextport p0 w)
    as (q & E & Hq & Hfree & Hfirst); try done.
  - unfold blocked. cbn. rewrite length_fmap, Hlen. unfold NPORTS, UDP_PMAX, UDP_PSTART. lia.
  - exact taken_blocked.
  - intros v. by destruct v as [? ? []].
  - intros i u v Hu Hv. by apply run_port_body.
  - by destruct us.
  - unfold blocked, PORT_FUEL. cbn [length]. rewrite length_fmap, Hlen. lia.
  - apply Z.mod_pos_bound. done.
  - rewrite Hlen in E. exists q. split; [| split; [done |]].
    + unfold allocPort. rewrite run_bind, run_gets. cbn [obind]. rewrite run_bind, run_modify. cbn [obind].
      change (UDP_PMAX - UDP_PSTART) with NPORTS. fold p0. change NUDP with (Z.of_nat 4). rewrite run_bind, E. done.
    + assert (Hnot : forall u, port_taken u q = false -> q + UDP_PSTART <> UDP_PORT_TRACEROUTE /\ u_localpt u <> q + UDP_PSTART).
      { intros u Hu. apply orb_false_iff in Hu as [H1 H2]. apply Z.eqb_neq in H1, H2. lia. }
      destruct (lookup_lt_is_Some_2 us 1 ltac:(lia)) as [u1 Hu1]. split; [by eapply Hnot, (Hfree 1%nat u1) |]. split.
      * intros j u Hj Hu. by eapply Hnot, Hfree.
      * intros Eq u Hu Hp. by apply (Hnot u (Hfirst Eq u Hu)).
Qed.
End Port.

(** ** The ring of received datagrams *)

Section Ring.
Context {H : Type}.

Abbreviation nprog := (dprog (net H)).

(** A datagram of a socket: the header, with its fields in the order of the host, and the
    data. *)
Definition udp_len (l : list Z) : Z := match l !! 4%nat, l !! 5%nat with Some lo, Some hi => lo + 256 * hi | _, _ => 0 end.
Definition datagram (l : list Z) : Prop := Forall isbyte l /\ UDP_HDR_LEN <= Z.of_nat (length l) < 65536 /\ udp_len l = Z.of_nat (length l).

(** How it is stored, behind the pseudo header. *)
Definition stored (src dst : netaddr) (l : list Z) : list Z :=
  ip4 src ++ ip4 dst ++ [0; IPv4_PROTO_UDP; Z.of_nat (length l) mod 256; Z.of_nat (length l) / 256] ++ l.

(** The socket [u] has the blocks [q] in its ring, oldest first: addresses and bytes. *)
Record ring_of (m : bytemem) (u : udp) (q : list (Z * list Z)) : Prop := {
  rg_count : u_icount u = Z.of_nat (length q) /\ Z.of_nat (length q) <= UDP_MAX_PKTS;
  rg_start : 0 <= u_istart u < UDP_MAX_PKTS;
  rg_places : forall k, 0 <= k < UDP_MAX_PKTS -> is_Some (u_in u !! k);
  rg_in : forall j p b, q !! j = Some (p, b) -> u_in u !! ((u_istart u + Z.of_nat j) mod UDP_MAX_PKTS) = Some p /\ bytes_at m p b;
}.

(** The block of [n] bytes at [a] is apart from all of [q]. *)
Definition apart_from (a n : Z) (q : list (Z * list Z)) : Prop :=
  forall p b, (p, b) ∈ q -> a + n <= p \/ p + Z.of_nat (length b) <= a.

Lemma length_stored src dst l : addr_ok src -> addr_ok dst -> Z.of_nat (length (stored src dst l)) = SIZEOF_PSEUDO + Z.of_nat (length l).
Proof.
  intros Hs Hd. destruct (ip4_bytes src Hs) as [Ls _], (ip4_bytes dst Hd) as [Ld _].
  unfold stored, SIZEOF_PSEUDO. rewrite !length_app, Ls, Ld. cbn. lia.
Qed.

Lemma run_udp_enqueue i u q tpkt udppkt sa da l (w : dst (net H)) :
  udptab (own w) !! i = Some u -> ring_of (user w) u q -> Z.of_nat (length q) < UDP_MAX_PKTS ->
  addr_ok sa -> addr_ok da -> datagram l -> bytes_at (user w) udppkt l ->
  mapped (user w) tpkt (SIZEOF_PSEUDO + Z.of_nat (length l)) ->
  apart_from tpkt (SIZEOF_PSEUDO + Z.of_nat (length l)) ((udppkt, l) :: q) ->
  exists m u', run (udp_enqueue i tpkt udppkt sa da) w = Done tt (put_udptab (<[i := u']> (udptab (own w))) (mkDst (kern w) m (own w))) /\
    ring_of m u' (q ++ [(tpkt, stored sa da l)]) /\ u' = set_u_icount (u_icount u') (set_u_in (u_in u') u) /\
    (forall x, x < tpkt \/ tpkt + SIZEOF_PSEUDO + Z.of_nat (length l) <= x -> m !! x = user w !! x).
Proof.
  intros Hu [[Hc Hcl] Hst Hpl Hin] Hq Hs Hd (Hb & Hlen & Hul) Hl Hm Hap.
  destruct w as [k m o]. cbn [kern user own] in *. destruct (ip4_bytes sa Hs) as [Ls Bs], (ip4_bytes da Hd) as [Ld Bd].
  unfold udp_enqueue, SIZEOF_PSEUDO, UDP_HDR_LEN, PS_DSTIP, PS_ZERO, PS_PROTO, PS_LEN, UDP_LEN in *.
  destruct (region_start 12 m tpkt) as (r & R & Lr); [intros x Hx; apply Hm; lia |]. explode_list r Lr.
  pose proof (fun w : dst (net H) => run_put_ip tpkt sa w Hs) as Es. pose proof (fun w : dst (net H) => run_put_ip (tpkt + 4) da w Hd) as Ed.
  unfold stored. generalize dependent (ip4 sa). intros s4 Ls Bs Es. generalize dependent (ip4 da).
  intros d4 Ld Bd Ed. explode_list s4 Ls. explode_list d4 Ld.
  rewrite run_bind, Es. hstore @region_wr 0. rewrite run_bind, Ed. hstore @region_wr 4.
  rewrite run_bind. hstore @region_stb 8. rewrite run_bind. hstore @region_stb 9.
  set (n := Z.of_nat (length l)) in *.
  assert (Hfar : forall m' r, region m m' tpkt r -> length r = 12%nat -> bytes_at m' udppkt l).
  { intros m' r [_ Ho] Er x y Hx. pose proof (lookup_lt_Some _ _ _ Hx). rewrite Ho; [by apply Hl |].
    destruct (Hap udppkt l) as [? | ?]; [apply elem_of_cons; by left | lia ..]. }
  assert (Hlen4 : forall m', bytes_at m' udppkt l -> run (ucall (D:=net H) (ldh (udppkt + 4))) (mkDst k m' o) = Done n (mkDst k m' o)).
  { intros m' Hl'. destruct (lookup_lt_is_Some_2 l 4 ltac:(lia)) as [lo Hlo], (lookup_lt_is_Some_2 l 5 ltac:(lia)) as [hi Hhi].
    unfold udp_len in Hul. rewrite Hlo, Hhi in Hul. rewrite (run_ucall _ _ n m'); [done |]. cbn [user]. rewrite <- Hul.
    apply run_ldh; [exact (Hl' _ _ Hlo) | rewrite <- (Hl' _ _ Hhi); f_equal; lia]. }
  rewrite run_bind, Hlen4 by (by eapply Hfar). cbn [obind]. rewrite run_bind. hstore @region_sth 10.
  rewrite Z.shiftr_div_pow2 in R by lia. change (2 ^ 8) with 256 in R. change (u8 0) with 0 in R. change (u8 IPv4_PROTO_UDP) with IPv4_PROTO_UDP in R.
  rewrite (u8_small (n / 256)) in R by lia. change (u8 n) with (n mod 256) in R.
  rewrite run_bind, Hlen4 by (by eapply Hfar). cbn [obind].
  match type of R with region _ ?mm _ ?rr => set (mA := mm) in *; set (ps := rr) in * end.
  assert (Lps : length ps = 12%nat) by done. pose proof (Hfar _ _ R Lps) as Hl4.
  rewrite run_bind, (run_ucall _ _ (tpkt + 12) (poke (tpkt + 12) l mA)).
  2: { cbn [user]. apply run_memcpy; [done | done | |].
       - destruct R as [_ Ho]. intros x Hx. rewrite Ho by lia. replace (tpkt + 12 + x) with (tpkt + (12 + x)) by lia. apply Hm. lia.
       - destruct (Hap udppkt l) as [? | ?]; [apply elem_of_cons; by left | unfold apart; lia ..]. }
  cbn [obind kern own]. set (mB := poke (tpkt + 12) l mA).
  assert (Hout : forall x, x < tpkt \/ tpkt + 12 + n <= x -> mB !! x = m !! x).
  { intros x Hx. unfold mB. rewrite poke_out by lia. apply R. lia. }
  assert (Hblk : bytes_at mB tpkt (ps ++ l)).
  { apply bytes_at_app. rewrite Lps. split; [| apply poke_in]. apply bytes_at_poke; [apply R | lia]. }
  unfold udpx, amend_udp. rewrite run_bind, (run_load _ _ u) by done. cbn [obind].
  rewrite Z.rem_mod_nonneg by (unfold UDP_MAX_PKTS in *; lia). set (j := (u_istart u + u_icount u) mod UDP_MAX_PKTS).
  destruct (Hpl j) as [v Hv]; [apply Z.mod_pos_bound; done |]. rewrite Hv.
  rewrite run_bind, (run_amend _ _ _ _ u) by done. cbn [obind]. erewrite run_amend by (nsimpl; apply lookup_insert_eq). nsimpl.
  rewrite insert_insert_eq. eexists mB, _. split; [done |]. split; [| split; [done | exact Hout]].
  split; nsimpl.
  - rewrite length_app. cbn [length]. lia.
  - done.
  - intros x Hx. apply lookup_insert_is_Some'. right. by apply Hpl.
  - intros x p b Hx. apply lookup_app_Some in Hx as [Hx | [Hx Hx']].
    + pose proof (lookup_lt_Some _ _ _ Hx). destruct (Hin x p b Hx) as [H1 H2]. split.
      * rewrite lookup_insert_ne; [done |]. unfold j. apply ring_ne; unfold UDP_MAX_PKTS in *; lia.
      * intros y z Hy. pose proof (lookup_lt_Some _ _ _ Hy). rewrite Hout; [by apply H2 |].
        destruct (Hap p b) as [? | ?]; [apply elem_of_cons; right; by eapply list_elem_of_lookup_2 | lia ..].
    + destruct (x - length q)%nat eqn:Ex; [| done]. injection Hx' as <- <-. assert (x = length q) as -> by lia.
      split; [| exact Hblk]. rewrite <- Hc. fold j. apply lookup_insert_eq.
Qed.

(** What a reader gets of a datagram. *)
Definition received (u : udp) (sa da : netaddr) (l : list Z) : list Z :=
  if negb (Z.land UDP_FLAG_PASSIVE (u_flags u) =? 0) then stored sa da l else drop (Z.to_nat UDP_HDR_LEN) l.

Lemma run_udp_take i u q p buf len sa da l (w : dst (net H)) :
  udptab (own w) !! i = Some u -> ring_of (user w) u ((p, stored sa da l) :: q) -> u_state u = UDP_OPEN ->
  addr_ok sa -> addr_ok da -> datagram l -> 0 <= len < 2 ^ 31 ->
  let n := Z.min len (Z.of_nat (length (received u sa da l))) in
  mapped (user w) buf n -> apart_from buf n ((p, stored sa da l) :: q) ->
  exists m u', run (udp_take i buf len) w =
      run (udpFreebuf p;; kcall EXIT_KERNEL_CRITICAL_SECTION;; mret n) (put_udptab (<[i := u']> (udptab (own w))) (mkDst (kern w) m (own w))) /\
    bytes_at m buf (take (Z.to_nat n) (received u sa da l)) /\ ring_of m u' q /\
    u' = set_u_icount (u_icount u') (set_u_istart (u_istart u') u).
Proof.
  intros Hu [[Hc Hcl] Hst Hpl Hin] Ho Hs Hd (Hb & Hlen & Hul) Hl n Hm Hap.
  destruct w as [k m o]. cbn [kern user own] in *. destruct (Hin 0%nat _ _ eq_refl) as [Hp Hblk].
  replace (u_istart u + Z.of_nat 0) with (u_istart u) in Hp by lia. rewrite Z.mod_small in Hp by done.
  pose proof (length_stored sa da l Hs Hd) as Lst.
  assert (Hlb : bytes_at m (p + SIZEOF_PSEUDO) l).
  { assert (Hsp : stored sa da l = (ip4 sa ++ ip4 da ++ [0; IPv4_PROTO_UDP; Z.of_nat (length l) mod 256; Z.of_nat (length l) / 256]) ++ l).
    { unfold stored. by rewrite <- !app_assoc. }
    rewrite Hsp in Hblk. apply bytes_at_app in Hblk as [_ Hblk]. rewrite !length_app in Hblk.
    rewrite (proj1 (ip4_bytes sa Hs)), (proj1 (ip4_bytes da Hd)) in Hblk. exact Hblk. }
  unfold udp_take, udpx, amend_udp, UDP_HDR_LEN, SIZEOF_PSEUDO in *.
  rewrite run_bind, (run_load _ _ u) by done. cbn [obind]. rewrite Ho. change (negb (UDP_OPEN =? UDP_OPEN)) with false. cbn match. rewrite Hp.
  rewrite run_bind, (run_amend _ _ _ _ u) by done. cbn [obind]. rewrite run_bind. erewrite run_amend by (nsimpl; apply lookup_insert_eq).
  cbn [obind]. nsimpl. rewrite insert_insert_eq. set (u' := set_u_icount _ _).
  match goal with |- context [run _ ?x] => set (w1 := x) end.
  assert (Hlen4 : run (ucall (D:=net H) (ldh (p + 12 + UDP_LEN))) w1 = Done (Z.of_nat (length l)) w1).
  { unfold UDP_LEN. destruct (lookup_lt_is_Some_2 l 4 ltac:(lia)) as [lo Hlo], (lookup_lt_is_Some_2 l 5 ltac:(lia)) as [hi Hhi].
    unfold udp_len in Hul. rewrite Hlo, Hhi in Hul. rewrite (run_ucall _ _ (Z.of_nat (length l)) m); [done |]. cbn [user w1]. rewrite <- Hul.
    apply run_ldh; [exact (Hlb _ _ Hlo) | rewrite <- (Hlb _ _ Hhi); f_equal; lia]. }
  rewrite run_bind, Hlen4. cbn [obind].
  set (data := if negb (Z.land UDP_FLAG_PASSIVE (u_flags u) =? 0) then p else p + 12 + UDP_DATA).
  assert (Hsel : (if negb (Z.land UDP_FLAG_PASSIVE (u_flags u) =? 0) then (u32 (Z.of_nat (length l) + 12), p) else (u32 (Z.of_nat (length l) - 8), p + 12 + UDP_DATA))
    = (Z.of_nat (length (received u sa da l)), data)).
  { unfold received, data. destruct (negb _); rewrite u32_small by lia; f_equal; [lia |]. rewrite length_drop. unfold UDP_HDR_LEN. lia. }
  rewrite Hsel. assert (Hn : (if Z.of_nat (length (received u sa da l)) >? len then len else Z.of_nat (length (received u sa da l))) = n).
  { unfold n. rewrite Z.gtb_ltb. destruct (Z.ltb_spec len (Z.of_nat (length (received u sa da l)))); lia. }
  rewrite Hn. set (out := take (Z.to_nat n) (received u sa da l)).
  assert (Lout : Z.of_nat (length out) = n) by (unfold out; rewrite length_take; lia).
  assert (Hdata : bytes_at m data out).
  { apply bytes_at_take. unfold received, data. destruct (negb _); [exact Hblk |]. unfold UDP_DATA, UDP_HDR_LEN. rewrite <- (take_drop 8 l) in Hlb.
    apply bytes_at_app in Hlb as [_ H2]. rewrite length_take in H2. replace (8 `min` length l)%nat with 8%nat in H2 by lia. exact H2. }
  assert (Hbo : Forall isbyte out).
  { apply Forall_take. unfold received. destruct (negb _); [| by apply Forall_drop].
    unfold stored. repeat (apply Forall_app; split); try apply ip4_bytes; try done.
    unfold isbyte, IPv4_PROTO_UDP. repeat (apply Forall_cons; split; [lia |]). done. }
  assert (Hnle : 0 <= n <= Z.of_nat (length (received u sa da l))) by (unfold n; lia).
  assert (Hda : buf + n <= data \/ data + n <= buf).
  { destruct (Hap p (stored sa da l)) as [? | ?]; [apply elem_of_cons; by left | |]; unfold data, UDP_DATA; clear - Hnle Lst H0; unfold received, UDP_HDR_LEN in *;
      destruct (negb _); rewrite ?length_drop in *; lia. }
  assert (Hn0 : 0 <= n) by lia.
  rewrite run_bind, (run_ucall _ _ buf (poke buf out m)).
  2: { cbn [user w1]. rewrite <- Lout. apply run_memcpy; [done | done | by rewrite Lout | unfold apart; rewrite Lout; lia]. }
  cbn [obind]. rewrite i32_small by (unfold n; lia). exists (poke buf out m), u'. split; [done |]. split; [apply poke_in |]. split; [| done].
  split; unfold u'; nsimpl.
  - cbn [length] in Hc, Hcl. lia.
  - rewrite Z.rem_mod_nonneg by (unfold UDP_MAX_PKTS; lia). by apply Z.mod_pos_bound.
  - done.
  - intros j a b Hj. destruct (Hin (S j) a b Hj) as [H1 H2]. split.
    + rewrite Z.rem_mod_nonneg by (unfold UDP_MAX_PKTS; lia). rewrite Zplus_mod_idemp_l. rewrite <- H1. do 2 f_equal. lia.
    + apply bytes_at_poke; [done |]. rewrite Lout. destruct (Hap a b); [apply elem_of_cons; right; by eapply list_elem_of_lookup_2 | lia ..].
Qed.

(** C7: The datagrams of a socket are a queue.  Storing one, which [udpRecv] does with a buffer of
    the socket, adds it behind the others with the addresses it came with; reading takes the
    oldest, gives as many bytes of its data as were asked for and are there (in passive mode
    with the pseudo header and the header in front), leaves the others as they are, and goes on
    to give the buffer back. *)
Theorem udp_fifo i u q (w : dst (net H)) : udptab (own w) !! i = Some u ->
  (forall tpkt udppkt sa da l, let n := SIZEOF_PSEUDO + Z.of_nat (length l) in
     ring_of (user w) u q -> Z.of_nat (length q) < UDP_MAX_PKTS -> addr_ok sa -> addr_ok da -> datagram l ->
     bytes_at (user w) udppkt l -> mapped (user w) tpkt n -> apart_from tpkt n ((udppkt, l) :: q) ->
     exists m u', run (udp_enqueue i tpkt udppkt sa da) w = Done tt (put_udptab (<[i := u']> (udptab (own w))) (mkDst (kern w) m (own w))) /\
       ring_of m u' (q ++ [(tpkt, stored sa da l)])) /\
  (forall p buf len sa da l, let n := Z.min len (Z.of_nat (length (received u sa da l))) in
     ring_of (user w) u ((p, stored sa da l) :: q) -> u_state u = UDP_OPEN -> addr_ok sa -> addr_ok da -> datagram l ->
     0 <= len < 2 ^ 31 -> mapped (user w) buf n -> apart_from buf n ((p, stored sa da l) :: q) ->
     exists m u', run (udp_take i buf len) w =
         run (udpFreebuf p;; kcall EXIT_KERNEL_CRITICAL_SECTION;; mret n) (put_udptab (<[i := u']> (udptab (own w))) (mkDst (kern w) m (own w))) /\
       bytes_at m buf (take (Z.to_nat n) (received u sa da l)) /\ ring_of m u' q).
Proof.
  intros Hu. split.
  - intros tpkt udppkt sa da l n Hr Hq Hs Hd Hl Hb Hm Hap.
    destruct (run_udp_enqueue i u q tpkt udppkt sa da l w Hu Hr Hq Hs Hd Hl Hb Hm Hap) as (m & u' & E & Hr' & _). by exists m, u'.
  - intros p buf len sa da l n Hr Ho Hs Hd Hl Hlen Hm Hap.
    destruct (run_udp_take i u q p buf len sa da l w Hu Hr Ho Hs Hd Hl Hlen Hm Hap) as (m & u' & E & Hb & Hr' & _). by exists m, u'.
Qed.
End Ring.
