(* ===== verification/Raw.v ===== *)
(** Raw sockets: device/raw/.  A socket takes the packets of a protocol, or of all, in a
    ring of packet buffers. *)
From Stdlib Require Import ZArith Lia.
From stdpp Require Import sorting gmap functions list.
From S2P Require Import Prelude Kernel Queue QueueFacts Sched Semaphore Clock Message Memory Boot Frame Thread BufPool Bytes Device DevTab Chksum Netaddr Net Wire Snoop Route Arp Ipv4 Udp.

(** ** Constants: include/raw.h *)

Definition RAW_FREE : Z := 0.
Definition RAW_ALLOC : Z := 1.
Definition RAW_IBLEN : Z := 100.
Definition RAW_IACCEPT : Z := 1.
Definition RAW_IHDR : Z := 2.
Definition RAW_OHDR : Z := 4.
Definition RAW_CTRL_SETFLAG : Z := 1.
Definition RAW_CTRL_CLRFLAG : Z := 2.

Definition zero_raw : raw := mkRaw None 0 0 zero_netaddr zero_netaddr (table RAW_IBLEN 0) (table RAW_IBLEN zero_netaddr) 0 0 0 0.

Section Raw.
Context {H : Type} (devtab : gmap Z (device (net H))).

Abbreviation nprog := (dprog (net H)).

Definition rawx (i : Z) : nprog raw := load (fun w => rawtab (own w)) i.
Definition amend_raw (i : Z) (f : raw -> raw) : nprog unit := amend (fun w => rawtab (own w)) put_rawtab i f.

Definition rawInit (minor : Z) : nprog Z := amend_raw minor (fun _ => zero_raw);; mret OK.

(** The arguments are the addresses of [localip] and [remoteip] and the protocol. *)
Definition rawOpen (minor : Z) (ap : list Z) : nprog Z :=
  match ap with
  | [localip; remoteip; proto] =>
      kcall ENTER_KERNEL_CRITICAL_SECTION;;
      r ← rawx minor;
      if negb (RAW_FREE =? w_state r) then
        kcall EXIT_KERNEL_CRITICAL_SECTION;; mret SYSERR
      else
      amend_raw minor (set_w_state RAW_ALLOC);;
      amend_raw minor (set_w_dev (Some minor));;
      amend_raw minor (set_w_proto (u16 proto));;
      (if NULL =? localip then amend_raw minor (fun r => set_w_localip (set_na_type 0 (w_localip r)) r)
       else a ← get_netaddr localip; amend_raw minor (set_w_localip a));;
      (if NULL =? remoteip then amend_raw minor (fun r => set_w_remoteip (set_na_type 0 (w_remoteip r)) r)
       else a ← get_netaddr remoteip; amend_raw minor (set_w_remoteip a));;
      amend_raw minor (set_w_istart 0);;
      amend_raw minor (set_w_icount 0);;
      sem ← kcall (semcreate 0);
      amend_raw minor (set_w_isema sem);;
      if SYSERR =? i32 sem then
        kcall EXIT_KERNEL_CRITICAL_SECTION;; mret SYSERR
      else
      amend_raw minor (set_w_flags 0);;
      kcall EXIT_KERNEL_CRITICAL_SECTION;;
      mret OK
  | _ => fault
  end.

(** The loop of [rawClose] over the packets that were not read. *)
Definition free_cond (minor : Z) (_ : unit) : nprog bool := r ← rawx minor; mret (0 <? w_icount r).
Definition free_body (minor : Z) (_ : unit) : nprog unit :=
  r ← rawx minor;
  match w_in r !! w_istart r with
  | None => fault
  | Some p =>
      netFreebuf p;;
      amend_raw minor (fun r => set_w_istart (Z.rem (w_istart r + 1) RAW_IBLEN) r);;
      amend_raw minor (fun r => set_w_icount (w_icount r - 1) r)
  end.
(** There are at most [RAW_IBLEN] packets. *)
Definition rawClose (minor : Z) : nprog Z :=
  kcall ENTER_KERNEL_CRITICAL_SECTION;;
  r ← rawx minor;
  if negb (RAW_ALLOC =? w_state r) then
    kcall EXIT_KERNEL_CRITICAL_SECTION;; mret SYSERR
  else
  f ← kcall (semfree (w_isema r));
  if SYSERR =? f then
    kcall EXIT_KERNEL_CRITICAL_SECTION;; mret SYSERR
  else
  while_ (S (Z.to_nat RAW_IBLEN)) (free_cond minor) (free_body minor) tt;;
  amend_raw minor (fun _ => zero_raw);;
  kcall EXIT_KERNEL_CRITICAL_SECTION;;
  mret OK.

Definition rawControl (minor func arg1 arg2 : Z) : nprog Z :=
  kcall ENTER_KERNEL_CRITICAL_SECTION;;
  r ← rawx minor;
  if negb (RAW_ALLOC =? w_state r) then
    kcall EXIT_KERNEL_CRITICAL_SECTION;; mret SYSERR
  else if func =? RAW_CTRL_SETFLAG then
    amend_raw minor (fun r => set_w_flags (u8 (Z.lor (w_flags r) arg1)) r);;
    kcall EXIT_KERNEL_CRITICAL_SECTION;;
    mret (u8 (Z.land (w_flags r) arg1))
  else if func =? RAW_CTRL_CLRFLAG then
    amend_raw minor (fun r => set_w_flags (u8 (Z.land (w_flags r) (Z.lnot arg1))) r);;
    kcall EXIT_KERNEL_CRITICAL_SECTION;;
    mret (u8 (Z.land (w_flags r) arg1))
  else
    kcall EXIT_KERNEL_CRITICAL_SECTION;; mret SYSERR.

(** ** Receiving *)

(** The body of the search of [rawDemux]: the state is [(rawptr, level)]; each test sees
    the level the one before left. *)
Definition rawDemux_body (src dst : netaddr) (proto i : Z) (st : option Z * Z) : nprog (option Z * Z + unit) :=
  r ← rawx i;
  if negb (RAW_ALLOC =? w_state r) then mret (inl st) else
  rem ← netaddrequal src (w_remoteip r);
  loc ← netaddrequal dst (w_localip r);
  let same := proto =? w_proto r in
  let anyrem := NULL =? na_type (w_remoteip r) in
  let anyloc := NULL =? na_type (w_localip r) in
  let st := if (st.2 <? 4) && same && (rem : bool) && (loc : bool) then (Some i, 4) else st in
  let st := if (st.2 <? 3) && same && ((rem && anyloc) || (loc && anyrem)) then (Some i, 3) else st in
  let st := if (st.2 <? 2) && same && anyrem && anyloc then (Some i, 2) else st in
  let st := if (st.2 <? 1) && (NULL =? w_proto r) && anyrem && anyloc then (Some i, 1) else st in
  mret (inl st).
Definition rawDemux (src dst : netaddr) (proto : Z) : nprog (option Z) :=
  r ← for_ (Z.to_nat NRAW) 0 (rawDemux_body src dst proto) (None, 0);
  mret (match r with inr _ => None | inl st => st.1 end).

Definition rawRecv (p : Z) (src dst : netaddr) (proto : Z) : nprog Z :=
  if NULL =? p then mret SYSERR else
  rawptr ← rawDemux src dst proto;
  match rawptr with
  | None =>
      icmpDestUnreach devtab p ICMP_PORT_UNR;;
      netFreebuf p;;
      mret OK
  | Some i =>
      r ← rawx i;
      if RAW_IBLEN <=? w_icount r then netFreebuf p;; mret SYSERR else
      let index := Z.rem (w_istart r + w_icount r) RAW_IBLEN in
      match w_in r !! index with
      | None => fault
      | Some _ =>
          amend_raw i (set_w_in (<[index := p]> (w_in r)));;
          amend_raw i (set_w_src (<[index := src]> (w_src r)));;
          amend_raw i (set_w_icount (w_icount r + 1));;
          kcall (signal (w_isema r));;
          mret OK
      end
  end.

(** What follows the wait of [rawRead]. *)
Definition raw_take (minor buf len : Z) : nprog Z :=
  r ← rawx minor;
  match w_in r !! w_istart r, w_src r !! w_istart r with
  | Some p, Some from =>
      (if negb (Z.land (w_flags r) RAW_IACCEPT =? 0) then
         amend_raw minor (set_w_remoteip from);;
         amend_raw minor (set_w_flags (u8 (Z.land (w_flags r) (Z.lnot RAW_IACCEPT))))
       else mret tt);;
      amend_raw minor (set_w_in (<[w_istart r := NULL]> (w_in r)));;
      amend_raw minor (set_w_icount (w_icount r - 1));;
      amend_raw minor (set_w_istart (Z.rem (w_istart r + 1) RAW_IBLEN));;
      kcall EXIT_KERNEL_CRITICAL_SECTION;;
      r ← rawx minor;
      e ← pkt p;
      let data := if negb (Z.land (w_flags r) RAW_IHDR =? 0) then p_nethdr e else p_curr e in
      let dlen := u32 (p_len e - (data - p_linkhdr e)) in
      let dlen := if dlen >? len then len else dlen in
      ucall (memcpy buf data dlen);;
      f ← netFreebuf p;
      mret (if SYSERR =? f then SYSERR else i32 dlen)
  | _, _ => fault
  end.

Definition rawRead (minor buf len : Z) : nprog Z :=
  kcall ENTER_KERNEL_CRITICAL_SECTION;;
  r ← rawx minor;
  if negb (RAW_ALLOC =? w_state r) then
    kcall EXIT_KERNEL_CRITICAL_SECTION;; mret SYSERR
  else
  kcall (wait (w_isema r));;
  raw_take minor buf len.

(** ** Sending *)

Definition rawSend (i buf len : Z) : nprog Z :=
  r ← rawx i;
  if (NULL =? buf) || negb (RAW_ALLOC =? w_state r) then mret SYSERR else
  let hdr := negb (Z.land (w_flags r) RAW_OHDR =? 0) in
  if (if hdr then (NULL =? na_type (w_localip r)) || (NULL =? na_type (w_remoteip r))
      else (NULL =? w_proto r) || (NULL =? na_type (w_remoteip r))) then mret SYSERR else
  p ← netGetbuf;
  if SYSERR =? i32 p then mret SYSERR else
  amend_pkt p (fun e => set_p_curr (u32 (p_curr e - len)) e);;
  amend_pkt p (fun e => set_p_len (u32 (p_len e + len)) e);;
  e ← pkt p;
  ucall (memcpy (p_curr e) buf len);;
  result ← (if hdr then
      amend_pkt p (set_p_nethdr (p_curr e));;
      r ← rawx i;
      rtptr ← rtLookup (w_remoteip r);
      match rtptr with
      | None => netFreebuf p;; mret None
      | Some rt =>
          rt ← rte rt;
          match r_nif rt with
          | None => netFreebuf p;; mret None
          | Some n =>
              amend_pkt p (set_p_nif (Some n));;
              v ← netSend devtab p None (Some (w_remoteip r)) (na_type (w_remoteip r));
              mret (Some v)
          end
      end
    else
      r ← rawx i;
      if na_type (w_remoteip r) =? NETADDR_IPv4 then
        v ← ipv4Send devtab p (w_localip r) (Some (w_remoteip r)) (u8 (w_proto r));
        mret (Some v)
      else mret (Some SYSERR));
  match result with
  | None => mret SYSERR
  | Some result => f ← netFreebuf p; mret (if SYSERR =? f then SYSERR else result)
  end.

Definition rawWrite (minor buf len : Z) : nprog Z := rawSend minor buf len.
End Raw.

(** The entry that [raw_Install] makes; it also links the control block. *)
Definition raw_entry {H} (netdevs : gmap Z (device (net H))) (devnum name n : Z) : device (net H) :=
  mkDevice devnum n name (Some rawInit) (Some rawOpen) (Some rawClose) (Some rawRead) (Some (rawWrite netdevs)) None None None
    (Some rawControl) 0 0 0.
Definition raw_Install {H} (netdevs devtab : gmap Z (device (net H))) (devnum name n : Z) : dprog (net H) (gmap Z (device (net H))) :=
  match install devtab devnum (raw_entry netdevs devnum name n) with
  | None => fault
  | Some devtab => amend_raw n (set_w_dev (Some n));; mret devtab
  end.

(** ** Finding the socket of a packet *)

Section Demux.
Context {H : Type} (w : dst (net H)) (src dst : netaddr) (proto : Z).
Hypothesis Hok : forall i, 0 <= i < NRAW ->
  exists r, rawtab (own w) !! i = Some r /\ addr_ok (w_localip r) /\ addr_ok (w_remoteip r).
Hypothesis Hdst : addr_ok dst.
Hypothesis Hsrc : addr_ok src.

(** How well a socket matches: the protocol and both addresses, the protocol and one address
    when the other is not given, the protocol alone, or a socket for everything. *)
Definition raw_match (r : raw) : Z :=
  let anyrem := na_type (w_remoteip r) =? 0 in
  let anyloc := na_type (w_localip r) =? 0 in
  let rem := same_addr src (w_remoteip r) in
  let loc := same_addr dst (w_localip r) in
  if negb (w_state r =? RAW_ALLOC) then 0
  else if (w_proto r =? proto) && rem && loc then 4
  else if (w_proto r =? proto) && ((rem && anyloc) || (loc && anyrem)) then 3
  else if (w_proto r =? proto) && anyrem && anyloc then 2
  else if (w_proto r =? 0) && anyrem && anyloc then 1
  else 0.
Definition raw_rank (i : Z) : Z := match rawtab (own w) !! i with Some r => raw_match r | None => 0 end.

Lemma run_rawDemux_body j : (j < Z.to_nat NRAW)%nat ->
  run (rawDemux_body src dst proto (Z.of_nat j) (best raw_rank j)) w = Done (inl (best raw_rank (S j))) w.
Proof.
  intros Hj. pose proof (best_nonneg raw_rank j) as Hnn. destruct (Hok (Z.of_nat j)) as (r & Hr & Hl & Hre); [unfold NRAW in *; lia |].
  cbn [best]. destruct (best raw_rank j) as [k m]. cbn [snd] in *. unfold raw_rank. rewrite Hr. unfold rawDemux_body.
  rewrite run_bind. unfold rawx. rewrite (run_load _ _ r) by done. cbn [obind]. unfold raw_match, NULL.
  rewrite (Z.eqb_sym (w_state r)), (Z.eqb_sym (w_proto r) proto), (Z.eqb_sym (w_proto r) 0), (Z.eqb_sym (na_type (w_remoteip r))), (Z.eqb_sym (na_type (w_localip r))).
  destruct (RAW_ALLOC =? w_state r); cbn [negb]; [| rewrite (proj2 (Z.ltb_ge m 0)) by lia; done].
  rewrite run_bind, run_netaddrequal by done. cbn [obind]. rewrite run_bind, run_netaddrequal by done. cbn [obind].
  rewrite run_ret. f_equal.
  destruct (proto =? w_proto r), (0 =? w_proto r), (same_addr src _), (same_addr dst _), (0 =? na_type (w_remoteip r)), (0 =? na_type (w_localip r));
    cbn [andb orb]; rewrite ?andb_false_r, ?andb_true_r; cbn [andb]; repeat ltb_case m; done.
Qed.

(** The raw socket that gets a packet is the first of those that match best: protocol and
    both addresses, then the protocol and one address, then the protocol, then sockets
    for all protocols; there is none only when no open socket matches. *)
Theorem rawDemux_best : exists r, run (rawDemux src dst proto) w = Done r w /\ is_best raw_rank NRAW r.
Proof.
  unfold rawDemux. change (None, 0) with (best raw_rank 0). pose proof (best_is_best raw_rank (Z.to_nat NRAW)) as Hb. eexists. split.
  - rewrite run_bind, (for_through (rawDemux_body src dst proto) (Z.to_nat NRAW) 0 (best raw_rank) (fun _ => w)); [cbn [obind]; exact eq_refl |].
    intros j Hj. by rewrite Z.add_0_l, run_rawDemux_body.
  - by rewrite Z2Nat.id in Hb.
Qed.
End Demux.
