(* ===== verification/TcpTimer.v ===== *)
(** The timer events of TCP: device/tcp/tcpTimerSched.c, tcpTimerPurge.c and
    tcpTimerRemain.c.  The events are a delta list in [tcptimertab], which starts at the
    entry [TCP_EVT_HEAD] and is protected by the semaphore [tcpmutex]. *)
From Stdlib Require Import ZArith Lia.
From stdpp Require Import sorting gmap functions list.
From S2P Require Import Prelude Kernel Queue QueueFacts Sched Semaphore Clock Message Memory Boot Bytes Device Netaddr Tcb Net.

Section Globals.
Context {H : Type}.

Definition put_tcptab (v : gmap Z tcb) (w : dst (net H)) : dst (net H) := put_tcpst (set_g_tcptab v (tcpst (own w))) w.
Definition put_tcptimertab (v : gmap Z tcpEvent) (w : dst (net H)) : dst (net H) := put_tcpst (set_g_tcptimertab v (tcpst (own w))) w.
Definition put_nextevt (v : Z) (w : dst (net H)) : dst (net H) := put_tcpst (set_g_nextevt v (tcpst (own w))) w.
End Globals.

Section TcpTimer.
Context {H : Type}.

Abbreviation nprog := (dprog (net H)).

Definition evt (i : Z) : nprog tcpEvent := load (fun w => g_tcptimertab (tcpst (own w))) i.
Definition amend_evt (i : Z) (f : tcpEvent -> tcpEvent) : nprog unit :=
  amend (fun w => g_tcptimertab (tcpst (own w))) put_tcptimertab i f.
Definition wait_events : nprog unit := m ← gets (fun w => g_tcpmutex (tcpst (own w))); kcall (wait m);; mret tt.
Definition signal_events : nprog unit := m ← gets (fun w => g_tcpmutex (tcpst (own w))); kcall (signal m);; mret tt.

(** The list has at most [TCP_NEVENTS] entries, so more rounds than that mean that it
    does not end. *)
Definition EVT_FUEL : nat := S (Z.to_nat TCP_NEVENTS).

(** [nextevt] takes every value from 1 to [3*NTCP] once. *)
Definition evt_alloc_body (_ : Z) (_ : unit) : nprog (unit + Z) :=
  n ← gets (fun w => g_nextevt (tcpst (own w)));
  let nextevt := rem_NEVENTS (n + 1) in
  modify (put_nextevt nextevt);;
  if TCP_EVT_HEAD =? nextevt then mret (inl tt) else
  e ← evt nextevt;
  if negb (v_used e) then
    amend_evt nextevt (set_v_used true);;
    mret (inr nextevt)
  else mret (inl tt).
Definition allocEvent : nprog Z :=
  r ← for_ (Z.to_nat TCP_NEVENTS) 0 evt_alloc_body tt;
  mret (match r with inr e => e | inl _ => SYSERR end).

(** The place of an event: the state is [(time, prev, next)]. *)
Definition place_cond (st : Z * Z * option Z) : nprog bool :=
  let '(time, _, next) := st in
  match next with None => mret false | Some n => e ← evt n; mret (v_remain e <=? time) end.
Definition place_body (st : Z * Z * option Z) : nprog (Z * Z * option Z) :=
  let '(time, _, next) := st in
  match next with
  | None => fault
  | Some n => e ← evt n; time ← int (time - v_remain e); mret (time, n, v_next e)
  end.

(** The event goes between [prev] and [next], which is what the loop leaves. *)
Definition link_event (evtptr : Z) (st : Z * Z * option Z) : nprog unit :=
  let '(time, prev, next) := st in
  amend_evt evtptr (set_v_next next);;
  amend_evt prev (set_v_next (Some evtptr));;
  amend_evt evtptr (set_v_remain time);;
  match next with
  | None => mret tt
  | Some n => e ← evt n; d ← int (v_remain e - time); amend_evt n (set_v_remain d)
  end.

Definition insert_event (evtptr time : Z) : nprog unit :=
  head ← evt TCP_EVT_HEAD;
  r ← while_ EVT_FUEL place_cond place_body (time, TCP_EVT_HEAD, v_next head);
  link_event evtptr r.

Definition tcpTimerSched (time : Z) (tcbptr : option Z) (type : Z) : nprog Z :=
  if (time <? 0) || bool_decide (tcbptr = None) then mret SYSERR else
  wait_events;;
  evtptr ← allocEvent;
  if SYSERR =? evtptr then signal_events;; mret SYSERR else
  amend_evt evtptr (set_v_time time);;
  amend_evt evtptr (set_v_type type);;
  amend_evt evtptr (set_v_tcbptr tcbptr);;
  insert_event evtptr time;;
  signal_events;;
  mret OK.

(** The state is [(prev, cur, result)]. *)
Definition purge_cond (st : Z * option Z * Z) : nprog bool := let '(_, cur, _) := st in mret (bool_decide (cur <> None)).
Definition purge_body (tcbptr type : Z) (st : Z * option Z * Z) : nprog (Z * option Z * Z) :=
  let '(prev, cur, result) := st in
  match cur with
  | None => fault
  | Some c =>
      e ← evt c;
      result ← (if bool_decide (v_tcbptr e = Some tcbptr) && ((NULL =? type) || (v_type e =? type)) then
          result ← (if SYSERR =? result then int (v_time e - v_remain e) else mret result);
          match v_next e with
          | None => mret tt
          | Some n => f ← evt n; d ← int (v_remain f + v_remain e); amend_evt n (set_v_remain d)
          end;;
          amend_evt prev (set_v_next (v_next e));;
          amend_evt c (set_v_used false);;
          mret result
        else mret result);
      e ← evt c;
      mret (c, v_next e, result)
  end.
Definition tcpTimerPurge (tcbptr type : Z) : nprog Z :=
  wait_events;;
  head ← evt TCP_EVT_HEAD;
  r ← while_ EVT_FUEL purge_cond (purge_body tcbptr type) (TCP_EVT_HEAD, v_next head, SYSERR);
  signal_events;;
  mret (r.2).

(** The loop of [tcpTimerRemain], whose state is [(cur, time)]; it is left with the time of
    the event found. *)
Definition remain_body (tcbptr type : Z) (_ : Z) (st : option Z * Z) : nprog (option Z * Z + Z) :=
  let '(cur, time) := st in
  match cur with
  | None => mret (inr 0)
  | Some c =>
      e ← evt c;
      time ← int (time + v_remain e);
      if bool_decide (v_tcbptr e = Some tcbptr) && (v_type e =? type) then mret (inr time)
      else mret (inl (v_next e, time))
  end.
Definition tcpTimerRemain (tcbptr type : Z) : nprog Z :=
  wait_events;;
  head ← evt TCP_EVT_HEAD;
  r ← for_ EVT_FUEL 0 (remain_body tcbptr type) (v_next head, 0);
  match r with
  | inr time => signal_events;; mret time
  | inl _ => diverge
  end.
End TcpTimer.
