(* ===== verification/Agenda.v ===== *)
(** The timer of TCP as an agenda: the delta list of TcpTimer.v implements a list of
    events with the times that remain, in order; scheduling inserts, purging removes, and
    the time that remains for an event is looked up. *)
From Stdlib Require Import ZArith Lia.
From stdpp Require Import sorting gmap functions list.
From S2P Require Import Prelude Kernel Queue QueueFacts Sched Semaphore Clock Message Memory Boot Bytes Device Netaddr Tcb Net TcpTimer.

(** ** The delta list *)

(** An entry of the list without its link. *)
Record item := mkItem { it_id : Z; it_used : bool; it_delta : Z; it_time : Z; it_type : Z; it_tcb : option Z }.
Definition item_of (i : Z) (e : tcpEvent) : item := mkItem i (v_used e) (v_remain e) (v_time e) (v_type e) (v_tcbptr e).
Definition with_delta (d : Z) (x : item) : item := mkItem (it_id x) (it_used x) d (it_time x) (it_type x) (it_tcb x).
Definition unused (x : item) : item := mkItem (it_id x) false (it_delta x) (it_time x) (it_type x) (it_tcb x).
Definition ids (q : list item) : list Z := it_id <$> q.

(** The entries linked from [o] on are [q]. *)
Fixpoint linked (tab : gmap Z tcpEvent) (o : option Z) (q : list item) : Prop :=
  match q with
  | [] => o = None
  | x :: q => o = Some (it_id x) /\ exists e, tab !! it_id x = Some e /\ item_of (it_id x) e = x /\ linked tab (v_next e) q
  end.

(** ** The agenda *)

(** An event of the agenda: when it is due, what it is, and for which connection. *)
Definition entry : Type := Z * Z * option Z.
Definition entry_of (due : Z) (x : item) : entry := (due, it_type x, it_tcb x).

(** The agenda of a delta list: the deltas are summed up. *)
Fixpoint agenda (acc : Z) (q : list item) : list entry :=
  match q with
  | [] => []
  | x :: q => entry_of (acc + it_delta x) x :: agenda (acc + it_delta x) q
  end.

(** A new event comes after those that are due at the same time. *)
Fixpoint schedule (t : Z) (type : Z) (b : Z) (l : list entry) : list entry :=
  match l with
  | [] => [(t, type, Some b)]
  | y :: l => if y.1.1 <=? t then y :: schedule t type b l else (t, type, Some b) :: y :: l
  end.

(** Is it an event of the connection [b], of the type [type] or of any when that is 0? *)
Definition concerns (b type : Z) (y : entry) : bool := bool_decide (y.2 = Some b) && ((NULL =? type) || (y.1.2 =? type)).
Definition matches (b type : Z) (x : item) : bool := bool_decide (it_tcb x = Some b) && ((NULL =? type) || (it_type x =? type)).

(** ** Insertion and removal in a delta list *)

Fixpoint insert_item (t : Z) (x : item) (q : list item) : list item :=
  match q with
  | [] => [with_delta t x]
  | y :: q => if it_delta y <=? t then y :: insert_item (t - it_delta y) x q
              else with_delta t x :: with_delta (it_delta y - t) y :: q
  end.

(** What [tcpTimerPurge] leaves: [carry] is the delta of the entry before, when that one
    matches, and [prev] tells whether that entry is still linked; an entry that matches is
    only unlinked when the one before it is linked. *)
Fixpoint purged (m : item -> bool) (prev : bool) (carry : Z) (q : list item) : list item :=
  match q with
  | [] => []
  | x :: q =>
      let x := with_delta (it_delta x + carry) x in
      if m x then
        if prev then purged m false (it_delta x) q else unused x :: purged m true (it_delta x) q
      else x :: purged m true 0 q
  end.

(** No two neighbours match. *)
Fixpoint spread (m : item -> bool) (prev : bool) (q : list item) : bool :=
  match q with
  | [] => true
  | x :: q => negb (prev && m x) && spread m (m x) q
  end.

(** The sum of the deltas. *)
Fixpoint span (q : list item) : Z := match q with [] => 0 | x :: q => it_delta x + span q end.

(** No event is due later than it was asked for; [acc] is what comes before. *)
Fixpoint sound (acc : Z) (q : list item) : Prop :=
  match q with
  | [] => True
  | x :: q => 0 <= it_delta x /\ acc + it_delta x <= it_time x <= INT_MAX /\ sound (acc + it_delta x) q
  end.

Lemma sound_deltas q : forall acc, 0 <= acc -> sound acc q -> Forall (fun x => 0 <= it_delta x <= INT_MAX) q.
Proof.
  induction q as [|x q IH]; intros acc Ha Hq; [constructor |]. destruct Hq as (H1 & H2 & H3).
  constructor; [lia |]. apply (IH (acc + it_delta x)); [lia | done].
Qed.

Lemma sound_span q : forall acc, acc <= INT_MAX -> sound acc q -> acc + span q <= INT_MAX.
Proof.
  induction q as [|x q IH]; intros acc Ha Hq; cbn [span]; [lia |]. destruct Hq as (H1 & H2 & H3).
  specialize (IH (acc + it_delta x) ltac:(lia) H3). lia.
Qed.

(** ** What the operations on the list do to the agenda *)

Lemma agenda_insert x b t q : forall acc, it_tcb x = Some b ->
  agenda acc (insert_item t x q) = schedule (acc + t) (it_type x) b (agenda acc q).
Proof.
  revert t. induction q as [|y q IH]; intros t acc Hb; cbn [insert_item agenda schedule].
  - unfold entry_of. cbn. by rewrite Hb.
  - destruct (Z.leb_spec (it_delta y) t) as [Hle|Hlt]; cbn [agenda schedule entry_of with_delta it_delta it_type it_tcb fst snd].
    + replace (acc + it_delta y <=? acc + t) with true by lia. rewrite IH by done. by replace (acc + it_delta y + (t - it_delta y)) with (acc + t) by lia.
    + replace (acc + it_delta y <=? acc + t) with false by lia. unfold entry_of. cbn. rewrite Hb.
      by replace (acc + t + (it_delta y - t)) with (acc + it_delta y) by lia.
Qed.

Lemma matches_delta b type d x : matches b type (with_delta d x) = matches b type x.
Proof. done. Qed.

Lemma agenda_purged b type q : forall prev carry acc, spread (matches b type) (negb prev) q = true ->
  agenda acc (purged (matches b type) prev carry q) = filter (fun y => negb (concerns b type y)) (agenda (acc + carry) q).
Proof.
  induction q as [|x q IH]; intros prev carry acc Hs; [done |]. cbn [purged agenda spread] in *.
  rewrite matches_delta. apply andb_true_iff in Hs as [Hs1 Hs2].
  rewrite filter_cons. change (concerns b type (entry_of (acc + carry + it_delta x) x)) with (matches b type x).
  destruct (matches b type x) eqn:E; cbn [negb] in *.
  - destruct prev; [| discriminate]. rewrite decide_False by auto. rewrite IH by done. cbn. by replace (acc + (it_delta x + carry)) with (acc + carry + it_delta x) by lia.
  - rewrite decide_True by done. cbn [agenda with_delta it_delta]. rewrite IH by done. unfold entry_of. cbn.
    rewrite Z.add_0_r. by replace (acc + (it_delta x + carry)) with (acc + carry + it_delta x) by lia.
Qed.

(** ** The operations on the list *)

Lemma linked_events_frame tab tab' q : forall o, linked tab o q -> (forall j, j ∈ ids q -> tab' !! j = tab !! j) -> linked tab' o q.
Proof.
  induction q as [|x q IH]; intros o Hl Hf; [done |]. destruct Hl as (-> & e & He & Hx & Hl). split; [done |].
  exists e. split; [rewrite Hf; [done | apply list_elem_of_here] |]. split; [done |]. apply IH; [done |].
  intros j Hj. apply Hf. by apply list_elem_of_further.
Qed.

Section Ops.
Context {H : Type}.
Implicit Types w : dst (net H).

Definition evtab w : gmap Z tcpEvent := g_tcptimertab (tcpst (own w)).

Lemma run_evt j e w : evtab w !! j = Some e -> run (evt j) w = Done e w.
Proof. apply (run_load (fun w : dst (net H) => g_tcptimertab (tcpst (own w)))). Qed.
Lemma run_amend_evt j f e w : evtab w !! j = Some e -> run (amend_evt j f) w = Done tt (put_tcptimertab (<[j := f e]> (evtab w)) w).
Proof. apply (run_amend (fun w : dst (net H) => g_tcptimertab (tcpst (own w))) put_tcptimertab). Qed.
Lemma put_tcptimertab_put t t' w : put_tcptimertab t (put_tcptimertab t' w) = put_tcptimertab t w.
Proof. done. Qed.
Lemma evtab_put t w : evtab (put_tcptimertab t w) = t.
Proof. done. Qed.

(** An entry is put in front of the list that follows [prev]. *)
Lemma run_link_event w evtptr ee prev pe t q :
  evtab w !! evtptr = Some ee -> evtab w !! prev = Some pe -> evtptr <> prev -> evtptr ∉ ids q -> prev ∉ ids q -> NoDup (ids q) ->
  linked (evtab w) (v_next pe) q -> 0 <= t -> (forall y q', q = y :: q' -> t < it_delta y <= INT_MAX) ->
  exists tab, run (link_event evtptr (t, prev, v_next pe)) w = Done tt (put_tcptimertab tab w) /\
    tab !! prev = Some (set_v_next (Some evtptr) pe) /\
    linked tab (Some evtptr) (insert_item t (item_of evtptr ee) q) /\
    (forall j, j <> evtptr -> j <> prev -> j ∉ ids q -> tab !! j = evtab w !! j).
Proof.
  intros He Hp Hne Hq Hpq Hnd Hl Ht Hd. unfold link_event.
  rewrite run_bind, (run_amend_evt _ _ ee) by done. cbn [obind].
  rewrite run_bind, (run_amend_evt _ _ pe) by (rewrite evtab_put, lookup_insert_ne by done; done). cbn [obind].
  rewrite run_bind, (run_amend_evt _ _ (set_v_next (v_next pe) ee)) by (rewrite !evtab_put, lookup_insert_ne, lookup_insert_eq by done; done). cbn [obind].
  rewrite !evtab_put, !put_tcptimertab_put.
  destruct q as [|y q].
  - cbn in Hl. rewrite Hl. eexists. split; [done |]. split; [by rewrite lookup_insert_ne, lookup_insert_eq by done |].
    split; [| intros j Hj1 Hj2 _; by rewrite !lookup_insert_ne by done].
    cbn. split; [done |]. eexists. split; [apply lookup_insert_eq |]. done.
  - destruct Hl as (-> & e & Hey & Hy & Hl). apply not_elem_of_cons in Hq as [Hq1 Hq2], Hpq as [Hpq1 Hpq2].
    apply NoDup_cons in Hnd as [Hnd1 Hnd2]. destruct (Hd y q eq_refl) as [Hd1 Hd2].
    assert (Ey : v_remain e = it_delta y) by (rewrite <- Hy; done).
    rewrite run_bind, (run_evt _ e) by (rewrite evtab_put, !lookup_insert_ne by done; done). cbn [obind].
    rewrite run_bind, run_int by (rewrite Ey; unfold INT_MIN; lia). cbn [obind].
    rewrite (run_amend_evt _ _ e) by (rewrite evtab_put, !lookup_insert_ne by done; done). rewrite evtab_put, put_tcptimertab_put.
    eexists. split; [done |]. split; [by rewrite !lookup_insert_ne, lookup_insert_eq by done |]. split.
    + cbn [insert_item]. replace (it_delta y <=? t) with false by lia. split; [done |].
      eexists. split; [rewrite lookup_insert_ne by done; apply lookup_insert_eq |]. split; [done |]. split; [done |].
      eexists. split; [apply lookup_insert_eq |]. split; [rewrite Ey; clear -Hy; destruct y, e; unfold item_of, with_delta in *; cbn in *; congruence |].
      eapply linked_events_frame; [exact Hl |]. intros j Hj. rewrite !lookup_insert_ne; [done |..]; intros <-; done.
    + intros j Hj1 Hj2 Hj3. apply not_elem_of_cons in Hj3 as [Hj3 _]. by rewrite !lookup_insert_ne by done.
Qed.

(** The search for the place: either the new entry goes in front of the first, or the
    search goes on behind it. *)
Definition put_event (fuel : nat) (evtptr time prev : Z) (o : option Z) : dprog (net H) unit :=
  r ← while_ fuel place_cond place_body (time, prev, o); link_event evtptr r.

Lemma run_put_event evtptr ee q : forall fuel w time prev pe,
  (length q < fuel)%nat -> evtab w !! evtptr = Some ee -> evtab w !! prev = Some pe -> evtptr <> prev -> evtptr ∉ ids q -> prev ∉ ids q ->
  NoDup (ids q) -> linked (evtab w) (v_next pe) q -> 0 <= time <= INT_MAX -> Forall (fun x => 0 <= it_delta x <= INT_MAX) q ->
  exists tab pe', run (put_event fuel evtptr time prev (v_next pe)) w = Done tt (put_tcptimertab tab w) /\
    tab !! prev = Some pe' /\ item_of prev pe' = item_of prev pe /\
    linked tab (v_next pe') (insert_item time (item_of evtptr ee) q) /\
    (forall j, j <> evtptr -> j <> prev -> j ∉ ids q -> tab !! j = evtab w !! j).
Proof.
  induction q as [|x q IH]; intros fuel w time prev pe Hf He Hp Hne Hq Hpq Hnd Hl Ht Hs; (destruct fuel as [|fuel]; [cbn in Hf; lia |]);
    unfold put_event; rewrite run_bind, run_while_S.
  - cbn in Hl. rewrite Hl. cbn [place_cond]. rewrite run_ret. cbn [obind]. rewrite run_ret. cbn [obind]. rewrite <- Hl.
    destruct (run_link_event w evtptr ee prev pe time []) as (tab & E & H1 & H2 & H3); try done; [lia |].
    exists tab, (set_v_next (Some evtptr) pe). split_and!; try done.
  - pose proof Hl as (Ex & e & Hex & Hx & Hl'). rewrite Ex. cbn [place_cond]. apply Forall_cons in Hs as [Hs1 Hs2].
    assert (Er : v_remain e = it_delta x) by (rewrite <- Hx; done).
    pose proof (NoDup_cons_1_1 _ _ Hnd) as Hnd1. pose proof (NoDup_cons_1_2 _ _ Hnd) as Hnd2.
    assert (Hq1 : evtptr <> it_id x) by (intros ->; apply Hq, list_elem_of_here).
    assert (Hq2 : evtptr ∉ ids q) by (intros Hin; by apply Hq, list_elem_of_further).
    rewrite run_bind, (run_evt _ e) by done. cbn [obind]. rewrite run_ret. cbn [obind]. rewrite Er.
    cbn [insert_item]. destruct (Z.leb_spec (it_delta x) time) as [Hle|Hlt].
    + cbn [place_body]. rewrite run_bind, run_bind, (run_evt _ e) by done. cbn [obind].
      rewrite run_bind, run_int by (rewrite Er; unfold INT_MIN; lia). cbn [obind]. rewrite run_ret. cbn [obind].
      destruct (IH fuel w (time - it_delta x) (it_id x) e) as (tab & e' & E & H1 & H2 & H3 & H4); try done; try lia.
      { cbn in Hf. lia. }
      rewrite Er. unfold put_event in E. rewrite run_bind in E. rewrite E. exists tab, pe. split; [done |].
      rewrite H4; [| done | intros ->; apply Hpq, list_elem_of_here | intros Hin; by apply Hpq, list_elem_of_further].
      split; [done |]. split; [done |]. split.
      * rewrite Ex. split; [done |]. exists e'. split; [done |]. split; [by rewrite H2 |]. done.
      * intros j Hj1 Hj2 Hj3. apply not_elem_of_cons in Hj3 as [Hj3 Hj4]. by apply H4.
    + rewrite run_ret. cbn [obind]. rewrite <- Ex.
      destruct (run_link_event w evtptr ee prev pe time (x :: q)) as (tab & E & H1 & H2 & H3); try done; [lia | |].
      { intros y q' [= <- <-]. lia. }
      rewrite E. exists tab, (set_v_next (Some evtptr) pe). split_and!; try done.
      cbn [insert_item] in H2. by replace (it_delta x <=? time) with false in H2 by lia.
Qed.

(** ** Allocation *)
(** The values that [nextevt] takes: it goes on by two, around [3*NTCP] entries. *)
Definition nth_evt (n0 : Z) (j : nat) : Z := match j with O => n0 | _ => (n0 - 1 + 2 * Z.of_nat j) mod 21 + 1 end.

Lemma nth_evt_next n0 j : 0 <= n0 <= 21 -> rem_NEVENTS (nth_evt n0 j + 1) = nth_evt n0 (S j).
Proof.
  intros Hn. unfold rem_NEVENTS, NTCP, nth_evt. change (3 * 7) with 21. rewrite Z.rem_mod_nonneg by (destruct j; lia).
  f_equal. destruct j; [f_equal; lia |]. lia.
Qed.

Lemma nth_evt_range n0 j : 1 <= nth_evt n0 (S j) <= 21.
Proof. unfold nth_evt. lia. Qed.

(** Every entry but the head comes within 21 rounds. *)
Lemma nth_evt_all n0 e : 0 <= n0 <= 21 -> 1 <= e <= 21 -> exists j, (j < 22)%nat /\ nth_evt n0 (S j) = e.
Proof.
  intros Hn He. exists (Z.to_nat ((11 * (e - n0) + 20) mod 21)). split; [lia |].
  unfold nth_evt. rewrite Nat2Z.inj_succ, Z2Nat.id by lia. lia.
Qed.

Definition complete w : Prop := (forall j, 0 <= j < TCP_NEVENTS -> is_Some (evtab w !! j)) /\ 0 <= g_nextevt (tcpst (own w)) <= 21.
Definition is_free w (j : Z) : bool := match evtab w !! j with Some e => negb (v_used e) | None => false end.

Lemma run_alloc_body w n i e : rem_NEVENTS (n + 1) <> TCP_EVT_HEAD -> evtab w !! rem_NEVENTS (n + 1) = Some e ->
  run (evt_alloc_body i tt) (put_nextevt n w) =
    if v_used e then Done (inl tt) (put_nextevt (rem_NEVENTS (n + 1)) w)
    else Done (inr (rem_NEVENTS (n + 1)))
      (put_tcptimertab (<[rem_NEVENTS (n + 1) := set_v_used true e]> (evtab w)) (put_nextevt (rem_NEVENTS (n + 1)) w)).
Proof.
  intros Hn He. unfold evt_alloc_body. rewrite run_bind, run_gets. cbn [obind].
  change (g_nextevt (tcpst (own (put_nextevt n w)))) with n. rewrite run_bind, run_modify. cbn [obind].
  replace (TCP_EVT_HEAD =? rem_NEVENTS (n + 1)) with false by lia.
  rewrite run_bind, (run_evt _ e) by done. cbn [obind]. destruct (v_used e); cbn [negb]; [done |].
  by rewrite run_bind, (run_amend_evt _ _ e) by done.
Qed.

Lemma put_nextevt_get w : put_nextevt (g_nextevt (tcpst (own w))) w = w.
Proof. by destruct w as [? ? [? ? ? ? ? ? ? ? ? ? ? ? ? ? []]]. Qed.

Lemma run_allocEvent w : complete w ->
  (exists e ee, 1 <= e <= 21 /\ evtab w !! e = Some ee /\ v_used ee = false /\
     run allocEvent w = Done e (put_tcptimertab (<[e := set_v_used true ee]> (evtab w)) (put_nextevt e w))) \/
  ((forall j e, 1 <= j <= 21 -> evtab w !! j = Some e -> v_used e = true) /\
   exists n, 0 <= n <= 21 /\ run allocEvent w = Done SYSERR (put_nextevt n w)).
Proof.
  intros [Hc Hn]. set (n0 := g_nextevt (tcpst (own w))) in *.
  assert (Hev : forall j, exists e, evtab w !! nth_evt n0 (S j) = Some e).
  { intros j. pose proof (nth_evt_range n0 j). apply Hc. unfold TCP_NEVENTS, NTCP. lia. }
  assert (Hbody : forall j e, evtab w !! nth_evt n0 (S j) = Some e ->
    run (evt_alloc_body (0 + Z.of_nat j) tt) (put_nextevt (nth_evt n0 j) w) =
      if v_used e then Done (inl tt) (put_nextevt (nth_evt n0 (S j)) w)
      else Done (inr (nth_evt n0 (S j))) (put_tcptimertab (<[nth_evt n0 (S j) := set_v_used true e]> (evtab w)) (put_nextevt (nth_evt n0 (S j)) w))).
  { intros j e He. pose proof (nth_evt_range n0 j). rewrite <- nth_evt_next in * by done. apply run_alloc_body; [unfold TCP_EVT_HEAD; lia | done]. }
  unfold allocEvent. change (Z.to_nat TCP_NEVENTS) with 22%nat. rewrite run_bind.
  destruct (first_such (fun j => is_free w (nth_evt n0 (S j))) 22) as [(k & Hk & Hfree & Hbefore) | Hall].
  - left. destruct (Hev k) as [ee He]. unfold is_free in Hfree. rewrite He in Hfree. apply negb_true_iff in Hfree.
    exists (nth_evt n0 (S k)), ee. split; [apply nth_evt_range |]. split; [done |]. split; [done |].
    rewrite <- (put_nextevt_get w) at 1. fold n0. change n0 with (nth_evt n0 0) at 1.
    erewrite (for_exit _ _ _ k 22 0 (fun _ => tt) (fun j => put_nextevt (nth_evt n0 j) w)); [done | done | |].
    + intros j Hj. destruct (Hev j) as [e He']. rewrite (Hbody j e He'). specialize (Hbefore j Hj). unfold is_free in Hbefore.
      rewrite He' in Hbefore. apply negb_false_iff in Hbefore. by rewrite Hbefore.
    + rewrite (Hbody k ee He), Hfree. done.
  - right. split.
    + intros j e Hj He. destruct (nth_evt_all n0 j Hn Hj) as (k & Hk & <-). specialize (Hall k Hk). unfold is_free in Hall.
      rewrite He in Hall. by apply negb_false_iff in Hall.
    + exists (nth_evt n0 22). split; [pose proof (nth_evt_range n0 21); lia |].
      rewrite <- (put_nextevt_get w) at 1. fold n0. change n0 with (nth_evt n0 0) at 1.
      erewrite (for_through _ 22 0 (fun _ => tt) (fun j => put_nextevt (nth_evt n0 j) w)); [done |].
      intros j Hj. destruct (Hev j) as [e He']. rewrite (Hbody j e He'). specialize (Hall j Hj). unfold is_free in Hall.
      rewrite He' in Hall. apply negb_false_iff in Hall. by rewrite Hall.
Qed.
(** ** The timer *)

(** The list, which starts at the head and whose entries are [q], when its mutex has [c]
    permits left: 1 when nobody holds it. *)
Record timer (c : Z) w (Q : Z -> list Z) (q : list item) : Prop := {
  ti_kern : kinv (kern w) Q;
  ti_mutex : permits (kern w) (g_tcpmutex (tcpst (own w))) c;
  ti_head : exists h, evtab w !! TCP_EVT_HEAD = Some h /\ linked (evtab w) (v_next h) q;
  ti_nodup : NoDup (TCP_EVT_HEAD :: ids q);
  ti_range : forall j, j ∈ ids q -> 1 <= j <= 21;
  ti_used : Forall (fun x => it_used x = true) q;
  ti_sound : sound 0 q;
  ti_complete : complete w
}.

(** What the operations on the list leave as it is. *)
Definition timer_frame w w' : Prop := user w' = user w /\ g_tcptab (tcpst (own w')) = g_tcptab (tcpst (own w)).

Lemma run_wait_events w Q : kinv (kern w) Q -> permits (kern w) (g_tcpmutex (tcpst (own w))) 1 ->
  exists s, run wait_events w = Done tt (set_kern s w) /\ kinv s Q /\ permits s (g_tcpmutex (tcpst (own w))) 0.
Proof.
  intros HI Hp. destruct (wait_permit (kern w) Q _ 1 HI Hp ltac:(lia)) as (s & E & HI' & Hp' & _).
  exists s. split; [| done]. unfold wait_events. rewrite run_bind, run_gets. cbn [obind].
  rewrite run_bind, (run_kcall _ _ _ _ E). done.
Qed.

Lemma run_signal_events w Q : kinv (kern w) Q -> permits (kern w) (g_tcpmutex (tcpst (own w))) 0 ->
  exists s, run signal_events w = Done tt (set_kern s w) /\ kinv s Q /\ permits s (g_tcpmutex (tcpst (own w))) 1.
Proof.
  intros HI Hp. destruct (signal_permit (kern w) Q _ 0 HI Hp ltac:(unfold INT_MAX; lia)) as (s & E & HI' & Hp' & _).
  exists s. split; [| done]. unfold signal_events. rewrite run_bind, run_gets. cbn [obind].
  rewrite run_bind, (run_kcall _ _ _ _ E). done.
Qed.

Lemma timer_length c w Q q : timer c w Q q -> (length q <= 21)%nat.
Proof.
  intros [_ _ _ Hnd Hr _ _ _]. apply NoDup_cons_1_2 in Hnd.
  assert (Hs : ids q ⊆+ seqZ 1 21). { apply NoDup_submseteq; [done |]. intros j Hj. apply elem_of_seqZ. specialize (Hr j Hj). lia. }
  apply submseteq_length in Hs. unfold ids in Hs. rewrite length_fmap, length_seqZ in Hs. lia.
Qed.

Lemma ids_insert t x q j : j ∈ ids (insert_item t x q) <-> j = it_id x \/ j ∈ ids q.
Proof.
  revert t. induction q as [|y q IH]; intros t; cbn [insert_item]; [unfold ids; cbn; set_solver |].
  destruct (it_delta y <=? t); unfold ids in *; cbn; [rewrite !elem_of_cons, IH; tauto | set_solver].
Qed.

Lemma nodup_insert t x q : it_id x ∉ ids q -> NoDup (ids q) -> NoDup (ids (insert_item t x q)).
Proof.
  revert t. induction q as [|y q IH]; intros t Hx Hnd; cbn [insert_item]; [apply NoDup_singleton |].
  apply not_elem_of_cons in Hx as [Hx1 Hx2]. pose proof (NoDup_cons_1_1 _ _ Hnd) as H1. pose proof (NoDup_cons_1_2 _ _ Hnd) as H2.
  destruct (it_delta y <=? t).
  - apply NoDup_cons. split; [rewrite ids_insert; intros [Hy | Hin]; [by apply Hx1 | done] | by apply IH].
  - apply NoDup_cons. split; [by apply not_elem_of_cons |]. by apply NoDup_cons.
Qed.

Lemma used_insert t x q : it_used x = true -> Forall (fun x => it_used x = true) q -> Forall (fun x => it_used x = true) (insert_item t x q).
Proof.
  intros Hx. revert t. induction q as [|y q IH]; intros t Hq; cbn [insert_item]; [by repeat constructor |].
  apply Forall_cons in Hq as [Hy Hq]. destruct (it_delta y <=? t); repeat constructor; auto.
Qed.

Lemma sound_insert t x q : forall acc, 0 <= t -> acc + t <= it_time x <= INT_MAX -> sound acc q -> sound acc (insert_item t x q).
Proof.
  revert t. induction q as [|y q IH]; intros t acc Ht Hx Hq; cbn [insert_item].
  { cbn. lia. }
  destruct Hq as (H1 & H2 & H3). destruct (Z.leb_spec (it_delta y) t).
  - cbn. split_and!; try lia. apply IH; [lia | lia | done].
  - cbn. split_and!; try lia. by replace (acc + t + (it_delta y - t)) with (acc + it_delta y) by lia.
Qed.

Lemma linked_fresh tab o q j e : linked tab o q -> Forall (fun x => it_used x = true) q -> tab !! j = Some e -> v_used e = false -> j ∉ ids q.
Proof.
  revert o. induction q as [|x q IH]; intros o Hl Hu He Hf; [set_solver |].
  destruct Hl as (_ & ex & Hex & Hx & Hl). apply Forall_cons in Hu as [Hu1 Hu2]. apply not_elem_of_cons. split; [| by eapply IH].
  intros ->. rewrite Hex in He. injection He as <-. rewrite <- Hx in Hu1. cbn in Hu1. congruence.
Qed.

Lemma timer_take w Q q : timer 1 w Q q ->
  exists s, run wait_events w = Done tt (set_kern s w) /\ timer 0 (set_kern s w) Q q.
Proof.
  intros [HI Hp]. destruct (run_wait_events w Q HI Hp) as (s & E & HI' & Hp'). exists s. split; [exact E |]. by split.
Qed.

Lemma timer_give w Q q : timer 0 w Q q ->
  exists s, run signal_events w = Done tt (set_kern s w) /\ timer 1 (set_kern s w) Q q.
Proof.
  intros [HI Hp]. destruct (run_signal_events w Q HI Hp) as (s & E & HI' & Hp'). exists s. split; [exact E |]. by split.
Qed.

Lemma complete_put tab n w : complete w -> 0 <= n <= 21 -> (forall j, is_Some (evtab w !! j) -> is_Some (tab !! j)) ->
  complete (put_tcptimertab tab (put_nextevt n w)).
Proof. intros [Hc _] Hn Ht. split; [| done]. intros j Hj. by apply Ht, Hc. Qed.

Lemma run_insert_event w e ee time q h :
  evtab w !! e = Some ee -> e <> TCP_EVT_HEAD -> e ∉ ids q -> NoDup (TCP_EVT_HEAD :: ids q) -> (length q <= 21)%nat ->
  evtab w !! TCP_EVT_HEAD = Some h -> linked (evtab w) (v_next h) q -> 0 <= time <= INT_MAX -> sound 0 q ->
  exists tab h', run (insert_event e time) w = Done tt (put_tcptimertab tab w) /\ tab !! TCP_EVT_HEAD = Some h' /\
    linked tab (v_next h') (insert_item time (item_of e ee) q) /\
    (forall j, j <> e -> j <> TCP_EVT_HEAD -> j ∉ ids q -> tab !! j = evtab w !! j).
Proof.
  intros He Hne Hf Hnd Hlen Hh Hl Ht Hs. unfold insert_event. rewrite run_bind, (run_evt _ h) by done. cbn [obind].
  apply NoDup_cons in Hnd as [Hnd1 Hnd2].
  destruct (run_put_event e ee q EVT_FUEL w time TCP_EVT_HEAD h) as (tab & h' & E & H1 & _ & H3 & H4); try done.
  - unfold EVT_FUEL, TCP_NEVENTS, NTCP. lia.
  - by apply (sound_deltas _ 0).
  - by exists tab, h'.
Qed.

Lemma linked_some tab o q j : linked tab o q -> j ∈ ids q -> is_Some (tab !! j).
Proof.
  revert o. induction q as [|x q IH]; intros o Hl Hj; [by apply not_elem_of_nil in Hj |].
  destruct Hl as (_ & e & He & _ & Hl). apply elem_of_cons in Hj as [-> | Hj]; [by exists e | by eapply IH].
Qed.

(** The entry [e] is filled in. *)
Definition filled (ee : tcpEvent) (time type b : Z) : tcpEvent := set_v_tcbptr (Some b) (set_v_type type (set_v_time time (set_v_used true ee))).

Lemma held_insert w Q q e ee time type b : timer 0 w Q q -> 1 <= e <= 21 -> evtab w !! e = Some ee -> v_used ee = false -> 0 <= time <= INT_MAX ->
  let w1 := put_tcptimertab (<[e := filled ee time type b]> (evtab w)) (put_nextevt e w) in
  exists tab, run (insert_event e time) w1 = Done tt (put_tcptimertab tab w1) /\
    timer 0 (put_tcptimertab tab w1) Q (insert_item time (item_of e (filled ee time type b)) q).
Proof.
  intros Ht He Hee Hf Htime w1. pose proof (timer_length _ _ _ _ Ht) as Hlen.
  destruct Ht as [HI Hp (h & Hh & Hl) Hnd Hr Hu Hs Hc].
  pose proof (linked_fresh _ _ _ _ _ Hl Hu Hee Hf) as Hfresh.
  assert (Hl1 : linked (evtab w1) (v_next h) q).
  { eapply linked_events_frame; [exact Hl |]. intros j Hj. cbn. apply lookup_insert_ne. by intros ->. }
  destruct (run_insert_event w1 e (filled ee time type b) time q h) as (tab & h' & E & H1 & H2 & H3); try done.
  - apply lookup_insert_eq.
  - unfold TCP_EVT_HEAD. lia.
  - cbn. by rewrite lookup_insert_ne by (unfold TCP_EVT_HEAD; lia).
  - exists tab. split; [exact E |]. split; try done.
    + by exists h'.
    + apply NoDup_cons in Hnd as [Hnd1 Hnd2]. apply NoDup_cons. split; [| by apply nodup_insert].
      rewrite ids_insert. cbn. unfold TCP_EVT_HEAD in *. intros [? | ?]; [lia | done].
    + intros j Hj. apply ids_insert in Hj as [-> | Hj]; [done | by apply Hr].
    + by apply used_insert.
    + apply sound_insert; [lia | cbn; lia | done].
    + destruct Hc as [Hc Hn]. split; [| cbn; lia]. intros j Hj. cbn.
      destruct (decide (j = TCP_EVT_HEAD)) as [-> | Hj1]; [by exists h' |].
      destruct (decide (j ∈ ids (insert_item time (item_of e (filled ee time type b)) q))) as [Hin | Hnin]; [by eapply linked_some |].
      rewrite H3; [cbn; rewrite lookup_insert_ne; [by apply Hc |] | | done |]; [intros <- | intros -> | intros Hin]; apply Hnin, ids_insert; auto.
Qed.

Lemma timer_nextevt c w Q q n : timer c w Q q -> 0 <= n <= 21 -> timer c (put_nextevt n w) Q q.
Proof. intros [? ? ? ? ? ? ? [? ?]] Hn. by split. Qed.

(** C12: Scheduling.  With a free entry, the new event comes into the agenda at its time,
    after the events that are due at the same time, and the others stay due when they
    were; without one the agenda stays as it is and the routine fails. *)
Theorem tcpTimerSched_agenda w Q q time type b : timer 1 w Q q -> 0 <= time <= INT_MAX ->
  exists r w', run (tcpTimerSched time (Some b) type) w = Done r w' /\ timer_frame w w' /\
    ((r = OK /\ exists q', timer 1 w' Q q' /\ agenda 0 q' = schedule time type b (agenda 0 q)) \/
     (r = SYSERR /\ timer 1 w' Q q /\ forall j e, 1 <= j <= 3 * NTCP -> evtab w !! j = Some e -> v_used e = true)).
Proof.
  intros Ht Htime. unfold tcpTimerSched. replace (time <? 0) with false by lia. rewrite bool_decide_eq_false_2 by done. cbn [orb].
  destruct (timer_take w Q q Ht) as (s & E & Ht0). rewrite run_bind, E. cbn [obind].
  destruct (run_allocEvent (set_kern s w) (ti_complete _ _ _ _ Ht0)) as [(e & ee & He & Hee & Hfree & Ea) | [Hall (n & Hn & Ea)]].
  - rewrite run_bind, Ea. cbn [obind]. replace (SYSERR =? e) with false by (unfold SYSERR; lia).
    do 3 (erewrite run_bind, run_amend_evt by apply lookup_insert_eq; cbn [obind]; rewrite evtab_put, insert_insert_eq, put_tcptimertab_put).
    destruct (held_insert _ Q q e ee time type b Ht0 He Hee Hfree Htime) as (tab & Ei & Ht1). unfold filled in Ei.
    rewrite run_bind, Ei. cbn [obind]. rewrite put_tcptimertab_put in *.
    destruct (timer_give _ Q _ Ht1) as (s' & Es & Ht2). rewrite run_bind, Es. cbn [obind]. rewrite run_ret.
    eexists OK, _. split; [done |]. split; [done |]. left. split; [done |]. eexists. split; [exact Ht2 |].
    exact (agenda_insert (item_of e (filled ee time type b)) b time q 0 eq_refl).
  - rewrite run_bind, Ea. cbn [obind]. pose proof (timer_nextevt _ _ _ _ n Ht0 Hn) as Ht1.
    change (SYSERR =? SYSERR) with true. destruct (timer_give _ Q _ Ht1) as (s' & Es & Ht2). rewrite run_bind, Es. cbn [obind]. rewrite run_ret.
    eexists SYSERR, _. split; [done |]. split; [done |]. right. split; [done |]. split; [done |].
    intros j e Hj He. by apply (Hall j).
Qed.

(** ** Purging *)

(** The list with the delta of an entry that was passed added to its first. *)
Definition carried (c : Z) (q : list item) : list item := match q with [] => [] | x :: q => with_delta (it_delta x + c) x :: q end.

Lemma purged_carried m prev c q : (forall d x, m (with_delta d x) = m x) -> purged m prev 0 (carried c q) = purged m prev c q.
Proof.
  intros Hm. destruct q as [|x q]; [done |]. cbn [carried purged]. rewrite Z.add_0_r. cbn. by rewrite !Hm.
Qed.

Lemma span_carried x q : 0 <= it_delta x -> Forall (fun x => 0 <= it_delta x) q ->
  Forall (fun x => 0 <= it_delta x) (carried (it_delta x) q) /\ span (carried (it_delta x) q) <= it_delta x + span q.
Proof. intros Hx Hq. destruct q as [|y q]; cbn; [by split; [constructor | lia] |]. apply Forall_cons in Hq as [Hy Hq]. split; [constructor; [cbn; lia | done] | lia]. Qed.

(** What the routine returns: the time less the delta of the first entry that matches. *)
Fixpoint purge_result (m : item -> bool) (r c : Z) (q : list item) : Z :=
  match q with
  | [] => r
  | x :: q => if m x then purge_result m (if SYSERR =? r then it_time x - (it_delta x + c) else r) (it_delta x + c) q
              else purge_result m r 0 q
  end.

Lemma purge_result_carried m r c q : (forall d x, m (with_delta d x) = m x) -> purge_result m r 0 (carried c q) = purge_result m r c q.
Proof. intros Hm. destruct q as [|x q]; [done |]. cbn. rewrite Hm, Z.add_0_r. done. Qed.

Lemma ids_carried c q : ids (carried c q) = ids q.
Proof. by destruct q. Qed.

(** Nothing disappears from the table. *)
Definition grows (t t' : gmap Z tcpEvent) : Prop := forall j, is_Some (t !! j) -> is_Some (t' !! j).
Lemma grows_refl t : grows t t.
Proof. by intros j. Qed.
Lemma grows_trans t1 t2 t3 : grows t1 t2 -> grows t2 t3 -> grows t1 t3.
Proof. intros H1 H2 j Hj. by apply H2, H1. Qed.
Lemma grows_insert t t' j e : grows t t' -> grows t (<[j := e]> t').
Proof. intros Hg k Hk. apply lookup_insert_is_Some'. right. by apply Hg. Qed.
#[local] Hint Resolve grows_refl grows_insert : core.

(** The delta of a matching entry is added to the next. *)
Definition pass_delta (e : tcpEvent) : dprog (net H) unit :=
  match v_next e with
  | None => mret tt
  | Some n => f ← evt n; d ← int (v_remain f + v_remain e); amend_evt n (set_v_remain d)
  end.

Lemma run_pass_delta w e q : linked (evtab w) (v_next e) q -> 0 <= v_remain e -> Forall (fun x => 0 <= it_delta x) q ->
  v_remain e + span q <= INT_MAX -> NoDup (ids q) ->
  exists tab, run (pass_delta e) w = Done tt (put_tcptimertab tab w) /\ linked tab (v_next e) (carried (v_remain e) q) /\
    (forall j, j ∉ ids q -> tab !! j = evtab w !! j) /\ grows (evtab w) tab.
Proof.
  intros Hl He Hq Hs Hnd. unfold pass_delta. destruct q as [|x q].
  - cbn in Hl. rewrite Hl. exists (evtab w). split; [by destruct w as [? ? [? ? ? ? ? ? ? ? ? ? ? ? ? ? []]] |]. split_and!; [done | done | auto].
  - destruct Hl as (-> & f & Hf & Hx & Hl). apply Forall_cons in Hq as [Hx0 Hq].
    assert (Er : v_remain f = it_delta x) by (rewrite <- Hx; done).
    assert (Hsp : 0 <= span q) by (clear -Hq; induction Hq; cbn; lia). cbn [span] in Hs.
    rewrite run_bind, (run_evt _ f) by done. cbn [obind]. rewrite run_bind, run_int by (rewrite Er; unfold INT_MIN; lia). cbn [obind].
    rewrite (run_amend_evt _ _ f) by done. eexists. split; [done |]. split.
    + cbn [carried linked]. split; [done |]. eexists. split; [apply lookup_insert_eq |].
      split; [rewrite Er; clear -Hx; destruct x, f; unfold item_of, with_delta in *; cbn in *; congruence |].
      eapply linked_events_frame; [exact Hl |]. intros j Hj. apply lookup_insert_ne. intros <-. by apply NoDup_cons_1_1 in Hnd.
    + split; [| auto]. intros j Hj. apply not_elem_of_cons in Hj as [Hj _]. by apply lookup_insert_ne.
Qed.

Lemma run_purge_body w b type prev pe result x e q :
  evtab w !! prev = Some pe -> v_next pe = Some (it_id x) -> evtab w !! it_id x = Some e -> item_of (it_id x) e = x ->
  linked (evtab w) (v_next e) q -> NoDup (prev :: it_id x :: ids q) -> 0 <= it_delta x -> 0 <= it_time x <= INT_MAX ->
  Forall (fun x => 0 <= it_delta x) q -> it_delta x + span q <= INT_MAX ->
  exists tab, run (purge_body b type (prev, Some (it_id x), result)) w =
      Done (it_id x, v_next e, if matches b type x then if SYSERR =? result then it_time x - it_delta x else result else result)
        (put_tcptimertab tab w) /\
    (if matches b type x
     then tab !! prev = Some (set_v_next (v_next e) pe) /\ tab !! it_id x = Some (set_v_used false e) /\ linked tab (v_next e) (carried (it_delta x) q)
     else tab = evtab w) /\
    (forall j, j <> prev -> j <> it_id x -> j ∉ ids q -> tab !! j = evtab w !! j) /\ grows (evtab w) tab.
Proof.
  intros Hp Hpn He Hx Hl Hnd Hd Ht Hq Hs. apply NoDup_cons in Hnd as [Hnd1 Hnd2]. apply not_elem_of_cons in Hnd1 as [Hne Hnd1].
  apply NoDup_cons in Hnd2 as [Hnd2 Hnd3].
  assert (Em : bool_decide (v_tcbptr e = Some b) && ((NULL =? type) || (v_type e =? type)) = matches b type x) by (rewrite <- Hx; done).
  assert (Er : v_remain e = it_delta x) by (rewrite <- Hx; done). assert (Et : v_time e = it_time x) by (rewrite <- Hx; done).
  assert (Hsp : 0 <= span q) by (clear -Hq; induction Hq; cbn; lia).
  unfold purge_body. rewrite run_bind, (run_evt _ e) by done. cbn [obind]. rewrite Em. destruct (matches b type x) eqn:Ematch.
  - rewrite run_bind, run_bind.
    replace (run (if SYSERR =? result then int (v_time e - v_remain e) else mret result) w)
      with (@Done (dst (net H)) Z (if SYSERR =? result then it_time x - it_delta x else result) w)
      by (destruct (SYSERR =? result); [rewrite run_int by (rewrite Er, Et; unfold INT_MIN, INT_MAX in *; lia); by rewrite Er, Et | done]).
    cbn [obind].
    destruct (run_pass_delta w e q Hl ltac:(lia) Hq ltac:(lia) Hnd3) as (tab & E & Hl' & Hf & Hg). unfold pass_delta in E.
    rewrite run_bind, E. cbn [obind].
    rewrite run_bind, (run_amend_evt _ _ pe) by (rewrite evtab_put, Hf by done; done). cbn [obind]. rewrite evtab_put, put_tcptimertab_put.
    rewrite run_bind, (run_amend_evt _ _ e) by (rewrite evtab_put, lookup_insert_ne, Hf by done; done). cbn [obind]. rewrite evtab_put, put_tcptimertab_put.
    rewrite run_ret. cbn [obind]. rewrite run_bind, (run_evt _ (set_v_used false e)) by (rewrite evtab_put; apply lookup_insert_eq). cbn [obind]. rewrite run_ret.
    eexists. split; [done |]. split; [| split; [intros j Hj1 Hj2 Hj3; rewrite !lookup_insert_ne by done; by apply Hf | auto]].
    split; [by rewrite lookup_insert_ne, lookup_insert_eq by done |]. split; [by rewrite lookup_insert_eq |].
    rewrite Er in Hl'. eapply linked_events_frame; [exact Hl' |]. intros j Hj. rewrite ids_carried in Hj.
    rewrite !lookup_insert_ne; [done |..]; intros <-; done.
  - rewrite run_bind, run_ret. cbn [obind]. rewrite run_bind, (run_evt _ e) by done. cbn [obind]. rewrite run_ret.
    exists (evtab w). split; [by destruct w as [? ? [? ? ? ? ? ? ? ? ? ? ? ? ? ? []]] |]. split_and!; auto.
Qed.

Lemma with_delta_same x : with_delta (it_delta x + 0) x = x.
Proof. destruct x. unfold with_delta. cbn. by rewrite Z.add_0_r. Qed.

Definition timed (q : list item) : Prop := Forall (fun x => 0 <= it_delta x) q /\ Forall (fun x => 0 <= it_time x <= INT_MAX) q.

Lemma timed_carried x q : 0 <= it_delta x -> timed q -> timed (carried (it_delta x) q).
Proof.
  intros Hx [H1 H2]. split; [by apply span_carried |]. destruct q as [|y q]; [done |]. apply Forall_cons in H2 as [? ?]. by constructor.
Qed.

Lemma run_purge_loop b type n : forall q fuel w prev pe result (lp : bool),
  length q = n -> (n < fuel)%nat -> evtab w !! prev = Some pe -> linked (evtab w) (v_next pe) q -> NoDup (prev :: ids q) ->
  timed q -> span q <= INT_MAX ->
  exists tab pe' prev', run (while_ fuel purge_cond (purge_body b type) (prev, v_next pe, result)) w =
      Done (prev', None, purge_result (matches b type) result 0 q) (put_tcptimertab tab w) /\
    tab !! prev = Some pe' /\ item_of prev pe' = item_of prev pe /\
    linked tab (if lp then v_next pe' else v_next pe) (purged (matches b type) lp 0 q) /\
    (forall j, j <> prev -> j ∉ ids q -> tab !! j = evtab w !! j) /\ grows (evtab w) tab.
Proof.
  induction n as [|n IH]; intros q fuel w prev pe result lp Hn Hf Hp Hl Hnd [Hd Ht] Hs; (destruct fuel as [|fuel]; [lia |]); rewrite run_while_S.
  - destruct q; [| done]. cbn in Hl. rewrite Hl. cbn. exists (evtab w), pe, prev.
    split; [by destruct w as [? ? [? ? ? ? ? ? ? ? ? ? ? ? ? ? []]] |]. split_and!; try done. by destruct lp.
  - destruct q as [|x q]; [done |]. injection Hn as Hn. pose proof Hl as (Ex & e & He & Hx & Hl').
    rewrite Ex. cbn [purge_cond]. rewrite run_ret. cbn [obind]. rewrite bool_decide_eq_true_2 by done.
    apply Forall_cons in Hd as [Hd0 Hd]. apply Forall_cons in Ht as [Ht0 Ht]. cbn [span] in Hs.
    destruct (run_purge_body w b type prev pe result x e q Hp Ex He Hx Hl' Hnd Hd0 Ht0 Hd Hs) as (tab1 & E1 & Hm & Hf1 & Hg1).
    rewrite run_bind, E1. cbn [obind]. apply NoDup_cons in Hnd as [Hnd1 Hnd2]. apply not_elem_of_cons in Hnd1 as [Hne Hnd1].
    cbn [purged purge_result]. rewrite matches_delta, with_delta_same. destruct (matches b type x).
    + destruct Hm as (Hm1 & Hm2 & Hm3).
      destruct (IH (carried (it_delta x) q) fuel (put_tcptimertab tab1 w) (it_id x) (set_v_used false e)
        (if SYSERR =? result then it_time x - it_delta x else result) (negb lp)) as (tab & pe' & prev' & E & H1 & H2 & H3 & H4 & Hg); try done.
      { by destruct q. }
      { lia. }
      { rewrite ids_carried. done. }
      { by apply timed_carried. }
      { pose proof (span_carried x q Hd0 Hd). lia. }
      change (v_next (set_v_used false e)) with (v_next e) in *. rewrite E.
      rewrite purge_result_carried by (intros; apply matches_delta). rewrite purged_carried in H3 by (intros; apply matches_delta).
      rewrite Z.add_0_r. exists tab, (set_v_next (v_next e) pe), prev'. split; [done |].
      assert (Hprev : tab !! prev = Some (set_v_next (v_next e) pe)).
      { rewrite H4; [exact Hm1 | done | by rewrite ids_carried]. }
      split; [done |]. split; [done |]. split.
      * destruct lp; cbn [negb] in H3; [exact H3 |].
        split; [done |]. exists pe'. split; [done |]. split; [| done].
        change (it_id (unused x)) with (it_id x). rewrite H2. clear -Hx. destruct x, e; unfold item_of, unused in *; cbn in *; congruence.
      * split; [| by eapply grows_trans]. intros j Hj1 Hj2. apply not_elem_of_cons in Hj2 as [Hj2 Hj3]. rewrite H4 by (rewrite ?ids_carried; done). by apply Hf1.
    + subst tab1. destruct (IH q fuel w (it_id x) e result true) as (tab & pe' & prev' & E & H1 & H2 & H3 & H4 & Hg); try done; [lia | lia |].
      replace (put_tcptimertab (evtab w) w) with w by (by destruct w as [? ? [? ? ? ? ? ? ? ? ? ? ? ? ? ? []]]).
      rewrite E. exists tab, pe, prev'. split; [done |]. split; [by rewrite H4 |]. split; [done |]. split.
      * assert (Hgoal : linked tab (Some (it_id x)) (x :: purged (matches b type) true 0 q)); [| destruct lp; [by rewrite Ex | done]].
        split; [done |]. exists pe'. split; [done |]. split; [by rewrite H2 | done].
      * split; [| done]. intros j Hj1 Hj2. apply not_elem_of_cons in Hj2 as [Hj2 Hj3]. by apply H4.
Qed.

Lemma sound_timed q : forall acc, 0 <= acc -> sound acc q -> timed q.
Proof.
  induction q as [|x q IH]; intros acc Ha Hq; [by split |]. destruct Hq as (H1 & H2 & H3).
  destruct (IH (acc + it_delta x) ltac:(lia) H3) as [H4 H5]. split; constructor; done || lia.
Qed.

Lemma ids_purged m q : forall prev c, ids (purged m prev c q) `sublist_of` ids q.
Proof.
  induction q as [|x q IH]; intros prev c; [done |]. cbn [purged].
  destruct (m _); [destruct prev |]; unfold ids in *; cbn; [by apply sublist_cons | by apply sublist_skip..].
Qed.

Lemma sound_purged b type q : forall prev c acc, 0 <= c -> spread (matches b type) (negb prev) q = true -> sound (acc + c) q ->
  sound acc (purged (matches b type) prev c q).
Proof.
  induction q as [|x q IH]; intros prev c acc Hc Hsp Hq; [done |]. destruct Hq as (H1 & H2 & H3). cbn [purged spread] in *.
  rewrite matches_delta. apply andb_true_iff in Hsp as [Hs1 Hs2].
  replace (acc + c + it_delta x) with (acc + (it_delta x + c)) in * by lia.
  destruct (matches b type x); cbn [negb] in *.
  - destruct prev; [| discriminate]. apply IH; [cbn; lia | done | done].
  - cbn. split_and!; try lia. apply IH; [lia | done |]. by rewrite Z.add_0_r.
Qed.

Lemma used_purged b type q : forall prev c, spread (matches b type) (negb prev) q = true ->
  Forall (fun x => it_used x = true) q -> Forall (fun x => it_used x = true) (purged (matches b type) prev c q).
Proof.
  induction q as [|x q IH]; intros prev c Hsp Hu; [done |]. cbn [purged spread] in *.
  rewrite matches_delta. apply andb_true_iff in Hsp as [Hs1 Hs2]. apply Forall_cons in Hu as [Hu1 Hu2].
  destruct (matches b type x); cbn [negb] in *; [destruct prev; [by apply IH | discriminate] |].
  constructor; [done |]. by apply IH.
Qed.

Lemma purge_result_done m r c q : r <> SYSERR -> purge_result m r c q = r.
Proof.
  intros Hr. revert c. induction q as [|x q IH]; intros c; [done |]. cbn [purge_result].
  replace (SYSERR =? r) with false by (symmetry; apply Z.eqb_neq; congruence). by destruct (m x); apply IH.
Qed.

Lemma purge_result_first m q : forall acc, 0 <= acc -> sound acc q ->
  purge_result m SYSERR 0 q = match List.find m q with Some x => it_time x - it_delta x | None => SYSERR end.
Proof.
  induction q as [|x q IH]; intros acc Ha Hq; [done |]. destruct Hq as (H1 & H2 & H3). cbn [purge_result List.find].
  destruct (m x); [| apply (IH (acc + it_delta x)); [lia | done]]. rewrite Z.add_0_r. change (SYSERR =? SYSERR) with true.
  apply purge_result_done. unfold SYSERR. lia.
Qed.

(** The run of the routine, whatever matches. *)
Lemma run_tcpTimerPurge w Q q b type : timer 1 w Q q ->
  exists w' h, run (tcpTimerPurge b type) w = Done (purge_result (matches b type) SYSERR 0 q) w' /\ timer_frame w w' /\
    kinv (kern w') Q /\ permits (kern w') (g_tcpmutex (tcpst (own w'))) 1 /\ complete w' /\
    evtab w' !! TCP_EVT_HEAD = Some h /\ linked (evtab w') (v_next h) (purged (matches b type) true 0 q).
Proof.
  intros Ht. pose proof (timer_length _ _ _ _ Ht) as Hlen.
  destruct (timer_take w Q q Ht) as (s & E & [HI Hp (h & Hh & Hl) Hnd Hr Hu Hs [Hc Hn]]).
  unfold tcpTimerPurge. rewrite run_bind, E. cbn [obind]. rewrite run_bind, (run_evt _ h) by done. cbn [obind].
  destruct (run_purge_loop b type (length q) q EVT_FUEL (set_kern s w) TCP_EVT_HEAD h SYSERR true)
    as (tab & h' & prev' & El & H1 & _ & H3 & _ & Hg); try done.
  { unfold EVT_FUEL, TCP_NEVENTS, NTCP. lia. }
  { by apply (sound_timed q 0). }
  { pose proof (sound_span q 0 ltac:(unfold INT_MAX; lia) Hs). lia. }
  rewrite run_bind, El. cbn [obind].
  destruct (run_signal_events (put_tcptimertab tab (set_kern s w)) Q HI Hp) as (s' & Es & HI' & Hp').
  rewrite run_bind, Es. cbn [obind]. rewrite run_ret. exists (set_kern s' (put_tcptimertab tab (set_kern s w))), h'.
  split; [done |]. split; [done |]. split; [done |]. split; [done |]. split; [| by split].
  split; [| done]. intros j Hj. by apply Hg, Hc.
Qed.

(** C13: Purging.  When no two neighbours in the list are to be purged, the events of the
    connection (of one type, or all of them) leave the agenda and the others stay due when
    they were; what is returned is the time of the first of them less its delta, which is
    the time that went by only when it is the first of the list. *)
Theorem tcpTimerPurge_agenda w Q q b type : timer 1 w Q q -> spread (matches b type) false q = true ->
  exists w' q', run (tcpTimerPurge b type) w =
      Done (match List.find (matches b type) q with Some x => it_time x - it_delta x | None => SYSERR end) w' /\
    timer_frame w w' /\ timer 1 w' Q q' /\ agenda 0 q' = filter (fun y => negb (concerns b type y)) (agenda 0 q).
Proof.
  intros Ht Hsp. destruct (run_tcpTimerPurge w Q q b type Ht) as (w' & h & E & Hf & HI & Hp & Hc & Hh & Hl).
  destruct Ht as [_ _ _ Hnd Hr Hu Hs _]. rewrite (purge_result_first _ q 0) in E by (done || lia).
  exists w', (purged (matches b type) true 0 q). split; [exact E |]. split; [done |].
  pose proof (ids_purged (matches b type) q true 0) as Hsub. split; [| by apply agenda_purged].
  split; try done.
  - by exists h.
  - eapply sublist_NoDup; [exact Hnd | by apply sublist_skip].
  - intros j Hj. apply Hr. by eapply elem_of_sublist.
  - by apply used_purged.
  - by apply sound_purged.
Qed.

(** Of a run of events that match, the first is unlinked and the next is not, in turn;
    [prev] tells whether the entry before the run is linked. *)
Lemma purged_run b type r q2 : forall prev c k y,
  Forall (fun z => matches b type z = true) r -> NoDup (ids (r ++ q2)) -> r !! k = Some y ->
  let q' := purged (matches b type) prev c (r ++ q2) in
  if eqb (Nat.odd k) prev then exists z, z ∈ q' /\ it_id z = it_id y /\ it_used z = false else it_id y ∉ ids q'.
Proof.
  induction r as [|x r IH]; intros prev c k y Hm Hnd Hk q'; [done |]. apply Forall_cons in Hm as [Hx Hm].
  cbn [app ids fmap list_fmap] in Hnd. apply NoDup_cons in Hnd as [Hnx Hnd]. unfold q'. cbn [app purged]. rewrite matches_delta, Hx.
  destruct k as [|k]; cbn in Hk.
  - injection Hk as <-. destruct prev; cbn.
    + intros Hin. apply Hnx. eapply elem_of_sublist; [exact Hin | apply ids_purged].
    + eexists. split; [apply list_elem_of_here | done].
  - rewrite Nat.odd_succ, <- Nat.negb_odd. destruct prev; cbn [ids fmap list_fmap].
    + pose proof (IH false (it_delta x + c) k y Hm Hnd Hk) as Hrec. by destruct (Nat.odd k).
    + pose proof (IH true (it_delta x + c) k y Hm Hnd Hk) as Hrec. destruct (Nat.odd k); cbn in Hrec |- *.
      * destruct Hrec as (z & Hz & E). exists z. split; [by apply list_elem_of_further | done].
      * apply not_elem_of_cons. split; [| exact Hrec]. intros E. apply Hnx. rewrite <- E.
        apply list_elem_of_fmap. exists y. split; [done |]. apply elem_of_app. left. by eapply list_elem_of_lookup_2.
Qed.

(** What comes before a run ends with an entry that stays linked, or is the head. *)
Lemma purged_prefix b type q1 : forall c q,
  (forall z q0, q1 = q0 ++ [z] -> matches b type z = false) ->
  exists l c', purged (matches b type) true c (q1 ++ q) = l ++ purged (matches b type) true c' q /\ ids l `sublist_of` ids q1.
Proof.
  assert (G : forall prev c q, (q1 = [] -> prev = true) -> (forall z q0, q1 = q0 ++ [z] -> matches b type z = false) ->
    exists l c', purged (matches b type) prev c (q1 ++ q) = l ++ purged (matches b type) true c' q /\ ids l `sublist_of` ids q1).
  { induction q1 as [|x q1' IH]; intros prev c q Hp Hlast; [rewrite Hp by done; by exists [], c |].
    assert (Hlast' : forall z q0, q1' = q0 ++ [z] -> matches b type z = false) by (intros z q0 ->; by apply (Hlast z (x :: q0))).
    cbn [app purged]. rewrite matches_delta. destruct (matches b type x) eqn:Hx.
    - assert (Hne : q1' = [] -> False) by (intros ->; rewrite (Hlast x []) in Hx by done; done).
      destruct prev.
      + destruct (IH false (it_delta x + c) q) as (l & c' & E & Hs); [by intros ?%Hne | done |].
        exists l, c'. split; [exact E | by apply sublist_cons].
      + destruct (IH true (it_delta x + c) q) as (l & c' & E & Hs); [done | done |].
        exists (unused (with_delta (it_delta x + c) x) :: l), c'. cbn in E |- *. rewrite E. split; [done | by apply sublist_skip].
    - destruct (IH true 0 q) as (l & c' & E & Hs); [done | done |].
      exists (with_delta (it_delta x + c) x :: l), c'. rewrite E. split; [done | by apply sublist_skip]. }
  intros c q Hlast. by apply G.
Qed.

Lemma purged_stays b type q : forall prev c x, x ∈ q -> matches b type x = false ->
  exists z, z ∈ purged (matches b type) prev c q /\ it_id z = it_id x /\ it_used z = it_used x.
Proof.
  induction q as [|y q IH]; intros prev c x Hx Hm; [by apply not_elem_of_nil in Hx |]. cbn [purged]. rewrite matches_delta.
  apply elem_of_cons in Hx as [<- | Hx].
  - rewrite Hm. eexists. split; [apply list_elem_of_here | done].
  - destruct (matches b type y); [destruct prev |]; cbn [it_delta with_delta].
    + by apply IH.
    + destruct (IH true (it_delta y + c) x Hx Hm) as (z & Hz & E). exists z. split; [by apply list_elem_of_further | done].
    + destruct (IH true 0 x Hx Hm) as (z & Hz & E). exists z. split; [by apply list_elem_of_further | done].
Qed.

(** C27: Of the events of a run [r] of neighbours that are all to be purged, the first
    leaves the timer's list, the second stays in it, marked as free, the third leaves, and
    so on in turn.  The events that are not to be purged all stay. *)
Theorem tcpTimerPurge_adjacent w Q q1 r q2 b type :
  timer 1 w Q (q1 ++ r ++ q2) -> Forall (fun z => matches b type z = true) r ->
  (forall z q0, q1 = q0 ++ [z] -> matches b type z = false) ->
  exists res w' h q', run (tcpTimerPurge b type) w = Done res w' /\
    evtab w' !! TCP_EVT_HEAD = Some h /\ linked (evtab w') (v_next h) q' /\
    (forall k y, r !! k = Some y ->
       if Nat.odd k then exists z, z ∈ q' /\ it_id z = it_id y /\ it_used z = false else it_id y ∉ ids q') /\
    (forall x, x ∈ q1 ++ r ++ q2 -> matches b type x = false ->
       exists z, z ∈ q' /\ it_id z = it_id x /\ it_used z = it_used x).
Proof.
  intros Ht Hr Hq1. destruct (run_tcpTimerPurge w Q _ b type Ht) as (w' & h & E & _ & _ & _ & _ & Hh & Hl).
  pose proof (ti_nodup _ _ _ _ Ht) as Hnd. apply NoDup_cons in Hnd as [_ Hnd].
  destruct (purged_prefix b type q1 0 (r ++ q2) Hq1) as (l & c' & El & Hs).
  eexists _, w', h, _. split; [exact E |]. split; [exact Hh |]. split; [exact Hl |].
  split; [| intros x Hx Hm; by apply purged_stays].
  intros k y Hk. unfold ids in Hnd. rewrite fmap_app in Hnd. apply NoDup_app in Hnd as (_ & Hd & Hnd).
  pose proof (purged_run b type r q2 true c' k y Hr Hnd Hk) as Hrec. rewrite El. destruct (Nat.odd k); cbn in Hrec.
  - destruct Hrec as (z & Hz & Ez). exists z. split; [apply elem_of_app; by right | exact Ez].
  - unfold ids. rewrite fmap_app. intros [Hin | Hin]%elem_of_app; [| by apply Hrec].
    apply (Hd (it_id y)); [by eapply elem_of_sublist |].
    apply list_elem_of_fmap. exists y. split; [done |]. apply elem_of_app. left. by eapply list_elem_of_lookup_2.
Qed.

(** ** The time that remains *)

Definition is_event (b type : Z) (y : entry) : bool := bool_decide (y.2 = Some b) && (y.1.2 =? type).

Lemma run_remain_loop b type q : forall fuel w o acc i,
  (length q < fuel)%nat -> linked (evtab w) o q -> 0 <= acc <= INT_MAX -> sound acc q ->
  run (for_ fuel i (remain_body b type) (o, acc)) w =
    Done (inr (match List.find (is_event b type) (agenda acc q) with Some y => y.1.1 | None => 0 end)) w.
Proof.
  induction q as [|x q IH]; intros fuel w o acc i Hf Hl Ha Hs; (destruct fuel as [|fuel]; [cbn in Hf; lia |]); cbn [for_]; rewrite run_bind.
  - cbn in Hl. subst o. done.
  - destruct Hl as (-> & e & He & Hx & Hl). destruct Hs as (H1 & H2 & H3).
    assert (Er : v_remain e = it_delta x) by (rewrite <- Hx; done).
    assert (Em : bool_decide (v_tcbptr e = Some b) && (v_type e =? type) = is_event b type (entry_of (acc + it_delta x) x)) by (rewrite <- Hx; done).
    cbn [remain_body]. rewrite run_bind, (run_evt _ e) by done. cbn [obind].
    rewrite run_bind, run_int by (rewrite Er; unfold INT_MIN; lia). cbn [obind]. rewrite Em, Er.
    cbn [agenda List.find]. destruct (is_event b type (entry_of (acc + it_delta x) x)).
    + by rewrite !run_ret.
    + rewrite run_ret. cbn [obind]. apply IH; [cbn in Hf; lia | done | lia | done].
Qed.

(** The time that remains is when the first event of the connection and the type is
    due, and 0 when there is none. *)
Theorem tcpTimerRemain_agenda w Q q b type : timer 1 w Q q ->
  exists w', run (tcpTimerRemain b type) w =
      Done (match List.find (is_event b type) (agenda 0 q) with Some y => y.1.1 | None => 0 end) w' /\
    timer_frame w w' /\ timer 1 w' Q q.
Proof.
  intros Ht. pose proof (timer_length _ _ _ _ Ht) as Hlen. destruct (timer_take w Q q Ht) as (s & E & Ht0).
  pose proof Ht0 as [_ _ (h & Hh & Hl) _ _ _ Hs _].
  unfold tcpTimerRemain. rewrite run_bind, E. cbn [obind]. rewrite run_bind, (run_evt _ h) by done. cbn [obind].
  rewrite run_bind, (run_remain_loop b type q) by (done || unfold EVT_FUEL, TCP_NEVENTS, NTCP, INT_MAX; lia). cbn [obind].
  destruct (timer_give _ Q q Ht0) as (s' & Es & Ht1). rewrite run_bind, Es. cbn [obind]. rewrite run_ret.
  by eexists.
Qed.
End Ops.
