(* ===== verification/Tcp.v ===== *)
(** TCP, the sending side: device/tcp/tcpSend*.c, tcpChksum.c, tcpSeqdiff.c and tcpFree.c,
    with the sequence macros of include/tcp.h. *)
From Stdlib Require Import ZArith Lia.
From stdpp Require Import sorting gmap functions list.
From S2P Require Import Prelude Kernel Queue QueueFacts Sched Semaphore Clock Message Memory Boot Frame Thread BufPool Bytes Device DevTab Chksum Netaddr Tcb Net Wire Snoop Route Arp Ipv4 Udp TcpTimer.

(** ** The macros of include/tcp.h *)

(** [offset2octets] and [octets2offset] *)
Definition offset2octets (x : Z) : Z := Z.shiftr x 4 * 4.
Definition octets2offset (x : Z) : Z := Z.shiftl (x / 4) 4.
(** [seqadd]: the sum is an [unsigned int], and the remainder is by [TCP_MAXSEQ]. *)
Definition seqadd (a b : Z) : Z := u32 (a + b) mod TCP_MAXSEQ.

(** The test of a flag. *)
Definition has (flags x : Z) : bool := negb (Z.land flags x =? 0).

Definition tcpSeqdiff (first second : Z) : Z :=
  if (first <? TCP_MAXSEQ / 2) && (second >? TCP_MAXSEQ / 2) then u32 (TCP_MAXSEQ - first + second) else
  if (second <? TCP_MAXSEQ / 2) && (first >? TCP_MAXSEQ / 2) then u32 (TCP_MAXSEQ - first + second) else
  u32 (first - second).

(** The updates of the flags of a control block. *)
Definition snd_on (x : Z) (t : tcb) : tcb := set_tc_sndflg (Z.lor (tc_sndflg t) x) t.
Definition snd_off (x : Z) (t : tcb) : tcb := set_tc_sndflg (u8 (Z.land (tc_sndflg t) (Z.lnot x))) t.

(** Offsets in [struct tcpPkt]. *)
Definition T_DSTPT : Z := 2.
Definition T_SEQ : Z := 4.
Definition T_ACK : Z := 8.
Definition T_OFFSET : Z := 12.
Definition T_CONTROL : Z := 13.
Definition T_WINDOW : Z := 14.
Definition T_CHKSUM : Z := 16.
Definition T_URGENT : Z := 18.
Definition T_DATA : Z := 20.

(** A 32-bit load. *)
Definition ldl (a : Z) : bprog Z := lo ← ldh a; hi ← ldh (a + 2); mret (lo + hi * 65536).

(** [tcpSendWindow]: the window advertised for a control block, and the control block
    after. *)
Definition send_window (t : tcb) : Z * tcb :=
  let window := u16 (TCP_IBLEN - tc_icount t) in
  if tc_state t =? TCP_CLOSED then (0, t)
  else if (tc_state t =? TCP_LISTEN) || (tc_state t =? TCP_SYNSENT) || (tc_state t =? TCP_SYNRECV) then
    (window, set_tc_rcvwnd (seqadd (tc_rcvnxt t) window) t)
  else
  let unused := u16 (tcpSeqdiff (tc_rcvwnd t) (tc_rcvnxt t)) in
  let window := if (window * 4 <? TCP_IBLEN) || (window <? tc_rcvmss t) then 0 else window in
  if window >? unused then (window, set_tc_rcvwnd (seqadd (tc_rcvnxt t) window) t)
  else (unused, t).

Section Tcp.
Context {H : Type} (devtab : gmap Z (device (net H))).

Abbreviation nprog := (dprog (net H)).

(** [seqlt] and [seqlte] subtract signed numbers, and the difference wraps around. *)
Definition seqlt (a b : Z) : nprog bool := d ← int (i32 a - i32 b); mret (d <? 0).
Definition seqlte (a b : Z) : nprog bool := d ← int (i32 a - i32 b); mret (d <=? 0).

Lemma seqadd_max a b : seqadd a b = if u32 (a + b) =? TCP_MAXSEQ then 0 else u32 (a + b).
Proof.
  unfold seqadd. pose proof (Z.mod_pos_bound (a + b) (2 ^ 32) ltac:(lia)) as Hb. unfold u32 in *. unfold TCP_MAXSEQ in *.
  destruct (Z.eqb_spec ((a + b) mod 2 ^ 32) 4294967295) as [-> | Hne]; [done | apply Z.mod_small; lia].
Qed.

Lemma run_seqlt a b w : run (seqlt a b) w = Done (i32 (a - b) <? 0) w.
Proof. unfold seqlt. rewrite run_bind, run_int_wrap. cbn [obind]. by rewrite i32_sub, run_ret. Qed.

Lemma run_seqlte a b w : run (seqlte a b) w = Done (i32 (a - b) <=? 0) w.
Proof. unfold seqlte. rewrite run_bind, run_int_wrap. cbn [obind]. by rewrite i32_sub, run_ret. Qed.

(** The difference of a number and one that is [d] further. *)
Lemma i32_ahead a d : 0 < d < 2 ^ 31 -> i32 (a - u32 (a + d)) = - d /\ i32 (u32 (a + d) - a) = d.
Proof.
  intros Hd. split.
  - rewrite <- i32_sub, i32_u32, i32_sub. replace (a - (a + d)) with (- d) by lia. apply i32_small. lia.
  - rewrite <- i32_sub, i32_u32, i32_sub. replace (a + d - a) with d by lia. apply i32_small. lia.
Qed.

(** Two numbers on the two sides of the middle. *)
Definition across (a b : Z) : bool :=
  ((a <? TCP_MAXSEQ / 2) && (b >? TCP_MAXSEQ / 2)) || ((b <? TCP_MAXSEQ / 2) && (a >? TCP_MAXSEQ / 2)).


Definition tcbx (i : Z) : nprog tcb := load (fun w => g_tcptab (tcpst (own w))) i.
Definition amend_tcb (i : Z) (f : tcb -> tcb) : nprog unit := amend (fun w => g_tcptab (tcpst (own w))) put_tcptab i f.
Definition wait_tcb (i : Z) : nprog unit := t ← tcbx i; kcall (wait (tc_mutex t));; mret tt.
Definition signal_tcb (i : Z) : nprog unit := t ← tcbx i; kcall (signal (tc_mutex t));; mret tt.

(** A word is replaced by its swapped bytes. *)
Definition swap_word (a : Z) : nprog unit := v ← ucall (ldl a); ucall (stl a (hl2net v)).

(** The fields of the header of [tcp] change between host and network order. *)
Definition swap_tcp (tcp : Z) : nprog unit :=
  swap_half tcp;;
  swap_half (tcp + T_DSTPT);;
  swap_word (tcp + T_SEQ);;
  swap_word (tcp + T_ACK);;
  swap_half (tcp + T_WINDOW);;
  swap_half (tcp + T_URGENT).

Definition tcpChksum (p len : Z) (src dst : netaddr) : nprog Z :=
  e ← pkt p;
  let pseu := p_curr e - TCP_PSEUDO_LEN in
  buf ← ucall (rd_bytes (Z.to_nat TCP_PSEUDO_LEN) pseu);
  put_ip pseu src;;
  put_ip (pseu + PS_DSTIP) dst;;
  ucall (stb (pseu + PS_ZERO) 0);;
  ucall (stb (pseu + PS_PROTO) IPv4_PROTO_TCP);;
  ucall (sth (pseu + PS_LEN) (hs2net len));;
  sum ← ucall (netChksum pseu (len + TCP_PSEUDO_LEN));
  ucall (wr_bytes pseu buf);;
  mret sum.

Definition tcpSendWindow (i : Z) : nprog Z :=
  t ← tcbx i;
  let r := send_window t in
  amend_tcb i (fun _ => r.2);;
  mret (r.1).

(** The copy out of the ring of a connection. *)
Definition out_body (i data datastart : Z) (k : Z) (_ : unit) : nprog (unit + unit) :=
  t ← tcbx i;
  match tc_out t !! (u32 (datastart + k) mod TCP_OBLEN) with
  | None => fault
  | Some c => ucall (stb (data + k) c);; mret (inl tt)
  end.

(** The options of a segment that has the SYN flag; the maximum segment size is the only
    one.  It is followed by two octets that are not written. *)
Definition put_options (data rcvmss : Z) : nprog unit :=
  ucall (stb data TCP_OPT_MSS);;
  ucall (stb (data + 1) TCP_OPT_MSS_LEN);;
  ucall (sth (data + 2) (hs2net (rcvmss + TCP_HDR_LEN)));;
  ucall (stb (data + 6) TCP_OPT_END).

Definition tcpSend (i ctrl seqnum acknum datastart datalen : Z) : nprog Z :=
  let datalen := u16 datalen in
  let syn := has ctrl TCP_CTRL_SYN in
  let datalen := if syn then u16 (datalen - 1) else datalen in
  let msslen := if syn then Z.land (3 + TCP_OPT_MSS_SIZE) (Z.lnot 3) else 0 in
  let datalen := if has ctrl TCP_CTRL_FIN then u16 (datalen - 1) else datalen in
  let tcplen := u16 (TCP_HDR_LEN + datalen + msslen) in
  if tcplen >? NET_MAX_PKTLEN then mret SYSERR else
  p ← netGetbuf;
  if SYSERR =? i32 p then mret SYSERR else
  amend_pkt p (fun e => set_p_curr (u32 (p_curr e - Z.land (tcplen + 7) (Z.lnot 7))) e);;
  amend_pkt p (set_p_len tcplen);;
  e ← pkt p;
  let tcp := p_curr e in
  t ← tcbx i;
  ucall (sth tcp (tc_localpt t));;
  ucall (sth (tcp + T_DSTPT) (tc_remotept t));;
  ucall (stl (tcp + T_SEQ) seqnum);;
  ucall (stl (tcp + T_ACK) acknum);;
  ucall (stb (tcp + T_OFFSET) (octets2offset (TCP_HDR_LEN + msslen)));;
  ucall (stb (tcp + T_CONTROL) ctrl);;
  window ← tcpSendWindow i;
  ucall (sth (tcp + T_WINDOW) window);;
  t ← tcbx i;
  (if negb (msslen =? 0) then put_options (tcp + T_DATA) (tc_rcvmss t) else mret tt);;
  let data := if negb (msslen =? 0) then tcp + T_DATA + 7 else tcp + T_DATA in
  for_ (Z.to_nat datalen) 0 (out_body i data datastart) tt;;
  swap_tcp tcp;;
  t ← tcbx i;
  sum ← tcpChksum p tcplen (tc_localip t) (tc_remoteip t);
  ucall (sth (tcp + T_CHKSUM) sum);;
  result ← ipv4Send devtab p (tc_localip t) (Some (tc_remoteip t)) IPv4_PROTO_TCP;
  f ← netFreebuf p;
  mret (if SYSERR =? f then SYSERR else result).

Definition tcpSendAck (i : Z) : nprog Z :=
  amend_tcb i (snd_off TCP_FLG_SNDACK);;
  t ← tcbx i;
  tcpSend i TCP_CTRL_ACK (tc_sndnxt t) (tc_rcvnxt t) 0 0.

Definition tcpSendSyn (i : Z) : nprog Z :=
  t ← tcbx i;
  control ← (if has (tc_sndflg t) TCP_FLG_SNDACK then
      amend_tcb i (snd_off TCP_FLG_SNDACK);; mret (Z.lor TCP_CTRL_SYN TCP_CTRL_ACK)
    else mret TCP_CTRL_SYN);
  t ← tcbx i;
  r ← tcpSend i control (tc_sndnxt t) (tc_rcvnxt t) NULL 1;
  if SYSERR =? r then mret SYSERR else
  amend_tcb i (fun t => set_tc_sndnxt (u32 (tc_sndnxt t + 1)) t);;
  amend_tcb i (snd_on TCP_FLG_SYN);;
  t ← tcbx i;
  r ← tcpTimerSched (tc_rxttime t) (Some i) TCP_EVT_RXT;
  mret (if SYSERR =? r then SYSERR else OK).

(** The segments of the maximum size: the state is [(tosend, sent, wndused)]. *)
Definition data_body (i : Z) (st : Z * Z * Z) : nprog (Z * Z * Z) :=
  let '(tosend, sent, wndused) := st in
  t ← tcbx i;
  tcpSend i TCP_CTRL_ACK (tc_sndnxt t) (tc_rcvnxt t) (u32 (tc_ostart t + wndused) mod TCP_OBLEN) (tc_sndmss t);;
  t ← tcbx i;
  amend_tcb i (fun t => set_tc_sndnxt (seqadd (tc_sndnxt t) (tc_sndmss t)) t);;
  mret (u32 (tosend - tc_sndmss t), u32 (sent + tc_sndmss t), u32 (wndused + tc_sndmss t)).

(** A retransmission is scheduled unless one is. *)
Definition ensure_rxt (i : Z) : nprog unit :=
  r ← tcpTimerRemain i TCP_EVT_RXT;
  if r <=? 0 then t ← tcbx i; tcpTimerSched (tc_rxttime t) (Some i) TCP_EVT_RXT;; mret tt else mret tt.

(** What [tcpSendData] does when there is data to send and space in the window. *)
Definition send_pending (i pending wndused : Z) : nprog Z :=
  t ← tcbx i;
  let all := negb (pending >? tc_sndwnd t) in
  let tosend := if all then u32 (pending - wndused) else u32 (tc_sndwnd t - wndused) in
  let ctrl := if all && has (tc_sndflg t) TCP_FLG_FIN then Z.lor TCP_CTRL_ACK TCP_CTRL_FIN else TCP_CTRL_ACK in
  r ← while_ (S (Z.to_nat (tosend / tc_sndmss t))) (fun st => t ← tcbx i; mret (st.1.1 >? tc_sndmss t)) (data_body i) (tosend, 0, wndused);
  let '(tosend, sent, wndused) := r in
  t ← tcbx i;
  tcpSend i ctrl (tc_sndnxt t) (tc_rcvnxt t) (u32 (tc_ostart t + wndused) mod TCP_OBLEN) tosend;;
  let sent := u32 (sent + tosend) in
  amend_tcb i (fun t => set_tc_sndnxt (seqadd (tc_sndnxt t) tosend) t);;
  ensure_rxt i;;
  (if sent >? 0 then amend_tcb i (snd_off TCP_FLG_SNDACK) else mret tt);;
  amend_tcb i (snd_off TCP_FLG_SNDDATA);;
  mret (i32 sent).

Definition tcpSendData (i : Z) : nprog Z :=
  t ← tcbx i;
  if tc_sndmss t =? 0 then mret SYSERR else
  over ← (if has (tc_sndflg t) TCP_FLG_FIN then seqlt (tc_sndfin t) (tc_sndnxt t) else mret false);
  if (over : bool) then mret SYSERR else
  if (tc_rxtcount t >? 0) || has (tc_sndflg t) TCP_FLG_PERSIST then mret 0 else
  if 0 =? tc_sndwnd t then
    amend_tcb i (snd_on TCP_FLG_PERSIST);;
    amend_tcb i (set_tc_psttime TCP_PST_INITTIME);;
    t ← tcbx i;
    tcpTimerSched (tc_psttime t) (Some i) TCP_EVT_PERSIST;;
    mret 0
  else
  full ← seqlte (seqadd (tc_snduna t) (tc_sndwnd t)) (tc_sndnxt t);
  if (full : bool) then mret 0 else
  let pending := if has (tc_sndflg t) TCP_FLG_FIN then u32 (tc_ocount t + 1) else tc_ocount t in
  let wndused := tcpSeqdiff (tc_sndnxt t) (tc_snduna t) in
  if pending =? wndused then
    unacked ← seqlt (tc_snduna t) (tc_sndnxt t);
    (if (unacked : bool) then ensure_rxt i else mret tt);;
    mret 0
  else send_pending i pending wndused.

Definition tcpSendPersist (i : Z) : nprog Z :=
  wait_tcb i;;
  t ← tcbx i;
  if tc_ocount t <=? 0 then
    amend_tcb i (snd_off TCP_FLG_PERSIST);; signal_tcb i;; mret SYSERR
  else
  time ← int (Z.shiftl (tc_psttime t) 1);
  amend_tcb i (set_tc_psttime (if time >? TCP_PST_MAXTIME then TCP_PST_MAXTIME else time));;
  t ← tcbx i;
  tcpTimerSched (tc_psttime t) (Some i) TCP_EVT_PERSIST;;
  t ← tcbx i;
  let tosend := if tc_ocount t >? tc_sndmss t then tc_sndmss t else tc_ocount t in
  tcpSend i TCP_CTRL_ACK (tc_snduna t) (tc_rcvnxt t) (tc_ostart t) tosend;;
  signal_tcb i;;
  mret (i32 tosend).

(** The length of a segment: [pkt->len - (pkt->curr - pkt->linkhdr)]. *)
Definition seg_tcplen (e : packet) : Z := u16 (p_len e - (p_curr e - p_linkhdr e)).

Definition tcpSendRst (p : Z) (src dst : netaddr) : nprog Z :=
  e ← pkt p;
  let tcp := p_curr e in
  let tcplen := seg_tcplen e in
  control ← ucall (ldb (tcp + T_CONTROL));
  if has control TCP_CTRL_RST then mret OK else
  out ← netGetbuf;
  if SYSERR =? i32 out then mret SYSERR else
  amend_pkt out (fun e => set_p_curr (u32 (p_curr e - TCP_HDR_LEN)) e);;
  amend_pkt out (fun e => set_p_len (u32 (p_len e + TCP_HDR_LEN)) e);;
  o ← pkt out;
  let outtcp := p_curr o in
  dstpt ← ucall (ldh (tcp + T_DSTPT));
  ucall (sth outtcp dstpt);;
  srcpt ← ucall (ldh tcp);
  ucall (sth (outtcp + T_DSTPT) srcpt);;
  ucall (stb (outtcp + T_OFFSET) (octets2offset TCP_HDR_LEN));;
  ucall (stb (outtcp + T_CONTROL) TCP_CTRL_RST);;
  (if has control TCP_CTRL_ACK then
     acknum ← ucall (ldl (tcp + T_ACK)); ucall (stl (outtcp + T_SEQ) acknum)
   else
     ucall (stl (outtcp + T_SEQ) 0);;
     c ← ucall (ldb (outtcp + T_CONTROL));
     ucall (stb (outtcp + T_CONTROL) (Z.lor c TCP_CTRL_ACK)));;
  offset ← ucall (ldb (tcp + T_OFFSET));
  let datalen := u16 (tcplen - offset2octets offset) in
  let datalen := if has control TCP_CTRL_SYN then u16 (datalen + 1) else datalen in
  let datalen := if has control TCP_CTRL_FIN then u16 (datalen + 1) else datalen in
  seqnum ← ucall (ldl (tcp + T_SEQ));
  ucall (stl (outtcp + T_ACK) (u32 (seqnum + datalen)));;
  swap_tcp outtcp;;
  sum ← tcpChksum out TCP_HDR_LEN src dst;
  ucall (sth (outtcp + T_CHKSUM) sum);;
  result ← ipv4Send devtab out src (Some dst) IPv4_PROTO_TCP;
  f ← netFreebuf out;
  mret (if SYSERR =? f then SYSERR else result).

(** ** The end of a connection *)

Definition tcpFree (i : Z) : nprog Z :=
  t ← tcbx i;
  if TCP_CLOSED =? tc_state t then signal_tcb i;; mret SYSERR else
  kcall ENTER_KERNEL_CRITICAL_SECTION;;
  t ← tcbx i;
  let temp := tc_mutex t in
  kcall (semfree (tc_openclose t));;
  t ← tcbx i;
  kcall (semfree (tc_readers t));;
  t ← tcbx i;
  kcall (semfree (tc_writers t));;
  tcpTimerPurge i NULL;;
  amend_tcb i (fun _ => zero_tcb);;
  amend_tcb i (set_tc_state TCP_CLOSED);;
  amend_tcb i (set_tc_devstate TCP_FREE);;
  amend_tcb i (set_tc_mutex temp);;
  kcall EXIT_KERNEL_CRITICAL_SECTION;;
  signal_tcb i;;
  mret OK.

(** ** Retransmission *)

(** The congestion window after a retransmission; [first] is the first of the segment. *)
Definition congested (first : bool) (t : tcb) : tcb :=
  let t := if first then set_tc_sndsst (tc_sndcwn t) t else t in
  let t := if tc_sndwnd t <? tc_sndsst t then set_tc_sndsst (Z.shiftr (tc_sndwnd t) 1) t
           else set_tc_sndsst (Z.shiftr (tc_sndsst t) 1) t in
  let t := if tc_sndsst t <? tc_sndmss t then set_tc_sndsst (tc_sndmss t) t else t in
  set_tc_sndcwn (tc_sndmss t) t.

(** The retransmission of data; [t] is the control block. *)
Definition rxt_data (i : Z) (first : bool) : nprog Z :=
  t ← tcbx i;
  let pending := tcpSeqdiff (tc_sndnxt t) (tc_snduna t) in
  fin ← (if has (tc_sndflg t) TCP_FLG_FIN then
      a ← seqlte (tc_snduna t) (tc_sndfin t);
      if (a : bool) then seqlt (tc_sndfin t) (tc_sndnxt t) else mret false
    else mret false);
  let control := if (fin : bool) then Z.lor TCP_CTRL_ACK TCP_CTRL_FIN else TCP_CTRL_ACK in
  let more := pending >? tc_sndmss t in
  let tosend := if more then tc_sndmss t else pending in
  let control := if more then Z.land control (Z.lnot TCP_CTRL_FIN) else control in
  tcpSend i control (tc_snduna t) (tc_rcvnxt t) (tc_ostart t) tosend;;
  amend_tcb i (congested first);;
  signal_tcb i;;
  mret (i32 tosend).

Definition tcpSendRxt (i : Z) : nprog Z :=
  wait_tcb i;;
  t ← tcbx i;
  unacked ← seqlt (tc_snduna t) (tc_sndnxt t);
  if negb unacked || has (tc_sndflg t) TCP_FLG_PERSIST then signal_tcb i;; mret SYSERR else
  let first := 0 =? tc_rxtcount t in
  amend_tcb i (fun t => set_tc_rxtcount (u32 (tc_rxtcount t + 1)) t);;
  t ← tcbx i;
  if tc_rxtcount t >? TCP_RXT_MAXCOUNT then tcpFree i;; mret 0 else
  time ← int (Z.shiftl (tc_rxttime t) (tc_rxtcount t));
  tcpTimerSched (if time >? TCP_RXT_MAXTIME then TCP_RXT_MAXTIME else time) (Some i) TCP_EVT_RXT;;
  t ← tcbx i;
  if has (tc_sndflg t) TCP_FLG_SYN && (tc_snduna t =? tc_iss t) then
    let control := if has (tc_rcvflg t) TCP_FLG_SYN then Z.lor TCP_CTRL_SYN TCP_CTRL_ACK else TCP_CTRL_SYN in
    tcpSend i control (tc_snduna t) (tc_rcvnxt t) 0 1;;
    signal_tcb i;;
    mret 1
  else rxt_data i first.
End Tcp.
