(* ===== verification/TcpRecv.v ===== *)
(** TCP, the receiving side: device/tcp/tcpRecv*.c and tcpDemux.c. *)
From Stdlib Require Import ZArith Lia.
From stdpp Require Import sorting gmap functions list.
From S2P Require Import Prelude Kernel Queue QueueFacts Sched Semaphore Clock Message Memory Boot Frame Thread BufPool Bytes Device DevTab Chksum Netaddr Tcb Net Wire Snoop Route Arp Ipv4 Udp TcpTimer Tcp.

(** The update of the received flags. *)
Definition rcv_on (x : Z) (t : tcb) : tcb := set_tc_rcvflg (Z.lor (tc_rcvflg t) x) t.

(** An octet of the input ring, and the advance of its end by [n] octets. *)
Definition ring_put (index c : Z) (t : tcb) : tcb :=
  set_tc_imark (<[index := true]> (tc_imark t)) (set_tc_in (<[index := c]> (tc_in t)) t).
Definition ring_advance (n : Z) (t : tcb) : tcb :=
  let t := set_tc_icount (u32 (tc_icount t + n)) t in
  let t := set_tc_ibytes (u32 (tc_ibytes t + n)) t in
  let t := set_tc_inxt (u32 (tc_inxt t + n) mod TCP_IBLEN) t in
  set_tc_rcvnxt (seqadd (tc_rcvnxt t) n) t.

(** The octets of the send ring that an acknowledgement takes. *)
Definition acked (amt : Z) (t : tcb) : tcb :=
  let t := set_tc_ostart (u32 (tc_ostart t + amt) mod TCP_OBLEN) t in
  let t := set_tc_ocount (u32 (tc_ocount t - amt)) t in
  set_tc_obytes (u32 (tc_obytes t + amt)) t.

Section TcpRecv.
Context {H : Type} (devtab : gmap Z (device (net H))).

Abbreviation nprog := (dprog (net H)).

(** [tcp->control &= ~x] and [tcp->control |= x]. *)
Definition ctrl_off (tcp x : Z) : nprog unit :=
  c ← ucall (ldb (tcp + T_CONTROL)); ucall (stb (tcp + T_CONTROL) (Z.land c (Z.lnot x))).
Definition ctrl_on (tcp x : Z) : nprog unit :=
  c ← ucall (ldb (tcp + T_CONTROL)); ucall (stb (tcp + T_CONTROL) (Z.lor c x)).

(** ** Options *)

(** The state is [options]; an octet is read before the bound is compared. *)
Definition opts_cond (endopt options : Z) : nprog bool :=
  c ← ucall (ldb options);
  mret (negb (c =? TCP_OPT_END) && (options <? endopt)).
Definition opts_body (i options : Z) : nprog Z :=
  c ← ucall (ldb options);
  if c =? TCP_OPT_MSS then
    lo ← ucall (ldb (options + 2));
    amend_tcb i (set_tc_sndmss lo);;
    hi ← ucall (ldb (options + 3));
    amend_tcb i (fun t => set_tc_sndmss (u16 (tc_sndmss t + Z.shiftl hi 8)) t);;
    amend_tcb i (fun t => set_tc_sndmss (u16 (tc_sndmss t - TCP_HDR_LEN)) t);;
    mret (options + 4)
  else mret (options + 1).
Definition tcpRecvOpts (p i : Z) : nprog Z :=
  e ← pkt p;
  let tcp := p_curr e in
  offset ← ucall (ldb (tcp + T_OFFSET));
  if offset2octets offset =? TCP_HDR_LEN then mret OK else
  let options := tcp + T_DATA in
  let len := offset2octets offset - TCP_HDR_LEN in
  while_ (S (Z.to_nat len)) (opts_cond (options + len)) (opts_body i) options;;
  mret OK.

(** ** Validity *)

(** Is [seq] in the window of [t]? *)
Definition in_window (t : tcb) (seq : Z) : nprog bool :=
  a ← seqlte (tc_rcvnxt t) seq;
  b ← seqlt seq (tc_rcvwnd t);
  mret (a && b).

Definition tcpRecvValid (p i : Z) : nprog bool :=
  e ← pkt p;
  let tcp := p_curr e in
  t ← tcbx i;
  offset ← ucall (ldb (tcp + T_OFFSET));
  control ← ucall (ldb (tcp + T_CONTROL));
  seqnum ← ucall (ldl (tcp + T_SEQ));
  let availwnd := tcpSeqdiff (tc_rcvwnd t) (tc_rcvnxt t) in
  let seglen := u16 (seg_tcplen e - offset2octets offset) in
  let seglen := if has control TCP_CTRL_SYN then u16 (seglen + 1) else seglen in
  let seglen := if has control TCP_CTRL_FIN then u16 (seglen + 1) else seglen in
  result ← (if 0 =? seglen then
      if 0 =? availwnd then mret (seqnum =? tc_rcvnxt t) else in_window t seqnum
    else
      if 0 =? availwnd then mret false else
      a ← in_window t seqnum;
      b ← in_window t (seqadd seqnum (seglen - 1));
      mret (a || b));
  (if availwnd =? 0 then
     ctrl_off tcp (Z.lor TCP_CTRL_PSH (Z.lor TCP_CTRL_SYN TCP_CTRL_FIN));;
     amend_pkt p (fun e => set_p_len (u32 (p_len e - seglen)) e)
   else mret tt);;
  mret result.

(** ** Round trip times *)

Definition tcpRecvRtt (i : Z) : nprog Z :=
  rtt ← tcpTimerPurge i TCP_EVT_RXT;
  t ← tcbx i;
  (if negb (rtt =? SYSERR) && (0 =? tc_rxtcount t) then
     (if 0 =? tc_sndrtt t then r ← int (Z.shiftl rtt 3); amend_tcb i (set_tc_sndrtt r) else mret tt);;
     t ← tcbx i;
     delta ← int (rtt - Z.shiftr (tc_sndrtt t) 3);
     r ← int (tc_sndrtt t + delta);
     amend_tcb i (set_tc_sndrtt r);;
     delta ← int (Z.abs delta);
     t ← tcbx i;
     d ← int (delta - Z.shiftr (tc_sndrtd t) 2);
     d ← int (tc_sndrtd t + d);
     amend_tcb i (set_tc_sndrtd d);;
     t ← tcbx i;
     s ← int (Z.shiftr (tc_sndrtt t) 2 + tc_sndrtd t);
     let time := Z.shiftr s 1 in
     amend_tcb i (set_tc_rxttime (if time <? TCP_RXT_MINTIME then TCP_RXT_MINTIME else time))
   else mret tt);;
  t ← tcbx i;
  (if tc_sndcwn t <? tc_sndsst t then amend_tcb i (set_tc_sndcwn (u32 (tc_sndcwn t + tc_sndmss t)))
   else
     sq ← int (tc_sndmss t * tc_sndmss t);
     if tc_sndcwn t =? 0 then fault
     else amend_tcb i (set_tc_sndcwn (u32 (tc_sndcwn t + u32 sq / tc_sndcwn t))));;
  mret OK.

(** ** Acknowledgements *)

(** An acknowledgement of data that was sent and not acknowledged. *)
Definition recv_ack (i acknum : Z) : nprog unit :=
  t ← tcbx i;
  let amt := tcpSeqdiff acknum (tc_snduna t) in
  let amt := if has (tc_sndflg t) TCP_FLG_SYN && (tc_snduna t =? tc_iss t) then u32 (amt - 1) else amt in
  fin ← (if has (tc_sndflg t) TCP_FLG_FIN then seqlt (tc_sndfin t) acknum else mret false);
  let amt := if (fin : bool) then u32 (amt - 1) else amt in
  amend_tcb i (acked amt);;
  t ← tcbx i;
  (if tc_ocount t <? TCP_OBLEN then kcall (signal (tc_writers t));; mret tt else mret tt);;
  amend_tcb i (set_tc_snduna acknum);;
  amend_tcb i (set_tc_rxtcount 0);;
  tcpRecvRtt i;;
  t ← tcbx i;
  more ← seqlt (tc_snduna t) (tc_sndnxt t);
  (if (more : bool) then tcpTimerSched (tc_rxttime t) (Some i) TCP_EVT_RXT;; mret tt else mret tt);;
  amend_tcb i (snd_on TCP_FLG_SNDDATA).

(** A segment that is not out of order updates the send window. *)
Definition recv_window (i seqnum acknum window : Z) : nprog unit :=
  t ← tcbx i;
  newer ← seqlt (tc_sndwl1 t) seqnum;
  newer ← (if (newer : bool) then mret true else
           if tc_sndwl1 t =? seqnum then seqlte (tc_sndwl2 t) acknum else mret false);
  if (newer : bool) then
    let oldend := seqadd (tc_sndwl2 t) (tc_sndwnd t) in
    let newend := seqadd acknum window in
    amend_tcb i (set_tc_sndwnd window);;
    amend_tcb i (set_tc_sndwl1 seqnum);;
    amend_tcb i (set_tc_sndwl2 acknum);;
    le ← seqlte newend oldend;
    if (le : bool) then mret tt else
    tcpTimerPurge i TCP_EVT_PERSIST;;
    amend_tcb i (snd_off TCP_FLG_PERSIST);;
    amend_tcb i (snd_on TCP_FLG_SNDDATA)
  else mret tt.

Definition tcpRecvAck (p i : Z) : nprog Z :=
  e ← pkt p;
  let tcp := p_curr e in
  acknum ← ucall (ldl (tcp + T_ACK));
  seqnum ← ucall (ldl (tcp + T_SEQ));
  window ← ucall (ldh (tcp + T_WINDOW));
  t ← tcbx i;
  new ← seqlt (tc_snduna t) acknum;
  new ← (if (new : bool) then seqlte acknum (tc_sndnxt t) else mret false);
  (if (new : bool) then recv_ack i acknum else mret tt);;
  recv_window i seqnum acknum window;;
  t ← tcbx i;
  unsent ← seqlt (tc_sndnxt t) acknum;
  (if (unsent : bool) then amend_tcb i (snd_on TCP_FLG_SNDACK) else mret tt);;
  mret OK.

(** ** Data *)

Definition in_body (i data start : Z) (k : Z) (_ : unit) : nprog (unit + unit) :=
  c ← ucall (ldb (data + k));
  amend_tcb i (ring_put (u32 (start + k) mod TCP_IBLEN) c);;
  mret (inl tt).

(** The loop that passes over data that came before; it is left where data is missing,
    when the ring is full, and at the FIN. *)
Definition marked_body (i tcp : Z) (_ : Z) (_ : unit) : nprog (unit + unit) :=
  t ← tcbx i;
  if tc_icount t <? TCP_IBLEN then
    match tc_imark t !! tc_inxt t with
    | None => fault
    | Some false => mret (inr tt)
    | Some true =>
        amend_tcb i (ring_advance 1);;
        t ← tcbx i;
        if has (tc_rcvflg t) TCP_FLG_FIN && (tc_rcvnxt t =? tc_rcvfin t) then
          ctrl_on tcp TCP_CTRL_FIN;; mret (inr tt)
        else mret (inl tt)
    end
  else mret (inr tt).

(** Where a segment starts: how far it lies before [rcvnxt] or after it, how much of it is
    passed over, what is left of it, and its place in the ring. *)
Definition segment_start (t : tcb) (seqnum seglen : Z) : nprog (Z * Z * Z * Z) :=
  old ← seqlt seqnum (tc_rcvnxt t);
  mret (if (old : bool) then
      let offset := tcpSeqdiff (tc_rcvnxt t) seqnum in (offset, offset, u16 (seglen - offset), tc_inxt t)
    else
      let offset := tcpSeqdiff seqnum (tc_rcvnxt t) in (offset, 0, seglen, u32 (tc_inxt t + offset) mod TCP_IBLEN)).

(** The data of a segment goes into the ring; the result is what is left of [seglen]. *)
Definition store_data (i tcp seglen : Z) : nprog Z :=
  offs ← ucall (ldb (tcp + T_OFFSET));
  seqnum ← ucall (ldl (tcp + T_SEQ));
  t ← tcbx i;
  r ← segment_start t seqnum seglen;
  let '(offset, skip, seglen, start) := r in
  let data := u32 (tcp + offset2octets offs + skip) in
  let window := u32 (tcpSeqdiff (tc_rcvwnd t) (tc_rcvnxt t) - offset) in
  seglen ← (if seglen >? window then ctrl_off tcp TCP_CTRL_FIN;; mret window else mret seglen);
  for_ (Z.to_nat seglen) 0 (in_body i data start) tt;;
  t ← tcbx i;
  (if start =? tc_inxt t then
     amend_tcb i (ring_advance seglen);;
     for_ (Z.to_nat TCP_IBLEN) 0 (marked_body i tcp) tt;;
     t ← tcbx i;
     n ← kcall (semcount (tc_readers t));
     (if n <? 1 then kcall (signal (tc_readers t));; mret tt else mret tt);;
     amend_tcb i (snd_on TCP_FLG_SNDACK)
   else mret tt);;
  mret seglen.

(** Every thread that waits for input is released. *)
Definition release_readers (i : Z) : nprog unit :=
  t ← tcbx i;
  n ← kcall (semcount (tc_readers t));
  if n <? 0 then
    n ← kcall (semcount (tc_readers t));
    n ← int (n * -1);
    kcall (signaln (tc_readers t) n);;
    mret tt
  else mret tt.

Definition time_wait (i : Z) : nprog unit :=
  tcpTimerPurge i NULL;;
  tcpTimerSched TCP_TWOMSL (Some i) TCP_EVT_TIMEWT;;
  mret tt.

Definition count_fin (i : Z) : nprog unit := amend_tcb i (fun t => set_tc_rcvnxt (seqadd (tc_rcvnxt t) 1) t).

(** The switch on the state for a FIN that is next. *)
Definition fin_state (i : Z) : nprog unit :=
  t ← tcbx i;
  let state := tc_state t in
  if (state =? TCP_SYNRECV) || (state =? TCP_ESTAB) then
    count_fin i;; amend_tcb i (set_tc_state TCP_CLOSEWT)
  else if state =? TCP_FINWT1 then
    count_fin i;;
    t ← tcbx i;
    acked ← seqlt (tc_sndfin t) (tc_snduna t);
    if (acked : bool) then
      tcpTimerSched TCP_TWOMSL (Some i) TCP_EVT_TIMEWT;;
      tcpTimerPurge i NULL;;
      amend_tcb i (set_tc_state TCP_TIMEWT)
    else amend_tcb i (set_tc_state TCP_CLOSING)
  else if state =? TCP_FINWT2 then
    count_fin i;; time_wait i
  else if state =? TCP_TIMEWT then
    time_wait i;; amend_tcb i (snd_on TCP_FLG_SNDACK)
  else if (state =? TCP_CLOSEWT) || (state =? TCP_CLOSING) || (state =? TCP_LASTACK) then
    amend_tcb i (snd_on TCP_FLG_SNDACK)
  else mret tt.

Definition recv_fin (i tcp seglen : Z) : nprog unit :=
  t ← tcbx i;
  (if negb (has (tc_rcvflg t) TCP_FLG_FIN) then
     seqnum ← ucall (ldl (tcp + T_SEQ));
     amend_tcb i (set_tc_rcvfin (seqadd seqnum seglen));;
     amend_tcb i (rcv_on TCP_FLG_FIN)
   else mret tt);;
  t ← tcbx i;
  if tc_rcvnxt t =? tc_rcvfin t then
    release_readers i;;
    fin_state i;;
    amend_tcb i (snd_on TCP_FLG_SNDACK)
  else mret tt.

Definition tcpRecvData (p i : Z) : nprog Z :=
  e ← pkt p;
  let tcp := p_curr e in
  offset ← ucall (ldb (tcp + T_OFFSET));
  let seglen := u16 (seg_tcplen e - offset2octets offset) in
  t ← tcbx i;
  seglen ← (if (seglen >? 0) && ((tc_state t =? TCP_ESTAB) || (tc_state t =? TCP_FINWT1) || (tc_state t =? TCP_FINWT2))
            then store_data i tcp seglen else mret seglen);
  control ← ucall (ldb (tcp + T_CONTROL));
  (if has control TCP_CTRL_FIN then recv_fin i tcp seglen else mret tt);;
  t ← tcbx i;
  (if has (tc_sndflg t) TCP_FLG_SNDDATA then tcpSendData devtab i;; mret tt else mret tt);;
  t ← tcbx i;
  (if has (tc_sndflg t) TCP_FLG_SNDACK then tcpSendAck devtab i;; mret tt else mret tt);;
  mret OK.

(** ** A segment in each state *)

Definition tcpRecvListen (p i : Z) (src : netaddr) : nprog Z :=
  e ← pkt p;
  let tcp := p_curr e in
  control ← ucall (ldb (tcp + T_CONTROL));
  if has control TCP_CTRL_RST then mret OK else
  if has control TCP_CTRL_ACK then amend_tcb i (snd_on TCP_FLG_SNDRST);; mret OK else
  if has control TCP_CTRL_SYN then
    seqnum ← ucall (ldl (tcp + T_SEQ));
    amend_tcb i (set_tc_rcvnxt (seqadd seqnum 1));;
    amend_tcb i (set_tc_rcvwnd (seqadd seqnum TCP_INIT_WND));;
    amend_tcb i (rcv_on TCP_FLG_SYN);;
    amend_tcb i (snd_on TCP_FLG_SNDACK);;
    t ← tcbx i;
    (if NULL =? tc_remotept t then srcpt ← ucall (ldh tcp); amend_tcb i (set_tc_remotept srcpt) else mret tt);;
    (if NULL =? na_type (tc_remoteip t) then amend_tcb i (set_tc_remoteip src) else mret tt);;
    window ← ucall (ldh (tcp + T_WINDOW));
    amend_tcb i (set_tc_sndwnd window);;
    amend_tcb i (set_tc_sndwl1 seqnum);;
    tcpSendSyn devtab i;;
    t ← tcbx i;
    (if has (tc_sndflg t) TCP_FLG_SNDACK then tcpSendAck devtab i;; mret tt else mret tt);;
    amend_tcb i (set_tc_state TCP_SYNRECV);;
    tcpRecvData p i
  else mret OK.

(** The segment's SYN is accepted; [ok] is [ackAccept]. *)
Definition synsent_syn (p i tcp : Z) (ok : bool) : nprog Z :=
  window ← ucall (ldh (tcp + T_WINDOW));
  amend_tcb i (set_tc_sndwnd window);;
  seqnum ← ucall (ldl (tcp + T_SEQ));
  amend_tcb i (set_tc_sndwl1 seqnum);;
  amend_tcb i (set_tc_rcvnxt (seqadd seqnum 1));;
  amend_tcb i (set_tc_rcvwnd (seqadd seqnum TCP_INIT_WND));;
  amend_tcb i (rcv_on TCP_FLG_SYN);;
  amend_tcb i (snd_on TCP_FLG_SNDACK);;
  (if ok then
     acknum ← ucall (ldl (tcp + T_ACK));
     amend_tcb i (set_tc_snduna acknum);;
     amend_tcb i (set_tc_sndwl2 acknum)
   else mret tt);;
  amend_tcb i (set_tc_rxtcount 0);;
  tcpTimerPurge i TCP_EVT_RXT;;
  t ← tcbx i;
  more ← seqlt (tc_snduna t) (tc_sndnxt t);
  (if (more : bool) then tcpTimerSched (tc_rxttime t) (Some i) TCP_EVT_RXT;; mret tt else mret tt);;
  t ← tcbx i;
  synacked ← seqlt (tc_iss t) (tc_snduna t);
  if (synacked : bool) then
    amend_tcb i (set_tc_state TCP_ESTAB);;
    t ← tcbx i;
    kcall (signal (tc_openclose t));;
    amend_tcb i (snd_on TCP_FLG_SNDDATA);;
    tcpRecvData p i
  else
    amend_tcb i (set_tc_state TCP_SYNRECV);;
    t ← tcbx i;
    tcpSend devtab i (Z.lor TCP_CTRL_SYN TCP_CTRL_ACK) (tc_iss t) (tc_rcvnxt t) NULL 1;;
    tcpRecvData p i.

Definition tcpRecvSynsent (p i : Z) : nprog Z :=
  e ← pkt p;
  let tcp := p_curr e in
  control ← ucall (ldb (tcp + T_CONTROL));
  acknum ← ucall (ldl (tcp + T_ACK));
  t ← tcbx i;
  (* [None] is an acknowledgement that is not acceptable *)
  ok ← (if has control TCP_CTRL_ACK then
      bad ← seqlte acknum (tc_iss t);
      bad ← (if (bad : bool) then mret true else seqlt (tc_sndnxt t) acknum);
      if (bad : bool) then mret None else
      a ← seqlte (tc_snduna t) acknum;
      b ← (if (a : bool) then seqlte acknum (tc_sndnxt t) else mret false);
      mret (Some b)
    else mret (Some false));
  match ok with
  | None => (if has control TCP_CTRL_RST then mret tt else amend_tcb i (snd_on TCP_FLG_SNDRST));; mret OK
  | Some ok =>
      if has control TCP_CTRL_RST then mret (if (ok : bool) then TCP_ERR_RESET else OK)
      else if has control TCP_CTRL_SYN then synsent_syn p i tcp ok
      else mret OK
  end.

(** The RST of an acceptable segment; [None] is the end of the switch. *)
Definition other_rst (i : Z) : nprog (option Z) :=
  t ← tcbx i;
  if tc_state t =? TCP_SYNRECV then
    amend_tcb i (set_tc_rxtcount 0);;
    tcpTimerPurge i TCP_EVT_RXT;;
    t ← tcbx i;
    if TCP_PASSIVE =? tc_opentype t then amend_tcb i (set_tc_state TCP_LISTEN);; mret (Some OK)
    else mret (Some TCP_ERR_RESET)
  else mret (if (TCP_ESTAB <=? tc_state t) && (tc_state t <=? TCP_TIMEWT) then Some TCP_ERR_RESET else None).

Definition signal_open (i : Z) : nprog unit := t ← tcbx i; kcall (signal (tc_openclose t));; mret tt.

(** The ACK of a segment, by the state; the result is what is returned at once. *)
Definition other_ack (p i acknum : Z) : nprog (option Z) :=
  t ← tcbx i;
  let state := tc_state t in
  if state =? TCP_SYNRECV then
    a ← seqlte (tc_snduna t) acknum;
    a ← (if (a : bool) then seqlte acknum (tc_sndnxt t) else mret false);
    if (a : bool) then
      amend_tcb i (set_tc_state TCP_ESTAB);; signal_open i;; tcpRecvAck p i;; mret None
    else amend_tcb i (snd_on TCP_FLG_SNDRST);; mret (Some OK)
  else if (state =? TCP_CLOSEWT) || (state =? TCP_ESTAB) then tcpRecvAck p i;; mret None
  else if state =? TCP_FINWT1 then
    tcpRecvAck p i;;
    t ← tcbx i;
    done ← seqlte (tc_sndfin t) (tc_snduna t);
    (if (done : bool) then signal_open i;; amend_tcb i (set_tc_state TCP_FINWT2) else mret tt);;
    mret None
  else if state =? TCP_FINWT2 then
    tcpRecvAck p i;;
    r ← tcpTimerRemain i TCP_EVT_RXT;
    (if r <=? 0 then signal_open i else mret tt);;
    mret None
  else if state =? TCP_CLOSING then
    tcpRecvAck p i;;
    t ← tcbx i;
    done ← seqlte (tc_sndfin t) (tc_snduna t);
    (if (done : bool) then
       signal_open i;;
       amend_tcb i (set_tc_state TCP_FINWT2);;
       tcpTimerSched TCP_TWOMSL (Some i) TCP_EVT_TIMEWT;; mret tt
     else mret tt);;
    mret None
  else if state =? TCP_LASTACK then
    done ← seqlte (tc_sndfin t) (tc_snduna t);
    if (done : bool) then signal_open i;; mret (Some TCP_ERR_RESET) else mret None
  else if state =? TCP_TIMEWT then time_wait i;; mret None
  else mret None.

(** The part of [tcpRecvOther] for an acceptable segment. *)
Definition recv_accepted (p i tcp : Z) : nprog Z :=
  control ← ucall (ldb (tcp + T_CONTROL));
  r ← (if has control TCP_CTRL_RST then other_rst i else mret None);
  match r with
  | Some r => mret r
  | None =>
      if has control TCP_CTRL_SYN then amend_tcb i (snd_on TCP_FLG_SNDRST);; mret TCP_ERR_RESET
      else if negb (has control TCP_CTRL_ACK) then mret OK
      else
        acknum ← ucall (ldl (tcp + T_ACK));
        r ← other_ack p i acknum;
        match r with
        | Some r => mret r
        | None => tcpRecvData p i
        end
  end.

Definition tcpRecvOther (p i : Z) : nprog Z :=
  e ← pkt p;
  let tcp := p_curr e in
  segAccept ← tcpRecvValid p i;
  if negb segAccept then
    control ← ucall (ldb (tcp + T_CONTROL));
    (if has control TCP_CTRL_RST then mret tt else tcpSendAck devtab i;; mret tt);;
    mret OK
  else recv_accepted p i tcp.

(** ** Demultiplexing *)

(** The level of a match of a control block: 3 is full, 2 is on both ports, 1 is on the
    destination only. *)
Definition demux_level (level dstpt srcpt : Z) (dstip srcip : netaddr) (t : tcb) : nprog Z :=
  here ← (if (tc_localpt t =? dstpt) && ((tc_remotept t =? srcpt) || (tc_remotept t =? NULL))
          then netaddrequal (tc_localip t) dstip else mret false);
  full ← (if (level <? 3) && (tc_localpt t =? dstpt) && (tc_remotept t =? srcpt) && here
          then netaddrequal (tc_remoteip t) srcip else mret false);
  let level := if (full : bool) then 3 else level in
  let level := if (level <? 2) && (tc_localpt t =? dstpt) && (tc_remotept t =? srcpt) && here && (na_type (tc_remoteip t) =? NULL)
               then 2 else level in
  mret (if (level <? 1) && (tc_localpt t =? dstpt) && (tc_remotept t =? NULL) && here && (na_type (tc_remoteip t) =? NULL)
        then 1 else level).

(** The state is [(tcbptr, level)]. *)
Definition tcpDemux_body (dstpt srcpt : Z) (dstip srcip : netaddr) (i : Z) (st : option Z * Z) : nprog (option Z * Z + unit) :=
  wait_tcb i;;
  t ← tcbx i;
  st ← (if negb (tc_state t =? TCP_CLOSED) then
          level ← demux_level (st.2) dstpt srcpt dstip srcip t;
          mret (if st.2 <? level then (Some i, level) else st)
        else mret st);
  signal_tcb i;;
  mret (inl st).
Definition tcpDemux (dstpt srcpt : Z) (dstip srcip : netaddr) : nprog (option Z) :=
  r ← for_ (Z.to_nat NTCP) 0 (tcpDemux_body dstpt srcpt dstip srcip) (None, 0);
  mret (match r with inl st => st.1 | inr _ => None end).

(** ** A segment *)

(** The switch on the state; it sets the result, which is 0 otherwise. *)
Definition recv_state (p i : Z) (src : netaddr) : nprog Z :=
  t ← tcbx i;
  let state := tc_state t in
  if state =? TCP_LISTEN then tcpRecvListen p i src
  else if state =? TCP_SYNSENT then tcpRecvSynsent p i
  else if (TCP_SYNRECV <=? state) && (state <=? TCP_TIMEWT) then tcpRecvOther p i
  else mret 0.

(** What is done with a segment for the control block [i]. *)
Definition recv_segment (p i : Z) (src dst : netaddr) : nprog Z :=
  wait_tcb i;;
  t ← tcbx i;
  if TCP_CLOSED =? tc_state t then
    tcpSendRst devtab p src dst;; signal_tcb i;; netFreebuf p
  else
  tcpRecvOpts p i;;
  result ← recv_state p i src;
  t ← tcbx i;
  (if has (tc_sndflg t) TCP_FLG_SNDRST then tcpSendRst devtab p src dst;; mret tt else mret tt);;
  if TCP_ERR_RESET =? result then
    f ← netFreebuf p;
    if SYSERR =? f then mret SYSERR else tcpFree i
  else
    signal_tcb i;;
    f ← netFreebuf p;
    mret (if SYSERR =? f then SYSERR else result).

Definition tcpRecv (p : Z) (src dst : netaddr) : nprog Z :=
  e ← pkt p;
  let tcp := p_curr e in
  sum ← tcpChksum p (seg_tcplen e) src dst;
  if negb (sum =? 0) then netFreebuf p;; mret OK else
  swap_tcp tcp;;
  dstpt ← ucall (ldh (tcp + T_DSTPT));
  srcpt ← ucall (ldh tcp);
  tcbptr ← tcpDemux dstpt srcpt dst src;
  match tcbptr with
  | None => tcpSendRst devtab p src dst;; netFreebuf p
  | Some i => recv_segment p i src dst
  end.
End TcpRecv.
