(* ===== verification/TcpDev.v ===== *)
(** TCP devices and the timer thread: device/tcp/tcpAlloc.c, tcpInit.c, tcpSetup.c,
    tcpOpen.c, tcpOpenActive.c, tcpClose.c, tcpControl.c, tcpRead.c, tcpWrite.c, tcpGetc.c,
    tcpPutc.c, tcp_Install.c, tcpTimer.c and tcpTimerTrigger.c. *)
From Stdlib Require Import ZArith Lia.
From stdpp Require Import sorting gmap functions list.
From S2P Require Import Prelude Ports Kernel Queue QueueFacts Sched Semaphore Clock Message Memory Boot Frame Thread BufPool Bytes Device DevTab Chksum Netaddr Tcb Net Wire Snoop Route Arp Ipv4 Udp TcpTimer Tcp TcpRecv.

Section TcpDev.
Context {H : Type} (devtab : gmap Z (device (net H))).

Abbreviation nprog := (dprog (net H)).

(** ** Opening *)

Definition tcpAlloc_body (i : Z) (_ : unit) : nprog (unit + Z) :=
  wait_tcb i;;
  t ← tcbx i;
  if TCP_FREE =? tc_devstate t then
    amend_tcb i (set_tc_devstate TCP_ALLOC);; signal_tcb i;; mret (inr (i + TCP0))
  else signal_tcb i;; mret (inl tt).
Definition tcpAlloc : nprog Z :=
  r ← for_ (Z.to_nat NTCP) 0 tcpAlloc_body tt;
  mret (match r with inr d => u16 d | inl _ => u16 SYSERR end).

Definition tcpInit (minor : Z) : nprog Z :=
  amend_tcb minor (fun _ => zero_tcb);;
  amend_tcb minor (set_tc_state TCP_CLOSED);;
  amend_tcb minor (set_tc_devstate TCP_FREE);;
  sem ← kcall (semcreate 1);
  amend_tcb minor (set_tc_mutex sem);;
  mret (if SYSERR =? i32 sem then SYSERR else OK).

(** [nextseq] is a static variable of the routine. *)
Definition tcpIss : nprog Z :=
  n ← gets (fun w => g_nextseq (tcpst (own w)));
  time ← gets (fun w => clktime (kern w));
  n ← int ((if 0 =? n then i32 time else n) + TCP_SEQINCR);
  modify (fun w => put_tcpst (set_g_nextseq n (tcpst (own w))) w);;
  mret (u32 n).

(** The argument is [None] for a null pointer. *)
Definition tcpSetup (tcbptr : option Z) : nprog Z :=
  match tcbptr with
  | None => mret SYSERR
  | Some i =>
      openclose ← kcall (semcreate 0);
      amend_tcb i (set_tc_openclose openclose);;
      amend_tcb i (fun t => set_tc_ibytes 0 (set_tc_icount 0 (set_tc_inxt 0 (set_tc_istart 0 t))));;
      readers ← kcall (semcreate 0);
      amend_tcb i (set_tc_readers readers);;
      amend_tcb i (fun t => set_tc_obytes 0 (set_tc_ocount 0 (set_tc_ostart 0 t)));;
      writers ← kcall (semcreate 1);
      amend_tcb i (set_tc_writers writers);;
      iss ← tcpIss;
      amend_tcb i (fun t => set_tc_sndwl2 iss (set_tc_sndnxt iss (set_tc_snduna iss (set_tc_iss iss t))));;
      amend_tcb i (fun t => set_tc_sndcwn TCP_INIT_MSS (set_tc_sndflg NULL (set_tc_sndmss TCP_INIT_MSS t)));;
      amend_tcb i (fun t => set_tc_psttime TCP_PST_INITTIME (set_tc_rxtcount 0 (set_tc_rxttime TCP_RXT_INITTIME (set_tc_sndsst TCP_MAX_WND t))));;
      amend_tcb i (fun t => set_tc_rcvflg NULL (set_tc_rcvmss (TCP_INIT_MSS - TCP_HDR_LEN) t));;
      t ← tcbx i;
      mret (if (SYSERR =? i32 (tc_openclose t)) || (SYSERR =? i32 (tc_readers t)) || (SYSERR =? i32 (tc_writers t))
            then SYSERR else OK)
  end.

(** The static [allocPort] of tcpOpen.c: after every port that is taken its loop starts
    again with the second entry.  The bound on the rounds is enough by
    [tcp_allocPort_free]. *)
Definition tcp_port_taken (t : tcb) (p : Z) : bool := negb (tc_state t =? TCP_CLOSED) && (tc_localpt t =? p + TCP_PSTART).
Definition next_tcp_port (p : Z) : Z := u16 ((p + 1) mod (TCP_PMAX - TCP_PSTART)).
Definition put_tcp_nextport (p : Z) (w : dst (net H)) : dst (net H) := put_tcpst (set_g_nextport p (tcpst (own w))) w.
Definition tcp_port_body (i : Z) : nprog Z :=
  t ← tcbx i;
  p ← gets (fun w => g_nextport (tcpst (own w)));
  if tcp_port_taken t p then modify (put_tcp_nextport (next_tcp_port p));; mret 1 else mret (i + 1).
Definition TCP_PORT_FUEL : nat := 72.
Definition tcp_allocPort : nprog Z :=
  p ← gets (fun w => g_nextport (tcpst (own w)));
  modify (put_tcp_nextport (next_tcp_port p));;
  while_ TCP_PORT_FUEL (fun i => mret (i <? NTCP)) tcp_port_body 0;;
  p ← gets (fun w => g_nextport (tcpst (own w)));
  mret (u16 (p + TCP_PSTART)).

Definition tcpOpenActive (i : Z) : nprog Z :=
  t ← tcbx i;
  if (NULL =? tc_remotept t) || (NULL =? na_type (tc_remoteip t)) || (NULL =? na_type (tc_localip t)) then mret TCP_ERR_NOSPEC else
  r ← tcpSendSyn devtab i;
  if SYSERR =? r then mret SYSERR else
  amend_tcb i (set_tc_state TCP_SYNSENT);;
  mret OK.

(** The switch on the mode; [true] when the routine goes on. *)
Definition open_mode (i mode : Z) : nprog bool :=
  if mode =? TCP_PASSIVE then amend_tcb i (set_tc_state TCP_LISTEN);; mret true
  else if mode =? TCP_ACTIVE then
    r ← tcpOpenActive i;
    if SYSERR =? r then tcpFree i;; mret false else mret true
  else tcpFree i;; mret false.

(** The arguments are the addresses of the two network addresses, the two ports and the
    mode. *)
Definition tcpOpen (num minor : Z) (ap : list Z) : nprog Z :=
  wait_tcb minor;;
  amend_tcb minor (set_tc_devstate TCP_ALLOC);;
  t ← tcbx minor;
  if negb (tc_state t =? TCP_CLOSED) && negb (tc_state t =? TCP_LISTEN) then signal_tcb minor;; mret SYSERR else
  match ap with
  | [localip; remoteip; localpt; remotept; mode] =>
      if NULL =? localip then
        amend_tcb minor (set_tc_devstate TCP_FREE);; signal_tcb minor;; mret SYSERR
      else
      localpt ← (if NULL =? u16 localpt then tcp_allocPort else mret (u16 localpt));
      amend_tcb minor (set_tc_dev (u16 num));;
      amend_tcb minor (set_tc_localpt localpt);;
      local ← get_netaddr localip;
      amend_tcb minor (set_tc_localip local);;
      amend_tcb minor (set_tc_remotept (u16 remotept));;
      (if NULL =? remoteip then
         amend_tcb minor (fun t => set_tc_remoteip (mkNetaddr NULL (na_len (tc_remoteip t)) (na_addr (tc_remoteip t))) t)
       else
         remote ← get_netaddr remoteip;
         amend_tcb minor (set_tc_remoteip remote));;
      amend_tcb minor (set_tc_opentype (u8 mode));;
      r ← tcpSetup (Some minor);
      if SYSERR =? r then tcpFree minor;; mret SYSERR else
      go ← open_mode minor (u8 mode);
      if negb go then mret SYSERR else
      signal_tcb minor;;
      t ← tcbx minor;
      kcall (wait (tc_openclose t));;
      mret OK
  | _ => fault
  end.

(** ** Closing *)

(** Every thread that waits on the semaphore is released. *)
Definition release_all (sem : Z) : nprog unit :=
  n ← kcall (semcount sem);
  if n <? 0 then
    n ← kcall (semcount sem);
    n ← int (n * -1);
    kcall (signaln sem n);;
    mret tt
  else mret tt.

Definition send_fin (i : Z) : nprog unit :=
  amend_tcb i (fun t => set_tc_sndfin (seqadd (tc_snduna t) (tc_ocount t)) t);;
  amend_tcb i (snd_on TCP_FLG_FIN).

(** The switch on the state; [false] when the routine returns [SYSERR]. *)
Definition close_state (i : Z) : nprog bool :=
  t ← tcbx i;
  let state := tc_state t in
  if state =? TCP_CLOSED then
    amend_tcb i (set_tc_devstate TCP_FREE);; signal_tcb i;; mret false
  else if (state =? TCP_SYNSENT) || (state =? TCP_LISTEN) then
    (if state =? TCP_SYNSENT then release_all (tc_writers t) else mret tt);;
    t ← tcbx i;
    release_all (tc_readers t);;
    tcpFree i;;
    mret true
  else if state =? TCP_SYNRECV then
    send_fin i;;
    t ← tcbx i;
    (if 0 =? tc_ocount t then
       amend_tcb i (snd_on TCP_FLG_SNDDATA);; amend_tcb i (set_tc_state TCP_FINWT1)
     else mret tt);;
    mret true
  else if state =? TCP_ESTAB then
    send_fin i;; amend_tcb i (snd_on TCP_FLG_SNDDATA);; amend_tcb i (set_tc_state TCP_FINWT1);; mret true
  else if state =? TCP_CLOSEWT then
    send_fin i;; amend_tcb i (snd_on TCP_FLG_SNDDATA);; amend_tcb i (set_tc_state TCP_LASTACK);; mret true
  else if (state =? TCP_FINWT1) || (state =? TCP_FINWT2) || (state =? TCP_CLOSING) || (state =? TCP_LASTACK) || (state =? TCP_TIMEWT) then
    signal_tcb i;; mret false
  else mret true.

Definition tcpClose (minor : Z) : nprog Z :=
  wait_tcb minor;;
  go ← close_state minor;
  if negb go then mret SYSERR else
  t ← tcbx minor;
  (if has (tc_sndflg t) TCP_FLG_SNDDATA then tcpSendData devtab minor;; mret tt else mret tt);;
  signal_tcb minor;;
  t ← tcbx minor;
  kcall (wait (tc_openclose t));;
  mret OK.

Definition tcpControl (minor func arg1 arg2 : Z) : nprog Z :=
  wait_tcb minor;;
  t ← tcbx minor;
  r ← (if func =? TCP_CTRL_SENTBYTES then mret (i32 (tc_obytes t))
       else if func =? TCP_CTRL_RECVBYTES then mret (i32 (tc_ibytes t))
       else mret SYSERR);
  signal_tcb minor;;
  mret r.

(** ** Reading *)

(** The [stateCheck] of tcpRead.c. *)
Definition read_check (i : Z) : nprog Z :=
  t ← tcbx i;
  let state := tc_state t in
  if state =? TCP_CLOSED then signal_tcb i;; mret TCP_ERR_NOCONN
  else if (state =? TCP_CLOSEWT) && (tc_icount t >? 0) then mret OK
  else if (state =? TCP_CLOSEWT) || (state =? TCP_CLOSING) || (state =? TCP_LASTACK) || (state =? TCP_TIMEWT) then
    signal_tcb i;; mret TCP_ERR_CLOSING
  else mret OK.

(** The start of the ring moves past an octet that was read. *)
Definition ring_take (t : tcb) : tcb :=
  let t := set_tc_imark (<[tc_istart t := false]> (tc_imark t)) t in
  let t := set_tc_istart (u32 (tc_istart t + 1) mod TCP_IBLEN) t in
  set_tc_icount (u32 (tc_icount t - 1)) t.

(** The inner loop, whose state is [count]. *)
Definition read_cond (i len count : Z) : nprog bool := t ← tcbx i; mret ((tc_icount t >? 0) && (count <? len)).
Definition read_body (i buf count : Z) : nprog Z :=
  t ← tcbx i;
  match tc_in t !! tc_istart t with
  | None => fault
  | Some c => ucall (stb (buf + count) c);; amend_tcb i ring_take;; mret (count + 1)
  end.

(** One round of the outer loop; a failed check leaves it. *)
Definition read_round (minor buf len : Z) (_ : Z) (count : Z) : nprog (Z + Z) :=
  if negb (count <? len) then mret (inr (i32 count)) else
  t ← tcbx minor;
  kcall (wait (tc_readers t));;
  wait_tcb minor;;
  check ← read_check minor;
  if negb (check =? OK) then mret (inr SYSERR) else
  count ← while_ (S (Z.to_nat len)) (read_cond minor len) (read_body minor buf) count;
  t ← tcbx minor;
  (if tc_icount t >? 0 then
     n ← kcall (semcount (tc_readers t));
     if n <? 1 then kcall (signal (tc_readers t));; mret tt else mret tt
   else mret tt);;
  signal_tcb minor;;
  mret (inl count).

(** A thread that waits for input can be woken any number of times without any, so the
    rounds of the loop have no bound; [rounds] is how many are followed. *)
Definition tcpRead (rounds : nat) (minor buf len : Z) : nprog Z :=
  wait_tcb minor;;
  check ← read_check minor;
  if negb (check =? OK) then mret SYSERR else
  signal_tcb minor;;
  r ← for_ rounds 0 (read_round minor buf len) 0;
  match r with inr v => mret v | inl _ => diverge end.

(** The variable [ch] of [tcpGetc] is at [ch_addr], as that of [tcpPutc]. *)
Definition tcpGetc (rounds : nat) (ch_addr minor : Z) : nprog Z :=
  result ← tcpRead rounds minor ch_addr 1;
  if negb (result =? 1) then mret result else ucall (ldb ch_addr).

(** ** Writing *)

(** The [stateCheck] of tcpWrite.c. *)
Definition write_check (i : Z) : nprog Z :=
  t ← tcbx i;
  let state := tc_state t in
  if state =? TCP_CLOSED then signal_tcb i;; mret TCP_ERR_NOCONN
  else if state =? TCP_LISTEN then
    failed ← (if negb (tc_remotept t =? NULL) && negb (na_type (tc_remoteip t) =? NULL) then
        amend_tcb i (set_tc_state TCP_SYNSENT);;
        r ← tcpOpenActive i;
        if negb (r =? OK) then signal_tcb i;; mret true else
        t ← tcbx i;
        (if has (tc_sndflg t) TCP_FLG_SYN then tcpSendSyn devtab i;; mret tt else mret tt);;
        mret false
      else mret false);
    if (failed : bool) then mret SYSERR else
    signal_tcb i;; mret TCP_ERR_NOSPEC
  else if (state =? TCP_FINWT1) || (state =? TCP_FINWT2) || (state =? TCP_CLOSING) || (state =? TCP_LASTACK) || (state =? TCP_TIMEWT) then
    signal_tcb i;; mret TCP_ERR_CLOSING
  else mret OK.

(** An octet at the end of the output ring. *)
Definition ring_add (ch : Z) (t : tcb) : tcb :=
  let t := set_tc_out (<[u32 (tc_ostart t + tc_ocount t) mod TCP_OBLEN := ch]> (tc_out t)) t in
  set_tc_ocount (u32 (tc_ocount t + 1)) t.

Definition write_cond (i len count : Z) : nprog bool := t ← tcbx i; mret ((tc_ocount t <? TCP_OBLEN) && (count <? len)).
Definition write_body (i buf count : Z) : nprog Z :=
  ch ← ucall (ldb (buf + count)); amend_tcb i (ring_add ch);; mret (count + 1).

Definition write_round (minor buf len : Z) (_ : Z) (count : Z) : nprog (Z + Z) :=
  if negb (count <? len) then mret (inr (i32 count)) else
  t ← tcbx minor;
  kcall (wait (tc_writers t));;
  wait_tcb minor;;
  check ← write_check minor;
  if negb (check =? OK) then
    t ← tcbx minor; kcall (signal (tc_writers t));; mret (inr check)
  else
  count ← while_ (S (Z.to_nat len)) (write_cond minor len) (write_body minor buf) count;
  t ← tcbx minor;
  (if tc_ocount t <? TCP_OBLEN then kcall (signal (tc_writers t));; mret tt else mret tt);;
  t ← tcbx minor;
  (if (TCP_ESTAB =? tc_state t) || (TCP_CLOSEWT =? tc_state t) then tcpSendData devtab minor;; mret tt else mret tt);;
  signal_tcb minor;;
  mret (inl count).

Definition tcpWrite (rounds : nat) (minor buf len : Z) : nprog Z :=
  wait_tcb minor;;
  check ← write_check minor;
  if negb (check =? OK) then signal_tcb minor;; mret check else
  signal_tcb minor;;
  r ← for_ rounds 0 (write_round minor buf len) 0;
  match r with inr v => mret v | inl _ => diverge end.

Definition tcpPutc (rounds : nat) (ch_addr minor ch : Z) : nprog Z :=
  ucall (stb ch_addr ch);;
  ret ← tcpWrite rounds minor ch_addr 1;
  mret (if ret =? 1 then u8 ch else SYSERR).

(** ** The timer thread *)

Definition tcpTimerTrigger (type tcbptr : Z) : nprog unit :=
  if type =? TCP_EVT_TIMEWT then wait_tcb tcbptr;; tcpFree tcbptr;; mret tt
  else if type =? TCP_EVT_RXT then tcpSendRxt devtab tcbptr;; mret tt
  else if type =? TCP_EVT_PERSIST then tcpSendPersist devtab tcbptr;; mret tt
  else mret tt.

Definition calcElapsed (lastticks lasttime : Z) : nprog Z :=
  clkticks ← gets (fun w => clkticks (kern w));
  clktime ← gets (fun w => clktime (kern w));
  if u32 lasttime =? clktime then mret (i32 (clkticks - lastticks)) else
  ticks ← int (CLKTICKS_PER_SEC - lastticks);
  let ticks := i32 (ticks + (clktime - lasttime - 1) * CLKTICKS_PER_SEC) in
  mret (i32 (ticks + clkticks)).

(** [sizeof(struct tcpEvent) * TCP_NEVENTS] is the size of [3*NTCP] events and one
    octet, which is the member [used] of the last event. *)
Definition tcpTimer_start : nprog (Z * Z * Z) :=
  for_ (Z.to_nat (3 * NTCP)) 0 (fun k (_ : unit) => amend_evt k (fun _ => zero_event);; mret (inl tt : unit + unit)) tt;;
  amend_evt (3 * NTCP) (set_v_used false);;
  sem ← kcall (semcreate 1);
  modify (fun w => put_tcpst (set_g_tcpmutex sem (tcpst (own w))) w);;
  amend_evt TCP_EVT_HEAD (set_v_used true);;
  amend_evt TCP_EVT_HEAD (set_v_next None);;
  kcall ENTER_KERNEL_CRITICAL_SECTION;;
  lastticks ← gets (fun w => clkticks (kern w));
  lasttime ← gets (fun w => clktime (kern w));
  kcall EXIT_KERNEL_CRITICAL_SECTION;;
  kcall (sleep TCP_FREQ);;
  mret (lastticks, lasttime, 0).

(** The inner loop: the events that are due; its state is [first]. *)
Definition due_cond (first : option Z) : nprog bool :=
  match first with None => mret false | Some c => e ← evt c; mret (v_remain e <=? 0) end.
Definition due_body (first : option Z) : nprog (option Z) :=
  match first with
  | None => fault
  | Some c =>
      e ← evt c;
      amend_evt c (set_v_used false);;
      amend_evt TCP_EVT_HEAD (set_v_next (v_next e));;
      signal_events;;
      match v_tcbptr e with None => fault | Some i => tcpTimerTrigger (v_type e) i end;;
      wait_events;;
      head ← evt TCP_EVT_HEAD;
      mret (v_next head)
  end.

(** The outer loop, whose state is [elapse]. *)
Definition elapse_body (rounds : nat) (_ : Z) (elapse : Z) : nprog (Z + Z) :=
  head ← evt TCP_EVT_HEAD;
  match v_next head with
  | None => mret (inr elapse)
  | Some first =>
      if negb (elapse >? 0) then mret (inr elapse) else
      e ← evt first;
      if u32 (v_remain e) >? elapse then
        amend_evt first (set_v_remain (i32 (v_remain e - elapse)));; mret (inr elapse)
      else
      let elapse := u32 (elapse - v_remain e) in
      amend_evt first (set_v_remain 0);;
      while_ rounds due_cond due_body (Some first);;
      mret (inl elapse)
  end.

(** One round of the endless loop; the state is [(lastticks, lasttime, elapse)].  The
    events that are triggered can schedule others, so its loops have no bound of their
    own; [rounds] is how many of their rounds are followed. *)
Definition tcpTimer_body (rounds : nat) (st : Z * Z * Z) : nprog (Z * Z * Z) :=
  let '(lastticks, lasttime, elapse) := st in
  wait_events;;
  r ← for_ rounds 0 (elapse_body rounds) elapse;
  (match r with inr _ => mret tt | inl _ => diverge end);;
  signal_events;;
  kcall ENTER_KERNEL_CRITICAL_SECTION;;
  calcElapsed (i32 lastticks) (i32 lasttime);;
  kcall EXIT_KERNEL_CRITICAL_SECTION;;
  kcall (sleep TCP_FREQ);;
  kcall ENTER_KERNEL_CRITICAL_SECTION;;
  elapse ← calcElapsed (i32 lastticks) (i32 lasttime);
  lastticks ← gets (fun w => clkticks (kern w));
  lasttime ← gets (fun w => clktime (kern w));
  kcall EXIT_KERNEL_CRITICAL_SECTION;;
  mret (lastticks, lasttime, u32 elapse).
End TcpDev.

(** ** Local ports *)

Section TcpPort.
Context {H : Type} (us : list tcb).

Definition TCP_NPORTS : Z := TCP_PMAX - TCP_PSTART.

(** The control blocks. *)
Definition tcp_sockets (w : dst (net H)) : Prop :=
  length us = 7%nat /\ forall i, g_tcptab (tcpst (own w)) !! Z.of_nat i = us !! i.

Lemma run_tcp_port_body i u (w : dst (net H)) : us !! i = Some u -> tcp_sockets w ->
  run (tcp_port_body (Z.of_nat i)) w =
    if tcp_port_taken u (g_nextport (tcpst (own w))) then Done 1 (put_tcp_nextport ((g_nextport (tcpst (own w)) + 1) mod TCP_NPORTS) w)
    else Done (Z.of_nat i + 1) w.
Proof.
  intros Hu [_ Hs]. unfold tcp_port_body, tcbx. rewrite run_bind, (run_load _ _ u) by (rewrite Hs; done). cbn [obind].
  rewrite run_bind, run_gets. cbn [obind]. destruct (tcp_port_taken u _); [| done].
  rewrite run_bind, run_modify. cbn [obind]. rewrite run_ret. unfold next_tcp_port. fold TCP_NPORTS.
  rewrite u16_small; [done |]. assert (0 < TCP_NPORTS) by done. assert (TCP_NPORTS < 2 ^ 16) by done. lia.
Qed.

(** The values of [nextport] that stand for a port that is taken. *)
Definition tcp_blocked : list Z := (fun t => tc_localpt t - TCP_PSTART) <$> us.

Lemma tcp_taken_blocked i u p : us !! i = Some u -> tcp_port_taken u p = true -> p ∈ tcp_blocked.
Proof.
  intros Hu Ht. apply andb_true_iff in Ht as [_ Ht]. apply Z.eqb_eq in Ht.
  apply list_elem_of_fmap. exists u. split; [lia | by eapply list_elem_of_lookup_2].
Qed.

(** C29: A local port is always found, and no open connection but that of the first control
    block has it; that one has it only when another port was tried before. *)
Theorem tcp_allocPort_free (w : dst (net H)) : tcp_sockets w -> 0 <= g_nextport (tcpst (own w)) < TCP_NPORTS ->
  exists q, run tcp_allocPort w = Done (q + TCP_PSTART) (put_tcp_nextport q w) /\ 0 <= q < TCP_NPORTS /\
    (forall j t, (1 <= j)%nat -> us !! j = Some t -> tc_state t <> TCP_CLOSED -> tc_localpt t <> q + TCP_PSTART) /\
    (q = (g_nextport (tcpst (own w)) + 1) mod TCP_NPORTS -> forall t, us !! 0%nat = Some t -> tc_state t <> TCP_CLOSED -> tc_localpt t <> q + TCP_PSTART).
Proof.
  intros Hs Hn. pose proof (proj1 Hs) as Hlen. set (p0 := (g_nextport (tcpst (own w)) + 1) mod TCP_NPORTS).
  assert (Hp0 : 0 <= p0 < TCP_NPORTS) by by apply Z.mod_pos_bound.
  assert (HN : 0 < TCP_NPORTS /\ TCP_NPORTS + TCP_PSTART < 2 ^ 16) by done.
  assert (Enext : next_tcp_port (g_nextport (tcpst (own w))) = p0).
  { unfold next_tcp_port. fold TCP_NPORTS. apply u16_small. fold p0. unfold TCP_PSTART in *. lia. }
  assert (Hnot : forall q t, tcp_port_taken t q = false -> tc_state t <> TCP_CLOSED -> tc_localpt t <> q + TCP_PSTART).
  { intros q t Ht Hc. unfold tcp_port_taken in Ht. apply andb_false_iff in Ht as [Ht | Ht]; [apply negb_false_iff, Z.eqb_eq in Ht; done | by apply Z.eqb_neq in Ht]. }
  destruct (port_found us TCP_NPORTS tcp_port_taken tcp_blocked tcp_sockets (fun w => g_nextport (tcpst (own w))) put_tcp_nextport tcp_port_body)
    with (fuel := TCP_PORT_FUEL) (s := put_tcp_nextport p0 w) as (q & E & Hq & Hfree & Hfirst); try done.
  - unfold tcp_blocked. rewrite length_fmap, Hlen. unfold TCP_NPORTS, TCP_PMAX, TCP_PSTART. lia.
  - exact tcp_taken_blocked.
  - intros v. by destruct v as [? ? [? ? ? ? ? ? ? ? ? ? ? ? ? ? []]].
  - intros i u v Hu Hv. by apply run_tcp_port_body.
  - by destruct us.
  - unfold tcp_blocked, TCP_PORT_FUEL. rewrite length_fmap, Hlen. lia.
  - rewrite Hlen in E. exists q. split; [| split; [done |]].
    + unfold tcp_allocPort. rewrite run_bind, run_gets. cbn [obind]. rewrite run_bind, run_modify. cbn [obind].
      rewrite Enext. change NTCP with (Z.of_nat 7). rewrite run_bind, E. cbn [obind]. rewrite run_bind, run_gets. cbn [obind]. rewrite run_ret.
      change (g_nextport (tcpst (own (put_tcp_nextport q (put_tcp_nextport p0 w))))) with q.
      rewrite u16_small by (unfold TCP_PSTART in *; lia). done.
    + split; [intros j t Hj Ht; by eapply Hnot, Hfree | intros Eq t Ht; by eapply Hnot, Hfirst].
Qed.
End TcpPort.

(** The entry that [tcp_Install] makes; [netdevs] are the devices that segments are sent
    on. *)
Definition tcp_entry {H} (netdevs : gmap Z (device (net H))) (rounds : nat) (ch_addr devnum name n : Z) : device (net H) :=
  mkDevice devnum n name (Some tcpInit) (Some (tcpOpen netdevs devnum)) (Some (tcpClose netdevs)) (Some (tcpRead rounds))
    (Some (tcpWrite netdevs rounds)) None (Some (tcpGetc rounds ch_addr)) (Some (tcpPutc netdevs rounds ch_addr))
    (Some tcpControl) 0 0 0.
Definition tcp_Install {H} (netdevs devtab : gmap Z (device (net H))) (rounds : nat) (ch_addr devnum name n : Z) : dprog (net H) (gmap Z (device (net H))) :=
  match install devtab devnum (tcp_entry netdevs rounds ch_addr devnum name n) with
  | None => fault
  | Some devtab => mret devtab
  end.
