(* ===== verification/TcpRing.v ===== *)
(** The rings of a connection: what is written goes into segments, and what segments bring
    is read, octet by octet and in order. *)
From Stdlib Require Import ZArith Lia.
From stdpp Require Import sorting gmap functions list.
From S2P Require Import Prelude Ports Kernel Queue QueueFacts Sched Semaphore Clock Message Memory Boot Frame Thread BufPool Bytes Device DevTab Chksum Netaddr Tcb Net Wire Snoop Route Arp Ipv4 Udp TcpTimer Tcp TcpRecv TcpDev.

(** Both rings have the same size. *)
Definition CAP : Z := TCP_IBLEN.

(** The octets [l] are in the ring from the place [start] on. *)
Definition holds_from (tab : gmap Z Z) (start : Z) (l : list Z) : Prop :=
  forall k c, l !! k = Some c -> tab !! ((start + Z.of_nat k) mod CAP) = Some c.

Lemma cap_pos : 0 < CAP.
Proof. done. Qed.

Lemma holds_from_app tab start l1 l2 :
  holds_from tab start (l1 ++ l2) <-> holds_from tab start l1 /\ holds_from tab (start + Z.of_nat (length l1)) l2.
Proof.
  split.
  - intros H. split; intros k c Hk.
    + apply H. by apply lookup_app_l_Some.
    + replace (start + Z.of_nat (length l1) + Z.of_nat k) with (start + Z.of_nat (length l1 + k)) by lia.
      apply H. rewrite lookup_app_r by lia. by replace (length l1 + k - length l1)%nat with k by lia.
  - intros [H1 H2] k c Hk. apply lookup_app_Some in Hk as [Hk | [Hle Hk]]; [by apply H1 |].
    apply H2 in Hk. by replace (start + Z.of_nat (length l1) + Z.of_nat (k - length l1)) with (start + Z.of_nat k) in Hk by lia.
Qed.

Lemma holds_from_mod tab start l : holds_from tab (start mod CAP) l <-> holds_from tab start l.
Proof. split; intros H k c Hk; apply H in Hk; by rewrite Zplus_mod_idemp_l in *. Qed.

(** An octet put behind the others. *)
Lemma holds_from_snoc tab start l c : Z.of_nat (length l) < CAP -> holds_from tab start l ->
  holds_from (<[(start + Z.of_nat (length l)) mod CAP := c]> tab) start (l ++ [c]).
Proof.
  intros Hl H. apply holds_from_app. split.
  - intros k x Hk. apply lookup_lt_Some in Hk as Hlt. rewrite lookup_insert_ne; [by apply H |].
    rewrite <- !(Zplus_mod_idemp_l start). apply ring_ne; lia || apply cap_pos || (try apply Z.mod_pos_bound, cap_pos).
  - intros k x Hk. destruct k; [| done]. injection Hk as <-. rewrite Z.add_0_r. apply lookup_insert_eq.
Qed.

Section Ring.
Context {H : Type} (i : Z).
Implicit Types w : dst (net H).

Definition tcbs w : gmap Z tcb := g_tcptab (tcpst (own w)).

Lemma run_tcbx t w : tcbs w !! i = Some t -> run (tcbx i) w = Done t w.
Proof. apply (run_load (fun w : dst (net H) => g_tcptab (tcpst (own w)))). Qed.
Lemma run_amend_tcb f t w : tcbs w !! i = Some t -> run (amend_tcb i f) w = Done tt (put_tcptab (<[i := f t]> (tcbs w)) w).
Proof. apply (run_amend (fun w : dst (net H) => g_tcptab (tcpst (own w))) put_tcptab). Qed.

(** The state with another control block for the connection. *)
Definition put_tcb (t : tcb) w : dst (net H) := put_tcptab (<[i := t]> (tcbs w)) w.

Lemma put_tcb_put t t' w : put_tcb t (put_tcb t' w) = put_tcb t w.
Proof. unfold put_tcb, tcbs. cbn. by rewrite insert_insert_eq. Qed.
Lemma tcbs_put t w : tcbs (put_tcb t w) !! i = Some t.
Proof. apply lookup_insert_eq. Qed.

(** ** Output *)

(** The output ring holds [l]. *)
Record outq (t : tcb) (l : list Z) : Prop := {
  oq_start : 0 <= tc_ostart t < CAP;
  oq_count : tc_ocount t = Z.of_nat (length l);
  oq_size : Z.of_nat (length l) <= CAP;
  oq_data : holds_from (tc_out t) (tc_ostart t) l
}.

Lemma outq_add t l c : outq t l -> Z.of_nat (length l) < CAP -> outq (ring_add c t) (l ++ [c]).
Proof.
  intros [H1 H2 H3 H4] Hl. assert (Hcap : CAP = 16384) by done.
  split; unfold ring_add; cbn [set_tc_out set_tc_ocount tc_ostart tc_ocount tc_out].
  - done.
  - rewrite length_app, H2, u32_small by lia. cbn. lia.
  - rewrite length_app. cbn. lia.
  - rewrite u32_small by lia. rewrite H2. by apply holds_from_snoc.
Qed.

Lemma run_write_body buf count c t w : tcbs w !! i = Some t -> user w !! (buf + count) = Some c -> isbyte c ->
  run (write_body i buf count) w = Done (count + 1) (put_tcb (ring_add c t) w).
Proof.
  intros Ht Hc Hb. unfold write_body. rewrite run_bind, (run_ucall _ _ c (user w)) by by apply run_ldb. cbn [obind]. rewrite dst_eta.
  rewrite run_bind, (run_amend_tcb _ t) by done. cbn [obind]. by rewrite run_ret.
Qed.

Lemma run_write_cond len count t w : tcbs w !! i = Some t ->
  run (write_cond i len count) w = Done ((tc_ocount t <? TCP_OBLEN) && (count <? len)) w.
Proof. intros Ht. unfold write_cond. by rewrite run_bind, (run_tcbx t) by done. Qed.

(** What the octets [l] make of the ring, one after the other. *)
Definition ring_adds (l : list Z) (t : tcb) : tcb := foldl (fun t c => ring_add c t) t l.

Lemma run_write_loop len bs : forall fuel buf count t l w,
  (length bs < fuel)%nat -> tcbs w !! i = Some t -> outq t l -> bytes_at (user w) (buf + count) bs -> Forall isbyte bs ->
  count + Z.of_nat (length bs) = len ->
  let n := Z.min (Z.of_nat (length bs)) (CAP - Z.of_nat (length l)) in
  run (while_ fuel (write_cond i len) (write_body i buf) count) w =
    Done (count + n) (put_tcb (ring_adds (take (Z.to_nat n) bs) t) w) /\
  outq (ring_adds (take (Z.to_nat n) bs) t) (l ++ take (Z.to_nat n) bs).
Proof.
  induction bs as [|c bs IH]; intros fuel buf count t l w Hf Ht Hq Hb Hbs Hlen n; (destruct fuel as [|fuel]; [cbn in Hf; lia |]);
    pose proof (oq_size _ _ Hq) as Hsz; rewrite run_while_S, (run_write_cond _ _ t) by done; cbn [obind].
  - replace (count <? len) with false by (cbn in Hlen; lia). rewrite andb_false_r, run_ret.
    assert (n = 0) as -> by (cbn in n; lia). rewrite app_nil_r, Z.add_0_r. split; [| done].
    unfold put_tcb. cbn. rewrite insert_id by done. by destruct w as [? ? [? ? ? ? ? ? ? ? ? ? ? ? ? ? []]].
  - cbn [length] in *. replace (count <? len) with true by lia. rewrite andb_true_r, (oq_count _ _ Hq). change TCP_OBLEN with CAP.
    destruct (Z.ltb_spec (Z.of_nat (length l)) CAP) as [Hlt | Hge].
    + apply bytes_at_cons in Hb as [Hc Hb]. apply Forall_cons in Hbs as [Hc' Hbs].
      rewrite run_bind, (run_write_body _ _ c t) by done. cbn [obind]. set (n' := Z.min (Z.of_nat (length bs)) (CAP - Z.of_nat (length (l ++ [c])))).
      assert (Hn : Z.to_nat n = S (Z.to_nat n')) by (unfold n, n'; rewrite length_app; cbn [length]; lia).
      rewrite Hn. cbn [take ring_adds foldl].
      destruct (IH fuel buf (count + 1) (ring_add c t) (l ++ [c]) (put_tcb (ring_add c t) w)) as [E Hq']; try done; try lia.
      { apply tcbs_put. }
      { by apply outq_add. }
      { by replace (buf + (count + 1)) with (buf + count + 1) by lia. }
      fold n' in E, Hq'. rewrite E, put_tcb_put, <- app_assoc in *. split; [| done]. f_equal. unfold n, n'. rewrite length_app. cbn [length]. lia.
    + rewrite run_ret. assert (n = 0) as -> by (unfold n; lia). rewrite app_nil_r, Z.add_0_r. split; [| done].
      unfold put_tcb. cbn. rewrite insert_id by done. by destruct w as [? ? [? ? ? ? ? ? ? ? ? ? ? ? ? ? []]].
Qed.

(** C10: The loop of [tcpWrite] puts octets of the buffer behind those in the ring, as many
    as there are and as there is room for, and counts them. *)
Theorem write_ring buf bs t l w : tcbs w !! i = Some t -> outq t l -> bytes_at (user w) buf bs -> Forall isbyte bs ->
  let n := Z.min (Z.of_nat (length bs)) (CAP - Z.of_nat (length l)) in
  let len := Z.of_nat (length bs) in
  exists t', run (while_ (S (Z.to_nat len)) (write_cond i len) (write_body i buf) 0) w = Done n (put_tcb t' w) /\
    outq t' (l ++ take (Z.to_nat n) bs).
Proof.
  intros Ht Hq Hb Hbs n len.
  destruct (run_write_loop len bs (S (Z.to_nat len)) buf 0 t l w) as [E Hq']; try done; [lia | by rewrite Z.add_0_r |].
  eexists. split; [exact E | exact Hq'].
Qed.

Lemma run_out_body data start k c t w : tcbs w !! i = Some t -> tc_out t !! (u32 (start + k) mod TCP_OBLEN) = Some c -> isbyte c ->
  is_Some (user w !! (data + k)) ->
  run (out_body i data start k tt) w = Done (inl tt) (set_user (<[data + k := c]> (user w)) w).
Proof.
  intros Ht Hc Hb Hm. unfold out_body. rewrite run_bind, (run_tcbx t) by done. cbn [obind]. rewrite Hc.
  rewrite run_bind, (run_ucall _ _ tt (<[data + k := c]> (user w))) by (rewrite run_stb by done; by rewrite u8_small). done.
Qed.

Lemma run_out_loop d : forall data start k t w, tcbs w !! i = Some t -> 0 <= start -> start + k + Z.of_nat (length d) <= 2 ^ 32 -> 0 <= k ->
  holds_from (tc_out t) (start + k) d -> Forall isbyte d -> mapped (user w) (data + k) (Z.of_nat (length d)) ->
  run (for_ (length d) k (out_body i data start) tt) w = Done (inl tt) (set_user (poke (data + k) d (user w)) w).
Proof.
  induction d as [|c d IH]; intros data start k t w Ht Hs Hu Hk Hd Hb Hm; cbn [length for_ poke] in *.
  - rewrite run_ret. by destruct w.
  - apply Forall_cons in Hb as [Hc Hb]. rewrite run_bind, (run_out_body data start k c t); try done.
    2: { rewrite u32_small by lia. pose proof (Hd 0%nat c eq_refl) as H0. by rewrite Z.add_0_r in H0. }
    2: { replace (data + k) with (data + k + 0) by lia. apply Hm. lia. }
    cbn [obind].
    rewrite (IH data start (k + 1) t); cbn [user own kern]; try done; try lia.
    + unfold set_user. cbn. by replace (data + (k + 1)) with (data + k + 1) by lia.
    + apply (holds_from_app _ _ [c] d) in Hd as [_ Hd]. cbn in Hd. by replace (start + (k + 1)) with (start + k + 1) by lia.
    + apply (mapped_poke _ _ [c]). intros j Hj. replace (data + (k + 1) + j) with (data + k + (1 + j)) by lia. apply Hm. lia.
Qed.

(** A segment that starts [off] octets into the ring carries the octets that were
    written there. *)
Theorem segment_data data off n t l w : tcbs w !! i = Some t -> outq t l -> Forall isbyte l ->
  Z.of_nat (off + n) <= Z.of_nat (length l) -> mapped (user w) data (Z.of_nat n) ->
  run (for_ n 0 (out_body i data (u32 (tc_ostart t + Z.of_nat off) mod TCP_OBLEN)) tt) w =
    Done (inl tt) (set_user (poke data (take n (drop off l)) (user w)) w).
Proof.
  intros Ht [H1 H2 H3 H4] Hb Hn Hm. set (d := take n (drop off l)).
  assert (Hlen : length d = n) by (unfold d; rewrite length_take, length_drop; lia). assert (Hcap : CAP = 16384) by done.
  change TCP_OBLEN with CAP. rewrite u32_small by lia. pose proof (Z.mod_pos_bound (tc_ostart t + Z.of_nat off) CAP cap_pos).
  rewrite <- Hlen. replace (set_user (poke data d (user w)) w) with (set_user (poke (data + 0) d (user w)) w) by (by rewrite Z.add_0_r).
  apply (run_out_loop d _ _ 0 t); try done; try lia.
  - rewrite Z.add_0_r. apply holds_from_mod. rewrite <- (take_drop off l) in H4. apply holds_from_app in H4 as [_ H4].
    rewrite length_take in H4. replace (off `min` length l)%nat with off in H4 by lia.
    rewrite <- (take_drop n (drop off l)) in H4. by apply holds_from_app in H4 as [H4 _].
  - unfold d. by apply Forall_take, Forall_drop.
  - by rewrite Z.add_0_r, Hlen.
Qed.

(** ** Input *)

(** The input ring holds [l], and nothing that came before its time is marked behind. *)
Record inq (t : tcb) (l : list Z) : Prop := {
  iq_start : 0 <= tc_istart t < CAP;
  iq_count : tc_icount t = Z.of_nat (length l);
  iq_size : Z.of_nat (length l) <= CAP;
  iq_next : tc_inxt t = (tc_istart t + Z.of_nat (length l)) mod CAP;
  iq_data : holds_from (tc_in t) (tc_istart t) l
}.

Lemma inq_take t c l : inq t (c :: l) -> inq (ring_take t) l.
Proof.
  intros [H1 H2 H3 H4 H5]. assert (Hcap : CAP = 16384) by done. cbn [length] in *.
  change TCP_IBLEN with CAP in *. split; unfold ring_take; cbn [set_tc_imark set_tc_istart set_tc_icount tc_istart tc_icount tc_inxt tc_in];
    change TCP_IBLEN with CAP; rewrite ?u32_small by lia.
  - apply Z.mod_pos_bound, cap_pos.
  - lia.
  - lia.
  - rewrite H4, Zplus_mod_idemp_l. f_equal. lia.
  - apply holds_from_mod. by apply (holds_from_app _ _ [c] l) in H5 as [_ H5].
Qed.

Lemma run_read_cond len count t w : tcbs w !! i = Some t ->
  run (read_cond i len count) w = Done ((tc_icount t >? 0) && (count <? len)) w.
Proof. intros Ht. unfold read_cond. by rewrite run_bind, (run_tcbx t) by done. Qed.

Lemma run_read_body buf count c l t w : tcbs w !! i = Some t -> inq t (c :: l) -> isbyte c -> is_Some (user w !! (buf + count)) ->
  run (read_body i buf count) w = Done (count + 1) (put_tcb (ring_take t) (set_user (<[buf + count := c]> (user w)) w)).
Proof.
  intros Ht [H1 H2 H3 H4 H5] Hc Hm. unfold read_body. rewrite run_bind, (run_tcbx t) by done. cbn [obind].
  pose proof (H5 0%nat c eq_refl) as H0. rewrite Z.add_0_r, Z.mod_small in H0 by done. rewrite H0.
  rewrite run_bind, (run_ucall _ _ tt (<[buf + count := c]> (user w))) by (rewrite run_stb by done; by rewrite u8_small). cbn [obind].
  rewrite run_bind, (run_amend_tcb _ t) by done. cbn [obind]. by rewrite run_ret.
Qed.

Lemma run_read_loop len l : forall fuel buf count t w,
  (Z.to_nat (len - count) < fuel)%nat -> 0 <= count <= len -> tcbs w !! i = Some t -> inq t l -> Forall isbyte l -> mapped (user w) (buf + count) (len - count) ->
  let n := Z.min (Z.of_nat (length l)) (len - count) in
  exists t', run (while_ fuel (read_cond i len) (read_body i buf) count) w =
      Done (count + n) (put_tcb t' (set_user (poke (buf + count) (take (Z.to_nat n) l) (user w)) w)) /\
    inq t' (drop (Z.to_nat n) l).
Proof.
  induction l as [|c l IH]; intros fuel buf count t w Hf Hcnt Ht Hq Hb Hm n; (destruct fuel as [|fuel]; [lia |]);
    rewrite run_while_S, (run_read_cond _ _ t) by done; cbn [obind]; rewrite (iq_count _ _ Hq).
  - assert (n = 0) as -> by (unfold n; cbn [length]; lia). cbn [length]. change (Z.of_nat 0 >? 0) with false. cbn [andb]. rewrite run_ret, Z.add_0_r. exists t. split; [| done].
    cbn. unfold put_tcb. cbn. rewrite insert_id by done. by destruct w as [? ? [? ? ? ? ? ? ? ? ? ? ? ? ? ? []]].
  - cbn [length] in *. rewrite Z.gtb_ltb. replace (0 <? Z.of_nat (S (length l))) with true by (symmetry; apply Z.ltb_lt; lia). cbn [andb]. destruct (Z.ltb_spec count len) as [Hlt | Hge].
    + apply Forall_cons in Hb as [Hc Hb].
      rewrite run_bind, (run_read_body _ _ c l t) by (try done; replace (buf + count) with (buf + count + 0) by lia; apply Hm; lia). cbn [obind].
      set (n' := Z.min (Z.of_nat (length l)) (len - (count + 1))). assert (Hn : Z.to_nat n = S (Z.to_nat n')) by (unfold n, n'; lia).
      rewrite Hn. cbn [take drop poke].
      destruct (IH fuel buf (count + 1) (ring_take t) (put_tcb (ring_take t) (set_user (<[buf + count := c]> (user w)) w))) as (t' & E & Hq'); try done; try lia.
      { apply tcbs_put. }
      { by eapply inq_take. }
      { apply (mapped_poke _ _ [c]). intros j Hj. replace (buf + (count + 1) + j) with (buf + count + (1 + j)) by lia. apply Hm. lia. }
      fold n' in E, Hq'. exists t'. rewrite E. split; [| done]. replace (count + 1 + n') with (count + n) by (unfold n, n'; lia).
      replace (buf + (count + 1)) with (buf + count + 1) by lia. f_equal. unfold put_tcb, tcbs. cbn. by rewrite insert_insert_eq.
    + rewrite run_ret. assert (n = 0) as -> by (unfold n; lia). rewrite Z.add_0_r. exists t. split; [| done].
      cbn. unfold put_tcb. cbn. rewrite insert_id by done. by destruct w as [? ? [? ? ? ? ? ? ? ? ? ? ? ? ? ? []]].
Qed.

(** C11: The loop of [tcpRead] takes the first octets of the ring to the buffer, as many as
    were asked for and there are, and leaves the others. *)
Theorem read_ring buf len t l w : tcbs w !! i = Some t -> inq t l -> Forall isbyte l -> 0 <= len -> mapped (user w) buf len ->
  let n := Z.min (Z.of_nat (length l)) len in
  exists t', run (while_ (S (Z.to_nat len)) (read_cond i len) (read_body i buf) 0) w =
      Done n (put_tcb t' (set_user (poke buf (take (Z.to_nat n) l) (user w)) w)) /\
    inq t' (drop (Z.to_nat n) l).
Proof.
  intros Ht Hq Hb Hl Hm n.
  destruct (run_read_loop len l (S (Z.to_nat len)) buf 0 t w) as (t' & E & Hq'); try done; try lia.
  { by rewrite Z.add_0_r, Z.sub_0_r. }
  rewrite Z.add_0_r, Z.sub_0_r in *. by exists t'.
Qed.

(** ** A segment that is next *)

Lemma run_in_loop d : forall data start k t l a w, tcbs w !! i = Some t -> 0 <= start -> 0 <= k -> start + k + Z.of_nat (length d) <= 2 ^ 32 ->
  (start + k) mod CAP = (a + Z.of_nat (length l)) mod CAP -> Z.of_nat (length l + length d) <= CAP ->
  holds_from (tc_in t) a l -> bytes_at (user w) (data + k) d ->
  exists tab im, run (for_ (length d) k (in_body i data start) tt) w = Done (inl tt) (put_tcb (set_tc_imark im (set_tc_in tab t)) w) /\
    holds_from tab a (l ++ d) /\
    forall j, (forall m, 0 <= m < Z.of_nat (length d) -> j <> (start + k + m) mod CAP) -> im !! j = tc_imark t !! j.
Proof.
  induction d as [|c d IH]; intros data start k t l a w Ht Hs Hk Hu Hmod Hl Hh Hb; cbn [length for_] in *.
  - exists (tc_in t), (tc_imark t). rewrite run_ret, app_nil_r. split; [| done]. unfold put_tcb.
    replace (set_tc_imark (tc_imark t) (set_tc_in (tc_in t) t)) with t by (by destruct t). rewrite insert_id by done.
    by destruct w as [? ? [? ? ? ? ? ? ? ? ? ? ? ? ? ? []]].
  - apply bytes_at_cons in Hb as [Hc Hb]. rewrite run_bind. unfold in_body at 2.
    rewrite run_bind, (run_ucall _ _ c (user w)) by by apply run_ldb. cbn [obind]. rewrite dst_eta.
    rewrite run_bind, (run_amend_tcb _ t) by done. cbn [obind]. rewrite run_ret. cbn [obind].
    rewrite u32_small by lia. change TCP_IBLEN with CAP.
    destruct (IH data start (k + 1) (ring_put ((start + k) mod CAP) c t) (l ++ [c]) a (put_tcb (ring_put ((start + k) mod CAP) c t) w))
      as (tab & im & E & H1 & H2); try lia.
    { apply tcbs_put. }
    { rewrite length_app. cbn. replace (start + (k + 1)) with (start + k + 1) by lia. rewrite <- Zplus_mod_idemp_l, Hmod, Zplus_mod_idemp_l. f_equal. lia. }
    { rewrite length_app. cbn. lia. }
    { cbn. rewrite Hmod. apply holds_from_snoc; [lia | done]. }
    { cbn. by replace (data + (k + 1)) with (data + k + 1) by lia. }
    exists tab, im. unfold put_tcb in E at 1 |- *. rewrite E, put_tcb_put, <- app_assoc in *. split; [done |]. split; [done |].
    intros j Hj. rewrite H2.
    + cbn. apply lookup_insert_ne. intros <-. apply (Hj 0); [lia | by rewrite Z.add_0_r].
    + intros m Hm. replace (start + (k + 1) + m) with (start + k + (1 + m)) by lia. apply Hj. lia.
Qed.

(** The header of a segment at [tcp]: its number and the length of its header. *)
Definition header (m : bytemem) (tcp seqnum offset : Z) : Prop :=
  run (ldl (tcp + T_SEQ)) m = Done seqnum m /\ m !! (tcp + T_OFFSET) = Some offset.

(** The next octet is missing, or the ring is full. *)
Definition gap_behind (t : tcb) (n : Z) : Prop :=
  tc_icount t + n = CAP \/ tc_imark t !! ((tc_inxt t + n) mod CAP) = Some false.

Lemma run_segment_next t w : run (seqlt (tc_rcvnxt t) (tc_rcvnxt t)) w = Done false w.
Proof. unfold seqlt. rewrite Z.sub_diag, run_bind, run_int by (unfold INT_MIN, INT_MAX; lia). done. Qed.

Lemma tcpSeqdiff_same a : tcpSeqdiff a a = 0.
Proof. unfold tcpSeqdiff. rewrite Z.sub_diag. repeat case_match; [lia.. | done]. Qed.

Lemma inq_advance t l d tab im : inq t l -> Z.of_nat (length l + length d) <= CAP -> holds_from tab (tc_istart t) (l ++ d) ->
  inq (ring_advance (Z.of_nat (length d)) (set_tc_imark im (set_tc_in tab t))) (l ++ d).
Proof.
  intros [H1 H2 H3 H4 H5] Hl Hh. assert (Hcap : CAP = 16384) by done.
  split; unfold ring_advance; cbn [set_tc_imark set_tc_in set_tc_icount set_tc_ibytes set_tc_inxt set_tc_rcvnxt tc_istart tc_icount tc_inxt tc_in];
    rewrite ?length_app.
  - done.
  - rewrite H2, u32_small by lia. lia.
  - lia.
  - change TCP_IBLEN with CAP. rewrite H4, u32_small by lia. rewrite Zplus_mod_idemp_l. f_equal. lia.
  - done.
Qed.

(** The loop that looks for data that came before ends at once. *)
Lemma run_marked_loop tcp t w : tcbs w !! i = Some t -> gap_behind t 0 -> tc_inxt t mod CAP = tc_inxt t ->
  run (for_ (Z.to_nat TCP_IBLEN) 0 (marked_body i tcp) tt) w = Done (inr tt) w.
Proof.
  intros Ht Hg Hn. apply (for_exit (marked_body i tcp) tt w 0 (Z.to_nat TCP_IBLEN) 0 (fun _ => tt) (fun _ => w)); [unfold TCP_IBLEN; lia | lia |].
  unfold marked_body. rewrite run_bind, (run_tcbx t) by done. cbn [obind]. change TCP_IBLEN with CAP.
  destruct (Z.ltb_spec (tc_icount t) CAP) as [Hlt | Hge]; [| done].
  destruct Hg as [Hg | Hg]; [lia |]. rewrite Z.add_0_r, Hn in Hg. by rewrite Hg.
Qed.

Lemma tcpSeqdiff_bound a b : 0 <= tcpSeqdiff a b < 2 ^ 32.
Proof. unfold tcpSeqdiff. repeat case_match; apply u32_bound. Qed.

(** The ring after the segment is put in. *)
Lemma gap_after l (d : list Z) tab im t : inq t l -> Z.of_nat (length l + length d) <= CAP -> gap_behind t (Z.of_nat (length d)) ->
  (forall j, (forall m, 0 <= m < Z.of_nat (length d) -> j <> (tc_inxt t + 0 + m) mod CAP) -> im !! j = tc_imark t !! j) ->
  gap_behind (ring_advance (Z.of_nat (length d)) (set_tc_imark im (set_tc_in tab t))) 0.
Proof.
  intros [H1 H2 H3 H4 H5] Hl Hg Him. assert (Hcap : CAP = 16384) by done.
  unfold gap_behind, ring_advance in *; cbn [set_tc_imark set_tc_in set_tc_icount set_tc_ibytes set_tc_inxt set_tc_rcvnxt tc_icount tc_inxt tc_imark].
  change TCP_IBLEN with CAP. rewrite !Z.add_0_r, !u32_small by lia.
  destruct Hg as [Hg | Hg]; [by left |]. destruct (decide (Z.of_nat (length l + length d) = CAP)) as [He | Hne]; [left; lia | right].
  rewrite Zmod_mod, Him; [done |]. intros m Hm E. rewrite Z.add_0_r in E.
  apply (ring_ne CAP (tc_inxt t) m (Z.of_nat (length d))); lia.
Qed.

(** A reader is let in when none can go on. *)
Lemma run_let_in {A} (K : dprog (net H) A) sem c Q w : kinv (kern w) Q -> permits (kern w) sem c -> 0 <= c ->
  exists s, run (n ← kcall (semcount sem); (if n <? 1 then kcall (signal sem);; mret tt else mret tt);; K) w = run K (set_kern s w) /\
    kinv s Q /\ permits s sem (Z.max c 1).
Proof.
  intros HI Hp Hc. destruct (semcount_permit (kern w) Q sem c HI Hp) as (s & E & HI' & Hp' & _).
  rewrite run_bind, (run_kcall _ _ _ _ E). cbn [obind]. destruct (Z.ltb_spec c 1) as [Hlt | Hge].
  - destruct (signal_permit s Q sem c HI' Hp' ltac:(unfold INT_MAX; lia)) as (s' & E' & HI'' & Hp'' & _).
    rewrite !run_bind, (run_kcall (signal sem) (mkDst s (user w) (own w)) _ _ E'). cbn [obind]. rewrite run_ret.
    exists s'. split; [done |]. split; [done |]. by replace (Z.max c 1) with (c + 1) by lia.
  - rewrite run_bind, run_ret. exists s. split; [done |]. split; [done |]. by replace (Z.max c 1) with c by lia.
Qed.

End Ring.
