(* ===== verification/TcpSafe.v ===== *)
(** The states of a connection.  What a segment does to the state of its connection, with
    the mutex of the control block held: other threads run whenever the routines wait or
    signal, and do not change what the mutex protects. *)
From Stdlib Require Import ZArith Lia.
From stdpp Require Import sorting gmap functions list.
From S2P Require Import Prelude Kernel Queue QueueFacts Sched Semaphore Clock Message Memory Boot Frame Thread BufPool Bytes Device Rely DevTab Chksum Netaddr Tcb Net Wire Snoop Route Arp Ipv4 Udp TcpTimer Tcp TcpRecv TcpDev.

Section Safe.
Context {H : Type} (devtab : gmap Z (device (net H))) (i : Z).

(** What the mutex is used to protect here: the state of the connection, the number of
    its FIN, and the first octet that is not acknowledged. *)
Definition guarded (t : tcb) : Z * Z * Z := (tc_state t, tc_sndfin t, tc_snduna t).
Definition conn (w : dst (net H)) : option (Z * Z * Z) := guarded <$> g_tcptab (tcpst (own w)) !! i.
Definition conn_state (x : option (Z * Z * Z)) : option Z := fst ∘ fst <$> x.

(** The devices that segments are sent on do not touch the control blocks. *)
Definition apart_devices : Prop := forall Y (k : option (Z * Z * Z) -> Y) d a n, steady conn k (write devtab d a n).

Section Steady.
Context {Y : Type} (k : option (Z * Z * Z) -> Y).
Hypothesis Hdev : apart_devices.

Lemma steady_write d a n : steady conn k (write devtab d a n).
Proof. apply Hdev. Qed.
#[local] Hint Resolve steady_write : steady.

Lemma steady_amend_tcb j f : (forall t, k (Some (guarded (f t))) = k (Some (guarded t))) -> steady conn k (amend_tcb j f).
Proof.
  intros Hf w y E. apply wp_amend. intros t Ht. rewrite <- E. unfold conn. cbn.
  destruct (decide (i = j)) as [-> | Hne]; [rewrite lookup_insert_eq, Ht; apply Hf | by rewrite lookup_insert_ne].
Qed.
#[local] Hint Extern 1 (steady _ _ (amend_tcb _ _)) => apply steady_amend_tcb; intros; reflexivity : steady.

Lemma steady_netGetbuf : steady conn k netGetbuf.
Proof. keep. Qed.
Lemma steady_netFreebuf p : steady conn k (netFreebuf p).
Proof. keep. Qed.
#[local] Hint Resolve steady_netGetbuf steady_netFreebuf : steady.

Lemma steady_first_bytes n l : steady conn k (first_bytes n l).
Proof. keep. Qed.
Lemma steady_put_ip a addr : steady conn k (put_ip a addr).
Proof. keep. Qed.
Lemma steady_put_chksum a n : steady conn k (put_chksum a n).
Proof. keep. Qed.
#[local] Hint Resolve steady_first_bytes steady_put_ip steady_put_chksum : steady.

Lemma steady_snoopCapture c p : steady conn k (snoopCapture c p).
Proof. keep. Qed.
#[local] Hint Resolve steady_snoopCapture : steady.

Lemma steady_netSend_with look p hw pr type : (forall n a, steady conn k (look n a)) -> steady conn k (netSend_with devtab look p hw pr type).
Proof. intros Hl. keep. Qed.
Lemma steady_arpLookup n e : steady conn k (arpLookup devtab n e).
Proof. keep. Qed.
Lemma steady_netSend p hw pr type : steady conn k (netSend devtab p hw pr type).
Proof. apply steady_netSend_with. intros n a. apply steady_arpLookup. Qed.
Lemma steady_map_addr f n : forall a b, steady conn k (map_addr f n a b).
Proof. induction n as [|n IH]; intros a b; cbn [map_addr]; keep. Qed.
#[local] Hint Resolve steady_map_addr : steady.
Lemma steady_rtLookup a : steady conn k (rtLookup a).
Proof. keep. Qed.
#[local] Hint Resolve steady_netSend steady_rtLookup : steady.

Lemma steady_ipv4Send_with frag p src dst proto : (forall q a, steady conn k (frag q a)) -> steady conn k (ipv4Send_with frag p src dst proto).
Proof. intros Hf. keep. Qed.

Lemma steady_icmpDestUnreach_with send u c : (forall p s d n, steady conn k (send p s d n)) -> steady conn k (icmpDestUnreach_with send u c).
Proof. intros Hs. keep. Qed.

Lemma steady_ipv4SendFrag n : forall p a, steady conn k (ipv4SendFrag devtab n p a).
Proof.
  induction n as [|n IH]; intros p a; [keep |]. cbn [ipv4SendFrag]. keep.
  all: try (apply steady_icmpDestUnreach_with; intros; by apply steady_ipv4Send_with).
Qed.
Lemma steady_ipv4Send p src dst proto : steady conn k (ipv4Send devtab p src dst proto).
Proof. apply steady_ipv4Send_with. apply steady_ipv4SendFrag. Qed.
#[local] Hint Resolve steady_ipv4Send : steady.

(** The routines of TCP that do not change the state. *)

Lemma steady_tcpTimerSched time j type : steady conn k (tcpTimerSched time j type).
Proof. keep. Qed.
Lemma steady_tcpTimerPurge j type : steady conn k (tcpTimerPurge j type).
Proof. keep. Qed.
Lemma steady_tcpTimerRemain j type : steady conn k (tcpTimerRemain j type).
Proof. keep. Qed.
#[local] Hint Resolve steady_tcpTimerSched steady_tcpTimerPurge steady_tcpTimerRemain : steady.

Lemma guarded_send_window t : guarded (send_window t).2 = guarded t.
Proof. unfold send_window. by repeat case_match. Qed.

Lemma steady_tcpSendWindow j : steady conn k (tcpSendWindow j).
Proof.
  intros w y E. unfold tcpSendWindow. apply wp_bind. apply wp_load. intros t Ht. apply wp_bind. apply wp_amend. intros t' Ht'.
  apply wp_ret. rewrite <- E. unfold conn. cbn. destruct (decide (i = j)) as [-> | Hne]; [| by rewrite lookup_insert_ne].
  rewrite lookup_insert_eq. cbn in Ht. rewrite Ht. cbn. by rewrite guarded_send_window.
Qed.
#[local] Hint Resolve steady_tcpSendWindow : steady.

Lemma steady_tcpSend j ctrl seqnum acknum start len : steady conn k (tcpSend devtab j ctrl seqnum acknum start len).
Proof. keep. Qed.
#[local] Hint Resolve steady_tcpSend : steady.
Lemma steady_tcpSendAck j : steady conn k (tcpSendAck devtab j).
Proof. keep. Qed.
Lemma steady_tcpSendSyn j : steady conn k (tcpSendSyn devtab j).
Proof. keep. Qed.
Lemma steady_tcpSendData j : steady conn k (tcpSendData devtab j).
Proof. keep. Qed.
#[local] Hint Resolve steady_tcpSendAck steady_tcpSendSyn steady_tcpSendData : steady.

Lemma steady_tcpRecvValid p j : steady conn k (tcpRecvValid p j).
Proof. keep. Qed.
Lemma steady_store_data j tcp n : steady conn k (store_data j tcp n).
Proof. keep. Qed.
Lemma steady_release_readers j : steady conn k (release_readers j).
Proof. keep. Qed.
Lemma steady_time_wait j : steady conn k (time_wait j).
Proof. keep. Qed.
Lemma steady_count_fin j : steady conn k (count_fin j).
Proof. keep. Qed.
Lemma steady_signal_open j : steady conn k (signal_open j).
Proof. keep. Qed.
#[local] Hint Resolve steady_tcpRecvValid steady_store_data steady_release_readers steady_time_wait steady_count_fin steady_signal_open : steady.

(** What ends [tcpRecvData]. *)
Definition send_back (j : Z) : dprog (net H) Z :=
  t ← tcbx j;
  (if has (tc_sndflg t) TCP_FLG_SNDDATA then tcpSendData devtab j;; mret tt else mret tt);;
  t ← tcbx j;
  (if has (tc_sndflg t) TCP_FLG_SNDACK then tcpSendAck devtab j;; mret tt else mret tt);;
  mret OK.
Lemma steady_send_back j : steady conn k (send_back j).
Proof. keep. Qed.
End Steady.

(** An acknowledgement changes the first octet that is not acknowledged, not the state. *)
Lemma steady_tcpRecvAck p j : apart_devices -> steady conn conn_state (tcpRecvAck p j).
Proof.
  intros Hdev. pose proof (steady_tcpTimerSched conn_state) as H1. pose proof (steady_tcpTimerPurge conn_state) as H2.
  pose proof (steady_amend_tcb conn_state) as H3. unfold tcpRecvAck.
  keep. all: apply H3; intros; reflexivity.
Qed.
(** ** A segment *)

(** The states that a segment can take a connection to. *)
Definition seg_next (st : Z) : list Z :=
  if st =? TCP_LISTEN then [TCP_LISTEN; TCP_SYNRECV; TCP_CLOSEWT]
  else if st =? TCP_SYNSENT then [TCP_SYNSENT; TCP_SYNRECV; TCP_ESTAB; TCP_CLOSEWT]
  else if st =? TCP_SYNRECV then [TCP_SYNRECV; TCP_LISTEN; TCP_ESTAB; TCP_CLOSEWT]
  else if st =? TCP_ESTAB then [TCP_ESTAB; TCP_CLOSEWT]
  else if st =? TCP_FINWT1 then [TCP_FINWT1; TCP_FINWT2; TCP_CLOSING]
  else if st =? TCP_CLOSING then [TCP_CLOSING; TCP_FINWT2]
  else [st].

(** The state is one of those that [J] allows. *)
Definition within (J : Z -> Prop) (x : option (Z * Z * Z)) : Prop :=
  match x with Some (st, _, _) => J st | None => False end.

Ltac stlia := unfold TCP_LISTEN, TCP_SYNSENT, TCP_SYNRECV, TCP_ESTAB, TCP_FINWT1, TCP_FINWT2, TCP_CLOSEWT, TCP_CLOSING, TCP_LASTACK, TCP_TIMEWT in *; lia.

#[local] Hint Extern 1 (steady _ _ (amend_tcb _ _)) => apply steady_amend_tcb; intros; reflexivity : steady.
#[local] Hint Resolve steady_time_wait steady_count_fin steady_signal_open steady_tcpSendAck steady_tcpSend steady_tcpSendSyn steady_tcpTimerSched
  steady_tcpTimerPurge steady_tcpTimerRemain steady_tcpRecvValid steady_store_data steady_release_readers steady_send_back steady_tcpRecvAck : steady.

Section Segment.
Hypothesis Hdev : apart_devices.
Context (J : Z -> Prop).

Abbreviation holds := (wp conn (within J)).

Lemma holds_same {A} (m : dprog (net H) A) w x (P : A -> dst (net H) -> Prop) :
  conn w = x -> steady conn id m -> within J x -> (forall a w', conn w' = x -> P a w') -> holds m w P.
Proof. intros <- Hm HJ HP. apply wp_steady with (kept := id); [done | | done]. unfold id. by intros x ->. Qed.

Lemma holds_state {A} (m : dprog (net H) A) w st f u (P : A -> dst (net H) -> Prop) :
  conn w = Some (st, f, u) -> steady conn conn_state m -> J st ->
  (forall a w' f' u', conn w' = Some (st, f', u') -> P a w') -> holds m w P.
Proof.
  intros E Hm HJ HP. apply wp_steady with (kept := conn_state); [done | |].
  - rewrite E. intros [[[st' f'] u']|]; cbn; [| done]. by intros [= ->].
  - rewrite E. intros a w' E'. destruct (conn w') as [[[st' f'] u']|] eqn:Ec; cbn in E'; [| done].
    injection E' as ->. by eapply HP.
Qed.

Lemma holds_tcbx w st f u (P : tcb -> dst (net H) -> Prop) :
  conn w = Some (st, f, u) -> (forall t, tc_state t = st -> tc_sndfin t = f -> tc_snduna t = u -> P t w) -> holds (tcbx i) w P.
Proof.
  intros E HP. apply wp_load. intros t Ht. unfold conn in E. rewrite Ht in E. injection E as E1 E2 E3. by apply HP.
Qed.

Lemma holds_set w st f u st' (P : unit -> dst (net H) -> Prop) :
  conn w = Some (st, f, u) -> (forall w', conn w' = Some (st', f, u) -> P tt w') -> holds (amend_tcb i (set_tc_state st')) w P.
Proof.
  intros E HP. apply wp_amend. intros t Ht. apply HP. unfold conn in *. rewrite Ht in E. injection E as E1 E2 E3.
  cbn. rewrite lookup_insert_eq. cbn. unfold guarded. cbn. congruence.
Qed.

(** A comparison of sequence numbers. *)
Lemma holds_seqlt a b w (P : bool -> dst (net H) -> Prop) : P (i32 (a - b) <? 0) w -> holds (seqlt a b) w P.
Proof. intros HP. unfold seqlt. apply wp_bind, wp_int. rewrite i32_sub. by apply wp_ret. Qed.
Lemma holds_seqlte a b w (P : bool -> dst (net H) -> Prop) : P (i32 (a - b) <=? 0) w -> holds (seqlte a b) w P.
Proof. intros HP. unfold seqlte. apply wp_bind, wp_int. rewrite i32_sub. by apply wp_ret. Qed.

(** One step: of a call that leaves the connection alone, of an access to it. *)
Ltac hstep :=
  cbv zeta beta;
  lazymatch goal with
  | |- wp _ _ (mbind _ _) _ _ => apply wp_bind
  | |- wp _ _ (mret _) _ _ => apply wp_ret
  | E : conn ?w = _ |- wp _ _ (tcbx i) ?w _ => let t := fresh "t" in eapply (holds_tcbx _ _ _ _ _ E); intros t ? ? ?
  | E : conn ?w = _ |- wp _ _ (amend_tcb i (set_tc_state _)) ?w _ => eapply (holds_set _ _ _ _ _ _ E); clear w E; intros w E
  | |- wp _ _ (seqlt _ _) _ _ => apply holds_seqlt
  | |- wp _ _ (seqlte _ _) _ _ => apply holds_seqlte
  end.
(** A call that leaves the connection as it is, or only its state; the rest is such a
    call. *)
Ltac hcall E := eapply (holds_same _ _ _ _ E); [solve [keep] | done | clear E; intros ? ? E].
Ltac hstate E := eapply (holds_state _ _ _ _ _ _ E); [solve [keep] | done | clear E; intros ? ? ? ? E].
Ltac hend E := eapply (holds_same _ _ _ _ E); [solve [keep] | done | clear E; intros ? ? E; by rewrite E].

Lemma holds_fin_state w st f u :
  conn w = Some (st, f, u) -> J st -> (st = TCP_SYNRECV \/ st = TCP_ESTAB -> J TCP_CLOSEWT) ->
  (st = TCP_FINWT1 -> J TCP_CLOSING /\ 0 <= i32 (f - u)) ->
  holds (fin_state i) w (fun _ w' => within J (conn w')).
Proof.
  intros E HJ Hcw Hf1. unfold fin_state. hstep. hstep. subst.
  destruct ((tc_state t =? TCP_SYNRECV) || (tc_state t =? TCP_ESTAB)) eqn:E1.
  { hstep. hcall E. hstep. rewrite E. apply Hcw. unfold TCP_SYNRECV, TCP_ESTAB in *. lia. }
  destruct (Z.eqb_spec (tc_state t) TCP_FINWT1) as [E2|_].
  { destruct (Hf1 E2) as [HJc Hfu]. hstep. hcall E. hstep. hstep. hstep. hstep.
    replace (i32 (tc_sndfin t0 - tc_snduna t0) <? 0) with false by (symmetry; apply Z.ltb_ge; congruence).
    hstep. by rewrite E. }
  hend E.
Qed.

Lemma holds_recv_fin tcp n w st f u :
  conn w = Some (st, f, u) -> J st -> (st = TCP_SYNRECV \/ st = TCP_ESTAB -> J TCP_CLOSEWT) ->
  (st = TCP_FINWT1 -> J TCP_CLOSING /\ 0 <= i32 (f - u)) ->
  holds (recv_fin i tcp n) w (fun _ w' => within J (conn w')).
Proof.
  intros E HJ Hcw Hf1. unfold recv_fin. hstep. hcall E. hstep. hcall E. hstep. hcall E.
  case_match; [| hend E]. hstep. hcall E. hstep.
  eapply wp_mono; [done | | by eapply holds_fin_state].
  intros [] v Hv. destruct (conn v) as [[[st' f'] u']|] eqn:E'; [| done]. hend E'.
Qed.

Lemma holds_tcpRecvData p w st f u :
  conn w = Some (st, f, u) -> J st -> (st = TCP_SYNRECV \/ st = TCP_ESTAB -> J TCP_CLOSEWT) ->
  (st = TCP_FINWT1 -> J TCP_CLOSING /\ 0 <= i32 (f - u)) ->
  holds (tcpRecvData devtab p i) w (fun _ w' => within J (conn w')).
Proof.
  intros E HJ Hcw Hf1. unfold tcpRecvData. hstep. hcall E. hstep. hcall E. hstep. hcall E. hstep. hcall E. hstep. hcall E. hstep.
  apply wp_mono with (I := within J) (P := fun _ w' => within J (conn w')); [done | |].
  - intros [] v Hv. destruct (conn v) as [[[st' f'] u']|] eqn:E'; [| done].
    change (holds (send_back i) v (fun _ w' => within J (conn w'))). hend E'.
  - case_match; [by eapply holds_recv_fin | hend E].
Qed.


Lemma holds_tcpRecvListen p src w f u :
  conn w = Some (TCP_LISTEN, f, u) -> J TCP_LISTEN -> J TCP_SYNRECV -> J TCP_CLOSEWT ->
  holds (tcpRecvListen devtab p i src) w (fun _ w' => within J (conn w')).
Proof.
  intros E H1 H2 H3. unfold tcpRecvListen. hstep. hcall E. hstep. hcall E.
  case_match; [hend E |]. case_match; [hend E |]. case_match; [| hend E].
  do 14 (hstep; hcall E). hstep. hstep. eapply holds_tcpRecvData; [exact E | done | by intros _ | by intros [=]].
Qed.

Lemma holds_synsent_syn p tcp ok w f u :
  conn w = Some (TCP_SYNSENT, f, u) -> J TCP_SYNSENT -> J TCP_SYNRECV -> J TCP_ESTAB -> J TCP_CLOSEWT ->
  holds (synsent_syn devtab p i tcp ok) w (fun _ w' => within J (conn w')).
Proof.
  intros E H1 H2 H3 H4. unfold synsent_syn. do 8 (hstep; hcall E). do 8 (hstep; hstate E). case_match.
  - hstep. hstep. do 3 (hstep; hcall E). eapply holds_tcpRecvData; [exact E | done | by intros _ | by intros [=]].
  - hstep. hstep. do 2 (hstep; hcall E). eapply holds_tcpRecvData; [exact E | done | by intros _ | by intros [=]].
Qed.

Lemma holds_tcpRecvSynsent p w f u :
  conn w = Some (TCP_SYNSENT, f, u) -> J TCP_SYNSENT -> J TCP_SYNRECV -> J TCP_ESTAB -> J TCP_CLOSEWT ->
  holds (tcpRecvSynsent devtab p i) w (fun _ w' => within J (conn w')).
Proof.
  intros E H1 H2 H3 H4. unfold tcpRecvSynsent. do 5 (hstep; hcall E). case_match; [| hend E].
  case_match; [hend E |]. case_match; [by eapply holds_synsent_syn | hend E].
Qed.

(** The state after the switch on it; the data of the segment can follow. *)
Definition ready_for_data (w : dst (net H)) : Prop :=
  exists st f u, conn w = Some (st, f, u) /\ J st /\ (st = TCP_SYNRECV \/ st = TCP_ESTAB -> J TCP_CLOSEWT) /\
    (st = TCP_FINWT1 -> J TCP_CLOSING /\ 0 <= i32 (f - u)).
Definition after_switch (r : option Z) (w : dst (net H)) : Prop :=
  match r with Some _ => within J (conn w) | None => ready_for_data w end.

Context (st : Z).
Hypothesis Hst : J st.
Hypothesis Hsynrecv : st = TCP_SYNRECV -> J TCP_LISTEN /\ J TCP_ESTAB.
Hypothesis Hestab : st = TCP_SYNRECV \/ st = TCP_ESTAB -> J TCP_CLOSEWT.
Hypothesis Hfinwt1 : st = TCP_FINWT1 -> J TCP_FINWT2 /\ J TCP_CLOSING.
Hypothesis Hclosing : st = TCP_CLOSING -> J TCP_FINWT2.

Lemma holds_other_rst w f u :
  conn w = Some (st, f, u) ->
  holds (other_rst i) w (fun r w' => match r with Some _ => within J (conn w') | None => conn w' = Some (st, f, u) end).
Proof.
  intros E. unfold other_rst. hstep. hstep. case_match.
  - hstep. hcall E. hstep. hcall E. hstep. hcall E. case_match.
    + hstep. hstep. hstep. rewrite E. apply Hsynrecv. unfold TCP_SYNRECV in *. lia.
    + hstep. by rewrite E.
  - hstep. case_match; [by rewrite E | done].
Qed.

Lemma ready_other w st' f u : conn w = Some (st', f, u) -> J st' ->
  st' <> TCP_SYNRECV -> st' <> TCP_ESTAB -> st' <> TCP_FINWT1 -> ready_for_data w.
Proof. intros E HJ H1 H2 H3. exists st', f, u. split; [done |]. split; [done |]. split; [intros [|] | intros ?]; done. Qed.

Lemma holds_other_ack p acknum w f u :
  conn w = Some (st, f, u) -> holds (other_ack p i acknum) w after_switch.
Proof.
  intros E. unfold other_ack. hstep. hstep.
  destruct (Z.eqb_spec (tc_state t) TCP_SYNRECV) as [Es|Hn1].
  { hstep. hcall E. hstep. hcall E. case_match.
    - hstep. hstep. hstep. assert (J TCP_ESTAB) by (apply Hsynrecv; congruence). hcall E. hstep. hstate E. hstep.
      do 3 eexists. split; [exact E |]. split; [done |]. split; [intros _; apply Hestab; left; congruence | by intros [=]].
    - hstep. hcall E. hstep. cbn. by rewrite E. }
  destruct ((tc_state t =? TCP_CLOSEWT) || (tc_state t =? TCP_ESTAB)) eqn:Ec.
  { hstep. hstate E. hstep. do 3 eexists. split; [exact E |]. split; [done |]. split; [exact Hestab | stlia]. }
  destruct (Z.eqb_spec (tc_state t) TCP_FINWT1) as [Es|Hn2].
  { assert (J TCP_FINWT2 /\ J TCP_CLOSING) as [HJ2 HJc] by (apply Hfinwt1; congruence).
    hstep. hstate E. hstep. hstep. hstep. hstep. hstep. case_match.
    - hstep. hcall E. hstep. hstep. eapply ready_other; [exact E | done |..]; done.
    - hstep. hstep. do 3 eexists. split; [exact E |]. split; [done |]. split; [exact Hestab |]. intros _. split; [done |].
      match goal with H : (_ <=? 0) = false |- _ => apply Z.leb_gt in H end. subst. lia. }
  destruct (Z.eqb_spec (tc_state t) TCP_FINWT2) as [Es|Hn3].
  { hstep. hstate E. hstep. hcall E. hstep. hcall E. hstep. eapply ready_other; [exact E | done |..]; stlia. }
  destruct (Z.eqb_spec (tc_state t) TCP_CLOSING) as [Es|Hn4].
  { assert (J TCP_FINWT2) by (apply Hclosing; congruence).
    hstep. hstate E. hstep. hstep. hstep. hstep. hstep. case_match.
    - hstep. hcall E. hstep. hstep. hstep. hcall E. hstep. hstep. eapply ready_other; [exact E | done |..]; done.
    - hstep. hstep. eapply ready_other; [exact E | done |..]; stlia. }
  assert (Hr : forall w', conn w' = Some (st, f, u) -> ready_for_data w').
  { intros v Ev. eapply ready_other; [exact Ev | done |..]; stlia. }
  case_match.
  { hstep. hcall E. case_match; [| hstep; by apply Hr]. hstep. hcall E. hstep. cbn. by rewrite E. }
  case_match; [| hstep; by apply Hr]. hstep. hcall E. hstep. by apply Hr.
Qed.

Lemma holds_recv_accepted p tcp w f u :
  conn w = Some (st, f, u) -> holds (recv_accepted devtab p i tcp) w (fun _ w' => within J (conn w')).
Proof.
  intros E. unfold recv_accepted. hstep. hcall E. hstep.
  apply wp_mono with (I := within J) (P := fun r w' => match r with Some _ => within J (conn w') | None => conn w' = Some (st, f, u) end); [done | |].
  - clear E. intros [r|] v E; [hstep; by destruct (conn v) |]. case_match; [hend E |]. case_match; [hend E |].
    hstep. hcall E. hstep. eapply wp_mono; [done | | by eapply holds_other_ack].
    clear E. intros [r|] v' E; [by hstep |]. destruct E as (st' & f' & u' & E & Hj1 & Hj2 & Hj3). by eapply holds_tcpRecvData.
  - case_match; [by eapply holds_other_rst | by hstep].
Qed.

Lemma holds_tcpRecvOther p w f u :
  conn w = Some (st, f, u) -> holds (tcpRecvOther devtab p i) w (fun _ w' => within J (conn w')).
Proof.
  intros E. unfold tcpRecvOther. hstep. hcall E. hstep. hcall E. case_match; [hend E | by eapply holds_recv_accepted].
Qed.

Lemma holds_recv_state p src w f u :
  (st = TCP_LISTEN -> J TCP_SYNRECV /\ J TCP_CLOSEWT) -> (st = TCP_SYNSENT -> J TCP_SYNRECV /\ J TCP_ESTAB /\ J TCP_CLOSEWT) ->
  conn w = Some (st, f, u) -> holds (recv_state devtab p i src) w (fun _ w' => within J (conn w')).
Proof.
  intros Hl Hs E. unfold recv_state. hstep. hstep.
  destruct (Z.eqb_spec (tc_state t) TCP_LISTEN) as [Es|Hn1].
  { assert (Et : st = TCP_LISTEN) by congruence. rewrite Et in E. destruct (Hl Et). eapply holds_tcpRecvListen; [exact E | by rewrite <- Et | done..]. }
  destruct (Z.eqb_spec (tc_state t) TCP_SYNSENT) as [Es|Hn2].
  { assert (Et : st = TCP_SYNSENT) by congruence. rewrite Et in E. destruct (Hs Et) as (? & ? & ?). eapply holds_tcpRecvSynsent; [exact E | by rewrite <- Et | done..]. }
  case_match; [by eapply holds_tcpRecvOther | hstep; by rewrite E].
Qed.
End Segment.

(** C8: What a segment does to the state of its connection, while the threads that run
    in between leave the connection alone: whenever [recv_state] is suspended, and when it
    returns, the state is one of the successors [seg_next] of the state that it found.  So
    no segment takes a connection to the state TIME-WAIT, wherever in their range the
    sequence numbers are.  This is an invariant of the run as far as it goes; a run that
    reads outside of the packet or of a table, or that never returns, is not excluded. *)
Theorem segment_states p src st f u (w : dst (net H)) : apart_devices -> conn w = Some (st, f, u) ->
  let ok x := exists st' f' u', x = Some (st', f', u') /\ In st' (seg_next st) /\ (st' = TCP_TIMEWT -> st = TCP_TIMEWT) in
  wp conn ok (recv_state devtab p i src) w (fun _ w' => ok (conn w')).
Proof.
  intros Hdev E ok. set (J := fun st' => In st' (seg_next st)).
  assert (Htw : forall st', J st' -> st' = TCP_TIMEWT -> st = TCP_TIMEWT).
  { intros st' Hin ->. revert Hin. unfold J, seg_next. repeat case_match; cbn; intuition (discriminate || congruence). }
  assert (Hok : forall x, within J x -> ok x).
  { intros [[[st' f'] u']|] HJ; [| done]. exists st', f', u'. split_and!; [done | done | by apply Htw]. }
  apply wp_mono with (I := within J) (P := fun _ w' => within J (conn w')); [done | by intros a w' Hw; apply Hok |].
  assert (HJ : J st) by (unfold J, seg_next; repeat case_match; cbn; stlia).
  eapply holds_recv_state; try exact E; try done.
  all: first [intros -> | intros [-> | ->]]; unfold J; cbn; auto 8.
Qed.
End Safe.
