(* ===== verification/Netif.v ===== *)
(** Interfaces and incoming packets: network/ipv4/ipv4Recv.c and
    network/net/netRecv.c, netUp.c, netDown.c and netInit.c. *)
From Stdlib Require Import ZArith Lia.
From stdpp Require Import sorting gmap functions list.
From S2P Require Import Prelude Kernel Queue QueueFacts Sched Semaphore Clock Message Memory Boot Frame Thread BufPool Bytes Device DevTab Chksum Netaddr Tcb Net Wire Snoop Route Arp Ipv4 Udp Raw TcpTimer Tcp TcpRecv.

Definition NET_GET_MTU : Z := 200.
Definition NET_GET_LINKHDRLEN : Z := 201.
Definition NET_GET_HWADDR : Z := 203.
Definition NET_GET_HWBRC : Z := 204.
Definition INITSTK : Z := 65536.
Definition INITPRIO : Z := 20.

Section Netif.
Context {H : Type} (devtab : gmap Z (device (net H))).

Abbreviation nprog := (dprog (net H)).

(** ** Incoming packets *)

(** The switch on the protocol. *)
Definition ipv4_dispatch (p proto : Z) (src dst : netaddr) : nprog unit :=
  (if proto =? IPv4_PROTO_ICMP then icmpRecv p
   else if proto =? IPv4_PROTO_UDP then udpRecv devtab p src dst
   else if proto =? IPv4_PROTO_TCP then tcpRecv devtab p src dst
   else rawRecv devtab p src dst proto);;
  mret tt.

Definition ipv4Recv (p : Z) : nprog Z :=
  if NULL =? p then mret SYSERR else
  amend_pkt p (fun e => set_p_nethdr (p_curr e) e);;
  e ← pkt p;
  let ip := p_curr e in
  valid ← ucall (ipv4RecvValid ip);
  if negb valid then netFreebuf p;; mret SYSERR else
  dst ← ip_addr (ip + IP_DST);
  src ← ip_addr (ip + IP_SRC);
  here ← ipv4RecvDemux dst;
  if negb here then rtRecv p else
  flags ← ucall (ldh (ip + IP_FROFF));
  if negb (Z.land IPv4_FLAG_MF (net2hs flags) =? 0) || negb (Z.land (net2hs flags) IPv4_FROFF =? 0) then
    netFreebuf p;; mret SYSERR
  else
  len ← ucall (ldh (ip + IP_LEN));
  let iplen := net2hs len in
  netptr ← pkt_nif p;
  e ← pkt p;
  (if u32 (p_len e - n_linkhdrlen netptr) >? iplen
   then amend_pkt p (set_p_len (u32 (n_linkhdrlen netptr + iplen))) else mret tt);;
  ver_ihl ← ucall (ldb ip);
  amend_pkt p (fun e => set_p_curr (u32 (p_curr e + Z.shiftl (Z.land ver_ihl IPv4_IHL) 2)) e);;
  proto ← ucall (ldb (ip + IP_PROTO));
  ipv4_dispatch p proto src dst;;
  mret OK.

(** The part of the receive thread that handles a packet of [len] bytes in the buffer
    [p]. *)
Definition net_packet (n p len : Z) : nprog unit :=
  amend_pkt p (set_p_len len);;
  amend_pkt p (set_p_curr (data_of p));;
  amend_pkt p (set_p_nif (Some n));;
  amend_nif n (fun e => set_n_nin (u32 (n_nin e + 1)) e);;
  amend_pkt p (fun e => set_p_linkhdr (p_curr e) e);;
  e ← pkt p;
  let ether := p_curr e in
  netptr ← nif n;
  match n_capture netptr with Some cap => snoopCapture (Some cap) p;; mret tt | None => mret tt end;;
  l ← ucall (rd_bytes (Z.to_nat ETH_ADDR_LEN) ether);
  let dst := mkNetaddr NETADDR_ETHERNET ETH_ADDR_LEN l in
  netptr ← nif n;
  mine ← netaddrequal dst (n_hwaddr netptr);
  mine ← (if (mine : bool) then mret true else netaddrequal dst (n_hwbrc netptr));
  if (mine : bool) then
    amend_pkt p (set_p_curr (u32 (data_of p + n_linkhdrlen netptr)));;
    type ← ucall (ldh (ether + ETHER_TYPE));
    if net2hs type =? ETHER_TYPE_IPv4 then
      ipv4Recv p;;
      amend_nif n (fun e => set_n_nproc (u32 (n_nproc e + 1)) e)
    else if net2hs type =? ETHER_TYPE_ARP then
      arpRecv p;;
      amend_nif n (fun e => set_n_nproc (u32 (n_nproc e + 1)) e)
    else netFreebuf p;; mret tt
  else netFreebuf p;; mret tt.

(** One round of the loop of [netRecv] on the interface [n]; [maxlen] is computed before
    the loop. *)
Definition netRecv_body (n maxlen : Z) : nprog unit :=
  p ← netGetbuf;
  if SYSERR =? i32 p then mret tt else
  netptr ← nif n;
  len ← read devtab (n_dev netptr) (data_of p) maxlen;
  if (ETH_HDR_LEN >? len) || (SYSERR =? len) then netFreebuf p;; mret tt else
  net_packet n p len.

(** ** Interfaces *)

Definition zero_netif : netif :=
  mkNetif 0 0 0 0 zero_netaddr zero_netaddr zero_netaddr zero_netaddr zero_netaddr zero_netaddr (table NET_NTHR 0) 0 0 None.

Definition netAlloc_body (i : Z) (_ : unit) : nprog (unit + Z) :=
  e ← nif i;
  mret (if NET_FREE =? n_state e then inr i else inl tt).
Definition netAlloc : nprog Z :=
  r ← for_ (Z.to_nat NNETIF) 0 netAlloc_body tt;
  mret (match r with inr i => i | inl _ => SYSERR end).

(** The broadcast address of an interface. *)
Definition brc_byte (a m : Z) : Z := u8 (Z.lor (Z.land a m) (Z.lnot m)).
Definition broadcast (old ip mask : netaddr) : nprog netaddr :=
  l ← map_addr brc_byte (Z.to_nat (na_len ip)) (na_addr ip) (na_addr mask);
  mret (mkNetaddr (na_type ip) (na_len ip) (take (Z.to_nat (na_len ip)) l ++ drop (Z.to_nat (na_len ip)) (na_addr old))).

(** The name of a receive thread, [sprintf(thrname, "%srecv%02d", name, i)]. *)
Definition thr_name (name : list Z) (i : Z) : list Z := name ++ [114; 101; 99; 118; 48 + i / 10; 48 + i mod 10].

Fixpoint cstring (fuel : nat) (a : Z) : bprog (list Z) :=
  match fuel with
  | O => diverge
  | S fuel => c ← ldb a; if c =? 0 then mret [] else l ← cstring fuel (a + 1); mret (c :: l)
  end.

(** A receive thread is created with the address of the code of [netRecv] and that of its
    interface, and made ready; the loop is left when there is no thread to be had. *)
Definition spawn_body (FPU_WORDS fpexc fpscr userret netRecv : Z) (ifaddr : Z -> Z) (n devnum i : Z) (_ : unit) : nprog (unit + Z) :=
  d ← dev devtab devnum;
  fuel ← gets (fun w => bfuel (user w));
  name ← ucall (cstring fuel (d_name d));
  tid ← kcall (create FPU_WORDS fpexc fpscr userret netRecv NET_THR_STK NET_THR_PRIO (thr_name name i) 1 [ifaddr n]);
  if SYSERR =? tid then mret (inr i) else
  amend_nif n (fun e => set_n_recvthr (<[i := tid]> (n_recvthr e)) e);;
  kcall (ready tid);;
  mret (inl tt).

(** [kill] on the first receive threads of an interface. *)
Definition kill_body (n i : Z) (_ : unit) : nprog (unit + unit) :=
  e ← nif n;
  match n_recvthr e !! i with
  | None => fault
  | Some tid => kcall (kill tid);; mret (inl tt)
  end.

(** [hw_addr] is what the driver stores for NET_GET_HWADDR and NET_GET_HWBRC, with the
    result of the call. *)
Definition netUp (FPU_WORDS fpexc fpscr userret netRecv : Z) (ifaddr : Z -> Z) (hw_addr : Z -> Z -> nprog (Z * netaddr))
    (descrp : Z) (ip mask gateway : option netaddr) : nprog Z :=
  match ip, mask with
  | Some ip, Some mask =>
      if isbaddev descrp then mret SYSERR else
      if (na_len ip >? NET_MAX_ALEN) || (na_len mask >? NET_MAX_ALEN) ||
         (match gateway with Some g => na_len g >? NET_MAX_ALEN | None => false end) then mret SYSERR else
      kcall ENTER_KERNEL_CRITICAL_SECTION;;
      old ← netLookup descrp;
      retval ← (match old with
        | Some _ => mret SYSERR
        | None =>
            n ← netAlloc;
            if SYSERR =? n then mret SYSERR else
            amend_nif n (fun _ => zero_netif);;
            amend_nif n (set_n_dev descrp);;
            amend_nif n (set_n_state NET_ALLOC);;
            mtu ← control devtab descrp NET_GET_MTU 0 0;
            amend_nif n (set_n_mtu (u32 mtu));;
            hl ← control devtab descrp NET_GET_LINKHDRLEN 0 0;
            amend_nif n (set_n_linkhdrlen (u32 hl));;
            if (SYSERR =? mtu) || (SYSERR =? hl) then amend_nif n (set_n_state NET_FREE);; mret SYSERR else
            h ← hw_addr descrp NET_GET_HWADDR;
            amend_nif n (set_n_hwaddr (snd h));;
            if SYSERR =? fst h then amend_nif n (set_n_state NET_FREE);; mret SYSERR else
            h ← hw_addr descrp NET_GET_HWBRC;
            amend_nif n (set_n_hwbrc (snd h));;
            if SYSERR =? fst h then amend_nif n (set_n_state NET_FREE);; mret SYSERR else
            amend_nif n (set_n_ip ip);;
            amend_nif n (set_n_mask mask);;
            match gateway with Some g => amend_nif n (set_n_gateway g) | None => mret tt end;;
            e ← nif n;
            b ← broadcast (n_ipbrc e) ip mask;
            amend_nif n (set_n_ipbrc b);;
            rtAdd (Some ip) None (Some mask) (Some n);;
            match gateway with Some g => rtDefault (Some g) (Some n);; mret tt | None => mret tt end;;
            r ← for_ (Z.to_nat NET_NTHR) 0 (spawn_body FPU_WORDS fpexc fpscr userret netRecv ifaddr n descrp) tt;
            match r with
            | inl _ => mret OK
            | inr nthreads =>
                for_ (Z.to_nat nthreads) 0 (kill_body n) tt;;
                amend_nif n (set_n_state NET_FREE);;
                mret SYSERR
            end
        end : nprog Z);
      kcall EXIT_KERNEL_CRITICAL_SECTION;;
      mret retval
  | _, _ => mret SYSERR
  end.

Definition netDown (descrp : Z) : nprog Z :=
  kcall ENTER_KERNEL_CRITICAL_SECTION;;
  netptr ← netLookup descrp;
  match netptr with
  | None => kcall EXIT_KERNEL_CRITICAL_SECTION;; mret SYSERR
  | Some n =>
      for_ (Z.to_nat NET_NTHR) 0 (kill_body n) tt;;
      rtClear (Some n);;
      amend_nif n (set_n_state NET_FREE);;
      kcall EXIT_KERNEL_CRITICAL_SECTION;;
      mret OK
  end.

(** The last four arguments are the addresses of the code of the daemons. *)
Definition netInit (FPU_WORDS fpexc fpscr userret arpDaemon rtDaemon icmpDaemon tcpTimer : Z) : nprog Z :=
  for_ (Z.to_nat NNETIF) 0 (fun i _ =>
    amend_nif i (fun _ => zero_netif);;
    amend_nif i (set_n_state NET_FREE);;
    mret (inl tt : unit + unit)) tt;;
  pool ← kcall (bfpalloc (NET_MAX_PKTLEN + SIZEOF_PACKET) NET_POOLSIZE);
  modify (put_netpool pool);;
  if SYSERR =? pool then mret SYSERR else
  r ← arpInit FPU_WORDS fpexc fpscr userret arpDaemon;
  if SYSERR =? r then mret SYSERR else
  r ← rtInit FPU_WORDS fpexc fpscr userret rtDaemon;
  if SYSERR =? r then mret SYSERR else
  r ← icmpInit FPU_WORDS fpexc fpscr userret icmpDaemon;
  if SYSERR =? r then mret SYSERR else
  tid ← kcall (create FPU_WORDS fpexc fpscr userret tcpTimer INITSTK INITPRIO [116; 99; 112; 84; 105; 109; 101; 114] 0 []);
  if SYSERR =? tid then mret SYSERR else
  kcall (ready tid);;
  mret OK.
End Netif.
