(* ===== verification/Dhcp.v ===== *)
(** The DHCP client: network/dhcpc/dhcpSendRequest.c, dhcpRecvReply.c and dhcpClient.c.
    A reply is read from a frame octet by octet; what is made of it is given by a
    reference that takes the frame as a list. *)
From Stdlib Require Import ZArith Lia.
From stdpp Require Import sorting gmap functions list.
From S2P Require Import Prelude Kernel Queue QueueFacts Sched Semaphore Clock Message Memory Boot Frame Thread BufPool Bytes Sort Device DevTab Chksum Netaddr Tcb Net Wire Snoop Route Arp Ipv4 Udp Raw TcpTimer Tcp TcpRecv Netif.

Definition DHCP_OP_REQUEST : Z := 1.
Definition DHCP_OP_REPLY : Z := 2.
Definition DHCPC_STATE_INIT : Z := 0.
Definition DHCPC_STATE_SELECTING : Z := 1.
Definition DHCPC_STATE_REQUESTING : Z := 2.
Definition DHCPC_STATE_BOUND : Z := 3.
Definition DHCPDISCOVER : Z := 1.
Definition DHCPOFFER : Z := 2.
Definition DHCPREQUEST : Z := 3.
Definition DHCPACK : Z := 5.
Definition DHCPNAK : Z := 6.
Definition DHCP_HDR_LEN : Z := 240.
Definition DHCP_MAGICCOOKIE : Z := 1669485411.
Definition DHCP_HTYPE_ETHER : Z := 1.
Definition DHCP_OPT_END : Z := 255.
Definition DHCP_OPT_SUBNET : Z := 1.
Definition DHCP_OPT_GATEWAY : Z := 3.
Definition DHCP_OPT_REQUEST : Z := 50.
Definition DHCP_OPT_MSGTYPE : Z := 53.
Definition DHCP_OPT_SERVER : Z := 54.
Definition DHCP_OPT_PARAMREQ : Z := 55.
Definition UDP_PORT_DHCPS : Z := 67.
Definition UDP_PORT_DHCPC : Z := 68.
Definition ETH0 : Z := 9.
Definition NETHER : Z := 1.

(** [struct dhcpData]; [bootfile] has 128 octets, the hardware addresses have six. *)
Record dhcpData := mkDhcpData {
  h_ip : netaddr;
  h_gateway : netaddr;
  h_mask : netaddr;
  h_bootfile : list Z;
  h_next_server : netaddr;
  h_state : Z;
  h_cxid : Z;
  h_starttime : Z;
  h_recvStatus : Z;
  h_discoverSecs : Z;
  h_offeredIpv4Addr : Z;
  h_clientIpv4Addr : Z;
  h_serverIpv4Addr : Z;
  h_clientHwAddr : list Z;
  h_serverHwAddr : list Z
}.

Definition set_h_ip (v : netaddr) (e : dhcpData) : dhcpData := mkDhcpData v (h_gateway e) (h_mask e) (h_bootfile e) (h_next_server e) (h_state e) (h_cxid e) (h_starttime e) (h_recvStatus e) (h_discoverSecs e) (h_offeredIpv4Addr e) (h_clientIpv4Addr e) (h_serverIpv4Addr e) (h_clientHwAddr e) (h_serverHwAddr e).
Definition set_h_gateway (v : netaddr) (e : dhcpData) : dhcpData := mkDhcpData (h_ip e) v (h_mask e) (h_bootfile e) (h_next_server e) (h_state e) (h_cxid e) (h_starttime e) (h_recvStatus e) (h_discoverSecs e) (h_offeredIpv4Addr e) (h_clientIpv4Addr e) (h_serverIpv4Addr e) (h_clientHwAddr e) (h_serverHwAddr e).
Definition set_h_mask (v : netaddr) (e : dhcpData) : dhcpData := mkDhcpData (h_ip e) (h_gateway e) v (h_bootfile e) (h_next_server e) (h_state e) (h_cxid e) (h_starttime e) (h_recvStatus e) (h_discoverSecs e) (h_offeredIpv4Addr e) (h_clientIpv4Addr e) (h_serverIpv4Addr e) (h_clientHwAddr e) (h_serverHwAddr e).
Definition set_h_bootfile (v : list Z) (e : dhcpData) : dhcpData := mkDhcpData (h_ip e) (h_gateway e) (h_mask e) v (h_next_server e) (h_state e) (h_cxid e) (h_starttime e) (h_recvStatus e) (h_discoverSecs e) (h_offeredIpv4Addr e) (h_clientIpv4Addr e) (h_serverIpv4Addr e) (h_clientHwAddr e) (h_serverHwAddr e).
Definition set_h_next_server (v : netaddr) (e : dhcpData) : dhcpData := mkDhcpData (h_ip e) (h_gateway e) (h_mask e) (h_bootfile e) v (h_state e) (h_cxid e) (h_starttime e) (h_recvStatus e) (h_discoverSecs e) (h_offeredIpv4Addr e) (h_clientIpv4Addr e) (h_serverIpv4Addr e) (h_clientHwAddr e) (h_serverHwAddr e).
Definition set_h_state (v : Z) (e : dhcpData) : dhcpData := mkDhcpData (h_ip e) (h_gateway e) (h_mask e) (h_bootfile e) (h_next_server e) v (h_cxid e) (h_starttime e) (h_recvStatus e) (h_discoverSecs e) (h_offeredIpv4Addr e) (h_clientIpv4Addr e) (h_serverIpv4Addr e) (h_clientHwAddr e) (h_serverHwAddr e).
Definition set_h_cxid (v : Z) (e : dhcpData) : dhcpData := mkDhcpData (h_ip e) (h_gateway e) (h_mask e) (h_bootfile e) (h_next_server e) (h_state e) v (h_starttime e) (h_recvStatus e) (h_discoverSecs e) (h_offeredIpv4Addr e) (h_clientIpv4Addr e) (h_serverIpv4Addr e) (h_clientHwAddr e) (h_serverHwAddr e).
Definition set_h_starttime (v : Z) (e : dhcpData) : dhcpData := mkDhcpData (h_ip e) (h_gateway e) (h_mask e) (h_bootfile e) (h_next_server e) (h_state e) (h_cxid e) v (h_recvStatus e) (h_discoverSecs e) (h_offeredIpv4Addr e) (h_clientIpv4Addr e) (h_serverIpv4Addr e) (h_clientHwAddr e) (h_serverHwAddr e).
Definition set_h_recvStatus (v : Z) (e : dhcpData) : dhcpData := mkDhcpData (h_ip e) (h_gateway e) (h_mask e) (h_bootfile e) (h_next_server e) (h_state e) (h_cxid e) (h_starttime e) v (h_discoverSecs e) (h_offeredIpv4Addr e) (h_clientIpv4Addr e) (h_serverIpv4Addr e) (h_clientHwAddr e) (h_serverHwAddr e).
Definition set_h_discoverSecs (v : Z) (e : dhcpData) : dhcpData := mkDhcpData (h_ip e) (h_gateway e) (h_mask e) (h_bootfile e) (h_next_server e) (h_state e) (h_cxid e) (h_starttime e) (h_recvStatus e) v (h_offeredIpv4Addr e) (h_clientIpv4Addr e) (h_serverIpv4Addr e) (h_clientHwAddr e) (h_serverHwAddr e).
Definition set_h_offeredIpv4Addr (v : Z) (e : dhcpData) : dhcpData := mkDhcpData (h_ip e) (h_gateway e) (h_mask e) (h_bootfile e) (h_next_server e) (h_state e) (h_cxid e) (h_starttime e) (h_recvStatus e) (h_discoverSecs e) v (h_clientIpv4Addr e) (h_serverIpv4Addr e) (h_clientHwAddr e) (h_serverHwAddr e).
Definition set_h_clientIpv4Addr (v : Z) (e : dhcpData) : dhcpData := mkDhcpData (h_ip e) (h_gateway e) (h_mask e) (h_bootfile e) (h_next_server e) (h_state e) (h_cxid e) (h_starttime e) (h_recvStatus e) (h_discoverSecs e) (h_offeredIpv4Addr e) v (h_serverIpv4Addr e) (h_clientHwAddr e) (h_serverHwAddr e).
Definition set_h_serverIpv4Addr (v : Z) (e : dhcpData) : dhcpData := mkDhcpData (h_ip e) (h_gateway e) (h_mask e) (h_bootfile e) (h_next_server e) (h_state e) (h_cxid e) (h_starttime e) (h_recvStatus e) (h_discoverSecs e) (h_offeredIpv4Addr e) (h_clientIpv4Addr e) v (h_clientHwAddr e) (h_serverHwAddr e).
Definition set_h_clientHwAddr (v : list Z) (e : dhcpData) : dhcpData := mkDhcpData (h_ip e) (h_gateway e) (h_mask e) (h_bootfile e) (h_next_server e) (h_state e) (h_cxid e) (h_starttime e) (h_recvStatus e) (h_discoverSecs e) (h_offeredIpv4Addr e) (h_clientIpv4Addr e) (h_serverIpv4Addr e) v (h_serverHwAddr e).
Definition set_h_serverHwAddr (v : list Z) (e : dhcpData) : dhcpData := mkDhcpData (h_ip e) (h_gateway e) (h_mask e) (h_bootfile e) (h_next_server e) (h_state e) (h_cxid e) (h_starttime e) (h_recvStatus e) (h_discoverSecs e) (h_offeredIpv4Addr e) (h_clientIpv4Addr e) (h_serverIpv4Addr e) (h_clientHwAddr e) v.

Definition zero_dhcp : dhcpData :=
  mkDhcpData zero_netaddr zero_netaddr zero_netaddr (replicate 128 0) zero_netaddr 0 0 0 0 0 0 0 0 (replicate 6 0) (replicate 6 0).

(** Offsets in a frame with the headers of Ethernet, of IPv4 without options, of UDP and
    of DHCP ([struct dhcpPkt]). *)
Definition D_ETHSRC : Z := 6.
Definition D_IP : Z := ETH_HDR_LEN.
Definition D_UDP : Z := D_IP + IPv4_HDR_LEN.
Definition D_DHCP : Z := D_UDP + UDP_HDR_LEN.
Definition D_OP : Z := D_DHCP.
Definition D_XID : Z := D_DHCP + 4.
Definition D_SECS : Z := D_DHCP + 8.
Definition D_FLAGS : Z := D_DHCP + 10.
Definition D_CIADDR : Z := D_DHCP + 12.
Definition D_YIADDR : Z := D_DHCP + 16.
Definition D_SIADDR : Z := D_DHCP + 20.
Definition D_GIADDR : Z := D_DHCP + 24.
Definition D_CHADDR : Z := D_DHCP + 28.
Definition D_FILE : Z := D_DHCP + 108.
Definition D_COOKIE : Z := D_DHCP + 236.
Definition D_OPTS : Z := D_DHCP + DHCP_HDR_LEN.

(** ** Receiving *)

(** [net2hl] of the four octets at [a]. *)
Definition ldl_net (a : Z) : bprog Z := v ← ldl a; mret (hl2net v).

(** What is found among the options: the mask and the gateway by where they are. *)
Record found := mkFound { f_opts : Z; f_mask : option Z; f_gateway : option Z; f_server : Z; f_msg : Z }.

(** The four octets at [a], the first one high. *)
Definition server_id (a : Z) : bprog Z :=
  b0 ← ldb a; b1 ← ldb (a + 1); b2 ← ldb (a + 2); b3 ← ldb (a + 3);
  mret (Z.lor (Z.lor (Z.lor (Z.shiftl b0 24) (Z.shiftl b1 16)) (Z.shiftl b2 8)) (Z.shiftl b3 0)).

(** The switch on an option whose data is [len] octets at [f_opts]. *)
Definition one_option (state opt len : Z) (f : found) : bprog found :=
  let o := f_opts f in
  if opt =? DHCP_OPT_MSGTYPE then
    if len >=? 1 then
      (if state =? DHCPC_STATE_SELECTING then
         c ← ldb o; mret (if c =? DHCPOFFER then mkFound o (f_mask f) (f_gateway f) (f_server f) c else f)
       else if state =? DHCPC_STATE_REQUESTING then
         c ← ldb o; mret (if (DHCPACK =? c) || (DHCPNAK =? c) then mkFound o (f_mask f) (f_gateway f) (f_server f) c else f)
       else mret f)
    else mret f
  else if opt =? DHCP_OPT_SUBNET then mret (if len >=? IPv4_ADDR_LEN then mkFound o (Some o) (f_gateway f) (f_server f) (f_msg f) else f)
  else if opt =? DHCP_OPT_GATEWAY then mret (if len >=? IPv4_ADDR_LEN then mkFound o (f_mask f) (Some o) (f_server f) (f_msg f) else f)
  else if opt =? DHCP_OPT_SERVER then
    if len >=? IPv4_ADDR_LEN then s ← server_id o; mret (mkFound o (f_mask f) (f_gateway f) s (f_msg f)) else mret f
  else mret f.

Definition set_opts (o : Z) (f : found) : found := mkFound o (f_mask f) (f_gateway f) (f_server f) (f_msg f).

(** A round of the loop over the options, which ends with what was found, or with [None]
    when the options are invalid. *)
Definition option_body (state opts_end : Z) (_ : Z) (f : found) : bprog (found + option found) :=
  let o := f_opts f in
  if o >=? opts_end then mret (inr None) else
  opt ← ldb o;
  if DHCP_OPT_END =? opt then mret (inr (Some f)) else
  if o + 1 >=? opts_end then mret (inr None) else
  len ← ldb (o + 1);
  if o + 2 + len >=? opts_end then mret (inr None) else
  f ← one_option state opt len (set_opts (o + 2) f);
  mret (inl (set_opts (o + 2 + len) f)).

Definition set_address (a : list Z) (old : netaddr) : netaddr := mkNetaddr NETADDR_IPv4 IPv4_ADDR_LEN (into_addr a (na_addr old)).
Definition four (a : Z) : bprog (list Z) := rd_bytes (Z.to_nat IPv4_ADDR_LEN) a.

(** An acknowledgement: the addresses are set. *)
Definition take_ack (p m : Z) (gateway : option Z) (d : dhcpData) : bprog dhcpData :=
  a ← four (p + D_YIADDR);
  y ← ldl_net (p + D_YIADDR);
  let d := set_h_clientIpv4Addr y (set_h_ip (set_address a (h_ip d)) d) in
  a ← four m;
  let d := set_h_mask (set_address a (h_mask d)) d in
  d ← match gateway with None => mret d | Some g => a ← four g; mret (set_h_gateway (set_address a (h_gateway d)) d) end;
  s ← ldl (p + D_SIADDR);
  d ← (if negb (0 =? s) then a ← four (p + D_SIADDR); mret (set_h_next_server (set_address a (h_next_server d)) d) else mret d);
  c ← ldb (p + D_FILE);
  if negb (c =? 0) then l ← rd_bytes 127 (p + D_FILE); mret (set_h_bootfile (into_addr l (h_bootfile d)) d) else mret d.

(** The use of what was found; [None] goes to the next packet. *)
Definition use_found (p : Z) (f : found) (d : dhcpData) : bprog (option (Z * dhcpData)) :=
  let msg := f_msg f in
  if msg <? 0 then mret None else
  if (DHCPACK =? msg) && match f_mask f with None => true | Some _ => false end then mret None else
  server ← (if 0 =? f_server f then ldl_net (p + D_SIADDR) else mret (f_server f));
  if 0 =? server then mret None else
  if DHCPOFFER =? msg then
    y ← ldl_net (p + D_YIADDR);
    hw ← rd_bytes (Z.to_nat ETH_ADDR_LEN) (p + D_ETHSRC);
    mret (Some (OK, set_h_serverHwAddr hw (set_h_offeredIpv4Addr y (set_h_serverIpv4Addr server d))))
  else if negb (server =? h_serverIpv4Addr d) then mret None else
  if DHCPNAK =? msg then mret (Some (SYSERR, d)) else
  match f_mask f with
  | None => fault
  | Some m => d ← take_ack p m (f_gateway f) d; mret (Some (OK, d))
  end.

(** Is it a reply to this client? *)
Definition reply_header (p cxid : Z) : bprog bool :=
  ty ← ldh (p + ETHER_TYPE);
  if negb (ETHER_TYPE_IPv4 =? net2hs ty) then mret false else
  proto ← ldb (p + D_IP + IP_PROTO);
  if negb (IPv4_PROTO_UDP =? proto) then mret false else
  dp ← ldh (p + D_UDP + 2);
  if negb (UDP_PORT_DHCPC =? net2hs dp) then mret false else
  sp ← ldh (p + D_UDP);
  if negb (UDP_PORT_DHCPS =? net2hs sp) then mret false else
  op ← ldb (p + D_OP);
  if negb (DHCP_OP_REPLY =? op) then mret false else
  xid ← ldl_net (p + D_XID);
  mret (cxid =? xid).

(** The packet at [p], of [len] octets; [None] goes to the next packet. *)
Definition dhcp_packet (p len : Z) (d : dhcpData) : bprog (option (Z * dhcpData)) :=
  if len <? ETH_HDR_LEN + IPv4_HDR_LEN + UDP_HDR_LEN + DHCP_HDR_LEN then mret None else
  h ← reply_header p (h_cxid d);
  if negb h then mret None else
  r ← for_ (S (Z.to_nat len)) 0 (option_body (h_state d) (p + len)) (mkFound (p + D_OPTS) None None 0 (-1));
  match r with
  | inl _ => diverge
  | inr None => mret None
  | inr (Some f) => use_found p f d
  end.

(** ** The client *)

(** The state: that of the network, the transfer data of the client, and the seed of
    [rand]. *)
Record dhnet (H : Type) : Type := mkDhnet { dh_net : net H; dh_data : dhcpData; dh_seed : Z }.
Arguments mkDhnet {H}.
Arguments dh_net {H}.
Arguments dh_data {H}.
Arguments dh_seed {H}.

Section Dhcp.
Context {H : Type} (devtab : gmap Z (device (net H))).

Abbreviation cprog := (dprog (dhnet H)).

Definition net_of (w : dst (dhnet H)) : dst (net H) := mkDst (kern w) (user w) (dh_net (own w)).
Definition put_net (v : dst (net H)) (w : dst (dhnet H)) : dst (dhnet H) :=
  mkDst (kern v) (user v) (mkDhnet (own v) (dh_data (own w)) (dh_seed (own w))).
Definition ncall {A} (m : dprog (net H) A) : cprog A := zoom net_of put_net m.
Definition put_data (d : dhcpData) (w : dst (dhnet H)) : dst (dhnet H) := set_own (mkDhnet (dh_net (own w)) d (dh_seed (own w))) w.
Definition data : cprog dhcpData := gets (fun w => dh_data (own w)).
Definition amend_data (f : dhcpData -> dhcpData) : cprog unit := modify (fun w => put_data (f (dh_data (own w))) w).
Definition rcall {A} (m : prog Z A) : cprog A :=
  zoom (fun w => dh_seed (own w)) (fun s w => set_own (mkDhnet (dh_net (own w)) (dh_data (own w)) s) w) m.

Definition recv_round (descrp pkt maxlen : Z) (_ : Z) (_ : unit) : cprog (unit + Z) :=
  len ← ncall (read devtab descrp (data_of pkt) maxlen);
  if (len =? SYSERR) || (len <=? 0) then amend_data (set_h_recvStatus SYSERR);; mret (inr SYSERR) else
  ncall (amend_pkt pkt (set_p_len len));;
  d ← data;
  r ← ucall (dhcp_packet (data_of pkt) len d);
  match r with
  | None => mret (inl tt)
  | Some (retval, d) => amend_data (fun _ => set_h_recvStatus retval d);; mret (inr retval)
  end.

(** The thread that receives; packets that are no answer can come for ever, so [rounds]
    is how many are followed. *)
Definition do_dhcpRecvReply (rounds : nat) (descrp pkt : Z) : cprog Z :=
  mtu ← ncall (control devtab descrp NET_GET_MTU 0 0);
  linkhdrlen ← ncall (control devtab descrp NET_GET_LINKHDRLEN 0 0);
  if (SYSERR =? mtu) || (SYSERR =? linkhdrlen) then mret SYSERR else
  maxlen ← int (linkhdrlen + mtu);
  r ← for_ rounds 0 (recv_round descrp pkt (u32 maxlen)) tt;
  match r with inl _ => diverge | inr v => mret v end.

Definition recv_name : list Z := [100; 104; 99; 112; 82; 101; 99; 118; 82; 101; 112; 108; 121].

(** [recvproc] is the address of the code of [do_dhcpRecvReply], [dataptr] that of the
    transfer data. *)
Definition dhcpRecvReply (FPU_WORDS fpexc fpscr userret recvproc dataptr : Z) (descrp timeout : Z) : cprog Z :=
  pkt ← ncall netGetbuf;
  if SYSERR =? i32 pkt then mret SYSERR else
  tid ← kcall (create FPU_WORDS fpexc fpscr userret recvproc NET_THR_STK NET_THR_PRIO recv_name 3 [descrp; dataptr; pkt]);
  bad ← kcall (isbadtid tid);
  if (bad : bool) then ncall (netFreebuf pkt);; mret SYSERR else
  kcall (ready tid);;
  kcall resched;;
  r ← kcall (recvtime (i32 timeout));
  retval ← (if TIMEOUT =? r then kcall (kill tid);; kcall receive;; mret TIMEOUT
            else d ← data; mret (h_recvStatus d) : cprog Z);
  ncall (netFreebuf pkt);;
  mret retval.

(** The four octets of a number, the high one first. *)
Definition be32 (x : Z) : list Z := [u8 (x / 2 ^ 24); u8 (x / 2 ^ 16); u8 (x / 2 ^ 8); u8 x].

(** The options of a request, or [None] in the other states; the padding makes their
    number a multiple of four. *)
Definition request_options (d : dhcpData) : option (list Z) :=
  let params := [DHCP_OPT_PARAMREQ; 2; DHCP_OPT_SUBNET; DHCP_OPT_GATEWAY] in
  if h_state d =? DHCPC_STATE_INIT then Some ([DHCP_OPT_MSGTYPE; 1; DHCPDISCOVER] ++ params)
  else if h_state d =? DHCPC_STATE_SELECTING then
    Some ([DHCP_OPT_MSGTYPE; 1; DHCPREQUEST] ++ [DHCP_OPT_REQUEST; IPv4_ADDR_LEN] ++ be32 (h_offeredIpv4Addr d) ++
          [DHCP_OPT_SERVER; IPv4_ADDR_LEN] ++ be32 (h_serverIpv4Addr d) ++ params)
  else None.
Definition end_options (l : list Z) : list Z := l ++ replicate (4 - length l mod 4)%nat DHCP_OPT_END.

(** The headers of a request at [p], whose options are [opts]. *)
Definition write_dhcp (p : Z) (opts : list Z) (secs : Z) (d : dhcpData) : bprog unit :=
  stb (p + D_OP) DHCP_OP_REQUEST;;
  stb (p + D_DHCP + 1) DHCP_HTYPE_ETHER;;
  stb (p + D_DHCP + 2) ETH_ADDR_LEN;;
  stb (p + D_DHCP + 3) 0;;
  stl (p + D_XID) (hl2net (h_cxid d));;
  sth (p + D_SECS) (hs2net secs);;
  sth (p + D_FLAGS) 0;;
  stl (p + D_CIADDR) (hl2net (h_clientIpv4Addr d));;
  stl (p + D_YIADDR) 0;;
  stl (p + D_SIADDR) 0;;
  stl (p + D_GIADDR) 0;;
  wr_bytes (p + D_CHADDR) (h_clientHwAddr d);;
  stl (p + D_COOKIE) (hl2net DHCP_MAGICCOOKIE);;
  wr_bytes (p + D_OPTS) opts.

Definition write_udp_ip (p optsize : Z) : bprog unit :=
  let ip := p + D_IP in
  let udp := p + D_UDP in
  let pktsize := ETH_HDR_LEN + IPv4_HDR_LEN + UDP_HDR_LEN + DHCP_HDR_LEN + optsize in
  sth udp (hs2net UDP_PORT_DHCPC);;
  sth (udp + 2) (hs2net UDP_PORT_DHCPS);;
  sth (udp + 4) (hs2net (UDP_HDR_LEN + DHCP_HDR_LEN + optsize));;
  stb (ip + IP_PROTO) IPv4_PROTO_UDP;;
  memset (ip + IP_SRC) 0 IPv4_ADDR_LEN;;
  memset (ip + IP_DST) 255 IPv4_ADDR_LEN;;
  stb (ip + IP_TTL) 0;;
  ulen ← ldh (udp + 4);
  sth (ip + IP_CHKSUM) ulen;;
  c ← netChksum (ip + IP_TTL) (12 + UDP_HDR_LEN + DHCP_HDR_LEN + optsize);
  sth (udp + 6) c;;
  stb ip (Z.lor (Z.shiftl IPv4_VERSION 4) (IPv4_HDR_LEN / 4));;
  stb (ip + 1) IPv4_TOS_ROUTINE;;
  sth (ip + IP_LEN) (hs2net (pktsize - ETH_HDR_LEN));;
  sth (ip + IP_ID) 0;;
  sth (ip + IP_FROFF) (hs2net (Z.lor IPv4_FLAG_DF 0));;
  stb (ip + IP_TTL) IPv4_TTL;;
  sth (ip + IP_CHKSUM) 0;;
  c ← netChksum ip IPv4_HDR_LEN;
  sth (ip + IP_CHKSUM) c.

Definition write_ether (p : Z) (d : dhcpData) : bprog unit :=
  memset p 255 ETH_ADDR_LEN;;
  wr_bytes (p + D_ETHSRC) (h_clientHwAddr d);;
  sth (p + ETHER_TYPE) (hs2net ETHER_TYPE_IPv4).

Definition dhcpSendRequest (descrp : Z) : cprog Z :=
  d ← data;
  match request_options d with
  | None => mret SYSERR
  | Some opts =>
      let opts := end_options opts in
      let optsize := Z.of_nat (length opts) in
      pkt_ ← ncall netGetbuf;
      if SYSERR =? i32 pkt_ then mret SYSERR else
      let pktsize := ETH_HDR_LEN + IPv4_HDR_LEN + UDP_HDR_LEN + DHCP_HDR_LEN + optsize in
      ncall (amend_pkt pkt_ (fun e => set_p_len (u32 (p_len e + pktsize)) e));;
      ncall (amend_pkt pkt_ (fun e => set_p_curr (p_curr e - pktsize) e));;
      e ← ncall (pkt pkt_);
      let p := p_curr e in
      ticks ← gets (fun w => clktime (kern w));
      (if h_state d =? DHCPC_STATE_SELECTING then mret tt
       else amend_data (set_h_discoverSecs (u16 (ticks - h_starttime d))));;
      d ← data;
      ucall (write_dhcp p opts (h_discoverSecs d) d);;
      ucall (write_udp_ip p optsize);;
      ucall (write_ether p d);;
      n ← ncall (write devtab descrp p pktsize);
      ncall (netFreebuf pkt_);;
      mret (if pktsize =? u32 n then OK else SYSERR)
  end.

(** The state INIT: [get_mac] is what the driver stores for ETH_CTRL_GET_MAC, with the
    result of the call.  [Some] is the result of the client. *)
Definition client_init (get_mac : Z -> dprog (net H) (Z * list Z)) (descrp : Z) : cprog (option Z) :=
  cxid ← rcall rand;
  amend_data (set_h_cxid (u32 cxid));;
  now ← gets (fun w => clktime (kern w));
  amend_data (set_h_starttime (u32 now));;
  amend_data (set_h_clientIpv4Addr 0);;
  amend_data (set_h_serverIpv4Addr 0);;
  m ← ncall (get_mac descrp);
  amend_data (set_h_clientHwAddr (snd m));;
  if SYSERR =? fst m then mret (Some SYSERR) else
  amend_data (set_h_serverHwAddr (replicate 6 0));;
  retval ← dhcpSendRequest descrp;
  if OK =? retval then amend_data (set_h_state DHCPC_STATE_SELECTING);; mret None else mret (Some SYSERR).

Definition client_selecting (recv : cprog Z) (descrp : Z) : cprog (option Z) :=
  retval ← recv;
  if negb (OK =? retval) then
    amend_data (set_h_state DHCPC_STATE_INIT);;
    (if negb (TIMEOUT =? retval) then kcall (sleep 1000);; mret tt else mret tt);;
    mret None
  else
  retval ← dhcpSendRequest descrp;
  if OK =? retval then amend_data (set_h_state DHCPC_STATE_REQUESTING);; mret None else
  amend_data (set_h_state DHCPC_STATE_INIT);; kcall (sleep 1000);; mret None.

Definition client_requesting (recv : cprog Z) : cprog (option Z) :=
  retval ← recv;
  if OK =? retval then amend_data (set_h_state DHCPC_STATE_BOUND);; mret (Some OK) else
  amend_data (set_h_state DHCPC_STATE_INIT);;
  (if negb (TIMEOUT =? retval) then kcall (sleep 1000);; mret tt else mret tt);;
  mret None.

Definition client_round (get_mac : Z -> dprog (net H) (Z * list Z)) (recv : cprog Z) (descrp deadline : Z) (_ : Z) (_ : unit) : cprog (unit + Z) :=
  now ← gets (fun w => clktime (kern w));
  if negb (now <=? deadline) then mret (inr TIMEOUT) else
  d ← data;
  r ← (if h_state d =? DHCPC_STATE_INIT then client_init get_mac descrp
       else if h_state d =? DHCPC_STATE_SELECTING then client_selecting recv descrp
       else if h_state d =? DHCPC_STATE_REQUESTING then client_requesting recv
       else mret None);
  mret (match r with Some v => inr v | None => inl tt end).

(** [dhcpClient], for data that is not null; [rounds] is how many rounds of the loop,
    which ends by the clock, are followed. *)
Definition dhcpClient (rounds : nat) (FPU_WORDS fpexc fpscr userret recvproc dataptr : Z) (get_mac : Z -> dprog (net H) (Z * list Z))
    (descrp timeout : Z) : cprog Z :=
  starttime ← gets (fun w => clktime (kern w));
  if (descrp <? ETH0) || (descrp >=? ETH0 + NETHER) then mret SYSERR else
  if 0 =? timeout then mret SYSERR else
  if NULL =? dataptr then mret SYSERR else
  up ← ncall (netLookup descrp);
  match up with
  | Some _ => mret SYSERR
  | None =>
      amend_data (fun _ => zero_dhcp);;
      amend_data (set_h_state DHCPC_STATE_INIT);;
      r ← for_ rounds 0 (client_round get_mac (dhcpRecvReply FPU_WORDS fpexc fpscr userret recvproc dataptr descrp 5000)
                           descrp (u32 (starttime + timeout))) tt;
      match r with inr v => mret v | inl _ => diverge end
  end.
End Dhcp.
