(* ===== verification/DhcpReply.v ===== *)
(** Replies of DHCP servers: what dhcpRecvReply.c makes of a frame, whatever its octets, is
    what a reference makes of it that takes the frame as a list and the options as a list
    of tags with their data. *)
From Stdlib Require Import ZArith Lia.
From stdpp Require Import sorting gmap functions list.
From S2P Require Import Prelude Kernel Bytes Device Chksum Netaddr Net Wire Snoop Ipv4 Udp Tcp Dhcp.

(** ** The reference *)

(** The number whose octets are [l], the high one first. *)
Definition be (l : list Z) : Z := foldl (fun a c => 256 * a + c) 0 l.

(** The options in [l] up to the end mark, which every option has to leave room for. *)
Fixpoint options (n : nat) (l : list Z) : option (list (Z * list Z)) :=
  match n, l with
  | S n, tag :: l =>
      if tag =? DHCP_OPT_END then Some [] else
      match l with
      | [] => None
      | len :: l =>
          if len <? Z.of_nat (length l) then cons (tag, take (Z.to_nat len) l) <$> options n (drop (Z.to_nat len) l)
          else None
      end
  | _, _ => None
  end.

(** The message types that are waited for. *)
Definition wanted (state c : Z) : bool :=
  if state =? DHCPC_STATE_SELECTING then c =? DHCPOFFER
  else (state =? DHCPC_STATE_REQUESTING) && ((c =? DHCPACK) || (c =? DHCPNAK)).
Definition is_message (state : Z) (o : Z * list Z) : bool :=
  (o.1 =? DHCP_OPT_MSGTYPE) && match o.2 with c :: _ => wanted state c | [] => false end.
Definition is_address (tag : Z) (o : Z * list Z) : bool := (o.1 =? tag) && (IPv4_ADDR_LEN <=? Z.of_nat (length o.2)).

(** Of several options the last one counts. *)
Definition last_such (P : Z * list Z -> bool) (os : list (Z * list Z)) : option (list Z) := snd <$> last (filter (fun o => P o = true) os).
Definition message (state : Z) (os : list (Z * list Z)) : option Z := last_such (is_message state) os ≫= head.
Definition address (tag : Z) (os : list (Z * list Z)) : option (list Z) := take 4 <$> last_such (is_address tag) os.

(** A frame with a reply of a DHCP server to the request [cxid]. *)
Definition is_reply (cxid : Z) (l : list Z) : bool :=
  (282 <=? Z.of_nat (length l)) && (be (field l 12 2) =? ETHER_TYPE_IPv4) && (octet l 23 =? IPv4_PROTO_UDP) &&
  (be (field l 36 2) =? UDP_PORT_DHCPC) && (be (field l 34 2) =? UDP_PORT_DHCPS) && (octet l 42 =? DHCP_OP_REPLY) &&
  (be (field l 46 4) =? cxid).

(** The server: its option, or else the address in the header. *)
Definition server_of (l : list Z) (os : list (Z * list Z)) : Z :=
  match address DHCP_OPT_SERVER os with
  | Some a => if be a =? 0 then be (field l 62 4) else be a
  | None => be (field l 62 4)
  end.

(** What an acknowledgement with the mask [m] sets. *)
Definition bound (l : list Z) (os : list (Z * list Z)) (m : list Z) (d : dhcpData) : dhcpData :=
  let d := set_h_clientIpv4Addr (be (field l 58 4)) (set_h_ip (set_address (field l 58 4) (h_ip d)) d) in
  let d := set_h_mask (set_address m (h_mask d)) d in
  let d := match address DHCP_OPT_GATEWAY os with Some a => set_h_gateway (set_address a (h_gateway d)) d | None => d end in
  let d := if be (field l 62 4) =? 0 then d else set_h_next_server (set_address (field l 62 4) (h_next_server d)) d in
  if octet l 150 =? 0 then d else set_h_bootfile (into_addr (field l 150 127) (h_bootfile d)) d.

(** The status and the transfer data after a frame; [None] when it is no answer. *)
Definition answer (d : dhcpData) (l : list Z) : option (Z * dhcpData) :=
  if is_reply (h_cxid d) l then
    os ← options (S (length l)) (drop 282 l);
    msg ← message (h_state d) os;
    let server := server_of l os in
    if server =? 0 then None else
    if msg =? DHCPOFFER then
      Some (OK, set_h_serverHwAddr (field l 6 6) (set_h_offeredIpv4Addr (be (field l 58 4)) (set_h_serverIpv4Addr server d)))
    else if negb (server =? h_serverIpv4Addr d) then None
    else if msg =? DHCPNAK then Some (SYSERR, d)
    else m ← address DHCP_OPT_SUBNET os; Some (OK, bound l os m d)
  else None.

(** ** Numbers in memory *)

Lemma land_shifted x m k : 0 <= k -> Z.land x (Z.shiftl m k) = Z.shiftl (Z.land (Z.shiftr x k) m) k.
Proof.
  intros Hk. apply Z.bits_inj'. intros n Hn. rewrite Z.land_spec, !Z.shiftl_spec, Z.land_spec by lia.
  destruct (Z.ltb_spec n k) as [Hlt | Hle]; [by rewrite !(Z.testbit_neg_r _ (n - k)), andb_false_r by lia |].
  rewrite Z.shiftr_spec by lia. by replace (n - k + k) with n by lia.
Qed.

Lemma shifted_byte x k : 0 <= k -> Z.land (Z.shiftr x k) 255 = x / 2 ^ k mod 256.
Proof. intros Hk. change 255 with (Z.ones 8). by rewrite Z.land_ones, Z.shiftr_div_pow2 by lia. Qed.

Lemma hl2net_swap a b c d : isbyte a -> isbyte b -> isbyte c -> isbyte d ->
  hl2net (a + 256 * b + (c + 256 * d) * 65536) = be [a; b; c; d].
Proof.
  unfold isbyte. intros Ha Hb Hc Hd. set (x := a + 256 * b + (c + 256 * d) * 65536). unfold hl2net.
  change 16711680 with (Z.shiftl 255 16). change 65280 with (Z.shiftl 255 8).
  rewrite !land_shifted, !shifted_byte, Z.shiftr_shiftl_l, Z.shiftl_shiftl by lia. change (16 - 8) with 8. change (8 + 8) with 16.
  replace (Z.land x 255) with a by (change 255 with (Z.ones 8); rewrite Z.land_ones by lia; change (2 ^ 8) with 256; unfold x; lia).
  change (2 ^ 24) with 16777216. change (2 ^ 16) with 65536. change (2 ^ 8) with 256.
  replace (x / 16777216 mod 256) with d by (unfold x; lia). replace (x / 65536 mod 256) with c by (unfold x; lia).
  replace (x / 256 mod 256) with b by (unfold x; lia).
  rewrite (lor_shiftl (Z.shiftl c 8) b 16) by (rewrite ?Z.shiftl_mul_pow2 by lia; lia).
  replace (Z.shiftl c 8 + b * 2 ^ 16) with (Z.shiftl (c + b * 2 ^ 8) 8) by (rewrite !Z.shiftl_mul_pow2 by lia; lia).
  rewrite lor_shiftl, Z.lor_comm, lor_shiftl by lia. unfold be. cbn [foldl]. lia.
Qed.

Lemma server_id_be a b c d : isbyte a -> isbyte b -> isbyte c -> isbyte d ->
  Z.lor (Z.lor (Z.lor (Z.shiftl a 24) (Z.shiftl b 16)) (Z.shiftl c 8)) (Z.shiftl d 0) = be [a; b; c; d].
Proof.
  unfold isbyte. intros Ha Hb Hc Hd. rewrite Z.shiftl_0_r.
  rewrite (Z.lor_comm (Z.shiftl a 24)), (lor_shiftl (Z.shiftl b 16) a 24) by (rewrite ?Z.shiftl_mul_pow2 by lia; lia).
  rewrite (Z.lor_comm _ (Z.shiftl c 8)).
  replace (Z.shiftl b 16 + a * 2 ^ 24) with (Z.shiftl (b + a * 2 ^ 8) 16) by (rewrite !Z.shiftl_mul_pow2 by lia; lia).
  rewrite (lor_shiftl (Z.shiftl c 8)) by (rewrite ?Z.shiftl_mul_pow2 by lia; lia). rewrite Z.lor_comm.
  replace (Z.shiftl c 8 + (b + a * 2 ^ 8) * 2 ^ 16) with (Z.shiftl (c + (b + a * 2 ^ 8) * 2 ^ 8) 8) by (rewrite !Z.shiftl_mul_pow2 by lia; lia).
  rewrite lor_shiftl by lia. unfold be. cbn [foldl]. lia.
Qed.

Section Numbers.
Context (m : bytemem).

Lemma run_ldh_be a x : bytes_at m a x -> length x = 2%nat -> Forall isbyte x ->
  exists v, run (ldh a) m = Done v m /\ net2hs v = be x.
Proof.
  intros Hx Hn Hb. destruct x as [|c0 [|c1 [|]]]; try discriminate. apply bytes_at_cons in Hx as [H0 Hx]. apply bytes_at_cons in Hx as [H1 _].
  apply Forall_cons in Hb as [B0 Hb]. apply Forall_cons in Hb as [B1 _].
  exists (c0 + 256 * c1). split; [by apply run_ldh |]. unfold net2hs. rewrite hs2net_swap by done. unfold be. cbn [foldl]. lia.
Qed.

Lemma run_ldl_be a x : bytes_at m a x -> length x = 4%nat -> Forall isbyte x ->
  exists v, run (ldl a) m = Done v m /\ hl2net v = be x /\ (v = 0 <-> be x = 0).
Proof.
  intros Hx Hn Hb. destruct x as [|c0 [|c1 [|c2 [|c3 [|]]]]]; try discriminate.
  repeat (apply bytes_at_cons in Hx as [? Hx]). repeat (apply Forall_cons in Hb as [? Hb]).
  exists (c0 + 256 * c1 + (c2 + 256 * c3) * 65536). split; [| split; [by apply hl2net_swap |]].
  - unfold ldl. rewrite run_bind, (run_ldh _ c0 c1) by done. cbn [obind].
    rewrite run_bind, (run_ldh _ c2 c3) by (by rewrite <- ?Z.add_assoc in * ). done.
  - unfold isbyte, be in *. cbn [foldl]. lia.
Qed.

Lemma run_ldl_net a x : bytes_at m a x -> length x = 4%nat -> Forall isbyte x -> run (ldl_net a) m = Done (be x) m.
Proof.
  intros Hx Hn Hb. destruct (run_ldl_be a x Hx Hn Hb) as (v & E & Ev & _). unfold ldl_net. rewrite run_bind, E. cbn [obind]. by rewrite run_ret, Ev.
Qed.

Lemma run_server_id a x : bytes_at m a x -> length x = 4%nat -> Forall isbyte x -> run (server_id a) m = Done (be x) m.
Proof.
  intros Hx Hn Hb. destruct x as [|c0 [|c1 [|c2 [|c3 [|]]]]]; try discriminate.
  repeat (apply bytes_at_cons in Hx as [? Hx]). repeat (apply Forall_cons in Hb as [? Hb]).
  unfold server_id. rewrite run_bind, (run_ldb _ c0) by done. cbn [obind]. rewrite run_bind, (run_ldb _ c1) by done. cbn [obind].
  rewrite run_bind, (run_ldb _ c2) by (by rewrite <- ?Z.add_assoc in * ). cbn [obind].
  rewrite run_bind, (run_ldb _ c3) by (by rewrite <- ?Z.add_assoc in * ). cbn [obind]. by rewrite run_ret, server_id_be.
Qed.

Lemma run_four a x : bytes_at m a x -> length x = 4%nat -> run (four a) m = Done x m.
Proof. intros Hx Hn. unfold four. change (Z.to_nat IPv4_ADDR_LEN) with 4%nat. rewrite <- Hn. by apply run_rd_bytes. Qed.

(** ** The options *)

Lemma last_such_snoc P os o : last_such P (os ++ [o]) = if P o then Some o.2 else last_such P os.
Proof.
  unfold last_such. rewrite filter_app, filter_cons, filter_nil. case_decide as Hp; rewrite ?last_snoc.
  - by rewrite Hp.
  - rewrite app_nil_r. by destruct (P o).
Qed.

Lemma message_snoc st os o : message st (os ++ [o]) = if is_message st o then head o.2 else message st os.
Proof. unfold message. rewrite last_such_snoc. by destruct (is_message st o). Qed.
Lemma address_snoc tag os o : address tag (os ++ [o]) = if is_address tag o then Some (take 4 o.2) else address tag os.
Proof. unfold address. rewrite last_such_snoc. by destruct (is_address tag o). Qed.

Lemma message_wanted st os c : message st os = Some c -> c = DHCPOFFER \/ c = DHCPACK \/ c = DHCPNAK.
Proof.
  induction os as [|o os IH] using rev_ind; [done |]. rewrite message_snoc. destruct (is_message st o) eqn:E; [| exact IH].
  unfold is_message, wanted in E. destruct o as [tag [|x dat]]; cbn [fst snd head] in *; [by rewrite andb_false_r in E |].
  intros [= ->]. repeat case_match; lia.
Qed.

(** An address in memory. *)
Definition at_address (o : option Z) (x : option (list Z)) : Prop :=
  match o, x with
  | Some a, Some x => bytes_at m a x /\ length x = 4%nat /\ Forall isbyte x
  | None, None => True
  | _, _ => False
  end.

(** What the loop has found in the options [os]. *)
Record has_found (st : Z) (os : list (Z * list Z)) (f : found) : Prop := {
  hf_mask : at_address (f_mask f) (address DHCP_OPT_SUBNET os);
  hf_gateway : at_address (f_gateway f) (address DHCP_OPT_GATEWAY os);
  hf_server : f_server f = match address DHCP_OPT_SERVER os with Some a => be a | None => 0 end;
  hf_msg : f_msg f = match message st os with Some c => c | None => -1 end
}.

Lemma has_found_opts st os f o : has_found st os f -> has_found st os (set_opts o f).
Proof. by intros [H1 H2 H3 H4]. Qed.

Lemma run_one_option st os f tag dat : has_found st os f -> bytes_at m (f_opts f) dat -> Forall isbyte dat ->
  exists f', run (one_option st tag (Z.of_nat (length dat)) f) m = Done f' m /\ f_opts f' = f_opts f /\ has_found st (os ++ [(tag, dat)]) f'.
Proof.
  intros [H1 H2 H3 H4] Hd Hb. set (n := Z.of_nat (length dat)).
  assert (Hfour : (IPv4_ADDR_LEN <=? n) = true -> at_address (Some (f_opts f)) (Some (take 4 dat))).
  { intros Hn%Z.leb_le. unfold IPv4_ADDR_LEN in Hn. split; [by apply bytes_at_take |]. split; [rewrite length_take; lia | by apply Forall_take]. }
  assert (Hmsg : forall g, f_mask g = f_mask f -> f_gateway g = f_gateway f -> f_server g = f_server f -> tag = DHCP_OPT_MSGTYPE ->
    f_msg g = match message st (os ++ [(tag, dat)]) with Some c => c | None => -1 end -> has_found st (os ++ [(tag, dat)]) g).
  { intros g E1 E2 E3 -> Em. by split; rewrite ?address_snoc, ?E1, ?E2, ?E3. }
  unfold one_option. replace (n >=? IPv4_ADDR_LEN) with (IPv4_ADDR_LEN <=? n) by lia.
  destruct (Z.eqb_spec tag DHCP_OPT_MSGTYPE) as [Et|Ht].
  - destruct dat as [|c dat].
    + exists f. split; [done |]. split; [done |]. apply Hmsg; try done. rewrite message_snoc. unfold is_message. cbn. by rewrite andb_false_r.
    + assert (Hn1 : 1 <= n) by (unfold n; cbn [length]; lia). rewrite (proj2 (Z.geb_le n 1) Hn1). apply bytes_at_cons in Hd as [Hc _].
      assert (Em : message st (os ++ [(tag, c :: dat)]) = if wanted st c then Some c else message st os).
      { rewrite message_snoc. unfold is_message. cbn [fst snd head]. by rewrite Et. }
      unfold wanted in Em. destruct (st =? DHCPC_STATE_SELECTING); [| destruct (st =? DHCPC_STATE_REQUESTING)]; cbn [andb] in Em.
      * rewrite run_bind, (run_ldb _ c) by done. cbn [obind]. rewrite run_ret. eexists. split; [done |].
        destruct (c =? DHCPOFFER); (split; [done | apply Hmsg; try done; by rewrite Em]).
      * rewrite run_bind, (run_ldb _ c) by done. cbn [obind]. rewrite run_ret. eexists. split; [done |].
        rewrite (Z.eqb_sym DHCPACK), (Z.eqb_sym DHCPNAK). destruct ((c =? DHCPACK) || (c =? DHCPNAK)); (split; [done | apply Hmsg; try done; by rewrite Em]).
      * exists f. split; [done |]. split; [done |]. apply Hmsg; try done. by rewrite Em.
  - assert (Em : message st (os ++ [(tag, dat)]) = message st os) by (rewrite message_snoc; unfold is_message; cbn [fst]; by rewrite (proj2 (Z.eqb_neq _ _))).
    assert (Ea : forall t, address t (os ++ [(tag, dat)]) = if (tag =? t) && (IPv4_ADDR_LEN <=? n) then Some (take 4 dat) else address t os).
    { intros t. by rewrite address_snoc. }
    destruct (Z.eqb_spec tag DHCP_OPT_SUBNET) as [->|H5]; [| destruct (Z.eqb_spec tag DHCP_OPT_GATEWAY) as [->|H6];
      [| destruct (Z.eqb_spec tag DHCP_OPT_SERVER) as [->|H7]]].
    + eexists. split; [done |]. destruct (IPv4_ADDR_LEN <=? n) eqn:En; (split; [done |]); split; rewrite ?Em, ?Ea; try done. by apply Hfour.
    + eexists. split; [done |]. destruct (IPv4_ADDR_LEN <=? n) eqn:En; (split; [done |]); split; rewrite ?Em, ?Ea; try done. by apply Hfour.
    + destruct (IPv4_ADDR_LEN <=? n) eqn:En.
      * destruct (Hfour eq_refl) as (Hx & Hx4 & Hxb). rewrite run_bind, (run_server_id _ (take 4 dat)) by done. cbn [obind]. rewrite run_ret.
        eexists. split; [done |]. split; [done |]. by split; rewrite ?Em, ?Ea.
      * eexists. split; [done |]. split; [done |]. by split; rewrite ?Em, ?Ea.
    + exists f. split; [done |]. split; [done |]. split; rewrite ?Em, ?Ea; try done; by rewrite (proj2 (Z.eqb_neq tag _)) by done.
Qed.
End Numbers.

(** ** A frame *)

Lemma run_option_body m st e i rest os f : bytes_at m (f_opts f) rest -> f_opts f + Z.of_nat (length rest) = e -> Forall isbyte rest ->
  has_found m st os f ->
  let o := run (option_body st e i f) m in
  match rest with
  | tag :: rest =>
      if tag =? DHCP_OPT_END then o = Done (inr (Some f)) m else
      match rest with
      | [] => o = Done (inr None) m
      | len :: rest =>
          if len <? Z.of_nat (length rest) then
            exists f', o = Done (inl f') m /\ has_found m st (os ++ [(tag, take (Z.to_nat len) rest)]) f' /\
              bytes_at m (f_opts f') (drop (Z.to_nat len) rest) /\ f_opts f' + Z.of_nat (length (drop (Z.to_nat len) rest)) = e
          else o = Done (inr None) m
      end
  | [] => o = Done (inr None) m
  end.
Proof.
  intros Hm He Hb Hf o. subst o. unfold option_body.
  destruct rest as [|tag rest]; cbn [length] in *; [by rewrite (proj2 (Z.geb_le _ _)) by lia |].
  replace (f_opts f >=? e) with false by lia. apply bytes_at_cons in Hm as [Htag Hm]. apply Forall_cons in Hb as [_ Hb].
  rewrite run_bind, (run_ldb _ tag) by done. cbn [obind]. rewrite (Z.eqb_sym DHCP_OPT_END).
  destruct (tag =? DHCP_OPT_END); [done |].
  destruct rest as [|len rest]; cbn [length] in *; [by rewrite (proj2 (Z.geb_le _ _)) by lia |].
  replace (f_opts f + 1 >=? e) with false by lia. apply bytes_at_cons in Hm as [Hlen Hm]. apply Forall_cons in Hb as [Blen Hb].
  rewrite run_bind, (run_ldb _ len) by done. cbn [obind]. unfold isbyte in Blen.
  destruct (Z.ltb_spec len (Z.of_nat (length rest))) as [Hlt | Hge]; [| by rewrite (proj2 (Z.geb_le _ _)) by lia].
  replace (f_opts f + 2 + len >=? e) with false by lia.
  assert (Hl : length (take (Z.to_nat len) rest) = Z.to_nat len) by (rewrite length_take; lia).
  rewrite <- (take_drop (Z.to_nat len) rest) in Hm, Hb. apply bytes_at_app in Hm as [Hm1 Hm2]. apply Forall_app in Hb as [Hb1 _]. rewrite Hl in Hm2.
  destruct (run_one_option m st os (set_opts (f_opts f + 2) f) tag (take (Z.to_nat len) rest)) as (f' & E & _ & Hf');
    [by apply has_found_opts | unfold set_opts; cbn [f_opts]; by replace (f_opts f + 2) with (f_opts f + 1 + 1) by lia | done |].
  rewrite Hl, Z2Nat.id in E by lia. rewrite run_bind, E. cbn [obind]. rewrite run_ret. eexists. split; [done |].
  split; [by apply has_found_opts |]. unfold set_opts. cbn [f_opts]. split; [| rewrite length_drop; lia].
  by replace (f_opts f + 2 + len) with (f_opts f + 1 + 1 + Z.of_nat (Z.to_nat len)) by lia.
Qed.

Lemma run_options m st e n : forall i rest os f, bytes_at m (f_opts f) rest -> f_opts f + Z.of_nat (length rest) = e -> Forall isbyte rest ->
  (length rest < n)%nat -> has_found m st os f ->
  match options n rest with
  | None => run (for_ n i (option_body st e) f) m = Done (inr None) m
  | Some os' => exists f', run (for_ n i (option_body st e) f) m = Done (inr (Some f')) m /\ has_found m st (os ++ os') f'
  end.
Proof.
  induction n as [|n IH]; intros i rest os f Hm He Hb Hn Hf; [lia |]. cbn [options for_]. rewrite run_bind.
  pose proof (run_option_body m st e i rest os f Hm He Hb Hf) as Ho. cbv zeta in Ho.
  destruct rest as [|tag rest]; [by rewrite Ho |].
  destruct (tag =? DHCP_OPT_END); [exists f; rewrite Ho, app_nil_r; by split |]. destruct rest as [|len rest]; [by rewrite Ho |].
  destruct (len <? Z.of_nat (length rest)); [| by rewrite Ho]. destruct Ho as (f' & E & Hf' & Hm' & He'). rewrite E. cbn [obind].
  apply Forall_cons in Hb as [_ Hb]. apply Forall_cons in Hb as [_ Hb]. cbn [length] in Hn.
  specialize (IH (i + 1) (drop (Z.to_nat len) rest) _ f' Hm' He' ltac:(by apply Forall_drop) ltac:(rewrite length_drop; lia) Hf').
  destruct (options n (drop (Z.to_nat len) rest)) as [os'|]; cbn [fmap option_fmap option_map]; [| exact IH].
  destruct IH as (f'' & E' & Hf''). exists f''. split; [exact E' |]. by rewrite <- app_assoc in Hf''.
Qed.

Section Reply.
Context (m : bytemem) (p : Z) (l : list Z).
Hypothesis Hl : bytes_at m p l.
Hypothesis Hb : Forall isbyte l.
Hypothesis Hn : 282 <= Z.of_nat (length l).

Lemma field_at i n : 0 <= i -> 0 <= n -> i + n <= Z.of_nat (length l) ->
  bytes_at m (p + i) (field l i n) /\ length (field l i n) = Z.to_nat n /\ Forall isbyte (field l i n).
Proof.
  intros Hi Hn' Hin. unfold field. split; [| split; [rewrite length_take, length_drop; lia | by apply Forall_take, Forall_drop]].
  apply bytes_at_take. rewrite <- (take_drop (Z.to_nat i) l) in Hl. apply bytes_at_app in Hl as [_ H].
  rewrite length_take in H. by replace (p + i) with (p + Z.of_nat (Z.to_nat i `min` length l)) by lia.
Qed.

Lemma run_octet_at i : 0 <= i < 282 -> run (ldb (p + i)) m = Done (octet l (Z.to_nat i)) m.
Proof.
  intros Hi. apply run_ldb. unfold octet. destruct (lookup_lt_is_Some_2 l (Z.to_nat i) ltac:(lia)) as [c Hc]. rewrite Hc. cbn.
  apply Hl in Hc. by rewrite Z2Nat.id in Hc by lia.
Qed.

Lemma run_half i : 0 <= i < 280 -> exists v, run (ldh (p + i)) m = Done v m /\ net2hs v = be (field l i 2).
Proof. intros Hi. destruct (field_at i 2 ltac:(lia) ltac:(lia) ltac:(lia)) as (H1 & H2 & H3). by apply run_ldh_be. Qed.
Lemma run_word i : 0 <= i < 278 -> run (ldl_net (p + i)) m = Done (be (field l i 4)) m.
Proof. intros Hi. destruct (field_at i 4 ltac:(lia) ltac:(lia) ltac:(lia)) as (H1 & H2 & H3). by apply run_ldl_net. Qed.
Lemma run_part i n : 0 <= i -> 0 <= n -> i + n <= 282 -> run (rd_bytes (Z.to_nat n) (p + i)) m = Done (field l i n) m.
Proof. intros Hi Hn' Hin. destruct (field_at i n ltac:(lia) ltac:(lia) ltac:(lia)) as (H1 & <- & H3). by apply run_rd_bytes. Qed.

Lemma run_reply_header cxid : run (reply_header p cxid) m = Done (is_reply cxid l) m.
Proof.
  unfold reply_header, is_reply. rewrite (proj2 (Z.leb_le 282 _)) by done. cbn [andb].
  destruct (run_half 12 ltac:(lia)) as (ty & E1 & <-), (run_half 36 ltac:(lia)) as (dp & E2 & <-), (run_half 34 ltac:(lia)) as (sp & E3 & <-).
  pose proof (run_octet_at 23 ltac:(lia)) as E4. pose proof (run_octet_at 42 ltac:(lia)) as E5. pose proof (run_word 46 ltac:(lia)) as E6.
  replace (p + ETHER_TYPE) with (p + 12) by done. replace (p + D_IP + IP_PROTO) with (p + 23) by (unfold D_IP, ETH_HDR_LEN, IP_PROTO; lia).
  replace (p + D_UDP + 2) with (p + 36) by (unfold D_UDP, D_IP, ETH_HDR_LEN, IPv4_HDR_LEN; lia).
  change (p + D_UDP) with (p + 34). change (p + D_OP) with (p + 42). change (p + D_XID) with (p + 46).
  rewrite run_bind, E1. cbn [obind]. rewrite (Z.eqb_sym ETHER_TYPE_IPv4). destruct (net2hs ty =? ETHER_TYPE_IPv4); cbn [negb andb]; [| done].
  rewrite run_bind, E4. cbn [obind]. rewrite (Z.eqb_sym IPv4_PROTO_UDP). change (Z.to_nat 23) with 23%nat.
  destruct (octet l 23 =? IPv4_PROTO_UDP); cbn [negb andb]; [| done].
  rewrite run_bind, E2. cbn [obind]. rewrite (Z.eqb_sym UDP_PORT_DHCPC). destruct (net2hs dp =? UDP_PORT_DHCPC); cbn [negb andb]; [| done].
  rewrite run_bind, E3. cbn [obind]. rewrite (Z.eqb_sym UDP_PORT_DHCPS). destruct (net2hs sp =? UDP_PORT_DHCPS); cbn [negb andb]; [| done].
  rewrite run_bind, E5. cbn [obind]. rewrite (Z.eqb_sym DHCP_OP_REPLY). change (Z.to_nat 42) with 42%nat.
  destruct (octet l 42 =? DHCP_OP_REPLY); cbn [negb andb]; [| done].
  rewrite run_bind, E6. cbn [obind]. rewrite run_ret. by rewrite Z.eqb_sym.
Qed.

Lemma run_take_ack os mp x g d : at_address m (Some mp) (Some x) -> at_address m g (address DHCP_OPT_GATEWAY os) ->
  run (take_ack p mp g d) m = Done (bound l os x d) m.
Proof.
  intros (Hm & Hm4 & _) Hg. unfold take_ack, bound.
  assert (Ey : run (four (p + 58)) m = Done (field l 58 4) m) by (apply (run_part 58 4); lia).
  assert (Es : run (four (p + 62)) m = Done (field l 62 4) m) by (apply (run_part 62 4); lia).
  destruct (field_at 62 4 ltac:(lia) ltac:(lia) ltac:(lia)) as (F1 & F2 & F3). destruct (run_ldl_be _ _ _ F1 F2 F3) as (s & Ew & _ & Hs).
  change (p + D_YIADDR) with (p + 58). change (p + D_SIADDR) with (p + 62). change (p + D_FILE) with (p + 150).
  rewrite run_bind, Ey. cbn [obind]. rewrite run_bind, run_word by lia. cbn [obind].
  rewrite run_bind, (run_four _ _ x) by done. cbn [obind]. rewrite run_bind.
  set (d1 := set_h_mask _ _).
  assert (Eg : run (match g with None => mret d1 | Some g => a ← four g; mret (set_h_gateway (set_address a (h_gateway d1)) d1) end) m =
    Done (match address DHCP_OPT_GATEWAY os with Some a => set_h_gateway (set_address a (h_gateway d1)) d1 | None => d1 end) m).
  { destruct g as [g|], (address DHCP_OPT_GATEWAY os) as [a|]; try done. destruct Hg as (G1 & G2 & _). by rewrite run_bind, (run_four _ _ a). }
  rewrite Eg. cbn [obind]. set (d2 := match address _ _ with Some _ => _ | None => _ end).
  rewrite run_bind, Ew. cbn [obind]. rewrite run_bind.
  assert (En : run (if negb (0 =? s) then a ← four (p + 62); mret (set_h_next_server (set_address a (h_next_server d2)) d2) else mret d2) m =
    Done (if be (field l 62 4) =? 0 then d2 else set_h_next_server (set_address (field l 62 4) (h_next_server d2)) d2) m).
  { destruct (Z.eqb_spec 0 s) as [E0|E0], (Z.eqb_spec (be (field l 62 4)) 0) as [E1|E1]; cbn [negb]; try done; try lia.
    by rewrite run_bind, Es. }
  rewrite En. cbn [obind]. set (d3 := if _ =? 0 then _ else _).
  rewrite run_bind, run_octet_at by lia. cbn [obind]. change (Z.to_nat 150) with 150%nat. destruct (octet l 150 =? 0); cbn [negb]; [done |].
  rewrite run_bind. change 127%nat with (Z.to_nat 127). by rewrite run_part by lia.
Qed.

Lemma run_use_found os f d : has_found m (h_state d) os f ->
  run (use_found p f d) m = Done (msg ← message (h_state d) os;
    let server := server_of l os in
    if server =? 0 then None else
    if msg =? DHCPOFFER then
      Some (OK, set_h_serverHwAddr (field l 6 6) (set_h_offeredIpv4Addr (be (field l 58 4)) (set_h_serverIpv4Addr server d)))
    else if negb (server =? h_serverIpv4Addr d) then None
    else if msg =? DHCPNAK then Some (SYSERR, d)
    else m ← address DHCP_OPT_SUBNET os; Some (OK, bound l os m d)) m.
Proof.
  intros [H1 H2 H3 H4]. unfold use_found. rewrite H4. destruct (message (h_state d) os) as [msg|] eqn:Em; [| done].
  apply message_wanted in Em. cbn [mbind option_bind]. rewrite (proj2 (Z.ltb_ge msg 0)) by (unfold DHCPOFFER, DHCPACK, DHCPNAK in Em; lia).
  rewrite (Z.eqb_sym DHCPACK), (Z.eqb_sym DHCPOFFER), (Z.eqb_sym DHCPNAK).
  assert (Es : run (if 0 =? f_server f then ldl_net (p + D_SIADDR) else mret (f_server f)) m = Done (server_of l os) m).
  { unfold server_of. rewrite H3, (Z.eqb_sym 0). change (p + D_SIADDR) with (p + 62). pose proof (run_word 62 ltac:(lia)) as E.
    destruct (address DHCP_OPT_SERVER os) as [a|]; [| exact E]. destruct (be a =? 0); [exact E | done]. }
  pose proof (run_word 58 ltac:(lia)) as Ey. pose proof (run_part 6 6 ltac:(lia) ltac:(lia) ltac:(lia)) as Eh.
  change (p + D_YIADDR) with (p + 58). change (p + D_ETHSRC) with (p + 6). change (Z.to_nat ETH_ADDR_LEN) with (Z.to_nat 6).
  destruct (f_mask f) as [mp|], (address DHCP_OPT_SUBNET os) as [x|]; try done; rewrite ?andb_false_r, ?andb_true_r.
  - rewrite run_bind, Es. cbn [obind]. rewrite (Z.eqb_sym 0). destruct (server_of l os =? 0); [done |].
    destruct (msg =? DHCPOFFER); [rewrite run_bind, Ey; cbn [obind]; by rewrite run_bind, Eh |].
    destruct (server_of l os =? h_serverIpv4Addr d); cbn [negb]; [| done]. destruct (msg =? DHCPNAK); [done |].
    by rewrite run_bind, (run_take_ack os mp x).
  - destruct (Z.eqb_spec msg DHCPACK) as [->|Hne]; [by repeat case_match |].
    rewrite run_bind, Es. cbn [obind]. rewrite (Z.eqb_sym 0). destruct (server_of l os =? 0); [done |].
    destruct (Z.eqb_spec msg DHCPOFFER) as [->|Ho]; [rewrite run_bind, Ey; cbn [obind]; by rewrite run_bind, Eh |].
    destruct (server_of l os =? h_serverIpv4Addr d); cbn [negb]; [| done]. destruct (Z.eqb_spec msg DHCPNAK); [done | intuition congruence].
Qed.
End Reply.

(** C26: For every frame, whatever its octets, the client finds what the reference finds in
    the list of the octets: it reads none but those of the frame, the loop over the
    options ends, and the memory is as it was. *)
Theorem dhcp_packet_answer m p l d : bytes_at m p l -> Forall isbyte l ->
  run (dhcp_packet p (Z.of_nat (length l)) d) m = Done (answer d l) m.
Proof.
  intros Hl Hb. unfold dhcp_packet, answer. change (ETH_HDR_LEN + IPv4_HDR_LEN + UDP_HDR_LEN + DHCP_HDR_LEN) with 282.
  destruct (Z.ltb_spec (Z.of_nat (length l)) 282) as [Hlt | Hn].
  { unfold is_reply. by rewrite (proj2 (Z.leb_gt 282 _)) by lia. }
  rewrite run_bind, (run_reply_header m p l) by done. cbn [obind]. destruct (is_reply (h_cxid d) l); cbn [negb]; [| done].
  rewrite Nat2Z.id, run_bind.
  assert (Hrest : bytes_at m (p + D_OPTS) (drop 282 l)).
  { rewrite <- (take_drop 282 l) in Hl. apply bytes_at_app in Hl as [_ H]. rewrite length_take in H. change (p + D_OPTS) with (p + 282). by replace (Z.of_nat (282 `min` length l)) with 282 in H by lia. }
  pose proof (run_options m (h_state d) (p + Z.of_nat (length l)) (S (length l)) 0 (drop 282 l) [] (mkFound (p + D_OPTS) None None 0 (-1))
    Hrest ltac:(rewrite length_drop; change (p + D_OPTS) with (p + 282); cbn [f_opts]; lia) ltac:(by apply Forall_drop) ltac:(rewrite length_drop; lia) ltac:(by split)) as Ho.
  destruct (options (S (length l)) (drop 282 l)) as [os|]; [| by rewrite Ho].
  destruct Ho as (f & -> & Hf). cbn [obind mbind option_bind]. by apply run_use_found.
Qed.
