(* ===== verification/Tftp.v ===== *)
(** The TFTP client: network/tftp/tftpGet.c, tftpSendRRQ.c, tftpSendACK.c,
    tftpRecvPackets.c and tftpGetIntoBuffer.c.  A file is received block by block through a
    routine of the caller; what the client takes of the packets it is told of is compared
    with a reference function. *)
From Stdlib Require Import ZArith Lia.
From stdpp Require Import sorting gmap functions list.
From S2P Require Import Prelude Kernel Queue QueueFacts Sched Semaphore Clock Message Memory Boot Frame Thread BufPool Bytes Device Rely DevTab Chksum Netaddr Tcb Net Wire Snoop Route Arp Ipv4 Udp Tcp DhcpReply.

Definition TFTP_OPCODE_RRQ : Z := 1.
Definition TFTP_OPCODE_DATA : Z := 3.
Definition TFTP_OPCODE_ACK : Z := 4.
Definition TFTP_OPCODE_ERROR : Z := 5.
Definition TFTP_BLOCK_TIMEOUT : Z := 10.
Definition TFTP_INIT_BLOCK_TIMEOUT : Z := 1.
Definition TFTP_INIT_BLOCK_MAX_RETRIES : Z := 10.
Definition TFTP_BLOCK_SIZE : Z := 512.
Definition TFTP_MAX_PACKET_LEN : Z := 516.
Definition UDP_PORT_TFTP : Z := 69.

(** Offsets in [struct tftpPkt]. *)
Definition TF_BLOCK : Z := 2.
Definition TF_DATA : Z := 4.

Section Tftp.
Context {H : Type} (devtab : gmap Z (device (net H))).

Abbreviation nprog := (dprog (net H)).

(** ** Packets *)

(** [sp] is the address of the local packet, [octet] that of the string. *)
Definition tftpSendRRQ (sp octet : Z) (udpdev filename : Z) : nprog Z :=
  n ← ucall (strnlen filename 256);
  if (0 =? n) || (256 =? n) then mret SYSERR else
  ucall (sth sp (hs2net TFTP_OPCODE_RRQ));;
  ucall (memcpy (sp + 2) filename (n + 1));;
  ucall (memcpy (sp + 2 + n + 1) octet 6);;
  let pktlen := 2 + n + 1 + 6 in
  r ← write devtab udpdev sp pktlen;
  mret (if pktlen =? u32 r then OK else SYSERR).

Definition tftpSendACK (sp : Z) (udpdev block_number : Z) : nprog Z :=
  ucall (sth sp (hs2net TFTP_OPCODE_ACK));;
  ucall (sth (sp + TF_BLOCK) (hs2net block_number));;
  r ← write devtab udpdev sp 4;
  mret (if 4 =? r then OK else SYSERR).

(** The thread that receives; it only ends when it is killed, so [rounds] is how many
    packets are followed. *)
Definition tftpRecvPackets (rounds : nat) (udpdev pkt parent : Z) : nprog Z :=
  for_ rounds 0 (fun _ (_ : unit) =>
    kcall receive;;
    result ← read devtab udpdev pkt TFTP_MAX_PACKET_LEN;
    kcall (send parent result);;
    mret (inl tt : unit + unit)) tt;;
  diverge.

(** ** The transfer *)

(** The variables of the loop. *)
Record transfer := mkTransfer {
  x_send_udpdev : Z;
  x_num_rreqs_sent : Z;
  x_block_recv_tries : Z;
  x_next_block_number : Z;
  x_block_max_end_time : Z
}.

(** Waiting for a packet: the receive thread is told to go on. *)
Definition tftp_await (recv_tid ms : Z) : nprog Z := kcall (send recv_tid 0);; kcall (recvtime ms).

Section Loop.
(** The addresses of the packet of the receive thread and of the local packets, the
    routines that send the request and wait for a packet, and that of the caller. *)
Context (pkt sp : Z) (request : Z -> nprog Z) (await : Z -> nprog Z) (recvData : Z -> Z -> nprog Z).
Context (recv_udpdev : Z) (server : netaddr).

(** The end of the time for the block, which starts with the first try. *)
Definition end_time (now : Z) (x : transfer) : Z :=
  if x_block_recv_tries x =? 0 then
    u32 (now + (if x_next_block_number x =? 1 then TFTP_INIT_BLOCK_TIMEOUT else TFTP_BLOCK_TIMEOUT))
  else x_block_max_end_time x.

(** The time is over: the request is sent again, or the transfer ends. *)
Definition timed_out (x : transfer) : nprog (transfer + Z) :=
  if (x_next_block_number x =? 1) && (x_num_rreqs_sent x <? TFTP_INIT_BLOCK_MAX_RETRIES) then
    retval ← request (x_send_udpdev x);
    if SYSERR =? retval then mret (inr SYSERR) else
    mret (inl (mkTransfer (x_send_udpdev x) (u32 (x_num_rreqs_sent x + 1)) 0 (x_next_block_number x) (x_block_max_end_time x)))
  else mret (inr SYSERR).

(** Is the packet no data of the next block or the one before? *)
Definition unexpected (x : transfer) (wrong_source : bool) (retval opcode recv_block_number : Z) : bool :=
  wrong_source || (retval <? 4) || negb (TFTP_OPCODE_DATA =? opcode) ||
  (negb (recv_block_number =? u16 (x_next_block_number x)) &&
   ((x_next_block_number x =? 1) || negb (recv_block_number =? u16 (x_next_block_number x) - 1))).

(** A packet that is not expected is ignored, unless it tells of an error. *)
Definition bad_packet (x : transfer) (wrong_source : bool) (retval opcode : Z) : nprog (transfer + Z) :=
  if negb wrong_source && ((retval >=? 2) && (TFTP_OPCODE_ERROR =? opcode)) then mret (inr SYSERR) else
  (if wrong_source && (x_next_block_number x =? 1) then
     kcall ENTER_KERNEL_CRITICAL_SECTION;;
     control devtab recv_udpdev UDP_CTRL_BIND 0 NULL;;
     control devtab recv_udpdev UDP_CTRL_SETFLAG UDP_FLAG_BINDFIRST 0;;
     kcall EXIT_KERNEL_CRITICAL_SECTION
   else mret tt);;
  mret (inl x).

(** The data of a block: it is handed to the caller when it is the next one, and
    acknowledged. *)
Definition good_packet (x : transfer) (retval recv_block_number : Z) : nprog (transfer + Z) :=
  let x := if x_next_block_number x =? 1 then
             mkTransfer recv_udpdev (x_num_rreqs_sent x) (x_block_recv_tries x) (x_next_block_number x) (x_block_max_end_time x) else x in
  r ← (if recv_block_number =? u16 (x_next_block_number x) then
         let block_nbytes := u16 (retval - 4) in
         retval ← recvData (pkt + TF_DATA) block_nbytes;
         if negb (OK =? retval) then mret (inr retval) else
         mret (inl (mkTransfer (x_send_udpdev x) (x_num_rreqs_sent x) 0 (u32 (x_next_block_number x + 1)) (x_block_max_end_time x), block_nbytes))
       else mret (inl (x, TFTP_BLOCK_SIZE)) : nprog ((transfer * Z) + Z));
  match r with
  | inr retval => mret (inr retval)
  | inl (x, block_nbytes) =>
      retval ← tftpSendACK sp (x_send_udpdev x) recv_block_number;
      if block_nbytes <? TFTP_BLOCK_SIZE then mret (inr OK) else
      if SYSERR =? retval then mret (inr SYSERR) else mret (inl x)
  end.

Definition transfer_body (_ : Z) (x : transfer) : nprog (transfer + Z) :=
  now ← gets (fun w => clktime (kern w));
  let now := u32 now in
  let x := mkTransfer (x_send_udpdev x) (x_num_rreqs_sent x) (x_block_recv_tries x) (x_next_block_number x) (end_time now x) in
  r ← (if now <=? x_block_max_end_time x then
         retval ← await (i32 (u32 (1000 * (x_block_max_end_time x - now) + 500)));
         mret (mkTransfer (x_send_udpdev x) (x_num_rreqs_sent x) (u32 (x_block_recv_tries x + 1)) (x_next_block_number x) (x_block_max_end_time x), retval)
       else mret (x, TIMEOUT));
  let '(x, retval) := r in
  if TIMEOUT =? retval then timed_out x else
  if SYSERR =? retval then mret (inr SYSERR) else
  u ← udpx (recv_udpdev - UDP0);
  op ← ucall (ldh pkt);
  bn ← ucall (ldh (pkt + TF_BLOCK));
  let opcode := net2hs op in
  let recv_block_number := net2hs bn in
  same ← netaddrequal server (u_remoteip u);
  let wrong_source := negb (same : bool) in
  if unexpected x wrong_source retval opcode recv_block_number then bad_packet x wrong_source retval opcode
  else good_packet x retval recv_block_number.

(** The loop, of which [rounds] rounds are followed. *)
Definition transfer_with (rounds : nat) (send_udpdev : Z) : nprog Z :=
  r ← for_ rounds 0 transfer_body (mkTransfer send_udpdev 1 0 1 0);
  match r with inr v => mret v | inl _ => diverge end.
End Loop.

(** The loop as the client has it: the request is for [filename], and the packets come
    from the thread [recv_tid]. *)
Definition transfer_loop (pkt sp octet filename recv_tid : Z) (recvData : Z -> Z -> nprog Z) (recv_udpdev : Z) (server : netaddr)
    (rounds : nat) (send_udpdev : Z) : nprog Z :=
  transfer_with pkt sp (fun d => tftpSendRRQ sp octet d filename) (tftp_await recv_tid) recvData recv_udpdev server rounds send_udpdev.

(** ** The client *)

(** The descriptor of a socket whose entry in the table is set free. *)
Definition free_socket (udpdev : Z) : nprog unit := amend_udp (udpdev - UDP0) (set_u_state UDP_FREE).

Definition recv_thread_name : list Z := [116; 102; 116; 112; 82; 101; 99; 118; 80; 97; 99; 107; 101; 116; 115].

(** The transfer with both sockets open: the receive thread is made, and killed at the
    end.  [recvproc] is the address of the code of [tftpRecvPackets]. *)
Definition get_with (FPU_WORDS fpexc fpscr userret recvproc : Z) (rounds : nat) (pkt sp octet : Z) (recvData : Z -> Z -> nprog Z)
    (filename : Z) (server : netaddr) (udpdev udpdev2 : Z) : nprog Z :=
  control devtab udpdev2 UDP_CTRL_SETFLAG UDP_FLAG_BINDFIRST 0;;
  self ← kcall gettid;
  recv_tid ← kcall (create FPU_WORDS fpexc fpscr userret recvproc NET_THR_STK NET_THR_PRIO recv_thread_name 3 [udpdev2; pkt; self]);
  bad ← kcall (isbadtid recv_tid);
  if (bad : bool) then mret SYSERR else
  kcall (ready recv_tid);;
  retval ← tftpSendRRQ sp octet udpdev filename;
  retval ← (if SYSERR =? retval then mret SYSERR else
    transfer_loop pkt sp octet filename recv_tid recvData udpdev2 server rounds udpdev);
  kcall (kill recv_tid);;
  mret retval.

(** The addresses [local_ip] and [server_ip], the name and the routine are not null. *)
Definition tftpGet (FPU_WORDS fpexc fpscr userret recvproc : Z) (rounds : nat) (pkt sp octet : Z) (recvData : Z -> Z -> nprog Z)
    (filename local_ip server_ip : Z) : nprog Z :=
  if (NULL =? filename) || (NULL =? local_ip) || (NULL =? server_ip) then mret SYSERR else
  udpdev ← udpAlloc;
  if SYSERR =? udpdev then mret SYSERR else
  r ← open devtab udpdev [local_ip; server_ip; 0; UDP_PORT_TFTP];
  if SYSERR =? r then free_socket udpdev;; mret SYSERR else
  u ← udpx (udpdev - UDP0);
  let localpt := u_localpt u in
  udpdev2 ← udpAlloc;
  retval ← (if SYSERR =? udpdev2 then mret SYSERR else
    r ← open devtab udpdev2 [local_ip; NULL; localpt; 0];
    if SYSERR =? r then free_socket udpdev2;; mret SYSERR else
    server ← get_netaddr server_ip;
    retval ← get_with FPU_WORDS fpexc fpscr userret recvproc rounds pkt sp octet recvData filename server udpdev udpdev2;
    close devtab udpdev2;;
    mret retval);
  close devtab udpdev;;
  mret retval.

(** ** Into a buffer

    A block of the list has the number of octets in it, the address of the next block and
    the octets. *)

Definition TFTP_FILE_DATA_BLOCK_SIZE : Z := 4096.
Definition FB_NEXT : Z := 4.
Definition FB_DATA : Z := 8.
Definition FB_CAP : Z := TFTP_FILE_DATA_BLOCK_SIZE - FB_DATA.

Definition new_block : nprog Z :=
  b ← kcall (memget TFTP_FILE_DATA_BLOCK_SIZE);
  if SYSERR =? i32 b then mret SYSERR else
  ucall (Ipv4.stl b 0);;
  ucall (Ipv4.stl (b + FB_NEXT) 0);;
  mret b.

(** The loop of the routine that takes the data; its state is [(len, data, tail)], and
    [tailptr] the address of the variable with the last block. *)
Definition copy_body (tailptr : Z) (_ : Z) (st : Z * Z * Z) : nprog ((Z * Z * Z) + Z) :=
  let '(len, data, tail) := st in
  if negb (negb (0 =? len)) then mret (inr OK) else
  filled ← ucall (ldl tail);
  t ← (if filled =? FB_CAP then
         newtail ← new_block;
         if SYSERR =? newtail then mret SYSERR else
         ucall (Ipv4.stl (tail + FB_NEXT) newtail);;
         ucall (Ipv4.stl tailptr newtail);;
         mret newtail
       else mret tail);
  if SYSERR =? t then mret (inr SYSERR) else
  filled ← ucall (ldl t);
  let copylen := if len >? u32 (FB_CAP - filled) then u32 (FB_CAP - filled) else len in
  ucall (memcpy (t + FB_DATA + filled) data copylen);;
  ucall (Ipv4.stl t (u32 (filled + copylen)));;
  mret (inl (u32 (len - copylen), data + copylen, t)).
Definition tftpCopyIntoBufferCb (tailptr data len : Z) : nprog Z :=
  tail ← ucall (ldl tailptr);
  r ← for_ (S (Z.to_nat len)) 0 (copy_body tailptr) (len, data, tail);
  match r with inr v => mret v | inl _ => diverge end.

(** The loops over the list; their states are [(totallen, ptr)]. *)
Definition length_body (st : Z * Z) : nprog (Z * Z) :=
  let '(totallen, ptr) := st in
  filled ← ucall (ldl ptr);
  next ← ucall (ldl (ptr + FB_NEXT));
  mret (u32 (totallen + filled), next).
Definition empty_body (finalbuf : Z) (st : Z * Z) : nprog (Z * Z) :=
  let '(totallen, ptr) := st in
  next ← ucall (ldl (ptr + FB_NEXT));
  filled ← ucall (ldl ptr);
  (if negb (SYSERR =? i32 finalbuf) then ucall (memcpy (finalbuf + totallen) (ptr + FB_DATA) filled);; mret tt else mret tt);;
  kcall (memfree ptr TFTP_FILE_DATA_BLOCK_SIZE);;
  mret (u32 (totallen + filled), next).
Definition each_block (body : Z * Z -> nprog (Z * Z)) (head : Z) : nprog Z :=
  fuel ← gets (fun w => bfuel (user w));
  st ← body (0, head);
  r ← while_ fuel (fun st => mret (negb (NULL =? snd st))) body st;
  mret (fst r).

(** [get] is the transfer with the routine that takes the data, [tailptr] the address of
    the local variable. *)
Definition tftpGetIntoBuffer (get : (Z -> Z -> nprog Z) -> nprog Z) (tailptr len_ret : Z) : nprog Z :=
  if NULL =? len_ret then mret SYSERR else
  head ← new_block;
  if SYSERR =? head then mret SYSERR else
  ucall (Ipv4.stl tailptr head);;
  retval ← get (tftpCopyIntoBufferCb tailptr);
  finalbuf ← (if OK =? retval then totallen ← each_block length_body head; kcall (memget totallen) else mret SYSERR);
  totallen ← each_block (empty_body finalbuf) head;
  (if negb (SYSERR =? i32 finalbuf) then ucall (Ipv4.stl len_ret totallen) else mret tt);;
  mret (i32 finalbuf).
End Tftp.

(** ** What is received *)

(** What the client finds when it has been told of a packet: the length it was told, the
    memory, which has the packet, and the sockets. *)
Record report := mkReport { e_len : Z; e_mem : bytemem; e_socks : gmap Z udp }.

Section Reports.
Context (pkt recv_udpdev : Z) (server : netaddr).

(** The number at [a], in the order of the network. *)
Definition half_at (m : bytemem) (a : Z) : option Z :=
  match m !! a, m !! (a + 1) with Some lo, Some hi => Some (net2hs (lo + 256 * hi)) | _, _ => None end.
Fixpoint octets_at (m : bytemem) (a : Z) (n : nat) : list Z :=
  match n with
  | O => []
  | Datatypes.S n => match m !! a with Some c => c :: octets_at m (a + 1) n | None => [] end
  end.

(** Is the packet the data of block [k] from the server? *)
Definition offers (e : report) (k : Z) : bool :=
  match e_socks e !! (recv_udpdev - UDP0), half_at (e_mem e) pkt, half_at (e_mem e) (pkt + TF_BLOCK) with
  | Some u, Some opcode, Some b =>
      same_addr server (u_remoteip u) && (4 <=? e_len e) && (opcode =? TFTP_OPCODE_DATA) && (b =? u16 k)
  | _, _, _ => false
  end.
Definition e_data (e : report) : list Z := octets_at (e_mem e) (pkt + TF_DATA) (Z.to_nat (u16 (e_len e - 4))).

(** The file in the packets [es]: the first that is block [k] from the server, after it
    the first that is the next block, and so on. *)
Fixpoint collect (k : Z) (es : list report) : list (list Z) :=
  match es with
  | [] => []
  | e :: es => if offers e k then e_data e :: collect (k + 1) es else collect k es
  end.

(** All the blocks but the last one are full. *)
Definition ends_short (ds : list (list Z)) : Prop :=
  exists ds' d, ds = ds' ++ [d] /\ Forall (fun d => TFTP_BLOCK_SIZE <= Z.of_nat (length d)) ds' /\ Z.of_nat (length d) < TFTP_BLOCK_SIZE.

Definition block (file : list Z) (k : Z) : list Z := take 512 (drop (512 * (Z.to_nat k - 1)) file).

(** The server sends the blocks of [file]. *)
Definition sends (file : list Z) (es : list report) : Prop :=
  forall e k, e ∈ es -> 1 <= k < 65536 -> offers e k = true -> e_data e = block file k.

Lemma offers_len e k : offers e k = true -> 4 <= e_len e.
Proof. unfold offers. intros Ho. repeat (case_match; try done). apply andb_true_iff in Ho as [Ho _]. apply andb_true_iff in Ho as [Ho _]. apply andb_true_iff in Ho as [_ Ho]. lia. Qed.

Lemma collect_snoc e es : forall k,
  collect k (es ++ [e]) = collect k es ++ (if offers e (k + Z.of_nat (length (collect k es))) then [e_data e] else []).
Proof.
  induction es as [|e' es IH]; intros k; cbn [collect app].
  - rewrite Z.add_0_r. by destruct (offers e k).
  - destruct (offers e' k); rewrite IH; [| done]. cbn [app length]. by replace (k + 1 + Z.of_nat (length (collect (k + 1) es))) with
      (k + Z.of_nat (Datatypes.S (length (collect (k + 1) es)))) by lia.
Qed.

Lemma octets_bytes m : forall d a, bytes_at m a d -> octets_at m a (length d) = d.
Proof.
  induction d as [|c d IH]; intros a Hd; [done |]. apply bytes_at_cons in Hd as [E Hd].
  cbn [length octets_at]. by rewrite E, IH.
Qed.

Lemma u16_u32 x : u16 (u32 x) = u16 x.
Proof. unfold u16, u32. change (2 ^ 32) with (2 ^ 16 * 2 ^ 16). apply Z.mod_mod_divide. by exists (2 ^ 16). Qed.

Lemma u32_add_l x y : u32 (u32 x + y) = u32 (x + y).
Proof. apply Zplus_mod_idemp_l. Qed.

Lemma collect_file file : Z.of_nat (length file) < 512 * 65535 -> forall es k, sends file es -> 1 <= k -> 512 * (k - 1) <= Z.of_nat (length file) ->
  ends_short (collect k es) -> take (512 * (Z.to_nat k - 1)) file ++ concat (collect k es) = file.
Proof.
  intros Hsm. induction es as [|e es IH]; intros k Hs Hk Hl (ds & d & E & Hds & Hd); cbn [collect] in *; [by destruct ds |].
  assert (Hs' : sends file es) by (intros e' k' He'; by apply Hs, list_elem_of_further).
  destruct (offers e k) eqn:Eo; [| apply IH; try done; by exists ds, d].
  pose proof (Hs e k ltac:(left) ltac:(lia) Eo) as Eb.
  assert (Hlen : length (e_data e) = (512 `min` (length file - 512 * (Z.to_nat k - 1)))%nat) by (rewrite Eb; unfold block; by rewrite length_take, length_drop).
  assert (Et : take (512 * (Z.to_nat k - 1)) file ++ e_data e = take (512 * (Z.to_nat k - 1) + 512) file) by (rewrite Eb; unfold block; apply take_take_drop).
  cbn [concat]. rewrite app_assoc, Et. unfold TFTP_BLOCK_SIZE in *. destruct ds as [|d0 ds].
  - injection E as <- ->. cbn. rewrite app_nil_r. apply take_ge. lia.
  - injection E as <- E. apply Forall_cons in Hds as [H0 Hds].
    replace (512 * (Z.to_nat k - 1) + 512)%nat with (512 * (Z.to_nat (k + 1) - 1))%nat by lia.
    apply IH; [done | lia | lia | by exists ds, d].
Qed.
End Reports.

Section Received.
Context {H : Type} (devtab : gmap Z (device (net H))).
Context (pkt sp : Z) (request : Z -> dprog (net H) Z) (recv_tid : Z) (recvData : Z -> Z -> dprog (net H) Z).
Context (recv_udpdev : Z) (server : netaddr).

(** Two parts of the state that are there for the statement: what the caller's routine
    has been handed, and the reports so far; [note] adds to these. *)
Context (got : dst (net H) -> list (list Z)) (log : dst (net H) -> list report) (note : report -> dst (net H) -> dst (net H)).
Hypothesis Hnote : forall e w, log (note e w) = log w ++ [e] /\ got (note e w) = got w /\ user (note e w) = user w /\ udptab (own (note e w)) = udptab (own w).

(** The wait of the client, with a report of what it finds at its end. *)
Definition watched (ms : Z) : dprog (net H) Z :=
  n ← tftp_await recv_tid ms;
  modify (fun w => note (mkReport n (user w) (udptab (own w))) w);;
  mret n.

Definition view (w : dst (net H)) : list (list Z) * list report := (got w, log w).
Abbreviation holds := (wp view (fun _ => True)).

(** The caller's routine takes the octets it is given, when it returns OK. *)
Definition takes : Prop := forall a n w, 0 <= n ->
  holds (recvData a n) w (fun v w' => v = OK ->
    exists d, bytes_at (user w) a d /\ Z.of_nat (length d) = n /\ got w' = got w ++ [d] /\ log w' = log w).

(** What else the client does leaves the two parts alone. *)
Record aside : Prop := {
  as_request : forall d, steady view id (request d);
  as_ack : forall d b, steady view id (tftpSendACK devtab sp d b);
  as_control : forall d f a b, steady view id (control devtab d f a b);
  as_kern : forall s w, view (set_kern s w) = view w
}.
Hypothesis Haside : aside.
Hypothesis Htakes : takes.

Lemma holds_run {A} (m : dprog (net H) A) w (P : A -> dst (net H) -> Prop) :
  match run m w with Done a w' => P a w' | Switch _ _ => False | _ => True end -> holds m w P.
Proof. destruct m as [r]. change (run (Prog r) w) with (r w). cbn [wp]. by destruct (r w). Qed.

Lemma run_ldb_cases a (m : bytemem) : run (ldb a) m = match m !! a with Some c => Done c m | None => Fault end.
Proof. reflexivity. Qed.

Lemma holds_ldh a w P : (forall v, half_at (user w) a = Some (net2hs v) -> P v w) -> holds (ucall (ldh a)) w P.
Proof.
  intros HP. apply holds_run. unfold ucall. rewrite run_zoom. unfold ldh. rewrite run_bind, run_ldb_cases. unfold half_at in HP.
  destruct (user w !! a) as [lo|] eqn:E1; [| done]. cbn [obind]. rewrite run_bind, run_ldb_cases.
  destruct (user w !! (a + 1)) as [hi|] eqn:E2; [| done]. cbn [obind]. rewrite run_ret. cbn [ozoom]. destruct w as [k u o]. by apply HP.
Qed.

Lemma holds_netaddrequal a b w P : P (same_addr a b) w -> holds (netaddrequal a b) w P.
Proof.
  intros HP. apply holds_run. unfold netaddrequal, same_addr, abytes, first_bytes in *.
  destruct ((na_type a =? na_type b) && (na_len a =? na_len b)) eqn:E; cbn [andb] in *; [| by rewrite run_ret].
  apply andb_true_iff in E as [_ E%Z.eqb_eq]. rewrite <- E in HP. rewrite run_bind.
  destruct (na_len a <=? Z.of_nat (length (na_addr a))); [| done]. rewrite run_ret. cbn [obind]. rewrite run_bind.
  destruct (na_len a <=? Z.of_nat (length (na_addr b))); [| done]. rewrite run_ret. cbn [obind]. by rewrite run_ret.
Qed.

Lemma holds_aside {A} (m : dprog (net H) A) w (P : A -> dst (net H) -> Prop) :
  steady view id m -> (forall a w', view w' = view w -> P a w') -> holds m w P.
Proof. intros Hm HP. by apply wp_steady with (kept := id). Qed.

Lemma steady_kern {A} (m : kprog A) : steady view id (kcall m : dprog (net H) A).
Proof. apply steady_zoom. intros t s. exact (as_kern Haside t s). Qed.

(** From a state with the view [v0], the reports [es] have come, and the blocks in them
    have been handed over. *)
Context (v0 : list (list Z) * list report).
Abbreviation collected := (collect pkt recv_udpdev server 1).
Definition handed (es : list report) (v : list (list Z) * list report) : Prop :=
  v = (v0.1 ++ collected es, v0.2 ++ es).

(** Between the rounds, with the reports [es]: the blocks were full, and the next one is
    awaited. *)
Definition between_rounds (es : list report) (x : transfer) : Prop :=
  x_next_block_number x = u32 (1 + Z.of_nat (length (collected es))) /\
  Forall (fun d => TFTP_BLOCK_SIZE <= Z.of_nat (length d)) (collected es).

Definition received (x : transfer) (w : dst (net H)) : Prop := exists es, handed es (view w) /\ between_rounds es x.

(** What a round of the loop leaves. *)
Definition after (r : transfer + Z) (w : dst (net H)) : Prop :=
  match r with
  | inl x => received x w
  | inr v => v = OK -> exists es, handed es (view w) /\ ends_short (collected es)
  end.

Lemma received_view x x' w w' : x_next_block_number x' = x_next_block_number x -> view w' = view w -> received x w -> received x' w'.
Proof. unfold received, between_rounds. by intros -> ->. Qed.

Lemma holds_timed_out x w : received x w -> holds (timed_out request x) w after.
Proof.
  intros Hx. unfold timed_out. case_match; [| by apply wp_ret]. apply wp_bind, holds_aside; [apply Haside |]. intros v w' E.
  case_match; apply wp_ret; [done |]. by apply (received_view x _ w).
Qed.

Lemma holds_bad_packet x b n op w : received x w -> holds (bad_packet devtab recv_udpdev x b n op) w after.
Proof.
  intros Hx. unfold bad_packet. case_match; [by apply wp_ret |]. apply wp_bind, holds_aside.
  - case_match; [| apply steady_ret]. repeat (apply steady_bind; [apply steady_kern || apply (as_control Haside) | intros ?]). apply steady_kern.
  - intros _ w' E. apply wp_ret. by apply (received_view x x w).
Qed.

(** The end of a wait: the time was over before it, or there is one more report. *)
Definition told (n : Z) (x : transfer) (w : dst (net H)) : Prop :=
  n = TIMEOUT /\ received x w \/
  exists es, view w = (v0.1 ++ collected es, v0.2 ++ es ++ [mkReport n (user w) (udptab (own w))]) /\ between_rounds es x.

Abbreviation offered n w x := (offers pkt recv_udpdev server (mkReport n (user w) (udptab (own w))) (x_next_block_number x)).

(** The number of the block counts in 16 bits. *)
Lemma offers_mod e k : offers pkt recv_udpdev server e (u32 k) = offers pkt recv_udpdev server e k.
Proof. unfold offers. by rewrite u16_u32. Qed.

(** A packet that is not the next block changes nothing. *)
Lemma told_skip n x w : told n x w -> (n = TIMEOUT \/ offered n w x = false) -> received x w.
Proof.
  intros [[_ Hx] | (es & E & Hn & Hf)] Hskip; [done |].
  assert (Ho : offered n w x = false) by (destruct Hskip as [-> |]; [| done]; by apply not_true_iff_false; intros Ho%offers_len).
  assert (Ec : collected (es ++ [mkReport n (user w) (udptab (own w))]) = collected es)
    by (rewrite collect_snoc, <- offers_mod, <- Hn, Ho; apply app_nil_r).
  exists (es ++ [mkReport n (user w) (udptab (own w))]). unfold handed, between_rounds. by rewrite Ec, E.
Qed.

(** The next block, handed over. *)
Lemma told_take n x w w' d : told n x w -> offered n w x = true -> bytes_at (user w) (pkt + TF_DATA) d -> Z.of_nat (length d) = u16 (n - 4) ->
  got w' = got w ++ [d] -> log w' = log w ->
  exists es, handed es (view w') /\
    if Z.of_nat (length d) <? TFTP_BLOCK_SIZE then ends_short (collected es)
    else forall s t o m, between_rounds es (mkTransfer s t o (u32 (x_next_block_number x + 1)) m).
Proof.
  intros [[-> _] | (es & E & Hn & Hf)] Ho Hd Hl Eg El; [apply offers_len in Ho; cbn in Ho; unfold TIMEOUT in Ho; lia |].
  set (e := mkReport n (user w) (udptab (own w))) in *.
  assert (Ed : e_data pkt e = d) by (unfold e_data, e; cbn [e_mem e_len]; rewrite <- Hl, Nat2Z.id; by apply octets_bytes).
  assert (Ec : collected (es ++ [e]) = collected es ++ [d]) by (rewrite collect_snoc, <- offers_mod, <- Hn, Ho; by rewrite Ed).
  unfold view in E. injection E as E1 E2. exists (es ++ [e]). unfold handed, view. rewrite Ec, Eg, El, E1, E2. split; [by rewrite <- app_assoc |].
  case_match eqn:Hs; [exists (collected es), d; split_and!; [done | done | lia] |].
  intros. split; cbn [x_next_block_number].
  - rewrite Ec, length_app, Hn, u32_add_l. cbn [length]. f_equal. lia.
  - rewrite Ec. apply Forall_app. split; [done | repeat constructor; lia].
Qed.

Lemma holds_good_packet x n b w : told n x w -> n <> TIMEOUT ->
  offered n w x = bool_decide (b = u16 (x_next_block_number x)) -> holds (good_packet devtab pkt sp recvData recv_udpdev x n b) w after.
Proof.
  intros Hx Hn Ho. unfold good_packet.
  set (x1 := if x_next_block_number x =? 1 then _ else x).
  assert (E1 : x_next_block_number x1 = x_next_block_number x) by (unfold x1; by case_match). clearbody x1.
  rewrite E1. apply wp_bind. destruct (Z.eqb_spec b (u16 (x_next_block_number x))) as [Eb|Eb].
  - rewrite bool_decide_eq_true_2 in Ho by done. apply wp_bind.
    generalize (Htakes (pkt + TF_DATA) (u16 (n - 4)) w (proj1 (u16_bound _))). apply wp_mono; [done |]. intros v w' Hv.
    destruct (Z.eqb_spec OK v) as [<-|Hne]; cbn [negb]; [| apply wp_ret, wp_ret; intros ->; done].
    destruct (Hv eq_refl) as (d & Hm & Hl & Eg & El). destruct (told_take n x w w' d Hx Ho Hm Hl Eg El) as (es & He & Hes). rewrite Hl in Hes.
    apply wp_ret, wp_bind, holds_aside; [apply Haside |]. intros r w'' E. unfold after, received. rewrite <- E in He. destruct (u16 (n - 4) <? TFTP_BLOCK_SIZE).
    + apply wp_ret. intros _. by exists es.
    + case_match; apply wp_ret; [done |]. exists es. split; [done | apply Hes].
  - rewrite bool_decide_eq_false_2 in Ho by done. pose proof (told_skip n x w Hx (or_intror Ho)) as Hr.
    apply wp_ret, wp_bind, holds_aside; [apply Haside |]. intros r w' E. rewrite Z.ltb_irrefl.
    case_match; apply wp_ret; [done |]. by apply (received_view x x1 w).
Qed.

Lemma wp_now {A} (f : Z -> dprog (net H) A) w P : (forall t, holds (f t) w P) -> holds (t ← gets (fun w => clktime (kern w)); f t) w P.
Proof. intros HP. apply wp_bind. apply HP. Qed.

Lemma holds_watched ms x w : received x w -> holds (watched ms) w (fun n w' => told n x w').
Proof.
  intros (es & He & Hx). unfold watched. apply wp_bind, holds_aside.
  - apply steady_bind; [apply steady_kern | intros _; apply steady_kern].
  - intros n w' E. apply wp_bind, wp_modify, wp_ret. right. exists es. set (e := mkReport _ _ _).
    destruct (Hnote e w') as (E1 & E2 & E3 & E4). unfold handed in He. rewrite <- E in He. unfold view in *. injection He as Eg El.
    split; [| done]. by rewrite E1, E2, E3, E4, Eg, El, app_assoc.
Qed.

Lemma holds_transfer_body i x w : received x w -> holds (transfer_body devtab pkt sp request watched recvData recv_udpdev server i x) w after.
Proof.
  intros Hx0. unfold transfer_body. apply wp_now. intros now. set (x1 := mkTransfer _ _ _ _ _).
  assert (Hx : received x1 w) by done. clearbody x1. apply wp_bind.
  assert (Hr : holds (if u32 now <=? x_block_max_end_time x1 then
       retval ← watched (i32 (u32 (1000 * (x_block_max_end_time x1 - u32 now) + 500)));
       mret (mkTransfer (x_send_udpdev x1) (x_num_rreqs_sent x1) (u32 (x_block_recv_tries x1 + 1)) (x_next_block_number x1) (x_block_max_end_time x1), retval)
     else mret (x1, TIMEOUT)) w (fun r w' => told r.2 r.1 w')).
  { case_match; [| apply wp_ret; by left]. apply wp_bind. generalize (holds_watched (i32 (u32 (1000 * (x_block_max_end_time x1 - u32 now) + 500))) x1 w Hx).
    apply wp_mono; [done |]. intros n w' Hn. apply wp_ret. exact Hn. }
  revert Hr. apply wp_mono; [done |]. clear Hx. intros [x2 n] w' Ht. cbn [fst snd] in *. clear x1 Hx0 x w. rename w' into w, x2 into x.
  destruct (Z.eqb_spec TIMEOUT n) as [E|H1]; [apply holds_timed_out, (told_skip n); [done | by left] |]. destruct (Z.eqb_spec SYSERR n) as [|H2]; [by apply wp_ret |].
  apply wp_bind, wp_load. intros u Hu. apply wp_bind, holds_ldh. intros op Eop. apply wp_bind, holds_ldh. intros bn Ebn.
  apply wp_bind, holds_netaddrequal.
  assert (Eo : offered n w x = same_addr server (u_remoteip u) && (4 <=? n) && (net2hs op =? TFTP_OPCODE_DATA) && (net2hs bn =? u16 (x_next_block_number x)))
    by (unfold offers; cbn [e_len e_mem e_socks]; by rewrite Hu, Eop, Ebn).
  destruct (unexpected _ _ _ _ _) eqn:Hun.
  - apply holds_bad_packet, (told_skip n); [done | right]. rewrite Eo. unfold unexpected in Hun.
    destruct (same_addr _ _), (Z.leb_spec 4 n), (Z.ltb_spec n 4), (net2hs op =? TFTP_OPCODE_DATA) eqn:E3; try done; lia.
  - apply holds_good_packet; [done | by intros -> |]. rewrite Eo. unfold unexpected in Hun.
    apply orb_false_iff in Hun as [Hun _]. apply orb_false_iff in Hun as [Hun Hop%negb_false_iff%Z.eqb_eq].
    apply orb_false_iff in Hun as [Hs%negb_false_iff H4%Z.ltb_ge]. rewrite Hs, <- Hop, (proj2 (Z.leb_le _ _) H4).
    cbn [andb]. by destruct (Z.eqb_spec (net2hs bn) (u16 (x_next_block_number x))); [rewrite bool_decide_eq_true_2 | rewrite bool_decide_eq_false_2].
Qed.

End Received.

(** C14: The client takes the file from the packets it is told of, in order.  A report is
    what it finds at the end of a wait: the length it is told, the memory and the sockets.
    A transfer that returns OK has handed to the caller's routine, one call for each, the data
    of the first report that is block 1 of the server, then of the first one after it that
    is block 2 (the number counts in 16 bits), and so on, and no other: what comes while
    the socket is not bound to the address of the server, short packets, those of other
    kinds, doubled or out of turn are left out.  It ends with the first block under 512 octets.  So when the blocks
    in the reports that name the server are those of a file of fewer than 65535 blocks, that
    file has been handed over.  The other threads are free but for the two parts of the
    state [got] and [log]; a report has the packet buffer as the receive thread left
    it, which need not be the packet whose length was told: once a request has timed out
    that thread may be a packet ahead. *)
Theorem transfer_whole {H} devtab pkt sp request recv_tid recvData recv_udpdev server got log note
    (Hnote : forall e (w : dst (net H)), log (note e w) = log w ++ [e] /\ got (note e w) = got w /\ user (note e w) = user w /\
      udptab (own (note e w)) = udptab (own w))
    (Haside : aside devtab sp request got log) (Htakes : takes recvData got log) rounds d w :
  wp (view got log) (fun _ => True)
    (transfer_with devtab pkt sp request (watched recv_tid note) recvData recv_udpdev server rounds d) w
    (fun r w' => r = OK -> exists es, log w' = log w ++ es /\
      got w' = got w ++ collect pkt recv_udpdev server 1 es /\ ends_short (collect pkt recv_udpdev server 1 es) /\
      forall file, Z.of_nat (length file) < 512 * 65535 -> sends pkt recv_udpdev server file es ->
        concat (collect pkt recv_udpdev server 1 es) = file).
Proof.
  unfold transfer_with. apply wp_bind.
  assert (Hx : received pkt recv_udpdev server got log (view got log w) (mkTransfer d 1 0 1 0) w)
    by (exists []; split; [unfold handed; cbn; by rewrite !app_nil_r | by split; [| constructor]]).
  generalize (wp_for (view got log) (fun _ => True) _ _ _
    (holds_transfer_body devtab pkt sp request recv_tid recvData recv_udpdev server got log note Hnote Haside Htakes (view got log w)) rounds 0 _ w Hx).
  apply wp_mono; [done |]. intros [x | v] w' H'; [done |]. apply wp_ret. intros Hv. destruct (H' Hv) as (es & He & Hs).
  injection He as Eg El. exists es. split_and!; [done | done | done |]. intros file Hsm Hse.
  exact (collect_file pkt recv_udpdev server file Hsm es 1 Hse ltac:(lia) ltac:(lia) Hs).
Qed.
