(* ===== verification/Dotted.v ===== *)
(** Network addresses as text: network/netaddr/netaddrsprintf.c prints them with
    [sprintf], network/ipv4/dot2ipv4.c reads the dotted decimal form with [sscanf].
    What the first prints for an IPv4 address, the second reads back. *)
From Stdlib Require Import ZArith Lia.
From stdpp Require Import sorting gmap functions list.
From S2P Require Import Prelude Kernel Bytes Format Scan Stdio Netaddr.

(** ** Operations *)

(** The bytes of a netaddr as arguments; they are promoted to [int]. *)
Definition addr_args (n : Z) (addr : netaddr) : bprog (list arg) :=
  l ← first_bytes n (na_addr addr); mret (map Num l).

(** "%02X" *)
Definition hex_octet : list Z := [37; 48; 50; 88].
(** "%02X:%02X:%02X:%02X:%02X:%02X" *)
Definition ether_format : list Z :=
  hex_octet ++ [58] ++ hex_octet ++ [58] ++ hex_octet ++ [58] ++ hex_octet ++ [58] ++ hex_octet ++ [58] ++ hex_octet.
(** "%d.%d.%d.%d" *)
Definition ipv4_format : list Z := [37; 100; 46; 37; 100; 46; 37; 100; 46; 37; 100].

Definition netaddrsprintf (str : Z) (addr : netaddr) : bprog Z :=
  (if na_type addr =? NETADDR_ETHERNET then ap ← addr_args 6 addr; sprintf str ether_format ap
   else if na_type addr =? NETADDR_IPv4 then ap ← addr_args 4 addr; sprintf str ipv4_format ap
   else if na_type addr =? NULL then sprintf str [78; 85; 76; 76] []
   else sprintf str [69; 82; 82; 79; 82] []);;
  mret (i32 str).

(** "%3u.%3u.%3u.%3u%c" *)
Definition dot_format : list Z :=
  [37; 51; 117; 46; 37; 51; 117; 46; 37; 51; 117; 46; 37; 51; 117; 37; 99].

(** The IPv4 address with the bytes [l], in the variable that held [ip]. *)
Definition ipv4_addr (l : list Z) (ip : netaddr) : netaddr :=
  mkNetaddr NETADDR_IPv4 IPv4_ADDR_LEN (l ++ drop 4 (na_addr ip)).

(** [o0] to [o3] and [tmp] are local variables, at the addresses given; [ip] is what
    the second argument points to. *)
Definition dot2ipv4 (o0_addr o1_addr o2_addr o3_addr tmp_addr : Z) (str : Z) (ip : option netaddr) : bprog (Z * option netaddr) :=
  match ip with
  | None => mret (SYSERR, ip)
  | Some a =>
      if str =? NULL then mret (SYSERR, ip) else
      n ← sscanf str dot_format [o0_addr; o1_addr; o2_addr; o3_addr; tmp_addr];
      if negb (n =? 4) then mret (SYSERR, ip) else
      o0 ← ldl o0_addr; o1 ← ldl o1_addr; o2 ← ldl o2_addr; o3 ← ldl o3_addr;
      if (o0 >? 255) || (o1 >? 255) || (o2 >? 255) || (o3 >? 255) then mret (SYSERR, ip) else
      mret (OK, Some (ipv4_addr [u8 o0; u8 o1; u8 o2; u8 o3] a))
  end.

(** ** Printing *)

(** A conversion [%d] in a format, with a number that is not negative. *)
Lemma run_print_d f r z ap w out : 0 <= z < 2 ^ 31 -> 0 <= w -> w + 10 <= INT_MAX ->
  exists ds, digits_of 10 z ds /\
    run (doprnt_loop tolist (S f) (37 :: 100 :: r) (Num z :: ap) w) out =
    run (doprnt_loop tolist f r ap (w + Z.of_nat (length ds))) (out ++ map (digit false) ds).
Proof.
  intros Hz Hw Hmax. set (it := mkItem 10 0 false z [] (mkConv false 0 32 0 (-1))).
  destruct (ulong_to_string_spec (St := list Z) z 10 false) as (ds & Hrun & Hds & Hlen); [lia | auto |].
  exists ds. split; [done |].
  assert (Hmax' : Z.of_nat (length ds) <= 10) by (eapply digits_short; [| | exact Hds |]; lia).
  cbn [doprnt_loop chr]. cbn [Z.eqb Pos.eqb andb negb].
  assert (Hspec : run (scan_spec (100 :: r) (Num z :: ap)) out = Done (Some it, r, ap) out).
  { unfold scan_spec. cbn [scan_flags Z.eqb Pos.eqb]. unfold scan_width. cbn [chr Z.eqb Pos.eqb scan_number].
    change ((48 <=? 100) && (100 <=? 57)) with false. cbn match. rewrite !run_bind, run_ret. cbn [obind fst snd].
    rewrite run_ret. cbn [obind]. unfold scan_prec. cbn [chr Z.eqb Pos.eqb]. rewrite run_bind, run_ret. cbn [obind].
    cbn [Format.scan_size chr tail Z.eqb Pos.eqb]. rewrite run_bind. unfold convert. cbn [Z.eqb Pos.eqb orb arg_word].
    rewrite run_bind, run_ret. cbn [obind fst snd]. rewrite i32_small by lia.
    rewrite (proj2 (Z.ltb_ge z 0)) by lia. rewrite run_ret. cbn [obind]. by rewrite u32_small by lia. }
  rewrite run_bind, Hspec. cbn [obind]. rewrite run_bind. unfold render, it.
  cbn [it_base it_num it_alt it_conv hashtype Z.eqb Pos.eqb negb andb]. rewrite run_bind, Hrun. cbn [obind].
  rewrite run_ret. cbn [obind fst snd]. rewrite run_bind.
  rewrite (field_plain (mkItem 10 0 false z [] (mkConv false 0 32 0 (-1))) (map (digit false) ds) out
    eq_refl eq_refl eq_refl (or_introl eq_refl)); [| rewrite length_map; klia | cbn; klia].
  cbn [obind it_sign Z.eqb fmin it_conv Z.to_nat replicate Nat.sub app].
  change (replicate (Z.to_nat 0 - _) 32 ++ ?l) with l.
  rewrite run_bind, run_put_fits; rewrite ?length_map; [done | | lia | lia].
  apply Forall_map. eapply Forall_impl; [apply (dg_range _ _ _ Hds) |]. cbn. intros d Hd.
  pose proof (digit_ok false d ltac:(lia)). unfold EOF. lia.
Qed.

(** A character that stands for itself. *)
Lemma run_print_char f c r ap w out : c <> 37 -> c <> EOF -> 0 <= w < INT_MAX ->
  run (doprnt_loop tolist (S f) (c :: r) ap w) out = run (doprnt_loop tolist f r ap (w + 1)) (out ++ [c]).
Proof.
  intros Hc He Hw. cbn [doprnt_loop]. rewrite (proj2 (Z.eqb_neq c 37) Hc). cbn [andb chr tail].
  rewrite run_bind, run_put_fits; [done | by constructor | lia | cbn; lia].
Qed.

(** The dotted decimal form of four bytes. *)
Definition dotted (bs : list Z) (out : list Z) : Prop :=
  exists d0 d1 d2 d3,
    Forall2 (digits_of 10) bs [d0; d1; d2; d3] /\
    out = map (digit false) d0 ++ 46 :: map (digit false) d1 ++ 46 :: map (digit false) d2 ++ 46 :: map (digit false) d3.

Lemma octet_digits b ds : isbyte b -> digits_of 10 b ds -> (length ds <= 3)%nat.
Proof.
  intros Hb Hd. unfold isbyte in Hb. pose proof (digits_short 10 b ds 3 ltac:(lia) ltac:(lia) Hd ltac:(lia)). lia.
Qed.

Lemma dotted_chars bs out : Forall isbyte bs -> dotted bs out ->
  (length out <= 15)%nat /\ Forall (fun c => 0 < c < 256) out.
Proof.
  intros Hb (d0 & d1 & d2 & d3 & Hd & ->).
  apply Forall2_cons_inv_r in Hd as (b0 & ? & H0 & Hd & ->). apply Forall2_cons_inv_r in Hd as (b1 & ? & H1 & Hd & ->).
  apply Forall2_cons_inv_r in Hd as (b2 & ? & H2 & Hd & ->). apply Forall2_cons_inv_r in Hd as (b3 & ? & H3 & Hd & ->).
  rewrite !Forall_cons in Hb. destruct Hb as (B0 & B1 & B2 & B3 & _).
  apply octet_digits in H0 as L0; [| done]. apply octet_digits in H1 as L1; [| done].
  apply octet_digits in H2 as L2; [| done]. apply octet_digits in H3 as L3; [| done].
  assert (Hc : forall b ds, digits_of 10 b ds -> Forall (fun c => 0 < c < 256) (map (digit false) ds)).
  { intros b ds Hds. apply Forall_map. eapply Forall_impl; [apply (dg_range _ _ _ Hds) |]. cbn. intros d Hdd.
    pose proof (digit_ok false d ltac:(lia)). lia. }
  split; [rewrite ?length_app; cbn [length]; rewrite ?length_app, ?length_map; cbn [length]; rewrite ?length_app, ?length_map; cbn [length]; rewrite ?length_map; lia |].
  apply Forall_app_2; [by eapply Hc |]. constructor; [lia |]. apply Forall_app_2; [by eapply Hc |]. constructor; [lia |].
  apply Forall_app_2; [by eapply Hc |]. constructor; [lia |]. by eapply Hc.
Qed.

Lemma text_ipv4 b0 b1 b2 b3 : Forall isbyte [b0; b1; b2; b3] ->
  exists n out, dotted [b0; b1; b2; b3] out /\ n <> EOF /\ text ipv4_format (map Num [b0; b1; b2; b3]) = Done n out.
Proof.
  rewrite !Forall_cons. unfold isbyte. intros (H0 & H1 & H2 & H3 & _). unfold text, doprnt, ipv4_format. cbn [length map].
  edestruct (run_print_d) as (d0 & D0 & ->); [| | |]; [lia | lia | klia |].
  pose proof (octet_digits _ _ H0 D0). rewrite run_print_char by (unfold EOF; klia).
  edestruct (run_print_d) as (d1 & D1 & ->); [| | |]; [lia | lia | klia |].
  pose proof (octet_digits _ _ H1 D1). rewrite run_print_char by (unfold EOF; klia).
  edestruct (run_print_d) as (d2 & D2 & ->); [| | |]; [lia | lia | klia |].
  pose proof (octet_digits _ _ H2 D2). rewrite run_print_char by (unfold EOF; klia).
  edestruct (run_print_d) as (d3 & D3 & ->); [| | |]; [lia | lia | klia |].
  cbn [doprnt_loop]. rewrite run_ret. eexists _, _. split; [| split; [| reflexivity]]; [| unfold EOF; lia].
  exists d0, d1, d2, d3. split; [by repeat (apply Forall2_cons_2; [done |]) |]. cbn [app]. by rewrite <- ?app_assoc.
Qed.

(** ** Reading *)

(** One conversion "%3u" on a number of at most three digits. *)
Section Octet.
Context (n : nat) (m : bytemem) (p a b : Z) (ds rest : list Z).
Hypothesis Hb : isbyte b.
Hypothesis Hds : digits_of 10 b ds.
Hypothesis Hs : cstr m p (map (digit false) ds ++ rest).
Hypothesis He : number_ends rest.
Hypothesis Hn : (4 < n)%nat.
Hypothesis Hm : mapped m a 4.
Hypothesis Ha : a <> NULL.

Lemma run_scan_octet f fmt ap k :
  exists eof : bool, (eof = true -> rest = []) /\
    run (doscan_loop sgetch sungetch sput n (S f) (37 :: 51 :: 117 :: fmt) (a :: ap) k) (mkSst m p) =
    run (if eof then mret (matched (k + 1)) else doscan_loop sgetch sungetch sput n f fmt ap (k + 1))
      (mkSst (poke a (le_bytes 4 b) m) (p + Z.of_nat (length ds))).
Proof.
  pose proof (octet_digits _ _ Hb Hds) as Hlen. unfold isbyte in Hb.
  assert (exists d r, ds = d :: r) as (d & r & ->) by (destruct (dg_lead _ _ _ Hds) as [-> | (d & r & -> & _)]; eauto).
  pose proof (dg_range _ _ _ Hds) as Hr. pose proof Hr as Hr0. apply Forall_cons in Hr0 as [Hd0 _].
  pose proof (digit_ok false d ltac:(lia)) as Hdg. cbn [length map app] in *.
  cbn [doscan_loop chr Z.eqb Pos.eqb andb negb]. rewrite run_bind, run_ret. cbn [obind].
  cbn [scan_maxlen]. change (isdigit 51) with true. change (isdigit 117) with false. cbn match.
  change (u32 (u32 (0 * 10) + (51 - 48))) with 3. cbn [Z.eqb Pos.eqb chr tail].
  change (negb false && isupper 117) with false. cbn match. rewrite run_bind.
  unfold scan_number_or_string. cbn [Z.eqb Pos.eqb negb andb orb]. rewrite run_bind.
  destruct (run_skip_space m [] (digit false d) (map (digit false) r ++ rest) n p Hs) as [-> Hs1]; [constructor | | cbn; lia |].
  { rewrite isspace_spec by lia. apply orb_false_iff. split; [lia |]. apply andb_false_iff. right. lia. }
  cbn [obind length] in *. rewrite (proj2 (Z.eqb_neq _ EOF)) by (unfold EOF; lia).
  rewrite run_bind, run_ret. cbn [obind].
  rewrite (proj2 (Z.eqb_neq _ 45)), (proj2 (Z.eqb_neq _ 43)) by lia. cbn [orb andb].
  rewrite run_bind, run_ret. cbn [obind]. rewrite run_bind.
  destruct (run_number_field m rest r n _ d 0 0 3 Hs1 He Hr) as (c & -> & Hc); [lia.. |]. cbn [obind].
  rewrite (proj2 (Z.eqb_neq a NULL) Ha), (proj2 (Z.eqb_neq _ 0)) by lia. cbn [negb andb]. rewrite run_bind.
  assert (Hv : foldl (fun a d => u32 (u32 (a * 10) + d)) 0 (d :: r) = b).
  { change 0 with (u32 0) at 1. rewrite value_u32. change (u32 (value 10 (d :: r)) = b).
    rewrite (dg_value _ _ _ Hds). apply u32_small. lia. }
  rewrite Hv, run_store_bytes by done. cbn [obind]. rewrite run_ret. cbn [obind].
  exists (c =? EOF). split; [rewrite Z.eqb_eq; apply Hc |].
  replace (p + Z.of_nat 0 + 1 + Z.of_nat (length r)) with (p + Z.of_nat (Datatypes.S (length r))) by lia. done.
Qed.
End Octet.

(** A character of the format that stands for itself. *)
Lemma run_scan_char n m p c l f fmt ap k : c <> 37 -> isspace c = false -> cstr m p (c :: l) ->
  run (doscan_loop sgetch sungetch sput n (S f) (c :: fmt) ap k) (mkSst m p) =
  run (doscan_loop sgetch sungetch sput n f fmt ap k) (mkSst m (p + 1)).
Proof.
  intros Hc Hsp Hs. apply cstr_cons in Hs as (Hm & Hb & _). cbn [doscan_loop].
  rewrite (proj2 (Z.eqb_neq c 37) Hc). cbn [andb negb]. rewrite Hsp, run_bind, (run_sgetch m p c Hm) by lia.
  cbn [obind]. rewrite (proj2 (Z.eqb_neq c EOF)) by (unfold EOF; lia). cbn [chr tail]. by rewrite Z.eqb_refl.
Qed.

(** "%c" at the end of the string. *)
Lemma run_scan_end n m p a f k : (0 < n)%nat -> cstr m p [] -> a <> NULL ->
  run (doscan_loop sgetch sungetch sput n (S f) [37; 99] [a] k) (mkSst m p) = Done (matched k) (mkSst m p).
Proof.
  intros Hn Hs Ha. cbn [doscan_loop chr Z.eqb Pos.eqb andb negb]. rewrite run_bind, run_ret. cbn [obind].
  cbn [scan_maxlen]. change (isdigit 99) with false. cbn match. cbn [Z.eqb Pos.eqb chr tail].
  change (negb false && isupper 99) with false. cbn match. rewrite run_bind. unfold scan_number_or_string.
  cbn [Z.eqb Pos.eqb negb andb orb]. rewrite run_bind, run_ret. cbn [obind andb orb]. rewrite run_bind, run_ret. cbn [obind].
  unfold scan_string. cbn [Z.eqb Pos.eqb andb]. change (UNLIMITED_LENGTH =? UNLIMITED_LENGTH) with true. cbn match.
  destruct n as [|n]; [lia |]. rewrite run_bind. cbn [string_loop Z.ltb Z.compare Pos.compare].
  rewrite run_bind, (run_sgetch_end m p) by (by apply cstr_nil). cbn [obind]. rewrite Z.eqb_refl, run_ret. cbn [obind].
  rewrite (proj2 (Z.eqb_neq a NULL) Ha). cbn [negb andb Z.eqb Pos.eqb]. by rewrite run_bind, run_ret.
Qed.

(** ** Printing and reading back *)

(** Blocks of memory that are mapped, do not overlap and are not at address zero. *)
Fixpoint blocks (m : bytemem) (l : list (Z * Z)) : Prop :=
  match l with
  | [] => True
  | (a, n) :: l => a <> NULL /\ mapped m a n /\ Forall (fun b => apart a n b.1 b.2) l /\ blocks m l
  end.

Lemma blocks_poke m a l' : forall l, blocks m l -> blocks (poke a l' m) l.
Proof. induction l as [|[b n] l IH]; [done |]. cbn. intros (? & ? & ? & ?). split_and!; auto using mapped_poke. Qed.

Lemma cstr_poke m p l a l' : cstr m p l -> apart a (Z.of_nat (length l')) p (Z.of_nat (length l) + 1) -> cstr (poke a l' m) p l.
Proof.
  intros [H1 H2] Ha. split; [| done]. apply bytes_at_poke; [done |]. rewrite (length_app _ [0]). cbn [length].
  unfold apart in Ha. lia.
Qed.

Lemma bytes_at_apart m a l b v : bytes_at m a l -> apart a (Z.of_nat (length l)) b 4 -> bytes_at (poke b (le_bytes 4 v) m) a l.
Proof. intros H Ha. apply bytes_at_poke; [done |]. unfold apart in Ha. rewrite length_le_bytes. lia. Qed.

Lemma cstr_tail m p l1 l2 : cstr m p (l1 ++ l2) -> cstr m (p + Z.of_nat (length l1)) l2.
Proof.
  intros H. apply (cstr_drop _ _ _ (length l1)) in H; [| rewrite length_app; lia]. by rewrite drop_app_length in H.
Qed.

(** The size of a memory is the same after a write to mapped places. *)
Lemma bfuel_poke l : forall a m, mapped m a (Z.of_nat (length l)) -> bfuel (poke a l m) = bfuel m.
Proof.
  induction l as [|c l IH]; intros a m Hm; [done |]. cbn [poke]. rewrite IH.
  - pose proof (Hm 0 ltac:(cbn; lia)) as [v Hv]. rewrite Z.add_0_r in Hv. unfold bfuel. rewrite map_size_insert_Some by eauto. done.
  - intros i Hi. apply lookup_insert_is_Some'. right. replace (a + 1 + i) with (a + (i + 1)) by lia. apply Hm. cbn. lia.
Qed.

(** A number and the dot after it. *)
Lemma run_scan_dot n m p a b ds rest f fmt ap k :
  isbyte b -> digits_of 10 b ds -> cstr m p (map (digit false) ds ++ 46 :: rest) -> (4 < n)%nat -> mapped m a 4 -> a <> NULL ->
  apart a 4 p (Z.of_nat (length (map (digit false) ds ++ 46 :: rest)) + 1) ->
  let m' := poke a (le_bytes 4 b) m in
  let p' := p + Z.of_nat (length ds) + 1 in
  cstr m' p' rest /\
  run (doscan_loop sgetch sungetch sput n (S (S f)) (37 :: 51 :: 117 :: 46 :: fmt) (a :: ap) k) (mkSst m p) =
  run (doscan_loop sgetch sungetch sput n f fmt ap (k + 1)) (mkSst m' p').
Proof.
  intros Hb Hds Hs Hn Hm Ha Hap m' p'.
  assert (Hs' : cstr m' (p + Z.of_nat (length ds)) (46 :: rest)).
  { rewrite <- (length_map (digit false) ds). apply cstr_tail. by apply cstr_poke. }
  split; [by apply cstr_cons in Hs' as (_ & _ & Hs') |].
  destruct (run_scan_octet n m p a b ds (46 :: rest) Hb Hds Hs eq_refl Hn Hm Ha (S f) (46 :: fmt) ap k) as (eof & Hf & ->).
  destruct eof; [by specialize (Hf eq_refl) |]. by apply run_scan_char with rest.
Qed.

Ltac lens := rewrite ?length_app, ?length_map; cbn [length]; rewrite ?length_app, ?length_map; cbn [length];
  rewrite ?length_app, ?length_map; cbn [length]; rewrite ?length_app, ?length_map; lia.

Lemma dotted_long bs out : dotted bs out -> (4 <= length out)%nat.
Proof.
  intros (d0 & d1 & d2 & d3 & Hd & ->). inversion_clear Hd as [|? ? ? ? D0 _].
  assert (0 < length d0)%nat by (destruct (dg_lead _ _ _ D0) as [-> | (? & ? & -> & _)]; cbn; lia). lens.
Qed.

Section Read_back.
Context (m : bytemem) (str o0 o1 o2 o3 tmp b0 b1 b2 b3 : Z) (out : list Z).
Hypothesis Hb : Forall isbyte [b0; b1; b2; b3].
Hypothesis Hout : dotted [b0; b1; b2; b3] out.
Hypothesis Hs : cstr m str out.
Hypothesis Hl : blocks m [(o0, 4); (o1, 4); (o2, 4); (o3, 4); (tmp, 1); (str, 16)].

Let m' : bytemem :=
  poke o3 (le_bytes 4 b3) (poke o2 (le_bytes 4 b2) (poke o1 (le_bytes 4 b1) (poke o0 (le_bytes 4 b0) m))).

Lemma run_scan_dotted n : (4 < n)%nat ->
  exists s, run (doscan sgetch sungetch sput n dot_format [o0; o1; o2; o3; tmp]) (mkSst m str) = Done 4 s /\ sbytes s = m'.
Proof.
  intros Hn. pose proof (dotted_chars _ _ Hb Hout) as [Hlen _].
  destruct Hout as (d0 & d1 & d2 & d3 & Hd & ->). inversion_clear Hd as [|? ? ? ? D0 Hd1].
  inversion_clear Hd1 as [|? ? ? ? D1 Hd2]. inversion_clear Hd2 as [|? ? ? ? D2 Hd3]. inversion_clear Hd3 as [|? ? ? ? D3 _].
  pose proof Hb as Hb'. rewrite !Forall_cons in Hb'. destruct Hb' as (B0 & B1 & B2 & B3 & _).
  cbn [blocks] in Hl. rewrite !Forall_cons in Hl. cbn [fst snd] in Hl. destruct_and!.
  repeat (rewrite ?length_app in Hlen; cbn [length] in Hlen). rewrite ?length_map in Hlen.
  assert (Hap : forall a p (l : list Z), apart a 4 str 16 -> str <= p -> p + Z.of_nat (length l) + 1 <= str + 16 ->
    apart a 4 p (Z.of_nat (length l) + 1)) by (unfold apart; intros; lia).
  unfold doscan, dot_format. cbn [length].
  edestruct (run_scan_dot n m str o0 b0 d0) as [Hs1 ->]; [done.. | apply Hap; [done | lia | lens] |].
  edestruct (run_scan_dot n) as [Hs2 ->]; [exact B1 | exact D1 | exact Hs1 | done | by apply mapped_poke | done | apply Hap; [done | lia | lens] |].
  edestruct (run_scan_dot n) as [Hs3 ->]; [exact B2 | exact D2 | exact Hs2 | done | by repeat apply mapped_poke | done | apply Hap; [done | lia | lens] |].
  rewrite <- (app_nil_r (map _ d3)) in Hs3.
  edestruct (run_scan_octet n) as (eof & _ & ->); [exact B3 | exact D3 | exact Hs3 | done | done | by repeat apply mapped_poke | done |].
  eexists. destruct eof; [split; reflexivity |]. rewrite run_scan_end; [split; reflexivity | lia | | done].
  rewrite <- (length_map (digit false) d3). apply cstr_tail. apply cstr_poke; [exact Hs3 |].
  rewrite app_nil_r. apply Hap; [done | lia | lens].
Qed.

Lemma run_dot2ipv4 ip :
  exists m2, run (dot2ipv4 o0 o1 o2 o3 tmp str (Some ip)) m = Done (OK, Some (ipv4_addr [b0; b1; b2; b3] ip)) m2.
Proof.
  pose proof (dotted_chars _ _ Hb Hout) as [Hlen _]. pose proof (cstr_fuel _ _ _ Hs) as Hf.
  destruct (run_scan_dotted (bfuel m)) as ([m2 p2] & Hrun & Hm2).
  { pose proof (dotted_long _ _ Hout). lia. }
  cbn [sbytes] in Hm2. subst m2.
  assert (Hsc : run (sscanf str dot_format [o0; o1; o2; o3; tmp]) m = Done 4 m').
  { unfold sscanf. unfold run at 1. by rewrite Hrun. }
  pose proof Hb as Hb'. rewrite !Forall_cons in Hb'. destruct Hb' as (B0 & B1 & B2 & B3 & _). unfold isbyte in *.
  cbn [blocks] in Hl. rewrite !Forall_cons in Hl. cbn [fst snd] in Hl. destruct_and!.
  unfold dot2ipv4. rewrite (proj2 (Z.eqb_neq str NULL)) by done. rewrite run_bind, Hsc. cbn [obind Z.eqb Pos.eqb negb].
  assert (Hld : forall a b, isbyte b -> bytes_at m' a (le_bytes 4 b) -> run (ldl a) m' = Done b m')
    by (intros a b Hbb; apply run_ldl; unfold isbyte in Hbb; lia).
  rewrite run_bind, (Hld o0 b0); [| done |].
  2:{ unfold m'. do 3 (apply bytes_at_apart; [| done]). apply poke_in. }
  cbn [obind]. rewrite run_bind, (Hld o1 b1); [| done |].
  2:{ unfold m'. do 2 (apply bytes_at_apart; [| done]). apply poke_in. }
  cbn [obind]. rewrite run_bind, (Hld o2 b2); [| done |].
  2:{ unfold m'. apply bytes_at_apart; [| done]. apply poke_in. }
  cbn [obind]. rewrite run_bind, (Hld o3 b3); [| done | apply poke_in]. cbn [obind].
  rewrite !Z.gtb_ltb, !(proj2 (Z.ltb_ge _ _)) by lia. cbn [orb]. rewrite run_ret, !u8_small by lia. eauto.
Qed.
End Read_back.

(** C35: an IPv4 address printed by [netaddrsprintf] is its dotted decimal form, takes
    at most sixteen bytes with the terminator, and is read back by [dot2ipv4] as an equal
    address, for every address. *)
Theorem dotted_roundtrip m str addr ip o0 o1 o2 o3 tmp :
  addr_ok addr -> na_type addr = NETADDR_IPv4 -> na_len addr = IPv4_ADDR_LEN ->
  blocks m [(o0, 4); (o1, 4); (o2, 4); (o3, 4); (tmp, 1); (str, 16)] ->
  exists out m2 read_back,
    dotted (abytes addr) out /\ (length out <= 15)%nat /\
    run (netaddrsprintf str addr) m = Done (i32 str) (poke str (out ++ [0]) m) /\
    run (dot2ipv4 o0 o1 o2 o3 tmp str (Some ip)) (poke str (out ++ [0]) m) = Done (OK, Some read_back) m2 /\
    same_addr addr read_back = true.
Proof.
  intros [_ Hlen Hby] Ht Hl Hbl. unfold abytes. rewrite Hl. destruct addr as [ty ln l]. cbn [na_type na_len na_addr] in *. subst ty ln.
  destruct l as [|b0 [|b1 [|b2 [|b3 [|b4 [|b5 [|]]]]]]]; try done. clear Hlen.
  assert (Hb : Forall isbyte [b0; b1; b2; b3]) by (apply (Forall_take _ 4%nat) in Hby; exact Hby).
  destruct (text_ipv4 b0 b1 b2 b3 Hb) as (n & out & Hout & Hn & Htx). pose proof (dotted_chars _ _ Hb Hout) as [Hlen Hc].
  assert (Hmap : map u8 out = out).
  { rewrite <- (list_fmap_id out) at 2. apply list_fmap_ext. intros i x Hx. apply u8_small.
    pose proof (proj1 (Forall_lookup _ _) Hc i x Hx). cbn in *. lia. }
  pose proof Hbl as Hstr. cbn [blocks] in Hstr. destruct Hstr as (_ & _ & _ & _ & _ & _ & _ & _ & _ & _ & _ & _ & _ & _ & _ & _ & Hm & _).
  assert (Hpr : run (netaddrsprintf str (mkNetaddr NETADDR_IPv4 IPv4_ADDR_LEN [b0; b1; b2; b3; b4; b5])) m
    = Done (i32 str) (poke str (out ++ [0]) m)).
  { unfold netaddrsprintf. cbn [na_type]. change (NETADDR_IPv4 =? NETADDR_ETHERNET) with false. rewrite Z.eqb_refl.
    unfold addr_args. cbn [na_addr]. rewrite run_bind, run_bind, run_bind, run_first_bytes by (cbn; lia). cbn [obind].
    rewrite run_ret. cbn [obind]. change (take (Z.to_nat 4) _) with [b0; b1; b2; b3].
    rewrite (run_sprintf m str ipv4_format (map Num [b0; b1; b2; b3]) n out Htx Hn) by (intros i Hi; apply Hm; lia).
    cbn [obind]. by rewrite run_ret, Hmap. }
  destruct (run_dot2ipv4 (poke str (out ++ [0]) m) str o0 o1 o2 o3 tmp b0 b1 b2 b3 out Hb Hout) with (ip := ip) as (m2 & Hrd).
  { split; [apply poke_in | done]. } { by apply blocks_poke. }
  eexists out, m2, _. split_and!; [done | done | exact Hpr | exact Hrd |].
  apply same_addr_spec. by unfold abytes, ipv4_addr.
Qed.
