(* ===== verification/Examples.v ===== *)
(** A machine to try the theorems on: the state after start-up, a thread created
    on it, and that thread running. *)
From Stdlib Require Import ZArith Lia.
From stdpp Require Import sorting gmap functions list.
From S2P Require Import Prelude Kernel Queue QueueFacts Sched Fair Semaphore Clock Message Memory Boot Frame Thread System Monitor Mailbox BufPool.

(** The state an outcome leaves. *)
Definition final {A} (s0 : kst) (o : outcome kst A) : kst :=
  match o with Done _ s | Switch s _ | Halted s => s | _ => s0 end.

(** A thread with two arguments and priority 20 is created at start-up. *)
Definition new_thread : kprog Z := create 0 0 0 32768 33000 1024 20 [97; 98] 2 [7; 8].
Definition boot_new : kst := final boot (run new_thread boot).

(** It is resumed and preempts the null thread. *)
Definition boot_run : kst := final boot_new (run (resume 1) boot_new).

Lemma boot_new_ok : kinv boot_new (fun _ => []) /\ running boot_new /\ exists bl, minv boot_new bl.
Proof.
  destruct boot_ok as (HI & Hr & HM).
  destruct (create_spec 0 0 0 32768 33000 1024 20 [97; 98] 2 [7; 8] boot _ _ (or_introl eq_refl) HI Hr HM) as (r & s' & Hrun & HI' & Hr' & Hm).
  - by vm_compute.
  - by vm_compute.
  - cbn. lia.
  - by vm_compute.
  - by apply clears_ok.
  - unfold boot_new, new_thread. rewrite Hrun. split_and!; [done | done |].
    destruct Hm as [(_ & HM' & _) | (bl' & HM' & _)]; eauto.
Qed.

Definition continues {A} (o : outcome kst A) : bool :=
  match o with Done _ _ | Switch _ _ => true | _ => false end.

Lemma safe_final {A} t s0 (o : outcome kst A) :
  safe_out t o -> continues o = true -> exists Q, kinv (final s0 o) Q /\ running (final s0 o).
Proof. intros [a s Q HI Hr _ | s k Q HI Hr _ _ |] Hc; cbn; [by exists Q | by exists Q | done]. Qed.

Lemma boot_run_ok : exists Q, kinv boot_run Q /\ running boot_run.
Proof.
  destruct boot_new_ok as (HI & Hr & _). unfold boot_run.
  assert (Hc : thrcurrent boot_new = 0) by (by vm_compute).
  assert (Hgo : continues (run (resume 1) boot_new) = true) by (by vm_compute).
  revert HI Hr Hc Hgo. generalize boot_new. intros s HI Hr Hc Hgo.
  apply (safe_final 0); [| done]. eapply safe_run; eauto. apply resume_safe.
Qed.

Lemma boot_run_cur : thrcurrent boot_run = 1.
Proof. by vm_compute. Qed.

(** ** The theorems at this machine *)

Lemma boot_starts : starts 2 1024 (bss 2 4096 8192) (mkConfig boot ∅).
Proof. split_and!; [apply bss_raw; [lia | lia | done] | done | exact boot_init]. Qed.

Lemma kernel_invariant_example :
  next_outcome (mkBuild 34 0 0 32768) (mkConfig boot ∅) (Resume 0) <> Fault.
Proof.
  exact (proj1 (proj2 (kernel_invariant 2 1024 (mkBuild 34 0 0 32768) _ _ _ (Resume 0) (or_intror eq_refl) boot_starts (rtc_refl _ _) I))).
Defined.

(** The semaphore that start-up makes, as the running thread sees it. *)
Lemma boot_run_sem : semtab boot_run !! 1 = Some (mkSement SUSED 1 (semq 1)).
Proof. by vm_compute. Qed.

Lemma boot_run_view Q : sem_view boot_run Q (u32 1) = Some (mkAsem 1 (Q (semq 1))).
Proof. apply sem_view_Some. eexists. split; [exact boot_run_sem | done]. Qed.

Lemma wait_refines_example :
  exists Q s' Q', reaches (run (wait 1) boot_run) s' /\
    sem_view s' Q' (u32 1) = Some (a_wait (thrcurrent boot_run) (mkAsem 1 (Q (semq 1)))).
Proof.
  destruct boot_run_ok as (Q & HI & Hr).
  destruct (wait_refines boot_run Q 1 _ HI Hr (boot_run_view Q)) as (s' & Q' & H1 & _ & _ & H4 & _);
    [rewrite boot_run_cur; done |].
  exists Q, s', Q'. by split.
Defined.

Lemma signal_refines_example :
  exists Q s' Q', reaches (run (signal 1) boot_run) s' /\
    sem_view s' Q' (u32 1) = Some (a_signal (mkAsem 1 (Q (semq 1)))).
Proof.
  destruct boot_run_ok as (Q & HI & Hr).
  destruct (signal_refines boot_run Q 1 _ HI Hr (boot_run_view Q)) as (s' & Q' & H1 & _ & _ & H4 & _); [done |].
  exists Q, s', Q'. by split.
Defined.


(** The thread sleeps. *)
Definition boot_slept : kst := final boot_run (run (sleep 5) boot_run).

Lemma boot_slept_ok : exists Q, kinv boot_slept Q /\ running boot_slept.
Proof.
  destruct boot_run_ok as (Q & HI & Hr). unfold boot_slept.
  assert (Hgo : continues (run (sleep 5) boot_run) = true) by (by vm_compute).
  pose proof boot_run_cur as Hc. revert HI Hr Hc Hgo. generalize boot_run. intros s HI Hr Hc Hgo.
  apply (safe_final 1); [| done]. eapply safe_run; eauto. by apply sleep_safe.
Qed.

Lemma boot_slept_state : t_state <$> thrtab boot_slept !! 1 = Some THRSLEEP.
Proof. by vm_compute. Qed.

Lemma unsleep_early_example :
  exists s', run (unsleep 1) boot_slept = Done OK s' /\ thrtab s' = thrtab boot_slept.
Proof.
  destruct boot_slept_ok as (Q & HI & _).
  destruct (proj1 (fmap_Some _ _ _) boot_slept_state) as (e & He & Hst).
  destruct (unsleep_early boot_slept Q 1 e HI He (or_introl (eq_sym Hst))) as (s' & H1 & H2 & _).
  exists s'. split; [exact H1 | exact H2].
Defined.

Lemma boot_run_thr : slot <$> thrtab boot_run !! 1 = Some None.
Proof. by vm_compute. Qed.

Lemma boot_run_state : t_state <$> thrtab boot_run !! 1 = Some THRCURR.
Proof. by vm_compute. Qed.

Lemma boot_run_entry : exists e, thrtab boot_run !! 1 = Some e /\ slot e = None /\ t_state e = THRCURR.
Proof.
  destruct (proj1 (fmap_Some _ _ _) boot_run_thr) as (e & He & Hs).
  destruct (proj1 (fmap_Some _ _ _) boot_run_state) as (e' & He' & Hst). exists e.
  rewrite He in He'. injection He' as <-. by split_and!.
Qed.

Lemma send_slot_example :
  exists s' e', reaches (run (send 1 42) boot_run) s' /\ thrtab s' !! 1 = Some e' /\ slot e' = Some 42.
Proof.
  destruct boot_run_ok as (Q & HI & Hr). destruct boot_run_entry as (e & He & Hs & Hst).
  pose proof (send_slot boot_run Q 1 42 e HI Hr He ltac:(rewrite Hst; done)) as H. rewrite Hs in H.
  destruct H as (s' & Q' & e' & H1 & _ & _ & H4 & H5 & _). exists s', e'. exact (conj H1 (conj H4 H5)).
Defined.

Lemma receive_slot_example :
  exists s' k, run receive boot_run = Switch s' k /\ thrcurrent s' <> 1.
Proof.
  destruct boot_run_ok as (Q & HI & Hr). destruct boot_run_entry as (e & He & Hs & _).
  pose proof boot_run_cur as Hc.
  pose proof (receive_slot boot_run Q e HI Hr ltac:(rewrite Hc; done) ltac:(rewrite Hc; exact He)) as H.
  cbv zeta in H. rewrite Hs in H. destruct H as (s' & k & H1 & H2 & _). rewrite Hc in H2.
  exists s', k. split; [exact H1 | exact H2].
Defined.

(** The allocator, on the heap of 4096 bytes that start-up leaves. *)
Lemma boot_mem : minv boot [(4096, 4096)] /\ inCrit boot = true.
Proof. destruct boot_ok as (HI & _ & HM). split; [done | apply HI]. Qed.

Lemma memget_block_example :
  exists p s', run (memget 100) boot = Done p s'.
Proof.
  destruct boot_mem as [HM Hc]. destruct (memget_block boot _ 100 HM Hc) as (p & s' & H & _); [lia |].
  by exists p, s'.
Defined.

Definition returned {A} (o : outcome kst A) : option A := match o with Done a _ => Some a | _ => None end.

Lemma returned_done {A} s0 (o : outcome kst A) a : returned o = Some a -> o = Done a (final s0 o).
Proof. by destruct o; [intros [= ->] | ..]. Qed.

Definition boot_mem_100 : kst := final boot (run (memget 100) boot).

Lemma boot_mem_100_run : run (memget 100) boot = Done 4096 boot_mem_100.
Proof. apply returned_done. by vm_compute. Qed.

Lemma memget_memfree_example :
  exists s2, run (memfree 4096 100) boot_mem_100 = Done OK s2 /\ minv s2 [(4096, 4096)].
Proof.
  destruct boot_mem as [HM Hc].
  apply (memget_memfree boot _ 100 4096 boot_mem_100 HM Hc); [lia | exact boot_mem_100_run | done].
Defined.

Lemma memfree_block_example :
  exists r s' bl', run (memfree 4096 100) boot = Done r s' /\ minv s' bl'.
Proof.
  destruct boot_mem as [HM Hc].
  destruct (memfree_block boot _ 4096 100 HM Hc) as (r & s' & bl' & H1 & H2 & _);
    [lia | by vm_compute | done | by vm_compute |].
  exists r, s', bl'. split; [exact H1 | exact H2].
Defined.

Definition boot_stk : kst := final boot (run (stkget 512) boot).

Lemma boot_stk_run : run (stkget 512) boot = Done 8188 boot_stk.
Proof. apply returned_done. by vm_compute. Qed.

Lemma stkget_stkfree_example :
  exists s2, run (stkfree 8188 512) boot_stk = Done OK s2 /\ minv s2 [(4096, 4096)].
Proof.
  destruct boot_mem as [HM Hc].
  apply (stkget_stkfree boot _ 512 8188 boot_stk HM Hc); [lia | exact boot_stk_run | done].
Defined.

Lemma memget_wraps_example :
  exists s', run (memget 4294967295) boot = Done 4096 s' /\ minv s' [(4096, 4096)].
Proof. destruct boot_mem as [HM Hc]. apply (memget_wraps boot 4096 4096 [] _ HM Hc). lia. Defined.

Lemma resched_highest_example :
  exists s' Q', reaches (run resched boot_new) s' /\ candidates boot_new (fun _ => []) = thrcurrent s' :: Q' READYQ.
Proof.
  destruct boot_new_ok as (HI & Hr & _).
  destruct (resched_highest boot_new _ HI (proj2 Hr)) as (s' & Q' & H1 & _ & _ & H5 & _).
  exists s', Q'. split; [exact H1 | exact H5].
Defined.

(** Two threads of the same priority: thread 2, which runs, and thread 1. *)
Definition boot_two : kst := final boot_new (run new_thread boot_new).
Definition boot_first : kst := final boot_two (run (resume 1) boot_two).
Definition boot_pair : kst := final boot_first (run (resume 2) boot_first).

Lemma boot_two_ok : kinv boot_two (fun _ => []) /\ running boot_two.
Proof.
  destruct boot_new_ok as (HI & Hr & bl & HM).
  destruct (create_spec 0 0 0 32768 33000 1024 20 [97; 98] 2 [7; 8] boot_new _ _ (or_introl eq_refl) HI Hr HM) as (r & s' & Hrun & HI' & Hr' & _).
  - by vm_compute.
  - by vm_compute.
  - cbn. lia.
  - by vm_compute.
  - by apply clears_ok.
  - unfold boot_two, new_thread. rewrite Hrun. by split.
Qed.

Lemma resume_final s t tid Q : kinv s Q -> running s -> thrcurrent s = t -> continues (run (resume tid) s) = true ->
  exists Q', kinv (final s (run (resume tid) s)) Q' /\ running (final s (run (resume tid) s)).
Proof. intros HI Hr Hc Hgo. apply (safe_final t); [| done]. eapply safe_run; eauto. apply resume_safe. Qed.

Lemma boot_pair_ok : exists Q, kinv boot_pair Q /\ running boot_pair.
Proof.
  destruct boot_two_ok as [HI Hr].
  destruct (resume_final boot_two 0 1 _ HI Hr ltac:(by vm_compute) ltac:(by vm_compute)) as (Q & HI1 & Hr1).
  exact (resume_final boot_first 1 2 Q HI1 Hr1 ltac:(by vm_compute) ltac:(by vm_compute)).
Qed.

(** A queue read off its links. *)
Lemma linked_next s Q q p l a b : kinv s Q -> isq NQENT q -> q :: Q q = p ++ a :: l -> nxt (quetab s) a = Some b ->
  b < NTHREAD -> exists l', l = b :: l'.
Proof.
  intros HI Hq E Hn Hb. pose proof (qr_link _ _ _ (kq_rep _ _ (ki_queues _ _ HI)) q Hq) as Hl.
  rewrite app_comm_cons, E, <- app_assoc in Hl. cbn [app] in Hl. apply linked_app in Hl as [_ Hl]. destruct l as [|x l]; cbn [app] in Hl.
  - apply linked_cons2 in Hl as [H _]. destruct Hq as [Hq _]. rewrite Hn in H. injection H as ->. lia.
  - apply linked_cons2 in Hl as [H _]. rewrite Hn in H. injection H as ->. by exists l.
Qed.

Lemma linked_end s Q q p l a : kinv s Q -> isq NQENT q -> q :: Q q = p ++ a :: l -> nxt (quetab s) a = Some (q + 1) -> l = [].
Proof.
  intros HI Hq E Hn. pose proof (kq_rep _ _ (ki_queues _ _ HI)) as Hrep. pose proof (qr_link _ _ _ Hrep q Hq) as Hl.
  rewrite app_comm_cons, E, <- app_assoc in Hl. cbn [app] in Hl. apply linked_app in Hl as [_ Hl]. destruct l as [|x l]; [done |]. cbn [app] in Hl.
  apply linked_cons2 in Hl as [H _]. rewrite Hn in H. injection H as H.
  assert (Hx : x ∈ Q q).
  { destruct p as [|y p]; injection E as _ E; rewrite E; [apply elem_of_cons; by left |]. apply elem_of_app. right. apply elem_of_cons. right. apply elem_of_cons. by left. }
  apply (qr_tid _ _ _ Hrep q x Hq) in Hx. destruct Hq as [Hq _]. lia.
Qed.

(** Thread 1 sleeps for one tick. *)
Definition boot_asleep : kst := final boot_run (run (sleep 1) boot_run).

Lemma boot_asleep_ok : exists Q, kinv boot_asleep Q /\ running boot_asleep.
Proof.
  destruct boot_run_ok as (Q & HI & Hr). unfold boot_asleep.
  pose proof boot_run_cur as Hc. assert (Hgo : continues (run (sleep 1) boot_run) = true) by (by vm_compute).
  revert HI Hr Hc Hgo. generalize boot_run. intros s HI Hr Hc Hgo.
  apply (safe_final 1); [| done]. eapply safe_run; eauto. by apply sleep_safe.
Qed.

Lemma boot_asleep_queue Q : kinv boot_asleep Q -> deltas (quetab boot_asleep) (Q SLEEPQ) = [(1, 1)].
Proof.
  intros HI.
  destruct (linked_next boot_asleep Q SLEEPQ [] (Q SLEEPQ) SLEEPQ 1 HI isq_sleep eq_refl ltac:(by vm_compute) ltac:(done)) as [l1 E1].
  rewrite (linked_end boot_asleep Q SLEEPQ [SLEEPQ] l1 1 HI isq_sleep ltac:(by rewrite E1) ltac:(by vm_compute)) in E1.
  rewrite E1. by vm_compute.
Qed.

Lemma clkhandler_tick_example :
  exists s' (Q' : Z -> list Z), reaches (run clkhandler boot_asleep) s' /\ time_of s' = 1 /\ (1 ∈ Q' READYQ \/ 1 = thrcurrent s').
Proof.
  destruct boot_asleep_ok as (Q & HI & Hr). pose proof (boot_asleep_queue Q HI) as El.
  destruct (clkhandler_tick boot_asleep Q HI Hr) as (s' & Q' & H1 & _ & _ & H4 & _ & H6).
  - by vm_compute.
  - by vm_compute.
  - exists s', Q'. split; [exact H1 |]. split; [exact H4 |]. apply (H6 1 1); [| reflexivity].
    rewrite El. by left.
Defined.

Lemma boot_pair_ready Q : kinv boot_pair Q -> Q READYQ = [1; 0].
Proof.
  intros HI.
  destruct (linked_next boot_pair Q READYQ [] (Q READYQ) READYQ 1 HI isq_ready eq_refl ltac:(by vm_compute) ltac:(done)) as [l1 E1].
  destruct (linked_next boot_pair Q READYQ [READYQ] l1 1 0 HI isq_ready ltac:(by rewrite E1) ltac:(by vm_compute) ltac:(done)) as [l2 ->].
  rewrite (linked_end boot_pair Q READYQ [READYQ; 1] l2 0 HI isq_ready ltac:(by rewrite E1) ltac:(by vm_compute)) in E1. exact E1.
Qed.

Lemma boot_pair_peers Q : kinv boot_pair Q -> peers 20 boot_pair Q [1] [0].
Proof.
  intros HI. split; [by apply boot_pair_ready | | |].
  - intros x Hx. apply elem_of_cons in Hx as [-> | ->%list_elem_of_singleton]; by vm_compute.
  - intros x ->%list_elem_of_singleton. by vm_compute.
  - intros x ->%list_elem_of_singleton. by vm_compute.
Qed.

(** After three turns thread 1 runs. *)
Lemma yield_round_robin_example : exists s', turns 3 boot_pair s' /\ thrcurrent s' = 1.
Proof.
  destruct boot_pair_ok as (Q & HI & Hr).
  destruct (yield_round_robin 20 boot_pair Q [1] [0] 3 HI Hr (boot_pair_peers Q HI)) as [[s' Hs'] Hall].
  exists s'. split; [exact Hs' |]. specialize (Hall s' Hs'). by injection Hall.
Defined.

(** A second thread in a build with the VFP unit: its stack is below that of the first, the
    bottom of which is cleared. *)
Lemma minv_single s bl a l :
  minv s bl -> memlist_next s = a -> a <> NULL -> mem s !! a = Some NULL -> mem s !! (a + 4) = Some l -> minv s [(a, l)].
Proof.
  intros HM E Ha E0 E4. replace [(a, l)] with bl; [done |]. pose proof (mi_seg _ _ HM) as Hseg. rewrite E in Hseg.
  destruct bl as [|[a' l'] r]; cbn [seg] in Hseg; [done |]. destruct Hseg as (<- & Hl & nx & Hnx & Hr).
  rewrite E4 in Hl. rewrite E0 in Hnx. injection Hl as <-. injection Hnx as <-.
  destruct r as [|[b k] r']; [done |]. destruct Hr as (<- & _). exfalso.
  pose proof (fwf_bounds _ _ _ (mi_wf _ _ HM) NULL k ltac:(by right; left)). pose proof (mi_lo _ _ HM). unfold NULL in *. lia.
Qed.

Lemma boot_new_minv : minv boot_new [(4096, 3072)].
Proof.
  destruct boot_new_ok as (_ & _ & bl & HM). apply (minv_single _ bl _ _ HM); [by vm_compute | done | by vm_compute | by vm_compute].
Qed.

Lemma boot_new_heap : memheap boot_new = 4096 /\ maxaddr boot_new = 8192.
Proof. by vm_compute. Qed.


(** ** Monitors, mailboxes and buffer pools

    States made by hand from the machine above. *)

Lemma boot_run_inv : exists Q, kinv boot_run Q.
Proof. destruct boot_run_ok as (Q & HI & _). by exists Q. Qed.

Definition sem1 : sement := mkSement SUSED 1 (semq 1).

(** Monitor 0 uses semaphore 1 and has the owner [o]; the semaphore has [c] permits. *)
Definition with_monitor (s : kst) (o n c : Z) : kst :=
  set_montab (<[0 := mkMonent MUSED o n 1]> (montab s)) (set_semtab (<[1 := set_s_count c sem1]> (semtab s)) s).

Lemma with_monitor_ok s o n c Q : semtab s !! 1 = Some sem1 -> kinv s Q -> 0 <= c <= 1 -> kinv (with_monitor s o n c) Q.
Proof.
  intros Hs HI Hc.
  eapply kinv_view; [| apply (kinv_count s Q 1 sem1 HI Hs eq_refl c); [cbn; lia | unfold INT_MIN, INT_MAX; lia]].
  reflexivity.
Qed.

Lemma with_monitor_at s o n c : monitor_at 2 (with_monitor s o n c) 0 (mkMonent MUSED o n 1) (set_s_count c sem1).
Proof.
  split; [apply lookup_insert_eq |].
  split; [done |]. split; [done |]. split; [apply lookup_insert_eq | done].
Qed.

Lemma with_monitor_running s o n c : running s -> running (with_monitor s o n c).
Proof. done. Qed.

Lemma with_monitor_cur s o n c t : thrcurrent s = 1 -> t <> 1 -> thrcurrent (with_monitor s o n c) <> t.
Proof. cbn. congruence. Qed.

Lemma lock_nesting_example :
  exists s1, run (times 2 (lock 2 0)) (with_monitor boot_run NOOWNER 0 1) = Done [OK; OK] s1 /\
    exists cp im, run (times 2 (unlock 2 0)) s1 = Done [OK; OK] (irq cp im (with_monitor boot_run NOOWNER 0 1)).
Proof.
  destruct boot_run_inv as (Q & HI).
  destruct (lock_nesting 2 (with_monitor boot_run NOOWNER 0 1) Q 0 _ _ (with_monitor_ok boot_run NOOWNER 0 1 Q boot_run_sem HI ltac:(lia))
    (with_monitor_at boot_run NOOWNER 0 1) 2 eq_refl eq_refl eq_refl ltac:(lia)) as (s1 & H1 & _ & H2).
  exists s1. exact (conj H1 H2).
Defined.

Lemma lock_masks_interrupts_example :
  exists s', run (lock 2 0) (with_monitor boot_run NOOWNER 0 1) = Done OK s' /\ irqs_masked s' = true.
Proof.
  destruct boot_run_inv as (Q & HI).
  apply (lock_masks_interrupts 2 _ Q 0 _ _ (with_monitor_ok boot_run NOOWNER 0 1 Q boot_run_sem HI ltac:(lia)) (with_monitor_at boot_run NOOWNER 0 1)); done.
Defined.

(** Thread 0 owns the monitor. *)
Lemma lock_waits_example :
  exists s' k, run (lock 2 0) (with_monitor boot_run 0 1 0) = Switch s' k /\ montab s' = montab (with_monitor boot_run 0 1 0).
Proof.
  destruct boot_run_ok as (Q & HI & Hr).
  destruct (lock_waits 2 _ Q 0 _ _ (with_monitor_ok boot_run 0 1 0 Q boot_run_sem HI ltac:(lia)) (with_monitor_at boot_run 0 1 0)
    (with_monitor_running boot_run 0 1 0 Hr) (with_monitor_cur boot_run 0 1 0 NULLTHREAD boot_run_cur ltac:(discriminate))
    ltac:(discriminate) (not_eq_sym (with_monitor_cur boot_run 0 1 0 0 boot_run_cur ltac:(discriminate))) (Z.le_refl 0))
    as (s' & Q' & k & H1 & _ & H3 & _).
  exists s', k. exact (conj H1 H3).
Defined.

(** The monitor was given up, but a thread that waited has been given the permit. *)
Lemma lock_claims_example :
  exists s' k, run (lock 2 0) (with_monitor boot_run NOOWNER 0 0) = Switch s' k /\
    thrcurrent s' <> thrcurrent (with_monitor boot_run NOOWNER 0 0).
Proof.
  destruct boot_run_ok as (Q & HI & Hr).
  destruct (lock_claims 2 _ Q 0 _ _ (with_monitor_ok boot_run NOOWNER 0 0 Q boot_run_sem HI ltac:(lia))
    (with_monitor_at boot_run NOOWNER 0 0) (with_monitor_running boot_run NOOWNER 0 0 Hr)
    (with_monitor_cur boot_run NOOWNER 0 0 NULLTHREAD boot_run_cur ltac:(discriminate)) eq_refl (Z.le_refl 0))
    as (s' & Q' & k & H1 & _ & _ & _ & H5).
  exists s', k. exact (conj H1 H5).
Defined.

Lemma boot_montab : mon_table 2 boot.
Proof.
  split; [lia |]. split; [by vm_compute |].
  assert (H : dom (montab boot) = {[0; 1]}) by (apply (bool_decide_unpack _); by vm_compute).
  intros i. rewrite <- elem_of_dom, H. rewrite elem_of_union, !elem_of_singleton. lia.
Qed.

Lemma moncreate_free_example : exists mon s', run (moncreate 2) boot = Done mon s'.
Proof.
  destruct boot_ok as (HI & _). destruct (moncreate_free 2 boot _ HI boot_montab) as (mon & s' & H & _).
  exists mon, s'. exact H.
Defined.

Lemma semcreate_final s Q c : kinv s Q -> 0 <= c <= INT_MAX ->
  let s' := final s (run (semcreate c) s) in
  kinv s' Q /\ (running s -> running s') /\ thrcurrent s' = thrcurrent s.
Proof. intros HI Hc. by destruct (semcreate_spec s Q c HI Hc) as [(k & e & _ & _ & _ & -> & HI') | [(k & -> & HI') _]]. Qed.

(** Two more semaphores, the first with [c] permits. *)
Definition two_sems (c : Z) (s : kst) : kst :=
  let s1 := final s (run (semcreate c) s) in final s1 (run (semcreate 0) s1).

Lemma two_sems_ok c s Q : kinv s Q -> 0 <= c <= INT_MAX ->
  kinv (two_sems c s) Q /\ (running s -> running (two_sems c s)) /\ thrcurrent (two_sems c s) = thrcurrent s.
Proof.
  intros HI Hc. destruct (semcreate_final s Q c HI Hc) as (H1 & H2 & H3). unfold two_sems. cbv zeta.
  revert H1 H2 H3. generalize (final s (run (semcreate c) s)). intros s1 H1 H2 H3.
  destruct (semcreate_final s1 Q 0 H1 ltac:(unfold INT_MAX; lia)) as (H4 & H5 & H6). split; [exact H4 |]. split; [auto | congruence].
Qed.

(** Mailbox 0 is a ring of three messages at 4096 that starts at its last place. *)
Definition box0 : mbox := mkMbox 2 3 3 0 2 MAILBOX_ALLOC 4096.
Definition with_box (s : kst) : kst := set_mboxtab (<[0 := box0]> (mboxtab s)) s.

Lemma with_box_ok s Q : kinv s Q -> kinv (with_box s) Q.
Proof. by apply kinv_view. Qed.

Lemma with_box_holds s :
  semtab s !! 2 = Some (mkSement SUSED 3 (semq 2)) -> semtab s !! 3 = Some (mkSement SUSED 0 (semq 3)) ->
  is_Some (mem s !! 4096) -> is_Some (mem s !! 4100) -> is_Some (mem s !! 4104) -> holds (with_box s) 0 3 [].
Proof.
  intros H2 H3 M0 M1 M2. split; [unfold NMAILBOX; lia | lia | cbn; lia | constructor |].
  exists box0, (mkSement SUSED 3 (semq 2)), (mkSement SUSED 0 (semq 3)).
  cbn [box0 x_state x_max x_count x_start x_sender x_receiver length Z.of_nat]. unfold place. cbn [box0 x_msgs].
  split; [apply lookup_insert_eq |]. split; [done |]. split; [done |]. split; [done |]. split; [lia |].
  split; [exact H2 |]. split; [done |]. split; [done |]. split; [exact H3 |]. split; [done |]. split; [done |].
  split; [done |]. split; [| intros i m Hi; by rewrite lookup_nil in Hi].
  intros i Hi. assert (i = 0 \/ i = 1 \/ i = 2) as [-> | [-> | ->]] by lia; done.
Qed.

Definition boot_box : kst := with_box (two_sems 3 boot).

Lemma boot_box_holds : holds boot_box 0 3 [].
Proof. apply with_box_holds; [by vm_compute | by vm_compute | apply (bool_decide_unpack _); by vm_compute ..]. Qed.

Lemma boot_box_ok : kinv boot_box (fun _ => []).
Proof. apply with_box_ok, two_sems_ok; [apply boot_ok | unfold INT_MAX; lia]. Qed.

Lemma mailbox_fifo_example :
  exists s1 s2, run (sends 0 [7; -8]) boot_box = Done [OK; OK] s1 /\ run (receives 0 2) s1 = Done [7; -8] s2.
Proof.
  destruct (mailbox_fifo boot_box _ 0 3 [] [7; -8] boot_box_ok boot_box_holds ltac:(cbn; lia)) as (s1 & s2 & H1 & H2 & _).
  exists s1, s2. exact (conj H1 H2).
Defined.

(** The same mailbox when thread 1 runs: receiving from it blocks. *)
Definition run_box : kst := with_box (two_sems 3 boot_run).

Lemma run_box_holds : holds run_box 0 3 [].
Proof. apply with_box_holds; [by vm_compute | by vm_compute | apply (bool_decide_unpack _); by vm_compute ..]. Qed.

Lemma run_box_ok : exists Q, kinv run_box Q /\ running run_box /\ thrcurrent run_box <> NULLTHREAD.
Proof.
  destruct boot_run_ok as (Q & HI & Hr). exists Q.
  destruct (two_sems_ok 3 boot_run Q HI ltac:(unfold INT_MAX; lia)) as (H1 & H2 & H3). pose proof boot_run_cur as Hc.
  unfold run_box. rewrite Hc in H3. specialize (H2 Hr). revert H1 H2 H3. generalize (two_sems 3 boot_run). intros s H1 H2 H3.
  split; [by apply with_box_ok |]. split; [exact H2 |]. change (thrcurrent (with_box s)) with (thrcurrent s). by rewrite H3.
Qed.

Lemma mailbox_full_empty_example : exists Q, blocks run_box Q (run (mailboxReceive 0) run_box).
Proof.
  destruct run_box_ok as (Q & HI & Hr & Hn). exists Q.
  exact (proj2 (mailbox_full_empty run_box Q 0 3 [] HI run_box_holds Hr Hn) eq_refl).
Defined.

(** *** Buffer pools *)

Lemma boot_pools i : 0 <= i < NPOOL -> is_Some (bfptab boot !! i).
Proof.
  assert (H : forallb (fun i => bool_decide (is_Some (bfptab boot !! i))) (seqZ 0 8) = true) by (by vm_compute).
  rewrite forallb_forall in H. intros Hi. apply (bool_decide_unpack _). rewrite H; [done |].
  apply list_elem_of_In, elem_of_seqZ. unfold NPOOL in Hi. lia.
Qed.

Lemma bfpalloc_pool_example : exists r s', run (bfpalloc 10 4) boot = Done r s'.
Proof.
  destruct boot_ok as (HI & _ & HM). destruct (bfpalloc_pool boot _ _ 10 4 HI HM boot_pools) as (r & s' & H & _).
  exists r, s'. exact H.
Defined.

(** Pool 0 has two buffers of 16 bytes at 4096. *)
Definition with_pool (s : kst) : kst :=
  set_mem (<[4096 := 4112]> (<[4100 := 0]> (<[4112 := 4128]> (<[4116 := 0]> (mem s)))))
    (set_bfptab (<[0 := mkBfpentry BFPUSED 16 2 4096 4096 2]> (bfptab s)) s).

Lemma with_pool_free s :
  semtab s !! 2 = Some (mkSement SUSED 2 (semq 2)) -> pool_free (with_pool s) 0 4128 [4096; 4112].
Proof.
  intros Hs. split; [unfold NPOOL; lia | |].
  - intros i j a b Hi Hj Hne. assert (i < 2 /\ j < 2)%nat as [? ?] by (apply lookup_lt_Some in Hi, Hj; cbn in *; lia).
    assert (i = 0 /\ j = 1 \/ i = 1 /\ j = 0)%nat as [[-> ->] | [-> ->]] by lia;
      injection Hi as <-; injection Hj as <-; lia.
  - exists (mkBfpentry BFPUSED 16 2 4096 4096 2), (mkSement SUSED 2 (semq 2)).
    split; [apply lookup_insert_eq |]. split; [done |]. split; [| by split_and!].
    cbn [b_next with_pool mem set_mem chain]. unfold POOLBUF.
    split; [done |]. split; [lia |]. split; [lia |]. split; [by rewrite lookup_insert_ne, lookup_insert_eq by done |].
    exists 4112. split; [apply lookup_insert_eq |].
    split; [done |]. split; [lia |]. split; [lia |]. split; [by rewrite !lookup_insert_ne, lookup_insert_eq by done |].
    exists 4128. split; [by rewrite !lookup_insert_ne, lookup_insert_eq by done | done].
Qed.

Definition pool_state : kst := with_pool (two_sems 2 boot).

Lemma pool_state_ok : kinv pool_state (fun _ => []) /\ running pool_state.
Proof.
  destruct boot_ok as (HI & Hr & _). destruct (two_sems_ok 2 boot _ HI ltac:(unfold INT_MAX; lia)) as (H1 & H2 & _).
  specialize (H2 Hr). unfold pool_state. revert H1 H2. generalize (two_sems 2 boot). intros s H1 H2.
  split; [by apply (kinv_view s) | exact H2].
Qed.

Lemma bufget_buffree_example :
  exists s1, run (bufget 0) pool_state = Done 4104 s1 /\ pool_free s1 0 4128 [4112].
Proof.
  destruct pool_state_ok as [HI Hr].
  destruct (bufget_buffree pool_state _ 0 4128 4096 [4112] HI Hr (with_pool_free (two_sems 2 boot) ltac:(by vm_compute)) ltac:(cbn; unfold INT_MAX; lia))
    as (s1 & H1 & H2 & _).
  exists s1. exact (conj H1 H2).
Defined.
