(* ===== verification/LibExamples.v ===== *)
(** The theorems on strings, formatted output and formatted input at concrete
    memories. *)
From Stdlib Require Import ZArith Lia.
From stdpp Require Import sorting gmap list.
From S2P Require Import Prelude Kernel Bytes Format Scan Stdio Sort.

(** ** Checking a concrete memory by evaluation *)

Fixpoint bytes_atb (m : bytemem) (a : Z) (l : list Z) : bool :=
  match l with [] => true | c :: r => bool_decide (m !! a = Some c) && bytes_atb m (a + 1) r end.

Lemma bytes_at_check m a l : bytes_atb m a l = true -> bytes_at m a l.
Proof.
  revert a. induction l as [|x r IH]; intros a; cbn [bytes_atb]; [intros _ i c H; by rewrite lookup_nil in H |].
  intros [H1 H2]%andb_true_iff i c Hi. apply bool_decide_eq_true_1 in H1. destruct i as [|i]; cbn in Hi.
  - injection Hi as <-. by rewrite Z.add_0_r.
  - replace (a + Z.of_nat (S i)) with (a + 1 + Z.of_nat i) by lia. by apply (IH _ H2).
Qed.

Definition cstrb (m : bytemem) (a : Z) (l : list Z) : bool :=
  bytes_atb m a (l ++ [0]) && forallb (fun c => (0 <? c) && (c <? 256)) l.

Lemma cstr_check m a l : cstrb m a l = true -> cstr m a l.
Proof.
  intros [H1 H2]%andb_true_iff. split; [by apply bytes_at_check |].
  apply Forall_forall. intros c Hc. rewrite forallb_forall in H2. specialize (H2 c (proj1 (list_elem_of_In _ _) Hc)). lia.
Qed.

Definition mappedb (m : bytemem) (a n : Z) : bool :=
  forallb (fun i => bool_decide (is_Some (m !! (a + Z.of_nat i)))) (seq 0 (Z.to_nat n)).

Lemma mapped_check m a n : mappedb m a n = true -> mapped m a n.
Proof.
  intros H i Hi. unfold mappedb in H. rewrite forallb_forall in H.
  specialize (H (Z.to_nat i) ltac:(apply in_seq; lia)). apply bool_decide_eq_true_1 in H. by rewrite Z2Nat.id in H by lia.
Qed.

Ltac atmem := first [apply cstr_check | apply mapped_check]; vm_compute; reflexivity.

(** A memory with the strings [abcab], [ab], an empty one and the number [-12], and
    zeroed space from 100 on. *)
Definition mem0 : bytemem :=
  poke 10 [97; 98; 99; 97; 98; 0] (poke 20 [97; 98; 0] (poke 30 [0] (poke 40 [32; 45; 49; 50; 59; 0]
    (poke 100 (replicate 16 0) ∅)))).

(** ** Strings *)

Lemma strlcpy_bounded_example :
  run (strlcpy 100 10 4) mem0 = Done 5 (poke 100 [97; 98; 99; 0] mem0).
Proof.
  refine (proj1 (strlcpy_bounded mem0 100 10 [97; 98; 99; 97; 98] 4 _ _ _ _ _)); [atmem | cbn; lia | lia | atmem |].
  unfold apart. cbn. lia.
Defined.

Lemma strcmp_lex_example : exists d, run (strcmp 10 20) mem0 = Done d mem0 /\ ~ d = 0.
Proof.
  destruct (strcmp_lex mem0 10 20 [97; 98; 99; 97; 98] [97; 98]) as (d & H1 & H2 & _); [atmem | atmem | cbn; lia |].
  exists d. split; [exact H1 |]. intros H. by apply H2 in H.
Defined.

Lemma strchr_first_example : run (strchr 10 98) mem0 = Done 11 mem0.
Proof. apply (strchr_first mem0 10 [97; 98; 99; 97; 98] 98). atmem. Defined.

Lemma strrchr_last_example : run (strrchr 10 98) mem0 = Done 14 mem0.
Proof. apply (strrchr_last mem0 10 [97; 98; 99; 97; 98] 98). atmem. Defined.

Lemma strstr_first_example : exists p, run (strstr 10 20) mem0 = Done p mem0.
Proof.
  destruct (strstr_first mem0 10 20 [97; 98; 99; 97; 98] [97; 98]) as (p & H & _); [atmem | atmem | cbn; lia |].
  exists p. exact H.
Defined.

Lemma strstr_empty_example : run (strstr 30 30) mem0 = Done NULL mem0.
Proof. apply strstr_empty; atmem. Defined.

Lemma strncpy_exact_example :
  run (strncpy 100 20 4) mem0 = Done 100 (poke 100 [97; 98; 0; 0] mem0).
Proof.
  refine (proj1 (strncpy_exact mem0 100 20 [97; 98] 4 _ _ _ _)); [atmem | lia | atmem |]. unfold apart. cbn. lia.
Defined.

Lemma strncat_appends_example :
  exists m', run (strncat 100 10 2) mem0 = Done 100 m' /\ cstr m' 100 [97; 98].
Proof.
  destruct (strncat_appends mem0 100 10 [] [97; 98; 99; 97; 98] 2) as (m' & H1 & H2 & _);
    [atmem | atmem | lia | atmem | unfold apart; cbn; lia |].
  exists m'. split; [exact H1 | exact H2].
Defined.

(** ** Formatted output: the format is "n=%d, %s" *)

Definition fmt0 : list Z := [110; 61; 37; 100; 44; 32; 37; 115].
Definition args0 : list arg := [Num 7; Str (Some [97; 98])].

Lemma args0_ok : args_ok args0.
Proof.
  repeat (apply Forall_cons; split; [cbn; try done |]); [| apply Forall_nil_2].
  repeat (apply Forall_cons; split; [lia |]). apply Forall_nil_2.
Qed.

Lemma text0 : text fmt0 args0 = Done 7 [110; 61; 55; 44; 32; 97; 98].
Proof. by vm_compute. Qed.

Lemma doprnt_counts_example :
  demand fmt0 = [KNum; KStr] /\
  exists l, run (doprnt tolist fmt0 args0) [1] = Done (i32 (Z.of_nat (length l))) ([1] ++ l).
Proof.
  split; [by vm_compute |].
  refine (doprnt_counts fmt0 args0 [1] _ args0_ok). unfold fmt0.
  repeat (apply Forall_cons; split; [lia |]). apply Forall_nil_2.
Defined.

Lemma doprnt_stops_example :
  run (doprnt (tobounded 3) fmt0 args0) [] = Done EOF [110; 61; 55].
Proof. exact (doprnt_stops fmt0 args0 3 7 _ args0_ok text0 ltac:(done)). Defined.

Lemma print_decimal_example :
  exists l, shows (-12) l /\
    let out := replicate (5 - length l) 32 ++ l in
    text [37; 42; 100] [Num 5; Num 4294967284] = Done (Z.of_nat (length out)) out.
Proof. apply (print_decimal 5 4294967284). unfold INT_MAX. lia. Defined.

Lemma print_hash_width_example :
  exists ds, digits_of 16 255 ds /\
    let l := map (digit false) ds in
    let out := [48; 120] ++ replicate (6 - length l) 32 ++ l in
    text [37; 35; 42; 120] [Num 6; Num 255] = Done (Z.of_nat (length out)) out.
Proof. apply (print_hash_width 6 255). unfold INT_MAX. lia. Defined.

(** ** Formatted input *)

Lemma shows_m12 : shows (-12) [45; 49; 50].
Proof.
  exists [1; 2]. split; [| by vm_compute]. constructor; [done | | right; by exists 1, [2]].
  repeat (apply Forall_cons; split; [lia |]). apply Forall_nil_2.
Qed.

Lemma atoi_print_example : exists m', run (atoi 100 40) mem0 = Done (-12) m'.
Proof.
  destruct (atoi_print mem0 100 40 [32] (-12) [45; 49; 50] [59] shows_m12) as (m' & H & _);
    [lia | atmem | | by vm_compute | cbn; lia | atmem | done | unfold apart; cbn; lia |].
  - apply Forall_singleton. by vm_compute.
  - exists m'. exact H.
Defined.

Lemma scan_word_bounded_example :
  exists eof s, run (scan_string sgetch sungetch sput 9 100 115 3 (fun _ => false)) (mkSst mem0 10) = Done (true, eof) s /\
    sbytes s = poke 100 [97; 98; 99; 0] mem0.
Proof.
  destruct (scan_word_bounded mem0 10 100 [97; 98; 99; 97; 98] [] 3 (fun _ => false) 9) as (eof & s & H1 & H2 & _);
    [atmem | by vm_compute | | cbn; lia | lia | lia | atmem | unfold apart; cbn; lia |].
  - repeat (apply Forall_cons; split; [by vm_compute |]). apply Forall_nil_2.
  - exists eof, s. split; [exact H1 | exact H2].
Defined.

(** ** [sprintf] *)

(** The text with its terminator in memory. *)
Example sprintf_text :
  run (sprintf 100 fmt0 args0) mem0 = Done 7 (poke 100 [110; 61; 55; 44; 32; 97; 98; 0] mem0).
Proof. exact (run_sprintf mem0 100 fmt0 args0 7 _ text0 ltac:(done) ltac:(atmem)). Qed.

(** ** Sorting: three elements of one byte *)

Definition cmp_byte (p q : Z) : bprog Z := a ← ldb p; b ← ldb q; mret (a - b).
Definition hd_diff (x y : list Z) : Z := hd 0 x - hd 0 y.

Lemma cmp_byte_ok m p q x y :
  bytes_at m p x -> bytes_at m q y -> Z.of_nat (length x) = 1 -> Z.of_nat (length y) = 1 ->
  run (cmp_byte p q) m = Done (hd_diff x y) m.
Proof.
  intros Hx Hy Lx Ly. destruct x as [|a [|? ?]], y as [|b [|? ?]]; cbn [length] in Lx, Ly; try lia.
  specialize (Hx 0%nat a eq_refl). specialize (Hy 0%nat b eq_refl). rewrite Z.add_0_r in Hx, Hy.
  unfold cmp_byte. rewrite run_bind, (run_ldb p a m Hx). cbn [obind]. rewrite run_bind, (run_ldb q b m Hy). done.
Qed.

Lemma sort_arr : arr mem0 10 1 [[97]; [98]; [99]; [97]; [98]].
Proof.
  assert (Hb : bytes_at mem0 10 [97; 98; 99; 97; 98]) by (apply bytes_at_check; by vm_compute).
  assert (Hl : forall i x, [[97]; [98]; [99]; [97]; [98]] !! i = Some x ->
    exists c, x = [c] /\ 0 <= c < 256 /\ [97; 98; 99; 97; 98] !! i = Some c).
  { intros i x Hx. do 5 (destruct i as [|i]; [injection Hx as <-; eexists; split; [done |]; split; [lia | done] |]). done. }
  split; intros i x (c & -> & Hc & Hi)%Hl.
  - split; [done |]. by apply Forall_singleton.
  - rewrite Z.mul_1_r. intros k d Hk. destruct k as [|k]; [| done]. injection Hk as <-. rewrite Z.add_0_r. by apply Hb.
Qed.

Lemma qsort_sorts_example :
  exists m' l', run (qsort cmp_byte 5 10 5 1) mem0 = Done tt m' /\ arr m' 10 1 l' /\
    Permutation l' [[97]; [98]; [99]; [97]; [98]] /\ StronglySorted (ordered hd_diff) l'.
Proof.
  destruct (qsort_sorts cmp_byte 1 hd_diff ltac:(lia) cmp_byte_ok ltac:(unfold hd_diff; lia) ltac:(unfold hd_diff; lia)
    5 10 _ mem0 sort_arr ltac:(cbn; lia)) as (m' & l' & H1 & H2 & H3 & H4 & _).
  exists m', l'. exact (conj H1 (conj H2 (conj H3 H4))).
Defined.
