(* ===== verification/DevExamples.v ===== *)
(** The theorems on devices at concrete states. *)
From Stdlib Require Import ZArith Lia.
From stdpp Require Import sorting gmap functions list.
From S2P Require Import Prelude Kernel Queue QueueFacts Sched Semaphore Clock Message Memory Boot Frame Thread System Bytes Format Scan Device Loopback Tty Examples.

(** Bytes at 100 and room at 200. *)
Definition user0 : bytemem := poke 100 [97; 10; 13; 98] (poke 200 (replicate 16 0) ∅).

Lemma user0_bytes : bytes_at user0 100 [97; 10; 13; 98].
Proof. apply poke_in. Qed.

Lemma user0_mapped n : n <= 16 -> mapped user0 200 n.
Proof.
  intros Hn i Hi. apply mapped_poke with (n := 16); [| lia]. intros j Hj.
  assert (Hl : (Z.to_nat j < length (replicate 16 0%Z))%nat) by (rewrite length_replicate; lia).
  apply lookup_lt_is_Some_2 in Hl as [c Hc].
  pose proof (poke_in 200 (replicate 16 0) ∅ (Z.to_nat j) c Hc) as H. rewrite Z2Nat.id in H by lia. by exists c.
Qed.

Lemma abc_bytes : Forall isbyte [97; 10; 13; 98].
Proof. repeat constructor; unfold isbyte; lia. Qed.

(** *** Loopback: device 0 is open, on semaphore 3 *)

Definition loop0 (nb : Z) : loopback := mkLoopback LOOP_STATE_ALLOC 1022 nb 3 (table LOOP_BUFFER 0).
Definition with_loop (nb : Z) (s : kst) : dst (gmap Z loopback) := mkDst s user0 {[0 := loop0 nb]}.

Lemma with_loop_chars nb s :
  semtab s !! 3 = Some (mkSement SUSED 0 (semq 3)) ->
  chars (with_loop nb s) 0 (LOOP_NONBLOCK =? Z.land nb LOOP_NONBLOCK) [].
Proof.
  intros Hs. split; [unfold LOOP_BUFFER; cbn; lia | constructor |]. exists (loop0 nb).
  split; [done |]. split; [done |]. split; [cbn; unfold LOOP_BUFFER; lia |]. split; [done |].
  split; [by exists (mkSement SUSED 0 (semq 3)) |]. split; [intros j Hj; unfold loop0; cbn [l_buffer]; rewrite table_dom; exact Hj | intros j c Hj; rewrite lookup_nil in Hj; discriminate Hj].
Qed.

Lemma loopback_fifo_example :
  exists w1 w2, run (loopbackWrite 0 100 4) (with_loop 0 (two_sems 0 boot)) = Done 4 w1 /\
    run (loopbackRead 0 200 4) w1 = Done 4 w2 /\ user w2 = poke 200 [97; 10; 13; 98] user0.
Proof.
  destruct (two_sems_ok 0 boot _ (proj1 boot_ok) ltac:(unfold INT_MAX; lia)) as [HI _].
  destruct (loopback_fifo (with_loop 0 (two_sems 0 boot)) _ 0 false [] 100 [97; 10; 13; 98] 200 HI
    (with_loop_chars 0 (two_sems 0 boot) ltac:(by vm_compute)) user0_bytes abc_bytes ltac:(cbn; lia) (user0_mapped 4 ltac:(lia)))
    as (w1 & w2 & H1 & H2 & _ & H3 & _).
  exists w1, w2. exact (conj H1 (conj H2 H3)).
Defined.

Lemma boot_run_user : thrcurrent boot_run <> NULLTHREAD.
Proof. by rewrite boot_run_cur. Qed.

Lemma loopback_empty_example :
  exists w', run (loopbackGetc 0) (with_loop 1 (two_sems 0 boot_run)) = Done EOF w'.
Proof.
  destruct boot_run_ok as (Q & HI & Hr). destruct (two_sems_ok 0 boot_run Q HI ltac:(unfold INT_MAX; lia)) as (H1 & H2 & H3).
  destruct (loopback_empty (with_loop 1 (two_sems 0 boot_run)) Q 0 true H1 (H2 Hr)
    ltac:(cbn [with_loop kern]; rewrite H3; exact boot_run_user) (with_loop_chars 1 (two_sems 0 boot_run) ltac:(by vm_compute))) as (w' & H & _).
  exists w'. exact H.
Defined.

(** *** A terminal on a device that is a pair of lists: what is still to be typed, and
    what was written *)

Definition pipe_getc (_ : Z) : prog (list Z * list Z) Z :=
  Prog (fun h => match h.1 with c :: r => Done c (r, h.2) | [] => Done SYSERR h end).
Definition pipe_putc (_ c : Z) : prog (list Z * list Z) Z := Prog (fun h => Done OK (h.1, h.2 ++ [c])).

#[export] Instance pipe_serial d : Serial pipe_getc pipe_putc d (fun h l => h.1 = l).
Proof.
  split.
  - intros [inp out] c r [= ->] _. by exists (r, out).
  - intros [inp out] c l [= ->]. by exists OK, (l, out ++ [c]).
Qed.

Definition tty0 : tty := mkTty (Some 3) (TTY_ICRNL + TTY_ECHO) false false (table TTY_IBLEN 0) 1023 0 TTY_ONLCR.
Definition with_tty (input : list Z) : dst (ttyst (list Z * list Z)) :=
  mkDst boot user0 (mkTtyst {[0 := tty0]} (input, [])).

Lemma with_tty_typed input : typed 3 0 (TTY_ICRNL + TTY_ECHO) (with_tty input) false false [].
Proof.
  split; [unfold TTY_IBLEN; cbn; lia | constructor |]. exists tty0.
  split; [done |]. split; [done |]. split; [done |]. split; [done |]. split; [done |].
  split; [cbn; unfold TTY_IBLEN; lia |]. split; [done |]. split; [intros j Hj; unfold tty0; cbn [y_in]; rewrite table_dom; exact Hj | intros j c Hj; rewrite lookup_nil in Hj; discriminate Hj].
Qed.

(** The keys [x], backspace, [h], [i] and return give the line [hi]. *)
Lemma tty_reads_line_example :
  exists w', run (ttyRead pipe_getc pipe_putc 10 0 200 16) (with_tty [120; 8; 104; 105; 13; 65]) = Done 3 w' /\
    user w' = poke 200 [104; 105; 10] user0.
Proof.
  destruct (tty_reads_line pipe_getc pipe_putc 3 (fun h l => h.1 = l) 0 (TTY_ICRNL + TTY_ECHO)
    (with_tty [120; 8; 104; 105; 13; 65]) false [] [120; 8; 104; 105; 13; 65] [104; 105; 10] true false [65] 200 16 10
    eq_refl (with_tty_typed _) eq_refl ltac:(repeat constructor; unfold isbyte; lia) ltac:(cbn; lia) ltac:(lia)
    ltac:(by vm_compute) (user0_mapped 3 ltac:(lia))) as (w' & H1 & _ & H2 & _).
  exists w'. exact (conj H1 H2).
Defined.

#[export] Instance pipe_sink d : Sink pipe_putc d snd.
Proof. intros [inp out] c. by exists OK, (inp, out ++ [c]). Qed.

Lemma tty_writes_example :
  exists w', run (ttyWrite pipe_putc 0 100 4) (with_tty []) = Done 4 w' /\ (hw (own w')).2 = [97; 13; 10; 13; 98].
Proof.
  destruct (tty_writes pipe_putc 3 snd 0 tty0 (with_tty []) 100 [97; 10; 13; 98] eq_refl eq_refl user0_bytes abc_bytes
    ltac:(cbn; lia)) as (w' & H1 & _ & _ & _ & H2).
  exists w'. exact (conj H1 H2).
Defined.
