(* ===== verification/NetExamples.v ===== *)
(** The theorems on the network at a concrete host: interface 0 with the address
    10.0.0.1/24 on device 5, which keeps the frames in a list; one route, for its
    network; one known hardware address, of 10.0.0.2.  The clients, at the end, have hosts of their own. *)
From Stdlib Require Import ZArith Lia.
From stdpp Require Import sorting gmap functions list.
From S2P Require Import Prelude Kernel Queue QueueFacts Sched Semaphore Clock Message Memory Boot BufPool Bytes Format Scan Stdio Device DevTab Chksum Netaddr Tcb Net Wire Snoop Route Arp Ipv4 Udp Raw Netif Dhcp DhcpReply Rely Tftp Dotted.

(** ** The host *)

Definition inet (a b c d : Z) : netaddr := mkNetaddr NETADDR_IPv4 IPv4_ADDR_LEN [a; b; c; d; 0; 0].
Definition ether (k : Z) : netaddr := mkNetaddr NETADDR_ETHERNET ETH_ADDR_LEN (replicate 6 k).

Ltac addr :=
  split; cbn; [unfold NET_MAX_ALEN, IPv4_ADDR_LEN, ETH_ADDR_LEN; lia | done | repeat (apply Forall_cons; split; [unfold isbyte; lia |]); apply Forall_nil_2].

Lemma zero_addr_ok : addr_ok zero_netaddr.
Proof. addr. Qed.

Definition host_if : netif :=
  mkNetif 5 NET_ALLOC 1500 ETH_HDR_LEN (inet 10 0 0 1) (inet 255 255 255 0) zero_netaddr (inet 10 0 0 255)
    (ether 17) NETADDR_GLOBAL_ETH_BRC ∅ 0 0 None.
Definition host_route : rtEntry :=
  mkRtEntry RT_USED 24 (inet 10 0 0 0) zero_netaddr (inet 255 255 255 0) (Some 0).
Definition host_arp : arpEntry := mkArpEntry ARP_RESOLVED (Some 0) (ether 34) (inet 10 0 0 2) 1000 ∅ 0.
Definition no_route : rtEntry := mkRtEntry RT_FREE 0 zero_netaddr zero_netaddr zero_netaddr None.

(** Sockets 0 and 1 are open: one listens on port 53, the other is connected to it
    from 10.0.0.2, port 99; socket 2 uses the first of the ports for programs. *)
Definition listening : udp := mkUdp None (table UDP_MAX_PKTS 0) 0 0 0 0 53 0 (inet 10 0 0 1) zero_netaddr UDP_OPEN 0.
Definition connected : udp := mkUdp None (table UDP_MAX_PKTS 0) 0 0 0 0 53 99 (inet 10 0 0 1) (inet 10 0 0 2) UDP_OPEN 0.
Definition host_udp : list udp := [listening; connected; set_u_localpt 10001 zero_udp; zero_udp].

(** Packet 1 has three bytes at 100, with room for the headers in front; there is room
    at 300. *)
Definition host_mem : bytemem := poke 66 (replicate 34 0 ++ [1; 2; 3]) (poke 300 (replicate 40 0) ∅).
Definition host_net : net (list (list Z)) :=
  mkNet {[0 := host_if]} 0 (<[0 := host_route]> (table RT_NENTRY no_route)) 0
    (<[0 := host_arp]> (table ARP_NENTRY zero_arp)) 0 ∅ 0 (list_to_map (zip [0; 1; 2; 3] host_udp)) 0
    ∅ ∅ {[1 := mkPacket None 3 100 100 100]} [] (mkTcps ∅ ∅ 0 0 0 0).
Definition host : dst (net (list (list Z))) := mkDst boot host_mem host_net.

Definition host_dev : gmap Z (device (net (list (list Z)))) := <[5 := list_device 5]> ∅.

Lemma host_routes : routes_ok host.
Proof.
  intros i Hi. destruct (decide (i = 0)) as [-> | Hn].
  - exists host_route. split; [apply lookup_insert_eq | split; addr].
  - exists no_route. split; [| split; apply zero_addr_ok]. cbn. rewrite lookup_insert_ne by done.
    rewrite table_lookup. by rewrite decide_True.
Qed.

Lemma host_arps : arps_ok host.
Proof.
  intros i Hi. destruct (decide (i = 0)) as [-> | Hn].
  - exists host_arp. split; [apply lookup_insert_eq | split; [addr |]]. intros _. by vm_compute.
  - exists zero_arp. split; [| split; [apply zero_addr_ok | done]]. cbn. rewrite lookup_insert_ne by done.
    rewrite table_lookup. by rewrite decide_True.
Qed.

Lemma host_resolves : resolves host (inet 10 0 0 2) (ether 34).
Proof.
  exists 0, host_arp. split; [| done]. split; [by unfold ARP_NENTRY |]. split; [apply lookup_insert_eq |].
  split; [done |]. intros j e' Hj. lia.
Qed.

Lemma host_crit : inCrit (kern host) = true.
Proof. by vm_compute. Qed.

(** ** Routes and addresses *)

Lemma rtLookup_longest_example :
  exists r, run (rtLookup (inet 10 0 0 7)) host = Done r (mkDst (crit_out (crit_in (kern host))) (user host) (own host)) /\
    best_route (rttab (own host)) (inet 10 0 0 7) RT_NENTRY r.
Proof. exact (rtLookup_longest host (inet 10 0 0 7) host_routes ltac:(addr) host_crit). Defined.

(** Entry 0, for the same address, has expired. *)
Definition stale_arp : arpEntry := mkArpEntry ARP_RESOLVED (Some 0) (ether 51) (inet 10 0 0 2) 499 ∅ 0.
Definition stale_host : dst (net (list (list Z))) :=
  put_arptab (<[0 := stale_arp]> (<[1 := host_arp]> (table ARP_NENTRY zero_arp))) (set_kern (set_clktime 500 boot) host).

Lemma stale_tidy : arps_tidy stale_host.
Proof.
  intros i Hi. destruct (decide (i = 0)) as [-> | H0]; [exists stale_arp; split; [done | split; [addr | done]] |].
  destruct (decide (i = 1)) as [-> | H1]; [exists host_arp; split; [done | split; [addr | done]] |].
  exists zero_arp. split; [| split; [apply zero_addr_ok | done]]. cbn. rewrite !lookup_insert_ne by done.
  rewrite table_lookup. by rewrite decide_True.
Qed.

Lemma stale_live : first_live stale_host (inet 10 0 0 2) 1 host_arp.
Proof.
  split; [by unfold ARP_NENTRY |]. split; [done |]. split; [by vm_compute |]. intros j e' Hj E.
  assert (j = 0) as -> by lia. change (Some stale_arp = Some e') in E. injection E as <-. by vm_compute.
Qed.

(** The entry that has expired is freed, and the next one answers. *)
Lemma arpLookup_resolved_example :
  exists w', run (arpLookup host_dev (Some 0) (Some (inet 10 0 0 2))) stale_host = Done (OK, ether 34) w' /\
    arptab (own w') !! 0 = Some arp_freed /\ user w' = user host /\ irqs_masked (kern w') = true.
Proof.
  destruct (arpLookup_resolved host_dev stale_host 0 (inet 10 0 0 2) 1 host_arp stale_tidy ltac:(addr) eq_refl stale_live eq_refl)
    as (w' & H1 & H2 & H3 & H4).
  exists w'. split; [exact H1 |]. split; [by rewrite H2 | split; [exact H3 | exact H4]].
Defined.

(** ** Sending *)

Lemma host_packet : bytes_at host_mem 100 [1; 2; 3].
Proof.
  pose proof (poke_in 66 (replicate 34 0 ++ [1; 2; 3]) (poke 300 (replicate 40 0) ∅)) as H.
  apply bytes_at_app in H as [_ H]. exact H.
Qed.

Lemma host_room i n : 66 <= i -> i + n <= 100 -> mapped host_mem i n.
Proof.
  intros Hi Hn. pose proof (poke_in 66 (replicate 34 0 ++ [1; 2; 3]) (poke 300 (replicate 40 0) ∅)) as H.
  apply bytes_mapped in H. intros j Hj. replace (i + j) with (66 + (i - 66 + j)) by lia. apply H. cbn. lia.
Qed.

Lemma host_block : mapped host_mem 300 40.
Proof. apply mapped_poke. apply (bytes_mapped _ _ (replicate 40 0)). apply poke_in. Qed.

Lemma host_routable : routable host 1 (mkPacket None 3 100 100 100) (inet 10 0 0 2) host_route 0 host_if.
Proof.
  split; [done | apply lookup_insert_eq | addr | done | apply host_routes | apply host_crit | | done | apply lookup_insert_eq | addr
    | unfold IPv4_HDR_LEN; cbn; lia | unfold IPv4_HDR_LEN; cbn; lia | apply host_room; unfold IPv4_HDR_LEN; cbn; lia].
  exists 0. split; [by vm_compute | apply lookup_insert_eq].
Qed.

Lemma host_next :
  if same_addr (n_ipbrc host_if) (next_hop host_route (inet 10 0 0 2)) then ether 34 = NETADDR_GLOBAL_ETH_BRC
  else arps_ok host /\ resolves host (next_hop host_route (inet 10 0 0 2)) (ether 34) /\ addr_ok (ether 34) /\
    na_len (ether 34) = ETH_ADDR_LEN.
Proof.
  split; [exact host_arps |]. split; [exact host_resolves |]. split; [addr | done].
Qed.

(** The three bytes go to 10.0.0.2 in one frame. *)
Lemma ipv4Send_frame_example :
  exists w' hdr, run (ipv4Send host_dev 1 zero_netaddr (Some (inet 10 0 0 2)) 17) host = Done OK w' /\
    link (own w') = [frame (ether 34) (ether 17) ETHER_TYPE_IPv4 (hdr ++ [1; 2; 3])].
Proof.
  destruct (ipv4Send_frame host_dev id host 1 0 17 (mkPacket None 3 100 100 100) zero_netaddr (inet 10 0 0 2) host_route host_if [1; 2; 3]
    (ether 34) host_routable zero_addr_ok ltac:(unfold isbyte; lia) eq_refl eq_refl ltac:(split; [addr | done]) eq_refl
    ltac:(unfold IPv4_HDR_LEN, ETH_HDR_LEN; cbn; lia) ltac:(apply host_room; unfold IPv4_HDR_LEN, ETH_HDR_LEN; cbn; lia)
    host_packet eq_refl ltac:(unfold IPv4_HDR_LEN; cbn; lia) ltac:(addr) ltac:(addr)
    host_next (HW := list_wire 5 ltac:(unfold NDEVS; lia)))
    as (w' & hdr & H1 & H2 & _).
  exists w', hdr. exact (conj H1 H2).
Defined.

(** ** Sockets *)

Lemma host_udp_ok : forall i, 0 <= i < NUDP ->
  exists u, udptab (own host) !! i = Some u /\ addr_ok (u_localip u) /\ addr_ok (u_remoteip u).
Proof.
  intros i Hi. unfold NUDP in Hi.
  assert (i = 0 \/ i = 1 \/ i = 2 \/ i = 3) as [-> | [-> | [-> | ->]]] by lia; eexists; (split; [reflexivity | split; addr]).
Qed.

Lemma udpDemux_best_example :
  exists r, run (udpDemux 53 99 (inet 10 0 0 1) (inet 10 0 0 2)) host = Done r host /\
    is_best (udp_rank host 53 99 (inet 10 0 0 1) (inet 10 0 0 2)) NUDP r.
Proof. exact (udpDemux_best host 53 99 (inet 10 0 0 1) (inet 10 0 0 2) host_udp_ok ltac:(addr) ltac:(addr)). Defined.

Lemma host_sockets : sockets host_udp host.
Proof.
  split; [done |]. intros i. destruct i as [|[|[|[|i]]]]; try reflexivity.
  change (udptab (own host)) with (list_to_map (M := gmap Z udp) (zip [0; 1; 2; 3] host_udp)). change (host_udp !! _) with (@None udp).
  apply not_elem_of_list_to_map_1.
  rewrite fst_zip by done. rewrite !not_elem_of_cons. split_and!; [lia.. | apply not_elem_of_nil].
Qed.

(** Port 10001 is taken, so the next one is chosen. *)
Lemma allocPort_free_example : exists q, run allocPort host = Done (q + UDP_PSTART) (put_nextport q host) /\ 0 <= q < NPORTS.
Proof.
  destruct (allocPort_free host_udp host host_sockets ltac:(unfold NPORTS, UDP_PMAX, UDP_PSTART; cbn; lia)) as (q & H1 & H2 & _).
  exists q. exact (conj H1 H2).
Defined.

(** The port of socket 0 is given out again when the search has tried another one. *)
Example allocPort_first_socket :
  let us := [set_u_localpt 10002 zero_udp; set_u_localpt 10001 zero_udp; zero_udp; zero_udp] in
  let w := put_udptab (list_to_map (zip [0; 1; 2; 3] us)) host in
  run allocPort w = Done 10002 (put_nextport 2 w).
Proof. reflexivity. Qed.

(** A datagram of nine bytes, from port 99 to port 53, in the order of the host. *)
Definition dgram : list Z := [99; 0; 53; 0; 9; 0; 0; 0; 7].
Definition host_in : dst (net (list (list Z))) := mkDst boot (poke 400 dgram host_mem) host_net.

Lemma dgram_ok : datagram dgram.
Proof. split; [repeat (apply Forall_cons; split; [unfold isbyte; lia |]); apply Forall_nil_2 | split; [unfold UDP_HDR_LEN; cbn; lia | done]]. Qed.

Lemma udp_fifo_example :
  exists m u', run (udp_enqueue 0 300 400 (inet 10 0 0 2) (inet 10 0 0 1)) host_in =
      Done tt (put_udptab (<[0 := u']> (udptab (own host_in))) (mkDst (kern host_in) m (own host_in))) /\
    ring_of m u' [(300, stored (inet 10 0 0 2) (inet 10 0 0 1) dgram)].
Proof.
  destruct (udp_fifo 0 listening [] host_in eq_refl) as [H _].
  refine (H 300 400 (inet 10 0 0 2) (inet 10 0 0 1) dgram _ _ _ _ dgram_ok _ _ _); [| done | addr | addr | apply poke_in | |].
  - split; [by split | done | | intros j p b Hj; discriminate Hj].
    intros k Hk. unfold listening; cbn [u_in]. by apply table_dom.
  - apply mapped_poke. intros i Hi. apply host_block. change (SIZEOF_PSEUDO + Z.of_nat (length dgram)) with 21 in Hi. lia.
  - intros p b Hpb. apply list_elem_of_singleton in Hpb. injection Hpb as -> ->. left. change (SIZEOF_PSEUDO + Z.of_nat (length dgram)) with 21. lia.
Defined.

(** ** Captures: a filter on a sender, and an ARP packet of 24 bytes that claims to hold
    addresses of six and four bytes *)

Definition arp_filter : snoop := mkSnoop 100 false SNOOP_FILTER_ARP (inet 10 0 0 2) 0 zero_netaddr 0 0 0 0 0 0.
Definition short_arp : list Z := replicate 12 255 ++ [8; 6; 0; 1; 8; 0; 6; 4; 0; 1; 34; 34].
Definition host_tap : dst (net (list (list Z))) :=
  put_snooptab {[0 := arp_filter]} (put_pkts {[2 := mkPacket (Some 0) 24 400 0 400]} (mkDst boot (poke 400 short_arp ∅) host_net)).

Lemma snoopFilter_safe_example : run (snoopFilter 0 2) host_tap = Done false host_tap.
Proof.
  refine (snoopFilter_safe host_tap arp_filter (mkPacket (Some 0) 24 400 0 400) short_arp _ _ eq_refl _ _ 0 2 eq_refl eq_refl).
  - apply poke_in.
  - repeat (apply Forall_cons; split; [unfold isbyte; lia |]). apply Forall_nil_2.
  - addr.
  - addr.
Defined.

(** ** Checksums: the bytes 255 255 *)

Lemma chksum_detects_example : exists c, run (netChksum 100 2) (poke 100 [255; 254] ∅) = Done c (poke 100 [255; 254] ∅) /\ c <> 0.
Proof.
  refine (chksum_detects (poke 100 [255; 255] ∅) _ 100 [255; 255] 1 255 254 _ _ (poke_in _ _ _) eq_refl _ _ _ (poke_in _ _ _)).
  - repeat (apply Forall_cons; split; [unfold isbyte; lia |]). apply Forall_nil_2.
  - cbn; lia.
  - unfold isbyte; lia.
  - lia.
  - by vm_compute.
Defined.

(** ** Names: device 0 is called "x", the second place is empty *)

Definition name_mem : bytemem := poke 100 [120; 0; 121; 0] ∅.
Definition named : gmap Z (device unit) := <[0 := mkDevice 0 0 100 None None None None None None None None None 0 0 0]> {[1 := no_device]}.

Lemma getdev_first_example : run (getdev named 100) (mkDst boot name_mem tt) = Done 0 (mkDst boot name_mem tt).
Proof.
  assert (Hx : cstr name_mem 100 [120]).
  { split; [| repeat constructor; lia]. pose proof (poke_in 100 [120; 0; 121; 0] ∅) as H. by apply (bytes_at_app _ _ [120; 0] [121; 0]) in H as [H _]. }
  refine (proj1 (getdev_first named (mkDst boot name_mem tt) 100 [120] Hx) 0%nat [[120]] _ _ _ eq_refl _).
  - unfold NDEVS; cbn; lia.
  - intros j l Hj. destruct j as [|j]; [| discriminate Hj]. injection Hj as <-. eexists. split; [reflexivity | exact Hx].
  - cbn; lia.
  - intros j Hj. lia.
Defined.

(** ** Text: printing 10.0.0.1 at 300, with local variables at 66 to 82 *)

Lemma dotted_roundtrip_example :
  exists out m2 a, run (netaddrsprintf 300 (inet 10 0 0 1)) host_mem = Done 300 (poke 300 (out ++ [0]) host_mem) /\
    run (dot2ipv4 66 70 74 78 82 300 (Some zero_netaddr)) (poke 300 (out ++ [0]) host_mem) = Done (OK, Some a) m2 /\
    same_addr (inet 10 0 0 1) a = true.
Proof.
  destruct (dotted_roundtrip host_mem 300 (inet 10 0 0 1) zero_netaddr 66 70 74 78 82) as (out & m2 & a & _ & _ & H1 & H2 & H3).
  - addr.
  - done.
  - done.
  - assert (Hr : forall i n, 66 <= i -> i + n <= 100 -> mapped host_mem i n) by apply host_room.
    cbn [blocks]. rewrite !Forall_cons, Forall_nil. unfold apart. cbn [fst snd].
    split_and!; try done; try lia; try (apply Hr; lia). intros i Hi. apply host_block. lia.
  - exists out, m2, a. exact (conj H1 (conj H2 H3)).
Defined.

(** ** DHCP *)

(** An offer of the address 10.0.0.9 by the server 10.0.0.1 to the request 7. *)
Definition offer : list Z :=
  (replicate 6 255 ++ replicate 6 34 ++ [8; 0]) ++ (replicate 9 0 ++ [17] ++ replicate 10 0) ++ [0; 67; 0; 68; 0; 0; 0; 0] ++
  ([2; 1; 6; 0; 0; 0; 0; 7] ++ replicate 8 0 ++ [10; 0; 0; 9; 10; 0; 0; 1] ++ replicate 216 0) ++ [53; 1; 2; 255].
Definition selecting : dhcpData := set_h_cxid 7 (set_h_state DHCPC_STATE_SELECTING zero_dhcp).

Lemma dhcp_packet_answer_example :
  exists d, run (dhcp_packet 100 286 selecting) (poke 100 offer ∅) = Done (Some (OK, d)) (poke 100 offer ∅) /\
    h_offeredIpv4Addr d = 10 * 2 ^ 24 + 9 /\ h_serverHwAddr d = replicate 6 34.
Proof.
  eexists. split; [etransitivity; [apply (dhcp_packet_answer (poke 100 offer ∅) 100 offer selecting (poke_in 100 offer ∅)) | by vm_compute] |].
  - unfold offer. repeat (apply Forall_app; split); try (apply Forall_replicate); repeat constructor; unfold isbyte; lia.
  - by vm_compute.
Defined.

(** ** TFTP: the file is of two blocks; the device of the socket stands for the network,
    which sends the next packet after an acknowledgement and after the socket is set free,
    and for the receive thread, which puts it into the buffer and tells the client *)

Definition tfile : list Z := replicate 512 7 ++ [8; 9].
(** The packets to come, what has been handed over, and the reports. *)
Abbreviation tstate := (list (netaddr * list Z) * list (list Z) * list report)%type.
Definition tgot (w : dst (net tstate)) : list (list Z) := snd (fst (link (own w))).
Definition tlog (w : dst (net tstate)) : list report := snd (link (own w)).
Definition tnote (e : report) (w : dst (net tstate)) : dst (net tstate) := put_link (fst (link (own w)), tlog w ++ [e]) w.
Definition tdata (k : Z) (d : list Z) : list Z := [0; 3; 0; k] ++ d.
Definition tpost (w : dst (net tstate)) : dst (net tstate) :=
  match fst (fst (link (own w))) with
  | [] => w
  | (from, p) :: rest =>
      let k := kern w in
      let k' := set_thrtab (alter (deposit (Z.of_nat (length p))) (thrcurrent k) (thrtab k)) k in
      put_udptab (alter (set_u_remoteip from) 0 (udptab (own w))) (put_link (rest, tgot w, tlog w) (mkDst k' (poke 100 p (user w)) (own w)))
  end.
Definition ttake (a n : Z) : dprog (net tstate) Z :=
  l ← ucall (rd_bytes (Z.to_nat n) a);
  modify (fun w => put_link (fst (fst (link (own w))), tgot w ++ [l], tlog w) w);;
  mret OK.
Definition tdev : gmap Z (device (net tstate)) :=
  <[UDP0 := mkDevice UDP0 0 0 None None None None (Some (fun _ _ n => modify tpost;; mret n)) None None None
    (Some (fun _ func _ _ => (if func =? UDP_CTRL_SETFLAG then modify tpost else mret tt);; mret OK)) 0 0 0]> ∅.
Definition tserver : netaddr := inet 10 0 0 2.
(** A packet from elsewhere, the first block twice, the second. *)
Definition tscript : list (netaddr * list Z) :=
  [(inet 10 0 0 9, tdata 1 [1; 2; 3]); (tserver, tdata 1 (replicate 512 7)); (tserver, tdata 1 (replicate 512 7)); (tserver, tdata 2 [8; 9])].
Definition thost : dst (net tstate) :=
  tpost (mkDst boot (poke 50 (replicate 4 0) ∅)
    (mkNet ∅ 0 ∅ 0 ∅ 0 ∅ 0 {[0 := zero_udp]} 0 ∅ ∅ ∅ (tscript, [], []) (mkTcps ∅ ∅ 0 0 0 0))).

Lemma run_rd_bytes_cases n : forall a (m : bytemem),
  run (rd_bytes n a) m = Fault \/ exists l, run (rd_bytes n a) m = Done l m /\ length l = n /\ bytes_at m a l.
Proof.
  induction n as [|n IH]; intros a m; cbn [rd_bytes]; [right; exists []; by split |].
  rewrite run_bind. rewrite run_ldb_cases. destruct (m !! a) as [c|] eqn:E; [| by left]. cbn [obind]. rewrite run_bind.
  destruct (IH (a + 1) m) as [-> | (l & -> & Hl & Hb)]; [by left | right]. exists (c :: l). split; [done |]. split; [cbn; congruence |].
  by apply bytes_at_cons.
Qed.

Lemma ttake_takes : takes ttake tgot tlog.
Proof.
  intros a n w Hn. unfold ttake. apply holds_run. rewrite run_bind. unfold ucall. rewrite run_zoom.
  destruct (run_rd_bytes_cases (Z.to_nat n) a (user w)) as [-> | (l & -> & Hl & Hb)]; [done |]. cbn [ozoom obind].
  rewrite run_bind, run_modify. cbn [obind]. rewrite run_ret. intros _. exists l. split; [exact Hb |]. split; [lia | done].
Qed.

Lemma tnote_notes e (w : dst (net tstate)) : tlog (tnote e w) = tlog w ++ [e] /\ tgot (tnote e w) = tgot w /\ user (tnote e w) = user w /\
  udptab (own (tnote e w)) = udptab (own w).
Proof. done. Qed.

Lemma tpost_view w : view tgot tlog (tpost w) = view tgot tlog w.
Proof. unfold tpost. by destruct w as [k u []], link as [[[|[from p] rest] g] l]. Qed.

Lemma tpost_steady : steady (view tgot tlog) id (modify tpost).
Proof. apply steady_modify. intros w. apply tpost_view. Qed.

Lemma tdev_write d a n : steady (view tgot tlog) id (write tdev d a n).
Proof.
  unfold write. case_match; [| apply steady_ret]. unfold dev, tdev. destruct (decide (UDP0 = d)) as [<- | Hne].
  - rewrite lookup_insert_eq. intros w y E. apply wp_bind, wp_ret. cbn [d_write d_minor]. apply wp_bind, wp_modify, wp_ret. by rewrite tpost_view.
  - rewrite lookup_insert_ne by done. intros w y E. by apply wp_bind.
Qed.

Lemma tdev_control d f a b : steady (view tgot tlog) id (control tdev d f a b).
Proof.
  unfold control. case_match; [| apply steady_ret]. unfold dev, tdev. destruct (decide (UDP0 = d)) as [<- | Hne].
  - rewrite lookup_insert_eq. intros w y E. apply wp_bind, wp_ret. cbn [d_control]. apply wp_bind.
    case_match; [apply wp_modify, wp_ret; by rewrite tpost_view | by apply wp_ret, wp_ret].
  - rewrite lookup_insert_ne by done. intros w y E. by apply wp_bind.
Qed.

Definition trequest (d : Z) : dprog (net tstate) Z := tftpSendRRQ tdev 50 60 d 70.

Lemma tdev_aside : aside tdev 50 trequest tgot tlog.
Proof.
  split; [intros d; unfold trequest, tftpSendRRQ | intros d b; unfold tftpSendACK | apply tdev_control | done];
    repeat first [apply tdev_write | apply steady_ret | apply steady_zoom; done | case_match | apply steady_bind; [| intros ?]].
Qed.

Definition ttransfer : dprog (net tstate) Z :=
  transfer_with tdev 100 50 trequest (watched 7 tnote) ttake UDP0 tserver 4 UDP0.
Definition tresult {A} (o : outcome (dst (net tstate)) A) : dst (net tstate) := match o with Done _ w => w | _ => thost end.

(** The reports that name the server have the blocks of the file. *)
Definition genuine (e : report) : bool :=
  match half_at (e_mem e) 102 with Some k => negb (offers 100 UDP0 tserver e k) || bool_decide (e_data 100 e = block tfile k) | None => true end.

Lemma genuine_sends es : forallb genuine es = true -> sends 100 UDP0 tserver tfile es.
Proof.
  intros Hes e k He Hk Ho. rewrite forallb_forall in Hes. specialize (Hes e (proj1 (list_elem_of_In _ _) He)). unfold genuine in Hes.
  assert (E : half_at (e_mem e) 102 = Some k).
  { revert Ho. unfold offers. change (100 + TF_BLOCK) with 102. repeat (case_match; try done). intros Ho.
    apply andb_true_iff in Ho as [_ Ho%Z.eqb_eq]. by rewrite Ho, u16_small by lia. }
  rewrite E, Ho in Hes. by apply bool_decide_eq_true in Hes.
Qed.

Lemma tresult_ok (o : outcome (dst (net tstate)) Z) : match o with Done v _ => v =? OK | _ => false end = true -> o = Done OK (tresult o).
Proof. destruct o as [v w| | | |]; try done. by intros ->%Z.eqb_eq. Qed.

Lemma ttransfer_ok : run ttransfer thost = Done OK (tresult (run ttransfer thost)).
Proof. apply tresult_ok. by vm_compute. Qed.

(** The packet from elsewhere and the doubled block are left out. *)
Lemma transfer_whole_example : exists w', run ttransfer thost = Done OK w' /\ length (tlog w') = 4%nat /\ concat (tgot w') = tfile.
Proof.
  eexists. split; [exact ttransfer_ok |]. split; [by vm_compute |].
  destruct (wp_done (view tgot tlog) _ _ _ _ _ _ (transfer_whole tdev 100 50 trequest 7 ttake UDP0 tserver tgot tlog tnote
    tnote_notes tdev_aside ttake_takes 4 UDP0 thost) ttransfer_ok eq_refl) as (es & El & Eg & _ & Hf).
  change (tlog thost) with (@nil report) in El. change (tgot thost) with (@nil (list Z)) in Eg. cbn [app] in El, Eg.
  rewrite Eg. apply Hf; [by vm_compute |]. rewrite <- El. apply genuine_sends. by vm_compute.
Defined.
