(* ===== verification/TcpExamples.v ===== *)
(** The theorems on TCP at a concrete host: that of NetExamples.v, with a semaphore 2 that
    has one permit and a semaphore 3 that has none, connections 0 and 1, and three events
    in the timer's list. *)
From Stdlib Require Import ZArith Lia.
From stdpp Require Import sorting gmap functions list.
From S2P Require Import Prelude Ports Kernel Queue QueueFacts Sched Semaphore Clock Message Memory Boot Frame Thread BufPool Bytes Device Rely DevTab Chksum Netaddr Tcb Net Wire Snoop Route Arp Ipv4 Udp Raw TcpTimer Agenda Tcp TcpRecv TcpDev TcpRing TcpSafe Examples NetExamples.

(** ** The connections *)

(** Connection 0 has [l] behind the place [16383] of its rings. *)
Definition ring_tab (l : list Z) : gmap Z Z := list_to_map (zip ((fun k => (16383 + Z.of_nat k) mod CAP) <$> seq 0 (length l)) l).
Definition tcb0 (state : Z) : tcb :=
  set_tc_out (ring_tab [7; 8]) (set_tc_ostart 16383 (set_tc_ocount 2
    (set_tc_in (ring_tab [5; 6]) (set_tc_istart 16383 (set_tc_icount 2 (set_tc_inxt 1 (set_tc_readers 3
      (set_tc_rcvwnd 1010 (set_tc_rcvnxt 1000 (set_tc_localpt 80 (set_tc_state state zero_tcb))))))))))).
Definition tcb1 : tcb := set_tc_localpt (TCP_PSTART + 1) (set_tc_state TCP_ESTAB zero_tcb).
Definition tcp_sock (state : Z) : list tcb := tcb0 state :: tcb1 :: replicate 5 zero_tcb.
Definition tcp_tab (state : Z) : gmap Z tcb := list_to_map (zip [0; 1; 2; 3; 4; 5; 6] (tcp_sock state)).

(** ** The events: a retransmission of connection 1 after 30 ticks, and 20 and 25 ticks
    after that the two events of connection 2 *)

Definition events : gmap Z tcpEvent :=
  <[0 := mkTcpEvent true 0 0 0 None (Some 5)]> (<[5 := mkTcpEvent true 30 30 TCP_EVT_RXT (Some 1) (Some 9)]>
  (<[9 := mkTcpEvent true 60 20 TCP_EVT_TIMEWT (Some 2) (Some 12)]>
  (<[12 := mkTcpEvent true 60 5 TCP_EVT_PERSIST (Some 2) None]> (table TCP_NEVENTS zero_event)))).
Definition ev5 : item := mkItem 5 true 30 30 TCP_EVT_RXT (Some 1).
Definition ev9 : item := mkItem 9 true 20 60 TCP_EVT_TIMEWT (Some 2).
Definition ev12 : item := mkItem 12 true 5 60 TCP_EVT_PERSIST (Some 2).

(** A segment at 100: its number is 1000, its header has twenty octets, and its data is 9. *)
Definition tcp_mem : bytemem :=
  poke 100 ([99; 0; 80; 0; 232; 3; 0; 0; 0; 0; 0; 0; 80; 16; 0; 0; 0; 0; 0; 0] ++ [9]) (poke 200 [40; 41; 42] ∅).

Definition tcp_host (state : Z) : dst (net (list (list Z))) :=
  put_tcpst (mkTcps (tcp_tab state) events 2 0 12 0) (mkDst (two_sems 1 boot) tcp_mem host_net).

Lemma tcp_kinv state : kinv (kern (tcp_host state)) (fun _ => []).
Proof. apply two_sems_ok; [apply boot_ok | unfold INT_MAX; lia]. Qed.

Lemma tcp_permit : permits (two_sems 1 boot) 2 1.
Proof. by exists (mkSement SUSED 1 (semq 2)); vm_compute. Qed.
Lemma tcp_readers : permits (two_sems 1 boot) 3 0.
Proof. by exists (mkSement SUSED 0 (semq 3)); vm_compute. Qed.

Lemma tcp_timer state : timer 1 (tcp_host state) (fun _ => []) [ev5; ev9; ev12].
Proof.
  split.
  - apply tcp_kinv.
  - apply tcp_permit.
  - eexists. split; [reflexivity |]. split; [reflexivity |]. eexists. do 2 (split; [reflexivity |]).
    split; [reflexivity |]. eexists. do 2 (split; [reflexivity |]).
    split; [reflexivity |]. eexists. do 2 (split; [reflexivity |]). reflexivity.
  - apply (bool_decide_unpack _). by vm_compute.
  - intros j Hj. cbn in Hj. set_solver by lia.
  - by repeat constructor.
  - cbn. unfold INT_MAX. lia.
  - split; [| cbn; lia]. intros j Hj. change (evtab (tcp_host state)) with events. unfold events.
    rewrite !lookup_insert, table_lookup. rewrite (decide_True (P := 0 <= j < TCP_NEVENTS)) by done. repeat case_decide; by eexists.
Qed.

Lemma tcpTimerSched_agenda_example :
  exists r w', run (tcpTimerSched 40 (Some 0) TCP_EVT_RXT) (tcp_host TCP_ESTAB) = Done r w' /\ timer_frame (tcp_host TCP_ESTAB) w'.
Proof.
  destruct (tcpTimerSched_agenda (tcp_host TCP_ESTAB) _ _ 40 TCP_EVT_RXT 0 (tcp_timer _) ltac:(unfold INT_MAX; lia)) as (r & w' & H1 & H2 & _).
  exists r, w'. exact (conj H1 H2).
Defined.

(** The event of connection 1 is found first, so the result is its time less its delta. *)
Lemma tcpTimerPurge_agenda_example :
  exists w' q', run (tcpTimerPurge 1 NULL) (tcp_host TCP_ESTAB) = Done 0 w' /\ agenda 0 q' = [(50, TCP_EVT_TIMEWT, Some 2); (55, TCP_EVT_PERSIST, Some 2)].
Proof.
  destruct (tcpTimerPurge_agenda (tcp_host TCP_ESTAB) _ _ 1 NULL (tcp_timer _) eq_refl) as (w' & q' & H1 & _ & _ & H2).
  exists w', q'. exact (conj H1 H2).
Defined.

Lemma tcpTimerPurge_adjacent_example :
  exists r w' h q', run (tcpTimerPurge 2 NULL) (tcp_host TCP_ESTAB) = Done r w' /\
    linked (evtab w') (v_next h) q' /\ (9 ∉ ids q') /\ exists z, z ∈ q' /\ it_id z = 12 /\ it_used z = false.
Proof.
  destruct (tcpTimerPurge_adjacent (tcp_host TCP_ESTAB) _ [ev5] [ev9; ev12] [] 2 NULL (tcp_timer _)
    ltac:(by repeat constructor)) as (r & w' & h & q' & H1 & _ & H2 & H3 & _).
  - intros z q0 Ez. apply (app_inj_2 [] q0 [ev5] [z] eq_refl) in Ez as [_ [= <-]]. done.
  - exists r, w', h, q'. split; [exact H1 |]. split; [exact H2 |]. split; [exact (H3 0%nat ev9 eq_refl) | exact (H3 1%nat ev12 eq_refl)].
Defined.

Lemma tcpTimerRemain_agenda_example : exists w', run (tcpTimerRemain 2 TCP_EVT_PERSIST) (tcp_host TCP_ESTAB) = Done 55 w'.
Proof.
  destruct (tcpTimerRemain_agenda (tcp_host TCP_ESTAB) _ _ 2 TCP_EVT_PERSIST (tcp_timer _)) as (w' & H & _). exists w'. exact H.
Defined.

(** ** Ports and numbers *)

Lemma tcp_host_sockets state : tcp_sockets (tcp_sock state) (tcp_host state).
Proof.
  split; [done |]. intros i. destruct i as [|[|[|[|[|[|[|i]]]]]]]; try reflexivity.
  change (g_tcptab _) with (tcp_tab state). change (tcp_sock state !! _) with (@None tcb).
  apply not_elem_of_list_to_map_1.
  rewrite fst_zip by done. rewrite !not_elem_of_cons. split_and!; [lia.. | apply not_elem_of_nil].
Qed.

(** The first port that is tried is that of connection 1. *)
Lemma tcp_allocPort_free_example :
  exists q, run tcp_allocPort (tcp_host TCP_ESTAB) = Done (q + TCP_PSTART) (put_tcp_nextport q (tcp_host TCP_ESTAB)) /\ q <> 1.
Proof.
  destruct (tcp_allocPort_free (tcp_sock TCP_ESTAB) (tcp_host TCP_ESTAB) (tcp_host_sockets _) ltac:(unfold TCP_NPORTS, TCP_PMAX, TCP_PSTART; cbn; lia))
    as (q & H1 & _ & H2 & _).
  exists q. split; [exact H1 |]. intros ->. refine (H2 1%nat tcb1 (le_n 1) eq_refl _ _); [done |]. cbn. lia.
Defined.


(** ** The rings *)

Lemma ring_tab_holds l : Z.of_nat (length l) <= CAP -> holds_from (ring_tab l) 16383 l.
Proof.
  intros Hl k c Hk. assert (Hcap : CAP = 16384) by done. apply elem_of_list_to_map_1.
  - rewrite fst_zip by (rewrite length_fmap, length_seq; lia). apply NoDup_fmap_2_strong; [| apply NoDup_seq].
    intros x y Hx%elem_of_seq Hy%elem_of_seq E. lia.
  - apply list_elem_of_lookup. exists k. rewrite lookup_zip_with, Hk. apply lookup_lt_Some in Hk.
    by rewrite list_lookup_fmap, lookup_seq_lt by done.
Qed.

Lemma tcb0_outq state : outq (tcb0 state) [7; 8].
Proof. split; [by unfold CAP | done | cbn; unfold CAP, TCP_IBLEN; lia | apply ring_tab_holds; cbn; unfold CAP, TCP_IBLEN; lia]. Qed.
Lemma tcb0_inq state : inq (tcb0 state) [5; 6].
Proof. split; [by unfold CAP | done | cbn; unfold CAP, TCP_IBLEN; lia | done | apply ring_tab_holds; cbn; unfold CAP, TCP_IBLEN; lia]. Qed.

Lemma tcp_room : bytes_at tcp_mem 200 [40; 41; 42].
Proof. intros [|[|[|i]]] c E; [injection E as <- ..|]; by vm_compute. Qed.

Lemma write_ring_example :
  exists t', run (while_ 4 (write_cond 0 3) (write_body 0 200) 0) (tcp_host TCP_ESTAB) = Done 3 (put_tcb 0 t' (tcp_host TCP_ESTAB)) /\
    outq t' ([7; 8] ++ [40; 41; 42]).
Proof. exact (write_ring 0 200 [40; 41; 42] (tcb0 TCP_ESTAB) [7; 8] (tcp_host TCP_ESTAB) eq_refl (tcb0_outq _) tcp_room ltac:(repeat constructor; lia)). Defined.

(** The second octet of the ring goes to 200. *)
Lemma segment_data_example :
  run (for_ 1 0 (out_body 0 200 0) tt) (tcp_host TCP_ESTAB) = Done (inl tt) (set_user (poke 200 [8] tcp_mem) (tcp_host TCP_ESTAB)).
Proof.
  exact (segment_data 0 200 1 1 (tcb0 TCP_ESTAB) [7; 8] (tcp_host TCP_ESTAB) eq_refl (tcb0_outq _) ltac:(repeat constructor; lia)
    ltac:(cbn; lia) ltac:(apply (bytes_mapped tcp_mem 200 [40]); intros k c E; apply tcp_room; by destruct k as [|k])).
Defined.

Lemma read_ring_example :
  exists t', run (while_ 4 (read_cond 0 3) (read_body 0 200) 0) (tcp_host TCP_ESTAB) =
      Done 2 (put_tcb 0 t' (set_user (poke 200 [5; 6] tcp_mem) (tcp_host TCP_ESTAB))) /\ inq t' [].
Proof.
  exact (read_ring 0 200 3 (tcb0 TCP_ESTAB) [5; 6] (tcp_host TCP_ESTAB) eq_refl (tcb0_inq _) ltac:(repeat constructor; lia)
    ltac:(lia) (bytes_mapped tcp_mem 200 [40; 41; 42] tcp_room)).
Defined.

Lemma tcb0_gap state : gap_behind (tcb0 state) 1.
Proof. right. change (tc_imark (tcb0 state)) with (table TCP_IBLEN false). by rewrite table_lookup. Qed.

Lemma tcp_header : header tcp_mem 100 1000 80.
Proof. split; by vm_compute. Qed.
Lemma tcp_data : bytes_at tcp_mem 120 [9].
Proof. intros [|k] c E; [injection E as <-; by vm_compute | done]. Qed.


(** ** A segment *)

Lemma host_apart i : apart_devices host_dev i.
Proof.
  intros Y k d a n. unfold write. case_match; [| apply steady_ret]. unfold dev, host_dev.
  destruct (decide (5 = d)) as [<- | Hne].
  - rewrite lookup_insert_eq. intros w y E. apply wp_bind, wp_ret. cbn [list_device d_write d_minor]. revert w y E. fold (steady (conn (H := list (list Z)) i) k (list_write 0 a n)). unfold list_write. keep.
  - rewrite lookup_insert_ne by done. intros w y E. by apply wp_bind.
Qed.

(** Connection 0 waits for the acknowledgement of its FIN, whose number is beyond 2 ^ 31;
    the first octet that is not acknowledged is before.  Packet 1 acknowledges all. *)
Definition fin_tcb : tcb :=
  set_tc_snduna 2147483638 (set_tc_sndnxt 2147483654 (set_tc_sndfin 2147483653 (set_tc_sndcwn 1000
    (set_tc_writers 2 (set_tc_openclose 2 (tcb0 TCP_FINWT1)))))).
Definition fin_host : dst (net (list (list Z))) :=
  put_tcptab (<[0 := fin_tcb]> (tcp_tab TCP_ESTAB))
    (put_pkts {[1 := mkPacket None 20 100 100 100]}
      (mkDst (kern (tcp_host TCP_ESTAB)) (poke 100 [99; 0; 80; 0; 232; 3; 0; 0; 6; 0; 0; 128; 80; 16; 0; 0; 0; 0; 0; 0] tcp_mem)
        (own (tcp_host TCP_ESTAB)))).

Lemma fin_run : exists w', run (recv_state host_dev 1 0 zero_netaddr) fin_host = Done OK w' /\
  conn 0 w' = Some (TCP_FINWT2, 2147483653, 2147483654).
Proof.
  set (o := run _ fin_host).
  assert (E : match o with Done r w' => Some (r, conn 0 w') | _ => None end = Some (OK, Some (TCP_FINWT2, 2147483653, 2147483654)))
    by (by vm_compute).
  clearbody o. destruct o as [r w' | | | |]; try discriminate E. injection E as -> Ec. by exists w'.
Qed.

Lemma segment_states_example :
  exists w', run (recv_state host_dev 1 0 zero_netaddr) fin_host = Done OK w' /\
    conn_state (conn 0 w') = Some TCP_FINWT2 /\ In TCP_FINWT2 (seg_next TCP_FINWT1).
Proof.
  destruct fin_run as (w' & Hrun & Ec). exists w'. split; [exact Hrun |]. split; [by rewrite Ec |].
  pose proof (segment_states host_dev 0 1 zero_netaddr TCP_FINWT1 2147483653 2147483638 fin_host (host_apart 0) eq_refl) as Hwp.
  destruct (wp_done _ _ _ _ _ _ _ Hwp Hrun) as (st & f & u & E & Hin & _). rewrite Ec in E. injection E as <- _ _. exact Hin.
Defined.
